(* ===== verification/_CoqProject ===== *)
-Q . S2P
Prelude.v
Float32.v
Tokenizer.v
Types.v
Bytes.v
Text.v
PageAllocator.v
RadixCache.v
BlockHash.v
StateEvents.v
BlockIndex.v
RecurrentState.v
Request.v
Scheduler.v
SchedulerFacts.v
SchedulerCompletion.v
SchedulerCorrect.v
SchedulerDispatch.v
Engine.v
EngineCorrect.v
KvLayout.v
Topology.v
Pipeline.v
MoeA2a.v
ModelBatch.v
TransferPlan.v
TransferDescriptor.v
KvBootstrap.v
KvTransfer.v
CircuitBreaker.v
KvTree.v
KvIndex.v
WorkerRegistry.v
RouterPolicy.v
ActiveLoad.v
DpPool.v
DpScheduler.v
DpSchedulerFacts.v
DpSchedulerCorrect.v
DpCoordinator.v
RouterProtocol.v
RouterRuntime.v
KvWire.v
Safetensors.v
SafetensorsCatalog.v
ModelArtifacts.v
TensorSlice.v
Models.v
ParallelPlan.v
Qwen.v
PdWire.v
PdControl.v
PdBootstrap.v
PdBootstrapCorrect.v
PdPublisher.v
ServingMetrics.v
JsonValue.v
HttpPayload.v
HttpReplies.v
ModelInfo.v
GrpcMessages.v
ProxyRequests.v
RouterDispatch.v
RouterProxy.v
RouterRoutes.v
HttpService.v
OpenAi.v
GrpcService.v
