(* ===== verification/Prelude.v ===== *)
(** * Verification development for sglang-rs

    sglang-rs serves large language models.  [crates/sglang-srt] is the runtime:
    it schedules requests into batches, hands out KV-cache pages, runs the
    batches on workers, spreads work over ranks, moves KV pages between prefill
    and decode workers and answers HTTP requests.  [crates/sglang-router] routes
    requests to runtimes, and [crates/sglang-kernel] holds the device kernels.
    This development models the control logic of the first two.

    *** Files

    Paths are under [crates/sglang-srt/src] unless said otherwise.

    Shared:
    - [Prelude]: results, panics, machine integers, list lemmas, automation.
    - [Float32], [Bytes], [Text]: binary32 arithmetic, little-endian integers, the
      string functions of the standard library the code uses.

    Scheduling on one rank:
    - [Types], [Request]: [types.rs], the requests and batches of [scheduler.rs],
      generated tokens and the worker trait of [worker.rs].
    - [PageAllocator], [RadixCache], [BlockHash], [BlockIndex]: the four parts
      of [cache.rs] (page allocator, prefix tree, chained block hashes, index
      of worker prefixes with cache-aware selection).
    - [StateEvents]: [transfer/state_events.rs], events and publishers.
    - [RecurrentState]: [recurrent_state.rs], slot pool and byte format.
    - [Scheduler]: [scheduler.rs], every operation of the single-rank
      scheduler.  [SchedulerFacts], [SchedulerCompletion] and
      [SchedulerCorrect] are its proofs, [SchedulerDispatch] its dispatch loop
      as the engine relies on it.
    - [ModelBatch]: [ModelWorkerBatch] of [model_executor.rs].
    - [Engine], [EngineCorrect]: [engine.rs], the generation loops over the
      scheduler, and that they end and answer.

    Many ranks:
    - [Topology]: module [Grid] is [distributed/parallel_topology.rs], module
      [Tp] the ranks and partitions of [distributed/parallel.rs].
    - [Pipeline]: [distributed/pp_pipeline.rs], as a network of channels.
    - [DpPool]: [distributed/dp_worker_pool.rs], pool and worker threads.
    - [DpScheduler], [DpSchedulerFacts], [DpSchedulerCorrect]:
      [distributed/dp_scheduler.rs] and its proofs.
    - [DpCoordinator]: [distributed/dp_coordinator.rs].
    - [MoeA2a]: [distributed/moe_a2a.rs], the expert-parallel exchange.

    KV transfer between prefill and decode workers:
    - [KvLayout]: [kv_cache.rs], layouts, byte ranges, copy geometry.
    - [TransferPlan], [TransferDescriptor], [KvBootstrap], [KvTransfer]: the four
      parts of [transfer/mod.rs] (spans and write requests, descriptors and
      memory registration, sessions and the transfer worker, the executor).
    - [PdWire], [PdBootstrap], [PdPublisher]: [transfer/pd_bootstrap.rs], its
      messages, the prefill side and the decode side; [PdControl]:
      [transfer/pd_control.rs].  [PdBootstrapCorrect]: their interleavings.

    Models and checkpoints:
    - [Safetensors], [SafetensorsCatalog], [ModelArtifacts]:
      [model_artifacts.rs], files, catalogs of weights, the model directory.
    - [TensorSlice], [ParallelPlan]: [distributed/tensor_partition.rs] and
      [distributed/transformer_parallel.rs].
    - [Models], [Qwen]: [models/mod.rs], [models/qwen.rs] and the registry.

    The runtime and its HTTP server:
    - [Tokenizer]: [tokenizer.rs], tokenizers and incremental decoders.
    - [RouterProtocol], [RouterRuntime]: [router.rs], requests, responses, stream
      state, and the runtime over an engine or a coordinator; [ModelInfo]: what
      it says of its model.
    - [JsonValue], [HttpPayload], [HttpReplies], [HttpService]: [http.rs],
      bodies to requests, responses to bodies and frames, the handlers over the
      class [HttpRuntime]; [ServingMetrics]: [serving_metrics.rs].
    - [OpenAi]: the embedding, scoring, classification and rerank endpoints of
      [http.rs] and [openai/].
    - [GrpcMessages], [GrpcService]: [grpc.rs], the messages of the schema and
      the handlers over the same class.

    The router, under [crates/sglang-router/src]:
    - [CircuitBreaker]: [health/circuit_breaker.rs].
    - [KvTree], [KvIndex], [KvWire]: [policies/kv_events/], the tree of cached
      blocks, the index its subscribers feed, the wire format on both sides.
    - [WorkerRegistry]: [workers/] and the pools of [policies/registry.rs].
    - [RouterPolicy], [ActiveLoad]: [policies/].
    - [RouterDispatch]: the choice of workers of [server/routes/pd.rs] and
      [server/routes/chat.rs], with the rooms of disaggregated requests.
    - [ProxyRequests], [RouterProxy]: [proxy/], the requests sent on over HTTP
      and gRPC, and forwarding with the circuit breaker and event streams.
    - [RouterRoutes]: the routes of [server/routes/chat.rs] as runs of effects on
      the shared server (breakers, load guards, the load registry, metrics).

    The scheduler calls the allocator to give each request slots, the radix
    cache to reuse slots of a shared prefix, the worker to run a batch and the
    event publisher when a prefill chunk is done.  The data-parallel scheduler
    does the same for many ranks over one shared cache and talks to the worker
    threads only through the channels of the pool.  Engine and coordinator drive
    the schedulers for the runtime, and the HTTP handlers drive the runtime; a
    transfer worker wraps a model worker and moves the pages of its batches with
    the transfer executor.  The events the schedulers publish reach the router
    over [KvWire], where the policies choose workers by them; its routes pick
    workers with [RouterDispatch] and forward with [RouterProxy].

    *** How code corresponds to definitions

    A definition is preceded by a comment with the file, the lines and the
    symbol it translates.  [usize], [u32] and [u64] are [N], signed integers
    are [Z]; checked, saturating and wrapping operations are written out where
    the code uses them.  A [Vec] or [VecDeque] is a list, a map is a [gmap], a
    struct a record, an enum an inductive type; JSON is [Safetensors.Json].  A
    function that takes [&mut self] returns the next state, also with an error.
    A function that can panic returns an [option], [None] being the panic; a
    Rust [Result] is [Result].  Traits are type classes: [WorkerExecutor],
    [KvStateEventPublisher], [FallibleModelWorker], [KvCacheStorage],
    [Tokenizer], [HttpRuntime] and others; the theorems are proved against the
    class, so for every implementation.  Code outside the repository is a
    parameter: SHA-256, MessagePack, JSON text, sockets, the clock.

    What other threads do while a function waits is a parameter as well:
    [turn] gives the turns of the worker threads between two steps of a driver,
    [arrivals] the messages that come in, [fresh] the generated request ids, and
    the theorems hold for all of them.  Where several threads share a state, the
    parts that run under one lock are the steps of a relation and the theorems
    are about everything reachable.

    Loops over a queue recurse on the queue or take its length as fuel; each
    iteration pops a request, so the fuel lasts.  The loops of scheduler and
    engine that run until an output is there take fuel, and
    [dispatch_next_terminates], [stream_ends_correctly] and
    [text_request_answered] say how much is enough: the tokens a request may
    take and give.

    *** What the theorems show

    - No operation of the scheduler panics in a reachable state, and pages are
      conserved ([scheduler_never_panics]); batches are formed in order and
      within their limits, and failed attempts give everything back but what the
      decode loop is shown to lose ([next_prefill_batch_correct],
      [next_decode_batch_correct]); completing a batch loses no request, also when
      it fails ([complete_batch_conserves]); dispatching ends.
    - The allocator hands out each slot once; the radix tree refines a map from
      token sequences to slots and finds the longest stored prefix; the block
      index refines a map from block paths to sets of workers.
    - A stream over an idle engine ends with the outputs of its request
      ([stream_ends_correctly]), a text request is answered with the decoded
      text ([text_request_answered]) and, from the body to the last frame, so is
      a streamed completion over HTTP ([completion_streamed]).  The chunks' texts
      are what the tokenizer's stream decoder gives; that they spell the same text
      is a law of the decoder, stated apart ([answered_texts_agree]).
    - Bodies are translated as documented: a batch is its items, ranges hold,
      headers win, chat messages are normalized ([chat_messages_normalized]); the
      event stream of [/v1/responses] is well-formed ([responses_stream_events]);
      the metrics add up under every interleaving ([metrics_account]) and, call by
      call, to the runs of the requests ([http_metrics_account]).
    - Byte ranges tile the KV buffer and stay in bounds; grid coordinates and
      ranks are in bijection; partitions tile what they divide and reading one
      reads exactly its elements ([axis_partition_correct]).
    - Under every interleaving the pipeline delivers in order, the worker pool
      completes every accepted batch exactly once, a step of the data-parallel
      scheduler conserves requests or loses those of one batch on a worker error or
      after shutdown ([dp_step_conserves_requests]), the expert
      exchange returns each call its own batches, and the active load of the
      router is the load of its requests in flight.
    - The transfer executor reports each transfer once
      ([poll_reports_each_transfer_once]); a worker hands tokens on only when
      their transfers succeeded ([prefill_only_waits_for_transfers]); an
      acknowledged room stays quiet
      ([acknowledged_room_is_quiet]); what one side publishes the other reads.
    - Checkpoint files are read within their bounds and coverage that is
      accepted is complete.
    - KV events survive the wire, the router's tree keeps its invariant and
      finds the longest prefix, its registries stay consistent, and its circuit
      breaker opens at its threshold and then admits one probe.
    - A body means the same to a worker over HTTP and over gRPC
      ([grpc_path_is_http_path]); both sides of a transfer get the same room
      ([dispatched_rooms_reach_workers]); a forwarded request tells its breaker
      once how it went, a breaker that is told never shuts its worker out for good
      ([forward_settles], [settled_breaker_admits]), and no load leaks however
      requests go ([router_comes_to_rest], [request_counted_once]).

    Some theorems show where the code departs from its intent, among them
    [decode_failure_drops_prepared], [restored_replay_allocates_twice],
    [fully_cached_prompt_stalls], [chunked_prompt_overwrites_target],
    [stream_leaves_stale_output], [shutdown_step_loses_requests],
    [removal_races_with_pump], [mode_change_mixes_roles] and
    [abandoned_probe_shuts_worker_out].

    *** What is not modelled

    - Device memory, kernels, model layers and the executors over them
      ([cuda/], [cpu_hybrid.rs], [cpu_reference.rs], [moe.rs],
      [crates/sglang-kernel]): numeric code and bindings.
    - Sockets, the HTTP and gRPC frameworks, ZeroMQ, Kubernetes discovery:
      libraries behind parameters.  The profile and weight-loading endpoints write
      files and device memory.
    - [server.rs], [cli.rs] and the router's configuration and [main.rs]: they
      read arguments and files and put the modelled parts together.
    - The Hugging Face tokenizer, a third-party crate behind [Tokenizer].
    - The adapters of further model families ([models/deepseek.rs],
      [models/kimi_linear.rs], [models/kimi_k25.rs], [models/qwen3_5.rs]), which
      have the shape of [Qwen].
    - The admin, tokenize and model-list routes of the router, its wiring
      ([server/app.rs]) and the rendering of its metrics. *)

From Stdlib Require Export NArith ZArith Lia.
From stdpp Require Export base option list list_numbers numbers strings gmap sets fin_maps.

#[global] Open Scope N_scope.

(** ** Results and panics

    A Rust function that returns [Result<A, E>] is a function into [Result E A].
    A Rust function that can panic ([expect], [assert!], a slice out of range)
    is a function into [option _], where [None] is the panic; stdpp's option
    monad threads it. *)
Inductive Result (E A : Type) : Type :=
  | Ok (a : A)
  | Err (e : E).
Arguments Ok {E A} a.
Arguments Err {E A} e.

Definition is_Ok {E A} (r : Result E A) : bool :=
  match r with Ok _ => true | Err _ => false end.

Definition result_bind {E A B} (r : Result E A) (f : A → Result E B) : Result E B :=
  match r with Ok a => f a | Err e => Err e end.

Definition result_map_err {E E' A} (f : E → E') (r : Result E A) : Result E' A :=
  match r with Ok a => Ok a | Err e => Err (f e) end.

Definition ok_or {E A} (o : option A) (e : E) : Result E A :=
  match o with Some a => Ok a | None => Err e end.

Declare Scope rust_scope.
Delimit Scope rust_scope with rust.
#[global] Open Scope rust_scope.

(** [let? x := e in k] is Rust's [let x = e?; k]. *)
Notation "'let?' x ':=' e 'in' k" := (result_bind e (fun x => k))
  (at level 10, x name, e at level 100, k at level 200,
   format "'[v' 'let?'  x  ':='  e  'in' '/' k ']'") : rust_scope.
Notation "'let?' ' p ':=' e 'in' k" := (result_bind e (fun x => match x with p => k end))
  (at level 10, p strict pattern, e at level 100, k at level 200,
   format "'[v' 'let?'  ' p  ':='  e  'in' '/' k ']'") : rust_scope.

Lemma result_bind_Ok {E A B} (r : Result E A) (f : A → Result E B) b :
  result_bind r f = Ok b ↔ ∃ a, r = Ok a ∧ f a = Ok b.
Proof. destruct r; simpl; split; [eauto|by intros (?&[=->]&?)|done|by intros (?&[=]&?)]. Qed.

(** Operations on a state: the next state is there with an error too.  A panic,
    or a wait that does not end, is the [None] of [st_bind_opt]. *)
Definition st_bind {E A B S} (m : Result E A * S) (f : A → S → Result E B * S) : Result E B * S :=
  match m with (Ok a, s) => f a s | (Err e, s) => (Err e, s) end.

Definition st_bind_opt {E A B S} (m : option (Result E A * S)) (f : A → S → option (Result E B * S))
    : option (Result E B * S) :=
  match m with Some (Ok a, s) => f a s | Some (Err e, s) => Some (Err e, s) | None => None end.

Notation "'let!' x , s ':=' e 'in' k" := (st_bind e (fun x s => k))
  (at level 10, x name, s name, e at level 100, k at level 200,
   format "'[v' 'let!'  x ,  s  ':='  e  'in' '/' k ']'") : rust_scope.
Notation "'let*' x , s ':=' e 'in' k" := (st_bind_opt e (fun x s => k))
  (at level 10, x name, s name, e at level 100, k at level 200,
   format "'[v' 'let*'  x ,  s  ':='  e  'in' '/' k ']'") : rust_scope.

Lemma st_bind_inv {E A B S} (m : Result E A * S) (f : A → S → Result E B * S) r s' :
  st_bind m f = (r, s') →
  (∃ a s, m = (Ok a, s) ∧ f a s = (r, s')) ∨ (∃ e, m = (Err e, s') ∧ r = Err e).
Proof. destruct m as [[a|e] s]; cbn; intros Hf; [left; by eauto|right]. injection Hf as <- <-. by exists e. Qed.

Lemma st_bind_opt_inv {E A B S} (m : option (Result E A * S)) (f : A → S → option (Result E B * S)) r s' :
  st_bind_opt m f = Some (r, s') →
  (∃ a s, m = Some (Ok a, s) ∧ f a s = Some (r, s')) ∨ (∃ e, m = Some (Err e, s') ∧ r = Err e).
Proof.
  destruct m as [[[a|e] s]|]; cbn; intros Hf; [left; by eauto|right|done]. injection Hf as <- <-. by exists e.
Qed.

Lemma ok_or_Ok {E A} (o : option A) (e : E) a : ok_or o e = Ok a ↔ o = Some a.
Proof. destruct o; simpl; split; congruence. Qed.

(** An operation that can panic and returns a [Result]: [let^ x := e in k] is
    [let x = e?; k] where [e] may panic. *)
Definition result_bind_opt {E A B} (m : option (Result E A)) (f : A → option (Result E B)) : option (Result E B) :=
  match m with Some (Ok a) => f a | Some (Err e) => Some (Err e) | None => None end.

Notation "'let^' x ':=' e 'in' k" := (result_bind_opt e (fun x => k))
  (at level 10, x name, e at level 100, k at level 200,
   format "'[v' 'let^'  x  ':='  e  'in' '/' k ']'") : rust_scope.

Lemma result_bind_opt_Ok {E A B} (m : option (Result E A)) (f : A → option (Result E B)) b :
  result_bind_opt m f = Some (Ok b) ↔ ∃ a, m = Some (Ok a) ∧ f a = Some (Ok b).
Proof. destruct m as [[a|e]|]; simpl; split; [eauto|by intros (?&[= ->]&?)|done|by intros (?&[=]&?)|done|by intros (?&[=]&?)]. Qed.

(** ** Machine integers

    [usize] is 64 bits wide on every platform the workspace builds for.  A
    [usize] value is an [N]; [checked_add], [checked_mul] and [saturating_sub]
    follow the standard library. *)
Definition usize_MAX : N := 2 ^ 64 - 1.

Definition checked_mul (a b : N) : option N :=
  if a * b <=? usize_MAX then Some (a * b) else None.

Definition checked_add (a b : N) : option N :=
  if a + b <=? usize_MAX then Some (a + b) else None.

Definition checked_sub (a b : N) : option N := if b <=? a then Some (a - b) else None.

(** [n as i32] and [z as usize]: the casts of Rust wrap. *)
Definition as_i32 (n : N) : Z := ((Z.of_N n + 2 ^ 31) mod 2 ^ 32 - 2 ^ 31)%Z.
Definition i32_as_usize (z : Z) : N := Z.to_N (z mod 2 ^ 64).

Lemma as_i32_small n : n < 2 ^ 31 → as_i32 n = Z.of_N n.
Proof. intros Hn. unfold as_i32. rewrite Z.mod_small; lia. Qed.

(** [N] subtraction truncates at zero, as [usize::saturating_sub]. *)
Definition saturating_sub (a b : N) : N := a - b.

Definition is_multiple_of (a b : N) : bool :=
  if b =? 0 then a =? 0 else a mod b =? 0.

Definition div_ceil (a b : N) : N := if a mod b =? 0 then a / b else a / b + 1.

Lemma checked_mul_Some a b c : checked_mul a b = Some c ↔ c = a * b ∧ a * b ≤ usize_MAX.
Proof.
  unfold checked_mul. destruct (N.leb_spec (a * b) usize_MAX); split.
  - by intros [= <-].
  - by intros [-> _].
  - done.
  - intros [_ ?]. lia.
Qed.

Lemma checked_add_Some a b c : checked_add a b = Some c ↔ c = a + b ∧ a + b ≤ usize_MAX.
Proof.
  unfold checked_add. destruct (N.leb_spec (a + b) usize_MAX); split.
  - by intros [= <-].
  - by intros [-> _].
  - done.
  - intros [_ ?]. lia.
Qed.

Lemma checked_sub_Some a b c : checked_sub a b = Some c ↔ a = b + c.
Proof. unfold checked_sub. destruct (N.leb_spec b a); split; first [intros [= <-]; lia|intros ->; (f_equal + idtac); lia|done]. Qed.

Lemma is_multiple_of_spec a b : b ≠ 0 → is_multiple_of a b = true ↔ a = a / b * b.
Proof.
  intros Hb. unfold is_multiple_of. destruct (N.eqb_spec b 0); [done|].
  rewrite N.eqb_eq. pose proof (N.div_mod a b Hb) as H. revert H. generalize (a / b) (a mod b). lia.
Qed.

(** Division facts through the Euclidean equations; [nia]-free on purpose. *)
Lemma N_div_mul_le a b : a / b * b ≤ a.
Proof. destruct (decide (b = 0)) as [->|Hb]; [lia|].
  pose proof (N.div_mod a b Hb) as H. revert H. generalize (a / b) (a mod b). lia. Qed.

Lemma N_div_add_small a b k : k < b → (a * b + k) / b = a.
Proof. intros. rewrite N.div_add_l by lia. rewrite N.div_small by done. lia. Qed.

Lemma N_mod_add_small a b k : k < b → (a * b + k) mod b = k.
Proof. intros. rewrite N.add_comm, N.Div0.mod_add. by apply N.mod_small. Qed.

Lemma div_ceil_spec a b : 0 < b → ∃ q, div_ceil a b = q ∧ (a ≤ q * b) ∧ (q = 0 ∨ (q - 1) * b < a).
Proof.
  intros Hb. eexists; split; [done|]. unfold div_ceil.
  pose proof (N.div_mod a b ltac:(lia)) as H1. pose proof (N.mod_lt a b ltac:(lia)) as H2.
  revert H1 H2. generalize (a / b) (a mod b). intros q r H1 H2.
  destruct (N.eqb_spec r 0) as [->|].
  - split; [lia|]. destruct (decide (q = 0)) as [->|]; [by left|right; nia].
  - split; [nia|]. right. replace (q + 1 - 1) with q by lia. lia.
Qed.

(** ** Lists *)

(** [len l] is [l.len()] as a [usize]. *)
Definition len {A} (l : list A) : N := N.of_nat (length l).

(** [nrange s e] is the Rust range [s..e] collected. *)
Definition nrange (s e : N) : list N := (λ i, s + N.of_nat i) <$> seq 0 (N.to_nat (e - s)).

(** [slice_to n l] is [l[..n]] and [slice_from n l] is [l[n..]] where in range. *)
Definition slice_to {A} (n : N) (l : list A) : list A := take (N.to_nat n) l.
Definition slice_from {A} (n : N) (l : list A) : list A := drop (N.to_nat n) l.

Lemma len_nil {A} : len (@nil A) = 0.
Proof. done. Qed.
Lemma len_cons {A} (x : A) l : len (x :: l) = len l + 1.
Proof. unfold len. simpl. lia. Qed.
Lemma len_app {A} (l k : list A) : len (l ++ k) = len l + len k.
Proof. unfold len. rewrite length_app. lia. Qed.
Lemma len_0 {A} (l : list A) : len l = 0 ↔ l = [].
Proof. unfold len. destruct l; simpl; split; try done; lia. Qed.
Lemma len_slice_to {A} n (l : list A) : len (slice_to n l) = N.min n (len l).
Proof. unfold len, slice_to. rewrite length_take. lia. Qed.
Lemma len_slice_from {A} n (l : list A) : len (slice_from n l) = len l - n.
Proof. unfold len, slice_from. rewrite length_drop. lia. Qed.

Lemma len_nrange s e : len (nrange s e) = e - s.
Proof. unfold len, nrange. rewrite length_fmap, length_seq. lia. Qed.

Lemma elem_of_nrange x s e : x ∈ nrange s e ↔ s ≤ x < e.
Proof.
  unfold nrange. rewrite list_elem_of_fmap. split.
  - intros (i & -> & Hi). apply elem_of_seq in Hi. lia.
  - intros Hx. exists (N.to_nat (x - s)). split; [lia|]. apply elem_of_seq. lia.
Qed.

Lemma NoDup_nrange s e : NoDup (nrange s e).
Proof. apply NoDup_fmap_2_strong; [|apply NoDup_seq]. intros; lia. Qed.

Lemma lookup_nrange s e (i : nat) : (N.of_nat i < e - s)%N → nrange s e !! i = Some (s + N.of_nat i).
Proof.
  intros. unfold nrange. rewrite list_lookup_fmap, lookup_seq_lt by lia. done.
Qed.

Lemma nrange_empty s e : e ≤ s → nrange s e = [].
Proof. intros. unfold nrange. replace (N.to_nat (e - s)) with 0%nat by lia. done. Qed.

Lemma nrange_cons s e : s < e → nrange s e = s :: nrange (s + 1) e.
Proof.
  intros. unfold nrange. replace (N.to_nat (e - s)) with (S (N.to_nat (e - (s + 1)))) by lia.
  cbn [seq fmap list_fmap]. f_equal; [lia|]. rewrite <-fmap_S_seq, <-list_fmap_compose.
  apply list_fmap_ext. intros; simpl. lia.
Qed.

Lemma nrange_app s m e : s ≤ m → m ≤ e → nrange s e = nrange s m ++ nrange m e.
Proof.
  intros. unfold nrange. replace (N.to_nat (e - s)) with (N.to_nat (m - s) + N.to_nat (e - m))%nat by lia.
  rewrite seq_app, fmap_app. f_equal. rewrite Nat.add_0_l, <-(Nat.add_0_r (N.to_nat (m - s))).
  rewrite <-fmap_add_seq, <-list_fmap_compose. apply list_fmap_ext. intros; simpl. lia.
Qed.

Lemma take_incl {A} (x : A) n l : x ∈ take n l → x ∈ l.
Proof. intros (i&?&_)%elem_of_take. by eapply list_elem_of_lookup_2. Qed.

Lemma take_S_not_nil {A} i (l : list A) : (i < length l)%nat → take (S i) l ≠ [].
Proof. destruct l; simpl; [lia|done]. Qed.

Lemma NoDup_take {A} n (l : list A) : NoDup l → NoDup (take n l).
Proof. intros Hnd. rewrite <-(take_drop n) in Hnd. by apply NoDup_app in Hnd as []. Qed.

(** [Iterator::min_by_key] returns the first of the minimal elements. *)
Fixpoint min_by_key_from {A} (key : A → N) (best : A) (l : list A) : A :=
  match l with
  | [] => best
  | x :: l' => min_by_key_from key (if key x <? key best then x else best) l'
  end.

Definition min_by_key {A} (key : A → N) (l : list A) : option A :=
  match l with [] => None | x :: l' => Some (min_by_key_from key x l') end.

Lemma min_by_key_from_spec {A} (key : A → N) l best :
  min_by_key_from key best l ∈ best :: l ∧
  ∀ x, x ∈ best :: l → key (min_by_key_from key best l) ≤ key x.
Proof.
  revert best. induction l as [|y l IH]; intros best; simpl.
  - split; [set_solver|]. intros x Hx. assert (x = best) as -> by set_solver. done.
  - destruct (IH (if key y <? key best then y else best)) as [Hin Hmin].
    destruct (N.ltb_spec (key y) (key best)) as [Hlt|Hge].
    + split; [set_solver|]. intros x Hx. pose proof (Hmin y ltac:(set_solver)).
      assert (x = best ∨ x ∈ y :: l) as [->|?] by set_solver; [lia|]. by apply Hmin.
    + split; [set_solver|]. intros x Hx. pose proof (Hmin best ltac:(set_solver)).
      assert (x = y ∨ x ∈ best :: l) as [->|?] by set_solver; [lia|]. by apply Hmin.
Qed.

Lemma min_by_key_spec {A} (key : A → N) l m :
  min_by_key key l = Some m → m ∈ l ∧ ∀ x, x ∈ l → key m ≤ key x.
Proof. destruct l as [|y l]; [done|]. simpl. intros [= <-]. apply min_by_key_from_spec. Qed.

Lemma min_by_key_None {A} (key : A → N) l : min_by_key key l = None ↔ l = [].
Proof. destruct l; simpl; split; congruence. Qed.

(** ** Automation *)

(** [decompose_result]: split every successful [let?] and checked operation in
    the context into its parts. *)
Ltac decompose_result :=
  repeat match goal with
  | H : result_bind _ _ = Ok _ |- _ => apply result_bind_Ok in H; destruct H as (? & ? & ?)
  | H : ok_or _ _ = Ok _ |- _ => apply ok_or_Ok in H
  | H : checked_mul _ _ = Some _ |- _ => apply checked_mul_Some in H; destruct H as [? ?]
  | H : checked_add _ _ = Some _ |- _ => apply checked_add_Some in H; destruct H as [? ?]
  | H : checked_sub _ _ = Some _ |- _ => apply checked_sub_Some in H
  | H : result_bind_opt _ _ = Some (Ok _) |- _ => apply result_bind_opt_Ok in H; destruct H as (? & ? & ?)
  | H : Ok _ = Ok _ |- _ => injection H as H
  | H : Err _ = Ok _ |- _ => discriminate H
  | H : Ok _ = Err _ |- _ => discriminate H
  end.

(** Boolean tests of the code as propositions. *)
Ltac reflect_N :=
  repeat match goal with
  | H : (_ =? _) = true |- _ => apply N.eqb_eq in H
  | H : (_ =? _) = false |- _ => apply N.eqb_neq in H
  | H : (_ <? _) = true |- _ => apply N.ltb_lt in H
  | H : (_ <? _) = false |- _ => apply N.ltb_ge in H
  | H : (_ <=? _) = true |- _ => apply N.leb_le in H
  | H : (_ <=? _) = false |- _ => apply N.leb_gt in H
  | H : negb _ = true |- _ => apply negb_true_iff in H
  | H : negb _ = false |- _ => apply negb_false_iff in H
  | H : (_ || _)%bool = false |- _ => apply orb_false_iff in H; destruct H
  | H : (_ && _)%bool = true |- _ => apply andb_true_iff in H; destruct H
  end.

Create HintDb rust.
#[export] Hint Rewrite @len_nil @len_cons @len_app @len_slice_to @len_slice_from len_nrange : rust.
#[export] Hint Resolve NoDup_nrange : rust.

(** [len_lia]: linear arithmetic over list lengths. *)
Ltac len_lia := autorewrite with rust in *; lia.
