(* ===== verification/Float32.v ===== *)
(** * IEEE binary32 arithmetic, as the selection policies use it

    [f32] values are the Standard Library's specification floats at precision
    24 and exponent bound 128; every operation rounds to nearest, ties to even,
    as Rust's do. *)

From S2P Require Import Prelude.
From Stdlib Require Import SpecFloat.

Definition f32 : Type := spec_float.

Definition f32_prec : Z := 24.
Definition f32_emax : Z := 128.

(** [x as f32] for a [usize]. *)
Definition f32_of_usize (x : N) : f32 := binary_normalize f32_prec f32_emax (Z.of_N x) 0 false.

Definition f32_mul (x y : f32) : f32 := SFmul f32_prec f32_emax x y.
Definition f32_div (x y : f32) : f32 := SFdiv f32_prec f32_emax x y.
Definition f32_lt (x y : f32) : bool := SFltb x y.
Definition f32_le (x y : f32) : bool := SFleb x y.

(** [x as usize]: truncation, saturating; NaN becomes zero. *)
Definition f32_to_usize (x : f32) : N :=
  match x with
  | S754_finite false m e =>
      N.min usize_MAX (Z.to_N (if (0 <=? e)%Z then Zpos m * 2 ^ e else Zpos m / 2 ^ (- e)))
  | S754_infinity false => usize_MAX
  | _ => 0
  end.

(** [x == y] and [x.is_finite()]. *)
Definition f32_eq (x y : f32) : bool := SFeqb x y.
Definition f32_is_finite (x : f32) : bool :=
  match x with S754_zero _ | S754_finite _ _ _ => true | _ => false end.

Definition f32_zero : f32 := S754_zero false.
Definition f32_one : f32 := S754_finite false 8388608 (-23).
Definition f32_two : f32 := S754_finite false 8388608 (-22).
Definition f32_minus_two : f32 := S754_finite true 8388608 (-22).
Definition f32_half : f32 := S754_finite false 8388608 (-24).
(** [1.1_f32], bits [0x3F8CCCCD]. *)
Definition f32_1_1 : f32 := S754_finite false 9227469 (-23).
Definition f32_MAX : f32 := S754_finite false 16777215 104.

Example f32_rounding :
  f32_of_usize 16777217 = f32_of_usize 16777216 ∧
  f32_to_usize (f32_mul (f32_of_usize 30) f32_1_1) = 33 ∧
  f32_of_usize 1 = f32_one ∧ f32_of_usize 2 = f32_two ∧
  f32_lt f32_half (f32_div (f32_of_usize 2) (f32_of_usize 3)) = true.
Proof. by vm_compute. Qed.
