(* ===== verification/Tokenizer.v ===== *)
(** * Tokenizers ([crates/sglang-srt/src/tokenizer.rs])

    The tokenizer interface the engines are written against, the byte tokenizer
    with its incremental decoder, and the runtime tokenizer that picks one of
    two implementations.  A [&str] is a [string] of bytes; [std::str::from_utf8]
    is written out, since the incremental decoder branches on why it fails.
    The Hugging Face tokenizer is a crate and stays behind the class. *)

From S2P Require Import Prelude.
#[local] Open Scope N_scope.

(** ** Text and UTF-8 *)

Definition string_bytes (s : string) : list N := Ascii.N_of_ascii <$> String.list_ascii_of_string s.
Definition bytes_string (bs : list N) : string := String.string_of_list_ascii (Ascii.ascii_of_N <$> bs).

Lemma bytes_string_inv s : bytes_string (string_bytes s) = s.
Proof.
  unfold bytes_string, string_bytes. rewrite <-list_fmap_compose.
  rewrite <-(String.string_of_list_ascii_of_string s) at 2. f_equal.
  rewrite <-(list_fmap_id (String.list_ascii_of_string s)) at 2. apply list_fmap_ext.
  intros; cbn. apply Ascii.ascii_N_embedding.
Qed.

Lemma string_bytes_inv bs : Forall (λ b, b < 256) bs → string_bytes (bytes_string bs) = bs.
Proof.
  intros Hb. unfold bytes_string, string_bytes. rewrite String.list_ascii_of_string_of_list_ascii.
  rewrite <-list_fmap_compose. rewrite <-(list_fmap_id bs) at 2. apply list_fmap_ext.
  intros i b Hi; cbn. apply Ascii.N_ascii_embedding. by eapply Forall_lookup_1 in Hb.
Qed.

Lemma string_bytes_lt s : Forall (λ b, b < 256) (string_bytes s).
Proof. apply Forall_fmap, Forall_true. intros c. apply Ascii.N_ascii_bounded. Qed.

Lemma string_bytes_app s t : string_bytes (s +:+ t) = string_bytes s ++ string_bytes t.
Proof. unfold string_bytes. induction s as [|c s IH]; [done|]. exact (f_equal (cons (Ascii.N_of_ascii c)) IH). Qed.

Lemma bytes_string_app bs cs : bytes_string (bs ++ cs) = bytes_string bs +:+ bytes_string cs.
Proof. unfold bytes_string. induction bs as [|b bs IH]; [done|]. exact (f_equal (String (Ascii.ascii_of_N b)) IH). Qed.

(** What the bytes at the front of a slice are to [from_utf8]. *)
Inductive Utf8Char : Type :=
  | CharOf (width : nat)
  | Truncated
  | Malformed.

Definition continuation (b : N) : bool := (0x80 <=? b) && (b <=? 0xBF).

Definition utf8_char_width (first : N) : nat :=
  if first <? 0x80 then 1
  else if first <? 0xC2 then 0
  else if first <? 0xE0 then 2
  else if first <? 0xF0 then 3
  else if first <? 0xF5 then 4 else 0.

Definition second_byte (first b : N) : bool :=
  if first =? 0xE0 then (0xA0 <=? b) && (b <=? 0xBF)
  else if first =? 0xED then (0x80 <=? b) && (b <=? 0x9F)
  else if first =? 0xF0 then (0x90 <=? b) && (b <=? 0xBF)
  else if first =? 0xF4 then (0x80 <=? b) && (b <=? 0x8F)
  else continuation b.

(** [n] continuation bytes: there, wrong, or cut off. *)
Fixpoint continuations (n : nat) (bs : list N) : option bool :=
  match n, bs with
  | O, _ => Some true
  | S _, [] => None
  | S n, b :: bs => if continuation b then continuations n bs else Some false
  end.

Definition utf8_char (bs : list N) : Utf8Char :=
  match bs with
  | [] => Truncated
  | first :: rest =>
      match utf8_char_width first with
      | O => Malformed
      | 1%nat => CharOf 1
      | S (S n) =>
          match rest with
          | [] => Truncated
          | b :: rest =>
              if second_byte first b then
                match continuations n rest with
                | Some true => CharOf (S (S n))
                | Some false => Malformed
                | None => Truncated
                end
              else Malformed
          end
      end
  end.

(** [std::str::from_utf8]; the error is [error_len().is_none()], so [true] where
    the input ends inside a character.  Every round takes a byte or more. *)
Fixpoint from_utf8_fuel (fuel : nat) (bs : list N) : Result bool unit :=
  match fuel, bs with
  | O, _ | _, [] => Ok ()
  | S fuel, _ =>
      match utf8_char bs with
      | CharOf n => from_utf8_fuel fuel (drop n bs)
      | Truncated => Err true
      | Malformed => Err false
      end
  end.

Definition from_utf8 (bs : list N) : Result bool unit := from_utf8_fuel (length bs) bs.

Lemma continuations_app n bs q b : continuations n bs = Some b → continuations n (bs ++ q) = Some b.
Proof. revert bs. induction n as [|n IH]; intros [|c bs]; cbn; try done. destruct (continuation c); [apply IH|done]. Qed.

Lemma continuations_length n bs : continuations n bs = Some true → (n ≤ length bs)%nat.
Proof.
  revert bs. induction n as [|n IH]; intros [|c bs]; cbn; try done; [lia..|].
  destruct (continuation c); [|done]. intros ?%IH. lia.
Qed.

Lemma utf8_char_app bs q : utf8_char bs ≠ Truncated → utf8_char (bs ++ q) = utf8_char bs.
Proof.
  destruct bs as [|first rest]; [done|]. cbn [utf8_char app].
  destruct (utf8_char_width first) as [|[|n]]; try done. destruct rest as [|b rest]; [done|]. cbn [app].
  destruct (second_byte first b); [|done].
  destruct (continuations n rest) as [c|] eqn:Hc; [|done]. by rewrite (continuations_app _ _ _ _ Hc).
Qed.

Lemma utf8_char_width_ok bs n : utf8_char bs = CharOf n → (1 ≤ n ≤ length bs)%nat.
Proof.
  destruct bs as [|first rest]; [done|]. cbn [utf8_char].
  destruct (utf8_char_width first) as [|[|k]]; [done|intros [= <-]; cbn; lia|].
  destruct rest as [|b rest]; [done|]. destruct (second_byte first b); [|done].
  destruct (continuations k rest) as [[]|] eqn:Hc; [|done..]. apply continuations_length in Hc.
  intros [= <-]. cbn. lia.
Qed.

Lemma from_utf8_fuel_enough f g bs : (length bs ≤ f)%nat → (length bs ≤ g)%nat → from_utf8_fuel f bs = from_utf8_fuel g bs.
Proof.
  revert g bs. induction f as [|f IH]; intros [|g] [|b bs]; cbn [length]; try lia; try done.
  intros Hf Hg. cbn [from_utf8_fuel]. destruct (utf8_char (b :: bs)) as [n| |] eqn:Hc; [|done..].
  apply utf8_char_width_ok in Hc. apply IH; rewrite length_drop; cbn [length]; lia.
Qed.

Lemma from_utf8_cons bs : bs ≠ [] →
  from_utf8 bs = match utf8_char bs with CharOf n => from_utf8 (drop n bs) | Truncated => Err true | Malformed => Err false end.
Proof.
  destruct bs as [|b bs]; [done|]. intros _. unfold from_utf8 at 1. cbn [length from_utf8_fuel].
  destruct (utf8_char (b :: bs)) as [n| |] eqn:Hc; [|done..]. apply utf8_char_width_ok in Hc.
  apply from_utf8_fuel_enough; [|done]. rewrite length_drop. cbn. lia.
Qed.

(** Validation reads from the left: a complete prefix can be cut off, and what
    is malformed stays so. *)
Lemma from_utf8_app bs q :
  from_utf8 (bs ++ q) = match from_utf8 bs with
                        | Ok _ => from_utf8 q
                        | Err true => from_utf8 (bs ++ q)
                        | Err false => Err false
                        end.
Proof.
  induction bs as [bs IH] using (induction_ltof1 _ length). unfold ltof in IH.
  destruct bs as [|b bs]; [done|]. rewrite (from_utf8_cons (b :: bs)) by done.
  destruct (utf8_char (b :: bs)) as [n| |] eqn:Hc; [|done|].
  - pose proof (utf8_char_width_ok _ _ Hc) as Hn.
    rewrite from_utf8_cons by done. rewrite utf8_char_app by congruence. rewrite Hc.
    rewrite drop_app_le by lia. rewrite IH by (rewrite length_drop; lia).
    by destruct (from_utf8 (drop n (b :: bs))) as [|[]].
  - rewrite from_utf8_cons by done. rewrite utf8_char_app by congruence. by rewrite Hc.
Qed.

(** ** The interface *)

(** [tokenizer.rs:16-25] TokenizerError *)
Inductive TokenizerError : Type :=
  | InvalidUtf8
  | TokenizerFileNotFound (path : string)
  | Load (path message : string)
  | Encode (message : string)
  | Decode (message : string)
  | ChatTemplateUnavailable
  | ChatTemplateLoad (path message : string)
  | ChatTemplateRender (path message : string).

(** The messages are JSON values of [serde_json]; the byte tokenizer asks them
    only for the string under [content]. *)
Class ChatMessage (V : Type) : Type := { message_content : V → option string }.

(** [tokenizer.rs:71-75] ChatTemplateInput *)
Record ChatTemplateInput (V : Type) : Type := mkChatTemplateInput {
  messages : list V;
  tools : option (list V);
  template_kwargs : list (string * V);
}.
Arguments mkChatTemplateInput {V}.
Arguments messages {V}.

(** A [Box<dyn IncrementalDecoder>] is a state of type [decoder] that
    [decoder_step] advances. *)
(** [tokenizer.rs:76-87] Tokenizer, IncrementalDecoder *)
Class Tokenizer (V T : Type) : Type := {
  decoder : Type;
  encode : T → string → list N;
  decode : T → list N → Result TokenizerError string;
  incremental_decoder : T → decoder;
  decoder_step : T → decoder → N → Result TokenizerError (option string) * decoder;
  apply_chat_template : T → ChatTemplateInput V → Result TokenizerError string;
}.

(** ** The byte tokenizer *)

(** [tokenizer.rs:91-91] ByteTokenizer *)
Inductive ByteTokenizer : Type := ByteTokenizer_new.

(** [tokenizer.rs:94-96] ByteTokenizer::encode *)
Definition byte_encode (text : string) : list N := string_bytes text.

(** [u8::try_from] on a [u32]. *)
Definition u8_try_from (id : N) : Result TokenizerError N := if id <? 256 then Ok id else Err InvalidUtf8.

Fixpoint try_all {A B E} (f : A → Result E B) (l : list A) : Result E (list B) :=
  match l with
  | [] => Ok []
  | x :: l => let? y := f x in let? ys := try_all f l in Ok (y :: ys)
  end.

(** [tokenizer.rs:98-105] ByteTokenizer::decode *)
Definition byte_decode (token_ids : list N) : Result TokenizerError string :=
  let? bytes := try_all u8_try_from token_ids in
  match from_utf8 bytes with Ok _ => Ok (bytes_string bytes) | Err _ => Err InvalidUtf8 end.

(** [tokenizer.rs:131-133] ByteIncrementalDecoder *)
Record ByteIncrementalDecoder : Type := mkByteIncrementalDecoder { pending : list N }.

(** [tokenizer.rs:136-148] ByteIncrementalDecoder::step *)
Definition byte_decoder_step (d : ByteIncrementalDecoder) (token_id : N)
    : Result TokenizerError (option string) * ByteIncrementalDecoder :=
  match u8_try_from token_id with
  | Err e => (Err e, d)
  | Ok b =>
      let p := pending d ++ [b] in
      match from_utf8 p with
      | Ok _ => (Ok (Some (bytes_string p)), mkByteIncrementalDecoder [])
      | Err true => (Ok None, mkByteIncrementalDecoder p)
      | Err false => (Err InvalidUtf8, mkByteIncrementalDecoder p)
      end
  end.

(** [Vec<String>::join]. *)
Fixpoint join_with (sep : string) (parts : list string) : string :=
  match parts with
  | [] => ""
  | [s] => s
  | s :: parts => s +:+ sep +:+ join_with sep parts
  end.

Definition newline : string := String (Ascii.ascii_of_nat 10) "".

(** [tokenizer.rs:111-127] ByteTokenizer::apply_chat_template *)
Definition byte_apply_chat_template `{!ChatMessage V} (input : ChatTemplateInput V) : Result TokenizerError string :=
  let? contents :=
    try_all (λ m, ok_or (message_content m)
                    (ChatTemplateRender "<byte-reference-tokenizer>" "message content must be a string"))
      (messages input) in
  Ok (join_with newline contents).

(** [tokenizer.rs:92-129] impl Tokenizer for ByteTokenizer *)
#[export] Instance ByteTokenizer_tokenizer `{!ChatMessage V} : Tokenizer V ByteTokenizer := {|
  encode _ := byte_encode;
  decode _ := byte_decode;
  incremental_decoder _ := mkByteIncrementalDecoder [];
  decoder_step _ := byte_decoder_step;
  apply_chat_template _ := byte_apply_chat_template;
|}.

(** [tokenizer.rs:267-270] RuntimeTokenizer *)
Inductive RuntimeTokenizer (H : Type) : Type :=
  | Byte (tokenizer : ByteTokenizer)
  | Hf (tokenizer : H).
Arguments Byte {H}.
Arguments Hf {H}.

(** The decoder a runtime tokenizer hands out belongs to the tokenizer that made
    it; a step with the other kind does not arise. *)
(** [tokenizer.rs:364-392] impl Tokenizer for RuntimeTokenizer *)
#[export] Instance RuntimeTokenizer_tokenizer `{!ChatMessage V, hf : !Tokenizer V H} : Tokenizer V (RuntimeTokenizer H) := {|
  decoder := ByteIncrementalDecoder + decoder (T := H);
  encode t text := match t with Byte _ => byte_encode text | Hf h => encode h text end;
  decode t ids := match t with Byte _ => byte_decode ids | Hf h => decode h ids end;
  incremental_decoder t :=
    match t with Byte _ => inl (mkByteIncrementalDecoder []) | Hf h => inr (incremental_decoder h) end;
  decoder_step t d id :=
    match t, d with
    | Hf h, inr d => (λ p, (p.1, inr p.2)) (decoder_step h d id)
    | _, inl d => (λ p, (p.1, inl p.2)) (byte_decoder_step d id)
    | Byte _, inr d => (Ok None, inr d)
    end;
  apply_chat_template t input :=
    match t with Byte _ => byte_apply_chat_template input | Hf h => apply_chat_template h input end;
|}.

(** ** Streaming and batch decoding agree *)

(** Feeding the tokens one by one; the pieces so far, and the decoder. *)
Fixpoint byte_stream (d : ByteIncrementalDecoder) (ids : list N)
    : Result TokenizerError string * ByteIncrementalDecoder :=
  match ids with
  | [] => (Ok "", d)
  | id :: ids =>
      let! piece, d := byte_decoder_step d id in
      let! text, d := byte_stream d ids in
      (Ok (default "" piece +:+ text), d)
  end.

Lemma try_all_u8 ids bs : try_all u8_try_from ids = Ok bs ↔ bs = ids ∧ Forall (λ b, b < 256) ids.
Proof.
  revert bs. induction ids as [|id ids IH]; intros bs; cbn [try_all].
  { split; [intros [= <-]; by split|by intros [-> _]]. }
  unfold u8_try_from at 1. destruct (N.ltb_spec id 256) as [Hlt|Hge]; cbn [result_bind].
  - destruct (try_all u8_try_from ids) as [bs'|e]; cbn [result_bind].
    + destruct (proj1 (IH bs') eq_refl) as [-> ?]. split; [intros [= <-]|intros [-> _]; done]. split; [done|by constructor].
    + split; [done|]. intros [-> Hall]. inversion Hall as [|?? _ H]; subst.
      assert (Err e = Ok ids); [|done]. by apply IH.
  - split; [done|]. intros [-> Hall]. inversion Hall; subst. lia.
Qed.

Lemma byte_decode_spec ids text : byte_decode ids = Ok text ↔
  Forall (λ b, b < 256) ids ∧ from_utf8 ids = Ok () ∧ text = bytes_string ids.
Proof.
  unfold byte_decode. rewrite result_bind_Ok. split.
  - intros (bs&[-> Hb]%try_all_u8&H). destruct (from_utf8 ids) as [[]|]; [|done]. by injection H as <-.
  - intros (Hb&Hu&->). exists ids. split; [by apply try_all_u8|]. by rewrite Hu.
Qed.

Lemma byte_stream_spec ids : ∀ p text,
  Forall (λ b, b < 256) p → p = [] ∨ from_utf8 p = Err true →
  byte_stream (mkByteIncrementalDecoder p) ids = (Ok text, mkByteIncrementalDecoder []) ↔
  Forall (λ b, b < 256) ids ∧ from_utf8 (p ++ ids) = Ok () ∧ text = bytes_string (p ++ ids).
Proof.
  induction ids as [|id ids IH]; intros p text Hp Hpend; cbn [byte_stream].
  { rewrite app_nil_r. split.
    - intros [= <- ->]. done.
    - intros (_&Hok&->). destruct Hpend as [->|Herr]; [done|congruence]. }
  unfold byte_decoder_step, u8_try_from. destruct (N.ltb_spec id 256) as [Hid|Hid]; cbn [st_bind pending].
  2: { split; [done|]. intros (Hall&_). inversion Hall; lia. }
  replace (p ++ id :: ids) with ((p ++ [id]) ++ ids) by (by rewrite <-app_assoc).
  rewrite (from_utf8_app (p ++ [id]) ids).
  assert (Forall (λ b, b < 256) (p ++ [id])) as Hp' by (apply Forall_app; split; [done|by constructor]).
  assert (Hcons : Forall (λ b, b < 256) (id :: ids) ↔ Forall (λ b, b < 256) ids)
    by (split; [by inversion 1|by constructor]). rewrite Hcons.
  destruct (from_utf8 (p ++ [id])) as [u|c] eqn:Hu; [destruct u|destruct c]; cbn [st_bind].
  - rewrite (bytes_string_app (p ++ [id])). specialize (λ t, IH [] t (Forall_nil_2 _) (or_introl eq_refl)) as IH'. cbn [app] in IH'.
    destruct (byte_stream _ ids) as [[t|e] d'] eqn:Hs; cbn [st_bind default].
    + split.
      * intros [= <- ->]. destruct (proj1 (IH' t) eq_refl) as (?&?&->). done.
      * intros (Hall&Hok&->). by pose proof (proj2 (IH' _) (conj Hall (conj Hok eq_refl))) as [= -> ->].
    + split; [done|]. intros (Hall&Hok&_). by pose proof (proj2 (IH' _) (conj Hall (conj Hok eq_refl))).
  - specialize (λ t, IH (p ++ [id]) t Hp' (or_intror Hu)) as IH'.
    destruct (byte_stream _ ids) as [[t|e] d'] eqn:Hs; cbn [st_bind default].
    + rewrite <-IH'. split; intros [= <- ->]; done.
    + rewrite <-IH'. done.
  - split; [done|]. by intros (_&?&_).
Qed.

(** Streaming the tokens through the incremental decoder succeeds and leaves
    nothing pending exactly when decoding them in one go does, with the same
    text: a character cut by a token boundary is held back, never mangled. *)
Theorem incremental_decoding_agrees ids text :
  byte_stream (mkByteIncrementalDecoder []) ids = (Ok text, mkByteIncrementalDecoder []) ↔
  byte_decode ids = Ok text.
Proof. rewrite byte_stream_spec, byte_decode_spec; [done|done|by left]. Qed.

(** Encoding and decoding are inverse on Rust strings (valid UTF-8), and what is
    decoded encodes back to its tokens. *)
Theorem byte_tokenizer_roundtrip text ids :
  (from_utf8 (string_bytes text) = Ok () → byte_decode (byte_encode text) = Ok text) ∧
  (byte_decode ids = Ok text → byte_encode text = ids).
Proof.
  split.
  - intros Hu. apply byte_decode_spec. split; [apply string_bytes_lt|]. split; [done|].
    symmetry. apply bytes_string_inv.
  - intros (Hb&_&->)%byte_decode_spec. by apply string_bytes_inv.
Qed.

Lemma byte_tokenizer_roundtrip_witness :
  from_utf8 [104; 195; 169; 226; 130; 172] = Ok () ∧
  byte_decode (byte_encode (bytes_string [104; 195; 169])) = Ok (bytes_string [104; 195; 169]) ∧
  byte_encode (bytes_string [240; 159; 152; 128]) = [240; 159; 152; 128].
Proof.
  split; [by vm_compute|]. split.
  - apply (byte_tokenizer_roundtrip (bytes_string [104; 195; 169]) []). by vm_compute.
  - apply (byte_tokenizer_roundtrip (bytes_string [240; 159; 152; 128]) [240; 159; 152; 128]). by vm_compute.
Defined.

(** The two bytes of an accented letter: nothing after the first token, the letter
    after the second. *)
Example streaming_holds_back :
  byte_decoder_step (mkByteIncrementalDecoder []) 195 = (Ok None, mkByteIncrementalDecoder [195]) ∧
  byte_decoder_step (mkByteIncrementalDecoder [195]) 169 = (Ok (Some (bytes_string [195; 169])), mkByteIncrementalDecoder []) ∧
  byte_decoder_step (mkByteIncrementalDecoder [195]) 65 = (Err InvalidUtf8, mkByteIncrementalDecoder [195; 65]).
Proof. by vm_compute. Qed.
