(* ===== verification/Types.v ===== *)
(** * Request types ([crates/sglang-srt/src/types.rs]) *)

From S2P Require Import Prelude Float32.

(** [types.rs:1-8] RequestId *)
Definition RequestId : Type := string.

(** [types.rs:16-28] SamplingParams *)
Record SamplingParams : Type := mkSamplingParams {
  max_new_tokens : N;
  temperature : option f32;
  top_p : option f32;
  top_k : option Z;
  min_p : option f32;
  frequency_penalty : option f32;
  presence_penalty : option f32;
  repetition_penalty : option f32;
  stop_token_ids : list N;
  ignore_eos : bool;
}.

(** [types.rs:30-37] SamplingParams::new *)
Definition SamplingParams_new (max_new : N) : SamplingParams :=
  mkSamplingParams max_new None None None None None None None [] false.

(** [types.rs:39-39] FAKE_BOOTSTRAP_HOST *)
Definition FAKE_BOOTSTRAP_HOST : string := "2.2.2.2".

(** [types.rs:42-47] DisaggregatedParams *)
Record DisaggregatedParams : Type := mkDisaggregatedParams {
  bootstrap_host : string;
  bootstrap_port : N;
  bootstrap_room : N;
}.
