(* ===== verification/Bytes.v ===== *)
(** * Little-endian integers

    Bytes are [N] below 256; integers of a fixed width go to and from bytes as
    Rust's [to_le_bytes] and [from_le_bytes] do.  Shared by the byte formats of
    the development. *)

From S2P Require Import Prelude.

(** [to_le_bytes] of an [n]-byte integer; the high bytes are cut, as the cast [as u32] does. *)
Fixpoint to_le_bytes (n : nat) (x : N) : list N :=
  match n with O => [] | S n' => x mod 256 :: to_le_bytes n' (x / 256) end.

Fixpoint from_le_bytes (bs : list N) : N :=
  match bs with [] => 0 | b :: bs' => b + 256 * from_le_bytes bs' end.

Definition is_byte (b : N) : Prop := b < 256.

Lemma length_to_le n x : length (to_le_bytes n x) = n.
Proof. revert x. induction n as [|n IH]; intros x; [done|]. cbn. by rewrite IH. Qed.

Lemma len_to_le n x : len (to_le_bytes n x) = N.of_nat n.
Proof. unfold len. by rewrite length_to_le. Qed.

Lemma to_le_is_byte n x : Forall is_byte (to_le_bytes n x).
Proof.
  revert x. induction n as [|n IH]; intros x; [constructor|]. cbn [to_le_bytes]. constructor; [|apply IH].
  unfold is_byte. apply N.mod_lt. lia.
Qed.

Lemma from_to_le n : ∀ x, x < 256 ^ N.of_nat n → from_le_bytes (to_le_bytes n x) = x.
Proof.
  induction n as [|n IH]; intros x Hx; [cbn in *; lia|]. cbn [to_le_bytes from_le_bytes].
  rewrite Nat2N.inj_succ, N.pow_succ_r' in Hx. rewrite IH; [|by apply N.Div0.div_lt_upper_bound].
  pose proof (N.div_mod x 256). lia.
Qed.

Lemma to_from_le bs : Forall is_byte bs → to_le_bytes (length bs) (from_le_bytes bs) = bs.
Proof.
  induction 1 as [|b bs Hb _ IH]; [done|]. cbn [from_le_bytes length to_le_bytes]. unfold is_byte in Hb.
  rewrite N.add_comm, (N.mul_comm 256), N_div_add_small, N_mod_add_small by done. by rewrite IH.
Qed.

Lemma from_le_bound bs : Forall is_byte bs → from_le_bytes bs < 256 ^ len bs.
Proof.
  induction 1 as [|b bs Hb _ IH]; [done|]. cbn [from_le_bytes]. unfold is_byte in Hb.
  rewrite len_cons, N.add_1_r, N.pow_succ_r'. revert IH. generalize (256 ^ len bs). lia.
Qed.

Definition is_u32 (x : N) : Prop := x < 2 ^ 32.
