(* ===== verification/Text.v ===== *)
(** * Text as the code takes it apart

    [str::strip_prefix], [split], [split_once] and [parse], over byte strings, with
    the facts that relate them to what [format!] writes. *)

From Stdlib Require Ascii.
From stdpp Require Import pretty.
From S2P Require Import Prelude Bytes.
#[local] Open Scope N_scope.

Definition byte_of (c : Ascii.ascii) : N := Ascii.N_of_ascii c.

(** The bytes of a string. *)
Fixpoint text_bytes (s : string) : list N :=
  match s with EmptyString => [] | String c s => byte_of c :: text_bytes s end.

(** [str::strip_prefix] *)
Fixpoint strip_prefix (prefix s : string) : option string :=
  match prefix, s with
  | EmptyString, _ => Some s
  | String c prefix, String d s => if Ascii.eqb c d then strip_prefix prefix s else None
  | _, _ => None
  end.

(** [str::strip_suffix] *)
Fixpoint strip_suffix (suffix s : string) : option string :=
  if (s =? suffix)%string then Some ""%string
  else match s with String c s => String c <$> strip_suffix suffix s | EmptyString => None end.

(** [str::ends_with] *)
Definition ends_with (suffix s : string) : bool := bool_decide (is_Some (strip_suffix suffix s)).

(** [str::starts_with] *)
Definition starts_with (prefix s : string) : bool := bool_decide (is_Some (strip_prefix prefix s)).

(** [str::trim_start_matches(c)] *)
Fixpoint trim_start (c : N) (s : string) : string :=
  match s with String d rest => if byte_of d =? c then trim_start c rest else s | EmptyString => s end.

(** [str::split(c)] *)
Fixpoint split_on (c : N) (s : string) : list string :=
  match s with
  | EmptyString => [""%string]
  | String d rest =>
      if byte_of d =? c then ""%string :: split_on c rest
      else match split_on c rest with part :: parts => String d part :: parts | [] => [String d ""] end
  end.

(** [str::split_once(c)] *)
Fixpoint split_once (c : N) (s : string) : option (string * string) :=
  match s with
  | EmptyString => None
  | String d rest =>
      if byte_of d =? c then Some (""%string, rest)
      else '(before, after) ← split_once c rest; Some (String d before, after)
  end.

Definition is_digit (b : N) : bool := (48 <=? b) && (b <=? 57).

(** The decimal digits of a number, read from the left onto [acc]. *)
Fixpoint digits (acc : N) (s : string) : option N :=
  match s with
  | EmptyString => Some acc
  | String c s => if is_digit (byte_of c) then digits (acc * 10 + (byte_of c - 48)) s else None
  end.

(** [str::parse] of an unsigned integer type: an optional plus, digits, no overflow. *)
Definition parse_unsigned (max : N) (s : string) : option N :=
  let s := match s with String c rest => if byte_of c =? 43 then rest else s | EmptyString => s end in
  match s with
  | EmptyString => None
  | _ => match digits 0 s with Some n => if n <=? max then Some n else None | None => None end
  end.

Notation parse_usize := (parse_unsigned usize_MAX).

(** [str::parse] of a signed integer type of [w] bits: a minus makes it negative. *)
Definition parse_signed (w : Z) (s : string) : option Z :=
  match s with
  | String c rest =>
      if byte_of c =? 45 then
        match rest with
        | EmptyString => None
        | _ => match digits 0 rest with Some n => if (Z.of_N n <=? 2 ^ (w - 1))%Z then Some (- Z.of_N n)%Z else None | None => None end
        end
      else Z.of_N <$> parse_unsigned (Z.to_N (2 ^ (w - 1) - 1)) s
  | EmptyString => None
  end.

(** ** Facts *)

Lemma text_bytes_app s t : text_bytes (s +:+ t) = text_bytes s ++ text_bytes t.
Proof. induction s as [|c s IH]; [done|]. exact (f_equal (cons (byte_of c)) IH). Qed.

Lemma strip_prefix_app p s : strip_prefix p (p +:+ s) = Some s.
Proof.
  induction p as [|c p IH]; [done|]. change (String c p +:+ s) with (String c (p +:+ s)). cbn [strip_prefix].
  by rewrite Ascii.eqb_refl.
Qed.

(** Text without a separator. *)
Definition free_of (c : N) (s : string) : Prop := c ∉ text_bytes s.

#[export] Instance free_of_dec c s : Decision (free_of c s).
Proof. unfold free_of. apply _. Defined.

Lemma free_of_cons c d s : free_of c (String d s) ↔ byte_of d ≠ c ∧ free_of c s.
Proof. unfold free_of. cbn [text_bytes]. rewrite not_elem_of_cons. naive_solver. Qed.

Lemma split_free c s : free_of c s → split_on c s = [s].
Proof.
  induction s as [|d s IH]; [done|]. intros [Hd Hs]%free_of_cons. cbn [split_on].
  destruct (N.eqb_spec (byte_of d) c); [done|]. by rewrite IH.
Qed.

Lemma split_free_app c k s t : byte_of k = c → free_of c s → split_on c (s +:+ String k t) = s :: split_on c t.
Proof.
  intros Hk. induction s as [|d s IH]; [intros _|intros [Hd Hs]%free_of_cons].
  - change ("" +:+ String k t) with (String k t). cbn [split_on]. by rewrite Hk, N.eqb_refl.
  - change (String d s +:+ String k t) with (String d (s +:+ String k t)). cbn [split_on].
    destruct (N.eqb_spec (byte_of d) c); [done|]. by rewrite IH.
Qed.

Lemma split_free_sep c (k s t : string) : text_bytes k = [c] → free_of c s → split_on c (s +:+ k +:+ t) = s :: split_on c t.
Proof. destruct k as [|d [|]]; try done. intros [= Hd]. by apply split_free_app. Qed.

Lemma split_once_free c k s t : byte_of k = c → free_of c s → split_once c (s +:+ String k t) = Some (s, t).
Proof.
  intros Hk. induction s as [|d s IH]; [intros _|intros [Hd Hs]%free_of_cons].
  - change ("" +:+ String k t) with (String k t). cbn [split_once]. by rewrite Hk, N.eqb_refl.
  - change (String d s +:+ String k t) with (String d (s +:+ String k t)). cbn [split_once].
    destruct (N.eqb_spec (byte_of d) c); [done|]. by rewrite IH.
Qed.

Lemma split_once_free_sep c (k s t : string) : text_bytes k = [c] → free_of c s → split_once c (s +:+ k +:+ t) = Some (s, t).
Proof. destruct k as [|d [|]]; try done. intros [= Hd]. by apply split_once_free. Qed.

(** ** Decimal numbers *)

Definition all_digits (s : string) : Prop := Forall (λ b, is_digit b = true) (text_bytes s).

Lemma pretty_char_digit x : x < 10 → byte_of (pretty_N_char x) = 48 + x.
Proof.
  intros Hx. assert (x = 0 ∨ x = 1 ∨ x = 2 ∨ x = 3 ∨ x = 4 ∨ x = 5 ∨ x = 6 ∨ x = 7 ∨ x = 8 ∨ x = 9) as Hcases by lia.
  by repeat destruct Hcases as [->|Hcases]; [..|subst].
Qed.

Lemma is_digit_shift m : m < 10 → is_digit (48 + m) = true.
Proof. intros Hm. unfold is_digit. destruct (N.leb_spec 48 (48 + m)), (N.leb_spec (48 + m) 57); done || lia. Qed.

Lemma digits_go x : ∀ s, all_digits s → digits 0 (pretty_N_go x s) = digits x s ∧ all_digits (pretty_N_go x s).
Proof.
  induction (N.lt_wf_0 x) as [x _ IH]. intros s Hs. destruct (N.eq_dec x 0) as [->|Hx]; [by rewrite pretty_N_go_0|].
  rewrite pretty_N_go_step by lia. assert (x mod 10 < 10) as Hm by (by apply N.mod_lt).
  assert (all_digits (String (pretty_N_char (x mod 10)) s)) as Hs'.
  { constructor; [|exact Hs]. rewrite pretty_char_digit by done. by apply is_digit_shift. }
  assert (x / 10 < x) as Hlt.
  { apply N.div_lt; [|done]. lia. }
  destruct (IH (x / 10) Hlt _ Hs') as [Hd Ha].
  split; [|done]. rewrite Hd. cbn [digits]. rewrite pretty_char_digit, is_digit_shift by done.
  pose proof (N.div_mod x 10 ltac:(done)) as Hdiv. set (m := x mod 10) in *. set (q := x / 10) in *. f_equal. lia.
Qed.

Lemma pretty_digits (n : N) : digits 0 (pretty n) = Some n ∧ all_digits (pretty n) ∧ pretty n ≠ ""%string.
Proof.
  unfold pretty, pretty_N. case_decide as Hn; [subst; split; [done|]; split; [by repeat constructor|done]|].
  destruct (digits_go n "") as [Hd Ha]; [constructor|]. split; [done|]. split; [done|]. intros He. rewrite He in Hd. by injection Hd.
Qed.

Lemma parse_pretty max (n : N) : n ≤ max → parse_unsigned max (pretty n) = Some n.
Proof.
  intros Hn. destruct (pretty_digits n) as (Hd&Ha&Hne). unfold parse_unsigned. destruct (pretty n) as [|c s]; [done|].
  inversion Ha as [|?? Hc _]; subst. destruct (N.eqb_spec (byte_of c) 43) as [He|_]; [by rewrite He in Hc|]. rewrite Hd.
  by destruct (N.leb_spec n max); [|lia].
Qed.

Lemma parse_pretty_signed w (z : Z) : (0 < w)%Z → (- 2 ^ (w - 1) ≤ z < 2 ^ (w - 1))%Z → parse_signed w (pretty z) = Some z.
Proof.
  intros Hw Hz. destruct z as [|p|p].
  - change (pretty 0%Z) with (pretty 0). unfold parse_signed. change (pretty 0) with "0"%string at 1. cbv beta iota.
    match goal with |- context [byte_of ?c =? 45] => change (byte_of c =? 45) with false end. cbv iota. by rewrite (parse_pretty _ 0) by lia.
  - change (pretty (Z.pos p)) with (pretty (N.pos p)). unfold parse_signed. destruct (pretty_digits (N.pos p)) as (_&Ha&Hne).
    destruct (pretty (N.pos p)) as [|c s] eqn:He; [done|]. inversion Ha as [|?? Hc _]; subst.
    destruct (N.eqb_spec (byte_of c) 45) as [Hb|_]; [by rewrite Hb in Hc|]. rewrite <-He, parse_pretty by lia. done.
  - change (pretty (Z.neg p)) with (String (Ascii.ascii_of_N 45) (pretty (N.pos p))). destruct (pretty_digits (N.pos p)) as (Hd&_&Hne). unfold parse_signed.
    match goal with |- context [byte_of ?c =? 45] => change (byte_of c =? 45) with true end. cbv iota. destruct (pretty (N.pos p)) as [|c s] eqn:He; [done|]. rewrite <-He in *. rewrite Hd.
    destruct (Z.leb_spec (Z.of_N (N.pos p)) (2 ^ (w - 1))); [by f_equal|lia].
Qed.

Lemma digits_free c s : is_digit c = false → all_digits s → free_of c s.
Proof. intros Hc Hs Hin. unfold all_digits in Hs. rewrite Forall_forall in Hs. specialize (Hs _ Hin). congruence. Qed.

Lemma pretty_free c (n : N) : is_digit c = false → free_of c (pretty n).
Proof. intros Hc. destruct (pretty_digits n) as (_&Ha&_). by apply digits_free. Qed.
