(* ===== verification/PageAllocator.v ===== *)
(** * KV-cache page allocator ([crates/sglang-srt/src/cache.rs], [CachePageAllocator])

    The allocator hands out KV slots.  Slots are grouped in pages of
    [page_size] slots; a free list keeps page indices in FIFO order and a set
    keeps the indices in use.  This file holds the operations, the
    well-formedness invariant, its preservation by every operation, and the
    behaviour of allocation and release. *)

From S2P Require Import Prelude.

(** ** Data *)

(** [CachePageId] is the newtype [struct CachePageId(usize)] of [cache.rs]: a slot index. *)
Notation CachePageId := N (only parsing).

(** [cache.rs:10-12] CachePageId::as_usize *)
Definition as_usize (slot : CachePageId) : N := slot.

(** [cache.rs:14-17] CachePageId::page_index *)
Definition page_index (slot : CachePageId) (page_size : N) : option N :=
  guard (0 < page_size);; Some (slot / page_size).

(** [cache.rs:19-22] CachePageId::slot_index_in_page *)
Definition slot_index_in_page (slot : CachePageId) (page_size : N) : option N :=
  guard (0 < page_size);; Some (slot mod page_size).

(** [cache.rs:62-74] CacheAllocationError *)
Inductive CacheAllocationError : Type :=
  | ZeroPageSize
  | ZeroSlotCapacity
  | SlotCapacityNotPageAligned (slot_capacity page_size : N)
  | OutOfSlots (requested available : N).

(** [cache.rs:340-346] CachePageAllocator *)
Record CachePageAllocator : Type := mkCachePageAllocator {
  slot_capacity : N;
  page_size : N;
  free_page_indices : list N;
  allocated_page_indices : gset N;
}.

(** ** Operations *)

(** [cache.rs:353-376] CachePageAllocator::with_page_size *)
Definition with_page_size (slot_capacity page_size : N)
    : Result CacheAllocationError CachePageAllocator :=
  if page_size =? 0 then Err ZeroPageSize
  else if slot_capacity =? 0 then Err ZeroSlotCapacity
  else if negb (is_multiple_of slot_capacity page_size) then
    Err (SlotCapacityNotPageAligned slot_capacity page_size)
  else
    let page_count := slot_capacity / page_size in
    Ok (mkCachePageAllocator slot_capacity page_size (nrange 0 page_count) ∅).

(** [cache.rs:349-351] CachePageAllocator::new *)
Definition new (slot_capacity : N) : option CachePageAllocator :=
  match with_page_size slot_capacity 1 with Ok a => Some a | Err _ => None end.

(** [cache.rs:378-380] CachePageAllocator::available_pages *)
Definition available_pages (a : CachePageAllocator) : N := len (free_page_indices a).

(** [cache.rs:382-384] CachePageAllocator::available_slots *)
Definition available_slots (a : CachePageAllocator) : N :=
  len (free_page_indices a) * page_size a.

(** The slots left in the page of the sequence's last slot, when that page is
    allocated: the [reusable_tail_slots] expression. *)
(** [cache.rs:406-415] CachePageAllocator::allocate_for_sequence (reusable_tail_slots) *)
Definition reusable_tail_slots (a : CachePageAllocator) (sequence_slots : list CachePageId)
    (slot_count : N) : option N :=
  match last sequence_slots with
  | None => Some (N.min 0 slot_count)
  | Some slot =>
      p ← page_index slot (page_size a);
      i ← slot_index_in_page slot (page_size a);
      Some (N.min (if decide (p ∈ allocated_page_indices a) then page_size a - i - 1 else 0)
                  slot_count)
  end.

(** The [for _ in 0..required_page_count] loop: [pop_front().expect(..)]. *)
(** [cache.rs:434-445] CachePageAllocator::allocate_for_sequence (page loop) *)
Fixpoint take_pages (required_page_count : nat) (remaining_new_slots : N)
    (slots : list CachePageId) (a : CachePageAllocator)
    : option (list CachePageId * CachePageAllocator) :=
  match required_page_count with
  | O => Some (slots, a)
  | S n =>
      match free_page_indices a with
      | [] => None
      | page :: free =>
          let a' := mkCachePageAllocator (slot_capacity a) (page_size a) free
                      ({[page]} ∪ allocated_page_indices a) in
          let slots_in_page := N.min remaining_new_slots (page_size a) in
          let first_slot := page * page_size a in
          take_pages n (remaining_new_slots - slots_in_page)
            (slots ++ nrange first_slot (first_slot + slots_in_page)) a'
      end
  end.

(** [cache.rs:397-447] CachePageAllocator::allocate_for_sequence *)
Definition allocate_for_sequence (a : CachePageAllocator)
    (sequence_slots : list CachePageId) (slot_count : N)
    : option (Result CacheAllocationError (list CachePageId) * CachePageAllocator) :=
  if slot_count =? 0 then Some (Ok [], a)
  else
    tail ← reusable_tail_slots a sequence_slots slot_count;
    let new_slot_count := slot_count - tail in
    let required_page_count := div_ceil new_slot_count (page_size a) in
    if available_pages a <? required_page_count then
      Some (Err (OutOfSlots slot_count (tail + available_slots a)), a)
    else
      slots ←
        (if 0 <? tail then
           slot ← last sequence_slots;
           let first_slot := as_usize slot + 1 in
           Some (nrange first_slot (first_slot + tail))
         else Some []);
      r ← take_pages (N.to_nat required_page_count) new_slot_count slots a;
      Some (Ok r.1, r.2).

(** [cache.rs:390-395] CachePageAllocator::allocate *)
Definition allocate (a : CachePageAllocator) (slot_count : N) :=
  allocate_for_sequence a [] slot_count.

(** The body of the first loop of [release]. *)
(** [cache.rs:451-463] CachePageAllocator::release (collection loop) *)
Definition release_slot (a : CachePageAllocator) (acc : list N * gset N) (slot : CachePageId)
    : option (list N * gset N) :=
  if slot_capacity a <=? as_usize slot then Some acc
  else
    i ← slot_index_in_page slot (page_size a);
    if negb (i =? 0) then Some acc
    else
      p ← page_index slot (page_size a);
      if decide (p ∈ acc.2) then Some (acc.1 ++ [p], acc.2 ∖ {[p]}) else Some acc.

(** [cache.rs:450-463] CachePageAllocator::release (loop over the slots) *)
Fixpoint release_slots (a : CachePageAllocator) (acc : list N * gset N)
    (slots : list CachePageId) : option (list N * gset N) :=
  match slots with
  | [] => Some acc
  | slot :: slots' => acc' ← release_slot a acc slot; release_slots a acc' slots'
  end.

(** [cache.rs:449-467] CachePageAllocator::release *)
Definition release (a : CachePageAllocator) (cache_pages : list CachePageId)
    : option CachePageAllocator :=
  acc ← release_slots a ([], allocated_page_indices a) cache_pages;
  Some (mkCachePageAllocator (slot_capacity a) (page_size a)
          (foldl (λ free p, p :: free) (free_page_indices a) (reverse acc.1)) acc.2).

(** [cache.rs:469-472] CachePageAllocator::reset *)
Definition reset (a : CachePageAllocator) : CachePageAllocator :=
  mkCachePageAllocator (slot_capacity a) (page_size a)
    (nrange 0 (slot_capacity a / page_size a)) ∅.

Example allocate_6_of_4x4 :
  (a ← new 16; Some (available_slots a)) = Some 16 ∧
  match with_page_size 16 4 with
  | Ok a => r ← allocate a 6; Some (r.1, free_page_indices r.2)
  | Err _ => None
  end = Some (Ok [0;1;2;3;4;5], [2;3]).
Proof. by vm_compute. Qed.

(** ** Well-formedness

    Free pages and allocated pages partition the page indices below
    [page_count]; the free list has no duplicates. *)
Definition page_count (a : CachePageAllocator) : N := slot_capacity a / page_size a.

Record allocator_wf (a : CachePageAllocator) : Prop := {
  wf_page_size : 0 < page_size a;
  wf_capacity : 0 < slot_capacity a;
  wf_aligned : slot_capacity a = page_count a * page_size a;
  wf_free_nodup : NoDup (free_page_indices a);
  wf_partition : ∀ p, p < page_count a ↔ p ∈ free_page_indices a ∨ p ∈ allocated_page_indices a;
  wf_disjoint : ∀ p, p ∈ free_page_indices a → p ∉ allocated_page_indices a;
}.

(** Two allocators that hand out pages in a different order but own the same
    pages. *)
Record alloc_equiv (a b : CachePageAllocator) : Prop := {
  eqv_capacity : slot_capacity a = slot_capacity b;
  eqv_page_size : page_size a = page_size b;
  eqv_free : free_page_indices a ≡ₚ free_page_indices b;
  eqv_allocated : allocated_page_indices a = allocated_page_indices b;
}.

#[export] Instance alloc_equiv_equivalence : Equivalence alloc_equiv.
Proof.
  split.
  - by intros a.
  - intros a b [????]; split; by symmetry.
  - intros a b c [????] [????]; split; by etrans.
Qed.

#[export] Instance available_pages_proper : Proper (alloc_equiv ==> eq) available_pages.
Proof. intros a b H. unfold available_pages, len. by rewrite (eqv_free _ _ H). Qed.

#[export] Instance available_slots_proper : Proper (alloc_equiv ==> eq) available_slots.
Proof.
  intros a b H. unfold available_slots, len.
  by rewrite (eqv_free _ _ H), (eqv_page_size _ _ H).
Qed.

#[export] Instance allocator_wf_proper : Proper (alloc_equiv ==> iff) allocator_wf.
Proof.
  assert (∀ a b, alloc_equiv a b → allocator_wf a → allocator_wf b) as Hgo.
  { intros a b [Hc Hp Hf Ha] [W1 W2 W3 W4 W5 W6].
    unfold page_count in *. rewrite Hc, Hp in *.
    split; unfold page_count; try done.
    - by rewrite <-Hf.
    - intros p. by rewrite (W5 p), Hf, Ha.
    - intros p. rewrite <-Hf, <-Ha. apply W6. }
  intros a b H. split; apply Hgo; by try symmetry.
Qed.

(** ** Release, in closed form *)

(** The pages a call of [release] frees, in the order it meets them. *)
Fixpoint freed_pages (cap ps : N) (al : gset N) (slots : list N) : list N :=
  match slots with
  | [] => []
  | s :: slots' =>
      if ((s <? cap) && (s mod ps =? 0) && bool_decide (s / ps ∈ al))%bool
      then s / ps :: freed_pages cap ps (al ∖ {[s / ps]}) slots'
      else freed_pages cap ps al slots'
  end.

Lemma release_slots_eq a rel al slots :
  0 < page_size a →
  release_slots a (rel, al) slots =
  let f := freed_pages (slot_capacity a) (page_size a) al slots in
  Some (rel ++ f, al ∖ list_to_set f).
Proof.
  intros Hps. revert rel al. induction slots as [|s slots IH]; intros rel al; cbn [release_slots freed_pages].
  { simpl. rewrite app_nil_r. do 2 f_equal. set_solver. }
  unfold release_slot, slot_index_in_page, page_index, as_usize.
  rewrite !option_guard_True by done. cbn [mbind option_bind].
  destruct (N.leb_spec (slot_capacity a) s), (N.ltb_spec s (slot_capacity a)); try lia; simpl.
  - apply IH.
  - destruct (s mod page_size a =? 0); simpl; [|apply IH].
    case_decide; [rewrite bool_decide_true by done|rewrite bool_decide_false by done; apply IH].
    cbn [mbind option_bind]. rewrite IH. cbn zeta. rewrite <-(assoc_L (++)). do 2 f_equal. set_solver.
Qed.

Lemma foldl_push_front (f : list N) l : foldl (λ free p, p :: free) l (reverse f) = f ++ l.
Proof.
  revert l. induction f as [|p f IH]; intros l; [done|].
  rewrite reverse_cons, foldl_app, IH. done.
Qed.

Lemma release_eq a slots :
  0 < page_size a →
  release a slots =
  let f := freed_pages (slot_capacity a) (page_size a) (allocated_page_indices a) slots in
  Some (mkCachePageAllocator (slot_capacity a) (page_size a) (f ++ free_page_indices a)
          (allocated_page_indices a ∖ list_to_set f)).
Proof.
  intros. unfold release. rewrite release_slots_eq by done. cbn -[freed_pages foldl reverse].
  by rewrite foldl_push_front.
Qed.

Lemma elem_of_freed_pages cap ps al slots p :
  0 < ps → p ∈ freed_pages cap ps al slots ↔ p ∈ al ∧ p * ps ∈ slots ∧ p * ps < cap.
Proof.
  intros Hps. revert al. induction slots as [|s slots IH]; intros al; cbn [freed_pages]; [set_solver|].
  assert (s mod ps = 0 → s = s / ps * ps) as Hs.
  { intros. pose proof (N.div_mod s ps ltac:(lia)). lia. }
  assert (p * ps = s → s mod ps = 0 ∧ s / ps = p) as Hp.
  { intros <-. rewrite N.Div0.mod_mul, N.div_mul by lia. done. }
  destruct (N.ltb_spec s cap) as [Hlt|Hge]; simpl.
  2:{ rewrite IH, elem_of_cons. split; [tauto|]. intros (?&[->|?]&?); [lia|done]. }
  destruct (N.eqb_spec (s mod ps) 0) as [Hz|Hnz]; simpl.
  2:{ rewrite IH, elem_of_cons. split; [tauto|]. intros (?&[Heq|?]&?); [|done]. by apply Hp in Heq as []. }
  specialize (Hs Hz). case_bool_decide as Hin.
  - rewrite elem_of_cons, IH, elem_of_cons, elem_of_difference, elem_of_singleton. split.
    + intros [->|((?&?)&?&?)]; [|by auto]. rewrite <-Hs. auto.
    + intros (?&Hor&?). destruct (decide (p = s / ps)) as [->|Hne]; [by left|right].
      split; [done|]. split; [|done]. destruct Hor as [Heq|?]; [|done]. apply Hp in Heq as [_ ?]. congruence.
  - rewrite IH, elem_of_cons. split; [tauto|]. intros (?&[Heq|?]&?); [|done].
    apply Hp in Heq as [_ ?]. congruence.
Qed.

Lemma NoDup_freed_pages cap ps al slots : 0 < ps → NoDup (freed_pages cap ps al slots).
Proof.
  intros Hps. revert al. induction slots as [|s slots IH]; intros al; cbn [freed_pages]; [constructor|].
  destruct (_ && _)%bool; [|done]. constructor; [|done].
  rewrite elem_of_freed_pages by done. set_solver.
Qed.

Lemma freed_pages_app cap ps al s1 s2 :
  freed_pages cap ps al (s1 ++ s2) =
  freed_pages cap ps al s1 ++
  freed_pages cap ps (al ∖ list_to_set (freed_pages cap ps al s1)) s2.
Proof.
  revert al. induction s1 as [|s s1 IH]; intros al; simpl; [f_equal; set_solver|].
  destruct (_ && _)%bool; [|done]. rewrite IH. simpl. do 3 f_equal. set_solver.
Qed.

Lemma freed_pages_unaligned cap ps al slots :
  (∀ s, s ∈ slots → s mod ps ≠ 0) → freed_pages cap ps al slots = [].
Proof.
  induction slots as [|s slots IH]; intros H; [done|]. cbn [freed_pages].
  destruct (N.eqb_spec (s mod ps) 0) as [|]; [by destruct (H s ltac:(set_solver))|].
  rewrite andb_false_r. apply IH. set_solver.
Qed.

(** ** Allocation, in closed form *)

(** The slots laid out on freshly taken pages. *)
Fixpoint page_slots (ps remaining : N) (pages : list N) : list N :=
  match pages with
  | [] => []
  | p :: pages' =>
      let k := N.min remaining ps in
      nrange (p * ps) (p * ps + k) ++ page_slots ps (remaining - k) pages'
  end.

Definition set_pages (a : CachePageAllocator) (free : list N) (al : gset N) : CachePageAllocator :=
  mkCachePageAllocator (slot_capacity a) (page_size a) free al.

Lemma take_pages_eq n rem slots a :
  (n ≤ length (free_page_indices a))%nat →
  take_pages n rem slots a =
  let pages := take n (free_page_indices a) in
  Some (slots ++ page_slots (page_size a) rem pages,
        set_pages a (drop n (free_page_indices a))
          (list_to_set pages ∪ allocated_page_indices a)).
Proof.
  unfold set_pages. revert rem slots a. induction n as [|n IH]; intros rem slots a Hn; cbn [take_pages].
  { rewrite take_0, drop_0. simpl. rewrite app_nil_r. destruct a; simpl. do 3 f_equal. set_solver. }
  destruct (free_page_indices a) as [|p free] eqn:Hf; simpl in Hn; [lia|].
  rewrite IH by (simpl; lia). simpl. rewrite <-(assoc_L (++)). do 3 f_equal. set_solver.
Qed.

(** The number of slots [reusable_tail_slots] returns on a well-formed allocator. *)
Definition tail_of (a : CachePageAllocator) (seq : list CachePageId) (n : N) : N :=
  N.min (match last seq with
         | Some s => if decide (s / page_size a ∈ allocated_page_indices a)
                     then page_size a - s mod page_size a - 1 else 0
         | None => 0 end) n.

Definition required_pages (a : CachePageAllocator) (seq : list N) (n : N) : N :=
  div_ceil (n - tail_of a seq n) (page_size a).

Definition tail_slots (a : CachePageAllocator) (seq : list CachePageId) (n : N) : list CachePageId :=
  match last seq with
  | Some s => nrange (s + 1) (s + 1 + tail_of a seq n)
  | None => []
  end.

Lemma allocate_for_sequence_eq a seq n :
  0 < page_size a → n ≠ 0 →
  allocate_for_sequence a seq n =
  if available_pages a <? required_pages a seq n
  then Some (Err (OutOfSlots n (tail_of a seq n + available_slots a)), a)
  else
    let pages := take (N.to_nat (required_pages a seq n)) (free_page_indices a) in
    Some (Ok (tail_slots a seq n ++ page_slots (page_size a) (n - tail_of a seq n) pages),
          set_pages a (drop (N.to_nat (required_pages a seq n)) (free_page_indices a))
            (list_to_set pages ∪ allocated_page_indices a)).
Proof.
  intros Hps Hn. unfold allocate_for_sequence. destruct (N.eqb_spec n 0); [done|].
  assert (reusable_tail_slots a seq n = Some (tail_of a seq n)) as ->.
  { unfold reusable_tail_slots, tail_of, page_index, slot_index_in_page.
    destruct (last seq) as [s|]; [|done]. by rewrite !option_guard_True by done. }
  cbn [mbind option_bind]. fold (required_pages a seq n).
  destruct (N.ltb_spec (available_pages a) (required_pages a seq n)) as [|Hge]; [done|].
  assert ((if 0 <? tail_of a seq n then
             slot ← last seq;
             Some (nrange (as_usize slot + 1) (as_usize slot + 1 + tail_of a seq n))
           else Some []) = Some (tail_slots a seq n)) as ->.
  { unfold tail_slots. destruct (N.ltb_spec 0 (tail_of a seq n)) as [Ht|Ht].
    - destruct (last seq) eqn:Hl; [done|]. unfold tail_of in Ht. rewrite Hl in Ht. lia.
    - destruct (last seq); [|done]. by rewrite nrange_empty by lia. }
  cbn [mbind option_bind]. rewrite take_pages_eq by (unfold available_pages, len in *; lia). done.
Qed.

(** ** Counting lemmas *)

Lemma tail_of_le a seq n : tail_of a seq n ≤ n.
Proof. unfold tail_of. lia. Qed.

Lemma len_tail_slots a seq n : len (tail_slots a seq n) = tail_of a seq n.
Proof.
  unfold tail_slots. destruct (last seq) eqn:Hl; [rewrite len_nrange; lia|].
  unfold tail_of. rewrite Hl. unfold len; simpl. lia.
Qed.

Lemma len_page_slots ps rem pages :
  rem ≤ len pages * ps → len (page_slots ps rem pages) = rem.
Proof.
  revert rem. induction pages as [|p pages IH]; intros rem; cbn [page_slots].
  - unfold len; simpl; lia.
  - rewrite len_cons. intros Hr. rewrite len_app, len_nrange, IH by nia. lia.
Qed.

Lemma required_pages_cover a seq n :
  0 < page_size a → n - tail_of a seq n ≤ required_pages a seq n * page_size a.
Proof.
  intros Hps. unfold required_pages.
  by destruct (div_ceil_spec (n - tail_of a seq n) (page_size a) Hps) as (?&<-&?&?).
Qed.

(** Every page taken receives at least one slot. *)
Lemma required_pages_tight a seq n :
  0 < page_size a → required_pages a seq n = 0 ∨
  (required_pages a seq n - 1) * page_size a < n - tail_of a seq n.
Proof.
  intros Hps. unfold required_pages.
  by destruct (div_ceil_spec (n - tail_of a seq n) (page_size a) Hps) as (?&<-&?&?).
Qed.

(** A slot of [page_slots] lies on one of the pages. *)
Lemma elem_of_page_slots ps rem pages s :
  0 < ps → s ∈ page_slots ps rem pages → s / ps ∈ pages.
Proof.
  intros Hps. revert rem. induction pages as [|p pages IH]; intros rem; cbn [page_slots]; [set_solver|].
  rewrite elem_of_app, elem_of_nrange, elem_of_cons. intros [[Hlo Hhi]|Hin]; [|right; eauto].
  left. replace s with (p * ps + (s - p * ps)) by lia. apply N_div_add_small. lia.
Qed.

Lemma NoDup_page_slots ps rem pages : 0 < ps → NoDup pages → NoDup (page_slots ps rem pages).
Proof.
  intros Hps. revert rem. induction pages as [|p pages IH]; intros rem Hnd; cbn [page_slots]; [constructor|].
  inversion_clear Hnd as [|?? Hp Hnd']. apply NoDup_app. split; [apply NoDup_nrange|]. split; [|by apply IH].
  intros s Hs Hs'. apply elem_of_nrange in Hs. apply elem_of_page_slots in Hs'; [|done].
  apply Hp. replace (s / ps) with p in Hs'; [done|].
  replace s with (p * ps + (s - p * ps)) by lia. symmetry. apply N_div_add_small. lia.
Qed.

Lemma tail_slots_spec a seq n s :
  0 < page_size a → s ∈ tail_slots a seq n →
  s mod page_size a ≠ 0 ∧ s / page_size a ∈ allocated_page_indices a ∧
  ∃ l, last seq = Some l ∧ l < s ∧ l / page_size a = s / page_size a.
Proof.
  intros Hps. unfold tail_slots, tail_of. destruct (last seq) as [l|] eqn:Hl; [|set_solver].
  rewrite elem_of_nrange. case_decide as Hin; [|lia]. intros Hs.
  pose proof (N.div_mod l (page_size a) ltac:(lia)) as Hl'.
  pose proof (N.mod_lt l (page_size a) ltac:(lia)). pose proof (N.le_0_l (l mod page_size a)).
  assert (s = l / page_size a * page_size a + (l mod page_size a + (s - l))) as Heq by lia.
  assert (s / page_size a = l / page_size a) as Hdiv.
  { rewrite Heq. apply N_div_add_small. lia. }
  assert (s mod page_size a = l mod page_size a + (s - l)) as Hmod.
  { rewrite Heq at 1. apply N_mod_add_small. lia. }
  rewrite Hmod, Hdiv. split; [lia|]. split; [done|]. exists l. split; [done|]. split; [lia|done].
Qed.

Lemma NoDup_tail_slots a seq n : NoDup (tail_slots a seq n).
Proof. unfold tail_slots. destruct (last seq); [apply NoDup_nrange|constructor]. Qed.

(** ** Preservation of well-formedness *)

Lemma new_allocator_wf cap ps a : with_page_size cap ps = Ok a → allocator_wf a.
Proof.
  unfold with_page_size. destruct (N.eqb_spec ps 0); [done|]. destruct (N.eqb_spec cap 0); [done|].
  destruct (is_multiple_of cap ps) eqn:Hm; simpl; [|done]. intros [= <-].
  apply is_multiple_of_spec in Hm; [|done].
  split; unfold page_count; simpl; try lia; auto with rust.
  - intros p. rewrite elem_of_nrange. set_solver by lia.
  - set_solver.
Qed.

Lemma reset_wf a : allocator_wf a → allocator_wf (reset a).
Proof.
  intros [W1 W2 W3 _ _ _]. split; unfold page_count; simpl; auto with rust.
  - intros p. rewrite elem_of_nrange. set_solver by lia.
  - set_solver.
Qed.

(** Moving the first [n] free pages to the allocated set. *)
Lemma take_free_wf a n :
  allocator_wf a →
  allocator_wf (set_pages a (drop n (free_page_indices a))
    (list_to_set (take n (free_page_indices a)) ∪ allocated_page_indices a)).
Proof.
  intros [W1 W2 W3 W4 W5 W6]. rewrite <-(take_drop n (free_page_indices a)) in W4, W5, W6.
  apply NoDup_app in W4 as (Hn1&Hn12&Hn2).
  split; unfold page_count in *; simpl; try done.
  - intros p. rewrite W5, elem_of_app, elem_of_union, elem_of_list_to_set. tauto.
  - intros p Hp. rewrite elem_of_union, elem_of_list_to_set. intros [?|?]; [by eapply Hn12|].
    apply (W6 p); [set_solver|done].
Qed.

(** Moving duplicate-free allocated pages [f] back to the front of the free list. *)
Lemma push_free_wf a f :
  allocator_wf a → NoDup f → (∀ p, p ∈ f → p ∈ allocated_page_indices a) →
  allocator_wf (set_pages a (f ++ free_page_indices a) (allocated_page_indices a ∖ list_to_set f)).
Proof.
  intros [W1 W2 W3 W4 W5 W6] Hnd Hf. split; unfold page_count in *; simpl; try done.
  - apply NoDup_app. split; [done|]. split; [|done]. intros p Hp Hp'. by eapply W6, Hf.
  - intros p. rewrite W5, elem_of_app, elem_of_difference, elem_of_list_to_set.
    destruct (decide (p ∈ f)); naive_solver.
  - intros p. rewrite elem_of_app, elem_of_difference, elem_of_list_to_set. naive_solver.
Qed.

Lemma set_pages_id a : set_pages a (free_page_indices a) (allocated_page_indices a) = a.
Proof. by destruct a. Qed.

Lemma release_total a slots :
  allocator_wf a → ∃ a', release a slots = Some a' ∧ allocator_wf a' ∧
    slot_capacity a' = slot_capacity a ∧ page_size a' = page_size a ∧
    ∀ p, p ∈ allocated_page_indices a' ↔ p ∈ allocated_page_indices a ∧ p * page_size a ∉ slots.
Proof.
  intros W. pose proof (wf_page_size _ W) as Hps. rewrite release_eq by done.
  eexists; split; [done|]. split; [|split; [done|split; [done|]]].
  - apply push_free_wf; [done|by apply NoDup_freed_pages|].
    intros p. rewrite elem_of_freed_pages by done. tauto.
  - intros p. cbn [allocated_page_indices]. rewrite elem_of_difference, elem_of_list_to_set.
    rewrite elem_of_freed_pages by done. split; [|tauto]. intros [Hp Hn]. split; [done|].
    intros Hin. apply Hn. split; [done|]. split; [done|].
    assert (p < page_count a) by (apply (wf_partition _ W); by right).
    pose proof (wf_aligned _ W). nia.
Qed.

Lemma allocate_total a seq n :
  allocator_wf a → ∃ r a', allocate_for_sequence a seq n = Some (r, a') ∧ allocator_wf a' ∧
    slot_capacity a' = slot_capacity a ∧ page_size a' = page_size a ∧
    allocated_page_indices a ⊆ allocated_page_indices a'.
Proof.
  intros W. pose proof (wf_page_size _ W) as Hps. destruct (decide (n = 0)) as [->|Hn].
  { by exists (Ok []), a. }
  rewrite allocate_for_sequence_eq by done. destruct (_ <? _).
  - by eexists _, _.
  - eexists _, _. split; [done|]. split; [by apply take_free_wf|]. split; [done|]. split; [done|].
    simpl. set_solver.
Qed.

(** A failed allocation leaves the allocator alone and is always [OutOfSlots]. *)
Lemma allocate_error a seq n e a' :
  allocator_wf a → allocate_for_sequence a seq n = Some (Err e, a') →
  a' = a ∧ e = OutOfSlots n (tail_of a seq n + available_slots a) ∧
  tail_of a seq n + available_slots a < n.
Proof.
  intros W. pose proof (wf_page_size _ W) as Hps. destruct (decide (n = 0)) as [->|Hn]; [done|].
  rewrite allocate_for_sequence_eq by done. destruct (N.ltb_spec (available_pages a) (required_pages a seq n)); [|done].
  intros [= <- <-]. split; [done|]. split; [done|]. unfold available_slots, available_pages in *.
  destruct (required_pages_tight a seq n Hps); [lia|]. pose proof (tail_of_le a seq n). nia.
Qed.

Lemma allocate_ok_len a seq n slots a' :
  allocator_wf a → allocate_for_sequence a seq n = Some (Ok slots, a') → len slots = n.
Proof.
  intros W. pose proof (wf_page_size _ W) as Hps. destruct (decide (n = 0)) as [->|Hn]; [by intros [= <- <-]|].
  rewrite allocate_for_sequence_eq by done. destruct (N.ltb_spec (available_pages a) (required_pages a seq n)); [done|].
  intros [= <- _]. pose proof (tail_of_le a seq n). pose proof (required_pages_cover a seq n Hps).
  rewrite len_app, len_tail_slots, len_page_slots; [lia|].
  unfold len, available_pages, len in *. rewrite length_take. nia.
Qed.

Lemma slot_in_range a s :
  allocator_wf a → s / page_size a ∈ allocated_page_indices a → s < slot_capacity a.
Proof.
  intros W Hin. assert (s / page_size a < page_count a) by (apply (wf_partition _ W); by right).
  pose proof (wf_page_size _ W). pose proof (wf_aligned _ W).
  pose proof (N.div_mod s (page_size a) ltac:(lia)). pose proof (N.mod_lt s (page_size a) ltac:(lia)). nia.
Qed.

(** Slots of a successful allocation are distinct, in range, on pages the
    allocator now holds, and each is either on a page that was free or behind
    the sequence's own last slot on the same page. *)
Lemma allocate_ok_slots a seq n slots a' :
  allocator_wf a → allocate_for_sequence a seq n = Some (Ok slots, a') →
  NoDup slots ∧ ∀ s, s ∈ slots →
    s < slot_capacity a ∧ s / page_size a ∈ allocated_page_indices a' ∧
    (s / page_size a ∉ allocated_page_indices a ∨
     ∃ l, last seq = Some l ∧ l < s ∧ l / page_size a = s / page_size a).
Proof.
  intros W. pose proof (wf_page_size _ W) as Hps. destruct (decide (n = 0)) as [->|Hn].
  { intros [= <- <-]. split; [constructor|]. set_solver. }
  destruct (allocate_total a seq n W) as (r & a1 & Heq & W' & Hc & Hp & Hsub). rewrite Heq. intros [= -> ->].
  revert Heq. rewrite allocate_for_sequence_eq by done. destruct (_ <? _); [done|].
  intros [= <- Ha']. set (k := N.to_nat _) in *.
  assert (∀ p, p ∈ take k (free_page_indices a) → p ∉ allocated_page_indices a) as Hfresh.
  { intros p Hp'. by eapply (wf_disjoint _ W), take_incl. }
  split.
  - apply NoDup_app. split; [apply NoDup_tail_slots|].
    split; [|apply NoDup_page_slots, NoDup_take, wf_free_nodup; done].
    intros s (_&Hal&_)%tail_slots_spec Hs'; [|done].
    apply elem_of_page_slots in Hs'; [|done]. by eapply Hfresh.
  - intros s Hs. assert (s / page_size a ∈ allocated_page_indices a') as Hin.
    { rewrite <-Ha'. simpl. apply elem_of_app in Hs as [(_&?&_)%tail_slots_spec|Hs%elem_of_page_slots]; set_solver. }
    split; [rewrite <-Hc; apply slot_in_range; [done|by rewrite Hp]|]. split; [done|].
    apply elem_of_app in Hs as [(_&_&?)%tail_slots_spec|Hs%elem_of_page_slots]; eauto.
Qed.

(** ** Allocation followed by release *)

Lemma freed_page_slots cap ps al rem pages :
  0 < ps → NoDup pages → (∀ p, p ∈ pages → p ∈ al ∧ p * ps < cap) →
  (pages = [] ∨ (len pages - 1) * ps < rem) →
  freed_pages cap ps al (page_slots ps rem pages) = pages.
Proof.
  intros Hps. revert al rem. induction pages as [|p pages IH]; intros al rem Hnd Hin Hrem; [done|].
  inversion_clear Hnd as [|?? Hp Hnd']. destruct Hrem as [|Hrem]; [done|]. rewrite len_cons in Hrem.
  cbn [page_slots]. rewrite nrange_cons by nia. destruct (Hin p ltac:(set_solver)) as [Hal Hlt].
  simpl. rewrite (proj2 (N.ltb_lt _ _) Hlt), N.Div0.mod_mul, N.div_mul by lia. simpl.
  rewrite bool_decide_true by done. f_equal. rewrite freed_pages_app, freed_pages_unaligned.
  - simpl. apply IH; [done|set_solver|]. destruct pages as [|q pages]; [by left|right].
    rewrite len_cons in *. nia.
  - intros s Hs%elem_of_nrange. replace s with (p * ps + (s - p * ps)) by lia.
    rewrite N_mod_add_small by lia. lia.
Qed.

Lemma release_after_allocate a seq n slots a' :
  allocator_wf a → allocate_for_sequence a seq n = Some (Ok slots, a') → release a' slots = Some a.
Proof.
  intros W. pose proof (wf_page_size _ W) as Hps. destruct (decide (n = 0)) as [->|Hn].
  { intros [= <- <-]. rewrite release_eq by done. cbn. f_equal. symmetry. destruct a as [c q f al]. f_equal. simpl. set_solver. }
  rewrite allocate_for_sequence_eq by done.
  destruct (N.ltb_spec (available_pages a) (required_pages a seq n)) as [|Hav]; [done|].
  intros [= <- <-]. set (k := N.to_nat _) in *. set (pages := take k _).
  rewrite release_eq by done. cbn -[freed_pages]. rewrite freed_pages_app, freed_pages_unaligned; cycle 1.
  { by intros s (?&_)%tail_slots_spec. }
  rewrite freed_page_slots; [|done|by apply NoDup_take, wf_free_nodup| |].
  - f_equal. etrans; [|apply set_pages_id]. unfold set_pages. f_equal; simpl.
    + apply take_drop.
    + assert (∀ p, p ∈ pages → p ∉ allocated_page_indices a); [|set_solver].
      intros p ?. by eapply (wf_disjoint _ W), take_incl.
  - intros p Hp. split; [set_solver|]. pose proof (wf_aligned _ W).
    assert (p < page_count a) by (apply (wf_partition _ W); left; by eapply take_incl). nia.
  - assert (len pages = required_pages a seq n) as ->.
    { unfold pages, len, available_pages, len in *. rewrite length_take. lia. }
    destruct (required_pages_tight a seq n Hps) as [H0|]; [left|by right].
    unfold pages, k. rewrite H0. done.
Qed.

(** ** The allocator as a transition system *)

Inductive allocator_step : CachePageAllocator → CachePageAllocator → Prop :=
  | step_allocate a seq n r a' :
      allocate_for_sequence a seq n = Some (r, a') → allocator_step a a'
  | step_release a slots a' : release a slots = Some a' → allocator_step a a'
  | step_reset a : allocator_step a (reset a).

(** Allocators reachable from a successful construction. *)
Definition allocator_reachable (a : CachePageAllocator) : Prop :=
  ∃ cap ps a0, with_page_size cap ps = Ok a0 ∧ rtc allocator_step a0 a.

Lemma allocator_step_wf a a' : allocator_step a a' → allocator_wf a → allocator_wf a'.
Proof.
  intros Hs W. destruct Hs as [a seq n r a' Heq|a slots a' Heq|a]; [| |by apply reset_wf].
  - destruct (allocate_total a seq n W) as (?&?&Heq'&?&_). by simplify_eq.
  - destruct (release_total a slots W) as (?&Heq'&?&_). by simplify_eq.
Qed.

Lemma reachable_wf a : allocator_reachable a → allocator_wf a.
Proof.
  intros (cap&ps&a0&H0&Hr). apply new_allocator_wf in H0.
  induction Hr; eauto using allocator_step_wf.
Qed.

Lemma wf_conservation a :
  allocator_wf a → available_pages a + N.of_nat (size (allocated_page_indices a)) = page_count a.
Proof.
  intros W. unfold available_pages, len.
  assert (list_to_set (nrange 0 (page_count a)) =@{gset N}
          list_to_set (free_page_indices a) ∪ allocated_page_indices a) as Heq.
  { apply set_eq. intros p. rewrite elem_of_union, !elem_of_list_to_set, elem_of_nrange, <-(wf_partition _ W). lia. }
  apply (f_equal size) in Heq. rewrite size_union in Heq.
  2:{ intros p Hp. rewrite elem_of_list_to_set in Hp. by apply (wf_disjoint _ W). }
  rewrite !size_list_to_set in Heq by (apply NoDup_nrange || apply (wf_free_nodup _ W)).
  pose proof (len_nrange 0 (page_count a)) as Hl. unfold len in Hl. lia.
Qed.

Definition example_allocator : CachePageAllocator := mkCachePageAllocator 16 4 [0; 1; 2; 3] ∅.

Lemma example_allocator_wf : allocator_wf example_allocator.
Proof. by apply (new_allocator_wf 16 4). Qed.

(** ** Properties *)

(** C4. Allocation on a well-formed allocator never panics.  It succeeds with
    exactly [n] distinct slots, all in range and on pages the allocator now
    holds, each on a page that was free or behind the sequence's own last slot
    on the same page; or it fails with [OutOfSlots], reporting fewer slots than
    were requested, and changes nothing.  Either way the allocator stays
    well-formed. *)
Theorem allocate_for_sequence_correct a seq n :
  allocator_wf a →
  ∃ r a', allocate_for_sequence a seq n = Some (r, a') ∧ allocator_wf a' ∧
    match r with
    | Ok slots =>
        len slots = n ∧ NoDup slots ∧
        (∀ s, s ∈ slots → s < slot_capacity a ∧ s / page_size a ∈ allocated_page_indices a' ∧
          (s / page_size a ∉ allocated_page_indices a ∨
           ∃ l, last seq = Some l ∧ l < s ∧ l / page_size a = s / page_size a))
    | Err e => a' = a ∧ ∃ available, e = OutOfSlots n available ∧ available < n
    end.
Proof.
  intros W. destruct (allocate_total a seq n W) as (r & a' & Heq & W' & _).
  exists r, a'. split; [done|]. split; [done|]. destruct r as [slots|e].
  - split; [exact (allocate_ok_len _ _ _ _ _ W Heq)|exact (allocate_ok_slots _ _ _ _ _ W Heq)].
  - destruct (allocate_error _ _ _ _ _ W Heq) as (->&->&?). eauto.
Qed.

Lemma allocate_for_sequence_correct_witness :
  ∃ r a', allocate_for_sequence example_allocator [3; 4] 6 = Some (r, a') ∧ allocator_wf a' ∧
    match r with
    | Ok slots =>
        len slots = 6 ∧ NoDup slots ∧
        (∀ s, s ∈ slots → s < 16 ∧ s / 4 ∈ allocated_page_indices a' ∧
          (s / 4 ∉ (∅ : gset N) ∨ ∃ l, last [3; 4] = Some l ∧ l < s ∧ l / 4 = s / 4))
    | Err e => a' = example_allocator ∧ ∃ available, e = OutOfSlots 6 available ∧ available < 6
    end.
Proof. exact (allocate_for_sequence_correct example_allocator [3; 4] 6 example_allocator_wf). Defined.

(** Releasing the slots an allocation returned restores the allocator
    exactly, the order of the free list and the sequence's shared tail page
    included. *)
Theorem allocate_release_roundtrip a seq n slots a' :
  allocator_wf a → allocate_for_sequence a seq n = Some (Ok slots, a') → release a' slots = Some a.
Proof. apply release_after_allocate. Qed.

Lemma allocate_release_roundtrip_witness :
  ∃ slots a', allocate_for_sequence example_allocator [] 6 = Some (Ok slots, a') ∧
    slots = [0; 1; 2; 3; 4; 5] ∧ release a' slots = Some example_allocator.
Proof.
  eexists _, _. split; [by vm_compute|]. split; [by vm_compute|].
  apply (allocate_release_roundtrip example_allocator [] 6); [apply example_allocator_wf|by vm_compute].
Defined.

(** Release never panics on a well-formed allocator, keeps it well-formed,
    and frees exactly the allocated pages whose first slot is in the list:
    slots inside a page, out of range or already free are ignored; a second
    release of the same slots changes nothing. *)
Theorem release_correct a slots :
  allocator_wf a →
  ∃ a', release a slots = Some a' ∧ allocator_wf a' ∧
    (∀ p, p ∈ allocated_page_indices a' ↔ p ∈ allocated_page_indices a ∧ p * page_size a ∉ slots) ∧
    release a' slots = Some a'.
Proof.
  intros W. destruct (release_total a slots W) as (a' & Heq & W' & Hc & Hp & Hal).
  exists a'. split; [done|]. split; [done|]. split; [done|].
  rewrite release_eq by apply W'. assert (freed_pages (slot_capacity a') (page_size a') (allocated_page_indices a') slots = []) as ->.
  { apply elem_of_nil_inv. intros p. rewrite elem_of_freed_pages by apply W'. rewrite Hal, Hp. tauto. }
  simpl. destruct a'; simpl. do 2 f_equal. set_solver.
Qed.

Lemma release_correct_witness :
  ∃ a', release example_allocator [0; 5; 99] = Some a' ∧ allocator_wf a' ∧
    (∀ p, p ∈ allocated_page_indices a' ↔
      p ∈ allocated_page_indices example_allocator ∧ p * 4 ∉ [0; 5; 99]) ∧
    release a' [0; 5; 99] = Some a'.
Proof. exact (release_correct example_allocator [0; 5; 99] example_allocator_wf). Defined.

(** In every state an allocator can reach, free and allocated pages add up
    to the page count, so no page is lost or handed out twice, and the slot
    arithmetic of [available_slots] stays within the capacity. *)
Theorem allocator_pages_conserved a :
  allocator_reachable a →
  available_pages a + N.of_nat (size (allocated_page_indices a)) = page_count a ∧
  available_slots a ≤ slot_capacity a ∧
  (∀ p, p ∈ free_page_indices a → p ∉ allocated_page_indices a).
Proof.
  intros W%reachable_wf. pose proof (wf_conservation a W) as Hc. split; [done|].
  split; [|apply (wf_disjoint _ W)]. rewrite (wf_aligned _ W).
  unfold available_slots. fold (available_pages a). nia.
Qed.

Lemma allocator_pages_conserved_witness :
  available_pages example_allocator + N.of_nat (size (allocated_page_indices example_allocator))
    = page_count example_allocator ∧
  available_slots example_allocator ≤ slot_capacity example_allocator ∧
  (∀ p, p ∈ free_page_indices example_allocator → p ∉ allocated_page_indices example_allocator).
Proof.
  apply (allocator_pages_conserved example_allocator). exists 16, 4, example_allocator.
  split; [by vm_compute|apply rtc_refl].
Defined.
