(* ===== verification/RadixCache.v ===== *)
(** * Prefix cache ([crates/sglang-srt/src/cache.rs], [RadixCache])

    A trie over token ids whose nodes carry the KV slot of the token.  The
    abstract view of a trie is the partial map [radix_get] from token
    sequences to slots; insertion and prefix matching are specified against
    that map. *)

From S2P Require Import Prelude PageAllocator.

(** ** Data *)

(** [cache.rs:31-36] PrefixMatch *)
Record PrefixMatch : Type := mkPrefixMatch {
  matched_token_count : N;
  cache_pages : list CachePageId;
  remaining_input_ids : list N;
}.

(** [cache.rs:38-44] RadixCacheError *)
Inductive RadixCacheError : Type :=
  | TokenPageLengthMismatch (token_count cache_page_count : N).

(** [cache.rs:543-547] RadixNode *)
Inductive RadixNode : Type := mkRadixNode {
  cache_page : option CachePageId;
  children : gmap N RadixNode;
}.

(** [RadixNode::default()]. *)
Definition RadixNode_default : RadixNode := mkRadixNode None ∅.

(** [cache.rs:475-478] RadixCache *)
Record RadixCache : Type := mkRadixCache { root : RadixNode }.

Definition RadixCache_default : RadixCache := mkRadixCache RadixNode_default.

(** ** Operations *)

(** [cache.rs:481-483] RadixCache::clear *)
Definition clear (c : RadixCache) : RadixCache := mkRadixCache RadixNode_default.

(** The loop of [insert]: walk down, creating children, and overwrite the slot
    of every node on the path. *)
(** [cache.rs:497-501] RadixCache::insert (loop) *)
Fixpoint insert_path (path : list (N * CachePageId)) (node : RadixNode) : RadixNode :=
  match path with
  | [] => node
  | (input_id, page) :: path' =>
      let child := default RadixNode_default (children node !! input_id) in
      let child' := insert_path path' (mkRadixNode (Some page) (children child)) in
      mkRadixNode (cache_page node) (<[input_id := child']> (children node))
  end.

(** [cache.rs:485-504] RadixCache::insert *)
Definition insert (c : RadixCache) (input_ids : list N) (pages : list CachePageId)
    : Result RadixCacheError unit * RadixCache :=
  if negb (len input_ids =? len pages) then
    (Err (TokenPageLengthMismatch (len input_ids) (len pages)), c)
  else (Ok (), mkRadixCache (insert_path (zip input_ids pages) (root c))).

(** The loop of [match_prefix]: the slots of the longest stored prefix. *)
(** [cache.rs:511-523] RadixCache::match_prefix (loop) *)
Fixpoint match_path (input_ids : list N) (node : RadixNode) : list CachePageId :=
  match input_ids with
  | [] => []
  | input_id :: ids =>
      match children node !! input_id with
      | None => []
      | Some child =>
          match cache_page child with
          | None => []
          | Some page => page :: match_path ids child
          end
      end
  end.

(** [cache.rs:506-530] RadixCache::match_prefix *)
Definition match_prefix (c : RadixCache) (input_ids : list N) : PrefixMatch :=
  let pages := match_path input_ids (root c) in
  let matched := len pages in
  mkPrefixMatch matched pages (slice_from matched input_ids).

(** [cache.rs:532-540] RadixCache::match_prefix_page_aligned *)
Definition match_prefix_page_aligned (c : RadixCache) (input_ids : list N) (page_size : N)
    : option PrefixMatch :=
  guard (0 < page_size);;
  let prefix_match := match_prefix c input_ids in
  let aligned_token_count := matched_token_count prefix_match / page_size * page_size in
  Some (mkPrefixMatch aligned_token_count
          (slice_to aligned_token_count (cache_pages prefix_match))
          (slice_from aligned_token_count input_ids)).

(** ** The abstract map *)

(** The slot stored for the token sequence [key], if any. *)
Fixpoint radix_get (node : RadixNode) (key : list N) : option CachePageId :=
  match key with
  | [] => cache_page node
  | k :: key' => child ← children node !! k; radix_get child key'
  end.

(** The slot an insertion of [ids] at [pages] stores for [key]. *)
Definition inserted_page (ids : list N) (pages : list CachePageId) (key : list N) : option CachePageId :=
  if decide (key ≠ [] ∧ key `prefix_of` ids) then pages !! Nat.pred (length key) else None.

Lemma radix_get_default key : radix_get RadixNode_default key = None.
Proof. by destruct key. Qed.

Lemma insert_path_get ids pages node key :
  length ids = length pages → key ≠ [] →
  radix_get (insert_path (zip ids pages) node) key =
  match inserted_page ids pages key with Some p => Some p | None => radix_get node key end.
Proof.
  unfold inserted_page. revert pages node key.
  induction ids as [|i ids IH]; intros [|p pages] node [|k key] Hlen Hne; try done.
  simpl. destruct (decide (k = i)) as [->|Hki].
  - rewrite lookup_insert_eq. cbn [mbind option_bind]. destruct key as [|k' key].
    + rewrite decide_True by (split; [done|]; apply prefix_cons, prefix_nil). simpl.
      clear. destruct (zip ids pages) as [|[]]; done.
    + rewrite IH by (simpl in *; congruence).
      assert (radix_get (mkRadixNode (Some p) (children (default RadixNode_default (children node !! i)))) (k' :: key)
              = (children node !! i) ≫= λ child, radix_get child (k' :: key)) as ->.
      { simpl. destruct (children node !! i); simpl; [done|]. by rewrite lookup_empty. }
      destruct (decide (k' :: key `prefix_of` ids)) as [Hp|Hp].
      * rewrite !decide_True by (split; [done|]; by try apply prefix_cons). done.
      * rewrite !decide_False; [done|intros [_ H]|intros [_ H]]; [by apply prefix_cons_inv_2 in H|done].
  - rewrite lookup_insert_ne by done. rewrite decide_False; [done|].
    intros [_ H]. by apply prefix_cons_inv_1 in H.
Qed.

(** ** Matching, in closed form *)

Lemma match_path_prefix ids node : (length (match_path ids node) ≤ length ids)%nat.
Proof.
  revert node. induction ids as [|i ids IH]; intros node; simpl; [done|].
  destruct (children node !! i) as [c|]; simpl; [|lia]. destruct (cache_page c); simpl; [|lia].
  specialize (IH c). lia.
Qed.

Lemma match_path_lookup ids node i p :
  match_path ids node !! i = Some p → radix_get node (take (S i) ids) = Some p.
Proof.
  revert node i. induction ids as [|j ids IH]; intros node i; [done|]. cbn [match_path].
  destruct (children node !! j) as [c|] eqn:Hc; [|done]. destruct (cache_page c) as [q|] eqn:Hq; [|done].
  destruct i as [|i]; simpl; rewrite Hc; simpl.
  - by intros [= ->].
  - apply IH.
Qed.

Lemma match_path_stop ids node :
  (length (match_path ids node) < length ids)%nat →
  radix_get node (take (S (length (match_path ids node))) ids) = None.
Proof.
  revert node. induction ids as [|j ids IH]; intros node; simpl; [lia|].
  destruct (children node !! j) as [c|] eqn:Hc; simpl; rewrite ?Hc; [|done].
  destruct (cache_page c) as [q|] eqn:Hq; simpl; rewrite ?Hc; simpl; [|done].
  intros. apply IH. lia.
Qed.

(** Matching is determined by the abstract map. *)
Lemma match_path_complete ids node n :
  (n ≤ length ids)%nat → (∀ i, (i < n)%nat → is_Some (radix_get node (take (S i) ids))) →
  (n ≤ length (match_path ids node))%nat.
Proof.
  intros Hn Hall. destruct (decide (n ≤ length (match_path ids node))%nat) as [|Hlt]; [done|].
  destruct (Hall (length (match_path ids node))) as [x Hx]; [lia|].
  rewrite match_path_stop in Hx by lia. done.
Qed.

(** ** Refinement: the trie implements a map over token prefixes *)

(** The trie [node] stores exactly the entries of the map [m]. *)
Definition radix_repr (node : RadixNode) (m : gmap (list N) CachePageId) : Prop :=
  ∀ key, key ≠ [] → radix_get node key = m !! key.

(** Specification of insertion: one entry per non-empty prefix of [ids]. *)
Fixpoint spec_insert (done ids : list N) (pages : list CachePageId)
    (m : gmap (list N) CachePageId) : gmap (list N) CachePageId :=
  match ids, pages with
  | i :: ids', p :: pages' => spec_insert (done ++ [i]) ids' pages' (<[done ++ [i] := p]> m)
  | _, _ => m
  end.

(** Specification of matching: follow the prefixes while they are stored. *)
Fixpoint spec_match (done ids : list N) (m : gmap (list N) CachePageId) : list CachePageId :=
  match ids with
  | [] => []
  | i :: ids' =>
      match m !! (done ++ [i]) with
      | None => []
      | Some p => p :: spec_match (done ++ [i]) ids' m
      end
  end.

Lemma spec_insert_lookup dn ids pages m key :
  length ids = length pages →
  spec_insert dn ids pages m !! key =
  match (if decide (dn `prefix_of` key) then inserted_page ids pages (drop (length dn) key) else None) with
  | Some p => Some p | None => m !! key end.
Proof.
  unfold inserted_page. revert dn pages m. induction ids as [|i ids IH]; intros dn [|p pages] m Hlen; try done; simpl.
  { case_decide; [|done]. rewrite decide_False; [done|]. intros [? ?%prefix_nil_inv]. done. }
  rewrite IH by (simpl in *; congruence). rewrite length_app. simpl.
  destruct (decide (dn `prefix_of` key)) as [[k ->]|Hn].
  2:{ rewrite decide_False; [|intros [k ->]; apply Hn; rewrite <-(assoc_L (++)); by eexists].
      rewrite lookup_insert_ne; [done|]. intros <-. apply Hn. by eexists. }
  rewrite drop_app_length. destruct k as [|j k].
  { rewrite app_nil_r. rewrite decide_False; [|intros [k Hk]; apply (f_equal length) in Hk; rewrite !length_app in Hk; simpl in Hk; lia].
    rewrite lookup_insert_ne; [|intros Hk; apply (f_equal length) in Hk; rewrite length_app in Hk; simpl in Hk; lia].
    rewrite decide_False by tauto. done. }
  destruct (decide (i = j)) as [<-|Hij].
  - rewrite decide_True by (exists k; by rewrite <-(assoc_L (++))).
    rewrite <-drop_drop, drop_app_length. simpl. rewrite drop_0. destruct k as [|l k].
    + rewrite decide_False by tauto. rewrite lookup_insert_eq, decide_True; [done|].
      split; [done|]. apply prefix_cons, prefix_nil.
    + rewrite lookup_insert_ne; [|intros Hk; apply (f_equal length) in Hk; rewrite !length_app in Hk; simpl in Hk; lia].
      destruct (decide (l :: k `prefix_of` ids)) as [Hp|Hp].
      * rewrite !decide_True by (split; [done|]; by try apply prefix_cons). done.
      * rewrite !decide_False; [done|intros [_ H]|intros [_ H]]; [by apply prefix_cons_inv_2 in H|done].
  - rewrite decide_False; [|intros [k' Hk]; rewrite <-(assoc_L (++)) in Hk; simplify_list_eq].
    rewrite lookup_insert_ne by (intros Hk; simplify_list_eq).
    rewrite decide_False; [done|]. intros [_ H]. by apply prefix_cons_inv_1 in H.
Qed.

Lemma insert_path_repr ids pages node m :
  length ids = length pages → radix_repr node m →
  radix_repr (insert_path (zip ids pages) node) (spec_insert [] ids pages m).
Proof.
  intros Hlen Hr key Hk. rewrite insert_path_get by done. rewrite spec_insert_lookup by done.
  rewrite decide_True by apply prefix_nil. simpl. rewrite drop_0. by rewrite Hr.
Qed.

(** The sub-trie reached by following [dn]. *)
Lemma match_path_repr_from ids node m dn :
  (∀ key, key ≠ [] → radix_get node key = m !! (dn ++ key)) →
  match_path ids node = spec_match dn ids m.
Proof.
  revert node dn. induction ids as [|i ids IH]; intros node dn Hr; [done|]. simpl.
  pose proof (Hr [i] ltac:(done)) as Hi. simpl in Hi. rewrite <-Hi.
  destruct (children node !! i) as [c|] eqn:Hc; simpl; [|done].
  destruct (cache_page c) eqn:Hp; [|done]. f_equal. apply IH. intros key Hk.
  rewrite <-(assoc_L (++)). rewrite <-Hr by done. simpl. by rewrite Hc.
Qed.

Lemma radix_repr_empty : radix_repr RadixNode_default ∅.
Proof. intros key _. by rewrite radix_get_default, lookup_empty. Qed.

(** [p] is the slot of some stored token. *)
Definition radix_stores (node : RadixNode) (p : CachePageId) : Prop :=
  ∃ key, key ≠ [] ∧ radix_get node key = Some p.

Lemma insert_path_stores ids pages node p :
  length ids = length pages →
  radix_stores (insert_path (zip ids pages) node) p → p ∈ pages ∨ radix_stores node p.
Proof.
  intros Hlen (key&Hk&Hg). rewrite insert_path_get in Hg by done. unfold inserted_page in Hg.
  case_decide; [|right; by exists key]. destruct (pages !! _) eqn:Hp; simplify_eq.
  - left. by eapply list_elem_of_lookup_2.
  - right. by exists key.
Qed.

Lemma match_path_stores ids node p : p ∈ match_path ids node → radix_stores node p.
Proof.
  intros [i Hi]%list_elem_of_lookup. pose proof (lookup_lt_Some _ _ _ Hi).
  pose proof (match_path_prefix ids node). exists (take (S i) ids). split; [|by apply match_path_lookup].
  destruct ids; simpl in *; [lia|done].
Qed.

Lemma match_prefix_aligned_eq c ids ps :
  0 < ps →
  let matched := len (match_path ids (root c)) / ps * ps in
  match_prefix_page_aligned c ids ps =
  Some (mkPrefixMatch matched (slice_to matched (match_path ids (root c))) (slice_from matched ids)).
Proof. intros. unfold match_prefix_page_aligned. by rewrite option_guard_True. Qed.

(** After an insertion every extension of the sequence starts with its slots. *)
Lemma insert_match_path c ids pages rest :
  len ids = len pages →
  take (length pages) (match_path (ids ++ rest) (root (insert c ids pages).2)) = pages.
Proof.
  intros Hlen. assert (length ids = length pages) as Hl by (unfold len in Hlen; lia).
  unfold insert. rewrite (proj2 (N.eqb_eq _ _) Hlen). cbn -[match_path insert_path].
  assert (∀ i, (i < length pages)%nat →
    radix_get (insert_path (zip ids pages) (root c)) (take (S i) (ids ++ rest)) = pages !! i) as Hget.
  { intros i Hi. rewrite take_app_le by lia. rewrite insert_path_get by (done || apply take_S_not_nil; lia).
    unfold inserted_page. rewrite decide_True.
    2:{ split; [apply take_S_not_nil; lia|]. exists (drop (S i) ids). by rewrite take_drop. }
    rewrite length_take, Nat.min_l by lia. simpl.
    destruct (lookup_lt_is_Some_2 pages i) as [p ->]; [lia|done]. }
  set (mp := match_path _ _).
  assert (length pages ≤ length mp)%nat as Hge.
  { apply match_path_complete; [rewrite length_app; lia|]. intros i Hi. rewrite Hget by done.
    by apply lookup_lt_is_Some_2. }
  apply list_eq. intros i. destruct (decide (i < length pages)%nat).
  - rewrite lookup_take_lt by done. destruct (lookup_lt_is_Some_2 mp i) as [p Hp]; [lia|].
    rewrite Hp. symmetry. rewrite <-(Hget i) by done. by apply match_path_lookup.
  - rewrite !lookup_ge_None_2; [done|lia|rewrite length_take; lia].
Qed.

(** ** Properties *)

Definition example_cache : RadixCache := (insert RadixCache_default [7; 8; 9] [0; 1; 2]).2.

(** C12. Insertion refines the abstract map: when the lengths agree it stores
    one slot per non-empty prefix of the tokens, overwriting what was there and
    leaving every other key alone; when they differ it returns the mismatch and
    changes nothing. *)
Theorem radix_insert_refines c m ids pages :
  radix_repr (root c) m →
  (len ids = len pages →
     (insert c ids pages).1 = Ok () ∧
     radix_repr (root (insert c ids pages).2) (spec_insert [] ids pages m)) ∧
  (len ids ≠ len pages →
     insert c ids pages = (Err (TokenPageLengthMismatch (len ids) (len pages)), c)).
Proof.
  intros Hr. unfold insert. destruct (N.eqb_spec (len ids) (len pages)) as [Heq|Hne]; simpl.
  - split; [|done]. intros _. split; [done|]. apply insert_path_repr; [|done].
    unfold len in Heq. lia.
  - split; [done|]. done.
Qed.

Lemma radix_insert_refines_witness :
  (len [7; 8] = len [3; 4] →
     (insert RadixCache_default [7; 8] [3; 4]).1 = Ok () ∧
     radix_repr (root (insert RadixCache_default [7; 8] [3; 4]).2) (spec_insert [] [7; 8] [3; 4] ∅)) ∧
  (len [7; 8] ≠ len [3; 4] →
     insert RadixCache_default [7; 8] [3; 4] =
       (Err (TokenPageLengthMismatch (len [7; 8]) (len [3; 4])), RadixCache_default)).
Proof. exact (radix_insert_refines RadixCache_default ∅ [7; 8] [3; 4] radix_repr_empty). Defined.

(** C36. Prefix matching returns the longest stored prefix: the slots are those
    the map stores for the successive prefixes, matched and remaining tokens
    make up the input, and the next prefix, if the input has one, is not
    stored. *)
Theorem match_prefix_longest c ids :
  let m := match_prefix c ids in
  let n := N.to_nat (matched_token_count m) in
  matched_token_count m = len (cache_pages m) ∧
  ids = take n ids ++ remaining_input_ids m ∧
  (∀ i p, cache_pages m !! i = Some p → radix_get (root c) (take (S i) ids) = Some p) ∧
  ((n < length ids)%nat → radix_get (root c) (take (S n) ids) = None).
Proof.
  simpl. unfold slice_from, len. rewrite Nat2N.id. split; [done|]. split; [by rewrite take_drop|].
  split; [intros i p; apply match_path_lookup|apply match_path_stop].
Qed.

(** A sequence that was inserted is matched in full with the inserted slots,
    whatever the cache held before, also as a prefix of a longer prompt. *)
Theorem insert_match_roundtrip c ids pages rest :
  len ids = len pages →
  let c' := (insert c ids pages).2 in
  take (length pages) (cache_pages (match_prefix c' (ids ++ rest))) = pages ∧
  match_prefix c' ids = mkPrefixMatch (len pages) pages [].
Proof.
  intros Hlen. cbv zeta. split; [by apply insert_match_path|].
  pose proof (insert_match_path c ids pages [] Hlen) as Htake. rewrite app_nil_r in Htake.
  assert (length ids = length pages) as Hl by (unfold len in Hlen; lia).
  rewrite take_ge in Htake by (rewrite <-Hl; apply match_path_prefix).
  unfold match_prefix. rewrite Htake. f_equal. unfold slice_from, len. rewrite Nat2N.id, <-Hl. by apply drop_all.
Qed.

Lemma insert_match_roundtrip_witness :
  let c' := (insert example_cache [7; 5] [4; 6]).2 in
  take 2 (cache_pages (match_prefix c' ([7; 5] ++ [1]))) = [4; 6] ∧
  match_prefix c' [7; 5] = mkPrefixMatch (len [4; 6]) [4; 6] [].
Proof. exact (insert_match_roundtrip example_cache [7; 5] [4; 6] [1] eq_refl). Defined.

(** Page-aligned matching panics only on a zero page size; otherwise it
    returns a multiple of the page size, at most a page short of the longest
    match, with one slot per matched token and the rest of the input. *)
Theorem match_prefix_page_aligned_correct c ids ps :
  match match_prefix_page_aligned c ids ps with
  | None => ps = 0
  | Some m =>
      0 < ps ∧ matched_token_count m mod ps = 0 ∧
      matched_token_count m ≤ len (match_path ids (root c)) < matched_token_count m + ps ∧
      len (cache_pages m) = matched_token_count m ∧
      cache_pages m `prefix_of` match_path ids (root c) ∧
      ids = slice_to (matched_token_count m) ids ++ remaining_input_ids m
  end.
Proof.
  destruct (decide (0 < ps)) as [Hps|Hps].
  2:{ unfold match_prefix_page_aligned. rewrite option_guard_False by done. cbn. lia. }
  rewrite match_prefix_aligned_eq by done. set (L := match_path ids (root c)). cbn -[N.div N.mul len].
  pose proof (N.div_mod (len L) ps ltac:(lia)) as Hd. pose proof (N.mod_lt (len L) ps ltac:(lia)) as Hm.
  pose proof (N_div_mul_le (len L) ps). split; [done|]. split; [apply N.Div0.mod_mul|].
  split; [revert Hd Hm; generalize (len L / ps) (len L mod ps); lia|].
  rewrite len_slice_to. split; [lia|]. split.
  - unfold slice_to. by apply prefix_take.
  - unfold slice_to, slice_from. by rewrite take_drop.
Qed.
