(* ===== verification/BlockHash.v ===== *)
(** * Block hash chain ([crates/sglang-srt/src/cache.rs], [compute_sglang_block_hashes])

    A prompt is cut in blocks; each block's digest covers the digest of the
    block before it and its own token ids, and the first eight bytes of the
    digest, read big-endian, are the block's [i64] hash.  SHA-256 comes from the
    [sha2] crate and is a parameter; a [Sha256] hasher fed by successive
    [update]s digests the concatenation of what it was fed. *)

From S2P Require Import Prelude.

(** ** Chunks of a slice *)

Fixpoint chunks_fuel {A} (fuel : nat) (n : nat) (l : list A) : list (list A) :=
  match fuel with
  | O => []
  | S f => match l with [] => [] | _ => take n l :: chunks_fuel f n (drop n l) end
  end.

(** [slice::chunks(n)]; the length of the slice is fuel enough for [n > 0]. *)
Definition chunks {A} (n : nat) (l : list A) : list (list A) := chunks_fuel (length l) n l.

Lemma chunks_fuel_irrel {A} f1 f2 n (l : list A) :
  (0 < n)%nat → (length l ≤ f1)%nat → (length l ≤ f2)%nat → chunks_fuel f1 n l = chunks_fuel f2 n l.
Proof.
  intros Hn. revert f2 l. induction f1 as [|f1 IH]; intros [|f2] [|x l] H1 H2; simpl in *; try lia; try done.
  f_equal. apply IH; rewrite length_drop; simpl; lia.
Qed.

Lemma chunks_cons {A} n (l : list A) :
  (0 < n)%nat → l ≠ [] → chunks n l = take n l :: chunks n (drop n l).
Proof.
  intros Hn Hl. destruct l as [|x l]; [done|]. unfold chunks at 1. cbn [length chunks_fuel]. f_equal.
  apply chunks_fuel_irrel; [done| |done]. rewrite length_drop. simpl. lia.
Qed.


(** Chunks of a prefix made of [k] whole chunks. *)
Lemma chunks_take {A} n k (l : list A) :
  (0 < n)%nat → (k * n ≤ length l)%nat → chunks n (take (k * n) l) = take k (chunks n l).
Proof.
  intros Hn. revert l. induction k as [|k IH]; intros l Hk; [by rewrite !take_0|].
  assert (l ≠ []) as Hl by (destruct l; simpl in *; [lia|done]).
  rewrite (chunks_cons n l) by done. rewrite chunks_cons by
    (done || (intros Hnil; apply (f_equal length) in Hnil; rewrite length_take in Hnil; simpl in *; lia)).
  simpl. f_equal.
  - rewrite take_take. f_equal. lia.
  - rewrite skipn_firstn_comm, <-IH by (rewrite length_drop; simpl in *; lia). do 2 f_equal. lia.
Qed.

Lemma len_chunks {A} (bs : N) (l : list A) : 0 < bs → len (chunks (N.to_nat bs) l) = div_ceil (len l) bs.
Proof.
  intros Hbs. remember (length l) as m eqn:Hm. revert l Hm.
  induction m as [m IH] using lt_wf_ind. intros l ->.
  destruct (decide (l = [])) as [->|Hl]; [done|].
  assert (0 < length l)%nat by (destruct l; simpl; [done|lia]).
  rewrite chunks_cons, len_cons by (done || lia).
  rewrite (IH (length (drop (N.to_nat bs) l))); [|rewrite length_drop; lia|done].
  unfold len. rewrite length_drop. remember (N.of_nat (length l)) as L eqn:HL.
  replace (N.of_nat (length l - N.to_nat bs)) with (L - bs) by lia. unfold div_ceil.
  destruct (decide (L ≤ bs)) as [Hle|Hgt].
  - replace (L - bs) with 0 by lia. rewrite N.Div0.mod_0_l, N.Div0.div_0_l. simpl.
    destruct (decide (L = bs)) as [->|].
    + by rewrite N.Div0.mod_same, N.div_same by lia.
    + rewrite N.mod_small, N.div_small by lia. destruct (N.eqb_spec L 0); lia.
  - assert (L mod bs = (L - bs) mod bs ∧ L / bs = (L - bs) / bs + 1) as [-> ->].
    { rewrite <-(N.Div0.mod_add (L - bs) 1), <-N.div_add by lia. split; f_equal; lia. }
    destruct (_ =? 0); lia.
Qed.

(** ** Bytes *)

(** [u32::to_le_bytes]. *)
Definition u32_to_le_bytes (x : N) : list N :=
  [x mod 256; x / 256 mod 256; x / 65536 mod 256; x / 16777216 mod 256].

(** A big-endian byte list as an unsigned number. *)
Definition be_bytes_to_u64 (bs : list N) : N := foldl (λ acc b, acc * 256 + b) 0 bs.

(** Two's complement reading of a 64-bit pattern. *)
Definition u64_as_i64 (x : N) : Z :=
  if x <? 2 ^ 63 then Z.of_N x else (Z.of_N x - 2 ^ 64)%Z.

(** [cache.rs:121-125] sglang_sha256_digest_to_i64 *)
Definition sglang_sha256_digest_to_i64 (digest : list N) : Z :=
  u64_as_i64 (be_bytes_to_u64 (take 8 digest)).

Lemma be_bytes_bound bs acc k :
  acc < 256 ^ k → Forall (λ b, b < 256) bs →
  foldl (λ acc b, acc * 256 + b) acc bs < 256 ^ (k + len bs).
Proof.
  revert acc k. induction bs as [|b bs IH]; intros acc k Hacc Hbs; cbn [foldl].
  - unfold len. simpl. by rewrite N.add_0_r.
  - inversion_clear Hbs. rewrite len_cons. replace (k + (len bs + 1)) with (k + 1 + len bs) by lia.
    apply IH; [|done]. rewrite N.pow_add_r. lia.
Qed.

Lemma digest_to_i64_range digest :
  Forall (λ b, b < 256) digest → (- 2 ^ 63 ≤ sglang_sha256_digest_to_i64 digest < 2 ^ 63)%Z.
Proof.
  intros Hd. unfold sglang_sha256_digest_to_i64, u64_as_i64, be_bytes_to_u64.
  pose proof (be_bytes_bound (take 8 digest) 0 0 ltac:(done) (Forall_take _ 8 _ Hd)) as Hb.
  assert (foldl (λ acc b, acc * 256 + b) 0 (take 8 digest) < 2 ^ 64) as Hlt.
  { eapply N.lt_le_trans; [exact Hb|]. change (2 ^ 64) with (256 ^ 8). apply N.pow_le_mono_r; [done|].
    unfold len. rewrite length_take. lia. }
  destruct (N.ltb_spec (foldl (λ acc b, acc * 256 + b) 0 (take 8 digest)) (2 ^ 63)); lia.
Qed.

Section Hash.
Context (sha256 : list N → list N).

(** [cache.rs:127-136] sglang_hash_block *)
Definition sglang_hash_block (parent_digest : option (list N)) (input_ids : list N) : list N :=
  sha256 (default [] parent_digest ++ (input_ids ≫= u32_to_le_bytes)).

(** The loop over the blocks, with the parent digest it carries. *)
(** [cache.rs:110-116] compute_sglang_block_hashes (loop) *)
Fixpoint hash_blocks (parent_digest : option (list N)) (blocks : list (list N)) : list Z :=
  match blocks with
  | [] => []
  | block :: blocks' =>
      let digest := sglang_hash_block parent_digest block in
      sglang_sha256_digest_to_i64 digest :: hash_blocks (Some digest) blocks'
  end.

(** [cache.rs:103-119] compute_sglang_block_hashes *)
Definition compute_sglang_block_hashes (input_ids : list N) (block_size : N) : option (list Z) :=
  guard (0 < block_size);;
  match input_ids with
  | [] => Some []
  | _ => Some (hash_blocks None (chunks (N.to_nat block_size) input_ids))
  end.

Lemma compute_hashes_eq ids bs :
  0 < bs → compute_sglang_block_hashes ids bs = Some (hash_blocks None (chunks (N.to_nat bs) ids)).
Proof. intros. unfold compute_sglang_block_hashes. rewrite option_guard_True by done. by destruct ids. Qed.

Lemma length_hash_blocks p blocks : length (hash_blocks p blocks) = length blocks.
Proof. revert p. induction blocks; intros; simpl; auto. Qed.

Lemma take_hash_blocks k p blocks : take k (hash_blocks p blocks) = hash_blocks p (take k blocks).
Proof. revert p blocks. induction k; intros p [|b blocks]; simpl; try done. by f_equal. Qed.

Lemma hash_blocks_range p blocks :
  (∀ m, Forall (λ b, b < 256) (sha256 m)) →
  Forall (λ h, (- 2 ^ 63 ≤ h < 2 ^ 63)%Z) (hash_blocks p blocks).
Proof.
  intros Hsha. revert p. induction blocks as [|b bs IH]; intros p; simpl; [constructor|].
  constructor; [by apply digest_to_i64_range, Hsha|apply IH].
Qed.

(** Hashing panics only on a zero block size.  Otherwise there is one hash
    per started block, each in the range of [i64]. *)
Theorem block_hashes_shape ids bs :
  (∀ m, Forall (λ b, b < 256) (sha256 m)) →
  match compute_sglang_block_hashes ids bs with
  | None => bs = 0
  | Some hs => 0 < bs ∧ len hs = div_ceil (len ids) bs ∧ Forall (λ h, (- 2 ^ 63 ≤ h < 2 ^ 63)%Z) hs
  end.
Proof.
  intros Hsha. destruct (decide (0 < bs)) as [Hbs|Hbs].
  - rewrite compute_hashes_eq by done. split; [done|]. split; [|by apply hash_blocks_range].
    rewrite <-(len_chunks bs) by done. unfold len. by rewrite length_hash_blocks.
  - unfold compute_sglang_block_hashes. rewrite option_guard_False by done. cbn. lia.
Qed.

(** Hashes are stable under extension: the first [k] hashes of a prompt are
    the hashes of its first [k] whole blocks, so prompts that agree on those
    tokens agree on those hashes. *)
Theorem block_hashes_prefix_stable ids ids' bs k hs hs' :
  compute_sglang_block_hashes ids bs = Some hs →
  compute_sglang_block_hashes ids' bs = Some hs' →
  k * bs ≤ len ids → slice_to (k * bs) ids `prefix_of` ids' →
  compute_sglang_block_hashes (slice_to (k * bs) ids) bs = Some (slice_to k hs) ∧
  slice_to k hs = slice_to k hs'.
Proof.
  intros H1 H2 Hk Hpre.
  assert (0 < bs) as Hbs.
  { revert H1. unfold compute_sglang_block_hashes. by case_guard. }
  rewrite compute_hashes_eq in * by done. simplify_eq. unfold slice_to in *.
  replace (N.to_nat (k * bs)) with (N.to_nat k * N.to_nat bs)%nat in * by lia.
  assert (N.to_nat k * N.to_nat bs ≤ length ids)%nat by (unfold len in Hk; lia).
  rewrite !take_hash_blocks, chunks_take by lia. split; [done|]. f_equal.
  destruct Hpre as [rest ->]. rewrite <-!chunks_take; try lia.
  - f_equal. rewrite take_app_le by (rewrite length_take; lia). rewrite take_take. f_equal. lia.
  - rewrite length_app, length_take. lia.
Qed.
End Hash.

(** A stand-in digest, 32 bytes long, for the witnesses. *)
Definition toy_sha256 (m : list N) : list N := replicate 32 (foldl (λ acc b, (acc * 31 + b + 1) mod 256) 7 m).

Lemma toy_sha256_bytes m : Forall (λ b, b < 256) (toy_sha256 m).
Proof.
  apply Forall_replicate. destruct m as [|b m] using rev_ind; [done|]. rewrite foldl_app.
  apply N.mod_lt. done.
Qed.

Lemma block_hashes_shape_witness :
  match compute_sglang_block_hashes toy_sha256 [1; 2; 3; 4; 5] 2 with
  | None => (2 : N) = 0
  | Some hs => 0 < 2 ∧ len hs = div_ceil (len [1; 2; 3; 4; 5]) 2 ∧ Forall (λ h, (- 2 ^ 63 ≤ h < 2 ^ 63)%Z) hs
  end.
Proof. exact (block_hashes_shape toy_sha256 [1; 2; 3; 4; 5] 2 toy_sha256_bytes). Defined.

Lemma block_hashes_prefix_stable_witness :
  ∃ hs hs', compute_sglang_block_hashes toy_sha256 [1; 2; 3; 4; 5] 2 = Some hs ∧
    compute_sglang_block_hashes toy_sha256 [1; 2; 3; 4; 9; 9] 2 = Some hs' ∧
    slice_to 2 hs = slice_to 2 hs'.
Proof.
  eexists _, _. split; [by vm_compute|]. split; [by vm_compute|].
  apply (block_hashes_prefix_stable toy_sha256 [1; 2; 3; 4; 5] [1; 2; 3; 4; 9; 9] 2 2);
    [by vm_compute|by vm_compute|done|]. by exists [9; 9].
Defined.
