(* ===== verification/StateEvents.v ===== *)
(** * KV state events ([crates/sglang-srt/src/transfer/state_events.rs])

    When a prefill chunk is materialized the scheduler publishes a
    [BlockStoredEvent] with the block hashes of the chunk and the hash of the
    block before it.  The publisher trait is a type class; the no-op, recording
    and composite publishers are its instances.  The ZeroMQ publisher and its wire
    format are in [KvWire]; the broadcast publisher is a channel of a library. *)

From S2P Require Import Prelude Types BlockHash.

(** [state_events.rs:18-23] ReusableBoundary *)
Record ReusableBoundary : Type := mkReusableBoundary {
  start_token : N;
  end_token : N;
  tier : string;
}.

(** [state_events.rs:34-36] ReusableBoundary::token_count *)
Definition token_count (b : ReusableBoundary) : N := saturating_sub (end_token b) (start_token b).

(** [state_events.rs:41-53] BlockStoredEvent *)
Record BlockStoredEvent : Type := mkBlockStoredEvent {
  event_request_id : RequestId;
  block_hashes : list Z;
  parent_block_hash : option Z;
  token_ids : list N;
  block_size : N;
  event_data_parallel_rank : Z;
  event_prompt_tokens_processed : N;
  total_prompt_tokens : N;
  is_final_chunk : bool;
  boundary : ReusableBoundary;
}.

(** [state_events.rs:96-100] BlockRemovedEvent *)
Record BlockRemovedEvent : Type := mkBlockRemovedEvent {
  removed_block_hashes : list Z;
  removed_data_parallel_rank : Z;
}.

Section Event.
Context (sha256 : list N → list N).

(** The slices [full_prompt[start..end]] and [prefix_hashes[start_block_idx..]]
    panic when the start is past the end. *)
(** [state_events.rs:56-92] BlockStoredEvent::from_chunk *)
Definition from_chunk (request_id : RequestId) (full_prompt : list N) (chunk_start chunk_end : N)
    (bs : N) (data_parallel_rank : Z) : option BlockStoredEvent :=
  guard (0 < bs);;
  let start := chunk_start in
  let total := len full_prompt in
  let end_ := N.min chunk_end total in
  guard (start ≤ end_);;
  let chunk_tokens := slice_from start (slice_to end_ full_prompt) in
  prefix_hashes ← compute_sglang_block_hashes sha256 (slice_to end_ full_prompt) bs;
  let start_block_idx := start / bs in
  let parent := if 0 <? start_block_idx then prefix_hashes !! N.to_nat (start_block_idx - 1) else None in
  guard (start_block_idx ≤ len prefix_hashes);;
  Some (mkBlockStoredEvent request_id (slice_from start_block_idx prefix_hashes) parent chunk_tokens
          bs data_parallel_rank end_ total (total <=? end_) (mkReusableBoundary start end_ "GPU")).

Lemma from_chunk_total rid prompt s e bs rank :
  0 < bs → s ≤ N.min e (len prompt) → is_Some (from_chunk rid prompt s e bs rank).
Proof.
  intros Hbs Hs. unfold from_chunk. rewrite !option_guard_True by done. cbn [mbind option_bind].
  rewrite compute_hashes_eq by done. cbn [mbind option_bind].
  rewrite option_guard_True; [by eexists|].
  unfold len at 1. rewrite length_hash_blocks. fold (len (chunks (N.to_nat bs) (slice_to (N.min e (len prompt)) prompt))).
  rewrite len_chunks, len_slice_to by done. set (n := N.min _ _) in *.
  transitivity (N.min n (len prompt) / bs); [apply N.Div0.div_le_mono; lia|].
  unfold div_ceil. destruct (_ =? _); lia.
Qed.

(** Hashing a prefix whose end is block aligned, or the whole prompt. *)
Lemma compute_hashes_aligned_prefix prompt bs k :
  0 < bs → k * bs ≤ len prompt →
  compute_sglang_block_hashes sha256 (slice_to (k * bs) prompt) bs =
  Some (slice_to k (hash_blocks sha256 None (chunks (N.to_nat bs) prompt))).
Proof.
  intros Hbs Hk. rewrite compute_hashes_eq by done. unfold slice_to.
  replace (N.to_nat (k * bs)) with (N.to_nat k * N.to_nat bs)%nat by lia.
  rewrite take_hash_blocks, chunks_take by (unfold len in *; lia). done.
Qed.

(** An event panics only on a zero block size or a chunk that starts past
    the end of the prompt.  It covers the tokens [start..min(end, len)], and its
    final flag says whether the prompt is complete. *)
Theorem from_chunk_tokens rid prompt s e bs rank :
  match from_chunk rid prompt s e bs rank with
  | None => bs = 0 ∨ N.min e (len prompt) < s
  | Some ev =>
      len (token_ids ev) = token_count (boundary ev) ∧
      slice_to s prompt ++ token_ids ev = slice_to (event_prompt_tokens_processed ev) prompt ∧
      (is_final_chunk ev = true ↔ len prompt ≤ e)
  end.
Proof.
  destruct (from_chunk rid prompt s e bs rank) as [ev|] eqn:Hev.
  - unfold from_chunk in Hev. repeat case_guard; simplify_option_eq.
    unfold token_count, saturating_sub. cbn. rewrite len_slice_from, len_slice_to. split; [lia|].
    split; [|rewrite N.leb_le; lia]. unfold slice_from, slice_to.
    etrans; [|apply (take_drop (N.to_nat s))]. rewrite take_take. do 2 f_equal. lia.
  - destruct (decide (0 < bs)); [|lia]. destruct (decide (s ≤ N.min e (len prompt))) as [Hs|]; [|lia].
    destruct (from_chunk_total rid prompt s e bs rank) as [? ?]; [done|done|congruence].
Qed.

(** On a block-aligned chunk the event carries the slice of the prompt's own
    hash chain for the chunk's blocks, and as parent the hash of the block just
    before: consecutive aligned chunks publish the chain without gap or
    overlap. *)
Theorem from_chunk_hash_chain rid prompt i j bs rank full :
  0 < bs → i ≤ j → j * bs ≤ len prompt →
  compute_sglang_block_hashes sha256 prompt bs = Some full →
  ∃ ev, from_chunk rid prompt (i * bs) (j * bs) bs rank = Some ev ∧
    block_hashes ev = slice_from i (slice_to j full) ∧
    parent_block_hash ev = (if 0 <? i then full !! N.to_nat (i - 1) else None).
Proof.
  intros Hbs Hij Hj Hfull. rewrite compute_hashes_eq in Hfull by done. simplify_eq.
  destruct (from_chunk_total rid prompt (i * bs) (j * bs) bs rank) as [ev Hev]; [done|nia|].
  exists ev. split; [done|]. unfold from_chunk in Hev. rewrite N.min_l in Hev by done.
  rewrite compute_hashes_aligned_prefix in Hev by done. rewrite N.div_mul in Hev by lia.
  simplify_option_eq. split; [done|]. destruct (N.ltb_spec 0 i); [|done].
  unfold slice_to. by rewrite lookup_take_lt by lia.
Qed.
End Event.

Lemma from_chunk_hash_chain_witness :
  ∃ full ev, compute_sglang_block_hashes toy_sha256 [1; 2; 3; 4; 5] 2 = Some full ∧
    from_chunk toy_sha256 "r" [1; 2; 3; 4; 5] 2 4 2 0 = Some ev ∧
    block_hashes ev = slice_from 1 (slice_to 2 full) ∧ parent_block_hash ev = full !! 0%nat.
Proof.
  eexists. destruct (from_chunk_hash_chain toy_sha256 "r" [1; 2; 3; 4; 5] 1 2 2 0 _
    ltac:(done) ltac:(done) ltac:(done) eq_refl) as (ev & H1 & H2 & H3).
  exists ev. split; [by vm_compute|]. split; [exact H1|]. split; [exact H2|exact H3].
Defined.

(** ** Publishers *)

(** A publisher is shared behind an [Arc] and records through interior
    mutability: publishing is a state transition of the publisher. *)
(** [state_events.rs:103-107] KvStateEventPublisher *)
Class KvStateEventPublisher (P : Type) : Type := {
  publish_block_stored : P → BlockStoredEvent → P;
  publish_block_removed : P → BlockRemovedEvent → P;
  publish_all_blocks_cleared : P → P;
}.

(** [state_events.rs:109-117] NoopKvStateEventPublisher *)
#[export] Instance NoopKvStateEventPublisher : KvStateEventPublisher unit := {
  publish_block_stored p _ := p;
  publish_block_removed p _ := p;
  publish_all_blocks_cleared p := p;
}.

(** [state_events.rs:121-125] RecordingKvStateEventPublisher *)
Record RecordingKvStateEventPublisher : Type := mkRecording {
  stored_events : list BlockStoredEvent;
  removed_events : list BlockRemovedEvent;
  cleared_count : N;
}.

(** [state_events.rs:144-148] RecordingKvStateEventPublisher::clear *)
Definition recording_clear (p : RecordingKvStateEventPublisher) := mkRecording [] [] 0.

(** [state_events.rs:151-163] KvStateEventPublisher for RecordingKvStateEventPublisher *)
#[export] Instance Recording_publisher : KvStateEventPublisher RecordingKvStateEventPublisher := {
  publish_block_stored p e := mkRecording (stored_events p ++ [e]) (removed_events p) (cleared_count p);
  publish_block_removed p e := mkRecording (stored_events p) (removed_events p ++ [e]) (cleared_count p);
  publish_all_blocks_cleared p := mkRecording (stored_events p) (removed_events p) (cleared_count p + 1);
}.

(** A composite forwards to each inner publisher; the inner publishers are
    distinct objects here. *)
(** [state_events.rs:208-226] KvStateEventPublisher for CompositeKvStateEventPublisher *)
#[export] Instance Composite_publisher {P} `{!KvStateEventPublisher P} : KvStateEventPublisher (list P) := {
  publish_block_stored ps e := (λ p, publish_block_stored p e) <$> ps;
  publish_block_removed ps e := (λ p, publish_block_removed p e) <$> ps;
  publish_all_blocks_cleared ps := publish_all_blocks_cleared <$> ps;
}.
