(* ===== verification/BlockIndex.v ===== *)
(** * Cache-aware worker selection ([crates/sglang-srt/src/cache.rs], [KvBlockPrefixIndex])

    A trie over block hashes records which workers hold which prefix.  The
    abstract view is [block_get]: the set of workers holding a given chain of
    blocks.  Selection combines the longest stored prefix with the workers'
    load. *)

From S2P Require Import Prelude Float32 BlockHash.

(** ** Data *)

(** [cache.rs:138-142] KvCacheWorkerId *)
Record KvCacheWorkerId : Type := mkKvCacheWorkerId {
  endpoint : string;
  dp_rank : N;
}.

#[export] Instance KvCacheWorkerId_eq_dec : EqDecision KvCacheWorkerId.
Proof. solve_decision. Defined.

#[export] Instance KvCacheWorkerId_countable : Countable KvCacheWorkerId.
Proof.
  apply (inj_countable' (λ w, (endpoint w, dp_rank w)) (λ p, mkKvCacheWorkerId p.1 p.2)).
  by intros [].
Defined.

(** [cache.rs:144-148] KvCacheWorkerSnapshot *)
Record KvCacheWorkerSnapshot : Type := mkKvCacheWorkerSnapshot {
  id : KvCacheWorkerId;
  active_load : N;
}.

(** [cache.rs:150-155] KvCacheAwareSelectionConfig *)
Record KvCacheAwareSelectionConfig : Type := mkSelectionConfig {
  cache_threshold : f32;
  balance_abs_threshold : N;
  balance_rel_threshold : f32;
}.

(** [cache.rs:157-165] KvCacheAwareSelectionConfig::default *)
Definition KvCacheAwareSelectionConfig_default : KvCacheAwareSelectionConfig :=
  mkSelectionConfig f32_half 32 f32_1_1.

(** [cache.rs:167-171] KvBlockPrefixMatch *)
Record KvBlockPrefixMatch : Type := mkKvBlockPrefixMatch {
  matched_blocks : N;
  match_workers : gset KvCacheWorkerId;
}.

(** [cache.rs:334-338] KvBlockPrefixNode *)
Inductive KvBlockPrefixNode : Type := mkBlockNode {
  workers : gset KvCacheWorkerId;
  block_children : gmap Z KvBlockPrefixNode;
}.

Definition KvBlockPrefixNode_default : KvBlockPrefixNode := mkBlockNode ∅ ∅.

(** [node.workers.is_empty() && node.children.is_empty()] *)
Definition node_is_empty (n : KvBlockPrefixNode) : bool :=
  bool_decide (workers n = ∅) && bool_decide (dom (block_children n) = ∅).

(** ** Operations (on the index's root node) *)

(** [cache.rs:179-185] KvBlockPrefixIndex::insert *)
Fixpoint insert (node : KvBlockPrefixNode) (worker : KvCacheWorkerId) (hashes : list Z)
    : KvBlockPrefixNode :=
  match hashes with
  | [] => node
  | h :: hs =>
      let child := default KvBlockPrefixNode_default (block_children node !! h) in
      let child' := insert (mkBlockNode ({[worker]} ∪ workers child) (block_children child)) worker hs in
      mkBlockNode (workers node) (<[h := child']> (block_children node))
  end.

(** The boolean says whether the node became empty. *)
(** [cache.rs:306-323] remove_worker_from_chain *)
Fixpoint remove_worker_from_chain (node : KvBlockPrefixNode) (worker : KvCacheWorkerId)
    (hashes : list Z) : bool * KvBlockPrefixNode :=
  match hashes with
  | [] => (node_is_empty node, node)
  | h :: hs =>
      let node' :=
        match block_children node !! h with
        | None => node
        | Some child =>
            let r := remove_worker_from_chain
                       (mkBlockNode (workers child ∖ {[worker]}) (block_children child)) worker hs in
            if r.1 then mkBlockNode (workers node) (delete h (block_children node))
            else mkBlockNode (workers node) (<[h := r.2]> (block_children node))
        end in
      (node_is_empty node', node')
  end.

(** [cache.rs:187-189] KvBlockPrefixIndex::remove *)
Definition remove (node : KvBlockPrefixNode) (worker : KvCacheWorkerId) (hashes : list Z) :=
  (remove_worker_from_chain node worker hashes).2.

(** [cache.rs:325-332] clear_worker_from_block_node *)
Fixpoint clear_worker_from_block_node (node : KvBlockPrefixNode) (worker : KvCacheWorkerId)
    : KvBlockPrefixNode :=
  match node with
  | mkBlockNode ws cs =>
      mkBlockNode (ws ∖ {[worker]})
        (omap (λ child,
           let child' := clear_worker_from_block_node child worker in
           if node_is_empty child' then None else Some child') cs)
  end.

(** [cache.rs:191-193] KvBlockPrefixIndex::clear_worker *)
Definition clear_worker (node : KvBlockPrefixNode) (worker : KvCacheWorkerId) :=
  clear_worker_from_block_node node worker.

(** [cache.rs:200-207] KvBlockPrefixIndex::match_prefix (loop) *)
Fixpoint match_blocks (node : KvBlockPrefixNode) (hashes : list Z) (m : KvBlockPrefixMatch)
    : KvBlockPrefixMatch :=
  match hashes with
  | [] => m
  | h :: hs =>
      match block_children node !! h with
      | None => m
      | Some child => match_blocks child hs (mkKvBlockPrefixMatch (matched_blocks m + 1) (workers child))
      end
  end.

(** [cache.rs:195-213] KvBlockPrefixIndex::match_prefix *)
Definition match_prefix (node : KvBlockPrefixNode) (hashes : list Z) : KvBlockPrefixMatch :=
  match_blocks node hashes (mkKvBlockPrefixMatch 0 ∅).

Definition max_load (l : list N) : N := foldr N.max 0 l.

(** [cache.rs:278-297] is_cache_aware_selection_imbalanced *)
Definition is_cache_aware_selection_imbalanced (candidates : list KvCacheWorkerSnapshot)
    (config : KvCacheAwareSelectionConfig) : bool :=
  match min_by_key (λ l, l) (active_load <$> candidates) with
  | None => false
  | Some min_load =>
      let max_load := max_load (active_load <$> candidates) in
      let absolute_diff := saturating_sub max_load min_load in
      let relative_threshold :=
        f32_to_usize (f32_mul (f32_of_usize min_load) (balance_rel_threshold config)) in
      (balance_abs_threshold config <? absolute_diff) && (relative_threshold <? max_load)
  end.

(** [cache.rs:299-304] min_load_worker *)
Definition min_load_worker (candidates : list KvCacheWorkerSnapshot) : option KvCacheWorkerId :=
  id <$> min_by_key active_load candidates.

(** [cache.rs:244-249] KvBlockPrefixIndex::select_cache_aware_worker_with_config (match_rate) *)
Definition match_rate (matched : KvBlockPrefixMatch) (hashes : list Z) : f32 :=
  match hashes with
  | [] => f32_zero
  | _ => f32_div (f32_of_usize (matched_blocks matched)) (f32_of_usize (len hashes))
  end.

(** [cache.rs:232-264] KvBlockPrefixIndex::select_cache_aware_worker_with_config *)
Definition select_cache_aware_worker_with_config (node : KvBlockPrefixNode)
    (candidates : list KvCacheWorkerSnapshot) (hashes : list Z)
    (config : KvCacheAwareSelectionConfig) : option KvCacheWorkerId :=
  match candidates with
  | [] => None
  | _ =>
      if is_cache_aware_selection_imbalanced candidates config then min_load_worker candidates
      else
        let matched := match_prefix node hashes in
        if (f32_lt (cache_threshold config) (match_rate matched hashes)
            && negb (bool_decide (match_workers matched = ∅)))%bool then
          match min_by_key active_load
                  (filter (λ c, id c ∈ match_workers matched) candidates) with
          | Some worker => Some (id worker)
          | None => min_load_worker candidates
          end
        else min_load_worker candidates
  end.

(** [cache.rs:215-230] KvBlockPrefixIndex::select_cache_aware_worker *)
Definition select_cache_aware_worker (node : KvBlockPrefixNode)
    (candidates : list KvCacheWorkerSnapshot) (hashes : list Z) (threshold : f32) :=
  select_cache_aware_worker_with_config node candidates hashes
    (mkSelectionConfig threshold usize_MAX f32_MAX).

(** [cache.rs:266-275] KvBlockPrefixIndex::select_cache_aware_worker_for_tokens *)
Definition select_cache_aware_worker_for_tokens (sha256 : list N → list N)
    (node : KvBlockPrefixNode) (candidates : list KvCacheWorkerSnapshot)
    (input_ids : list N) (block_size : N) (threshold : f32) : option (option KvCacheWorkerId) :=
  hashes ← compute_sglang_block_hashes sha256 input_ids block_size;
  Some (select_cache_aware_worker node candidates hashes threshold).

(** ** The abstract view *)

Fixpoint block_node (node : KvBlockPrefixNode) (path : list Z) : option KvBlockPrefixNode :=
  match path with
  | [] => Some node
  | h :: path' => child ← block_children node !! h; block_node child path'
  end.

Definition block_get (node : KvBlockPrefixNode) (path : list Z) : gset KvCacheWorkerId :=
  match block_node node path with Some n => workers n | None => ∅ end.

Lemma block_get_cons node h path :
  block_get node (h :: path) =
  match block_children node !! h with Some c => block_get c path | None => ∅ end.
Proof. unfold block_get. simpl. by destruct (block_children node !! h). Qed.

Lemma node_is_empty_true n : node_is_empty n = true ↔ workers n = ∅ ∧ block_children n = ∅.
Proof.
  unfold node_is_empty. rewrite andb_true_iff, !bool_decide_eq_true, dom_empty_iff_L. done.
Qed.

Lemma block_get_empty n path : node_is_empty n = true → block_get n path = ∅.
Proof.
  intros [Hw Hc]%node_is_empty_true. destruct path as [|h path]; [done|].
  rewrite block_get_cons, Hc, lookup_empty. done.
Qed.

Lemma insert_get node w hashes path :
  block_get (insert node w hashes) path =
  if decide (path ≠ [] ∧ path `prefix_of` hashes) then {[w]} ∪ block_get node path
  else block_get node path.
Proof.
  revert node path. induction hashes as [|h hs IH]; intros node [|k path]; cbn [insert].
  1, 3: by rewrite decide_False by tauto.
  { rewrite decide_False; [done|]. by intros [_ ?%prefix_nil_inv]. }
  rewrite !block_get_cons. simpl. destruct (decide (k = h)) as [->|Hkh].
  - rewrite lookup_insert_eq, IH. set (child := default _ _).
    assert (block_get (mkBlockNode ({[w]} ∪ workers child) (block_children child)) path =
            if decide (path = []) then {[w]} ∪ block_get child path else block_get child path) as ->.
    { by destruct path. }
    assert (block_get child path = match block_children node !! h with Some c => block_get c path | None => ∅ end) as ->.
    { unfold child. destruct (block_children node !! h); [done|]. by apply block_get_empty. }
    destruct path as [|k' path].
    + simpl. rewrite decide_True; [done|]. split; [done|]. apply prefix_cons, prefix_nil.
    + simpl. destruct (decide (k' :: path `prefix_of` hs)).
      * rewrite !decide_True by (split; [done|]; by try apply prefix_cons). done.
      * rewrite !decide_False; [done|intros [_ H]|intros [_ H]]; [by apply prefix_cons_inv_2 in H|done].
  - rewrite lookup_insert_ne by done. rewrite decide_False; [done|].
    intros [_ H]. by apply prefix_cons_inv_1 in H.
Qed.

Lemma remove_fst node w hashes :
  (remove_worker_from_chain node w hashes).1 = node_is_empty (remove_worker_from_chain node w hashes).2.
Proof. by destruct hashes. Qed.

Lemma remove_get node w hashes path :
  block_get (remove node w hashes) path =
  if decide (path ≠ [] ∧ path `prefix_of` hashes) then block_get node path ∖ {[w]}
  else block_get node path.
Proof.
  unfold remove. revert node path. induction hashes as [|h hs IH]; intros node [|k path]; cbn [remove_worker_from_chain snd].
  { by rewrite decide_False by tauto. }
  { rewrite decide_False; [done|]. by intros [_ ?%prefix_nil_inv]. }
  { rewrite decide_False by tauto. destruct (block_children node !! h); [|done]. by case_match. }
  destruct (block_children node !! h) as [child|] eqn:Hc; simpl.
  2:{ case_decide as Hd; [|done]. destruct Hd as [_ Hd]. pose proof (prefix_cons_inv_1 _ _ _ _ Hd) as ->.
      rewrite block_get_cons, Hc. set_solver. }
  set (child1 := mkBlockNode _ _).
  assert (∀ path, block_get (mkBlockNode (workers node)
            (if (remove_worker_from_chain child1 w hs).1 then delete h (block_children node)
             else <[h:=(remove_worker_from_chain child1 w hs).2]> (block_children node))) (h :: path) =
          block_get (remove_worker_from_chain child1 w hs).2 path) as Hh.
  { intros p. rewrite block_get_cons. simpl. rewrite remove_fst. destruct (node_is_empty _) eqn:He.
    - rewrite lookup_delete_eq. symmetry. by apply block_get_empty.
    - by rewrite lookup_insert_eq. }
  assert (∀ b (x y : gmap Z KvBlockPrefixNode), (if b : bool then mkBlockNode (workers node) x else mkBlockNode (workers node) y) =
            mkBlockNode (workers node) (if b then x else y)) as -> by (by intros []).
  destruct (decide (k = h)) as [->|Hkh].
  - rewrite Hh, IH, block_get_cons, Hc. unfold child1.
    destruct path as [|k' path].
    + rewrite decide_False by tauto. rewrite decide_True; [done|]. split; [done|]. apply prefix_cons, prefix_nil.
    + rewrite (block_get_cons (mkBlockNode _ _)), <-(block_get_cons child). simpl.
      destruct (decide (k' :: path `prefix_of` hs)).
      * rewrite !decide_True by (split; [done|]; by try apply prefix_cons). done.
      * rewrite !decide_False; [done|intros [_ H]|intros [_ H]]; [by apply prefix_cons_inv_2 in H|done].
  - rewrite !block_get_cons. simpl. rewrite decide_False; [|intros [_ H]; by apply prefix_cons_inv_1 in H].
    case_match; [by rewrite lookup_delete_ne|by rewrite lookup_insert_ne].
Qed.

Lemma clear_get node w path :
  block_get (clear_worker_from_block_node node w) path = block_get node path ∖ {[w]}.
Proof.
  revert node. induction path as [|k path IH]; intros [ws cs]; [done|].
  rewrite !block_get_cons. simpl. rewrite lookup_omap. destruct (cs !! k) as [c|]; simpl; [|set_solver].
  rewrite <-IH. destruct (node_is_empty _) eqn:He; [|done]. symmetry. by apply block_get_empty.
Qed.

(** ** No dead branches

    Below the root every node holds a worker or leads to one. *)
Inductive pruned : KvBlockPrefixNode → Prop :=
  | pruned_intro node :
      (∀ h c, block_children node !! h = Some c → node_is_empty c = false) →
      (∀ h c, block_children node !! h = Some c → pruned c) → pruned node.

Lemma pruned_children ws ws' cs : pruned (mkBlockNode ws cs) → pruned (mkBlockNode ws' cs).
Proof. inversion_clear 1. by constructor. Qed.

Lemma insert_nonempty node w hashes : workers node ≠ ∅ → node_is_empty (insert node w hashes) = false.
Proof.
  intros Hw. apply not_true_iff_false. intros [H _]%node_is_empty_true. by destruct hashes.
Qed.

(** Replacing or adding a non-empty pruned child keeps a node pruned. *)
Lemma pruned_insert ws cs h c :
  pruned (mkBlockNode ws cs) → node_is_empty c = false → pruned c →
  pruned (mkBlockNode ws (<[h := c]> cs)).
Proof.
  inversion_clear 1 as [? H1 H2]. intros Hc Hp. constructor; simpl; intros k c';
    rewrite lookup_insert_Some; intros [[_ <-]|[_ ?]]; eauto.
Qed.

Lemma insert_pruned node w hashes : pruned node → pruned (insert node w hashes).
Proof.
  revert node. induction hashes as [|h hs IH]; intros [ws cs] Hp; [done|]. simpl.
  apply pruned_insert; [done|apply insert_nonempty; simpl; set_solver|]. apply IH.
  destruct (cs !! h) as [[wc cc]|] eqn:Hh; simpl.
  - inversion_clear Hp as [? _ H2]. eapply pruned_children. by eapply H2.
  - constructor; simpl; intros ??; by rewrite lookup_empty.
Qed.

Lemma remove_pruned node w hashes : pruned node → pruned (remove node w hashes).
Proof.
  unfold remove. revert node. induction hashes as [|h hs IH]; intros [ws cs] Hp; [done|].
  simpl. destruct (cs !! h) as [[wc cc]|] eqn:Hh; simpl; [|done].
  rewrite remove_fst. destruct (node_is_empty _) eqn:He; inversion Hp as [? H1 H2]; subst.
  - constructor; simpl; intros k c; rewrite lookup_delete_Some; intros [_ ?]; eauto.
  - apply pruned_insert; [done|done|]. apply IH. eapply pruned_children. by eapply H2.
Qed.

Lemma clear_pruned node w : pruned node → pruned (clear_worker_from_block_node node w).
Proof.
  induction 1 as [[ws cs] H1 H2 IH]. constructor; simpl; intros h c; rewrite lookup_omap;
    (destruct (cs !! h) as [c0|] eqn:Hh; simpl; [|done]);
    (destruct (node_is_empty _) eqn:He; [done|]); intros [= <-]; [done|by eapply IH].
Qed.

(** A non-empty pruned node leads to a worker. *)
Lemma pruned_alive node : pruned node → node_is_empty node = false → ∃ path, block_get node path ≠ ∅.
Proof.
  induction 1 as [[ws cs] Hc Hp IH]. intros He. destruct (decide (ws = ∅)) as [->|]; [|by exists []].
  destruct (map_choose cs) as (h & c & Hh).
  { intros ->. by vm_compute in He. }
  destruct (IH _ _ Hh) as [path ?]; [by eapply Hc|]. exists (h :: path). rewrite block_get_cons. simpl. by rewrite Hh.
Qed.

(** ** Matching and selection *)

Lemma match_blocks_spec node hashes m :
  ∃ k, (k ≤ length hashes)%nat ∧
    matched_blocks (match_blocks node hashes m) = matched_blocks m + N.of_nat k ∧
    (k = 0%nat → match_workers (match_blocks node hashes m) = match_workers m) ∧
    (k ≠ 0%nat → match_workers (match_blocks node hashes m) = block_get node (take k hashes)) ∧
    (∀ i, (i ≤ k)%nat → is_Some (block_node node (take i hashes))) ∧
    ((k < length hashes)%nat → block_node node (take (S k) hashes) = None).
Proof.
  revert node m. induction hashes as [|h hs IH]; intros node m.
  { exists 0%nat. simpl. repeat split; try done; try lia. intros i Hi. by rewrite take_nil. }
  cbn [match_blocks]. destruct (block_children node !! h) as [c|] eqn:Hc.
  - destruct (IH c (mkKvBlockPrefixMatch (matched_blocks m + 1) (workers c))) as (k&Hk&H1&H2&H3&H4&H5).
    exists (S k). simpl in *. split; [lia|]. split; [lia|]. split; [done|]. split.
    { intros _. rewrite block_get_cons, Hc. destruct k; [by rewrite H2|by apply H3]. }
    split; [|intros; rewrite Hc; simpl; apply H5; lia].
    intros [|i] Hi; simpl; [done|]. rewrite Hc. simpl. apply H4. lia.
  - exists 0%nat. simpl. split; [lia|]. split; [lia|]. split; [done|]. split; [done|].
    split; [|by rewrite Hc]. intros i Hi. assert (i = 0%nat) as -> by lia. done.
Qed.

Lemma min_load_worker_spec candidates w :
  min_load_worker candidates = Some w →
  ∃ c, c ∈ candidates ∧ id c = w ∧ ∀ c', c' ∈ candidates → active_load c ≤ active_load c'.
Proof.
  unfold min_load_worker. rewrite fmap_Some. intros (c&Hc&->). apply min_by_key_spec in Hc as [? ?]. eauto.
Qed.

(** ** Properties *)

(** The index's updates act on the set of workers stored for each block
    chain: an insertion adds the worker to every non-empty prefix of its
    hashes, a removal takes it off exactly those, and clearing a worker takes
    it off every chain. *)
Theorem block_index_updates node w hashes path :
  block_get (insert node w hashes) path =
    (if decide (path ≠ [] ∧ path `prefix_of` hashes) then {[w]} ∪ block_get node path
     else block_get node path) ∧
  block_get (remove node w hashes) path =
    (if decide (path ≠ [] ∧ path `prefix_of` hashes) then block_get node path ∖ {[w]}
     else block_get node path) ∧
  block_get (clear_worker node w) path = block_get node path ∖ {[w]}.
Proof. split; [apply insert_get|]. split; [apply remove_get|apply clear_get]. Qed.

(** No update leaves a dead branch: starting from a pruned index, every node
    that remains below the root still leads to a worker, so the index's size is
    bounded by the chains in use. *)
Theorem block_index_pruned node w hashes :
  pruned node →
  let ok n := pruned n ∧ ∀ h c, block_children n !! h = Some c → ∃ path, block_get c path ≠ ∅ in
  ok (insert node w hashes) ∧ ok (remove node w hashes) ∧ ok (clear_worker node w).
Proof.
  intros Hp ok. assert (∀ n, pruned n → ok n) as Hok.
  { intros n Hn. split; [done|]. intros h c Hc. inversion_clear Hn as [? H1 H2].
    apply pruned_alive; eauto. }
  split; [by apply Hok, insert_pruned|]. split; [by apply Hok, remove_pruned|by apply Hok, clear_pruned].
Qed.

Lemma pruned_default : pruned KvBlockPrefixNode_default.
Proof. constructor; simpl; intros ??; by rewrite lookup_empty. Qed.

Lemma block_index_pruned_witness :
  let ok n := pruned n ∧ ∀ h c, block_children n !! h = Some c → ∃ path, block_get c path ≠ ∅ in
  let w := mkKvCacheWorkerId "a" 0 in
  ok (insert KvBlockPrefixNode_default w [1%Z]) ∧ ok (remove KvBlockPrefixNode_default w [1%Z]) ∧
  ok (clear_worker KvBlockPrefixNode_default w).
Proof. exact (block_index_pruned KvBlockPrefixNode_default (mkKvCacheWorkerId "a" 0) [1%Z] pruned_default). Defined.

(** Matching stops at the first block the index does not hold: it reports
    the length of the longest chain of stored blocks and the workers that hold
    that chain. *)
Theorem block_match_longest node hashes :
  let m := match_prefix node hashes in
  let k := N.to_nat (matched_blocks m) in
  (k ≤ length hashes)%nat ∧
  match_workers m = (if decide (k = 0%nat) then ∅ else block_get node (take k hashes)) ∧
  (∀ i, (i ≤ k)%nat → is_Some (block_node node (take i hashes))) ∧
  ((k < length hashes)%nat → block_node node (take (S k) hashes) = None).
Proof.
  unfold match_prefix. cbn zeta.
  destruct (match_blocks_spec node hashes (mkKvBlockPrefixMatch 0 ∅)) as (k&Hk&H1&H2&H3&H4&H5).
  assert (N.to_nat (matched_blocks (match_blocks node hashes (mkKvBlockPrefixMatch 0 ∅))) = k) as ->.
  { rewrite H1. simpl. lia. }
  split; [done|]. split; [|done]. case_decide; [by rewrite H2|by rewrite H3].
Qed.

(** Selection returns a candidate whenever there is one.  Under load
    imbalance, or when the match rate does not exceed the threshold, or when no
    candidate holds the matched blocks, it is a candidate of least load;
    otherwise it is the least loaded candidate among those holding the matched
    blocks. *)
Theorem select_worker_correct node candidates hashes config :
  let m := match_prefix node hashes in
  let hit := f32_lt (cache_threshold config) (match_rate m hashes) in
  let holders := filter (λ c, id c ∈ match_workers m) candidates in
  match select_cache_aware_worker_with_config node candidates hashes config with
  | None => candidates = []
  | Some w => ∃ c, c ∈ candidates ∧ id c = w ∧
      if (negb (is_cache_aware_selection_imbalanced candidates config) && hit
          && negb (bool_decide (holders = [])))%bool
      then id c ∈ match_workers m ∧ ∀ c', c' ∈ holders → active_load c ≤ active_load c'
      else ∀ c', c' ∈ candidates → active_load c ≤ active_load c'
  end.
Proof.
  intros m hit holders. unfold select_cache_aware_worker_with_config.
  destruct candidates as [|c0 cs]; [done|]. set (candidates := c0 :: cs) in *.
  assert (∃ w, min_load_worker candidates = Some w ∧ ∃ c, c ∈ candidates ∧ id c = w ∧
            ∀ c', c' ∈ candidates → active_load c ≤ active_load c') as (w & Hw & Hmin).
  { eexists; split; [done|]. by apply min_load_worker_spec. }
  destruct (is_cache_aware_selection_imbalanced candidates config) eqn:Hi; cbn [negb andb]; [by rewrite Hw|].
  fold m. fold hit. destruct hit; cbn [negb andb]; [|by rewrite Hw].
  case_bool_decide as Hws; cbn [negb andb].
  { rewrite Hw. case_bool_decide as Hh; cbn [negb]; [done|]. exfalso. apply Hh.
    apply elem_of_nil_inv. intros x. unfold holders. rewrite list_elem_of_filter, Hws. set_solver. }
  fold holders. destruct (min_by_key active_load holders) as [c|] eqn:Hm.
  - apply min_by_key_spec in Hm as [Hin Hle]. exists c.
    pose proof Hin as Hin'. unfold holders in Hin'. rewrite list_elem_of_filter in Hin'. destruct Hin' as [? ?].
    split; [done|]. split; [done|]. rewrite bool_decide_false; [done|]. intros Hnil. rewrite Hnil in Hin. set_solver.
  - apply min_by_key_None in Hm as Hnil. rewrite Hw. rewrite bool_decide_true by done. done.
Qed.
