(* ===== verification/RecurrentState.v ===== *)
(** * Recurrent state slots and payloads ([crates/sglang-srt/src/recurrent_state.rs])

    [RecurrentStateSlots] hands device slots to requests, [RecurrentStatePayload]
    is the byte format in which a request's recurrent state is moved.  A [Vec]
    is a list in index order, a byte is an [N] below 256 and an [f32] of a
    payload is its bit pattern, an [N] below [2^32]: [to_le_bytes] and
    [from_le_bytes] move bit patterns. *)

From Stdlib Require Import Ascii.
From stdpp Require Import pretty.
From S2P Require Import Prelude Bytes Types.
#[local] Open Scope N_scope.

(** ** Slots *)

(** [recurrent_state.rs:101-113] RecurrentStateSlotError *)
Inductive RecurrentStateSlotError : Type :=
  | ZeroCapacity
  | CapacityTooLarge (capacity : N)
  | DuplicateRequest (request_id : string)
  | Exhausted (capacity assigned requested : N).

(** [recurrent_state.rs:7-10] RecurrentStateBatchSlots *)
Record RecurrentStateBatchSlots : Type := mkBatchSlots {
  slots : list N;
  newly_assigned : list N;
}.

(** [recurrent_state.rs:23-27] RecurrentStateSlots *)
Record RecurrentStateSlots : Type := mkSlots {
  capacity : N;
  free_slots : list N;
  assigned_slots : gmap string N;
}.

Definition u32_MAX : N := 2 ^ 32 - 1.

(** [recurrent_state.rs:30-41] RecurrentStateSlots::new *)
Definition RecurrentStateSlots_new (capacity : N) : Result RecurrentStateSlotError RecurrentStateSlots :=
  if capacity =? 0 then Err ZeroCapacity
  else if u32_MAX <? capacity then Err (CapacityTooLarge capacity)
  else Ok (mkSlots capacity (reverse (nrange 0 capacity)) ∅).

(** [Vec::pop]. *)
Definition vec_pop {A} (l : list A) : option (A * list A) :=
  x ← last l; Some (x, take (length l - 1) l).

(** [recurrent_state.rs:47-54] RecurrentStateSlots::assign_batch (duplicates) *)
Fixpoint first_duplicate (seen : gset string) (request_ids : list RequestId) : option string :=
  match request_ids with
  | [] => None
  | r :: rs => if decide (r ∈ seen) then Some r else first_duplicate ({[r]} ∪ seen) rs
  end.

(** [recurrent_state.rs:56-59] RecurrentStateSlots::assign_batch (required) *)
Definition required_slots (s : RecurrentStateSlots) (request_ids : list RequestId) : N :=
  len (filter (λ r, assigned_slots s !! r = None) request_ids).

(** The error inside the loop leaves the slots assigned so far in place. *)
(** [recurrent_state.rs:70-88] RecurrentStateSlots::assign_batch (loop) *)
Fixpoint assign_loop (s : RecurrentStateSlots) (request_ids : list RequestId) (out : RecurrentStateBatchSlots)
    : Result RecurrentStateSlotError RecurrentStateBatchSlots * RecurrentStateSlots :=
  match request_ids with
  | [] => (Ok out, s)
  | r :: rs =>
      match assigned_slots s !! r with
      | Some slot => assign_loop s rs (mkBatchSlots (slots out ++ [slot]) (newly_assigned out))
      | None =>
          match vec_pop (free_slots s) with
          | None => (Err (Exhausted (capacity s) (N.of_nat (size (assigned_slots s))) 1), s)
          | Some (slot, free) =>
              assign_loop (mkSlots (capacity s) free (<[r := slot]> (assigned_slots s))) rs
                (mkBatchSlots (slots out ++ [slot]) (newly_assigned out ++ [slot]))
          end
      end
  end.

(** [recurrent_state.rs:43-93] RecurrentStateSlots::assign_batch *)
Definition assign_batch (s : RecurrentStateSlots) (request_ids : list RequestId)
    : Result RecurrentStateSlotError RecurrentStateBatchSlots * RecurrentStateSlots :=
  match first_duplicate ∅ request_ids with
  | Some r => (Err (DuplicateRequest r), s)
  | None =>
      let required := required_slots s request_ids in
      if len (free_slots s) <? required then
        (Err (Exhausted (capacity s) (N.of_nat (size (assigned_slots s))) required), s)
      else assign_loop s request_ids (mkBatchSlots [] [])
  end.

(** [recurrent_state.rs:95-99] RecurrentStateSlots::release *)
Definition release (s : RecurrentStateSlots) (r : RequestId) : option N * RecurrentStateSlots :=
  match assigned_slots s !! r with
  | None => (None, s)
  | Some slot => (Some slot, mkSlots (capacity s) (free_slots s ++ [slot]) (delete r (assigned_slots s)))
  end.

(** ** Payloads *)

(** [recurrent_state.rs:144-147] RecurrentLayerStatePayload *)
Record RecurrentLayerStatePayload : Type := mkLayerState {
  conv : list N;
  recurrent : list N;
}.

(** [recurrent_state.rs:150-153] RecurrentStatePayload *)
Record RecurrentStatePayload : Type := mkPayload {
  next_position : N;
  layer_states : list RecurrentLayerStatePayload;
}.

(** [recurrent_state.rs:156-156] RecurrentStatePayload::MAGIC *)
Definition MAGIC : N := 0x53474C52.

(** [recurrent_state.rs:165-176] RecurrentStatePayload::to_bytes (layer) *)
Definition layer_to_bytes (layer : RecurrentLayerStatePayload) : list N :=
  to_le_bytes 4 (len (conv layer)) ++ (conv layer ≫= to_le_bytes 4) ++
  to_le_bytes 4 (len (recurrent layer)) ++ (recurrent layer ≫= to_le_bytes 4).

(** [recurrent_state.rs:158-178] RecurrentStatePayload::to_bytes *)
Definition to_bytes (p : RecurrentStatePayload) : list N :=
  to_le_bytes 4 MAGIC ++ to_le_bytes 8 (next_position p) ++ to_le_bytes 4 (len (layer_states p)) ++
  (layer_states p ≫= layer_to_bytes).

(** [bytes[offset..offset + n]] read as a little-endian integer; where the code
    reads, the range is in bounds. *)
Definition le_at (bytes : list N) (offset n : N) : N :=
  from_le_bytes (slice_to n (slice_from offset bytes)).

(** One length-prefixed vector: [None] for the overflow of the byte length. *)
(** [recurrent_state.rs:209-233] RecurrentStatePayload::from_bytes (vector) *)
Definition read_vector (what : string) (bytes : list N) (offset : N) : Result string (list N * N) :=
  if len bytes <? offset + 4 then Err ("unexpected EOF reading " +:+ what +:+ " length")%string
  else
    let count := le_at bytes offset 4 in
    let offset := offset + 4 in
    let? byte_len := ok_or (checked_mul count 4) (what +:+ " byte length overflow")%string in
    if len bytes <? offset + byte_len then Err ("unexpected EOF reading " +:+ what +:+ " data")%string
    else Ok ((λ i, le_at bytes (offset + i * 4) 4) <$> nrange 0 count, offset + byte_len).

(** [recurrent_state.rs:208-262] RecurrentStatePayload::from_bytes (layers) *)
Fixpoint read_layers (layer_count : nat) (bytes : list N) (offset : N)
    (acc : list RecurrentLayerStatePayload) : Result string (list RecurrentLayerStatePayload * N) :=
  match layer_count with
  | O => Ok (acc, offset)
  | S n =>
      let? r := read_vector "conv" bytes offset in
      let? r' := read_vector "recurrent" bytes r.2 in
      read_layers n bytes r'.2 (acc ++ [mkLayerState r.1 r'.1])
  end.

Definition hex_digit (d : N) : ascii := ascii_of_N (if d <? 10 then 48 + d else 55 + d).

(** The digits of [{:X}] in front of [acc]; eight are enough for a [u32]. *)
Fixpoint hex_digits (fuel : nat) (n : N) (acc : string) : string :=
  match fuel with
  | O => acc
  | S fuel' =>
      let acc := String (hex_digit (n mod 16)) acc in
      if n / 16 =? 0 then acc else hex_digits fuel' (n / 16) acc
  end.

Definition magic_error (magic : N) : string :=
  "invalid recurrent state magic: expected 0x53474C52, found 0x" +:+ hex_digits 8 magic "".

Definition trailing_error (offset total : N) : string :=
  "trailing bytes in recurrent state payload: read " +:+ pretty offset +:+ ", total " +:+ pretty total.

(** [recurrent_state.rs:180-275] RecurrentStatePayload::from_bytes *)
Definition from_bytes (bytes : list N) : Result string RecurrentStatePayload :=
  if len bytes <? 16 then Err "recurrent state payload too short"%string
  else if negb (le_at bytes 0 4 =? MAGIC) then Err (magic_error (le_at bytes 0 4))
  else
    let next_position := le_at bytes 4 8 in
    let layer_count := le_at bytes 12 4 in
    let? r := read_layers (N.to_nat layer_count) bytes 16 [] in
    if negb (r.2 =? len bytes) then Err (trailing_error r.2 (len bytes))
    else Ok (mkPayload next_position r.1).

(** ** Slot facts *)

(** The slots of the pool are divided between the free list and the requests. *)
Definition assigned_list (s : RecurrentStateSlots) : list N := (map_to_list (assigned_slots s)).*2.

Definition slots_wf (s : RecurrentStateSlots) : Prop :=
  free_slots s ++ assigned_list s ≡ₚ nrange 0 (capacity s).

Inductive slots_reachable : RecurrentStateSlots → Prop :=
  | sr_new n s : RecurrentStateSlots_new n = Ok s → slots_reachable s
  | sr_assign s ids : slots_reachable s → slots_reachable (assign_batch s ids).2
  | sr_release s r : slots_reachable s → slots_reachable (release s r).2.

Lemma vec_pop_Some {A} (l : list A) x l' : vec_pop l = Some (x, l') ↔ l = l' ++ [x].
Proof.
  unfold vec_pop. split.
  - destruct (last l) as [y|] eqn:Hl; [|done]. cbn [mbind option_bind]. intros [= -> <-].
    apply last_Some in Hl as [l0 ->]. rewrite length_app. cbn. replace (length l0 + 1 - 1)%nat with (length l0) by lia.
    by rewrite take_app_length.
  - intros ->. rewrite last_snoc, length_app. cbn. replace (length l' + 1 - 1)%nat with (length l') by lia.
    by rewrite take_app_length.
Qed.

Lemma vec_pop_None {A} (l : list A) : vec_pop l = None ↔ l = [].
Proof. unfold vec_pop. destruct (last l) eqn:Hl; [|by apply last_None in Hl]. split; [done|]. by intros ->. Qed.

Lemma assign_new_wf s free r slot :
  slots_wf s → free_slots s = free ++ [slot] → assigned_slots s !! r = None →
  slots_wf (mkSlots (capacity s) free (<[r := slot]> (assigned_slots s))).
Proof.
  unfold slots_wf, assigned_list. intros Hwf Hf Hr. cbn. rewrite <-Hwf, Hf, map_to_list_insert by done. cbn.
  by rewrite <-(assoc_L (++)).
Qed.

Lemma assigned_injective s r r' slot :
  slots_wf s → assigned_slots s !! r = Some slot → assigned_slots s !! r' = Some slot → r = r'.
Proof.
  intros Hwf Hr Hr'. destruct (decide (r = r')) as [|Hne]; [done|]. exfalso.
  assert (NoDup (assigned_list s)) as Hnd.
  { pose proof (NoDup_nrange 0 (capacity s)) as Hn. unfold slots_wf in Hwf. rewrite <-Hwf in Hn. by apply NoDup_app in Hn as (_&_&?). }
  unfold assigned_list in Hnd. rewrite <-(map_to_list_delete (assigned_slots s) r slot Hr) in Hnd. cbn in Hnd.
  apply NoDup_cons in Hnd as [Hin _]. apply Hin. apply list_elem_of_fmap. exists (r', slot). split; [done|].
  apply elem_of_map_to_list. by rewrite lookup_delete_ne.
Qed.

Lemma first_duplicate_None seen ids :
  first_duplicate seen ids = None ↔ NoDup ids ∧ ∀ r, r ∈ ids → r ∉ seen.
Proof.
  revert seen. induction ids as [|r ids IH]; intros seen; cbn [first_duplicate].
  { split; [|done]. intros _. split; [apply NoDup_nil_2|]. set_solver. }
  case_decide as Hr; [split; [done|]; intros [_ Hs]; exfalso; by apply (Hs r); [left|]|].
  rewrite IH, NoDup_cons. split.
  - intros [Hnd Hs]. split; [split; [|done]|]; [intros Hin; apply (Hs r Hin); set_solver|set_solver].
  - intros [[Hn Hnd] Hs]. split; [done|]. intros r' Hin. assert (r' ≠ r) by (by intros ->). set_solver.
Qed.

Lemma first_duplicate_Some seen ids r :
  first_duplicate seen ids = Some r → r ∈ ids.
Proof.
  revert seen. induction ids as [|r' ids IH]; intros seen; cbn [first_duplicate]; [done|].
  case_decide; [intros [= ->]; by left|]. intros Hd%IH. by right.
Qed.

(** The loop: every request gets its slot, new ones from the end of the free list. *)
Lemma assign_loop_spec ids : ∀ s out,
  slots_wf s → NoDup ids → required_slots s ids ≤ len (free_slots s) →
  ∃ sl new s', assign_loop s ids out = (Ok (mkBatchSlots (slots out ++ sl) (newly_assigned out ++ new)), s') ∧
    slots_wf s' ∧ capacity s' = capacity s ∧ assigned_slots s ⊆ assigned_slots s' ∧
    free_slots s = free_slots s' ++ reverse new ∧ len new = required_slots s ids ∧
    Forall2 (λ r slot, assigned_slots s' !! r = Some slot) ids sl ∧
    dom (assigned_slots s') = dom (assigned_slots s) ∪ list_to_set ids ∧
    new = omap (λ p : RequestId * N, match assigned_slots s !! p.1 with None => Some p.2 | _ => None end) (zip ids sl).
Proof.
  induction ids as [|r ids IH]; intros s [os on] Hwf Hnd Hreq; cbn [assign_loop slots newly_assigned].
  { exists [], [], s. rewrite !app_nil_r. split_and!; try done; set_solver. }
  apply NoDup_cons in Hnd as [Hr Hnd]. unfold required_slots in Hreq.
  destruct (assigned_slots s !! r) as [slot|] eqn:Hs.
  - rewrite filter_cons_False in Hreq by congruence.
    destruct (IH s (mkBatchSlots (os ++ [slot]) on) Hwf Hnd Hreq) as (sl&new&s'&->&Hwf'&Hc&Hsub&Hf&Hl&Hall&Hd&Hn).
    exists (slot :: sl), new, s'. cbn [slots newly_assigned]. rewrite <-(assoc_L (++)). split_and!; try done.
    + unfold required_slots in *. by rewrite filter_cons_False by congruence.
    + constructor; [by eapply lookup_weaken|done].
    + rewrite Hd. cbn. apply elem_of_dom_2 in Hs. set_solver.
    + cbn. by rewrite Hs.
  - rewrite filter_cons_True, len_cons in Hreq by done.
    destruct (vec_pop (free_slots s)) as [[slot free]|] eqn:Hp.
    2:{ apply vec_pop_None in Hp. rewrite Hp, len_nil in Hreq. lia. }
    apply vec_pop_Some in Hp. set (s1 := mkSlots (capacity s) free _).
    assert (∀ r', r' ∈ ids → assigned_slots s1 !! r' = assigned_slots s !! r') as Hsame
      by (intros r' Hin; subst s1; cbn; apply lookup_insert_ne; by intros ->).
    assert (required_slots s1 ids = required_slots s ids) as Hreq1.
    { unfold required_slots. f_equal. clear -Hsame. induction ids as [|r' ids IH]; [done|].
      pose proof (Hsame r' ltac:(by left)) as Hr'. specialize (IH (λ x Hx, Hsame x (list_elem_of_further x r' ids Hx))).
      destruct (decide (assigned_slots s !! r' = None)).
      - rewrite !filter_cons_True by congruence. by f_equal.
      - by rewrite !filter_cons_False by congruence. }
    destruct (IH s1 (mkBatchSlots (os ++ [slot]) (on ++ [slot]))) as (sl&new&s'&->&Hwf'&Hc&Hsub&Hf&Hl&Hall&Hd&Hn);
      [by apply assign_new_wf|done|rewrite Hreq1; unfold required_slots; subst s1; cbn; rewrite Hp, len_app, len_cons, len_nil in Hreq; lia|].
    exists (slot :: sl), (slot :: new), s'. cbn [slots newly_assigned]. rewrite <-!(assoc_L (++)). split_and!; try done.
    + etrans; [|done]. by apply insert_subseteq.
    + subst s1. cbn in Hf. by rewrite Hp, Hf, reverse_cons, (assoc_L (++)).
    + rewrite len_cons, Hl, Hreq1. unfold required_slots. by rewrite filter_cons_True, len_cons by done.
    + constructor; [|done]. eapply lookup_weaken; [|done]. subst s1. cbn. by rewrite lookup_insert_eq.
    + rewrite Hd. subst s1. cbn. rewrite dom_insert_L. set_solver.
    + cbn. rewrite Hs, Hn. f_equal. clear -Hsame Hall. clearbody s1. revert sl Hall.
      induction ids as [|r' ids IH]; intros [|x sl] Hall; try done. apply Forall2_cons in Hall as [_ Hall].
      cbn. rewrite (Hsame r') by set_solver. rewrite (IH ltac:(set_solver) sl Hall). done.
Qed.

Lemma assign_batch_spec s ids :
  slots_wf s →
  match assign_batch s ids with
  | (Ok b, s') =>
      NoDup ids ∧ slots_wf s' ∧ capacity s' = capacity s ∧ assigned_slots s ⊆ assigned_slots s' ∧
      Forall2 (λ r slot, assigned_slots s' !! r = Some slot) ids (slots b) ∧
      dom (assigned_slots s') = dom (assigned_slots s) ∪ list_to_set ids ∧
      newly_assigned b = omap (λ p : RequestId * N,
        match assigned_slots s !! p.1 with None => Some p.2 | _ => None end) (zip ids (slots b))
  | (Err e, s') => s' = s ∧
      ((∃ r, e = DuplicateRequest r ∧ r ∈ ids ∧ ¬ NoDup ids) ∨
       (NoDup ids ∧ len (free_slots s) < required_slots s ids ∧
        e = Exhausted (capacity s) (N.of_nat (size (assigned_slots s))) (required_slots s ids)))
  end.
Proof.
  intros Hwf. unfold assign_batch. destruct (first_duplicate ∅ ids) as [r|] eqn:Hd.
  - split; [done|]. left. exists r. split; [done|]. split; [by eapply first_duplicate_Some|].
    intros Hnd. assert (first_duplicate ∅ ids = None) by (apply first_duplicate_None; set_solver). congruence.
  - apply first_duplicate_None in Hd as [Hnd _].
    destruct (N.ltb_spec (len (free_slots s)) (required_slots s ids)) as [Hlt|Hle]; [split; [done|]; by right|].
    destruct (assign_loop_spec ids s (mkBatchSlots [] []) Hwf Hnd Hle) as (sl&new&s'&->&Hwf'&Hc&Hsub&_&_&Hall&Hdom&Hn).
    cbn [slots newly_assigned app]. by split_and!.
Qed.

Lemma slot_release_wf s r : slots_wf s → slots_wf (release s r).2.
Proof.
  unfold slots_wf, release, assigned_list. intros Hwf. destruct (assigned_slots s !! r) as [slot|] eqn:Hr; [|done]. cbn.
  rewrite <-Hwf, <-(assoc_L (++)). apply Permutation_app_head. by rewrite <-(map_to_list_delete (assigned_slots s) r slot Hr).
Qed.

Lemma slots_reachable_wf s : slots_reachable s → slots_wf s.
Proof.
  induction 1 as [n s Hn|s ids _ IH|s r _ IH].
  - unfold RecurrentStateSlots_new in Hn. destruct (_ =? 0); [done|]. destruct (_ <? _); [done|]. injection Hn as <-.
    unfold slots_wf, assigned_list. cbn. rewrite map_to_list_empty, app_nil_r. apply reverse_Permutation.
  - pose proof (assign_batch_spec s ids IH) as Hs. destruct (assign_batch s ids) as [[b|e] s']; [by destruct Hs as (_&?&_)|].
    by destruct Hs as [-> _].
  - by apply slot_release_wf.
Qed.

(** ** Reading *)

Lemma slice_app {A} (pre mid post : list A) :
  slice_to (len mid) (slice_from (len pre) (pre ++ mid ++ post)) = mid.
Proof. unfold slice_to, slice_from, len. by rewrite !Nat2N.id, drop_app_length, take_app_length. Qed.

Lemma le_at_app pre mid post : le_at (pre ++ mid ++ post) (len pre) (len mid) = from_le_bytes mid.
Proof. unfold le_at. by rewrite slice_app. Qed.

Lemma le_at_encoded pre n x post :
  x < 256 ^ N.of_nat n → le_at (pre ++ to_le_bytes n x ++ post) (len pre) (N.of_nat n) = x.
Proof. intros Hx. rewrite <-(len_to_le n x), le_at_app. by apply from_to_le. Qed.

Lemma nrange_shift s e k : nrange (s + k) (e + k) = (λ i, i + k) <$> nrange s e.
Proof.
  unfold nrange. rewrite <-list_fmap_compose. replace (e + k - (s + k)) with (e - s) by lia.
  apply list_fmap_ext. intros i x _. cbn. lia.
Qed.

Lemma nrange_succ_l c : nrange 0 (c + 1) = 0 :: ((λ i, i + 1) <$> nrange 0 c).
Proof. rewrite nrange_cons by lia. f_equal. apply (nrange_shift 0 c 1). Qed.

Definition floats_at (bytes : list N) (offset count : N) : list N :=
  (λ i, le_at bytes (offset + i * 4) 4) <$> nrange 0 count.

Lemma floats_at_succ bytes offset c :
  floats_at bytes offset (c + 1) = le_at bytes offset 4 :: floats_at bytes (offset + 4) c.
Proof.
  unfold floats_at. rewrite nrange_succ_l, fmap_cons. f_equal; [f_equal; lia|].
  rewrite <-list_fmap_compose. apply list_fmap_ext. intros i x _. cbn. f_equal. lia.
Qed.

Lemma len_bind_le4 (v : list N) : len (v ≫= to_le_bytes 4) = len v * 4.
Proof. induction v as [|x v IH]; [done|]. rewrite bind_cons, len_app, len_to_le, len_cons, IH. lia. Qed.

Lemma floats_encode v : ∀ pre post,
  Forall is_u32 v → floats_at (pre ++ (v ≫= to_le_bytes 4) ++ post) (len pre) (len v) = v.
Proof.
  induction v as [|x v IH]; intros pre post Hv; [done|]. apply Forall_cons in Hv as [Hx Hv].
  rewrite len_cons, floats_at_succ, bind_cons, <-(assoc_L (++)). f_equal; [exact (le_at_encoded pre 4 x _ Hx)|].
  rewrite (assoc_L (++) pre). replace (len pre + 4) with (len (pre ++ to_le_bytes 4 x)) by (by rewrite len_app, len_to_le).
  by apply IH.
Qed.

Lemma floats_decode c : ∀ pre data post,
  len data = c * 4 → Forall is_byte data →
  (floats_at (pre ++ data ++ post) (len pre) c ≫= to_le_bytes 4) = data ∧
  Forall is_u32 (floats_at (pre ++ data ++ post) (len pre) c).
Proof.
  induction c as [|c IH] using N.peano_ind; intros pre data post Hl Hb.
  { assert (data = []) as -> by (apply len_0; lia). by split; [|constructor]. }
  rewrite <-N.add_1_r in *. rewrite floats_at_succ, bind_cons.
  destruct data as [|b0 [|b1 [|b2 [|b3 data]]]]; rewrite ?len_cons, ?len_nil in Hl; try lia.
  change (b0 :: b1 :: b2 :: b3 :: data) with ([b0; b1; b2; b3] ++ data) in *. apply Forall_app in Hb as [Hb4 Hb].
  pose proof (le_at_app pre [b0; b1; b2; b3] (data ++ post)) as Hat. change (len [b0; b1; b2; b3]) with 4 in Hat.
  rewrite <-(assoc_L (++)), Hat.
  rewrite (assoc_L (++) pre). replace (len pre + 4) with (len (pre ++ [b0; b1; b2; b3])) by (by rewrite len_app).
  destruct (IH (pre ++ [b0; b1; b2; b3]) data post) as [H1 H2]; [lia|done|]. split.
  - rewrite H1. f_equal. exact (to_from_le [b0; b1; b2; b3] Hb4).
  - constructor; [|done]. exact (from_le_bound [b0; b1; b2; b3] Hb4).
Qed.

Definition vector_bytes (v : list N) : list N := to_le_bytes 4 (len v) ++ (v ≫= to_le_bytes 4).

(** Vectors a length prefix of 32 bits can describe. *)
Definition vector_ok (v : list N) : Prop := len v < 2 ^ 32 ∧ Forall is_u32 v.

Record layer_ok (layer : RecurrentLayerStatePayload) : Prop := {
  lo_conv : vector_ok (conv layer);
  lo_recurrent : vector_ok (recurrent layer);
}.

Record payload_ok (p : RecurrentStatePayload) : Prop := {
  po_position : next_position p < 2 ^ 64;
  po_count : len (layer_states p) < 2 ^ 32;
  po_layers : Forall layer_ok (layer_states p);
}.

Lemma layer_to_bytes_eq l : layer_to_bytes l = vector_bytes (conv l) ++ vector_bytes (recurrent l).
Proof. unfold layer_to_bytes, vector_bytes. by rewrite <-(assoc_L (++)). Qed.

Lemma len_vector_bytes v : len (vector_bytes v) = 4 + len v * 4.
Proof. unfold vector_bytes. by rewrite len_app, len_to_le, len_bind_le4. Qed.

Lemma read_vector_encode what pre v post :
  vector_ok v →
  read_vector what (pre ++ vector_bytes v ++ post) (len pre) = Ok (v, len pre + len (vector_bytes v)).
Proof.
  intros [Hl Hv]. unfold read_vector. rewrite !len_app, len_vector_bytes.
  destruct (N.ltb_spec (len pre + (4 + len v * 4 + len post)) (len pre + 4)); [lia|].
  assert (le_at (pre ++ vector_bytes v ++ post) (len pre) 4 = len v) as ->.
  { unfold vector_bytes. rewrite <-(assoc_L (++)). exact (le_at_encoded pre 4 (len v) _ Hl). }
  unfold checked_mul. rewrite (proj2 (N.leb_le _ _)) by (unfold usize_MAX; lia). cbn [ok_or result_bind].
  destruct (N.ltb_spec (len pre + (4 + len v * 4 + len post)) (len pre + 4 + len v * 4)); [lia|].
  do 2 f_equal; [|lia]. fold (floats_at (pre ++ vector_bytes v ++ post) (len pre + 4) (len v)).
  unfold vector_bytes. rewrite <-(assoc_L (++)), (assoc_L (++) pre).
  replace (len pre + 4) with (len (pre ++ to_le_bytes 4 (len v))) by (by rewrite len_app, len_to_le).
  by apply floats_encode.
Qed.

Lemma read_vector_decode what pre rest v off :
  Forall is_byte rest → read_vector what (pre ++ rest) (len pre) = Ok (v, off) →
  ∃ post, rest = vector_bytes v ++ post ∧ off = len pre + len (vector_bytes v) ∧ vector_ok v.
Proof.
  intros Hb. unfold read_vector. rewrite len_app.
  destruct (N.ltb_spec (len pre + len rest) (len pre + 4)) as [|H4]; [done|].
  destruct rest as [|b0 [|b1 [|b2 [|b3 data]]]]; rewrite ?len_cons, ?len_nil in H4; try lia.
  change (b0 :: b1 :: b2 :: b3 :: data) with ([b0; b1; b2; b3] ++ data) in *. apply Forall_app in Hb as [Hb4 Hb].
  pose proof (le_at_app pre [b0; b1; b2; b3] data) as Hat. change (len [b0; b1; b2; b3]) with 4 in Hat. rewrite Hat.
  set (c := from_le_bytes [b0; b1; b2; b3]). assert (c < 2 ^ 32) as Hc by exact (from_le_bound [b0; b1; b2; b3] Hb4).
  destruct (checked_mul c 4) as [n|] eqn:Hn; cbn [ok_or result_bind]; [|done]. apply checked_mul_Some in Hn as [-> _].
  rewrite len_app. change (len [b0; b1; b2; b3]) with 4.
  destruct (N.ltb_spec (len pre + (4 + len data)) (len pre + 4 + c * 4)) as [|Hd]; [done|]. intros [= Hv Hoff].
  change (floats_at (pre ++ [b0; b1; b2; b3] ++ data) (len pre + 4) c = v) in Hv. subst off.
  pose proof (take_drop (N.to_nat (c * 4)) data) as Hdata. rewrite <-Hdata in Hv. rewrite (assoc_L (++) pre) in Hv.
  replace (len pre + 4) with (len (pre ++ [b0; b1; b2; b3])) in Hv by (by rewrite len_app).
  set (d := take (N.to_nat (c * 4)) data). assert (len d = c * 4) as Hld by (subst d; unfold len in *; rewrite length_take; lia).
  destruct (floats_decode c (pre ++ [b0; b1; b2; b3]) d (drop (N.to_nat (c * 4)) data) Hld) as [H1 H2];
    [by apply Forall_take|].
  subst d. rewrite Hv in H1, H2. assert (len v = c) as Hlv.
  { subst v. unfold floats_at. unfold len at 1. rewrite length_fmap. pose proof (len_nrange 0 c) as Hr. unfold len in Hr. lia. }
  exists (drop (N.to_nat (c * 4)) data). split; [|split; [|by split; [rewrite Hlv|]]].
  - unfold vector_bytes. rewrite H1, Hlv. unfold c. pose proof (to_from_le [b0; b1; b2; b3] Hb4) as Ht.
    cbn [length] in Ht. rewrite Ht. by rewrite <-(assoc_L (++)), take_drop.
  - rewrite len_vector_bytes, Hlv. lia.
Qed.

Lemma read_layers_encode ls : ∀ pre post acc,
  Forall layer_ok ls →
  read_layers (length ls) (pre ++ (ls ≫= layer_to_bytes) ++ post) (len pre) acc =
  Ok (acc ++ ls, len pre + len (ls ≫= layer_to_bytes)).
Proof.
  induction ls as [|l ls IH]; intros pre post acc Hls; cbn [length read_layers].
  { rewrite !app_nil_r. change (len ([] ≫= layer_to_bytes)) with 0. by rewrite N.add_0_r. }
  apply Forall_cons in Hls as [[Hc Hr] Hls]. rewrite bind_cons, layer_to_bytes_eq.
  rewrite <-!(assoc_L (++)), read_vector_encode by done. cbn [result_bind fst snd].
  rewrite (assoc_L (++) pre), <-len_app, read_vector_encode by done. cbn [result_bind fst snd].
  rewrite (assoc_L (++) (pre ++ _)), <-len_app, IH by done. destruct l as [cv rc]. cbn [conv recurrent].
  rewrite <-(assoc_L (++)). do 2 f_equal. rewrite !len_app. lia.
Qed.

Lemma read_layers_decode n : ∀ pre rest acc ls off,
  Forall is_byte rest → read_layers n (pre ++ rest) (len pre) acc = Ok (ls, off) →
  ∃ ls' post, ls = acc ++ ls' ∧ length ls' = n ∧ rest = (ls' ≫= layer_to_bytes) ++ post ∧
    off = len pre + len (ls' ≫= layer_to_bytes) ∧ Forall layer_ok ls'.
Proof.
  induction n as [|n IH]; intros pre rest acc ls off Hb; cbn [read_layers].
  { intros [= <- <-]. exists [], rest. rewrite app_nil_r. split_and!; try done; try constructor. change (len ([] ≫= layer_to_bytes)) with 0. lia. }
  rewrite result_bind_Ok. intros ([cv off1]&Hcv&Hrest). cbn [fst snd] in Hrest.
  apply result_bind_Ok in Hrest as ([rc off2]&Hrc&Hrest). cbn [fst snd] in Hrest.
  destruct (read_vector_decode _ _ _ _ _ Hb Hcv) as (post1&->&->&Hok1). apply Forall_app in Hb as [_ Hb].
  rewrite (assoc_L (++)), <-len_app in Hrc. destruct (read_vector_decode _ _ _ _ _ Hb Hrc) as (post2&->&->&Hok2).
  apply Forall_app in Hb as [_ Hb]. rewrite (assoc_L (++) pre), (assoc_L (++) (pre ++ _)), <-len_app in Hrest.
  destruct (IH _ _ _ _ _ Hb Hrest) as (ls'&post&->&Hn&->&->&Hok).
  exists (mkLayerState cv rc :: ls'), post. rewrite bind_cons, layer_to_bytes_eq. cbn [conv recurrent length].
  rewrite <-!(assoc_L (++)), !len_app. split_and!; [done|by rewrite Hn|done|lia|]. by constructor.
Qed.

Lemma split_header (bytes : list N) :
  16 ≤ len bytes →
  ∃ m q c rest, bytes = (m ++ q ++ c) ++ rest ∧ length m = 4%nat ∧ length q = 8%nat ∧ length c = 4%nat.
Proof.
  intros H16. exists (take 4 bytes), (take 8 (drop 4 bytes)), (take 4 (drop 12 bytes)), (drop 16 bytes).
  unfold len in H16. rewrite !length_take, !length_drop. split_and!; [|lia..].
  rewrite <-!(assoc_L (++)). rewrite <-(take_drop 4 bytes) at 1. f_equal.
  rewrite <-(take_drop 8 (drop 4 bytes)) at 1. f_equal. rewrite drop_drop. cbn [Nat.add].
  rewrite <-(take_drop 4 (drop 12 bytes)) at 1. by rewrite drop_drop.
Qed.

(** ** Properties *)

(** Decoding inverts encoding, for every payload whose position fits 64
    bits and whose vectors and layer count fit the 32-bit length fields. *)
Theorem payload_roundtrip p : payload_ok p → from_bytes (to_bytes p) = Ok p.
Proof.
  intros [Hp Hc Hl]. unfold to_bytes. set (body := layer_states p ≫= layer_to_bytes).
  set (bytes := to_le_bytes 4 MAGIC ++ _).
  assert (bytes = (to_le_bytes 4 MAGIC ++ to_le_bytes 8 (next_position p) ++
    to_le_bytes 4 (len (layer_states p))) ++ body ++ []) as Hb by (by rewrite app_nil_r, <-!(assoc_L (++))).
  assert (len bytes = 16 + len body) as Hlen by (rewrite Hb, app_nil_r, !len_app, !len_to_le; lia).
  unfold from_bytes. rewrite Hlen. destruct (N.ltb_spec (16 + len body) 16); [lia|].
  assert (le_at bytes 0 4 = MAGIC) as -> by exact (le_at_encoded [] 4 MAGIC _ ltac:(by vm_compute)).
  assert (le_at bytes 4 8 = next_position p) as ->
    by exact (le_at_encoded (to_le_bytes 4 MAGIC) 8 (next_position p) _ Hp).
  assert (le_at bytes 12 4 = len (layer_states p)) as ->.
  { subst bytes. rewrite (assoc_L (++) (to_le_bytes 4 MAGIC)).
    exact (le_at_encoded (to_le_bytes 4 MAGIC ++ to_le_bytes 8 (next_position p)) 4 _ _ Hc). }
  rewrite N.eqb_refl. cbn [negb]. unfold len at 1. rewrite Nat2N.id, Hb.
  pose proof (read_layers_encode (layer_states p) (to_le_bytes 4 MAGIC ++ to_le_bytes 8 (next_position p) ++
    to_le_bytes 4 (len (layer_states p))) [] [] Hl) as Hread.
  rewrite !len_app, !len_to_le in Hread. change (N.of_nat 4 + (N.of_nat 8 + N.of_nat 4)) with 16 in Hread.
  fold body in Hread. rewrite Hread. cbn [result_bind fst snd app]. rewrite N.eqb_refl. by destruct p.
Qed.

(** The decoder accepts nothing but encodings: when it succeeds on a byte
    string, the payload is one the format can describe and encoding it gives
    back exactly these bytes. *)
Theorem payload_canonical bytes p :
  Forall is_byte bytes → from_bytes bytes = Ok p → payload_ok p ∧ to_bytes p = bytes.
Proof.
  intros Hb. unfold from_bytes. destruct (N.ltb_spec (len bytes) 16) as [|H16]; [done|].
  destruct (N.eqb_spec (le_at bytes 0 4) MAGIC) as [Hm|]; [|done]. cbn [negb].
  rewrite result_bind_Ok. intros ([ls off]&Hread&Hp). cbn [fst snd] in Hp.
  destruct (N.eqb_spec off (len bytes)) as [Hoff|]; [|done]. cbn [negb] in Hp. injection Hp as <-.
  destruct (split_header bytes H16) as (m&q&c&rest&->&Hm4&Hq8&Hc4).
  rewrite !Forall_app in Hb. destruct Hb as [(Hbm&Hbq&Hbc) Hbr].
  assert (len m = 4 ∧ len q = 8 ∧ len c = 4) as (Lm&Lq&Lc) by (unfold len; lia).
  assert (le_at ((m ++ q ++ c) ++ rest) 0 4 = from_le_bytes m) as Em.
  { rewrite <-Lm, <-!(assoc_L (++)). exact (le_at_app [] m _). }
  assert (le_at ((m ++ q ++ c) ++ rest) 4 8 = from_le_bytes q) as Eq.
  { rewrite <-Lm, <-Lq, <-!(assoc_L (++)). apply le_at_app. }
  assert (le_at ((m ++ q ++ c) ++ rest) 12 4 = from_le_bytes c) as Ec.
  { rewrite <-!(assoc_L (++)), (assoc_L (++) m). replace 12 with (len (m ++ q)) by (rewrite len_app; lia).
    rewrite <-Lc. apply le_at_app. }
  rewrite Em in Hm. rewrite Eq, Ec in *.
  replace 16 with (len (m ++ q ++ c)) in Hread by (rewrite !len_app; lia).
  destruct (read_layers_decode _ _ _ _ _ _ Hbr Hread) as (ls'&post&->&Hn&->&Hoff'&Hok).
  rewrite Hoff' in Hoff. rewrite !len_app in Hoff. assert (post = []) as -> by (apply len_0; lia). cbn [app].
  assert (len ls' = from_le_bytes c) as Hcount by (unfold len; rewrite Hn; lia).
  assert (MAGIC = from_le_bytes m) as Hm' by done. split.
  - split; cbn [next_position layer_states]; [|rewrite Hcount|done].
    + replace (2 ^ 64) with (256 ^ len q) by (by rewrite Lq). by apply from_le_bound.
    + replace (2 ^ 32) with (256 ^ len c) by (by rewrite Lc). by apply from_le_bound.
  - unfold to_bytes. cbn [next_position layer_states]. rewrite Hcount, Hm', app_nil_r, <-!(assoc_L (++)).
    assert (∀ n l, length l = n → Forall is_byte l → to_le_bytes n (from_le_bytes l) = l) as Hid
      by (intros n l <- ?; by apply to_from_le).
    by rewrite (Hid 4%nat m), (Hid 8%nat q), (Hid 4%nat c).
Qed.

(** A batch is assigned as a whole or not at all.  On success every request
    has its own slot within the capacity, requests that had one keep it, and
    [newly_assigned] lists exactly the slots of those that had none, in batch
    order; the batch fails only on a duplicate request or when more new
    requests come than slots are free, and then nothing changes. *)
Theorem assign_batch_correct s ids :
  slots_reachable s →
  match assign_batch s ids with
  | (Ok b, s') =>
      Forall2 (λ r slot, assigned_slots s' !! r = Some slot) ids (slots b) ∧
      NoDup (slots b) ∧ Forall (λ slot, slot < capacity s) (slots b) ∧
      assigned_slots s ⊆ assigned_slots s' ∧
      dom (assigned_slots s') = dom (assigned_slots s) ∪ list_to_set ids ∧
      newly_assigned b = omap (λ p : RequestId * N,
        match assigned_slots s !! p.1 with None => Some p.2 | _ => None end) (zip ids (slots b))
  | (Err e, s') => s' = s ∧
      ((∃ r, e = DuplicateRequest r ∧ r ∈ ids ∧ ¬ NoDup ids) ∨
       (NoDup ids ∧ len (free_slots s) < required_slots s ids ∧
        e = Exhausted (capacity s) (N.of_nat (size (assigned_slots s))) (required_slots s ids)))
  end.
Proof.
  intros Hwf%slots_reachable_wf. pose proof (assign_batch_spec s ids Hwf) as Hs.
  destruct (assign_batch s ids) as [[b|e] s']; [|done]. destruct Hs as (Hnd&Hwf'&Hc&Hsub&Hall&Hd&Hn).
  split; [done|]. split; [|split; [|done]].
  - apply NoDup_alt. intros i j x Hi Hj. pose proof (Forall2_lookup_r _ _ _ _ _ Hall Hi) as (r&Hr&Hs).
    pose proof (Forall2_lookup_r _ _ _ _ _ Hall Hj) as (r'&Hr'&Hs'). assert (r = r') as <- by (by eapply assigned_injective).
    by eapply NoDup_lookup.
  - apply Forall_lookup. intros i x Hi. pose proof (Forall2_lookup_r _ _ _ _ _ Hall Hi) as (r&_&Hs).
    assert (x ∈ nrange 0 (capacity s')) as Hx.
    { unfold slots_wf in Hwf'. rewrite <-Hwf'. apply elem_of_app. right. unfold assigned_list. apply list_elem_of_fmap.
      exists (r, x). split; [done|]. by apply elem_of_map_to_list. }
    apply elem_of_nrange in Hx. rewrite <-Hc. lia.
Qed.

(** In every reachable state each slot below the capacity is either free or
    belongs to exactly one request; releasing a request frees its slot, which
    the next new request gets. *)
Theorem recurrent_slots_conserved s r r' :
  slots_reachable s →
  free_slots s ++ assigned_list s ≡ₚ nrange 0 (capacity s) ∧
  (∀ slot, assigned_slots s !! r = Some slot → assigned_slots s !! r' = None →
     (release s r).1 = Some slot ∧ assigned_slots (release s r).2 !! r = None ∧
     ∃ s', assign_batch (release s r).2 [r'] = (Ok (mkBatchSlots [slot] [slot]), s')).
Proof.
  intros Hwf%slots_reachable_wf. split; [exact Hwf|]. intros slot Hr Hr'. unfold release. rewrite Hr. cbn.
  split; [done|]. split; [by rewrite lookup_delete_eq|]. assert (r ≠ r') as Hne by congruence.
  unfold assign_batch. cbn [first_duplicate]. rewrite decide_False by set_solver.
  unfold required_slots. cbn [assigned_slots free_slots capacity].
  rewrite filter_cons_True, filter_nil, len_app, !len_cons, (len_nil (A := RequestId)), (len_nil (A := N)) by (by rewrite lookup_delete_ne).
  destruct (N.ltb_spec (len (free_slots s) + (0 + 1)) (0 + 1)); [lia|]. cbn [assign_loop assigned_slots free_slots].
  rewrite lookup_delete_ne, Hr' by done. rewrite (proj2 (vec_pop_Some (free_slots s ++ [slot]) slot (free_slots s)) eq_refl).
  eexists. reflexivity.
Qed.

(** ** Witnesses *)

Definition example_payload : RecurrentStatePayload :=
  mkPayload 42 [mkLayerState [0x3F800000; 0x7FC00001] [0]; mkLayerState [] [0xFFFFFFFF]].

Lemma example_payload_ok : payload_ok example_payload.
Proof. split; [by vm_compute|by vm_compute|]. repeat constructor; by vm_compute. Qed.

Lemma payload_roundtrip_witness : from_bytes (to_bytes example_payload) = Ok example_payload.
Proof. exact (payload_roundtrip example_payload example_payload_ok). Defined.

Lemma payload_canonical_witness :
  payload_ok example_payload ∧ to_bytes example_payload = to_bytes example_payload.
Proof. apply (payload_canonical (to_bytes example_payload) example_payload); [|by vm_compute]. repeat constructor. Defined.

Example truncated_payload_rejected :
  from_bytes (take 30 (to_bytes example_payload)) = Err "unexpected EOF reading recurrent length"%string ∧
  from_bytes (to_bytes example_payload ++ [0]) = Err "trailing bytes in recurrent state payload: read 48, total 49"%string.
Proof. by vm_compute. Qed.

Definition example_slots : RecurrentStateSlots := mkSlots 2 [1] {[ "a" := 0 ]}.

Lemma example_slots_reachable : slots_reachable example_slots.
Proof.
  assert (example_slots = (assign_batch (mkSlots 2 [1; 0] ∅) ["a"]).2) as -> by (by vm_compute).
  apply sr_assign, (sr_new 2). by vm_compute.
Qed.

Lemma assign_batch_correct_witness :
  ∃ s', assign_batch example_slots ["b"; "a"] = (Ok (mkBatchSlots [1; 0] [1]), s') ∧
    NoDup [1; 0] ∧ Forall (λ slot, slot < 2) [1; 0] ∧ assigned_slots example_slots ⊆ assigned_slots s'.
Proof.
  pose proof (assign_batch_correct example_slots ["b"; "a"] example_slots_reachable) as Ht.
  assert ((assign_batch example_slots ["b"; "a"]).1 = Ok (mkBatchSlots [1; 0] [1])) as Hres by (by vm_compute).
  destruct (assign_batch example_slots ["b"; "a"]) as [res s']. cbn in Hres. subst res.
  exists s'. split; [done|]. destruct Ht as (_&Hnd&Hall&Hsub&_). by split_and!.
Defined.

Lemma recurrent_slots_conserved_witness :
  [1] ++ assigned_list example_slots ≡ₚ nrange 0 2 ∧
  (∀ slot, assigned_slots example_slots !! "a" = Some slot → assigned_slots example_slots !! "b" = None →
     (release example_slots "a").1 = Some slot ∧ assigned_slots (release example_slots "a").2 !! "a" = None ∧
     ∃ s', assign_batch (release example_slots "a").2 ["b"] = (Ok (mkBatchSlots [slot] [slot]), s')).
Proof. exact (recurrent_slots_conserved example_slots "a" "b" example_slots_reachable). Defined.
