(* ===== verification/Request.v ===== *)
(** * Scheduled requests, batches and workers

    The data that flows through the schedulers: [ScheduledRequest] and
    [ScheduleBatch] of [crates/sglang-srt/src/scheduler.rs], generated tokens
    and the [WorkerExecutor] trait of [crates/sglang-srt/src/worker.rs]. *)

From stdpp Require Import pretty.
From S2P Require Import Prelude Types PageAllocator RadixCache.
#[local] Open Scope N_scope.

(** [scheduler.rs:14-21] RequestStage *)
Inductive RequestStage : Type :=
  | PrefillWaiting | PrefillForward | DecodeWaiting | DecodeForward | Finished.

#[export] Instance RequestStage_eq_dec : EqDecision RequestStage.
Proof. solve_decision. Defined.

(** [scheduler.rs:23-28] ForwardMode *)
Inductive ForwardMode : Type := Prefill | Decode | Mixed.

#[export] Instance ForwardMode_eq_dec : EqDecision ForwardMode.
Proof. solve_decision. Defined.

(** [scheduler.rs:30-34] PrefixCachePolicy *)
Inductive PrefixCachePolicy : Type := Enabled | Disabled.

(** [scheduler.rs:36-52] ScheduledRequest *)
Record ScheduledRequest : Type := mkScheduledRequest {
  request_id : RequestId;
  input_ids : list N;
  output_ids : list N;
  allocated_cache_pages : list CachePageId;
  forward_cache_pages : list CachePageId;
  sequence_cache_pages : list CachePageId;
  cache_hit_token_count : N;
  sampling : SamplingParams;
  disaggregated_params : option DisaggregatedParams;
  data_parallel_rank : Z;
  prefix_match : PrefixMatch;
  stage : RequestStage;
  prompt_tokens_processed : N;
  current_chunk_len : N;
}.

(** [scheduler.rs:55-77] ScheduledRequest::new *)
Definition ScheduledRequest_new (request_id : RequestId) (input_ids : list N)
    (sampling : SamplingParams) : ScheduledRequest :=
  mkScheduledRequest request_id input_ids [] [] [] [] 0 sampling None 0%Z
    (mkPrefixMatch 0 [] input_ids) PrefillWaiting 0 0.

(** [scheduler.rs:79-85] ScheduledRequest::with_disaggregated_params *)
Definition with_disaggregated_params (r : ScheduledRequest) (p : option DisaggregatedParams) :=
  let 'mkScheduledRequest id inp out al fw sq hit sm _ rank pm st done chunk := r in
  mkScheduledRequest id inp out al fw sq hit sm p rank pm st done chunk.

(** [scheduler.rs:87-90] ScheduledRequest::with_data_parallel_rank *)
Definition with_data_parallel_rank (r : ScheduledRequest) (rank : Z) :=
  let 'mkScheduledRequest id inp out al fw sq hit sm dp _ pm st done chunk := r in
  mkScheduledRequest id inp out al fw sq hit sm dp rank pm st done chunk.

(** [scheduler.rs:120-124] ScheduledRequest::skips_radix_cache_insert *)
Definition skips_radix_cache_insert (r : ScheduledRequest) : bool :=
  match disaggregated_params r with
  | Some p => (bootstrap_host p =? FAKE_BOOTSTRAP_HOST)%string
  | None => false
  end.

(** [scheduler.rs:130-132] ScheduledRequest::prefix_cache_pages *)
Definition prefix_cache_pages (r : ScheduledRequest) := cache_pages (prefix_match r).

(** [scheduler.rs:134-136] ScheduledRequest::uncached_input_ids *)
Definition uncached_input_ids (r : ScheduledRequest) := remaining_input_ids (prefix_match r).

(** [scheduler.rs:150-152] ScheduledRequest::cached_token_count *)
Definition cached_token_count (r : ScheduledRequest) := cache_hit_token_count r.

(** [scheduler.rs:154-156] ScheduledRequest::forward_prefix_token_count *)
Definition forward_prefix_token_count (r : ScheduledRequest) := matched_token_count (prefix_match r).

(** [scheduler.rs:158-160] ScheduledRequest::set_data_parallel_rank *)
Definition set_data_parallel_rank (r : ScheduledRequest) (rank : Z) := with_data_parallel_rank r rank.

(** [scheduler.rs:162-164] ScheduledRequest::apply_prefix_match *)
Definition apply_prefix_match (r : ScheduledRequest) (m : PrefixMatch) :=
  let 'mkScheduledRequest id inp out al fw sq hit sm dp rank _ st done chunk := r in
  mkScheduledRequest id inp out al fw sq hit sm dp rank m st done chunk.

(** [scheduler.rs:166-168] ScheduledRequest::set_stage *)
Definition set_stage (r : ScheduledRequest) (s : RequestStage) :=
  let 'mkScheduledRequest id inp out al fw sq hit sm dp rank pm _ done chunk := r in
  mkScheduledRequest id inp out al fw sq hit sm dp rank pm s done chunk.

(** [scheduler.rs:170-172] ScheduledRequest::set_allocated_cache_pages *)
Definition set_allocated_cache_pages (r : ScheduledRequest) (pages : list CachePageId) :=
  let 'mkScheduledRequest id inp out _ fw sq hit sm dp rank pm st done chunk := r in
  mkScheduledRequest id inp out pages fw sq hit sm dp rank pm st done chunk.

(** [scheduler.rs:174-176] ScheduledRequest::set_forward_cache_pages *)
Definition set_forward_cache_pages (r : ScheduledRequest) (pages : list CachePageId) :=
  let 'mkScheduledRequest id inp out al _ sq hit sm dp rank pm st done chunk := r in
  mkScheduledRequest id inp out al pages sq hit sm dp rank pm st done chunk.

(** [scheduler.rs:178-180] ScheduledRequest::set_cache_hit_token_count *)
Definition set_cache_hit_token_count (r : ScheduledRequest) (n : N) :=
  let 'mkScheduledRequest id inp out al fw sq _ sm dp rank pm st done chunk := r in
  mkScheduledRequest id inp out al fw sq n sm dp rank pm st done chunk.

(** [scheduler.rs:182-184] ScheduledRequest::set_sequence_cache_pages *)
Definition set_sequence_cache_pages (r : ScheduledRequest) (pages : list CachePageId) :=
  let 'mkScheduledRequest id inp out al fw _ hit sm dp rank pm st done chunk := r in
  mkScheduledRequest id inp out al fw pages hit sm dp rank pm st done chunk.

(** [scheduler.rs:186-188] ScheduledRequest::append_sequence_cache_pages *)
Definition append_sequence_cache_pages (r : ScheduledRequest) (pages : list CachePageId) :=
  set_sequence_cache_pages r (sequence_cache_pages r ++ pages).

(** [scheduler.rs:198-200] ScheduledRequest::is_prefill_complete *)
Definition is_prefill_complete (r : ScheduledRequest) : bool :=
  len (input_ids r) <=? prompt_tokens_processed r.

(** [scheduler.rs:202-206] ScheduledRequest::remaining_prompt_tokens *)
Definition remaining_prompt_tokens (r : ScheduledRequest) : N :=
  saturating_sub (len (input_ids r)) (prompt_tokens_processed r).

(** [scheduler.rs:208-210] ScheduledRequest::set_prompt_tokens_processed *)
Definition set_prompt_tokens_processed (r : ScheduledRequest) (n : N) :=
  let 'mkScheduledRequest id inp out al fw sq hit sm dp rank pm st _ chunk := r in
  mkScheduledRequest id inp out al fw sq hit sm dp rank pm st n chunk.

(** [scheduler.rs:212-214] ScheduledRequest::set_current_chunk_len *)
Definition set_current_chunk_len (r : ScheduledRequest) (n : N) :=
  let 'mkScheduledRequest id inp out al fw sq hit sm dp rank pm st done _ := r in
  mkScheduledRequest id inp out al fw sq hit sm dp rank pm st done n.

(** [scheduler.rs:216-219] ScheduledRequest::advance_prompt_tokens *)
Definition advance_prompt_tokens (r : ScheduledRequest) (count : N) :=
  set_prompt_tokens_processed r (N.min (prompt_tokens_processed r + count) (len (input_ids r))).

(** [scheduler.rs:221-225] ScheduledRequest::clear_forward_chunk_tracking *)
Definition clear_forward_chunk_tracking (r : ScheduledRequest) :=
  set_current_chunk_len (set_forward_cache_pages (set_allocated_cache_pages r []) []) 0.

(** [scheduler.rs:227-239] ScheduledRequest::clear_forward_cache_allocation *)
Definition clear_forward_cache_allocation (r : ScheduledRequest) :=
  let allocated_page_count := len (allocated_cache_pages r) in
  let r' :=
    if 0 <? allocated_page_count then
      set_sequence_cache_pages r
        (slice_to (saturating_sub (len (sequence_cache_pages r)) allocated_page_count)
                  (sequence_cache_pages r))
    else r in
  set_current_chunk_len (set_forward_cache_pages (set_allocated_cache_pages r' []) []) 0.

(** [scheduler.rs:241-243] ScheduledRequest::append_output_ids *)
Definition append_output_ids (r : ScheduledRequest) (ids : list N) :=
  let 'mkScheduledRequest id inp out al fw sq hit sm dp rank pm st done chunk := r in
  mkScheduledRequest id inp (out ++ ids) al fw sq hit sm dp rank pm st done chunk.

(** [scheduler.rs:245-247] ScheduledRequest::reached_max_new_tokens *)
Definition reached_max_new_tokens (r : ScheduledRequest) : bool :=
  max_new_tokens (sampling r) <=? len (output_ids r).

(** ** Workers *)

(** [worker.rs:7-11] GeneratedToken *)
Record GeneratedToken : Type := mkGeneratedToken {
  generated_token_ids : list N;
  generated_finished : bool;
}.

(** [worker.rs:81-87] WorkerOutputError *)
Inductive WorkerOutputError : Type := BatchSizeMismatch (request_count output_count : N).

(** [worker.rs:104-108] WorkerExecutionError *)
Inductive WorkerExecutionError : Type :=
  | Output (error : WorkerOutputError)
  | Runtime (error : string).

(** [worker.rs:128-132] WorkerWeightUpdateRequest *)
Record WorkerWeightUpdateRequest : Type := mkWorkerWeightUpdateRequest {
  model_path : string;
  load_format : option string;
  weight_version : string;
}.

(** [scheduler.rs:250-257] SchedulerError *)
Inductive SchedulerError : Type :=
  | EmptyQueue
  | RunningRequestLimitReached (max_running_requests : N)
  | DecodeNotReady (request_id : RequestId)
  | CacheAllocation (error : CacheAllocationError)
  | Worker (error : WorkerExecutionError).

(** [scheduler.rs:296-302] ScheduledOutput *)
Record ScheduledOutput : Type := mkScheduledOutput {
  out_request_id : RequestId;
  out_token_ids : list N;
  cached_tokens : N;
  finished : bool;
}.

(** [scheduler.rs:317-321] ScheduleBatch *)
Record ScheduleBatch : Type := mkScheduleBatch {
  forward_mode : ForwardMode;
  requests : list ScheduledRequest;
}.

(** [scheduler.rs:349-351] ScheduleBatch::batch_size *)
Definition batch_size (b : ScheduleBatch) : N := len (requests b).

(** [scheduler.rs:357-362] ScheduleBatch::total_uncached_tokens *)
Definition total_uncached_tokens (b : ScheduleBatch) : N :=
  foldr N.add 0 ((λ r, len (uncached_input_ids r)) <$> requests b).

(** [worker.rs:46-58] BatchGeneratedTokens::from_batch *)
Definition from_batch (batch : ScheduleBatch) (tokens : list GeneratedToken)
    : Result WorkerOutputError (list GeneratedToken) :=
  if negb (batch_size batch =? len tokens) then Err (BatchSizeMismatch (batch_size batch) (len tokens))
  else Ok tokens.

(** [worker.rs:60-72] BatchGeneratedTokens::into_scheduled_outputs *)
Definition into_scheduled_outputs (tokens : list GeneratedToken) (batch : ScheduleBatch)
    : list ScheduledOutput :=
  (λ p : ScheduledRequest * GeneratedToken,
     mkScheduledOutput (request_id p.1) (generated_token_ids p.2) (cached_token_count p.1)
       (generated_finished p.2)) <$> zip (requests batch) tokens.

(** [worker.rs:307-312] DecodeRequestState *)
Inductive DecodeRequestState : Type := Ready | Pending | Failed (message : string).

(** [worker.rs:89-100] WorkerOutputError::fmt *)
Definition WorkerOutputError_to_string (e : WorkerOutputError) : string :=
  match e with
  | BatchSizeMismatch request_count output_count =>
      "batch output count (" +:+ pretty output_count +:+ ") must match request count ("
      +:+ pretty request_count +:+ ")"
  end.

(** [worker.rs:110-117] WorkerExecutionError::fmt *)
Definition WorkerExecutionError_to_string (e : WorkerExecutionError) : string :=
  match e with
  | Output error => "worker output error: " +:+ WorkerOutputError_to_string error
  | Runtime error => "worker runtime error: " +:+ error
  end.

(** [transfer/mod.rs:390-394] DecodeBootstrapRegistryError *)
Inductive DecodeBootstrapRegistryError : Type :=
  | DuplicateBootstrapRoom (room : N)
  | MissingBootstrapRoom (room : N).

(** [transfer/mod.rs:1302-1306] KvCacheTransferError *)
Inductive KvCacheTransferError : Type :=
  | Registry (error : DecodeBootstrapRegistryError)
  | TransferRuntime (message : string).

(** [transfer/mod.rs:2383-2391] KvTransferPollSummary *)
Record KvTransferPollSummary : Type := mkKvTransferPollSummary {
  completed_batches : N;
  failed_batches : N;
  pending_batches : N;
  completed_descriptor_checksums : list string;
  failed_descriptor_checksums : list string;
  pending_descriptor_checksums : list string;
}.

(** The operations of the [WorkerExecutor] trait the schedulers call; a
    [&mut self] method returns the worker's next state. *)
(** [worker.rs:193-228] WorkerExecutor *)
Class WorkerExecutor (W : Type) : Type := {
  execute_batch : W → ScheduleBatch → Result WorkerExecutionError (list GeneratedToken) * W;
  decode_request_state : W → ScheduledRequest → Result WorkerExecutionError DecodeRequestState;
  poll_transfers : W → Result KvCacheTransferError KvTransferPollSummary * W;
  complete_request : W → ScheduledRequest → W;
  finish_request : W → ScheduledRequest → Result WorkerExecutionError unit * W;
  fail_request : W → ScheduledRequest → W;
  worker_shutdown : W → Result WorkerExecutionError unit * W;
}.

(** [request_ids q]: the identifiers of a queue, in order. *)
Definition request_ids (q : list ScheduledRequest) : list RequestId := request_id <$> q.

#[export] Instance request_ids_proper : Proper (Permutation ==> Permutation) request_ids.
Proof. intros q q' H. unfold request_ids. by rewrite H. Qed.

Lemma request_ids_app q q' : request_ids (q ++ q') = request_ids q ++ request_ids q'.
Proof. apply fmap_app. Qed.

Lemma request_ids_cons r q : request_ids (r :: q) = request_id r :: request_ids q.
Proof. done. Qed.
