(* ===== verification/Scheduler.v ===== *)
(** * Request scheduler ([crates/sglang-srt/src/scheduler.rs], [Scheduler])

    The single-rank scheduler: waiting and decode queues, the prefix cache, the
    page allocator and the worker.  Every operation of the code is one
    definition over the [Scheduler] record.  An operation that can panic
    returns [option]; one that returns a Rust [Result] pairs it with the state
    it leaves behind, on errors too.  Loops take as fuel the length of the queue
    they consume; each iteration pops one request, so the fuel never runs out
    before the queue does. *)

From S2P Require Import Prelude Types PageAllocator RadixCache BlockHash StateEvents Request.

(** [scheduler.rs:304-315] Scheduler *)
Record Scheduler (W P : Type) : Type := mkScheduler {
  waiting_queue : list ScheduledRequest;
  decode_queue : list ScheduledRequest;
  prefix_cache : RadixCache;
  prefix_cache_policy : PrefixCachePolicy;
  pending_prefix_cache_inserts : list ScheduledRequest;
  cache_page_allocator : option CachePageAllocator;
  max_running_requests : option N;
  chunked_prefill_size : option N;
  event_publisher : option P;
  worker : W;
}.
Arguments mkScheduler {W P}.
Arguments waiting_queue {W P}.
Arguments decode_queue {W P}.
Arguments prefix_cache {W P}.
Arguments prefix_cache_policy {W P}.
Arguments pending_prefix_cache_inserts {W P}.
Arguments cache_page_allocator {W P}.
Arguments max_running_requests {W P}.
Arguments chunked_prefill_size {W P}.
Arguments event_publisher {W P}.
Arguments worker {W P}.

Section SchedulerOps.
Context {W P : Type} `{!WorkerExecutor W} `{!KvStateEventPublisher P}.
Context (sha256 : list N → list N).

Implicit Types (s : Scheduler W P) (r : ScheduledRequest).

(** ** Field updates *)

Definition set_waiting s (q : list ScheduledRequest) : Scheduler W P :=
  mkScheduler q (decode_queue s) (prefix_cache s) (prefix_cache_policy s)
    (pending_prefix_cache_inserts s) (cache_page_allocator s) (max_running_requests s)
    (chunked_prefill_size s) (event_publisher s) (worker s).
Definition set_decode s (q : list ScheduledRequest) : Scheduler W P :=
  mkScheduler (waiting_queue s) q (prefix_cache s) (prefix_cache_policy s)
    (pending_prefix_cache_inserts s) (cache_page_allocator s) (max_running_requests s)
    (chunked_prefill_size s) (event_publisher s) (worker s).
Definition set_cache s (c : RadixCache) : Scheduler W P :=
  mkScheduler (waiting_queue s) (decode_queue s) c (prefix_cache_policy s)
    (pending_prefix_cache_inserts s) (cache_page_allocator s) (max_running_requests s)
    (chunked_prefill_size s) (event_publisher s) (worker s).
Definition set_pending s (q : list ScheduledRequest) : Scheduler W P :=
  mkScheduler (waiting_queue s) (decode_queue s) (prefix_cache s) (prefix_cache_policy s) q
    (cache_page_allocator s) (max_running_requests s) (chunked_prefill_size s)
    (event_publisher s) (worker s).
Definition set_alloc s (a : option CachePageAllocator) : Scheduler W P :=
  mkScheduler (waiting_queue s) (decode_queue s) (prefix_cache s) (prefix_cache_policy s)
    (pending_prefix_cache_inserts s) a (max_running_requests s) (chunked_prefill_size s)
    (event_publisher s) (worker s).
Definition set_publisher s (e : option P) : Scheduler W P :=
  mkScheduler (waiting_queue s) (decode_queue s) (prefix_cache s) (prefix_cache_policy s)
    (pending_prefix_cache_inserts s) (cache_page_allocator s) (max_running_requests s)
    (chunked_prefill_size s) e (worker s).
Definition set_worker s (w : W) : Scheduler W P :=
  mkScheduler (waiting_queue s) (decode_queue s) (prefix_cache s) (prefix_cache_policy s)
    (pending_prefix_cache_inserts s) (cache_page_allocator s) (max_running_requests s)
    (chunked_prefill_size s) (event_publisher s) w.

(** ** Construction *)

(** [scheduler.rs:408-426] Scheduler::with_cache_resources_and_policy *)
Definition with_cache_resources_and_policy (w : W) (c : RadixCache) (a : CachePageAllocator)
    (policy : PrefixCachePolicy) : Scheduler W P :=
  mkScheduler [] [] c policy [] (Some a) None None None w.

(** [scheduler.rs:389-406] Scheduler::with_cache_resources *)
Definition with_cache_resources (w : W) (c : RadixCache) (a : CachePageAllocator) : Scheduler W P :=
  mkScheduler [] [] c Enabled [] (Some a) None None None w.

(** [scheduler.rs:374-387] Scheduler::with_prefix_cache *)
Definition with_prefix_cache (w : W) (c : RadixCache) : Scheduler W P :=
  mkScheduler [] [] c Enabled [] None None None None w.

(** [scheduler.rs:370-372] Scheduler::new *)
Definition Scheduler_new (w : W) : Scheduler W P := with_prefix_cache w RadixCache_default.

(** [scheduler.rs:428-431] Scheduler::with_chunked_prefill_size *)
Definition with_chunked_prefill_size s (chunk_size : option N) : Scheduler W P :=
  mkScheduler (waiting_queue s) (decode_queue s) (prefix_cache s) (prefix_cache_policy s)
    (pending_prefix_cache_inserts s) (cache_page_allocator s) (max_running_requests s)
    chunk_size (event_publisher s) (worker s).

(** [scheduler.rs:437-440] Scheduler::with_event_publisher *)
Definition with_event_publisher s (publisher : P) : Scheduler W P := set_publisher s (Some publisher).

(** [scheduler.rs:446-449] Scheduler::with_max_running_requests *)
Definition with_max_running_requests s (n : option N) : Scheduler W P :=
  mkScheduler (waiting_queue s) (decode_queue s) (prefix_cache s) (prefix_cache_policy s)
    (pending_prefix_cache_inserts s) (cache_page_allocator s) n (chunked_prefill_size s)
    (event_publisher s) (worker s).

(** [scheduler.rs:459-461] Scheduler::enqueue *)
Definition enqueue s r : Scheduler W P := set_waiting s (waiting_queue s ++ [r]).

(** [scheduler.rs:471-475] Scheduler::available_cache_pages *)
Definition available_cache_pages s : option N := available_pages <$> cache_page_allocator s.

(** ** Releasing pages *)

(** [if let Some(allocator) = self.cache_page_allocator.as_mut() { allocator.release(pages) }] *)
Definition allocator_release s (pages : list CachePageId) : option (Scheduler W P) :=
  match cache_page_allocator s with
  | None => Some s
  | Some a => a' ← release a pages; Some (set_alloc s (Some a'))
  end.

(** Releases the allocated pages of each request in turn. *)
Fixpoint release_prepared s (prepared : list ScheduledRequest) : option (Scheduler W P) :=
  match prepared with
  | [] => Some s
  | r :: rs => s' ← allocator_release s (allocated_cache_pages r); release_prepared s' rs
  end.

(** [scheduler.rs:1292-1298] Scheduler::release_request_cache_pages (owned_slots) *)
Definition owned_slots (policy : PrefixCachePolicy) r : list CachePageId :=
  match policy with
  | Disabled => sequence_cache_pages r
  | Enabled => slice_from (len (input_ids r)) (sequence_cache_pages r)
  end.

(** [scheduler.rs:1288-1300] Scheduler::release_request_cache_pages *)
Definition release_request_cache_pages s r : option (Scheduler W P) :=
  allocator_release s (owned_slots (prefix_cache_policy s) r).

(** [scheduler.rs:1282-1286] Scheduler::release_unpublished_cache_pages *)
Definition release_unpublished_cache_pages s r : option (Scheduler W P) :=
  allocator_release s (allocated_cache_pages r).

(** [Vec::remove] at the first position whose request has the identifier. *)
(** [scheduler.rs:1316-1325] remove_request_from_queue *)
Fixpoint remove_request_from_queue (queue : list ScheduledRequest) (rid : RequestId)
    : option (ScheduledRequest * list ScheduledRequest) :=
  match queue with
  | [] => None
  | r :: q =>
      if decide (request_id r = rid) then Some (r, q)
      else '(x, q') ← remove_request_from_queue q rid; Some (x, r :: q')
  end.

(** [scheduler.rs:1268-1280] Scheduler::release_pending_prefix_cache_insert *)
Definition release_pending_prefix_cache_insert s (rid : RequestId) : option (bool * Scheduler W P) :=
  match remove_request_from_queue (pending_prefix_cache_inserts s) rid with
  | None => Some (false, s)
  | Some (r, q) =>
      s' ← release_unpublished_cache_pages (set_pending s q) r; Some (true, s')
  end.

(** ** Abort, flush *)

(** [scheduler.rs:477-501] Scheduler::abort_request *)
Definition abort_request s (rid : RequestId) : option (bool * Scheduler W P) :=
  match remove_request_from_queue (waiting_queue s) rid with
  | Some (r, q) =>
      let s := set_waiting s q in
      let '(res, w) := finish_request (worker s) r in
      let s := set_worker s w in
      match res with
      | Err _ => Some (false, set_waiting s (r :: waiting_queue s))
      | Ok _ => s ← release_request_cache_pages s r; Some (true, s)
      end
  | None =>
      match remove_request_from_queue (decode_queue s) rid with
      | Some (r, q) =>
          let s := set_decode s q in
          let '(res, w) := finish_request (worker s) r in
          let s := set_worker s w in
          match res with
          | Err _ => Some (false, set_decode s (r :: decode_queue s))
          | Ok _ =>
              '(_, s) ← release_pending_prefix_cache_insert s rid;
              s ← release_request_cache_pages s r;
              Some (true, s)
          end
      | None => Some (false, s)
      end
  end.

(** [scheduler.rs:513-513] Scheduler::abort_all_requests (abort every queued id) *)
Fixpoint abort_ids s (ids : list RequestId) (aborted : N) : option (N * Scheduler W P) :=
  match ids with
  | [] => Some (aborted, s)
  | rid :: ids' =>
      '(b, s') ← abort_request s rid;
      abort_ids s' ids' (if b : bool then aborted + 1 else aborted)
  end.

(** [scheduler.rs:514-521] Scheduler::abort_all_requests (pending inserts) *)
Fixpoint abort_pending s (pending : list ScheduledRequest) (aborted : N) : option (N * Scheduler W P) :=
  match pending with
  | [] => Some (aborted, s)
  | r :: rs =>
      let '(res, w) := finish_request (worker s) r in
      let s := set_worker s w in
      match res with
      | Err _ => abort_pending (set_pending s (pending_prefix_cache_inserts s ++ [r])) rs aborted
      | Ok _ => s' ← release_unpublished_cache_pages s r; abort_pending s' rs (aborted + 1)
      end
  end.

(** [scheduler.rs:503-523] Scheduler::abort_all_requests *)
Definition abort_all_requests s : option (N * Scheduler W P) :=
  let ids := request_id <$> (waiting_queue s ++ decode_queue s) in
  '(aborted, s) ← abort_ids s ids 0;
  abort_pending (set_pending s []) (pending_prefix_cache_inserts s) aborted.

Definition is_nil {A} (l : list A) : bool := match l with [] => true | _ => false end.

(** [scheduler.rs:533-545] Scheduler::flush_cache *)
Definition flush_cache s : bool * Scheduler W P :=
  if negb (is_nil (waiting_queue s)) || negb (is_nil (decode_queue s)) then (false, s)
  else
    let s := set_cache s (clear (prefix_cache s)) in
    let s := set_pending s [] in
    (true, set_alloc s (reset <$> cache_page_allocator s)).

(** [scheduler.rs:814-827] Scheduler::shutdown *)
Definition shutdown s : option (Result WorkerExecutionError N * Scheduler W P) :=
  '(aborted_requests, s) ← abort_all_requests s;
  if (negb (is_nil (waiting_queue s)) || negb (is_nil (decode_queue s))
      || negb (is_nil (pending_prefix_cache_inserts s)))%bool then
    Some (Err (Runtime "cannot release KV memory: request transfer cancellation has not drained"), s)
  else
    let '(res, w) := worker_shutdown (worker s) in
    let s := set_worker s w in
    match res with
    | Err e => Some (Err e, s)
    | Ok _ => Some (Ok aborted_requests, s)
    end.


(** ** Prefill batches *)

(** [scheduler.rs:610-623] Scheduler::remaining_running_request_capacity *)
Definition remaining_running_request_capacity s : Result SchedulerError N :=
  match max_running_requests s with
  | None => Ok usize_MAX
  | Some max =>
      let remaining := saturating_sub max (len (decode_queue s)) in
      if remaining =? 0 then Err (RunningRequestLimitReached max) else Ok remaining
  end.

Definition scheduler_page_size s : N := from_option page_size 1 (cache_page_allocator s).

(** A prompt that is fully cached still has to run its last token: the slot of
    that token is taken back from the match and replayed. *)
(** [scheduler.rs:647-664] Scheduler::prepare_prefill_request_chunk (replay token) *)
Definition split_replay_page r (m : PrefixMatch) : option (PrefixMatch * option CachePageId) :=
  if (bool_decide (disaggregated_params r = None) && negb (is_nil (input_ids r))
      && is_nil (remaining_input_ids m))%bool then
    guard (0 < matched_token_count m);;
    token ← last (input_ids r);
    page ← last (cache_pages m);
    Some (mkPrefixMatch (matched_token_count m - 1) (removelast (cache_pages m))
            (remaining_input_ids m ++ [token]), Some page)
  else Some (m, None).

(** [scheduler.rs:637-646] Scheduler::prepare_prefill_request_chunk (prefix match) *)
Definition prefill_prefix_match s r : option PrefixMatch :=
  match prefix_cache_policy s with
  | Enabled => match_prefix_page_aligned (prefix_cache s) (input_ids r) (scheduler_page_size s)
  | Disabled => Some (mkPrefixMatch 0 [] (input_ids r))
  end.

(** [scheduler.rs:666-674] Scheduler::prepare_prefill_request_chunk (request fields) *)
Definition apply_first_match r (hit : N) (m : PrefixMatch) (replay : option CachePageId) : ScheduledRequest :=
  let sequence := cache_pages m in
  let '(sequence, r) :=
    match replay with
    | Some page => (sequence ++ [page], set_forward_cache_pages r [page])
    | None => (sequence, r)
    end in
  let r := set_cache_hit_token_count r hit in
  let r := set_prompt_tokens_processed r (matched_token_count m) in
  let r := apply_prefix_match r m in
  set_sequence_cache_pages r sequence.

(** [if let Some(allocator) = self.cache_page_allocator.as_mut()
    { allocator.allocate_for_sequence(..)? } else { Vec::new() }] *)
Definition allocate_slots s (sequence : list CachePageId) (count : N)
    : option (Result SchedulerError (list CachePageId) * Scheduler W P) :=
  match cache_page_allocator s with
  | None => Some (Ok [], s)
  | Some a =>
      '(res, a') ← allocate_for_sequence a sequence count;
      Some (result_map_err CacheAllocation res, set_alloc s (Some a'))
  end.

(** [scheduler.rs:683-698] Scheduler::prepare_prefill_request_chunk (allocation) *)
Definition allocate_prefill_chunk s r (max_chunk_tokens : N)
    : option (Result SchedulerError unit * ScheduledRequest * Scheduler W P) :=
  let chunk_len := N.min (remaining_prompt_tokens r) max_chunk_tokens in
  '(res, s) ← allocate_slots s (sequence_cache_pages r) chunk_len;
  match res with
  | Err e => Some (Err e, r, s)
  | Ok pages =>
      let r := set_forward_cache_pages r pages in
      let r := set_allocated_cache_pages r pages in
      let r := append_sequence_cache_pages r pages in
      let r := set_current_chunk_len r chunk_len in
      Some (Ok (), set_stage r PrefillForward, s)
  end.

(** The request is mutated in place, also when the allocation fails. *)
(** [scheduler.rs:625-698] Scheduler::prepare_prefill_request_chunk *)
Definition prepare_prefill_request_chunk s r (max_chunk_tokens : N)
    : option (Result SchedulerError unit * ScheduledRequest * Scheduler W P) :=
  if prompt_tokens_processed r =? 0 then
    m ← prefill_prefix_match s r;
    '(m', replay) ← split_replay_page r m;
    let r := apply_first_match r (matched_token_count m) m' replay in
    match replay with
    | Some _ => Some (Ok (), set_stage (set_current_chunk_len r 1) PrefillForward, s)
    | None => allocate_prefill_chunk s r max_chunk_tokens
    end
  else allocate_prefill_chunk s r max_chunk_tokens.

(** A request taken back from a batch that is not formed. *)
Definition unprepare (stage : RequestStage) r : ScheduledRequest :=
  set_stage (clear_forward_cache_allocation r) stage.

(** [scheduler.rs:700-720] Scheduler::restore_failed_prefill_attempt *)
Definition restore_failed_prefill_attempt s (prepared : list ScheduledRequest) (failed : ScheduledRequest)
    : option (Scheduler W P) :=
  s ← allocator_release s (allocated_cache_pages failed);
  s ← release_prepared s prepared;
  let s := set_waiting s (unprepare PrefillWaiting failed :: waiting_queue s) in
  Some (set_waiting s ((unprepare PrefillWaiting <$> prepared) ++ waiting_queue s)).

(** [scheduler.rs:568-593] Scheduler::next_prefill_batch_with_token_budget (loop) *)
Fixpoint prefill_loop (fuel : nat) s (max_batch_size max_uncached_tokens chunk_budget : N)
    (requests : list ScheduledRequest) (uncached_token_count : N)
    : option (Result SchedulerError (list ScheduledRequest) * Scheduler W P) :=
  match fuel, waiting_queue s with
  | O, _ | _, [] => Some (Ok requests, s)
  | S fuel', request :: q =>
      if negb (len requests <? max_batch_size) then Some (Ok requests, s)
      else
        '(res, request, s) ← prepare_prefill_request_chunk (set_waiting s q) request chunk_budget;
        match res with
        | Err e => s ← restore_failed_prefill_attempt s requests request; Some (Err e, s)
        | Ok _ =>
            let request_uncached_tokens := current_chunk_len request in
            if (negb (is_nil requests)
                && (max_uncached_tokens <? uncached_token_count + request_uncached_tokens))%bool then
              s ← allocator_release s (allocated_cache_pages request);
              Some (Ok requests,
                    set_waiting s (unprepare PrefillWaiting request :: waiting_queue s))
            else
              prefill_loop fuel' s max_batch_size max_uncached_tokens chunk_budget
                (requests ++ [request]) (uncached_token_count + request_uncached_tokens)
        end
  end.

(** [scheduler.rs:595-605] Scheduler::next_prefill_batch_with_token_budget (fallback) *)
Definition prefill_fallback s (chunk_budget : N)
    : option (Result SchedulerError (list ScheduledRequest) * Scheduler W P) :=
  match waiting_queue s with
  | [] => Some (Err EmptyQueue, s)
  | request :: q =>
      '(res, request, s) ← prepare_prefill_request_chunk (set_waiting s q) request chunk_budget;
      match res with
      | Err e => Some (Err e, set_waiting s (request :: waiting_queue s))
      | Ok _ => Some (Ok [request], s)
      end
  end.

(** [scheduler.rs:554-608] Scheduler::next_prefill_batch_with_token_budget *)
Definition next_prefill_batch_with_token_budget s (max_batch_size max_uncached_tokens : N)
    : option (Result SchedulerError ScheduleBatch * Scheduler W P) :=
  if (is_nil (waiting_queue s) || (max_batch_size =? 0))%bool then Some (Err EmptyQueue, s)
  else
    match remaining_running_request_capacity s with
    | Err e => Some (Err e, s)
    | Ok capacity =>
        let max_batch_size := N.min max_batch_size capacity in
        let chunk_budget := default usize_MAX (chunked_prefill_size s) in
        '(res, s) ← prefill_loop (length (waiting_queue s)) s max_batch_size max_uncached_tokens
                      chunk_budget [] 0;
        match res with
        | Err e => Some (Err e, s)
        | Ok requests =>
            '(res, s) ← (if is_nil requests then prefill_fallback s chunk_budget
                         else Some (Ok requests, s));
            match res with
            | Err e => Some (Err e, s)
            | Ok requests => Some (Ok (mkScheduleBatch Prefill requests), s)
            end
        end
    end.

(** [scheduler.rs:547-552] Scheduler::next_prefill_batch *)
Definition next_prefill_batch s (max_batch_size : N) :=
  next_prefill_batch_with_token_budget s max_batch_size usize_MAX.

(** ** Decode batches *)

(** [scheduler.rs:773-788] Scheduler::prepare_decode_request *)
Definition prepare_decode_request s r
    : option (Result SchedulerError unit * ScheduledRequest * Scheduler W P) :=
  '(res, s) ← allocate_slots s (sequence_cache_pages r) 1;
  match res with
  | Err e => Some (Err e, r, s)
  | Ok pages =>
      let r := set_forward_cache_pages r pages in
      let r := set_allocated_cache_pages r pages in
      Some (Ok (), append_sequence_cache_pages r (allocated_cache_pages r), s)
  end.

(** [scheduler.rs:790-807] Scheduler::restore_failed_decode_attempt *)
Definition restore_failed_decode_attempt s (prepared : list ScheduledRequest) (failed : ScheduledRequest)
    : option (Scheduler W P) :=
  s ← release_prepared s prepared;
  let s := set_decode s (failed :: decode_queue s) in
  Some (set_decode s ((unprepare DecodeWaiting <$> prepared) ++ decode_queue s)).

(** What the readiness check of the front request tells the loop. *)
Inductive ReadyStep : Type :=
  | Proceed
  | Stop
  | Return (error : SchedulerError).

(** The loop the three decode batch builders share.  [more n] is the loop
    condition on [requests.len()]; [check] looks at the front request, given
    the requests prepared so far, and may keep state of its own. *)
(** [scheduler.rs:744-768] Scheduler::next_decode_batch_with_ready_check (loop) *)
Fixpoint decode_loop {C} (fuel : nat) (more : N → bool)
    (check : C → list ScheduledRequest → ScheduledRequest → ReadyStep * C)
    s (c : C) (requests : list ScheduledRequest)
    : option (Result SchedulerError (list ScheduledRequest) * C * Scheduler W P) :=
  match fuel, decode_queue s with
  | O, _ | _, [] => Some (Ok requests, c, s)
  | S fuel', next_request :: q =>
      if negb (more (len requests)) then Some (Ok requests, c, s)
      else
        match check c requests next_request with
        | (Stop, c) => Some (Ok requests, c, s)
        | (Return e, c) => Some (Err e, c, s)
        | (Proceed, c) =>
            '(res, request, s) ← prepare_decode_request (set_decode s q) next_request;
            match res with
            | Err e => s ← restore_failed_decode_attempt s requests request; Some (Err e, c, s)
            | Ok _ =>
                decode_loop fuel' more check s c (requests ++ [set_stage request DecodeForward])
            end
        end
  end.

(** [scheduler.rs:749-756] Scheduler::next_decode_batch_with_ready_check (is_ready) *)
Definition closure_check {C} (is_ready : C → ScheduledRequest → bool * C)
    (c : C) (requests : list ScheduledRequest) (next_request : ScheduledRequest) : ReadyStep * C :=
  let '(ready, c) := is_ready c next_request in
  if ready then (Proceed, c)
  else if is_nil requests then (Return (DecodeNotReady (request_id next_request)), c)
  else (Stop, c).

(** A [FnMut] closure is a function that threads its own state. *)
(** [scheduler.rs:729-771] Scheduler::next_decode_batch_with_ready_check *)
Definition next_decode_batch_with_ready_check {C} s (max_batch_size : N)
    (is_ready : C → ScheduledRequest → bool * C) (c : C)
    : option (Result SchedulerError ScheduleBatch * C * Scheduler W P) :=
  if (is_nil (decode_queue s) || (max_batch_size =? 0))%bool then Some (Err EmptyQueue, c, s)
  else
    let batch_size := N.min max_batch_size (len (decode_queue s)) in
    '(res, c, s) ← decode_loop (length (decode_queue s)) (λ n, n <? batch_size)
                     (closure_check is_ready) s c [];
    match res with
    | Err e => Some (Err e, c, s)
    | Ok requests => Some (Ok (mkScheduleBatch Decode requests), c, s)
    end.

(** [scheduler.rs:722-727] Scheduler::next_decode_batch *)
Definition next_decode_batch s (max_batch_size : N)
    : option (Result SchedulerError ScheduleBatch * Scheduler W P) :=
  '(res, _, s) ← next_decode_batch_with_ready_check s max_batch_size (λ c _, (true, c)) tt;
  Some (res, s).

(** [scheduler.rs:882-897] Scheduler::next_decode_batch_with_worker_ready_check (state of the front request) *)
Definition worker_check (w : W) (c : unit) (requests : list ScheduledRequest)
    (next_request : ScheduledRequest) : ReadyStep * unit :=
  match decode_request_state w next_request with
  | Err e => (Return (Worker e), c)
  | Ok Ready => (Proceed, c)
  | Ok Pending =>
      if is_nil requests then (Return (DecodeNotReady (request_id next_request)), c)
      else (Stop, c)
  | Ok (Failed message) => (Return (Worker (Runtime message)), c)
  end.

(** [scheduler.rs:866-912] Scheduler::next_decode_batch_with_worker_ready_check *)
Definition next_decode_batch_with_worker_ready_check s (max_batch_size : N)
    : option (Result SchedulerError ScheduleBatch * Scheduler W P) :=
  if (is_nil (decode_queue s) || (max_batch_size =? 0))%bool then Some (Err EmptyQueue, s)
  else
    let batch_size := N.min max_batch_size (len (decode_queue s)) in
    '(res, _, s) ← decode_loop (length (decode_queue s)) (λ n, n <? batch_size)
                     (worker_check (worker s)) s tt [];
    match res with
    | Err e => Some (Err e, s)
    | Ok requests => Some (Ok (mkScheduleBatch Decode requests), s)
    end.

(** ** Mixed batches *)

(** [scheduler.rs:935-943] Scheduler::next_mixed_batch (state of the front request) *)
Definition mixed_check (w : W) (c : unit) (requests : list ScheduledRequest)
    (next_request : ScheduledRequest) : ReadyStep * unit :=
  match decode_request_state w next_request with
  | Err e => (Return (Worker e), c)
  | Ok Ready => (Proceed, c)
  | Ok Pending => (Stop, c)
  | Ok (Failed message) => (Return (Worker (Runtime message)), c)
  end.

(** Each decode request counts one token, so [tokens_used] is the number of
    requests throughout the decode loop. *)
(** [scheduler.rs:926-956] Scheduler::next_mixed_batch (decode loop) *)
Definition mixed_decode_loop s (max_batch_size token_budget : N)
    : option (Result SchedulerError (list ScheduledRequest) * unit * Scheduler W P) :=
  decode_loop (length (decode_queue s)) (λ n, (n <? max_batch_size) && (n <? token_budget))%bool
    (mixed_check (worker s)) s tt [].

(** [scheduler.rs:960-995] Scheduler::next_mixed_batch (prefill loop) *)
Fixpoint mixed_prefill_loop (fuel : nat) s (max_batch_size token_budget chunk_budget : N)
    (requests : list ScheduledRequest) (tokens_used : N)
    : option (Result SchedulerError (list ScheduledRequest) * Scheduler W P) :=
  match fuel, waiting_queue s with
  | O, _ | _, [] => Some (Ok requests, s)
  | S fuel', request :: q =>
      if negb ((len requests <? max_batch_size) && (tokens_used <? token_budget))%bool
      then Some (Ok requests, s)
      else
        let effective_chunk_size := N.min chunk_budget (saturating_sub token_budget tokens_used) in
        if effective_chunk_size =? 0 then Some (Ok requests, s)
        else
          '(res, request, s) ←
            prepare_prefill_request_chunk (set_waiting s q) request effective_chunk_size;
          match res with
          | Err (CacheAllocation (OutOfSlots _ _)) =>
              Some (Ok requests, set_waiting s (request :: waiting_queue s))
          | Err e => s ← restore_failed_prefill_attempt s requests request; Some (Err e, s)
          | Ok _ =>
              let chunk_len := current_chunk_len request in
              if chunk_len =? 0 then Some (Ok (requests ++ [request]), s)
              else mixed_prefill_loop fuel' s max_batch_size token_budget chunk_budget
                     (requests ++ [request]) (tokens_used + chunk_len)
          end
  end.

(** [scheduler.rs:1001-1014] Scheduler::next_mixed_batch (forward mode) *)
Definition mixed_mode (requests : list ScheduledRequest) : ForwardMode :=
  let has_prefill := existsb (λ r, bool_decide (stage r = PrefillForward)) requests in
  let has_decode := existsb (λ r, bool_decide (stage r = DecodeForward)) requests in
  if (has_prefill && has_decode)%bool then Mixed else if has_prefill then Prefill else Decode.

(** [scheduler.rs:914-1017] Scheduler::next_mixed_batch *)
Definition next_mixed_batch s (max_batch_size token_budget : N)
    : option (Result SchedulerError ScheduleBatch * Scheduler W P) :=
  if ((is_nil (decode_queue s) && is_nil (waiting_queue s)) || (max_batch_size =? 0))%bool
  then Some (Err EmptyQueue, s)
  else
    '(res, _, s) ← mixed_decode_loop s max_batch_size token_budget;
    match res with
    | Err e => Some (Err e, s)
    | Ok requests =>
        let chunk_budget := default usize_MAX (chunked_prefill_size s) in
        '(res, s) ← mixed_prefill_loop (length (waiting_queue s)) s max_batch_size token_budget
                      chunk_budget requests (len requests);
        match res with
        | Err e => Some (Err e, s)
        | Ok requests =>
            if is_nil requests then Some (Err EmptyQueue, s)
            else Some (Ok (mkScheduleBatch (mixed_mode requests) requests), s)
        end
    end.

(** ** Publishing prefilled pages *)

(** [scheduler.rs:1181-1208] Scheduler::publish_prefill_chunk_cache_pages *)
Definition publish_prefill_chunk_cache_pages s r (chunk_start chunk_end : N) : option (Scheduler W P) :=
  let end_ := N.min chunk_end (len (sequence_cache_pages r)) in
  s ← (if 0 <? end_ then
         guard (end_ ≤ len (input_ids r));;
         Some (set_cache s (insert (prefix_cache s) (slice_to end_ (input_ids r))
                              (slice_to end_ (sequence_cache_pages r))).2)
       else Some s);
  match event_publisher s with
  | None => Some s
  | Some publisher =>
      event ← from_chunk sha256 (request_id r) (input_ids r) chunk_start chunk_end
                (scheduler_page_size s) (data_parallel_rank r);
      Some (set_publisher s (Some (publish_block_stored publisher event)))
  end.

(** [scheduler.rs:1149-1179] Scheduler::stage_prefill_chunk_cache_pages *)
Definition stage_prefill_chunk_cache_pages s r (chunk_start chunk_end : N)
    : option (Result SchedulerError unit * Scheduler W P) :=
  match prefix_cache_policy s, skips_radix_cache_insert r, disaggregated_params r with
  | Disabled, _, _ | _, true, _ => Some (Ok (), s)
  | Enabled, false, Some _ =>
      match decode_request_state (worker s) r with
      | Err e => Some (Err (Worker e), s)
      | Ok Ready => s ← publish_prefill_chunk_cache_pages s r chunk_start chunk_end; Some (Ok (), s)
      | Ok Pending => Some (Ok (), set_pending s (pending_prefix_cache_inserts s ++ [r]))
      | Ok (Failed message) => Some (Err (Worker (Runtime message)), s)
      end
  | Enabled, false, None =>
      s ← publish_prefill_chunk_cache_pages s r chunk_start chunk_end; Some (Ok (), s)
  end.

(** ** Completion *)

(** [scheduler.rs:1303-1314] scheduled_output *)
Definition scheduled_output r (generated : GeneratedToken) (is_finished : bool) : ScheduledOutput :=
  mkScheduledOutput (request_id r) (generated_token_ids generated) (cached_token_count r) is_finished.

(** [scheduler.rs:1064-1065] Scheduler::complete_batch (is_prefill_forward) *)
Definition is_prefill_forward (mode : ForwardMode) r : bool :=
  bool_decide (stage r = PrefillForward)
  || (bool_decide (mode = Prefill) && is_nil (output_ids r)).

(** [scheduler.rs:1067-1076] Scheduler::complete_batch (advance the prompt) *)
Definition completed_chunk_len r : N :=
  if 0 <? current_chunk_len r then current_chunk_len r else len (uncached_input_ids r).

(** [scheduler.rs:1093-1110] Scheduler::complete_batch (generated token) *)
Definition complete_generated s r (generated : GeneratedToken) (outputs : list ScheduledOutput)
    (completion_error : option SchedulerError)
    : option (list ScheduledOutput * option SchedulerError * Scheduler W P) :=
  let r := append_output_ids r (generated_token_ids generated) in
  if (generated_finished generated || reached_max_new_tokens r)%bool then
    let r := set_stage r Finished in
    let '(res, w) := finish_request (worker s) r in
    let s := set_worker s w in
    match res with
    | Err e => Some (outputs, Some (Worker e), set_decode s (decode_queue s ++ [r]))
    | Ok _ =>
        s ← release_request_cache_pages s r;
        Some (outputs ++ [scheduled_output r generated true], completion_error, s)
    end
  else
    let r := set_stage (clear_forward_chunk_tracking r) DecodeWaiting in
    Some (outputs ++ [scheduled_output r generated false], completion_error,
          set_decode s (decode_queue s ++ [r])).

(** [scheduler.rs:1063-1111] Scheduler::complete_batch (loop body) *)
Definition complete_request_step (mode : ForwardMode) s r (generated : GeneratedToken)
    (outputs : list ScheduledOutput) (completion_error : option SchedulerError)
    : option (list ScheduledOutput * option SchedulerError * Scheduler W P) :=
  if is_prefill_forward mode r then
    let prev_processed := prompt_tokens_processed r in
    let r := advance_prompt_tokens r (completed_chunk_len r) in
    '(staged, s) ← stage_prefill_chunk_cache_pages s r prev_processed (prompt_tokens_processed r);
    match staged with
    | Err e => Some (outputs, Some e, set_decode s (decode_queue s ++ [r]))
    | Ok _ =>
        if negb (is_prefill_complete r) then
          let r := set_stage (clear_forward_chunk_tracking r) PrefillWaiting in
          Some (outputs, completion_error, set_waiting s (r :: waiting_queue s))
        else complete_generated s r generated outputs completion_error
    end
  else complete_generated s r generated outputs completion_error.

(** [scheduler.rs:1061-1113] Scheduler::complete_batch (loop) *)
Fixpoint complete_loop (mode : ForwardMode) s (pairs : list (ScheduledRequest * GeneratedToken))
    (outputs : list ScheduledOutput) (completion_error : option SchedulerError)
    : option (list ScheduledOutput * option SchedulerError * Scheduler W P) :=
  match pairs with
  | [] => Some (outputs, completion_error, s)
  | (r, generated) :: rest =>
      '(outputs, completion_error, s) ←
        complete_request_step mode s r generated outputs completion_error;
      complete_loop mode s rest outputs completion_error
  end.

(** [scheduler.rs:1041-1114] Scheduler::complete_batch *)
Definition complete_batch s (batch : ScheduleBatch) (tokens : list GeneratedToken)
    : option (Result SchedulerError (list ScheduledOutput) * Scheduler W P) :=
  if negb (len (requests batch) =? len tokens) then
    Some (Err (Worker (Output (BatchSizeMismatch (len (requests batch)) (len tokens)))),
          set_decode s (decode_queue s ++ requests batch))
  else
    '(outputs, completion_error, s) ←
      complete_loop (forward_mode batch) s (zip (requests batch) tokens) [] None;
    Some (match completion_error with None => Ok outputs | Some e => Err e end, s).

(** [scheduler.rs:1135-1145] Scheduler::release_failed_batch_cache_pages (loop) *)
Fixpoint release_failed_loop s (failed : list ScheduledRequest) (cleanup_error : option WorkerExecutionError)
    : option (option WorkerExecutionError * Scheduler W P) :=
  match failed with
  | [] => Some (cleanup_error, s)
  | r :: rest =>
      let '(res, w) := finish_request (worker s) r in
      let s := set_worker s w in
      match res with
      | Err e => release_failed_loop (set_decode s (decode_queue s ++ [r])) rest (Some e)
      | Ok _ =>
          s ← allocator_release s (allocated_cache_pages r);
          release_failed_loop (set_worker s (fail_request (worker s) r)) rest cleanup_error
      end
  end.

(** [scheduler.rs:1130-1147] Scheduler::release_failed_batch_cache_pages *)
Definition release_failed_batch_cache_pages s (batch : ScheduleBatch)
    : option (Result SchedulerError unit * Scheduler W P) :=
  '(cleanup_error, s) ← release_failed_loop s (requests batch) None;
  Some (match cleanup_error with None => Ok () | Some e => Err (Worker e) end, s).

(** [scheduler.rs:1116-1128] Scheduler::dispatch_batch *)
Definition dispatch_batch s (batch : ScheduleBatch)
    : option (Result SchedulerError (list ScheduledOutput) * Scheduler W P) :=
  let '(res, w) := execute_batch (worker s) batch in
  let s := set_worker s w in
  match res with
  | Ok generated => complete_batch s batch generated
  | Err error =>
      '(cleanup, s) ← release_failed_batch_cache_pages s batch;
      Some (match cleanup with Ok _ => Err (Worker error) | Err e => Err e end, s)
  end.

(** [let batch = build()?; self.dispatch_batch(batch)]. *)
Definition dispatch_built (built : option (Result SchedulerError ScheduleBatch * Scheduler W P))
    : option (Result SchedulerError (list ScheduledOutput) * Scheduler W P) :=
  '(res, s) ← built;
  match res with
  | Err e => Some (Err e, s)
  | Ok batch => dispatch_batch s batch
  end.

(** [scheduler.rs:836-844] Scheduler::dispatch_prefill_batch_with_token_budget *)
Definition dispatch_prefill_batch_with_token_budget s (max_batch_size max_uncached_tokens : N) :=
  dispatch_built (next_prefill_batch_with_token_budget s max_batch_size max_uncached_tokens).

(** [scheduler.rs:829-834] Scheduler::dispatch_prefill_batch *)
Definition dispatch_prefill_batch s (max_batch_size : N) :=
  dispatch_prefill_batch_with_token_budget s max_batch_size usize_MAX.

(** [scheduler.rs:846-852] Scheduler::dispatch_decode_batch *)
Definition dispatch_decode_batch s (max_batch_size : N) :=
  dispatch_built (next_decode_batch_with_worker_ready_check s max_batch_size).

(** [scheduler.rs:854-864] Scheduler::dispatch_decode_batch_with_ready_check *)
Definition dispatch_decode_batch_with_ready_check {C} s (max_batch_size : N)
    (is_ready : C → ScheduledRequest → bool * C) (c : C) :=
  dispatch_built ('(res, _, s) ← next_decode_batch_with_ready_check s max_batch_size is_ready c;
                  Some (res, s)).

(** [scheduler.rs:1019-1026] Scheduler::dispatch_mixed_batch *)
Definition dispatch_mixed_batch s (max_batch_size token_budget : N) :=
  dispatch_built (next_mixed_batch s max_batch_size token_budget).

(** [scheduler.rs:1028-1034] Scheduler::step *)
Definition step s (max_batch_size token_budget : N) := dispatch_mixed_batch s max_batch_size token_budget.

(** The loop has no bound in the code: the result is [None] when the fuel runs
    out, and [dispatch_next_terminates] gives a bound that is enough. *)
(** [scheduler.rs:1210-1220] Scheduler::dispatch_next *)
Fixpoint dispatch_next (fuel : nat) s : option (Result SchedulerError ScheduledOutput * Scheduler W P) :=
  match fuel with
  | O => None
  | S fuel' =>
      '(res, s) ← dispatch_prefill_batch s 1;
      match res with
      | Err e => Some (Err e, s)
      | Ok outputs =>
          match last outputs with
          | Some output => Some (Ok output, s)
          | None =>
              if (is_nil (waiting_queue s) && is_nil (decode_queue s))%bool
              then Some (Err EmptyQueue, s)
              else dispatch_next fuel' s
          end
      end
  end.

(** ** Transfers *)

(** [scheduler.rs:1256-1266] Scheduler::release_failed_pending_prefix_cache *)
Definition release_failed_pending_prefix_cache s r : option (Scheduler W P) :=
  let '(res, w) := finish_request (worker s) r in
  let s := set_worker s w in
  match res with
  | Err _ => Some (set_pending s (pending_prefix_cache_inserts s ++ [r]))
  | Ok _ =>
      s ← release_unpublished_cache_pages s r;
      let '(r, s) :=
        match remove_request_from_queue (decode_queue s) (request_id r) with
        | Some (r', q) => (r', set_decode s q)
        | None => (r, s)
        end in
      Some (set_worker s (complete_request (worker s) r))
  end.

(** [scheduler.rs:1238-1251] Scheduler::reconcile_pending_prefix_cache_inserts (loop) *)
Fixpoint reconcile_loop s (pending : list ScheduledRequest)
    : option (Result KvCacheTransferError unit * Scheduler W P) :=
  match pending with
  | [] => Some (Ok (), s)
  | r :: rest =>
      match decode_request_state (worker s) r with
      | Err e => Some (Err (TransferRuntime (WorkerExecutionError_to_string e)), s)
      | Ok Ready =>
          s ← publish_prefill_chunk_cache_pages s r 0 (prompt_tokens_processed r);
          reconcile_loop s rest
      | Ok Pending => reconcile_loop (set_pending s (pending_prefix_cache_inserts s ++ [r])) rest
      | Ok (Failed _) => s ← release_failed_pending_prefix_cache s r; reconcile_loop s rest
      end
  end.

(** [scheduler.rs:1235-1254] Scheduler::reconcile_pending_prefix_cache_inserts *)
Definition reconcile_pending_prefix_cache_inserts s
    : option (Result KvCacheTransferError unit * Scheduler W P) :=
  reconcile_loop (set_pending s []) (pending_prefix_cache_inserts s).

(** [scheduler.rs:1222-1233] Scheduler::poll_transfers *)
Definition Scheduler_poll_transfers s
    : option (Result KvCacheTransferError KvTransferPollSummary * Scheduler W P) :=
  let '(polled, w) := poll_transfers (worker s) in
  let s := set_worker s w in
  '(res, s) ← reconcile_pending_prefix_cache_inserts s;
  Some (match res with Ok _ => polled | Err e => Err e end, s).

End SchedulerOps.
