(* ===== verification/SchedulerFacts.v ===== *)
(** * Properties of the request scheduler

    The well-formedness invariant of [Scheduler], the effect of each batch
    builder on queues and pages, and the theorems about batching, completion,
    abort, cache flush and termination.  The theorems hold for every worker
    and every event publisher: they use the [WorkerExecutor] and
    [KvStateEventPublisher] interfaces only. *)

From S2P Require Import Prelude Types PageAllocator RadixCache BlockHash StateEvents Request Scheduler.

(** ** Pages taken by a group of requests *)

(** [alloc_taken o slots o']: the allocator went from [o] to [o'] by handing
    out [slots]; the pages first touched by [slots] were free. *)
Definition alloc_taken (o : option CachePageAllocator) (slots : list CachePageId)
    (o' : option CachePageAllocator) : Prop :=
  match o, o' with
  | None, None => True
  | Some a, Some a' =>
      allocator_wf a' ∧ slot_capacity a' = slot_capacity a ∧ page_size a' = page_size a ∧
      (∀ p, p ∈ allocated_page_indices a' ↔ p ∈ allocated_page_indices a ∨ p * page_size a ∈ slots) ∧
      (∀ p, p * page_size a ∈ slots → p ∉ allocated_page_indices a)
  | _, _ => False
  end.

Definition alloc_wf (o : option CachePageAllocator) : Prop := ∀ a, o = Some a → allocator_wf a.

Definition owned (rs : list ScheduledRequest) : list CachePageId := rs ≫= allocated_cache_pages.

Lemma alloc_taken_nil o : alloc_wf o → alloc_taken o [] o.
Proof. destruct o as [a|]; simpl; [|done]. intros W. split; [by apply W|]. set_solver. Qed.

Lemma alloc_taken_wf o sl o' : alloc_taken o sl o' → alloc_wf o'.
Proof. destruct o, o'; simpl; try done. intros (?&_) ? [= <-]. done. Qed.

Lemma alloc_taken_app o sl o1 sl' o2 :
  alloc_taken o sl o1 → alloc_taken o1 sl' o2 → alloc_taken o (sl ++ sl') o2.
Proof.
  destruct o as [a|], o1 as [b|], o2 as [c|]; simpl; try done.
  intros (W&C1&P1&A1&D1) (W'&C2&P2&A2&D2). rewrite P1 in *.
  split; [done|]. split; [congruence|]. split; [congruence|]. split; intros p.
  - rewrite A2, A1, elem_of_app. tauto.
  - rewrite elem_of_app. intros [?|Hp]; [by apply D1|]. intros Hin. apply (D2 p Hp), A1. by left.
Qed.

Lemma alloc_taken_allocate a seq n slots a' :
  allocator_wf a → allocate_for_sequence a seq n = Some (Ok slots, a') →
  alloc_taken (Some a) slots (Some a').
Proof.
  intros W Heq. destruct (allocate_total a seq n W) as (r & a1 & Heq' & W' & Hc & Hp & Hsub).
  rewrite Heq in Heq'. injection Heq' as <- <-. simpl. split; [done|]. split; [done|]. split; [done|].
  pose proof (release_after_allocate _ _ _ _ _ W Heq) as Hr.
  destruct (release_total a' slots W') as (a2 & Hr' & _ & _ & _ & Hal). rewrite Hr in Hr'. injection Hr' as <-.
  destruct (allocate_ok_slots _ _ _ _ _ W Heq) as [_ Hsl]. rewrite Hp in Hal. split; intros p.
  - rewrite Hal. split.
    + intros Hin. destruct (decide (p * page_size a ∈ slots)); tauto.
    + intros [[? _]|Hin]; [done|]. destruct (Hsl _ Hin) as (_ & H & _).
      rewrite N.div_mul in H by (pose proof (wf_page_size _ W); lia). done.
  - rewrite Hal. tauto.
Qed.

Lemma alloc_equiv_same_pages a b :
  allocator_wf a → allocator_wf b → slot_capacity a = slot_capacity b → page_size a = page_size b →
  (∀ p, p ∈ allocated_page_indices a ↔ p ∈ allocated_page_indices b) → alloc_equiv a b.
Proof.
  intros Wa Wb Hc Hp Hal. split; [done|done| |by apply set_eq].
  apply NoDup_Permutation; [apply (wf_free_nodup _ Wa)|apply (wf_free_nodup _ Wb)|]. intros p.
  assert (page_count a = page_count b) as Hpc by (unfold page_count; congruence).
  pose proof (wf_partition _ Wa p) as Pa. pose proof (wf_partition _ Wb p) as Pb.
  rewrite Hpc in Pa. pose proof (wf_disjoint _ Wa p). pose proof (wf_disjoint _ Wb p).
  specialize (Hal p). destruct (decide (p ∈ allocated_page_indices a)); tauto.
Qed.

(** Two optional allocators that own the same pages. *)
Definition opt_equiv : relation (option CachePageAllocator) := option_Forall2 alloc_equiv.

#[export] Instance opt_equiv_equivalence : Equivalence opt_equiv.
Proof. apply _. Qed.

Lemma alloc_taken_nil_equiv o o' : alloc_wf o → alloc_taken o [] o' → opt_equiv o o'.
Proof.
  intros W Ht. destruct o as [a|], o' as [b|]; try done; constructor.
  destruct Ht as (Wb&Hc&Hp&Hal&_). apply alloc_equiv_same_pages; [by apply W|done|done|done|].
  intros p. rewrite Hal. set_solver.
Qed.

Lemma opt_equiv_wf o o' : opt_equiv o o' → alloc_wf o → alloc_wf o'.
Proof.
  intros He W a' ->. inversion He as [a ? Hab|]; subst. apply (allocator_wf_proper _ _ Hab). by apply W.
Qed.

(** ** Requests and scheduler well-formedness *)

Record request_wf (r : ScheduledRequest) : Prop := {
  rw_processed : prompt_tokens_processed r ≤ len (input_ids r);
  rw_uncached : len (input_ids r) ≤ prompt_tokens_processed r + len (uncached_input_ids r);
}.

(** A waiting request holds no pages allocated for a forward pass. *)
Record waiting_wf (r : ScheduledRequest) : Prop := {
  ww_request : request_wf r;
  ww_allocated : allocated_cache_pages r = [];
}.

Record scheduler_wf {W P} (s : Scheduler W P) : Prop := {
  sw_alloc : alloc_wf (cache_page_allocator s);
  sw_waiting : Forall waiting_wf (waiting_queue s);
  sw_decode : Forall request_wf (decode_queue s);
  sw_pending : Forall request_wf (pending_prefix_cache_inserts s);
}.

Lemma new_request_wf id ids sp : waiting_wf (ScheduledRequest_new id ids sp).
Proof. split; [split|]; simpl; unfold uncached_input_ids; simpl; lia || done. Qed.

Lemma unprepare_id st r : request_id (unprepare st r) = request_id r.
Proof. destruct r. unfold unprepare, clear_forward_cache_allocation; simpl. by destruct (0 <? _). Qed.

Lemma unprepare_wf st r : request_wf r → waiting_wf (unprepare st r).
Proof.
  destruct r. intros [H1 H2]. unfold unprepare, clear_forward_cache_allocation.
  split; [split|]; simpl in *; destruct (0 <? _); done.
Qed.

Lemma unprepare_ids st q : request_ids (unprepare st <$> q) = request_ids q.
Proof. unfold request_ids. rewrite <-list_fmap_compose. apply list_fmap_ext. intros. apply unprepare_id. Qed.

Lemma unprepare_all_wf st q : Forall request_wf q → Forall waiting_wf (unprepare st <$> q).
Proof. intros H. apply Forall_fmap. eapply Forall_impl; [done|]. intros. by apply unprepare_wf. Qed.

Lemma waiting_request_wf q : Forall waiting_wf q → Forall request_wf q.
Proof. intros H. eapply Forall_impl; [done|]. apply ww_request. Qed.

Section Facts.
Context {W P : Type} `{!WorkerExecutor W} `{!KvStateEventPublisher P}.
Context (sha256 : list N → list N).

Implicit Types (s : Scheduler W P) (r : ScheduledRequest).

(** [same_but_alloc s s']: only the allocator differs. *)
Definition same_but_alloc s s' : Prop := s' = set_alloc s (cache_page_allocator s').

Lemma set_alloc_id s : set_alloc s (cache_page_allocator s) = s.
Proof. by destruct s. Qed.
Lemma same_but_alloc_refl s : same_but_alloc s s.
Proof. unfold same_but_alloc. by rewrite set_alloc_id. Qed.
Lemma same_but_alloc_set s o : same_but_alloc s (set_alloc s o).
Proof. by destruct s. Qed.
Lemma same_but_alloc_trans s1 s2 s3 : same_but_alloc s1 s2 → same_but_alloc s2 s3 → same_but_alloc s1 s3.
Proof. unfold same_but_alloc. destruct s1, s2, s3; simpl. by intros [= -> -> -> -> -> -> -> -> ->] [= -> -> -> -> -> -> -> -> ->]. Qed.

(** *** Release *)

Lemma allocator_release_spec s pages :
  alloc_wf (cache_page_allocator s) →
  ∃ s', allocator_release s pages = Some s' ∧ same_but_alloc s s' ∧
    alloc_wf (cache_page_allocator s') ∧
    match cache_page_allocator s, cache_page_allocator s' with
    | None, None => True
    | Some a, Some a' =>
        slot_capacity a' = slot_capacity a ∧ page_size a' = page_size a ∧
        ∀ p, p ∈ allocated_page_indices a' ↔ p ∈ allocated_page_indices a ∧ p * page_size a ∉ pages
    | _, _ => False
    end.
Proof.
  intros Wf. unfold allocator_release. destruct (cache_page_allocator s) as [a|] eqn:Ha.
  - destruct (release_total a pages (Wf a eq_refl)) as (a' & -> & Wa' & Hc & Hp & Hal).
    eexists; split; [done|]. split; [apply same_but_alloc_set|]. destruct s; simpl.
    split; [by intros ? [= <-]|done].
  - exists s. split; [done|]. split; [apply same_but_alloc_refl|]. rewrite Ha. done.
Qed.

Lemma allocator_release_total s pages :
  alloc_wf (cache_page_allocator s) →
  ∃ s', allocator_release s pages = Some s' ∧ same_but_alloc s s' ∧ alloc_wf (cache_page_allocator s').
Proof. intros Wf. destruct (allocator_release_spec s pages Wf) as (s'&?&?&?&_). eauto. Qed.

Lemma release_prepared_spec s rs :
  alloc_wf (cache_page_allocator s) →
  ∃ s', release_prepared s rs = Some s' ∧ same_but_alloc s s' ∧
    alloc_wf (cache_page_allocator s') ∧
    match cache_page_allocator s, cache_page_allocator s' with
    | None, None => True
    | Some a, Some a' =>
        slot_capacity a' = slot_capacity a ∧ page_size a' = page_size a ∧
        ∀ p, p ∈ allocated_page_indices a' ↔ p ∈ allocated_page_indices a ∧ p * page_size a ∉ owned rs
    | _, _ => False
    end.
Proof.
  revert s. induction rs as [|r rs IH]; intros s Wf; cbn [release_prepared].
  - exists s. split; [done|]. split; [apply same_but_alloc_refl|]. split; [done|].
    destruct (cache_page_allocator s); [|done]. split; [done|]. split; [done|]. set_solver.
  - destruct (allocator_release_spec s (allocated_cache_pages r) Wf) as (s1&->&Hs1&Wf1&H1). cbn [mbind option_bind].
    destruct (IH s1 Wf1) as (s2&->&Hs2&Wf2&H2). exists s2. split; [done|].
    split; [by eapply same_but_alloc_trans|]. split; [done|].
    destruct (cache_page_allocator s) as [a|], (cache_page_allocator s1) as [b|],
      (cache_page_allocator s2) as [c|]; try done.
    destruct H1 as (C1&P1&A1), H2 as (C2&P2&A2). rewrite P1 in *.
    split; [congruence|]. split; [congruence|]. intros p. rewrite A2, A1. unfold owned. simpl.
    rewrite elem_of_app. tauto.
Qed.

(** Releasing everything a group of requests took restores the pages. *)
Lemma release_taken o s rs :
  alloc_wf o → alloc_taken o (owned rs) (cache_page_allocator s) →
  ∃ s', release_prepared s rs = Some s' ∧ same_but_alloc s s' ∧ opt_equiv o (cache_page_allocator s').
Proof.
  intros Wo Ht. destruct (release_prepared_spec s rs) as (s'&Heq&Hs'&Wf&H); [by eapply alloc_taken_wf|].
  exists s'. split; [done|]. split; [done|]. unfold alloc_taken in Ht.
  destruct o as [a|], (cache_page_allocator s) as [b|], (cache_page_allocator s') as [c|]; try done; constructor.
  destruct Ht as (Wb&C1&P1&A1&D1), H as (C2&P2&A2). rewrite P1 in *.
  apply alloc_equiv_same_pages; [by apply Wo|by apply Wf|congruence|congruence|].
  intros p. rewrite A2, A1. specialize (D1 p). destruct (decide (p * page_size a ∈ owned rs)); tauto.
Qed.

(** *** Preparing requests *)

Lemma allocate_slots_spec s seq n :
  alloc_wf (cache_page_allocator s) →
  ∃ res s', allocate_slots s seq n = Some (res, s') ∧ same_but_alloc s s' ∧
    match res with
    | Ok pages => alloc_taken (cache_page_allocator s) pages (cache_page_allocator s')
    | Err e => s' = s ∧ ∃ m k, e = CacheAllocation (OutOfSlots m k)
    end.
Proof.
  intros Wf. unfold allocate_slots. destruct (cache_page_allocator s) as [a|] eqn:Ha.
  - destruct (allocate_total a seq n (Wf a eq_refl)) as (res & a' & Heq & _). rewrite Heq. cbn.
    eexists _, _. split; [done|]. split; [apply same_but_alloc_set|]. destruct res as [pages|e]; simpl.
    + destruct s. by apply (alloc_taken_allocate _ seq n _ _ (Wf a eq_refl)).
    + destruct (allocate_error _ _ _ _ _ (Wf a eq_refl) Heq) as (->&->&_). rewrite <-Ha.
      split; [apply set_alloc_id|eauto].
  - eexists _, _. split; [done|]. split; [apply same_but_alloc_refl|]. by rewrite Ha.
Qed.

Lemma scheduler_page_size_pos s : alloc_wf (cache_page_allocator s) → 0 < scheduler_page_size s.
Proof.
  unfold scheduler_page_size. intros Wf. destruct (cache_page_allocator s) as [a|]; [|done].
  apply (wf_page_size a). by apply Wf.
Qed.

Lemma prefill_prefix_match_spec s r :
  alloc_wf (cache_page_allocator s) →
  ∃ m, prefill_prefix_match s r = Some m ∧ len (cache_pages m) = matched_token_count m ∧
    matched_token_count m + len (remaining_input_ids m) = len (input_ids r).
Proof.
  intros Wf. unfold prefill_prefix_match. destruct (prefix_cache_policy s); [|by exists (mkPrefixMatch 0 [] (input_ids r))].
  pose proof (scheduler_page_size_pos s Wf). rewrite match_prefix_aligned_eq by done. eexists; split; [done|].
  simpl. assert (len (match_path (input_ids r) (root (prefix_cache s))) ≤ len (input_ids r)).
  { unfold len. pose proof (match_path_prefix (input_ids r) (root (prefix_cache s))). lia. }
  pose proof (N_div_mul_le (len (match_path (input_ids r) (root (prefix_cache s)))) (scheduler_page_size s)).
  split; len_lia.
Qed.

(** [prefill_prepared c r r']: [r'] is [r] prepared for a forward pass over a
    chunk of at most [c] tokens (or the one replayed token). *)
Record prefill_prepared (c : N) r r' : Prop := {
  pp_id : request_id r' = request_id r;
  pp_input : input_ids r' = input_ids r;
  pp_wf : request_wf r';
  pp_stage : stage r' = PrefillForward;
  pp_chunk : current_chunk_len r' ≤ N.max 1 c;
  pp_progress : prompt_tokens_processed r ≤ prompt_tokens_processed r';
}.

Lemma allocate_prefill_chunk_spec s r c :
  alloc_wf (cache_page_allocator s) → request_wf r →
  ∃ res r' s', allocate_prefill_chunk s r c = Some (res, r', s') ∧ same_but_alloc s s' ∧
    match res with
    | Ok _ => prefill_prepared c r r' ∧
        alloc_taken (cache_page_allocator s) (allocated_cache_pages r') (cache_page_allocator s')
    | Err e => r' = r ∧ s' = s ∧ ∃ m k, e = CacheAllocation (OutOfSlots m k)
    end.
Proof.
  intros Wf Wr. unfold allocate_prefill_chunk.
  destruct (allocate_slots_spec s (sequence_cache_pages r) (N.min (remaining_prompt_tokens r) c) Wf)
    as (res&s'&->&Hs'&H). cbn [mbind option_bind]. destruct res as [pages|e].
  - eexists _, _, _. split; [done|]. split; [done|]. destruct r, Wr as [W1 W2]. split; [|done].
    split; simpl in *; try done; lia.
  - eexists _, _, _. split; [done|]. split; [done|]. split; [done|]. done.
Qed.

Lemma split_replay_page_spec r m :
  len (cache_pages m) = matched_token_count m →
  matched_token_count m + len (remaining_input_ids m) = len (input_ids r) →
  ∃ m' replay, split_replay_page r m = Some (m', replay) ∧
    matched_token_count m' + len (remaining_input_ids m') = len (input_ids r) ∧
    match replay with Some _ => 1 ≤ len (remaining_input_ids m') | None => True end.
Proof.
  intros Hp Hm. unfold split_replay_page. destruct (_ && _)%bool eqn:Hc; [|by eexists _, _].
  apply andb_prop in Hc as [[_ Hi]%andb_prop Hr].
  destruct (remaining_input_ids m) as [|]; [|done]. rewrite len_nil in Hm.
  destruct (last (input_ids r)) as [t|] eqn:Ht; [|by apply last_None in Ht; rewrite Ht in Hi].
  assert (0 < matched_token_count m).
  { destruct (input_ids r); [done|]. rewrite len_cons in Hm. lia. }
  destruct (last (cache_pages m)) as [p|] eqn:Hl.
  2:{ apply last_None in Hl. rewrite Hl, len_nil in Hp. lia. }
  rewrite option_guard_True by done. cbn. eexists _, _. split; [done|]. simpl. rewrite len_cons, len_nil. lia.
Qed.

Lemma prepare_prefill_spec s r c :
  alloc_wf (cache_page_allocator s) → waiting_wf r →
  ∃ res r' s', prepare_prefill_request_chunk s r c = Some (res, r', s') ∧ same_but_alloc s s' ∧
    match res with
    | Ok _ => prefill_prepared c r r' ∧
        alloc_taken (cache_page_allocator s) (allocated_cache_pages r') (cache_page_allocator s')
    | Err e => request_id r' = request_id r ∧ waiting_wf r' ∧ s' = s ∧
        ∃ m k, e = CacheAllocation (OutOfSlots m k)
    end.
Proof.
  intros Wf [Wr Wa]. unfold prepare_prefill_request_chunk. destruct (N.eqb_spec (prompt_tokens_processed r) 0) as [H0|H0].
  - destruct (prefill_prefix_match_spec s r Wf) as (m&->&Hp&Hm). cbn [mbind option_bind].
    destruct (split_replay_page_spec r m Hp Hm) as (m'&replay&->&Hm'&Hr). cbn [mbind option_bind].
    set (r1 := apply_first_match r _ m' replay).
    assert (request_wf r1 ∧ request_id r1 = request_id r ∧ input_ids r1 = input_ids r ∧
      allocated_cache_pages r1 = [] ∧ prompt_tokens_processed r1 = matched_token_count m') as (Wr1&Hid&Hin&Hal&Hpr).
    { unfold r1, apply_first_match. destruct r, replay; simpl in *; (split; [split; unfold uncached_input_ids; simpl; lia|done]). }
    destruct replay as [page|].
    + eexists _, _, _. split; [done|]. split; [apply same_but_alloc_refl|].
      destruct r1; simpl in *. subst. split; [|by apply alloc_taken_nil]. destruct Wr1.
      split; simpl in *; try done; lia.
    + destruct (allocate_prefill_chunk_spec s r1 c Wf Wr1) as (res&r'&s'&->&Hs'&H).
      eexists _, _, _. split; [done|]. split; [done|]. destruct res as [[]|e].
      * destruct H as [[] ?]. split; [|done]. split; try congruence; try done. lia.
      * destruct H as (->&->&?). split; [done|]. split; [by split|]. done.
  - destruct (allocate_prefill_chunk_spec s r c Wf Wr) as (res&r'&s'&->&Hs'&H).
    eexists _, _, _. split; [done|]. split; [done|]. destruct res as [[]|e]; [done|].
    destruct H as (->&->&?). split; [done|]. split; [by split|]. done.
Qed.

Lemma prepare_decode_spec s r :
  alloc_wf (cache_page_allocator s) → request_wf r →
  ∃ res r' s', prepare_decode_request s r = Some (res, r', s') ∧ same_but_alloc s s' ∧
    match res with
    | Ok _ => request_id r' = request_id r ∧ request_wf r' ∧
        unprepare DecodeWaiting r' =
          set_stage (clear_forward_chunk_tracking r) DecodeWaiting ∧
        alloc_taken (cache_page_allocator s) (allocated_cache_pages r') (cache_page_allocator s')
    | Err e => r' = r ∧ s' = s ∧ ∃ m k, e = CacheAllocation (OutOfSlots m k)
    end.
Proof.
  intros Wf Wr. unfold prepare_decode_request.
  destruct (allocate_slots_spec s (sequence_cache_pages r) 1 Wf) as (res&s'&->&Hs'&H).
  cbn [mbind option_bind]. destruct res as [pages|e].
  - eexists _, _, _. split; [done|]. split; [done|]. destruct r as [id inp out al fw sq ? ? ? ? pm st dn ck], Wr.
    split; [done|]. split; [by split|]. split; [|done].
    unfold unprepare, clear_forward_cache_allocation, clear_forward_chunk_tracking; simpl.
    destruct (N.ltb_spec 0 (len pages)) as [Hlt|Hle]; simpl; f_equal.
    + unfold saturating_sub. rewrite len_app. replace (len sq + len pages - len pages) with (len sq) by lia.
      unfold slice_to, len. rewrite Nat2N.id. apply take_app_length.
    + assert (pages = []) as -> by (apply len_0; lia). by rewrite app_nil_r.
  - eexists _, _, _. split; [done|]. split; [done|]. done.
Qed.

(** *** Frames *)

(** Batch builders change the two queues and the allocator only. *)
Definition batch_frame s s' : Prop :=
  s' = set_alloc (set_decode (set_waiting s (waiting_queue s')) (decode_queue s')) (cache_page_allocator s').

Lemma batch_frame_refl s : batch_frame s s.
Proof. by destruct s. Qed.

Lemma batch_frame_trans s1 s2 s3 : batch_frame s1 s2 → batch_frame s2 s3 → batch_frame s1 s3.
Proof. destruct s1, s2, s3. unfold batch_frame. cbn. intros [= -> -> -> -> -> -> ->] [= -> -> -> -> -> -> ->]. done. Qed.

Lemma same_but_alloc_eqs s s' :
  same_but_alloc s s' →
  batch_frame s s' ∧ waiting_queue s' = waiting_queue s ∧ decode_queue s' = decode_queue s ∧
  pending_prefix_cache_inserts s' = pending_prefix_cache_inserts s ∧ worker s' = worker s.
Proof. destruct s, s'. unfold same_but_alloc, batch_frame. simpl. intros [= -> -> -> -> -> -> -> -> ->]. done. Qed.

Lemma batch_frame_set_waiting s s' q : batch_frame (set_waiting s q) s' → batch_frame s s'.
Proof. by destruct s, s'. Qed.
Lemma batch_frame_set_decode s s' q : batch_frame (set_decode s q) s' → batch_frame s s'.
Proof. by destruct s, s'. Qed.
Lemma batch_frame_to_waiting s s' q : batch_frame s s' → batch_frame s (set_waiting s' q).
Proof. destruct s, s'. unfold batch_frame. cbn. by intros [= -> -> -> -> -> -> ->]. Qed.
Lemma batch_frame_to_decode s s' q : batch_frame s s' → batch_frame s (set_decode s' q).
Proof. destruct s, s'. unfold batch_frame. cbn. by intros [= -> -> -> -> -> -> ->]. Qed.

(** *** The prefill loop *)

Definition chunk_tokens (rs : list ScheduledRequest) : N := foldr N.add 0 (current_chunk_len <$> rs).

Lemma chunk_tokens_app rs rs' : chunk_tokens (rs ++ rs') = chunk_tokens rs + chunk_tokens rs'.
Proof. induction rs as [|r rs IH]; [done|]. change (current_chunk_len r + chunk_tokens (rs ++ rs') = current_chunk_len r + chunk_tokens rs + chunk_tokens rs'). lia. Qed.

Lemma chunk_tokens_snoc rs r : chunk_tokens (rs ++ [r]) = chunk_tokens rs + current_chunk_len r.
Proof. rewrite chunk_tokens_app. unfold chunk_tokens. simpl. lia. Qed.

Lemma owned_snoc rs r : owned (rs ++ [r]) = owned rs ++ allocated_cache_pages r.
Proof. unfold owned. rewrite bind_app. simpl. by rewrite app_nil_r. Qed.

(** A request on its way to a forward pass over at most [c] prompt tokens. *)
Definition forward_wf (c : N) r : Prop :=
  request_wf r ∧ stage r = PrefillForward ∧ current_chunk_len r ≤ N.max 1 c.

Lemma prefill_prepared_forward c rs rs' : Forall2 (prefill_prepared c) rs rs' → Forall (forward_wf c) rs'.
Proof. induction 1 as [|r r' rs rs' [] _ IH]; constructor; done. Qed.

Lemma restore_failed_prefill_spec o s prepared failed :
  alloc_wf o → alloc_taken o (owned prepared) (cache_page_allocator s) →
  Forall request_wf prepared → waiting_wf failed → Forall waiting_wf (waiting_queue s) →
  ∃ s', restore_failed_prefill_attempt s prepared failed = Some s' ∧ batch_frame s s' ∧
    decode_queue s' = decode_queue s ∧ Forall waiting_wf (waiting_queue s') ∧
    request_ids (waiting_queue s') = request_ids prepared ++ request_id failed :: request_ids (waiting_queue s) ∧
    opt_equiv o (cache_page_allocator s').
Proof.
  intros Wo Ht Hp Hf Hw. unfold restore_failed_prefill_attempt. rewrite (ww_allocated _ Hf).
  assert (allocator_release s [] = Some s) as ->.
  { unfold allocator_release. destruct s as [? ? ? ? ? [[]|] ? ? ? ?]; done. }
  cbn [mbind option_bind]. destruct (release_taken o s prepared Wo Ht) as (s1&->&Hs1&He).
  cbn [mbind option_bind]. destruct (same_but_alloc_eqs _ _ Hs1) as (Hfr&Hq&Hd&_).
  eexists; split; [done|]. split; [by apply batch_frame_to_waiting, batch_frame_to_waiting|].
  cbn. rewrite Hq. split; [done|]. split; [|split; [|done]].
  - apply Forall_app. split; [by apply unprepare_all_wf|]. constructor; [|done]. apply unprepare_wf, Hf.
  - rewrite request_ids_app, unprepare_ids. cbn. by rewrite unprepare_id.
Qed.

Definition OutOfSlots_error (e : SchedulerError) : Prop := ∃ m k, e = CacheAllocation (OutOfSlots m k).

(** What a loop that moves requests from the waiting queue to a batch leaves:
    the batch grows by [more], taken in order from the front of the queue; on
    an error everything is back in the queue. *)
Definition loop_post (o : option CachePageAllocator) (c : N) s (reqs : list ScheduledRequest)
    (res : Result SchedulerError (list ScheduledRequest)) s' : Prop :=
  batch_frame s s' ∧ decode_queue s' = decode_queue s ∧ Forall waiting_wf (waiting_queue s') ∧
  match res with
  | Ok reqs' => ∃ more, reqs' = reqs ++ more ∧
      Forall2 (prefill_prepared c) (take (length more) (waiting_queue s)) more ∧
      request_ids more ++ request_ids (waiting_queue s') = request_ids (waiting_queue s) ∧
      alloc_taken o (owned reqs') (cache_page_allocator s')
  | Err e => OutOfSlots_error e ∧ opt_equiv o (cache_page_allocator s') ∧
      request_ids (waiting_queue s') = request_ids reqs ++ request_ids (waiting_queue s)
  end.

(** One more request in the batch. *)
Lemma loop_post_step o c s reqs r q r' s1 res s' :
  waiting_queue s = r :: q → prefill_prepared c r r' → batch_frame s s1 →
  decode_queue s1 = decode_queue s → waiting_queue s1 = q →
  loop_post o c s1 (reqs ++ [r']) res s' → loop_post o c s reqs res s'.
Proof.
  intros Hq Hr Hf Hd Hq1 (Hf'&Hd'&Hw&H). unfold loop_post. split; [by eapply batch_frame_trans|].
  split; [congruence|]. split; [done|]. rewrite Hq. destruct res as [reqs'|e].
  - destruct H as (more&->&Hm&Hids&Ht). exists (r' :: more). rewrite <-app_assoc in *.
    split; [done|]. split; [cbn; constructor; [done|by rewrite <-Hq1]|].
    split; [|done]. rewrite !request_ids_cons, (pp_id _ _ _ Hr). cbn [app]. by rewrite Hids, Hq1.
  - destruct H as (?&?&Hids). split; [done|]. split; [done|]. rewrite Hids, Hq1, request_ids_app, <-app_assoc.
    by rewrite !request_ids_cons, (pp_id _ _ _ Hr).
Qed.

Lemma loop_post_stop o c s s' reqs :
  batch_frame s s' → decode_queue s' = decode_queue s → Forall waiting_wf (waiting_queue s') →
  request_ids (waiting_queue s') = request_ids (waiting_queue s) →
  alloc_taken o (owned reqs) (cache_page_allocator s') → loop_post o c s reqs (Ok reqs) s'.
Proof.
  intros ??? Hids ?. split; [done|]. split; [done|]. split; [done|]. exists []. rewrite app_nil_r.
  split; [done|]. split; [done|]. by rewrite Hids.
Qed.

Lemma loop_post_here o c s reqs :
  Forall waiting_wf (waiting_queue s) → alloc_taken o (owned reqs) (cache_page_allocator s) →
  loop_post o c s reqs (Ok reqs) s.
Proof. intros. apply loop_post_stop; try done. apply batch_frame_refl. Qed.

(** Re-taking what was released: [alloc_taken] sees pages only. *)
Lemma alloc_taken_proper o sl a b : opt_equiv a b → alloc_taken o sl a → alloc_taken o sl b.
Proof.
  intros [x y Hxy|] Ht; [|done]. destruct o as [z|]; simpl in *; [|done].
  destruct Ht as (Wx&C1&P1&A1&D1). split; [by apply (allocator_wf_proper _ _ Hxy)|]. destruct Hxy as [Hc Hp _ Ha].
  split; [congruence|]. split; [congruence|]. split; [|done]. intros p. by rewrite <-Ha, A1.
Qed.

(** The bound on the tokens of a prefill batch: it is within the budget unless
    it is a single request. *)
Definition within_budget (budget : N) (rs : list ScheduledRequest) : Prop :=
  len rs ≤ 1 ∨ chunk_tokens rs ≤ budget.

Lemma within_budget_snoc budget reqs r :
  (negb (is_nil reqs) && (budget <? chunk_tokens reqs + current_chunk_len r))%bool = false →
  within_budget budget (reqs ++ [r]).
Proof.
  unfold within_budget. rewrite len_app, len_cons, len_nil, chunk_tokens_snoc.
  destruct reqs as [|x reqs]; [left; rewrite len_nil; lia|]. cbn [is_nil negb andb].
  rewrite N.ltb_ge. by right.
Qed.

Lemma prefill_loop_spec o fuel s max budget c reqs :
  alloc_wf o → alloc_taken o (owned reqs) (cache_page_allocator s) → Forall waiting_wf (waiting_queue s) →
  Forall request_wf reqs → (length (waiting_queue s) ≤ fuel)%nat →
  len reqs ≤ max → within_budget budget reqs →
  ∃ res s', prefill_loop fuel s max budget c reqs (chunk_tokens reqs) = Some (res, s') ∧
    loop_post o c s reqs res s' ∧
    match res with
    | Ok reqs' => len reqs' ≤ max ∧ within_budget budget reqs' ∧
        (waiting_queue s ≠ [] → 0 < max → reqs' ≠ [])
    | Err _ => True
    end.
Proof.
  intros Wo. revert s reqs. induction fuel as [|fuel IH]; intros s reqs Ht Hw Hr Hfuel Hmax Hb.
  { assert (waiting_queue s = []) as Hnil by (destruct (waiting_queue s); simpl in *; [done|lia]).
    eexists _, _. split; [done|]. split; [by apply loop_post_here|]. by rewrite Hnil. }
  cbn [prefill_loop]. destruct (waiting_queue s) as [|r q] eqn:Hq.
  { eexists _, _. split; [done|]. split; [apply loop_post_here; by rewrite ?Hq|]. done. }
  destruct (N.ltb_spec (len reqs) max) as [Hlt|Hge]; cbn [negb].
  2:{ eexists _, _. split; [done|]. split; [apply loop_post_here; by rewrite ?Hq|].
      split; [done|]. split; [done|]. intros _ ? ->. rewrite len_nil in Hge. lia. }
  inversion Hw as [|?? Wr Wq]; subst.
  destruct (prepare_prefill_spec (set_waiting s q) r c) as (res&r'&s1&->&Hs1&H);
    [by eapply alloc_taken_wf|done|].
  destruct (same_but_alloc_eqs _ _ Hs1) as (Hf1%batch_frame_set_waiting&Hq1&Hd1&_). cbn in Hq1, Hd1.
  cbn [mbind option_bind]. destruct res as [[]|e].
  - destruct H as [Hp Ht1]. cbn in Ht1. pose proof (alloc_taken_app _ _ _ _ _ Ht Ht1) as Ht2.
    rewrite <-owned_snoc in Ht2. destruct (_ && _)%bool eqn:Hbud.
    + (* over the token budget: the request goes back *)
      destruct (release_taken (cache_page_allocator s) s1 [r']) as (s2&Hrel&Hs2&He);
        [by eapply alloc_taken_wf|unfold owned; simpl; by rewrite app_nil_r|].
      cbn [release_prepared] in Hrel. destruct (allocator_release s1 (allocated_cache_pages r')) as [s2'|]; [|done].
      cbn [mbind option_bind] in Hrel |- *. injection Hrel as ->.
      destruct (same_but_alloc_eqs _ _ Hs2) as (Hf2&Hq2&Hd2&_).
      eexists _, _. split; [done|]. split.
      * apply loop_post_stop; cbn; [by eapply batch_frame_to_waiting, batch_frame_trans|congruence| | |].
        -- rewrite Hq2, Hq1. constructor; [apply unprepare_wf; apply Hp|done].
        -- rewrite Hq2, Hq1, Hq, !request_ids_cons, unprepare_id. by rewrite (pp_id _ _ _ Hp).
        -- by eapply alloc_taken_proper.
      * split; [done|]. split; [done|]. intros _ _ ->. by rewrite N.add_0_l in Hbud.
    + rewrite <-chunk_tokens_snoc.
      destruct (IH s1 (reqs ++ [r'])) as (res&s'&->&Hpost&Hres); try done.
      * by rewrite Hq1.
      * apply Forall_app. split; [done|]. constructor; [apply Hp|done].
      * rewrite Hq1. simpl in Hfuel. lia.
      * rewrite len_app, len_cons, len_nil. lia.
      * by apply within_budget_snoc.
      * eexists _, _. split; [done|]. split; [by eapply loop_post_step|].
        destruct res as [reqs'|]; [|done]. destruct Hres as (?&?&_). split; [done|]. split; [done|].
        intros _ _ ->. destruct Hpost as (_&_&_&more&Heq&_). by destruct reqs.
  - destruct H as (Hid&Wr'&->&He).
    destruct (restore_failed_prefill_spec o (set_waiting s q) reqs r') as (s2&->&Hf2&Hd2&Hw2&Hids&Heq);
      [done|done|done|done|done|].
    cbn [mbind option_bind]. eexists _, _. split; [done|]. split; [|done].
    split; [by eapply batch_frame_set_waiting|]. split; [done|]. split; [done|]. split; [done|]. split; [done|].
    rewrite Hids, Hq, Hid. done.
Qed.

Lemma frame_wf s s' :
  batch_frame s s' → scheduler_wf s → alloc_wf (cache_page_allocator s') →
  Forall waiting_wf (waiting_queue s') → Forall request_wf (decode_queue s') → scheduler_wf s'.
Proof.
  intros Hf [? ? ? Hp] ? ? ?. split; try done. unfold batch_frame in Hf. rewrite Hf. done.
Qed.

Lemma alloc_taken_self_wf s sl o : alloc_taken o sl (cache_page_allocator s) → alloc_wf (cache_page_allocator s).
Proof. apply alloc_taken_wf. Qed.

(** *** The decode loop *)

(** A request that waits for its next decode step carries nothing of the
    previous forward pass. *)
Definition decode_clean r : Prop := set_stage (clear_forward_chunk_tracking r) DecodeWaiting = r.

(** [decode_lost]: the loop returned the error of a state query, and the
    requests it had prepared are in neither queue; the request asked about is now
    the first. *)
Definition decode_lost {C} (check : C → list ScheduledRequest → ScheduledRequest → ReadyStep * C)
    (o : option CachePageAllocator) s (reqs : list ScheduledRequest) (e : SchedulerError) s' : Prop :=
  ∃ more c next c' taken, check c (reqs ++ more) next = (Return e, c') ∧
    decode_queue s = taken ++ decode_queue s' ∧ request_ids more = request_ids taken ∧
    alloc_taken o (owned (reqs ++ more)) (cache_page_allocator s') ∧ head (decode_queue s') = Some next.

Definition decode_restored (o : option CachePageAllocator) s (reqs : list ScheduledRequest)
    (e : SchedulerError) s' : Prop :=
  OutOfSlots_error e ∧ opt_equiv o (cache_page_allocator s') ∧
  request_ids (decode_queue s') = request_ids reqs ++ request_ids (decode_queue s) ∧
  (Forall decode_clean (decode_queue s) →
   decode_queue s' = (unprepare DecodeWaiting <$> reqs) ++ decode_queue s).

Definition decode_post {C} (check : C → list ScheduledRequest → ScheduledRequest → ReadyStep * C)
    (o : option CachePageAllocator) s (reqs : list ScheduledRequest)
    (res : Result SchedulerError (list ScheduledRequest)) s' : Prop :=
  batch_frame s s' ∧ waiting_queue s' = waiting_queue s ∧ Forall request_wf (decode_queue s') ∧
  match res with
  | Ok reqs' => ∃ more, reqs' = reqs ++ more ∧
      Forall (λ r, request_wf r ∧ stage r = DecodeForward) more ∧
      request_ids more ++ request_ids (decode_queue s') = request_ids (decode_queue s) ∧
      alloc_taken o (owned reqs') (cache_page_allocator s')
  | Err e => decode_lost check o s reqs e s' ∨ decode_restored o s reqs e s'
  end.

Lemma decode_post_step {C} (check : C → _ → _ → ReadyStep * C) o s reqs r q r' s1 res s' :
  decode_queue s = r :: q → request_id r' = request_id r →
  unprepare DecodeWaiting r' = set_stage (clear_forward_chunk_tracking r) DecodeWaiting →
  request_wf r' → stage r' = DecodeForward →
  batch_frame s s1 → waiting_queue s1 = waiting_queue s → decode_queue s1 = q →
  decode_post check o s1 (reqs ++ [r']) res s' → decode_post check o s reqs res s'.
Proof.
  intros Hq Hid Hun Hwf Hst Hf Hw Hq1 (Hf'&Hw'&Hd&H). split; [by eapply batch_frame_trans|].
  split; [congruence|]. split; [done|]. destruct res as [reqs'|e].
  - destruct H as (more&->&Hm&Hids&Ht). exists (r' :: more). rewrite <-app_assoc in *. split; [done|].
    split; [by constructor|]. split; [|done]. rewrite Hq, !request_ids_cons, Hid. cbn [app]. by rewrite Hids, Hq1.
  - destruct H as [(more&c&next&c'&taken&Hc&Htk&Hids&Hwa)|(He&Heq&Hids&Hcl)]; [left|right].
    + exists (r' :: more), c, next, c', (r :: taken). rewrite <-app_assoc in *. split; [done|].
      split; [rewrite Hq; cbn [app]; by rewrite <-Htk, Hq1|]. split; [|done].
      by rewrite !request_ids_cons, Hid, Hids.
    + split; [done|]. split; [done|]. split.
      * rewrite Hids, Hq1, Hq, request_ids_app, <-app_assoc, !request_ids_cons, Hid. done.
      * rewrite Hq. intros Hc. inversion Hc as [|?? Hr Hqc]; subst.
        rewrite (Hcl Hqc), fmap_app, <-app_assoc. cbn. unfold decode_clean in Hr. by rewrite Hun, Hr.
Qed.

Lemma restore_failed_decode_spec o s prepared failed :
  alloc_wf o → alloc_taken o (owned prepared) (cache_page_allocator s) →
  Forall request_wf prepared → request_wf failed → Forall request_wf (decode_queue s) →
  ∃ s', restore_failed_decode_attempt s prepared failed = Some s' ∧ batch_frame s s' ∧
    waiting_queue s' = waiting_queue s ∧ Forall request_wf (decode_queue s') ∧
    decode_queue s' = (unprepare DecodeWaiting <$> prepared) ++ failed :: decode_queue s ∧
    opt_equiv o (cache_page_allocator s').
Proof.
  intros Wo Ht Hp Hf Hd. unfold restore_failed_decode_attempt.
  destruct (release_taken o s prepared Wo Ht) as (s1&->&Hs1&He). cbn [mbind option_bind].
  destruct (same_but_alloc_eqs _ _ Hs1) as (Hfr&Hq&Hdq&_).
  eexists; split; [done|]. split; [by apply batch_frame_to_decode, batch_frame_to_decode|].
  cbn. rewrite Hdq. split; [done|]. split; [|done].
  apply Forall_app. split; [|by constructor]. by apply waiting_request_wf, unprepare_all_wf.
Qed.

Lemma set_stage_unprepare st st' r : unprepare st (set_stage r st') = unprepare st r.
Proof. destruct r. unfold unprepare, clear_forward_cache_allocation. simpl. by destruct (0 <? _). Qed.

Lemma decode_loop_spec {C} (check : C → _ → _ → ReadyStep * C) o more bound fuel s c reqs :
  alloc_wf o → alloc_taken o (owned reqs) (cache_page_allocator s) → Forall request_wf (decode_queue s) →
  Forall request_wf reqs → (length (decode_queue s) ≤ fuel)%nat →
  (∀ n, more n = true → n < bound) → len reqs ≤ bound →
  ∃ res c' s', decode_loop fuel more check s c reqs = Some (res, c', s') ∧
    decode_post check o s reqs res s' ∧ match res with Ok reqs' => len reqs' ≤ bound | Err _ => True end.
Proof.
  intros Wo. revert s c reqs. induction fuel as [|fuel IH]; intros s c reqs Ht Hd Hr Hfuel Hmore Hb.
  all: assert (decode_post check o s reqs (Ok reqs) s) as Hhere
    by (split; [apply batch_frame_refl|]; split; [done|]; split; [done|]; exists []; by rewrite app_nil_r).
  { eexists _, _, _. split; [done|]. done. }
  cbn [decode_loop]. destruct (decode_queue s) as [|r q] eqn:Hq; [by eexists _, _, _|].
  destruct (more (len reqs)) eqn:Hm; cbn [negb]; [|by eexists _, _, _].
  destruct (check c reqs r) as [[| |e] c1] eqn:Hc; [|by eexists _, _, _|].
  2:{ eexists _, _, _. split; [done|]. split; [|done]. split; [apply batch_frame_refl|]. rewrite Hq.
      split; [done|]. split; [done|]. left. exists [], c, r, c1, []. rewrite app_nil_r. by rewrite Hq. }
  inversion Hd as [|?? Wr Wq]; subst.
  destruct (prepare_decode_spec (set_decode s q) r) as (res&r'&s1&->&Hs1&H); [by eapply alloc_taken_wf|done|].
  destruct (same_but_alloc_eqs _ _ Hs1) as (Hf1%batch_frame_set_decode&Hq1&Hd1&_). cbn in Hq1, Hd1.
  cbn [mbind option_bind]. destruct res as [[]|e].
  - destruct H as (Hid&Wr'&Hun&Ht1). cbn in Ht1. set (r2 := set_stage r' DecodeForward).
    assert (allocated_cache_pages r2 = allocated_cache_pages r' ∧ request_id r2 = request_id r ∧
      request_wf r2 ∧ stage r2 = DecodeForward ∧ unprepare DecodeWaiting r2 = unprepare DecodeWaiting r') as (Ha2&Hid2&W2&Hst2&Hun2).
    { unfold r2. rewrite set_stage_unprepare, <-Hid. destruct r', Wr'. done. }
    pose proof (alloc_taken_app _ _ _ _ _ Ht Ht1) as Ht2. rewrite <-Ha2, <-owned_snoc in Ht2.
    destruct (IH s1 c1 (reqs ++ [r2])) as (res&c2&s'&->&Hpost&Hres); try done.
    + by rewrite Hd1.
    + apply Forall_app. split; [done|]. by constructor.
    + rewrite Hd1. simpl in Hfuel. lia.
    + rewrite len_app, len_cons, len_nil. apply Hmore in Hm. lia.
    + eexists _, _, _. split; [done|]. split; [|done].
      eapply decode_post_step; try done. congruence.
  - destruct H as (->&->&He).
    destruct (restore_failed_decode_spec o (set_decode s q) reqs r) as (s2&->&Hf2&Hw2&Hd2&Hids&Heq);
      [done|done|done|done|done|].
    cbn [mbind option_bind]. eexists _, _, _. split; [done|]. split; [|done].
    split; [by eapply batch_frame_set_decode|]. split; [done|]. split; [done|]. right.
    split; [done|]. split; [done|]. rewrite Hids, Hq. cbn. split; [|done].
    by rewrite request_ids_app, unprepare_ids.
Qed.

(** *** The prefill loop of mixed batches *)

Lemma mixed_prefill_loop_spec o fuel s max budget c reqs tokens :
  alloc_wf o → alloc_taken o (owned reqs) (cache_page_allocator s) → Forall waiting_wf (waiting_queue s) →
  Forall request_wf reqs → (length (waiting_queue s) ≤ fuel)%nat →
  len reqs ≤ max → tokens ≤ budget →
  ∃ res s', mixed_prefill_loop fuel s max budget c reqs tokens = Some (res, s') ∧
    loop_post o c s reqs res s' ∧
    match res with
    | Ok reqs' => len reqs' ≤ max ∧
        ∃ more, reqs' = reqs ++ more ∧ tokens + chunk_tokens more ≤ budget
    | Err _ => False
    end.
Proof.
  intros Wo. revert s reqs tokens. induction fuel as [|fuel IH]; intros s reqs tokens Ht Hw Hr Hfuel Hmax Hb.
  all: assert (loop_post o c s reqs (Ok reqs) s) as Hhere by (by apply loop_post_here).
  all: assert (∃ more, reqs = reqs ++ more ∧ tokens + chunk_tokens more ≤ budget) as Htok
    by (exists []; rewrite app_nil_r; split; [done|unfold chunk_tokens; simpl; lia]).
  { eexists _, _. done. }
  cbn [mixed_prefill_loop]. destruct (waiting_queue s) as [|r q] eqn:Hq; [by eexists _, _|].
  destruct ((len reqs <? max) && (tokens <? budget))%bool eqn:Hm; cbn [negb]; [|by eexists _, _].
  apply andb_prop in Hm as [Hm1 Hm2]. reflect_N.
  destruct (N.eqb_spec (N.min c (saturating_sub budget tokens)) 0) as [H0|H0]; [by eexists _, _|].
  inversion Hw as [|?? Wr Wq]; subst.
  destruct (prepare_prefill_spec (set_waiting s q) r (N.min c (saturating_sub budget tokens)))
    as (res&r'&s1&->&Hs1&H); [by eapply alloc_taken_wf|done|].
  destruct (same_but_alloc_eqs _ _ Hs1) as (Hf1%batch_frame_set_waiting&Hq1&Hd1&_). cbn in Hq1, Hd1.
  cbn [mbind option_bind]. destruct res as [[]|e].
  - destruct H as [Hp Ht1]. cbn in Ht1. pose proof (alloc_taken_app _ _ _ _ _ Ht Ht1) as Ht2.
    rewrite <-owned_snoc in Ht2. pose proof (pp_chunk _ _ _ Hp) as Hck. unfold saturating_sub in *.
    assert (prefill_prepared c r r') as Hp' by (destruct Hp; split; try done; lia).
    assert (loop_post o c s reqs (Ok (reqs ++ [r'])) s1) as Hone.
    { eapply (loop_post_step o c s reqs r q r' s1); try done. apply loop_post_here; [|done]. by rewrite Hq1. }
    destruct (N.eqb_spec (current_chunk_len r') 0) as [Hz|Hz].
    + eexists _, _. split; [done|]. split; [done|]. split; [len_lia|].
      exists [r']. split; [done|]. unfold chunk_tokens. simpl. lia.
    + destruct (IH s1 (reqs ++ [r']) (tokens + current_chunk_len r')) as (res&s'&->&Hpost&Hres); try done.
      * by rewrite Hq1.
      * apply Forall_app. split; [done|]. constructor; [apply Hp|done].
      * rewrite Hq1. simpl in Hfuel. lia.
      * rewrite len_app, len_cons, len_nil. lia.
      * lia.
      * eexists _, _. split; [done|]. split; [by eapply loop_post_step|].
        destruct res as [reqs'|]; [|done]. destruct Hres as (?&more&->&Htk). split; [done|].
        exists (r' :: more). rewrite <-app_assoc. split; [done|].
        change (chunk_tokens (r' :: more)) with (current_chunk_len r' + chunk_tokens more). lia.
  - destruct H as (Hid&Wr'&->&m&k&->). eexists _, _. split; [done|]. split; [|done].
    apply loop_post_stop; cbn; try done.
    + by constructor.
    + by rewrite Hq, !request_ids_cons, Hid.
Qed.

(** *** The batch builders *)

Lemma is_nil_false {A} (l : list A) : is_nil l = false → l ≠ [].
Proof. by destruct l. Qed.
Lemma is_nil_true {A} (l : list A) : is_nil l = true → l = [].
Proof. by destruct l. Qed.

Lemma remaining_capacity_spec s n :
  remaining_running_request_capacity s = Ok n →
  0 < n ∧ ∀ m, max_running_requests s = Some m → n + len (decode_queue s) = m.
Proof.
  unfold remaining_running_request_capacity, saturating_sub. destruct (max_running_requests s) as [m|]; [|by intros [= <-]].
  destruct (N.eqb_spec (m - len (decode_queue s)) 0); [done|]. intros [= <-]. split; [lia|]. intros ? [= ->]. lia.
Qed.

Lemma next_prefill_spec s max budget :
  scheduler_wf s →
  ∃ res s', next_prefill_batch_with_token_budget s max budget = Some (res, s') ∧ scheduler_wf s' ∧
    batch_frame s s' ∧ decode_queue s' = decode_queue s ∧
    match res with
    | Ok b => forward_mode b = Prefill ∧ requests b ≠ [] ∧
        Forall2 (prefill_prepared (default usize_MAX (chunked_prefill_size s)))
          (take (length (requests b)) (waiting_queue s)) (requests b) ∧
        request_ids (requests b) ++ request_ids (waiting_queue s') = request_ids (waiting_queue s) ∧
        batch_size b ≤ max ∧
        (∀ m, max_running_requests s = Some m → batch_size b + len (decode_queue s) ≤ m) ∧
        within_budget budget (requests b) ∧
        alloc_taken (cache_page_allocator s) (owned (requests b)) (cache_page_allocator s')
    | Err e => request_ids (waiting_queue s') = request_ids (waiting_queue s) ∧
        opt_equiv (cache_page_allocator s) (cache_page_allocator s')
    end.
Proof.
  intros Wf. pose proof Wf as [Wa Ww Wd Wp]. unfold next_prefill_batch_with_token_budget.
  destruct (is_nil _ || _)%bool eqn:Hg.
  { eexists _, _. split; [done|]. split; [done|]. split; [apply batch_frame_refl|]. done. }
  apply orb_false_iff in Hg as [Hnil%is_nil_false Hmax]. reflect_N.
  destruct (remaining_running_request_capacity s) as [cap|e] eqn:Hcap.
  2:{ eexists _, _. split; [done|]. split; [done|]. split; [apply batch_frame_refl|]. done. }
  apply remaining_capacity_spec in Hcap as [Hcap0 Hcap].
  set (c := default usize_MAX _). cbv zeta. change 0 with (chunk_tokens []) at 1.
  destruct (prefill_loop_spec (cache_page_allocator s) (length (waiting_queue s)) s (N.min max cap) budget c [])
    as (res&s'&->&(Hf&Hd&Hw&Hres)&Hbound); try done;
    [by apply alloc_taken_nil|rewrite len_nil; lia|left; rewrite len_nil; lia|].
  cbn [mbind option_bind]. destruct res as [reqs|e].
  - destruct Hres as (more&Heq&Hmore&Hids&Ht). cbn in Heq. subst more.
    destruct Hbound as (Hlen&Hb&Hne). specialize (Hne Hnil ltac:(lia)).
    assert (is_nil reqs = false) as -> by (by destruct reqs). cbn [mbind option_bind].
    eexists _, _. split; [done|]. split.
    { eapply frame_wf; try done; [by eapply alloc_taken_wf|by rewrite Hd]. }
    split; [done|]. split; [done|]. split; [done|]. split; [done|]. split; [done|]. split; [done|].
    unfold batch_size. cbn. split; [lia|]. split; [|done]. intros m Hm. specialize (Hcap m Hm). lia.
  - destruct Hres as (He&Heq&Hids). eexists _, _. split; [done|]. split.
    { eapply frame_wf; try done; [by eapply opt_equiv_wf|by rewrite Hd]. }
    done.
Qed.

Lemma decode_post_wf {C} (check : C → _ → _ → ReadyStep * C) s res s' :
  scheduler_wf s → decode_post check (cache_page_allocator s) s [] res s' → scheduler_wf s'.
Proof.
  intros Wf (Hf&Hw&Hd&H). pose proof Wf as [Wa Ww Wd Wp]. eapply frame_wf; [done..| |by rewrite Hw|done].
  destruct res as [reqs|e].
  - destruct H as (more&_&_&_&Ht). by eapply alloc_taken_wf.
  - destruct H as [(more&_&_&_&_&_&_&_&Ht&_)|(_&He&_)]; [by eapply alloc_taken_wf|by eapply opt_equiv_wf].
Qed.

(** All decode builders run the loop from an empty batch. *)
Lemma decode_loop_from_empty {C} (check : C → _ → _ → ReadyStep * C) s c more bound :
  scheduler_wf s → (∀ n, more n = true → n < bound) →
  ∃ res c' s', decode_loop (length (decode_queue s)) more check s c [] = Some (res, c', s') ∧
    scheduler_wf s' ∧ decode_post check (cache_page_allocator s) s [] res s' ∧
    match res with Ok reqs' => len reqs' ≤ bound | Err _ => True end.
Proof.
  intros Wf Hm. pose proof Wf as [Wa Ww Wd Wp].
  destruct (decode_loop_spec check (cache_page_allocator s) more bound (length (decode_queue s)) s c [])
    as (res&c'&s'&Heq&Hpost&Hb); try done; [by apply alloc_taken_nil|rewrite len_nil; lia|].
  exists res, c', s'. split; [done|]. split; [by eapply decode_post_wf|]. done.
Qed.

Lemma next_decode_spec {C} s max (is_ready : C → ScheduledRequest → bool * C) c :
  scheduler_wf s →
  ∃ res c' s', next_decode_batch_with_ready_check s max is_ready c = Some (res, c', s') ∧ scheduler_wf s' ∧
    match res with
    | Ok b => batch_size b ≤ max ∧
        decode_post (closure_check is_ready) (cache_page_allocator s) s [] (Ok (requests b)) s'
    | Err e => s' = s ∨ decode_post (closure_check is_ready) (cache_page_allocator s) s [] (Err e) s'
    end.
Proof.
  intros Wf. unfold next_decode_batch_with_ready_check. destruct (_ || _)%bool.
  { eexists _, _, _. split; [done|]. split; [done|]. by left. }
  cbv zeta. edestruct (decode_loop_from_empty (closure_check is_ready) s c
      (λ n, n <? N.min max (len (decode_queue s))) (N.min max (len (decode_queue s))))
    as (res&c'&s'&->&Wf'&Hpost&Hb); [done|intros n ?; by reflect_N|]. cbn [mbind option_bind].
  destruct res as [reqs|e]; (eexists _, _, _; split; [done|]; split; [done|]); [|by right].
  split; [|done]. unfold batch_size. cbn. lia.
Qed.

Lemma next_decode_worker_spec s max :
  scheduler_wf s →
  ∃ res s', next_decode_batch_with_worker_ready_check s max = Some (res, s') ∧ scheduler_wf s' ∧
    match res with
    | Ok b => batch_size b ≤ max ∧ forward_mode b = Decode ∧
        decode_post (worker_check (worker s)) (cache_page_allocator s) s [] (Ok (requests b)) s'
    | Err e => s' = s ∨ decode_post (worker_check (worker s)) (cache_page_allocator s) s [] (Err e) s'
    end.
Proof.
  intros Wf. unfold next_decode_batch_with_worker_ready_check. destruct (_ || _)%bool.
  { eexists _, _. split; [done|]. split; [done|]. by left. }
  cbv zeta. edestruct (decode_loop_from_empty (worker_check (worker s)) s tt
      (λ n, n <? N.min max (len (decode_queue s))) (N.min max (len (decode_queue s))))
    as (res&c'&s'&->&Wf'&Hpost&Hb); [done|intros n ?; by reflect_N|]. cbn [mbind option_bind].
  destruct res as [reqs|e]; (eexists _, _; split; [done|]; split; [done|]); [|by right].
  split; [|done]. unfold batch_size. cbn. lia.
Qed.

Lemma existsb_stage (st : RequestStage) (rs : list ScheduledRequest) :
  existsb (λ r, bool_decide (stage r = st)) rs = true ↔ ∃ r, r ∈ rs ∧ stage r = st.
Proof.
  rewrite existsb_exists. split; intros (r&Hr&Hs).
  - exists r. by rewrite list_elem_of_In, bool_decide_eq_true in *.
  - exists r. by rewrite list_elem_of_In, bool_decide_eq_true in *.
Qed.

(** In a list made of two stages, a stage occurs when its part is not empty. *)
Lemma existsb_stage_app (st st' : RequestStage) l l' :
  st ≠ st' → Forall (λ r, request_wf r ∧ stage r = st) l → Forall (λ r, request_wf r ∧ stage r = st') l' →
  existsb (λ r, bool_decide (stage r = st)) (l ++ l') = negb (is_nil l) ∧
  existsb (λ r, bool_decide (stage r = st')) (l ++ l') = negb (is_nil l').
Proof.
  intros Hne Hl Hl'. rewrite Forall_forall in Hl, Hl'. split; apply eq_true_iff_eq; rewrite existsb_stage.
  - destruct l as [|x l]; simpl; split; try done.
    + intros (r&Hr&Hs). destruct (Hl' r Hr). congruence.
    + intros _. exists x. split; [by left|]. apply Hl. by left.
  - destruct l' as [|x l']; simpl; split; try done.
    + intros (r&Hr&Hs). rewrite app_nil_r in Hr. destruct (Hl r Hr). congruence.
    + intros _. exists x. rewrite elem_of_app. split; [right; by left|]. apply Hl'. by left.
Qed.

(** A mixed batch is the decode part followed by the prefill part. *)
Definition mixed_split (decodes prefills : list ScheduledRequest) (b : ScheduleBatch) : Prop :=
  requests b = decodes ++ prefills ∧
  Forall (λ r, request_wf r ∧ stage r = DecodeForward) decodes ∧
  Forall (λ r, request_wf r ∧ stage r = PrefillForward) prefills ∧
  forward_mode b = match decodes, prefills with
                   | _, [] => Decode
                   | [], _ => Prefill
                   | _, _ => Mixed
                   end.

Lemma mixed_mode_split decodes prefills :
  Forall (λ r, request_wf r ∧ stage r = DecodeForward) decodes →
  Forall (λ r, request_wf r ∧ stage r = PrefillForward) prefills →
  mixed_split decodes prefills (mkScheduleBatch (mixed_mode (decodes ++ prefills)) (decodes ++ prefills)).
Proof.
  intros Hd Hp. split; [done|]. split; [done|]. split; [done|]. cbn. unfold mixed_mode.
  destruct (existsb_stage_app DecodeForward PrefillForward decodes prefills) as [-> ->]; [done..|].
  by destruct decodes, prefills.
Qed.

Lemma next_mixed_spec s max budget :
  scheduler_wf s →
  ∃ res s', next_mixed_batch s max budget = Some (res, s') ∧ scheduler_wf s' ∧
    match res with
    | Ok b => ∃ decodes prefills, mixed_split decodes prefills b ∧ requests b ≠ [] ∧
        request_ids decodes ++ request_ids (decode_queue s') = request_ids (decode_queue s) ∧
        request_ids prefills ++ request_ids (waiting_queue s') = request_ids (waiting_queue s) ∧
        batch_size b ≤ max ∧ len decodes + chunk_tokens prefills ≤ budget ∧
        alloc_taken (cache_page_allocator s) (owned (requests b)) (cache_page_allocator s')
    | Err e => request_ids (waiting_queue s') = request_ids (waiting_queue s) ∧
        (e = EmptyQueue ∧ request_ids (decode_queue s') = request_ids (decode_queue s) ∨
         decode_post (mixed_check (worker s)) (cache_page_allocator s) s [] (Err e) s')
    end.
Proof.
  intros Wf. unfold next_mixed_batch. destruct (_ || _)%bool.
  { eexists _, _. split; [done|]. split; [done|]. split; [done|]. by left. }
  unfold mixed_decode_loop.
  edestruct (decode_loop_from_empty (mixed_check (worker s)) s tt
    (λ n, (n <? max) && (n <? budget))%bool (N.min max budget)) as (res&[]&s1&->&Wf1&Hpost&Hb);
    [done|intros n ?; reflect_N; lia|]. cbn [mbind option_bind].
  destruct res as [reqs|e].
  2:{ eexists _, _. split; [done|]. split; [done|]. pose proof Hpost as (_&->&_). split; [done|]. by right. }
  destruct Hpost as (Hf&Hw&Hd&more&Heq&Hst&Hids&Ht). cbn in Heq. subst more.
  pose proof Wf as [Wa _ _ _]. pose proof Wf1 as [Wa1 Ww1 Wd1 _].
  destruct (mixed_prefill_loop_spec (cache_page_allocator s) (length (waiting_queue s1)) s1 max budget
    (default usize_MAX (chunked_prefill_size s1)) reqs (len reqs)) as (res&s2&->&Hloop&Hres);
    [done..| |done|lia|lia|].
  { eapply Forall_impl; [done|]. by intros ? [? _]. }
  cbn [mbind option_bind]. destruct res as [reqs'|e]; [|done].
  destruct Hloop as (Hf2&Hd2&Hw2&more&->&Hfw&Hids2&Ht2), Hres as (Hlen&more'&Heq&Htok).
  apply app_inv_head in Heq as <-.
  assert (scheduler_wf s2) as Wf2.
  { eapply (frame_wf s1); try done; [by eapply alloc_taken_wf|by rewrite Hd2]. }
  rewrite Hw in Hids2. destruct (is_nil (reqs ++ more)) eqn:Hnil; cbn [negb].
  - apply is_nil_true, app_eq_nil in Hnil as [-> ->]. eexists _, _. split; [done|]. split; [done|].
    split; [done|]. left. by rewrite Hd2.
  - eexists _, _. split; [done|]. split; [done|]. exists reqs, more. rewrite Hd2. split.
    { apply mixed_mode_split; [done|]. eapply Forall_impl; [by eapply prefill_prepared_forward|]. intros ? (?&?&_). done. }
    split; [by apply is_nil_false|]. split; [done|]. split; [done|]. done.
Qed.

End Facts.
