(* ===== verification/SchedulerCompletion.v ===== *)
(** * Completion, abort and transfers keep the scheduler well-formed

    Lemmas about the operations that retire a batch: publishing prefilled
    pages, [complete_batch], failed batches, abort, and the reconciliation of
    pending prefix-cache inserts. *)

From S2P Require Import Prelude Types PageAllocator RadixCache BlockHash StateEvents Request Scheduler SchedulerFacts.

Section Completion.
Context {W P : Type} `{!WorkerExecutor W} `{!KvStateEventPublisher P}.
Context (sha256 : list N → list N).

Implicit Types (s : Scheduler W P) (r : ScheduledRequest).

(** ** Publishing *)

(** Publishing touches the prefix cache and the publisher. *)
Definition publish_frame s s' : Prop :=
  s' = set_publisher (set_cache s (prefix_cache s')) (event_publisher s').

Lemma publish_spec s r chunk_start chunk_end :
  scheduler_wf s → chunk_start ≤ chunk_end → chunk_end ≤ len (input_ids r) →
  ∃ s', publish_prefill_chunk_cache_pages sha256 s r chunk_start chunk_end = Some s' ∧ publish_frame s s' ∧
    prefix_cache s' =
      let n := N.min chunk_end (len (sequence_cache_pages r)) in
      if 0 <? n then (insert (prefix_cache s) (slice_to n (input_ids r)) (slice_to n (sequence_cache_pages r))).2
      else prefix_cache s.
Proof.
  intros Wf Hs He. unfold publish_prefill_chunk_cache_pages. cbv zeta.
  set (n := N.min _ _).
  set (c := if 0 <? n then (insert (prefix_cache s) (slice_to n (input_ids r))
                              (slice_to n (sequence_cache_pages r))).2 else prefix_cache s).
  assert ((if 0 <? n then guard (n ≤ len (input_ids r));;
             Some (set_cache s (insert (prefix_cache s) (slice_to n (input_ids r))
                                  (slice_to n (sequence_cache_pages r))).2)
           else Some s) = Some (set_cache s c)) as ->.
  { unfold c. destruct (0 <? n); [|by destruct s]. by rewrite option_guard_True by (unfold n; lia). }
  cbn [mbind option_bind]. change (event_publisher (set_cache s c)) with (event_publisher s).
  destruct (event_publisher s) as [p|] eqn:Hp.
  - destruct (from_chunk_total sha256 (request_id r) (input_ids r) chunk_start chunk_end
      (scheduler_page_size (set_cache s c)) (data_parallel_rank r)) as [ev ->];
      [apply scheduler_page_size_pos, Wf|lia|].
    cbn [mbind option_bind]. eexists. split; [done|]. done.
  - eexists. split; [done|]. split; [|done]. clearbody c. destruct s; cbn in *. by subst.
Qed.

(** [stage_frame s r s']: staging touches the prefix cache, the publisher, and
    may add [r] to the pending inserts. *)
Definition stage_frame s r s' : Prop :=
  waiting_queue s' = waiting_queue s ∧ decode_queue s' = decode_queue s ∧
  cache_page_allocator s' = cache_page_allocator s ∧ worker s' = worker s ∧
  prefix_cache_policy s' = prefix_cache_policy s ∧
  (pending_prefix_cache_inserts s' = pending_prefix_cache_inserts s ∨
   pending_prefix_cache_inserts s' = pending_prefix_cache_inserts s ++ [r]).

Lemma publish_stage_frame s r s' : publish_frame s s' → stage_frame s r s'.
Proof. unfold publish_frame. intros ->. cbn. repeat split; auto. Qed.

Lemma stage_frame_wf s r s' : stage_frame s r s' → request_wf r → scheduler_wf s → scheduler_wf s'.
Proof.
  intros (Hw&Hd&Ha&_&_&Hp) Wr [Wa Ww Wd Wp]. split; rewrite ?Hw, ?Hd, ?Ha; try done.
  destruct Hp as [-> | ->]; [done|]. apply Forall_app. split; [done|]. by constructor.
Qed.

Lemma stage_spec s r chunk_start chunk_end :
  scheduler_wf s → chunk_start ≤ chunk_end → chunk_end ≤ len (input_ids r) →
  ∃ res s', stage_prefill_chunk_cache_pages sha256 s r chunk_start chunk_end = Some (res, s') ∧
    stage_frame s r s'.
Proof.
  intros Wf Hs He. unfold stage_prefill_chunk_cache_pages.
  assert (stage_frame s r s) as Hid by (repeat split; auto).
  destruct (publish_spec s r chunk_start chunk_end Wf Hs He) as (s1&Hpub&Hf&_).
  apply (publish_stage_frame s r) in Hf.
  destruct (prefix_cache_policy s); [|by eexists _, _].
  destruct (skips_radix_cache_insert r); [by eexists _, _|].
  destruct (disaggregated_params r); rewrite ?Hpub; cbn [mbind option_bind]; [|by eexists _, _].
  destruct (decode_request_state (worker s) r) as [[]|]; cbn [mbind option_bind]; try (by eexists _, _).
  eexists _, _. split; [done|]. repeat split; auto.
Qed.

(** ** Queue pushes and worker calls *)

Lemma set_worker_wf s w : scheduler_wf s → scheduler_wf (set_worker s w).
Proof. by intros []. Qed.

Lemma push_decode_wf s r : scheduler_wf s → request_wf r → scheduler_wf (set_decode s (decode_queue s ++ [r])).
Proof. intros [] ?. split; try done. apply Forall_app. split; [done|]. by constructor. Qed.

Lemma push_waiting_wf s r : scheduler_wf s → waiting_wf r → scheduler_wf (set_waiting s (r :: waiting_queue s)).
Proof. intros [] ?. split; try done. by constructor. Qed.

Lemma same_but_alloc_wf s s' :
  same_but_alloc s s' → alloc_wf (cache_page_allocator s') → scheduler_wf s → scheduler_wf s'.
Proof.
  intros Hs Ha [_ Ww Wd Wp]. destruct (same_but_alloc_eqs _ _ Hs) as (_&Hw&Hd&Hp&_).
  split; by rewrite ?Hw, ?Hd, ?Hp.
Qed.

Lemma release_wf s pages :
  scheduler_wf s → ∃ s', allocator_release s pages = Some s' ∧ same_but_alloc s s' ∧ scheduler_wf s'.
Proof.
  intros Wf. destruct (allocator_release_total s pages (sw_alloc _ Wf)) as (s'&->&Hs&Ha).
  exists s'. split; [done|]. split; [done|]. by eapply same_but_alloc_wf.
Qed.

(** ** Completion *)

Definition finished_ids (outputs : list ScheduledOutput) : list RequestId :=
  out_request_id <$> filter (λ o, finished o = true) outputs.

(** The requests of the scheduler and those it has reported as finished. *)
Definition placed s (outputs : list ScheduledOutput) : list RequestId :=
  request_ids (waiting_queue s) ++ request_ids (decode_queue s) ++ finished_ids outputs.

(** One request of a completed batch ends in one of four ways. *)
Inductive completed s r (outputs : list ScheduledOutput) (error : option SchedulerError)
    : list ScheduledOutput → option SchedulerError → Scheduler W P → Prop :=
  | completed_failed r' e s' :
      request_id r' = request_id r → waiting_queue s' = waiting_queue s →
      decode_queue s' = decode_queue s ++ [r'] → completed s r outputs error outputs (Some e) s'
  | completed_chunk r' s' :
      request_id r' = request_id r → input_ids r' = input_ids r →
      prompt_tokens_processed r < prompt_tokens_processed r' < len (input_ids r) →
      waiting_queue s' = r' :: waiting_queue s → decode_queue s' = decode_queue s →
      completed s r outputs error outputs error s'
  | completed_token o r' s' :
      out_request_id o = request_id r → finished o = false → request_id r' = request_id r →
      decode_clean r' → waiting_queue s' = waiting_queue s → decode_queue s' = decode_queue s ++ [r'] →
      completed s r outputs error (outputs ++ [o]) error s'
  | completed_finished o s' :
      out_request_id o = request_id r → finished o = true →
      waiting_queue s' = waiting_queue s → decode_queue s' = decode_queue s →
      completed s r outputs error (outputs ++ [o]) error s'.

Lemma append_output_facts r ids :
  request_id (append_output_ids r ids) = request_id r ∧
  (request_wf r → request_wf (append_output_ids r ids)).
Proof. destruct r. split; [done|]. intros []. by split. Qed.

Lemma set_stage_facts r st :
  request_id (set_stage r st) = request_id r ∧ (request_wf r → request_wf (set_stage r st)).
Proof. destruct r. split; [done|]. intros []. by split. Qed.

Lemma clear_tracking_facts r st :
  request_id (set_stage (clear_forward_chunk_tracking r) st) = request_id r ∧
  input_ids (set_stage (clear_forward_chunk_tracking r) st) = input_ids r ∧
  prompt_tokens_processed (set_stage (clear_forward_chunk_tracking r) st) = prompt_tokens_processed r ∧
  (request_wf r → waiting_wf (set_stage (clear_forward_chunk_tracking r) st)).
Proof. destruct r. split; [done|]. split; [done|]. split; [done|]. intros []. split; [by split|done]. Qed.

Lemma clear_tracking_clean r : decode_clean (set_stage (clear_forward_chunk_tracking r) DecodeWaiting).
Proof. by destruct r. Qed.

Lemma complete_generated_spec s r gen outputs error :
  scheduler_wf s → request_wf r →
  ∃ outputs' error' s', complete_generated s r gen outputs error = Some (outputs', error', s') ∧
    scheduler_wf s' ∧ completed s r outputs error outputs' error' s'.
Proof.
  intros Wf Wr. unfold complete_generated. set (r1 := append_output_ids r _).
  destruct (append_output_facts r (generated_token_ids gen)) as [Hid1 W1%(λ f, f Wr)]. fold r1 in Hid1, W1.
  destruct (_ || _)%bool.
  - destruct (set_stage_facts r1 Finished) as [Hid2 W2%(λ f, f W1)]. set (r2 := set_stage r1 Finished) in *.
    destruct (finish_request (worker s) r2) as [[[]|e] w].
    + destruct (release_wf (set_worker s w) (owned_slots (prefix_cache_policy (set_worker s w)) r2))
        as (s1&Hrel&Hs1&Wf1); [by apply set_worker_wf|].
      unfold release_request_cache_pages. rewrite Hrel. cbn [mbind option_bind].
      destruct (same_but_alloc_eqs _ _ Hs1) as (_&Hw&Hd&_).
      eexists _, _, _. split; [done|]. split; [done|]. apply completed_finished; try done. cbn. congruence.
    + eexists _, _, _. split; [done|]. split; [by apply (push_decode_wf (set_worker s w)); [apply set_worker_wf|]|].
      apply (completed_failed s r outputs error r2); try done. congruence.
  - destruct (clear_tracking_facts r1 DecodeWaiting) as (Hid2&_&_&W2%(λ f, f W1)).
    set (r2 := set_stage _ DecodeWaiting) in *. eexists _, _, _. split; [done|].
    split; [by apply push_decode_wf; [|apply W2]|].
    apply (completed_token s r outputs error _ r2); try done; [|congruence|apply clear_tracking_clean].
    cbn. congruence.
Qed.

Lemma advance_facts r n :
  request_wf r →
  let r' := advance_prompt_tokens r n in
  request_wf r' ∧ request_id r' = request_id r ∧ input_ids r' = input_ids r ∧
  prompt_tokens_processed r ≤ prompt_tokens_processed r' ∧
  prompt_tokens_processed r' = N.min (prompt_tokens_processed r + n) (len (input_ids r)).
Proof.
  destruct r as [id inp ? ? ? ? ? ? ? ? pm ? done_ ?]. intros [W1 W2]. unfold uncached_input_ids in *. cbn in *.
  split; [split; unfold uncached_input_ids; cbn; lia|]. split; [done|]. split; [done|]. split; [lia|done].
Qed.

(** An unfinished prompt has advanced: the forward chunk was not empty, or the
    whole uncached suffix was counted. *)
Lemma completed_chunk_progress r :
  request_wf r → let r' := advance_prompt_tokens r (completed_chunk_len r) in
  is_prefill_complete r' = false →
  prompt_tokens_processed r < prompt_tokens_processed r' < len (input_ids r).
Proof.
  intros Wr. destruct (advance_facts r (completed_chunk_len r) Wr) as (_&_&Hin&_&Hpr). cbv zeta.
  unfold is_prefill_complete. rewrite Hin, Hpr. intros Hc. reflect_N. destruct Wr as [W1 W2].
  unfold completed_chunk_len in *. destruct (N.ltb_spec 0 (current_chunk_len r)); lia.
Qed.

Lemma complete_step_spec mode s r gen outputs error :
  scheduler_wf s → request_wf r →
  ∃ outputs' error' s', complete_request_step sha256 mode s r gen outputs error = Some (outputs', error', s') ∧
    scheduler_wf s' ∧ completed s r outputs error outputs' error' s'.
Proof.
  intros Wf Wr. unfold complete_request_step. destruct (is_prefill_forward mode r); [|by apply complete_generated_spec].
  destruct (advance_facts r (completed_chunk_len r) Wr) as (W1&Hid1&Hin1&Hle1&Hpr).
  pose proof (completed_chunk_progress r Wr) as Hprog. cbv zeta in *.
  set (r1 := advance_prompt_tokens r _) in *.
  destruct (stage_spec s r1 (prompt_tokens_processed r) (prompt_tokens_processed r1) Wf Hle1) as (res&s1&->&Hs1);
    [rewrite Hin1, Hpr; lia|].
  pose proof (stage_frame_wf _ _ _ Hs1 W1 Wf) as Wf1. destruct Hs1 as (Hw&Hd&_).
  cbn [mbind option_bind]. destruct res as [[]|e].
  - destruct (is_prefill_complete r1) eqn:Hc; cbn [negb].
    + destruct (complete_generated_spec s1 r1 gen outputs error Wf1 W1) as (o'&e'&s'&->&Wf'&H).
      eexists _, _, _. split; [done|]. split; [done|].
      destruct H as [r2 e2 ????|r2 ????? |o r2 ???????|o ?????].
      * apply (completed_failed s r outputs error r2); congruence.
      * exfalso. unfold is_prefill_complete in Hc. reflect_N. lia.
      * apply (completed_token s r outputs error o r2); congruence || done.
      * apply completed_finished; congruence.
    + destruct (clear_tracking_facts r1 PrefillWaiting) as (Hid2&Hin2&Hpr2&W2%(λ f, f W1)).
      eexists _, _, _. split; [done|]. split; [by apply push_waiting_wf|].
      eapply completed_chunk; [|by rewrite Hin2, Hin1| |cbn; by rewrite Hw|done].
      * congruence.
      * rewrite Hpr2. by apply Hprog.
  - eexists _, _, _. split; [done|]. split; [by apply push_decode_wf|].
    eapply completed_failed; [|done|cbn; by rewrite Hd]; done.
Qed.

Lemma finished_ids_snoc outputs o :
  finished_ids (outputs ++ [o]) = finished_ids outputs ++ (if finished o then [out_request_id o] else []).
Proof.
  unfold finished_ids. rewrite filter_app, fmap_app. f_equal. rewrite filter_cons, filter_nil.
  by destruct (finished o).
Qed.

Lemma completed_placed s r outputs error outputs' error' s' :
  completed s r outputs error outputs' error' s' → placed s' outputs' ≡ₚ request_id r :: placed s outputs.
Proof.
  unfold placed. intros [r' e ? Hid Hw Hd|r' ? Hid _ _ Hw Hd|o r' ? Ho Hf Hid _ Hw Hd|o ? Ho Hf Hw Hd];
    rewrite Hw, Hd, ?finished_ids_snoc, ?Hf, ?request_ids_app, ?request_ids_cons, ?Hid, ?Ho; cbn [request_ids fmap list_fmap];
    rewrite ?app_nil_r; solve_Permutation.
Qed.

Lemma complete_loop_spec mode s pairs outputs error :
  scheduler_wf s → Forall (λ p : ScheduledRequest * GeneratedToken, request_wf p.1) pairs →
  ∃ outputs' error' s', complete_loop sha256 mode s pairs outputs error = Some (outputs', error', s') ∧
    scheduler_wf s' ∧ placed s' outputs' ≡ₚ request_ids pairs.*1 ++ placed s outputs.
Proof.
  revert s outputs error. induction pairs as [|[r gen] pairs IH]; intros s outputs error Wf Hp.
  - by eexists _, _, _.
  - inversion Hp as [|?? Wr Hp']; subst. cbn [complete_loop fst] in *.
    destruct (complete_step_spec mode s r gen outputs error Wf Wr) as (o1&e1&s1&->&Wf1&Hc%completed_placed).
    cbn [mbind option_bind]. destruct (IH s1 o1 e1 Wf1 Hp') as (o2&e2&s2&->&Wf2&Hpl).
    eexists _, _, _. split; [done|]. split; [done|]. cbn. rewrite Hpl, Hc. solve_Permutation.
Qed.

(** The outputs answer requests of the batch, in its order. *)
Lemma complete_generated_outputs s r gen outputs error outputs' error' s' :
  complete_generated s r gen outputs error = Some (outputs', error', s') →
  outputs' = outputs ∨ ∃ o, outputs' = outputs ++ [o] ∧ out_request_id o = request_id r.
Proof.
  unfold complete_generated. destruct (append_output_facts r (generated_token_ids gen)) as [Hid _].
  destruct (_ || _)%bool.
  - destruct (finish_request _ _) as [[[]|e] w]; [|intros [= <- _ _]; by left].
    destruct (release_request_cache_pages _ _) as [s1|]; [|done]. intros [= <- _ _]. right. eexists. split; [done|].
    cbn. by rewrite (proj1 (set_stage_facts _ _)).
  - intros [= <- _ _]. right. eexists. split; [done|]. cbn. by rewrite (proj1 (clear_tracking_facts _ _)).
Qed.

Lemma complete_loop_outputs mode pairs : ∀ s outputs error outputs' error' s',
  complete_loop sha256 mode s pairs outputs error = Some (outputs', error', s') →
  ∃ os, outputs' = outputs ++ os ∧ (out_request_id <$> os) `sublist_of` request_ids pairs.*1.
Proof.
  induction pairs as [|[r gen] pairs IH]; intros s outputs error outputs' error' s'; cbn [complete_loop].
  { intros [= <- _ _]. exists []. by rewrite app_nil_r. }
  destruct (complete_request_step _ _ _ _ _ _ _) as [[[o1 e1] s1]|] eqn:Hstep; [|done]. cbn [mbind option_bind].
  intros (os&->&Hsub)%IH. rewrite fmap_cons, request_ids_cons. cbn [fst].
  assert (o1 = outputs ∨ ∃ o, o1 = outputs ++ [o] ∧ out_request_id o = request_id r) as [->|(o&->&Ho)].
  { unfold complete_request_step in Hstep. destruct (is_prefill_forward mode r); [|by eapply complete_generated_outputs].
    destruct (stage_prefill_chunk_cache_pages _ _ _ _ _) as [[[[]|e] s2]|]; cbn [mbind option_bind] in Hstep; [|by injection Hstep as <- _ _; left|done].
    destruct (negb _); [by injection Hstep as <- _ _; left|]. apply complete_generated_outputs in Hstep.
    by destruct r. }
  - exists os. split; [done|]. by apply sublist_cons.
  - exists (o :: os). rewrite <- app_assoc. split; [done|]. rewrite fmap_cons, Ho. by apply sublist_skip.
Qed.

Lemma complete_batch_spec s batch tokens :
  scheduler_wf s → Forall request_wf (requests batch) →
  ∃ res s', complete_batch sha256 s batch tokens = Some (res, s') ∧ scheduler_wf s' ∧
    if batch_size batch =? len tokens then
      match res with
      | Ok outputs => placed s' outputs ≡ₚ request_ids (requests batch) ++ placed s []
      | Err _ => ∃ outputs, placed s' outputs ≡ₚ request_ids (requests batch) ++ placed s []
      end
    else
      res = Err (Worker (Output (BatchSizeMismatch (batch_size batch) (len tokens)))) ∧
      s' = set_decode s (decode_queue s ++ requests batch).
Proof.
  intros Wf Hb. unfold complete_batch, batch_size. destruct (N.eqb_spec (len (requests batch)) (len tokens)) as [Hl|Hl]; cbn [negb].
  - assert ((zip (requests batch) tokens).*1 = requests batch) as Hz.
    { apply fst_zip. unfold len in Hl. lia. }
    destruct (complete_loop_spec (forward_mode batch) s (zip (requests batch) tokens) [] None Wf) as (o&e&s'&->&Wf'&Hp).
    { rewrite <-Hz in Hb. by rewrite Forall_fmap in Hb. }
    rewrite Hz in Hp. cbn [mbind option_bind]. eexists _, _. split; [done|]. split; [done|]. destruct e; eauto.
  - eexists _, _. split; [done|]. split; [|done]. destruct Wf. split; try done. by apply Forall_app.
Qed.

(** The completion of a single request, for the loops that run one at a time. *)
Lemma complete_batch_single s mode r tokens :
  scheduler_wf s → request_wf r →
  ∃ res s', complete_batch sha256 s (mkScheduleBatch mode [r]) tokens = Some (res, s') ∧ scheduler_wf s' ∧
    match res with
    | Ok outputs => completed s r [] None outputs None s'
    | Err _ => True
    end.
Proof.
  intros Wf Wr. unfold complete_batch. cbn [requests forward_mode].
  destruct (_ =? _) eqn:Hl; cbn [negb].
  - destruct tokens as [|gen [|? ?]]; [done| |by rewrite !len_cons in Hl; reflect_N; rewrite len_nil in Hl; lia].
    cbn [zip zip_with complete_loop]. destruct (complete_step_spec mode s r gen [] None Wf Wr) as (o&e&s'&->&Wf'&Hc).
    cbn [mbind option_bind]. eexists _, _. split; [done|]. split; [done|]. destruct e; [done|]. done.
  - eexists _, _. split; [done|]. split; [|done]. by apply push_decode_wf.
Qed.

Lemma release_failed_loop_spec s failed error :
  scheduler_wf s → Forall request_wf failed →
  ∃ error' s', release_failed_loop s failed error = Some (error', s') ∧ scheduler_wf s' ∧
    waiting_queue s' = waiting_queue s ∧ ∃ kept, kept `sublist_of` failed ∧ decode_queue s' = decode_queue s ++ kept.
Proof.
  revert s error. induction failed as [|r failed IH]; intros s error Wf Hf; cbn [release_failed_loop].
  { eexists _, _. split; [done|]. split; [done|]. split; [done|]. exists []. by rewrite app_nil_r. }
  inversion Hf as [|?? Wr Hf']; subst. destruct (finish_request (worker s) r) as [[[]|e] w].
  - destruct (release_wf (set_worker s w) (allocated_cache_pages r)) as (s1&->&Hs1&Wf1); [by apply set_worker_wf|].
    destruct (same_but_alloc_eqs _ _ Hs1) as (_&Hw&Hd&_). cbn [mbind option_bind].
    destruct (IH (set_worker s1 (fail_request (worker s1) r)) error) as (e'&s'&->&Wf'&Hw'&kept&Hk&Hd');
      [by apply set_worker_wf|done|].
    eexists _, _. split; [done|]. split; [done|]. cbn in Hw', Hd', Hw, Hd. split; [congruence|].
    exists kept. split; [by apply sublist_cons|]. by rewrite Hd', Hd.
  - destruct (IH (set_decode (set_worker s w) (decode_queue s ++ [r])) (Some e)) as (e'&s'&Heq&Wf'&Hw'&kept&Hk&Hd');
      [by apply (push_decode_wf (set_worker s w)); [apply set_worker_wf|]|done|].
    eexists _, _. split; [exact Heq|]. split; [done|]. split; [done|].
    exists (r :: kept). split; [by apply sublist_skip|]. cbn in Hd'. by rewrite Hd', <-app_assoc.
Qed.

Lemma dispatch_batch_spec s batch :
  scheduler_wf s → Forall request_wf (requests batch) →
  ∃ res s', dispatch_batch sha256 s batch = Some (res, s') ∧ scheduler_wf s'.
Proof.
  intros Wf Hb. unfold dispatch_batch. destruct (execute_batch (worker s) batch) as [[tokens|e] w].
  - destruct (complete_batch_spec (set_worker s w) batch tokens) as (res&s'&Heq&Wf'&_); [by apply set_worker_wf|done|].
    eauto.
  - unfold release_failed_batch_cache_pages.
    destruct (release_failed_loop_spec (set_worker s w) (requests batch) None) as (e'&s'&->&Wf'&_);
      [by apply set_worker_wf|done|]. cbn [mbind option_bind]. eauto.
Qed.

(** ** Abort *)

Lemma remove_request_spec q rid :
  match remove_request_from_queue q rid with
  | Some (r, q') => request_id r = rid ∧ q ≡ₚ r :: q' ∧ q' `sublist_of` q
  | None => rid ∉ request_ids q
  end.
Proof.
  induction q as [|x q IH]; cbn [remove_request_from_queue]; [by apply not_elem_of_nil|].
  destruct (decide (request_id x = rid)) as [Hid|Hid]; [split; [done|]; split; [done|by apply sublist_cons]|].
  destruct (remove_request_from_queue q rid) as [[r q']|]; cbn [mbind option_bind].
  - destruct IH as (?&Hp&?). split; [done|]. split; [rewrite Hp; apply Permutation_swap|by apply sublist_skip].
  - rewrite request_ids_cons, elem_of_cons. intros [?|?]; congruence.
Qed.

Lemma remove_request_Forall (Q : ScheduledRequest → Prop) q rid r q' :
  remove_request_from_queue q rid = Some (r, q') → Forall Q q → Q r ∧ Forall Q q'.
Proof.
  intros Heq Hq. pose proof (remove_request_spec q rid) as H. rewrite Heq in H. destruct H as (_&Hp&_).
  rewrite Hp in Hq. by inversion Hq.
Qed.

Lemma release_pending_spec s rid :
  scheduler_wf s →
  ∃ b s', release_pending_prefix_cache_insert s rid = Some (b, s') ∧ scheduler_wf s' ∧
    waiting_queue s' = waiting_queue s ∧ decode_queue s' = decode_queue s.
Proof.
  intros Wf. unfold release_pending_prefix_cache_insert.
  destruct (remove_request_from_queue _ rid) as [[r q]|] eqn:Heq; [|by eexists _, _].
  destruct (remove_request_Forall _ _ _ _ _ Heq (sw_pending _ Wf)) as [Wr Wq].
  destruct (release_wf (set_pending s q) (allocated_cache_pages r)) as (s'&Hrel&Hs'&Wf'); [by destruct Wf|].
  unfold release_unpublished_cache_pages. rewrite Hrel. cbn [mbind option_bind].
  destruct (same_but_alloc_eqs _ _ Hs') as (_&Hw&Hd&_). by eexists _, _.
Qed.

Definition queued_ids s : list RequestId := request_ids (waiting_queue s) ++ request_ids (decode_queue s).

Definition finish_fails : Prop := ∃ (w : W) r e w', finish_request w r = (Err e, w').

Lemma abort_request_spec s rid :
  scheduler_wf s →
  ∃ b s', abort_request s rid = Some (b, s') ∧ scheduler_wf s' ∧
    if b then queued_ids s ≡ₚ rid :: queued_ids s'
    else queued_ids s ≡ₚ queued_ids s' ∧ (rid ∉ queued_ids s ∨ finish_fails).
Proof.
  intros Wf. pose proof Wf as [Wa Ww Wd Wp]. unfold abort_request.
  pose proof (remove_request_spec (waiting_queue s) rid) as Hrem.
  destruct (remove_request_from_queue (waiting_queue s) rid) as [[r q]|] eqn:Heq.
  - destruct Hrem as (Hid&Hperm&_). destruct (remove_request_Forall _ _ _ _ _ Heq Ww) as [Wr Wq]. cbn.
    destruct (finish_request (worker s) r) as [[[]|e] w] eqn:Hfin.
    + unfold release_request_cache_pages. set (s0 := set_worker (set_waiting s q) w).
      assert (scheduler_wf s0) as Wf0 by (by split).
      destruct (release_wf s0 (owned_slots (prefix_cache_policy s0) r) Wf0) as (s'&->&Hs'&Wf').
      destruct (same_but_alloc_eqs _ _ Hs') as (_&Hw&Hd&_). cbn [mbind option_bind].
      eexists _, _. split; [done|]. split; [done|]. unfold queued_ids. rewrite Hw, Hd. cbn.
      by rewrite Hperm, request_ids_cons, Hid.
    + eexists _, _. split; [done|]. split; [by split; cbn; [..|constructor| |]|]. unfold queued_ids. cbn.
      split; [by rewrite Hperm|]. right. by exists (worker s), r, e, w.
  - destruct (remove_request_from_queue (decode_queue s) rid) as [[r q]|] eqn:Heqd.
    2:{ pose proof (remove_request_spec (decode_queue s) rid) as Hremd. rewrite Heqd in Hremd.
        eexists _, _. split; [done|]. split; [done|]. split; [done|]. left. unfold queued_ids.
        rewrite elem_of_app. tauto. }
    pose proof (remove_request_spec (decode_queue s) rid) as Hremd. rewrite Heqd in Hremd.
    destruct Hremd as (Hid&Hperm&_). destruct (remove_request_Forall _ _ _ _ _ Heqd Wd) as [Wr Wq]. cbn.
    destruct (finish_request (worker s) r) as [[[]|e] w] eqn:Hfin.
    + set (s0 := set_worker (set_decode s q) w). assert (scheduler_wf s0) as Wf0 by (by split).
      destruct (release_pending_spec s0 rid Wf0) as (b&s1&->&Wf1&Hw1&Hd1). cbn [mbind option_bind].
      unfold release_request_cache_pages.
      destruct (release_wf s1 (owned_slots (prefix_cache_policy s1) r) Wf1) as (s'&->&Hs'&Wf').
      destruct (same_but_alloc_eqs _ _ Hs') as (_&Hw&Hd&_). cbn [mbind option_bind].
      eexists _, _. split; [done|]. split; [done|]. unfold queued_ids. rewrite Hw, Hd, Hw1, Hd1. cbn.
      rewrite Hperm, request_ids_cons, Hid. solve_Permutation.
    + eexists _, _. split; [done|]. split; [by split; cbn; [| |constructor|]|]. unfold queued_ids. cbn.
      split; [by rewrite Hperm|]. right. by exists (worker s), r, e, w.
Qed.

Lemma abort_ids_spec s ids n :
  scheduler_wf s → ∃ n' s', abort_ids s ids n = Some (n', s') ∧ scheduler_wf s' ∧
    n' + len (queued_ids s') = n + len (queued_ids s) ∧
    (¬ finish_fails → queued_ids s ≡ₚ ids → queued_ids s' = []).
Proof.
  revert s n. induction ids as [|rid ids IH]; intros s n Wf; cbn [abort_ids].
  { eexists _, _. split; [done|]. split; [done|]. split; [done|]. by intros _ ->%Permutation_nil_r. }
  destruct (abort_request_spec s rid Wf) as (b&s1&->&Wf1&Hb). cbn [mbind option_bind].
  destruct (IH s1 (if b then n + 1 else n) Wf1) as (n'&s'&->&Wf'&Hn&Hdrain).
  eexists _, _. split; [done|]. split; [done|]. split.
  - rewrite Hn. unfold len. destruct b; [|destruct Hb as [Hb _]]; rewrite (Permutation_length Hb); cbn; lia.
  - intros Hok Hids. apply (Hdrain Hok). destruct b.
    + rewrite Hids in Hb. by apply Permutation_cons_inv in Hb.
    + destruct Hb as [_ [Hnot|?]]; [|done]. destruct Hnot. rewrite Hids. by left.
Qed.

Lemma abort_pending_spec s pending n :
  scheduler_wf s → Forall request_wf pending →
  ∃ n' s', abort_pending s pending n = Some (n', s') ∧ scheduler_wf s' ∧ queued_ids s' = queued_ids s ∧
    n' + len (pending_prefix_cache_inserts s') = n + len pending + len (pending_prefix_cache_inserts s) ∧
    (¬ finish_fails → pending_prefix_cache_inserts s' = pending_prefix_cache_inserts s).
Proof.
  revert s n. induction pending as [|r pending IH]; intros s n Wf Hp; cbn [abort_pending].
  { eexists _, _. split; [done|]. split; [done|]. split; [done|]. split; [rewrite len_nil; lia|done]. }
  inversion Hp as [|?? Wr Hp']; subst. destruct (finish_request (worker s) r) as [[[]|e] w] eqn:Hfin.
  - unfold release_unpublished_cache_pages.
    destruct (release_wf (set_worker s w) (allocated_cache_pages r)) as (s1&->&Hs1&Wf1); [by apply set_worker_wf|].
    destruct (same_but_alloc_eqs _ _ Hs1) as (_&Hw&Hd&Hpd&_). cbn [mbind option_bind].
    destruct (IH s1 (n + 1) Wf1 Hp') as (n'&s'&->&Wf'&Hq&Hn&Hdrain). eexists _, _. split; [done|]. split; [done|].
    unfold queued_ids in *. rewrite Hq, Hw, Hd. split; [done|].
    split; [rewrite Hn, Hpd, len_cons; cbn; lia|]. intros Hok. by rewrite (Hdrain Hok), Hpd.
  - edestruct (IH (set_pending (set_worker s w) (pending_prefix_cache_inserts s ++ [r])) n) as (n'&s'&Heq&Wf'&Hq&Hn&_);
      [|done|].
    { destruct Wf. split; try done. apply Forall_app. split; [done|]. by constructor. }
    eexists _, _. split; [exact Heq|]. split; [done|]. split; [done|]. split; [rewrite Hn; cbn; len_lia|].
    intros []. by exists (worker s), r, e, w.
Qed.

Lemma abort_all_requests_spec s :
  scheduler_wf s → ∃ n s', abort_all_requests s = Some (n, s') ∧ scheduler_wf s' ∧
    (¬ finish_fails → waiting_queue s' = [] ∧ decode_queue s' = [] ∧ pending_prefix_cache_inserts s' = [] ∧
       len (queued_ids s) ≤ n).
Proof.
  intros Wf. unfold abort_all_requests.
  destruct (abort_ids_spec s (request_id <$> (waiting_queue s ++ decode_queue s)) 0 Wf) as (n&s1&->&Wf1&Hn&Hdrain).
  cbn [mbind option_bind].
  destruct (abort_pending_spec (set_pending s1 []) (pending_prefix_cache_inserts s1) n) as (n'&s'&->&Wf'&Hq&Hn'&Hp);
    [by destruct Wf1|apply Wf1|]. eexists _, _. split; [done|]. split; [done|]. intros Hok.
  specialize (Hp Hok). assert (queued_ids s1 = []) as Hnil.
  { apply (Hdrain Hok). unfold queued_ids, request_ids. by rewrite fmap_app. }
  change (queued_ids (set_pending s1 [])) with (queued_ids s1) in Hq. rewrite Hnil in Hq, Hn.
  cbn in Hn'. rewrite Hp in Hn'. rewrite !len_nil in *.
  apply app_eq_nil in Hq as [Hw%fmap_nil_inv Hd%fmap_nil_inv]. split; [done|]. split; [done|]. split; [done|]. lia.
Qed.

Lemma shutdown_spec s : scheduler_wf s → ∃ res s', shutdown s = Some (res, s') ∧ scheduler_wf s'.
Proof.
  intros Wf. unfold shutdown. destruct (abort_all_requests_spec s Wf) as (n&s'&->&Wf'&_). cbn [mbind option_bind].
  destruct (_ || _)%bool; [by eexists _, _|]. destruct (worker_shutdown (worker s')) as [[[]|e] w];
    eexists _, _; (split; [done|]); by apply set_worker_wf.
Qed.

Lemma flush_cache_wf s : scheduler_wf s → scheduler_wf (flush_cache s).2.
Proof.
  intros [Wa Ww Wd Wp]. unfold flush_cache. destruct (_ || _)%bool; [by split|]. split; try done. cbn.
  intros a' Ha. destruct (cache_page_allocator s) as [a|]; [|done]. injection Ha as <-. by apply reset_wf, Wa.
Qed.

(** ** Transfers *)

Lemma release_failed_pending_spec s r :
  scheduler_wf s → request_wf r →
  ∃ s', release_failed_pending_prefix_cache s r = Some s' ∧ scheduler_wf s'.
Proof.
  intros Wf Wr. unfold release_failed_pending_prefix_cache.
  destruct (finish_request (worker s) r) as [[[]|e] w].
  - unfold release_unpublished_cache_pages.
    destruct (release_wf (set_worker s w) (allocated_cache_pages r)) as (s1&->&Hs1&Wf1); [by apply set_worker_wf|].
    cbn [mbind option_bind]. destruct (remove_request_from_queue (decode_queue s1) (request_id r)) as [[r' q]|] eqn:Heq.
    + destruct (remove_request_Forall _ _ _ _ _ Heq (sw_decode _ Wf1)) as [_ Wq]. eexists. split; [done|].
      apply set_worker_wf. by destruct Wf1.
    + eexists. split; [done|]. by apply set_worker_wf.
  - eexists. split; [done|]. destruct Wf. split; try done. apply Forall_app. split; [done|]. by constructor.
Qed.

Lemma reconcile_loop_spec s pending :
  scheduler_wf s → Forall request_wf pending →
  ∃ res s', reconcile_loop sha256 s pending = Some (res, s') ∧ scheduler_wf s'.
Proof.
  revert s. induction pending as [|r pending IH]; intros s Wf Hp; cbn [reconcile_loop]; [by eexists _, _|].
  inversion Hp as [|?? Wr Hp']; subst. destruct (decode_request_state (worker s) r) as [[| |m]|e]; [| | |by eexists _, _].
  - destruct (publish_spec s r 0 (prompt_tokens_processed r) Wf) as (s1&->&Hs1&_); [lia|apply Wr|].
    cbn [mbind option_bind]. apply IH; [|done].
    eapply (stage_frame_wf s r); [by apply publish_stage_frame|done|done].
  - apply IH; [|done]. destruct Wf. split; try done. apply Forall_app. split; [done|]. by constructor.
  - destruct (release_failed_pending_spec s r Wf Wr) as (s1&->&Wf1). cbn [mbind option_bind]. by apply IH.
Qed.

Lemma poll_transfers_spec s :
  scheduler_wf s → ∃ res s', Scheduler_poll_transfers sha256 s = Some (res, s') ∧ scheduler_wf s'.
Proof.
  intros Wf. unfold Scheduler_poll_transfers, reconcile_pending_prefix_cache_inserts.
  destruct (poll_transfers (worker s)) as [polled w].
  destruct (reconcile_loop_spec (set_pending (set_worker s w) []) (pending_prefix_cache_inserts (set_worker s w)))
    as (res&s'&->&Wf'); [by destruct Wf|apply Wf|]. cbn [mbind option_bind]. eauto.
Qed.

(** ** Dispatch *)

Lemma dispatch_prefill_spec s max budget :
  scheduler_wf s →
  ∃ res s', dispatch_prefill_batch_with_token_budget sha256 s max budget = Some (res, s') ∧ scheduler_wf s'.
Proof.
  intros Wf. unfold dispatch_prefill_batch_with_token_budget, dispatch_built.
  destruct (next_prefill_spec s max budget Wf) as (res&s1&->&Wf1&_&_&H). cbn [mbind option_bind].
  destruct res as [b|e]; [|by eexists _, _]. apply dispatch_batch_spec; [done|].
  destruct H as (_&_&H%prefill_prepared_forward&_). eapply Forall_impl; [done|]. by intros ? [? _].
Qed.

Lemma decode_batch_wf {C} (check : C → _ → _ → ReadyStep * C) o s rs s' :
  decode_post check o s [] (Ok rs) s' → Forall request_wf rs.
Proof.
  intros (_&_&_&more&->&H&_). eapply Forall_impl; [done|]. by intros ? [? _].
Qed.

Lemma dispatch_decode_spec s max :
  scheduler_wf s → ∃ res s', dispatch_decode_batch sha256 s max = Some (res, s') ∧ scheduler_wf s'.
Proof.
  intros Wf. unfold dispatch_decode_batch, dispatch_built.
  destruct (next_decode_worker_spec s max Wf) as (res&s1&->&Wf1&H). cbn [mbind option_bind].
  destruct res as [b|e]; [|by eexists _, _]. apply dispatch_batch_spec; [done|].
  destruct H as (_&_&H). by eapply decode_batch_wf.
Qed.

Lemma dispatch_decode_closure_spec {C} s max (is_ready : C → ScheduledRequest → bool * C) c :
  scheduler_wf s →
  ∃ res s', dispatch_decode_batch_with_ready_check sha256 s max is_ready c = Some (res, s') ∧ scheduler_wf s'.
Proof.
  intros Wf. unfold dispatch_decode_batch_with_ready_check, dispatch_built.
  destruct (next_decode_spec s max is_ready c Wf) as (res&c'&s1&->&Wf1&H). cbn [mbind option_bind].
  destruct res as [b|e]; [|by eexists _, _]. apply dispatch_batch_spec; [done|].
  destruct H as (_&H). by eapply decode_batch_wf.
Qed.

Lemma dispatch_mixed_spec s max budget :
  scheduler_wf s → ∃ res s', dispatch_mixed_batch sha256 s max budget = Some (res, s') ∧ scheduler_wf s'.
Proof.
  intros Wf. unfold dispatch_mixed_batch, dispatch_built.
  destruct (next_mixed_spec s max budget Wf) as (res&s1&->&Wf1&H). cbn [mbind option_bind].
  destruct res as [b|e]; [|by eexists _, _]. apply dispatch_batch_spec; [done|].
  destruct H as (decodes&prefills&(->&Hd&Hp&_)&_). apply Forall_app.
  split; (eapply Forall_impl; [done|]); by intros ? [? _].
Qed.

End Completion.
