(* ===== verification/SchedulerCorrect.v ===== *)
(** * The request scheduler is correct

    The properties of [Scheduler]: batching keeps the queue order and every
    limit, failures undo themselves, completion loses no request, the
    dispatch loop terminates, no operation panics.  A small concrete worker
    serves the witnesses and the counterexamples. *)

From S2P Require Import Prelude Types PageAllocator RadixCache BlockHash StateEvents Request Scheduler SchedulerFacts SchedulerCompletion.

(** ** The scheduler as a transition system *)

Section Correct.
Context {W P : Type} `{!WorkerExecutor W} `{!KvStateEventPublisher P}.
Context (sha256 : list N → list N).

Implicit Types (s : Scheduler W P) (r : ScheduledRequest).

(** The public operations.  An asynchronous engine takes a batch, runs it, and
    hands it to [complete_batch] later; so batches are inputs of their own. *)
Inductive scheduler_op : Type :=
  | OpEnqueue (r : ScheduledRequest)
  | OpAbort (rid : RequestId)
  | OpAbortAll
  | OpFlushCache
  | OpShutdown
  | OpPollTransfers
  | OpNextPrefill (max budget : N)
  | OpNextDecode (max : N)
  | OpNextMixed (max budget : N)
  | OpDispatchPrefill (max budget : N)
  | OpDispatchDecode (max : N)
  | OpDispatchMixed (max budget : N)
  | OpCompleteBatch (batch : ScheduleBatch) (tokens : list GeneratedToken)
  | OpNextDecodeAll (max : N)
  | OpNextDecodeReady (C : Type) (max : N) (is_ready : C → ScheduledRequest → bool * C) (c : C)
  | OpDispatchDecodeReady (C : Type) (max : N) (is_ready : C → ScheduledRequest → bool * C) (c : C)
  | OpDispatchNext
  | OpWorkerMut (w : W).

(** Callers enqueue new requests and complete batches of requests whose prompt
    counters are consistent. *)
Definition op_ok (op : scheduler_op) : Prop :=
  match op with
  | OpEnqueue r => waiting_wf r
  | OpCompleteBatch batch _ => Forall request_wf (requests batch)
  | _ => True
  end.

Definition front_remaining s : N := from_option remaining_prompt_tokens 0 (head (waiting_queue s)).

(** [dispatch_next] loops until it has an output; [dispatch_next_total] shows that it
    needs one round for each token the first prompt has left, and one more.  The
    unbatched forms without a budget are the budgeted ones at [usize::MAX]. *)
Definition run_op (op : scheduler_op) s : option (Scheduler W P) :=
  match op with
  | OpEnqueue r => Some (enqueue s r)
  | OpAbort rid => snd <$> abort_request s rid
  | OpAbortAll => snd <$> abort_all_requests s
  | OpFlushCache => Some (flush_cache s).2
  | OpShutdown => snd <$> shutdown s
  | OpPollTransfers => snd <$> Scheduler_poll_transfers sha256 s
  | OpNextPrefill max budget => snd <$> next_prefill_batch_with_token_budget s max budget
  | OpNextDecode max => snd <$> next_decode_batch_with_worker_ready_check s max
  | OpNextMixed max budget => snd <$> next_mixed_batch s max budget
  | OpDispatchPrefill max budget => snd <$> dispatch_prefill_batch_with_token_budget sha256 s max budget
  | OpDispatchDecode max => snd <$> dispatch_decode_batch sha256 s max
  | OpDispatchMixed max budget => snd <$> step sha256 s max budget
  | OpCompleteBatch batch tokens => snd <$> complete_batch sha256 s batch tokens
  | OpNextDecodeAll max => snd <$> next_decode_batch s max
  | OpNextDecodeReady _ max is_ready c => snd <$> next_decode_batch_with_ready_check s max is_ready c
  | OpDispatchDecodeReady _ max is_ready c => snd <$> dispatch_decode_batch_with_ready_check sha256 s max is_ready c
  | OpDispatchNext => snd <$> dispatch_next sha256 (S (N.to_nat (front_remaining s))) s
  | OpWorkerMut w => Some (set_worker s w)
  end.

Inductive scheduler_reachable : Scheduler W P → Prop :=
  | reachable_start w c a policy max chunk publisher cap ps :
      with_page_size cap ps = Ok a →
      scheduler_reachable (mkScheduler [] [] c policy [] (Some a) max chunk publisher w)
  | reachable_start_without_pages w c max chunk publisher :
      scheduler_reachable (mkScheduler [] [] c Enabled [] None max chunk publisher w)
  | reachable_step op s s' :
      scheduler_reachable s → op_ok op → run_op op s = Some s' → scheduler_reachable s'.

Lemma enqueue_wf s r : scheduler_wf s → waiting_wf r → scheduler_wf (enqueue s r).
Proof. intros [] ?. split; try done. apply Forall_app. split; [done|]. by constructor. Qed.

(** ** Progress of single-request prefill *)

Lemma dispatch_prefill_one s :
  scheduler_wf s →
  ∃ res s', dispatch_prefill_batch sha256 s 1 = Some (res, s') ∧ scheduler_wf s' ∧
    (res = Ok [] → front_remaining s' < front_remaining s).
Proof.
  intros Wf. unfold dispatch_prefill_batch, dispatch_prefill_batch_with_token_budget, dispatch_built.
  destruct (next_prefill_spec s 1 usize_MAX Wf) as (res&s1&->&Wf1&_&_&H). cbn [mbind option_bind].
  destruct res as [[mode rs]|e]; [|by eexists _, _]. cbn in H.
  destruct H as (_&Hne&Hprep&_&Hlen&_). unfold batch_size in Hlen. cbn in Hlen.
  destruct rs as [|r' [|? ?]]; [done| |rewrite !len_cons in Hlen; lia].
  destruct (waiting_queue s) as [|r q] eqn:Hq; [by inversion Hprep|].
  cbn in Hprep. inversion Hprep as [|???? Hr _]; subst. clear Hprep.
  unfold dispatch_batch. destruct (execute_batch (worker s1) _) as [[tokens|e] w].
  - destruct (complete_batch_single sha256 (set_worker s1 w) mode r' tokens) as (res&s'&->&Wf'&Hc);
      [by apply set_worker_wf|apply Hr|]. eexists _, _. split; [done|]. split; [done|]. intros ->.
    unfold front_remaining. rewrite Hq. cbn.
    inversion Hc as [|r2 ? Hid Hin Hpr Hw Hd| |]; subst; [|by destruct outputs..]. rewrite Hw. cbn.
    unfold remaining_prompt_tokens, saturating_sub. rewrite Hin, (pp_input _ _ _ Hr) in *.
    pose proof (pp_progress _ _ _ Hr). lia.
  - unfold release_failed_batch_cache_pages. cbn [requests].
    destruct (release_failed_loop_spec (set_worker s1 w) [r'] None) as (e'&s'&->&Wf'&_);
      [by apply set_worker_wf|constructor; [apply Hr|done]|]. cbn [mbind option_bind].
    eexists _, _. split; [done|]. split; [done|]. by destruct e'.
Qed.

Lemma dispatch_next_total fuel s :
  scheduler_wf s → front_remaining s < N.of_nat fuel →
  ∃ res s', dispatch_next sha256 fuel s = Some (res, s') ∧ scheduler_wf s'.
Proof.
  revert s. induction fuel as [|fuel IH]; intros s Wf Hm; [lia|]. cbn [dispatch_next].
  destruct (dispatch_prefill_one s Wf) as (res&s1&->&Wf1&Hprog). cbn [mbind option_bind].
  destruct res as [outputs|e]; [|by eexists _, _]. destruct (last outputs) eqn:Hl; [by eexists _, _|].
  destruct (_ && _)%bool; [by eexists _, _|]. apply last_None in Hl as ->. apply IH; [done|].
  specialize (Hprog eq_refl). lia.
Qed.

(** ** Every operation returns *)

Lemma run_op_wf op s :
  scheduler_wf s → op_ok op → ∃ s', run_op op s = Some s' ∧ scheduler_wf s'.
Proof.
  intros Wf Hok. destruct op as [r|rid| | | | |max budget|max|max budget|max budget|max|max budget|b toks|max|C max ready c|C max ready c| |w]; simpl run_op; simpl in Hok.
  - eexists. split; [done|]. by apply enqueue_wf.
  - destruct (abort_request_spec s rid Wf) as (?&?&->&?&_). eauto.
  - destruct (abort_all_requests_spec s Wf) as (?&?&->&?&_). eauto.
  - eexists. split; [done|]. by apply flush_cache_wf.
  - destruct (shutdown_spec s Wf) as (?&?&->&?). eauto.
  - destruct (poll_transfers_spec sha256 s Wf) as (?&?&->&?). eauto.
  - destruct (next_prefill_spec s max budget Wf) as (?&?&->&?&_). eauto.
  - destruct (next_decode_worker_spec s max Wf) as (?&?&->&?&_). eauto.
  - destruct (next_mixed_spec s max budget Wf) as (?&?&->&?&_). eauto.
  - destruct (dispatch_prefill_spec sha256 s max budget Wf) as (?&?&->&?). eauto.
  - destruct (dispatch_decode_spec sha256 s max Wf) as (?&?&->&?). eauto.
  - destruct (dispatch_mixed_spec sha256 s max budget Wf) as (?&?&Heq&?). unfold step. rewrite Heq. eauto.
  - destruct (complete_batch_spec sha256 s b toks Wf Hok) as (?&?&->&?&_). eauto.
  - unfold next_decode_batch. destruct (next_decode_spec s max (λ (c : unit) _, (true, c)) tt Wf) as (?&?&?&->&?&_). cbn. eauto.
  - destruct (next_decode_spec s max ready c Wf) as (?&?&?&->&?&_). cbn. eauto.
  - destruct (dispatch_decode_closure_spec sha256 s max ready c Wf) as (?&?&->&?). eauto.
  - destruct (dispatch_next_total (S (N.to_nat (front_remaining s))) s Wf) as (?&?&Heq&?); [lia|].
    cbn [dispatch_next] in Heq |- *. rewrite Heq. eauto.
  - eexists. split; [done|]. by apply set_worker_wf.
Qed.

Lemma scheduler_reachable_wf s : scheduler_reachable s → scheduler_wf s.
Proof.
  induction 1 as [w c a policy mx ch pub cap ps Ha|w c mx ch pub|op s s' _ IH Hok Hrun].
  - split; try done. intros ? [= <-]. by eapply new_allocator_wf.
  - by split.
  - destruct (run_op_wf op s IH Hok) as (?&?&?). congruence.
Qed.

(** A closure ends the loop in an error only before a request was prepared. *)
Lemma closure_loses_nothing {C} (is_ready : C → ScheduledRequest → bool * C) s e s' :
  scheduler_wf s → decode_lost (closure_check is_ready) (cache_page_allocator s) s [] e s' →
  opt_equiv (cache_page_allocator s) (cache_page_allocator s') ∧ request_ids (decode_queue s') = request_ids (decode_queue s) ∧
  (Forall decode_clean (decode_queue s) → decode_queue s' = decode_queue s).
Proof.
  intros Wf (more&c1&next&c2&taken&Hck&Hq&Hids&Ht&_). unfold closure_check in Hck. destruct (is_ready c1 next) as [[] ?]; [done|].
  destruct more as [|? ?]; [|done]. assert (taken = []) as -> by (by destruct taken).
  split; [apply alloc_taken_nil_equiv; [apply Wf|done]|]. by rewrite Hq.
Qed.

(** The worker's word can end it after some were. *)
Lemma worker_loses_prepared s e s' :
  scheduler_wf s → decode_lost (worker_check (worker s)) (cache_page_allocator s) s [] e s' →
  (opt_equiv (cache_page_allocator s) (cache_page_allocator s') ∧ request_ids (decode_queue s') = request_ids (decode_queue s) ∧
   (Forall decode_clean (decode_queue s) → decode_queue s' = decode_queue s)) ∨
  ∃ lost taken next rest, request_ids lost = request_ids taken ∧ decode_queue s = taken ++ decode_queue s' ∧
    alloc_taken (cache_page_allocator s) (owned lost) (cache_page_allocator s') ∧ decode_queue s' = next :: rest ∧
    ((∃ error, decode_request_state (worker s) next = Err error ∧ e = Worker error) ∨
     (∃ message, decode_request_state (worker s) next = Ok (Failed message) ∧ e = Worker (Runtime message))).
Proof.
  intros Wf (lost&c1&next&c2&taken&Hck&Hq&Hids&Ht&Hhead). cbn [app] in *.
  destruct (decode_queue s') as [|next' rest] eqn:Hd; [done|]. injection Hhead as ->.
  unfold worker_check in Hck. destruct (decode_request_state (worker s) next) as [[| |m]|e'] eqn:Hst; [done| | |].
  - left. destruct lost as [|? ?]; [|done]. assert (taken = []) as -> by (by destruct taken).
    split; [apply alloc_taken_nil_equiv; [apply Wf|done]|]. by rewrite Hq.
  - right. injection Hck as <- _. exists lost, taken, next, rest. eauto 8.
  - right. injection Hck as <- _. exists lost, taken, next, rest. eauto 8.
Qed.

(** ** Properties *)

(** C1. No reachable state panics: every public operation that changes the scheduler,
    on every input the callers may give (new requests without a history, batches of
    consistent requests, any readiness check, any worker left by [worker_mut]),
    returns; the reached state is well-formed, so free and allocated pages still add
    up to the capacity. *)
Theorem scheduler_never_panics s op :
  scheduler_reachable s → op_ok op →
  ∃ s', run_op op s = Some s' ∧
    Forall waiting_wf (waiting_queue s') ∧ Forall request_wf (decode_queue s') ∧
    match cache_page_allocator s' with
    | None => True
    | Some a => available_pages a + N.of_nat (size (allocated_page_indices a)) = page_count a
    end.
Proof.
  intros Hr Hok. destruct (run_op_wf op s (scheduler_reachable_wf s Hr) Hok) as (s'&->&[Wa Ww Wd _]).
  exists s'. split; [done|]. split; [done|]. split; [done|].
  destruct (cache_page_allocator s') as [a|]; [|done]. by apply wf_conservation, Wa.
Qed.

(** C37. A prefill batch takes requests from the front of the waiting queue, in
    order, never more than the caller's limit nor than [max_running_requests]
    leaves, and within the token budget unless it is a single request.  When a
    request does not fit in the cache the call fails with the queue in its old
    order and every page it took given back. *)
Theorem next_prefill_batch_correct s max budget :
  scheduler_wf s →
  ∃ res s', next_prefill_batch_with_token_budget s max budget = Some (res, s') ∧
    decode_queue s' = decode_queue s ∧
    match res with
    | Ok b => forward_mode b = Prefill ∧ requests b ≠ [] ∧
        request_ids (requests b) ++ request_ids (waiting_queue s') = request_ids (waiting_queue s) ∧
        Forall (λ r, stage r = PrefillForward) (requests b) ∧
        batch_size b ≤ max ∧
        (∀ m, max_running_requests s = Some m → batch_size b + len (decode_queue s') ≤ m) ∧
        (len (requests b) ≤ 1 ∨ chunk_tokens (requests b) ≤ budget)
    | Err e => request_ids (waiting_queue s') = request_ids (waiting_queue s) ∧
        opt_equiv (cache_page_allocator s) (cache_page_allocator s')
    end.
Proof.
  intros Wf. destruct (next_prefill_spec s max budget Wf) as (res&s'&Heq&_&_&Hd&H).
  exists res, s'. split; [done|]. split; [done|]. destruct res as [b|e]; [|done].
  destruct H as (Hm&Hne&Hp%prefill_prepared_forward&Hids&Hlen&Hrun&Hbud&_). rewrite Hd.
  repeat (split; [done|]). split; [eapply Forall_impl; [done|]; by intros ? (_&?&_)|]. done.
Qed.

(** C38. A decode batch takes requests from the front of the decode queue, in
    order and at most [max], with one queue the other leaves alone.  With a readiness
    closure, an error, whatever its cause, gives the pages back and loses no request;
    and when the queued requests carry nothing of an earlier forward pass, the queue
    is restored as it was.  With the worker's own state, which is what the dispatch
    asks for, that holds too, unless the error is the worker's word on the request now
    in front: then the requests prepared before it are lost, each from the front of
    the queue, and so are exactly the pages they had taken. *)
Theorem next_decode_batch_correct {C} s max (is_ready : C → ScheduledRequest → bool * C) c :
  scheduler_wf s →
  (∃ res c' s', next_decode_batch_with_ready_check s max is_ready c = Some (res, c', s') ∧
    waiting_queue s' = waiting_queue s ∧
    match res with
    | Ok b => batch_size b ≤ max ∧ Forall (λ r, stage r = DecodeForward) (requests b) ∧
        request_ids (requests b) ++ request_ids (decode_queue s') = request_ids (decode_queue s)
    | Err e => opt_equiv (cache_page_allocator s) (cache_page_allocator s') ∧
        request_ids (decode_queue s') = request_ids (decode_queue s) ∧
        (Forall decode_clean (decode_queue s) → decode_queue s' = decode_queue s)
    end) ∧
  (∃ res s', next_decode_batch_with_worker_ready_check s max = Some (res, s') ∧
    waiting_queue s' = waiting_queue s ∧
    match res with
    | Ok b => forward_mode b = Decode ∧ batch_size b ≤ max ∧ Forall (λ r, stage r = DecodeForward) (requests b) ∧
        request_ids (requests b) ++ request_ids (decode_queue s') = request_ids (decode_queue s)
    | Err e =>
        (opt_equiv (cache_page_allocator s) (cache_page_allocator s') ∧
         request_ids (decode_queue s') = request_ids (decode_queue s) ∧
         (Forall decode_clean (decode_queue s) → decode_queue s' = decode_queue s)) ∨
        ∃ lost taken next rest, request_ids lost = request_ids taken ∧ decode_queue s = taken ++ decode_queue s' ∧
          alloc_taken (cache_page_allocator s) (owned lost) (cache_page_allocator s') ∧ decode_queue s' = next :: rest ∧
          ((∃ error, decode_request_state (worker s) next = Err error ∧ e = Worker error) ∨
           (∃ message, decode_request_state (worker s) next = Ok (Failed message) ∧ e = Worker (Runtime message)))
    end).
Proof.
  intros Wf. split.
  - destruct (next_decode_spec s max is_ready c Wf) as (res&c'&s'&Heq&_&H).
    exists res, c', s'. split; [done|]. destruct res as [b|e].
    + destruct H as [Hlen (_&Hw&_&more&Hb&Hst&Hids&_)]. cbn in Hb. subst more. split; [done|]. split; [done|].
      split; [eapply Forall_impl; [done|]; by intros ? [_ ?]|done].
    + destruct H as [-> | (_&Hw&_&[Hlost|(_&He&Hids&Hcl)])]; [done|..].
      * split; [done|]. by eapply closure_loses_nothing.
      * split; [done|]. split; [done|]. split; [done|]. exact Hcl.
  - destruct (next_decode_worker_spec s max Wf) as (res&s'&Heq&_&H).
    exists res, s'. split; [done|]. destruct res as [b|e].
    + destruct H as (Hlen&Hm&_&Hw&_&more&Hb&Hst&Hids&_). cbn in Hb. subst more. split; [done|]. split; [done|]. split; [done|].
      split; [eapply Forall_impl; [done|]; by intros ? [_ ?]|done].
    + destruct H as [-> | (_&Hw&_&[Hlost|(_&He&Hids&Hcl)])]; [split; [done|]; by left|..]; (split; [done|]).
      * by apply worker_loses_prepared.
      * left. by split.
Qed.

(** A mixed batch is a decode part followed by a prefill part, each from the
    front of its queue and in order; its forward mode says which parts are
    there; it has at most [max] requests and, counting one token per decode
    request and the chunk of each prefill request, at most [budget] tokens. *)
Theorem next_mixed_batch_correct s max budget b s' :
  scheduler_wf s → next_mixed_batch s max budget = Some (Ok b, s') →
  ∃ decodes prefills, requests b = decodes ++ prefills ∧ requests b ≠ [] ∧
    Forall (λ r, stage r = DecodeForward) decodes ∧ Forall (λ r, stage r = PrefillForward) prefills ∧
    request_ids decodes ++ request_ids (decode_queue s') = request_ids (decode_queue s) ∧
    request_ids prefills ++ request_ids (waiting_queue s') = request_ids (waiting_queue s) ∧
    batch_size b ≤ max ∧ len decodes + chunk_tokens prefills ≤ budget ∧
    (forward_mode b = Decode ↔ prefills = []) ∧
    (forward_mode b = Mixed ↔ decodes ≠ [] ∧ prefills ≠ []).
Proof.
  intros Wf Heq. destruct (next_mixed_spec s max budget Wf) as (res&s1&Heq'&_&H).
  rewrite Heq in Heq'. injection Heq' as <- <-.
  destruct H as (decodes&prefills&(Hr&Hd&Hp&Hm)&Hne&Hids1&Hids2&Hlen&Htok&_).
  exists decodes, prefills. split; [done|]. split; [done|].
  split; [eapply Forall_impl; [done|]; by intros ? [_ ?]|].
  split; [eapply Forall_impl; [done|]; by intros ? [_ ?]|].
  split; [done|]. split; [done|]. split; [done|]. split; [done|]. rewrite Hm.
  destruct decodes, prefills; naive_solver.
Qed.

(** C2. Completing a batch loses and duplicates no request, whether it succeeds or
    fails: when the worker returned one result per request, the requests of the batch
    are afterwards, each once, in the waiting queue (more prompt to prefill), in the
    decode queue (a token generated, or their step failed), or among the outputs that
    say finished, next to those that were queued before; the outputs are in the
    batch's order, and they are the result unless a step failed, when the last error
    is and they are dropped.  When the worker returned a different number of results,
    the error says so and all requests go to the decode queue. *)
Theorem complete_batch_conserves s batch tokens :
  scheduler_wf s → Forall request_wf (requests batch) →
  if batch_size batch =? len tokens then
    ∃ outputs error s',
      complete_loop sha256 (forward_mode batch) s (zip (requests batch) tokens) [] None = Some (outputs, error, s') ∧
      complete_batch sha256 s batch tokens = Some (match error with None => Ok outputs | Some e => Err e end, s') ∧
      (out_request_id <$> outputs) `sublist_of` request_ids (requests batch) ∧
      request_ids (waiting_queue s') ++ request_ids (decode_queue s') ++ finished_ids outputs ≡ₚ
      request_ids (requests batch) ++ request_ids (waiting_queue s) ++ request_ids (decode_queue s)
  else
    complete_batch sha256 s batch tokens =
      Some (Err (Worker (Output (BatchSizeMismatch (batch_size batch) (len tokens)))), set_decode s (decode_queue s ++ requests batch)).
Proof.
  intros Wf Hb. unfold complete_batch, batch_size. destruct (N.eqb_spec (len (requests batch)) (len tokens)) as [Hl|Hl]; [|done].
  assert ((zip (requests batch) tokens).*1 = requests batch) as Hz by (apply fst_zip; unfold len in Hl; lia).
  destruct (complete_loop_spec sha256 (forward_mode batch) s (zip (requests batch) tokens) [] None Wf) as (o&e&s'&Heq&_&Hp).
  { rewrite <-Hz in Hb. by rewrite Forall_fmap in Hb. }
  exists o, e, s'. rewrite Heq. split; [done|]. split; [done|].
  destruct (complete_loop_outputs sha256 (forward_mode batch) _ s [] None o e s' Heq) as (os&->&Hsub). rewrite Hz in Hsub. split; [done|].
  rewrite Hz in Hp. unfold placed in Hp. by rewrite Hp, app_nil_r.
Qed.

(** [dispatch_next] terminates: each round that yields no output has
    advanced the prompt of the first waiting request, so as many rounds as that
    prompt has tokens left, plus one, are enough; and it does not panic. *)
Theorem dispatch_next_terminates s fuel :
  scheduler_wf s →
  from_option remaining_prompt_tokens 0 (head (waiting_queue s)) < N.of_nat fuel →
  ∃ res s', dispatch_next sha256 fuel s = Some (res, s').
Proof.
  intros Wf Hf. destruct (dispatch_next_total fuel s Wf Hf) as (res&s'&?&_). by exists res, s'.
Qed.

(** Aborting a request removes exactly that request from the queues; when it
    reports failure no request has left them. *)
Theorem abort_request_correct s rid :
  scheduler_wf s →
  ∃ b s', abort_request s rid = Some (b, s') ∧
    if b then queued_ids s ≡ₚ rid :: queued_ids s'
    else queued_ids s ≡ₚ queued_ids s' ∧
      (rid ∉ queued_ids s ∨ ∃ (w : W) r e w', finish_request w r = (Err e, w')).
Proof. intros Wf. destruct (abort_request_spec s rid Wf) as (b&s'&?&_&?). by exists b, s'. Qed.

(** When the worker can always finish a request, [abort_all_requests] leaves
    no request anywhere and counts at least every queued one; so [shutdown]
    reaches the worker instead of failing. *)
Theorem abort_all_requests_drains s :
  scheduler_wf s → (∀ (w : W) r, ∃ w', finish_request w r = (Ok (), w')) →
  ∃ n s', abort_all_requests s = Some (n, s') ∧ len (queued_ids s) ≤ n ∧
    waiting_queue s' = [] ∧ decode_queue s' = [] ∧ pending_prefix_cache_inserts s' = [] ∧
    ∃ res, shutdown s = Some (res, set_worker s' (worker_shutdown (worker s')).2) ∧
      is_Ok res = is_Ok (worker_shutdown (worker s')).1.
Proof.
  intros Wf Hok. destruct (abort_all_requests_spec s Wf) as (n&s'&Heq&_&Hd).
  destruct Hd as (Hw&Hdq&Hp&Hn).
  { intros (w&r&e&w'&Hf). destruct (Hok w r) as [? Hf']. congruence. }
  exists n, s'. split; [done|]. split; [done|]. split; [done|]. split; [done|]. split; [done|].
  unfold shutdown. rewrite Heq. cbn [mbind option_bind]. rewrite Hw, Hdq, Hp. cbn [is_nil negb orb].
  destruct (worker_shutdown (worker s')) as [[[]|e] w]; by eexists.
Qed.

(** Flushing succeeds exactly when both queues are empty, and then every
    page is free and no prompt matches the prefix cache any more; otherwise
    nothing changes. *)
Theorem flush_cache_correct s :
  scheduler_wf s →
  let '(flushed, s') := flush_cache s in
  (flushed = true ↔ waiting_queue s = [] ∧ decode_queue s = []) ∧
  (flushed = false → s' = s) ∧
  (flushed = true →
     pending_prefix_cache_inserts s' = [] ∧
     (∀ ids, matched_token_count (match_prefix (prefix_cache s') ids) = 0) ∧
     ∀ a, cache_page_allocator s' = Some a → available_slots a = slot_capacity a).
Proof.
  intros Wf. unfold flush_cache. destruct (_ || _)%bool eqn:Hq.
  - split; [|done]. split; [done|]. intros [Hw Hd]. by rewrite Hw, Hd in Hq.
  - apply orb_false_iff in Hq as [Hw Hd]. apply negb_false_iff, is_nil_true in Hw, Hd.
    split; [done|]. split; [done|]. intros _. split; [done|]. split; [by intros [|? ?]|].
    cbn. intros a' Ha. destruct (cache_page_allocator s) as [a|] eqn:Hal; [|done]. injection Ha as <-.
    pose proof (sw_alloc _ Wf a Hal) as Wa. unfold available_slots. cbn. rewrite len_nrange, N.sub_0_r.
    symmetry. apply (wf_aligned _ Wa).
Qed.

(** Once a prompt's pages are published, every prompt that extends it hits
    them: the prefix cache returns the request's own slots for the published
    tokens. *)
Theorem published_prompt_is_hit s r chunk_start chunk_end rest :
  scheduler_wf s → chunk_start ≤ chunk_end → chunk_end ≤ len (input_ids r) →
  ∃ s', publish_prefill_chunk_cache_pages sha256 s r chunk_start chunk_end = Some s' ∧
    let n := N.min chunk_end (len (sequence_cache_pages r)) in
    slice_to n (cache_pages (match_prefix (prefix_cache s') (slice_to n (input_ids r) ++ rest))) =
    slice_to n (sequence_cache_pages r).
Proof.
  intros Wf Hs He. destruct (publish_spec sha256 s r chunk_start chunk_end Wf Hs He) as (s'&->&_&Hc).
  exists s'. split; [done|]. cbv zeta in *. set (n := N.min _ _) in *. rewrite Hc.
  destruct (N.ltb_spec 0 n) as [Hn|Hn].
  - assert (len (slice_to n (input_ids r)) = len (slice_to n (sequence_cache_pages r))) as Hl
      by (rewrite !len_slice_to; unfold n; lia).
    etrans; [|exact (insert_match_path (prefix_cache s) (slice_to n (input_ids r)) _ rest Hl)].
    cbn [match_prefix cache_pages]. unfold slice_to at 1. f_equal.
    assert (len (slice_to n (sequence_cache_pages r)) = n) as Hn' by (rewrite len_slice_to; unfold n; lia).
    unfold len in Hn'. lia.
  - assert (n = 0) as -> by lia. done.
Qed.

(** ** Where requests get lost

    Two error paths of the code do not undo what they did.  The theorems below
    state what the code does there. *)

(** When the state of a decode request cannot be used, the requests taken
    before it in the same call are dropped: the error returns, and they are in
    no queue and in no batch. *)
Theorem decode_failure_drops_prepared s max r1 r2 q m r1' s1 :
  decode_queue s = r1 :: r2 :: q → 2 ≤ max →
  decode_request_state (worker s) r1 = Ok Ready →
  decode_request_state (worker s) r2 = Ok (Failed m) →
  prepare_decode_request (set_decode s (r2 :: q)) r1 = Some (Ok (), r1', s1) →
  ∃ s', next_decode_batch_with_worker_ready_check s max = Some (Err (Worker (Runtime m)), s') ∧
    decode_queue s' = r2 :: q ∧ waiting_queue s' = waiting_queue s ∧
    cache_page_allocator s' = cache_page_allocator s1.
Proof.
  intros Hq Hmax H1 H2 Hprep. unfold next_decode_batch_with_worker_ready_check. rewrite Hq. cbn [is_nil orb].
  rewrite (proj2 (N.eqb_neq max 0)) by lia. cbv zeta. cbn [length decode_loop]. rewrite Hq.
  assert ((len (@nil ScheduledRequest) <? N.min max (len (r1 :: r2 :: q))) = true) as ->.
  { apply N.ltb_lt. rewrite !len_cons, len_nil. lia. }
  cbn [negb]. unfold worker_check at 1. rewrite H1, Hprep. cbn [mbind option_bind app].
  assert (same_but_alloc (set_decode s (r2 :: q)) s1) as Hs1.
  { unfold prepare_decode_request, allocate_slots in Hprep. destruct (cache_page_allocator (set_decode s (r2 :: q))).
    - destruct (allocate_for_sequence _ _ _) as [[[pages|e] a']|]; [|done|done].
      injection Hprep as _ <-. apply same_but_alloc_set.
    - injection Hprep as _ <-. apply same_but_alloc_refl. }
  destruct (same_but_alloc_eqs _ _ Hs1) as (_&Hw1&Hd1&_&Hwk). cbn in Hw1, Hd1. cbn [decode_loop]. rewrite Hd1.
  assert ((len [set_stage r1' DecodeForward] <? N.min max (len (r1 :: r2 :: q))) = true) as ->.
  { apply N.ltb_lt. rewrite !len_cons, len_nil. lia. }
  cbn [negb]. unfold worker_check at 1. rewrite H2. cbn [mbind option_bind].
  by exists s1.
Qed.

(** When the state query of a pending insert fails, the whole list of
    pending inserts is dropped, the requests behind it included. *)
Theorem reconcile_error_drops_pending s r q e :
  pending_prefix_cache_inserts s = r :: q → decode_request_state (worker s) r = Err e →
  ∃ s', reconcile_pending_prefix_cache_inserts sha256 s =
      Some (Err (TransferRuntime (WorkerExecutionError_to_string e)), s') ∧
    pending_prefix_cache_inserts s' = [] ∧ cache_page_allocator s' = cache_page_allocator s.
Proof.
  intros Hp He. unfold reconcile_pending_prefix_cache_inserts. rewrite Hp. cbn [reconcile_loop].
  change (worker (set_pending s [])) with (worker s). rewrite He. by eexists.
Qed.

End Correct.

(** ** A concrete worker *)

(** A worker that generates one token per request, never the last, knows the
    requests whose transfer failed, and those it cannot query. *)
Record ToyWorker : Type := mkToyWorker {
  toy_failed : list RequestId;
  toy_unknown : list RequestId;
}.

#[export] Instance ToyWorker_executor : WorkerExecutor ToyWorker := {
  execute_batch w b := (Ok ((λ _, mkGeneratedToken [42] false) <$> requests b), w);
  decode_request_state w r :=
    if bool_decide (request_id r ∈ toy_unknown w) then Err (Runtime "unknown request")
    else if bool_decide (request_id r ∈ toy_failed w) then Ok (Failed "transfer failed") else Ok Ready;
  poll_transfers w := (Ok (mkKvTransferPollSummary 0 0 0 [] []  []), w);
  complete_request w _ := w;
  finish_request w _ := (Ok (), w);
  fail_request w _ := w;
  worker_shutdown w := (Ok (), w);
}.

Definition toy_request (id : RequestId) (ids : list N) : ScheduledRequest :=
  ScheduledRequest_new id ids (SamplingParams_new 4).

(** Two waiting and two decoding requests over 16 slots in pages of four. *)
Definition toy_scheduler : Scheduler ToyWorker RecordingKvStateEventPublisher :=
  mkScheduler [toy_request "a" [1; 2; 3]; toy_request "b" [4; 5]]
    [toy_request "c" [6]; toy_request "d" [7]] RadixCache_default Enabled [toy_request "e" [8]]
    (Some example_allocator) (Some 3) (Some 2) (Some (mkRecording [] [] 0)) (mkToyWorker ["d"%string] ["e"%string]).

Lemma toy_request_wf id ids : waiting_wf (toy_request id ids).
Proof. apply new_request_wf. Qed.

Lemma toy_scheduler_wf : scheduler_wf toy_scheduler.
Proof.
  split; [intros ? [= <-]; apply example_allocator_wf|..].
  all: repeat first [apply Forall_nil_2 | apply Forall_cons_2;
    [first [apply toy_request_wf | apply ww_request, toy_request_wf]|]].
Qed.

Definition toy_start : Scheduler ToyWorker RecordingKvStateEventPublisher :=
  mkScheduler [] [] RadixCache_default Enabled [] (Some example_allocator) (Some 3) (Some 2) (Some (mkRecording [] [] 0))
    (mkToyWorker [] []).

Lemma scheduler_never_panics_witness :
  ∃ s', run_op toy_sha256 (OpEnqueue (toy_request "a" [1; 2; 3])) toy_start = Some s' ∧
    Forall waiting_wf (waiting_queue s') ∧ Forall request_wf (decode_queue s') ∧
    match cache_page_allocator s' with
    | None => True
    | Some a => available_pages a + N.of_nat (size (allocated_page_indices a)) = page_count a
    end.
Proof.
  apply (scheduler_never_panics toy_sha256 toy_start (OpEnqueue (toy_request "a" [1; 2; 3]))).
  - eapply (reachable_start toy_sha256 _ _ _ _ _ _ _ 16 4). by vm_compute.
  - apply toy_request_wf.
Defined.

Lemma next_prefill_batch_correct_witness :
  ∃ res s', next_prefill_batch_with_token_budget toy_scheduler 4 10 = Some (res, s') ∧
    decode_queue s' = decode_queue toy_scheduler ∧
    match res with
    | Ok b => forward_mode b = Prefill ∧ requests b ≠ [] ∧
        request_ids (requests b) ++ request_ids (waiting_queue s') = request_ids (waiting_queue toy_scheduler) ∧
        Forall (λ r, stage r = PrefillForward) (requests b) ∧
        batch_size b ≤ 4 ∧
        (∀ m, max_running_requests toy_scheduler = Some m → batch_size b + len (decode_queue s') ≤ m) ∧
        (len (requests b) ≤ 1 ∨ chunk_tokens (requests b) ≤ 10)
    | Err e => request_ids (waiting_queue s') = request_ids (waiting_queue toy_scheduler) ∧
        opt_equiv (cache_page_allocator toy_scheduler) (cache_page_allocator s')
    end.
Proof. exact (next_prefill_batch_correct toy_scheduler 4 10 toy_scheduler_wf). Defined.

Lemma next_decode_batch_correct_witness :
  (∃ res c' s', next_decode_batch_with_ready_check toy_scheduler 2 (λ n r, (n <? 1, n + 1)) 0 = Some (res, c', s') ∧
    waiting_queue s' = waiting_queue toy_scheduler ∧
    match res with
    | Ok b => batch_size b ≤ 2 ∧ Forall (λ r, stage r = DecodeForward) (requests b) ∧
        request_ids (requests b) ++ request_ids (decode_queue s') = request_ids (decode_queue toy_scheduler)
    | Err e => opt_equiv (cache_page_allocator toy_scheduler) (cache_page_allocator s') ∧
        request_ids (decode_queue s') = request_ids (decode_queue toy_scheduler) ∧
        (Forall decode_clean (decode_queue toy_scheduler) → decode_queue s' = decode_queue toy_scheduler)
    end) ∧
  ∃ res s', next_decode_batch_with_worker_ready_check toy_scheduler 2 = Some (res, s') ∧
    waiting_queue s' = waiting_queue toy_scheduler.
Proof.
  destruct (next_decode_batch_correct toy_scheduler 2 (λ n r, (n <? 1, n + 1)) 0 toy_scheduler_wf) as [H (res&s'&H1&H2&_)].
  split; [exact H|]. exists res, s'. by split.
Defined.

Lemma next_mixed_batch_correct_witness :
  ∃ b s', next_mixed_batch (set_worker toy_scheduler (mkToyWorker [] [])) 4 10 = Some (Ok b, s') ∧
  ∃ decodes prefills, requests b = decodes ++ prefills ∧ requests b ≠ [] ∧
    Forall (λ r, stage r = DecodeForward) decodes ∧ Forall (λ r, stage r = PrefillForward) prefills ∧
    request_ids decodes ++ request_ids (decode_queue s') = request_ids (decode_queue toy_scheduler) ∧
    request_ids prefills ++ request_ids (waiting_queue s') = request_ids (waiting_queue toy_scheduler) ∧
    batch_size b ≤ 4 ∧ len decodes + chunk_tokens prefills ≤ 10 ∧
    (forward_mode b = Decode ↔ prefills = []) ∧
    (forward_mode b = Mixed ↔ decodes ≠ [] ∧ prefills ≠ []).
Proof.
  eexists _, _. split; [by vm_compute|].
  apply (next_mixed_batch_correct (set_worker toy_scheduler (mkToyWorker [] [])) 4 10).
  - apply set_worker_wf, toy_scheduler_wf.
  - by vm_compute.
Defined.

Lemma complete_batch_conserves_witness :
  ∃ outputs error s',
    complete_loop toy_sha256 Prefill toy_scheduler [(toy_request "x" [1], mkGeneratedToken [9] true)] [] None = Some (outputs, error, s') ∧
    complete_batch toy_sha256 toy_scheduler (mkScheduleBatch Prefill [toy_request "x" [1]]) [mkGeneratedToken [9] true] =
      Some (match error with None => Ok outputs | Some e => Err e end, s') ∧
    (out_request_id <$> outputs) `sublist_of` ["x"%string] ∧
    request_ids (waiting_queue s') ++ request_ids (decode_queue s') ++ finished_ids outputs ≡ₚ
    ["x"%string] ++ request_ids (waiting_queue toy_scheduler) ++ request_ids (decode_queue toy_scheduler).
Proof.
  apply (complete_batch_conserves toy_sha256 toy_scheduler (mkScheduleBatch Prefill [toy_request "x" [1]])
    [mkGeneratedToken [9] true] toy_scheduler_wf).
  apply Forall_cons_2; [apply ww_request, toy_request_wf|apply Forall_nil_2].
Defined.

Lemma dispatch_next_terminates_witness :
  ∃ res s', dispatch_next toy_sha256 4 toy_scheduler = Some (res, s').
Proof. apply (dispatch_next_terminates toy_sha256 toy_scheduler 4 toy_scheduler_wf). by vm_compute. Defined.

Lemma abort_request_correct_witness :
  ∃ b s', abort_request toy_scheduler "c" = Some (b, s') ∧
    if b then queued_ids toy_scheduler ≡ₚ "c"%string :: queued_ids s'
    else queued_ids toy_scheduler ≡ₚ queued_ids s' ∧
      ("c"%string ∉ queued_ids toy_scheduler ∨
       ∃ (w : ToyWorker) r e w', finish_request w r = (Err e, w')).
Proof. exact (abort_request_correct toy_scheduler "c" toy_scheduler_wf). Defined.

Lemma abort_all_requests_drains_witness :
  ∃ n s', abort_all_requests toy_scheduler = Some (n, s') ∧ len (queued_ids toy_scheduler) ≤ n ∧
    waiting_queue s' = [] ∧ decode_queue s' = [] ∧ pending_prefix_cache_inserts s' = [] ∧
    ∃ res, shutdown toy_scheduler = Some (res, set_worker s' (worker_shutdown (worker s')).2) ∧
      is_Ok res = is_Ok (worker_shutdown (worker s')).1.
Proof.
  apply (abort_all_requests_drains toy_scheduler toy_scheduler_wf). intros w r. by exists w.
Defined.

Lemma flush_cache_correct_witness :
  let '(flushed, s') := flush_cache toy_scheduler in
  (flushed = true ↔ waiting_queue toy_scheduler = [] ∧ decode_queue toy_scheduler = []) ∧
  (flushed = false → s' = toy_scheduler) ∧
  (flushed = true →
     pending_prefix_cache_inserts s' = [] ∧
     (∀ ids, matched_token_count (match_prefix (prefix_cache s') ids) = 0) ∧
     ∀ a, cache_page_allocator s' = Some a → available_slots a = slot_capacity a).
Proof. exact (flush_cache_correct toy_scheduler toy_scheduler_wf). Defined.

Definition toy_prefilled : ScheduledRequest :=
  set_sequence_cache_pages (toy_request "p" [1; 2; 3]) [8; 9; 10].

Lemma published_prompt_is_hit_witness :
  ∃ s', publish_prefill_chunk_cache_pages toy_sha256 toy_scheduler toy_prefilled 0 2 = Some s' ∧
    let n := N.min 2 (len (sequence_cache_pages toy_prefilled)) in
    slice_to n (cache_pages (match_prefix (prefix_cache s') (slice_to n (input_ids toy_prefilled) ++ [3; 4]))) =
    slice_to n (sequence_cache_pages toy_prefilled).
Proof.
  apply (published_prompt_is_hit toy_sha256 toy_scheduler toy_prefilled 0 2 [3; 4] toy_scheduler_wf);
    by vm_compute.
Defined.

Lemma decode_failure_drops_prepared_witness :
  ∃ r1' s1 s', prepare_decode_request (set_decode toy_scheduler [toy_request "d" [7]]) (toy_request "c" [6])
      = Some (Ok (), r1', s1) ∧
    next_decode_batch_with_worker_ready_check toy_scheduler 2 =
      Some (Err (Worker (Runtime "transfer failed")), s') ∧
    decode_queue s' = [toy_request "d" [7]] ∧ waiting_queue s' = waiting_queue toy_scheduler ∧
    cache_page_allocator s' = cache_page_allocator s1.
Proof.
  eexists _, _. edestruct (decode_failure_drops_prepared toy_scheduler 2 (toy_request "c" [6])
    (toy_request "d" [7]) [] "transfer failed") as (s'&H); [reflexivity|lia|reflexivity..|].
  exists s'. split; [reflexivity|]. exact H.
Defined.

Lemma reconcile_error_drops_pending_witness :
  ∃ s', reconcile_pending_prefix_cache_inserts toy_sha256 toy_scheduler =
      Some (Err (TransferRuntime "worker runtime error: unknown request"), s') ∧
    pending_prefix_cache_inserts s' = [] ∧
    cache_page_allocator s' = cache_page_allocator toy_scheduler.
Proof.
  exact (reconcile_error_drops_pending toy_sha256 toy_scheduler (toy_request "e" [8]) []
    (Runtime "unknown request") eq_refl eq_refl).
Defined.

(** A fully cached request that is put back after a failed batch keeps the
    replayed token's progress but not its exemption from allocation: its next
    attempt allocates a slot it already has.  Here a prompt of two tokens ends
    with three slots. *)
Theorem restored_replay_allocates_twice :
  let cache := (insert RadixCache_default [1; 2] [0; 1]).2 in
  let s : Scheduler ToyWorker RecordingKvStateEventPublisher :=
    mkScheduler [toy_request "a" [1; 2]; toy_request "b" [3; 4; 5; 6; 7]] [] cache Enabled []
      (Some (mkCachePageAllocator 6 1 [2; 3; 4; 5] {[0; 1]})) None None None (mkToyWorker [] []) in
  match next_prefill_batch s 2 with
  | Some (Err (CacheAllocation (OutOfSlots 5 4)), s1) =>
      match next_prefill_batch s1 1 with
      | Some (Ok b, _) => (λ r, (input_ids r, sequence_cache_pages r)) <$> requests b = [([1; 2], [0; 1; 2])]
      | _ => False
      end
  | _ => False
  end.
Proof. by vm_compute. Qed.
