(* ===== verification/SchedulerDispatch.v ===== *)
(** * What a dispatch does to the requests it runs

    Facts on [dispatch_decode_batch] and [dispatch_prefill_batch] that the
    engines above the scheduler rely on: the outputs answer the requests at the
    front of the queue in order, the unfinished ones go to the back of the decode
    queue with the new tokens appended, and no request is invented or
    duplicated. *)

From S2P Require Import Prelude Types PageAllocator RadixCache BlockHash StateEvents Request Scheduler SchedulerFacts SchedulerCompletion SchedulerCorrect.
#[local] Open Scope N_scope.

(** ** What stays of a request while it is prepared *)

Definition generation_state (r : ScheduledRequest) : RequestId * list N * SamplingParams :=
  (request_id r, output_ids r, sampling r).
Definition same_generation (r r' : ScheduledRequest) : Prop := generation_state r' = generation_state r.

Lemma gen_set_stage r st : generation_state (set_stage r st) = generation_state r.
Proof. by destruct r. Qed.
Lemma gen_set_allocated r p : generation_state (set_allocated_cache_pages r p) = generation_state r.
Proof. by destruct r. Qed.
Lemma gen_set_forward r p : generation_state (set_forward_cache_pages r p) = generation_state r.
Proof. by destruct r. Qed.
Lemma gen_set_sequence r p : generation_state (set_sequence_cache_pages r p) = generation_state r.
Proof. by destruct r. Qed.
Lemma gen_append_sequence r p : generation_state (append_sequence_cache_pages r p) = generation_state r.
Proof. by destruct r. Qed.
Lemma gen_set_chunk r n : generation_state (set_current_chunk_len r n) = generation_state r.
Proof. by destruct r. Qed.
Lemma gen_set_hit r n : generation_state (set_cache_hit_token_count r n) = generation_state r.
Proof. by destruct r. Qed.
Lemma gen_set_processed r n : generation_state (set_prompt_tokens_processed r n) = generation_state r.
Proof. by destruct r. Qed.
Lemma gen_apply_match r m : generation_state (apply_prefix_match r m) = generation_state r.
Proof. by destruct r. Qed.
Lemma gen_advance r n : generation_state (advance_prompt_tokens r n) = generation_state r.
Proof. by destruct r. Qed.
Lemma gen_clear_tracking r : generation_state (clear_forward_chunk_tracking r) = generation_state r.
Proof. by destruct r. Qed.

Create HintDb generation.
#[export] Hint Rewrite gen_set_stage gen_set_allocated gen_set_forward gen_set_sequence gen_append_sequence gen_set_chunk
  gen_set_hit gen_set_processed gen_apply_match gen_advance gen_clear_tracking : generation.

Lemma gen_unprepare st r : generation_state (unprepare st r) = generation_state r.
Proof. unfold unprepare, clear_forward_cache_allocation. destruct (0 <? _); by autorewrite with generation. Qed.

Lemma gen_id r r' : generation_state r' = generation_state r → request_id r' = request_id r.
Proof. by intros [=]. Qed.

Section Dispatch.
Context {W P : Type} `{!WorkerExecutor W} `{!KvStateEventPublisher P}.
Context (sha256 : list N → list N).

Implicit Types (s : Scheduler W P) (r : ScheduledRequest).

Lemma gen_apply_first r hit m replay : generation_state (apply_first_match r hit m replay) = generation_state r.
Proof. unfold apply_first_match. destruct replay; by autorewrite with generation. Qed.

Lemma allocate_slots_queues s seq n res s' : allocate_slots s seq n = Some (res, s') → same_but_alloc s s'.
Proof.
  unfold allocate_slots. destruct (cache_page_allocator s) as [a|] eqn:Ha.
  - destruct (allocate_for_sequence a seq n) as [[res0 a']|]; [|done]. cbn [mbind option_bind].
    intros [= <- <-]. apply same_but_alloc_set.
  - intros [= <- <-]. apply same_but_alloc_refl.
Qed.

Lemma allocate_prefill_gen s r c res r' s' :
  allocate_prefill_chunk s r c = Some (res, r', s') → same_generation r r' ∧ same_but_alloc s s'.
Proof.
  unfold allocate_prefill_chunk. destruct (allocate_slots s _ _) as [[res0 s0]|] eqn:Ha; [|done].
  cbn [mbind option_bind]. apply allocate_slots_queues in Ha.
  destruct res0; intros [= <- <- <-]; split; try done. unfold same_generation. by autorewrite with generation.
Qed.

Lemma prepare_prefill_gen s r c res r' s' :
  prepare_prefill_request_chunk s r c = Some (res, r', s') → same_generation r r' ∧ same_but_alloc s s'.
Proof.
  unfold prepare_prefill_request_chunk. destruct (prompt_tokens_processed r =? 0); [|apply allocate_prefill_gen].
  destruct (prefill_prefix_match s r) as [m|]; [|done]. cbn [mbind option_bind].
  destruct (split_replay_page r m) as [[m' [page|]]|]; [| |done]; cbn [mbind option_bind].
  - intros [= <- <- <-]. split; [|apply same_but_alloc_refl]. unfold same_generation.
    rewrite gen_set_stage, gen_set_chunk. apply gen_apply_first.
  - intros [Hg Hs]%allocate_prefill_gen. split; [|done]. unfold same_generation in *. rewrite Hg. apply gen_apply_first.
Qed.

Lemma prepare_decode_gen s r res r' s' :
  prepare_decode_request s r = Some (res, r', s') → same_generation r r' ∧ same_but_alloc s s'.
Proof.
  unfold prepare_decode_request. destruct (allocate_slots s _ _) as [[res0 s0]|] eqn:Ha; [|done].
  cbn [mbind option_bind]. apply allocate_slots_queues in Ha.
  destruct res0; intros [= <- <- <-]; split; try done. unfold same_generation. by autorewrite with generation.
Qed.

Lemma prepare_prefill_error s r c e r' s' :
  prepare_prefill_request_chunk s r c = Some (Err e, r', s') → ∃ a, e = CacheAllocation a.
Proof.
  assert (∀ r, allocate_prefill_chunk s r c = Some (Err e, r', s') → ∃ a, e = CacheAllocation a) as Halloc.
  { intros r0. unfold allocate_prefill_chunk, allocate_slots. destruct (cache_page_allocator s) as [a|]; cbn [mbind option_bind]; [|done].
    destruct (allocate_for_sequence a _ _) as [[[|e0] a']|]; cbn; [done| |done]. intros [= <- _ _]. by exists e0. }
  unfold prepare_prefill_request_chunk. destruct (_ =? 0); [|apply Halloc].
  intros (m&_&([m' [page|]]&_&H)%bind_Some)%bind_Some; [done|]. by eapply Halloc.
Qed.

(** ** Batches take the front of their queue *)

Lemma decode_loop_front {C} (check : C → _ → _ → ReadyStep * C) fuel more s c reqs reqs' c' s' :
  decode_loop fuel more check s c reqs = Some (Ok reqs', c', s') →
  ∃ taken fresh, reqs' = reqs ++ fresh ∧ decode_queue s = taken ++ decode_queue s' ∧
    waiting_queue s' = waiting_queue s ∧ worker s' = worker s ∧
    Forall2 (λ r r', same_generation r r' ∧ stage r' = DecodeForward) taken fresh ∧
    ((length (decode_queue s) ≤ fuel)%nat → (∀ c r c', check c [] r ≠ (Stop, c')) → reqs' = [] →
     decode_queue s = [] ∨ more 0 = false).
Proof.
  revert s c reqs. induction fuel as [|fuel IH]; intros s c reqs; cbn [decode_loop].
  { intros [= <- <- <-]. exists [], []. rewrite app_nil_r. do 5 (split; [done|]). intros Hl _ _. left.
    destruct (decode_queue s); [done|simpl in Hl; lia]. }
  destruct (decode_queue s) as [|r q] eqn:Hq.
  { intros [= <- <- <-]. exists [], []. rewrite app_nil_r, Hq. do 5 (split; [done|]). by left. }
  assert (∀ (P : Prop), P → ∃ taken fresh : list ScheduledRequest, reqs = reqs ++ fresh ∧ r :: q = taken ++ decode_queue s ∧
    waiting_queue s = waiting_queue s ∧ worker s = worker s ∧
    Forall2 (λ r r', same_generation r r' ∧ stage r' = DecodeForward) taken fresh ∧ P) as Hhere.
  { intros Pr HP. exists [], []. by rewrite app_nil_r, Hq. }
  destruct (more (len reqs)) eqn:Hm; cbn [negb].
  2: { intros [= <- <- <-]. apply Hhere. intros _ _ ->. by right. }
  destruct (check c reqs r) as [[| |e] c1] eqn:Hc; [| |done].
  2: { intros [= <- <- <-]. apply Hhere. intros _ Hstop ->. by destruct (Hstop _ _ _ Hc). }
  destruct (prepare_decode_request (set_decode s q) r) as [[[res r1] s1]|] eqn:Hp; [|done].
  cbn [mbind option_bind]. apply prepare_decode_gen in Hp as [Hg Hs1].
  destruct (same_but_alloc_eqs _ _ Hs1) as (_&Hw1&Hd1&_&Hk1). cbn in Hw1, Hd1, Hk1.
  destruct res as [[]|e]; [|by destruct (restore_failed_decode_attempt s1 reqs r1)].
  intros (taken&fresh&->&Htake&Hw&Hk&Hall&_)%IH. exists (r :: taken), (set_stage r1 DecodeForward :: fresh).
  rewrite <-app_assoc. split; [done|]. split; [cbn; congruence|]. split; [congruence|]. split; [congruence|]. split.
  - constructor; [|done]. split; [|by destruct r1]. unfold same_generation in *. by rewrite gen_set_stage.
  - intros _ _ Hnil. by destruct reqs.
Qed.

Lemma worker_check_no_stop (w : W) c r c' : worker_check w c [] r ≠ (Stop, c').
Proof. unfold worker_check. by destruct (decode_request_state w r) as [[]|]. Qed.

(** Where the front request is not ready nothing changes. *)
Lemma decode_loop_not_ready fuel more w s c reqs rid c' s' :
  decode_loop fuel more (worker_check w) s c reqs = Some (Err (DecodeNotReady rid), c', s') →
  reqs = [] ∧ s' = s ∧ ∃ r q, decode_queue s = r :: q ∧ request_id r = rid ∧ decode_request_state w r = Ok Pending.
Proof.
  revert s c reqs. induction fuel as [|fuel IH]; intros s c reqs; cbn [decode_loop]; [done|].
  destruct (decode_queue s) as [|r q]; [done|]. destruct (more (len reqs)); cbn [negb]; [|done].
  unfold worker_check at 1. destruct (decode_request_state w r) as [[| |m]|e] eqn:Hst; [| |done..].
  - destruct (prepare_decode_request (set_decode s q) r) as [[[res r1] s1]|] eqn:Hp; [|done].
    cbn [mbind option_bind]. destruct res as [[]|e].
    + by intros (Hnil&_)%IH; destruct reqs.
    + destruct (restore_failed_decode_attempt s1 reqs r1); [|done]. cbn [mbind option_bind]. intros [= -> <- <-].
      exfalso. revert Hp. unfold prepare_decode_request, allocate_slots.
      destruct (cache_page_allocator (set_decode s q)) as [a|]; cbn [mbind option_bind]; [|done].
      destruct (allocate_for_sequence a _ _) as [[[|] a']|]; done.
  - destruct reqs as [|? ?]; cbn [is_nil]; [|done]. intros [= <- <- <-]. split; [done|]. split; [done|]. by exists r, q.
Qed.

(** ** Outputs answer requests *)

(** [r] was answered by [o] and goes on as [r']. *)
Record continues (r : ScheduledRequest) (o : ScheduledOutput) (r' : ScheduledRequest) : Prop := {
  continues_output : out_request_id o = request_id r;
  continues_open : finished o = false;
  continues_id : request_id r' = request_id r;
  continues_sampling : sampling r' = sampling r;
  continues_tokens : output_ids r' = output_ids r ++ out_token_ids o;
  continues_below : len (output_ids r') < max_new_tokens (sampling r);
}.

Lemma continues_from r0 r o r' : same_generation r0 r → continues r o r' → continues r0 o r'.
Proof. intros [=] []. split; congruence. Qed.

(** The outputs of a batch of requests, and the requests that go on. *)
Inductive answers : list ScheduledRequest → list ScheduledOutput → list ScheduledRequest → Prop :=
  | answers_nil : answers [] [] []
  | answers_more r o r' rs os rs' : continues r o r' → answers rs os rs' → answers (r :: rs) (o :: os) (r' :: rs')
  | answers_done r o rs os rs' :
      out_request_id o = request_id r → finished o = true → answers rs os rs' → answers (r :: rs) (o :: os) rs'.

Lemma answers_from rs0 rs os rs' : Forall2 same_generation rs0 rs → answers rs os rs' → answers rs0 os rs'.
Proof.
  intros Hall Ha. revert rs0 Hall. induction Ha as [|r o r' rs os rs' Hc Ha IH|r o rs os rs' Hid Hf Ha IH]; intros rs0 Hall.
  - inversion Hall. constructor.
  - inversion Hall; subst. constructor; [by eapply continues_from|by apply IH].
  - inversion Hall as [|r0 ? ? ? Hg]; subst. constructor; [|done|by apply IH]. rewrite Hid. by apply gen_id.
Qed.

Lemma answers_length rs os rs' : answers rs os rs' → length os = length rs.
Proof. induction 1; cbn; lia. Qed.

Lemma answers_ids rs os rs' : answers rs os rs' → out_request_id <$> os = request_ids rs.
Proof. induction 1 as [|r o r' rs os rs' [] _ IH|r o rs os rs' Hid _ _ IH]; cbn; [done|f_equal..]; done. Qed.

Lemma complete_generated_answer s r gen outputs outputs' s' :
  complete_generated s r gen outputs None = Some (outputs', None, s') →
  ∃ o, outputs' = outputs ++ [o] ∧ out_token_ids o = generated_token_ids gen ∧ waiting_queue s' = waiting_queue s ∧
    (finished o = true ∧ out_request_id o = request_id r ∧ decode_queue s' = decode_queue s ∨
     ∃ r', continues r o r' ∧ decode_queue s' = decode_queue s ++ [r']).
Proof.
  unfold complete_generated. destruct (generated_finished gen || _)%bool eqn:Hfin.
  - destruct (finish_request (worker s) _) as [[[]|e] w]; [|done].
    unfold release_request_cache_pages, allocator_release. cbn [set_worker cache_page_allocator].
    destruct (cache_page_allocator s) as [a|]; cbn [mbind option_bind].
    + destruct (release a _) as [a'|]; cbn [mbind option_bind]; [|done]. intros [= <- <-].
      eexists. do 3 (split; [done|]). left. cbn. by destruct r.
    + intros [= <- <-]. eexists. do 3 (split; [done|]). left. cbn. by destruct r.
  - intros [= <- <-]. eexists. do 3 (split; [done|]). right. eexists. split; [|done].
    apply orb_false_iff in Hfin as [_ Hmax]. unfold reached_max_new_tokens in Hmax. reflect_N.
    destruct r; cbn in *. split; cbn; done || lia.
Qed.

Lemma complete_generated_error s r gen outputs e outputs' s' :
  complete_generated s r gen outputs (Some e) = Some (outputs', None, s') → False.
Proof.
  unfold complete_generated. destruct (_ || _)%bool; [|done].
  destruct (finish_request (worker s) _) as [[[]|e'] w]; [|done].
  destruct (release_request_cache_pages _ _) as [s1|]; cbn [mbind option_bind]; done.
Qed.

Lemma complete_loop_error mode pairs s outputs e outputs' s' :
  complete_loop sha256 mode s pairs outputs (Some e) = Some (outputs', None, s') → False.
Proof.
  revert s outputs e. induction pairs as [|[r gen] pairs IH]; intros s outputs e; cbn [complete_loop]; [done|].
  destruct (complete_request_step sha256 mode s r gen outputs (Some e)) as [[[o1 e1] s1]|] eqn:Hstep; [|done].
  cbn [mbind option_bind]. destruct e1 as [e1|]; [apply IH|]. intros _. revert Hstep. unfold complete_request_step.
  destruct (is_prefill_forward mode r); [|by intros ?%complete_generated_error].
  destruct (stage_prefill_chunk_cache_pages _ _ _ _ _) as [[[[]|?] ?]|]; cbn [mbind option_bind]; [|done..].
  destruct (negb _); [done|by intros ?%complete_generated_error].
Qed.

Lemma publish_queues s r a b s' :
  publish_prefill_chunk_cache_pages sha256 s r a b = Some s' →
  waiting_queue s' = waiting_queue s ∧ decode_queue s' = decode_queue s.
Proof.
  unfold publish_prefill_chunk_cache_pages. intros (s0&H0&H1)%bind_Some.
  assert (waiting_queue s0 = waiting_queue s ∧ decode_queue s0 = decode_queue s) as [<- <-].
  { destruct (0 <? _); [apply bind_Some in H0 as (?&_&H0)|]; by injection H0 as <-. }
  destruct (event_publisher s0); [apply bind_Some in H1 as (?&_&H1)|]; by injection H1 as <-.
Qed.

Lemma stage_queues s r a b res s' :
  stage_prefill_chunk_cache_pages sha256 s r a b = Some (res, s') →
  waiting_queue s' = waiting_queue s ∧ decode_queue s' = decode_queue s.
Proof.
  unfold stage_prefill_chunk_cache_pages. intros Hst.
  repeat case_match; try (apply bind_Some in Hst as (?&?%publish_queues&Hst)); by simplify_eq.
Qed.

(** The outputs of a batch: some requests are answered, the others have more of
    their prompt to prefill. *)
Inductive batch_answers (mode : ForwardMode) : list ScheduledRequest → list ScheduledOutput →
    list ScheduledRequest → list ScheduledRequest → Prop :=
  | batch_nil : batch_answers mode [] [] [] []
  | batch_more r o r' rs os again chunks :
      continues r o r' → batch_answers mode rs os again chunks → batch_answers mode (r :: rs) (o :: os) (r' :: again) chunks
  | batch_done r o rs os again chunks :
      out_request_id o = request_id r → finished o = true →
      batch_answers mode rs os again chunks → batch_answers mode (r :: rs) (o :: os) again chunks
  | batch_chunk r r' rs os again chunks :
      is_prefill_forward mode r = true → same_generation r r' →
      batch_answers mode rs os again chunks → batch_answers mode (r :: rs) os again (r' :: chunks).

Lemma batch_answers_length mode rs os again chunks :
  batch_answers mode rs os again chunks → (length os + length chunks = length rs)%nat.
Proof. induction 1; cbn; lia. Qed.

Lemma batch_answers_all mode rs os again chunks :
  batch_answers mode rs os again chunks → length os = length rs → chunks = [] ∧ answers rs os again.
Proof.
  intros Hb Hlen. pose proof (batch_answers_length _ _ _ _ _ Hb).
  destruct chunks as [|? ?]; [|cbn in *; lia]. split; [done|]. clear Hlen H. remember [] as chunks eqn:Hc.
  induction Hb; try done; constructor; eauto.
Qed.

Lemma batch_answers_decode mode rs os again chunks :
  batch_answers mode rs os again chunks → Forall (λ r, is_prefill_forward mode r = false) rs → chunks = [] ∧ answers rs os again.
Proof.
  intros Hb Hall. apply (batch_answers_all _ _ _ _ _ Hb). clear -Hb Hall.
  induction Hb; inversion Hall; subst; cbn; [done|f_equal; eauto..|congruence].
Qed.

Lemma batch_answers_from mode rs0 rs os again chunks :
  Forall2 same_generation rs0 rs → batch_answers mode rs os again chunks →
  (length os + length chunks = length rs0)%nat ∧
  (chunks = [] → answers rs0 os again) ∧
  (os = [] → again = [] ∧ Forall2 same_generation rs0 chunks).
Proof.
  intros Hall Hb. pose proof (batch_answers_length _ _ _ _ _ Hb) as Hlen. rewrite (Forall2_length _ _ _ Hall).
  split; [done|]. split.
  - intros ->. eapply answers_from; [done|]. eapply batch_answers_all; [done|]. cbn in Hlen. lia.
  - intros ->. clear Hlen. remember [] as os eqn:Hos. revert rs0 Hall.
    induction Hb as [| | |?????? Hp Hg Hb IH]; intros rs0 Hall; try done.
    inversion Hall as [|r0 ???? Hall']; subst. destruct (IH eq_refl _ Hall') as [-> ?]. split; [done|]. constructor; [|done]. unfold same_generation in *. congruence.
Qed.

(** A batch that completes without an error. *)
Lemma complete_loop_answers mode pairs s outputs outputs' s' :
  complete_loop sha256 mode s pairs outputs None = Some (outputs', None, s') →
  ∃ os again chunks, outputs' = outputs ++ os ∧ batch_answers mode pairs.*1 os again chunks ∧
    decode_queue s' = decode_queue s ++ again ∧ waiting_queue s' = rev chunks ++ waiting_queue s ∧
    Forall (λ o, ∃ gen, gen ∈ pairs.*2 ∧ out_token_ids o = generated_token_ids gen) os.
Proof.
  revert s outputs. induction pairs as [|[r gen] pairs IH]; intros s outputs; cbn [complete_loop].
  { intros [= <- <-]. exists [], [], []. rewrite !app_nil_r. split; [done|]. split; [constructor|done]. }
  destruct (complete_request_step sha256 mode s r gen outputs None) as [[[o1 e1] s1]|] eqn:Hstep; [|done].
  cbn [mbind option_bind]. destruct e1 as [e1|]; [by intros ?%complete_loop_error|].
  assert ((∃ r', is_prefill_forward mode r = true ∧ same_generation r r' ∧ o1 = outputs ∧
      decode_queue s1 = decode_queue s ∧ waiting_queue s1 = r' :: waiting_queue s) ∨
    ∃ o, o1 = outputs ++ [o] ∧ out_token_ids o = generated_token_ids gen ∧ waiting_queue s1 = waiting_queue s ∧
    (finished o = true ∧ out_request_id o = request_id r ∧ decode_queue s1 = decode_queue s ∨
     ∃ r', continues r o r' ∧ decode_queue s1 = decode_queue s ++ [r'])) as Hcase.
  { revert Hstep. unfold complete_request_step. destruct (is_prefill_forward mode r) eqn:Hpf.
    2: { intros Hg. right. by apply complete_generated_answer in Hg. }
    destruct (stage_prefill_chunk_cache_pages _ _ _ _ _) as [[res s2]|] eqn:Hst; [|done]. cbn [mbind option_bind].
    apply stage_queues in Hst as [Hw2 Hd2]. destruct res as [[]|e]; [|done].
    destruct (negb _).
    - intros [= <- <-]. left. cbn [waiting_queue decode_queue set_waiting]. rewrite Hw2, Hd2. eexists.
      split; [done|]. split; [|done]. unfold same_generation. by autorewrite with generation.
    - intros (o&->&Htok&Hw&Hc)%complete_generated_answer. right. exists o. do 2 (split; [done|]). split; [congruence|].
      destruct Hc as [(Hf&Hid&Hd)|(r'&Hc&Hd)]; [left|right; exists r'].
      + split; [done|]. split; [|congruence]. rewrite Hid. apply gen_id. by autorewrite with generation.
      + split; [|congruence]. eapply continues_from; [|done]. unfold same_generation. by autorewrite with generation. }
  intros (os&again&chunks&->&Hans&Hd&Hw&Htoks)%IH. cbn [fmap list_fmap fst snd].
  assert (Forall (λ o, ∃ g, g ∈ gen :: pairs.*2 ∧ out_token_ids o = generated_token_ids g) os) as Htoks'.
  { eapply Forall_impl; [exact Htoks|]. intros o (g&Hg&?). exists g. split; [by right|done]. }
  destruct Hcase as [(r'&Hpf&Hg&->&Hd1&Hw1)|(o&->&Htok&Hw1&[(Hfin&Hid&Hd1)|(r'&Hc&Hd1)])].
  - exists os, again, (r' :: chunks). split; [done|]. split; [by constructor|]. split; [congruence|]. split; [|done].
    cbn [rev]. rewrite Hw, Hw1, <-app_assoc. done.
  - exists (o :: os), again, chunks. rewrite <-app_assoc. split; [done|]. split; [by constructor|].
    split; [congruence|]. split; [congruence|]. constructor; [|done]. exists gen. split; [by left|done].
  - exists (o :: os), (r' :: again), chunks. rewrite <-app_assoc. split; [done|]. split; [by constructor|].
    split; [by rewrite Hd, Hd1, <-app_assoc|]. split; [congruence|]. constructor; [|done]. exists gen. split; [by left|done].
Qed.

(** The worker generates something for every request. *)
Definition worker_generates : Prop :=
  ∀ (w : W) batch tokens w', execute_batch w batch = (Ok tokens, w') → Forall (λ t, generated_token_ids t ≠ []) tokens.

Definition speaking (os : list ScheduledOutput) : Prop := worker_generates → Forall (λ o, out_token_ids o ≠ []) os.

Lemma dispatch_batch_answers s batch outputs s' :
  dispatch_batch sha256 s batch = Some (Ok outputs, s') →
  ∃ again chunks, batch_answers (forward_mode batch) (requests batch) outputs again chunks ∧
    decode_queue s' = decode_queue s ++ again ∧ waiting_queue s' = rev chunks ++ waiting_queue s ∧ speaking outputs.
Proof.
  unfold dispatch_batch. destruct (execute_batch (worker s) batch) as [[tokens|e] w] eqn:Hexec.
  2: { destruct (release_failed_batch_cache_pages _ _) as [[[] ?]|]; done. }
  unfold complete_batch. destruct (negb _) eqn:Hlen; [done|].
  destruct (complete_loop _ _ _ _ _ _) as [[[os [e|]] s1]|] eqn:Hloop; cbn [mbind option_bind]; [done| |done].
  intros [= <- <-]. apply complete_loop_answers in Hloop as (os'&again&chunks&->&Hb&Hd&Hw&Htok).
  apply negb_false_iff in Hlen. reflect_N. unfold len in Hlen.
  rewrite fst_zip in Hb by lia. exists again, chunks. do 3 (split; [done|]).
  intros Hgen. specialize (Hgen _ _ _ _ Hexec). eapply Forall_impl; [exact Htok|]. intros o (g&Hg&->).
  rewrite snd_zip in Hg by lia. by eapply Forall_forall in Hgen.
Qed.

(** ** Decode dispatches *)

Lemma dispatch_decode_round s max outputs s' :
  dispatch_decode_batch sha256 s max = Some (Ok outputs, s') →
  ∃ taken rest again, decode_queue s = taken ++ rest ∧ answers taken outputs again ∧ outputs ≠ [] ∧
    decode_queue s' = rest ++ again ∧ waiting_queue s' = waiting_queue s ∧ speaking outputs.
Proof.
  unfold dispatch_decode_batch, dispatch_built, next_decode_batch_with_worker_ready_check.
  destruct (is_nil (decode_queue s) || (max =? 0))%bool eqn:He; [done|].
  apply orb_false_iff in He as [Hne Hmax].
  destruct (decode_loop _ _ _ _ _ _) as [[[[reqs|e] c] s1]|] eqn:Hloop; cbn [mbind option_bind]; [|done..].
  apply decode_loop_front in Hloop as (taken&fresh&Hreqs&Hq&Hw&_&Hall&Hnil). cbn in Hreqs. subst reqs.
  intros (again&chunks&Hb&Hd&Hw'&Hsp)%dispatch_batch_answers. cbn [requests forward_mode] in Hb.
  assert (Forall (λ r, is_prefill_forward Decode r = false) fresh) as Hpf.
  { clear -Hall. induction Hall as [|r r' ? ? [_ Hst] _ IH]; constructor; [|done]. unfold is_prefill_forward. by rewrite Hst. }
  assert (Forall2 same_generation taken fresh) as Hgen by (eapply Forall2_impl; [exact Hall|by intros ?? []]).
  destruct (batch_answers_decode _ _ _ _ _ Hb Hpf) as [-> Hans]. cbn in Hw'.
  pose proof (answers_from _ _ _ _ Hgen Hans) as Hans0.
  exists taken, (decode_queue s1), again. split; [done|]. split; [done|]. split; [|split; [done|split; [congruence|done]]].
  intros ->. inversion Hans; subst. destruct Hnil as [Hq0|Hq0]; try done.
  { intros. apply worker_check_no_stop. }
  - by rewrite Hq0 in Hne.
  - reflect_N. destruct (decode_queue s) as [|r q]; [done|]. rewrite len_cons in Hq0. lia.
Qed.

Lemma stage_error s r a b e s' :
  stage_prefill_chunk_cache_pages sha256 s r a b = Some (Err e, s') → ∃ w, e = Worker w.
Proof.
  unfold stage_prefill_chunk_cache_pages. intros Hst.
  repeat case_match; try (apply bind_Some in Hst as (?&_&Hst)); simplify_eq; eauto.
Qed.

Lemma complete_loop_worker_error mode pairs s outputs error outputs' e s' :
  complete_loop sha256 mode s pairs outputs error = Some (outputs', Some e, s') →
  error = Some e ∨ ∃ w, e = Worker w.
Proof.
  revert s outputs error. induction pairs as [|[r gen] pairs IH]; intros s outputs error; cbn [complete_loop].
  { intros [= <- <- <-]. by left. }
  destruct (complete_request_step sha256 mode s r gen outputs error) as [[[o1 e1] s1]|] eqn:Hstep; [|done].
  cbn [mbind option_bind]. intros [->|?]%IH; [|by right]. clear IH. revert Hstep.
  assert (∀ s r, complete_generated s r gen outputs error = Some (o1, Some e, s1) → error = Some e ∨ ∃ w, e = Worker w) as Hgen.
  { intros s0 r0. unfold complete_generated. destruct (_ || _)%bool; [|by intros [= _ -> _]; left].
    destruct (finish_request (worker s0) _) as [[[]|e'] w]; [|intros [= _ <- _]; right; by exists e'].
    destruct (release_request_cache_pages _ _); cbn [mbind option_bind]; [|done]. intros [= _ -> _]. by left. }
  unfold complete_request_step. destruct (is_prefill_forward mode r); [|apply Hgen].
  destruct (stage_prefill_chunk_cache_pages _ _ _ _ _) as [[[[]|e2] s2]|] eqn:Hst; cbn [mbind option_bind]; [| |done].
  - destruct (negb _); [intros [= _ -> _]; by left|apply Hgen].
  - intros [= _ <- _]. right. by eapply stage_error.
Qed.

Lemma dispatch_batch_error s batch e s' : dispatch_batch sha256 s batch = Some (Err e, s') → ∃ w, e = Worker w.
Proof.
  unfold dispatch_batch. destruct (execute_batch (worker s) _) as [[tokens|e'] w].
  - unfold complete_batch. destruct (negb _); [intros [= <- _]; by eexists|].
    destruct (complete_loop _ _ _ _ _ _) as [[[os [e'|]] s2]|] eqn:Hc; cbn [mbind option_bind]; [|done..].
    intros [= <- _]. by apply complete_loop_worker_error in Hc as [|].
  - unfold release_failed_batch_cache_pages.
    destruct (release_failed_loop _ _ _) as [[[?|] ?]|]; cbn [mbind option_bind]; [| |done]; intros [= <- _]; by eexists.
Qed.

(** A dispatch that finds the front request not ready leaves everything. *)
Lemma dispatch_decode_not_ready s max rid s' :
  dispatch_decode_batch sha256 s max = Some (Err (DecodeNotReady rid), s') →
  s' = s ∧ ∃ r q, decode_queue s = r :: q ∧ request_id r = rid ∧ decode_request_state (worker s) r = Ok Pending.
Proof.
  unfold dispatch_decode_batch, dispatch_built, next_decode_batch_with_worker_ready_check.
  destruct (is_nil (decode_queue s) || (max =? 0))%bool; [done|].
  destruct (decode_loop _ _ _ _ _ _) as [[[[reqs|e] c] s1]|] eqn:Hloop; cbn [mbind option_bind]; [| |done].
  - by intros [? ?]%dispatch_batch_error.
  - intros [= -> <-]. by apply decode_loop_not_ready in Hloop as (_&->&H).
Qed.

(** ** No dispatch invents or duplicates a request *)

Lemma placed_queued s outputs : placed s outputs = queued_ids s ++ finished_ids outputs.
Proof. unfold placed, queued_ids. by rewrite app_assoc. Qed.

Lemma dispatch_batch_queued s batch res s' :
  scheduler_wf s → Forall request_wf (requests batch) → dispatch_batch sha256 s batch = Some (res, s') →
  queued_ids s' ⊆+ request_ids (requests batch) ++ queued_ids s.
Proof.
  intros Wf Hb. unfold dispatch_batch. destruct (execute_batch (worker s) batch) as [[tokens|e] w].
  - destruct (complete_batch_spec sha256 (set_worker s w) batch tokens) as (res0&s0&->&_&Hcase); [by apply set_worker_wf|done|].
    intros [= <- <-]. destruct (batch_size batch =? len tokens).
    + assert (∃ outputs, placed s0 outputs ≡ₚ request_ids (requests batch) ++ placed (set_worker s w) []) as [outputs Hp]
        by (destruct res0; [by exists a|done]).
      rewrite !placed_queued in Hp. cbn [finished_ids filter list_filter fmap list_fmap] in Hp. rewrite app_nil_r in Hp.
      change (queued_ids (set_worker s w)) with (queued_ids s) in Hp. rewrite <-Hp. apply submseteq_inserts_r. done.
    + destruct Hcase as [_ ->]. unfold queued_ids. cbn. rewrite request_ids_app.
      apply Permutation_submseteq. solve_Permutation.
  - unfold release_failed_batch_cache_pages.
    destruct (release_failed_loop_spec (set_worker s w) (requests batch) None) as (e'&s0&->&_&Hw&kept&Hk&Hd);
      [by apply set_worker_wf|done|].
    cbn [mbind option_bind]. intros [= _ <-]. unfold queued_ids. rewrite Hw, Hd. cbn. rewrite request_ids_app.
    assert (request_ids kept ⊆+ request_ids (requests batch)) as Hsub
      by (apply fmap_submseteq; by apply sublist_submseteq).
    rewrite (Permutation_app_comm (request_ids (requests batch))), <-!app_assoc. by apply submseteq_skips_l, submseteq_skips_l.
Qed.

Lemma dispatch_decode_queued s max res s' :
  scheduler_wf s → dispatch_decode_batch sha256 s max = Some (res, s') → queued_ids s' ⊆+ queued_ids s.
Proof.
  intros Wf. unfold dispatch_decode_batch, dispatch_built.
  destruct (next_decode_worker_spec s max Wf) as (res0&s1&->&Wf1&Hpost). cbn [mbind option_bind].
  destruct res0 as [b|e].
  - destruct Hpost as (_&_&Hpost). intros Hdis. apply dispatch_batch_queued in Hdis; [|done|by eapply decode_batch_wf].
    destruct Hpost as (_&Hw&_&more&Hreqs&_&Hids&_). cbn in Hreqs. subst more. rewrite Hdis. unfold queued_ids. rewrite Hw, <-Hids.
    apply Permutation_submseteq. solve_Permutation.
  - intros [= _ <-]. destruct Hpost as [->|(_&Hw&_&[Hlost|Hrest])]; [done|..]; unfold queued_ids; rewrite Hw; apply submseteq_skips_l.
    + destruct Hlost as (more&c&next&c'&taken&_&Hq&_). rewrite Hq, request_ids_app. by apply submseteq_inserts_l.
    + destruct Hrest as (_&_&Hids&_). cbn in Hids. by rewrite Hids.
Qed.

Lemma dispatch_prefill_queued s max budget res s' :
  scheduler_wf s → dispatch_prefill_batch_with_token_budget sha256 s max budget = Some (res, s') → queued_ids s' ⊆+ queued_ids s.
Proof.
  intros Wf. unfold dispatch_prefill_batch_with_token_budget, dispatch_built.
  destruct (next_prefill_spec s max budget Wf) as (res0&s1&->&Wf1&_&Hd&Hpost). cbn [mbind option_bind].
  destruct res0 as [b|e].
  - destruct Hpost as (_&_&Hprep&Hids&_). intros Hdis. apply dispatch_batch_queued in Hdis; [|done|].
    + rewrite Hdis. unfold queued_ids. rewrite Hd, <-Hids, <-app_assoc. done.
    + eapply Forall2_Forall_r; [exact Hprep|]. apply Forall_true. intros r r' Hp. apply Hp.
  - intros [= _ <-]. unfold queued_ids. by destruct Hpost as [-> _]; rewrite Hd.
Qed.

(** ** Prefill dispatches *)

Lemma prefill_loop_front fuel s max budget c reqs n reqs' s' :
  prefill_loop fuel s max budget c reqs n = Some (Ok reqs', s') →
  ∃ fresh, reqs' = reqs ++ fresh ∧ Forall2 same_generation (take (length fresh) (waiting_queue s)) fresh ∧ (reqs' = [] → s' = s).
Proof.
  revert s reqs n. induction fuel as [|fuel IH]; intros s reqs n; cbn [prefill_loop].
  { intros [= <- <-]. exists []. by rewrite app_nil_r. }
  assert (∀ (l : list ScheduledRequest) s', (reqs = [] → s' = s) → ∃ fresh : list ScheduledRequest, reqs = reqs ++ fresh ∧
    Forall2 same_generation (take (length fresh) l) fresh ∧ (reqs = [] → s' = s)) as Hhere by (intros l; exists []; by rewrite app_nil_r).
  destruct (waiting_queue s) as [|r q] eqn:Hq; [intros [= <- <-]; by apply Hhere|].
  destruct (negb _); [intros [= <- <-]; by apply Hhere|].
  destruct (prepare_prefill_request_chunk (set_waiting s q) r c) as [[[res r1] s1]|] eqn:Hp; [|done]. cbn [mbind option_bind].
  apply prepare_prefill_gen in Hp as [Hg Hs1]. destruct (same_but_alloc_eqs _ _ Hs1) as (_&Hw1&_). cbn in Hw1.
  destruct res as [[]|e]; [|by destruct (restore_failed_prefill_attempt s1 reqs r1)].
  destruct (_ && _)%bool eqn:Hbreak.
  - destruct (allocator_release s1 _); cbn [mbind option_bind]; [|done]. intros [= <- <-]. apply Hhere. by intros ->.
  - intros (fresh&->&Hall&_)%IH. rewrite Hw1 in Hall. exists (r1 :: fresh). rewrite <-app_assoc. split; [done|].
    split; [by constructor|]. by destruct reqs.
Qed.

Lemma next_prefill_front s max budget b s' :
  scheduler_wf s → next_prefill_batch_with_token_budget s max budget = Some (Ok b, s') →
  ∃ taken rest, waiting_queue s = taken ++ rest ∧ taken ≠ [] ∧ Forall2 same_generation taken (requests b) ∧
    request_ids (waiting_queue s') = request_ids rest ∧ decode_queue s' = decode_queue s ∧ scheduler_wf s' ∧
    Forall request_wf (requests b).
Proof.
  intros Wf Hnext. destruct (next_prefill_spec s max budget Wf) as (res0&s1&Heq&Wf1&_&Hd&Hpost).
  rewrite Hnext in Heq. injection Heq as <- <-. destruct Hpost as (_&Hne&Hprep&Hids&_).
  assert (Forall2 same_generation (take (length (requests b)) (waiting_queue s)) (requests b)) as Hgen.
  { revert Hnext. unfold next_prefill_batch_with_token_budget. destruct (_ || _)%bool; [done|].
    destruct (remaining_running_request_capacity s) as [cap|]; [|done].
    destruct (prefill_loop _ _ _ _ _ _ _) as [[[reqs|e] s2]|] eqn:Hloop; cbn [mbind option_bind]; [|done..].
    apply prefill_loop_front in Hloop as (fresh&->&Hall&Hsame). cbn [app] in *.
    destruct fresh as [|f fresh]; cbn [is_nil].
    - rewrite (Hsame eq_refl). unfold prefill_fallback. destruct (waiting_queue s) as [|r q] eqn:Hq; [done|].
      destruct (prepare_prefill_request_chunk _ _ _) as [[[[[]|e] r1] s3]|] eqn:Hp; cbn [mbind option_bind]; [|done..].
      intros [= <- <-]. cbn [requests length]. apply prepare_prefill_gen in Hp as [Hg _]. by repeat constructor.
    - by intros [= <- <-]. }
  rewrite <-(take_drop (length (requests b)) (waiting_queue s)).
  eexists _, _. split; [done|]. split; [|split; [done|]].
  { intros Hnil. rewrite Hnil in Hgen. by inversion Hgen as [Heq|]; destruct (requests b). }
  split; [|split; [done|split; [done|]]].
  - rewrite <-(take_drop (length (requests b)) (waiting_queue s)), request_ids_app in Hids.
    apply (f_equal (drop (length (requests b)))) in Hids.
    rewrite !drop_app_length' in Hids; [done|..]; unfold request_ids; rewrite length_fmap; [|done].
    symmetry. by eapply Forall2_length.
  - eapply Forall2_Forall_r; [exact Hprep|]. apply Forall_true. intros r r' Hp. apply Hp.
Qed.

Lemma prefill_loop_error fuel s max budget c reqs n e s' :
  prefill_loop fuel s max budget c reqs n = Some (Err e, s') → ∃ a, e = CacheAllocation a.
Proof.
  revert s reqs n. induction fuel as [|fuel IH]; intros s reqs n; cbn [prefill_loop]; [done|].
  destruct (waiting_queue s) as [|r q]; [done|]. destruct (negb _); [done|].
  destruct (prepare_prefill_request_chunk _ r c) as [[[res r1] s1]|] eqn:Hp; [|done]. cbn [mbind option_bind].
  destruct res as [[]|e1].
  - destruct (_ && _)%bool; [|apply IH]. by destruct (allocator_release s1 _).
  - destruct (restore_failed_prefill_attempt s1 reqs r1); [|done]. cbn [mbind option_bind]. intros [= <- _].
    by eapply prepare_prefill_error.
Qed.

(** A prefill dispatch does not ask whether a request is ready. *)
Lemma dispatch_prefill_never_not_ready s max budget rid s' :
  dispatch_prefill_batch_with_token_budget sha256 s max budget ≠ Some (Err (DecodeNotReady rid), s').
Proof.
  unfold dispatch_prefill_batch_with_token_budget, dispatch_built, next_prefill_batch_with_token_budget.
  destruct (_ || _)%bool; [done|]. unfold remaining_running_request_capacity.
  destruct (match max_running_requests s with None => _ | Some _ => _ end) as [cap|e] eqn:Hcap.
  2: { cbn [mbind option_bind]. destruct (max_running_requests s); [|done]. destruct (_ =? 0); [|done]. by injection Hcap as <-. }
  destruct (prefill_loop _ _ _ _ _ _ _) as [[[reqs|e] s2]|] eqn:Hloop; cbn [mbind option_bind]; [| |done].
  2: { apply prefill_loop_error in Hloop as [a ->]. done. }
  destruct (is_nil reqs).
  - unfold prefill_fallback. destruct (waiting_queue s2) as [|r q]; [done|].
    destruct (prepare_prefill_request_chunk _ _ _) as [[[[[]|e] r1] s3]|] eqn:Hp; cbn [mbind option_bind]; [| |done].
    + by intros [? ?]%dispatch_batch_error.
    + apply prepare_prefill_error in Hp as [a ->]. done.
  - cbn [mbind option_bind]. by intros [? ?]%dispatch_batch_error.
Qed.

(** A prefill dispatch: some of the front requests are answered, the others go
    back to the front of the queue for the next chunk. *)
Lemma dispatch_prefill_round s max budget outputs s' :
  scheduler_wf s → dispatch_prefill_batch_with_token_budget sha256 s max budget = Some (Ok outputs, s') →
  ∃ taken rest again chunks left, waiting_queue s = taken ++ rest ∧ taken ≠ [] ∧
    (length outputs + length chunks = length taken)%nat ∧ (chunks = [] → answers taken outputs again) ∧
    (outputs = [] → again = [] ∧ Forall2 same_generation taken chunks) ∧
    decode_queue s' = decode_queue s ++ again ∧ waiting_queue s' = rev chunks ++ left ∧
    request_ids left = request_ids rest ∧ speaking outputs.
Proof.
  intros Wf. unfold dispatch_prefill_batch_with_token_budget, dispatch_built.
  destruct (next_prefill_batch_with_token_budget s max budget) as [[[b|e] s1]|] eqn:Hn; cbn [mbind option_bind]; [|done..].
  apply next_prefill_front in Hn as (taken&rest&Hq&Hne&Hgen&Hids&Hd1&_&_); [|done].
  intros (again&chunks&Hb&Hd&Hw&Hsp)%dispatch_batch_answers.
  destruct (batch_answers_from _ _ _ _ _ _ Hgen Hb) as (Hlen&Hans&Hgo).
  exists taken, rest, again, chunks, (waiting_queue s1). do 5 (split; [done|]). split; [congruence|]. done.
Qed.

End Dispatch.
