(* ===== verification/Engine.v ===== *)
(** * Generation engine ([crates/sglang-srt/src/engine.rs])

    [Engine] drives the scheduler for one client at a time: it queues a request,
    dispatches until an output arrives, hands the outputs to a sink and keeps
    decoding until the request is finished, the sink refuses, or an error.  A
    batch of requests runs through one prefill and then decodes together.

    A sink is an [FnMut] closure, a function that threads its own state.  The
    tokenizer never changes, so the private loops act on the scheduler alone.
    The loops are unbounded in the code; they take fuel, [None] also standing
    for running out of it, and [EngineCorrect] gives a bound that is enough. *)

From S2P Require Import Prelude Types PageAllocator RadixCache BlockHash StateEvents Request Scheduler Tokenizer.
#[local] Open Scope N_scope.

(** [types.rs:50-54] GenerateRequest *)
Record GenerateRequest : Type := mkGenerateRequest {
  text_request_id : RequestId;
  text_prompt : string;
  text_sampling : SamplingParams;
}.

(** [types.rs:57-61] GenerateOutput *)
Record GenerateOutput : Type := mkGenerateOutput {
  text_output_id : RequestId;
  output_text : string;
  text_finished : bool;
}.

(** [types.rs:64-70] TokenGenerateRequest *)
Record TokenGenerateRequest : Type := mkTokenGenerateRequest {
  token_request_id : RequestId;
  token_input_ids : list N;
  token_sampling : SamplingParams;
  token_disaggregated_params : option DisaggregatedParams;
  token_data_parallel_rank : Z;
}.

(** [types.rs:73-78] TokenGenerateOutput *)
Record TokenGenerateOutput : Type := mkTokenGenerateOutput {
  token_output_id : RequestId;
  token_output_ids : list N;
  token_cached_tokens : N;
  token_finished : bool;
}.

(** [engine.rs:12-18] RuntimeError *)
Inductive RuntimeError : Type :=
  | SchedulerFailure (error : SchedulerError)
  | TokenizerFailure (error : TokenizerError)
  | TransferFailure (error : KvCacheTransferError)
  | WorkerFailure (error : WorkerExecutionError)
  | InvalidState (error : string).

(** The weight update of the [WorkerExecutor] trait, which the schedulers do not use. *)
(** [worker.rs:216-219] WorkerExecutor::update_weights_from_disk (trait) *)
Class WeightUpdates (W : Type) : Type := {
  worker_update_weights : W → WorkerWeightUpdateRequest → Result WorkerExecutionError unit * W;
}.

(** [engine.rs:58-61] Engine *)
Record Engine (T W P : Type) : Type := mkEngine {
  engine_tokenizer : T;
  engine_scheduler : Scheduler W P;
}.
Arguments mkEngine {T W P}.
Arguments engine_tokenizer {T W P}.
Arguments engine_scheduler {T W P}.

(** What a token request becomes for the scheduler. *)
(** [engine.rs:175-179] Engine::generate_tokens (scheduled request) *)
Definition scheduled_of (q : TokenGenerateRequest) : ScheduledRequest :=
  with_data_parallel_rank
    (with_disaggregated_params
       (ScheduledRequest_new (token_request_id q) (token_input_ids q) (token_sampling q))
       (token_disaggregated_params q))
    (token_data_parallel_rank q).

(** [engine.rs:214-219] Engine::generate_token_stream_with_sink (token output) *)
Definition token_output_of (o : ScheduledOutput) : TokenGenerateOutput :=
  mkTokenGenerateOutput (out_request_id o) (out_token_ids o) (cached_tokens o) (finished o).

(** [engine.rs:613-630] group_token_outputs_by_request *)
Definition group_token_outputs_by_request (outputs : list (list ScheduledOutput)) : list (list TokenGenerateOutput) :=
  map (map token_output_of) outputs.

(** [engine.rs:600-607] record_batch_outputs (loop) *)
Fixpoint push_outputs (grouped : list (list ScheduledOutput)) (pairs : list (N * ScheduledOutput)) (requeued : list N)
    : option (list (list ScheduledOutput) * list N) :=
  match pairs with
  | [] => Some (grouped, requeued)
  | (index, output) :: pairs =>
      let requeued := if finished output then requeued else requeued ++ [index] in
      group ← grouped !! N.to_nat index;
      push_outputs (<[N.to_nat index := group ++ [output]]> grouped) pairs requeued
  end.

(** [grouped[index]] panics out of range. *)
(** [engine.rs:589-611] record_batch_outputs *)
Definition record_batch_outputs (grouped : list (list ScheduledOutput)) (active_indices : list N)
    (outputs : list ScheduledOutput) : option (list (list ScheduledOutput) * list N) :=
  let dispatched := len outputs in
  let next_active := slice_from dispatched active_indices in
  '(grouped, requeued) ← push_outputs grouped (zip active_indices outputs) [];
  Some (grouped, next_active ++ requeued).

(** [engine.rs:304-307] Engine::generate_scheduled_stream_with_sink (error filter) *)
Definition is_decode_not_ready (error : RuntimeError) : bool :=
  match error with SchedulerFailure (DecodeNotReady _) => true | _ => false end.

Section Engine.
Context {V T W P : Type} `{!Tokenizer V T} `{!WorkerExecutor W} `{!WeightUpdates W} `{!KvStateEventPublisher P}.
Context (sha256 : list N → list N).

Implicit Types (e : Engine T W P) (s : Scheduler W P).

Definition set_scheduler e s : Engine T W P := mkEngine (engine_tokenizer e) s.

(** ** Single stream *)

(** [self.scheduler.abort_request(&request_id);] with the answer dropped. *)
Definition abort_quietly s (rid : RequestId) : option (Scheduler W P) := snd <$> abort_request s rid.

(** The state [x] of [next] is the number of transfer polls left, where there is one. *)
(** [engine.rs:292-313] Engine::generate_scheduled_stream_with_sink (loop) *)
Fixpoint stream_loop {C X} (next : X → Scheduler W P → option (Result RuntimeError ScheduledOutput * X * Scheduler W P))
    (fuel : nat) (rid : RequestId) (sink : C → ScheduledOutput → bool * C)
    s (c : C) (x : X) (output : ScheduledOutput) : option (Result RuntimeError unit * C * Scheduler W P) :=
  match fuel with
  | O => None
  | S fuel =>
      let '(go_on, c) := sink c output in
      if negb go_on then s ← abort_quietly s rid; Some (Ok (), c, s)
      else if finished output then Some (Ok (), c, s)
      else
        '(res, x, s) ← next x s;
        match res with
        | Ok output => stream_loop next fuel rid sink s c x output
        | Err error =>
            s ← (if negb (is_decode_not_ready error) then abort_quietly s rid else Some s);
            Some (Err error, c, s)
        end
  end.

(** [engine.rs:283-291] Engine::generate_scheduled_stream_with_sink (start) *)
Definition start_stream {C X} (next : X → Scheduler W P → option (Result RuntimeError ScheduledOutput * X * Scheduler W P))
    (fuel : nat) s (request : ScheduledRequest) (sink : C → ScheduledOutput → bool * C) (c : C) (x : X)
    : option (Result RuntimeError unit * C * Scheduler W P) :=
  let rid := request_id request in
  '(res, s) ← dispatch_next sha256 fuel (enqueue s request);
  match res with
  | Err error => s ← abort_quietly s rid; Some (Err (SchedulerFailure error), c, s)
  | Ok output => stream_loop next fuel rid sink s c x output
  end.

(** [engine.rs:354-359] Engine::next_decode_output *)
Definition next_decode_output (x : unit) s : option (Result RuntimeError ScheduledOutput * unit * Scheduler W P) :=
  '(res, s) ← dispatch_decode_batch sha256 s 1;
  Some (match res with
        | Err error => Err (SchedulerFailure error)
        | Ok outputs => match last outputs with
                        | Some output => Ok output
                        | None => Err (SchedulerFailure EmptyQueue)
                        end
        end, tt, s).

(** [engine.rs:275-314] Engine::generate_scheduled_stream_with_sink *)
Definition generate_scheduled_stream_with_sink {C} (fuel : nat) s (request : ScheduledRequest)
    (sink : C → ScheduledOutput → bool * C) (c : C) : option (Result RuntimeError unit * C * Scheduler W P) :=
  start_stream next_decode_output fuel s request sink c tt.

(** The closure [|output| { outputs.push(output); true }]. *)
Definition push_sink {O} (outputs : list O) (output : O) : bool * list O := (true, outputs ++ [output]).

(** [engine.rs:263-273] Engine::generate_scheduled_stream *)
Definition generate_scheduled_stream (fuel : nat) s (request : ScheduledRequest)
    : option (Result RuntimeError (list ScheduledOutput) * Scheduler W P) :=
  '(res, outputs, s) ← generate_scheduled_stream_with_sink fuel s request push_sink [];
  Some (let? u := res in Ok outputs, s).

(** [engine.rs:245-260] Engine::generate_scheduled (collected output) *)
Definition collect_outputs (outputs : list ScheduledOutput) : Result RuntimeError ScheduledOutput :=
  let output_ids := outputs ≫= out_token_ids in
  let? final_output := ok_or (last outputs) (SchedulerFailure EmptyQueue) in
  Ok (mkScheduledOutput (out_request_id final_output) output_ids (cached_tokens final_output) (finished final_output)).

(** [engine.rs:240-261] Engine::generate_scheduled *)
Definition generate_scheduled (fuel : nat) s (request : ScheduledRequest)
    : option (Result RuntimeError ScheduledOutput * Scheduler W P) :=
  '(res, s) ← generate_scheduled_stream fuel s request;
  Some (let? outputs := res in collect_outputs outputs, s).

(** ** Transfer polling *)

(** [engine.rs:110-112] Engine::poll_transfers *)
Definition engine_poll_transfers s : option (Result RuntimeError KvTransferPollSummary * Scheduler W P) :=
  '(res, s) ← Scheduler_poll_transfers sha256 s;
  Some (result_map_err TransferFailure res, s).

(** [polls] is both the bound of the loop and the counter of the code. *)
(** [engine.rs:554-563] Engine::generate_scheduled_batch_stream_with_transfer_polling (polling) *)
Fixpoint dispatch_decode_polling (max_batch_size : N) (polls : nat) s
    : option (Result RuntimeError (list ScheduledOutput) * nat * Scheduler W P) :=
  '(res, s) ← dispatch_decode_batch sha256 s max_batch_size;
  match res, polls with
  | Ok outputs, _ => Some (Ok outputs, polls, s)
  | Err (DecodeNotReady _), S polls =>
      '(polled, s) ← engine_poll_transfers s;
      match polled with
      | Err error => Some (Err error, polls, s)
      | Ok _ => dispatch_decode_polling max_batch_size polls s
      end
  | Err error, _ => Some (Err (SchedulerFailure error), polls, s)
  end.

(** [engine.rs:570-586] Engine::next_decode_output_with_transfer_polling *)
Definition next_decode_output_with_transfer_polling (polls : nat) s
    : option (Result RuntimeError ScheduledOutput * nat * Scheduler W P) :=
  '(res, polls, s) ← dispatch_decode_polling 1 polls s;
  Some (let? outputs := res in ok_or (last outputs) (SchedulerFailure EmptyQueue), polls, s).

(** [engine.rs:475-519] Engine::generate_scheduled_stream_with_transfer_polling_sink *)
Definition generate_scheduled_stream_with_transfer_polling_sink {C} (fuel : nat) s (request : ScheduledRequest)
    (max_transfer_polls : nat) (sink : C → ScheduledOutput → bool * C) (c : C)
    : option (Result RuntimeError unit * C * Scheduler W P) :=
  start_stream next_decode_output_with_transfer_polling fuel s request sink c max_transfer_polls.

(** [engine.rs:458-473] Engine::generate_scheduled_stream_with_transfer_polling *)
Definition generate_scheduled_stream_with_transfer_polling (fuel : nat) s (request : ScheduledRequest)
    (max_transfer_polls : nat) : option (Result RuntimeError (list ScheduledOutput) * Scheduler W P) :=
  '(res, outputs, s) ←
    generate_scheduled_stream_with_transfer_polling_sink fuel s request max_transfer_polls push_sink [];
  Some (let? u := res in Ok outputs, s).

(** ** Batches *)

(** [engine.rs:336-338] Engine::generate_scheduled_batch_stream (abort all) *)
Fixpoint abort_each s (ids : list RequestId) : option (Scheduler W P) :=
  match ids with
  | [] => Some s
  | rid :: ids => s ← abort_quietly s rid; abort_each s ids
  end.

(** [engine.rs:346-351] Engine::generate_scheduled_batch_stream (decode loop) *)
Fixpoint batch_loop {X} (dispatch : N → X → Scheduler W P → option (Result RuntimeError (list ScheduledOutput) * X * Scheduler W P))
    (fuel : nat) s (x : X) (grouped : list (list ScheduledOutput)) (active : list N)
    : option (Result RuntimeError (list (list ScheduledOutput)) * Scheduler W P) :=
  match active, fuel with
  | [], _ => Some (Ok grouped, s)
  | _, O => None
  | _, S fuel =>
      '(res, x, s) ← dispatch (len active) x s;
      match res with
      | Err error => Some (Err error, s)
      | Ok outputs =>
          '(grouped, active) ← record_batch_outputs grouped active outputs;
          batch_loop dispatch fuel s x grouped active
      end
  end.

(** [engine.rs:320-344] Engine::generate_scheduled_batch_stream (prefill) *)
Definition start_batch {X} (dispatch : N → X → Scheduler W P → option (Result RuntimeError (list ScheduledOutput) * X * Scheduler W P))
    (fuel : nat) s (requests : list ScheduledRequest) (x : X)
    : option (Result RuntimeError (list (list ScheduledOutput)) * Scheduler W P) :=
  let batch_size := len requests in
  if batch_size =? 0 then Some (Ok [], s)
  else
    let s := foldl enqueue s requests in
    '(res, s) ← dispatch_prefill_batch sha256 s batch_size;
    match res with
    | Err error => s ← abort_each s (request_id <$> requests); Some (Err (SchedulerFailure error), s)
    | Ok prefill_outputs =>
        '(grouped, active) ←
          record_batch_outputs (replicate (length requests) []) (nrange 0 batch_size) prefill_outputs;
        batch_loop dispatch fuel s x grouped active
    end.

(** [engine.rs:347-347] Engine::generate_scheduled_batch_stream (dispatch) *)
Definition decode_plain (max_batch_size : N) (x : unit) s
    : option (Result RuntimeError (list ScheduledOutput) * unit * Scheduler W P) :=
  '(res, s) ← dispatch_decode_batch sha256 s max_batch_size;
  Some (result_map_err SchedulerFailure res, tt, s).

(** [engine.rs:316-352] Engine::generate_scheduled_batch_stream *)
Definition generate_scheduled_batch_stream (fuel : nat) s (requests : list ScheduledRequest)
    : option (Result RuntimeError (list (list ScheduledOutput)) * Scheduler W P) :=
  start_batch decode_plain fuel s requests tt.

(** [engine.rs:521-568] Engine::generate_scheduled_batch_stream_with_transfer_polling *)
Definition generate_scheduled_batch_stream_with_transfer_polling (fuel : nat) s (requests : list ScheduledRequest)
    (max_transfer_polls : nat) : option (Result RuntimeError (list (list ScheduledOutput)) * Scheduler W P) :=
  start_batch dispatch_decode_polling fuel s requests max_transfer_polls.

(** ** Public operations *)

(** Runs a scheduler operation on the engine's scheduler. *)
Definition on_scheduler {A} e (m : option (Result RuntimeError A * Scheduler W P)) : option (Result RuntimeError A * Engine T W P) :=
  '(res, s) ← m; Some (res, set_scheduler e s).

(** [engine.rs:154-169] Engine::generate *)
Definition generate (fuel : nat) e (q : GenerateRequest) : option (Result RuntimeError GenerateOutput * Engine T W P) :=
  let tok := engine_tokenizer e in
  let input_ids := encode tok (text_prompt q) in
  on_scheduler e
    ('(res, s) ← generate_scheduled fuel (engine_scheduler e)
                   (ScheduledRequest_new (text_request_id q) input_ids (text_sampling q));
     Some (let? output := res in
           let? text := result_map_err TokenizerFailure (decode tok (out_token_ids output)) in
           Ok (mkGenerateOutput (out_request_id output) text (finished output)), s)).

(** [engine.rs:171-187] Engine::generate_tokens *)
Definition generate_tokens (fuel : nat) e (q : TokenGenerateRequest)
    : option (Result RuntimeError TokenGenerateOutput * Engine T W P) :=
  on_scheduler e
    ('(res, s) ← generate_scheduled fuel (engine_scheduler e) (scheduled_of q);
     Some (let? output := res in Ok (token_output_of output), s)).

(** The closure that hands a token output to the caller's sink. *)
Definition token_sink {C} (sink : C → TokenGenerateOutput → bool * C) (c : C) (o : ScheduledOutput) : bool * C :=
  sink c (token_output_of o).

(** [engine.rs:201-222] Engine::generate_token_stream_with_sink *)
Definition generate_token_stream_with_sink {C} (fuel : nat) e (q : TokenGenerateRequest)
    (sink : C → TokenGenerateOutput → bool * C) (c : C) : option (Result RuntimeError unit * C * Engine T W P) :=
  '(res, c, s) ← generate_scheduled_stream_with_sink fuel (engine_scheduler e) (scheduled_of q) (token_sink sink) c;
  Some (res, c, set_scheduler e s).

(** [engine.rs:189-199] Engine::generate_token_stream *)
Definition generate_token_stream (fuel : nat) e (q : TokenGenerateRequest)
    : option (Result RuntimeError (list TokenGenerateOutput) * Engine T W P) :=
  '(res, outputs, e) ← generate_token_stream_with_sink fuel e q push_sink [];
  Some (let? u := res in Ok outputs, e).

(** [engine.rs:224-238] Engine::generate_token_batch_stream *)
Definition generate_token_batch_stream (fuel : nat) e (qs : list TokenGenerateRequest)
    : option (Result RuntimeError (list (list TokenGenerateOutput)) * Engine T W P) :=
  on_scheduler e
    ('(res, s) ← generate_scheduled_batch_stream fuel (engine_scheduler e) (scheduled_of <$> qs);
     Some (let? outputs := res in Ok (group_token_outputs_by_request outputs), s)).

(** [engine.rs:367-394] Engine::generate_tokens_with_transfer_polling *)
Definition generate_tokens_with_transfer_polling (fuel : nat) e (q : TokenGenerateRequest) (max_transfer_polls : nat)
    : option (Result RuntimeError TokenGenerateOutput * Engine T W P) :=
  on_scheduler e
    ('(res, s) ← generate_scheduled_stream_with_transfer_polling fuel (engine_scheduler e) (scheduled_of q) max_transfer_polls;
     Some (let? outputs := res in let? output := collect_outputs outputs in Ok (token_output_of output), s)).

(** [engine.rs:413-436] Engine::generate_token_stream_with_transfer_polling_sink *)
Definition generate_token_stream_with_transfer_polling_sink {C} (fuel : nat) e (q : TokenGenerateRequest)
    (max_transfer_polls : nat) (sink : C → TokenGenerateOutput → bool * C) (c : C)
    : option (Result RuntimeError unit * C * Engine T W P) :=
  '(res, c, s) ← generate_scheduled_stream_with_transfer_polling_sink fuel (engine_scheduler e) (scheduled_of q)
                   max_transfer_polls (token_sink sink) c;
  Some (res, c, set_scheduler e s).

(** [engine.rs:396-411] Engine::generate_token_stream_with_transfer_polling *)
Definition generate_token_stream_with_transfer_polling (fuel : nat) e (q : TokenGenerateRequest)
    (max_transfer_polls : nat) : option (Result RuntimeError (list TokenGenerateOutput) * Engine T W P) :=
  '(res, outputs, e) ← generate_token_stream_with_transfer_polling_sink fuel e q max_transfer_polls push_sink [];
  Some (let? u := res in Ok outputs, e).

(** [engine.rs:438-456] Engine::generate_token_batch_stream_with_transfer_polling *)
Definition generate_token_batch_stream_with_transfer_polling (fuel : nat) e (qs : list TokenGenerateRequest)
    (max_transfer_polls : nat) : option (Result RuntimeError (list (list TokenGenerateOutput)) * Engine T W P) :=
  on_scheduler e
    ('(res, s) ← generate_scheduled_batch_stream_with_transfer_polling fuel (engine_scheduler e) (scheduled_of <$> qs)
                   max_transfer_polls;
     Some (let? outputs := res in Ok (group_token_outputs_by_request outputs), s)).

(** [engine.rs:83-85] Engine::flush_cache *)
Definition engine_flush_cache e : bool * Engine T W P :=
  let '(flushed, s) := flush_cache (engine_scheduler e) in (flushed, set_scheduler e s).

(** [engine.rs:87-92] Engine::abort_request *)
Definition engine_abort_request e (rid : RequestId) : option (bool * Engine T W P) :=
  '(aborted, s) ← abort_request (engine_scheduler e) rid; Some (aborted, set_scheduler e s).

(** [engine.rs:94-99] Engine::abort_all_requests *)
Definition engine_abort_all_requests e : option (N * Engine T W P) :=
  '(aborted, s) ← abort_all_requests (engine_scheduler e); Some (aborted, set_scheduler e s).

(** [engine.rs:106-108] Engine::shutdown *)
Definition engine_shutdown e : option (Result RuntimeError N * Engine T W P) :=
  '(res, s) ← shutdown (engine_scheduler e);
  Some (result_map_err WorkerFailure res, set_scheduler e s).

(** [engine.rs:114-129] Engine::update_weights_from_disk *)
Definition update_weights_from_disk e (q : WorkerWeightUpdateRequest) : Result RuntimeError unit * Engine T W P :=
  let s := engine_scheduler e in
  if ((0 <? len (waiting_queue s)) || (0 <? len (decode_queue s)))%bool then
    (Err (InvalidState "cannot update weights while requests are running or waiting"), e)
  else
    let '(res, w) := worker_update_weights (worker s) q in
    let e := set_scheduler e (set_worker s w) in
    match res with
    | Err error => (Err (WorkerFailure error), e)
    | Ok _ => (Ok (), (engine_flush_cache e).2)
    end.

End Engine.
