(* ===== verification/EngineCorrect.v ===== *)
(** * The generation engine is correct

    One stream from an idle scheduler: it ends, every output belongs to the
    request, the sink sees all of them in order, and nothing stays queued (unless
    the answer is "decode not ready", which keeps the request on purpose).  A batch
    of streams: outputs are grouped by request as long as the prefill answers the
    whole batch. *)

From S2P Require Import Prelude Types PageAllocator RadixCache BlockHash StateEvents Request Scheduler SchedulerFacts SchedulerCompletion SchedulerCorrect SchedulerDispatch Tokenizer Engine.
#[local] Open Scope N_scope.

Section EngineFacts.
Context {W P : Type} `{!WorkerExecutor W} `{!KvStateEventPublisher P}.
Context (sha256 : list N → list N).

Implicit Types (s : Scheduler W P) (r q : ScheduledRequest) (o : ScheduledOutput).

(** ** Polling transfers only takes requests out *)

Lemma reconcile_queues s pending res s' :
  reconcile_loop sha256 s pending = Some (res, s') →
  waiting_queue s' = waiting_queue s ∧ decode_queue s' `sublist_of` decode_queue s.
Proof.
  revert s. induction pending as [|r pending IH]; intros s; cbn [reconcile_loop].
  { by intros [= <- <-]. }
  destruct (decode_request_state (worker s) r) as [[| |m]|e]; [| | |by intros [= <- <-]].
  - intros (s1&Hp%publish_queues&Hl%IH)%bind_Some. destruct Hp as [<- <-]. done.
  - intros Hl%IH. done.
  - intros (s1&Hrel&Hl%IH)%bind_Some. destruct Hl as [-> Hsub].
    revert Hrel. unfold release_failed_pending_prefix_cache.
    destruct (finish_request (worker s) r) as [[[]|e] w]; [|intros [= <-]; done].
    unfold release_unpublished_cache_pages. intros (s2&Hs2&Hs1)%bind_Some.
    assert (waiting_queue s2 = waiting_queue s ∧ decode_queue s2 = decode_queue s) as [Hw2 Hd2].
    { revert Hs2. unfold allocator_release. cbn [cache_page_allocator set_worker].
      destruct (cache_page_allocator s); [intros (a'&_&[= <-])%bind_Some|intros [= <-]]; done. }
    pose proof (remove_request_spec (decode_queue s2) (request_id r)) as Hrem.
    destruct (remove_request_from_queue (decode_queue s2) (request_id r)) as [[r' q']|]; injection Hs1 as <-; cbn in Hsub |- *.
    + split; [congruence|]. destruct Hrem as (_&_&Hsubl). rewrite <-Hd2. by etrans.
    + split; [congruence|]. by rewrite <-Hd2.
Qed.

Lemma poll_queues s res s' :
  Scheduler_poll_transfers sha256 s = Some (res, s') →
  waiting_queue s' = waiting_queue s ∧ decode_queue s' `sublist_of` decode_queue s.
Proof.
  unfold Scheduler_poll_transfers. destruct (poll_transfers (worker s)) as [polled w].
  intros ([res1 s1]&Hr&[= <- <-])%bind_Some. apply reconcile_queues in Hr. exact Hr.
Qed.

(** ** Aborting the only request *)

Lemma abort_quietly_spec s rid :
  scheduler_wf s → queued_ids s ⊆+ [rid] →
  ∃ s', abort_quietly s rid = Some s' ∧ scheduler_wf s' ∧ (¬ finish_fails (W := W) → queued_ids s' = []).
Proof.
  intros Wf Hsub. unfold abort_quietly. destruct (abort_request_spec s rid Wf) as (b&s'&->&Wf'&Hb). exists s'.
  split; [done|]. split; [done|]. intros Hok. destruct b.
  - rewrite Hb in Hsub. apply submseteq_length in Hsub. cbn in Hsub.
    destruct (queued_ids s'); [done|]. cbn in Hsub. lia.
  - destruct Hb as [Hperm [Hnot|]]; [|done].
    destruct (queued_ids s) as [|i l] eqn:Hq; [by apply Permutation_nil_l in Hperm|].
    exfalso. apply Hnot. assert (i ∈ [rid]) as ->%list_elem_of_singleton by (eapply elem_of_submseteq; [|done]; left). left.
Qed.

(** ** What the sink sees *)

(** [closed] is set when the stream ended at an output that is finished or that
    the sink refused; nothing follows it. *)
Inductive streamed {C} (sink : C → ScheduledOutput → bool * C) : C → list ScheduledOutput → C → bool → Prop :=
  | streamed_none c : streamed sink c [] c false
  | streamed_more c o c1 os c' closed :
      sink c o = (true, c1) → finished o = false → streamed sink c1 os c' closed → streamed sink c (o :: os) c' closed
  | streamed_finished c o c1 : sink c o = (true, c1) → finished o = true → streamed sink c [o] c1 true
  | streamed_refused c o c1 : sink c o = (false, c1) → streamed sink c [o] c1 true.

(** What is left queued at the end. *)
Definition settled (rid : RequestId) (res : Result RuntimeError unit) s : Prop :=
  match res with
  | Err error => if is_decode_not_ready error then queued_ids s = [rid]
                 else ¬ finish_fails (W := W) → queued_ids s = []
  | Ok _ => ¬ finish_fails (W := W) → queued_ids s = []
  end.

(** ** One more output *)

(** The scheduler holds at most the one request [q], in the decode queue. *)
Definition holds_only q s : Prop := scheduler_wf s ∧ waiting_queue s = [] ∧ decode_queue s `sublist_of` [q].

Lemma holds_queued q s : holds_only q s → queued_ids s ⊆+ [request_id q].
Proof.
  intros (_&Hw&Hd). unfold queued_ids. rewrite Hw. cbn.
  change [request_id q] with (request_ids [q]). apply fmap_submseteq. by apply sublist_submseteq.
Qed.

(** An answer to [q], or an error that leaves no other request. *)
Definition next_post q (res : Result RuntimeError ScheduledOutput) s : Prop :=
  scheduler_wf s ∧ queued_ids s ⊆+ [request_id q] ∧
  match res with
  | Ok o => answers [q] [o] (decode_queue s) ∧ waiting_queue s = [] ∧ speaking (W := W) [o]
  | Err error => is_decode_not_ready error = true → queued_ids s = [request_id q]
  end.

Lemma sublist_single {A} (l : list A) x : l `sublist_of` [x] → l = [] ∨ l = [x].
Proof.
  intros Hs. inversion Hs as [|? ? ? H|? ? ? H]; subst; apply sublist_nil_r in H as ->; [by right|by left].
Qed.

Lemma decode_one q s :
  holds_only q s → ∃ res s', dispatch_decode_batch sha256 s 1 = Some (res, s') ∧
    match res with
    | Ok outputs => ∃ o, outputs = [o] ∧ next_post q (Ok o) s'
    | Err error => next_post q (Err (SchedulerFailure error)) s' ∧ ∀ rid, error = DecodeNotReady rid → s' = s
    end.
Proof.
  intros Hs. pose proof (holds_queued _ _ Hs) as Hsub. destruct Hs as (Wf&Hw&Hd).
  destruct (dispatch_decode_spec sha256 s 1 Wf) as (res&s'&Heq&Wf'). exists res, s'. split; [done|].
  assert (queued_ids s' ⊆+ [request_id q]) as Hsub' by (transitivity (queued_ids s); [exact (dispatch_decode_queued sha256 s 1 res s' Wf Heq)|done]).
  destruct res as [outputs|error].
  - apply dispatch_decode_round in Heq as (taken&rest&again&Hq&Ha&Hne&Hd'&Hw'&Hsp).
    assert (taken = [q] ∧ rest = []) as [-> ->].
    { destruct taken as [|t taken]; [by inversion Ha; subst|].
      destruct (sublist_single _ _ Hd) as [Hnil|Hone]; rewrite Hq in *; [done|]. injection Hone as -> Hr.
      by apply app_nil in Hr as [-> ->]. }
    pose proof (answers_length _ _ _ Ha) as Hlen. destruct outputs as [|o [|? ?]]; cbn in Hlen; [done| |lia].
    exists o. split; [done|]. split; [done|]. split; [done|]. cbn in Hd'. rewrite Hd'. split; [done|]. split; [congruence|done].
  - split.
    + split; [done|]. split; [done|]. destruct error as [| |rid| |]; try done. intros _.
      apply dispatch_decode_not_ready in Heq as (->&q'&l&Hq&_). unfold queued_ids. rewrite Hw, Hq in *. cbn.
      apply sublist_single in Hd as [|[= -> ->]]; done.
    + intros rid ->. by apply dispatch_decode_not_ready in Heq as [-> _].
Qed.

Lemma next_decode_output_spec q s :
  holds_only q s → ∃ res x s', next_decode_output sha256 tt s = Some (res, x, s') ∧ next_post q res s'.
Proof.
  intros Hs. unfold next_decode_output. destruct (decode_one q s Hs) as (res&s'&->&H). cbn [mbind option_bind].
  eexists _, _, _. split; [done|]. destruct res as [outputs|error]; [by destruct H as (o&->&H)|by destruct H].
Qed.

Lemma decode_polling_spec q polls : ∀ s,
  holds_only q s → ∃ res polls' s', dispatch_decode_polling sha256 1 polls s = Some (res, polls', s') ∧
    match res with
    | Ok outputs => ∃ o, outputs = [o] ∧ next_post q (Ok o) s'
    | Err error => next_post q (Err error) s'
    end.
Proof.
  induction polls as [|polls IH]; intros s Hs; cbn [dispatch_decode_polling];
    destruct (decode_one q s Hs) as (res&s1&->&H); cbn [mbind option_bind].
  - destruct res as [outputs|error]; [by eexists _, _, _|]. destruct H as [Hpost _]. by destruct error; eexists _, _, _.
  - destruct res as [outputs|error]; [by eexists _, _, _|]. destruct H as [Hpost Hsame].
    destruct error as [| |rid| |]; try (by eexists _, _, _).
    rewrite (Hsame rid eq_refl). destruct Hs as (Wf&Hw&Hd).
    unfold engine_poll_transfers. destruct (poll_transfers_spec sha256 s Wf) as (polled&s2&Hpoll&Wf2).
    pose proof (poll_queues _ _ _ Hpoll) as [Hw2 Hd2]. rewrite Hpoll. cbn [mbind option_bind].
    assert (holds_only q s2) as Hs2 by (split; [done|]; split; [congruence|by etrans]).
    destruct polled as [sum|e]; cbn [result_map_err]; [by apply IH|].
    eexists _, _, _. split; [done|]. split; [done|]. split; [by apply holds_queued|done].
Qed.

Lemma next_polling_spec q polls s :
  holds_only q s → ∃ res polls' s', next_decode_output_with_transfer_polling sha256 polls s = Some (res, polls', s') ∧
    next_post q res s'.
Proof.
  intros Hs. unfold next_decode_output_with_transfer_polling.
  destruct (decode_polling_spec q polls s Hs) as (res&polls'&s'&->&H). cbn [mbind option_bind].
  eexists _, _, _. split; [done|]. destruct res as [outputs|error]; [by destruct H as (o&->&H)|done].
Qed.

Lemma next_polling_none s :
  next_decode_output_with_transfer_polling sha256 0 s =
  '(res, _, s') ← next_decode_output sha256 () s; Some (res, 0%nat, s').
Proof.
  unfold next_decode_output, next_decode_output_with_transfer_polling. cbn [dispatch_decode_polling].
  destruct (dispatch_decode_batch sha256 s 1) as [[[os|e] s2]|]; cbn [mbind option_bind]; [| |done].
  - cbn [result_bind]. by destruct (last os).
  - by destruct e.
Qed.

(** ** The loop *)

Definition remaining_tokens q : N := max_new_tokens (sampling q) - len (output_ids q).

Lemma continues_remaining q o q' : continues q o q' → out_token_ids o ≠ [] → remaining_tokens q' < remaining_tokens q.
Proof.
  intros [] Hne. unfold remaining_tokens in *. rewrite continues_sampling, continues_tokens, len_app in *.
  destruct (out_token_ids o); [done|]. rewrite len_cons in *. lia.
Qed.

Lemma answers_one q o again :
  answers [q] [o] again → out_request_id o = request_id q ∧
  (finished o = true ∧ again = [] ∨ ∃ q', again = [q'] ∧ continues q o q').
Proof.
  inversion 1 as [|??? ? ? ? Hc Hn|????? Hid Hf Hn]; subst; inversion Hn; subst.
  - split; [by destruct Hc|]. right. by eexists.
  - split; [done|]. by left.
Qed.

Section Loop.
Context {C X : Type}.
Context (next : X → Scheduler W P → option (Result RuntimeError ScheduledOutput * X * Scheduler W P)).
Context (next_ok : ∀ q x s, holds_only q s → ∃ res x' s', next x s = Some (res, x', s') ∧ next_post q res s').
Context (generates : worker_generates (W := W)).

Lemma stream_loop_spec (sink : C → ScheduledOutput → bool * C) fuel : ∀ q s c x o,
  next_post q (Ok o) s → remaining_tokens q < N.of_nat fuel ∨ decode_queue s = [] ∧ 0 < N.of_nat fuel →
  ∃ res c' s' os, stream_loop next fuel (request_id q) sink s c x o = Some (res, c', s') ∧
    streamed sink c (o :: os) c' (is_Ok res) ∧ Forall (λ o, out_request_id o = request_id q) (o :: os) ∧
    scheduler_wf s' ∧ settled (request_id q) res s' ∧ len (o :: os) ≤ N.max 1 (remaining_tokens q).
Proof.
  induction fuel as [|fuel IH]; intros q s c x o (Wf&Hsub&Ha&Hw&Hsp) Hfuel; [lia|]. cbn [stream_loop].
  apply answers_one in Ha as [Hid Hcase]. destruct (sink c o) as [go c1] eqn:Hsink. destruct go; cbn [negb].
  2: { destruct (abort_quietly_spec s (request_id q) Wf Hsub) as (s'&->&Wf'&Hs'). cbn [mbind option_bind].
       exists (Ok ()), c1, s', []. split; [done|]. split; [by apply streamed_refused|]. split; [by constructor|].
       split; [done|]. split; [done|]. rewrite len_cons, len_nil. lia. }
  destruct Hcase as [[Hfin Hd]|(q'&Hd&Hc)].
  { rewrite Hfin. exists (Ok ()), c1, s, []. split; [done|]. split; [by apply streamed_finished|]. split; [by constructor|].
    split; [done|]. split; [|rewrite len_cons, len_nil; lia]. intros _. unfold queued_ids. by rewrite Hw, Hd. }
  rewrite (continues_open _ _ _ Hc). pose proof (continues_id _ _ _ Hc) as Hid'.
  assert (out_token_ids o ≠ []) as Hne by (specialize (Hsp generates); by inversion Hsp).
  pose proof (continues_remaining _ _ _ Hc Hne) as Hrem.
  destruct (next_ok q' x s) as (res&x'&s1&->&Hpost); [by split; [|rewrite Hd]|]. cbn [mbind option_bind].
  destruct res as [o'|error].
  - destruct (IH q' s1 c1 x' o') as (res&c'&s'&os&Heq&Hst&Hids&Wf'&Hset&Hlen); [done| |].
    { destruct Hfuel as [|[]]; [left; lia|congruence]. }
    rewrite Hid' in Heq, Hset. rewrite Heq. exists res, c', s', (o' :: os). split; [done|].
    split; [by eapply streamed_more; [| |]; [done|by eapply continues_open|done]|].
    split; [constructor; [done|]; by rewrite <-Hid'|]. split; [done|]. split; [done|].
    rewrite len_cons. destruct (continues_below _ _ _ Hc). unfold remaining_tokens in *. rewrite (continues_sampling _ _ _ Hc) in *.
    pose proof (continues_below _ _ _ Hc). lia.
  - destruct Hpost as (Wf1&Hsub1&Hready). rewrite Hid' in Hsub1, Hready.
    assert (streamed sink c [o] c1 false) as Hst by (eapply streamed_more; [done|by eapply continues_open|apply streamed_none]).
    destruct (is_decode_not_ready error) eqn:Hnr; cbn [negb].
    + cbn [mbind option_bind]. exists (Err error), c1, s1, []. split; [done|]. split; [done|]. split; [by constructor|].
      split; [done|]. split; [cbn; rewrite Hnr; by apply Hready|rewrite len_cons, len_nil; lia].
    + destruct (abort_quietly_spec s1 (request_id q) Wf1 Hsub1) as (s'&->&Wf'&Hs'). cbn [mbind option_bind].
      exists (Err error), c1, s', []. split; [done|]. split; [done|]. split; [by constructor|].
      split; [done|]. split; [cbn; by rewrite Hnr|rewrite len_cons, len_nil; lia].
Qed.

End Loop.

(** ** The first output *)

Lemma prefill_one r s res s' :
  scheduler_wf s → waiting_queue s = [r] → decode_queue s = [] →
  dispatch_prefill_batch sha256 s 1 = Some (res, s') →
  queued_ids s' ⊆+ [request_id r] ∧
  match res with
  | Ok [] => ∃ r', waiting_queue s' = [r'] ∧ decode_queue s' = [] ∧ same_generation r r'
  | Ok outputs => ∃ o, outputs = [o] ∧ answers [r] [o] (decode_queue s') ∧ waiting_queue s' = [] ∧ speaking (W := W) [o]
  | Err _ => True
  end.
Proof.
  intros Wf Hw Hd Hdis. split.
  { transitivity (queued_ids s); [exact (dispatch_prefill_queued sha256 s 1 _ _ _ Wf Hdis)|].
    unfold queued_ids. by rewrite Hw, Hd. }
  destruct res as [outputs|]; [|done].
  apply dispatch_prefill_round in Hdis as (taken&rest&again&chunks&left&Hq&Hne&Hlen&Hans&Hgo&Hd'&Hw'&Hids&Hsp); [|done].
  rewrite Hw in Hq. destruct taken as [|t taken]; [done|]. injection Hq as <- Hq. symmetry in Hq. apply app_nil in Hq as [-> ->].
  assert (left = []) as -> by (destruct left; [done|discriminate Hids]). rewrite app_nil_r in Hw'. rewrite Hd in Hd'. cbn in Hlen, Hd'.
  destruct outputs as [|o outputs].
  - destruct (Hgo eq_refl) as [-> Hall]. inversion Hall as [|? r' ? ? Hg Hnil]; subst. inversion Hnil; subst.
    by exists r'.
  - destruct outputs; [|cbn in Hlen; lia]. destruct chunks; [|cbn in Hlen; lia].
    exists o. rewrite Hd'. split; [done|]. split; [by apply Hans|]. done.
Qed.

Lemma dispatch_next_one fuel : ∀ r s res s',
  scheduler_wf s → waiting_queue s = [r] → decode_queue s = [] → dispatch_next sha256 fuel s = Some (res, s') →
  queued_ids s' ⊆+ [request_id r] ∧
  match res with
  | Ok o => answers [r] [o] (decode_queue s') ∧ waiting_queue s' = [] ∧ speaking (W := W) [o]
  | Err e => ∀ rid, e ≠ DecodeNotReady rid
  end.
Proof.
  induction fuel as [|fuel IH]; intros r s res s' Wf Hw Hd; cbn [dispatch_next]; [done|].
  destruct (dispatch_prefill_one sha256 s Wf) as (res1&s1&Heq&Wf1&_). rewrite Heq. cbn [mbind option_bind].
  destruct (prefill_one r s res1 s1 Wf Hw Hd Heq) as [Hsub Hres].
  destruct res1 as [[|o outputs]|e]; [| |intros [= <- <-]; split; [done|]; intros rid ->; by eapply dispatch_prefill_never_not_ready].
  - destruct Hres as (r'&Hw1&Hd1&Hg). rewrite Hw1, Hd1. cbn [last is_nil andb]. intros Hnext.
    destruct (IH r' s1 res s' Wf1 Hw1 Hd1 Hnext) as [Hsub' Hres']. rewrite (gen_id _ _ Hg) in Hsub'. split; [done|].
    destruct res; [|done]. destruct Hres' as (Ha&?). split; [|done]. eapply answers_from; [|done]. by repeat constructor.
  - destruct Hres as (o'&[= -> ->]&Ha&Hw1&Hsp). cbn [last]. by intros [= <- <-].
Qed.

Lemma start_stream_spec {C X} (next : X → Scheduler W P → option (Result RuntimeError ScheduledOutput * X * Scheduler W P))
    fuel s r (sink : C → ScheduledOutput → bool * C) c x :
  (∀ q x s, holds_only q s → ∃ res x' s', next x s = Some (res, x', s') ∧ next_post q res s') →
  worker_generates (W := W) → scheduler_wf s → waiting_queue s = [] → decode_queue s = [] → waiting_wf r →
  len (input_ids r) + max_new_tokens (sampling r) + 1 < N.of_nat fuel →
  ∃ res c' s' os, start_stream sha256 next fuel s r sink c x = Some (res, c', s') ∧
    streamed sink c os c' (is_Ok res) ∧ Forall (λ o, out_request_id o = request_id r) os ∧
    scheduler_wf s' ∧ settled (request_id r) res s' ∧ len os ≤ N.max 1 (remaining_tokens r).
Proof.
  intros Hnext Hgen Wf Hw Hd Wr Hfuel. unfold start_stream.
  assert (waiting_queue (enqueue s r) = [r]) as Hw1 by (cbn; by rewrite Hw).
  assert (scheduler_wf (enqueue s r)) as Wf1 by (by apply enqueue_wf).
  destruct (dispatch_next_total sha256 fuel (enqueue s r) Wf1) as (res&s1&Heq&Wf2).
  { unfold front_remaining. rewrite Hw1. cbn. unfold remaining_prompt_tokens, saturating_sub. lia. }
  destruct (dispatch_next_one fuel r _ _ _ Wf1 Hw1 Hd Heq) as [Hsub Hres]. rewrite Heq. cbn [mbind option_bind].
  destruct res as [o|e].
  - destruct (stream_loop_spec next Hnext Hgen sink fuel r s1 c x o) as (res&c'&s'&os&->&Hst&Hids&Wf'&Hset&Hlen).
    + split; [done|]. by split.
    + left. unfold remaining_tokens. lia.
    + by exists res, c', s', (o :: os).
  - destruct (abort_quietly_spec s1 (request_id r) Wf2 Hsub) as (s'&->&Wf'&Hs'). cbn [mbind option_bind].
    exists (Err (SchedulerFailure e)), c, s', []. split; [done|]. split; [constructor|]. split; [done|]. split; [done|].
    split; [|rewrite len_nil; lia]. cbn. destruct e as [| |rid| |]; try done. by destruct (Hres rid).
Qed.

(** ** Batches *)

(** The indices the decode queue stands for, in order. *)
Definition stands_for (ids : list RequestId) (i : N) (q : ScheduledRequest) : Prop := ids !! N.to_nat i = Some (request_id q).

(** Each group holds outputs of its own request; those in [open] go on, the
    others end with their finished output. *)
Definition group_ok (rid : RequestId) (goes_on : Prop) (g : list ScheduledOutput) : Prop :=
  Forall (λ o, out_request_id o = rid) g ∧
  (goes_on → Forall (λ o, finished o = false) g) ∧
  (¬ goes_on → ∃ g0 o, g = g0 ++ [o] ∧ Forall (λ o, finished o = false) g0 ∧ finished o = true).

Definition grouped_ok (ids : list RequestId) (open : list N) (grouped : list (list ScheduledOutput)) : Prop :=
  length grouped = length ids ∧
  ∀ i rid g, ids !! i = Some rid → grouped !! i = Some g → group_ok rid (N.of_nat i ∈ open) g.

Lemma grouped_ok_perm ids open open' grouped :
  (∀ i, i ∈ open ↔ i ∈ open') → grouped_ok ids open grouped → grouped_ok ids open' grouped.
Proof.
  intros Heq [Hlen Hall]. split; [done|]. intros i rid g Hi Hg. destruct (Hall i rid g Hi Hg) as (H1&H2&H3).
  split; [done|]. rewrite <-Heq. done.
Qed.

#[local] Instance grouped_ok_proper ids : Proper (Permutation ==> eq ==> iff) (grouped_ok ids).
Proof. intros open open' Hp ? grouped ->. split; apply grouped_ok_perm; intros i; by rewrite Hp. Qed.

Lemma grouped_ok_push ids open open' grouped i q o :
  stands_for ids i q → out_request_id o = request_id q → i ∈ open → grouped_ok ids open grouped →
  (∀ j, j ≠ i → j ∈ open ↔ j ∈ open') → (i ∈ open' ↔ finished o = false) →
  ∃ g, grouped !! N.to_nat i = Some g ∧ grouped_ok ids open' (<[N.to_nat i := g ++ [o]]> grouped).
Proof.
  intros Hi Hid Hopen [Hlen Hall] Hothers Hself. unfold stands_for in Hi.
  destruct (lookup_lt_is_Some_2 grouped (N.to_nat i)) as [g Hg]; [rewrite Hlen; by eapply lookup_lt_Some|].
  exists g. split; [done|]. split; [by rewrite length_insert|]. intros j rid g' Hj Hg'.
  destruct (decide (j = N.to_nat i)) as [->|Hne].
  - rewrite list_lookup_insert_eq in Hg' by (by eapply lookup_lt_Some). injection Hg' as <-.
    destruct (Hall _ _ _ Hi Hg) as (H1&H2&_). rewrite N2Nat.id in *. rewrite Hi in Hj. injection Hj as <-.
    specialize (H2 Hopen). split; [apply Forall_app; split; [done|by constructor]|]. split.
    + intros Ho%Hself. apply Forall_app. split; [done|by constructor].
    + intros Ho. exists g, o. split; [done|]. split; [done|]. destruct (finished o); [done|]. by destruct Ho; apply Hself.
  - rewrite list_lookup_insert_ne in Hg' by done. destruct (Hall _ _ _ Hj Hg') as (H1&H2&H3). split; [done|].
    assert (N.of_nat j ≠ i) as Hji by lia. rewrite <-(Hothers _ Hji). done.
Qed.

Lemma push_outputs_spec ids qs os again : answers qs os again →
  ∀ act others grouped requeued, Forall2 (stands_for ids) act qs → NoDup (act ++ others) → grouped_ok ids (act ++ others) grouped →
  ∃ grouped' more, push_outputs grouped (zip act os) requeued = Some (grouped', requeued ++ more) ∧
    Forall2 (stands_for ids) more again ∧ NoDup (more ++ others) ∧ grouped_ok ids (more ++ others) grouped'.
Proof.
  induction 1 as [|r o r' rs os rs' Hc Ha IH|r o rs os rs' Hid Hf Ha IH]; intros act others grouped requeued Hst Hnd Hok;
    inversion Hst as [|i ? act' ? Hi Hst']; subst; cbn [zip zip_with push_outputs].
  { exists grouped, []. rewrite app_nil_r. done. }
  - rewrite (continues_open _ _ _ Hc). cbn [app] in *.
    destruct (grouped_ok_push ids (i :: act' ++ others) (i :: act' ++ others) grouped i r o) as (g&Hg&Hok1); try done.
    { by destruct Hc. } { by left. } { split; [intros _; by destruct Hc|by left]. }
    rewrite Hg. cbn [mbind option_bind].
    destruct (IH act' (i :: others) (<[N.to_nat i:=g ++ [o]]> grouped) (requeued ++ [i]) Hst') as (grouped'&more&Heq&Hmore&Hnd'&Hok').
    { rewrite <-Permutation_middle. done. }
    { by rewrite <-Permutation_middle. }
    exists grouped', (i :: more). rewrite Heq, <-app_assoc. split; [done|]. split.
    { constructor; [|done]. unfold stands_for. rewrite (continues_id _ _ _ Hc). done. }
    cbn [app]. by rewrite Permutation_middle.
  - rewrite Hf. cbn [app] in *. apply NoDup_cons in Hnd as [Hnot Hnd].
    destruct (grouped_ok_push ids (i :: act' ++ others) (act' ++ others) grouped i r o) as (g&Hg&Hok1); try done.
    { by left. } { intros j Hj. rewrite elem_of_cons. naive_solver. } { split; [done|congruence]. }
    rewrite Hg. cbn [mbind option_bind]. by apply IH.
Qed.

Lemma record_outputs_spec ids qs os again act rest_act rest grouped :
  answers qs os again → Forall2 (stands_for ids) act qs → Forall2 (stands_for ids) rest_act rest →
  NoDup (act ++ rest_act) → grouped_ok ids (act ++ rest_act) grouped →
  ∃ grouped' act', record_batch_outputs grouped (act ++ rest_act) os = Some (grouped', act') ∧
    Forall2 (stands_for ids) act' (rest ++ again) ∧ NoDup act' ∧ grouped_ok ids act' grouped'.
Proof.
  intros Ha Hact Hrest Hnd Hok. pose proof (answers_length _ _ _ Ha) as Hlen. pose proof (Forall2_length _ _ _ Hact) as Hlen'.
  unfold record_batch_outputs, slice_from, len. rewrite Nat2N.id.
  rewrite drop_app_length' by lia.
  assert (zip (act ++ rest_act) os = zip act os) as ->.
  { rewrite <-(app_nil_r os) at 1. rewrite zip_with_app by lia. by rewrite zip_with_nil_r, app_nil_r. }
  destruct (push_outputs_spec ids qs os again Ha act rest_act grouped [] Hact Hnd Hok) as (grouped'&more&->&Hmore&Hnd'&Hok').
  cbn [mbind option_bind app]. eexists _, _. split; [done|]. split; [by apply Forall2_app|].
  by rewrite (Permutation_app_comm rest_act more).
Qed.

Definition budget (qs : list ScheduledRequest) : N := foldr N.add 0 (remaining_tokens <$> qs).

Lemma budget_app l k : budget (l ++ k) = budget l + budget k.
Proof. unfold budget. rewrite fmap_app. induction (remaining_tokens <$> l); cbn; lia. Qed.

Lemma answers_budget qs os again : answers qs os again →
  budget again ≤ budget qs ∧ Forall (λ q, 0 < remaining_tokens q) again ∧
  (Forall (λ o, out_token_ids o ≠ []) os → Forall (λ q, 0 < remaining_tokens q) qs → budget again + len qs ≤ budget qs).
Proof.
  induction 1 as [|r o r' rs os rs' Hc Ha (IH1&IH2&IH3)|r o rs os rs' Hid Hf Ha (IH1&IH2&IH3)].
  - done.
  - pose proof (continues_below _ _ _ Hc) as Hb. pose proof (continues_sampling _ _ _ Hc) as Hs.
    pose proof (continues_tokens _ _ _ Hc) as Ht. unfold budget in *. cbn [fmap list_fmap foldr].
    assert (remaining_tokens r' ≤ remaining_tokens r) by (unfold remaining_tokens; rewrite Hs, Ht, len_app; lia).
    split; [lia|]. split; [constructor; [unfold remaining_tokens; rewrite Hs; lia|done]|].
    intros Hos Hqs. inversion Hos as [|?? Hne Hos']; inversion Hqs as [|?? Hr Hqs']; subst. specialize (IH3 Hos' Hqs').
    pose proof (continues_remaining _ _ _ Hc Hne). rewrite len_cons. lia.
  - unfold budget in *. cbn [fmap list_fmap foldr]. split; [lia|]. split; [done|].
    intros Hos Hqs. inversion Hos; inversion Hqs; subst. rewrite len_cons. specialize (IH3 ltac:(done) ltac:(done)). lia.
Qed.

Lemma budget_max rs : budget rs ≤ foldr N.add 0 ((λ r, max_new_tokens (sampling r)) <$> rs).
Proof. unfold budget. induction rs as [|r rs IH]; cbn; [lia|]. unfold remaining_tokens at 1. lia. Qed.

Lemma stands_for_all rs : Forall2 (stands_for (request_ids rs)) (nrange 0 (len rs)) rs.
Proof.
  apply Forall2_same_length_lookup_2; [unfold nrange; rewrite length_fmap, length_seq; unfold len; lia|].
  intros i j r Hi Hr. assert (N.of_nat i < len rs - 0) by (apply lookup_lt_Some in Hr; unfold len; lia).
  rewrite lookup_nrange in Hi by done. injection Hi as <-. unfold stands_for, request_ids.
  rewrite list_lookup_fmap. replace (N.to_nat (0 + N.of_nat i)) with i by lia. by rewrite Hr.
Qed.

Lemma grouped_ok_start rs : grouped_ok (request_ids rs) (nrange 0 (len rs)) (replicate (length rs) []).
Proof.
  split; [unfold request_ids; by rewrite length_replicate, length_fmap|].
  intros i rid g Hi Hg. apply lookup_replicate in Hg as [-> Hi']. split; [done|]. split; [done|].
  intros []. apply elem_of_nrange. unfold len. lia.
Qed.

Lemma enqueue_all rs : ∀ s, scheduler_wf s → Forall waiting_wf rs →
  scheduler_wf (foldl enqueue s rs) ∧ waiting_queue (foldl enqueue s rs) = waiting_queue s ++ rs ∧
  decode_queue (foldl enqueue s rs) = decode_queue s.
Proof.
  induction rs as [|r rs IH]; intros s Wf Wrs; cbn [foldl]; [by rewrite app_nil_r|].
  inversion Wrs; subst. destruct (IH (enqueue s r)) as (?&Hw&?); [by apply enqueue_wf|done|].
  split; [done|]. split; [|done]. rewrite Hw. cbn. by rewrite <-app_assoc.
Qed.

(** A prefill of a whole batch that answers as many requests as there are. *)
Lemma prefill_answers_all rs s outputs s1 :
  scheduler_wf s → waiting_queue s = [] → decode_queue s = [] → Forall waiting_wf rs →
  dispatch_prefill_batch sha256 (foldl enqueue s rs) (len rs) = Some (Ok outputs, s1) → len outputs = len rs →
  scheduler_wf s1 ∧ answers rs outputs (decode_queue s1) ∧ waiting_queue s1 = [] ∧ queued_ids s1 ⊆+ request_ids rs.
Proof.
  intros Wf Hw Hd Wrs Hpre Hlen. destruct (enqueue_all rs s Wf Wrs) as (Wf0&Hw0&Hd0). rewrite Hw in Hw0. rewrite Hd in Hd0. cbn in Hw0.
  destruct (dispatch_prefill_spec sha256 (foldl enqueue s rs) (len rs) usize_MAX Wf0) as (res0&s0&Heq0&Wf1).
  unfold dispatch_prefill_batch in Hpre. rewrite Hpre in Heq0. injection Heq0 as <- <-.
  pose proof (dispatch_prefill_queued sha256 _ _ _ _ _ Wf0 Hpre) as Hsub.
  assert (queued_ids (foldl enqueue s rs) = request_ids rs) as Hq0 by (unfold queued_ids; rewrite Hw0, Hd0; apply app_nil_r).
  apply dispatch_prefill_round in Hpre as (taken&rest&again&chunks&left&Hq&_&Hlens&Hans&_&Hd1&Hw1&Hids&_); [|done].
  rewrite Hw0 in Hq. rewrite Hd0 in Hd1. cbn in Hd1. unfold len in Hlen.
  assert (length rs = length taken + length rest)%nat as Hsum by (rewrite Hq; apply length_app).
  destruct chunks; [|cbn in Hlens; lia]. destruct rest; [|cbn in Hsum; cbn in Hlens; lia]. rewrite app_nil_r in Hq. subst taken.
  destruct left; [|discriminate Hids]. rewrite Hd1, <-Hq0. split; [done|]. by split; [apply Hans|].
Qed.

Lemma batch_loop_spec (Hgen : worker_generates (W := W)) ids fuel : ∀ s grouped act,
  scheduler_wf s → waiting_queue s = [] → Forall2 (stands_for ids) act (decode_queue s) → NoDup act → grouped_ok ids act grouped →
  Forall (λ q, 0 < remaining_tokens q) (decode_queue s) → budget (decode_queue s) ≤ N.of_nat fuel →
  ∃ res s', batch_loop (decode_plain sha256) fuel s tt grouped act = Some (res, s') ∧ scheduler_wf s' ∧
    match res with
    | Ok grouped' => grouped_ok ids [] grouped' ∧ queued_ids s' = []
    | Err _ => queued_ids s' ⊆+ queued_ids s
    end.
Proof.
  induction fuel as [|fuel IH]; intros s grouped act Wf Hw Hact Hnd Hok Hrem Hfuel.
  all: destruct act as [|i act]; [apply Forall2_nil_inv_l in Hact; eexists _, _; split; [done|]; split; [done|]; split; [done|];
    unfold queued_ids; by rewrite Hw, Hact|].
  { exfalso. destruct (decode_queue s) as [|q qs]; [by inversion Hact|]. inversion Hrem; subst. unfold budget in Hfuel. cbn in Hfuel. lia. }
  cbn [batch_loop]. generalize (i :: act) (len (i :: act)) Hact Hnd Hok. clear i act Hact Hnd Hok.
  intros act n Hact Hnd Hok. destruct (dispatch_decode_spec sha256 s n Wf) as (res&s1&Heq&Wf1).
  assert (decode_plain sha256 n tt s = Some (result_map_err SchedulerFailure res, tt, s1)) as -> by (unfold decode_plain; by rewrite Heq).
  cbn [mbind option_bind].
  pose proof (dispatch_decode_queued sha256 s n res s1 Wf Heq) as Hsub. destruct res as [outputs|e]; cbn [result_map_err].
  2: { by eexists _, _. }
  apply dispatch_decode_round in Heq as (taken&rest&again&Hq&Ha&Hne&Hd1&Hw1&Hsp). specialize (Hsp Hgen).
  rewrite Hq in Hact, Hrem, Hfuel. apply Forall2_app_inv_r in Hact as (act1&act2&Hact1&Hact2&->).
  destruct (record_outputs_spec ids taken outputs again act1 act2 rest grouped) as (grouped'&act'&->&Hact'&Hnd'&Hok'); try done.
  cbn [mbind option_bind]. apply Forall_app in Hrem as [Hrem1 Hrem2]. destruct (answers_budget _ _ _ Ha) as (_&Hrem3&Hb).
  specialize (Hb Hsp Hrem1). rewrite budget_app in Hfuel.
  assert (0 < len taken) by (pose proof (answers_length _ _ _ Ha); destruct taken; [by destruct outputs|rewrite len_cons; lia]).
  destruct (IH s1 grouped' act') as (res&s'&->&Wf'&Hres); [done|congruence|by rewrite Hd1|done|done| | |].
  - rewrite Hd1. by apply Forall_app.
  - rewrite Hd1, budget_app. lia.
  - eexists _, _. split; [done|]. split; [done|]. destruct res; [done|]. by etrans.
Qed.

End EngineFacts.

(** ** Properties *)

Section Properties.
Context {W P : Type} `{!WorkerExecutor W} `{!KvStateEventPublisher P}.
Context (sha256 : list N → list N).

Implicit Types (s : Scheduler W P) (r q : ScheduledRequest) (o : ScheduledOutput).

(** C14. A stream over an idle scheduler ends, with any number of transfer polls and
    any sink.  The sink sees outputs of this request only, at most one per token
    allowed, and none after a finished or refused one; [Ok] means the stream got
    that far.  Afterwards the request is gone, unless the decode side was not
    ready, which leaves exactly this request queued. *)
Theorem stream_ends_correctly {C} fuel s r polls (sink : C → ScheduledOutput → bool * C) c :
  worker_generates (W := W) → scheduler_wf s → waiting_queue s = [] → decode_queue s = [] → waiting_wf r →
  len (input_ids r) + max_new_tokens (sampling r) + 1 < N.of_nat fuel →
  ∃ res c' s' os, generate_scheduled_stream_with_transfer_polling_sink sha256 fuel s r polls sink c = Some (res, c', s') ∧
    streamed sink c os c' (is_Ok res) ∧ Forall (λ o, out_request_id o = request_id r) os ∧
    len os ≤ N.max 1 (max_new_tokens (sampling r)) ∧ scheduler_wf s' ∧
    match res with
    | Err (SchedulerFailure (DecodeNotReady _)) => queued_ids s' = [request_id r]
    | _ => (∀ (w : W) r, ∃ w', finish_request w r = (Ok (), w')) → queued_ids s' = []
    end.
Proof.
  intros Hgen Wf Hw Hd Wr Hfuel.
  destruct (start_stream_spec sha256 (next_decode_output_with_transfer_polling sha256) fuel s r sink c polls)
    as (res&c'&s'&os&Heq&Hst&Hids&Wf'&Hset&Hlen); try done.
  { intros. by apply next_polling_spec. }
  exists res, c', s', os. do 3 (split; [done|]). split; [unfold remaining_tokens in Hlen; lia|]. split; [done|].
  assert ((∀ (w : W) r, ∃ w', finish_request w r = (Ok (), w')) → ¬ finish_fails (W := W)) as Hok.
  { intros Hall (w&r'&e&w'&Hfin). destruct (Hall w r') as [w2 Hw2]. congruence. }
  unfold settled in Hset. destruct res as [|[[]| | | |]]; eauto.
Qed.

(** Without polls the polling stream is the plain one, on every scheduler. *)
Theorem plain_stream_polls_nothing {C} fuel s r (sink : C → ScheduledOutput → bool * C) c :
  generate_scheduled_stream_with_sink sha256 fuel s r sink c =
  generate_scheduled_stream_with_transfer_polling_sink sha256 fuel s r 0 sink c.
Proof.
  unfold generate_scheduled_stream_with_sink, generate_scheduled_stream_with_transfer_polling_sink, start_stream.
  destruct (dispatch_next sha256 fuel (enqueue s r)) as [[[o|e] s1]|]; cbn [mbind option_bind]; [|done..].
  revert s1 c o. induction fuel as [|n IH]; intros s1 c o; cbn [stream_loop]; [done|]. destruct (sink c o) as [[] c1]; cbn [negb]; [|done].
  destruct (finished o); [done|]. rewrite next_polling_none.
  destruct (next_decode_output sha256 () s1) as [[[[o'|e] []] s2]|]; cbn [mbind option_bind]; [apply IH|done..].
Qed.

(** A batch over an idle scheduler whose prefill answers every request ends; on
    success each request's group holds its own outputs, unfinished ones followed
    by one finished output, and nothing stays queued. *)
Theorem batch_outputs_grouped fuel s rs outputs s1 :
  worker_generates (W := W) → scheduler_wf s → waiting_queue s = [] → decode_queue s = [] → Forall waiting_wf rs →
  dispatch_prefill_batch sha256 (foldl enqueue s rs) (len rs) = Some (Ok outputs, s1) → len outputs = len rs →
  foldr N.add 0 ((λ r, max_new_tokens (sampling r)) <$> rs) ≤ N.of_nat fuel →
  ∃ res s', generate_scheduled_batch_stream sha256 fuel s rs = Some (res, s') ∧ scheduler_wf s' ∧
    match res with
    | Ok grouped => queued_ids s' = [] ∧ length grouped = length rs ∧
        ∀ i r, rs !! i = Some r → ∃ g o, grouped !! i = Some (g ++ [o]) ∧
          Forall (λ o, out_request_id o = request_id r) (g ++ [o]) ∧
          Forall (λ o, finished o = false) g ∧ finished o = true
    | Err _ => queued_ids s' ⊆+ request_ids rs
    end.
Proof.
  intros Hgen Wf Hw Hd Wrs Hpre Hlen Hfuel.
  destruct (prefill_answers_all sha256 rs s outputs s1) as (Wf1&Hans&Hw1&Hsub); try done.
  unfold generate_scheduled_batch_stream, start_batch. destruct (len rs =? 0) eqn:Hz.
  { exists (Ok []), s. split; [done|]. split; [done|]. reflect_N. apply len_0 in Hz as ->.
    split; [unfold queued_ids; by rewrite Hw, Hd|done]. }
  rewrite Hpre. cbn [mbind option_bind].
  set (ids := request_ids rs).
  destruct (record_outputs_spec sha256 ids rs outputs (decode_queue s1) (nrange 0 (len rs)) [] [] (replicate (length rs) [])) as (grouped&act&Hrec&Hact'&Hnd&Hok);
    [done|apply stands_for_all|done|rewrite app_nil_r; apply NoDup_nrange|rewrite app_nil_r; apply grouped_ok_start|].
  rewrite app_nil_r in Hrec. rewrite Hrec. cbn [mbind option_bind]. cbn [app] in Hact'.
  destruct (answers_budget _ _ _ Hans) as (Hb&Hpos&_).
  destruct (batch_loop_spec sha256 Hgen ids fuel s1 grouped act) as (res&s'&->&Wf'&Hres); try done.
  { etrans; [exact Hb|]. etrans; [apply budget_max|exact Hfuel]. }
  eexists _, _. split; [done|]. split; [done|]. destruct res as [grouped'|e].
  - destruct Hres as [[Hl Hall] Hempty]. split; [done|]. unfold ids, request_ids in Hl. rewrite length_fmap in Hl. split; [done|].
    intros i r Hr. destruct (lookup_lt_is_Some_2 grouped' i) as [g Hg]; [rewrite Hl; by eapply lookup_lt_Some|].
    destruct (Hall i (request_id r) g) as (H1&_&H3); [unfold ids, request_ids; by rewrite list_lookup_fmap, Hr|done|].
    destruct H3 as (g0&o&->&H4&H5); [by apply not_elem_of_nil|]. by exists g0, o.
  - by rewrite Hres.
Qed.

End Properties.

(** ** Concrete runs *)

(** A worker that gives every request one more token and asks to wait for the
    requests it lists. *)
Record EchoWorker : Type := mkEchoWorker { echo_pending : list RequestId }.

#[export] Instance EchoWorker_executor : WorkerExecutor EchoWorker := {
  execute_batch w b := (Ok ((λ r, mkGeneratedToken [len (output_ids r)] false) <$> requests b), w);
  decode_request_state w r := Ok (if bool_decide (request_id r ∈ echo_pending w) then Pending else Ready);
  poll_transfers w := (Ok (mkKvTransferPollSummary 0 0 0 [] [] []), mkEchoWorker []);
  complete_request w _ := w;
  finish_request w _ := (Ok (), w);
  fail_request w _ := w;
  worker_shutdown w := (Ok (), w);
}.

Lemma echo_generates : worker_generates (W := EchoWorker).
Proof. intros w b ts w' [= <- <-]. apply Forall_fmap, Forall_true. done. Qed.

Definition echo_engine (limit : option N) (pending : list RequestId) : Scheduler EchoWorker RecordingKvStateEventPublisher :=
  mkScheduler [] [] RadixCache_default Enabled [] (Some example_allocator) limit None None (mkEchoWorker pending).

Lemma echo_engine_wf limit pending : scheduler_wf (echo_engine limit pending).
Proof. split; [intros ? [= <-]; apply example_allocator_wf|done..]. Qed.

Definition echo_request (id : RequestId) (n : N) : ScheduledRequest := ScheduledRequest_new id [1; 2] (SamplingParams_new n).

Lemma stream_ends_correctly_witness :
  ∃ res c' s' os, generate_scheduled_stream_with_transfer_polling_sink toy_sha256 10 (echo_engine None ["a"%string])
      (echo_request "a" 3) 1 push_sink [] = Some (res, c', s') ∧
    streamed push_sink [] os c' (is_Ok res) ∧ Forall (λ o, out_request_id o = "a"%string) os ∧
    len os ≤ N.max 1 3 ∧ scheduler_wf s' ∧
    match res with
    | Err (SchedulerFailure (DecodeNotReady _)) => queued_ids s' = ["a"%string]
    | _ => (∀ (w : EchoWorker) r, ∃ w', finish_request w r = (Ok (), w')) → queued_ids s' = []
    end.
Proof.
  apply (stream_ends_correctly toy_sha256 10 (echo_engine None ["a"%string]) (echo_request "a" 3) 1 push_sink []).
  - apply echo_generates.
  - apply echo_engine_wf.
  - done.
  - done.
  - apply new_request_wf.
  - by vm_compute.
Defined.

Lemma batch_outputs_grouped_witness :
  ∃ res s', generate_scheduled_batch_stream toy_sha256 9 (echo_engine None [])
      [echo_request "a" 3; echo_request "b" 1; echo_request "c" 2] = Some (res, s') ∧ scheduler_wf s' ∧
    match res with
    | Ok grouped => queued_ids s' = [] ∧ length grouped = 3%nat ∧
        ∀ i r, [echo_request "a" 3; echo_request "b" 1; echo_request "c" 2] !! i = Some r →
          ∃ g o, grouped !! i = Some (g ++ [o]) ∧
          Forall (λ o, out_request_id o = request_id r) (g ++ [o]) ∧
          Forall (λ o, finished o = false) g ∧ finished o = true
    | Err _ => queued_ids s' ⊆+ ["a"%string; "b"%string; "c"%string]
    end.
Proof.
  eapply (batch_outputs_grouped toy_sha256 9 (echo_engine None [])).
  - apply echo_generates.
  - apply echo_engine_wf.
  - done.
  - done.
  - repeat constructor; apply new_request_wf.
  - by vm_compute.
  - by vm_compute.
  - by vm_compute.
Defined.

(** With a running limit of one, a batch of two fails once its first request is
    done, and the second stays in the waiting queue: the next caller, who asks
    for "c", is handed the outputs of "b" and "c" stays behind. *)
Theorem batch_over_limit_answers_next_caller :
  match generate_scheduled_batch_stream toy_sha256 9 (echo_engine (Some 1) []) [echo_request "a" 2; echo_request "b" 1] with
  | Some (Err (SchedulerFailure EmptyQueue), s') =>
      queued_ids s' = ["b"%string] ∧
      match generate_scheduled_stream toy_sha256 9 s' (echo_request "c" 1) with
      | Some (Ok outputs, s2) => out_request_id <$> outputs = ["b"%string] ∧ queued_ids s2 = ["c"%string]
      | _ => False
      end
  | _ => False
  end.
Proof. by vm_compute. Qed.
