(* ===== verification/KvLayout.v ===== *)
(** * KV-cache memory layout ([crates/sglang-srt/src/kv_cache.rs])

    Byte addresses of the paged KV cache: pages, inside a page the layers,
    inside a layer the tensors, inside a tensor the tokens.  Every product and
    sum of the code is checked; the theorems show that a layout that was
    constructed never overflows on coordinates in range, that the ranges of
    different coordinates are disjoint and that together they tile the
    buffer. *)

From S2P Require Import Prelude.
From Stdlib Require Import Ascii.

(** ** Element types *)

(** [kv_cache.rs:7-14] KvCacheDtype *)
Inductive KvCacheDtype : Type := Auto | Float32 | Bfloat16 | Fp8E4M3 | Fp8E5M2 | Fp4E2M1.

#[export] Instance KvCacheDtype_eq_dec : EqDecision KvCacheDtype.
Proof. solve_decision. Defined.

Definition ascii_lower (c : ascii) : ascii :=
  let n := N_of_ascii c in if (65 <=? n) && (n <=? 90) then ascii_of_N (n + 32) else c.

(** [str::to_ascii_lowercase]. *)
Fixpoint to_ascii_lowercase (s : string) : string :=
  match s with
  | EmptyString => EmptyString
  | String c s' => String (ascii_lower c) (to_ascii_lowercase s')
  end.

(** [kv_cache.rs:17-26] KvCacheDtype::parse *)
Definition parse_dtype (value : string) : option KvCacheDtype :=
  let v := to_ascii_lowercase value in
  if (v =? "auto")%string then Some Auto
  else if (v =? "bf16")%string || (v =? "bfloat16")%string then Some Bfloat16
  else if (v =? "fp8_e4m3")%string then Some Fp8E4M3
  else if (v =? "fp8_e5m2")%string then Some Fp8E5M2
  else if (v =? "fp4_e2m1")%string then Some Fp4E2M1
  else None.

(** [kv_cache.rs:28-37] KvCacheDtype::as_str *)
Definition dtype_as_str (d : KvCacheDtype) : string :=
  match d with
  | Auto => "auto" | Float32 => "float32" | Bfloat16 => "bfloat16"
  | Fp8E4M3 => "fp8_e4m3" | Fp8E5M2 => "fp8_e5m2" | Fp4E2M1 => "fp4_e2m1"
  end.

(** [kv_cache.rs:39-46] KvCacheDtype::bytes_per_element *)
Definition bytes_per_element (d : KvCacheDtype) : option N :=
  match d with
  | Auto | Bfloat16 => Some 2
  | Float32 => Some 4
  | Fp8E4M3 | Fp8E5M2 => Some 1
  | Fp4E2M1 => None
  end.

(** [kv_cache.rs:48-53] KvCacheDtype::runtime_storage_dtype *)
Definition runtime_storage_dtype (d : KvCacheDtype) : KvCacheDtype :=
  match d with Auto => Bfloat16 | d => d end.

(** ** Model layout *)

(** [kv_cache.rs:78-86] KvCacheTensorGeometry *)
Inductive KvCacheTensorGeometry : Type :=
  | Uniform
  | Pair (key_elements value_elements : N)
  | PackedBytes.

(** [kv_cache.rs:68-76] KvCacheModelLayout *)
Record KvCacheModelLayout : Type := mkModelLayout {
  ml_num_layers : N;
  ml_kv_heads : N;
  ml_head_dim : N;
  ml_kv_tensors_per_token : N;
  ml_bytes_per_token_per_layer : option N;
  ml_tensor_geometry : KvCacheTensorGeometry;
}.

(** [kv_cache.rs:227-233] KvCacheLayoutError *)
Inductive KvCacheLayoutError : Type :=
  | DtypeRequiresModelMetadata (d : KvCacheDtype)
  | InvalidPackedMlaNopeHeadDim (n : N)
  | ZeroTensorWidth
  | SizeOverflow.

(** [kv_cache.rs:89-103] KvCacheModelLayout::multi_tensor *)
Definition multi_tensor (num_layers kv_heads head_dim kv_tensors_per_token : N) : KvCacheModelLayout :=
  mkModelLayout num_layers kv_heads head_dim kv_tensors_per_token None Uniform.

(** [kv_cache.rs:105-132] KvCacheModelLayout::tensor_pair *)
Definition tensor_pair (num_layers key_heads key_head_dim value_heads value_head_dim : N)
    : Result KvCacheLayoutError KvCacheModelLayout :=
  let? key_elements := ok_or (checked_mul key_heads key_head_dim) SizeOverflow in
  let? value_elements := ok_or (checked_mul value_heads value_head_dim) SizeOverflow in
  if (key_elements =? 0) || (value_elements =? 0) then Err ZeroTensorWidth
  else Ok (mkModelLayout num_layers key_heads key_head_dim 2 None (Pair key_elements value_elements)).

(** [kv_cache.rs:134-143] KvCacheModelLayout::packed_bytes_per_layer *)
Definition packed_bytes_per_layer (num_layers bytes : N) : KvCacheModelLayout :=
  mkModelLayout num_layers 1 bytes 1 (Some bytes) PackedBytes.

(** [kv_cache.rs:145-158] KvCacheModelLayout::elements_per_token *)
Definition elements_per_token (l : KvCacheModelLayout) : option N :=
  elements_per_layer ←
    match ml_tensor_geometry l with
    | Uniform => x ← checked_mul (ml_kv_tensors_per_token l) (ml_kv_heads l); checked_mul x (ml_head_dim l)
    | Pair key_elements value_elements => checked_add key_elements value_elements
    | PackedBytes => None
    end;
  checked_mul (ml_num_layers l) elements_per_layer.

(** [kv_cache.rs:160-176] KvCacheModelLayout::token_size_bytes *)
Definition token_size_bytes (l : KvCacheModelLayout) (dtype : KvCacheDtype) : Result KvCacheLayoutError N :=
  match ml_bytes_per_token_per_layer l with
  | Some bytes => ok_or (checked_mul (ml_num_layers l) bytes) SizeOverflow
  | None =>
      let? elements := ok_or (elements_per_token l) SizeOverflow in
      let? width := ok_or (bytes_per_element dtype) (DtypeRequiresModelMetadata dtype) in
      ok_or (checked_mul elements width) SizeOverflow
  end.

(** [kv_cache.rs:178-199] KvCacheModelLayout::tensor_pair_size_bytes *)
Definition tensor_pair_size_bytes (l : KvCacheModelLayout) (dtype : KvCacheDtype)
    : Result KvCacheLayoutError (option (N * N)) :=
  match ml_tensor_geometry l with
  | Pair key_elements value_elements =>
      let? width := ok_or (bytes_per_element dtype) (DtypeRequiresModelMetadata dtype) in
      let? key_bytes := ok_or (checked_mul key_elements width) SizeOverflow in
      let? value_bytes := ok_or (checked_mul value_elements width) SizeOverflow in
      Ok (Some (key_bytes, value_bytes))
  | _ => Ok None
  end.

(** [kv_cache.rs:201-224] KvCacheModelLayout::packed_mla *)
Definition packed_mla (num_layers qk_nope_head_dim qk_rope_head_dim : N)
    : Result KvCacheLayoutError KvCacheModelLayout :=
  if negb (is_multiple_of qk_nope_head_dim 64) then Err (InvalidPackedMlaNopeHeadDim qk_nope_head_dim)
  else
    let? rope := ok_or (checked_mul qk_rope_head_dim 2) SizeOverflow in
    let? bytes := ok_or (v ← checked_add qk_nope_head_dim rope;
                         v ← checked_add v (qk_nope_head_dim / 64);
                         checked_add v 1) SizeOverflow in
    Ok (packed_bytes_per_layer num_layers bytes).

(** ** Paged layout *)

(** [kv_cache.rs:56-66] KvCacheRuntimeLayout *)
Record KvCacheRuntimeLayout : Type := mkRuntime {
  dtype : KvCacheDtype;
  rt_page_size : N;
  num_layers : N;
  kv_heads : N;
  head_dim : N;
  kv_tensors_per_token : N;
  bytes_per_token : N;
  page_size_bytes : N;
}.

(** [kv_cache.rs:255-313] PagedKvCacheLayoutError *)
Inductive PagedKvCacheLayoutError : Type :=
  | ZeroPageCount
  | ZeroLayoutField (field : string)
  | RuntimePageSizeMismatch (expected actual : N)
  | UnevenLayerLayout (bytes_per_token num_layers : N)
  | UnevenTensorLayout (bytes_per_token_per_layer kv_tensors_per_token : N)
  | PagedSizeOverflow
  | PageOutOfRange (page_index page_count : N)
  | LayerOutOfRange (layer_index layer_count : N)
  | TensorOutOfRange (tensor_index tensor_count : N)
  | TokenOutOfRange (token_index page_size : N)
  | SlotOutOfRange (slot_index slot_count : N)
  | EmptySlotMap
  | BatchSlotOutOfRange (batch_index slot_index slot_count : N)
  | KvPairRequiresTwoTensors (tensor_count : N)
  | TensorPairRequiresTwoTensors (tensor_count : N)
  | TensorPairSizeMismatch (bytes_per_token_per_layer key_token_bytes value_token_bytes : N)
  | UnevenKvPairCopy (key_token_bytes value_token_bytes : N).

(** [kv_cache.rs:414-421] KvPairCopyGeometry *)
Record KvPairCopyGeometry : Type := mkCopyGeometry {
  cg_page_size : N;
  page_stride_bytes : N;
  key_offset_bytes : N;
  value_offset_bytes : N;
  token_bytes : N;
}.

(** [kv_cache.rs:423-434] PagedKvTensorGeometry *)
Inductive PagedKvTensorGeometry : Type :=
  | PagedUniform (token_bytes page_bytes : N)
  | PagedPair (key_token_bytes value_token_bytes key_page_bytes : N).

(** [kv_cache.rs:436-445] PagedKvCacheLayout *)
Record PagedKvCacheLayout : Type := mkPaged {
  runtime : KvCacheRuntimeLayout;
  page_count : N;
  bytes_per_token_per_layer : N;
  bytes_per_layer_page : N;
  tensor_geometry : PagedKvTensorGeometry;
  total_byte_len : N;
  slot_count : N;
}.

Definition paged_mul (a b : N) : Result PagedKvCacheLayoutError N := ok_or (checked_mul a b) PagedSizeOverflow.
Definition paged_add (a b : N) : Result PagedKvCacheLayoutError N := ok_or (checked_add a b) PagedSizeOverflow.

(** The loop over [(field, value)] that rejects a zero. *)
(** [kv_cache.rs:538-550] PagedKvCacheLayout::validate_runtime (zero fields) *)
Fixpoint reject_zero_fields (fields : list (string * N)) : Result PagedKvCacheLayoutError unit :=
  match fields with
  | [] => Ok ()
  | (field, value) :: rest =>
      if value =? 0 then Err (ZeroLayoutField field) else reject_zero_fields rest
  end.

(** [kv_cache.rs:531-586] PagedKvCacheLayout::validate_runtime *)
Definition validate_runtime (rt : KvCacheRuntimeLayout) (page_count : N)
    : Result PagedKvCacheLayoutError (N * N * N * N) :=
  if page_count =? 0 then Err ZeroPageCount
  else
    let? _u := reject_zero_fields
      [("page_size", rt_page_size rt); ("num_layers", num_layers rt); ("kv_heads", kv_heads rt);
       ("head_dim", head_dim rt); ("kv_tensors_per_token", kv_tensors_per_token rt);
       ("bytes_per_token", bytes_per_token rt); ("page_size_bytes", page_size_bytes rt)]%string in
    let? expected := paged_mul (rt_page_size rt) (bytes_per_token rt) in
    if negb (page_size_bytes rt =? expected) then Err (RuntimePageSizeMismatch expected (page_size_bytes rt))
    else if negb (is_multiple_of (bytes_per_token rt) (num_layers rt)) then
      Err (UnevenLayerLayout (bytes_per_token rt) (num_layers rt))
    else
      let per_layer := bytes_per_token rt / num_layers rt in
      let? layer_page := paged_mul (rt_page_size rt) per_layer in
      let? total := paged_mul page_count (page_size_bytes rt) in
      let? slots := paged_mul page_count (rt_page_size rt) in
      Ok (per_layer, layer_page, total, slots).

(** [kv_cache.rs:448-478] PagedKvCacheLayout::new *)
Definition PagedKvCacheLayout_new (rt : KvCacheRuntimeLayout) (page_count : N)
    : Result PagedKvCacheLayoutError PagedKvCacheLayout :=
  let? '(per_layer, layer_page, total, slots) := validate_runtime rt page_count in
  if negb (is_multiple_of per_layer (kv_tensors_per_token rt)) then
    Err (UnevenTensorLayout per_layer (kv_tensors_per_token rt))
  else
    let token_bytes := per_layer / kv_tensors_per_token rt in
    let? page_bytes := paged_mul (rt_page_size rt) token_bytes in
    Ok (mkPaged rt page_count per_layer layer_page (PagedUniform token_bytes page_bytes) total slots).

(** [kv_cache.rs:480-529] PagedKvCacheLayout::new_with_tensor_pair *)
Definition new_with_tensor_pair (rt : KvCacheRuntimeLayout) (page_count key_token_bytes value_token_bytes : N)
    : Result PagedKvCacheLayoutError PagedKvCacheLayout :=
  let? '(per_layer, layer_page, total, slots) := validate_runtime rt page_count in
  if negb (kv_tensors_per_token rt =? 2) then Err (TensorPairRequiresTwoTensors (kv_tensors_per_token rt))
  else
    let? _u := reject_zero_fields
      [("key_token_bytes", key_token_bytes); ("value_token_bytes", value_token_bytes)]%string in
    let? pair_bytes := paged_add key_token_bytes value_token_bytes in
    if negb (pair_bytes =? per_layer) then
      Err (TensorPairSizeMismatch per_layer key_token_bytes value_token_bytes)
    else
      let? key_page_bytes := paged_mul (rt_page_size rt) key_token_bytes in
      Ok (mkPaged rt page_count per_layer layer_page
            (PagedPair key_token_bytes value_token_bytes key_page_bytes) total slots).

(** [kv_cache.rs:813-822] PagedKvCacheLayout::validate_page *)
Definition validate_page (l : PagedKvCacheLayout) (page_index : N) : Result PagedKvCacheLayoutError unit :=
  if page_count l <=? page_index then Err (PageOutOfRange page_index (page_count l)) else Ok ().

(** [kv_cache.rs:779-795] PagedKvCacheLayout::tensor_token_bytes *)
Definition tensor_token_bytes (l : PagedKvCacheLayout) (tensor_index : N) : Result PagedKvCacheLayoutError N :=
  match tensor_geometry l with
  | PagedUniform token_bytes _ => Ok token_bytes
  | PagedPair key value _ =>
      if tensor_index =? 0 then Ok key
      else if tensor_index =? 1 then Ok value
      else Err (TensorOutOfRange tensor_index (kv_tensors_per_token (runtime l)))
  end.

(** [kv_cache.rs:797-811] PagedKvCacheLayout::tensor_page_offset *)
Definition tensor_page_offset (l : PagedKvCacheLayout) (tensor_index : N) : Result PagedKvCacheLayoutError N :=
  match tensor_geometry l with
  | PagedUniform _ page_bytes => paged_mul tensor_index page_bytes
  | PagedPair _ _ key_page_bytes =>
      if tensor_index =? 0 then Ok 0
      else if tensor_index =? 1 then Ok key_page_bytes
      else Err (TensorOutOfRange tensor_index (kv_tensors_per_token (runtime l)))
  end.

(** [kv_cache.rs:608-613] PagedKvCacheLayout::bytes_per_token_per_tensor *)
Definition bytes_per_token_per_tensor (l : PagedKvCacheLayout) : option N :=
  match tensor_geometry l with PagedUniform token_bytes _ => Some token_bytes | PagedPair _ _ _ => None end.

(** [kv_cache.rs:632-637] PagedKvCacheLayout::bytes_per_tensor_page *)
Definition bytes_per_tensor_page (l : PagedKvCacheLayout) : option N :=
  match tensor_geometry l with PagedUniform _ page_bytes => Some page_bytes | PagedPair _ _ _ => None end.

(** [kv_cache.rs:615-626] PagedKvCacheLayout::tensor_token_size_bytes *)
Definition tensor_token_size_bytes (l : PagedKvCacheLayout) (tensor_index : N)
    : Result PagedKvCacheLayoutError N :=
  if kv_tensors_per_token (runtime l) <=? tensor_index then
    Err (TensorOutOfRange tensor_index (kv_tensors_per_token (runtime l)))
  else tensor_token_bytes l tensor_index.

(** [kv_cache.rs:639-651] PagedKvCacheLayout::page_byte_range *)
Definition page_byte_range (l : PagedKvCacheLayout) (page_index : N)
    : Result PagedKvCacheLayoutError (N * N) :=
  let? _u := validate_page l page_index in
  let? start := paged_mul page_index (page_size_bytes (runtime l)) in
  let? end_ := paged_add start (page_size_bytes (runtime l)) in
  Ok (start, end_).

(** [kv_cache.rs:653-700] PagedKvCacheLayout::tensor_token_byte_range *)
Definition tensor_token_byte_range (l : PagedKvCacheLayout)
    (page_index layer_index tensor_index token_index : N) : Result PagedKvCacheLayoutError (N * N) :=
  let rt := runtime l in
  let? _u := validate_page l page_index in
  if num_layers rt <=? layer_index then Err (LayerOutOfRange layer_index (num_layers rt))
  else if kv_tensors_per_token rt <=? tensor_index then
    Err (TensorOutOfRange tensor_index (kv_tensors_per_token rt))
  else if rt_page_size rt <=? token_index then Err (TokenOutOfRange token_index (rt_page_size rt))
  else
    let? page_offset := paged_mul page_index (page_size_bytes rt) in
    let? layer_offset := paged_mul layer_index (bytes_per_layer_page l) in
    let? tensor_offset := tensor_page_offset l tensor_index in
    let? bytes := tensor_token_bytes l tensor_index in
    let? token_offset := paged_mul token_index bytes in
    let? start := ok_or (x ← checked_add page_offset layer_offset;
                         x ← checked_add x tensor_offset;
                         checked_add x token_offset) PagedSizeOverflow in
    let? end_ := paged_add start bytes in
    Ok (start, end_).

(** [kv_cache.rs:702-720] PagedKvCacheLayout::tensor_slot_byte_range *)
Definition tensor_slot_byte_range (l : PagedKvCacheLayout) (layer_index tensor_index slot_index : N)
    : Result PagedKvCacheLayoutError (N * N) :=
  if slot_count l <=? slot_index then Err (SlotOutOfRange slot_index (slot_count l))
  else
    tensor_token_byte_range l (slot_index / rt_page_size (runtime l)) layer_index tensor_index
      (slot_index mod rt_page_size (runtime l)).

(** [kv_cache.rs:726-734] PagedKvCacheLayout::validate_slot_indices (loop) *)
Fixpoint validate_slots_from (l : PagedKvCacheLayout) (batch_index : N) (slots : list N)
    : Result PagedKvCacheLayoutError unit :=
  match slots with
  | [] => Ok ()
  | slot :: rest =>
      if slot_count l <=? slot then Err (BatchSlotOutOfRange batch_index slot (slot_count l))
      else validate_slots_from l (batch_index + 1) rest
  end.

(** [kv_cache.rs:722-736] PagedKvCacheLayout::validate_slot_indices *)
Definition validate_slot_indices (l : PagedKvCacheLayout) (slots : list N)
    : Result PagedKvCacheLayoutError unit :=
  match slots with [] => Err EmptySlotMap | _ => validate_slots_from l 0 slots end.

(** [kv_cache.rs:738-777] PagedKvCacheLayout::kv_pair_copy_geometry *)
Definition kv_pair_copy_geometry (l : PagedKvCacheLayout) (layer_index : N)
    : Result PagedKvCacheLayoutError KvPairCopyGeometry :=
  let rt := runtime l in
  if num_layers rt <=? layer_index then Err (LayerOutOfRange layer_index (num_layers rt))
  else if kv_tensors_per_token rt <? 2 then Err (KvPairRequiresTwoTensors (kv_tensors_per_token rt))
  else
    let? layer_offset := paged_mul layer_index (bytes_per_layer_page l) in
    let? key := tensor_token_bytes l 0 in
    let? value := tensor_token_bytes l 1 in
    if negb (key =? value) then Err (UnevenKvPairCopy key value)
    else
      let? key_page := tensor_page_offset l 0 in
      let? key_offset := paged_add layer_offset key_page in
      let? value_page := tensor_page_offset l 1 in
      let? value_offset := paged_add layer_offset value_page in
      Ok (mkCopyGeometry (rt_page_size rt) (page_size_bytes rt) key_offset value_offset key).

(** ** Pool *)

(** [kv_cache.rs:830-833] KvCachePoolError *)
Inductive KvCachePoolError : Type := StorageSizeMismatch (expected actual : N).

(** The storage is a trait of an external crate; the pool uses its length and
    its [clear]. *)
(** [kv_cache.rs:825-828] KvCacheStorage *)
Class KvCacheStorage (S E : Type) : Type := {
  byte_len : S → N;
  storage_clear : S → Result E unit * S;
}.

(** [kv_cache.rs:848-851] KvCachePool *)
Record KvCachePool (S : Type) : Type := mkPool { layout : PagedKvCacheLayout; storage : S }.
Arguments mkPool {S}.
Arguments layout {S}.
Arguments storage {S}.

(** [kv_cache.rs:857-864] KvCachePool::new *)
Definition KvCachePool_new {S E} `{!KvCacheStorage S E} (l : PagedKvCacheLayout) (s : S)
    : Result KvCachePoolError (KvCachePool S) :=
  if negb (byte_len s =? total_byte_len l) then Err (StorageSizeMismatch (total_byte_len l) (byte_len s))
  else Ok (mkPool l s).

(** [kv_cache.rs:878-880] KvCachePool::clear *)
Definition KvCachePool_clear {S E} `{!KvCacheStorage S E} (p : KvCachePool S) : Result E unit * KvCachePool S :=
  let '(res, s) := storage_clear (storage p) in (res, mkPool (layout p) s).

Definition example_runtime : KvCacheRuntimeLayout := mkRuntime Bfloat16 4 2 2 8 2 128 512.

Example example_ranges :
  match PagedKvCacheLayout_new example_runtime 3 with
  | Ok l => (tensor_token_byte_range l 2 1 1 3, tensor_slot_byte_range l 1 1 11, page_byte_range l 2)
            = (Ok (1504, 1536), Ok (1504, 1536), Ok (1024, 1536))
  | Err _ => False
  end.
Proof. by vm_compute. Qed.

(** ** Well-formed layouts *)

(** The width of one token of a tensor, and where the tensor starts in a layer
    page, on indices in range. *)
Definition width (l : PagedKvCacheLayout) (i : N) : N :=
  match tensor_geometry l with
  | PagedUniform tb _ => tb
  | PagedPair k v _ => if i =? 0 then k else v
  end.

Definition offset (l : PagedKvCacheLayout) (i : N) : N :=
  match tensor_geometry l with
  | PagedUniform _ pb => i * pb
  | PagedPair _ _ kp => if i =? 0 then 0 else kp
  end.

Definition geometry_wf (l : PagedKvCacheLayout) : Prop :=
  let rt := runtime l in
  match tensor_geometry l with
  | PagedUniform tb pb =>
      bytes_per_token_per_layer l = kv_tensors_per_token rt * tb ∧ pb = rt_page_size rt * tb
  | PagedPair k v kp =>
      kv_tensors_per_token rt = 2 ∧ 0 < k ∧ 0 < v ∧
      bytes_per_token_per_layer l = k + v ∧ kp = rt_page_size rt * k
  end.

Record layout_wf (l : PagedKvCacheLayout) : Prop := {
  lw_pages : 0 < page_count l;
  lw_page_size : 0 < rt_page_size (runtime l);
  lw_layers : 0 < num_layers (runtime l);
  lw_tensors : 0 < kv_tensors_per_token (runtime l);
  lw_token : 0 < bytes_per_token_per_layer l;
  lw_layer_page : bytes_per_layer_page l = rt_page_size (runtime l) * bytes_per_token_per_layer l;
  lw_page : page_size_bytes (runtime l) = num_layers (runtime l) * bytes_per_layer_page l;
  lw_total : total_byte_len l = page_count l * page_size_bytes (runtime l);
  lw_slots : slot_count l = page_count l * rt_page_size (runtime l);
  lw_total_bound : total_byte_len l ≤ usize_MAX;
  lw_geometry : geometry_wf l;
}.

Lemma reject_zero_fields_Ok fields u :
  reject_zero_fields fields = Ok u → Forall (λ p : string * N, 0 < p.2) fields.
Proof.
  induction fields as [|[f v] fields IH]; cbn [reject_zero_fields]; [by constructor|].
  destruct (N.eqb_spec v 0); [done|]. intros H. constructor; [cbn; lia|by apply IH].
Qed.

Lemma paged_mul_Ok a b c : paged_mul a b = Ok c ↔ c = a * b ∧ a * b ≤ usize_MAX.
Proof. unfold paged_mul. by rewrite ok_or_Ok, checked_mul_Some. Qed.

Lemma paged_add_Ok a b c : paged_add a b = Ok c ↔ c = a + b ∧ a + b ≤ usize_MAX.
Proof. unfold paged_add. by rewrite ok_or_Ok, checked_add_Some. Qed.

Lemma validate_runtime_Ok rt pc pl lp total slots :
  validate_runtime rt pc = Ok (pl, lp, total, slots) →
  0 < pc ∧ 0 < rt_page_size rt ∧ 0 < num_layers rt ∧ 0 < kv_tensors_per_token rt ∧ 0 < pl ∧
  lp = rt_page_size rt * pl ∧ page_size_bytes rt = num_layers rt * lp ∧
  total = pc * page_size_bytes rt ∧ slots = pc * rt_page_size rt ∧ total ≤ usize_MAX.
Proof.
  unfold validate_runtime. destruct (N.eqb_spec pc 0) as [|Hpc]; [done|].
  rewrite result_bind_Ok. intros (u&Hz%reject_zero_fields_Ok&H).
  rewrite !Forall_cons in Hz. cbn [snd] in Hz. destruct Hz as (?&?&?&?&?&?&?&_).
  apply result_bind_Ok in H as (e&[-> _]%paged_mul_Ok&H).
  destruct (N.eqb_spec (page_size_bytes rt) (rt_page_size rt * bytes_per_token rt)) as [Hps|]; [|done]. cbn [negb] in H.
  destruct (is_multiple_of _ _) eqn:Hm; [|done]. cbn [negb] in H. apply is_multiple_of_spec in Hm; [|lia].
  apply result_bind_Ok in H as (x1&[-> _]%paged_mul_Ok&H).
  apply result_bind_Ok in H as (x2&[-> Htb]%paged_mul_Ok&H).
  apply result_bind_Ok in H as (x3&[-> _]%paged_mul_Ok&[= <- <- <- <-]).
  revert Hm Hps. generalize (bytes_per_token rt / num_layers rt). intros q Hm Hps.
  repeat split; try done; try lia; nia.
Qed.

Lemma new_layout_wf rt pc l : PagedKvCacheLayout_new rt pc = Ok l → layout_wf l ∧ runtime l = rt ∧ page_count l = pc.
Proof.
  unfold PagedKvCacheLayout_new. rewrite result_bind_Ok. intros ([[[pl lp] total] slots]&Hv&H).
  apply validate_runtime_Ok in Hv as (?&?&?&?&?&?&?&?&?&?).
  destruct (is_multiple_of _ _) eqn:Hm; [|done]. cbn [negb] in H. apply is_multiple_of_spec in Hm; [|lia].
  apply result_bind_Ok in H as (pb&[-> _]%paged_mul_Ok&[= <-]). split; [|done].
  split; cbn; try done. unfold geometry_wf; cbn. split; [lia|done].
Qed.

Lemma new_pair_layout_wf rt pc k v l :
  new_with_tensor_pair rt pc k v = Ok l → layout_wf l ∧ runtime l = rt ∧ page_count l = pc.
Proof.
  unfold new_with_tensor_pair. rewrite result_bind_Ok. intros ([[[pl lp] total] slots]&Hv&H).
  apply validate_runtime_Ok in Hv as (?&?&?&?&?&?&?&?&?&?).
  destruct (N.eqb_spec (kv_tensors_per_token rt) 2) as [Hnt|]; [|done]. cbn [negb] in H.
  apply result_bind_Ok in H as (u&Hz%reject_zero_fields_Ok&H).
  rewrite !Forall_cons in Hz. cbn [snd] in Hz. destruct Hz as (Hk&Hv&_).
  apply result_bind_Ok in H as (pb&[-> _]%paged_add_Ok&H).
  destruct (N.eqb_spec (k + v) pl) as [Hpl|]; [|done]. cbn [negb] in H.
  apply result_bind_Ok in H as (kp&[-> _]%paged_mul_Ok&[= <-]). split; [|done].
  by split.
Qed.

(** ** Addresses

    The buffer is a nest of blocks: pages, layers, tensors, tokens. *)

Lemma block_within n s x y w : x < n → y + w ≤ s → x * s + (y + w) ≤ n * s.
Proof. intros. assert (x * s + s ≤ n * s) by (replace (x * s + s) with ((x + 1) * s) by lia; apply N.mul_le_mono_r; lia). lia. Qed.

Lemma block_before s x x' y w y' : x < x' → y + w ≤ s → x * s + y + w ≤ x' * s + y'.
Proof. intros. pose proof (block_within x' s x y w). lia. Qed.

Lemma width_pos l i : layout_wf l → 0 < width l i.
Proof.
  intros W. pose proof (lw_geometry _ W) as G. pose proof (lw_token _ W). unfold width, geometry_wf in *.
  destruct (tensor_geometry l) as [tb pb|k v kp].
  - destruct G as [G _]. destruct (decide (tb = 0)) as [->|]; lia.
  - destruct (i =? 0); lia.
Qed.

(** The tensors of a layer page follow each other without overlap. *)
Lemma tensor_before l i j :
  layout_wf l → i < j → j < kv_tensors_per_token (runtime l) →
  offset l i + rt_page_size (runtime l) * width l i ≤ offset l j.
Proof.
  intros W Hij Hj. pose proof (lw_geometry _ W) as G. unfold width, offset, geometry_wf in *.
  destruct (tensor_geometry l) as [tb pb|k v kp].
  - destruct G as [_ ->]. pose proof (block_within j (rt_page_size (runtime l) * tb) i 0 (rt_page_size (runtime l) * tb)). lia.
  - destruct G as (Hnt&?&?&?&->). assert (i = 0) as -> by lia. assert (j = 1) as -> by lia. cbn. lia.
Qed.

Lemma tensor_within l i :
  layout_wf l → i < kv_tensors_per_token (runtime l) →
  offset l i + rt_page_size (runtime l) * width l i ≤ bytes_per_layer_page l.
Proof.
  intros W Hi. rewrite (lw_layer_page _ W). pose proof (lw_geometry _ W) as G.
  unfold width, offset, geometry_wf in *. destruct (tensor_geometry l) as [tb pb|k v kp].
  - destruct G as [-> ->]. pose proof (block_within (kv_tensors_per_token (runtime l)) (rt_page_size (runtime l) * tb) i 0
      (rt_page_size (runtime l) * tb)). lia.
  - destruct G as (Hnt&?&?&->&->). rewrite N.mul_add_distr_l. assert (i = 0 ∨ i = 1) as [-> | ->] by lia; cbn; lia.
Qed.

(** A coordinate of the layout: page, layer, tensor, token. *)
Definition coordinate : Type := N * N * N * N.

Definition in_layout (l : PagedKvCacheLayout) (c : coordinate) : Prop :=
  let '(p, L, i, t) := c in
  p < page_count l ∧ L < num_layers (runtime l) ∧ i < kv_tensors_per_token (runtime l) ∧
  t < rt_page_size (runtime l).

Definition layer_address (l : PagedKvCacheLayout) (c : coordinate) : N :=
  let '(_, _, i, t) := c in offset l i + t * width l i.

Definition page_address (l : PagedKvCacheLayout) (c : coordinate) : N :=
  let '(_, L, _, _) := c in L * bytes_per_layer_page l + layer_address l c.

Definition address (l : PagedKvCacheLayout) (c : coordinate) : N :=
  let '(p, _, _, _) := c in p * page_size_bytes (runtime l) + page_address l c.

Definition cell_width (l : PagedKvCacheLayout) (c : coordinate) : N :=
  let '(_, _, i, _) := c in width l i.

Lemma layer_address_within l c :
  layout_wf l → in_layout l c → layer_address l c + cell_width l c ≤ bytes_per_layer_page l.
Proof.
  destruct c as [[[p L] i] t]. intros W (_&_&Hi&Ht). cbn.
  pose proof (tensor_within l i W Hi). pose proof (block_within _ (width l i) t 0 (width l i) Ht). lia.
Qed.

Lemma page_address_within l c :
  layout_wf l → in_layout l c → page_address l c + cell_width l c ≤ page_size_bytes (runtime l).
Proof.
  intros W Hc. pose proof (layer_address_within l c W Hc) as Hl. destruct c as [[[p L] i] t].
  destruct Hc as (_&HL&_). unfold page_address. rewrite (lw_page _ W).
  pose proof (block_within _ (bytes_per_layer_page l) L _ _ HL Hl). lia.
Qed.

Lemma address_within l c :
  layout_wf l → in_layout l c → address l c + cell_width l c ≤ total_byte_len l.
Proof.
  intros W Hc. pose proof (page_address_within l c W Hc) as Hl. destruct c as [[[p L] i] t].
  destruct Hc as (Hp&_). unfold address. rewrite (lw_total _ W).
  pose proof (block_within _ (page_size_bytes (runtime l)) p _ _ Hp Hl). lia.
Qed.

(** Distinct coordinates are laid out one before the other. *)
Lemma address_ordered l c c' :
  layout_wf l → in_layout l c → in_layout l c' → c ≠ c' →
  address l c + cell_width l c ≤ address l c' ∨ address l c' + cell_width l c' ≤ address l c.
Proof.
  intros W Hc Hc' Hne.
  pose proof (page_address_within l c W Hc) as P1. pose proof (page_address_within l c' W Hc') as P1'.
  pose proof (layer_address_within l c W Hc) as P2. pose proof (layer_address_within l c' W Hc') as P2'.
  destruct c as [[[p L] i] t], c' as [[[p' L'] i'] t']. destruct Hc as (?&?&Hi&Ht), Hc' as (?&?&Hi'&Ht').
  unfold address. destruct (N.lt_trichotomy p p') as [Hp|[->|Hp]].
  { left. by apply block_before. }
  2:{ right. by apply block_before. }
  rewrite <-!N.add_assoc. cut (page_address l (p', L, i, t) + width l i ≤ page_address l (p', L', i', t') ∨
    page_address l (p', L', i', t') + width l i' ≤ page_address l (p', L, i, t)); [cbn; lia|].
  unfold page_address. destruct (N.lt_trichotomy L L') as [HL|[->|HL]].
  { left. by apply block_before. }
  2:{ right. by apply block_before. }
  rewrite <-!N.add_assoc. cut (layer_address l (p', L', i, t) + width l i ≤ layer_address l (p', L', i', t') ∨
    layer_address l (p', L', i', t') + width l i' ≤ layer_address l (p', L', i, t)); [cbn; lia|].
  unfold layer_address. pose proof (block_within _ (width l i) t 0 (width l i) Ht).
  pose proof (block_within _ (width l i') t' 0 (width l i') Ht').
  destruct (N.lt_trichotomy i i') as [Hii|[->|Hii]].
  { left. pose proof (tensor_before l i i' W Hii Hi'). lia. }
  2:{ right. pose proof (tensor_before l i' i W Hii Hi). lia. }
  destruct (N.lt_trichotomy t t') as [Htt|[->|Htt]]; [left|done|right].
  - pose proof (block_before (width l i') t t' 0 (width l i') 0 Htt). lia.
  - pose proof (block_before (width l i') t' t 0 (width l i') 0 Htt). lia.
Qed.

(** ** The code computes the addresses *)

Lemma tensor_token_bytes_eq l i :
  layout_wf l → i < kv_tensors_per_token (runtime l) → tensor_token_bytes l i = Ok (width l i).
Proof.
  intros W Hi. pose proof (lw_geometry _ W) as G. unfold tensor_token_bytes, width, geometry_wf in *.
  destruct (tensor_geometry l); [done|]. assert (i = 0 ∨ i = 1) as [-> | ->] by lia; done.
Qed.

Lemma tensor_page_offset_eq l i :
  layout_wf l → i < kv_tensors_per_token (runtime l) → tensor_page_offset l i = Ok (offset l i).
Proof.
  intros W Hi. pose proof (lw_geometry _ W) as G. pose proof (tensor_within l i W Hi) as Hw.
  assert (in_layout l (0, 0, i, 0)) as Hin by (repeat split; try done; apply W).
  pose proof (address_within l _ W Hin) as Ha. pose proof (lw_total_bound _ W).
  unfold tensor_page_offset, geometry_wf in *. cbn in Ha. unfold offset in *. destruct (tensor_geometry l).
  - apply paged_mul_Ok. split; [done|]. lia.
  - assert (i = 0 ∨ i = 1) as [-> | ->] by lia; done.
Qed.

Lemma tensor_token_byte_range_eq l p L i t :
  layout_wf l → in_layout l (p, L, i, t) →
  tensor_token_byte_range l p L i t =
  Ok (address l (p, L, i, t), address l (p, L, i, t) + width l i).
Proof.
  intros W Hin. pose proof (address_within l _ W Hin) as Ha. pose proof (lw_total_bound _ W).
  destruct Hin as (Hp&HL&Hi&Ht). unfold tensor_token_byte_range, validate_page.
  rewrite !(proj2 (N.leb_gt _ _)) by done. cbn [result_bind]. cbn in Ha.
  rewrite (tensor_page_offset_eq l i W Hi), (tensor_token_bytes_eq l i W Hi).
  rewrite (proj2 (paged_mul_Ok p _ _)) by (split; [done|lia]). cbn [result_bind].
  rewrite (proj2 (paged_mul_Ok L _ _)) by (split; [done|lia]). cbn [result_bind].
  rewrite (proj2 (paged_mul_Ok t _ _)) by (split; [done|lia]). cbn [result_bind].
  rewrite (proj2 (checked_add_Some _ _ _)) by (split; [done|lia]). cbn [mbind option_bind].
  rewrite (proj2 (checked_add_Some _ _ _)) by (split; [done|lia]). cbn [mbind option_bind].
  rewrite (proj2 (checked_add_Some _ _ _)) by (split; [done|lia]). cbn [ok_or result_bind].
  rewrite (proj2 (paged_add_Ok _ _ _)) by (split; [done|lia]). cbn [result_bind].
  unfold address, page_address, layer_address. do 2 f_equal; lia.
Qed.

(** Division finds the block of a byte. *)
Lemma block_of b s n : 0 < s → b < n * s → ∃ q r, b / s = q ∧ b mod s = r ∧ q < n ∧ r < s ∧ b = q * s + r.
Proof.
  intros Hs Hb. exists (b / s), (b mod s). pose proof (N.div_mod b s ltac:(lia)). pose proof (N.mod_lt b s ltac:(lia)).
  split; [done|]. split; [done|]. split; [apply N.Div0.div_lt_upper_bound; lia|]. split; [done|]. lia.
Qed.

Lemma layer_covered l b :
  layout_wf l → b < bytes_per_layer_page l →
  ∃ i t, i < kv_tensors_per_token (runtime l) ∧ t < rt_page_size (runtime l) ∧
    offset l i + t * width l i ≤ b < offset l i + t * width l i + width l i.
Proof.
  intros W Hb. rewrite (lw_layer_page _ W) in Hb. pose proof (lw_geometry _ W) as G.
  pose proof (width_pos l 0 W) as Hw0. pose proof (width_pos l 1 W) as Hw1. pose proof (lw_page_size _ W) as Hps.
  unfold geometry_wf, width, offset in *. set (ps := rt_page_size (runtime l)) in *.
  destruct (tensor_geometry l) as [tb pb|k v kp].
  - destruct G as [Hpl ->]. rewrite Hpl in Hb.
    destruct (block_of b (ps * tb) (kv_tensors_per_token (runtime l))) as (i&r&_&_&Hi&Hr&->); [nia|lia|].
    destruct (block_of r tb ps) as (t&r'&_&_&Ht&Hr'&->); [done|done|].
    exists i, t. split; [done|]. split; [done|]. lia.
  - destruct G as (Hnt&_&_&Hpl&->). rewrite Hpl, N.mul_add_distr_l in Hb. destruct (decide (b < ps * k)).
    + destruct (block_of b k ps) as (t&r&_&_&Ht&Hr&->); [done|done|].
      exists 0, t. split; [lia|]. split; [done|]. cbn. lia.
    + destruct (block_of (b - ps * k) v ps) as (t&r&_&_&Ht&Hr&Heq); [done|lia|].
      exists 1, t. split; [lia|]. split; [done|]. cbn. lia.
Qed.

Lemma byte_covered l b :
  layout_wf l → b < total_byte_len l →
  ∃ c, in_layout l c ∧ address l c ≤ b < address l c + cell_width l c.
Proof.
  intros W Hb. rewrite (lw_total _ W) in Hb. pose proof (lw_page _ W) as Hpage.
  assert (0 < bytes_per_layer_page l) as Hlp.
  { rewrite (lw_layer_page _ W). pose proof (lw_page_size _ W). pose proof (lw_token _ W). nia. }
  pose proof (lw_layers _ W) as Hnl.
  destruct (block_of b (page_size_bytes (runtime l)) (page_count l)) as (p&r&_&_&Hp&Hr&->); [nia|done|].
  rewrite Hpage in Hr.
  destruct (block_of r (bytes_per_layer_page l) (num_layers (runtime l))) as (L&r'&_&_&HL&Hr'&->); [done|done|].
  destruct (layer_covered l r' W Hr') as (i&t&Hi&Ht&Hin).
  exists (p, L, i, t). split; [by repeat split|]. unfold address, page_address, layer_address, cell_width. lia.
Qed.

(** ** Properties *)

(** A layout one of the two constructors returned. *)
Definition constructed (l : PagedKvCacheLayout) : Prop :=
  (∃ rt pc, PagedKvCacheLayout_new rt pc = Ok l) ∨
  (∃ rt pc k v, new_with_tensor_pair rt pc k v = Ok l).

Lemma constructed_wf l : constructed l → layout_wf l.
Proof. intros [(rt&pc&H)|(rt&pc&k&v&H)]; [by eapply new_layout_wf|by eapply new_pair_layout_wf]. Qed.

(** The byte range of a coordinate, as the code computes it. *)
Definition coordinate_range (l : PagedKvCacheLayout) (c : coordinate) : Result PagedKvCacheLayoutError (N * N) :=
  let '(p, L, i, t) := c in tensor_token_byte_range l p L i t.

Lemma coordinate_range_eq l c :
  layout_wf l → in_layout l c → coordinate_range l c = Ok (address l c, address l c + cell_width l c).
Proof. destruct c as [[[p L] i] t]. intros W Hc. by apply tensor_token_byte_range_eq. Qed.

Lemma coordinate_range_Ok l c r : coordinate_range l c = Ok r → in_layout l c.
Proof.
  destruct c as [[[p L] i] t]. cbn. unfold tensor_token_byte_range, validate_page.
  destruct (N.leb_spec (page_count l) p); [done|]. cbn [result_bind].
  destruct (N.leb_spec (num_layers (runtime l)) L); [done|].
  destruct (N.leb_spec (kv_tensors_per_token (runtime l)) i); [done|].
  destruct (N.leb_spec (rt_page_size (runtime l)) t); [done|]. by intros _.
Qed.

(** On a constructed layout the range computation answers exactly for the
    coordinates in the layout; the checked arithmetic never overflows there,
    and the range has the width of the tensor's token and lies inside its
    page, which lies inside the buffer. *)
Theorem byte_range_in_bounds l p L i t :
  constructed l →
  match tensor_token_byte_range l p L i t with
  | Ok (start, end_) =>
      in_layout l (p, L, i, t) ∧ start < end_ ∧ Ok (end_ - start) = tensor_token_size_bytes l i ∧
      ∃ page_start page_end, page_byte_range l p = Ok (page_start, page_end) ∧
        page_start ≤ start ∧ end_ ≤ page_end ∧ page_end ≤ total_byte_len l ∧ total_byte_len l ≤ usize_MAX
  | Err _ => ¬ in_layout l (p, L, i, t)
  end.
Proof.
  intros W%constructed_wf. destruct (tensor_token_byte_range l p L i t) as [[start end_]|e] eqn:Hr.
  - pose proof (coordinate_range_Ok l (p, L, i, t) _ Hr) as Hin.
    rewrite (tensor_token_byte_range_eq l p L i t W Hin) in Hr. injection Hr as <- <-.
    split; [done|]. pose proof (width_pos l i W). split; [lia|]. pose proof (page_address_within l _ W Hin) as Hpa.
    pose proof (lw_total_bound _ W). destruct Hin as (Hp&_&Hi&_). split.
    + unfold tensor_token_size_bytes. rewrite (proj2 (N.leb_gt _ _)) by done.
      rewrite (tensor_token_bytes_eq l i W Hi). f_equal. lia.
    + assert (p * page_size_bytes (runtime l) + page_size_bytes (runtime l) ≤ total_byte_len l) as Htot.
      { rewrite (lw_total _ W).
        pose proof (block_within _ (page_size_bytes (runtime l)) p 0 (page_size_bytes (runtime l)) Hp). lia. }
      eexists _, _. split.
      * unfold page_byte_range, validate_page. rewrite (proj2 (N.leb_gt _ _)) by done. cbn [result_bind].
        rewrite (proj2 (paged_mul_Ok p _ _)) by (split; [done|lia]). cbn [result_bind].
        rewrite (proj2 (paged_add_Ok _ _ _)) by (split; [done|lia]). done.
      * unfold address, cell_width, page_address, layer_address in *. lia.
  - intros Hin. by rewrite (tensor_token_byte_range_eq l p L i t W Hin) in Hr.
Qed.

Definition example_layout : PagedKvCacheLayout :=
  mkPaged example_runtime 3 64 256 (PagedUniform 32 128) 1536 12.

Lemma byte_range_in_bounds_witness :
  match tensor_token_byte_range example_layout 2 1 1 3 with
  | Ok (start, end_) =>
      in_layout example_layout (2, 1, 1, 3) ∧ start < end_ ∧
      Ok (end_ - start) = tensor_token_size_bytes example_layout 1 ∧
      ∃ page_start page_end, page_byte_range example_layout 2 = Ok (page_start, page_end) ∧
        page_start ≤ start ∧ end_ ≤ page_end ∧ page_end ≤ total_byte_len example_layout ∧
        total_byte_len example_layout ≤ usize_MAX
  | Err _ => ¬ in_layout example_layout (2, 1, 1, 3)
  end.
Proof.
  apply (byte_range_in_bounds example_layout 2 1 1 3). left. exists example_runtime, 3. by vm_compute.
Defined.

(** The ranges tile the buffer: every byte of it belongs to the range of one
    coordinate (page, layer, tensor, token), and of no other. *)
Theorem byte_ranges_tile_buffer l b :
  constructed l → b < total_byte_len l →
  ∃ c start end_, coordinate_range l c = Ok (start, end_) ∧ start ≤ b < end_ ∧
    ∀ c' start' end_', coordinate_range l c' = Ok (start', end_') → start' ≤ b < end_' → c' = c.
Proof.
  intros W%constructed_wf Hb. destruct (byte_covered l b W Hb) as (c&Hc&Hin).
  eexists c, _, _. split; [by apply coordinate_range_eq|]. split; [done|]. intros c' s' e' Hr Hb'.
  pose proof (coordinate_range_Ok l c' _ Hr) as Hc'. rewrite (coordinate_range_eq l c' W Hc') in Hr.
  injection Hr as <- <-. destruct (decide (c' = c)) as [|Hne]; [done|].
  destruct (address_ordered l c' c W Hc' Hc Hne); lia.
Qed.

Lemma byte_ranges_tile_buffer_witness :
  ∃ c start end_, coordinate_range example_layout c = Ok (start, end_) ∧ start ≤ 700 < end_ ∧
    ∀ c' start' end_', coordinate_range example_layout c' = Ok (start', end_') →
      start' ≤ 700 < end_' → c' = c.
Proof.
  apply (byte_ranges_tile_buffer example_layout 700).
  - left. exists example_runtime, 3. by vm_compute.
  - by vm_compute.
Defined.

(** The copy kernel's addressing agrees with the byte ranges: for every slot
    the key starts at [page * stride + key_offset + token * token_bytes], the
    value likewise, and both have [token_bytes] bytes. *)
Theorem copy_geometry_agrees l layer g slot :
  constructed l → kv_pair_copy_geometry l layer = Ok g → slot < slot_count l →
  let page := slot / cg_page_size g in
  let token := slot mod cg_page_size g in
  let key := page * page_stride_bytes g + key_offset_bytes g + token * token_bytes g in
  let value := page * page_stride_bytes g + value_offset_bytes g + token * token_bytes g in
  tensor_slot_byte_range l layer 0 slot = Ok (key, key + token_bytes g) ∧
  tensor_slot_byte_range l layer 1 slot = Ok (value, value + token_bytes g).
Proof.
  intros W%constructed_wf Hg Hs. unfold kv_pair_copy_geometry in Hg.
  destruct (N.leb_spec (num_layers (runtime l)) layer) as [|HL]; [done|].
  destruct (N.ltb_spec (kv_tensors_per_token (runtime l)) 2) as [|Hnt]; [done|].
  apply result_bind_Ok in Hg as (lo&[-> _]%paged_mul_Ok&Hg).
  rewrite (tensor_token_bytes_eq l 0 W), (tensor_token_bytes_eq l 1 W) in Hg by lia. cbn [result_bind] in Hg.
  destruct (N.eqb_spec (width l 0) (width l 1)) as [Hw|]; [|done]. cbn [negb] in Hg.
  rewrite (tensor_page_offset_eq l 0 W), (tensor_page_offset_eq l 1 W) in Hg by lia. cbn [result_bind] in Hg.
  apply result_bind_Ok in Hg as (ko&[-> _]%paged_add_Ok&Hg).
  apply result_bind_Ok in Hg as (vo&[-> _]%paged_add_Ok&[= <-]). cbn zeta. cbn.
  rewrite (lw_slots _ W) in Hs. destruct (block_of slot _ _ (lw_page_size _ W) Hs) as (p&t&Hpq&Htq&Hp&Ht&_).
  unfold tensor_slot_byte_range. cbv zeta. rewrite Hpq, Htq. rewrite (lw_slots _ W), (proj2 (N.leb_gt _ _)) by done.
  rewrite !tensor_token_byte_range_eq by (try done; repeat split; done || lia).
  unfold address, page_address, layer_address. rewrite Hw. split; do 2 f_equal; lia.
Qed.

Lemma copy_geometry_agrees_witness :
  tensor_slot_byte_range example_layout 1 0 11 = Ok (1376, 1408) ∧
  tensor_slot_byte_range example_layout 1 1 11 = Ok (1504, 1536).
Proof.
  apply (copy_geometry_agrees example_layout 1 (mkCopyGeometry 4 512 256 384 32) 11);
    [left; exists example_runtime, 3; by vm_compute|by vm_compute..].
Defined.

(** The model layout and the paged layout agree on key/value widths: for a
    tensor-pair model the token size is the number of layers times the two
    widths, so a runtime built from that token size is never rejected for the
    widths of its pair. *)
Theorem model_pair_matches_runtime nl kh kd vh vd m d n widths rt pc :
  tensor_pair nl kh kd vh vd = Ok m → token_size_bytes m d = Ok n →
  tensor_pair_size_bytes m d = Ok widths →
  num_layers rt = nl → bytes_per_token rt = n →
  ∃ k v, widths = Some (k, v) ∧ n = nl * (k + v) ∧ 0 < k ∧ 0 < v ∧
    ∀ a k' v', new_with_tensor_pair rt pc k v ≠ Err (TensorPairSizeMismatch a k' v').
Proof.
  unfold tensor_pair. rewrite result_bind_Ok. intros (ke&Hke&Hm) Hn Hw Hnl Hbt.
  apply result_bind_Ok in Hm as (ve&Hve&Hm). destruct (_ || _)%bool eqn:Hz; [done|].
  apply orb_false_iff in Hz as [Hz1 Hz2]. reflect_N. injection Hm as <-.
  clear Hke Hve. unfold token_size_bytes, tensor_pair_size_bytes, elements_per_token in *. cbn in Hn, Hw.
  destruct (bytes_per_element d) as [w|] eqn:Hd; cbn [ok_or result_bind] in Hn, Hw.
  2:{ by destruct (ok_or _ _). }
  decompose_result. destruct (checked_add ke ve) as [pe|] eqn:Hpe; [|done]. cbn [mbind option_bind] in *.
  decompose_result. subst. exists (ke * w), (ve * w). split; [done|].
  assert (0 < w) by (destruct d; cbn in Hd; (done || injection Hd as <-; lia)).
  split; [lia|]. split; [nia|]. split; [nia|]. intros a k' v'. unfold new_with_tensor_pair.
  destruct (validate_runtime rt pc) as [[[[pl lp] total] slots]|e] eqn:Hv; cbn [result_bind].
  2:{ intros [= ->]. revert Hv. unfold validate_runtime. destruct (pc =? 0); [done|].
      generalize ([("page_size", rt_page_size rt); ("num_layers", num_layers rt); ("kv_heads", kv_heads rt);
       ("head_dim", head_dim rt); ("kv_tensors_per_token", kv_tensors_per_token rt);
       ("bytes_per_token", bytes_per_token rt); ("page_size_bytes", page_size_bytes rt)]%string).
      unfold paged_mul, checked_mul. intros fields. induction fields as [|[f x] fields IH]; cbn [reject_zero_fields].
      - cbn [result_bind]. destruct (_ <=? _); cbn [ok_or result_bind]; [|done]. repeat case_match; done.
      - destruct (x =? 0); [cbn [result_bind]; done|exact IH]. }
  assert (pl = ke * w + ve * w) as ->.
  { unfold validate_runtime in Hv. destruct (pc =? 0); [done|]. apply result_bind_Ok in Hv as (u&Hz%reject_zero_fields_Ok&Hv).
    rewrite !Forall_cons in Hz. cbn [snd] in Hz. destruct Hz as (_&Hnl&_).
    apply result_bind_Ok in Hv as (e&_&Hv). destruct (negb _); [done|]. destruct (negb _); [done|].
    cbv zeta in Hv. decompose_result. simplify_eq.
    match goal with H : bytes_per_token rt = _ |- _ => rewrite H end.
    replace (num_layers rt * (ke + ve) * w) with ((ke * w + ve * w) * num_layers rt) by lia. by rewrite N.div_mul by lia. }
  destruct (negb (_ =? 2)); [done|]. cbn [reject_zero_fields].
  rewrite !(proj2 (N.eqb_neq _ 0)) by nia. cbn [result_bind]. unfold paged_add, checked_add.
  destruct (_ <=? _); [|done]. cbn [ok_or result_bind]. rewrite N.eqb_refl. cbn [negb].
  unfold paged_mul, checked_mul. by destruct (_ <=? _).
Qed.

Lemma model_pair_matches_runtime_witness :
  ∃ k v, Some (32, 16) = Some (k, v) ∧ 96 = 2 * (k + v) ∧ 0 < k ∧ 0 < v ∧
    ∀ a k' v', new_with_tensor_pair (mkRuntime Bfloat16 4 2 2 8 2 96 384) 3 k v ≠
      Err (TensorPairSizeMismatch a k' v').
Proof.
  apply (model_pair_matches_runtime 2 2 8 1 8 (mkModelLayout 2 2 8 2 None (Pair 16 8)) Bfloat16 96
    (Some (32, 16)) (mkRuntime Bfloat16 4 2 2 8 2 96 384) 3); by vm_compute.
Defined.
