(* ===== verification/Topology.v ===== *)
(** * Parallel topologies ([crates/sglang-srt/src/distributed/])

    [Module Grid]: the pipeline x attention x expert grid of
    [parallel_topology.rs].  [Module Tp]: the tensor-parallel ranks of a node
    and the partition of a tensor axis, of [parallel.rs].  The worker threads
    of [parallel.rs] are not modelled. *)

From S2P Require Import Prelude.
From Stdlib Require Import Sorted.

(** ** Shared arithmetic *)

Lemma StronglySorted_nrange s e : StronglySorted N.lt (nrange s e).
Proof.
  unfold nrange. generalize (N.to_nat (e - s)) as n. intros n. generalize 0%nat as k.
  induction n as [|n IH]; intros k; cbn [seq fmap list_fmap]; constructor; [apply IH|].
  apply Forall_fmap, Forall_forall. intros i Hi%elem_of_seq. cbn. lia.
Qed.

Lemma StronglySorted_fmap_affine (f : N → N) l :
  (∀ i j, i < j → f i < f j) → StronglySorted N.lt l → StronglySorted N.lt (f <$> l).
Proof.
  intros Hf. induction 1 as [|x l Hs IH Hx]; cbn; constructor; [done|].
  apply Forall_fmap. eapply Forall_impl; [done|]. intros y. apply Hf.
Qed.

Lemma StronglySorted_filter_lt (Q : N → Prop) `{!∀ x, Decision (Q x)} l :
  StronglySorted N.lt l → StronglySorted N.lt (filter Q l).
Proof.
  induction 1 as [|x l Hs IH Hx]; [constructor|]. rewrite filter_cons. destruct (decide (Q x)); [|done].
  constructor; [done|]. apply Forall_forall. intros y [_ Hy]%list_elem_of_filter.
  rewrite Forall_forall in Hx. by apply Hx.
Qed.

(** Strictly increasing lists with the same elements are equal. *)
Lemma sorted_ext l1 l2 :
  StronglySorted N.lt l1 → StronglySorted N.lt l2 → (∀ x, x ∈ l1 ↔ x ∈ l2) → l1 = l2.
Proof.
  intros H1. revert l2. induction H1 as [|x l1 Hs IH Hx]; intros l2 H2 Heq.
  - symmetry. apply elem_of_nil_inv. intros y Hy%Heq. by apply not_elem_of_nil in Hy.
  - destruct H2 as [|y l2 Hs2 Hy]; [exfalso; eapply not_elem_of_nil, Heq; by left|].
    rewrite Forall_forall in Hx, Hy.
    assert (x = y) as <-.
    { assert (x = y ∨ y < x) as [?|Hlt]; [|done|].
      - assert (x ∈ y :: l2) as Hin by (apply Heq; by left). apply elem_of_cons in Hin as [?|Hin]; [by left|].
        right. by apply Hy.
      - assert (y ∈ x :: l1) as Hin by (apply Heq; by left). apply elem_of_cons in Hin as [?|Hin]; [done|].
        specialize (Hx y Hin). lia. }
    f_equal. apply IH; [done|]. intros z. specialize (Heq z). rewrite !elem_of_cons in Heq. split; intros Hz.
    + destruct (proj1 Heq) as [->|?]; [by right| |done]. specialize (Hx x Hz). lia.
    + destruct (proj2 Heq) as [->|?]; [by right| |done]. specialize (Hy x Hz). lia.
Qed.

(** ** The hybrid grid *)

Module Grid.

(** [distributed/parallel_topology.rs:67-75] Parallel4DCoordinate *)
Record Parallel4DCoordinate : Type := mkCoordinate {
  global_rank : N;
  pp_stage : N;
  attn_dp_rank : N;
  attn_tp_rank : N;
  ep_rank : N;
  dense_tp_rank : N;
}.

(** [distributed/parallel_topology.rs:78-80] Parallel4DCoordinate::is_first_pipeline_stage *)
Definition is_first_pipeline_stage (c : Parallel4DCoordinate) : bool := pp_stage c =? 0.

(** [distributed/parallel_topology.rs:82-84] Parallel4DCoordinate::is_last_pipeline_stage *)
Definition is_last_pipeline_stage (c : Parallel4DCoordinate) (pp_size : N) : bool := pp_stage c + 1 =? pp_size.

(** [distributed/parallel_topology.rs:306-319] ParallelTopologyError *)
Inductive ParallelTopologyError : Type :=
  | ZeroDimension (name : string)
  | Overflow (name : string)
  | StageSizingMismatch (stage_size_attn stage_size_moe : N)
  | RankOutOfBounds (rank world_size : N).

(** [distributed/parallel_topology.rs:87-95] Parallel4DConfig *)
Record Parallel4DConfig : Type := mkConfig {
  pp_size : N;
  attn_dp_size : N;
  attn_tp_size : N;
  ep_size : N;
  moe_dense_tp_size : N;
}.

(** [distributed/parallel_topology.rs:98-142] Parallel4DConfig::new *)
Definition Parallel4DConfig_new (pp_size attn_dp_size attn_tp_size ep_size moe_dense_tp_size : N)
    : Result ParallelTopologyError Parallel4DConfig :=
  if pp_size =? 0 then Err (ZeroDimension "pp_size")
  else if attn_dp_size =? 0 then Err (ZeroDimension "attn_dp_size")
  else if attn_tp_size =? 0 then Err (ZeroDimension "attn_tp_size")
  else if ep_size =? 0 then Err (ZeroDimension "ep_size")
  else if moe_dense_tp_size =? 0 then Err (ZeroDimension "moe_dense_tp_size")
  else
    let? stage_size_attn := ok_or (checked_mul attn_dp_size attn_tp_size) (Overflow "stage_size_attn") in
    let? stage_size_moe := ok_or (checked_mul ep_size moe_dense_tp_size) (Overflow "stage_size_moe") in
    if negb (stage_size_attn =? stage_size_moe) then Err (StageSizingMismatch stage_size_attn stage_size_moe)
    else Ok (mkConfig pp_size attn_dp_size attn_tp_size ep_size moe_dense_tp_size).

(** The unchecked products of the code panic on overflow: [None]. *)
(** [distributed/parallel_topology.rs:144-146] Parallel4DConfig::stage_size *)
Definition stage_size (c : Parallel4DConfig) : option N := checked_mul (attn_dp_size c) (attn_tp_size c).

(** [distributed/parallel_topology.rs:148-150] Parallel4DConfig::world_size *)
Definition world_size (c : Parallel4DConfig) : option N := n ← stage_size c; checked_mul (pp_size c) n.

(** [distributed/parallel_topology.rs:153-159] Parallel4DTopology *)
Record Parallel4DTopology : Type := mkTopology {
  config : Parallel4DConfig;
  topo_world_size : N;
  ranks : list Parallel4DCoordinate;
}.

(** [distributed/parallel_topology.rs:167-185] Parallel4DTopology::new (loop body) *)
Definition coordinate_at (c : Parallel4DConfig) (stage_size g : N) : Parallel4DCoordinate :=
  let pp := g / stage_size in
  let intra_stage := g mod stage_size in
  mkCoordinate g pp (intra_stage / attn_tp_size c) (intra_stage mod attn_tp_size c)
    (intra_stage / moe_dense_tp_size c) (intra_stage mod moe_dense_tp_size c).

(** [distributed/parallel_topology.rs:162-192] Parallel4DTopology::new *)
Definition Parallel4DTopology_new (c : Parallel4DConfig)
    : option (Result ParallelTopologyError Parallel4DTopology) :=
  w ← world_size c;
  n ← stage_size c;
  Some (Ok (mkTopology c w (coordinate_at c n <$> nrange 0 w))).

(** [distributed/parallel_topology.rs:202-213] Parallel4DTopology::coordinate_of *)
Definition coordinate_of (t : Parallel4DTopology) (rank : N)
    : Result ParallelTopologyError Parallel4DCoordinate :=
  ok_or (ranks t !! N.to_nat rank) (RankOutOfBounds rank (topo_world_size t)).

(** The ranks whose coordinate [same] relates to the caller's: the
    [filter(..).map(..).collect()] of the four group queries. *)
Definition group_of (t : Parallel4DTopology) (same : Parallel4DCoordinate → Parallel4DCoordinate → bool)
    (rank : N) : Result ParallelTopologyError (list N) :=
  let? coord := coordinate_of t rank in
  Ok (global_rank <$> filter (λ c, same c coord = true) (ranks t)).

(** [distributed/parallel_topology.rs:216-228] Parallel4DTopology::attn_tp_group_for *)
Definition attn_tp_group_for (t : Parallel4DTopology) (rank : N) :=
  group_of t (λ c coord, (pp_stage c =? pp_stage coord) && (attn_dp_rank c =? attn_dp_rank coord))%bool rank.

(** [distributed/parallel_topology.rs:231-243] Parallel4DTopology::attn_dp_group_for *)
Definition attn_dp_group_for (t : Parallel4DTopology) (rank : N) :=
  group_of t (λ c coord, (pp_stage c =? pp_stage coord) && (attn_tp_rank c =? attn_tp_rank coord))%bool rank.

(** [distributed/parallel_topology.rs:246-255] Parallel4DTopology::ep_group_for *)
Definition ep_group_for (t : Parallel4DTopology) (rank : N) :=
  group_of t (λ c coord, (pp_stage c =? pp_stage coord) && (dense_tp_rank c =? dense_tp_rank coord))%bool rank.

(** [distributed/parallel_topology.rs:258-269] Parallel4DTopology::pp_group_for *)
Definition pp_group_for (t : Parallel4DTopology) (rank : N) :=
  group_of t (λ c coord, (attn_dp_rank c =? attn_dp_rank coord) && (attn_tp_rank c =? attn_tp_rank coord))%bool rank.

(** [distributed/parallel_topology.rs:272-286] Parallel4DTopology::pp_prev_rank *)
Definition pp_prev_rank (t : Parallel4DTopology) (rank : N)
    : option (Result ParallelTopologyError (option N)) :=
  match coordinate_of t rank with
  | Err e => Some (Err e)
  | Ok coord =>
      if pp_stage coord =? 0 then Some (Ok None)
      else
        let prev_stage := pp_stage coord - 1 in
        n ← stage_size (config t);
        Some (Ok (Some (prev_stage * n + rank mod n)))
  end.

(** [distributed/parallel_topology.rs:289-303] Parallel4DTopology::pp_next_rank *)
Definition pp_next_rank (t : Parallel4DTopology) (rank : N)
    : option (Result ParallelTopologyError (option N)) :=
  match coordinate_of t rank with
  | Err e => Some (Err e)
  | Ok coord =>
      if pp_size (config t) <=? pp_stage coord + 1 then Some (Ok None)
      else
        let next_stage := pp_stage coord + 1 in
        n ← stage_size (config t);
        Some (Ok (Some (next_stage * n + rank mod n)))
  end.

Example grid_2x2x2 :
  match Parallel4DConfig_new 2 2 2 4 1 with
  | Ok c => match Parallel4DTopology_new c with
            | Some (Ok t) => (attn_tp_group_for t 5, ep_group_for t 5, pp_next_rank t 1)
                             = (Ok [4; 5], Ok [4; 5; 6; 7], Some (Ok (Some 5)))
            | _ => False
            end
  | Err _ => False
  end.
Proof. by vm_compute. Qed.

(** *** The topology of a valid configuration *)

(** A topology built by the two constructors from [c], whose stages have [n] ranks. *)
Record grid_of (c : Parallel4DConfig) (n : N) (t : Parallel4DTopology) : Prop := {
  go_tp : 0 < attn_tp_size c;
  go_dense : 0 < moe_dense_tp_size c;
  go_stage : 0 < n;
  go_attn : n = attn_dp_size c * attn_tp_size c;
  go_moe : n = ep_size c * moe_dense_tp_size c;
  go_n : stage_size c = Some n;
  go_config : config t = c;
  go_world : topo_world_size t = pp_size c * n;
  go_bound : pp_size c * n ≤ usize_MAX;
  go_ranks : ranks t = coordinate_at c n <$> nrange 0 (pp_size c * n);
}.

(** Whether a topology comes from the constructors. *)
Definition constructed (t : Parallel4DTopology) : Prop :=
  (∃ pp dp tp ep dense, Parallel4DConfig_new pp dp tp ep dense = Ok (config t)) ∧
  Parallel4DTopology_new (config t) = Some (Ok t).

Lemma constructed_grid t : constructed t → ∃ n, grid_of (config t) n t.
Proof.
  intros [(pp&dp&tp&ep&dense&Hc) Ht]. destruct t as [c w rs]. cbn in *. unfold Parallel4DConfig_new in Hc.
  destruct (N.eqb_spec pp 0); [done|]. destruct (N.eqb_spec dp 0); [done|]. destruct (N.eqb_spec tp 0); [done|].
  destruct (N.eqb_spec ep 0); [done|]. destruct (N.eqb_spec dense 0); [done|].
  apply result_bind_Ok in Hc as (a&Ha%ok_or_Ok&Hc). apply result_bind_Ok in Hc as (m&Hm%ok_or_Ok&Hc).
  destruct (N.eqb_spec a m) as [<-|]; [|done]. cbn in Hc. injection Hc as <-.
  unfold Parallel4DTopology_new, world_size, stage_size in Ht. cbn in Ht. rewrite Ha in Ht. cbn in Ht.
  destruct (checked_mul pp a) as [w'|] eqn:Hw; [|done]. cbn in Ht. injection Ht as <- <-.
  apply checked_mul_Some in Hw as [-> Hw]. exists a. pose proof Ha as Ha'.
  apply checked_mul_Some in Ha as [-> _]. apply checked_mul_Some in Hm as [Hm _].
  split; cbn; try done; lia.
Qed.

Lemma filter_fmap_true {A B} (f : A → B) (same : B → bool) (l : list A) :
  filter (λ y, same y = true) (f <$> l) = f <$> filter (λ x, same (f x) = true) l.
Proof.
  induction l as [|x l IH]; [done|]. cbn [fmap list_fmap]. rewrite !filter_cons.
  change (list_fmap _ _ f l) with (f <$> l). rewrite IH. by case_decide.
Qed.

Lemma divmod_join s q r : r < s → (q * s + r) / s = q ∧ (q * s + r) mod s = r.
Proof. intros. split; [by apply N_div_add_small|by apply N_mod_add_small]. Qed.

Lemma divmod_split s g : 0 < s → ∃ q r, g / s = q ∧ g mod s = r ∧ g = q * s + r ∧ r < s.
Proof.
  intros Hs. exists (g / s), (g mod s). split; [done|]. split; [done|].
  split; [rewrite (N.div_mod g s) at 1 by lia; lia|apply N.mod_lt; lia].
Qed.

Lemma mul_lt_join n s q r : q < n → r < s → q * s + r < n * s.
Proof. intros. nia. Qed.

Lemma join_lt_mul n s q r : q * s + r < n * s → q < n.
Proof. intros. nia. Qed.

Section GridLemmas.
Context (c : Parallel4DConfig) (n : N) (t : Parallel4DTopology) (G : grid_of c n t).

Lemma coordinate_of_eq g :
  coordinate_of t g = if g <? pp_size c * n then Ok (coordinate_at c n g) else Err (RankOutOfBounds g (pp_size c * n)).
Proof using G.
  unfold coordinate_of. rewrite (go_ranks _ _ _ G), list_lookup_fmap, (go_world _ _ _ G).
  destruct (N.ltb_spec g (pp_size c * n)).
  - rewrite lookup_nrange by lia. cbn. by rewrite N2Nat.id.
  - rewrite lookup_ge_None_2; [done|]. pose proof (len_nrange 0 (pp_size c * n)) as Hl. unfold len in Hl. lia.
Qed.

(** A group in closed form. *)
Lemma group_closed same rank (f : N → N) k :
  rank < pp_size c * n → (∀ i j, i < j → f i < f j) →
  (∀ g, g < pp_size c * n ∧ same (coordinate_at c n g) (coordinate_at c n rank) = true ↔ ∃ i, i < k ∧ g = f i) →
  group_of t same rank = Ok (f <$> nrange 0 k).
Proof using G.
  intros Hr Hf Hin. unfold group_of. rewrite coordinate_of_eq, (proj2 (N.ltb_lt _ _) Hr). cbn [result_bind].
  f_equal. rewrite (go_ranks _ _ _ G), filter_fmap_true, <-list_fmap_compose.
  assert (∀ l : list N, (global_rank ∘ coordinate_at c n) <$> l = l) as Hid.
  { intros l. rewrite <-(list_fmap_id l) at 2. by apply list_fmap_ext. }
  rewrite Hid. apply sorted_ext.
  - apply StronglySorted_filter_lt, StronglySorted_nrange.
  - apply StronglySorted_fmap_affine, StronglySorted_nrange. done.
  - intros g. rewrite list_elem_of_filter, elem_of_nrange, list_elem_of_fmap. cbn. specialize (Hin g). split.
    + intros [Hs Hg]. destruct (proj1 Hin) as (i&Hi&->); [split; [lia|done]|]. exists i. split; [done|].
      apply elem_of_nrange. lia.
    + intros (i&->&Hi%elem_of_nrange). destruct (proj2 Hin) as [? ?]; [exists i; split; [lia|done]|]. split; [done|lia].
Qed.

(** The shape shared by the groups inside a stage: the stage is cut in [a]
    blocks of [b] ranks. *)
Lemma stage_position g a b :
  n = a * b → 0 < b → g < pp_size c * n →
  ∃ p q r, g = p * n + (q * b + r) ∧ g / n = p ∧ (g mod n) / b = q ∧ (g mod n) mod b = r ∧
    p < pp_size c ∧ q < a ∧ r < b.
Proof using G.
  intros Hn Hb Hg. pose proof (go_stage _ _ _ G) as Hn0.
  destruct (divmod_split n g Hn0) as (p&m&->&->&->&Hm). destruct (divmod_split b m Hb) as (q&r&->&->&->&Hr).
  exists p, q, r. split; [done|]. split; [done|]. split; [done|]. split; [done|].
  split; [by eapply join_lt_mul|]. split; [|done]. rewrite Hn in Hm. by eapply join_lt_mul.
Qed.

Lemma stage_position_join p q r a b :
  n = a * b → q < a → r < b → p < pp_size c →
  let g := p * n + (q * b + r) in
  g < pp_size c * n ∧ g / n = p ∧ (g mod n) / b = q ∧ (g mod n) mod b = r.
Proof using G.
  intros Hn Hq Hr Hp g. assert (q * b + r < n) as Hm by (rewrite Hn; by apply mul_lt_join).
  unfold g. destruct (divmod_join n p _ Hm) as [-> ->]. destruct (divmod_join b q r Hr) as [-> ->].
  split; [by apply mul_lt_join|done].
Qed.

(** Ranks of one stage that agree on the block, and on the place in the block. *)
Lemma same_block_iff g rank a b :
  n = a * b → 0 < b → rank < pp_size c * n →
  g < pp_size c * n ∧ ((g / n =? rank / n) && ((g mod n) / b =? (rank mod n) / b))%bool = true ↔
  ∃ i, i < b ∧ g = rank / n * n + ((rank mod n) / b * b + i).
Proof using G.
  intros Hn Hb Hr. destruct (stage_position rank a b Hn Hb Hr) as (p&q&r&_&->&->&_&Hp&Hq&_).
  rewrite andb_true_iff, !N.eqb_eq. split.
  - intros (Hg&H1&H2). destruct (stage_position g a b Hn Hb Hg) as (p'&q'&r'&Heq&Hp'&Hq'&_&_&_&Hr').
    exists r'. split; [done|]. rewrite Heq. congruence.
  - intros (i&Hi&->). destruct (stage_position_join p q i a b Hn Hq Hi Hp) as (?&?&?&_). done.
Qed.

Lemma same_place_iff g rank a b :
  n = a * b → 0 < b → rank < pp_size c * n →
  g < pp_size c * n ∧ ((g / n =? rank / n) && ((g mod n) mod b =? (rank mod n) mod b))%bool = true ↔
  ∃ i, i < a ∧ g = rank / n * n + (i * b + (rank mod n) mod b).
Proof using G.
  intros Hn Hb Hr. destruct (stage_position rank a b Hn Hb Hr) as (p&q&r&_&->&_&->&Hp&_&Hr').
  rewrite andb_true_iff, !N.eqb_eq. split.
  - intros (Hg&H1&H2). destruct (stage_position g a b Hn Hb Hg) as (p'&q'&r''&Heq&Hp'&_&Hr''&_&Hq'&_).
    exists q'. split; [done|]. rewrite Heq. congruence.
  - intros (i&Hi&->). destruct (stage_position_join p i r a b Hn Hi Hr' Hp) as (?&?&_&?). done.
Qed.

Lemma same_column_iff g rank a b :
  n = a * b → 0 < b → rank < pp_size c * n →
  g < pp_size c * n ∧ (((g mod n) / b =? (rank mod n) / b) && ((g mod n) mod b =? (rank mod n) mod b))%bool = true ↔
  ∃ i, i < pp_size c ∧ g = i * n + rank mod n.
Proof using G.
  intros Hn Hb Hr. pose proof (go_stage _ _ _ G) as Hn0.
  destruct (stage_position rank a b Hn Hb Hr) as (p&q&r&Heq0&_&Hq0&Hr0&Hp&Hq&Hr').
  assert (rank mod n = q * b + r) as Hmod.
  { rewrite Heq0. apply divmod_join. rewrite Hn. by apply mul_lt_join. }
  rewrite andb_true_iff, !N.eqb_eq, Hq0, Hr0. split.
  - intros (Hg&H1&H2). destruct (stage_position g a b Hn Hb Hg) as (p'&q'&r''&Heq&_&Hq'&Hr''&Hp'&_).
    exists p'. split; [done|]. rewrite Hmod, Heq. congruence.
  - intros (i&Hi&->). rewrite Hmod. destruct (stage_position_join i q r a b Hn Hq Hr' Hi) as (?&_&?&?). done.
Qed.

End GridLemmas.

(** *** Properties *)

Definition example_config : Parallel4DConfig := mkConfig 2 2 2 4 1.
Definition example_topology : Parallel4DTopology :=
  mkTopology example_config 8 (coordinate_at example_config 4 <$> nrange 0 8).

Lemma example_constructed : constructed example_topology.
Proof. split; [exists 2, 2, 2, 4, 1|]; by vm_compute. Qed.

(** The grid is a bijection between the ranks of the world and the triples
    (stage, attention DP rank, attention TP rank) in range: a rank's coordinate
    is in range and recomputes the rank, in the attention view and in the
    expert view; a rank outside the world is the error; and each triple in
    range is the coordinate of exactly one rank. *)
Theorem grid_coordinates_bijective t :
  constructed t →
  let c := config t in
  (∀ g, match coordinate_of t g with
        | Ok x =>
            g < topo_world_size t ∧ global_rank x = g ∧
            pp_stage x < pp_size c ∧ attn_dp_rank x < attn_dp_size c ∧ attn_tp_rank x < attn_tp_size c ∧
            ep_rank x < ep_size c ∧ dense_tp_rank x < moe_dense_tp_size c ∧
            g = (pp_stage x * attn_dp_size c + attn_dp_rank x) * attn_tp_size c + attn_tp_rank x ∧
            g = (pp_stage x * ep_size c + ep_rank x) * moe_dense_tp_size c + dense_tp_rank x
        | Err e => e = RankOutOfBounds g (topo_world_size t) ∧ topo_world_size t ≤ g
        end) ∧
  (∀ p d a, p < pp_size c → d < attn_dp_size c → a < attn_tp_size c →
     ∃ g, ∀ g', (∃ x, coordinate_of t g' = Ok x ∧ pp_stage x = p ∧ attn_dp_rank x = d ∧ attn_tp_rank x = a)
                ↔ g' = g).
Proof.
  intros [n G]%constructed_grid c. fold c in G. pose proof (go_attn _ _ _ G) as Ha. pose proof (go_moe _ _ _ G) as He.
  split.
  - intros g. rewrite (coordinate_of_eq _ _ _ G), (go_world _ _ _ G). destruct (N.ltb_spec g (pp_size c * n)) as [Hg|]; [|done].
    destruct (stage_position _ _ _ G g _ _ Ha (go_tp _ _ _ G) Hg) as (p&q&r&Heq&H1&H2&H3&?&?&?).
    destruct (stage_position _ _ _ G g _ _ He (go_dense _ _ _ G) Hg) as (p'&q'&r'&Heq'&H1'&H2'&H3'&?&?&?).
    assert (p' = p) as -> by congruence. cbn. rewrite H1, H2, H3, H2', H3'. split_and!; try done.
    + rewrite Heq, Ha. lia.
    + rewrite Heq', He. lia.
  - intros p d a Hp Hd Hat. exists (p * n + (d * attn_tp_size c + a)).
    destruct (stage_position_join _ _ _ G p d a _ _ Ha Hd Hat Hp) as (Hlt&H1&H2&H3).
    intros g'. rewrite (coordinate_of_eq _ _ _ G). split.
    + intros (x&Hx&Hpx&Hdx&Hax). destruct (N.ltb_spec g' (pp_size c * n)) as [Hg|]; [|done]. injection Hx as <-.
      destruct (stage_position _ _ _ G g' _ _ Ha (go_tp _ _ _ G) Hg) as (p'&q&r&Heq&Hp'&Hq'&Hr'&_).
      cbn in Hpx, Hdx, Hax. rewrite Heq. congruence.
    + intros ->. rewrite (proj2 (N.ltb_lt _ _) Hlt). eexists. split; [done|]. cbn. by rewrite H1, H2, H3.
Qed.

Lemma grid_coordinates_bijective_witness :
  (∀ g, match coordinate_of example_topology g with
        | Ok x =>
            g < 8 ∧ global_rank x = g ∧ pp_stage x < 2 ∧ attn_dp_rank x < 2 ∧ attn_tp_rank x < 2 ∧
            ep_rank x < 4 ∧ dense_tp_rank x < 1 ∧
            g = (pp_stage x * 2 + attn_dp_rank x) * 2 + attn_tp_rank x ∧
            g = (pp_stage x * 4 + ep_rank x) * 1 + dense_tp_rank x
        | Err e => e = RankOutOfBounds g 8 ∧ 8 ≤ g
        end) ∧
  (∀ p d a, p < 2 → d < 2 → a < 2 →
     ∃ g, ∀ g', (∃ x, coordinate_of example_topology g' = Ok x ∧ pp_stage x = p ∧ attn_dp_rank x = d ∧
                      attn_tp_rank x = a) ↔ g' = g).
Proof. exact (grid_coordinates_bijective example_topology example_constructed). Defined.

(** The four communication groups in closed form: the attention TP group is
    a run of consecutive ranks, the attention DP and the expert groups are
    strided inside the stage, the pipeline group takes the same place of every
    stage.  In particular each group has exactly the size the configuration
    gives its dimension, in increasing order of rank. *)
Theorem groups_closed_form t rank n :
  constructed t → stage_size (config t) = Some n → rank < topo_world_size t →
  let c := config t in
  let stage := rank / n * n in
  let place := rank mod n in
  attn_tp_group_for t rank =
    Ok ((λ i, stage + (place / attn_tp_size c * attn_tp_size c + i)) <$> nrange 0 (attn_tp_size c)) ∧
  attn_dp_group_for t rank =
    Ok ((λ i, stage + (i * attn_tp_size c + place mod attn_tp_size c)) <$> nrange 0 (attn_dp_size c)) ∧
  ep_group_for t rank =
    Ok ((λ i, stage + (i * moe_dense_tp_size c + place mod moe_dense_tp_size c)) <$> nrange 0 (ep_size c)) ∧
  pp_group_for t rank = Ok ((λ i, i * n + place) <$> nrange 0 (pp_size c)).
Proof.
  intros [n' G]%constructed_grid Hn Hr c stage place. fold c in G, Hn.
  assert (n' = n) as -> by (pose proof (go_n _ _ _ G); congruence). rewrite (go_world _ _ _ G) in Hr.
  pose proof (go_tp _ _ _ G) as Htp. pose proof (go_dense _ _ _ G) as Hdense. pose proof (go_stage _ _ _ G) as Hs.
  pose proof (go_attn _ _ _ G) as Ha. pose proof (go_moe _ _ _ G) as He.
  split; [|split; [|split]].
  - apply (group_closed _ _ _ G); [done|lia|]. intros g. by apply (same_block_iff _ _ _ G _ _ (attn_dp_size c)).
  - apply (group_closed _ _ _ G); [done|intros i j Hij; apply N.add_lt_mono_l; nia|].
    intros g. by apply (same_place_iff _ _ _ G).
  - apply (group_closed _ _ _ G); [done|intros i j Hij; apply N.add_lt_mono_l; nia|].
    intros g. by apply (same_place_iff _ _ _ G).
  - apply (group_closed _ _ _ G); [done|intros i j Hij; nia|].
    intros g. by apply (same_column_iff _ _ _ G _ _ (attn_dp_size c)).
Qed.

Lemma groups_closed_form_witness :
  attn_tp_group_for example_topology 5 = Ok [4; 5] ∧ attn_dp_group_for example_topology 5 = Ok [5; 7] ∧
  ep_group_for example_topology 5 = Ok [4; 5; 6; 7] ∧ pp_group_for example_topology 5 = Ok [1; 5].
Proof. apply (groups_closed_form example_topology 5 4 example_constructed); by vm_compute. Defined.

(** The pipeline neighbours are inverse to each other: the next rank of a
    rank of the world is in the world, one stage further at the same place, and
    its previous rank is the first one again; a rank of the last stage has no
    next one, and exactly the ranks of the first stage have no previous one. *)
Theorem pipeline_neighbours_inverse t rank :
  constructed t → rank < topo_world_size t →
  ∃ x next, coordinate_of t rank = Ok x ∧ pp_next_rank t rank = Some (Ok next) ∧
    match next with
    | None => pp_stage x + 1 = pp_size (config t)
    | Some rank' => ∃ x', coordinate_of t rank' = Ok x' ∧ pp_stage x' = pp_stage x + 1 ∧
        attn_dp_rank x' = attn_dp_rank x ∧ attn_tp_rank x' = attn_tp_rank x ∧
        pp_prev_rank t rank' = Some (Ok (Some rank))
    end ∧
    (pp_prev_rank t rank = Some (Ok None) ↔ pp_stage x = 0).
Proof.
  intros [n G]%constructed_grid Hr. rewrite (go_world _ _ _ G) in Hr. set (c := config t) in *.
  pose proof (go_stage _ _ _ G) as Hn. destruct (divmod_split n rank Hn) as (p&m&Hp&Hm&Hrank&Hmn).
  assert (p < pp_size c) as Hpp by (rewrite Hrank in Hr; by eapply join_lt_mul).
  eexists. unfold pp_next_rank, pp_prev_rank. rewrite (coordinate_of_eq _ _ _ G), (proj2 (N.ltb_lt _ _) Hr).
  fold c. rewrite (go_n _ _ _ G). cbn [pp_stage coordinate_at mbind option_bind]. rewrite Hp, Hm.
  destruct (N.leb_spec (pp_size c) (p + 1)) as [Hlast|Hnext].
  - eexists. split; [done|]. split; [done|]. split; [cbn; lia|].
    destruct (N.eqb_spec p 0) as [->|]; cbn; split; intros; congruence.
  - eexists. split; [done|]. split; [done|]. split.
    + assert ((p + 1) * n + m < pp_size c * n) as Hr' by (by apply mul_lt_join).
      destruct (divmod_join n (p + 1) m Hmn) as [Hd' Hm'].
      eexists. rewrite (coordinate_of_eq _ _ _ G), (proj2 (N.ltb_lt _ _) Hr'). split; [done|].
      cbn [pp_stage attn_dp_rank attn_tp_rank coordinate_at]. rewrite Hd', Hm', ?Hp, ?Hm. split; [done|]. split; [done|]. split; [done|].
      destruct (N.eqb_spec (p + 1) 0); [lia|]. do 3 f_equal. rewrite Hrank. f_equal. f_equal. lia.
    + destruct (N.eqb_spec p 0) as [->|]; cbn; split; intros; congruence.
Qed.

Lemma pipeline_neighbours_inverse_witness :
  ∃ x next, coordinate_of example_topology 1 = Ok x ∧ pp_next_rank example_topology 1 = Some (Ok next) ∧
    match next with
    | None => pp_stage x + 1 = 2
    | Some rank' => ∃ x', coordinate_of example_topology rank' = Ok x' ∧ pp_stage x' = pp_stage x + 1 ∧
        attn_dp_rank x' = attn_dp_rank x ∧ attn_tp_rank x' = attn_tp_rank x ∧
        pp_prev_rank example_topology rank' = Some (Ok (Some 1))
    end ∧
    (pp_prev_rank example_topology 1 = Some (Ok None) ↔ pp_stage x = 0).
Proof. apply (pipeline_neighbours_inverse example_topology 1 example_constructed). by vm_compute. Defined.

(** The constructor checks the size of a stage but not that of the world: a
    configuration it accepts can overflow when the topology is built. *)
Theorem world_size_overflow_unchecked :
  match Parallel4DConfig_new (2 ^ 40) (2 ^ 20) (2 ^ 20) (2 ^ 20) (2 ^ 20) with
  | Ok c => Parallel4DTopology_new c = None
  | Err _ => False
  end.
Proof. by vm_compute. Qed.

End Grid.

(** ** Tensor parallelism *)

Module Tp.

(** [distributed/parallel.rs:8-14] TensorParallelRank *)
Record TensorParallelRank : Type := mkRank {
  global_rank : N;
  local_rank : N;
  rank_world_size : N;
  device_ordinal : N;
}.

(** [distributed/parallel.rs:129-151] ParallelTopologyError *)
Inductive ParallelTopologyError : Type :=
  | ZeroWorldSize
  | ZeroNodeCount
  | InvalidNodeRank (node_rank node_count : N)
  | WorldSizeNotDivisible (world_size node_count : N)
  | ZeroDeviceOrdinalStep
  | GlobalRankOverflow (node_rank local_world_size : N)
  | DeviceOrdinalOverflow (base_device_ordinal device_ordinal_step local_rank : N).

(** [distributed/parallel.rs:34-40] TensorParallelTopology *)
Record TensorParallelTopology : Type := mkTp {
  world_size : N;
  node_count : N;
  node_rank : N;
  local_ranks : list TensorParallelRank;
}.

(** [distributed/parallel.rs:80-101] TensorParallelTopology::new (closure) *)
Definition local_rank_of (first local_world world node_rank base step local : N)
    : Result ParallelTopologyError TensorParallelRank :=
  let? global := ok_or (checked_add first local) (GlobalRankOverflow node_rank local_world) in
  let? device := ok_or (offset ← checked_mul local step; checked_add base offset)
                   (DeviceOrdinalOverflow base step local) in
  Ok (mkRank global local world device).

(** [collect::<Result<Vec<_>, _>>()]: stops at the first error. *)
Fixpoint collect_results {E A B} (f : A → Result E B) (l : list A) : Result E (list B) :=
  match l with
  | [] => Ok []
  | x :: l' => let? y := f x in let? ys := collect_results f l' in Ok (y :: ys)
  end.

(** [distributed/parallel.rs:43-110] TensorParallelTopology::new *)
Definition TensorParallelTopology_new (world_size node_count node_rank base step : N)
    : Result ParallelTopologyError TensorParallelTopology :=
  if world_size =? 0 then Err ZeroWorldSize
  else if node_count =? 0 then Err ZeroNodeCount
  else if node_count <=? node_rank then Err (InvalidNodeRank node_rank node_count)
  else if negb (is_multiple_of world_size node_count) then Err (WorldSizeNotDivisible world_size node_count)
  else if step =? 0 then Err ZeroDeviceOrdinalStep
  else
    let local_world_size := world_size / node_count in
    let? first := ok_or (checked_mul node_rank local_world_size) (GlobalRankOverflow node_rank local_world_size) in
    let? local_ranks := collect_results
      (local_rank_of first local_world_size world_size node_rank base step) (nrange 0 local_world_size) in
    Ok (mkTp world_size node_count node_rank local_ranks).

(** [distributed/parallel.rs:290-314] TensorPartitionError *)
Inductive TensorPartitionError : Type :=
  | ZeroPartitionCount
  | InvalidPartitionIndex (partition_index partition_count : N)
  | ShardCountExceedsWorldSize (shard_count world_size : N)
  | WorldSizeNotDivisibleByShardCount (world_size shard_count : N)
  | ExtentNotDivisible (extent partition_count : N)
  | PartitionRangeOverflow (extent partition_count partition_index : N).

(** [distributed/parallel.rs:200-204] TensorPartition *)
Record TensorPartition : Type := mkPartition { partition_count : N; partition_index : N }.

(** [distributed/parallel.rs:207-224] TensorPartition::new *)
Definition TensorPartition_new (count index : N) : Result TensorPartitionError TensorPartition :=
  if count =? 0 then Err ZeroPartitionCount
  else if count <=? index then Err (InvalidPartitionIndex index count)
  else Ok (mkPartition count index).

(** [distributed/parallel.rs:226-231] TensorPartition::for_rank *)
Definition for_rank (rank : TensorParallelRank) : TensorPartition :=
  mkPartition (rank_world_size rank) (global_rank rank).

(** [distributed/parallel.rs:233-254] TensorPartition::for_replicated_shards *)
Definition for_replicated_shards (rank : TensorParallelRank) (shard_count : N)
    : Result TensorPartitionError TensorPartition :=
  if shard_count =? 0 then Err ZeroPartitionCount
  else if rank_world_size rank <? shard_count then
    Err (ShardCountExceedsWorldSize shard_count (rank_world_size rank))
  else if negb (is_multiple_of (rank_world_size rank) shard_count) then
    Err (WorldSizeNotDivisibleByShardCount (rank_world_size rank) shard_count)
  else
    let replicas_per_shard := rank_world_size rank / shard_count in
    TensorPartition_new shard_count (global_rank rank / replicas_per_shard).

(** [distributed/parallel.rs:264-287] TensorPartition::range *)
Definition range (p : TensorPartition) (extent : N) : Result TensorPartitionError (N * N) :=
  let overflow := PartitionRangeOverflow extent (partition_count p) (partition_index p) in
  if negb (is_multiple_of extent (partition_count p)) then Err (ExtentNotDivisible extent (partition_count p))
  else
    let partition_len := extent / partition_count p in
    let? start := ok_or (checked_mul (partition_index p) partition_len) overflow in
    let? end_ := ok_or (checked_add start partition_len) overflow in
    Ok (start, end_).

Example tp_example :
  match TensorParallelTopology_new 8 2 1 4 2 with
  | Ok t => (λ r, (global_rank r, device_ordinal r)) <$> local_ranks t = [(4, 4); (5, 6); (6, 8); (7, 10)]
  | Err _ => False
  end.
Proof. by vm_compute. Qed.

(** *** Lemmas *)

Lemma collect_results_Ok {E A B} (f : A → Result E B) l ys :
  collect_results f l = Ok ys ↔ Forall2 (λ x y, f x = Ok y) l ys.
Proof.
  revert ys. induction l as [|x l IH]; intros ys; cbn [collect_results].
  - split; [intros [= <-]; constructor|by inversion 1].
  - rewrite result_bind_Ok. split.
    + intros (y&Hy&(zs&Hz%IH&[= <-])%result_bind_Ok). by constructor.
    + inversion 1 as [|??? zs Hy Hz]; subst. apply IH in Hz. exists y. split; [done|]. by rewrite Hz.
Qed.

Lemma tp_new_Ok world nodes rank base step t :
  TensorParallelTopology_new world nodes rank base step = Ok t →
  ∃ k, 0 < nodes ∧ 0 < step ∧ rank < nodes ∧ world = k * nodes ∧ 0 < k ∧
    local_ranks t = (λ i, mkRank (rank * k + i) i world (base + i * step)) <$> nrange 0 k.
Proof.
  unfold TensorParallelTopology_new. destruct (N.eqb_spec world 0); [done|]. destruct (N.eqb_spec nodes 0); [done|].
  destruct (N.leb_spec nodes rank); [done|]. destruct (is_multiple_of _ _) eqn:Hm; [|done].
  destruct (N.eqb_spec step 0); [done|]. cbn [negb]. apply is_multiple_of_spec in Hm; [|done].
  intros (first&(->&_)%ok_or_Ok%checked_mul_Some&(rs&Hc%collect_results_Ok&[= <-])%result_bind_Ok)%result_bind_Ok.
  exists (world / nodes). split; [lia|]. split; [lia|]. split; [done|]. split; [done|]. split; [nia|]. cbn.
  revert Hc. generalize (nrange 0 (world / nodes)). intros l Hc.
  induction Hc as [|i r l rs Hi _ IH]; [done|]. cbn [fmap list_fmap]. f_equal; [|exact IH].
  unfold local_rank_of in Hi. apply result_bind_Ok in Hi as (g&(->&_)%ok_or_Ok%checked_add_Some&Hi).
  apply result_bind_Ok in Hi as (d&Hd%ok_or_Ok&[= <-]).
  destruct (checked_mul i step) as [o|] eqn:Ho; [|done]. cbn in Hd.
  apply checked_mul_Some in Ho as [-> _]. apply checked_add_Some in Hd as [-> _]. done.
Qed.

Lemma range_Ok p extent r :
  range p extent = Ok r → partition_count p ≠ 0 →
  ∃ k, extent = k * partition_count p ∧ r = (partition_index p * k, partition_index p * k + k).
Proof.
  unfold range. destruct (is_multiple_of _ _) eqn:Hm; [|done]. intros H Hc. apply is_multiple_of_spec in Hm; [|done].
  exists (extent / partition_count p). split; [done|]. cbn [negb] in H.
  apply result_bind_Ok in H as (s&(->&_)%ok_or_Ok%checked_mul_Some&H).
  by apply result_bind_Ok in H as (e&(->&_)%ok_or_Ok%checked_add_Some&[= <-]).
Qed.

(** *** Properties *)

(** Over all nodes of a cluster the local ranks cover the world once: each
    global rank below the world size is the rank of exactly one local place of
    one node; and the device ordinals of a node are pairwise distinct. *)
Theorem nodes_partition_world world nodes base step topo :
  0 < nodes →
  (∀ rank, rank < nodes → TensorParallelTopology_new world nodes rank base step = Ok (topo rank)) →
  (∀ g, g < world → ∃ rank i, rank < nodes ∧
     ∀ rank' i', rank' < nodes →
       (global_rank <$> local_ranks (topo rank') !! i' = Some g ↔ rank' = rank ∧ i' = i)) ∧
  (∀ rank, rank < nodes → NoDup (device_ordinal <$> local_ranks (topo rank))).
Proof.
  intros Hn Ht. split.
  - intros g Hg. destruct (tp_new_Ok _ _ _ _ _ _ (Ht 0 Hn)) as (k&_&_&_&Hw&Hk&_).
    destruct (Grid.divmod_split k g Hk) as (q&r&_&_&->&Hr). exists q, (N.to_nat r).
    split; [rewrite Hw, N.mul_comm in Hg; nia|]. intros rank' i' Hr'.
    destruct (tp_new_Ok _ _ _ _ _ _ (Ht rank' Hr')) as (k'&_&_&_&Hw'&_&->).
    assert (k' = k) as -> by nia. rewrite list_lookup_fmap. destruct (decide (N.of_nat i' < k)).
    + rewrite lookup_nrange by lia. cbn. split.
      * intros [= Heq]. assert (rank' = q) as -> by nia. split; [done|]. lia.
      * intros [-> ->]. f_equal. lia.
    + rewrite lookup_ge_None_2; [|pose proof (len_nrange 0 k) as Hl; unfold len in Hl; lia].
      split; [done|]. intros [_ ->]. lia.
  - intros rank Hr. destruct (tp_new_Ok _ _ _ _ _ _ (Ht rank Hr)) as (k&_&Hs&_&_&_&->).
    rewrite <-list_fmap_compose. apply NoDup_fmap_2; [|apply NoDup_nrange]. intros i j. cbn. nia.
Qed.

Definition example_node (rank : N) : TensorParallelTopology :=
  mkTp 4 2 rank ((λ j, mkRank (rank * 2 + j) j 4 (1 + j * 3)) <$> nrange 0 2).

Lemma nodes_partition_world_witness :
  (∀ g, g < 4 → ∃ rank i, rank < 2 ∧
     ∀ rank' i', rank' < 2 →
       (global_rank <$> local_ranks (example_node rank') !! i' = Some g ↔ rank' = rank ∧ i' = i)) ∧
  (∀ rank, rank < 2 → NoDup (device_ordinal <$> local_ranks (example_node rank))).
Proof.
  apply (nodes_partition_world 4 2 1 3 example_node); [lia|].
  intros rank Hr. assert (rank = 0 ∨ rank = 1) as [-> | ->] by lia; by vm_compute.
Defined.

(** The partitions of an extent tile it: with the same divisible extent each
    index in range gets a range, the first starts at zero, each next one starts
    where the one before ended, the last ends at the extent, and all have the
    same length; only an extent that is not divisible is refused. *)
Theorem partitions_tile_extent count extent :
  0 < count → extent ≤ usize_MAX →
  (is_multiple_of extent count = false →
     ∀ i, range (mkPartition count i) extent = Err (ExtentNotDivisible extent count)) ∧
  (is_multiple_of extent count = true →
     ∃ bound : N → N, bound 0 = 0 ∧ bound count = extent ∧
       ∀ i, i < count →
         range (mkPartition count i) extent = Ok (bound i, bound (i + 1)) ∧
         bound (i + 1) = bound i + extent / count).
Proof.
  intros Hc He. split.
  { intros Hm i. unfold range. cbn. by rewrite Hm. }
  intros Hm. pose proof Hm as Hm'. apply is_multiple_of_spec in Hm'; [|lia]. exists (λ i, i * (extent / count)).
  split; [lia|]. split; [lia|]. intros i Hi. unfold range. cbn [partition_count partition_index]. rewrite Hm. cbn [negb].
  revert Hm'. generalize (extent / count). intros k ->.
  assert (i * k + k ≤ k * count) by nia.
  rewrite (proj2 (checked_mul_Some i k (i * k))) by (split; [done|lia]). cbn [ok_or result_bind].
  rewrite (proj2 (checked_add_Some _ _ (i * k + k))) by (split; [done|lia]). cbn [ok_or result_bind].
  split; [do 2 f_equal; lia|lia].
Qed.

Lemma partitions_tile_extent_witness :
  (is_multiple_of 12 4 = false →
     ∀ i, range (mkPartition 4 i) 12 = Err (ExtentNotDivisible 12 4)) ∧
  (is_multiple_of 12 4 = true →
     ∃ bound : N → N, bound 0 = 0 ∧ bound 4 = 12 ∧
       ∀ i, i < 4 →
         range (mkPartition 4 i) 12 = Ok (bound i, bound (i + 1)) ∧ bound (i + 1) = bound i + 12 / 4).
Proof. apply (partitions_tile_extent 4 12); [lia|by vm_compute]. Defined.

(** With replicated shards every rank of the world gets a shard in range,
    and every shard the same number of ranks, which are consecutive. *)
Theorem replicated_shards_balanced rank shards p :
  for_replicated_shards rank shards = Ok p →
  partition_count p = shards ∧ partition_index p < shards ∧
  ∃ replicas, 0 < replicas ∧ rank_world_size rank = replicas * shards ∧
    partition_index p * replicas ≤ global_rank rank < partition_index p * replicas + replicas.
Proof.
  unfold for_replicated_shards. destruct (N.eqb_spec shards 0); [done|].
  destruct (N.ltb_spec (rank_world_size rank) shards); [done|].
  destruct (is_multiple_of _ _) eqn:Hm; [|done]. cbn [negb]. apply is_multiple_of_spec in Hm; [|done].
  revert Hm. generalize (rank_world_size rank / shards). intros k Hw. unfold TensorPartition_new.
  destruct (N.eqb_spec shards 0); [done|]. destruct (N.leb_spec shards (global_rank rank / k)); [done|].
  intros [= <-]. cbn. split; [done|]. split; [done|]. exists k. assert (0 < k) as Hk by nia.
  split; [done|]. split; [done|]. destruct (Grid.divmod_split k (global_rank rank) Hk) as (q&r&->&_&->&Hr). lia.
Qed.

Lemma replicated_shards_balanced_witness :
  partition_count (mkPartition 2 1) = 2 ∧ partition_index (mkPartition 2 1) < 2 ∧
  ∃ replicas, 0 < replicas ∧ 8 = replicas * 2 ∧ 1 * replicas ≤ 5 < 1 * replicas + replicas.
Proof. apply (replicated_shards_balanced (mkRank 5 1 8 0) 2 (mkPartition 2 1)). by vm_compute. Defined.

End Tp.
