(* ===== verification/Pipeline.v ===== *)
(** * Pipeline stages ([crates/sglang-srt/src/distributed/pp_pipeline.rs])

    The partition of layers over pipeline stages, and the communicators that
    hand activations from one stage to the next over in-process channels.
    A channel of [std::sync::mpsc] is a FIFO queue whose ends can be dropped;
    receiving from an empty open channel blocks, which the model shows as the
    absence of a result.  Stages run concurrently: their interleavings are the
    runs of a step relation. *)

From S2P Require Import Prelude Float32.

(** [distributed/pp_pipeline.rs:12-22] PipelineCommError *)
Inductive PipelineCommError : Type :=
  | ZeroDimension (name : string)
  | InvalidStage (stage pp_size : N)
  | TotalLayersTooSmall (total_layers pp_size : N)
  | ChannelClosed
  | StageMismatch (expected actual : N)
  | FirstStageHasNoPredecessor
  | LastStageHasNoSuccessor
  | ShapeMismatch (expected actual : N).

(** ** Layers *)

(** [distributed/pp_pipeline.rs:65-70] PipelineStageConfig *)
Record PipelineStageConfig : Type := mkStageConfig {
  cfg_stage : N;
  cfg_pp_size : N;
  total_layers : N;
}.

(** [distributed/pp_pipeline.rs:73-101] PipelineStageConfig::new *)
Definition PipelineStageConfig_new (stage pp_size total_layers : N)
    : Result PipelineCommError PipelineStageConfig :=
  if pp_size =? 0 then Err (ZeroDimension "pp_size")
  else if total_layers =? 0 then Err (ZeroDimension "total_layers")
  else if total_layers <? pp_size then Err (TotalLayersTooSmall total_layers pp_size)
  else if pp_size <=? stage then Err (InvalidStage stage pp_size)
  else Ok (mkStageConfig stage pp_size total_layers).

(** [distributed/pp_pipeline.rs:125-155] PipelineStageConfig::layer_range_for_stage *)
Definition layer_range_for_stage (stage pp_size total_layers : N) : Result PipelineCommError (N * N) :=
  if pp_size =? 0 then Err (ZeroDimension "pp_size")
  else if pp_size <=? stage then Err (InvalidStage stage pp_size)
  else
    let base_layers := total_layers / pp_size in
    let remainder := total_layers mod pp_size in
    let start :=
      if stage <? remainder then stage * (base_layers + 1)
      else remainder * (base_layers + 1) + (stage - remainder) * base_layers in
    let count := if stage <? remainder then base_layers + 1 else base_layers in
    Ok (start, start + count).

(** [distributed/pp_pipeline.rs:158-160] PipelineStageConfig::assigned_layers *)
Definition assigned_layers (c : PipelineStageConfig) : N * N :=
  match layer_range_for_stage (cfg_stage c) (cfg_pp_size c) (total_layers c) with
  | Ok r => r
  | Err _ => (0, 0)
  end.

(** [distributed/pp_pipeline.rs:163-166] PipelineStageConfig::num_assigned_layers *)
Definition num_assigned_layers (c : PipelineStageConfig) : N := (assigned_layers c).2 - (assigned_layers c).1.

(** [distributed/pp_pipeline.rs:115-117] PipelineStageConfig::is_first_stage *)
Definition is_first_stage (c : PipelineStageConfig) : bool := cfg_stage c =? 0.

(** [distributed/pp_pipeline.rs:119-121] PipelineStageConfig::is_last_stage *)
Definition is_last_stage (c : PipelineStageConfig) : bool := cfg_stage c + 1 =? cfg_pp_size c.

Example layers_of_61_on_4 :
  (λ s, layer_range_for_stage s 4 61) <$> [0; 1; 2; 3] = [Ok (0, 16); Ok (16, 31); Ok (31, 46); Ok (46, 61)].
Proof. by vm_compute. Qed.

(** ** Communicators *)

(** [distributed/pp_pipeline.rs:170-179] PipelineActivationPacket *)
Record PipelineActivationPacket : Type := mkPacket {
  batch_id : N;
  stage_from : N;
  stage_to : N;
  packet_request_ids : list string;
  sequence_lengths : list N;
  hidden_dim : N;
  hidden_states : list f32;
}.

(** An [mpsc] channel: the packets in flight and whether its ends are alive. *)
Record Channel : Type := mkChannel {
  in_flight : list PipelineActivationPacket;
  sender_alive : bool;
  receiver_alive : bool;
}.

(** A sender or receiver is the index of its channel. *)
(** [distributed/pp_pipeline.rs:202-207] ChannelPipelineCommunicator *)
Record ChannelPipelineCommunicator : Type := mkCommunicator {
  stage : N;
  pp_size : N;
  forward_sender : option N;
  forward_receiver : option N;
}.

(** [distributed/pp_pipeline.rs:235-251] ChannelPipelineCommunicator::create_pipeline (loop) *)
Fixpoint connect_stages (stages : list N) (pp_size : N) (senders receivers : list N)
    : option (list ChannelPipelineCommunicator) :=
  match stages with
  | [] => Some []
  | s :: stages' =>
      let forward_sender := senders !! N.to_nat s in
      '(forward_receiver, receivers) ←
        (if 0 <? s then
           match receivers with [] => None | r :: rs => Some (Some r, rs) end
         else Some (None, receivers));
      rest ← connect_stages stages' pp_size senders receivers;
      Some (mkCommunicator s pp_size forward_sender forward_receiver :: rest)
  end.

(** [distributed/pp_pipeline.rs:211-254] ChannelPipelineCommunicator::create_pipeline *)
Definition create_pipeline (pp_size : N)
    : option (Result PipelineCommError (list ChannelPipelineCommunicator * list Channel)) :=
  if pp_size =? 0 then Some (Err (ZeroDimension "pp_size"))
  else if pp_size =? 1 then Some (Ok ([mkCommunicator 0 1 None None], []))
  else
    let channels := nrange 0 (pp_size - 1) in
    comms ← connect_stages (nrange 0 pp_size) pp_size channels channels;
    Some (Ok (comms, (λ _, mkChannel [] true true) <$> channels)).

(** [distributed/pp_pipeline.rs:266-288] ChannelPipelineCommunicator::send_forward *)
Definition send_forward (c : ChannelPipelineCommunicator) (channels : list Channel)
    (packet : PipelineActivationPacket) : Result PipelineCommError unit * list Channel :=
  match forward_sender c with
  | None => (Err LastStageHasNoSuccessor, channels)
  | Some sender =>
      if negb (stage_from packet =? stage c) then
        (Err (StageMismatch (stage c) (stage_from packet)), channels)
      else if negb (stage_to packet =? stage c + 1) then
        (Err (StageMismatch (stage c + 1) (stage_to packet)), channels)
      else
        match channels !! N.to_nat sender with
        | None => (Err ChannelClosed, channels)
        | Some ch =>
            if receiver_alive ch then
              (Ok (), <[N.to_nat sender := mkChannel (in_flight ch ++ [packet]) (sender_alive ch) true]> channels)
            else (Err ChannelClosed, channels)
        end
  end.

(** [None]: the call blocks until the predecessor sends or is dropped. *)
(** [distributed/pp_pipeline.rs:290-310] ChannelPipelineCommunicator::recv_forward *)
Definition recv_forward (c : ChannelPipelineCommunicator) (channels : list Channel)
    : option (Result PipelineCommError PipelineActivationPacket * list Channel) :=
  match forward_receiver c with
  | None => Some (Err FirstStageHasNoPredecessor, channels)
  | Some receiver =>
      match channels !! N.to_nat receiver with
      | None => Some (Err ChannelClosed, channels)
      | Some ch =>
          match in_flight ch with
          | [] => if sender_alive ch then None else Some (Err ChannelClosed, channels)
          | packet :: rest =>
              let channels :=
                <[N.to_nat receiver := mkChannel rest (sender_alive ch) (receiver_alive ch)]> channels in
              if negb (stage_to packet =? stage c) then
                Some (Err (StageMismatch (stage c) (stage_to packet)), channels)
              else Some (Ok packet, channels)
          end
      end
  end.

(** Dropping a communicator drops its channel ends. *)
Definition drop_sender (channels : list Channel) (i : option N) : list Channel :=
  match i with
  | None => channels
  | Some i => alter (λ ch, mkChannel (in_flight ch) false (receiver_alive ch)) (N.to_nat i) channels
  end.

(** Dropping the receiver also drops what is in flight. *)
Definition drop_receiver (channels : list Channel) (i : option N) : list Channel :=
  match i with
  | None => channels
  | Some i => alter (λ ch, mkChannel [] (sender_alive ch) false) (N.to_nat i) channels
  end.

(** ** The pipeline is connected *)

(** The communicator of stage [s] in a pipeline of [n] stages. *)
Definition communicator_at (n s : N) : ChannelPipelineCommunicator :=
  mkCommunicator s n (if s + 1 <? n then Some s else None) (if 0 <? s then Some (s - 1) else None).

Lemma senders_lookup n s : nrange 0 (n - 1) !! N.to_nat s = if s + 1 <? n then Some s else None.
Proof.
  destruct (N.ltb_spec (s + 1) n).
  - rewrite lookup_nrange by lia. f_equal. lia.
  - apply lookup_ge_None_2. pose proof (len_nrange 0 (n - 1)) as Hl. unfold len in Hl. lia.
Qed.

Lemma connect_stages_eq n k s :
  N.of_nat k = n - s → s ≤ n → 0 < s →
  connect_stages (nrange s n) n (nrange 0 (n - 1)) (nrange (s - 1) (n - 1)) =
  Some (communicator_at n <$> nrange s n).
Proof.
  revert s. induction k as [|k IH]; intros s Hk Hs Hs0.
  - by rewrite nrange_empty by lia.
  - rewrite (nrange_cons s n) by lia. cbn [connect_stages fmap list_fmap].
    rewrite (proj2 (N.ltb_lt 0 s) Hs0), (nrange_cons (s - 1) (n - 1)) by lia. cbn [mbind option_bind].
    replace (s - 1 + 1) with (s + 1 - 1) by lia. rewrite IH by lia. cbn [mbind option_bind].
    unfold communicator_at at 2. by rewrite senders_lookup, (proj2 (N.ltb_lt 0 s) Hs0).
Qed.

Lemma create_pipeline_eq n :
  0 < n →
  create_pipeline n =
  Some (Ok (communicator_at n <$> nrange 0 n, (λ _, mkChannel [] true true) <$> nrange 0 (n - 1))).
Proof.
  intros Hn. unfold create_pipeline. rewrite (proj2 (N.eqb_neq n 0)) by lia.
  destruct (N.eqb_spec n 1) as [->|H1]; [done|]. rewrite (nrange_cons 0 n) by done. cbn [connect_stages].
  change (0 <? 0) with false. cbn [mbind option_bind].
  replace (nrange 0 (n - 1)) with (nrange (0 + 1 - 1) (n - 1)) at 2 by done.
  rewrite (connect_stages_eq n (N.to_nat (n - (0 + 1)))) by lia. cbn [mbind option_bind fmap list_fmap].
  unfold communicator_at at 3. by rewrite senders_lookup.
Qed.

(** ** The pipeline as a transition system *)

(** The stages that are still running, the channels, and the packets each
    stage has sent and received so far. *)
Record Network : Type := mkNetwork {
  stages : gmap N ChannelPipelineCommunicator;
  channels : list Channel;
  sent : N → list PipelineActivationPacket;
  received : N → list PipelineActivationPacket;
}.

Definition append_at (f : N → list PipelineActivationPacket) (s : N) (p : PipelineActivationPacket) :=
  λ s', if s' =? s then f s ++ [p] else f s'.

Inductive network_step : Network → Network → Prop :=
  | net_send n s c p chans :
      stages n !! s = Some c → send_forward c (channels n) p = (Ok (), chans) →
      network_step n (mkNetwork (stages n) chans (append_at (sent n) s p) (received n))
  | net_send_fails n s c p e chans :
      stages n !! s = Some c → send_forward c (channels n) p = (Err e, chans) →
      network_step n (mkNetwork (stages n) chans (sent n) (received n))
  | net_recv n s c p chans :
      stages n !! s = Some c → recv_forward c (channels n) = Some (Ok p, chans) →
      network_step n (mkNetwork (stages n) chans (sent n) (append_at (received n) s p))
  | net_recv_fails n s c e chans :
      stages n !! s = Some c → recv_forward c (channels n) = Some (Err e, chans) →
      network_step n (mkNetwork (stages n) chans (sent n) (received n))
  | net_drop n s c :
      stages n !! s = Some c →
      network_step n (mkNetwork (delete s (stages n))
        (drop_receiver (drop_sender (channels n) (forward_sender c)) (forward_receiver c)) (sent n) (received n)).

(** The network a created pipeline starts from. *)
Definition network_start (comms : list ChannelPipelineCommunicator) (chans : list Channel) : Network :=
  mkNetwork (list_to_map ((λ c, (stage c, c)) <$> comms)) chans (λ _, []) (λ _, []).

Definition network_reachable (n : N) (net : Network) : Prop :=
  ∃ comms chans, create_pipeline n = Some (Ok (comms, chans)) ∧ rtc network_step (network_start comms chans) net.

(** The link from stage [s] to stage [s + 1]. *)
Definition link_wf (net : Network) (s : N) (ch : Channel) : Prop :=
  Forall (λ p, stage_from p = s ∧ stage_to p = s + 1) (in_flight ch) ∧
  Forall (λ p, stage_from p = s ∧ stage_to p = s + 1) (sent net s) ∧
  ∃ lost, sent net s = received net (s + 1) ++ in_flight ch ++ lost ∧
    (receiver_alive ch = true → lost = []) ∧ (receiver_alive ch = false → in_flight ch = []).

Record network_wf (n : N) (net : Network) : Prop := {
  nw_stages : ∀ s c, stages net !! s = Some c → c = communicator_at n s ∧ s < n;
  nw_channels : len (channels net) = n - 1;
  nw_links : ∀ s ch, channels net !! N.to_nat s = Some ch → link_wf net s ch;
  nw_first : received net 0 = [];
  nw_receivers : ∀ s c ch, stages net !! s = Some c → 0 < s → channels net !! N.to_nat (s - 1) = Some ch →
    receiver_alive ch = true;
}.

Lemma send_forward_inv n s channels p res chans :
  send_forward (communicator_at n s) channels p = (res, chans) →
  match res with
  | Ok _ => s + 1 < n ∧ stage_from p = s ∧ stage_to p = s + 1 ∧
      ∃ ch, channels !! N.to_nat s = Some ch ∧ receiver_alive ch = true ∧
        chans = <[N.to_nat s := mkChannel (in_flight ch ++ [p]) (sender_alive ch) true]> channels
  | Err _ => chans = channels
  end.
Proof.
  unfold send_forward, communicator_at. cbn [forward_sender stage].
  destruct (N.ltb_spec (s + 1) n); [|by intros [= <- <-]].
  destruct (N.eqb_spec (stage_from p) s); [|by intros [= <- <-]].
  destruct (N.eqb_spec (stage_to p) (s + 1)); [|by intros [= <- <-]]. cbn [negb].
  destruct (channels !! N.to_nat s) as [ch|]; [|by intros [= <- <-]].
  destruct (receiver_alive ch) eqn:Ha; intros [= <- <-]; [|done]. eauto 10.
Qed.

(** Receiving on a well-formed link takes the oldest packet, and the packet is
    for this stage. *)
Lemma recv_forward_inv n s net res chans :
  network_wf n net → recv_forward (communicator_at n s) (channels net) = Some (res, chans) →
  match res with
  | Ok p => 0 < s ∧ ∃ ch rest, channels net !! N.to_nat (s - 1) = Some ch ∧ in_flight ch = p :: rest ∧
      chans = <[N.to_nat (s - 1) := mkChannel rest (sender_alive ch) (receiver_alive ch)]> (channels net)
  | Err e => chans = channels net ∧ (∀ expected actual, e ≠ StageMismatch expected actual)
  end.
Proof.
  intros Wf. unfold recv_forward, communicator_at. cbn [forward_receiver stage].
  destruct (N.ltb_spec 0 s) as [Hs|]; [|by intros [= <- <-]].
  destruct (channels net !! N.to_nat (s - 1)) as [ch|] eqn:Hch; [|by intros [= <- <-]].
  destruct (in_flight ch) as [|p rest] eqn:Hin; [destruct (sender_alive ch); [done|by intros [= <- <-]]|].
  destruct (nw_links _ _ Wf _ _ Hch) as (Hf&_). rewrite Hin in Hf. inversion Hf as [|?? [_ Hto] _]; subst.
  rewrite Hto. replace (s - 1 + 1) with s by lia. rewrite N.eqb_refl. intros [= <- <-]. split; [done|]. eauto.
Qed.

Lemma lookup_insert_N {A} (l : list A) (i j : N) x y :
  <[N.to_nat i := x]> l !! N.to_nat j = Some y → (j = i ∧ y = x) ∨ (j ≠ i ∧ l !! N.to_nat j = Some y).
Proof.
  intros [(Hij&->&_)|(?&?)]%list_lookup_insert_Some; [left|right].
  - apply N2Nat.inj in Hij as <-. done.
  - split; [congruence|done].
Qed.

(** What dropping the two ends of stage [s] leaves of a channel. *)
Definition drop_ends (n s : N) (channels : list Channel) : list Channel :=
  drop_receiver (drop_sender channels (forward_sender (communicator_at n s)))
    (forward_receiver (communicator_at n s)).

Lemma alter_lookup_inv (f : Channel → Channel) (l : list Channel) (i j : nat) y :
  alter f i l !! j = Some y → ∃ x, l !! j = Some x ∧ y = if decide (i = j) then f x else x.
Proof.
  destruct (decide (i = j)) as [->|].
  - rewrite list_lookup_alter_eq. destruct (l !! j); [|done]. intros [= <-]. eauto.
  - rewrite list_lookup_alter_ne by done. eauto.
Qed.

Lemma drop_ends_lookup n s channels i ch :
  drop_ends n s channels !! i = Some ch →
  ∃ ch0, channels !! i = Some ch0 ∧
    ((0 < s ∧ i = N.to_nat (s - 1) ∧ in_flight ch = [] ∧ receiver_alive ch = false) ∨
     (in_flight ch = in_flight ch0 ∧ receiver_alive ch = receiver_alive ch0)).
Proof.
  unfold drop_ends, drop_receiver, drop_sender, communicator_at. cbn [forward_sender forward_receiver].
  intros Hch. assert (∃ ch1, (if s + 1 <? n then alter (λ ch, mkChannel (in_flight ch) false (receiver_alive ch)) (N.to_nat s) channels
    else channels) !! i = Some ch1 ∧
    ((0 < s ∧ i = N.to_nat (s - 1) ∧ in_flight ch = [] ∧ receiver_alive ch = false) ∨ ch = ch1)) as (ch1&H1&Hcase).
  { destruct (N.ltb_spec 0 s); destruct (s + 1 <? n); cbn in Hch; eauto;
      apply alter_lookup_inv in Hch as (x&Hx&->); exists x; (split; [done|]); case_decide; subst; eauto. }
  assert (∃ ch0, channels !! i = Some ch0 ∧ in_flight ch1 = in_flight ch0 ∧ receiver_alive ch1 = receiver_alive ch0)
    as (ch0&H0&Hin&Hal).
  { destruct (s + 1 <? n); [|by eauto]. apply alter_lookup_inv in H1 as (x&Hx&->). exists x. by case_decide. }
  exists ch0. split; [done|]. destruct Hcase as [?| ->]; eauto.
Qed.

Lemma length_drop_ends n s channels : length (drop_ends n s channels) = length channels.
Proof.
  unfold drop_ends, drop_receiver, drop_sender.
  destruct (forward_sender _), (forward_receiver _); by rewrite ?length_alter.
Qed.

Lemma drop_stage_wf n net s c :
  network_wf n net → stages net !! s = Some c →
  network_wf n (mkNetwork (delete s (stages net)) (drop_ends n s (channels net)) (sent net) (received net)).
Proof.
  intros [Hst Hl Hk H0 Hr] Hs. split; cbn.
  - intros s' c' [_ Hs']%lookup_delete_Some. by apply Hst.
  - unfold len in *. by rewrite length_drop_ends.
  - intros s' ch (ch0&Hch0&Hcase)%drop_ends_lookup. destruct (Hk s' ch0 Hch0) as (Hf&Hsent&lost&Heq&H1&H2).
    destruct Hcase as [(_&_&Hin&Hal)|[Hin Hal]].
    + split; [by rewrite Hin|]. split; [done|]. exists (in_flight ch0 ++ lost). rewrite Hin, Hal. done.
    + split; [by rewrite Hin|]. split; [done|]. exists lost. by rewrite Hin, Hal.
  - done.
  - intros s' c' ch [Hne Hs']%lookup_delete_Some Hpos (ch0&Hch0&Hcase)%drop_ends_lookup.
    destruct Hcase as [(Hp&Heq&_)|[_ ->]]; [lia|]. by eapply Hr.
Qed.

Lemma network_step_wf n net net' : network_step net net' → network_wf n net → network_wf n net'.
Proof.
  intros Hstep Wf. pose proof Wf as [Hst Hl Hk H0 Hr].
  destruct Hstep as [net s c p chans Hc Hsend|net s c p e chans Hc Hsend|net s c p chans Hc Hrecv
                    |net s c e chans Hc Hrecv|net s c Hc]; destruct (Hst s c Hc) as [-> Hsn].
  - apply send_forward_inv in Hsend as (_&Hfrom&Hto&ch&Hch&Halive&->).
    split; [done|by unfold len in *; cbn; rewrite length_insert| |done|].
    + intros s' ch' Hs'. cbn in Hs'. apply lookup_insert_N in Hs' as [[-> ->]|[Hne Hs']].
      * destruct (Hk s ch Hch) as (Hf&Hsent&lost&Heq&Hlost&_). rewrite (Hlost Halive), app_nil_r in Heq.
        unfold link_wf, append_at. cbn. rewrite N.eqb_refl.
        split; [by apply Forall_app; split; [|constructor]|]. split; [by apply Forall_app; split; [|constructor]|].
        exists []. rewrite Heq, app_nil_r, app_assoc. done.
      * destruct (Hk s' ch' Hs') as (?&?&?). unfold link_wf, append_at. cbn. by rewrite (proj2 (N.eqb_neq s' s)).
    + intros s' c' ch' Hs' Hpos Hch'. cbn in Hch'. apply lookup_insert_N in Hch' as [[_ ->]|[_ Hch']]; [done|by eapply Hr].
  - apply send_forward_inv in Hsend as ->. by split.
  - apply (recv_forward_inv n) in Hrecv as (Hs0&ch&rest&Hch&Hin&->); [|done].
    split; [done|by unfold len in *; cbn; rewrite length_insert| | |].
    + intros s' ch' Hs'. cbn in Hs'. apply lookup_insert_N in Hs' as [[-> ->]|[Hne Hs']].
      * destruct (Hk _ ch Hch) as (Hf&Hsent&lost&Heq&Hl1&Hl2). rewrite Hin in *. inversion Hf; subst.
        unfold link_wf, append_at. cbn. replace (s - 1 + 1) with s in * by lia. rewrite N.eqb_refl.
        split; [done|]. split; [done|]. exists lost. rewrite Heq, <-app_assoc. split; [done|]. split; [done|].
        intros Hd. by specialize (Hl2 Hd).
      * destruct (Hk s' ch' Hs') as (?&?&?). unfold link_wf, append_at. cbn. by rewrite (proj2 (N.eqb_neq (s' + 1) s)) by lia.
    + cbn. unfold append_at. by rewrite (proj2 (N.eqb_neq 0 s)) by lia.
    + intros s' c' ch' Hs' Hpos Hch'. cbn in Hch'. apply lookup_insert_N in Hch' as [[Heq ->]|[_ Hch']]; [|by eapply Hr].
      cbn. eapply (Hr s); done.
  - apply (recv_forward_inv n) in Hrecv as [-> _]; [|done]. by split.
  - by eapply drop_stage_wf.
Qed.

Lemma network_reachable_wf n net : 0 < n → network_reachable n net → network_wf n net.
Proof.
  intros Hn (comms&chans&Hc&Hr). rewrite (create_pipeline_eq n Hn) in Hc. injection Hc as <- <-.
  assert (network_wf n (network_start (communicator_at n <$> nrange 0 n)
    ((λ _, mkChannel [] true true) <$> nrange 0 (n - 1)))) as Wf.
  { split; cbn.
    - intros s c Hs%elem_of_list_to_map_2. rewrite <-list_fmap_compose in Hs.
      apply list_elem_of_fmap in Hs as (i&[= -> ->]&Hi%elem_of_nrange). split; [done|lia].
    - unfold len. rewrite length_fmap. apply (len_nrange 0 (n - 1)) || (pose proof (len_nrange 0 (n - 1)) as Hl; unfold len in Hl; lia).
    - intros s ch Hs. rewrite list_lookup_fmap in Hs. destruct (nrange 0 (n - 1) !! N.to_nat s); [|done].
      injection Hs as <-. split; [by constructor|]. split; [by constructor|]. by exists [].
    - done.
    - intros s c ch _ _ Hs. rewrite list_lookup_fmap in Hs. destruct (nrange 0 (n - 1) !! _); [|done].
      by injection Hs as <-. }
  induction Hr as [|x y z Hxy _ IH]; [done|]. apply IH. by eapply network_step_wf.
Qed.

(** ** Properties *)

(** The stages tile the layers: every stage gets a range, the first starts
    at layer zero, each next one starts where the one before ended, the last
    ends at the total; the sizes differ by at most one, the larger first, and
    no stage is empty when there are enough layers. *)
Theorem layer_ranges_tile pp total :
  0 < pp →
  ∃ bound : N → N, bound 0 = 0 ∧ bound pp = total ∧
    ∀ s, s < pp →
      layer_range_for_stage s pp total = Ok (bound s, bound (s + 1)) ∧
      total / pp ≤ bound (s + 1) - bound s ≤ total / pp + 1 ∧
      (s + 1 < pp → bound (s + 2) - bound (s + 1) ≤ bound (s + 1) - bound s) ∧
      (pp ≤ total → bound s < bound (s + 1)).
Proof.
  intros Hpp. pose proof (N.div_mod total pp ltac:(lia)) as Hdm. pose proof (N.mod_lt total pp ltac:(lia)) as Hr.
  unfold layer_range_for_stage. revert Hdm Hr. generalize (total / pp) (total mod pp). intros base rem Hdm Hr.
  exists (λ s, s * base + N.min s rem). split; [lia|]. split; [nia|]. intros s Hs.
  rewrite (proj2 (N.eqb_neq pp 0)), (proj2 (N.leb_gt pp s)) by lia. split.
  - destruct (N.ltb_spec s rem); do 2 f_equal; nia.
  - split; [lia|]. split; [lia|]. intros Hle. assert (0 < base) by nia. lia.
Qed.

Lemma layer_ranges_tile_witness :
  ∃ bound : N → N, bound 0 = 0 ∧ bound 4 = 61 ∧
    ∀ s, s < 4 →
      layer_range_for_stage s 4 61 = Ok (bound s, bound (s + 1)) ∧
      61 / 4 ≤ bound (s + 1) - bound s ≤ 61 / 4 + 1 ∧
      (s + 1 < 4 → bound (s + 2) - bound (s + 1) ≤ bound (s + 1) - bound s) ∧
      (4 ≤ 61 → bound s < bound (s + 1)).
Proof. apply (layer_ranges_tile 4 61). lia. Defined.

(** A created pipeline connects each stage to the next: stage [s] sends on
    channel [s] unless it is the last and receives on channel [s - 1] unless it
    is the first; taking the receivers never panics. *)
Theorem created_pipeline_connected n :
  0 < n →
  ∃ comms chans, create_pipeline n = Some (Ok (comms, chans)) ∧ len comms = n ∧ len chans = n - 1 ∧
    ∀ s, s < n → ∃ c, comms !! N.to_nat s = Some c ∧ stage c = s ∧ pp_size c = n ∧
      forward_sender c = (if s + 1 =? n then None else Some s) ∧
      forward_receiver c = (if s =? 0 then None else Some (s - 1)).
Proof.
  intros Hn. eexists _, _. split; [by apply create_pipeline_eq|].
  pose proof (len_nrange 0 n) as H1. pose proof (len_nrange 0 (n - 1)) as H2. unfold len in *.
  rewrite !length_fmap. split; [lia|]. split; [lia|]. intros s Hs. exists (communicator_at n s).
  rewrite list_lookup_fmap, lookup_nrange by lia. cbn. rewrite N2Nat.id. split; [done|]. split; [done|]. split; [done|].
  destruct (N.ltb_spec (s + 1) n), (N.eqb_spec (s + 1) n), (N.ltb_spec 0 s), (N.eqb_spec s 0); (done || lia).
Qed.

Lemma created_pipeline_connected_witness :
  ∃ comms chans, create_pipeline 3 = Some (Ok (comms, chans)) ∧ len comms = 3 ∧ len chans = 3 - 1 ∧
    ∀ s, s < 3 → ∃ c, comms !! N.to_nat s = Some c ∧ stage c = s ∧ pp_size c = 3 ∧
      forward_sender c = (if s + 1 =? 3 then None else Some s) ∧
      forward_receiver c = (if s =? 0 then None else Some (s - 1)).
Proof. apply (created_pipeline_connected 3). lia. Defined.

(** Whatever the interleaving of sends, receives and dropped stages, every
    stage receives what its predecessor sent, in order and without gaps; a
    receive never meets a packet for another stage; and a running stage that
    blocks has received everything its predecessor sent. *)
Theorem pipeline_delivers_in_order n net s :
  0 < n → network_reachable n net → s + 1 < n →
  received net (s + 1) `prefix_of` sent net s ∧
  ∀ c, stages net !! (s + 1) = Some c →
    match recv_forward c (channels net) with
    | Some (Ok p, _) => (received net (s + 1) ++ [p]) `prefix_of` sent net s
    | Some (Err e, _) => e = ChannelClosed ∧ received net (s + 1) = sent net s
    | None => received net (s + 1) = sent net s
    end.
Proof.
  intros Hn Hreach Hs. pose proof (network_reachable_wf n net Hn Hreach) as Wf.
  pose proof Wf as [Hst Hl Hk H0 Hr].
  destruct (lookup_lt_is_Some_2 (channels net) (N.to_nat s)) as [ch Hch]; [unfold len in Hl; lia|].
  destruct (Hk s ch Hch) as (Hf&Hsent&lost&Heq&Halive&Hdead).
  split; [rewrite Heq; by apply prefix_app_r|]. intros c Hc. destruct (Hst _ _ Hc) as [-> _].
  unfold recv_forward, communicator_at. cbn [forward_receiver stage].
  rewrite (proj2 (N.ltb_lt 0 (s + 1))) by lia. replace (s + 1 - 1) with s by lia. rewrite Hch.
  assert (receiver_alive ch = true) as Hal by (eapply (Hr (s + 1)); [done|lia|by replace (s + 1 - 1) with s by lia]).
  rewrite (Halive Hal), app_nil_r in Heq. destruct (in_flight ch) as [|p rest].
  - rewrite app_nil_r in Heq. by destruct (sender_alive ch).
  - inversion Hf as [|?? [_ Hto] _]; subst. rewrite Hto, N.eqb_refl. cbn [negb].
    rewrite Heq. exists rest. by rewrite <-app_assoc.
Qed.

Definition example_packet : PipelineActivationPacket := mkPacket 7 0 1 ["r"%string] [3] 1 [f32_half].

(** Stage 0 has sent one packet that stage 1 has not received yet. *)
Definition example_network : Network :=
  mkNetwork (list_to_map ((λ c, (stage c, c)) <$> (communicator_at 2 <$> [0; 1])))
    [mkChannel [example_packet] true true] (append_at (λ _, []) 0 example_packet) (λ _, []).

Lemma example_network_reachable : network_reachable 2 example_network.
Proof.
  eexists _, _. split; [by apply create_pipeline_eq|]. eapply rtc_l; [|apply rtc_refl].
  apply (net_send (network_start _ _) 0 (communicator_at 2 0) example_packet); by vm_compute.
Qed.

Lemma pipeline_delivers_in_order_witness :
  received example_network 1 `prefix_of` sent example_network 0 ∧
  ∀ c, stages example_network !! 1 = Some c →
    match recv_forward c (channels example_network) with
    | Some (Ok p, _) => (received example_network 1 ++ [p]) `prefix_of` sent example_network 0
    | Some (Err e, _) => e = ChannelClosed ∧ received example_network 1 = sent example_network 0
    | None => received example_network 1 = sent example_network 0
    end.
Proof. apply (pipeline_delivers_in_order 2 example_network 0); [lia|apply example_network_reachable|lia]. Defined.
