(* ===== verification/MoeA2a.v ===== *)
(** * Expert-parallel all-to-all ([crates/sglang-srt/src/distributed/moe_a2a.rs])

    The placement of experts on ranks, the channel communicator that exchanges
    token packets between ranks, and the recombination of expert outputs.  A
    collective call sends one batch to every rank and then receives as many
    batches as there are ranks: sends and receives of different ranks interleave,
    and the channels do not say whose batch, or of which call, is next. *)

From S2P Require Import Prelude Float32.
From Stdlib Require Import SpecFloat.

(** [x + y] of binary32. *)
Definition f32_add (x y : f32) : f32 := SFadd f32_prec f32_emax x y.

Notation EpRank := N (only parsing).

(** [distributed/moe_a2a.rs:12-31] MoeCommError *)
Inductive MoeCommError : Type :=
  | ZeroDimension (name : string)
  | UnevenSharding (total_experts ep_size : N)
  | InvalidExpertId (expert_id total_experts : N)
  | RankOutOfRange (rank ep_size : N)
  | ChannelClosed
  | HiddenDimensionMismatch (expected actual : N).

(** ** Experts *)

(** [distributed/moe_a2a.rs:67-71] ExpertMapping *)
Record ExpertMapping : Type := mkExpertMapping {
  total_experts : N;
  ep_size : N;
  experts_per_rank : N;
}.

(** [distributed/moe_a2a.rs:74-93] ExpertMapping::new *)
Definition ExpertMapping_new (total_experts ep_size : N) : Result MoeCommError ExpertMapping :=
  if total_experts =? 0 then Err (ZeroDimension "total_experts")
  else if ep_size =? 0 then Err (ZeroDimension "ep_size")
  else if negb (total_experts mod ep_size =? 0) then Err (UnevenSharding total_experts ep_size)
  else Ok (mkExpertMapping total_experts ep_size (total_experts / ep_size)).

(** [distributed/moe_a2a.rs:108-116] ExpertMapping::rank_for_expert *)
Definition rank_for_expert (m : ExpertMapping) (expert_id : N) : Result MoeCommError EpRank :=
  if total_experts m <=? expert_id then Err (InvalidExpertId expert_id (total_experts m))
  else Ok (expert_id / experts_per_rank m).

(** [distributed/moe_a2a.rs:119-127] ExpertMapping::local_expert_index *)
Definition local_expert_index (m : ExpertMapping) (expert_id : N) : Result MoeCommError N :=
  if total_experts m <=? expert_id then Err (InvalidExpertId expert_id (total_experts m))
  else Ok (expert_id mod experts_per_rank m).

(** [distributed/moe_a2a.rs:130-148] ExpertMapping::global_expert_id *)
Definition global_expert_id (m : ExpertMapping) (rank : EpRank) (local_index : N) : Result MoeCommError N :=
  if ep_size m <=? rank then Err (RankOutOfRange rank (ep_size m))
  else if experts_per_rank m <=? local_index then Err (InvalidExpertId local_index (experts_per_rank m))
  else Ok (rank * experts_per_rank m + local_index).

(** [distributed/moe_a2a.rs:151-163] ExpertMapping::global_expert_range *)
Definition global_expert_range (m : ExpertMapping) (rank : EpRank) : Result MoeCommError (N * N) :=
  if ep_size m <=? rank then Err (RankOutOfRange rank (ep_size m))
  else let start := rank * experts_per_rank m in Ok (start, start + experts_per_rank m).

(** ** Packets *)

(** [distributed/moe_a2a.rs:168-176] TokenDispatchPacket *)
Record TokenDispatchPacket : Type := mkTokenDispatchPacket {
  d_token_idx : N;
  d_source_rank : EpRank;
  d_target_rank : EpRank;
  d_expert_id : N;
  d_local_expert_id : N;
  d_routing_weight : f32;
  d_hidden_state : list f32;
}.

(** [distributed/moe_a2a.rs:180-186] TokenCombinePacket *)
Record TokenCombinePacket : Type := mkTokenCombinePacket {
  token_idx : N;
  source_rank : EpRank;
  expert_id : N;
  routing_weight : f32;
  output_state : list f32;
}.

(** Append an element to the list at an index. *)
Definition push_at {A} (i : N) (x : A) (ls : list (list A)) : list (list A) := alter (λ l, l ++ [x]) (N.to_nat i) ls.

(** The batches of an outbound list, one per rank. *)
(** [distributed/moe_a2a.rs:269-280] ChannelMoeCommunicator::dispatch_all_to_all (partition) *)
Fixpoint partition_loop {P} (dest : P → EpRank) (ep_size : N) (partitioned : list (list P)) (outbound : list P)
    : Result MoeCommError (list (list P)) :=
  match outbound with
  | [] => Ok partitioned
  | packet :: rest =>
      if ep_size <=? dest packet then Err (RankOutOfRange (dest packet) ep_size)
      else partition_loop dest ep_size (push_at (dest packet) packet partitioned) rest
  end.

Definition partition {P} (dest : P → EpRank) (ep_size : N) (outbound : list P) : Result MoeCommError (list (list P)) :=
  partition_loop dest ep_size (replicate (N.to_nat ep_size) []) outbound.

(** [distributed/moe_a2a.rs:269-280] ChannelMoeCommunicator::dispatch_all_to_all (partition) *)
Definition dispatch_batches : N → list TokenDispatchPacket → Result MoeCommError (list (list TokenDispatchPacket)) := partition d_target_rank.

(** [distributed/moe_a2a.rs:308-319] ChannelMoeCommunicator::combine_all_to_all (partition) *)
Definition combine_batches : N → list TokenCombinePacket → Result MoeCommError (list (list TokenCombinePacket)) := partition source_rank.

(** ** Recombination *)

(** [distributed/moe_a2a.rs:367-369] recombine_token_states (accumulate) *)
Definition accumulate (row : list f32) (weight : f32) (output : list f32) : list f32 :=
  zip_with (λ dst src, f32_add dst (f32_mul weight src)) row output.

(** [distributed/moe_a2a.rs:352-370] recombine_token_states (loop) *)
Fixpoint recombine_loop (packets : list TokenCombinePacket) (num_tokens hidden_dim : N) (combined : list (list f32))
    : Result MoeCommError (list (list f32)) :=
  match packets with
  | [] => Ok combined
  | packet :: rest =>
      if num_tokens <=? token_idx packet then Err (InvalidExpertId (token_idx packet) num_tokens)
      else if negb (len (output_state packet) =? hidden_dim)
      then Err (HiddenDimensionMismatch hidden_dim (len (output_state packet)))
      else recombine_loop rest num_tokens hidden_dim
             (alter (λ row, accumulate row (routing_weight packet) (output_state packet)) (N.to_nat (token_idx packet)) combined)
  end.

(** [distributed/moe_a2a.rs:345-373] recombine_token_states *)
Definition recombine_token_states (packets : list TokenCombinePacket) (num_tokens hidden_dim : N)
    : Result MoeCommError (list (list f32)) :=
  recombine_loop packets num_tokens hidden_dim (replicate (N.to_nat num_tokens) (replicate (N.to_nat hidden_dim) f32_zero)).

(** ** The communicator *)

(** Packets of either collective. *)
Inductive Packet : Type :=
  | Dispatch (p : TokenDispatchPacket)
  | Combine (p : TokenCombinePacket).

Definition packet_dest (p : Packet) : EpRank := match p with Dispatch p => d_target_rank p | Combine p => source_rank p end.

Definition upd {A} (f : N → A) (k : N) (v : A) : N → A := λ x, if decide (x = k) then v else f x.

Definition upd2 {A} (f : bool → N → A) (c : bool) (k : N) (v : A) : bool → N → A :=
  λ c' k', if decide (c' = c ∧ k' = k) then v else f c' k'.

(** Where a rank is in a collective call. *)
Inductive Pc : Type :=
  | Idle
  | Sending (next : N) (batches : list (list Packet))
  | Receiving (got : list (N * N * list Packet)).

(** The calls of a rank are numbered; [queue c r] is the channel of collective [c] into rank [r], its batches marked with their
    sender and call, which the code does not see.  [sent] and [inbound] record what a call sent and received. *)
Record Network : Type := mkNetwork {
  call : N → N;
  pc : N → Pc;
  queue : bool → N → list (N * N * list Packet);
  sent : N → N → option (list (list Packet));
  inbound : N → N → option (list (N * N * list Packet));
}.

(** [distributed/moe_a2a.rs:220-252] ChannelMoeCommunicator::create_group *)
Definition create_group : Network :=
  mkNetwork (λ _, 0) (λ _, Idle) (λ _ _, []) (λ _ _, None) (λ _ _, None).

Section Network.
(** The size of the group, and which collective the calls of a rank are: [true] for dispatch. *)
Context (n : N) (collective : N → bool).

(** [distributed/moe_a2a.rs:264-301] ChannelMoeCommunicator::dispatch_all_to_all, combine_all_to_all *)
Inductive rank_step : Network → Network → Prop :=
  | step_start s r outbound batches :
      r < n → pc s r = Idle → partition packet_dest n outbound = Ok batches →
      rank_step s (mkNetwork (call s) (upd (pc s) r (Sending 0 batches)) (queue s)
                     (upd (sent s) r (upd (sent s r) (call s r) (Some batches))) (inbound s))
  | step_send s r next batches batch :
      r < n → pc s r = Sending next batches → batches !! N.to_nat next = Some batch →
      let c := collective (call s r) in
      rank_step s (mkNetwork (call s) (upd (pc s) r (Sending (next + 1) batches))
                     (upd2 (queue s) c next (queue s c next ++ [(r, call s r, batch)]))
                     (sent s) (inbound s))
  | step_sent s r batches :
      r < n → pc s r = Sending n batches →
      rank_step s (mkNetwork (call s) (upd (pc s) r (Receiving [])) (queue s) (sent s) (inbound s))
  | step_receive s r got b rest :
      r < n → pc s r = Receiving got → len got < n →
      let c := collective (call s r) in
      queue s c r = b :: rest →
      rank_step s (mkNetwork (call s) (upd (pc s) r (Receiving (got ++ [b])))
                     (upd2 (queue s) c r rest) (sent s) (inbound s))
  | step_return s r got :
      r < n → pc s r = Receiving got → len got = n →
      rank_step s (mkNetwork (upd (call s) r (call s r + 1)) (upd (pc s) r Idle) (queue s) (sent s)
                     (upd (inbound s) r (upd (inbound s r) (call s r) (Some got)))).

End Network.

(** ** Placement of experts *)

(** Experts and places correspond one to one, and a rank's range lists the experts placed on it. *)
Theorem expert_placement_bijective total eps m :
  ExpertMapping_new total eps = Ok m →
  (∀ e, e < total → ∃ r i, rank_for_expert m e = Ok r ∧ local_expert_index m e = Ok i ∧ r < eps ∧ i < experts_per_rank m ∧
     global_expert_id m r i = Ok e) ∧
  (∀ r i, r < eps → i < experts_per_rank m → ∃ e, global_expert_id m r i = Ok e ∧ e < total ∧ rank_for_expert m e = Ok r ∧
     local_expert_index m e = Ok i) ∧
  (∀ r, r < eps → ∃ lo hi, global_expert_range m r = Ok (lo, hi) ∧ ∀ e, e < total → (rank_for_expert m e = Ok r ↔ lo ≤ e < hi)).
Proof.
  unfold ExpertMapping_new. destruct (N.eqb_spec total 0) as [|Ht]; [done|]. destruct (N.eqb_spec eps 0) as [|He]; [done|].
  destruct (N.eqb_spec (total mod eps) 0) as [Hm|]; [|done]. cbn [negb]. intros [= <-].
  set (k := total / eps). assert (total = eps * k) as Htot by (unfold k; pose proof (N.div_mod total eps He); lia).
  assert (k ≠ 0) as Hk by (intros Hk; rewrite Hk in Htot; lia).
  clearbody k. unfold rank_for_expert, local_expert_index, global_expert_id, global_expert_range. cbn.
  assert (∀ e, e < total → e / k < eps) as Hrank.
  { intros e Hlt. apply N.Div0.div_lt_upper_bound. lia. }
  assert (∀ r i, r < eps → i < k → r * k + i < total) as Hglob by (intros r i ? ?; rewrite Htot; nia).
  split_and!.
  - intros e Hlt. destruct (N.leb_spec total e); [lia|]. exists (e / k), (e mod k). pose proof (Hrank e Hlt). pose proof (N.mod_lt e k Hk).
    destruct (N.leb_spec eps (e / k)); [lia|]. destruct (N.leb_spec k (e mod k)); [lia|]. split_and!; try done.
    f_equal. pose proof (N.div_mod e k Hk). lia.
  - intros r i Hr Hi. exists (r * k + i). specialize (Hglob r i Hr Hi). destruct (N.leb_spec eps r); [lia|]. destruct (N.leb_spec k i); [lia|].
    destruct (N.leb_spec total (r * k + i)); [lia|]. split_and!; [done|done| |]; f_equal.
    + rewrite N.div_add_l by done. rewrite N.div_small by done. lia.
    + rewrite N.add_comm, N.Div0.mod_add. by apply N.mod_small.
  - intros r Hr. destruct (N.leb_spec eps r); [lia|]. exists (r * k), (r * k + k). split; [done|]. intros e Hlt.
    destruct (N.leb_spec total e); [lia|]. pose proof (N.div_mod e k Hk) as H1. pose proof (N.mod_lt e k Hk) as H2. split.
    + intros [= <-]. clear -H1 H2. revert H1 H2. generalize (e / k) (e mod k). intros q r' ? ?. nia.
    + intros Hr'. f_equal. symmetry. apply (N.div_unique e k r (e - r * k)); [lia|]. rewrite (N.mul_comm k). lia.
Qed.

(** ** Partitioning *)

Lemma partition_loop_spec {P} (dest : P → N) n out : ∀ acc,
  length acc = N.to_nat n →
  match partition_loop dest n acc out with
  | Ok bs => Forall (λ p, dest p < n) out ∧ length bs = N.to_nat n ∧
      ∀ r l, acc !! N.to_nat r = Some l → bs !! N.to_nat r = Some (l ++ filter (λ p, dest p = r) out)
  | Err e => ∃ p, p ∈ out ∧ n ≤ dest p ∧ e = RankOutOfRange (dest p) n
  end.
Proof.
  induction out as [|p out IH]; intros acc Hacc; cbn [partition_loop].
  { split_and!; [constructor|done|]. intros r l ->. by rewrite app_nil_r. }
  destruct (N.leb_spec n (dest p)) as [Hge|Hlt]; [exists p; split_and!; [by left|done|done]|].
  specialize (IH (push_at (dest p) p acc)). unfold push_at in *. rewrite length_alter in IH. specialize (IH Hacc).
  destruct (partition_loop dest n _ out) as [bs|e].
  - destruct IH as (Hall&Hlen&Hb). split_and!; [by constructor|done|]. intros r l Hl.
    destruct (decide (r = dest p)) as [->|Hne].
    + rewrite (Hb _ (l ++ [p])) by (by rewrite list_lookup_alter_eq, Hl). rewrite filter_cons_True by done. by rewrite <-(assoc_L (++)).
    + rewrite (Hb _ l) by (rewrite list_lookup_alter_ne by lia; done). by rewrite filter_cons_False by congruence.
  - destruct IH as (q&?&?&?). exists q. split_and!; [by right|done|done].
Qed.

(** Every packet goes to the batch of its rank, in order; an unknown rank refuses the whole list. *)
Theorem partition_correct {P} (dest : P → N) n outbound :
  match partition dest n outbound with
  | Ok batches => Forall (λ p, dest p < n) outbound ∧ batches = (λ r, filter (λ p, dest p = r) outbound) <$> nrange 0 n
  | Err e => ∃ p, p ∈ outbound ∧ n ≤ dest p ∧ e = RankOutOfRange (dest p) n
  end.
Proof.
  pose proof (partition_loop_spec dest n outbound (replicate (N.to_nat n) []) (length_replicate _ _)) as H. unfold partition.
  destruct (partition_loop _ _ _ _) as [bs|e]; [|done]. destruct H as (Hall&Hlen&Hb). split; [done|].
  apply list_eq. intros i. rewrite list_lookup_fmap. destruct (decide (i < N.to_nat n)%nat) as [Hi|Hi].
  - specialize (Hb (N.of_nat i) []). rewrite Nat2N.id in Hb. rewrite Hb by (by apply lookup_replicate_2).
    rewrite (lookup_nrange 0 n i) by lia. cbn. do 2 f_equal.
  - rewrite !lookup_ge_None_2; [done|..]; [|lia]. pose proof (len_nrange 0 n) as Hn. unfold len in Hn. lia.
Qed.

(** ** Recombination *)

Definition packet_ok (num_tokens hidden_dim : N) (p : TokenCombinePacket) : Prop :=
  token_idx p < num_tokens ∧ len (output_state p) = hidden_dim.

Lemma length_accumulate row w out : length out = length row → length (accumulate row w out) = length row.
Proof. intros. unfold accumulate. rewrite length_zip_with. lia. Qed.

Lemma recombine_loop_spec nt hd packets : ∀ combined,
  length combined = N.to_nat nt → Forall (λ row, len row = hd) combined →
  match recombine_loop packets nt hd combined with
  | Ok rows => Forall (packet_ok nt hd) packets ∧ length rows = N.to_nat nt ∧ Forall (λ row, len row = hd) rows ∧
      ∀ t row, combined !! N.to_nat t = Some row →
        rows !! N.to_nat t = Some (foldl (λ row p, accumulate row (routing_weight p) (output_state p)) row (filter (λ p, token_idx p = t) packets))
  | Err e => ∃ pre p post, packets = pre ++ p :: post ∧ Forall (packet_ok nt hd) pre ∧ ¬ packet_ok nt hd p ∧
      e = if nt <=? token_idx p then InvalidExpertId (token_idx p) nt else HiddenDimensionMismatch hd (len (output_state p))
  end.
Proof.
  induction packets as [|p packets IH]; intros combined Hlen Hrows; cbn [recombine_loop]; [done|].
  destruct (N.leb_spec nt (token_idx p)) as [Hge|Hlt].
  { exists [], p, packets. split_and!; [done|constructor|intros [? _]; lia|]. destruct (N.leb_spec nt (token_idx p)); [done|lia]. }
  destruct (N.eqb_spec (len (output_state p)) hd) as [Hhd|Hhd]; cbn [negb].
  2: { exists [], p, packets. split_and!; [done|constructor|by intros [_ ?]|]. destruct (N.leb_spec nt (token_idx p)); [lia|done]. }
  set (combined' := alter _ _ combined).
  assert (Forall (λ row, len row = hd) combined') as Hrows'.
  { apply Forall_alter; [done|]. intros row Hrow Hl. rewrite <-Hl. unfold len in *. f_equal. apply length_accumulate. lia. }
  specialize (IH combined'). unfold combined' in IH at 1. rewrite length_alter in IH. specialize (IH Hlen Hrows').
  destruct (recombine_loop packets nt hd combined') as [rows|e].
  - destruct IH as (Hall&?&?&Hr). split_and!; [by constructor|done|done|]. intros t row Hrow.
    destruct (decide (token_idx p = t)) as [<-|Hne].
    + rewrite (Hr _ (accumulate row (routing_weight p) (output_state p))) by (unfold combined'; by rewrite list_lookup_alter_eq, Hrow).
      by rewrite filter_cons_True.
    + rewrite (Hr _ row) by (unfold combined'; rewrite list_lookup_alter_ne by lia; done). by rewrite filter_cons_False.
  - destruct IH as (pre&q&post&->&Hpre&Hq&->). exists (p :: pre), q, post. split_and!; [done|by constructor|done|done].
Qed.

(** Each token's row is the sum, in the order of the packets, of its weighted expert outputs; the first packet that does not fit
    decides the error. *)
Theorem recombine_correct packets nt hd :
  match recombine_token_states packets nt hd with
  | Ok rows => Forall (packet_ok nt hd) packets ∧ len rows = nt ∧
      ∀ t, t < nt → ∃ row, rows !! N.to_nat t = Some row ∧ len row = hd ∧
        row = foldl (λ row p, accumulate row (routing_weight p) (output_state p)) (replicate (N.to_nat hd) f32_zero)
                (filter (λ p, token_idx p = t) packets)
  | Err e => ∃ pre p post, packets = pre ++ p :: post ∧ Forall (packet_ok nt hd) pre ∧ ¬ packet_ok nt hd p ∧
      e = if nt <=? token_idx p then InvalidExpertId (token_idx p) nt else HiddenDimensionMismatch hd (len (output_state p))
  end.
Proof.
  unfold recombine_token_states. set (zeros := replicate _ (replicate _ f32_zero)).
  pose proof (recombine_loop_spec nt hd packets zeros (length_replicate _ _)) as H.
  assert (Forall (λ row, len row = hd) zeros) as Hz.
  { apply Forall_replicate. unfold len. rewrite length_replicate. lia. }
  specialize (H Hz). destruct (recombine_loop packets nt hd zeros) as [rows|e]; [|done].
  destruct H as (Hall&Hlen&Hrows&Hr). split_and!; [done|unfold len; lia|]. intros t Ht.
  specialize (Hr t (replicate (N.to_nat hd) f32_zero)). unfold zeros in Hr. rewrite lookup_replicate_2 in Hr by lia. specialize (Hr eq_refl).
  eexists. split_and!; [exact Hr| |done]. rewrite Forall_forall in Hrows. by apply Hrows, (list_elem_of_lookup_2 _ _ _ Hr).
Qed.

(** ** The exchange *)

Section Exchange.
Context (n : N) (collective : N → bool).

Definition senders (got : list (N * N * list Packet)) : list N := (λ b, b.1.1) <$> got.

(** Rank [q] has sent the batch of its call [p] to rank [r]. *)
Definition sent_to (s : Network) (q p r : N) : Prop :=
  r < n ∧ (p < call s q ∨ call s q = p ∧ match pc s q with Sending next _ => r < next | Receiving _ => True | Idle => False end).

(** Rank [r] has received the batch of call [p] of rank [q]. *)
Definition got_from (s : Network) (r p q : N) : Prop :=
  p < call s r ∨ call s r = p ∧ match pc s r with Receiving got => q ∈ senders got | _ => False end.

(** A batch that is on its way, or was received, is the one its sender made for the rank. *)
Definition genuine (s : Network) (r q p : N) (b : list Packet) : Prop :=
  q < n ∧ sent_to s q p r ∧ ∃ bs, sent s q p = Some bs ∧ bs !! N.to_nat r = Some b.

Record net_ok (s : Network) : Prop := {
  no_queue c r q p b : (q, p, b) ∈ queue s c r → collective p = c ∧ genuine s r q p b ∧ ¬ got_from s r p q;
  no_nodup c r : NoDup (fst <$> queue s c r);
  no_pending r q p : q < n → sent_to s q p r → ¬ got_from s r p q → ∃ b, (q, p, b) ∈ queue s (collective p) r;
  no_got r got : pc s r = Receiving got → NoDup (senders got) ∧ ∀ q p b, (q, p, b) ∈ got → p = call s r ∧ genuine s r q p b;
  no_sending r next bs : pc s r = Sending next bs → next ≤ n ∧ length bs = N.to_nat n ∧ sent s r (call s r) = Some bs;
  no_sync r q p : r < n → q < n → p < call s r → sent_to s q p r;
  no_inbound r p got : inbound s r p = Some got → senders got ≡ₚ nrange 0 n ∧ ∀ q p' b, (q, p', b) ∈ got → p' = p ∧ genuine s r q p b;
}.

Lemma upd_eq {A} (f : N → A) k v : upd f k v k = v.
Proof. unfold upd. by rewrite decide_True. Qed.

Lemma upd_ne {A} (f : N → A) k v x : x ≠ k → upd f k v x = f x.
Proof. intros. unfold upd. by rewrite decide_False. Qed.

Lemma elem_of_senders q got : q ∈ senders got ↔ ∃ p b, (q, p, b) ∈ got.
Proof.
  unfold senders. rewrite list_elem_of_fmap. split; [intros ([[q' p] b]&->&?); by exists p, b|intros (p&b&?); by exists (q, p, b)].
Qed.

Lemma genuine_mono s s' r q p b : (∀ r, sent_to s q p r → sent_to s' q p r) →
  (sent_to s q p r → sent s' q p = sent s q p) → genuine s r q p b → genuine s' r q p b.
Proof. intros Hs He (?&Hst&bs&?&?). split_and!; [done|by apply Hs|]. exists bs. split; [|done]. by rewrite He. Qed.

(** A rank that received a call's batch of another rank: that rank had sent it. *)
Lemma got_from_sent s r p q : net_ok s → r < n → q < n → got_from s r p q → sent_to s q p r.
Proof.
  intros Hok Hr Hq [Hlt|[<- Hpc]]; [by apply (no_sync s Hok)|]. destruct (pc s r) as [| |got] eqn:He; try done.
  apply elem_of_senders in Hpc as (p&b&Hin). destruct (no_got s Hok r got He) as [_ Hg]. destruct (Hg _ _ _ Hin) as [-> (_&?&_)]. done.
Qed.

(** The calls of two ranks are never more than one apart. *)
Lemma call_close s r q : net_ok s → r < n → q < n → call s r ≤ call s q + 1.
Proof.
  intros Hok Hr Hq. destruct (N.le_gt_cases (call s r) (call s q + 1)) as [|Hgt]; [done|].
  destruct (no_sync s Hok r q (call s q + 1)) as [_ [?|[? _]]]; lia.
Qed.

Hypothesis alternate : ∀ p, collective (p + 1) = negb (collective p).

Lemma collective_parity p d : collective (p + 2 * d) = collective p.
Proof.
  induction d as [|d IH] using N.peano_ind; [by rewrite N.mul_0_r, N.add_0_r|].
  replace (p + 2 * N.succ d) with (p + 2 * d + 1 + 1) by lia. rewrite !alternate, negb_involutive. done.
Qed.

Lemma same_collective p p' : collective p = collective p' → p < p' → p + 2 ≤ p'.
Proof.
  intros He Hlt. destruct (N.eq_dec p' (p + 1)) as [->|]; [|lia]. rewrite alternate in He. by destruct (collective p).
Qed.

(** The batch at the head of a rank's channel is of the call the rank is in. *)
Lemma head_is_current s r got q p b rest : net_ok s → r < n → pc s r = Receiving got →
  queue s (collective (call s r)) r = (q, p, b) :: rest → p = call s r.
Proof.
  intros Hok Hr Hpc Hq. destruct (no_queue s Hok (collective (call s r)) r q p b) as (Hc&(Hqn&Hst&_)&Hng); [rewrite Hq; by left|].
  destruct (N.lt_trichotomy p (call s r)) as [Hlt|[?|Hgt]]; [|done|].
  - exfalso. apply Hng. by left.
  - exfalso. pose proof (same_collective (call s r) p ltac:(done) Hgt). destruct Hst as [_ Hst].
    assert (p ≤ call s q) by lia. pose proof (call_close s q r Hok Hqn Hr). lia.
Qed.

Lemma start_ok s r outbound batches :
  r < n → pc s r = Idle → partition packet_dest n outbound = Ok batches → net_ok s →
  net_ok (mkNetwork (call s) (upd (pc s) r (Sending 0 batches)) (queue s)
            (upd (sent s) r (upd (sent s r) (call s r) (Some batches))) (inbound s)).
Proof.
  intros Hr Hpc Hpart Hok. set (s' := mkNetwork _ _ _ _ _).
  assert (length batches = N.to_nat n) as Hlen.
  { pose proof (partition_loop_spec packet_dest n outbound (replicate (N.to_nat n) []) (length_replicate _ _)) as H.
    unfold partition in Hpart. rewrite Hpart in H. by destruct H as (_&?&_). }
  assert (∀ q p r', sent_to s' q p r' ↔ sent_to s q p r') as Hst.
  { intros q p r'. unfold sent_to. cbn. destruct (decide (q = r)) as [->|Hne]; [rewrite upd_eq, Hpc|by rewrite upd_ne].
    split; intros [? [?|[? ?]]]; (split; [done|]); try (by left); by lia || done. }
  assert (∀ r' p q, got_from s' r' p q ↔ got_from s r' p q) as Hgf.
  { intros r' p q. unfold got_from. cbn. destruct (decide (r' = r)) as [->|Hne]; [rewrite upd_eq, Hpc|by rewrite upd_ne].
    done. }
  assert (∀ q p r', sent_to s q p r' → sent s' q p = sent s q p) as Hsent.
  { intros q p r' [_ Hs]. cbn. destruct (decide (q = r)) as [->|]; [rewrite upd_eq|by rewrite upd_ne].
    rewrite upd_ne; [done|]. rewrite Hpc in Hs. intros ->. destruct Hs as [?|[_ ?]]; [lia|done]. }
  assert (∀ r' q p b, genuine s r' q p b → genuine s' r' q p b) as Hgen.
  { intros r' q p b. apply genuine_mono; [intros ?; apply Hst|apply Hsent]. }
  destruct Hok as [Hqu Hnd Hpe Hgo Hse Hsy Hin]. split.
  - intros c r' q p b Hb. destruct (Hqu c r' q p b Hb) as (?&?&?). split_and!; [done|by apply Hgen|by rewrite Hgf].
  - done.
  - intros r' q p Hq. rewrite Hst, Hgf. by apply Hpe.
  - intros r' got. cbn. destruct (decide (r' = r)) as [->|Hne]; [by rewrite upd_eq|rewrite upd_ne by done]. intros Hg.
    destruct (Hgo r' got Hg) as [? Hall]. split; [done|]. intros q p b Hb. destruct (Hall q p b Hb). split; [done|by apply Hgen].
  - intros r' next bs. cbn. destruct (decide (r' = r)) as [->|Hne].
    + rewrite !upd_eq. intros [= <- <-]. split_and!; [lia|done|done].
    + rewrite !upd_ne by done. by apply Hse.
  - intros r' q p ? ? ?. apply Hst. by apply Hsy.
  - intros r' p got Hi. destruct (Hin r' p got Hi) as [? Hall]. split; [done|]. intros q p' b Hb. destruct (Hall q p' b Hb).
    split; [done|by apply Hgen].
Qed.

Lemma send_ok s r next batches batch :
  r < n → pc s r = Sending next batches → batches !! N.to_nat next = Some batch → net_ok s →
  let c := collective (call s r) in
  net_ok (mkNetwork (call s) (upd (pc s) r (Sending (next + 1) batches))
            (upd2 (queue s) c next (queue s c next ++ [(r, call s r, batch)]))
            (sent s) (inbound s)).
Proof.
  intros Hr Hpc Hb Hok. cbv zeta. set (c := collective (call s r)). set (s' := mkNetwork _ _ _ _ _).
  destruct (no_sending s Hok r next batches Hpc) as (_&Hlen&Hsent).
  assert (next < n) as Hnext by (apply lookup_lt_Some in Hb; lia).
  assert (∀ q p r', sent_to s' q p r' ↔ sent_to s q p r' ∨ q = r ∧ p = call s r ∧ r' = next) as Hst.
  { intros q p r'. unfold sent_to. cbn. destruct (decide (q = r)) as [->|Hne].
    - rewrite upd_eq, Hpc. split.
      + intros [? [?|[<- ?]]]; [left; split; [done|by left]|]. destruct (N.eq_dec r' next) as [->|]; [by right|left].
        split; [done|right]. split; [done|lia].
      + intros [[? [?|[<- ?]]]|(_&->&->)]; (split; [done|]); [by left|right; split; [done|lia]|right; split; [done|lia]].
    - rewrite upd_ne by done. split; [by left|]. by intros [?|(?&_)]. }
  assert (∀ r' p q, got_from s' r' p q ↔ got_from s r' p q) as Hgf.
  { intros r' p q. unfold got_from. cbn. destruct (decide (r' = r)) as [->|Hne]; [rewrite upd_eq, Hpc|by rewrite upd_ne]. done. }
  assert (∀ r' q p b, genuine s r' q p b → genuine s' r' q p b) as Hgen.
  { intros r' q p b. apply genuine_mono; [intros ? ?; apply Hst; by left|done]. }
  assert (¬ sent_to s r (call s r) next) as Hfresh.
  { unfold sent_to. rewrite Hpc. intros [_ [?|[_ ?]]]; lia. }
  assert (∀ c' r' x, x ∈ queue s' c' r' ↔ x ∈ queue s c' r' ∨ c' = c ∧ r' = next ∧ x = (r, call s r, batch)) as Hqueue.
  { intros c' r' x. cbn. unfold upd2. destruct (decide (c' = c ∧ r' = next)) as [[-> ->]|]; [|naive_solver].
    rewrite elem_of_app, list_elem_of_singleton. naive_solver. }
  pose proof Hok as [Hqu Hnd Hpe Hgo Hse Hsy Hin]. split.
  - intros c' r' q p b [Hx|(->&->&[= -> -> ->])]%Hqueue.
    + destruct (Hqu c' r' q p b Hx) as (?&?&?). split_and!; [done|by apply Hgen|by rewrite Hgf].
    + split_and!; [done| |].
      * split; [done|]. split; [apply Hst; by right|]. by exists batches.
      * rewrite Hgf. intros Hg. by apply Hfresh, got_from_sent.
  - intros c' r'. cbn. unfold upd2. destruct (decide (c' = c ∧ r' = next)) as [[-> ->]|]; [|done]. rewrite fmap_app. apply NoDup_app. split_and!; [done| |].
    + intros [q p] Hx Hy. apply list_elem_of_singleton in Hy. injection Hy as -> ->. apply list_elem_of_fmap in Hx as ([[q' p'] b]&Heq&Hx). cbn in Heq. injection Heq as <- <-.
      destruct (Hqu _ _ _ _ _ Hx) as (_&(_&?&_)&_). done.
    + apply NoDup_singleton.
  - intros r' q p Hq [Hs|(->&->&->)]%Hst Hg.
    + rewrite Hgf in Hg. destruct (Hpe r' q p Hq Hs Hg) as [b ?]. exists b. apply Hqueue. by left.
    + exists batch. apply Hqueue. by right.
  - intros r' got. cbn. destruct (decide (r' = r)) as [->|Hne]; [by rewrite upd_eq|rewrite upd_ne by done]. intros Hg.
    destruct (Hgo r' got Hg) as [? Hall]. split; [done|]. intros q p b Hx. destruct (Hall q p b Hx). split; [done|by apply Hgen].
  - intros r' next' bs. cbn. destruct (decide (r' = r)) as [->|Hne].
    + rewrite !upd_eq. intros [= <- <-]. split_and!; [lia|done|done].
    + rewrite !upd_ne by done. by apply Hse.
  - intros r' q p ? ? ?. apply Hst. left. by apply Hsy.
  - intros r' p got Hi. destruct (Hin r' p got Hi) as [? Hall]. split; [done|]. intros q p' b Hx. destruct (Hall q p' b Hx).
    split; [done|by apply Hgen].
Qed.

Lemma sent_ok s r batches : r < n → pc s r = Sending n batches → net_ok s →
  net_ok (mkNetwork (call s) (upd (pc s) r (Receiving [])) (queue s) (sent s) (inbound s)).
Proof.
  intros Hr Hpc Hok. set (s' := mkNetwork _ _ _ _ _).
  assert (∀ q p r', sent_to s' q p r' ↔ sent_to s q p r') as Hst.
  { intros q p r'. unfold sent_to. cbn. destruct (decide (q = r)) as [->|Hne]; [rewrite upd_eq, Hpc|by rewrite upd_ne].
    split; intros [? [?|[? ?]]]; (split; [done|]); auto. }
  assert (∀ r' p q, got_from s' r' p q ↔ got_from s r' p q) as Hgf.
  { intros r' p q. unfold got_from. cbn. destruct (decide (r' = r)) as [->|Hne]; [rewrite upd_eq, Hpc|by rewrite upd_ne].
    split; intros [?|[? Hx]]; [by left|by apply elem_of_nil in Hx|by left|done]. }
  assert (∀ r' q p b, genuine s r' q p b → genuine s' r' q p b) as Hgen.
  { intros r' q p b. apply genuine_mono; [intros ?; apply Hst|done]. }
  destruct Hok as [Hqu Hnd Hpe Hgo Hse Hsy Hin]. split.
  - intros c r' q p b Hb. destruct (Hqu c r' q p b Hb) as (?&?&?). split_and!; [done|by apply Hgen|by rewrite Hgf].
  - done.
  - intros r' q p Hq. rewrite Hst, Hgf. by apply Hpe.
  - intros r' got. cbn. destruct (decide (r' = r)) as [->|Hne].
    + rewrite upd_eq. intros [= <-]. split; [apply NoDup_nil_2|]. by intros q p b ?%elem_of_nil.
    + rewrite upd_ne by done. intros Hg. destruct (Hgo r' got Hg) as [? Hall]. split; [done|]. intros q p b Hb.
      destruct (Hall q p b Hb). split; [done|by apply Hgen].
  - intros r' next bs. cbn. destruct (decide (r' = r)) as [->|Hne]; [by rewrite upd_eq|rewrite upd_ne by done]. by apply Hse.
  - intros r' q p ? ? ?. apply Hst. by apply Hsy.
  - intros r' p got Hi. destruct (Hin r' p got Hi) as [? Hall]. split; [done|]. intros q p' b Hb. destruct (Hall q p' b Hb).
    split; [done|by apply Hgen].
Qed.

Lemma NoDup_fst_cons (x : N * N * list Packet) l : NoDup (fst <$> x :: l) → NoDup (fst <$> l) ∧ ∀ y, y ∈ l → y.1 ≠ x.1.
Proof.
  intros Hnd. apply NoDup_cons in Hnd as [Hx Hnd]. split; [done|]. intros y Hy He. apply Hx. rewrite <-He. by apply list_elem_of_fmap_2.
Qed.

Lemma receive_ok s r got b rest : r < n → pc s r = Receiving got → len got < n → net_ok s →
  let c := collective (call s r) in
  queue s c r = b :: rest →
  net_ok (mkNetwork (call s) (upd (pc s) r (Receiving (got ++ [b])))
            (upd2 (queue s) c r rest) (sent s) (inbound s)).
Proof.
  intros Hr Hpc Hlen Hok. cbv zeta. set (c := collective (call s r)). intros Hq. set (s' := mkNetwork _ _ _ _ _).
  destruct b as [[q0 p0] b0]. pose proof (head_is_current s r got q0 p0 b0 rest Hok Hr Hpc Hq) as ->.
  assert ((q0, call s r, b0) ∈ queue s c r) as Hhead by (rewrite Hq; by left).
  destruct (no_queue s Hok _ _ _ _ _ Hhead) as (_&Hgen0&Hng0).
  pose proof (no_nodup s Hok c r) as Hndq. rewrite Hq in Hndq. apply NoDup_fst_cons in Hndq as [Hndr Hrest]. cbn [fst] in Hrest.
  assert (∀ q p r', sent_to s' q p r' ↔ sent_to s q p r') as Hst.
  { intros q p r'. unfold sent_to. cbn. destruct (decide (q = r)) as [->|Hne]; [rewrite upd_eq, Hpc|by rewrite upd_ne].
    split; intros [? [?|[? ?]]]; (split; [done|]); auto. }
  assert (∀ r' p q, got_from s' r' p q ↔ got_from s r' p q ∨ r' = r ∧ p = call s r ∧ q = q0) as Hgf.
  { intros r' p q. unfold got_from. cbn. destruct (decide (r' = r)) as [->|Hne].
    - rewrite upd_eq, Hpc. unfold senders. rewrite fmap_app, elem_of_app. cbn. rewrite list_elem_of_singleton. naive_solver.
    - rewrite upd_ne by done. split; [by left|]. by intros [?|(?&_)]. }
  assert (∀ r' q p b, genuine s r' q p b → genuine s' r' q p b) as Hgen.
  { intros r' q p b. apply genuine_mono; [intros ?; apply Hst|done]. }
  assert (∀ c' r' x, x ∈ queue s' c' r' → x ∈ queue s c' r' ∧ ¬ (c' = c ∧ r' = r ∧ x.1 = (q0, call s r))) as Hsub.
  { intros c' r' x. cbn. unfold upd2. destruct (decide (c' = c ∧ r' = r)) as [[-> ->]|]; [|naive_solver]. intros Hx. split; [rewrite Hq; by right|]. intros (_&_&He). by apply (Hrest x). }
  pose proof Hok as [Hqu Hnd Hpe Hgo Hse Hsy Hin]. destruct (Hgo r got Hpc) as [Hndg Hgot]. split.
  - intros c' r' q p b [Hx Hne]%Hsub. destruct (Hqu c' r' q p b Hx) as (Hcp&?&?). split_and!; [done|by apply Hgen|].
    rewrite Hgf. intros [?|(->&->&->)]; [done|]. apply Hne. split_and!; [|done|done]. by rewrite <-Hcp.
  - intros c' r'. cbn. unfold upd2. by destruct (decide (c' = c ∧ r' = r)) as [[-> ->]|].
  - intros r' q p Hqn Hs Hg. rewrite Hst in Hs. rewrite Hgf in Hg.
    destruct (Hpe r' q p Hqn Hs) as [b Hb]; [intros ?; apply Hg; by left|]. exists b. cbn. unfold upd2.
    destruct (decide (collective p = c ∧ r' = r)) as [[Hc ->]|]; [|done].
    rewrite Hc, Hq in Hb. apply elem_of_cons in Hb as [[= -> ->]|?]; [|done]. exfalso. apply Hg. by right.
  - intros r' got'. cbn. destruct (decide (r' = r)) as [->|Hne].
    + rewrite upd_eq. intros [= <-]. split.
      * unfold senders. rewrite fmap_app. apply NoDup_app. split_and!; [done| |apply NoDup_singleton].
        intros q Hx Hy. apply list_elem_of_singleton in Hy as ->. cbn in Hx. apply Hng0. right. split; [done|]. by rewrite Hpc.
      * intros q p b [Hb|Hb]%elem_of_app; [destruct (Hgot q p b Hb); split; [done|by apply Hgen]|].
        apply list_elem_of_singleton in Hb as [= -> -> ->]. split; [done|by apply Hgen].
    + rewrite upd_ne by done. intros Hg. destruct (Hgo r' got' Hg) as [? Hall]. split; [done|]. intros q p b Hb.
      destruct (Hall q p b Hb). split; [done|by apply Hgen].
  - intros r' next bs. cbn. destruct (decide (r' = r)) as [->|Hne]; [by rewrite upd_eq|rewrite upd_ne by done]. by apply Hse.
  - intros r' q p ? ? ?. apply Hst. by apply Hsy.
  - intros r' p got' Hi. destruct (Hin r' p got' Hi) as [? Hall]. split; [done|]. intros q p' b Hb. destruct (Hall q p' b Hb).
    split; [done|by apply Hgen].
Qed.

(** As many distinct senders as ranks are all the ranks. *)
Lemma all_senders got : NoDup (senders got) → (∀ q p b, (q, p, b) ∈ got → q < n) → len got = n → senders got ≡ₚ nrange 0 n.
Proof.
  intros Hnd Hlt Hlen. assert (senders got ⊆+ nrange 0 n) as Hsub.
  { apply NoDup_submseteq; [done|]. intros q (p&b&Hin)%elem_of_senders. apply elem_of_nrange. specialize (Hlt q p b Hin). lia. }
  apply submseteq_length_Permutation; [done|]. unfold senders. rewrite length_fmap.
  pose proof (len_nrange 0 n). unfold len in *. lia.
Qed.

Lemma return_ok s r got : r < n → pc s r = Receiving got → len got = n → net_ok s →
  net_ok (mkNetwork (upd (call s) r (call s r + 1)) (upd (pc s) r Idle) (queue s) (sent s)
            (upd (inbound s) r (upd (inbound s r) (call s r) (Some got)))).
Proof.
  intros Hr Hpc Hlen Hok. set (s' := mkNetwork _ _ _ _ _).
  pose proof Hok as [Hqu Hnd Hpe Hgo Hse Hsy Hin]. destruct (Hgo r got Hpc) as [Hndg Hgot].
  assert (senders got ≡ₚ nrange 0 n) as Hall.
  { apply all_senders; [done| |done]. intros q p b Hb. by destruct (Hgot q p b Hb) as [_ (?&_)]. }
  assert (∀ q, q < n → q ∈ senders got) as Hevery.
  { intros q Hq. rewrite Hall. apply elem_of_nrange. lia. }
  assert (∀ q p r', sent_to s' q p r' ↔ sent_to s q p r') as Hst.
  { intros q p r'. unfold sent_to. cbn. destruct (decide (q = r)) as [->|Hne]; [rewrite !upd_eq, Hpc|by rewrite !upd_ne].
    split; intros [? [?|[? ?]]]; (split; [done|]); try done; [|left; lia|left; lia].
    destruct (N.eq_dec p (call s r)) as [->|]; [by right|left; lia]. }
  assert (∀ r' p q, q < n → got_from s' r' p q ↔ got_from s r' p q) as Hgf.
  { intros r' p q Hq. unfold got_from. cbn. destruct (decide (r' = r)) as [->|Hne]; [rewrite !upd_eq, Hpc|by rewrite !upd_ne].
    split; intros [?|[? ?]]; try done; [|left; lia|left; lia].
    destruct (N.eq_dec p (call s r)) as [->|]; [right; split; [done|by apply Hevery]|left; lia]. }
  assert (∀ r' q p b, genuine s r' q p b → genuine s' r' q p b) as Hgen.
  { intros r' q p b. apply genuine_mono; [intros ?; apply Hst|done]. }
  split.
  - intros c r' q p b Hb. destruct (Hqu c r' q p b Hb) as (?&Hg&?). split_and!; [done|by apply Hgen|]. destruct Hg as [? _]. by rewrite Hgf.
  - done.
  - intros r' q p Hq. rewrite Hst, Hgf by done. by apply Hpe.
  - intros r' got'. cbn. destruct (decide (r' = r)) as [->|Hne]; [by rewrite upd_eq|rewrite !upd_ne by done]. intros Hg.
    destruct (Hgo r' got' Hg) as [? Hall']. split; [done|]. intros q p b Hb. destruct (Hall' q p b Hb). split; [done|by apply Hgen].
  - intros r' next bs. cbn. destruct (decide (r' = r)) as [->|Hne]; [by rewrite upd_eq|rewrite !upd_ne by done]. by apply Hse.
  - intros r' q p Hr' Hq Hp. apply Hst. cbn in Hp. destruct (decide (r' = r)) as [->|Hne]; [rewrite upd_eq in Hp|rewrite upd_ne in Hp by done; by apply Hsy].
    destruct (N.eq_dec p (call s r)) as [->|]; [|apply Hsy; [done|done|lia]].
    destruct (proj1 (elem_of_senders q got) (Hevery q Hq)) as (p&b&Hb). destruct (Hgot q p b Hb) as [-> (_&?&_)]. done.
  - intros r' p got'. cbn. destruct (decide (r' = r)) as [->|Hne]; [rewrite upd_eq|rewrite upd_ne by done].
    + destruct (N.eq_dec p (call s r)) as [->|Hp].
      * rewrite upd_eq. intros [= <-]. split; [done|]. intros q p' b Hb. destruct (Hgot q p' b Hb) as [-> ?]. split; [done|by apply Hgen].
      * rewrite upd_ne by done. intros Hi. destruct (Hin r p got' Hi) as [? Ha]. split; [done|]. intros q p' b Hb. destruct (Ha q p' b Hb).
        split; [done|by apply Hgen].
    + intros Hi. destruct (Hin r' p got' Hi) as [? Ha]. split; [done|]. intros q p' b Hb. destruct (Ha q p' b Hb). split; [done|by apply Hgen].
Qed.

Lemma rank_step_ok s s' : rank_step n collective s s' → net_ok s → net_ok s'.
Proof.
  intros Hstep Hok. destruct Hstep.
  - by eapply start_ok.
  - by eapply send_ok.
  - by eapply sent_ok.
  - by eapply receive_ok.
  - by eapply return_ok.
Qed.

(** C33. Where dispatch and combine alternate, every call of a rank returns exactly the batches that all the ranks made for it in
    their calls of the same number, whatever the interleaving. *)
Theorem alternating_exchange_correct s r p got :
  rtc (rank_step n collective) create_group s → inbound s r p = Some got →
  (λ b, b.1.1) <$> got ≡ₚ nrange 0 n ∧
  ∀ q p' b, (q, p', b) ∈ got → p' = p ∧ ∃ batches, sent s q p = Some batches ∧ batches !! N.to_nat r = Some b.
Proof.
  intros Hrun Hgot. assert (net_ok s) as Hok.
  { assert (net_ok create_group) as H0.
    { split; cbn; try done.
      - by intros c r' q p' b ?%elem_of_nil.
      - intros _ _. apply NoDup_nil_2.
      - intros r' q p' _ [_ [?|[_ ?]]]; [cbn in *; lia|done].
      - intros; lia. }
    clear Hgot. induction Hrun as [|s1 s2 s3 H12 _ IH]; [done|]. by apply IH, (rank_step_ok s1). }
  destruct (no_inbound s Hok r p got Hgot) as [Hall Hgen]. split; [exact Hall|]. intros q p' b Hb.
  destruct (Hgen q p' b Hb) as [-> (_&_&Hs)]. by split.
Qed.

End Exchange.

(** ** Concrete exchanges *)

Ltac net_step tac := eapply rtc_l; [tac; lazy; reflexivity|]; cbn [call pc queue sent inbound]; cbv zeta beta.

(** Two dispatch calls in a row get mixed up: a rank that is still sending its first batches takes both batches of a faster rank
    as its own call's, and none from itself. *)
Theorem repeated_dispatch_mixes_calls :
  ∃ s, rtc (rank_step 2 (λ _, true)) create_group s ∧ inbound s 1 0 = Some [(0, 0, []); (0, 1, [])] ∧
    sent s 1 0 = Some [[]; []].
Proof.
  eexists. split.
  - net_step ltac:(eapply (step_start _ _ _ 0 [])). net_step ltac:(eapply (step_send _ _ _ 0)). net_step ltac:(eapply (step_send _ _ _ 0)).
    net_step ltac:(eapply (step_sent _ _ _ 0)). net_step ltac:(eapply (step_start _ _ _ 1 [])). net_step ltac:(eapply (step_send _ _ _ 1)).
    net_step ltac:(eapply (step_receive _ _ _ 0)). net_step ltac:(eapply (step_receive _ _ _ 0)). net_step ltac:(eapply (step_return _ _ _ 0)).
    net_step ltac:(eapply (step_start _ _ _ 0 [])). net_step ltac:(eapply (step_send _ _ _ 0)). net_step ltac:(eapply (step_send _ _ _ 0)).
    net_step ltac:(eapply (step_send _ _ _ 1)). net_step ltac:(eapply (step_sent _ _ _ 1)). net_step ltac:(eapply (step_receive _ _ _ 1)).
    net_step ltac:(eapply (step_receive _ _ _ 1)). net_step ltac:(eapply (step_return _ _ _ 1)). apply rtc_refl.
  - by vm_compute.
Qed.

Lemma alternating_exchange_correct_witness :
  ∃ s got, rtc (rank_step 1 N.even) create_group s ∧ inbound s 0 0 = Some got ∧ (λ b, b.1.1) <$> got ≡ₚ nrange 0 1 ∧
  ∀ q p' b, (q, p', b) ∈ got → p' = 0 ∧ ∃ batches, sent s q 0 = Some batches ∧ batches !! N.to_nat 0 = Some b.
Proof.
  eassert (rtc (rank_step 1 N.even) create_group _) as Hrun.
  { net_step ltac:(eapply (step_start _ _ _ 0 [])). net_step ltac:(eapply (step_send _ _ _ 0)). net_step ltac:(eapply (step_sent _ _ _ 0)).
    net_step ltac:(eapply (step_receive _ _ _ 0)). net_step ltac:(eapply (step_return _ _ _ 0)). apply rtc_refl. }
  eexists _, _. split; [exact Hrun|]. split; [by vm_compute|].
  eapply (alternating_exchange_correct 1 N.even); [|exact Hrun|by vm_compute].
  intros p. rewrite N.add_1_r, N.even_succ, <-N.negb_even. done.
Defined.

Lemma expert_placement_bijective_witness :
  let m := mkExpertMapping 8 4 2 in
  (∀ e, e < 8 → ∃ r i, rank_for_expert m e = Ok r ∧ local_expert_index m e = Ok i ∧ r < 4 ∧ i < experts_per_rank m ∧
     global_expert_id m r i = Ok e) ∧
  (∀ r i, r < 4 → i < experts_per_rank m → ∃ e, global_expert_id m r i = Ok e ∧ e < 8 ∧ rank_for_expert m e = Ok r ∧
     local_expert_index m e = Ok i) ∧
  (∀ r, r < 4 → ∃ lo hi, global_expert_range m r = Ok (lo, hi) ∧ ∀ e, e < 8 → (rank_for_expert m e = Ok r ↔ lo ≤ e < hi)).
Proof. by apply expert_placement_bijective. Defined.
