(* ===== verification/ModelBatch.v ===== *)
(** * Flattened worker batches ([crates/sglang-srt/src/model_executor.rs], [ModelWorkerBatch])

    The worker runs a batch in flattened form: token ids, positions and cache
    slots of all requests in a row, with offsets and counts per request. *)

From S2P Require Import Prelude Types PageAllocator RadixCache Request.

(** [model_executor.rs:16-33] ModelWorkerBatch *)
Record ModelWorkerBatch : Type := mkModelWorkerBatch {
  mb_forward_mode : ForwardMode;
  mb_request_ids : list RequestId;
  mb_input_ids : list N;
  mb_positions : list N;
  mb_sequence_lengths : list N;
  mb_sequence_token_ids : list N;
  mb_sequence_offsets : list N;
  mb_sequence_token_counts : list N;
  mb_sequence_cache_pages : list CachePageId;
  mb_request_offsets : list N;
  mb_cached_token_counts : list N;
  mb_input_token_counts : list N;
  mb_prefix_cache_pages : list (list CachePageId);
  mb_out_cache_pages : list CachePageId;
  mb_disaggregated_params : list (option DisaggregatedParams);
  mb_data_parallel_ranks : list Z;
}.

(** What one request adds to the flattened fields. *)
Record FlatRequest : Type := mkFlat {
  fl_input_ids : list N;
  fl_positions : list N;
  fl_sequence_length : N;
  fl_sequence_token_ids : list N;
  fl_sequence_token_count : N;
  fl_sequence_cache_pages : list CachePageId;
  fl_input_token_count : N;
}.

(** The slice [input_ids[start_pos..end_pos]] panics when it starts past its end. *)
(** [model_executor.rs:171-203] ModelWorkerBatch::push_prefill_request *)
Definition push_prefill_request (r : ScheduledRequest) : option FlatRequest :=
  let chunk_len := if 0 <? current_chunk_len r then current_chunk_len r else len (uncached_input_ids r) in
  let start_pos := N.max (prompt_tokens_processed r) (len (prefix_cache_pages r)) in
  let end_pos := N.min (start_pos + chunk_len) (len (input_ids r)) in
  let effective_chunk_len := saturating_sub end_pos start_pos in
  let pages := match sequence_cache_pages r with
               | [] => []
               | ps => slice_to (N.min end_pos (len ps)) ps
               end in
  guard (start_pos ≤ end_pos);;
  Some (mkFlat (slice_from start_pos (slice_to end_pos (input_ids r))) (nrange start_pos end_pos) end_pos
          (slice_to end_pos (input_ids r)) end_pos pages effective_chunk_len).

(** The position underflows, and panics, on an empty request. *)
(** [model_executor.rs:205-225] ModelWorkerBatch::push_decode_request *)
Definition push_decode_request (r : ScheduledRequest) : option FlatRequest :=
  let decode_token := default 0 (last (output_ids r)) in
  let total := len (input_ids r) + len (output_ids r) in
  guard (0 < total);;
  Some (mkFlat [decode_token] [total - 1] total (input_ids r ++ output_ids r) total (sequence_cache_pages r) 1).

(** [model_executor.rs:152-168] ModelWorkerBatch::push_request (dispatch) *)
Definition flatten (mode : ForwardMode) (r : ScheduledRequest) : option FlatRequest :=
  match mode with
  | Prefill => push_prefill_request r
  | Decode => push_decode_request r
  | Mixed =>
      match stage r with
      | PrefillForward => push_prefill_request r
      | DecodeForward => push_decode_request r
      | _ => match output_ids r with [] => push_prefill_request r | _ => push_decode_request r end
      end
  end.

(** [model_executor.rs:141-169] ModelWorkerBatch::push_request *)
Definition push_request (b : ModelWorkerBatch) (mode : ForwardMode) (r : ScheduledRequest)
    : option ModelWorkerBatch :=
  f ← flatten mode r;
  Some (mkModelWorkerBatch (mb_forward_mode b) (mb_request_ids b ++ [request_id r])
    (mb_input_ids b ++ fl_input_ids f) (mb_positions b ++ fl_positions f)
    (mb_sequence_lengths b ++ [fl_sequence_length f]) (mb_sequence_token_ids b ++ fl_sequence_token_ids f)
    (mb_sequence_offsets b ++ [len (mb_sequence_token_ids b)])
    (mb_sequence_token_counts b ++ [fl_sequence_token_count f])
    (mb_sequence_cache_pages b ++ fl_sequence_cache_pages f)
    (mb_request_offsets b ++ [len (mb_input_ids b)])
    (mb_cached_token_counts b ++ [forward_prefix_token_count r])
    (mb_input_token_counts b ++ [fl_input_token_count f])
    (mb_prefix_cache_pages b ++ [prefix_cache_pages r]) (mb_out_cache_pages b ++ forward_cache_pages r)
    (mb_disaggregated_params b ++ [disaggregated_params r]) (mb_data_parallel_ranks b ++ [data_parallel_rank r])).

(** [model_executor.rs:62-64] ModelWorkerBatch::from_schedule_batch (loop) *)
Fixpoint push_requests (b : ModelWorkerBatch) (mode : ForwardMode) (rs : list ScheduledRequest)
    : option ModelWorkerBatch :=
  match rs with
  | [] => Some b
  | r :: rs' => b ← push_request b mode r; push_requests b mode rs'
  end.

(** [model_executor.rs:42-67] ModelWorkerBatch::from_schedule_batch *)
Definition from_schedule_batch (batch : ScheduleBatch) : option ModelWorkerBatch :=
  push_requests (mkModelWorkerBatch (forward_mode batch) [] [] [] [] [] [] [] [] [] [] [] [] [] [] [])
    (forward_mode batch) (requests batch).

Inductive BatchFieldError : Type :=
  | FieldLength (name : string) (actual expected : N)
  | InputLengths (input positions slots : N)
  | SequenceLengths (tokens slots : N)
  | InputRangeOverflow
  | SequenceRangeOverflow
  | RangesExceedStorage (request_index : N).

(** [model_executor.rs:232-243] validate_model_worker_batch (field lengths) *)
Definition check_field_lengths (b : ModelWorkerBatch) : Result BatchFieldError unit :=
  let request_count := len (mb_request_ids b) in
  foldr (λ f k, let '(name, actual) := f in
           if negb (actual =? request_count) then Err (FieldLength name actual request_count) else k)
    (Ok ())
    [("request_offsets"%string, len (mb_request_offsets b)); ("input_token_counts"%string, len (mb_input_token_counts b));
     ("sequence_offsets"%string, len (mb_sequence_offsets b));
     ("sequence_token_counts"%string, len (mb_sequence_token_counts b))].

(** [model_executor.rs:261-278] validate_model_worker_batch (loop) *)
Fixpoint check_ranges (b : ModelWorkerBatch) (request_index : N) (l : list ((N * N) * (N * N)))
    : Result BatchFieldError unit :=
  match l with
  | [] => Ok ()
  | ((request_offset, input_count), (sequence_offset, sequence_count)) :: l' =>
      let? input_end := ok_or (checked_add request_offset input_count) InputRangeOverflow in
      let? sequence_end := ok_or (checked_add sequence_offset sequence_count) SequenceRangeOverflow in
      if (len (mb_input_ids b) <? input_end) || (len (mb_sequence_cache_pages b) <? sequence_end)
      then Err (RangesExceedStorage request_index)
      else check_ranges b (request_index + 1) l'
  end.

(** The errors are those of the messages; the fields are as long as the loop
    needs once their lengths are checked. *)
(** [model_executor.rs:228-280] validate_model_worker_batch *)
Definition validate_model_worker_batch (b : ModelWorkerBatch) : Result BatchFieldError unit :=
  let? _ := check_field_lengths b in
  if (negb (len (mb_input_ids b) =? len (mb_positions b))
      || negb (len (mb_input_ids b) =? len (mb_out_cache_pages b)))%bool then
    Err (InputLengths (len (mb_input_ids b)) (len (mb_positions b)) (len (mb_out_cache_pages b)))
  else if negb (len (mb_sequence_token_ids b) =? len (mb_sequence_cache_pages b)) then
    Err (SequenceLengths (len (mb_sequence_token_ids b)) (len (mb_sequence_cache_pages b)))
  else
    check_ranges b 0 (zip (zip (mb_request_offsets b) (mb_input_token_counts b))
                          (zip (mb_sequence_offsets b) (mb_sequence_token_counts b))).

(** ** Layout *)

(** Where the parts of a concatenation start. *)
Fixpoint starts {A B} (acc : N) (g : A → list B) (l : list A) : list N :=
  match l with [] => [] | x :: l' => acc :: starts (acc + len (g x)) g l' end.

Lemma flatten_lengths mode r f :
  flatten mode r = Some f →
  len (fl_input_ids f) = fl_input_token_count f ∧ len (fl_positions f) = fl_input_token_count f ∧
  len (fl_sequence_token_ids f) = fl_sequence_token_count f.
Proof.
  assert (∀ f, push_prefill_request r = Some f → len (fl_input_ids f) = fl_input_token_count f ∧
    len (fl_positions f) = fl_input_token_count f ∧ len (fl_sequence_token_ids f) = fl_sequence_token_count f) as Hp.
  { intros f'. unfold push_prefill_request. cbv zeta. set (st := N.max _ _). set (en := N.min _ _).
    case_guard as Hse; [|done]. cbn [mbind option_bind]. intros [= <-]. cbn. unfold saturating_sub.
    rewrite len_slice_from, !len_slice_to, len_nrange. assert (en ≤ len (input_ids r)) by (subst en; lia). lia. }
  assert (∀ f, push_decode_request r = Some f → len (fl_input_ids f) = fl_input_token_count f ∧
    len (fl_positions f) = fl_input_token_count f ∧ len (fl_sequence_token_ids f) = fl_sequence_token_count f) as Hd.
  { intros f'. unfold push_decode_request. cbv zeta. case_guard as Ht; [|done]. cbn [mbind option_bind].
    intros [= <-]. cbn [fl_input_ids fl_positions fl_input_token_count fl_sequence_token_ids fl_sequence_token_count].
    by rewrite len_app. }
  unfold flatten. destruct mode; [by apply Hp|by apply Hd|]. destruct (stage r); try (by apply Hp); try (by apply Hd);
    destruct (output_ids r); by (apply Hp || apply Hd).
Qed.

Record laid_out (b b' : ModelWorkerBatch) (rs : list ScheduledRequest) (fs : list FlatRequest) : Prop := {
  la_ids : mb_request_ids b' = mb_request_ids b ++ request_ids rs;
  la_input : mb_input_ids b' = mb_input_ids b ++ (fs ≫= fl_input_ids);
  la_positions : mb_positions b' = mb_positions b ++ (fs ≫= fl_positions);
  la_offsets : mb_request_offsets b' = mb_request_offsets b ++ starts (len (mb_input_ids b)) fl_input_ids fs;
  la_counts : mb_input_token_counts b' = mb_input_token_counts b ++ (fl_input_token_count <$> fs);
  la_tokens : mb_sequence_token_ids b' = mb_sequence_token_ids b ++ (fs ≫= fl_sequence_token_ids);
  la_seq_offsets : mb_sequence_offsets b' =
    mb_sequence_offsets b ++ starts (len (mb_sequence_token_ids b)) fl_sequence_token_ids fs;
  la_seq_counts : mb_sequence_token_counts b' = mb_sequence_token_counts b ++ (fl_sequence_token_count <$> fs);
  la_pages : mb_sequence_cache_pages b' = mb_sequence_cache_pages b ++ (fs ≫= fl_sequence_cache_pages);
  la_out : mb_out_cache_pages b' = mb_out_cache_pages b ++ (rs ≫= forward_cache_pages);
  la_cached : mb_cached_token_counts b' = mb_cached_token_counts b ++ (forward_prefix_token_count <$> rs);
  la_disagg : mb_disaggregated_params b' = mb_disaggregated_params b ++ (disaggregated_params <$> rs);
  la_ranks : mb_data_parallel_ranks b' = mb_data_parallel_ranks b ++ (data_parallel_rank <$> rs);
  la_mode : mb_forward_mode b' = mb_forward_mode b;
}.

Lemma push_requests_laid_out mode rs : ∀ b b',
  push_requests b mode rs = Some b' →
  ∃ fs, Forall2 (λ r f, flatten mode r = Some f) rs fs ∧ laid_out b b' rs fs.
Proof.
  induction rs as [|r rs IH]; intros b b'; cbn [push_requests].
  { intros [= <-]. exists []. split; [constructor|]. split; cbn; by rewrite ?app_nil_r. }
  unfold push_request. destruct (flatten mode r) as [f|] eqn:Hf; [|done]. cbn [mbind option_bind].
  intros Hp. destruct (IH _ _ Hp) as (fs&Hfs&[]). exists (f :: fs). split; [by constructor|]. cbn in *.
  split; rewrite ?request_ids_cons, ?bind_cons; cbn [starts fmap list_fmap]; rewrite <-?(assoc_L (++)) in *; cbn [app] in *;
    rewrite ?len_app in *; done.
Qed.

Lemma from_schedule_batch_laid_out batch b :
  from_schedule_batch batch = Some b →
  ∃ fs, Forall2 (λ r f, flatten (forward_mode batch) r = Some f) (requests batch) fs ∧
    laid_out (mkModelWorkerBatch (forward_mode batch) [] [] [] [] [] [] [] [] [] [] [] [] [] [] []) b (requests batch) fs.
Proof. apply push_requests_laid_out. Qed.

Lemma starts_lookup {A B} (g : A → list B) l : ∀ acc i x,
  l !! i = Some x → ∃ s, starts acc g l !! i = Some s ∧
    slice_to (len (g x)) (slice_from (s - acc) (l ≫= g)) = g x ∧ acc ≤ s ∧ s - acc + len (g x) ≤ len (l ≫= g).
Proof.
  induction l as [|y l IH]; intros acc [|i] x Hi; cbn in Hi; [done|done| |].
  - injection Hi as ->. exists acc. cbn [starts]. split; [done|]. rewrite N.sub_diag, bind_cons, len_app. split; [|lia].
    unfold slice_to, slice_from, len. by rewrite Nat2N.id, drop_0, take_app_length.
  - destruct (IH (acc + len (g y)) i x Hi) as (s&Hs&Hsl&Hle&Hlen). exists s. cbn [starts]. split; [done|].
    rewrite bind_cons, len_app. split; [|lia]. rewrite <-Hsl at 2. f_equal. unfold slice_from.
    replace (N.to_nat (s - acc)) with (length (g y) + N.to_nat (s - (acc + len (g y))))%nat by (unfold len in *; lia).
    by rewrite drop_app_add.
Qed.

Lemma length_starts {A B} acc (g : A → list B) l : length (starts acc g l) = length l.
Proof. revert acc. induction l as [|x l IH]; intros acc; [done|]. cbn. by rewrite IH. Qed.

Lemma check_ranges_Ok b l : ∀ i,
  Forall (λ x : (N * N) * (N * N), x.1.1 + x.1.2 ≤ len (mb_input_ids b) ∧ x.2.1 + x.2.2 ≤ len (mb_sequence_cache_pages b)) l →
  len (mb_input_ids b) ≤ usize_MAX → len (mb_sequence_cache_pages b) ≤ usize_MAX →
  check_ranges b i l = Ok ().
Proof.
  induction l as [|[[o c] [so sc]] l IH]; intros i Hl H1 H2; [done|]. apply Forall_cons in Hl as [[Ho Hs] Hl].
  cbn in Ho, Hs. cbn [check_ranges]. unfold checked_add.
  rewrite !(proj2 (N.leb_le _ _)) by lia. cbn [ok_or result_bind].
  rewrite !(proj2 (N.ltb_ge _ _)) by lia. cbn [orb]. by apply IH.
Qed.

Lemma starts_ext {A B C} (g : A → list B) (h : A → list C) l : ∀ acc,
  Forall (λ x, len (g x) = len (h x)) l → starts acc g l = starts acc h l.
Proof.
  induction l as [|x l IH]; intros acc Hl; [done|]. apply Forall_cons in Hl as [Hx Hl]. cbn. by rewrite Hx, IH.
Qed.

Lemma flats_lengths mode rs fs :
  Forall2 (λ r f, flatten mode r = Some f) rs fs →
  Forall (λ f, len (fl_input_ids f) = fl_input_token_count f ∧ len (fl_positions f) = fl_input_token_count f ∧
    len (fl_sequence_token_ids f) = fl_sequence_token_count f) fs.
Proof. induction 1 as [|r f rs fs Hf _ IH]; constructor; [by eapply flatten_lengths|done]. Qed.

Lemma len_bind_eq {A B C} (g : A → list B) (h : A → list C) l :
  Forall (λ x, len (g x) = len (h x)) l → len (l ≫= g) = len (l ≫= h).
Proof. induction 1 as [|x l Hx _ IH]; [done|]. by rewrite !bind_cons, !len_app, Hx, IH. Qed.

Lemma fits_ranges {A B C} (g : A → list B) (count : A → N) (l : list A) (x : list C) :
  Forall (λ a, len (g a) = count a) l → len (l ≫= g) ≤ len x →
  Forall (λ p : N * N, p.1 + p.2 ≤ len x) (zip (starts 0 g l) (count <$> l)).
Proof.
  intros Hl Hx. apply Forall_lookup. intros i [s c] Hi. apply lookup_zip_with_Some in Hi as (s'&c'&[= <- <-]&Hs&Hc).
  rewrite list_lookup_fmap in Hc. destruct (l !! i) as [a|] eqn:Ha; [|done]. injection Hc as <-.
  destruct (starts_lookup g l 0 i a Ha) as (s'&Hs'&_&_&Hle). rewrite Hs in Hs'. injection Hs' as <-.
  rewrite N.sub_0_r in Hle. rewrite Forall_lookup in Hl. rewrite <-(Hl i a Ha). cbn. lia.
Qed.

(** ** Properties *)

(** Every request's part of a flattened batch is where its offset and count
    say: the token ids and positions of its forward pass and the tokens of its
    sequence. *)
Theorem batch_layout batch b i r :
  from_schedule_batch batch = Some b → requests batch !! i = Some r →
  ∃ f off soff, flatten (forward_mode batch) r = Some f ∧
    mb_request_offsets b !! i = Some off ∧ mb_input_token_counts b !! i = Some (fl_input_token_count f) ∧
    slice_to (fl_input_token_count f) (slice_from off (mb_input_ids b)) = fl_input_ids f ∧
    slice_to (fl_input_token_count f) (slice_from off (mb_positions b)) = fl_positions f ∧
    mb_sequence_offsets b !! i = Some soff ∧ mb_sequence_token_counts b !! i = Some (fl_sequence_token_count f) ∧
    slice_to (fl_sequence_token_count f) (slice_from soff (mb_sequence_token_ids b)) = fl_sequence_token_ids f.
Proof.
  intros Hb Hi. apply from_schedule_batch_laid_out in Hb as (fs&Hfs&[]). cbn in *.
  destruct (Forall2_lookup_l _ _ _ _ _ Hfs Hi) as (f&Hf&Hflat). pose proof (flats_lengths _ _ _ Hfs) as Hl.
  destruct (starts_lookup fl_input_ids fs 0 i f Hf) as (off&Hoff&Hin&_&_).
  destruct (starts_lookup fl_sequence_token_ids fs 0 i f Hf) as (soff&Hsoff&Hseq&_&_).
  pose proof (starts_lookup fl_positions fs 0 i f Hf) as (off'&Hoff'&Hpos&_&_).
  rewrite <-(starts_ext fl_input_ids fl_positions) in Hoff'.
  2:{ eapply Forall_impl; [done|]. intros f' (->&->&_). done. }
  assert (off' = off) as -> by congruence. pose proof Hl as Hl'. rewrite Forall_lookup in Hl'.
  destruct (Hl' i f Hf) as (H1&H2&H3). rewrite N.sub_0_r in *.
  exists f, off, soff. rewrite la_offsets0, la_counts0, la_input0, la_positions0, la_seq_offsets0, la_seq_counts0, la_tokens0.
  rewrite !list_lookup_fmap, Hf. rewrite H1 in Hin. rewrite H2 in Hpos. rewrite H3 in Hseq. by split_and!.
Qed.

(** A flattened batch whose length fits a machine word passes validation
    exactly when the requests brought one output slot per token to compute and
    one cache slot per token of their sequences: offsets, counts and positions
    never make it fail. *)
Theorem validation_is_slot_count_check batch b :
  from_schedule_batch batch = Some b →
  len (mb_input_ids b) ≤ usize_MAX → len (mb_sequence_token_ids b) ≤ usize_MAX →
  (validate_model_worker_batch b = Ok () ↔
    len (requests batch ≫= forward_cache_pages) = len (mb_input_ids b) ∧
    len (mb_sequence_cache_pages b) = len (mb_sequence_token_ids b)).
Proof.
  intros Hb Hmi Hms. apply from_schedule_batch_laid_out in Hb as (fs&Hfs&[]). cbn in *.
  pose proof (flats_lengths _ _ _ Hfs) as Hl. pose proof (Forall2_length _ _ _ Hfs) as Hn.
  assert (check_field_lengths b = Ok ()) as Hck.
  { unfold check_field_lengths. cbn. rewrite la_offsets0, la_counts0, la_seq_offsets0, la_seq_counts0, la_ids0.
    unfold len, request_ids. rewrite !length_starts, !length_fmap, Hn, N.eqb_refl. done. }
  unfold validate_model_worker_batch. rewrite Hck. cbn [result_bind].
  assert (len (mb_input_ids b) = len (mb_positions b)) as Hip.
  { rewrite la_input0, la_positions0. apply len_bind_eq. eapply Forall_impl; [done|]. by intros f (->&->&_). }
  rewrite <-Hip, N.eqb_refl. cbn [negb orb]. rewrite <-la_out0.
  destruct (N.eqb_spec (len (mb_input_ids b)) (len (mb_out_cache_pages b))) as [Ho|]; cbn [negb]; [|split; [done|lia]].
  destruct (N.eqb_spec (len (mb_sequence_token_ids b)) (len (mb_sequence_cache_pages b))) as [Hs|]; cbn [negb]; [|split; [done|lia]].
  split; [lia|]. intros _. apply check_ranges_Ok; [|done|lia].
  rewrite la_offsets0, la_counts0, la_seq_offsets0, la_seq_counts0. 
  apply (Forall_zip_with_fst _ (λ p : N * N, p.1 + p.2 ≤ len (mb_input_ids b))).
  - apply fits_ranges; [|rewrite la_input0; lia]. eapply Forall_impl; [done|]. by intros f [? _].
  - eapply Forall_impl; [apply (fits_ranges fl_sequence_token_ids fl_sequence_token_count fs (mb_sequence_cache_pages b))|].
    + eapply Forall_impl; [done|]. by intros f (_&_&?).
    + rewrite <-Hs, la_tokens0. lia.
    + intros p Hp q Hq. by split.
Qed.

(** ** Witnesses *)

(** A prefill chunk of three tokens, and a request that decodes. *)
Definition example_prefill_request : ScheduledRequest :=
  mkScheduledRequest "a" [5; 6; 7; 8] [] [1; 2; 3] [1; 2; 3] [0; 1; 2; 3] 1 (SamplingParams_new 4) None 0%Z
    (mkPrefixMatch 1 [0] [6; 7; 8]) PrefillForward 1 3.

Definition example_decode_request : ScheduledRequest :=
  mkScheduledRequest "b" [9] [4] [5] [5] [4; 5] 0 (SamplingParams_new 4) None 0%Z
    (mkPrefixMatch 0 [] [9]) DecodeForward 1 0.

Definition example_mixed_batch : ScheduleBatch :=
  mkScheduleBatch Mixed [example_decode_request; example_prefill_request].

Lemma batch_layout_witness :
  ∃ b f off soff, from_schedule_batch example_mixed_batch = Some b ∧
    flatten Mixed example_prefill_request = Some f ∧
    mb_request_offsets b !! 1%nat = Some off ∧ mb_input_token_counts b !! 1%nat = Some (fl_input_token_count f) ∧
    slice_to (fl_input_token_count f) (slice_from off (mb_input_ids b)) = fl_input_ids f ∧
    slice_to (fl_input_token_count f) (slice_from off (mb_positions b)) = fl_positions f ∧
    mb_sequence_offsets b !! 1%nat = Some soff ∧ mb_sequence_token_counts b !! 1%nat = Some (fl_sequence_token_count f) ∧
    slice_to (fl_sequence_token_count f) (slice_from soff (mb_sequence_token_ids b)) = fl_sequence_token_ids f.
Proof.
  destruct (from_schedule_batch example_mixed_batch) as [b|] eqn:Hb; [|by vm_compute in Hb]. exists b.
  destruct (batch_layout example_mixed_batch b 1 example_prefill_request Hb eq_refl) as (f&off&soff&?).
  by exists f, off, soff.
Defined.

Lemma validation_is_slot_count_check_witness :
  ∃ b, from_schedule_batch example_mixed_batch = Some b ∧
    (validate_model_worker_batch b = Ok () ↔
      len (requests example_mixed_batch ≫= forward_cache_pages) = len (mb_input_ids b) ∧
      len (mb_sequence_cache_pages b) = len (mb_sequence_token_ids b)).
Proof.
  eexists. split; [by vm_compute|].
  apply (validation_is_slot_count_check example_mixed_batch); by vm_compute.
Defined.
