(* ===== verification/TransferPlan.v ===== *)
(** * KV transfer plans ([crates/sglang-srt/src/transfer/mod.rs], spans and requests)

    In disaggregated serving the prefill side sends the KV pages of a prompt to
    the decode side.  A plan has one span per request of a prefill batch; a
    span becomes one write request per page, or per page and remote pointer. *)

From stdpp Require Import pretty.
From S2P Require Import Prelude Bytes Types PageAllocator RadixCache BlockHash StateEvents Request Scheduler SchedulerCorrect ModelBatch.

(** ** Data *)

(** [transfer/mod.rs:480-491] KvCacheTransferSpan *)
Record KvCacheTransferSpan : Type := mkSpan {
  sp_request_id : RequestId;
  sp_disaggregated_params : DisaggregatedParams;
  sp_data_parallel_rank : Z;
  sp_token_offset : N;
  sp_token_count : N;
  sp_cache_pages : list CachePageId;
  sp_page_size : N;
  sp_page_indices : list N;
  sp_first_token : option N;
  sp_recurrent_state : option (list N);
}.

(** [transfer/mod.rs:518-520] KvCacheTransferSpan::bootstrap_room *)
Definition span_room (sp : KvCacheTransferSpan) : N := bootstrap_room (sp_disaggregated_params sp).

(** A zero page size panics. *)
(** [transfer/mod.rs:538-540] KvCacheTransferSpan::page_offset *)
Definition page_offset (sp : KvCacheTransferSpan) : option N :=
  guard (0 < sp_page_size sp);; Some (sp_token_offset sp / sp_page_size sp).

(** [transfer/mod.rs:570-572] KvCacheTransferSpan::is_noop *)
Definition is_noop (sp : KvCacheTransferSpan) : bool := sp_token_count sp =? 0.

(** [transfer/mod.rs:753-780] KvCacheTransferPlanError *)
Inductive KvCacheTransferPlanError : Type :=
  | NonPrefillBatch
  | ZeroPageSize
  | CachePageCountMismatch (request_id : RequestId) (input_token_count cache_page_count : N)
  | TrailingCachePages (consumed_cache_page_count cache_page_count : N)
  | UnalignedTokenOffset (request_id : RequestId) (token_offset page_size : N)
  | UnalignedCacheSlot (request_id : RequestId) (cache_slot page_size : N)
  | NonContiguousCacheSlots (request_id : RequestId) (expected actual : N).

(** [transfer/mod.rs:782-832] KvCacheTransferPlanError::fmt *)
Definition KvCacheTransferPlanError_to_string (e : KvCacheTransferPlanError) : string :=
  match e with
  | NonPrefillBatch => "KV transfer plan requires prefill batch"
  | ZeroPageSize => "KV transfer page size must be non-zero"
  | CachePageCountMismatch request_id input_token_count cache_page_count =>
      "request " +:+ request_id +:+ " has " +:+ pretty input_token_count +:+ " input tokens but "
      +:+ pretty cache_page_count +:+ " cache pages available"
  | TrailingCachePages consumed_cache_page_count cache_page_count =>
      "KV transfer plan consumed " +:+ pretty consumed_cache_page_count +:+ " cache pages but batch has "
      +:+ pretty cache_page_count
  | UnalignedTokenOffset request_id token_offset page_size =>
      "request " +:+ request_id +:+ " KV delta starts at token " +:+ pretty token_offset
      +:+ ", which is not aligned to page size " +:+ pretty page_size
  | UnalignedCacheSlot request_id cache_slot page_size =>
      "request " +:+ request_id +:+ " KV cache slot " +:+ pretty cache_slot +:+ " does not start a page of size "
      +:+ pretty page_size
  | NonContiguousCacheSlots request_id expected actual =>
      "request " +:+ request_id +:+ " KV cache page expected slot " +:+ pretty expected +:+ " but found "
      +:+ pretty actual
  end.

(** ** Plans *)

(** [transfer/mod.rs:736-746] transfer_page_indices (slots of a page) *)
Fixpoint check_contiguous (request_id : RequestId) (expected : N) (slots : list CachePageId)
    : Result KvCacheTransferPlanError unit :=
  match slots with
  | [] => Ok ()
  | slot :: slots' =>
      if negb (slot =? expected) then Err (NonContiguousCacheSlots request_id expected slot)
      else check_contiguous request_id (expected + 1) slots'
  end.

(** A chunk is never empty. *)
(** [transfer/mod.rs:727-748] transfer_page_indices (chunks) *)
Fixpoint chunk_page_indices (request_id : RequestId) (ps : N) (cs : list (list CachePageId))
    : Result KvCacheTransferPlanError (list N) :=
  match cs with
  | [] => Ok []
  | slots :: cs' =>
      let first_slot := default 0 (head slots) in
      if negb (is_multiple_of first_slot ps) then Err (UnalignedCacheSlot request_id first_slot ps)
      else
        let? _ := check_contiguous request_id first_slot slots in
        let? rest := chunk_page_indices request_id ps cs' in
        Ok (first_slot / ps :: rest)
  end.

(** [transfer/mod.rs:709-750] transfer_page_indices *)
Definition transfer_page_indices (request_id : RequestId) (token_offset : N)
    (cache_slots : list CachePageId) (ps : N) : Result KvCacheTransferPlanError (list N) :=
  match cache_slots with
  | [] => Ok []
  | _ =>
      if negb (is_multiple_of token_offset ps) then Err (UnalignedTokenOffset request_id token_offset ps)
      else chunk_page_indices request_id ps (chunks (N.to_nat ps) cache_slots)
  end.

(** The fields of one request of a worker batch; the parallel lists of a batch
    have one entry per request. *)
Record PlanRequest : Type := mkPlanRequest {
  pr_request_id : RequestId;
  pr_disaggregated_params : option DisaggregatedParams;
  pr_input_token_count : N;
  pr_cached_token_count : N;
  pr_data_parallel_rank : Z;
}.

Definition plan_request (b : ModelWorkerBatch) (i : nat) : option PlanRequest :=
  rid ← mb_request_ids b !! i;
  params ← mb_disaggregated_params b !! i;
  n ← mb_input_token_counts b !! i;
  cached ← mb_cached_token_counts b !! i;
  rank ← mb_data_parallel_ranks b !! i;
  Some (mkPlanRequest rid params n cached rank).

(** [None] is an index out of range of one of the parallel lists. *)
(** [transfer/mod.rs:616-654] KvCacheTransferPlan::from_prefill_worker_batch_with_page_size (loop) *)
Fixpoint plan_spans (b : ModelWorkerBatch) (ps : N) (indices : list nat) (cache_page_offset : N)
    (spans : list KvCacheTransferSpan)
    : option (Result KvCacheTransferPlanError (list KvCacheTransferSpan * N)) :=
  match indices with
  | [] => Some (Ok (spans, cache_page_offset))
  | i :: indices' =>
      q ← plan_request b i;
      let n := pr_input_token_count q in
      let cache_page_end := cache_page_offset + n in
      if len (mb_out_cache_pages b) <? cache_page_end then
        Some (Err (CachePageCountMismatch (pr_request_id q) n
                     (saturating_sub (len (mb_out_cache_pages b)) cache_page_offset)))
      else
        let cache_pages := slice_to n (slice_from cache_page_offset (mb_out_cache_pages b)) in
        match pr_disaggregated_params q with
        | None => plan_spans b ps indices' cache_page_end spans
        | Some params =>
            match transfer_page_indices (pr_request_id q) (pr_cached_token_count q) cache_pages ps with
            | Err e => Some (Err e)
            | Ok page_indices =>
                plan_spans b ps indices' cache_page_end
                  (spans ++ [mkSpan (pr_request_id q) params (pr_data_parallel_rank q) (pr_cached_token_count q) n
                     cache_pages ps page_indices None None])
            end
        end
  end.

(** [transfer/mod.rs:602-664] KvCacheTransferPlan::from_prefill_worker_batch_with_page_size *)
Definition from_prefill_worker_batch_with_page_size (b : ModelWorkerBatch) (ps : N)
    : option (Result KvCacheTransferPlanError (list KvCacheTransferSpan)) :=
  if negb (bool_decide (mb_forward_mode b = Prefill)) then Some (Err NonPrefillBatch)
  else if ps =? 0 then Some (Err ZeroPageSize)
  else
    res ← plan_spans b ps (seq 0 (length (mb_request_ids b))) 0 [];
    Some (let? r := res in
          if negb (r.2 =? len (mb_out_cache_pages b)) then
            Err (TrailingCachePages r.2 (len (mb_out_cache_pages b)))
          else Ok r.1).

(** [transfer/mod.rs:596-600] KvCacheTransferPlan::from_prefill_worker_batch *)
Definition from_prefill_worker_batch (b : ModelWorkerBatch) := from_prefill_worker_batch_with_page_size b 1.

(** ** Write requests *)

(** [transfer/mod.rs:2257-2276] KvRequestBuildError *)
Inductive KvRequestBuildError : Type :=
  | ZeroPageSizeBytes
  | ZeroRemoteKvItemSize
  | MissingRemoteKvPointers
  | SpanPageCountMismatch (expected_page_count source_page_index_count : N)
  | RemoteKvIndexCountMismatch (source_page_count dst_kv_index_count : N)
  | RemoteKvItemLayoutMismatch (page_size_bytes split_page_size : N)
  | NegativeRemoteKvIndex (index : Z)
  | AddressOverflow
  | OffsetOverflow.

(** [transfer/mod.rs:2278-2316] KvRequestBuildError::fmt *)
Definition KvRequestBuildError_to_string (e : KvRequestBuildError) : string :=
  match e with
  | ZeroPageSizeBytes => "KV page size must be non-zero"
  | ZeroRemoteKvItemSize => "remote KV item size must be non-zero"
  | MissingRemoteKvPointers => "remote KV pointers must not be empty"
  | SpanPageCountMismatch expected_page_count source_page_index_count =>
      "KV transfer span requires " +:+ pretty expected_page_count +:+ " physical pages but has "
      +:+ pretty source_page_index_count +:+ " source page indices"
  | RemoteKvIndexCountMismatch source_page_count dst_kv_index_count =>
      "KV transfer span has " +:+ pretty source_page_count +:+ " source pages but "
      +:+ pretty dst_kv_index_count +:+ " remote KV indices"
  | RemoteKvItemLayoutMismatch page_size_bytes split_page_size =>
      "remote KV item layout requires exactly " +:+ pretty page_size_bytes +:+ " bytes but has "
      +:+ pretty split_page_size +:+ " bytes"
  | NegativeRemoteKvIndex index => "remote KV index must be non-negative: " +:+ pretty index
  | AddressOverflow => "source address overflow"
  | OffsetOverflow => "target offset overflow"
  end.

(** [transfer/mod.rs:1784-1788] KvTransferLayout *)
Record KvTransferLayout : Type := mkTransferLayout {
  source_base_addr : N;
  page_size_bytes : N;
  target_base_offset : N;
}.

(** [transfer/mod.rs:1796-1800] KvRemoteLayout *)
Record KvRemoteLayout : Type := mkRemoteLayout {
  dst_kv_ptrs : list N;
  dst_kv_indices : list Z;
  dst_kv_item_len : N;
}.

(** [transfer/mod.rs:1714-1717] KvOpcode *)
Inductive KvOpcode : Type := Read | Write.

(** [transfer/mod.rs:1759-1765] KvTransferRequest *)
Record KvTransferRequest : Type := mkTransferRequest {
  opcode : KvOpcode;
  source : N;
  target_id : Z;
  target_offset : N;
  length_bytes : N;
}.

(** [transfer/mod.rs:2132-2159] build_kv_transfer_requests (body) *)
Definition page_request (page_off : N) (layout : KvTransferLayout) (target : Z) (page_index source_page_index : N)
    : Result KvRequestBuildError KvTransferRequest :=
  let? source_offset := ok_or (checked_mul source_page_index (page_size_bytes layout)) AddressOverflow in
  let? source_addr := ok_or (checked_add (source_base_addr layout) source_offset) AddressOverflow in
  let? target_page_index := ok_or (checked_add page_off page_index) OffsetOverflow in
  let? offset := ok_or (checked_mul target_page_index (page_size_bytes layout)) OffsetOverflow in
  let? target_offset := ok_or (checked_add (target_base_offset layout) offset) OffsetOverflow in
  Ok (mkTransferRequest Write source_addr target target_offset (page_size_bytes layout)).

(** [transfer/mod.rs:2131-2160] build_kv_transfer_requests (loop) *)
Fixpoint page_requests (page_off : N) (layout : KvTransferLayout) (target : Z) (page_index : N) (indices : list N)
    : Result KvRequestBuildError (list KvTransferRequest) :=
  match indices with
  | [] => Ok []
  | x :: indices' =>
      let? q := page_request page_off layout target page_index x in
      let? rest := page_requests page_off layout target (page_index + 1) indices' in
      Ok (q :: rest)
  end.

(** [u64] and [usize] have the same width.  [None]: a span with page size zero. *)
(** [transfer/mod.rs:2111-2163] build_kv_transfer_requests *)
Definition build_kv_transfer_requests (sp : KvCacheTransferSpan) (layout : KvTransferLayout) (target : Z)
    : option (Result KvRequestBuildError (list KvTransferRequest)) :=
  if page_size_bytes layout =? 0 then Some (Err ZeroPageSizeBytes)
  else
    off ← page_offset sp;
    let expected_page_count := div_ceil (sp_token_count sp) (sp_page_size sp) in
    Some (if negb (expected_page_count =? len (sp_page_indices sp)) then
            Err (SpanPageCountMismatch expected_page_count (len (sp_page_indices sp)))
          else page_requests off layout target 0 (sp_page_indices sp)).

(** [transfer/mod.rs:2227-2250] build_remote_kv_transfer_requests (pointers) *)
Fixpoint pointer_requests (source_page_addr item_len dst_kv_index : N) (target : Z) (ptr_index : N) (ptrs : list N)
    : Result KvRequestBuildError (list KvTransferRequest) :=
  match ptrs with
  | [] => Ok []
  | dst_kv_ptr :: ptrs' =>
      let? o := ok_or (checked_mul ptr_index item_len) AddressOverflow in
      let? source_addr := ok_or (checked_add source_page_addr o) AddressOverflow in
      let? d := ok_or (checked_mul dst_kv_index item_len) OffsetOverflow in
      let? target_offset := ok_or (checked_add dst_kv_ptr d) OffsetOverflow in
      let? rest := pointer_requests source_page_addr item_len dst_kv_index target (ptr_index + 1) ptrs' in
      Ok (mkTransferRequest Write source_addr target target_offset item_len :: rest)
  end.

(** [transfer/mod.rs:2212-2251] build_remote_kv_transfer_requests (pages) *)
Fixpoint remote_page_requests (layout : KvTransferLayout) (target : Z) (item_len : N) (ptrs : list N)
    (pages : list (N * Z)) : Result KvRequestBuildError (list KvTransferRequest) :=
  match pages with
  | [] => Ok []
  | (source_page_index, dst_kv_index) :: pages' =>
      if (dst_kv_index <? 0)%Z then Err (NegativeRemoteKvIndex dst_kv_index)
      else
        let? source_offset := ok_or (checked_mul source_page_index (page_size_bytes layout)) AddressOverflow in
        let? source_page_addr := ok_or (checked_add (source_base_addr layout) source_offset) AddressOverflow in
        let? qs := pointer_requests source_page_addr item_len (Z.to_N dst_kv_index) target 0 ptrs in
        let? rest := remote_page_requests layout target item_len ptrs pages' in
        Ok (qs ++ rest)
  end.

(** [transfer/mod.rs:2165-2254] build_remote_kv_transfer_requests *)
Definition build_remote_kv_transfer_requests (sp : KvCacheTransferSpan) (layout : KvTransferLayout) (target : Z)
    (remote : KvRemoteLayout) : option (Result KvRequestBuildError (list KvTransferRequest)) :=
  if page_size_bytes layout =? 0 then Some (Err ZeroPageSizeBytes)
  else if dst_kv_item_len remote =? 0 then Some (Err ZeroRemoteKvItemSize)
  else if len (dst_kv_ptrs remote) =? 0 then Some (Err MissingRemoteKvPointers)
  else
    guard (0 < sp_page_size sp);;
    let expected_page_count := div_ceil (sp_token_count sp) (sp_page_size sp) in
    Some (
      if negb (expected_page_count =? len (sp_page_indices sp)) then
        Err (SpanPageCountMismatch expected_page_count (len (sp_page_indices sp)))
      else if negb (len (sp_page_indices sp) =? len (dst_kv_indices remote)) then
        Err (RemoteKvIndexCountMismatch (len (sp_page_indices sp)) (len (dst_kv_indices remote)))
      else
        let item_len := dst_kv_item_len remote in
        let? split_page_size := ok_or (checked_mul item_len (len (dst_kv_ptrs remote))) AddressOverflow in
        if negb (split_page_size =? page_size_bytes layout) then
          Err (RemoteKvItemLayoutMismatch (page_size_bytes layout) split_page_size)
        else remote_page_requests layout target item_len (dst_kv_ptrs remote)
               (zip (sp_page_indices sp) (dst_kv_indices remote))).

(** ** Page indices *)

(** The slots of the pages [ps]-sized at [indices], cut to [n]. *)
Definition slots_of_pages (ps : N) (indices : list N) : list N :=
  indices ≫= λ p, nrange (p * ps) (p * ps + ps).

Lemma check_contiguous_Ok rid slots : ∀ s,
  check_contiguous rid s slots = Ok () ↔ slots = nrange s (s + len slots).
Proof.
  induction slots as [|x slots IH]; intros s; cbn [check_contiguous].
  { split; [|done]. intros _. rewrite nrange_empty; [done|]. rewrite len_nil. lia. }
  rewrite len_cons, (nrange_cons s) by lia. destruct (N.eqb_spec x s) as [->|Hne]; cbn [negb].
  - rewrite IH. replace (s + (len slots + 1)) with (s + 1 + len slots) by lia. split; [by intros <-|by intros [= <-]].
  - split; [done|]. by intros [= ? _].
Qed.

Lemma len_slots_of_pages ps indices : len (slots_of_pages ps indices) = len indices * ps.
Proof.
  unfold slots_of_pages. induction indices as [|p l IH]; [done|].
  rewrite bind_cons, len_app, IH, len_cons, len_nrange. lia.
Qed.

Lemma div_ceil_sub n ps : 0 < ps → 0 < n → div_ceil n ps = div_ceil (n - ps) ps + 1.
Proof.
  intros Hps Hn. destruct (div_ceil_spec n ps Hps) as (q&->&Hq1&Hq2).
  destruct (div_ceil_spec (n - ps) ps Hps) as (q'&->&Hq1'&Hq2'). nia.
Qed.

Lemma slice_split {A} n (l : list A) : l = slice_to n l ++ slice_from n l.
Proof. symmetry. apply take_drop. Qed.

(** A prefix of [p ++ s] that is longer than [p]. *)
Lemma slice_to_app_inv {A} (p s l : list A) :
  l = slice_to (len l) (p ++ s) →
  slice_to (len p) l = slice_to (len (slice_to (len p) l)) p ∧ slice_from (len p) l = slice_to (len l - len p) s.
Proof.
  intros Hl. split.
  - rewrite Hl at 1. unfold slice_to, len. rewrite take_take, !Nat2N.id. rewrite length_take.
    rewrite take_app_le by lia. done.
  - rewrite Hl at 1. unfold slice_to, slice_from, len. rewrite !Nat2N.id, skipn_firstn_comm, drop_app_length.
    f_equal. lia.
Qed.

(** The page indices of the slots of whole pages, the last one possibly cut. *)
Lemma chunk_page_indices_Ok rid ps indices : 0 < ps → ∀ slots,
  chunk_page_indices rid ps (chunks (N.to_nat ps) slots) = Ok indices ↔
  len indices = div_ceil (len slots) ps ∧ slots = slice_to (len slots) (slots_of_pages ps indices).
Proof.
  intros Hps. assert (0 < N.to_nat ps)%nat as Hps' by lia.
  assert (div_ceil 0 ps = 0) as Hz by (unfold div_ceil; by rewrite N.Div0.mod_0_l, N.Div0.div_0_l).
  induction indices as [|p indices IH]; intros slots.
  - destruct slots as [|x slots]; [by change (len []) with 0 at 2; rewrite Hz|].
    rewrite chunks_cons by done. cbn [chunk_page_indices]. split.
    + destruct (negb _); [done|]. rewrite result_bind_Ok. intros (u&_&Hr). apply result_bind_Ok in Hr as (rest&_&Hr). done.
    + intros [Hl _]. rewrite div_ceil_sub in Hl by (rewrite ?len_cons; lia). rewrite (@len_nil N) in Hl. lia.
  - destruct slots as [|x slots].
    + split; [done|]. intros [Hl _]. change (len (@nil CachePageId)) with 0 in Hl; rewrite len_cons, Hz in Hl. lia.
    + set (L := x :: slots). assert (0 < len L) as HL by (subst L; rewrite len_cons; lia).
      rewrite chunks_cons by done. cbn [chunk_page_indices].
      replace (default 0 (head (take (N.to_nat ps) L))) with x by (subst L; destruct (N.to_nat ps); [lia|done]).
      rewrite len_cons, div_ceil_sub by done. rewrite N.add_cancel_r.
      specialize (IH (slice_from ps L)). rewrite len_slice_from in IH.
      assert (len (slice_to ps L) = N.min ps (len L)) as HA by apply len_slice_to.
      assert (slots_of_pages ps (p :: indices) = nrange (p * ps) (p * ps + ps) ++ slots_of_pages ps indices) as -> by done.
      split.
      * destruct (is_multiple_of x ps) eqn:Hx; cbn [negb]; [|done]. apply is_multiple_of_spec in Hx; [|lia].
        rewrite result_bind_Ok. intros ([]&Hc&Hr). apply result_bind_Ok in Hr as (rest&Hr&[= <- <-]).
        apply IH in Hr as [Hlen Hsl]. split; [done|]. rewrite <-Hx.
        apply check_contiguous_Ok in Hc. change (take (N.to_nat ps) L) with (slice_to ps L) in Hc. rewrite HA in Hc.
        rewrite (slice_split ps L) at 1. rewrite Hc, Hsl. clear Hc Hsl IH.
        destruct (N.le_gt_cases (len L) ps) as [Hle|Hgt].
        -- rewrite N.min_r by done. replace (len L - ps) with 0 by lia. unfold slice_to. cbn. rewrite app_nil_r.
           rewrite (nrange_app x (x + len L) (x + ps)) by lia. rewrite <-(assoc_L (++)), take_app_le.
           ++ symmetry. apply take_ge. pose proof (len_nrange x (x + len L)). unfold len in *. lia.
           ++ pose proof (len_nrange x (x + len L)). unfold len in *. lia.
        -- rewrite N.min_l by lia. unfold slice_to.
           pose proof (len_nrange x (x + ps)). rewrite take_app_ge by (unfold len in *; lia). f_equal.
           f_equal. unfold len in *. lia.
      * intros [Hlen Hsl]. apply slice_to_app_inv in Hsl as [Hp Hs]. rewrite len_nrange in Hp, Hs.
        replace (p * ps + ps - p * ps) with ps in * by lia. rewrite HA in Hp.
        assert (slice_to ps L = nrange (p * ps) (p * ps + N.min ps (len L))) as Hp'.
        { rewrite Hp. rewrite (nrange_app _ (p * ps + N.min ps (len L)) (p * ps + ps)) by lia.
          pose proof (len_nrange (p * ps) (p * ps + N.min ps (len L))). unfold slice_to, len in *.
          rewrite take_app_le by lia. apply take_ge. lia. }
        assert (x = p * ps) as ->.
        { rewrite nrange_cons in Hp' by lia. revert Hp'. subst L. unfold slice_to.
          destruct (N.to_nat ps); [lia|]. cbn. by intros [= ? _]. }
        assert (is_multiple_of (p * ps) ps = true) as Hm by (apply is_multiple_of_spec; [lia|]; rewrite N.div_mul; lia).
        rewrite Hm. cbn [negb]. rewrite (proj2 (check_contiguous_Ok rid _ (p * ps))).
        2:{ change (take (N.to_nat ps) L) with (slice_to ps L). by rewrite HA. }
        cbn [result_bind]. change (drop (N.to_nat ps) L) with (slice_from ps L). rewrite (proj2 IH) by done.
        cbn [result_bind]. by rewrite N.div_mul by lia.
Qed.

(** ** Requests of a span *)

(** The write of page [x], the [i]-th of a span whose first page is [off]. *)
Definition write_page (off : N) (layout : KvTransferLayout) (target : Z) (i x : N) : KvTransferRequest :=
  mkTransferRequest Write (source_base_addr layout + x * page_size_bytes layout) target
    (target_base_offset layout + (off + i) * page_size_bytes layout) (page_size_bytes layout).

Definition page_fits (off : N) (layout : KvTransferLayout) (i x : N) : Prop :=
  source_base_addr layout + x * page_size_bytes layout ≤ usize_MAX ∧
  target_base_offset layout + (off + i) * page_size_bytes layout ≤ usize_MAX.

Lemma page_request_spec off layout target i x :
  0 < page_size_bytes layout →
  match page_request off layout target i x with
  | Ok q => q = write_page off layout target i x ∧ page_fits off layout i x
  | Err e => (e = AddressOverflow ∨ e = OffsetOverflow) ∧ ¬ page_fits off layout i x
  end.
Proof.
  intros Hpb. unfold page_request, page_fits, checked_mul, checked_add.
  repeat (match goal with |- context [if ?c <=? usize_MAX then _ else _] => destruct (N.leb_spec c usize_MAX) end;
    cbn [ok_or result_bind]).
  - done.
  - split; [by right|lia].
  - split; [by right|lia].
  - split; [by right|]. intros [_ ?]. nia.
  - split; [by left|lia].
  - split; [by left|lia].
Qed.

Lemma page_requests_spec off layout target indices : 0 < page_size_bytes layout → ∀ i0,
  match page_requests off layout target i0 indices with
  | Ok qs => qs = imap (λ i x, write_page off layout target (i0 + N.of_nat i) x) indices ∧
             ∀ i x, indices !! i = Some x → page_fits off layout (i0 + N.of_nat i) x
  | Err e => (e = AddressOverflow ∨ e = OffsetOverflow) ∧
             ∃ i x, indices !! i = Some x ∧ ¬ page_fits off layout (i0 + N.of_nat i) x
  end.
Proof.
  intros Hpb. induction indices as [|x indices IH]; intros i0; cbn [page_requests]; [done|].
  pose proof (page_request_spec off layout target i0 x Hpb) as Hq.
  destruct (page_request off layout target i0 x) as [q|e]; cbn [result_bind].
  - destruct Hq as [-> Hfit]. specialize (IH (i0 + 1)).
    destruct (page_requests off layout target (i0 + 1) indices) as [qs|e]; cbn [result_bind].
    + destruct IH as [-> IH]. split.
      * cbn [imap]. f_equal; [by rewrite N.add_0_r|]. apply imap_ext. intros i y _. cbn. f_equal. lia.
      * intros [|i] y; cbn [lookup list_lookup]; [intros [= <-]; by rewrite N.add_0_r|].
        intros Hy. specialize (IH i y Hy). by replace (i0 + N.of_nat (S i)) with (i0 + 1 + N.of_nat i) by lia.
    + destruct IH as (He&i&y&Hy&Hnf). split; [done|]. exists (S i), y. split; [done|].
      by replace (i0 + N.of_nat (S i)) with (i0 + 1 + N.of_nat i) by lia.
  - destruct Hq as [He Hnf]. split; [done|]. exists 0%nat, x. split; [done|]. by rewrite N.add_0_r.
Qed.

(** A span whose page indices match its tokens is turned into one write per
    page: from the page's address in the registered memory to its place in the
    target buffer, counted from the page of the span's first token; the only
    failure is an address or offset that does not fit a machine word. *)
Theorem build_kv_transfer_requests_correct sp layout target :
  0 < page_size_bytes layout → 0 < sp_page_size sp →
  len (sp_page_indices sp) = div_ceil (sp_token_count sp) (sp_page_size sp) →
  let off := sp_token_offset sp / sp_page_size sp in
  ∃ res, build_kv_transfer_requests sp layout target = Some res ∧
    match res with
    | Ok qs => qs = imap (λ i x, write_page off layout target (N.of_nat i) x) (sp_page_indices sp) ∧
               ∀ i x, sp_page_indices sp !! i = Some x → page_fits off layout (N.of_nat i) x
    | Err e => (e = AddressOverflow ∨ e = OffsetOverflow) ∧
               ∃ i x, sp_page_indices sp !! i = Some x ∧ ¬ page_fits off layout (N.of_nat i) x
    end.
Proof.
  intros Hpb Hps Hlen off. unfold build_kv_transfer_requests.
  destruct (N.eqb_spec (page_size_bytes layout) 0); [lia|]. unfold page_offset. rewrite option_guard_True by done.
  cbn [mbind option_bind]. rewrite Hlen, N.eqb_refl. cbn [negb]. eexists. split; [done|].
  exact (page_requests_spec off layout target (sp_page_indices sp) Hpb 0).
Qed.

(** Item [j] of page [x] goes to index [d] of the [j]-th remote pointer. *)
Definition write_item (layout : KvTransferLayout) (target : Z) (item_len x d j ptr : N) : KvTransferRequest :=
  mkTransferRequest Write (source_base_addr layout + x * page_size_bytes layout + j * item_len) target
    (ptr + d * item_len) item_len.

Lemma pointer_requests_Ok addr item d target ptrs : ∀ j0 qs,
  pointer_requests addr item d target j0 ptrs = Ok qs →
  qs = imap (λ j ptr, mkTransferRequest Write (addr + (j0 + N.of_nat j) * item) target (ptr + d * item) item) ptrs.
Proof.
  induction ptrs as [|ptr ptrs IH]; intros j0 qs; cbn [pointer_requests]; [by intros [= <-]|].
  unfold checked_mul, checked_add. repeat (case_match; cbn [ok_or result_bind]; [|done]).
  rewrite result_bind_Ok. intros (rest&Hr&[= <-]). apply IH in Hr as ->. cbn [imap]. f_equal; [by rewrite N.add_0_r|].
  apply imap_ext. intros j y _. cbn. do 2 f_equal. lia.
Qed.

Lemma remote_page_requests_Ok layout target item ptrs pages : ∀ qs,
  remote_page_requests layout target item ptrs pages = Ok qs →
  Forall (λ p : N * Z, (0 ≤ p.2)%Z) pages ∧
  qs = pages ≫= λ p, imap (λ j ptr, write_item layout target item p.1 (Z.to_N p.2) (N.of_nat j) ptr) ptrs.
Proof.
  induction pages as [|[x d] pages IH]; intros qs; cbn [remote_page_requests]; [by intros [= <-]|].
  destruct (Z.ltb_spec d 0); [done|]. unfold checked_mul, checked_add. repeat (case_match; cbn [ok_or result_bind]; [|done]).
  rewrite result_bind_Ok. intros (l&Hl&Hr). apply result_bind_Ok in Hr as (rest&Hr&[= <-]).
  apply pointer_requests_Ok in Hl as ->. apply IH in Hr as [Hall ->]. split; [by constructor|]. rewrite bind_cons.
  f_equal.
Qed.

(** Blocks of equal length, concatenated. *)
Lemma lookup_bind_block {A B} (f : A → list B) (n : nat) l : (∀ x, length (f x) = n) → ∀ k x j,
  l !! k = Some x → (j < n)%nat → (l ≫= f) !! (k * n + j)%nat = f x !! j.
Proof.
  intros Hf. induction l as [|y l IH]; intros [|k] x j Hk Hj; [done|done| |].
  - injection Hk as ->. rewrite bind_cons, lookup_app_l by (rewrite Hf; lia). done.
  - rewrite bind_cons, lookup_app_r by (rewrite Hf; lia). rewrite Hf.
    replace (S k * n + j - n)%nat with (k * n + j)%nat by lia. by apply IH.
Qed.

Lemma length_bind_block {A B} (f : A → list B) (n : nat) l : (∀ x, length (f x) = n) → length (l ≫= f) = (length l * n)%nat.
Proof. intros Hf. induction l as [|y l IH]; [done|]. rewrite bind_cons, length_app, IH, Hf. cbn. lia. Qed.

(** With a remote layout every page of the span is cut into as many items as
    there are remote pointers, and every byte of it is copied: byte [o] of the
    [k]-th page is in the request for the pointer [o / item], which writes to
    the [k]-th remote index of that pointer. *)
Theorem remote_requests_cover_pages sp layout target remote qs :
  build_remote_kv_transfer_requests sp layout target remote = Some (Ok qs) →
  len qs = len (sp_page_indices sp) * len (dst_kv_ptrs remote) ∧
  ∀ k x o, sp_page_indices sp !! k = Some x → o < page_size_bytes layout →
    ∃ d j ptr, dst_kv_indices remote !! k = Some d ∧ (0 ≤ d)%Z ∧
      N.of_nat j = o / dst_kv_item_len remote ∧ dst_kv_ptrs remote !! j = Some ptr ∧
      qs !! (k * length (dst_kv_ptrs remote) + j)%nat =
        Some (write_item layout target (dst_kv_item_len remote) x (Z.to_N d) (N.of_nat j) ptr) ∧
      source (write_item layout target (dst_kv_item_len remote) x (Z.to_N d) (N.of_nat j) ptr)
        + o mod dst_kv_item_len remote = source_base_addr layout + x * page_size_bytes layout + o.
Proof.
  unfold build_remote_kv_transfer_requests. destruct (_ =? 0); [done|].
  destruct (N.eqb_spec (dst_kv_item_len remote) 0) as [|Hitem]; [done|]. destruct (_ =? 0); [done|].
  case_guard as Hps; [|done]. cbn [mbind option_bind]. intros [= Hb]. revert Hb.
  destruct (negb _); [done|]. destruct (N.eqb_spec (len (sp_page_indices sp)) (len (dst_kv_indices remote))) as [Hn|]; cbn [negb]; [|done].
  unfold checked_mul. case_match; cbn [ok_or result_bind]; [|done]. set (item := dst_kv_item_len remote) in *.
  destruct (N.eqb_spec (item * len (dst_kv_ptrs remote)) (page_size_bytes layout)) as [Hpb|]; cbn [negb]; [|done].
  intros Hr. apply remote_page_requests_Ok in Hr as [Hall ->].
  assert (∀ p : N * Z, length (imap (λ j ptr, write_item layout target item p.1 (Z.to_N p.2) (N.of_nat j) ptr) (dst_kv_ptrs remote))
    = length (dst_kv_ptrs remote)) as Hlen by (intros; apply length_imap).
  assert (length (zip (sp_page_indices sp) (dst_kv_indices remote)) = length (sp_page_indices sp)) as Hz.
  { rewrite length_zip_with. unfold len in Hn. lia. }
  split. { unfold len. rewrite (length_bind_block _ _ _ Hlen), Hz. lia. }
  intros k x o Hk Ho. assert (k < length (sp_page_indices sp))%nat as Hkl by by eapply lookup_lt_Some.
  destruct (lookup_lt_is_Some_2 (dst_kv_indices remote) k) as [d Hd]; [unfold len in Hn; lia|].
  assert (zip (sp_page_indices sp) (dst_kv_indices remote) !! k = Some (x, d)) as Hkz.
  { apply lookup_zip_with_Some. by exists x, d. }
  pose proof (N.div_mod o item Hitem) as Hdm. pose proof (N.mod_lt o item Hitem) as Hmod.
  assert (o / item < len (dst_kv_ptrs remote)) as Hj by (apply N.Div0.div_lt_upper_bound; lia).
  destruct (lookup_lt_is_Some_2 (dst_kv_ptrs remote) (N.to_nat (o / item))) as [ptr Hptr]; [unfold len in Hj; lia|].
  exists d, (N.to_nat (o / item)), ptr. split_and!; try done.
  - by apply (Forall_lookup_1 _ _ _ _ Hall Hkz).
  - lia.
  - rewrite (lookup_bind_block _ _ _ Hlen _ _ _ Hkz) by (unfold len in Hj; lia). rewrite list_lookup_imap, Hptr. done.
  - unfold write_item. cbn [source]. rewrite N2Nat.id. lia.
Qed.

(** Page indices are found exactly for slots that are the slots of whole
    pages in a row, each page in order and only the last one cut short, on a
    page-aligned token offset. *)
Theorem transfer_page_indices_correct rid token_offset slots ps indices :
  0 < ps →
  transfer_page_indices rid token_offset slots ps = Ok indices ↔
    (slots = [] ∨ is_multiple_of token_offset ps = true) ∧
    len indices = div_ceil (len slots) ps ∧ slots = slice_to (len slots) (slots_of_pages ps indices).
Proof.
  intros Hps. rewrite <-(chunk_page_indices_Ok rid) by done. unfold transfer_page_indices. destruct slots as [|s slots].
  - cbn [chunks chunks_fuel length chunk_page_indices]. split; [|by intros [_ ?]]. intros ?. split; [by left|done].
  - destruct (is_multiple_of token_offset ps); cbn [negb].
    + split; [|by intros [_ ?]]. intros ?. split; [by right|done].
    + split; [done|]. by intros [[|] _].
Qed.

(** ** Plans of a batch *)

(** The span of a request whose forward pass fills the slots it was given. *)
Definition span_of (ps : N) (r : ScheduledRequest) (params : DisaggregatedParams) (page_indices : list N)
    : KvCacheTransferSpan :=
  mkSpan (request_id r) params (data_parallel_rank r) (forward_prefix_token_count r) (len (forward_cache_pages r))
    (forward_cache_pages r) ps page_indices None None.

(** Planning request by request: the first request whose slots are not those
    of whole pages stops it. *)
Fixpoint spans_of (ps : N) (rs : list ScheduledRequest) : Result KvCacheTransferPlanError (list KvCacheTransferSpan) :=
  match rs with
  | [] => Ok []
  | r :: rs' =>
      match disaggregated_params r with
      | None => spans_of ps rs'
      | Some params =>
          let? indices := transfer_page_indices (request_id r) (forward_prefix_token_count r) (forward_cache_pages r) ps in
          let? spans := spans_of ps rs' in
          Ok (span_of ps r params indices :: spans)
      end
  end.

(** Each request has one output slot per token it computes. *)
Definition slots_match (batch : ScheduleBatch) : Prop :=
  Forall (λ r, ∃ f, flatten (forward_mode batch) r = Some f ∧ fl_input_token_count f = len (forward_cache_pages r))
    (requests batch).

Lemma plan_request_flattened batch b i r :
  from_schedule_batch batch = Some b → slots_match batch → requests batch !! i = Some r →
  plan_request b i = Some (mkPlanRequest (request_id r) (disaggregated_params r) (len (forward_cache_pages r))
                             (forward_prefix_token_count r) (data_parallel_rank r)).
Proof.
  intros Hb Hm Hi. apply from_schedule_batch_laid_out in Hb as (fs&Hfs&HL). destruct HL. cbn in *.
  destruct (Forall2_lookup_l _ _ _ _ _ Hfs Hi) as (f&Hf&Hflat).
  destruct (Forall_lookup_1 _ _ _ _ Hm Hi) as (f'&Hflat'&Hlen). rewrite Hflat in Hflat'. injection Hflat' as <-.
  unfold plan_request. rewrite la_ids, la_disagg, la_counts, la_cached, la_ranks. unfold request_ids.
  rewrite !list_lookup_fmap, Hi, Hf. cbn. by rewrite Hlen.
Qed.

Lemma slice_mid {A} (p m s : list A) : slice_to (len m) (slice_from (len p) (p ++ m ++ s)) = m.
Proof. unfold slice_to, slice_from, len. by rewrite !Nat2N.id, drop_app_length, take_app_length. Qed.

Lemma plan_spans_flattened batch b ps :
  from_schedule_batch batch = Some b → slots_match batch → ∀ suf pre spans,
  requests batch = pre ++ suf →
  plan_spans b ps (seq (length pre) (length suf)) (len (pre ≫= forward_cache_pages)) spans =
  Some (let? l := spans_of ps suf in Ok (spans ++ l, len (mb_out_cache_pages b))).
Proof.
  intros Hb Hm. assert (mb_out_cache_pages b = requests batch ≫= forward_cache_pages) as Hout.
  { apply from_schedule_batch_laid_out in Hb as (fs&_&[]). done. }
  induction suf as [|r suf IH]; intros pre spans Hr; cbn [length seq plan_spans spans_of].
  - rewrite Hout, Hr, app_nil_r. cbn [result_bind]. by rewrite app_nil_r.
  - rewrite (plan_request_flattened batch b _ r) by (done || by rewrite Hr, lookup_app_r, Nat.sub_diag).
    cbn [mbind option_bind pr_input_token_count pr_disaggregated_params pr_request_id pr_cached_token_count pr_data_parallel_rank].
    rewrite Hr, bind_app, bind_cons in Hout.
    assert (len (pre ≫= forward_cache_pages) + len (forward_cache_pages r) = len ((pre ++ [r]) ≫= forward_cache_pages)) as Hoff.
    { rewrite bind_app, len_app. cbn. by rewrite app_nil_r. }
    assert (len (mb_out_cache_pages b) <? len (pre ≫= forward_cache_pages) + len (forward_cache_pages r) = false) as ->.
    { apply N.ltb_ge. rewrite Hout, !len_app. lia. }
    assert (slice_to (len (forward_cache_pages r)) (slice_from (len (pre ≫= forward_cache_pages)) (mb_out_cache_pages b))
      = forward_cache_pages r) as -> by (rewrite Hout; apply slice_mid).
    rewrite Hoff.
    specialize (IH (pre ++ [r])). rewrite length_app, Nat.add_1_r in IH.
    destruct (disaggregated_params r) as [params|].
    + destruct (transfer_page_indices _ _ _ _) as [indices|e]; cbn [result_bind]; [|done].
      rewrite IH by (by rewrite <-(assoc_L (++))). destruct (spans_of ps suf) as [l|e]; cbn [result_bind]; [|done].
      by rewrite <-(assoc_L (++)).
    + by apply IH; rewrite <-(assoc_L (++)).
Qed.

(** The plan of a flattened prefill batch, whose requests have one output
    slot per token, is the plan made request by request: one span per
    disaggregated request, in order, with that request's own slots and the
    length of its cached prefix as offset.  It fails only when the slots of a
    request are not those of whole pages. *)
Theorem transfer_plan_correct batch b ps :
  from_schedule_batch batch = Some b → forward_mode batch = Prefill → 0 < ps → slots_match batch →
  from_prefill_worker_batch_with_page_size b ps = Some (spans_of ps (requests batch)).
Proof.
  intros Hb Hmode Hps Hm. pose proof (plan_spans_flattened batch b ps Hb Hm (requests batch) [] [] eq_refl) as Hp.
  apply from_schedule_batch_laid_out in Hb as (fs&Hfs&HL). destruct HL. cbn in *.
  unfold from_prefill_worker_batch_with_page_size. rewrite la_mode, Hmode, bool_decide_true by done. cbn [negb].
  destruct (N.eqb_spec ps 0); [lia|]. rewrite la_ids. unfold request_ids. rewrite length_fmap.
  change (len []) with 0 in Hp. rewrite Hp. cbn [mbind option_bind].
  destruct (spans_of ps (requests batch)); cbn [result_bind fst snd]; [|done]. by rewrite N.eqb_refl.
Qed.

(** ** Chunked prompts *)

(** A disaggregated prompt of two pages over chunks of one page. *)
Definition chunked_start : Scheduler ToyWorker RecordingKvStateEventPublisher :=
  mkScheduler [with_disaggregated_params (toy_request "a" [1; 2; 3; 4; 5; 6; 7; 8]) (Some (mkDisaggregatedParams "host" 1 7))]
    [] RadixCache_default Enabled [] (Some example_allocator) None (Some 4) None (mkToyWorker [] []).

Definition example_layout : KvTransferLayout := mkTransferLayout 4096 64 0.

Definition writes_of (batch : ScheduleBatch) : option (list (list KvTransferRequest)) :=
  b ← from_schedule_batch batch;
  res ← from_prefill_worker_batch_with_page_size b 4;
  spans ← match res with Ok spans => Some spans | Err _ => None end;
  mapM (λ sp, r ← build_kv_transfer_requests sp example_layout 0; match r with Ok qs => Some qs | Err _ => None end) spans.

(** Without a remote layout the two chunks of a prompt are written to the
    same place: the offset of a span is the length of the prefix found in the
    cache, which is the same for every chunk, so the pages of the second chunk
    overwrite those of the first in the target. *)
Theorem chunked_prompt_overwrites_target :
  ∃ b1 s1 outputs s2 b2 s3 q1 q2,
    next_prefill_batch_with_token_budget chunked_start 1 usize_MAX = Some (Ok b1, s1) ∧
    complete_batch toy_sha256 s1 b1 [mkGeneratedToken [42] false] = Some (Ok outputs, s2) ∧
    next_prefill_batch_with_token_budget s2 1 usize_MAX = Some (Ok b2, s3) ∧
    prompt_tokens_processed <$> requests b2 = [4] ∧
    writes_of b1 = Some [[q1]] ∧ writes_of b2 = Some [[q2]] ∧
    source q1 ≠ source q2 ∧ target_offset q1 = target_offset q2.
Proof.
  destruct (next_prefill_batch_with_token_budget chunked_start 1 usize_MAX) as [[[b1|] s1]|] eqn:H1;
    [|by vm_compute in H1|by vm_compute in H1].
  exists b1, s1. vm_compute in H1. injection H1 as <- <-. do 6 eexists.
  split; [done|]. split; [vm_compute; done|]. split; [vm_compute; done|]. split; [done|].
  split; [vm_compute; done|]. split; [vm_compute; done|]. done.
Qed.

(** ** Witnesses *)

(** A span of six tokens over two pages of four, at the second page. *)
Definition example_span : KvCacheTransferSpan :=
  mkSpan "a" (mkDisaggregatedParams "host" 1 7) 0%Z 4 6 [8; 9; 10; 11; 0; 1] 4 [2; 0] None None.

Definition example_remote : KvRemoteLayout := mkRemoteLayout [1000; 2000] [5%Z; 6%Z] 32.

Lemma build_kv_transfer_requests_correct_witness :
  ∃ res, build_kv_transfer_requests example_span example_layout 3 = Some res ∧
    match res with
    | Ok qs => qs = imap (λ i x, write_page 1 example_layout 3 (N.of_nat i) x) [2; 0] ∧
               ∀ i x, [2; 0] !! i = Some x → page_fits 1 example_layout (N.of_nat i) x
    | Err e => (e = AddressOverflow ∨ e = OffsetOverflow) ∧
               ∃ i x, [2; 0] !! i = Some x ∧ ¬ page_fits 1 example_layout (N.of_nat i) x
    end.
Proof. exact (build_kv_transfer_requests_correct example_span example_layout 3 eq_refl eq_refl eq_refl). Defined.

Lemma remote_requests_cover_pages_witness :
  ∃ qs, build_remote_kv_transfer_requests example_span example_layout 3 example_remote = Some (Ok qs) ∧
    len qs = 4 ∧ ∃ d j ptr, [5%Z; 6%Z] !! 1%nat = Some d ∧ N.of_nat j = 40 / 32 ∧ [1000; 2000] !! j = Some ptr ∧
      qs !! (2 + j)%nat = Some (write_item example_layout 3 32 0 (Z.to_N d) (N.of_nat j) ptr).
Proof.
  destruct (build_remote_kv_transfer_requests example_span example_layout 3 example_remote) as [[qs|e]|] eqn:Hb;
    [|by vm_compute in Hb|by vm_compute in Hb].
  destruct (remote_requests_cover_pages _ _ _ _ _ Hb) as [Hlen Hall]. exists qs. split; [done|]. split; [done|].
  destruct (Hall 1%nat 0 40 eq_refl eq_refl) as (d&j&ptr&?&?&?&?&?&_). by exists d, j, ptr.
Defined.

Lemma transfer_page_indices_correct_witness :
  0 < 4 ∧ (transfer_page_indices "a" 4 [8; 9; 10; 11; 0; 1] 4 = Ok [2; 0] ↔
    ([8; 9; 10; 11; 0; 1] = [] ∨ is_multiple_of 4 4 = true) ∧
    len [2; 0] = div_ceil (len [8; 9; 10; 11; 0; 1]) 4 ∧
    [8; 9; 10; 11; 0; 1] = slice_to (len [8; 9; 10; 11; 0; 1]) (slots_of_pages 4 [2; 0])).
Proof. split; [lia|]. apply (transfer_page_indices_correct "a" 4 [8; 9; 10; 11; 0; 1] 4 [2; 0]). lia. Defined.

(** A plain request and a disaggregated one. *)
Definition example_plan_batch : ScheduleBatch :=
  mkScheduleBatch Prefill
    [mkScheduledRequest "a" [5; 6] [] [4; 5] [4; 5] [4; 5] 0 (SamplingParams_new 4) None 0%Z
       (mkPrefixMatch 0 [] [5; 6]) PrefillForward 0 2;
     mkScheduledRequest "b" [1; 2; 3] [] [0; 1; 2] [0; 1; 2] [0; 1; 2] 0 (SamplingParams_new 4)
       (Some (mkDisaggregatedParams "host" 1 7)) 0%Z (mkPrefixMatch 0 [] [1; 2; 3]) PrefillForward 0 3].

Lemma transfer_plan_correct_witness :
  ∃ b, from_schedule_batch example_plan_batch = Some b ∧
    from_prefill_worker_batch_with_page_size b 4 = Some (spans_of 4 (requests example_plan_batch)).
Proof.
  eexists. split; [by vm_compute|]. apply (transfer_plan_correct example_plan_batch); [by vm_compute|done|lia|].
  repeat constructor; (eexists; split; [by vm_compute|done]).
Defined.
