(* ===== verification/TransferDescriptor.v ===== *)
(** * Descriptors of KV transfer spans ([crates/sglang-srt/src/transfer/mod.rs], [descriptor_checksum])

    The checksum by which both sides recognise a transfer hashes a byte string
    with the identifying fields of the span.  SHA-256 is a parameter; the bytes
    it is given determine the fields. *)

From S2P Require Import Prelude Bytes Types PageAllocator Request TransferPlan.

(** Strings are their UTF-8 bytes. *)
Definition string_bytes (s : string) : list N := Ascii.N_of_ascii <$> String.list_ascii_of_string s.

(** [transfer/mod.rs:575-578] update_len_prefixed_str *)
Definition len_prefixed_str (value : string) : list N :=
  to_le_bytes 8 (len (string_bytes value)) ++ string_bytes value.

(** The length and the elements of a list as [u64]. *)
Definition len_prefixed_u64s (l : list N) : list N := to_le_bytes 8 (len l) ++ (l ≫= to_le_bytes 8).

(** [i32::to_le_bytes]: the two's complement of the value. *)
Definition i32_to_le_bytes (z : Z) : list N := to_le_bytes 4 (Z.to_N (z mod 2 ^ 32)).

(** [transfer/mod.rs:546-564] KvCacheTransferSpan::descriptor_checksum (hashed bytes) *)
Definition descriptor_bytes (sp : KvCacheTransferSpan) : list N :=
  string_bytes "sglang-rs.kv-transfer-span.v2" ++ [0]
  ++ len_prefixed_str (sp_request_id sp)
  ++ len_prefixed_str (bootstrap_host (sp_disaggregated_params sp))
  ++ to_le_bytes 2 (bootstrap_port (sp_disaggregated_params sp))
  ++ to_le_bytes 8 (bootstrap_room (sp_disaggregated_params sp))
  ++ i32_to_le_bytes (sp_data_parallel_rank sp)
  ++ to_le_bytes 8 (sp_token_offset sp)
  ++ to_le_bytes 8 (sp_token_count sp)
  ++ to_le_bytes 8 (sp_page_size sp)
  ++ len_prefixed_u64s (sp_cache_pages sp)
  ++ len_prefixed_u64s (sp_page_indices sp).

Definition HEX : list Ascii.ascii := String.list_ascii_of_string "0123456789abcdef".

(** [transfer/mod.rs:580-588] hex_encode *)
Definition hex_encode (bytes : list N) : option string :=
  chars ← mapM (λ b, hi ← HEX !! N.to_nat (N.shiftr b 4); lo ← HEX !! N.to_nat (N.land b 15); Some [hi; lo]) bytes;
  Some (String.string_of_list_ascii (concat chars)).

Section Checksum.
Context (sha256 : list N → list N).

(** [None] would be a digit out of range. *)
(** [transfer/mod.rs:546-568] KvCacheTransferSpan::descriptor_checksum *)
Definition descriptor_checksum (sp : KvCacheTransferSpan) : option string := hex_encode (sha256 (descriptor_bytes sp)).

End Checksum.

(** ** Self-delimiting encodings *)

(** An encoding that can be cut off the front of a byte string in one way. *)
Definition delimited {A} (P : A → Prop) (enc : A → list N) : Prop :=
  ∀ a b x y, P a → P b → enc a ++ x = enc b ++ y → a = b ∧ x = y.

Lemma delimited_le n : delimited (λ x, x < 256 ^ N.of_nat n) (to_le_bytes n).
Proof.
  intros a b x y Ha Hb He. apply app_inj_1 in He as [He ->]; [|by rewrite !length_to_le]. split; [|done].
  by rewrite <-(from_to_le n a), <-(from_to_le n b), He.
Qed.

Lemma delimited_i32 : delimited (λ z, - 2 ^ 31 ≤ z < 2 ^ 31)%Z i32_to_le_bytes.
Proof.
  intros a b x y Ha Hb He. apply (delimited_le 4) in He as [He ->].
  - split; [|done]. apply Z2N.inj in He; [|apply Z.mod_pos_bound; lia..].
    pose proof (Z.div_mod a (2 ^ 32)). pose proof (Z.div_mod b (2 ^ 32)).
    assert (a mod 2 ^ 32 = if a <? 0 then a + 2 ^ 32 else a)%Z as Ea.
    { destruct (Z.ltb_spec a 0); [|by apply Z.mod_small; lia].
      rewrite <-(Z_mod_plus_full a 1 (2 ^ 32)). rewrite Z.mul_1_l. apply Z.mod_small. lia. }
    assert (b mod 2 ^ 32 = if b <? 0 then b + 2 ^ 32 else b)%Z as Eb.
    { destruct (Z.ltb_spec b 0); [|by apply Z.mod_small; lia].
      rewrite <-(Z_mod_plus_full b 1 (2 ^ 32)). rewrite Z.mul_1_l. apply Z.mod_small. lia. }
    rewrite Ea, Eb in He. destruct (Z.ltb_spec a 0), (Z.ltb_spec b 0); lia.
  - pose proof (Z.mod_pos_bound a (2 ^ 32)). cbn. lia.
  - pose proof (Z.mod_pos_bound b (2 ^ 32)). cbn. lia.
Qed.

Lemma string_bytes_inj s t : string_bytes s = string_bytes t → s = t.
Proof.
  intros He. rewrite <-(String.string_of_list_ascii_of_string s), <-(String.string_of_list_ascii_of_string t). f_equal.
  unfold string_bytes in He. eapply list_fmap_eq_inj; [|done]. intros a b Hab.
  by rewrite <-(Ascii.ascii_N_embedding a), <-(Ascii.ascii_N_embedding b), Hab.
Qed.

Lemma delimited_str : delimited (λ s, len (string_bytes s) < 2 ^ 64) len_prefixed_str.
Proof.
  intros a b x y Ha Hb He. unfold len_prefixed_str in He. rewrite <-!(assoc_L (++)) in He.
  apply (delimited_le 8) in He as [Hn He]; [|done..]. apply app_inj_1 in He as [He ->]; [|unfold len in Hn; lia].
  split; [by apply string_bytes_inj|done].
Qed.

Lemma delimited_u64s : delimited (λ l, len l < 2 ^ 64 ∧ Forall (λ x, x < 2 ^ 64) l) len_prefixed_u64s.
Proof.
  intros a b x y [Ha Ha'] [Hb Hb'] He. unfold len_prefixed_u64s in He. rewrite <-!(assoc_L (++)) in He.
  apply (delimited_le 8) in He as [Hn He]; [|done..]. clear Ha Hb. assert (length a = length b) as Hl by (unfold len in Hn; lia).
  clear Hn. revert b Hb' Hl He. induction Ha' as [|c a Hc _ IH]; intros [|d b] Hb Hl He; try done.
  apply Forall_cons in Hb as [Hd Hb]. rewrite !bind_cons, <-!(assoc_L (++)) in He.
  apply (delimited_le 8) in He as [-> He]; [|done..]. injection Hl as Hl. destruct (IH b Hb Hl He) as [-> ->]. done.
Qed.

(** ** Properties *)

(** The fields of a span that are Rust values of their types. *)
Record span_in_range (sp : KvCacheTransferSpan) : Prop := {
  sr_id : len (string_bytes (sp_request_id sp)) < 2 ^ 64;
  sr_host : len (string_bytes (bootstrap_host (sp_disaggregated_params sp))) < 2 ^ 64;
  sr_port : bootstrap_port (sp_disaggregated_params sp) < 2 ^ 16;
  sr_room : bootstrap_room (sp_disaggregated_params sp) < 2 ^ 64;
  sr_rank : (- 2 ^ 31 ≤ sp_data_parallel_rank sp < 2 ^ 31)%Z;
  sr_offset : sp_token_offset sp < 2 ^ 64;
  sr_count : sp_token_count sp < 2 ^ 64;
  sr_page_size : sp_page_size sp < 2 ^ 64;
  sr_pages : len (sp_cache_pages sp) < 2 ^ 64 ∧ Forall (λ x, x < 2 ^ 64) (sp_cache_pages sp);
  sr_indices : len (sp_page_indices sp) < 2 ^ 64 ∧ Forall (λ x, x < 2 ^ 64) (sp_page_indices sp);
}.

(** A span without the parts a decode side receives later. *)
Definition identity_of (sp : KvCacheTransferSpan) : KvCacheTransferSpan :=
  mkSpan (sp_request_id sp) (sp_disaggregated_params sp) (sp_data_parallel_rank sp) (sp_token_offset sp)
    (sp_token_count sp) (sp_cache_pages sp) (sp_page_size sp) (sp_page_indices sp) None None.

Lemma descriptor_bytes_inj a b :
  span_in_range a → span_in_range b → descriptor_bytes a = descriptor_bytes b → identity_of a = identity_of b.
Proof.
  intros [] []. unfold descriptor_bytes. intros He. apply app_inv_head, app_inv_head in He.
  apply delimited_str in He as [E1 He]; [|done..]. apply delimited_str in He as [E2 He]; [|done..].
  apply (delimited_le 2) in He as [E3 He]; [|done..]. apply (delimited_le 8) in He as [E4 He]; [|done..].
  apply delimited_i32 in He as [E5 He]; [|done..]. apply (delimited_le 8) in He as [E6 He]; [|done..].
  apply (delimited_le 8) in He as [E7 He]; [|done..]. apply (delimited_le 8) in He as [E8 He]; [|done..].
  apply delimited_u64s in He as [E9 He]; [|done..].
  rewrite <-(app_nil_r (len_prefixed_u64s (sp_page_indices a))), <-(app_nil_r (len_prefixed_u64s (sp_page_indices b))) in He.
  apply delimited_u64s in He as [E10 _]; [|done..]. destruct a as [? [] ? ? ? ? ? ? ? ?], b as [? [] ? ? ? ? ? ? ? ?].
  unfold identity_of. cbn in *. by subst.
Qed.

Lemma hex_digits_ok b : b < 256 → ∃ hi lo, HEX !! N.to_nat (N.shiftr b 4) = Some hi ∧ HEX !! N.to_nat (N.land b 15) = Some lo.
Proof.
  intros Hb. assert (N.shiftr b 4 < 16) as H1.
  { rewrite N.shiftr_div_pow2. apply N.Div0.div_lt_upper_bound. lia. }
  assert (N.land b 15 < 16) as H2.
  { change 15 with (N.ones 4). rewrite N.land_ones. apply N.mod_lt. lia. }
  destruct (lookup_lt_is_Some_2 HEX (N.to_nat (N.shiftr b 4))) as [hi ?]; [cbn; lia|].
  destruct (lookup_lt_is_Some_2 HEX (N.to_nat (N.land b 15))) as [lo ?]; [cbn; lia|]. by exists hi, lo.
Qed.

Lemma hex_digit_inj i j c : HEX !! i = Some c → HEX !! j = Some c → i = j.
Proof.
  assert (NoDup HEX) as Hnd by (apply (bool_decide_unpack _); by vm_compute).
  intros. by eapply NoDup_lookup.
Qed.

Lemma nibbles_inj b c : b < 256 → c < 256 →
  N.shiftr b 4 = N.shiftr c 4 → N.land b 15 = N.land c 15 → b = c.
Proof.
  intros Hb Hc Hs Hl. change 15 with (N.ones 4) in Hl. rewrite !N.land_ones in Hl. rewrite !N.shiftr_div_pow2 in Hs.
  pose proof (N.div_mod b (2 ^ 4)). pose proof (N.div_mod c (2 ^ 4)). lia.
Qed.

Lemma hex_pair_Some b cs :
  (hi ← HEX !! N.to_nat (N.shiftr b 4); lo ← HEX !! N.to_nat (N.land b 15); Some [hi; lo]) = Some cs →
  ∃ hi lo, cs = [hi; lo] ∧ HEX !! N.to_nat (N.shiftr b 4) = Some hi ∧ HEX !! N.to_nat (N.land b 15) = Some lo.
Proof. intros Hc. apply bind_Some in Hc as (hi&?&Hc). apply bind_Some in Hc as (lo&?&[= <-]). by exists hi, lo. Qed.

(** Every byte string has a hexadecimal form, and only one byte string has it. *)
Lemma hex_encode_inj a b s :
  Forall is_byte a → Forall is_byte b → hex_encode a = Some s → hex_encode b = Some s → a = b.
Proof.
  intros Ha Hb. unfold hex_encode. intros Ea Eb.
  apply bind_Some in Ea as (ca&Ea&[= Es]). apply bind_Some in Eb as (cb&Eb&[= Es']).
  assert (concat ca = concat cb) as Hc.
  { rewrite <-(String.list_ascii_of_string_of_list_ascii (concat ca)), Es, <-Es'. apply String.list_ascii_of_string_of_list_ascii. }
  clear Es Es' s. apply mapM_Some_1 in Ea, Eb. revert b cb Hb Eb Hc. induction Ea as [|x cx a ca Ex _ IH]; intros b cb Hb Eb Hc.
  - destruct Eb as [|y cy b cb Ey _]; [done|]. destruct (hex_pair_Some _ _ Ey) as (h&l&->&_). done.
  - apply Forall_cons in Ha as [Hx Ha]. destruct (hex_pair_Some _ _ Ex) as (h1&l1&->&Eh1&El1).
    destruct Eb as [|y cy b cb Ey Eb]; [done|]. destruct (hex_pair_Some _ _ Ey) as (h2&l2&->&Eh2&El2).
    apply Forall_cons in Hb as [Hy Hb]. cbn in Hc. injection Hc as <- <- Hc.
    pose proof (hex_digit_inj _ _ _ Eh1 Eh2). pose proof (hex_digit_inj _ _ _ El1 El2).
    f_equal; [apply nibbles_inj; try done; lia|by eapply IH].
Qed.

(** Spans with the same descriptor checksum agree in request, endpoint, room,
    rank, offset, counts, slots and pages, as far as the hash function tells
    their descriptors apart. *)
Theorem descriptor_checksum_identifies_span (sha256 : list N → list N) a b s :
  (∀ m, Forall is_byte (sha256 m)) →
  (sha256 (descriptor_bytes a) = sha256 (descriptor_bytes b) → descriptor_bytes a = descriptor_bytes b) →
  span_in_range a → span_in_range b →
  descriptor_checksum sha256 a = Some s → descriptor_checksum sha256 b = Some s →
  identity_of a = identity_of b.
Proof.
  intros Hbytes Hcoll Ha Hb Ea Eb. apply descriptor_bytes_inj; [done..|]. apply Hcoll. by eapply hex_encode_inj.
Qed.

(** The checksum of a span is always defined. *)
Lemma descriptor_checksum_total (sha256 : list N → list N) sp :
  (∀ m, Forall is_byte (sha256 m)) → ∃ s, descriptor_checksum sha256 sp = Some s.
Proof.
  intros Hb. unfold descriptor_checksum, hex_encode. generalize (sha256 (descriptor_bytes sp)) (Hb (descriptor_bytes sp)).
  clear Hb. intros bs Hbs.
  assert (is_Some (mapM (λ b, hi ← HEX !! N.to_nat (N.shiftr b 4); lo ← HEX !! N.to_nat (N.land b 15); Some [hi; lo]) bs)) as [cs ->].
  { apply mapM_is_Some. eapply Forall_impl; [done|]. intros b Hlt. destruct (hex_digits_ok b Hlt) as (hi&lo&E1&E2). exists [hi; lo]. cbn beta. rewrite E1. cbn [mbind option_bind]. by rewrite E2. }
  by eexists.
Qed.

Definition toy_digest (m : list N) : list N := (λ b, (b + 1) mod 256) <$> m.

Lemma toy_digest_bytes m : Forall is_byte (toy_digest m).
Proof. apply Forall_fmap, Forall_true. intros b. unfold is_byte. cbn. apply N.mod_lt. lia. Qed.

Ltac prove_in_range :=
  split; cbn; [vm_compute; reflexivity..|lia|lia|lia|lia|split; [|repeat constructor]; vm_compute; reflexivity
              |split; [|repeat constructor]; vm_compute; reflexivity].

Lemma descriptor_checksum_identifies_span_witness :
  ∃ s sp', descriptor_checksum toy_digest example_span = Some s ∧ descriptor_checksum toy_digest sp' = Some s ∧
    sp_first_token sp' = Some 5 ∧ identity_of example_span = identity_of sp'.
Proof.
  set (sp' := mkSpan "a" (mkDisaggregatedParams "host" 1 7) 0%Z 4 6 [8; 9; 10; 11; 0; 1] 4 [2; 0] (Some 5) None).
  exists (default "" (descriptor_checksum toy_digest example_span)), sp'. split_and!; [by vm_compute..|].
  apply (descriptor_checksum_identifies_span toy_digest example_span sp'
    (default ""%string (descriptor_checksum toy_digest example_span)) toy_digest_bytes); [done|prove_in_range..| |]; by vm_compute.
Defined.
