(* ===== verification/KvBootstrap.v ===== *)
(** * Bootstrap sessions and the transfer worker ([crates/sglang-srt/src/transfer/mod.rs])

    Disaggregated serving: the registry of bootstrap rooms with the status of
    their KV transfer, the completion events that move it, and the model worker
    that wraps another worker and drives a transfer backend.  The backend, the
    publisher of bootstrap metadata and the wrapped worker are traits. *)

From stdpp Require Import pretty.
From S2P Require Import Prelude Types PageAllocator RadixCache BlockHash StateEvents Request Scheduler SchedulerCorrect ModelBatch TransferPlan TransferDescriptor.

(** ** Sessions *)

Module KvPoll.
(** [transfer/mod.rs:339-345] KvPoll *)
Inductive KvPoll : Type := Failed | Bootstrapping | WaitingForInput | Transferring | Success.

#[export] Instance KvPoll_eq_dec : EqDecision KvPoll.
Proof. solve_decision. Defined.
End KvPoll.
Import (hints) KvPoll.
Notation KvPoll := KvPoll.KvPoll.

(** [transfer/mod.rs:348-353] DecodeBootstrapSession *)
Record DecodeBootstrapSession : Type := mkSession {
  session_request_id : RequestId;
  session_params : DisaggregatedParams;
  session_rank : Z;
  status : KvPoll;
}.

(** [transfer/mod.rs:356-367] DecodeBootstrapSession::new *)
Definition DecodeBootstrapSession_new (request_id : RequestId) (params : DisaggregatedParams) (rank : Z) :=
  mkSession request_id params rank KvPoll.Bootstrapping.

(** [transfer/mod.rs:385-387] DecodeBootstrapSession::set_status *)
Definition set_status (s : DecodeBootstrapSession) (st : KvPoll) : DecodeBootstrapSession :=
  mkSession (session_request_id s) (session_params s) (session_rank s) st.

(** [transfer/mod.rs:396-407] DecodeBootstrapRegistryError::fmt *)
Definition DecodeBootstrapRegistryError_to_string (e : DecodeBootstrapRegistryError) : string :=
  match e with
  | DuplicateBootstrapRoom room => "duplicate decode bootstrap room: " +:+ pretty room
  | MissingBootstrapRoom room => "missing decode bootstrap room: " +:+ pretty room
  end.

(** [transfer/mod.rs:1320-1327] KvCacheTransferError::fmt *)
Definition KvCacheTransferError_to_string (e : KvCacheTransferError) : string :=
  match e with
  | Registry error => "decode bootstrap registry error: " +:+ DecodeBootstrapRegistryError_to_string error
  | TransferRuntime error => "KV cache transfer runtime error: " +:+ error
  end.

(** The map of sessions by room; nothing iterates over it, so its order does
    not matter. *)
Notation DecodeBootstrapRegistry := (gmap N DecodeBootstrapSession).

(** [transfer/mod.rs:417-428] DecodeBootstrapRegistry::register *)
Definition register (reg : DecodeBootstrapRegistry) (session : DecodeBootstrapSession)
    : Result DecodeBootstrapRegistryError unit * DecodeBootstrapRegistry :=
  let room := bootstrap_room (session_params session) in
  if bool_decide (is_Some (reg !! room)) then (Err (DuplicateBootstrapRoom room), reg)
  else (Ok (), <[room := session]> reg).

(** [transfer/mod.rs:434-437] DecodeBootstrapRegistry::query_data_parallel_rank *)
Definition query_data_parallel_rank (reg : DecodeBootstrapRegistry) (room : N) : option Z := session_rank <$> reg !! room.

(** [transfer/mod.rs:439-449] DecodeBootstrapRegistry::update_status *)
Definition update_status (reg : DecodeBootstrapRegistry) (room : N) (st : KvPoll)
    : Result DecodeBootstrapRegistryError unit * DecodeBootstrapRegistry :=
  match reg !! room with
  | None => (Err (MissingBootstrapRoom room), reg)
  | Some session => (Ok (), <[room := set_status session st]> reg)
  end.

(** [transfer/mod.rs:451-453] DecodeBootstrapRegistry::remove *)
Definition remove (reg : DecodeBootstrapRegistry) (room : N) : option DecodeBootstrapSession * DecodeBootstrapRegistry :=
  (reg !! room, base.delete room reg).

(** ** Completion events *)

Module KvTransferEventStatus.
(** [transfer/mod.rs:1136-1140] KvTransferEventStatus *)
Inductive KvTransferEventStatus : Type := Completed | Failed (message : string) | Canceled.

#[export] Instance KvTransferEventStatus_eq_dec : EqDecision KvTransferEventStatus.
Proof. solve_decision. Defined.
End KvTransferEventStatus.
Import (hints) KvTransferEventStatus.

(** [transfer/mod.rs:1143-1147] KvTransferCompletionEvent *)
Record KvTransferCompletionEvent : Type := mkCompletionEvent {
  event_room : N;
  event_checksum : string;
  event_status : KvTransferEventStatus.KvTransferEventStatus;
}.

(** [transfer/mod.rs:1192-1195] KvTransferPoll *)
Record KvTransferPoll : Type := mkKvTransferPoll {
  events : list KvTransferCompletionEvent;
  pending_transfers : N;
}.

Definition push_checksum (checksum : string) (l : list string) : list string :=
  if bool_decide (checksum = ""%string) then l else l ++ [checksum].

(** [transfer/mod.rs:2427-2447] apply_transfer_completion_events (loop) *)
Fixpoint apply_events (reg : DecodeBootstrapRegistry) (summary : KvTransferPollSummary) (evs : list KvTransferCompletionEvent)
    : Result KvCacheTransferError KvTransferPollSummary * DecodeBootstrapRegistry :=
  match evs with
  | [] => (Ok summary, reg)
  | ev :: evs' =>
      let 'mkKvTransferPollSummary c f p cs fs ps := summary in
      match event_status ev with
      | KvTransferEventStatus.Completed =>
          match update_status reg (event_room ev) KvPoll.Success with
          | (Err e, reg) => (Err (Registry e), reg)
          | (Ok _, reg) =>
              apply_events reg (mkKvTransferPollSummary (c + 1) f p (push_checksum (event_checksum ev) cs) fs ps) evs'
          end
      | KvTransferEventStatus.Failed _ | KvTransferEventStatus.Canceled =>
          match update_status reg (event_room ev) KvPoll.Failed with
          | (Err e, reg) => (Err (Registry e), reg)
          | (Ok _, reg) =>
              apply_events reg (mkKvTransferPollSummary c (f + 1) p cs (push_checksum (event_checksum ev) fs) ps) evs'
          end
      end
  end.

(** [transfer/mod.rs:2419-2450] apply_transfer_completion_events *)
Definition apply_transfer_completion_events (reg : DecodeBootstrapRegistry) (poll : KvTransferPoll)
    : Result KvCacheTransferError KvTransferPollSummary * DecodeBootstrapRegistry :=
  apply_events reg (mkKvTransferPollSummary 0 0 (pending_transfers poll) [] [] []) (events poll).

(** ** Backends *)

(** [None]: submitting and polling can panic, and cancelling and shutting down
    wait for transfers to settle, which may not end.  Registering memory is the business of the backend's
    own type. *)
(** [transfer/mod.rs:1214-1220] KvTransferBackend *)
Class KvTransferBackend (E : Type) : Type := {
  backend_submit : E → KvCacheTransferSpan → option (Result KvCacheTransferError unit * E);
  backend_poll : E → option (Result KvCacheTransferError KvTransferPoll * E);
  backend_cancel : E → N → option (Result KvCacheTransferError unit * E);
  backend_shutdown : E → option (Result KvCacheTransferError unit * E);
}.

(** [transfer/mod.rs:862-889] DecodeBootstrapPublisher *)
Class DecodeBootstrapPublisher (P : Type) : Type := {
  publish_decode_bootstrap_metadata : P → list KvCacheTransferSpan → Result string N * P;
  receive_prefill_token_and_state : P → N → Result string (N * option (list N)) * P;
  cancel_receive : P → N → Result string unit * P;
}.

(** The recurrent states of a worker; its other operations are those of
    [WorkerExecutor]. *)
(** [worker.rs:162-176] FallibleModelWorker (recurrent state) *)
Class RecurrentStateWorker (W : Type) : Type := {
  export_recurrent_state : W → RequestId → Result WorkerExecutionError (option (list N));
  restore_recurrent_state : W → RequestId → list N → Result WorkerExecutionError unit * W;
}.

(** [transfer/mod.rs:836-841] KvCacheTransferSummary *)
Record KvCacheTransferSummary : Type := mkTransferSummary {
  submitted_spans : N;
  noop_spans : N;
  snapshot_content_checksums : list string;
}.

Section Backend.
Context {E : Type} `{!KvTransferBackend E}.

(** [transfer/mod.rs:1284-1297] execute_kv_cache_transfer_plan (loop) *)
Fixpoint execute_spans (reg : DecodeBootstrapRegistry) (executor : E) (submitted noops : N)
    (spans : list KvCacheTransferSpan)
    : option (Result KvCacheTransferError KvCacheTransferSummary * (DecodeBootstrapRegistry * E)) :=
  match spans with
  | [] => Some (Ok (mkTransferSummary submitted noops []), (reg, executor))
  | sp :: spans' =>
      if (is_noop sp && bool_decide (sp_first_token sp = None))%bool then
        match update_status reg (span_room sp) KvPoll.Success with
        | (Err e, reg) => Some (Err (Registry e), (reg, executor))
        | (Ok _, reg) => execute_spans reg executor submitted (noops + 1) spans'
        end
      else
        match update_status reg (span_room sp) KvPoll.Transferring with
        | (Err e, reg) => Some (Err (Registry e), (reg, executor))
        | (Ok _, reg) =>
            '(res, executor) ← backend_submit executor sp;
            match res with
            | Err error =>
                match update_status reg (span_room sp) KvPoll.Failed with
                | (Err e, reg) => Some (Err (Registry e), (reg, executor))
                | (Ok _, reg) => Some (Err error, (reg, executor))
                end
            | Ok _ => execute_spans reg executor (submitted + 1) noops spans'
            end
        end
  end.

(** [transfer/mod.rs:1274-1300] execute_kv_cache_transfer_plan *)
Definition execute_kv_cache_transfer_plan (reg : DecodeBootstrapRegistry) (executor : E)
    (plan : list KvCacheTransferSpan) := execute_spans reg executor 0 0 plan.

End Backend.

(** [transfer/mod.rs:1331-1344] is_decode_request_kv_ready *)
Definition is_decode_request_kv_ready (r : ScheduledRequest) (reg : DecodeBootstrapRegistry)
    : Result KvCacheTransferError bool :=
  match disaggregated_params r with
  | None => Ok true
  | Some params =>
      let? session := ok_or (reg !! bootstrap_room params) (Registry (MissingBootstrapRoom (bootstrap_room params))) in
      Ok (bool_decide (status session = KvPoll.Success))
  end.

(** ** The transfer worker *)

(** [transfer/mod.rs:1346-1357] KvTransferModelWorker *)
Record KvTransferModelWorker (W E P : Type) : Type := mkTransferWorker {
  decode_bootstrap_publisher : P;
  transfer_executor : E;
  kw_worker : W;
  registry : DecodeBootstrapRegistry;
  kv_page_size : N;
  submit_prefill_transfers : bool;
  prefill_only : bool;
  last_transfer_summary : option KvCacheTransferSummary;
}.
Arguments mkTransferWorker {W E P}.
Arguments decode_bootstrap_publisher {W E P}.
Arguments transfer_executor {W E P}.
Arguments kw_worker {W E P}.
Arguments registry {W E P}.
Arguments kv_page_size {W E P}.
Arguments submit_prefill_transfers {W E P}.
Arguments prefill_only {W E P}.
Arguments last_transfer_summary {W E P}.

Section Worker.
Context {W E P : Type} `{!WorkerExecutor W} `{!RecurrentStateWorker W} `{!KvTransferBackend E} `{!DecodeBootstrapPublisher P}.

Implicit Types k : KvTransferModelWorker W E P.

Definition set_kw_publisher k p : KvTransferModelWorker W E P :=
  mkTransferWorker p (transfer_executor k) (kw_worker k) (registry k) (kv_page_size k) (submit_prefill_transfers k)
    (prefill_only k) (last_transfer_summary k).
Definition set_kw_executor k e : KvTransferModelWorker W E P :=
  mkTransferWorker (decode_bootstrap_publisher k) e (kw_worker k) (registry k) (kv_page_size k)
    (submit_prefill_transfers k) (prefill_only k) (last_transfer_summary k).
Definition set_kw_worker k w : KvTransferModelWorker W E P :=
  mkTransferWorker (decode_bootstrap_publisher k) (transfer_executor k) w (registry k) (kv_page_size k)
    (submit_prefill_transfers k) (prefill_only k) (last_transfer_summary k).
Definition set_kw_registry k reg : KvTransferModelWorker W E P :=
  mkTransferWorker (decode_bootstrap_publisher k) (transfer_executor k) (kw_worker k) reg (kv_page_size k)
    (submit_prefill_transfers k) (prefill_only k) (last_transfer_summary k).
Definition set_kw_summary k s : KvTransferModelWorker W E P :=
  mkTransferWorker (decode_bootstrap_publisher k) (transfer_executor k) (kw_worker k) (registry k) (kv_page_size k)
    (submit_prefill_transfers k) (prefill_only k) (Some s).

(** [transfer/mod.rs:1596-1617] KvTransferModelWorker::decode_request_state *)
Definition kw_decode_request_state k (r : ScheduledRequest) : Result WorkerExecutionError DecodeRequestState :=
  match disaggregated_params r with
  | None => decode_request_state (kw_worker k) r
  | Some params =>
      match registry k !! bootstrap_room params with
      | None => Ok Pending
      | Some session =>
          match status session with
          | KvPoll.Success => decode_request_state (kw_worker k) r
          | KvPoll.Failed => Ok (Failed ("KV transfer failed for bootstrap room " +:+ pretty (bootstrap_room params)))
          | KvPoll.Bootstrapping | KvPoll.WaitingForInput | KvPoll.Transferring => Ok Pending
          end
      end
  end.

(** [transfer/mod.rs:1619-1622] KvTransferModelWorker::poll_transfers *)
Definition kw_poll_transfers k
    : option (Result KvCacheTransferError KvTransferPollSummary * KvTransferModelWorker W E P) :=
  '(res, executor) ← backend_poll (transfer_executor k);
  let k := set_kw_executor k executor in
  match res with
  | Err e => Some (Err e, k)
  | Ok poll =>
      let '(res, reg) := apply_transfer_completion_events (registry k) poll in
      Some (res, set_kw_registry k reg)
  end.

(** [transfer/mod.rs:1632-1636] KvTransferModelWorker::finish_request (receive) *)
Definition kw_cancel_receive k (room : N) : Result WorkerExecutionError unit * KvTransferModelWorker W E P :=
  if submit_prefill_transfers k then (Ok (), k)
  else
    let '(res, p) := cancel_receive (decode_bootstrap_publisher k) room in
    (result_map_err Runtime res, set_kw_publisher k p).

(** [transfer/mod.rs:1637-1639] KvTransferModelWorker::finish_request (transfers) *)
Definition kw_cancel k (room : N) : option (Result WorkerExecutionError unit * KvTransferModelWorker W E P) :=
  '(res, e) ← backend_cancel (transfer_executor k) room;
  Some (result_map_err (λ err, Runtime (KvCacheTransferError_to_string err)) res, set_kw_executor k e).

Definition kw_finish_inner k (r : ScheduledRequest) : Result WorkerExecutionError unit * KvTransferModelWorker W E P :=
  let '(res, w) := finish_request (kw_worker k) r in (res, set_kw_worker k w).

(** [transfer/mod.rs:1630-1643] KvTransferModelWorker::finish_request *)
Definition kw_finish_request k (r : ScheduledRequest)
    : option (Result WorkerExecutionError unit * KvTransferModelWorker W E P) :=
  match disaggregated_params r with
  | None => Some (kw_finish_inner k r)
  | Some params =>
      let* _u, k := Some (kw_cancel_receive k (bootstrap_room params)) in
      let* _u, k := kw_cancel k (bootstrap_room params) in
      Some (kw_finish_inner (set_kw_registry k (remove (registry k) (bootstrap_room params)).2) r)
  end.

(** An error is only printed. *)
(** [transfer/mod.rs:1624-1628] KvTransferModelWorker::complete_request *)
Definition kw_complete_request k (r : ScheduledRequest) : option (KvTransferModelWorker W E P) :=
  '(_, k) ← kw_finish_request k r; Some k.

(** [transfer/mod.rs:1645-1651] KvTransferModelWorker::fail_request *)
Definition kw_fail_request k (r : ScheduledRequest) : option (KvTransferModelWorker W E P) :=
  '(res, k) ← kw_finish_request k r;
  match res with
  | Err _ => Some k
  | Ok _ => Some (set_kw_worker k (fail_request (kw_worker k) r))
  end.

(** [transfer/mod.rs:1653-1659] KvTransferModelWorker::shutdown *)
Definition kw_shutdown k : option (Result WorkerExecutionError unit * KvTransferModelWorker W E P) :=
  '(res, e) ← backend_shutdown (transfer_executor k);
  let k := set_kw_executor k e in
  match res with
  | Err err => Some (Err (Runtime ("KV transfer backend shutdown failed: " +:+ KvCacheTransferError_to_string err)), k)
  | Ok _ =>
      let k := set_kw_registry k ∅ in
      let '(res, w) := worker_shutdown (kw_worker k) in
      Some (res, set_kw_worker k w)
  end.

(** [transfer/mod.rs:1689-1706] KvTransferModelWorker::register_prefill_bootstrap_sessions (loop) *)
Fixpoint register_sessions (reg : DecodeBootstrapRegistry) (rs : list ScheduledRequest)
    : Result DecodeBootstrapRegistryError unit * DecodeBootstrapRegistry :=
  match rs with
  | [] => (Ok (), reg)
  | r :: rs' =>
      match disaggregated_params r with
      | None => register_sessions reg rs'
      | Some params =>
          if bool_decide (is_Some (reg !! bootstrap_room params)) then register_sessions reg rs'
          else
            let! _u, reg := register reg (DecodeBootstrapSession_new (request_id r) params (data_parallel_rank r)) in
            register_sessions reg rs'
      end
  end.

(** [transfer/mod.rs:1685-1709] KvTransferModelWorker::register_prefill_bootstrap_sessions *)
Definition register_prefill_bootstrap_sessions k (batch : ScheduleBatch)
    : Result DecodeBootstrapRegistryError unit * KvTransferModelWorker W E P :=
  let '(res, reg) := register_sessions (registry k) (requests batch) in (res, set_kw_registry k reg).

(** ** Generation *)

(** The plan of a prefill batch, and its publication. *)
(** [transfer/mod.rs:1475-1492] KvTransferModelWorker::try_generate_batch (plan) *)
Definition kw_plan k (batch : ScheduleBatch)
    : option (Result WorkerExecutionError (option (list KvCacheTransferSpan)) * KvTransferModelWorker W E P) :=
  if bool_decide (forward_mode batch = Prefill) then
    worker_batch ← from_schedule_batch batch;
    plan ← from_prefill_worker_batch_with_page_size worker_batch (kv_page_size k);
    match plan with
    | Err e => Some (Err (Runtime ("KV transfer planning failed: " +:+ KvCacheTransferPlanError_to_string e)), k)
    | Ok spans =>
        let '(res, p) := publish_decode_bootstrap_metadata (decode_bootstrap_publisher k) spans in
        let k := set_kw_publisher k p in
        match res with
        | Err e => Some (Err (Runtime ("decode bootstrap metadata publish failed: " +:+ e)), k)
        | Ok _ => Some (Ok (Some spans), k)
        end
    end
  else Some (Ok None, k).

Definition stops (r : ScheduledRequest) (token : N) : bool :=
  (negb (ignore_eos (sampling r)) && bool_decide (token ∈ stop_token_ids (sampling r)))%bool.

(** [transfer/mod.rs:1502-1529] KvTransferModelWorker::try_generate_batch (decode side, loop) *)
Fixpoint receive_tokens k (rs : list ScheduledRequest)
    : Result WorkerExecutionError (list GeneratedToken) * KvTransferModelWorker W E P :=
  match rs with
  | [] => (Ok [], k)
  | r :: rs' =>
      match disaggregated_params r with
      | None => (Err (Runtime "decode PD request requires bootstrap metadata"), k)
      | Some params =>
          let room := bootstrap_room params in
          let '(res, p) := receive_prefill_token_and_state (decode_bootstrap_publisher k) room in
          let k := set_kw_publisher k p in
          match res with
          | Err e => (Err (Runtime e), k)
          | Ok (token, recurrent_state) =>
              let! _u, k := (match recurrent_state with
                            | None => (Ok (), k)
                            | Some state_bytes =>
                                let '(res, w) := restore_recurrent_state (kw_worker k) (request_id r) state_bytes in
                                (res, set_kw_worker k w)
                            end) in
              let! _u, k := (let '(res, reg) := update_status (registry k) room KvPoll.Success in
                            (result_map_err (λ e, Runtime (DecodeBootstrapRegistryError_to_string e)) res,
                             set_kw_registry k reg)) in
              let! tokens, k := receive_tokens k rs' in
              (Ok (mkGeneratedToken [token] (stops r token) :: tokens), k)
          end
      end
  end.

(** [transfer/mod.rs:1496-1535] KvTransferModelWorker::try_generate_batch (decode side) *)
Definition kw_receive_batch k (batch : ScheduleBatch) (plan : list KvCacheTransferSpan)
    : Result WorkerExecutionError (list GeneratedToken) * KvTransferModelWorker W E P :=
  let! _u, k := (let '(res, k) := register_prefill_bootstrap_sessions k batch in
                (result_map_err (λ e, Runtime (DecodeBootstrapRegistryError_to_string e)) res, k)) in
  let! tokens, k := receive_tokens k (requests batch) in
  let k := set_kw_summary k (mkTransferSummary 0 (len (filter (λ sp, is_noop sp = true) plan)) []) in
  (result_map_err Output (from_batch batch tokens), k).

(** A span whose request the batch does not hold is an error; the output may be
    shorter than the batch, and the index then panics. *)
(** [transfer/mod.rs:674-698] KvCacheTransferPlan::with_prefill_output *)
Fixpoint with_prefill_output (spans : list KvCacheTransferSpan) (batch : ScheduleBatch) (output : list GeneratedToken)
    : option (Result WorkerExecutionError (list KvCacheTransferSpan)) :=
  match spans with
  | [] => Some (Ok [])
  | sp :: spans' =>
      match list_find (λ r, request_id r = sp_request_id sp) (requests batch) with
      | None => Some (Err (Runtime "transfer span has no matching prefill request"))
      | Some (index, _) =>
          tok ← output !! index;
          match generated_token_ids tok with
          | [token] =>
              rest ← with_prefill_output spans' batch output;
              Some (let? rest := rest in
                    Ok (mkSpan (sp_request_id sp) (sp_disaggregated_params sp) (sp_data_parallel_rank sp)
                          (sp_token_offset sp) (sp_token_count sp) (sp_cache_pages sp) (sp_page_size sp)
                          (sp_page_indices sp) (Some token) (sp_recurrent_state sp) :: rest))
          | _ => Some (Err (Runtime "single-rank PD requires exactly one prefill output token"))
          end
      end
  end.

(** [transfer/mod.rs:1547-1549] KvTransferModelWorker::try_generate_batch (recurrent states) *)
Fixpoint with_recurrent_states (w : W) (spans : list KvCacheTransferSpan)
    : Result WorkerExecutionError (list KvCacheTransferSpan) :=
  match spans with
  | [] => Ok []
  | sp :: spans' =>
      let? state := export_recurrent_state w (sp_request_id sp) in
      let? rest := with_recurrent_states w spans' in
      Ok (mkSpan (sp_request_id sp) (sp_disaggregated_params sp) (sp_data_parallel_rank sp)
            (sp_token_offset sp) (sp_token_count sp) (sp_cache_pages sp) (sp_page_size sp)
            (sp_page_indices sp) (sp_first_token sp) state :: rest)
  end.

(** A room of the batch whose transfer is not done. *)
(** [transfer/mod.rs:1560-1566] KvTransferModelWorker::try_generate_batch (loop condition) *)
Definition kw_awaits k (batch : ScheduleBatch) : bool :=
  existsb (λ r, match disaggregated_params r with
                | None => false
                | Some params => match registry k !! bootstrap_room params with
                                 | None => false
                                 | Some session => negb (bool_decide (status session = KvPoll.Success))
                                 end
                end) (requests batch).

(** [transfer/mod.rs:1569-1578] KvTransferModelWorker::try_generate_batch (failure check) *)
Fixpoint check_failed k (rs : list ScheduledRequest) : Result WorkerExecutionError unit :=
  match rs with
  | [] => Ok ()
  | r :: rs' =>
      let? st := kw_decode_request_state k r in
      match st with
      | Failed _ => Err (Runtime "prefill KV transfer failed")
      | _ => check_failed k rs'
      end
  end.

(** The polling loop; [None] after [rounds] rounds of waiting. *)
(** [transfer/mod.rs:1560-1580] KvTransferModelWorker::try_generate_batch (wait) *)
Fixpoint kw_wait (rounds : nat) k (batch : ScheduleBatch)
    : option (Result WorkerExecutionError unit * KvTransferModelWorker W E P) :=
  if negb (kw_awaits k batch) then Some (Ok (), k)
  else
    match rounds with
    | O => None
    | S rounds' =>
        '(res, k) ← kw_poll_transfers k;
        match res with
        | Err e => Some (Err (Runtime (KvCacheTransferError_to_string e)), k)
        | Ok _ =>
            match check_failed k (requests batch) with
            | Err e => Some (Err e, k)
            | Ok _ => kw_wait rounds' k batch
            end
        end
    end.

(** [transfer/mod.rs:1540-1590] KvTransferModelWorker::try_generate_batch (prefill side) *)
Definition kw_transfer_batch (rounds : nat) k (batch : ScheduleBatch) (plan : list KvCacheTransferSpan)
    (output : list GeneratedToken)
    : option (Result WorkerExecutionError (list GeneratedToken) * KvTransferModelWorker W E P) :=
  let* _u, k := Some (let '(res, k) := register_prefill_bootstrap_sessions k batch in
                     (result_map_err (λ e, Runtime ("KV transfer bootstrap registration failed: "
                        +:+ DecodeBootstrapRegistryError_to_string e)) res, k)) in
  plan ← with_prefill_output plan batch output;
  let* plan, k := Some (plan, k) in
  let* plan, k := Some (with_recurrent_states (kw_worker k) plan, k) in
  let* summary, k := ('(res, (reg, e)) ← execute_kv_cache_transfer_plan (registry k) (transfer_executor k) plan;
                     Some (result_map_err (λ err, Runtime ("KV transfer execution failed: "
                             +:+ KvCacheTransferError_to_string err)) res,
                           set_kw_registry (set_kw_executor k e) reg)) in
  let k := set_kw_summary k summary in
  if prefill_only k then
    let* _u, k := kw_wait rounds k batch in
    Some (result_map_err Output
            (from_batch batch ((λ t, mkGeneratedToken (generated_token_ids t) true) <$> output)), k)
  else Some (Ok output, k).

(** [transfer/mod.rs:1471-1594] KvTransferModelWorker::try_generate_batch *)
Definition kw_try_generate_batch (rounds : nat) k (batch : ScheduleBatch)
    : option (Result WorkerExecutionError (list GeneratedToken) * KvTransferModelWorker W E P) :=
  let* plan, k := kw_plan k batch in
  match plan, submit_prefill_transfers k with
  | Some plan, false => Some (kw_receive_batch k batch plan)
  | _, _ =>
      let* output, k := Some (let '(res, w) := execute_batch (kw_worker k) batch in (res, set_kw_worker k w)) in
      match plan with
      | None => Some (Ok output, k)
      | Some plan => kw_transfer_batch rounds k batch plan output
      end
  end.

End Worker.

(** ** Status updates *)

(** The statuses a list of updates leaves: the last one for a room counts. *)
Definition status_after (ups : list (N * KvPoll)) (reg : DecodeBootstrapRegistry) : DecodeBootstrapRegistry :=
  foldl (λ reg p, base.alter (λ s, set_status s p.2) p.1 reg) reg ups.

Lemma update_status_Ok reg room st reg' :
  update_status reg room st = (Ok (), reg') ↔ is_Some (reg !! room) ∧ reg' = base.alter (λ s, set_status s st) room reg.
Proof.
  unfold update_status. destruct (reg !! room) as [s|] eqn:Hs.
  - assert (base.alter (λ s, set_status s st) room reg = <[room := set_status s st]> reg) as ->.
    { apply map_eq. intros i. destruct (decide (i = room)) as [->|].
      - by rewrite lookup_alter_eq, lookup_insert_eq, Hs.
      - by rewrite lookup_alter_ne, lookup_insert_ne. }
    split; [intros [= <-]; by eauto|by intros [_ ->]].
  - split; [done|by intros [[? ?] _]].
Qed.

Lemma update_status_Err reg room st e reg' :
  update_status reg room st = (Err e, reg') ↔ reg !! room = None ∧ e = MissingBootstrapRoom room ∧ reg' = reg.
Proof.
  unfold update_status. destruct (reg !! room) as [s|]; split; [done|by intros [? _]|by intros [= <- <-]|by intros (_&->&->)].
Qed.

Lemma is_Some_status_after ups reg room : is_Some (status_after ups reg !! room) ↔ is_Some (reg !! room).
Proof.
  unfold status_after. revert reg. induction ups as [|p ups IH]; intros reg; cbn [foldl]; [done|].
  rewrite IH. destruct (decide (p.1 = room)) as [<-|Hne].
  - rewrite lookup_alter_eq. by rewrite fmap_is_Some.
  - by rewrite lookup_alter_ne.
Qed.

Lemma dom_status_after ups reg : dom (status_after ups reg) = dom reg.
Proof. apply set_eq. intros room. by rewrite !elem_of_dom, is_Some_status_after. Qed.

Lemma status_after_app ups ups' reg : status_after (ups ++ ups') reg = status_after ups' (status_after ups reg).
Proof. apply foldl_app. Qed.

(** The last update of a room. *)
Definition last_update (room : N) (ups : list (N * KvPoll)) : option KvPoll :=
  snd <$> last (filter (λ p, p.1 = room) ups).

Lemma status_after_lookup ups reg room s :
  reg !! room = Some s →
  status_after ups reg !! room = Some (match last_update room ups with Some st => set_status s st | None => s end).
Proof.
  intros Hs. unfold last_update. revert reg s Hs. induction ups as [|[r st] ups IH] using rev_ind; intros reg s Hs; [done|].
  rewrite status_after_app, filter_app. specialize (IH _ _ Hs).
  change (status_after [(r, st)] (status_after ups reg)) with (base.alter (λ s, set_status s st) r (status_after ups reg)).
  destruct (decide (r = room)) as [->|Hne].
  - rewrite lookup_alter_eq, IH, filter_cons_True, filter_nil, last_snoc by done. cbn. f_equal. by destruct (snd <$> last _).
  - rewrite lookup_alter_ne, IH, filter_cons_False, filter_nil, app_nil_r by done. done.
Qed.

(** The update an event makes. *)
Definition event_update (ev : KvTransferCompletionEvent) : N * KvPoll :=
  (event_room ev, match event_status ev with KvTransferEventStatus.Completed => KvPoll.Success | _ => KvPoll.Failed end).

Definition has_session (reg : DecodeBootstrapRegistry) (ev : KvTransferCompletionEvent) : Prop :=
  is_Some (reg !! event_room ev).

Lemma apply_events_spec evs : ∀ reg summary,
  match apply_events reg summary evs with
  | (Ok summary', reg') =>
      Forall (has_session reg) evs ∧ reg' = status_after (event_update <$> evs) reg ∧
      completed_batches summary' + failed_batches summary' = completed_batches summary + failed_batches summary + len evs ∧
      completed_batches summary' = completed_batches summary
        + len (filter (λ ev, event_status ev = KvTransferEventStatus.Completed) evs) ∧
      pending_batches summary' = pending_batches summary
  | (Err e, reg') =>
      ∃ before ev after, evs = before ++ ev :: after ∧ Forall (has_session reg) before ∧ reg !! event_room ev = None ∧
        e = Registry (MissingBootstrapRoom (event_room ev)) ∧ reg' = status_after (event_update <$> before) reg
  end.
Proof.
  induction evs as [|ev evs IH]; intros reg [c f p cs fs ps]; cbn [apply_events].
  { split; [done|]. split; [done|]. cbn [completed_batches failed_batches pending_batches]. rewrite filter_nil. change (len []) with 0. split_and!; try done; lia. }
  assert (∀ reg' summary1,
    is_Some (reg !! event_room ev) → reg' = base.alter (λ s, set_status s (event_update ev).2) (event_room ev) reg →
    completed_batches summary1 + failed_batches summary1 = c + f + 1 →
    completed_batches summary1 = c + len (filter (λ ev, event_status ev = KvTransferEventStatus.Completed) [ev]) →
    pending_batches summary1 = p →
    match apply_events reg' summary1 evs with
    | (Ok summary', reg'') =>
        Forall (has_session reg) (ev :: evs) ∧ reg'' = status_after (event_update <$> ev :: evs) reg ∧
        completed_batches summary' + failed_batches summary' = c + f + len (ev :: evs) ∧
        completed_batches summary' = c + len (filter (λ ev, event_status ev = KvTransferEventStatus.Completed) (ev :: evs)) ∧
        pending_batches summary' = p
    | (Err e, reg'') =>
        ∃ before ev' after, ev :: evs = before ++ ev' :: after ∧ Forall (has_session reg) before ∧ reg !! event_room ev' = None ∧
          e = Registry (MissingBootstrapRoom (event_room ev')) ∧ reg'' = status_after (event_update <$> before) reg
    end) as Hstep.
  { intros reg' summary1 Hs -> Hc1 Hc2 Hp. set (reg1 := base.alter _ _ reg).
    assert (∀ room, is_Some (reg1 !! room) ↔ is_Some (reg !! room)) as Hd.
    { intros room. exact (is_Some_status_after [event_update ev] reg room). }
    specialize (IH reg1 summary1). destruct (apply_events reg1 summary1 evs) as [[summary'|e] reg''].
    - destruct IH as (Hall&->&Hn&Hn'&Hpend). rewrite len_cons. split_and!; [|done|lia| |congruence].
      + constructor; [done|]. eapply Forall_impl; [done|]. intros ev' ?. by apply Hd.
      + change (ev :: evs) with ([ev] ++ evs). rewrite filter_app, len_app. lia.
    - destruct IH as (before&ev'&after&->&Hall&Hnone&->&->). exists (ev :: before), ev', after. split_and!; [done| |  |done|done].
      + constructor; [done|]. eapply Forall_impl; [done|]. intros ev1 ?. by apply Hd.
      + apply eq_None_not_Some. intros Hc. apply Hd in Hc as [? Hc]. by rewrite Hc in Hnone. }
  assert (∀ st e reg', update_status reg (event_room ev) st = (Err e, reg') →
    ∃ before ev' after, ev :: evs = before ++ ev' :: after ∧ Forall (has_session reg) before ∧ reg !! event_room ev' = None ∧
      Registry e = Registry (MissingBootstrapRoom (event_room ev')) ∧ reg' = status_after (event_update <$> before) reg) as Herr.
  { intros st e reg' He. apply update_status_Err in He as (Hn&->&->). exists [], ev, evs. by split_and!. }
  assert (len (filter (λ ev, event_status ev = KvTransferEventStatus.Completed) [ev]) =
    if decide (event_status ev = KvTransferEventStatus.Completed) then 1 else 0) as Hlen.
  { rewrite filter_cons. by destruct (decide _). }
  destruct (event_status ev) eqn:Hst; destruct (update_status reg (event_room ev) _) as [[[]|e] reg'] eqn:Hup;
    try (by eapply Herr); apply update_status_Ok in Hup as [Hs ->];
    (apply Hstep; [done|unfold event_update; by rewrite Hst|cbn [completed_batches failed_batches]; lia| |done]);
    rewrite Hlen; destruct (decide _); try done; cbn [completed_batches]; lia.
Qed.

(** ** Plans and registration *)

Section PlanFacts.
Context {E : Type} `{!KvTransferBackend E}.

Definition skips (sp : KvCacheTransferSpan) : bool := (is_noop sp && bool_decide (sp_first_token sp = None))%bool.

Definition span_update (sp : KvCacheTransferSpan) : N * KvPoll :=
  (span_room sp, if skips sp then KvPoll.Success else KvPoll.Transferring).

(** The spans that are not skipped go to the backend, in order. *)
Fixpoint submit_all (e : E) (spans : list KvCacheTransferSpan) : option E :=
  match spans with
  | [] => Some e
  | sp :: spans' => e ← (if skips sp then Some e else snd <$> backend_submit e sp); submit_all e spans'
  end.

Lemma submit_all_app e spans spans' :
  submit_all e (spans ++ spans') = (e' ← submit_all e spans; submit_all e' spans').
Proof.
  revert e. induction spans as [|sp spans IH]; intros e; [done|]. cbn. destruct (if skips sp then _ else _); [apply IH|done].
Qed.

(** What executing [spans] gives: all of them are handled, or a prefix of them
    and then a span without a session, or one the backend refuses. *)
Definition plan_outcome (reg : DecodeBootstrapRegistry) (e : E) (sub noops : N) (spans : list KvCacheTransferSpan)
    (out : Result KvCacheTransferError KvCacheTransferSummary * (DecodeBootstrapRegistry * E)) : Prop :=
  match out with
  | (Ok summary, (reg', e')) =>
      Forall (λ sp, is_Some (reg !! span_room sp)) spans ∧
      reg' = status_after (span_update <$> spans) reg ∧ submit_all e spans = Some e' ∧
      noop_spans summary = noops + len (filter (λ sp, skips sp = true) spans) ∧
      submitted_spans summary + noop_spans summary = sub + noops + len spans
  | (Err err, (reg', e')) =>
      ∃ before sp after, spans = before ++ sp :: after ∧ Forall (λ sp, is_Some (reg !! span_room sp)) before ∧
        ((reg !! span_room sp = None ∧ err = Registry (MissingBootstrapRoom (span_room sp)) ∧
          reg' = status_after (span_update <$> before) reg ∧ submit_all e before = Some e') ∨
         (skips sp = false ∧ is_Some (reg !! span_room sp) ∧
          (e1 ← submit_all e before; backend_submit e1 sp) = Some (Err err, e') ∧
          reg' = status_after ((span_update <$> before) ++ [(span_room sp, KvPoll.Transferring); (span_room sp, KvPoll.Failed)]) reg))
  end.

(** One more span at the front. *)
Lemma plan_outcome_cons reg e e1 sub noops sp spans sub1 noops1 out :
  submit_all e [sp] = Some e1 → is_Some (reg !! span_room sp) →
  noops1 = noops + len (filter (λ sp, skips sp = true) [sp]) → sub1 + noops1 = sub + noops + 1 →
  plan_outcome (status_after [span_update sp] reg) e1 sub1 noops1 spans out →
  plan_outcome reg e sub noops (sp :: spans) out.
Proof.
  intros He1 Hs Hn1 Hsub1.
  assert (∀ l, submit_all e (sp :: l) = submit_all e1 l) as Hcons.
  { intros l. change (sp :: l) with ([sp] ++ l). by rewrite submit_all_app, He1. }
  set (reg1 := status_after _ _).
  assert (∀ room, is_Some (reg1 !! room) ↔ is_Some (reg !! room)) as Hd by (intros room; apply is_Some_status_after).
  assert (∀ l, Forall (λ sp, is_Some (reg1 !! span_room sp)) l → Forall (λ sp, is_Some (reg !! span_room sp)) l) as Hd'.
  { intros l Hl. eapply Forall_impl; [done|]. intros ? ?. by apply Hd. }
  destruct out as [[summary|err] [reg' e']]; cbn [plan_outcome].
  - intros (Hall&->&Hsub&Hn&Hsum). rewrite len_cons, filter_cons.
    split_and!; [constructor; by auto|done|by rewrite Hcons| |lia]. rewrite filter_cons, filter_nil in Hn1.
    destruct (decide (skips sp = true)); rewrite ?len_cons, ?(len_nil (A := KvCacheTransferSpan)) in *; lia.
  - intros (before&sp'&after&->&Hall&Hcase). exists (sp :: before), sp', after.
    split_and!; [done|constructor; by auto|].
    destruct Hcase as [(Hnone&->&->&Hsub)|(Hsk&Hk&Hsub&->)]; [left|right]; split_and!; rewrite ?Hcons; try done; [|by apply Hd].
    apply eq_None_not_Some. intros Hc. apply Hd in Hc as [? Hc]. by rewrite Hc in Hnone.
Qed.

Lemma execute_spans_spec spans : ∀ reg (e : E) sub noops,
  ∀ out, execute_spans reg e sub noops spans = Some out → plan_outcome reg e sub noops spans out.
Proof.
  induction spans as [|sp spans IH]; intros reg e sub noops out; cbn [execute_spans].
  { intros [= <-]. cbn [plan_outcome]. rewrite filter_nil. change (len []) with 0. cbn [noop_spans submitted_spans]. split_and!; try done; lia. }
  assert (∀ st e1 (reg1 : DecodeBootstrapRegistry), update_status reg (span_room sp) st = (Err e1, reg1) →
    plan_outcome reg e sub noops (sp :: spans) (Err (Registry e1), (reg1, e))) as Herr.
  { intros st e1 reg1 He. apply update_status_Err in He as (Hn&->&->). exists [], sp, spans. split_and!; try done. by left. }
  fold (skips sp). destruct (skips sp) eqn:Hsk.
  - destruct (update_status reg (span_room sp) _) as [[[]|e1] reg1] eqn:Hup; [|intros [= <-]; by eapply Herr].
    apply update_status_Ok in Hup as [Hs ->]. intros Hout.
    apply (plan_outcome_cons _ _ e _ _ _ _ sub (noops + 1)); [by cbn; rewrite Hsk|done| |lia|].
    + rewrite filter_cons_True by done. by rewrite len_cons, filter_nil.
    + unfold span_update. rewrite Hsk. by apply IH.
  - destruct (update_status reg (span_room sp) _) as [[[]|e1] reg1] eqn:Hup; [|intros [= <-]; by eapply Herr].
    apply update_status_Ok in Hup as [Hs ->]. destruct (backend_submit e sp) as [[[[]|err] e1]|] eqn:Hsub; [| |done];
      cbn [mbind option_bind].
    + intros Hout. apply (plan_outcome_cons _ _ e1 _ _ _ _ (sub + 1) noops); [by cbn; rewrite Hsk, Hsub|done| |lia|].
      * rewrite filter_cons_False by (by rewrite Hsk). rewrite filter_nil. change (len []) with 0. lia.
      * unfold span_update. rewrite Hsk. by apply IH.
    + destruct (update_status (base.alter _ _ reg) _ _) as [[[]|e2] reg2] eqn:Hup2.
      * apply update_status_Ok in Hup2 as [_ ->]. intros [= <-]. exists [], sp, spans. split_and!; try done. by right.
      * apply update_status_Err in Hup2 as (Hn&_&_). destruct Hs as [s Hs].
        by rewrite lookup_alter_eq, Hs in Hn.
Qed.

End PlanFacts.

(** Registering the sessions of a batch never fails: rooms already known are
    kept as they are, the others start bootstrapping. *)
Lemma register_sessions_spec rs : ∀ reg, ∃ reg',
  register_sessions reg rs = (Ok (), reg') ∧
  (∀ room s, reg !! room = Some s → reg' !! room = Some s) ∧
  (∀ room s, reg' !! room = Some s → reg !! room = Some s ∨
     (status s = KvPoll.Bootstrapping ∧ ∃ r, r ∈ rs ∧ disaggregated_params r = Some (session_params s) ∧
        room = bootstrap_room (session_params s))) ∧
  (∀ r params, r ∈ rs → disaggregated_params r = Some params → is_Some (reg' !! bootstrap_room params)).
Proof.
  induction rs as [|r rs IH]; intros reg; cbn [register_sessions].
  { exists reg. split_and!; try done; [by auto|]. intros r params Hin. by apply elem_of_nil in Hin. }
  destruct (disaggregated_params r) as [params|] eqn:Hp.
  - case_bool_decide as Hk.
    + destruct (IH reg) as (reg'&Heq&Hkeep&Hnew&Hall). exists reg'. split_and!; try done.
      * intros room s Hs. destruct (Hnew room s Hs) as [|(?&r'&?&?)]; [by left|right]. split; [done|]. exists r'. set_solver.
      * intros r' params' Hin Hr'. apply elem_of_cons in Hin as [->|Hin]; [|by eapply Hall].
        assert (params' = params) as -> by congruence. destruct Hk as [s Hs]. exists s. by apply Hkeep.
    + unfold register. cbn [session_params DecodeBootstrapSession_new]. rewrite bool_decide_false by done. cbn [st_bind].
      destruct (IH (<[bootstrap_room params := DecodeBootstrapSession_new (request_id r) params (data_parallel_rank r)]> reg))
        as (reg'&Heq&Hkeep&Hnew&Hall). exists reg'. split_and!; try done.
      * intros room s Hs. apply Hkeep. rewrite lookup_insert_ne; [done|]. intros <-. apply Hk. by exists s.
      * intros room s Hs. destruct (Hnew room s Hs) as [Hi|(?&r'&?&?)].
        -- apply lookup_insert_Some in Hi as [[<- <-]|[_ ?]]; [right|by left]. split; [done|]. exists r. split; [set_solver|done].
        -- right. split; [done|]. exists r'. set_solver.
      * intros r' params' Hin Hr'. apply elem_of_cons in Hin as [->|Hin]; [|by eapply Hall].
        assert (params' = params) as -> by congruence. eexists. apply Hkeep. by rewrite lookup_insert_eq.
  - destruct (IH reg) as (reg'&Heq&Hkeep&Hnew&Hall). exists reg'. split_and!; try done.
    + intros room s Hs. destruct (Hnew room s Hs) as [|(?&r'&?&?)]; [by left|right]. split; [done|]. exists r'. set_solver.
    + intros r' params' Hin Hr'. apply elem_of_cons in Hin as [->|Hin]; [congruence|by eapply Hall].
Qed.

(** ** Properties *)

(** Applying a poll moves every room to the state of its last event and
    leaves the others; an event of an unknown room is reported, with the events
    before it applied and those after it dropped. *)
Theorem apply_events_correct reg poll :
  match apply_transfer_completion_events reg poll with
  | (Ok summary, reg') =>
      Forall (has_session reg) (events poll) ∧
      (∀ room s, reg !! room = Some s →
        reg' !! room = Some (match last_update room (event_update <$> events poll) with
                             | Some st => set_status s st | None => s end)) ∧
      dom reg' = dom reg ∧
      completed_batches summary = len (filter (λ ev, event_status ev = KvTransferEventStatus.Completed) (events poll)) ∧
      completed_batches summary + failed_batches summary = len (events poll) ∧
      pending_batches summary = pending_transfers poll
  | (Err e, reg') =>
      ∃ before ev after, events poll = before ++ ev :: after ∧ Forall (has_session reg) before ∧
        reg !! event_room ev = None ∧ e = Registry (MissingBootstrapRoom (event_room ev)) ∧
        reg' = status_after (event_update <$> before) reg
  end.
Proof.
  unfold apply_transfer_completion_events.
  pose proof (apply_events_spec (events poll) reg (mkKvTransferPollSummary 0 0 (pending_transfers poll) [] [] [])) as Hs.
  destruct (apply_events _ _ _) as [[summary|e] reg']; [|done]. destruct Hs as (Hall&->&Hn&Hc&Hp).
  cbn [completed_batches failed_batches pending_batches] in *. split_and!; try done; try lia; [|apply dom_status_after].
  intros room s Hr. by apply status_after_lookup.
Qed.

(** Executing a plan submits its spans in order and marks their rooms as
    transferring, or as done for spans without tokens; a span the backend
    refuses marks its room as failed and ends the plan with the backend's
    error, the spans after it untouched. *)
Theorem execute_plan_correct {E} `{!KvTransferBackend E} reg (e : E) plan out :
  execute_kv_cache_transfer_plan reg e plan = Some out →
  match out with
  | (Ok summary, (reg', e')) =>
      Forall (λ sp, is_Some (reg !! span_room sp)) plan ∧
      reg' = status_after (span_update <$> plan) reg ∧ submit_all e plan = Some e' ∧
      noop_spans summary = len (filter (λ sp, skips sp = true) plan) ∧
      submitted_spans summary + noop_spans summary = len plan
  | (Err err, (reg', e')) =>
      ∃ before sp after, plan = before ++ sp :: after ∧
        ((reg !! span_room sp = None ∧ err = Registry (MissingBootstrapRoom (span_room sp)) ∧
          reg' = status_after (span_update <$> before) reg ∧ submit_all e before = Some e') ∨
         (skips sp = false ∧ (e1 ← submit_all e before; backend_submit e1 sp) = Some (Err err, e') ∧
          ∃ s, reg' !! span_room sp = Some s ∧ status s = KvPoll.Failed))
  end.
Proof.
  intros He. apply execute_spans_spec in He as Hs. destruct out as [[summary|err] [reg' e']]; cbn [plan_outcome] in Hs.
  - destruct Hs as (?&?&?&?&?). split_and!; try done; lia.
  - destruct Hs as (before&sp&after&->&Hall&[Hm|(Hsk&Hk&Hsub&Hreg)]); exists before, sp, after; split; try done; [by left|right].
    split_and!; try done. rewrite Hreg, status_after_app. apply (is_Some_status_after (span_update <$> before)) in Hk as [s Hs].
    exists (set_status s KvPoll.Failed). split; [|done].
    rewrite (status_after_lookup _ _ _ _ Hs). unfold last_update. by rewrite !filter_cons_True.
Qed.

Section WorkerFacts.
Context {W E P : Type} `{!WorkerExecutor W} `{!RecurrentStateWorker W} `{!KvTransferBackend E} `{!DecodeBootstrapPublisher P}.
Implicit Types k : KvTransferModelWorker W E P.

(** *** Waiting for the transfers of a batch *)

(** The backend reported these lists of events, one per poll. *)
Fixpoint polls_report (e : E) (polls : list (list KvTransferCompletionEvent)) (e' : E) : Prop :=
  match polls with
  | [] => e' = e
  | evs :: polls => ∃ poll e1, backend_poll e = Some (Ok poll, e1) ∧ events poll = evs ∧ polls_report e1 polls e'
  end.

(** The sessions after the first [m] polls. *)
Definition registry_after (reg : DecodeBootstrapRegistry) (polls : list (list KvTransferCompletionEvent)) (m : nat) : DecodeBootstrapRegistry :=
  status_after (event_update <$> concat (take m polls)) reg.

(** The sessions of a batch have all succeeded, or one of them has failed. *)
Definition transferred (reg : DecodeBootstrapRegistry) (batch : ScheduleBatch) : Prop :=
  ∀ r params s, r ∈ requests batch → disaggregated_params r = Some params → reg !! bootstrap_room params = Some s → status s = KvPoll.Success.
Definition transfer_failed (reg : DecodeBootstrapRegistry) (batch : ScheduleBatch) : Prop :=
  ∃ r params s, r ∈ requests batch ∧ disaggregated_params r = Some params ∧ reg !! bootstrap_room params = Some s ∧ status s = KvPoll.Failed.

Lemma registry_after_0 reg polls : registry_after reg polls 0 = reg.
Proof. done. Qed.
Lemma registry_after_S reg evs polls m : registry_after reg (evs :: polls) (S m) = registry_after (status_after (event_update <$> evs) reg) polls m.
Proof. unfold registry_after. cbn [take concat]. by rewrite fmap_app, status_after_app. Qed.

Lemma kw_awaits_false k batch : kw_awaits k batch = false ↔ transferred (registry k) batch.
Proof.
  split.
  - intros Hk r params s Hr Hp Hs. destruct (decide (status s = KvPoll.Success)) as [|Hne]; [done|]. exfalso.
    assert (kw_awaits k batch = true); [|congruence]. apply existsb_exists. exists r. split; [by apply list_elem_of_In|].
    rewrite Hp, Hs. by rewrite bool_decide_false.
  - intros Ht. apply not_true_is_false. intros (r&Hr%list_elem_of_In&H)%existsb_exists.
    destruct (disaggregated_params r) as [params|] eqn:Hp; [|done]. destruct (registry k !! bootstrap_room params) as [s|] eqn:Hs; [|done].
    by rewrite bool_decide_true in H by by eapply Ht.
Qed.

Lemma kw_poll_transfers_Ok k summary k' : kw_poll_transfers k = Some (Ok summary, k') →
  ∃ poll e, backend_poll (transfer_executor k) = Some (Ok poll, e) ∧
    k' = set_kw_registry (set_kw_executor k e) (status_after (event_update <$> events poll) (registry k)).
Proof.
  unfold kw_poll_transfers. destruct (backend_poll _) as [[[poll|e] ex]|]; [|done|done]. cbn [mbind option_bind].
  pose proof (apply_events_spec (events poll) (registry k) (mkKvTransferPollSummary 0 0 (pending_transfers poll) [] [] [])) as Hs.
  unfold apply_transfer_completion_events. destruct (apply_events _ _ _) as [[summary'|e] reg]; intros [= _ <-].
  destruct Hs as (_&->&_). by exists poll, ex.
Qed.

Lemma kw_poll_transfers_known k poll e : backend_poll (transfer_executor k) = Some (Ok poll, e) → Forall (has_session (registry k)) (events poll) →
  ∃ summary, kw_poll_transfers k = Some (Ok summary, set_kw_registry (set_kw_executor k e) (status_after (event_update <$> events poll) (registry k))).
Proof.
  intros Hp Hall. unfold kw_poll_transfers. rewrite Hp. cbn [mbind option_bind].
  pose proof (apply_events_spec (events poll) (registry k) (mkKvTransferPollSummary 0 0 (pending_transfers poll) [] [] [])) as Hs.
  unfold apply_transfer_completion_events. destruct (apply_events _ _ _) as [[summary'|e'] reg].
  - destruct Hs as (_&->&_). by exists summary'.
  - destruct Hs as (before&ev&after&Hev&_&Hnone&_). rewrite Hev, Forall_app, Forall_cons in Hall. destruct Hall as (_&[? Hin]&_).
    unfold has_session in Hin. congruence.
Qed.

(** The check after a poll fails for a room that failed, and passes if none did and the
    wrapped worker has nothing against the requests either. *)
Lemma check_failed_Ok k rs : check_failed k rs = Ok () →
  ¬ ∃ r params s, r ∈ rs ∧ disaggregated_params r = Some params ∧ registry k !! bootstrap_room params = Some s ∧ status s = KvPoll.Failed.
Proof.
  induction rs as [|r rs IH]; cbn [check_failed]; [intros _ (?&?&?&H&_); by apply elem_of_nil in H|].
  destruct (kw_decode_request_state k r) as [st|] eqn:Hst; [|done]. cbn [result_bind]. intros H (r'&params&s&Hr&Hp&Hs&Hf).
  apply elem_of_cons in Hr as [->|Hr]; [|destruct st; [..|done]; apply IH; eauto 8].
  unfold kw_decode_request_state in Hst. rewrite Hp, Hs, Hf in Hst. by injection Hst as <-.
Qed.

(** The wrapped worker is content with the requests. *)
Definition worker_content k (rs : list ScheduledRequest) : Prop :=
  Forall (λ r, ∃ st, decode_request_state (kw_worker k) r = Ok st ∧ ∀ why, st ≠ Failed why) rs.

Lemma check_failed_content k rs : worker_content k rs →
  check_failed k rs = Ok () ∨
  check_failed k rs = Err (Runtime "prefill KV transfer failed") ∧
    ∃ r params s, r ∈ rs ∧ disaggregated_params r = Some params ∧ registry k !! bootstrap_room params = Some s ∧ status s = KvPoll.Failed.
Proof.
  induction 1 as [|r rs (st&Hst&Hno) _ IH]; cbn [check_failed]; [by left|].
  assert (kw_decode_request_state k r = Ok (Failed ("KV transfer failed for bootstrap room " +:+
      pretty (default 0 (bootstrap_room <$> disaggregated_params r)))) ∧
    (∃ params s, disaggregated_params r = Some params ∧ registry k !! bootstrap_room params = Some s ∧ status s = KvPoll.Failed) ∨
    ∃ st', kw_decode_request_state k r = Ok st' ∧ ∀ why, st' ≠ Failed why) as [[-> (params&s&H)]|(st'&->&Hno')].
  { unfold kw_decode_request_state. destruct (disaggregated_params r) as [params|]; [|by right; exists st].
    destruct (registry k !! bootstrap_room params) as [s|] eqn:Hs; [|right; by exists Pending].
    destruct (status s) eqn:Hp; [left|right; by exists Pending..|right; by exists st]. split; [done|]. by exists params, s. }
  - right. split; [done|]. exists r, params, s. split; [by left|done].
  - cbn [result_bind]. destruct IH as [IH|[IH (r'&params&s&Hr&H)]]; [left|right]; (destruct st'; [..|by destruct (Hno' message)]); try done;
      (split; [done|]; exists r', params, s; split; [by right|done]).
Qed.

(** What a wait that ends well has seen. *)
Lemma kw_wait_Ok rounds : ∀ k batch u k', kw_wait rounds k batch = Some (Ok u, k') →
  ∃ polls, polls_report (transfer_executor k) polls (transfer_executor k') ∧
    registry k' = registry_after (registry k) polls (length polls) ∧ transferred (registry k') batch ∧
    (∀ m, (m < length polls)%nat → ¬ transferred (registry_after (registry k) polls m) batch) ∧
    (∀ m, (0 < m ≤ length polls)%nat → ¬ transfer_failed (registry_after (registry k) polls m) batch).
Proof.
  induction rounds as [|rounds IH]; intros k batch u k'; cbn [kw_wait]; destruct (kw_awaits k batch) eqn:Hk; cbn [negb]; try done;
    try (intros [= _ <-]; exists []; split_and!; [done|done|by apply kw_awaits_false|cbn; lia|cbn; lia]).
  destruct (kw_poll_transfers k) as [[[s|e] k1]|] eqn:Hp; [|done|done]. cbn [mbind option_bind].
  apply kw_poll_transfers_Ok in Hp as (poll&e&Hpoll&->). destruct (check_failed _ _) as [[]|] eqn:Hcheck; [|done].
  intros (polls&Hpolls&Hreg&Ht&Hno&Hnf)%IH. cbn [registry transfer_executor set_kw_registry set_kw_executor] in *.
  exists (events poll :: polls). split_and!; [by exists poll, e|by rewrite Hreg; cbn [length]; rewrite registry_after_S|done|..].
  - intros [|m] Hm; [rewrite registry_after_0; intros H%kw_awaits_false; congruence|].
    rewrite registry_after_S. apply Hno. cbn in Hm. lia.
  - intros [|m] Hm; [lia|]. rewrite registry_after_S. cbn [length] in Hm. destruct m as [|m]; [|apply Hnf; lia].
    rewrite registry_after_0. by apply check_failed_Ok in Hcheck.
Qed.

(** A wait ends with the first poll that settles the batch. *)
Lemma kw_wait_ends polls : ∀ rounds k batch e, polls_report (transfer_executor k) polls e → Forall (has_session (registry k)) (concat polls) →
  worker_content k (requests batch) → (length polls ≤ rounds)%nat →
  (∀ m, (m < length polls)%nat → ¬ transferred (registry_after (registry k) polls m) batch) →
  (∀ m, (0 < m < length polls)%nat → ¬ transfer_failed (registry_after (registry k) polls m) batch) →
  let reg := registry_after (registry k) polls (length polls) in
  (transferred reg batch → kw_wait rounds k batch = Some (Ok (), set_kw_registry (set_kw_executor k e) reg)) ∧
  (polls ≠ [] → transfer_failed reg batch →
     kw_wait rounds k batch = Some (Err (Runtime "prefill KV transfer failed"), set_kw_registry (set_kw_executor k e) reg)).
Proof.
  induction polls as [|evs polls IH]; intros rounds k batch e Hp Hses Hc Hr Hno Hnf.
  - cbn in Hp. subst e. split; [|done]. intros Ht%(kw_awaits_false k). cbn [length]. rewrite registry_after_0.
    destruct rounds; cbn [kw_wait]; rewrite Ht; by destruct k.
  - destruct rounds as [|rounds]; [cbn in Hr; lia|]. cbn [length] in *. destruct Hp as (poll&e1&Hpoll&<-&Hp).
    cbn [concat] in Hses. apply Forall_app in Hses as [Hses1 Hses2]. cbn [kw_wait].
    destruct (kw_awaits k batch) eqn:Hk; [|exfalso; apply (Hno 0%nat); [lia|by apply kw_awaits_false]]. cbn [negb].
    destruct (kw_poll_transfers_known k poll e1 Hpoll Hses1) as [summary ->]. cbn [mbind option_bind]. set (k1 := set_kw_registry _ _).
    assert (worker_content k1 (requests batch)) as Hc1 by done.
    assert (∀ m, registry_after (registry k) (events poll :: polls) (S m) = registry_after (registry k1) polls m) as Hafter
      by (intros m; apply registry_after_S).
    rewrite Hafter. destruct (check_failed_content k1 (requests batch) Hc1) as [Hok|[Herr Hfailed]].
    + rewrite Hok. destruct (IH rounds k1 batch e) as [IH1 IH2]; try done; [|lia|..].
      * eapply Forall_impl; [exact Hses2|]. intros ev Hev. unfold has_session in *. by apply is_Some_status_after.
      * intros m Hm. rewrite <- Hafter. apply Hno. lia.
      * intros m Hm. rewrite <- Hafter. apply Hnf. lia.
      * split; [exact IH1|]. intros _ Hf. apply IH2; [|done]. intros ->. cbn [length] in Hf. rewrite registry_after_0 in Hf.
        exact (check_failed_Ok k1 _ Hok Hf).
    + rewrite Herr. assert (transfer_failed (registry k1) batch) as Hf by done.
      assert (polls = []) as ->.
      { destruct polls as [|evs polls]; [done|]. exfalso. apply (Hnf 1%nat); [cbn; lia|]. by rewrite Hafter, registry_after_0. }
      cbn [length]. rewrite registry_after_0. cbn in Hp. subst e. split; [|done]. intros Ht. exfalso.
      destruct Hf as (r&params&s&Hr1&Hp1&Hs1&Hst). specialize (Ht r params s Hr1 Hp1 Hs1). congruence.
Qed.

Lemma register_batch_spec k batch : ∃ k',
  register_prefill_bootstrap_sessions k batch = (Ok (), k') ∧ prefill_only k' = prefill_only k ∧ transfer_executor k' = transfer_executor k ∧
  ∀ r params, r ∈ requests batch → disaggregated_params r = Some params → bootstrap_room params ∈ dom (registry k').
Proof.
  unfold register_prefill_bootstrap_sessions. destruct (register_sessions_spec (requests batch) (registry k)) as (reg'&->&_&_&Hall).
  eexists. split; [done|]. split; [done|]. split; [done|]. intros r params ? ?. apply elem_of_dom. by eapply Hall.
Qed.

(** *** Plans *)

(** A plan has a span for the room of every disaggregated request. *)
Definition plan_covers (batch : ScheduleBatch) (spans : list KvCacheTransferSpan) : Prop :=
  ∀ r params, r ∈ requests batch → disaggregated_params r = Some params → ∃ sp, sp ∈ spans ∧ span_room sp = bootstrap_room params.

Lemma plan_spans_cover b ps indices : ∀ off spans spans' n, plan_spans b ps indices off spans = Some (Ok (spans', n)) →
  (∀ sp, sp ∈ spans → sp ∈ spans') ∧
  ∀ i params, i ∈ indices → mb_disaggregated_params b !! i = Some (Some params) → ∃ sp, sp ∈ spans' ∧ span_room sp = bootstrap_room params.
Proof.
  induction indices as [|i indices IH]; intros off spans spans' n; cbn [plan_spans].
  { intros [= -> _]. split; [done|]. intros i params Hi. by apply elem_of_nil in Hi. }
  unfold plan_request. destruct (mb_request_ids b !! i) as [rid|]; [|done]. cbn [mbind option_bind].
  destruct (mb_disaggregated_params b !! i) as [o|] eqn:Ho; [|done]. cbn [mbind option_bind].
  destruct (mb_input_token_counts b !! i), (mb_cached_token_counts b !! i), (mb_data_parallel_ranks b !! i); try done.
  cbn [mbind option_bind pr_input_token_count pr_request_id pr_disaggregated_params pr_cached_token_count pr_data_parallel_rank].
  destruct (_ <? _); [done|]. destruct o as [params|].
  - destruct (transfer_page_indices _ _ _ _); [|done]. intros [Hkeep Hall]%IH. split; [intros sp Hsp; apply Hkeep, elem_of_app; by left|].
    intros j params' [->|Hj]%elem_of_cons Hp; [|by eapply Hall]. rewrite Ho in Hp. injection Hp as <-.
    eexists. split; [apply Hkeep, elem_of_app; right; by apply list_elem_of_singleton|done].
  - intros [Hkeep Hall]%IH. split; [done|]. intros j params' [->|Hj]%elem_of_cons Hp; [congruence|by eapply Hall].
Qed.

Lemma plan_of_batch_covers batch b ps spans : from_schedule_batch batch = Some b →
  from_prefill_worker_batch_with_page_size b ps = Some (Ok spans) → plan_covers batch spans.
Proof.
  intros (fs&_&HL)%from_schedule_batch_laid_out Hplan r params (i&Hi)%list_elem_of_lookup Hp. destruct HL. cbn in *.
  unfold from_prefill_worker_batch_with_page_size in Hplan. destruct (negb _); [done|]. destruct (ps =? 0); [done|].
  destruct (plan_spans _ _ _ _ _) as [[[spans' n]|e]|] eqn:Hs; [|done|done]. cbn [mbind option_bind result_bind fst snd] in Hplan.
  destruct (negb _); [done|]. injection Hplan as ->. apply plan_spans_cover in Hs as [_ Hall]. apply (Hall i).
  - apply list_elem_of_lookup_2 with i. apply lookup_seq. split; [done|]. rewrite la_ids. unfold request_ids. rewrite length_fmap.
    by apply lookup_lt_Some in Hi.
  - by rewrite la_disagg, list_lookup_fmap, Hi; cbn; rewrite Hp.
Qed.

(** What becomes of the spans of a plan on their way to the backend. *)
Definition sent_as (sp sp' : KvCacheTransferSpan) : Prop := span_room sp' = span_room sp ∧ is_Some (sp_first_token sp').

Lemma with_prefill_output_sent spans batch output : ∀ plan, with_prefill_output spans batch output = Some (Ok plan) → Forall2 sent_as spans plan.
Proof.
  induction spans as [|sp spans IH]; intros plan; cbn [with_prefill_output]; [by intros [= <-]|].
  destruct (list_find _ _) as [[index r]|]; [|done]. destruct (output !! index) as [tok|]; [|done]. cbn [mbind option_bind].
  destruct (generated_token_ids tok) as [|token []]; [done| |done].
  destruct (with_prefill_output spans batch output) as [[rest|]|]; [|done|done]. cbn [mbind option_bind result_bind]. intros [= <-].
  constructor; [by split; [|eexists]|by apply IH].
Qed.

Lemma with_recurrent_states_sent (w : W) spans : ∀ plan, with_recurrent_states w spans = Ok plan →
  Forall2 (λ sp sp', span_room sp' = span_room sp ∧ sp_first_token sp' = sp_first_token sp) spans plan.
Proof.
  induction spans as [|sp spans IH]; intros plan; cbn [with_recurrent_states]; [by intros [= <-]|].
  destruct (export_recurrent_state _ _) as [st|]; [|done]. cbn [result_bind]. destruct (with_recurrent_states w spans) as [rest|]; [|done].
  intros [= <-]. constructor; [done|by apply IH].
Qed.

Lemma sent_plan spans batch output (w : W) plan plan' : plan_covers batch spans → with_prefill_output spans batch output = Some (Ok plan) →
  with_recurrent_states w plan = Ok plan' → plan_covers batch plan' ∧ Forall (λ sp, skips sp = false) plan'.
Proof.
  intros Hc H1%with_prefill_output_sent H2%with_recurrent_states_sent. split.
  - intros r params Hr Hp. destruct (Hc r params Hr Hp) as (sp&(i&Hi)%list_elem_of_lookup&Hroom).
    destruct (Forall2_lookup_l _ _ _ _ _ H1 Hi) as (sp1&Hi1&Hroom1&_). destruct (Forall2_lookup_l _ _ _ _ _ H2 Hi1) as (sp2&Hi2&Hroom2&_).
    exists sp2. split; [by eapply list_elem_of_lookup_2|congruence].
  - apply Forall_lookup_2. intros i sp2 Hi2. destruct (Forall2_lookup_r _ _ _ _ _ H2 Hi2) as (sp1&Hi1&_&Ht).
    destruct (Forall2_lookup_r _ _ _ _ _ H1 Hi1) as (sp&_&_&Hs). unfold skips. rewrite Ht. rewrite bool_decide_false; [apply andb_false_r|].
    intros Hn. rewrite Hn in Hs. by destruct Hs.
Qed.

(** A prefill batch is planned, and planning touches the publisher only. *)
Lemma kw_plan_prefill k batch plan k1 :
  kw_plan k batch = Some (Ok plan, k1) → forward_mode batch = Prefill →
  ∃ spans, plan = Some spans ∧ submit_prefill_transfers k1 = submit_prefill_transfers k ∧ prefill_only k1 = prefill_only k ∧
    kw_worker k1 = kw_worker k ∧ transfer_executor k1 = transfer_executor k ∧ plan_covers batch spans.
Proof.
  intros Hpl Hmode. revert Hpl. unfold kw_plan. rewrite bool_decide_true by done.
  destruct (from_schedule_batch batch) as [b|] eqn:Hb; [|done]. cbn [mbind option_bind].
  destruct (from_prefill_worker_batch_with_page_size _ _) as [[spans|e]|] eqn:Hs; [|done|done]. cbn [mbind option_bind].
  destruct (publish_decode_bootstrap_metadata _ _) as [[n|e] p]; [|done]. intros [= <- <-]. exists spans.
  split_and!; try done. by eapply plan_of_batch_covers.
Qed.

(** *** The events of a room *)

(** The last of the events for a room. *)
Definition last_event (room : N) (evs : list KvTransferCompletionEvent) : option KvTransferCompletionEvent :=
  last (filter (λ ev, event_room ev = room) evs).

Definition room_completed (room : N) (evs : list KvTransferCompletionEvent) : Prop :=
  ∃ ev, last_event room evs = Some ev ∧ event_status ev = KvTransferEventStatus.Completed.

Lemma last_update_events room evs : last_update room (event_update <$> evs) = (λ ev, (event_update ev).2) <$> last_event room evs.
Proof.
  unfold last_update, last_event. induction evs as [|ev evs IH] using rev_ind; [done|]. rewrite fmap_app, !filter_app. cbn [fmap list_fmap].
  rewrite !filter_cons, !filter_nil. cbn [fst event_update]. destruct (decide (event_room ev = room)); [by rewrite !last_snoc|by rewrite !app_nil_r].
Qed.

Lemma last_update_plan room plan : Forall (λ sp, skips sp = false) plan → (∃ sp, sp ∈ plan ∧ span_room sp = room) →
  last_update room (span_update <$> plan) = Some KvPoll.Transferring.
Proof.
  unfold last_update. induction plan as [|sp plan IH] using rev_ind; [by intros _ (sp&H%elem_of_nil&_)|].
  rewrite Forall_app, Forall_singleton. intros [Hall Hsp] (sp'&[Hin|Hin]%elem_of_app&Hroom); rewrite fmap_app, filter_app; cbn [fmap list_fmap];
    (assert (span_update sp = (span_room sp, KvPoll.Transferring)) as -> by (unfold span_update; by rewrite Hsp));
    rewrite filter_cons, filter_nil; cbn [fst].
  - destruct (decide (span_room sp = room)); [by rewrite last_snoc|]. rewrite app_nil_r. eauto.
  - apply list_elem_of_singleton in Hin as ->. by rewrite decide_True, last_snoc.
Qed.

(** After the plan and some events, the status of a room of the plan is that of its last
    event. *)
Lemma status_of_room reg plan evs room s : Forall (λ sp, skips sp = false) plan → (∃ sp, sp ∈ plan ∧ span_room sp = room) →
  reg !! room = Some s →
  status_after (event_update <$> evs) (status_after (span_update <$> plan) reg) !! room =
    Some (set_status s (match last_event room evs with Some ev => (event_update ev).2 | None => KvPoll.Transferring end)).
Proof.
  intros Hall Hsp Hs. assert (status_after (span_update <$> plan) reg !! room = Some (set_status s KvPoll.Transferring)) as H1.
  { by rewrite (status_after_lookup _ _ _ _ Hs), last_update_plan. }
  rewrite (status_after_lookup _ _ _ _ H1), last_update_events. by destruct (last_event room evs).
Qed.

(** C35. A prefill-only worker hands its tokens on only when the backend has completed the
    KV transfer of every request of the batch.  If a prefill batch gives tokens, the
    plan sent to the backend has a span for the room of each request, none of them
    left out, and the backend was polled until the last event of every room said
    completed, no longer: no poll before had that, and no poll showed a room whose
    last event was a failure or a cancellation.  The tokens are those the wrapped
    worker made, marked as final.  And the wait ends: with the first poll that leaves
    every room of the batch succeeded it ends well, with the first that leaves one
    failed it ends with an error, whatever more rounds it had, where the wrapped worker
    has nothing against the requests and the events are for known rooms. *)
Theorem prefill_only_waits_for_transfers :
  (∀ rounds k batch out k', kw_try_generate_batch rounds k batch = Some (Ok out, k') →
     forward_mode batch = Prefill → submit_prefill_transfers k = true → prefill_only k = true →
     ∃ plan e polls output w,
       plan_covers batch plan ∧ Forall (λ sp, skips sp = false) plan ∧ submit_all (transfer_executor k) plan = Some e ∧
       polls_report e polls (transfer_executor k') ∧
       (∀ r params, r ∈ requests batch → disaggregated_params r = Some params →
          room_completed (bootstrap_room params) (concat polls) ∧
          ∀ m ev, (m ≤ length polls)%nat → last_event (bootstrap_room params) (concat (take m polls)) = Some ev →
            event_status ev = KvTransferEventStatus.Completed) ∧
       (∀ m, (m < length polls)%nat → ¬ ∀ r params, r ∈ requests batch → disaggregated_params r = Some params →
          room_completed (bootstrap_room params) (concat (take m polls))) ∧
       execute_batch (kw_worker k) batch = (Ok output, w) ∧ len output = batch_size batch ∧
       out = (λ t, mkGeneratedToken (generated_token_ids t) true) <$> output) ∧
  (∀ polls rounds k batch e, polls_report (transfer_executor k) polls e → Forall (has_session (registry k)) (concat polls) →
     worker_content k (requests batch) → (length polls ≤ rounds)%nat →
     (∀ m, (m < length polls)%nat → ¬ transferred (registry_after (registry k) polls m) batch) →
     (∀ m, (0 < m < length polls)%nat → ¬ transfer_failed (registry_after (registry k) polls m) batch) →
     let reg := registry_after (registry k) polls (length polls) in
     (transferred reg batch → kw_wait rounds k batch = Some (Ok (), set_kw_registry (set_kw_executor k e) reg)) ∧
     (polls ≠ [] → transfer_failed reg batch →
        kw_wait rounds k batch = Some (Err (Runtime "prefill KV transfer failed"), set_kw_registry (set_kw_executor k e) reg))).
Proof.
  split; [|apply kw_wait_ends]. intros rounds k batch out k' Hg Hmode Hsub Hpre. unfold kw_try_generate_batch in Hg.
  apply st_bind_opt_inv in Hg as [(plan&k1&Hpl&Hg)|(e&_&?)]; [|done].
  destruct (kw_plan_prefill _ _ _ _ Hpl Hmode) as (spans&->&Hs1&Hp1&Hw1&He1&Hcover). rewrite Hs1, Hsub in Hg.
  destruct (execute_batch (kw_worker k1) batch) as [[output|e] w] eqn:Hexec; [|done]. cbn [st_bind_opt] in Hg.
  set (k2 := set_kw_worker k1 w) in Hg. unfold kw_transfer_batch in Hg.
  destruct (register_batch_spec k2 batch) as (k3&Hr3&Hp3&He3&Hdom3). rewrite Hr3 in Hg. cbn [st_bind_opt result_map_err] in Hg.
  destruct (with_prefill_output spans batch output) as [[plan|e]|] eqn:Hplan; [|done|done]. cbn [mbind option_bind st_bind_opt] in Hg.
  destruct (with_recurrent_states _ plan) as [plan'|e] eqn:Hplan'; [|done]. cbn [st_bind_opt] in Hg.
  destruct (sent_plan _ _ _ _ _ _ Hcover Hplan Hplan') as [Hcover' Hskips].
  destruct (execute_kv_cache_transfer_plan _ _ plan') as [[[summary|err] [reg ex]]|] eqn:He; [|done|done].
  cbn [result_map_err st_bind_opt mbind option_bind] in Hg.
  assert (prefill_only k3 = true) as Hp3' by (rewrite Hp3; cbn; congruence).
  apply execute_spans_spec in He as (_&Hreg&Hex&_). cbn [prefill_only set_kw_summary set_kw_registry set_kw_executor] in Hg. rewrite Hp3' in Hg.
  apply st_bind_opt_inv in Hg as [([]&k4&Hw&Hg)|(e&_&?)]; [|done]. injection Hg as Hout <-.
  apply kw_wait_Ok in Hw as (polls&Hpolls&Hreg4&Ht&Hno&Hnf). cbn [registry transfer_executor set_kw_summary set_kw_registry set_kw_executor] in *.
  assert (∀ r params m, r ∈ requests batch → disaggregated_params r = Some params → ∃ s,
    registry_after reg polls m !! bootstrap_room params = Some (set_status s
      (match last_event (bootstrap_room params) (concat (take m polls)) with Some ev => (event_update ev).2 | None => KvPoll.Transferring end))) as Hstatus.
  { intros r params m Hr Hp. destruct (proj1 (elem_of_dom _ _) (Hdom3 r params Hr Hp)) as [s Hs]. exists s.
    unfold registry_after. rewrite Hreg. apply status_of_room; [done|by eapply Hcover'|done]. }
  exists plan', ex, polls, output, w. split_and!; [done|done|by rewrite <- He1, <- (He3 : _ = transfer_executor k1)|done|..].
  - intros r params Hr Hp. split.
    + destruct (Hstatus r params (length polls) Hr Hp) as [s Hs]. rewrite <- Hreg4 in Hs. specialize (Ht r params _ Hr Hp Hs). cbn in Ht.
      rewrite take_ge in Ht by done. unfold room_completed. destruct (last_event _ _) as [ev|]; [|done]. exists ev. split; [done|].
      unfold event_update in Ht. by destruct (event_status ev).
    + intros m ev Hm Hev. destruct m as [|m]; [done|]. destruct (Hstatus r params (S m) Hr Hp) as [s Hs]. rewrite Hev in Hs.
      destruct (event_status ev) eqn:Hst; [done|..]; (exfalso; apply (Hnf (S m)); [lia|]; exists r, params; eexists;
        split; [done|split; [done|split; [exact Hs|]]]; unfold event_update; by rewrite Hst).
  - intros m Hm Hall. apply (Hno m Hm). intros r params s Hr Hp Hs. destruct (Hstatus r params m Hr Hp) as [s' Hs'].
    destruct (Hall r params Hr Hp) as (ev&Hev&Hst). rewrite Hev in Hs'. rewrite Hs in Hs'. injection Hs' as ->.
    unfold event_update. by rewrite Hst.
  - by rewrite <- Hw1.
  - unfold from_batch in Hout. destruct (_ =? _) eqn:Hn in Hout; [|done]. apply N.eqb_eq in Hn. unfold len in *. rewrite length_fmap in Hn. by rewrite Hn.
  - unfold from_batch in Hout. destruct (negb _) in Hout; [done|]. by injection Hout as <-.
Qed.

(** What the decode side needs of each request: a token received for its room. *)
Lemma receive_tokens_Ok rs : ∀ k tokens k',
  receive_tokens k rs = (Ok tokens, k') →
  Forall2 (λ r t, ∃ token, generated_token_ids t = [token] ∧ generated_finished t = stops r token) rs tokens ∧
  Forall (λ r, is_Some (disaggregated_params r)) rs ∧
  (∀ room s, registry k' !! room = Some s → ∃ s0, registry k !! room = Some s0 ∧ (s = s0 ∨ s = set_status s0 KvPoll.Success)) ∧
  (∀ room s, registry k !! room = Some s → status s = KvPoll.Success →
     ∃ s', registry k' !! room = Some s' ∧ status s' = KvPoll.Success) ∧
  ∀ r params, r ∈ rs → disaggregated_params r = Some params →
    ∃ s, registry k' !! bootstrap_room params = Some s ∧ status s = KvPoll.Success.
Proof.
  induction rs as [|r rs IH]; intros k tokens k'; cbn [receive_tokens].
  { intros [= <- <-]. split_and!; try done; [by eauto|by eauto|]. intros r params Hin. by apply elem_of_nil in Hin. }
  destruct (disaggregated_params r) as [params|] eqn:Hp; [|done].
  destruct (receive_prefill_token_and_state _ _) as [[[token state]|e] p]; [|done].
  intros Hg. apply st_bind_inv in Hg as [(u&k1&Hst&Hg)|(e&_&?)]; [|done].
  assert (registry k1 = registry k) as Hreg1.
  { destruct state as [bytes|]; [|by injection Hst as _ <-]. destruct (restore_recurrent_state _ _ _) as [res w]. by injection Hst as _ <-. }
  apply st_bind_inv in Hg as [(u2&k2&Hup&Hg)|(e&_&?)]; [|done].
  destruct (update_status (registry k1) (bootstrap_room params) KvPoll.Success) as [[[]|e] reg] eqn:Hus; [|done].
  injection Hup as <- <-. apply update_status_Ok in Hus as [Hk ->]. rewrite Hreg1 in *.
  apply st_bind_inv in Hg as [(toks&k3&Hrec&Hg)|(e&_&?)]; [|done]. injection Hg as <- <-.
  apply IH in Hrec as (Htok&Hdis&Hback&Hkeep&Hall). cbn [registry set_kw_registry] in *.
  assert (∃ s, registry k3 !! bootstrap_room params = Some s ∧ status s = KvPoll.Success) as Hroom.
  { destruct Hk as [s Hs]. apply (Hkeep _ (set_status s KvPoll.Success)); [|done]. by rewrite lookup_alter_eq, Hs. }
  split_and!.
  - constructor; [by eexists|done].
  - constructor; [by eexists|done].
  - intros room s Hs. destruct (Hback room s Hs) as (s0&Hs0&Hcase).
    destruct (decide (bootstrap_room params = room)) as [<-|Hne].
    + rewrite lookup_alter_eq in Hs0. apply fmap_Some in Hs0 as (s1&Hs1&->). exists s1. split; [done|right].
      destruct Hcase as [->| ->]; done.
    + rewrite lookup_alter_ne in Hs0 by done. by exists s0.
  - intros room s Hs Hsucc. destruct (decide (bootstrap_room params = room)) as [<-|Hne]; [done|].
    apply (Hkeep room s); [|done]. by rewrite lookup_alter_ne.
  - intros r' params' Hin Hp'. apply elem_of_cons in Hin as [->|Hin]; [|by eapply Hall].
    assert (params' = params) as -> by congruence. done.
Qed.

(** On the decode side a prefill batch is not computed but received: success
    means every request carries bootstrap metadata, got one token, final
    exactly when it is a stop token the request honours, and has its room
    marked as transferred, so that it counts as ready. *)
Theorem decode_side_receives_batch rounds k batch out k' :
  kw_try_generate_batch rounds k batch = Some (Ok out, k') →
  forward_mode batch = Prefill → submit_prefill_transfers k = false →
  Forall2 (λ r t, ∃ token, generated_token_ids t = [token] ∧ generated_finished t = stops r token) (requests batch) out ∧
  ∀ r, r ∈ requests batch → is_Some (disaggregated_params r) ∧ is_decode_request_kv_ready r (registry k') = Ok true ∧
    kw_decode_request_state k' r = decode_request_state (kw_worker k') r.
Proof.
  intros Hg Hmode Hsub. unfold kw_try_generate_batch in Hg.
  apply st_bind_opt_inv in Hg as [(plan&k1&Hpl&Hg)|(e&_&?)]; [|done].
  destruct (kw_plan_prefill _ _ _ _ Hpl Hmode) as (spans&->&Hs1&_). rewrite Hs1, Hsub in Hg. injection Hg as Hg. unfold kw_receive_batch in Hg.
  destruct (register_batch_spec k1 batch) as (k2&Hr&_&_). rewrite Hr in Hg. cbn [st_bind result_map_err] in Hg.
  apply st_bind_inv in Hg as [(tokens&k3&Hrec&Hg)|(e&_&?)]; [|done]. injection Hg as Hout <-.
  unfold from_batch in Hout. destruct (negb _); [done|]. injection Hout as <-.
  apply receive_tokens_Ok in Hrec as (Htok&Hdis&_&_&Hall). split; [done|]. intros r Hin.
  rewrite Forall_forall in Hdis. destruct (Hdis r Hin) as [params Hp]. split; [by exists params|].
  destruct (Hall r params Hin Hp) as (s&Hs&Hst). unfold is_decode_request_kv_ready, kw_decode_request_state. cbn [registry set_kw_summary].
  rewrite Hp, Hs. cbn [ok_or result_bind]. rewrite Hst. split; [by rewrite bool_decide_true|done].
Qed.

(** A finished request gives up its room and nothing else: its session is
    removed after its transfers are cancelled, and kept when cancelling fails. *)
Theorem finish_request_releases_room k r params res k' :
  disaggregated_params r = Some params → kw_finish_request k r = Some (res, k') →
  (res = Ok () → registry k' !! bootstrap_room params = None) ∧
  (registry k' = registry k ∨ registry k' = base.delete (bootstrap_room params) (registry k)) ∧
  (registry k' !! bootstrap_room params = None → is_Some (registry k !! bootstrap_room params) →
    ∃ ex ex', backend_cancel ex (bootstrap_room params) = Some (Ok (), ex') ∧ transfer_executor k' = ex').
Proof.
  intros Hp. unfold kw_finish_request. rewrite Hp. intros Hf.
  assert (∀ u k1, kw_cancel_receive k (bootstrap_room params) = (u, k1) →
    registry k1 = registry k ∧ transfer_executor k1 = transfer_executor k) as Hc1.
  { intros u k1. unfold kw_cancel_receive. destruct (submit_prefill_transfers k); [by intros [= _ <-]|].
    destruct (cancel_receive _ _). by intros [= _ <-]. }
  apply st_bind_opt_inv in Hf as [(u&k1&Hcr&Hf)|(e&Hcr&->)].
  2:{ injection Hcr as Hcr. destruct (Hc1 _ _ Hcr) as [Hreg _]. split_and!; [done|by left|]. intros Hn [s Hs]. by rewrite Hreg, Hs in Hn. }
  injection Hcr as Hcr. destruct (Hc1 _ _ Hcr) as [Hreg Hex]. unfold kw_cancel in Hf.
  apply st_bind_opt_inv in Hf as [(u2&k2&Hca&Hf)|(e&Hca&->)].
  - destruct (backend_cancel (transfer_executor k1) (bootstrap_room params)) as [[res2 ex]|] eqn:Hb; [|done].
    injection Hca as Hres <-. destruct res2 as [[]|]; [|done]. unfold kw_finish_inner in Hf.
    destruct (finish_request _ _) as [res3 w] in Hf. injection Hf as <- <-. cbn. rewrite Hreg. split_and!.
    + intros _. by rewrite lookup_delete_eq.
    + by right.
    + intros _ _. by exists (transfer_executor k1), ex.
  - destruct (backend_cancel (transfer_executor k1) (bootstrap_room params)) as [[res2 ex]|]; [|done].
    injection Hca as Hres <-. cbn. split_and!; [done|by left|]. intros Hn [s Hs]. by rewrite Hreg, Hs in Hn.
Qed.

End WorkerFacts.

(** ** Sessions and tracked rooms *)

(** What a backend promises about the rooms it may still report: submitting adds
    the span's room, events come from tracked rooms, and a cancelled room is
    not reported any more. *)
Class TrackedBackend (E : Type) `{!KvTransferBackend E} : Type := {
  backend_ok : E → Prop;
  tracked : E → list N;
  submit_tracked e sp res e' : backend_ok e → backend_submit e sp = Some (res, e') →
    backend_ok e' ∧ ∀ room, room ∈ tracked e' → room = span_room sp ∨ room ∈ tracked e;
  poll_tracked e res e' : backend_ok e → backend_poll e = Some (res, e') →
    backend_ok e' ∧ (∀ room, room ∈ tracked e' → room ∈ tracked e) ∧
    ∀ poll, res = Ok poll → Forall (λ ev, event_room ev ∈ tracked e) (events poll);
  cancel_tracked e room res e' : backend_ok e → backend_cancel e room = Some (res, e') →
    backend_ok e' ∧ (∀ room', room' ∈ tracked e' → room' ∈ tracked e) ∧ (res = Ok () → room ∉ tracked e');
}.

Section Tracked.
Context {W E P : Type} `{!WorkerExecutor W} `{!RecurrentStateWorker W} `{!KvTransferBackend E}
  `{!DecodeBootstrapPublisher P} `{!TrackedBackend E}.
Implicit Types k : KvTransferModelWorker W E P.

(** Every room the backend may report has a session. *)
Definition sessions_cover (reg : DecodeBootstrapRegistry) (e : E) : Prop :=
  backend_ok e ∧ ∀ room, room ∈ tracked e → is_Some (reg !! room).

Definition kw_wf k : Prop := sessions_cover (registry k) (transfer_executor k).

Lemma sessions_cover_ext reg reg' e : (∀ room, is_Some (reg !! room) → is_Some (reg' !! room)) →
  sessions_cover reg e → sessions_cover reg' e.
Proof. intros Hr [? Hc]. split; [done|]. intros room Hin. apply Hr. by apply Hc. Qed.

Lemma update_status_dom reg room st res reg' room' :
  update_status reg room st = (res, reg') → is_Some (reg !! room') ↔ is_Some (reg' !! room').
Proof.
  destruct res as [[]|e]; intros Hu.
  - apply update_status_Ok in Hu as [_ ->]. symmetry. exact (is_Some_status_after [(room, st)] reg room').
  - by apply update_status_Err in Hu as (_&_&->).
Qed.

Lemma execute_spans_cover spans : ∀ reg e sub noops res reg' e',
  sessions_cover reg e → execute_spans reg e sub noops spans = Some (res, (reg', e')) → sessions_cover reg' e'.
Proof.
  induction spans as [|sp spans IH]; intros reg e sub noops res reg' e' Hc; cbn [execute_spans]; [by intros [= _ <- <-]|].
  assert (∀ st res1 reg1 (e1 : E), update_status reg (span_room sp) st = (res1, reg1) → sessions_cover reg e1 →
    sessions_cover reg1 e1) as Hup.
  { intros st res1 reg1 e1 Hu. apply sessions_cover_ext. intros room. by apply (update_status_dom _ _ _ _ _ room) in Hu as ->. }
  destruct (_ && _)%bool.
  - destruct (update_status reg (span_room sp) _) as [[u|e1] reg1] eqn:Hu; [|intros [= _ <- <-]; by eapply Hup].
    intros Hx. eapply IH; [|done]. by eapply Hup.
  - destruct (update_status reg (span_room sp) _) as [[[]|e1] reg1] eqn:Hu; [|intros [= _ <- <-]; by eapply Hup].
    destruct (backend_submit e sp) as [[sres e1]|] eqn:Hs; [|done]. cbn [mbind option_bind].
    assert (sessions_cover reg1 e1) as Hc1.
    { destruct Hc as [Hok Hc]. apply submit_tracked in Hs as [Hok1 Hs]; [|done]. split; [done|]. intros room Hin.
      apply (update_status_dom _ _ _ _ _ room Hu). destruct (Hs room Hin) as [->|]; [|by apply Hc].
      by apply update_status_Ok in Hu as [? _]. }
    destruct sres as [u|err]; [intros Hx; by eapply IH|].
    destruct (update_status reg1 (span_room sp) KvPoll.Failed) as [[u|e2] reg2] eqn:Hu2; intros [= _ <- <-];
      (eapply sessions_cover_ext; [|exact Hc1]); intros room; by apply (update_status_dom _ _ _ _ _ room) in Hu2 as ->.
Qed.

Lemma kw_poll_wf k res k' : kw_wf k → kw_poll_transfers k = Some (res, k') → kw_wf k'.
Proof.
  intros [Hok Hc]. unfold kw_poll_transfers. destruct (backend_poll _) as [[pres e]|] eqn:Hp; [|done]. cbn [mbind option_bind].
  apply poll_tracked in Hp as (Hok'&Hsub&_); [|done]. assert (kw_wf (set_kw_executor k e)) as Hk1.
  { split; [done|]. cbn. intros room Hin. by apply Hc, Hsub. }
  destruct pres as [poll|err]; [|by intros [= <- <-]].
  unfold apply_transfer_completion_events. destruct (apply_events _ _ _) as [ares reg] eqn:Ha. intros [= <- <-].
  eapply sessions_cover_ext; [|exact Hk1]. intros room Hr. cbn in *.
  pose proof (apply_events_spec (events poll) (registry k) (mkKvTransferPollSummary 0 0 (pending_transfers poll) [] [] [])) as Hs.
  rewrite Ha in Hs. destruct ares; [destruct Hs as (_&->&_)|destruct Hs as (?&?&?&_&_&_&_&->)]; by apply is_Some_status_after.
Qed.

Lemma kw_wait_wf rounds : ∀ k batch res k', kw_wf k → kw_wait rounds k batch = Some (res, k') → kw_wf k'.
Proof.
  induction rounds as [|rounds IH]; intros k batch res k' Hk; cbn [kw_wait]; destruct (kw_awaits k batch); cbn [negb];
    try done; try (by intros [= _ <-]).
  destruct (kw_poll_transfers k) as [[pres k1]|] eqn:Hp; [|done]. cbn [mbind option_bind].
  apply kw_poll_wf in Hp; [|done]. destruct pres; [|by intros [= _ <-]].
  destruct (check_failed _ _); [|by intros [= _ <-]]. by apply IH.
Qed.

Lemma register_batch_wf k batch res k' : kw_wf k → register_prefill_bootstrap_sessions k batch = (res, k') → kw_wf k'.
Proof.
  intros Hk. unfold register_prefill_bootstrap_sessions.
  destruct (register_sessions_spec (requests batch) (registry k)) as (reg'&->&Hkeep&_). intros [= _ <-].
  eapply sessions_cover_ext; [|exact Hk]. cbn. intros room [s Hs]. exists s. by apply Hkeep.
Qed.

Lemma receive_tokens_wf rs : ∀ k res k', kw_wf k → receive_tokens k rs = (res, k') → kw_wf k'.
Proof.
  induction rs as [|r rs IH]; intros k res k' Hk; cbn [receive_tokens]; [by intros [= _ <-]|].
  destruct (disaggregated_params r) as [params|]; [|by intros [= _ <-]].
  destruct (receive_prefill_token_and_state _ _) as [[[token state]|e] p]; [|by intros [= _ <-]].
  assert (kw_wf (set_kw_publisher k p)) as Hk0 by done.
  intros Hg. apply st_bind_inv in Hg as [(u&k1&Hst&Hg)|(e&Hst&_)].
  2:{ destruct state; [|done]. destruct (restore_recurrent_state _ _ _). by injection Hst as _ <-. }
  assert (kw_wf k1) as Hk1.
  { destruct state; [destruct (restore_recurrent_state _ _ _)|]; by injection Hst as _ <-. }
  apply st_bind_inv in Hg as [(u2&k2&Hup&Hg)|(e&Hup&_)];
    destruct (update_status (registry k1) (bootstrap_room params) KvPoll.Success) as [ures reg] eqn:Hu;
    injection Hup as _ <-;
    (assert (kw_wf (set_kw_registry k1 reg)) as Hk2;
      [eapply sessions_cover_ext; [|exact Hk1]; intros room; by apply (update_status_dom _ _ _ _ _ room) in Hu as ->|]); [|done].
  apply st_bind_inv in Hg as [(toks&k3&Hrec&Hg)|(e&Hrec&_)]; [injection Hg as _ <-|]; by eapply IH.
Qed.

Lemma kw_finish_wf k r res k' : kw_wf k → kw_finish_request k r = Some (res, k') → kw_wf k'.
Proof.
  intros Hk. unfold kw_finish_request. destruct (disaggregated_params r) as [params|].
  2:{ unfold kw_finish_inner. destruct (finish_request _ _). by intros [= _ <-]. }
  assert (∀ u k1, kw_cancel_receive k (bootstrap_room params) = (u, k1) → kw_wf k1) as Hrec.
  { intros u k1. unfold kw_cancel_receive. destruct (submit_prefill_transfers k); [by intros [= _ <-]|].
    destruct (cancel_receive _ _). by intros [= _ <-]. }
  intros Hf. apply st_bind_opt_inv in Hf as [(u&k1&Hc&Hf)|(e&Hc&_)]; injection Hc as Hc; apply Hrec in Hc; [|done].
  apply st_bind_opt_inv in Hf as [(u2&k2&Hca&Hf)|(e&Hca&_)]; unfold kw_cancel in Hca;
    destruct (backend_cancel (transfer_executor k1) (bootstrap_room params)) as [[cres ex]|] eqn:Hb; try done;
    cbn [mbind option_bind] in Hca; destruct Hc as [Hok Hc]; apply cancel_tracked in Hb as (Hok'&Hsub&Hgone); try done;
    injection Hca as Hres <-.
  - unfold kw_finish_inner in Hf. destruct (finish_request _ _) in Hf. injection Hf as _ <-. split; [done|]. cbn.
    intros room Hin. destruct cres as [[]|]; [|done]. rewrite lookup_delete_ne; [by apply Hc, Hsub|].
    intros Heq. subst room. by apply (Hgone eq_refl).
  - split; [done|]. cbn. intros room Hin. by apply Hc, Hsub.
Qed.

Lemma kw_plan_wf k batch res k' : kw_wf k → kw_plan k batch = Some (res, k') → kw_wf k'.
Proof.
  intros Hk. unfold kw_plan. case_bool_decide; [|by intros [= _ <-]].
  destruct (from_schedule_batch batch); [|done]. cbn [mbind option_bind].
  destruct (from_prefill_worker_batch_with_page_size _ _) as [[spans|e]|]; [|by intros [= _ <-]|done]. cbn [mbind option_bind].
  destruct (publish_decode_bootstrap_metadata _ _) as [[n|e] p]; by intros [= _ <-].
Qed.

Lemma kw_transfer_batch_wf rounds k batch plan output res k' :
  kw_wf k → kw_transfer_batch rounds k batch plan output = Some (res, k') → kw_wf k'.
Proof.
  intros Hk Ht. unfold kw_transfer_batch in Ht.
  destruct (register_prefill_bootstrap_sessions k batch) as [rres k2] eqn:Hr.
  apply register_batch_wf in Hr; [|done]. destruct rres; cbn [result_map_err st_bind_opt] in Ht; [|by injection Ht as _ <-].
  destruct (with_prefill_output plan batch output) as [[plan2|e]|]; [| |done]; cbn [mbind option_bind st_bind_opt] in Ht;
    [|by injection Ht as _ <-].
  destruct (with_recurrent_states _ plan2); cbn [st_bind_opt] in Ht; [|by injection Ht as _ <-].
  destruct (execute_kv_cache_transfer_plan _ _ _) as [[eres [reg ex]]|] eqn:He in Ht; [|done].
  cbn [mbind option_bind] in Ht. apply execute_spans_cover in He; [|exact Hr].
  destruct eres as [summary|e]; cbn [result_map_err st_bind_opt] in Ht; [|by injection Ht as _ <-].
  cbn [prefill_only set_kw_summary set_kw_registry set_kw_executor] in Ht.
  destruct (prefill_only k2); [|by injection Ht as _ <-].
  apply st_bind_opt_inv in Ht as [(u&k3&Hw3&Ht)|(e&Hw3&_)]; apply kw_wait_wf in Hw3; try done. by injection Ht as _ <-.
Qed.

Lemma kw_receive_batch_wf k batch plan res k' : kw_wf k → kw_receive_batch k batch plan = (res, k') → kw_wf k'.
Proof.
  intros Hk Hg. unfold kw_receive_batch in Hg.
  destruct (register_prefill_bootstrap_sessions k batch) as [rres k2] eqn:Hr. apply register_batch_wf in Hr; [|done].
  destruct rres; cbn [result_map_err st_bind] in Hg; [|by injection Hg as _ <-].
  apply st_bind_inv in Hg as [(toks&k3&Hrec&Hg)|(e&Hrec&_)]; apply receive_tokens_wf in Hrec; try done. by injection Hg as _ <-.
Qed.

Lemma kw_try_generate_wf rounds k batch res k' :
  kw_wf k → kw_try_generate_batch rounds k batch = Some (res, k') → kw_wf k'.
Proof.
  intros Hk. unfold kw_try_generate_batch. intros Hg.
  apply st_bind_opt_inv in Hg as [(plan&k1&Hp&Hg)|(e&Hp&_)]; apply kw_plan_wf in Hp; try done.
  assert (st_bind_opt (Some (let '(res, w) := execute_batch (kw_worker k1) batch in (res, set_kw_worker k1 w)))
    (λ output k0, match plan with Some plan => kw_transfer_batch rounds k0 batch plan output | None => Some (Ok output, k0) end)
    = Some (res, k') → kw_wf k') as Hrest.
  { destruct (execute_batch (kw_worker k1) batch) as [[output|e] w]; cbn [st_bind_opt]; [|by intros [= _ <-]].
    destruct plan as [plan|]; [|by intros [= _ <-]]. by apply kw_transfer_batch_wf. }
  destruct plan as [plan|], (submit_prefill_transfers k1); try (by apply Hrest).
  injection Hg as Hg. by eapply kw_receive_batch_wf.
Qed.

(** An event of a tracked room finds its session. *)
Lemma kw_poll_error k e k' :
  kw_wf k → kw_poll_transfers k = Some (Err e, k') → ∃ ex', backend_poll (transfer_executor k) = Some (Err e, ex').
Proof.
  intros Hk Hp. unfold kw_poll_transfers in Hp.
  destruct (backend_poll (transfer_executor k)) as [[pres ex]|] eqn:Hb; [|done]. cbn [mbind option_bind] in Hp.
  destruct pres as [poll|err]; [|injection Hp as <- _; by exists ex]. exfalso.
  destruct Hk as [Hok Hc]. apply poll_tracked in Hb as (_&_&Hev); [|done]. specialize (Hev poll eq_refl).
  unfold apply_transfer_completion_events in Hp.
  pose proof (apply_events_spec (events poll) (registry k) (mkKvTransferPollSummary 0 0 (pending_transfers poll) [] [] [])) as Hs.
  change (registry (set_kw_executor k ex)) with (registry k) in Hp.
  destruct (apply_events (registry k) _ _) as [[s|e1] reg] in Hp, Hs; [done|].
  destruct Hs as (before&ev&after&Heq&_&Hnone&_&_). rewrite Heq in Hev. apply Forall_app in Hev as [_ Hev].
  apply Forall_cons in Hev as [Hev _]. apply Hc in Hev as [s Hev]. by rewrite Hnone in Hev.
Qed.

(** The rooms the backend may still report always have a session: every
    operation of the transfer worker keeps this, on success and on error, so a
    poll fails only with the backend's own error and never on an unknown
    room. *)
Theorem tracked_rooms_have_sessions k :
  kw_wf k →
  (∀ rounds batch res k', kw_try_generate_batch rounds k batch = Some (res, k') → kw_wf k') ∧
  (∀ r res k', kw_finish_request k r = Some (res, k') → kw_wf k') ∧
  (∀ r k', kw_fail_request k r = Some k' → kw_wf k') ∧
  (∀ res k', kw_poll_transfers k = Some (res, k') →
    kw_wf k' ∧ ∀ e, res = Err e → ∃ ex', backend_poll (transfer_executor k) = Some (Err e, ex')).
Proof.
  intros Hk. split_and!.
  - intros ???? Hg. by eapply kw_try_generate_wf.
  - intros ??? Hf. by eapply kw_finish_wf.
  - intros r k'. unfold kw_fail_request. destruct (kw_finish_request k r) as [[res k1]|] eqn:Hf; [|done].
    apply kw_finish_wf in Hf; [|done]. destruct res; by intros [= <-].
  - intros res k' Hp. split; [by eapply kw_poll_wf|]. intros e ->. by eapply kw_poll_error.
Qed.

End Tracked.

(** ** Concrete backends and publishers *)

(** A backend that completes everything at the next poll.  The checksum of a
    span is always defined, so the empty default is never used. *)
(** [transfer/mod.rs:1224-1228] FakeKvCacheTransferExecutor *)
Record FakeKvCacheTransferExecutor : Type := mkFakeExecutor {
  transferred_rooms : list N;
  fake_pending : list (N * string);
}.

Definition fake_submit (sha256 : list N → list N) (e : FakeKvCacheTransferExecutor) (sp : KvCacheTransferSpan) :=
  mkFakeExecutor (transferred_rooms e ++ [span_room sp])
    (fake_pending e ++ [(span_room sp, default ""%string (descriptor_checksum sha256 sp))]).

(** [transfer/mod.rs:1238-1272] FakeKvCacheTransferExecutor (KvTransferBackend) *)
#[export] Instance FakeKvCacheTransferExecutor_backend : KvTransferBackend FakeKvCacheTransferExecutor := {
  backend_submit e sp := Some (Ok (), fake_submit toy_digest e sp);
  backend_poll e :=
    Some (Ok (mkKvTransferPoll ((λ p, mkCompletionEvent p.1 p.2 KvTransferEventStatus.Completed) <$> fake_pending e) 0),
          mkFakeExecutor (transferred_rooms e) []);
  backend_cancel e room := Some (Ok (), mkFakeExecutor (transferred_rooms e) (filter (λ p, p.1 ≠ room) (fake_pending e)));
  backend_shutdown e := Some (Ok (), mkFakeExecutor (transferred_rooms e) []);
}.

(** A publisher that hands out the tokens it is told. *)
#[export] Instance token_publisher : DecodeBootstrapPublisher (list (N * N)) := {
  publish_decode_bootstrap_metadata p spans := (Ok (len spans), p);
  receive_prefill_token_and_state p room :=
    (match list_find (λ e : N * N, e.1 = room) p with
     | Some (_, e) => Ok (e.2, None)
     | None => Err "no token"%string
     end, p);
  cancel_receive p room := (Ok (), filter (λ e : N * N, e.1 ≠ room) p);
}.

#[export] Instance ToyWorker_recurrent : RecurrentStateWorker ToyWorker := {
  export_recurrent_state _ _ := Ok None;
  restore_recurrent_state w _ _ := (Ok (), w);
}.

Definition fake_transfer_worker (submit : bool) : KvTransferModelWorker ToyWorker FakeKvCacheTransferExecutor (list (N * N)) :=
  mkTransferWorker [(7, 9)] (mkFakeExecutor [] []) (mkToyWorker [] []) ∅ 4 submit true None.

(** A disaggregated request on one page. *)
Definition example_pd_request : ScheduledRequest :=
  mkScheduledRequest "b" [1; 2; 3] [] [0; 1; 2] [0; 1; 2] [0; 1; 2] 0 (SamplingParams_new 4)
    (Some (mkDisaggregatedParams "host" 1 7)) 0%Z (mkPrefixMatch 0 [] [1; 2; 3]) PrefillForward 0 3.

Definition example_pd_batch : ScheduleBatch := mkScheduleBatch Prefill [example_pd_request].

(** The same worker waiting for the transfer of room 7, which the next poll completes. *)
Definition waiting_worker : KvTransferModelWorker ToyWorker FakeKvCacheTransferExecutor (list (N * N)) :=
  mkTransferWorker [(7, 9)] (mkFakeExecutor [7] [(7, "sum"%string)]) (mkToyWorker [] [])
    {[7 := mkSession "b" (mkDisaggregatedParams "host" 1 7) 0%Z KvPoll.Transferring]} 4 true true None.

Lemma prefill_only_waits_for_transfers_witness :
  (∃ out k' plan polls, kw_try_generate_batch 2 (fake_transfer_worker true) example_pd_batch = Some (Ok out, k') ∧
    plan_covers example_pd_batch plan ∧ room_completed 7 (concat polls) ∧ Forall (λ t, generated_finished t = true) out) ∧
  ∃ k', kw_wait 5 waiting_worker example_pd_batch = Some (Ok (), k').
Proof.
  split.
  - destruct (kw_try_generate_batch 2 (fake_transfer_worker true) example_pd_batch) as [[[out|] k']|] eqn:Hg;
      [|by vm_compute in Hg|by vm_compute in Hg].
    destruct (proj1 prefill_only_waits_for_transfers 2%nat _ _ _ _ Hg eq_refl eq_refl eq_refl)
      as (plan&e&polls&output&w&Hcover&_&_&_&Hdone&_&_&_&Hout).
    exists out, k', plan, polls. split; [done|]. split; [done|]. split.
    + apply (Hdone example_pd_request (mkDisaggregatedParams "host" 1 7)); [by left|done].
    + rewrite Hout. by apply Forall_fmap, Forall_true.
  - eexists. apply (proj2 prefill_only_waits_for_transfers [[mkCompletionEvent 7 "sum" KvTransferEventStatus.Completed]] 5%nat
      waiting_worker example_pd_batch (mkFakeExecutor [7] [])).
    + by eexists _, _.
    + constructor; [by eexists|constructor].
    + constructor; [|constructor]. exists Ready. by split.
    + cbn; lia.
    + intros [|m] Hm; [|cbn in Hm; lia]. intros Ht.
      specialize (Ht example_pd_request (mkDisaggregatedParams "host" 1 7) _ ltac:(by left) eq_refl eq_refl). done.
    + intros m Hm. cbn in Hm. lia.
    + intros r params s Hr Hp Hs. apply list_elem_of_singleton in Hr as ->. injection Hp as <-.
      revert Hs. vm_compute. by intros [= <-].
Defined.

Lemma decode_side_receives_batch_witness :
  ∃ out k', kw_try_generate_batch 0 (fake_transfer_worker false) example_pd_batch = Some (Ok out, k') ∧
    Forall2 (λ r t, ∃ token, generated_token_ids t = [token] ∧ generated_finished t = stops r token)
      (requests example_pd_batch) out ∧
    is_decode_request_kv_ready example_pd_request (registry k') = Ok true.
Proof.
  destruct (kw_try_generate_batch 0 (fake_transfer_worker false) example_pd_batch) as [[[out|] k']|] eqn:Hg;
    [|by vm_compute in Hg|by vm_compute in Hg].
  exists out, k'. split; [done|].
  destruct (decode_side_receives_batch 0 _ _ _ _ Hg eq_refl eq_refl) as [Htok Hall]. split; [done|].
  apply Hall. cbn. by left.
Defined.

Lemma finish_request_releases_room_witness :
  ∃ res k', kw_finish_request (fake_transfer_worker false) example_pd_request = Some (res, k') ∧
    (res = Ok () → registry k' !! 7 = None) ∧
    (registry k' = ∅ ∨ registry k' = base.delete 7 ∅).
Proof.
  destruct (kw_finish_request (fake_transfer_worker false) example_pd_request) as [[res k']|] eqn:Hf; [|by vm_compute in Hf].
  exists res, k'. split; [done|].
  destruct (finish_request_releases_room (fake_transfer_worker false) example_pd_request (mkDisaggregatedParams "host" 1 7)
    res k' eq_refl Hf) as (?&?&_). done.
Defined.

Lemma execute_plan_correct_witness :
  ∃ summary reg e', execute_kv_cache_transfer_plan {[7 := mkSession "a" (mkDisaggregatedParams "host" 1 7) 0 KvPoll.Bootstrapping]}
      (mkFakeExecutor [] []) [example_span] = Some (Ok summary, (reg, e')) ∧
    submit_all (mkFakeExecutor [] []) [example_span] = Some e' ∧ submitted_spans summary + noop_spans summary = 1.
Proof.
  destruct (execute_kv_cache_transfer_plan {[7 := mkSession "a" (mkDisaggregatedParams "host" 1 7) 0 KvPoll.Bootstrapping]}
      (mkFakeExecutor [] []) [example_span]) as [[[summary|] [reg e']]|] eqn:He; [|by vm_compute in He|by vm_compute in He].
  exists summary, reg, e'. split; [done|]. destruct (execute_plan_correct _ _ _ _ He) as (_&_&?&_&?). done.
Defined.

#[export, refine] Instance FakeKvCacheTransferExecutor_tracked : TrackedBackend FakeKvCacheTransferExecutor :=
  {| backend_ok _ := True; tracked e := (fake_pending e).*1 |}.
Proof.
  - intros e sp res e' _ [= <- <-]. split; [done|]. intros room. cbn. rewrite fmap_app, elem_of_app. cbn. set_solver.
  - intros e res e' _ [= <- <-]. cbn. split_and!; [done|intros room Hin; by apply elem_of_nil in Hin|].
    intros poll [= <-]. cbn. apply Forall_fmap, Forall_forall. intros p Hp. cbn. by apply list_elem_of_fmap_2.
  - intros e room res e' _ [= <- <-]. cbn. split_and!; [done| |].
    + intros room' Hin. apply list_elem_of_fmap in Hin as (p&->&Hp). apply list_elem_of_filter in Hp as [_ Hp].
      by apply list_elem_of_fmap_2.
    + intros _ Hin. apply list_elem_of_fmap in Hin as (p&->&Hp). by apply list_elem_of_filter in Hp as [? _].
Defined.

Lemma tracked_rooms_have_sessions_witness :
  ∃ res k', kw_try_generate_batch 2 (fake_transfer_worker true) example_pd_batch = Some (res, k') ∧ kw_wf k'.
Proof.
  destruct (kw_try_generate_batch 2 (fake_transfer_worker true) example_pd_batch) as [[res k']|] eqn:Hg; [|by vm_compute in Hg].
  exists res, k'. split; [done|].
  refine (proj1 (tracked_rooms_have_sessions (fake_transfer_worker true) _) 2%nat example_pd_batch res k' Hg).
  split; [done|]. intros room Hin. by apply elem_of_nil in Hin.
Defined.
