(* ===== verification/KvTransfer.v ===== *)
(** * The KV transfer executor ([crates/sglang-srt/src/transfer/mod.rs], [KvCacheTransferExecutor])

    The backend that turns spans into batches of write requests for a transport,
    polls their status, frees finished batches and reports one completion event
    for each.  The transport, the resolver of targets, the memory registrar and
    the registered memory are traits or third-party types: classes here. *)

From stdpp Require Import pretty.
From S2P Require Import Prelude Types PageAllocator Request TransferPlan TransferDescriptor KvBootstrap.

(** ** Status codes *)

Module KvTransferStatusCode.
(** [transfer/mod.rs:1721-1729] KvTransferStatusCode *)
Inductive KvTransferStatusCode : Type := Waiting | Pending | Invalid | Canceled | Completed | Timeout | Failed.

#[export] Instance KvTransferStatusCode_eq_dec : EqDecision KvTransferStatusCode.
Proof. solve_decision. Defined.

(** [transfer/mod.rs:1734-1747] KvTransferStatusCode::try_from *)
Definition try_from (value : Z) : Result KvCacheTransferError KvTransferStatusCode :=
  match value with
  | 0%Z => Ok Waiting
  | 1%Z => Ok Pending
  | 2%Z => Ok Invalid
  | 3%Z => Ok Canceled
  | 4%Z => Ok Completed
  | 5%Z => Ok Timeout
  | 6%Z => Ok Failed
  | other => Err (TransferRuntime ("unknown KV transfer status: " +:+ pretty other))
  end.
End KvTransferStatusCode.
Import (hints) KvTransferStatusCode.

(** [transfer/mod.rs:1752-1755] KvTransferStatus *)
Record KvTransferStatus : Type := mkTransferStatus {
  status_code : Z;
  transferred_bytes : N;
}.

(** [transfer/mod.rs:2340-2345] KvSubmittedBatch *)
Record KvSubmittedBatch : Type := mkSubmittedBatch {
  sb_room : N;
  sb_batch_id : N;
  sb_task_count : N;
  sb_checksum : string;
}.

(** ** Traits *)

(** Errors of the transport are their messages. *)
(** [transfer/mod.rs:2320-2337] KvTransferSubmitter, KvTransferStatusReader, KvBatchReleaser *)
Class KvTransport (T : Type) : Type := {
  submit_transfer : T → list KvTransferRequest → Result string N * T;
  transfer_status : T → N → N → Result string KvTransferStatus * T;
  free_batch : T → N → Result string unit * T;
}.

(** [transfer/mod.rs:1990-2003] KvTransferTargetResolver *)
Class KvTransferTargetResolver (R : Type) : Type := {
  resolve_target : R → KvCacheTransferSpan → Result KvCacheTransferError Z * R;
  resolve_session_target : R → KvCacheTransferSpan → string → Result KvCacheTransferError Z * R;
}.

(** Registered memory: a third-party descriptor of regions (base address and
    length) and a page size. *)
Class TransferableMemory (M : Type) : Type := {
  regions : M → list (N * N);
  memory_page_size_bytes : M → N;
  memory_location_label : M → Result string string;
}.

(** [transfer/mod.rs:1865-1876] KvMemoryRegistrar *)
Class KvMemoryRegistrar (G : Type) : Type := {
  register_memory_batch : G → list (N * N) → string → Result string unit * G;
  unregister_memory_batch : G → list N → Result string unit * G;
}.

(** ** Targets *)

(** A fixed target ignores the span and the session. *)
(** [transfer/mod.rs:2016-2023] FixedKvTransferTargetResolver::resolve_target *)
#[export] Instance FixedKvTransferTargetResolver : KvTransferTargetResolver Z := {
  resolve_target target _ := (Ok target, target);
  resolve_session_target target _ _ := (Ok target, target);
}.

(** [transfer/mod.rs:1986-1988] KvSegmentOpener *)
Class KvSegmentOpener (O : Type) : Type := { open_segment : O → string → Result string Z * O }.

(** [transfer/mod.rs:2026-2030] SessionKvTargetResolver *)
Record SessionKvTargetResolver (O : Type) : Type := mkSessionResolver {
  opener : O;
  sessions_by_room : gmap N string;
  targets_by_session : gmap string Z;
}.
Arguments mkSessionResolver {O}.
Arguments opener {O}.
Arguments sessions_by_room {O}.
Arguments targets_by_session {O}.

Section Resolver.
Context {O : Type} `{!KvSegmentOpener O}.

(** [transfer/mod.rs:2049-2056] SessionKvTargetResolver::insert_room_session *)
Definition insert_room_session (r : SessionKvTargetResolver O) (room : N) (session_id : string) :=
  mkSessionResolver (opener r) (<[room := session_id]> (sessions_by_room r)) (targets_by_session r).

(** [transfer/mod.rs:2091-2108] SessionKvTargetResolver::resolve_session_target *)
Definition session_resolve_session_target (r : SessionKvTargetResolver O) (sp : KvCacheTransferSpan) (session_id : string)
    : Result KvCacheTransferError Z * SessionKvTargetResolver O :=
  match targets_by_session r !! session_id with
  | Some target => (Ok target, r)
  | None =>
      let '(res, o) := open_segment (opener r) session_id in
      let r := mkSessionResolver o (sessions_by_room r) (targets_by_session r) in
      match res with
      | Err e => (Err (TransferRuntime e), r)
      | Ok target =>
          (Ok target, mkSessionResolver (opener r) (sessions_by_room r) (<[session_id := target]> (targets_by_session r)))
      end
  end.

(** [transfer/mod.rs:2063-2089] SessionKvTargetResolver::resolve_target *)
Definition session_resolve_target (r : SessionKvTargetResolver O) (sp : KvCacheTransferSpan)
    : Result KvCacheTransferError Z * SessionKvTargetResolver O :=
  match sessions_by_room r !! span_room sp with
  | None => (Err (TransferRuntime ("missing session for bootstrap room " +:+ pretty (span_room sp))), r)
  | Some session_id => session_resolve_session_target r sp session_id
  end.

#[export] Instance SessionKvTargetResolver_resolver : KvTransferTargetResolver (SessionKvTargetResolver O) := {
  resolve_target := session_resolve_target;
  resolve_session_target := session_resolve_session_target;
}.

End Resolver.

(** ** Memory registrations *)

(** [transfer/mod.rs:1900-1908] RegisteredKvCacheMemory *)
Record RegisteredKvCacheMemory (G M : Type) : Type := mkRegistered {
  registrar : G;
  registered_memory : M;
  registered_addrs : list N;
  active : bool;
}.
Arguments mkRegistered {G M}.
Arguments registrar {G M}.
Arguments registered_memory {G M}.
Arguments registered_addrs {G M}.
Arguments active {G M}.

Section Registration.
Context {G M : Type} `{!KvMemoryRegistrar G} `{!TransferableMemory M}.

(** [transfer/mod.rs:1914-1939] RegisteredKvCacheMemory::register *)
Definition register_memory (g : G) (memory : M) : Result string (RegisteredKvCacheMemory G M) :=
  let? location := memory_location_label memory in
  match register_memory_batch g (regions memory) location with
  | (Err e, _) => Err e
  | (Ok _, g) => Ok (mkRegistered g memory (fst <$> regions memory) true)
  end.

(** [transfer/mod.rs:1945-1958] RegisteredKvCacheMemory::unregister *)
Definition unregister_memory (m : RegisteredKvCacheMemory G M) : Result string unit * RegisteredKvCacheMemory G M :=
  if negb (active m) then (Ok (), m)
  else
    let '(res, g) := unregister_memory_batch (registrar m) (registered_addrs m) in
    match res with
    | Err e => (Err e, mkRegistered g (registered_memory m) (registered_addrs m) (active m))
    | Ok _ => (Ok (), mkRegistered g (registered_memory m) (registered_addrs m) false)
    end.

(** The first region's address; the code indexes the list, so no region panics. *)
(** [transfer/mod.rs:1844-1850] KvCacheMemoryExt::kv_prefill_layout *)
Definition kv_prefill_layout (memory : M) (target_base_offset : N) : option KvTransferLayout :=
  r ← head (regions memory); Some (mkTransferLayout r.1 (memory_page_size_bytes memory) target_base_offset).

(** [transfer/mod.rs:1852-1862] KvCacheMemoryExt::kv_decode_remote_layout *)
Definition kv_decode_remote_layout (memory : M) (dst_kv_indices : list Z) : option KvRemoteLayout :=
  guard (0 < len (regions memory));;
  Some (mkRemoteLayout (fst <$> regions memory) dst_kv_indices
          (memory_page_size_bytes memory / len (regions memory))).

End Registration.

(** A boxed lease: an owner of registered memory, one of them the type above. *)
(** [transfer/mod.rs:1895-1898] KvMemoryRegistrationLease *)
Class KvMemoryRegistrationLease (L G M : Type) : Type := {
  lease_memory : L → M;
  lease_unregister : L → Result string unit * L;
  box_registered : RegisteredKvCacheMemory G M → L;
}.

(** ** The executor *)

(** A [BTreeMap] with string keys: the entries in the byte order of their keys. *)
Fixpoint btree_insert {A} (key : string) (v : A) (l : list (string * A)) : list (string * A) :=
  match l with
  | [] => [(key, v)]
  | (key', v') :: l' =>
      match String.compare key key' with
      | Lt => (key, v) :: l
      | Eq => (key, v) :: l'
      | Gt => (key', v') :: btree_insert key v l'
      end
  end.

(** [transfer/mod.rs:2534-2547] KvCacheTransferExecutor *)
Record KvCacheTransferExecutor (T R G L : Type) : Type := mkExecutor {
  local_memory_registration : option L;
  memory_registrar : option G;
  submitter : T;
  layout : KvTransferLayout;
  target_resolver : R;
  remote_kv_layouts_by_room : gmap N (list (string * KvRemoteLayout));
  submitted_batches : list N;
  submitted_transfers : list KvSubmittedBatch;
  completion_events : list KvTransferCompletionEvent;
}.
Arguments mkExecutor {T R G L}.
Arguments local_memory_registration {T R G L}.
Arguments memory_registrar {T R G L}.
Arguments submitter {T R G L}.
Arguments layout {T R G L}.
Arguments target_resolver {T R G L}.
Arguments remote_kv_layouts_by_room {T R G L}.
Arguments submitted_batches {T R G L}.
Arguments submitted_transfers {T R G L}.
Arguments completion_events {T R G L}.

(** [transfer/mod.rs:2482-2486] KvPolledBatchState *)
Inductive KvPolledBatchState : Type := BatchCompleted | BatchPending | BatchFailed (message : string).

Section Executor.
Context {T R G L M : Type} `{!KvTransport T} `{!KvTransferTargetResolver R} `{!KvMemoryRegistrar G}
  `{!TransferableMemory M} `{!KvMemoryRegistrationLease L G M}.
Context (sha256 : list N → list N).

Implicit Types ex : KvCacheTransferExecutor T R G L.

Definition set_submitter ex t : KvCacheTransferExecutor T R G L :=
  mkExecutor (local_memory_registration ex) (memory_registrar ex) t (layout ex) (target_resolver ex)
    (remote_kv_layouts_by_room ex) (submitted_batches ex) (submitted_transfers ex) (completion_events ex).
Definition set_resolver ex r : KvCacheTransferExecutor T R G L :=
  mkExecutor (local_memory_registration ex) (memory_registrar ex) (submitter ex) (layout ex) r
    (remote_kv_layouts_by_room ex) (submitted_batches ex) (submitted_transfers ex) (completion_events ex).
Definition set_tracked ex bs ts : KvCacheTransferExecutor T R G L :=
  mkExecutor (local_memory_registration ex) (memory_registrar ex) (submitter ex) (layout ex) (target_resolver ex)
    (remote_kv_layouts_by_room ex) bs ts (completion_events ex).
Definition set_events ex evs : KvCacheTransferExecutor T R G L :=
  mkExecutor (local_memory_registration ex) (memory_registrar ex) (submitter ex) (layout ex) (target_resolver ex)
    (remote_kv_layouts_by_room ex) (submitted_batches ex) (submitted_transfers ex) evs.
Definition set_layouts ex m : KvCacheTransferExecutor T R G L :=
  mkExecutor (local_memory_registration ex) (memory_registrar ex) (submitter ex) (layout ex) (target_resolver ex)
    m (submitted_batches ex) (submitted_transfers ex) (completion_events ex).
Definition set_registration ex l : KvCacheTransferExecutor T R G L :=
  mkExecutor l (memory_registrar ex) (submitter ex) (layout ex) (target_resolver ex)
    (remote_kv_layouts_by_room ex) (submitted_batches ex) (submitted_transfers ex) (completion_events ex).
Definition set_registrar ex g : KvCacheTransferExecutor T R G L :=
  mkExecutor (local_memory_registration ex) g (submitter ex) (layout ex) (target_resolver ex)
    (remote_kv_layouts_by_room ex) (submitted_batches ex) (submitted_transfers ex) (completion_events ex).

(** [transfer/mod.rs:2574-2590] KvCacheTransferExecutor::with_target_resolver *)
Definition with_target_resolver (t : T) (lay : KvTransferLayout) (r : R) : KvCacheTransferExecutor T R G L :=
  mkExecutor None None t lay r ∅ [] [] [].

Definition insert_session_layout (m : gmap N (list (string * KvRemoteLayout))) (room : N) (session_id : string)
    (lay : KvRemoteLayout) :=
  <[room := btree_insert session_id lay (default [] (m !! room))]> m.

(** [transfer/mod.rs:2592-2617] KvCacheTransferExecutor::with_target_resolver_and_remote_kv_layouts *)
Definition with_target_resolver_and_remote_kv_layouts (t : T) (lay : KvTransferLayout) (r : R)
    (remote : list (N * KvRemoteLayout)) : KvCacheTransferExecutor T R G L :=
  mkExecutor None None t lay r (foldl (λ m p, insert_session_layout m p.1 "" p.2) ∅ remote) [] [] [].

(** [transfer/mod.rs:2619-2644] KvCacheTransferExecutor::with_target_resolver_and_remote_kv_session_layouts *)
Definition with_target_resolver_and_remote_kv_session_layouts (t : T) (lay : KvTransferLayout) (r : R)
    (remote : list (N * string * KvRemoteLayout)) : KvCacheTransferExecutor T R G L :=
  mkExecutor None None t lay r (foldl (λ m p, insert_session_layout m p.1.1 p.1.2 p.2) ∅ remote) [] [] [].

(** [None]: memory without regions is indexed. *)
(** [transfer/mod.rs:2650-2673] KvCacheTransferExecutor::with_local_memory_registration *)
Definition with_local_memory_registration ex (registration : L)
    : option (Result KvCacheTransferError (KvCacheTransferExecutor T R G L)) :=
  match local_memory_registration ex with
  | Some _ => Some (Err (TransferRuntime "KV executor already owns a local memory registration"))
  | None =>
      let memory := lease_memory registration in
      let mismatch := Some (Err (TransferRuntime "KV memory registration does not match the executor KV layout")) in
      if negb (memory_page_size_bytes memory =? page_size_bytes (layout ex)) then mismatch
      else
        r ← head (regions memory);
        if negb (r.1 =? source_base_addr (layout ex)) then mismatch
        else Some (Ok (set_registration ex (Some registration)))
  end.

(** [transfer/mod.rs:2675-2681] KvCacheTransferExecutor::with_memory_registrar *)
Definition with_memory_registrar ex (g : G) := set_registrar ex (Some g).

(** [transfer/mod.rs:2719-2729] KvCacheTransferExecutor::insert_remote_kv_session_layout *)
Definition insert_remote_kv_session_layout ex (room : N) (session_id : string) (lay : KvRemoteLayout) :=
  set_layouts ex (insert_session_layout (remote_kv_layouts_by_room ex) room session_id lay).

(** [transfer/mod.rs:2711-2717] KvCacheTransferExecutor::insert_remote_kv_layout *)
Definition insert_remote_kv_layout ex (room : N) (lay : KvRemoteLayout) := insert_remote_kv_session_layout ex room "" lay.

(** ** Polling *)

(** What the tasks of a batch have shown so far: the completed ones, the first
    failure and whether one is still running. *)
(** [transfer/mod.rs:2499-2522] poll_kv_submitted_batch (loop) *)
Fixpoint poll_tasks (t : T) (batch_id : N) (task_ids : list N) (completed : N) (failure : option string) (pending : bool)
    : Result KvCacheTransferError (N * option string * bool) * T :=
  match task_ids with
  | [] => (Ok (completed, failure, pending), t)
  | task_id :: task_ids' =>
      match transfer_status t batch_id task_id with
      | (Err e, t) => (Err (TransferRuntime e), t)
      | (Ok st, t) =>
          match KvTransferStatusCode.try_from (status_code st) with
          | Err e => (Err e, t)
          | Ok KvTransferStatusCode.Completed => poll_tasks t batch_id task_ids' (completed + 1) failure pending
          | Ok KvTransferStatusCode.Waiting | Ok KvTransferStatusCode.Pending =>
              poll_tasks t batch_id task_ids' completed failure true
          | Ok _ =>
              let message := "KV transfer batch " +:+ pretty batch_id +:+ " task " +:+ pretty task_id
                             +:+ " failed with status " +:+ pretty (status_code st) in
              poll_tasks t batch_id task_ids' completed (Some (default message failure)) pending
          end
      end
  end.

(** [transfer/mod.rs:2488-2532] poll_kv_submitted_batch *)
Definition poll_kv_submitted_batch (t : T) (batch : KvSubmittedBatch) : Result KvCacheTransferError KvPolledBatchState * T :=
  match poll_tasks t (sb_batch_id batch) (nrange 0 (sb_task_count batch)) 0 None false with
  | (Err e, t) => (Err e, t)
  | (Ok (completed_tasks, failure, pending), t) =>
      (Ok (if pending then BatchPending
           else match failure with
                | Some message => BatchFailed message
                | None => if completed_tasks =? sb_task_count batch then BatchCompleted else BatchPending
                end), t)
  end.

(** [transfer/mod.rs:2459-2478] poll_kv_transfer_batches (loop) *)
Fixpoint poll_batches (t : T) (poll : KvTransferPoll) (batches : list KvSubmittedBatch)
    : Result KvCacheTransferError KvTransferPoll * T :=
  match batches with
  | [] => (Ok poll, t)
  | b :: batches' =>
      match poll_kv_submitted_batch t b with
      | (Err e, t) => (Err e, t)
      | (Ok BatchCompleted, t) =>
          poll_batches t (mkKvTransferPoll
            (events poll ++ [mkCompletionEvent (sb_room b) (sb_checksum b) KvTransferEventStatus.Completed])
            (pending_transfers poll)) batches'
      | (Ok BatchPending, t) => poll_batches t (mkKvTransferPoll (events poll) (pending_transfers poll + 1)) batches'
      | (Ok (BatchFailed message), t) =>
          poll_batches t (mkKvTransferPoll
            (events poll ++ [mkCompletionEvent (sb_room b) (sb_checksum b) (KvTransferEventStatus.Failed message)])
            (pending_transfers poll)) batches'
      end
  end.

(** [transfer/mod.rs:2452-2479] poll_kv_transfer_batches *)
Definition poll_kv_transfer_batches (t : T) (batches : list KvSubmittedBatch) := poll_batches t (mkKvTransferPoll [] 0) batches.

(** [Vec::remove] at [index] of both lists; the lists are parallel. *)
Definition remove_tracked ex (index : nat) : option (KvCacheTransferExecutor T R G L) :=
  guard (index < length (submitted_batches ex))%nat;;
  Some (set_tracked ex (delete index (submitted_batches ex)) (delete index (submitted_transfers ex))).

(** Free the batch of a settled transfer, report it and forget it. *)
(** [transfer/mod.rs:2769-2797] KvCacheTransferExecutor::poll_submitted_transfers (settled) *)
Definition settle_transfer ex (index : nat) (transfer : KvSubmittedBatch) (st : KvTransferEventStatus.KvTransferEventStatus)
    : option (Result KvCacheTransferError unit * KvCacheTransferExecutor T R G L) :=
  match free_batch (submitter ex) (sb_batch_id transfer) with
  | (Err e, t) => Some (Err (TransferRuntime e), set_submitter ex t)
  | (Ok _, t) =>
      let ex := set_submitter ex t in
      let ex := set_events ex (completion_events ex ++ [mkCompletionEvent (sb_room transfer) (sb_checksum transfer) st]) in
      ex ← remove_tracked ex index; Some (Ok (), ex)
  end.

(** Every round passes a transfer or removes it, so the number of transfers is
    fuel enough. *)
(** [transfer/mod.rs:2766-2798] KvCacheTransferExecutor::poll_submitted_transfers (loop) *)
Fixpoint poll_loop (fuel : nat) ex (index : nat)
    : option (Result KvCacheTransferError unit * KvCacheTransferExecutor T R G L) :=
  match submitted_transfers ex !! index with
  | None => Some (Ok (), ex)
  | Some transfer =>
      match fuel with
      | O => None
      | S fuel' =>
          match poll_kv_submitted_batch (submitter ex) transfer with
          | (Err e, t) => Some (Err e, set_submitter ex t)
          | (Ok BatchCompleted, t) =>
              let* _u, ex := settle_transfer (set_submitter ex t) index transfer KvTransferEventStatus.Completed in
              poll_loop fuel' ex index
          | (Ok BatchPending, t) => poll_loop fuel' (set_submitter ex t) (S index)
          | (Ok (BatchFailed message), t) =>
              let* _u, ex := settle_transfer (set_submitter ex t) index transfer (KvTransferEventStatus.Failed message) in
              poll_loop fuel' ex index
          end
      end
  end.

(** [transfer/mod.rs:2764-2803] KvCacheTransferExecutor::poll_submitted_transfers *)
Definition poll_submitted_transfers ex : option (Result KvCacheTransferError KvTransferPoll * KvCacheTransferExecutor T R G L) :=
  let* _u, ex := poll_loop (length (submitted_transfers ex)) ex 0 in
  Some (Ok (mkKvTransferPoll (completion_events ex) (len (submitted_transfers ex))), set_events ex []).

(** ** Cancelling *)

(** Poll until the transfer is settled, at most [polls] times. *)
(** [transfer/mod.rs:2746-2751] KvCacheTransferExecutor::cancel_submitted_transfers_for_room (wait) *)
Fixpoint wait_settled (polls : nat) (t : T) (transfer : KvSubmittedBatch)
    : option (Result KvCacheTransferError unit * T) :=
  match polls with
  | O => None
  | S polls' =>
      match poll_kv_submitted_batch t transfer with
      | (Err e, t) => Some (Err e, t)
      | (Ok BatchPending, t) => wait_settled polls' t transfer
      | (Ok _, t) => Some (Ok (), t)
      end
  end.

(** Every round removes a transfer. *)
(** [transfer/mod.rs:2740-2757] KvCacheTransferExecutor::cancel_submitted_transfers_for_room (loop) *)
Fixpoint cancel_loop (fuel polls : nat) ex (room : N)
    : option (Result KvCacheTransferError unit * KvCacheTransferExecutor T R G L) :=
  match list_find (λ transfer, sb_room transfer = room) (submitted_transfers ex) with
  | None => Some (Ok (), ex)
  | Some (index, transfer) =>
      match fuel with
      | O => None
      | S fuel' =>
          '(res, t) ← wait_settled polls (submitter ex) transfer;
          let ex := set_submitter ex t in
          match res with
          | Err e => Some (Err e, ex)
          | Ok _ =>
              match free_batch (submitter ex) (sb_batch_id transfer) with
              | (Err e, t) => Some (Err (TransferRuntime e), set_submitter ex t)
              | (Ok _, t) => ex ← remove_tracked (set_submitter ex t) index; cancel_loop fuel' polls ex room
              end
          end
      end
  end.

(** [transfer/mod.rs:2736-2762] KvCacheTransferExecutor::cancel_submitted_transfers_for_room *)
Definition cancel_submitted_transfers_for_room (polls : nat) ex (room : N)
    : option (Result KvCacheTransferError unit * KvCacheTransferExecutor T R G L) :=
  let* _u, ex := cancel_loop (length (submitted_transfers ex)) polls ex room in
  let ex := set_events ex (filter (λ ev, event_room ev ≠ room) (completion_events ex)) in
  Some (Ok (), set_layouts ex (base.delete room (remote_kv_layouts_by_room ex))).

(** ** The backend *)

(** [transfer/mod.rs:2810-2834] KvCacheTransferExecutor::register *)
Definition ex_register ex (memory : M) : Result KvCacheTransferError unit * KvCacheTransferExecutor T R G L :=
  match local_memory_registration ex with
  | Some _ => (Err (TransferRuntime "KV memory is already registered"), ex)
  | None =>
      match regions memory with
      | [r] =>
          if (negb (r.1 =? source_base_addr (layout ex))
              || negb (memory_page_size_bytes memory =? page_size_bytes (layout ex)))%bool then
            (Err (TransferRuntime "NexusKV descriptor does not match the KV executor source layout"), ex)
          else
            match memory_registrar ex with
            | None => (Err (TransferRuntime "KV backend has no memory registrar; construct it through the production transfer backend factory"), ex)
            | Some g =>
                let ex := set_registrar ex None in
                match register_memory g memory with
                | Err e => (Err (TransferRuntime e), ex)
                | Ok registration => (Ok (), set_registration ex (Some (box_registered registration)))
                end
            end
      | _ => (Err (TransferRuntime "NexusKV descriptor does not match the KV executor source layout"), ex)
      end
  end.

(** [transfer/mod.rs:2847-2856] KvCacheTransferExecutor::submit (remote layouts) *)
Fixpoint session_requests (r : R) (sp : KvCacheTransferSpan) (lay : KvTransferLayout)
    (remote_layouts : list (string * KvRemoteLayout)) (acc : list KvTransferRequest)
    : option (Result KvCacheTransferError (list KvTransferRequest) * R) :=
  match remote_layouts with
  | [] => Some (Ok acc, r)
  | (session_id, remote_layout) :: rest =>
      match resolve_session_target r sp session_id with
      | (Err e, r) => Some (Err e, r)
      | (Ok target, r) =>
          res ← build_remote_kv_transfer_requests sp lay target remote_layout;
          match res with
          | Err e => Some (Err (TransferRuntime (KvRequestBuildError_to_string e)), r)
          | Ok qs => session_requests r sp lay rest (acc ++ qs)
          end
      end
  end.

(** [transfer/mod.rs:2843-2861] KvCacheTransferExecutor::submit (requests) *)
Definition span_requests ex (sp : KvCacheTransferSpan)
    : option (Result KvCacheTransferError (list KvTransferRequest) * KvCacheTransferExecutor T R G L) :=
  match remote_kv_layouts_by_room ex !! span_room sp with
  | Some remote_layouts =>
      '(res, r) ← session_requests (target_resolver ex) sp (layout ex) remote_layouts [];
      Some (res, set_resolver ex r)
  | None =>
      match resolve_target (target_resolver ex) sp with
      | (Err e, r) => Some (Err e, set_resolver ex r)
      | (Ok target, r) =>
          res ← build_kv_transfer_requests sp (layout ex) target;
          Some (result_map_err (λ e, TransferRuntime (KvRequestBuildError_to_string e)) res, set_resolver ex r)
      end
  end.

(** [None]: a span with page size zero. *)
(** [transfer/mod.rs:2836-2880] KvCacheTransferExecutor::submit *)
Definition ex_submit ex (sp : KvCacheTransferSpan)
    : option (Result KvCacheTransferError unit * KvCacheTransferExecutor T R G L) :=
  match local_memory_registration ex with
  | None => Some (Err (TransferRuntime "KV backend must register ModelRunner-owned NexusKV memory before submit"), ex)
  | Some _ =>
      let checksum := default ""%string (descriptor_checksum sha256 sp) in
      let* requests, ex := span_requests ex sp in
      match requests with
      | [] =>
          Some (Ok (), set_events ex (completion_events ex ++
                        [mkCompletionEvent (span_room sp) checksum KvTransferEventStatus.Completed]))
      | _ =>
          let task_count := len requests in
          let '(res, t) := submit_transfer (submitter ex) requests in
          let ex := set_submitter ex t in
          match res with
          | Err e => Some (Err (TransferRuntime e), ex)
          | Ok batch_id =>
              Some (Ok (), set_tracked ex (submitted_batches ex ++ [batch_id])
                     (submitted_transfers ex ++ [mkSubmittedBatch (span_room sp) batch_id task_count checksum]))
          end
      end
  end.

(** [transfer/mod.rs:2896-2898] KvCacheTransferExecutor::shutdown (rooms) *)
Fixpoint cancel_rooms (polls : nat) ex (rooms : list N)
    : option (Result KvCacheTransferError unit * KvCacheTransferExecutor T R G L) :=
  match rooms with
  | [] => Some (Ok (), ex)
  | room :: rooms' =>
      let* _u, ex := cancel_submitted_transfers_for_room polls ex room in
      cancel_rooms polls ex rooms'
  end.

(** [transfer/mod.rs:2890-2906] KvCacheTransferExecutor::shutdown *)
Definition ex_shutdown (polls : nat) ex : option (Result KvCacheTransferError unit * KvCacheTransferExecutor T R G L) :=
  let rooms := sb_room <$> submitted_transfers ex in
  let* _u, ex := cancel_rooms polls ex rooms in
  match local_memory_registration ex with
  | None => Some (Ok (), ex)
  | Some registration =>
      let '(res, registration) := lease_unregister registration in
      match res with
      | Err e => Some (Err (TransferRuntime e), set_registration ex (Some registration))
      | Ok _ => Some (Ok (), set_registration ex None)
      end
  end.

End Executor.

(** ** Facts *)

(** The batches a transport was told to free, as far as it accepted. *)
Class TransportLog (T : Type) `{!KvTransport T} : Type := {
  freed : T → list N;
  freed_status t b i : freed (transfer_status t b i).2 = freed t;
  freed_submit t qs : freed (submit_transfer t qs).2 = freed t;
  freed_free t b : freed (free_batch t b).2 =
    match (free_batch t b).1 with Ok _ => freed t ++ [b] | Err _ => freed t end;
}.

(** Every transport can be observed through a log. *)
Section Logged.
Context {T : Type} `{!KvTransport T}.

#[export] Instance logged_transport : KvTransport (T * list N) := {
  submit_transfer p qs := let '(res, t) := submit_transfer p.1 qs in (res, (t, p.2));
  transfer_status p b i := let '(res, t) := transfer_status p.1 b i in (res, (t, p.2));
  free_batch p b := let '(res, t) := free_batch p.1 b in
                    (res, (t, match res with Ok _ => p.2 ++ [b] | Err _ => p.2 end));
}.

#[export, refine] Instance logged_log : TransportLog (T * list N) := {| freed := snd |}.
Proof.
  - intros [t l] b i. cbn. by destruct (transfer_status t b i).
  - intros [t l] qs. cbn. by destruct (submit_transfer t qs).
  - intros [t l] b. cbn. by destruct (free_batch t b) as [[] ?].
Defined.

End Logged.

Section Facts.
Context {T R G L M : Type} `{!KvTransport T} `{!TransportLog T} `{!KvTransferTargetResolver R} `{!KvMemoryRegistrar G}
  `{!TransferableMemory M} `{!KvMemoryRegistrationLease L G M}.

Implicit Types ex : KvCacheTransferExecutor T R G L.

(** The two lists of tracked batches go together. *)
Definition aligned ex : Prop := submitted_batches ex = sb_batch_id <$> submitted_transfers ex.

Definition same_setup ex ex' : Prop :=
  local_memory_registration ex' = local_memory_registration ex ∧
  remote_kv_layouts_by_room ex' = remote_kv_layouts_by_room ex ∧ layout ex' = layout ex.

(** From [ex] to [ex'] the transfers [gone] were freed, once each, and dropped. *)
Record dropped ex ex' (gone : list KvSubmittedBatch) : Prop := {
  dr_perm : submitted_transfers ex ≡ₚ gone ++ submitted_transfers ex';
  dr_order : submitted_transfers ex' `sublist_of` submitted_transfers ex;
  dr_freed : freed (submitter ex') = freed (submitter ex) ++ (sb_batch_id <$> gone);
  dr_aligned : aligned ex';
  dr_setup : same_setup ex ex';
}.

Lemma dropped_none ex ex' :
  aligned ex → submitted_transfers ex' = submitted_transfers ex → submitted_batches ex' = submitted_batches ex →
  freed (submitter ex') = freed (submitter ex) → same_setup ex ex' → dropped ex ex' [].
Proof. intros Ha Ht Hb Hf Hs. split; try done; rewrite ?Ht, ?app_nil_r; try done. unfold aligned. by rewrite Ht, Hb. Qed.

Lemma dropped_trans ex1 ex2 ex3 g1 g2 : dropped ex1 ex2 g1 → dropped ex2 ex3 g2 → dropped ex1 ex3 (g1 ++ g2).
Proof.
  intros [P1 O1 F1 A1 (S1&S1'&S1'')] [P2 O2 F2 A2 (S2&S2'&S2'')]. split; [| | |done|].
  - by rewrite P1, P2, (assoc_L (++)).
  - by etrans.
  - by rewrite F2, F1, fmap_app, (assoc_L (++)).
  - unfold same_setup. split_and!; congruence.
Qed.

Lemma poll_tasks_freed ids : ∀ t b c f p, freed (poll_tasks t b ids c f p).2 = freed t.
Proof.
  induction ids as [|i ids IH]; intros t b c f p; cbn [poll_tasks]; [done|].
  pose proof (freed_status t b i) as Hs. destruct (transfer_status t b i) as [[st|e] t']; cbn in Hs; [|done].
  destruct (KvTransferStatusCode.try_from (status_code st)) as [[]|e]; cbn; rewrite ?IH; done.
Qed.

Lemma poll_freed t batch : freed (poll_kv_submitted_batch t batch).2 = freed t.
Proof.
  unfold poll_kv_submitted_batch. pose proof (poll_tasks_freed (nrange 0 (sb_task_count batch)) t (sb_batch_id batch) 0 None false) as Hf.
  destruct (poll_tasks _ _ _ _ _ _) as [[[[c f] p]|e] t']; done.
Qed.

Lemma wait_freed polls : ∀ t batch res t', wait_settled polls t batch = Some (res, t') → freed t' = freed t.
Proof.
  induction polls as [|polls IH]; intros t batch res t'; cbn [wait_settled]; [done|].
  pose proof (poll_freed t batch) as Hf. destruct (poll_kv_submitted_batch t batch) as [[[| |]|e] t1]; cbn in Hf; intros Hw;
    try (injection Hw as <- <-; done). apply IH in Hw. congruence.
Qed.

(** Freeing the batch at [index] and dropping it from both lists. *)
Lemma drop_at ex index transfer t :
  aligned ex → submitted_transfers ex !! index = Some transfer →
  freed t = freed (submitter ex) ++ [sb_batch_id transfer] →
  ∃ ex', remove_tracked (set_submitter ex t) index = Some ex' ∧ dropped ex ex' [transfer] ∧
    completion_events ex' = completion_events ex ∧ length (submitted_transfers ex) = S (length (submitted_transfers ex')) ∧
    submitted_transfers ex' = delete index (submitted_transfers ex).
Proof.
  intros Ha Hi Hf. unfold remove_tracked. pose proof (lookup_lt_Some _ _ _ Hi) as Hlt.
  cbn [submitted_batches set_submitter]. rewrite option_guard_True by (rewrite Ha, length_fmap; done).
  cbn [mbind option_bind]. eexists. split; [done|]. cbn [completion_events set_tracked set_submitter submitted_transfers].
  split; [split|]; cbn.
  - by apply delete_Permutation.
  - apply sublist_delete.
  - done.
  - unfold aligned. cbn. by rewrite Ha, list_fmap_delete.
  - done.
  - split; [done|]. rewrite length_delete by by eexists. split; [lia|done].
Qed.

Definition event_of (p : KvSubmittedBatch * KvTransferEventStatus.KvTransferEventStatus) : KvTransferCompletionEvent :=
  mkCompletionEvent (sb_room p.1) (sb_checksum p.1) p.2.

Definition settles (st : KvTransferEventStatus.KvTransferEventStatus) : Prop := st ≠ KvTransferEventStatus.Canceled.

(** Polling to the end drops the settled transfers and reports each of them. *)
Definition polled ex ex' (done : list (KvSubmittedBatch * KvTransferEventStatus.KvTransferEventStatus)) : Prop :=
  dropped ex ex' done.*1 ∧ completion_events ex' = completion_events ex ++ (event_of <$> done) ∧
  Forall (λ p, settles p.2) done.

Lemma polled_trans ex1 ex2 ex3 d1 d2 : polled ex1 ex2 d1 → polled ex2 ex3 d2 → polled ex1 ex3 (d1 ++ d2).
Proof.
  intros (D1&E1&F1) (D2&E2&F2). split_and!.
  - rewrite fmap_app. by eapply dropped_trans.
  - by rewrite E2, E1, fmap_app, (assoc_L (++)).
  - by apply Forall_app.
Qed.

Lemma settle_transfer_spec ex index transfer st :
  aligned ex → submitted_transfers ex !! index = Some transfer → settles st →
  ∃ res ex', settle_transfer ex index transfer st = Some (res, ex') ∧
    match res with
    | Ok _ => polled ex ex' [(transfer, st)] ∧ length (submitted_transfers ex) = S (length (submitted_transfers ex'))
    | Err _ => polled ex ex' []
    end.
Proof.
  intros Ha Hi Hst. unfold settle_transfer. pose proof (freed_free (submitter ex) (sb_batch_id transfer)) as Hf.
  destruct (free_batch (submitter ex) (sb_batch_id transfer)) as [[[]|e] t]; cbn in Hf.
  - set (ex1 := set_events ex (completion_events ex ++ [mkCompletionEvent (sb_room transfer) (sb_checksum transfer) st])).
    destruct (drop_at ex1 index transfer t) as (ex'&Hr&Hd&He&Hlen&_); [done|done|done|].
    change (set_events (set_submitter ex t) _) with (set_submitter ex1 t). rewrite Hr. cbn [mbind option_bind].
    eexists _, ex'. split; [done|]. split; [|done]. split_and!; [|by rewrite He|by constructor].
    destruct Hd. split; done.
  - eexists _, _. split; [done|]. split_and!; [by apply dropped_none|by rewrite app_nil_r|done].
Qed.

Lemma poll_loop_spec fuel : ∀ ex index,
  aligned ex → (length (submitted_transfers ex) - index ≤ fuel)%nat →
  ∃ res ex' settled, poll_loop fuel ex index = Some (res, ex') ∧ polled ex ex' settled.
Proof.
  induction fuel as [|fuel IH]; intros ex index Ha Hfuel; cbn [poll_loop].
  all: destruct (submitted_transfers ex !! index) as [transfer|] eqn:Hi.
  1: apply lookup_lt_Some in Hi; lia.
  all: try (eexists _, ex, []; split; [done|]; split_and!; [by apply dropped_none|by rewrite app_nil_r|done]).
  apply lookup_lt_Some in Hi as Hlt. pose proof (poll_freed (submitter ex) transfer) as Hf.
  destruct (poll_kv_submitted_batch (submitter ex) transfer) as [res t]. cbn in Hf. set (ex1 := set_submitter ex t).
  assert (polled ex ex1 []) as Hp1.
  { split_and!; [by apply dropped_none|by rewrite app_nil_r|done]. }
  assert (∀ st, settles st → ∃ res ex' settled,
    (let* _u, ex := settle_transfer ex1 index transfer st in poll_loop fuel ex index) = Some (res, ex') ∧ polled ex ex' settled) as Hset.
  { intros st Hst. destruct (settle_transfer_spec ex1 index transfer st) as (res1&ex2&->&Hs); [done..|].
    destruct res1 as [u|e]; cbn [st_bind_opt].
    - destruct Hs as [Hs Hlen]. change (submitted_transfers ex1) with (submitted_transfers ex) in Hlen.
      destruct (IH ex2 index) as (res3&ex3&d&->&Hd); [apply Hs|lia|]. exists res3, ex3, ([(transfer, st)] ++ d). split; [done|].
      exact (polled_trans _ _ _ [] _ Hp1 (polled_trans _ _ _ _ _ Hs Hd)).
    - eexists _, _, []. split; [done|]. exact (polled_trans _ _ _ [] [] Hp1 Hs). }
  destruct res as [[| |message]|e].
  - by apply Hset.
  - destruct (IH ex1 (S index)) as (res&ex'&d&->&Hd); [done|cbn; lia|]. exists res, ex', d. split; [done|].
    exact (polled_trans _ _ _ [] _ Hp1 Hd).
  - by apply Hset.
  - by eexists _, _, [].
Qed.

Lemma filter_delete_other (room : N) (l : list KvSubmittedBatch) i x :
  l !! i = Some x → sb_room x = room → filter (λ b, sb_room b ≠ room) (delete i l) = filter (λ b, sb_room b ≠ room) l.
Proof.
  revert i. induction l as [|y l IH]; intros [|i] Hi Hx; [done|done| |]; change (delete (M:=list KvSubmittedBatch) 0%nat (y :: l)) with l || change (delete (M:=list KvSubmittedBatch) (S i) (y :: l)) with (y :: delete (M:=list KvSubmittedBatch) i l).
  - injection Hi as ->. by rewrite filter_cons_False by (by intros ?).
  - rewrite !filter_cons. by rewrite (IH i).
Qed.

(** Cancelling a room drops transfers of that room only, and all of them when it
    succeeds. *)
Lemma cancel_loop_spec fuel polls room : ∀ ex res ex',
  aligned ex → cancel_loop fuel polls ex room = Some (res, ex') →
  ∃ gone, dropped ex ex' gone ∧ Forall (λ b, sb_room b = room) gone ∧
    completion_events ex' = completion_events ex ∧
    filter (λ b, sb_room b ≠ room) (submitted_transfers ex') = filter (λ b, sb_room b ≠ room) (submitted_transfers ex) ∧
    (res = Ok () → Forall (λ b, sb_room b ≠ room) (submitted_transfers ex')).
Proof.
  induction fuel as [|fuel IH]; intros ex res ex' Ha; cbn [cancel_loop];
    destruct (list_find (λ b, sb_room b = room) (submitted_transfers ex)) as [[index transfer]|] eqn:Hfind; [done| | |].
  1,3: intros [= <- <-]; exists []; split_and!; [by apply dropped_none|constructor|done|done|]; intros _;
    by apply list_find_None in Hfind.
  apply list_find_Some in Hfind as (Hi&Hroom&_).
  destruct (wait_settled polls (submitter ex) transfer) as [[wres t]|] eqn:Hw; [|done]. cbn [mbind option_bind].
  apply wait_freed in Hw. set (ex1 := set_submitter ex t).
  assert (dropped ex ex1 []) as Hd1 by (by apply dropped_none).
  destruct wres as [u|e].
  2:{ intros [= <- <-]. exists []. split_and!; try done. }
  pose proof (freed_free (submitter ex1) (sb_batch_id transfer)) as Hf.
  destruct (free_batch (submitter ex1) (sb_batch_id transfer)) as [[[]|e] t2]; cbn in Hf.
  2:{ intros [= <- <-]. exists []. split_and!; try done. by apply dropped_none; cbn; rewrite ?Hf. }
  destruct (drop_at ex1 index transfer t2) as (ex2&Hr&Hd2&He2&_&Hdel); [done..|]. rewrite Hr. cbn [mbind option_bind].
  intros Hc. apply IH in Hc as (gone&Hd3&Hall&He3&Hfil&Hok); [|apply Hd2].
  exists ([transfer] ++ gone). split_and!.
  - exact (dropped_trans _ _ _ [] _ Hd1 (dropped_trans _ _ _ _ _ Hd2 Hd3)).
  - by constructor.
  - by rewrite He3, He2.
  - rewrite Hfil, Hdel. by apply (filter_delete_other room _ _ transfer).
  - done.
Qed.

Lemma filter_none_eq {A} (P : A → Prop) `{!∀ x, Decision (P x)} (l : list A) : Forall P l → filter P l = l.
Proof. induction 1 as [|x l Hx _ IH]; [done|]. by rewrite filter_cons_True, IH. Qed.

Lemma filter_empty_eq {A} (P : A → Prop) `{!∀ x, Decision (P x)} (l : list A) : Forall (λ x, ¬ P x) l → filter P l = [].
Proof. induction 1 as [|x l Hx _ IH]; [done|]. by rewrite filter_cons_False. Qed.

(** What [cancel_submitted_transfers_for_room] leaves. *)
Definition cancelled ex (room : N) (res : Result KvCacheTransferError unit) ex' : Prop :=
  match res with
  | Ok _ =>
      submitted_transfers ex' = filter (λ b, sb_room b ≠ room) (submitted_transfers ex) ∧
      completion_events ex' = filter (λ ev, event_room ev ≠ room) (completion_events ex) ∧
      remote_kv_layouts_by_room ex' = base.delete room (remote_kv_layouts_by_room ex) ∧
      ∃ gone, filter (λ b, sb_room b = room) (submitted_transfers ex) ≡ₚ gone ∧
        freed (submitter ex') = freed (submitter ex) ++ (sb_batch_id <$> gone)
  | Err _ =>
      completion_events ex' = completion_events ex ∧
      remote_kv_layouts_by_room ex' = remote_kv_layouts_by_room ex ∧
      ∃ gone, Forall (λ b, sb_room b = room) gone ∧ submitted_transfers ex ≡ₚ gone ++ submitted_transfers ex' ∧
        freed (submitter ex') = freed (submitter ex) ++ (sb_batch_id <$> gone)
  end.

Lemma cancel_spec polls ex room res ex' :
  aligned ex → cancel_submitted_transfers_for_room polls ex room = Some (res, ex') →
  aligned ex' ∧ cancelled ex room res ex' ∧ local_memory_registration ex' = local_memory_registration ex ∧
  layout ex' = layout ex.
Proof.
  intros Ha Hc. unfold cancel_submitted_transfers_for_room in Hc.
  apply st_bind_opt_inv in Hc as [([]&ex1&Hl&Hc)|(e&Hl&->)].
  - apply cancel_loop_spec in Hl as (gone&[Hperm Hsub Hfreed Hal Hset]&Hall&Hev&Hfil&Hok); [|done]. injection Hc as <- <-.
    specialize (Hok eq_refl). rewrite (filter_none_eq _ _ Hok) in Hfil. destruct Hset as (?&Hlay&?).
    split_and!; try done. cbn. split_and!; [done|by rewrite Hev|by rewrite Hlay|]. exists gone. split; [|done].
    rewrite Hperm, filter_app, (filter_none_eq _ gone Hall).
    assert (filter (λ b, sb_room b = room) (submitted_transfers ex1) = []) as ->; [|by rewrite app_nil_r].
    by apply filter_empty_eq.
  - apply cancel_loop_spec in Hl as (gone&[Hperm Hsub Hfreed Hal Hset]&Hall&Hev&Hfil&_); [|done].
    destruct Hset as (?&Hlay&?). split_and!; try done. split_and!; try done. by exists gone.
Qed.

(** Waiting ends when the transport's measure bounds how long it answers
    "pending". *)
Section Settles.
Context (measure : T → nat).
Hypothesis pending_decreases : ∀ t b t', poll_kv_submitted_batch t b = (Ok BatchPending, t') → (measure t' < measure t)%nat.
Hypothesis poll_measure : ∀ t b, (measure (poll_kv_submitted_batch t b).2 ≤ measure t)%nat.
Hypothesis free_measure : ∀ t b, (measure (free_batch t b).2 ≤ measure t)%nat.

Lemma wait_settled_terminates polls : ∀ t b,
  (measure t < polls)%nat → ∃ res t', wait_settled polls t b = Some (res, t') ∧ (measure t' ≤ measure t)%nat.
Proof.
  induction polls as [|polls IH]; intros t b Hm; [lia|]. cbn [wait_settled].
  pose proof (poll_measure t b) as Hp. destruct (poll_kv_submitted_batch t b) as [[[| |]|e] t'] eqn:Hb; cbn in Hp;
    try (by eexists _, _).
  apply pending_decreases in Hb. destruct (IH t' b) as (res&t2&->&?); [lia|]. eexists _, _. split; [done|lia].
Qed.

Lemma cancel_loop_terminates fuel polls room : ∀ ex,
  aligned ex → (length (submitted_transfers ex) ≤ fuel)%nat → (measure (submitter ex) < polls)%nat →
  ∃ res ex', cancel_loop fuel polls ex room = Some (res, ex').
Proof.
  induction fuel as [|fuel IH]; intros ex Ha Hfuel Hm; cbn [cancel_loop];
    destruct (list_find (λ b, sb_room b = room) (submitted_transfers ex)) as [[index transfer]|] eqn:Hfind;
    try (by eexists _, _); apply list_find_Some in Hfind as (Hi&Hroom&_); pose proof (lookup_lt_Some _ _ _ Hi).
  { lia. }
  destruct (wait_settled_terminates polls (submitter ex) transfer Hm) as (res&t&Hw&Hm1). rewrite Hw. cbn [mbind option_bind].
  apply wait_freed in Hw. destruct res as [u|e]; [|by eexists _, _]. set (ex1 := set_submitter ex t).
  pose proof (freed_free (submitter ex1) (sb_batch_id transfer)) as Hf.
  pose proof (free_measure (submitter ex1) (sb_batch_id transfer)) as Hm2.
  destruct (free_batch (submitter ex1) (sb_batch_id transfer)) as [[[]|e] t2]; cbn in Hf, Hm2; [|by eexists _, _].
  destruct (drop_at ex1 index transfer t2) as (ex2&Hr&Hd2&_&Hlen&Hdel); [done..|]. rewrite Hr. cbn [mbind option_bind].
  cbn in Hlen. apply IH; [apply Hd2|lia|].
  assert (submitter ex2 = t2) as ->; [|lia].
  unfold remove_tracked in Hr. case_guard; [|done]. by injection Hr as <-.
Qed.

End Settles.

Lemma cancel_rooms_spec polls rooms : ∀ ex ex',
  aligned ex → cancel_rooms polls ex rooms = Some (Ok (), ex') →
  aligned ex' ∧ local_memory_registration ex' = local_memory_registration ex ∧
  submitted_transfers ex' = filter (λ b, sb_room b ∉ rooms) (submitted_transfers ex) ∧
  completion_events ex' = filter (λ ev, event_room ev ∉ rooms) (completion_events ex) ∧
  ∃ gone, submitted_transfers ex ≡ₚ gone ++ submitted_transfers ex' ∧
    freed (submitter ex') = freed (submitter ex) ++ (sb_batch_id <$> gone).
Proof.
  induction rooms as [|room rooms IH]; intros ex ex' Ha; cbn [cancel_rooms].
  { intros [= <-]. split_and!; try done.
    - symmetry. apply filter_none_eq, Forall_true. intros b. by apply not_elem_of_nil.
    - symmetry. apply filter_none_eq, Forall_true. intros b. by apply not_elem_of_nil.
    - exists []. by rewrite app_nil_r. }
  intros Hc. apply st_bind_opt_inv in Hc as [([]&ex1&Hl&Hc)|(e&Hl&?)]; [|done].
  apply cancel_spec in Hl as (Ha1&(Ht&He&Hlay&gone&Hg&Hf)&Hreg&_); [|done].
  apply IH in Hc as (Ha2&Hreg2&Ht2&He2&gone2&Hp2&Hf2); [|done]. split_and!; [done|congruence| | |].
  - rewrite Ht2, Ht, list_filter_filter. apply list_filter_iff. intros b. rewrite not_elem_of_cons. tauto.
  - rewrite He2, He, list_filter_filter. apply list_filter_iff. intros b. rewrite not_elem_of_cons. tauto.
  - exists (gone ++ gone2). split.
    + rewrite <-(assoc_L (++)), <-Hp2, Ht, <-Hg. by rewrite filter_app_complement.
    + by rewrite Hf2, Hf, fmap_app, (assoc_L (++)).
Qed.

(** Submitting tracks one more transfer, or reports a span without writes. *)
Lemma ex_submit_spec sha256 ex sp res ex' :
  ex_submit sha256 ex sp = Some (res, ex') →
  same_setup ex ex' ∧ freed (submitter ex') = freed (submitter ex) ∧
  match res with
  | Ok _ =>
      (submitted_transfers ex' = submitted_transfers ex ∧ submitted_batches ex' = submitted_batches ex ∧
       completion_events ex' = completion_events ex ++
         [mkCompletionEvent (span_room sp) (default ""%string (descriptor_checksum sha256 sp)) KvTransferEventStatus.Completed]) ∨
      (∃ batch_id n, 0 < n ∧ completion_events ex' = completion_events ex ∧
         submitted_batches ex' = submitted_batches ex ++ [batch_id] ∧
         submitted_transfers ex' = submitted_transfers ex ++
           [mkSubmittedBatch (span_room sp) batch_id n (default ""%string (descriptor_checksum sha256 sp))])
  | Err _ => submitted_transfers ex' = submitted_transfers ex ∧ submitted_batches ex' = submitted_batches ex ∧
             completion_events ex' = completion_events ex
  end.
Proof.
  unfold ex_submit. destruct (local_memory_registration ex) as [l|]; [|by intros [= <- <-]].
  assert (∀ r ex1, span_requests ex sp = Some (r, ex1) → ∃ rs, ex1 = set_resolver ex rs) as Hreq.
  { intros r ex1. unfold span_requests. destruct (remote_kv_layouts_by_room ex !! span_room sp).
    - destruct (session_requests _ _ _ _ _) as [[? ?]|]; [|done]. intros [= <- <-]. by eexists.
    - destruct (resolve_target _ _) as [[target|e] rs]; [|intros [= <- <-]; by eexists].
      destruct (build_kv_transfer_requests _ _ _); [|done]. intros [= <- <-]. by eexists. }
  intros Hs. apply st_bind_opt_inv in Hs as [(qs&ex1&Hq&Hs)|(e&Hq&->)]; destruct (Hreq _ _ Hq) as [rs ->]; [|done].
  destruct qs as [|q qs]; [injection Hs as <- <-; split_and!; try done; by left|].
  pose proof (freed_submit (submitter ex) (q :: qs)) as Hf. cbn [submitter set_resolver] in Hs.
  destruct (submit_transfer (submitter ex) (q :: qs)) as [[batch_id|e] t]; cbn in Hf; injection Hs as <- <-.
  - split_and!; try done. right. exists batch_id, (len (q :: qs)). by split_and!.
  - by split_and!.
Qed.

Lemma ex_submit_aligned sha256 ex sp res ex' : aligned ex → ex_submit sha256 ex sp = Some (res, ex') → aligned ex'.
Proof.
  intros Ha Hs. unfold aligned in *. apply ex_submit_spec in Hs as (_&_&Hs). destruct res as [u|e].
  - destruct Hs as [(->&->&_)|(b&n&_&_&->&->)]; [done|]. by rewrite fmap_app, Ha.
  - by destruct Hs as (->&->&_).
Qed.

(** Rooms that may still be reported: of transfers and of undelivered events. *)
Definition tracked_rooms ex : list N := (sb_room <$> submitted_transfers ex) ++ (event_room <$> completion_events ex).

Lemma poll_submitted_spec ex :
  aligned ex → ∃ res ex' settled, poll_submitted_transfers ex = Some (res, ex') ∧ dropped ex ex' settled.*1 ∧
    Forall (λ p, settles p.2) settled ∧
    match res with
    | Ok poll => events poll = completion_events ex ++ (event_of <$> settled) ∧ completion_events ex' = [] ∧
                 pending_transfers poll = len (submitted_transfers ex')
    | Err _ => completion_events ex' = completion_events ex ++ (event_of <$> settled)
    end.
Proof.
  intros Ha. unfold poll_submitted_transfers.
  destruct (poll_loop_spec (length (submitted_transfers ex)) ex 0) as (res&ex1&settled&->&Hd&He&Hs); [done|lia|].
  destruct res as [u|e]; cbn [st_bind_opt]; eexists _, _, settled; (split; [done|]).
  - split_and!; try done. destruct Hd. by split.
  - done.
Qed.

End Facts.

(** ** The executor as a backend *)

Section Backend.
Context {T R G L M : Type} `{!KvTransport T} `{!TransportLog T} `{!KvTransferTargetResolver R} `{!KvMemoryRegistrar G}
  `{!TransferableMemory M} `{!KvMemoryRegistrationLease L G M}.
Context (sha256 : list N → list N) (polls : nat).

(** Cancelling and shutting down give up after [polls] polls of one transfer. *)
(** [transfer/mod.rs:2882-2888] KvCacheTransferExecutor (KvTransferBackend) *)
#[export] Instance KvCacheTransferExecutor_backend : KvTransferBackend (KvCacheTransferExecutor T R G L) := {
  backend_submit := ex_submit sha256;
  backend_poll := poll_submitted_transfers;
  backend_cancel := cancel_submitted_transfers_for_room polls;
  backend_shutdown := ex_shutdown polls;
}.

#[export, refine] Instance KvCacheTransferExecutor_tracked : TrackedBackend (KvCacheTransferExecutor T R G L) :=
  {| backend_ok := aligned; tracked := tracked_rooms |}.
Proof.
  - intros ex sp res ex' Ha Hs. cbn [backend_submit KvCacheTransferExecutor_backend] in Hs.
    split; [exact (ex_submit_aligned sha256 ex sp res ex' Ha Hs)|]. intros room.
    apply ex_submit_spec in Hs as (_&_&Hs). unfold tracked_rooms. destruct res as [u|e].
    + destruct Hs as [(->&_&->)|(b&n&_&->&_&->)]; rewrite fmap_app, !elem_of_app; cbn; set_solver.
    + destruct Hs as (->&_&->). set_solver.
  - intros ex res ex' Ha Hp. destruct (poll_submitted_spec ex Ha) as (res1&ex1&settled&Heq&[Hperm _ _ Hal _]&Hset&Hev).
    cbn [backend_poll KvCacheTransferExecutor_backend] in Hp. rewrite Heq in Hp. injection Hp as -> ->. unfold tracked_rooms.
    assert (∀ room, room ∈ sb_room <$> submitted_transfers ex ↔
      room ∈ sb_room <$> settled.*1 ∨ room ∈ sb_room <$> submitted_transfers ex') as Hr.
    { intros room. by rewrite Hperm, fmap_app, elem_of_app. }
    assert (event_room <$> (event_of <$> settled) = sb_room <$> settled.*1) as Hroom by (rewrite <-!list_fmap_compose; done).
    split; [done|]. destruct res as [poll|e].
    + destruct Hev as (Hev&->&_). split.
      * intros room. rewrite !elem_of_app, Hr. cbn. set_solver.
      * intros poll' [= <-]. rewrite Hev. apply Forall_forall. intros ev Hin. rewrite elem_of_app, Hr.
        apply elem_of_app in Hin as [Hin|Hin]; [right; by apply list_elem_of_fmap_2|left; left].
        rewrite <-Hroom. by apply list_elem_of_fmap_2.
    + split; [|done]. intros room. rewrite Hev, fmap_app, Hroom, !elem_of_app, Hr. tauto.
  - intros ex room res ex' Ha Hc. cbn in Hc. apply cancel_spec in Hc as (Hal&Hc&_); [|done]. split; [done|].
    unfold tracked_rooms, cancelled in *. destruct res as [u|e].
    + destruct Hc as (->&->&_). split.
      * intros room'. rewrite !elem_of_app, !list_elem_of_fmap. setoid_rewrite list_elem_of_filter. set_solver.
      * intros _. rewrite elem_of_app, !list_elem_of_fmap. setoid_rewrite list_elem_of_filter. set_solver.
    + destruct Hc as (->&_&gone&_&Hperm&_). split; [|done]. intros room'. rewrite Hperm, fmap_app, !elem_of_app. tauto.
Defined.

End Backend.

(** ** Properties *)

Section Properties.
Context {T R G L M : Type} `{!KvTransport T} `{!TransportLog T} `{!KvTransferTargetResolver R} `{!KvMemoryRegistrar G}
  `{!TransferableMemory M} `{!KvMemoryRegistrationLease L G M}.

Implicit Types ex : KvCacheTransferExecutor T R G L.

(** C13. Polling never panics, and accounts for every submitted transfer: it is
    still tracked, or its batch was freed, once, and one event for it is
    reported, or kept for the next poll when this one fails. *)
Theorem poll_reports_each_transfer_once ex :
  aligned ex →
  ∃ res ex' settled, poll_submitted_transfers ex = Some (res, ex') ∧
    submitted_transfers ex ≡ₚ settled.*1 ++ submitted_transfers ex' ∧
    submitted_transfers ex' `sublist_of` submitted_transfers ex ∧ aligned ex' ∧
    freed (submitter ex') = freed (submitter ex) ++ (sb_batch_id <$> settled.*1) ∧
    match res with
    | Ok poll => events poll = completion_events ex ++ (event_of <$> settled) ∧ completion_events ex' = [] ∧
                 pending_transfers poll = len (submitted_transfers ex')
    | Err _ => completion_events ex' = completion_events ex ++ (event_of <$> settled)
    end.
Proof.
  intros Ha. destruct (poll_submitted_spec ex Ha) as (res&ex'&settled&Hp&[]&_&Hev). exists res, ex', settled. by split_and!.
Qed.

(** Cancelling a room frees exactly its transfers and forgets its events and
    layouts, leaving the other rooms alone; when a poll or a release fails, the
    transfers not yet freed stay tracked and nothing else changes. *)
Theorem cancel_room_correct polls ex room res ex' :
  aligned ex → cancel_submitted_transfers_for_room polls ex room = Some (res, ex') →
  aligned ex' ∧ cancelled ex room res ex'.
Proof. intros Ha Hc. apply cancel_spec in Hc as (?&?&_); done. Qed.

(** Cancelling ends, without a panic, for a transport that answers "pending"
    only a bounded number of times: a measure of its state bounds the polls. *)
Theorem cancel_terminates (measure : T → nat) polls ex room :
  (∀ t b t', poll_kv_submitted_batch t b = (Ok BatchPending, t') → (measure t' < measure t)%nat) →
  (∀ t b, (measure (poll_kv_submitted_batch t b).2 ≤ measure t)%nat) →
  (∀ t b, (measure (free_batch t b).2 ≤ measure t)%nat) →
  aligned ex → (measure (submitter ex) < polls)%nat →
  ∃ res ex', cancel_submitted_transfers_for_room polls ex room = Some (res, ex').
Proof.
  intros H1 H2 H3 Ha Hm. unfold cancel_submitted_transfers_for_room.
  destruct (cancel_loop_terminates measure H1 H2 H3 (length (submitted_transfers ex)) polls room ex) as (res&ex'&->); [done|lia|done|].
  destruct res; cbn [st_bind_opt]; by eexists _, _.
Qed.

(** A shutdown that succeeds has freed the batch of every transfer before it
    gave up the registration of the memory, and tracks nothing any more. *)
Theorem shutdown_drains_transfers polls ex ex' :
  aligned ex → ex_shutdown polls ex = Some (Ok (), ex') →
  submitted_transfers ex' = [] ∧ submitted_batches ex' = [] ∧ local_memory_registration ex' = None ∧
  freed (submitter ex') ≡ₚ freed (submitter ex) ++ submitted_batches ex ∧
  ∀ lease, local_memory_registration ex = Some lease → ∃ lease', lease_unregister lease = (Ok (), lease').
Proof.
  intros Ha Hs. unfold ex_shutdown in Hs.
  apply st_bind_opt_inv in Hs as [([]&ex1&Hc&Hs)|(e&_&?)]; [|done].
  apply cancel_rooms_spec in Hc as (Ha1&Hreg&Ht&_&gone&Hperm&Hf); [|done].
  assert (submitted_transfers ex1 = []) as Hnil.
  { rewrite Ht. apply filter_empty_eq, Forall_forall. intros b Hb Hnot. apply Hnot. by apply list_elem_of_fmap_2. }
  rewrite Hnil, app_nil_r in Hperm. unfold aligned in Ha, Ha1. rewrite Hnil in Ha1. cbn in Ha1.
  assert (freed (submitter ex1) ≡ₚ freed (submitter ex) ++ submitted_batches ex) as Hfr by (by rewrite Hf, Ha, <-Hperm).
  rewrite Hreg in Hs. destruct (local_memory_registration ex) as [lease|].
  - destruct (lease_unregister lease) as [[[]|e] lease'] eqn:Hu; [|done]. injection Hs as <-. cbn.
    split_and!; try done. intros l [= <-]. by exists lease'.
  - injection Hs as <-. split_and!; try done.
Qed.

(** What the tasks of a batch answer, one after the other. *)
Inductive reads (batch_id : N) : T → list N → list KvTransferStatusCode.KvTransferStatusCode → T → Prop :=
  | reads_nil t : reads batch_id t [] [] t
  | reads_cons t i st t1 code ids codes t2 :
      transfer_status t batch_id i = (Ok st, t1) → KvTransferStatusCode.try_from (status_code st) = Ok code →
      reads batch_id t1 ids codes t2 → reads batch_id t (i :: ids) (code :: codes) t2.

Definition is_running (c : KvTransferStatusCode.KvTransferStatusCode) : Prop :=
  c = KvTransferStatusCode.Waiting ∨ c = KvTransferStatusCode.Pending.

Lemma poll_tasks_Ok batch_id ids : ∀ t c f p c' f' p' t',
  poll_tasks t batch_id ids c f p = (Ok (c', f', p'), t') →
  ∃ codes, reads batch_id t ids codes t' ∧
    (p' = true ↔ p = true ∨ Exists is_running codes) ∧
    (f' = None ↔ f = None ∧ Forall (λ x, is_running x ∨ x = KvTransferStatusCode.Completed) codes) ∧
    (Forall (λ x, x = KvTransferStatusCode.Completed) codes → c' = c + len ids).
Proof.
  induction ids as [|i ids IH]; intros t c f p c' f' p' t'; cbn [poll_tasks].
  { intros [= <- <- <- <-]. exists []. split_and!; [constructor|rewrite Exists_nil; tauto|split; [by split|by intros [? _]]|].
    intros _. change (len []) with 0. lia. }
  destruct (transfer_status t batch_id i) as [[st|e] t1] eqn:Hst; [|done].
  destruct (KvTransferStatusCode.try_from (status_code st)) as [code|e] eqn:Hcode; [|done]. intros Hp.
  assert (∃ c1 f1 p1, poll_tasks t1 batch_id ids c1 f1 p1 = (Ok (c', f', p'), t') ∧
    (p1 = true ↔ p = true ∨ is_running code) ∧
    (f1 = None ↔ f = None ∧ (is_running code ∨ code = KvTransferStatusCode.Completed)) ∧
    (code = KvTransferStatusCode.Completed → c1 = c + 1)) as (c1&f1&p1&Hp1&Hpp&Hff&Hcc).
  { unfold is_running. destruct code; eexists _, _, _; (split; [exact Hp|]); split_and!; try done; try tauto;
      try (intuition congruence). }
  destruct (IH _ _ _ _ _ _ _ _ Hp1) as (codes&Hr&Hpr&Hfr&Hcr). exists (code :: codes). split_and!.
  - by econstructor.
  - rewrite Hpr, Hpp, Exists_cons. tauto.
  - rewrite Hfr, Hff, Forall_cons. tauto.
  - intros Hall. apply Forall_cons in Hall as [-> Hall]. rewrite (Hcr Hall), Hcc, len_cons by done. lia.
Qed.

(** A batch counts as pending while one of its tasks is waiting or running,
    as failed when none is and one did not complete, and as completed exactly
    when all tasks have completed; a batch without tasks is completed. *)
Theorem batch_state_classified t batch st t' :
  poll_kv_submitted_batch t batch = (Ok st, t') →
  ∃ codes, reads (sb_batch_id batch) t (nrange 0 (sb_task_count batch)) codes t' ∧
    match st with
    | BatchPending => Exists is_running codes
    | BatchCompleted => Forall (λ x, x = KvTransferStatusCode.Completed) codes
    | BatchFailed _ => Forall (λ x, ¬ is_running x) codes ∧ Exists (λ x, x ≠ KvTransferStatusCode.Completed) codes
    end.
Proof.
  unfold poll_kv_submitted_batch. destruct (poll_tasks _ _ _ _ _ _) as [[[[c f] p]|e] t1] eqn:Hp; [|done].
  intros [= <- <-]. apply poll_tasks_Ok in Hp as (codes&Hr&Hpp&Hff&Hcc). exists codes. split; [done|].
  destruct p.
  - destruct (proj1 Hpp eq_refl) as [|]; done.
  - assert (¬ Exists is_running codes) as Hnr by (intros Hx; destruct Hpp as [_ Hpp]; specialize (Hpp (or_intror Hx)); done).
    assert (Forall (λ x, ¬ is_running x) codes) as Hnr'.
    { apply Forall_forall. intros x Hx Hrun. apply Hnr, Exists_exists. by exists x. }
    destruct f as [message|].
    + split; [done|]. destruct (decide (Exists (λ x, x ≠ KvTransferStatusCode.Completed) codes)) as [|Hall]; [done|exfalso].
      assert (Some message = None); [|done]. apply Hff. split; [done|]. apply Forall_forall. intros x Hx. right.
      destruct x; try done; exfalso; apply Hall, Exists_exists; eexists; split; try done.
    + assert (Forall (λ x, x = KvTransferStatusCode.Completed) codes) as Hall.
      { destruct (proj1 Hff eq_refl) as [_ Hx]. apply Forall_forall. intros x Hin. rewrite Forall_forall in Hx, Hnr'.
        destruct (Hx x Hin) as [Hrun|]; [|done]. by destruct (Hnr' x Hin). }
      specialize (Hcc Hall). rewrite len_nrange in Hcc. replace (c =? sb_task_count batch) with true; [done|].
      symmetry. apply N.eqb_eq. lia.
Qed.

End Properties.

(** ** A concrete transport *)

(** A transport that answers "waiting" a number of times, counted down over all
    tasks, and then "completed". *)
Record ToyTransport : Type := mkToyTransport {
  toy_next_batch : N;
  toy_countdown : nat;
}.

#[export] Instance ToyTransport_transport : KvTransport ToyTransport := {
  submit_transfer t _ := (Ok (toy_next_batch t), mkToyTransport (toy_next_batch t + 1) (toy_countdown t));
  transfer_status t _ _ :=
    match toy_countdown t with
    | O => (Ok (mkTransferStatus 4 64), t)
    | S n => (Ok (mkTransferStatus 0 0), mkToyTransport (toy_next_batch t) n)
    end;
  free_batch t _ := (Ok (), t);
}.

Inductive ToyMemory : Type := toy_memory.
Inductive ToyRegistrar : Type := toy_registrar.

#[export] Instance ToyMemory_memory : TransferableMemory ToyMemory := {
  regions _ := [(4096, 1024)];
  memory_page_size_bytes _ := 64;
  memory_location_label _ := Ok "cpu:0"%string;
}.

#[export] Instance ToyRegistrar_registrar : KvMemoryRegistrar ToyRegistrar := {
  register_memory_batch g _ _ := (Ok (), g);
  unregister_memory_batch g _ := (Ok (), g);
}.

#[export] Instance registered_lease : KvMemoryRegistrationLease (RegisteredKvCacheMemory ToyRegistrar ToyMemory) ToyRegistrar ToyMemory := {
  lease_memory := registered_memory;
  lease_unregister := unregister_memory;
  box_registered m := m;
}.

Notation ToyExecutor := (KvCacheTransferExecutor (ToyTransport * list N) Z ToyRegistrar (RegisteredKvCacheMemory ToyRegistrar ToyMemory)).

(** Registered memory, two transfers of room 7 and one of room 8, and an event of
    room 7 not yet polled. *)
Definition toy_executor : ToyExecutor :=
  mkExecutor (Some (mkRegistered toy_registrar toy_memory [4096] true)) None (mkToyTransport 3 2, []) example_layout 0%Z ∅
    [0; 1; 2] [mkSubmittedBatch 7 0 2 "a"; mkSubmittedBatch 8 1 1 "b"; mkSubmittedBatch 7 2 1 "c"]
    [mkCompletionEvent 7 "d" KvTransferEventStatus.Completed].

Lemma poll_reports_each_transfer_once_witness :
  ∃ res ex' (settled : list (KvSubmittedBatch * KvTransferEventStatus.KvTransferEventStatus)),
    poll_submitted_transfers toy_executor = Some (res, ex') ∧
    submitted_transfers toy_executor ≡ₚ settled.*1 ++ submitted_transfers ex' ∧
    freed (submitter ex') = freed (submitter toy_executor) ++ (sb_batch_id <$> settled.*1).
Proof.
  destruct (poll_reports_each_transfer_once toy_executor eq_refl) as (res&ex'&settled&?&?&_&_&?&_). by exists res, ex', settled.
Defined.

Lemma cancel_room_correct_witness :
  ∃ res ex', cancel_submitted_transfers_for_room 5 toy_executor 7 = Some (res, ex') ∧ cancelled toy_executor 7 res ex'.
Proof.
  destruct (cancel_submitted_transfers_for_room 5 toy_executor 7) as [[res ex']|] eqn:Hc; [|by vm_compute in Hc].
  exists res, ex'. split; [done|]. exact (proj2 (cancel_room_correct 5 toy_executor 7 res ex' eq_refl Hc)).
Defined.

Lemma toy_poll_tasks_measure ids : ∀ (t : ToyTransport * list N) b c f p,
  match poll_tasks t b ids c f p with
  | (Ok (_, _, p'), t') => (toy_countdown t'.1 ≤ toy_countdown t.1)%nat ∧ (p' = true → p = true ∨ (toy_countdown t'.1 < toy_countdown t.1)%nat)
  | (Err _, t') => (toy_countdown t'.1 ≤ toy_countdown t.1)%nat
  end.
Proof.
  induction ids as [|i ids IH]; intros [t l] b c f p; cbn [poll_tasks]; [split; [lia|by left]|].
  destruct t as [nb [|n]]; cbn.
  - apply (IH (mkToyTransport nb 0, l)).
  - specialize (IH (mkToyTransport nb n, l) b c f true). destruct (poll_tasks _ _ _ _ _ _) as [[[[? ?] ?]|?] t']; cbn in *; [|lia].
    split; [lia|]. intros ->. right. lia.
Qed.

Lemma cancel_terminates_witness :
  ∃ res ex', cancel_submitted_transfers_for_room 3 toy_executor 7 = Some (res, ex').
Proof.
  apply (cancel_terminates (λ t : ToyTransport * list N, toy_countdown t.1)).
  - intros t b t' Hp. unfold poll_kv_submitted_batch in Hp.
    pose proof (toy_poll_tasks_measure (nrange 0 (sb_task_count b)) t (sb_batch_id b) 0 None false) as Hm.
    destruct (poll_tasks _ _ _ _ _ _) as [[[[c f] []]|e] t1] eqn:Hpt; [| |done].
    + injection Hp as <-. destruct Hm as [_ Hm]. by destruct (Hm eq_refl).
    + destruct f; [done|]. destruct (N.eqb_spec c (sb_task_count b)) as [|Hne]; [done|]. exfalso.
      apply poll_tasks_Ok in Hpt as (codes&_&Hpp&Hff&Hcc). apply Hne. rewrite len_nrange in Hcc.
      assert (c = 0 + (sb_task_count b - 0)); [|lia]. apply Hcc, Forall_forall. intros x Hx.
      destruct (proj1 Hff eq_refl) as [_ Hall]. rewrite Forall_forall in Hall. destruct (Hall x Hx) as [Hr|]; [|done].
      assert (false = true); [|done]. apply Hpp. right. apply Exists_exists. by exists x.
  - intros t b. unfold poll_kv_submitted_batch.
    pose proof (toy_poll_tasks_measure (nrange 0 (sb_task_count b)) t (sb_batch_id b) 0 None false) as Hm.
    destruct (poll_tasks _ _ _ _ _ _) as [[[[c f] p]|e] t1]; [apply Hm|exact Hm].
  - intros [t l] b. cbn. lia.
  - reflexivity.
  - cbn. lia.
Defined.

Lemma shutdown_drains_transfers_witness :
  ∃ ex', ex_shutdown 5 toy_executor = Some (Ok (), ex') ∧ submitted_transfers ex' = [] ∧
    freed (submitter ex') ≡ₚ freed (submitter toy_executor) ++ submitted_batches toy_executor.
Proof.
  destruct (ex_shutdown 5 toy_executor) as [[[[]|] ex']|] eqn:Hs; [|by vm_compute in Hs|by vm_compute in Hs].
  exists ex'. destruct (shutdown_drains_transfers 5 toy_executor ex' eq_refl Hs) as (Ht&_&_&Hf&_).
  split; [reflexivity|]. split; [exact Ht|exact Hf].
Defined.

Lemma batch_state_classified_witness :
  ∃ t' codes, poll_kv_submitted_batch (mkToyTransport 0 0) (mkSubmittedBatch 7 0 2 "a") = (Ok BatchCompleted, t') ∧
    reads 0 (mkToyTransport 0 0) (nrange 0 2) codes t' ∧ Forall (λ x, x = KvTransferStatusCode.Completed) codes.
Proof.
  assert (poll_kv_submitted_batch (mkToyTransport 0 0) (mkSubmittedBatch 7 0 2 "a") = (Ok BatchCompleted, mkToyTransport 0 0)) as Hp
    by (vm_compute; reflexivity).
  exists (mkToyTransport 0 0). destruct (batch_state_classified _ _ _ _ Hp) as (codes&Hr&Hc). by exists codes.
Defined.
