(* ===== verification/CircuitBreaker.v ===== *)
(** * Circuit breaker ([crates/sglang-router/src/health/circuit_breaker.rs])

    The per-worker breaker of the router.  Every method locks the state, so an
    execution is a sequence of calls; a call takes the current time, in the
    unit of the clock, as an argument.  The failure counter is a [u32]. *)

From S2P Require Import Prelude.

(** [health/circuit_breaker.rs:16-20] CircuitBreakerConfig *)
Record CircuitBreakerConfig : Type := mkBreakerConfig { threshold : N; cool_down : N }.

(** [health/circuit_breaker.rs:22-29] CircuitBreakerConfig::default *)
Definition CircuitBreakerConfig_default : CircuitBreakerConfig := mkBreakerConfig 3 (30 * 10 ^ 9).

(** [health/circuit_breaker.rs:31-36] State *)
Inductive State : Type :=
  | Closed
  | Open (opened_at : N)
  | HalfOpen (probe_in_flight : bool).

(** [health/circuit_breaker.rs:38-48] Inner, CircuitBreaker *)
Record CircuitBreaker : Type := mkBreaker {
  state : State;
  consecutive_failures : N;
  config : CircuitBreakerConfig;
}.

(** [health/circuit_breaker.rs:55-63] CircuitBreaker::with_config *)
Definition with_config (c : CircuitBreakerConfig) : CircuitBreaker := mkBreaker Closed 0 c.

(** [Instant::elapsed] saturates at zero. *)
Definition elapsed (now opened_at : N) : N := saturating_sub now opened_at.

(** [health/circuit_breaker.rs:82-89] CircuitBreaker::would_allow *)
Definition would_allow (b : CircuitBreaker) (now : N) : bool :=
  match state b with
  | Closed => true
  | Open opened_at => cool_down (config b) <=? elapsed now opened_at
  | HalfOpen probe_in_flight => negb probe_in_flight
  end.

(** [health/circuit_breaker.rs:93-118] CircuitBreaker::allow *)
Definition allow (b : CircuitBreaker) (now : N) : bool * CircuitBreaker :=
  let half_open := mkBreaker (HalfOpen true) (consecutive_failures b) (config b) in
  match state b with
  | Closed => (true, b)
  | Open opened_at => if cool_down (config b) <=? elapsed now opened_at then (true, half_open) else (false, b)
  | HalfOpen probe_in_flight => if probe_in_flight then (false, b) else (true, half_open)
  end.

(** [health/circuit_breaker.rs:120-124] CircuitBreaker::record_success *)
Definition record_success (b : CircuitBreaker) : CircuitBreaker := mkBreaker Closed 0 (config b).

Definition u32_MAX : N := 2 ^ 32 - 1.

(** [None] is the overflow of the [u32] counter. *)
(** [health/circuit_breaker.rs:126-143] CircuitBreaker::record_failure *)
Definition record_failure (b : CircuitBreaker) (now : N) : option CircuitBreaker :=
  match state b with
  | Open _ => Some b
  | Closed | HalfOpen _ =>
      guard (consecutive_failures b + 1 ≤ u32_MAX);;
      let failures := consecutive_failures b + 1 in
      Some (mkBreaker (if threshold (config b) <=? failures then Open now else state b) failures (config b))
  end.

(** ** Executions *)

Inductive call : Type := CallAllow (now : N) | CallSuccess | CallFailure (now : N).

Definition run_call (b : CircuitBreaker) (c : call) : option CircuitBreaker :=
  match c with
  | CallAllow now => Some (allow b now).2
  | CallSuccess => Some (record_success b)
  | CallFailure now => record_failure b now
  end.

Fixpoint run (b : CircuitBreaker) (calls : list call) : option CircuitBreaker :=
  match calls with
  | [] => Some b
  | c :: rest => b' ← run_call b c; run b' rest
  end.

(** The abstract view: the failures since the last success.  A failure while
    the breaker is open does not count. *)
Record breaker_wf (b : CircuitBreaker) : Prop := {
  bw_threshold : 0 < threshold (config b);
  bw_state : match state b with
             | Closed => consecutive_failures b < threshold (config b)
             | Open _ | HalfOpen _ => threshold (config b) ≤ consecutive_failures b
             end;
  bw_probe : state b ≠ HalfOpen false;
}.

Lemma run_call_wf b c b' : breaker_wf b → run_call b c = Some b' → breaker_wf b' ∧ config b' = config b.
Proof.
  intros [Ht Hs Hp] Hrun. destruct c as [now| |now]; cbn in Hrun.
  - unfold allow in Hrun. destruct b as [[|t|[]] n c]; cbn in *; try (injection Hrun as <-; done).
    destruct (cool_down c <=? elapsed now t); injection Hrun as <-; done.
  - injection Hrun as <-. done.
  - unfold record_failure in Hrun. destruct b as [[|t|p] n c]; cbn [state consecutive_failures config] in *;
      [|by injection Hrun as <-|]; case_guard; simplify_eq/=.
    + split; [|done]. destruct (N.leb_spec (threshold c) (n + 1)); split; cbn; (done || lia).
    + split; [|done]. rewrite (proj2 (N.leb_le _ _)) by lia. split; cbn; (done || lia).
Qed.

Lemma run_wf b calls b' : breaker_wf b → run b calls = Some b' → breaker_wf b' ∧ config b' = config b.
Proof.
  revert b. induction calls as [|c calls IH]; intros b W Hrun; cbn in Hrun; [by injection Hrun as <-|].
  destruct (run_call b c) as [b1|] eqn:H1; [|done]. cbn in Hrun. apply run_call_wf in H1 as [W1 H1]; [|done].
  destruct (IH b1 W1 Hrun) as [? ?]. split; [done|congruence].
Qed.

(** ** Properties *)

(** In every reachable state the breaker is closed exactly while fewer than
    [threshold] failures have been counted since the last success; a half-open
    breaker always has its probe in flight; and the counter overflows only
    after [u32::MAX] failures. *)
Theorem breaker_state_matches_count c calls b :
  0 < threshold c → run (with_config c) calls = Some b →
  config b = c ∧
  (state b = Closed ↔ consecutive_failures b < threshold c) ∧
  state b ≠ HalfOpen false ∧
  (∀ now, record_failure b now = None → u32_MAX ≤ consecutive_failures b).
Proof.
  intros Ht Hrun. apply run_wf in Hrun as [[_ Hs Hp] Hc]; [|by split]. cbn in Hc. rewrite Hc in Hs.
  split; [done|]. split; [|split; [done|]].
  - destruct (state b); split; intros; (done || lia).
  - intros now. unfold record_failure. destruct (state b); [|done|]; case_guard; (done || intros _; lia).
Qed.

Lemma breaker_state_matches_count_witness :
  config (mkBreaker (HalfOpen true) 3 CircuitBreakerConfig_default) = CircuitBreakerConfig_default ∧
  (HalfOpen true = Closed ↔ 3 < 3) ∧ HalfOpen true ≠ HalfOpen false ∧
  (∀ now, record_failure (mkBreaker (HalfOpen true) 3 CircuitBreakerConfig_default) now = None →
     u32_MAX ≤ 3).
Proof.
  apply (breaker_state_matches_count CircuitBreakerConfig_default
    [CallFailure 1; CallFailure 2; CallFailure 3; CallAllow 5; CallAllow (31 * 10 ^ 9)]
    (mkBreaker (HalfOpen true) 3 CircuitBreakerConfig_default)); [done|by vm_compute].
Defined.

(** The results of consecutive [allow] calls. *)
Fixpoint allows (b : CircuitBreaker) (times : list N) : list bool :=
  match times with
  | [] => []
  | now :: rest => let '(r, b') := allow b now in r :: allows b' rest
  end.

Lemma allows_probing b n c times : b = mkBreaker (HalfOpen true) n c → allows b times = (λ _, false) <$> times.
Proof. intros ->. by induction times as [|now times IH]; cbn; [|rewrite IH]. Qed.

(** An open breaker admits exactly one request until an outcome is
    recorded: of any calls of [allow], the first after the cool-down succeeds
    and no other, and [would_allow] predicts each result without taking the
    probe slot. *)
Theorem open_breaker_admits_one_probe b opened_at times :
  state b = Open opened_at →
  allows b times =
    match list_find (λ now, cool_down (config b) ≤ now - opened_at) times with
    | None => (λ _, false) <$> times
    | Some (i, _) => <[i := true]> ((λ _, false) <$> times)
    end ∧
  ∀ b' now, (allow b' now).1 = would_allow b' now.
Proof.
  intros Hs. split.
  - destruct b as [st n c]. cbn in Hs. subst st. cbn [config].
    induction times as [|now times IH]; [done|]. cbn [allows list_find]. unfold allow at 1, elapsed, saturating_sub.
    cbn [state config consecutive_failures]. destruct (decide (cool_down c ≤ now - opened_at)) as [Hle|Hgt].
    + rewrite (proj2 (N.leb_le _ _) Hle). cbn. f_equal. by eapply allows_probing.
    + rewrite (proj2 (N.leb_gt _ _)) by lia. rewrite IH.
      by destruct (list_find _ times) as [[i x]|].
  - intros [[|t|[]] n c] now; unfold allow, would_allow; cbn; [done| |done|done]. by destruct (_ <=? _).
Qed.

Lemma open_breaker_admits_one_probe_witness :
  allows (mkBreaker (Open 10) 3 (mkBreakerConfig 3 30)) [12; 40; 41; 99] = [false; true; false; false] ∧
  ∀ b' now, (allow b' now).1 = would_allow b' now.
Proof. apply (open_breaker_admits_one_probe (mkBreaker (Open 10) 3 (mkBreakerConfig 3 30)) 10). done. Defined.

(** A failed probe opens the breaker again with a fresh cool-down, a
    successful one closes it; a failure while open leaves the cool-down as it
    was, so a stream of failures cannot keep the breaker open. *)
Theorem probe_outcome b now :
  breaker_wf b → consecutive_failures b < u32_MAX →
  match state b with
  | HalfOpen _ => ∃ b', record_failure b now = Some b' ∧ state b' = Open now
  | Open opened_at => record_failure b now = Some b
  | Closed => True
  end ∧ state (record_success b) = Closed ∧ consecutive_failures (record_success b) = 0.
Proof.
  intros [_ Hs _] Hmax. split; [|done]. unfold record_failure. destruct (state b); [done|done|].
  rewrite option_guard_True by lia. eexists. split; [done|]. cbn. by rewrite (proj2 (N.leb_le _ _)) by lia.
Qed.

Lemma probe_outcome_witness :
  (∃ b', record_failure (mkBreaker (HalfOpen true) 3 CircuitBreakerConfig_default) 77 = Some b' ∧
     state b' = Open 77) ∧ Closed = Closed ∧ 0 = 0.
Proof. apply (probe_outcome (mkBreaker (HalfOpen true) 3 CircuitBreakerConfig_default) 77); [by split|done]. Defined.
