(* ===== verification/KvTree.v ===== *)
(** * Hash-keyed radix tree ([crates/sglang-router/src/policies/kv_events/tree.rs])

    The router's index of KV-cache blocks: an arena of nodes, each standing for a
    chain of block hashes and the workers that hold it, with a reverse index from
    block hashes to nodes.  Sets and maps of the code have no fixed iteration
    order: the orders are parameters.  The clock is an argument. *)

From S2P Require Import Prelude.

(** [policies/kv_events/tree.rs:86-89] KvWorkerId *)
Record KvWorkerId : Type := mkKvWorkerId {
  url : string;
  dp_rank : N;
}.

#[export] Instance KvWorkerId_eq_dec : EqDecision KvWorkerId.
Proof. solve_decision. Defined.

#[export, refine] Instance KvWorkerId_countable : Countable KvWorkerId :=
  inj_countable' (λ w, (url w, dp_rank w)) (λ p, mkKvWorkerId p.1 p.2) _.
Proof. by intros []. Defined.

(** [policies/kv_events/tree.rs:101-108] MatchResult *)
Record MatchResult : Type := mkMatchResult {
  matched_blocks : N;
  matched_workers : gset KvWorkerId;
}.

(** [policies/kv_events/tree.rs:132-140] Node *)
Record Node : Type := mkNode {
  block_hash : Z;
  parent : option N;
  workers : gset KvWorkerId;
  children : gmap Z N;
  last_used : N;
}.

(** [policies/kv_events/tree.rs:166-170] TreeState *)
Record TreeState : Type := mkTreeState {
  nodes : gmap N Node;
  by_hash : gmap Z (gset N);
  next_id : N;
}.

(** [policies/kv_events/tree.rs:172-176] ROOT_ID, ROOT_HASH_SENTINEL *)
Definition ROOT_ID : N := 0.
Definition ROOT_HASH_SENTINEL : Z := (- 2 ^ 63)%Z.

Definition set_workers (n : Node) (ws : gset KvWorkerId) : Node :=
  mkNode (block_hash n) (parent n) ws (children n) (last_used n).
Definition set_children (n : Node) (cs : gmap Z N) : Node :=
  mkNode (block_hash n) (parent n) (workers n) cs (last_used n).
Definition set_last_used (n : Node) (t : N) : Node :=
  mkNode (block_hash n) (parent n) (workers n) (children n) t.
Definition set_nodes (s : TreeState) (ns : gmap N Node) : TreeState := mkTreeState ns (by_hash s) (next_id s).

(** [policies/kv_events/tree.rs:143-151] Node::new_child *)
Definition new_child (now : N) (hash : Z) (parent_id : N) : Node := mkNode hash (Some parent_id) ∅ ∅ now.

(** [policies/kv_events/tree.rs:179-196] TreeState::new *)
Definition TreeState_new (now : N) : TreeState :=
  mkTreeState {[ROOT_ID := mkNode ROOT_HASH_SENTINEL None ∅ ∅ now]} ∅ 1.

(** The ids do not run out. *)
(** [policies/kv_events/tree.rs:198-202] TreeState::alloc_id *)
Definition alloc_id (s : TreeState) : N * TreeState := (next_id s, mkTreeState (nodes s) (by_hash s) (next_id s + 1)).

(** [policies/kv_events/tree.rs:211-227] TreeState::create_child *)
Definition create_child (now : N) (s : TreeState) (parent_id : N) (hash : Z) : option N * TreeState :=
  let '(id, s) := alloc_id s in
  let s := set_nodes s (<[id := new_child now hash parent_id]> (nodes s)) in
  match nodes s !! parent_id with
  | None => (None, set_nodes s (delete id (nodes s)))
  | Some p =>
      (Some id, mkTreeState (<[parent_id := set_children p (<[hash := id]> (children p))]> (nodes s))
                  (<[hash := {[id]} ∪ default ∅ (by_hash s !! hash)]> (by_hash s)) (next_id s))
  end.

(** A node without workers and children. *)
Definition is_empty_leaf (n : Node) : bool := bool_decide (workers n = ∅ ∧ children n = ∅).

Definition child_of (s : TreeState) (id : N) (hash : Z) : option N := n ← nodes s !! id; children n !! hash.

Definition holds (s : TreeState) (worker : KvWorkerId) (id : N) : bool :=
  match nodes s !! id with Some n => bool_decide (worker ∈ workers n) | None => false end.

Definition empty_leaf_at (s : TreeState) (id : N) : bool :=
  match nodes s !! id with Some n => negb (id =? ROOT_ID) && is_empty_leaf n | None => false end.

Section Order.
(** The iteration orders of a set of ids and of the arena. *)
Context (iter_set : gset N → list N) (iter_nodes : gmap N Node → list N).

(** [policies/kv_events/tree.rs:239-273] TreeState::resolve_parent *)
Definition resolve_parent (s : TreeState) (worker : KvWorkerId) (parent_hash : option Z) : N :=
  match parent_hash with
  | None => ROOT_ID
  | Some h =>
      match by_hash s !! h with
      | None => ROOT_ID
      | Some candidates =>
          let l := iter_set candidates in
          match l with
          | [id] => id
          | _ =>
              match list_find (λ cand, holds s worker cand = true) l with
              | Some (_, cand) => cand
              | None => ROOT_ID
              end
          end
      end
  end.

(** [policies/kv_events/tree.rs:281-304] TreeState::insert (loop) *)
Fixpoint insert_chain (now : N) (s : TreeState) (worker : KvWorkerId) (current : N) (block_hashes : list Z) : TreeState :=
  match block_hashes with
  | [] => s
  | h :: hs =>
      let '(child, s) := match child_of s current h with
                         | Some id => (Some id, s)
                         | None => create_child now s current h
                         end in
      match child with
      | None => s
      | Some child_id =>
          match nodes s !! child_id with
          | None => s
          | Some c =>
              let s := set_nodes s (<[child_id := set_last_used (set_workers c ({[worker]} ∪ workers c)) now]> (nodes s)) in
              insert_chain now s worker child_id hs
          end
      end
  end.

(** [policies/kv_events/tree.rs:275-305] TreeState::insert *)
Definition insert (now : N) (s : TreeState) (worker : KvWorkerId) (parent_hash : option Z) (block_hashes : list Z)
    : TreeState :=
  match block_hashes with
  | [] => s
  | _ => insert_chain now s worker (resolve_parent s worker parent_hash) block_hashes
  end.

(** Detach a node from its parent and the reverse index and drop it. *)
(** [policies/kv_events/tree.rs:391-403] TreeState::prune_cascade (detach) *)
Definition detach (s : TreeState) (cursor parent_id : N) (hash : Z) : TreeState :=
  let ns := match nodes s !! parent_id with
            | Some p => <[parent_id := set_children p (delete hash (children p))]> (nodes s)
            | None => nodes s
            end in
  let bh := match by_hash s !! hash with
            | Some ids => if bool_decide (ids ∖ {[cursor]} = ∅) then delete hash (by_hash s)
                          else <[hash := ids ∖ {[cursor]}]> (by_hash s)
            | None => by_hash s
            end in
  mkTreeState (delete cursor ns) bh (next_id s).

(** Every round removes a node, so the size of the arena is fuel enough. *)
(** [policies/kv_events/tree.rs:362-417] TreeState::prune_cascade *)
Fixpoint prune_cascade_fuel (fuel : nat) (s : TreeState) (cursor : N) : TreeState :=
  match fuel with
  | O => s
  | S fuel' =>
      if cursor =? ROOT_ID then s
      else
        match nodes s !! cursor with
        | None => s
        | Some n =>
            match parent n with
            | None => s
            | Some parent_id =>
                if negb (is_empty_leaf n) then s
                else
                  let s := detach s cursor parent_id (block_hash n) in
                  match nodes s !! parent_id with
                  | Some p => if (negb (parent_id =? ROOT_ID) && is_empty_leaf p)%bool
                              then prune_cascade_fuel fuel' s parent_id else s
                  | None => s
                  end
            end
        end
  end.

Definition prune_cascade (s : TreeState) (start : N) : TreeState := prune_cascade_fuel (S (size (nodes s))) s start.

(** [policies/kv_events/tree.rs:316-329] TreeState::remove (body) *)
Definition remove_at (worker : KvWorkerId) (s : TreeState) (id : N) : TreeState :=
  match nodes s !! id with
  | None => s
  | Some n =>
      let n := set_workers n (workers n ∖ {[worker]}) in
      let s := set_nodes s (<[id := n]> (nodes s)) in
      if is_empty_leaf n then prune_cascade s id else s
  end.

(** [policies/kv_events/tree.rs:307-330] TreeState::remove *)
Definition remove (s : TreeState) (worker : KvWorkerId) (block_hashes : list Z) : TreeState :=
  let targets := block_hashes ≫= λ h, match by_hash s !! h with Some ids => iter_set ids | None => [] end in
  foldl (remove_at worker) s targets.

(** [policies/kv_events/tree.rs:341-349] TreeState::clear_worker (first loop) *)
Fixpoint clear_nodes (worker : KvWorkerId) (s : TreeState) (ids : list N) (candidates : list N) : list N * TreeState :=
  match ids with
  | [] => (candidates, s)
  | id :: ids' =>
      match nodes s !! id with
      | None => clear_nodes worker s ids' candidates
      | Some n =>
          let n' := set_workers n (workers n ∖ {[worker]}) in
          let s := set_nodes s (<[id := n']> (nodes s)) in
          clear_nodes worker s ids'
            (if (bool_decide (worker ∈ workers n) && is_empty_leaf n')%bool then candidates ++ [id] else candidates)
      end
  end.

(** [policies/kv_events/tree.rs:350-357] TreeState::clear_worker (second loop) *)
Definition prune_present (s : TreeState) (id : N) : TreeState :=
  match nodes s !! id with Some _ => prune_cascade s id | None => s end.

(** [policies/kv_events/tree.rs:332-358] TreeState::clear_worker *)
Definition clear_worker (s : TreeState) (worker : KvWorkerId) : TreeState :=
  let ids := filter (λ id, id ≠ ROOT_ID) (iter_nodes (nodes s)) in
  let '(candidates, s) := clear_nodes worker s ids [] in
  foldl prune_present s candidates.

(** Descend along the hashes; the visited nodes are touched. *)
(** [policies/kv_events/tree.rs:451-472] TreeState::match_prefix (loop) *)
Fixpoint match_chain (now : N) (s : TreeState) (current : N) (matched : N) (last_match : option N) (block_hashes : list Z)
    : (N * option N) * TreeState :=
  match block_hashes with
  | [] => ((matched, last_match), s)
  | h :: hs =>
      match child_of s current h with
      | None => ((matched, last_match), s)
      | Some child_id =>
          let s := match nodes s !! child_id with
                   | Some c => set_nodes s (<[child_id := set_last_used c now]> (nodes s))
                   | None => s
                   end in
          match_chain now s child_id (matched + 1) (Some child_id) hs
      end
  end.

(** [policies/kv_events/tree.rs:431-484] TreeState::match_prefix *)
Definition match_prefix (now : N) (s : TreeState) (parent_hash : option Z) (block_hashes : list Z) : MatchResult * TreeState :=
  match block_hashes with
  | [] => (mkMatchResult 0 ∅, s)
  | _ =>
      let start := match parent_hash with
                   | None => ROOT_ID
                   | Some p => match by_hash s !! p with
                               | Some ids => match iter_set ids with [id] => id | _ => ROOT_ID end
                               | None => ROOT_ID
                               end
                   end in
      let '((matched, last_match), s) := match_chain now s start 0 None block_hashes in
      let ws := match last_match with
                | Some id => match nodes s !! id with Some n => workers n | None => ∅ end
                | None => ∅
                end in
      (mkMatchResult matched ws, s)
  end.

(** [policies/kv_events/tree.rs:487-490] TreeState::node_count *)
Definition node_count (s : TreeState) : N := saturating_sub (N.of_nat (size (nodes s))) 1.

(** [policies/kv_events/tree.rs:648-650] HashTree::reverse_index_size *)
Definition reverse_index_size (s : TreeState) : N := N.of_nat (size (by_hash s)).

(** [policies/kv_events/tree.rs:505-523] TreeState::evict_lru (empty leaves) *)
Fixpoint evict_empty (max_size : N) (s : TreeState) (empty_leaves : list N) : TreeState :=
  match empty_leaves with
  | [] => s
  | id :: ids =>
      if node_count s <=? max_size then s
      else evict_empty max_size (prune_present s id) ids
  end.

(** The first of the oldest leaves in iteration order. *)
(** [policies/kv_events/tree.rs:536-547] TreeState::evict_lru (oldest leaf) *)
Fixpoint oldest_leaf (s : TreeState) (ids : list N) (oldest : option (N * N)) : option (N * N) :=
  match ids with
  | [] => oldest
  | id :: ids' =>
      match nodes s !! id with
      | Some n =>
          if ((id =? ROOT_ID) || negb (bool_decide (children n = ∅)))%bool then oldest_leaf s ids' oldest
          else oldest_leaf s ids'
                 (match oldest with
                  | None => Some (last_used n, id)
                  | Some (cur, _) => if last_used n <? cur then Some (last_used n, id) else oldest
                  end)
      | None => oldest_leaf s ids' oldest
      end
  end.

(** [iters] counts down from the bound of the code. *)
(** [policies/kv_events/tree.rs:530-558] TreeState::evict_lru (loop) *)
Fixpoint evict_loop (iters : nat) (max_size : N) (s : TreeState) : TreeState :=
  match iters with
  | O => s
  | S iters' =>
      if negb (max_size <? node_count s) then s
      else
        match oldest_leaf s (iter_nodes (nodes s)) None with
        | None => s
        | Some (_, victim) =>
            let s := match nodes s !! victim with
                     | Some n => set_nodes s (<[victim := set_workers n ∅]> (nodes s))
                     | None => s
                     end in
            evict_loop iters' max_size (prune_cascade s victim)
        end
  end.

(** [policies/kv_events/tree.rs:492-560] TreeState::evict_lru *)
Definition evict_lru (s : TreeState) (max_size : N) : N * TreeState :=
  if node_count s <=? max_size then (0, s)
  else
    let count_before := N.of_nat (size (nodes s)) in
    let empty_leaves := filter (λ id, empty_leaf_at s id = true) (iter_nodes (nodes s)) in
    let s := evict_empty max_size s empty_leaves in
    let s := evict_loop (S (size (nodes s))) max_size s in
    (count_before - N.of_nat (size (nodes s)), s).

End Order.

(** ** Well-formed trees *)

Record tree_wf (s : TreeState) : Prop := {
  wf_root : ∃ n, nodes s !! ROOT_ID = Some n ∧ parent n = None;
  wf_parent id n : nodes s !! id = Some n → id ≠ ROOT_ID →
    ∃ p pn, parent n = Some p ∧ p < id ∧ nodes s !! p = Some pn ∧ children pn !! block_hash n = Some id;
  wf_child id n h c : nodes s !! id = Some n → children n !! h = Some c →
    ∃ cn, nodes s !! c = Some cn ∧ parent cn = Some id ∧ block_hash cn = h;
  wf_index h id : (∃ ids, by_hash s !! h = Some ids ∧ id ∈ ids) ↔
    id ≠ ROOT_ID ∧ ∃ n, nodes s !! id = Some n ∧ block_hash n = h;
  wf_nonempty h ids : by_hash s !! h = Some ids → ids ≠ ∅;
  wf_next id n : nodes s !! id = Some n → id < next_id s;
}.

(** No node without workers and children but the root. *)
Definition pruned (s : TreeState) : Prop := ∀ id, empty_leaf_at s id = false.

(** Following hashes from a node. *)
Fixpoint walk (s : TreeState) (id : N) (path : list Z) : option N :=
  match path with [] => Some id | h :: hs => c ← child_of s id h; walk s c hs end.

(** The workers at the end of a path; none where the tree has no such path. *)
Definition holders (s : TreeState) (path : list Z) : gset KvWorkerId :=
  match walk s ROOT_ID path with
  | Some id => match nodes s !! id with Some n => workers n | None => ∅ end
  | None => ∅
  end.

Lemma walk_app s id p q : walk s id (p ++ q) = (c ← walk s id p; walk s c q).
Proof. revert id. induction p as [|h p IH]; intros id; cbn; [done|]. destruct (child_of s id h); [apply IH|done]. Qed.

Lemma walk_snoc s id p h : walk s id (p ++ [h]) = (c ← walk s id p; child_of s c h).
Proof. rewrite walk_app. destruct (walk s id p) as [c|]; [|done]. cbn. by destruct (child_of s c h). Qed.

Section WfFacts.
Context (s : TreeState) (Hwf : tree_wf s).

Lemma child_of_node id h c : child_of s id h = Some c →
  ∃ cn, nodes s !! c = Some cn ∧ parent cn = Some id ∧ block_hash cn = h ∧ c ≠ ROOT_ID.
Proof.
  intros Hc. apply bind_Some in Hc as (n&Hn&Hc). destruct (wf_child s Hwf _ _ _ _ Hn Hc) as (cn&?&Hp&?).
  exists cn. split_and!; try done. intros ->. destruct (wf_root s Hwf) as (r&Hr&Hrp). congruence.
Qed.

Lemma walk_node path id : walk s ROOT_ID path = Some id → is_Some (nodes s !! id).
Proof.
  induction path as [|h path _] using rev_ind; [intros [= <-]; destruct (wf_root s Hwf) as (n&Hn&_); by exists n|].
  rewrite walk_snoc. intros Hw. apply bind_Some in Hw as (c&_&Hc). apply child_of_node in Hc as (cn&?&_). by exists cn.
Qed.

(** A node has at most one path, and only the root the empty one. *)
Lemma walk_inj p q id : walk s ROOT_ID p = Some id → walk s ROOT_ID q = Some id → p = q.
Proof.
  revert q id. induction p as [|h p IH] using rev_ind; intros q id Hp Hq.
  - injection Hp as <-. destruct q as [|h q _] using rev_ind; [done|]. rewrite walk_snoc in Hq.
    apply bind_Some in Hq as (c&_&Hc). by apply child_of_node in Hc as (?&_&_&_&?).
  - rewrite walk_snoc in Hp. apply bind_Some in Hp as (c&Hc&Hid). apply child_of_node in Hid as (n&Hn&Hpar&Hh&Hne).
    destruct q as [|h' q _] using rev_ind; [by injection Hq as <-|]. rewrite walk_snoc in Hq.
    apply bind_Some in Hq as (c'&Hc'&Hid'). apply child_of_node in Hid' as (n'&Hn'&Hpar'&Hh'&_).
    assert (n' = n) as -> by congruence. assert (c' = c) as -> by congruence. rewrite (IH _ _ Hc Hc'). congruence.
Qed.

Lemma walk_exists id : is_Some (nodes s !! id) → ∃ path, walk s ROOT_ID path = Some id.
Proof.
  revert id. apply (N.strong_induction_le (λ id, is_Some (nodes s !! id) → ∃ path, walk s ROOT_ID path = Some id)).
  - intros _. by exists [].
  - intros id IH [n Hn]. destruct (wf_parent s Hwf _ _ Hn) as (p&pn&_&Hlt&Hpn&Hc); [unfold ROOT_ID; lia|].
    destruct (IH p) as [path Hpath]; [lia|by exists pn|]. exists (path ++ [block_hash n]). rewrite walk_snoc, Hpath. cbn.
    unfold child_of. by rewrite Hpn.
Qed.

Lemma holders_at path id n : walk s ROOT_ID path = Some id → nodes s !! id = Some n → holders s path = workers n.
Proof. intros Hw Hn. unfold holders. by rewrite Hw, Hn. Qed.

(** A path of a pruned tree leads on to a node with workers. *)
Lemma pruned_path path id : pruned s → id ≠ ROOT_ID → walk s ROOT_ID path = Some id → ∃ q, holders s (path ++ q) ≠ ∅.
Proof.
  intros Hpr Hid Hw.
  assert (∀ k path id, next_id s - id ≤ k → id ≠ ROOT_ID → walk s ROOT_ID path = Some id → ∃ q, holders s (path ++ q) ≠ ∅) as Hmain;
    [|by eapply Hmain].
  clear path id Hid Hw. induction k as [|k IH] using N.peano_ind; intros path id Hk Hid Hw;
    destruct (walk_node _ _ Hw) as [n Hn]; pose proof (wf_next s Hwf _ _ Hn); [lia|].
  destruct (decide (workers n = ∅)) as [He|Hne]; [|exists []; rewrite app_nil_r; by erewrite holders_at].
  assert (children n ≠ ∅) as Hc.
  { intros Hc. specialize (Hpr id). unfold empty_leaf_at in Hpr. rewrite Hn in Hpr.
    destruct (N.eqb_spec id ROOT_ID); [done|]. unfold is_empty_leaf in Hpr. by rewrite bool_decide_true in Hpr. }
  apply map_choose in Hc as (h&c&Hc). assert (child_of s id h = Some c) as Hco by (unfold child_of; by rewrite Hn).
  destruct (child_of_node _ _ _ Hco) as (cn&Hcn&Hpar&Hh&Hc0).
  destruct (wf_parent s Hwf _ _ Hcn Hc0) as (p&pn&Hp&Hlt&_). assert (p = id) as -> by congruence.
  destruct (IH (path ++ [h]) c) as [q Hq]; [|done|by rewrite walk_snoc, Hw|].
  { pose proof (wf_next s Hwf _ _ Hcn). lia. }
  exists (h :: q). by rewrite <-(assoc_L (++)) in Hq.
Qed.

End WfFacts.

Lemma holders_walk s path : holders s path ≠ ∅ → is_Some (walk s ROOT_ID path).
Proof. unfold holders. by destruct (walk s ROOT_ID path). Qed.

Lemma walk_prefix s p q : is_Some (walk s ROOT_ID (p ++ q)) → is_Some (walk s ROOT_ID p).
Proof. rewrite walk_app. by destruct (walk s ROOT_ID p). Qed.

(** The tree of a pruned state holds exactly the paths to where workers are. *)
Lemma pruned_walk s path : tree_wf s → pruned s → path ≠ [] →
  is_Some (walk s ROOT_ID path) ↔ ∃ q, holders s (path ++ q) ≠ ∅.
Proof.
  intros Hwf Hpr Hne. split.
  - intros [id Hw]. apply (pruned_path s Hwf path id Hpr); [|done]. intros ->. apply Hne. by apply (walk_inj s Hwf _ _ ROOT_ID).
  - intros [q Hq]. apply (walk_prefix s path q). by apply holders_walk.
Qed.

(** ** Updates of workers and clocks *)

Definition shape (n : Node) : Z * option N * gmap Z N := (block_hash n, parent n, children n).

(** The same nodes with the same links. *)
Definition same_shape (s s' : TreeState) : Prop :=
  next_id s' = next_id s ∧ by_hash s' = by_hash s ∧ ∀ id, shape <$> nodes s' !! id = shape <$> nodes s !! id.

#[export] Instance same_shape_equivalence : Equivalence same_shape.
Proof.
  split.
  - by intros s.
  - intros s s' (?&?&Hn). split_and!; [done..|]. intros id. by rewrite Hn.
  - intros s1 s2 s3 (?&?&H12) (?&?&H23). split_and!; [congruence..|]. intros id. by rewrite H23, H12.
Qed.

Lemma same_shape_lookup s s' id n : same_shape s s' → nodes s !! id = Some n →
  ∃ n', nodes s' !! id = Some n' ∧ block_hash n' = block_hash n ∧ parent n' = parent n ∧ children n' = children n.
Proof.
  intros (_&_&Hs) Hn. specialize (Hs id). rewrite Hn in Hs. apply fmap_Some in Hs as (n'&Hn'&Heq).
  exists n'. unfold shape in Heq. split_and!; congruence.
Qed.

Lemma same_shape_update s id n n' :
  nodes s !! id = Some n → shape n' = shape n → same_shape s (set_nodes s (<[id := n']> (nodes s))).
Proof.
  intros Hn Hsh. split_and!; [done..|]. intros id'. cbn. destruct (decide (id' = id)) as [->|].
  - rewrite lookup_insert_eq, Hn. cbn. by rewrite Hsh.
  - by rewrite lookup_insert_ne.
Qed.

Lemma same_shape_child_of s s' id h : same_shape s s' → child_of s' id h = child_of s id h.
Proof.
  intros (_&_&Hs). specialize (Hs id). unfold child_of.
  destruct (nodes s !! id) as [n|], (nodes s' !! id) as [n'|]; try done. cbn in *. unfold shape in Hs. congruence.
Qed.

Lemma same_shape_walk s s' id path : same_shape s s' → walk s' id path = walk s id path.
Proof.
  intros Hs. revert id. induction path as [|h path IH]; intros id; cbn; [done|].
  rewrite (same_shape_child_of s s') by done. destruct (child_of s id h); [apply IH|done].
Qed.

Lemma same_shape_wf s s' : same_shape s s' → tree_wf s → tree_wf s'.
Proof.
  intros Hs [(r&Hr&Hrp) Hpar Hch Hidx Hne Hnx]. assert (same_shape s' s) as Hs' by done.
  destruct (same_shape_lookup _ _ _ _ Hs Hr) as (r'&?&_&?&_). pose proof Hs as (Hnext&Hby&_). split.
  - exists r'. split; congruence.
  - intros id n Hn Hid. destruct (same_shape_lookup _ _ _ _ Hs' Hn) as (n0&Hn0&Eh&Ep&_).
    destruct (Hpar _ _ Hn0 Hid) as (p&pn&?&?&Hpn&?). destruct (same_shape_lookup _ _ _ _ Hs Hpn) as (pn'&?&_&_&Ec).
    exists p, pn'. split_and!; try done; congruence.
  - intros id n h c Hn Hc. destruct (same_shape_lookup _ _ _ _ Hs' Hn) as (n0&Hn0&_&_&Ec). rewrite <-Ec in Hc.
    destruct (Hch _ _ _ _ Hn0 Hc) as (cn&Hcn&?&?). destruct (same_shape_lookup _ _ _ _ Hs Hcn) as (cn'&?&?&?&_).
    exists cn'. split_and!; congruence.
  - intros h id. rewrite Hby, Hidx. split; intros [? (n&Hn&?)]; (split; [done|]).
    + destruct (same_shape_lookup _ _ _ _ Hs Hn) as (n'&?&?&_). exists n'. split; congruence.
    + destruct (same_shape_lookup _ _ _ _ Hs' Hn) as (n'&?&?&_). exists n'. split; congruence.
  - intros h ids. rewrite Hby. apply Hne.
  - intros id n Hn. destruct (same_shape_lookup _ _ _ _ Hs' Hn) as (n0&Hn0&_). rewrite Hnext. by eapply Hnx.
Qed.

(** ** Growing *)

Lemma index_insert (bh : gmap Z (gset N)) h x h' id :
  (∃ ids, <[h := {[x]} ∪ default ∅ (bh !! h)]> bh !! h' = Some ids ∧ id ∈ ids) ↔
  (h' = h ∧ id = x) ∨ ∃ ids, bh !! h' = Some ids ∧ id ∈ ids.
Proof.
  destruct (decide (h' = h)) as [->|Hh].
  - rewrite lookup_insert_eq. destruct (bh !! h) as [ids|]; cbn; split.
    + intros (?&[= <-]&Hin). apply elem_of_union in Hin as [Hin|Hin]; [left; set_solver|right; eauto].
    + intros [[_ ->]|(?&[= <-]&Hin)]; eexists; (split; [done|]); set_solver.
    + intros (?&[= <-]&Hin). left. set_solver.
    + intros [[_ ->]|(?&?&_)]; [|done]. eexists. split; [done|]. set_solver.
  - rewrite lookup_insert_ne by done. split; [by right|]. by intros [[? _]|?].
Qed.


Lemma nonempty_union_singleton (x : N) (X : gset N) : {[x]} ∪ X ≠ ∅.
Proof. set_solver. Qed.

Section Create.
Context (s : TreeState) (Hwf : tree_wf s) (now : N) (p : N) (pn : Node) (h : Z) (path : list Z).
Hypothesis Hpn : nodes s !! p = Some pn.
Hypothesis Hfree : children pn !! h = None.
Hypothesis Hpath : walk s ROOT_ID path = Some p.

Definition grown : TreeState :=
  mkTreeState (<[p := set_children pn (<[h := next_id s]> (children pn))]> (<[next_id s := new_child now h p]> (nodes s)))
    (<[h := {[next_id s]} ∪ default ∅ (by_hash s !! h)]> (by_hash s)) (next_id s + 1).

Lemma fresh_id : nodes s !! next_id s = None.
Proof. apply eq_None_not_Some. intros [n Hn]. pose proof (wf_next s Hwf _ _ Hn). lia. Qed.

Lemma parent_not_fresh : p ≠ next_id s.
Proof. intros ->. by rewrite fresh_id in Hpn. Qed.

Lemma create_child_grown : create_child now s p h = (Some (next_id s), grown).
Proof.
  unfold create_child. cbn [alloc_id nodes set_nodes]. rewrite lookup_insert_ne by apply not_eq_sym, parent_not_fresh.
  by rewrite Hpn.
Qed.

Lemma grown_new : nodes grown !! next_id s = Some (new_child now h p).
Proof. cbn. rewrite lookup_insert_ne by apply parent_not_fresh. by rewrite lookup_insert_eq. Qed.

Lemma grown_parent : nodes grown !! p = Some (set_children pn (<[h := next_id s]> (children pn))).
Proof. cbn. by rewrite lookup_insert_eq. Qed.

Lemma grown_other id : id ≠ p → id ≠ next_id s → nodes grown !! id = nodes s !! id.
Proof. intros. cbn. by rewrite !lookup_insert_ne. Qed.

(** Every node but the new one has the same workers. *)
Lemma grown_old id n : nodes s !! id = Some n →
  ∃ n', nodes grown !! id = Some n' ∧ block_hash n' = block_hash n ∧ parent n' = parent n ∧ workers n' = workers n ∧
    ∀ h' c, children n !! h' = Some c → children n' !! h' = Some c.
Proof.
  intros Hn. destruct (decide (id = p)) as [->|Hne].
  - rewrite grown_parent. eexists. split; [done|]. assert (n = pn) as -> by congruence. split_and!; try done.
    intros h' c Hc. cbn. rewrite lookup_insert_ne; [done|]. intros <-. congruence.
  - exists n. rewrite grown_other; [done..|]. intros ->. by rewrite fresh_id in Hn.
Qed.

Lemma grown_inv id n : nodes grown !! id = Some n →
  (id = next_id s ∧ n = new_child now h p) ∨ ∃ n0, nodes s !! id = Some n0 ∧ block_hash n = block_hash n0 ∧ parent n = parent n0 ∧
    workers n = workers n0.
Proof.
  intros Hn. destruct (decide (id = next_id s)) as [->|Hne]; [left; split; [done|]; rewrite grown_new in Hn; congruence|right].
  destruct (decide (id = p)) as [->|Hnp]; [rewrite grown_parent in Hn; injection Hn as <-; by exists pn|].
  rewrite grown_other in Hn by done. by exists n.
Qed.

Lemma grown_child_of id h' :
  child_of grown id h' = if decide (id = p ∧ h' = h) then Some (next_id s) else child_of s id h'.
Proof.
  unfold child_of. destruct (decide (id = p)) as [->|Hne].
  - rewrite grown_parent, Hpn. cbn. destruct (decide (h' = h)) as [->|Hh].
    + rewrite lookup_insert_eq. by rewrite decide_True.
    + rewrite lookup_insert_ne by done. rewrite decide_False; [done|]. by intros [_ ?].
  - rewrite decide_False by (by intros [? _]). destruct (decide (id = next_id s)) as [->|Hn].
    + rewrite grown_new, fresh_id. cbn. by rewrite lookup_empty.
    + by rewrite grown_other.
Qed.

Lemma grown_walk q : walk grown ROOT_ID q = if decide (q = path ++ [h]) then Some (next_id s) else walk s ROOT_ID q.
Proof.
  assert (walk s ROOT_ID (path ++ [h]) = None) as Hnone.
  { rewrite walk_snoc, Hpath. cbn. unfold child_of. by rewrite Hpn. }
  induction q as [|h' q IH] using rev_ind.
  { rewrite decide_False; [done|]. intros He. symmetry in He. by apply app_nil in He as [_ ?]. }
  rewrite !walk_snoc, IH. destruct (decide (q = path ++ [h])) as [->|Hq].
  - rewrite decide_False, Hnone by (intros He; apply (f_equal length) in He; rewrite !length_app in He; cbn in He; lia).
    cbn. rewrite grown_child_of, decide_False by (intros [He _]; by apply parent_not_fresh).
    unfold child_of. by rewrite fresh_id.
  - destruct (walk s ROOT_ID q) as [c|] eqn:Hc; cbn.
    + rewrite grown_child_of. destruct (decide (c = p ∧ h' = h)) as [[-> ->]|Hn].
      * rewrite decide_True; [done|]. by rewrite (walk_inj s Hwf _ _ _ Hc Hpath).
      * rewrite decide_False; [done|]. intros He. apply app_inj_tail in He as [-> ->]. apply Hn. split; congruence.
    + rewrite decide_False; [done|]. intros He. apply app_inj_tail in He as [-> ->]. congruence.
Qed.

Lemma grown_holders q : holders grown q = holders s q.
Proof.
  unfold holders at 1. rewrite grown_walk. destruct (decide (q = path ++ [h])) as [->|Hq].
  - rewrite grown_new. cbn. unfold holders. rewrite walk_snoc, Hpath. cbn. unfold child_of. rewrite Hpn. cbn. by rewrite Hfree.
  - unfold holders. destruct (walk s ROOT_ID q) as [id|] eqn:Hw; [|done].
    destruct (walk_node s Hwf _ _ Hw) as [n Hn]. destruct (grown_old id n Hn) as (n'&->&_&_&->&_). by rewrite Hn.
Qed.

Lemma grown_wf : tree_wf grown.
Proof.
  destruct Hwf as [(r&Hr&Hrp) Hpar Hch Hidx Hne Hnx]. pose proof (Hnx _ _ Hpn) as Hpl. split.
  - destruct (grown_old _ _ Hr) as (r'&?&_&?&_). exists r'. split; congruence.
  - intros id n Hn Hid. destruct (grown_inv _ _ Hn) as [[-> ->]|(n0&Hn0&Eh&Ep&_)].
    + exists p, (set_children pn (<[h := next_id s]> (children pn))). split_and!; [done|done|apply grown_parent|].
      cbn. by rewrite lookup_insert_eq.
    + destruct (Hpar _ _ Hn0 Hid) as (p'&pn'&?&?&Hpn'&Hc). destruct (grown_old _ _ Hpn') as (pn2&?&_&_&_&Hsub).
      exists p', pn2. split_and!; try done; [congruence|]. rewrite Eh. by apply Hsub.
  - intros id n h' c Hn Hc. assert (child_of grown id h' = Some c) as Hco by (unfold child_of; by rewrite Hn).
    rewrite grown_child_of in Hco. destruct (decide _) as [[-> ->]|_].
    + injection Hco as <-. exists (new_child now h p). split; [apply grown_new|done].
    + apply bind_Some in Hco as (n0&Hn0&Hc0). destruct (Hch _ _ _ _ Hn0 Hc0) as (cn&Hcn&?&?).
      destruct (grown_old _ _ Hcn) as (cn'&?&?&?&_). exists cn'. split_and!; congruence.
  - intros h' id. assert ((∃ ids, by_hash grown !! h' = Some ids ∧ id ∈ ids) ↔
      (h' = h ∧ id = next_id s) ∨ ∃ ids, by_hash s !! h' = Some ids ∧ id ∈ ids) as ->.
    { apply index_insert. }
    rewrite Hidx. split.
    + intros [[-> ->]|[Hid (n&Hn&Hh)]].
      * split; [unfold ROOT_ID; lia|]. eexists. split; [apply grown_new|done].
      * split; [done|]. destruct (grown_old _ _ Hn) as (n'&?&?&_). exists n'. split; congruence.
    + intros [Hid (n&Hn&Hh)]. destruct (grown_inv _ _ Hn) as [[-> ->]|(n0&Hn0&Eh&_)]; [left; done|right].
      split; [done|]. exists n0. split; congruence.
  - intros h' ids. cbn. destruct (decide (h' = h)) as [->|Hh].
    + rewrite lookup_insert_eq. intros [= <-]. apply nonempty_union_singleton.
    + rewrite lookup_insert_ne by done. apply Hne.
  - intros id n Hn. cbn. destruct (grown_inv _ _ Hn) as [[-> ->]|(n0&Hn0&_)]; [lia|]. specialize (Hnx _ _ Hn0). lia.
Qed.

Lemma grown_empty_leaf id : empty_leaf_at grown id = true → id = next_id s ∨ (id ≠ p ∧ empty_leaf_at s id = true).
Proof.
  unfold empty_leaf_at. destruct (decide (id = next_id s)) as [->|Hn]; [by left|]. destruct (decide (id = p)) as [->|Hp].
  - rewrite grown_parent. unfold is_empty_leaf. cbn. rewrite bool_decide_false, andb_false_r; [done|].
    intros [_ He]. by apply (insert_non_empty (children pn) h (next_id s)).
  - rewrite grown_other by done. intros ?. by right.
Qed.

End Create.

(** ** Pruning *)

Lemma index_delete (bh : gmap Z (gset N)) h x h' id ids0 :
  bh !! h = Some ids0 →
  (∃ ids, (if bool_decide (ids0 ∖ {[x]} = ∅) then delete h bh else <[h := ids0 ∖ {[x]}]> bh) !! h' = Some ids ∧ id ∈ ids) ↔
  (∃ ids, bh !! h' = Some ids ∧ id ∈ ids) ∧ ¬ (h' = h ∧ id = x).
Proof.
  intros Hh. destruct (decide (h' = h)) as [->|Hne].
  - rewrite Hh. case_bool_decide as He.
    + rewrite lookup_delete_eq. split; [by intros (?&?&_)|]. intros [(?&[= <-]&Hin) Hx]. exfalso.
      assert (id ∈ ids0 ∖ {[x]}) as Hd by (apply elem_of_difference; split; [done|]; intros ?%elem_of_singleton; by apply Hx).
      rewrite He in Hd. by apply elem_of_empty in Hd.
    + rewrite lookup_insert_eq. split.
      * intros (?&[= <-]&Hin). apply elem_of_difference in Hin as [Hin Hx]. split; [eauto|]. intros [_ ->].
        by apply Hx, elem_of_singleton.
      * intros [(?&[= <-]&Hin) Hx]. eexists. split; [done|]. apply elem_of_difference. split; [done|].
        intros ?%elem_of_singleton. by apply Hx.
  - assert ((if bool_decide (ids0 ∖ {[x]} = ∅) then delete h bh else <[h := ids0 ∖ {[x]}]> bh) !! h' = bh !! h') as ->.
    { case_bool_decide; [by rewrite lookup_delete_ne|by rewrite lookup_insert_ne]. }
    split; [|by intros [? _]]. intros ?. split; [done|]. by intros [? _].
Qed.

Section Detach.
Context (s : TreeState) (Hwf : tree_wf s) (cursor p : N) (n pn : Node) (path : list Z).
Hypothesis Hn : nodes s !! cursor = Some n.
Hypothesis Hpar : parent n = Some p.
Hypothesis Hpn : nodes s !! p = Some pn.
Hypothesis Hlink : children pn !! block_hash n = Some cursor.
Hypothesis Hleaf : children n = ∅.
Hypothesis Hne : p ≠ cursor.
Hypothesis Hpath : walk s ROOT_ID path = Some cursor.

Notation s' := (detach s cursor p (block_hash n)).

Lemma cursor_not_root : cursor ≠ ROOT_ID.
Proof. intros ->. destruct (wf_root s Hwf) as (r&Hr&Hrp). congruence. Qed.

Lemma detach_cursor : nodes s' !! cursor = None.
Proof. unfold detach. cbn. by rewrite lookup_delete_eq. Qed.

Lemma detach_parent : nodes s' !! p = Some (set_children pn (delete (block_hash n) (children pn))).
Proof. unfold detach. cbn. rewrite lookup_delete_ne by done. by rewrite Hpn, lookup_insert_eq. Qed.

Lemma detach_other id : id ≠ cursor → id ≠ p → nodes s' !! id = nodes s !! id.
Proof. intros. unfold detach. cbn. by rewrite lookup_delete_ne, Hpn, lookup_insert_ne. Qed.

Lemma detach_old id m : id ≠ cursor → nodes s !! id = Some m →
  ∃ m', nodes s' !! id = Some m' ∧ block_hash m' = block_hash m ∧ parent m' = parent m ∧ workers m' = workers m ∧
    ∀ h c, c ≠ cursor → children m !! h = Some c → children m' !! h = Some c.
Proof.
  intros Hid Hm. destruct (decide (id = p)) as [->|].
  - rewrite detach_parent. eexists. split; [done|]. assert (m = pn) as -> by congruence. split_and!; try done.
    intros h c Hc Hch. cbn. rewrite lookup_delete_ne; [done|]. intros <-. congruence.
  - exists m. by rewrite detach_other.
Qed.

Lemma detach_inv id m' : nodes s' !! id = Some m' →
  id ≠ cursor ∧ ∃ m, nodes s !! id = Some m ∧ block_hash m' = block_hash m ∧ parent m' = parent m ∧ workers m' = workers m.
Proof.
  intros Hm. assert (id ≠ cursor) as Hid by (intros ->; by rewrite detach_cursor in Hm). split; [done|].
  destruct (decide (id = p)) as [->|]; [rewrite detach_parent in Hm; injection Hm as <-; by exists pn|].
  rewrite detach_other in Hm by done. by exists m'.
Qed.

(** The link to the node is the only one. *)
Lemma only_link id h : child_of s id h = Some cursor → id = p ∧ h = block_hash n.
Proof. intros Hc. apply (child_of_node s Hwf) in Hc as (cn&?&?&?&_). split; congruence. Qed.

Lemma detach_child_of id h :
  child_of s' id h = if decide (id = p ∧ h = block_hash n) then None else child_of s id h.
Proof.
  unfold child_of. destruct (decide (id = p)) as [->|Hp].
  - rewrite detach_parent, Hpn. cbn. destruct (decide (h = block_hash n)) as [->|Hh].
    + rewrite lookup_delete_eq. by rewrite decide_True.
    + rewrite lookup_delete_ne by done. rewrite decide_False; [done|]. by intros [_ ?].
  - rewrite decide_False by (by intros [? _]). destruct (decide (id = cursor)) as [->|Hc].
    + rewrite detach_cursor, Hn. cbn. by rewrite Hleaf, lookup_empty.
    + by rewrite detach_other.
Qed.

Lemma detach_walk q : walk s' ROOT_ID q = if decide (q = path) then None else walk s ROOT_ID q.
Proof.
  induction q as [|h q IH] using rev_ind.
  { rewrite decide_False; [done|]. intros He. pose proof cursor_not_root as Hr. pose proof Hpath as Hp. rewrite <-He in Hp. injection Hp as Hp. congruence. }
  rewrite !walk_snoc, IH. destruct (decide (q = path)) as [->|Hq].
  - rewrite Hpath. cbn. unfold child_of at 1. rewrite Hn. cbn. rewrite Hleaf, lookup_empty. by destruct (decide _).
  - destruct (walk s ROOT_ID q) as [c|] eqn:Hc; cbn.
    + rewrite detach_child_of. destruct (decide (q ++ [h] = path)) as [He|He].
      * rewrite <-He, walk_snoc, Hc in Hpath. cbn in Hpath. by rewrite decide_True by (by apply only_link).
      * destruct (decide (c = p ∧ h = block_hash n)) as [[-> ->]|]; [|done]. exfalso. apply He.
        apply (walk_inj s Hwf _ _ cursor); [|done]. rewrite walk_snoc, Hc. cbn. unfold child_of. by rewrite Hpn.
    + by destruct (decide _).
Qed.

Lemma detach_holders q : holders s' q = if decide (q = path) then ∅ else holders s q.
Proof.
  unfold holders at 1. rewrite detach_walk. destruct (decide (q = path)) as [->|Hq]; [done|].
  unfold holders. destruct (walk s ROOT_ID q) as [id|] eqn:Hw; [|done].
  assert (id ≠ cursor) as Hid by (intros ->; apply Hq; by apply (walk_inj s Hwf _ _ cursor)).
  destruct (walk_node s Hwf _ _ Hw) as [m Hm]. destruct (detach_old id m Hid Hm) as (m'&->&_&_&->&_). by rewrite Hm.
Qed.

Lemma detach_by_hash :
  ∃ ids, by_hash s !! block_hash n = Some ids ∧
    by_hash s' = if bool_decide (ids ∖ {[cursor]} = ∅) then delete (block_hash n) (by_hash s)
                 else <[block_hash n := ids ∖ {[cursor]}]> (by_hash s).
Proof.
  destruct (proj2 (wf_index s Hwf (block_hash n) cursor)) as (ids&Hids&_); [split; [apply cursor_not_root|by exists n]|].
  exists ids. split; [done|]. unfold detach. cbn. by rewrite Hids.
Qed.

Lemma detach_wf : tree_wf s'.
Proof.
  destruct detach_by_hash as (ids0&Hids0&Hbh). pose proof cursor_not_root as Hroot.
  destruct Hwf as [(r&Hr&Hrp) Hpar' Hch Hidx Hnonempty Hnx]. split.
  - destruct (detach_old ROOT_ID r) as (r'&?&_&?&_); [by apply not_eq_sym|done|]. exists r'. split; congruence.
  - intros id m Hm Hid. destruct (detach_inv _ _ Hm) as (Hidc&m0&Hm0&Eh&Ep&_).
    destruct (Hpar' _ _ Hm0 Hid) as (p'&pn'&Hp'&?&Hpn'&Hc).
    assert (p' ≠ cursor) as Hp'c. { intros ->. assert (pn' = n) as -> by congruence. by rewrite Hleaf, lookup_empty in Hc. }
    destruct (detach_old _ _ Hp'c Hpn') as (pn2&?&_&_&_&Hsub).
    exists p', pn2. split_and!; try done; [congruence|]. rewrite Eh. by apply Hsub.
  - intros id m h c Hm Hc. assert (child_of s' id h = Some c) as Hco by (unfold child_of; by rewrite Hm).
    rewrite detach_child_of in Hco. destruct (decide _) as [|Hx]; [done|].
    assert (c ≠ cursor) as Hcc by (intros ->; by apply Hx, only_link).
    apply bind_Some in Hco as (m0&Hm0&Hc0). destruct (Hch _ _ _ _ Hm0 Hc0) as (cn&Hcn&?&?).
    destruct (detach_old _ _ Hcc Hcn) as (cn'&?&?&?&_). exists cn'. split_and!; congruence.
  - intros h id. rewrite Hbh, (index_delete _ _ _ _ _ _ Hids0), Hidx.
    split.
    + intros [[Hid (m&Hm&Hh)] Hx]. split; [done|]. assert (id ≠ cursor) as Hidc by (intros ->; apply Hx; split; congruence).
      destruct (detach_old _ _ Hidc Hm) as (m'&?&?&_). exists m'. split; congruence.
    + intros [Hid (m'&Hm'&Hh)]. destruct (detach_inv _ _ Hm') as (Hidc&m&Hm&Eh&_).
      split; [|by intros [_ ?]]. split; [done|]. exists m. split; congruence.
  - intros h ids. rewrite Hbh. case_bool_decide.
    + intros [_ ?]%lookup_delete_Some. by apply (Hnonempty h).
    + intros [[<- <-]|[_ ?]]%lookup_insert_Some; [done|by apply (Hnonempty h)].
  - intros id m' Hm'. destruct (detach_inv _ _ Hm') as (_&m&Hm&_). by eapply Hnx.
Qed.

Lemma detach_size : size (nodes s) = S (size (nodes s')).
Proof.
  unfold detach. cbn. rewrite Hpn. rewrite map_size_delete_Some.
  2: { rewrite lookup_insert_ne by done. by exists n. }
  rewrite map_size_insert_Some by by exists pn.
  assert (size (nodes s) ≠ 0%nat); [|lia]. apply map_size_non_empty_iff. intros He. by rewrite He, lookup_empty in Hn.
Qed.

(** The parent may become an empty leaf; no other node does. *)
Lemma detach_empty_leaf id : id ≠ p → empty_leaf_at s' id = true → id ≠ cursor ∧ empty_leaf_at s id = true.
Proof.
  intros Hp. unfold empty_leaf_at. destruct (decide (id = cursor)) as [->|Hc]; [by rewrite detach_cursor|].
  by rewrite detach_other.
Qed.

End Detach.

(** What pruning from a node achieves. *)
Record prune_ok (s : TreeState) (start : N) (s' : TreeState) : Prop := {
  prune_wf : tree_wf s';
  prune_holders q : holders s' q = holders s q;
  prune_walk q id : walk s' ROOT_ID q = Some id → walk s ROOT_ID q = Some id;
  prune_leaf id : empty_leaf_at s' id = true → id ≠ start ∧ empty_leaf_at s id = true;
  prune_nodes id : is_Some (nodes s' !! id) → is_Some (nodes s !! id);
  prune_size : (size (nodes s') ≤ size (nodes s))%nat;
  prune_shrinks : empty_leaf_at s start = true → (size (nodes s') < size (nodes s))%nat;
}.

Lemma empty_leaf_at_spec s id : empty_leaf_at s id = true ↔
  id ≠ ROOT_ID ∧ ∃ n, nodes s !! id = Some n ∧ workers n = ∅ ∧ children n = ∅.
Proof.
  unfold empty_leaf_at, is_empty_leaf. destruct (nodes s !! id) as [n|]; [|split; [done|by intros (_&?&?&_)]].
  rewrite andb_true_iff, negb_true_iff, N.eqb_neq, bool_decide_eq_true. split; [intros [? [? ?]]; eauto|].
  by intros [? (?&[= <-]&?&?)].
Qed.

Lemma prune_ok_refl s start : tree_wf s → empty_leaf_at s start = false → prune_ok s start s.
Proof.
  intros Hwf Hst. split; try done.
  - intros id Hid. split; [|done]. intros ->. congruence.
  - intros ?. congruence.
Qed.

Lemma prune_fuel_ok fuel s start : tree_wf s → (size (nodes s) < fuel)%nat → prune_ok s start (prune_cascade_fuel fuel s start).
Proof.
  revert s start. induction fuel as [|fuel IH]; intros s start Hwf Hf; [lia|]. cbn [prune_cascade_fuel].
  destruct (N.eqb_spec start ROOT_ID) as [->|Hr].
  { apply prune_ok_refl; [done|]. unfold empty_leaf_at. destruct (nodes s !! ROOT_ID); done. }
  destruct (nodes s !! start) as [n|] eqn:Hn.
  2: { apply prune_ok_refl; [done|]. unfold empty_leaf_at. by rewrite Hn. }
  destruct (wf_parent s Hwf _ _ Hn Hr) as (p&pn&Hp&Hlt&Hpn&Hlink). rewrite Hp.
  destruct (is_empty_leaf n) eqn:Hleaf; cbn [negb].
  2: { apply prune_ok_refl; [done|]. unfold empty_leaf_at. rewrite Hn, Hleaf. by rewrite andb_false_r. }
  apply bool_decide_eq_true in Hleaf as [Hw Hc]. assert (p ≠ start) as Hps by lia.
  destruct (walk_exists s Hwf start) as [path Hpath]; [by exists n|].
  set (s1 := detach s start p (block_hash n)).
  assert (tree_wf s1) as Hwf1 by (by eapply detach_wf).
  assert (size (nodes s) = S (size (nodes s1))) as Hsz by (by eapply detach_size).
  assert (∀ q, holders s1 q = holders s q) as Hh1.
  { intros q. unfold s1. erewrite detach_holders by done. destruct (decide (q = path)) as [->|]; [|done].
    by rewrite (holders_at s path start n). }
  assert (∀ q id, walk s1 ROOT_ID q = Some id → walk s ROOT_ID q = Some id) as Hk1.
  { intros q id. unfold s1. erewrite detach_walk by done. by destruct (decide (q = path)). }
  assert (∀ id, id ≠ p → empty_leaf_at s1 id = true → id ≠ start ∧ empty_leaf_at s id = true) as Hl1.
  { intros id ? ?. by eapply detach_empty_leaf. }
  assert (∀ id, is_Some (nodes s1 !! id) → is_Some (nodes s !! id)) as Hs1.
  { intros id [m Hm]. edestruct (detach_inv s start p n pn) as (_&m0&Hm0&_); eauto. }
  assert (empty_leaf_at s1 p = false → prune_ok s start s1) as Hstop.
  { intros Hp1. split; try done; try lia. intros id Hid. apply Hl1; [|done]. intros ->. congruence. }
  assert (nodes s1 !! p = Some (set_children pn (delete (block_hash n) (children pn)))) as Hp1 by (by eapply detach_parent).
  assert (empty_leaf_at s1 p = negb (p =? ROOT_ID) && is_empty_leaf (set_children pn (delete (block_hash n) (children pn)))) as Hbool.
  { unfold empty_leaf_at. by rewrite Hp1. }
  rewrite Hp1, <-Hbool. destruct (empty_leaf_at s1 p) eqn:Hpl; [|by apply Hstop].
  destruct (IH s1 p Hwf1) as [Hwf2 Hh2 Hk2 Hl2 Hs2 Hz2 Hz2']; [lia|]. split; try done; try lia.
  - intros q. by rewrite Hh2.
  - intros q id ?. by apply Hk1, Hk2.
  - intros id Hid. destruct (Hl2 id Hid). by apply Hl1.
  - intros id Hid. by apply Hs1, Hs2.
Qed.

Lemma prune_cascade_ok s start : tree_wf s → prune_ok s start (prune_cascade s start).
Proof. intros. apply prune_fuel_ok; [done|lia]. Qed.

(** ** The operations on the held chains *)

Section Update.
Context (s : TreeState) (id : N) (n n' : Node) (Hwf : tree_wf s) (Hn : nodes s !! id = Some n) (Hsh : shape n' = shape n).

Notation s' := (set_nodes s (<[id := n']> (nodes s))).

Lemma update_wf : tree_wf s'.
Proof. by eapply same_shape_wf, Hwf; eapply same_shape_update. Qed.

Lemma update_walk start q : walk s' start q = walk s start q.
Proof. by apply same_shape_walk; eapply same_shape_update. Qed.

Lemma update_holders q : holders s' q = if decide (walk s ROOT_ID q = Some id) then workers n' else holders s q.
Proof.
  unfold holders. rewrite update_walk. destruct (decide _) as [->|Hne].
  - cbn. by rewrite lookup_insert_eq.
  - destruct (walk s ROOT_ID q) as [id'|]; [|done]. cbn. rewrite lookup_insert_ne; [done|]. intros ->. by apply Hne.
Qed.

Lemma update_empty_leaf id' : empty_leaf_at s' id' =
  if decide (id' = id) then negb (id =? ROOT_ID) && is_empty_leaf n' else empty_leaf_at s id'.
Proof.
  unfold empty_leaf_at. cbn. destruct (decide (id' = id)) as [->|]; [by rewrite lookup_insert_eq|by rewrite lookup_insert_ne].
Qed.

Lemma update_size : size (nodes s') = size (nodes s).
Proof. cbn. rewrite map_size_insert_Some; [done|by exists n]. Qed.

End Update.

(** *** Storing *)

(** No more empty leaves than before. *)
Definition leaves_le (s s' : TreeState) : Prop := ∀ id, empty_leaf_at s' id = true → empty_leaf_at s id = true.

#[export] Instance leaves_le_preorder : PreOrder leaves_le.
Proof. split; [by intros s id|]. intros s1 s2 s3 H12 H23 id Hid. by apply H12, H23. Qed.

Lemma leaves_le_pruned s s' : leaves_le s s' → pruned s → pruned s'.
Proof. intros Hle Hpr id. destruct (empty_leaf_at s' id) eqn:He; [|done]. apply Hle in He. by rewrite Hpr in He. Qed.

Definition on_chain (base hs q : list Z) : Prop := ∃ pre, pre ≠ [] ∧ pre `prefix_of` hs ∧ q = base ++ pre.

Lemma on_chain_cons base h hs q : on_chain base (h :: hs) q ↔ q = base ++ [h] ∨ on_chain (base ++ [h]) hs q.
Proof.
  split.
  - intros ([|h' pre]&Hne&Hpre&->); [done|]. pose proof (prefix_cons_inv_1 _ _ _ _ Hpre) as ->.
    apply prefix_cons_inv_2 in Hpre. destruct pre as [|h2 pre]; [by left|right]. exists (h2 :: pre).
    by rewrite <-(assoc_L (++)).
  - intros [->|(pre&Hne&Hpre&->)].
    + exists [h]. split_and!; [done| |done]. apply prefix_cons, prefix_nil.
    + exists (h :: pre). rewrite <-(assoc_L (++)). split_and!; [done| |done]. by apply prefix_cons.
Qed.

Lemma insert_chain_correct now w hs : ∀ s current base, tree_wf s → walk s ROOT_ID base = Some current →
  let s' := insert_chain now s w current hs in
  tree_wf s' ∧ leaves_le s s' ∧ ∀ w' q, w' ∈ holders s' q ↔ w' ∈ holders s q ∨ w' = w ∧ on_chain base hs q.
Proof.
  induction hs as [|h hs IH]; intros s current base Hwf Hbase; cbn [insert_chain]; cbv zeta.
  { split_and!; [done..|]. intros w' q. split; [by left|]. intros [?|(_&pre&Hne&Hpre&_)]; [done|].
    by apply prefix_nil_inv in Hpre. }
  assert (∃ child s1 c, (match child_of s current h with Some id => (Some id, s) | None => create_child now s current h end)
      = (Some child, s1) ∧ tree_wf s1 ∧ nodes s1 !! child = Some c ∧ walk s1 ROOT_ID (base ++ [h]) = Some child ∧
      (∀ q, holders s1 q = holders s q) ∧ ∀ id, empty_leaf_at s1 id = true → id = child ∨ empty_leaf_at s id = true)
    as (child&s1&c&->&Hwf1&Hc&Hw1&Hh1&Hl1).
  { destruct (child_of s current h) as [child|] eqn:Hco.
    - destruct (child_of_node s Hwf _ _ _ Hco) as (cn&Hcn&_). exists child, s, cn. split_and!; try done.
      + by rewrite walk_snoc, Hbase.
      + intros id Hid. by right.
    - destruct (walk_node s Hwf _ _ Hbase) as [pn Hpn].
      assert (children pn !! h = None) as Hfree by (unfold child_of in Hco; by rewrite Hpn in Hco).
      exists (next_id s), (grown s now current pn h), (new_child now h current). split_and!.
      + by eapply create_child_grown.
      + by eapply grown_wf.
      + by eapply grown_new.
      + erewrite grown_walk by done. by rewrite decide_True.
      + intros q. by eapply grown_holders.
      + intros id Hid. destruct (grown_empty_leaf s now current pn h id Hid) as [|[_ ?]]; [by left|by right]. }
  rewrite Hc. set (c' := set_last_used (set_workers c ({[w]} ∪ workers c)) now).
  assert (shape c' = shape c) as Hsh by done.
  destruct (IH (set_nodes s1 (<[child := c']> (nodes s1))) child (base ++ [h])) as (Hwf2&Hl2&Hh2).
  { by eapply update_wf. }
  { by erewrite update_walk. }
  split_and!; [done|..].
  - intros id Hid. apply Hl2 in Hid. rewrite update_empty_leaf in Hid. destruct (decide (id = child)) as [->|Hne].
    + unfold is_empty_leaf in Hid. apply andb_true_iff in Hid as [_ Hid]. apply bool_decide_eq_true in Hid as [Hid _].
      exfalso. assert (w ∈ workers c') as Hin by (cbn; set_solver). rewrite Hid in Hin. by apply elem_of_empty in Hin.
    + apply Hl1 in Hid as [?|?]; done.
  - intros w' q. rewrite Hh2, on_chain_cons. erewrite update_holders by done. destruct (decide _) as [Hq|Hq].
    + assert (q = base ++ [h]) as -> by (by apply (walk_inj s1 Hwf1 _ _ child)). rewrite <-Hh1, (holders_at s1 _ child c) by done.
      cbn. rewrite elem_of_union, elem_of_singleton. naive_solver.
    + rewrite Hh1. assert (q ≠ base ++ [h]) as Hne by (intros ->; by apply Hq). naive_solver.
Qed.

(** Paths of the tree that end in a block. *)
Definition ends_in (s : TreeState) (h : Z) (path : list Z) : Prop :=
  is_Some (walk s ROOT_ID path) ∧ last path = Some h.

(** The path a worker's new blocks go under. *)
Definition parent_path (s : TreeState) (w : KvWorkerId) (parent_hash : option Z) (base : list Z) : Prop :=
  match parent_hash with
  | None => base = []
  | Some h =>
      (ends_in s h base ∧ ((∀ q, ends_in s h q → q = base) ∨ w ∈ holders s base)) ∨
      base = [] ∧ ∀ q, ends_in s h q → w ∉ holders s q ∧ ∃ q', ends_in s h q' ∧ q' ≠ q
  end.

(** The path a lookup starts from. *)
Definition match_base (s : TreeState) (parent_hash : option Z) (base : list Z) : Prop :=
  match parent_hash with
  | None => base = []
  | Some h =>
      (ends_in s h base ∧ ∀ q, ends_in s h q → q = base) ∨
      base = [] ∧ ∀ q, ends_in s h q → ∃ q', ends_in s h q' ∧ q' ≠ q
  end.

Section Ordered.
Context (iter_set : gset N → list N) (iter_nodes : gmap N Node → list N).
Hypothesis iter_set_ok : ∀ ids, iter_set ids ≡ₚ elements ids.
Hypothesis iter_nodes_ok : ∀ m, iter_nodes m ≡ₚ (map_to_list m).*1.

Lemma elem_of_iter_set id ids : id ∈ iter_set ids ↔ id ∈ ids.
Proof. rewrite iter_set_ok. apply elem_of_elements. Qed.

Lemma NoDup_iter_set ids : NoDup (iter_set ids).
Proof. rewrite iter_set_ok. apply NoDup_elements. Qed.

Lemma elem_of_iter_nodes id m : id ∈ iter_nodes m ↔ is_Some (m !! id).
Proof.
  rewrite iter_nodes_ok, list_elem_of_fmap. split.
  - intros ([id' n]&->&Hin). apply elem_of_map_to_list in Hin. by exists n.
  - intros [n Hn]. exists (id, n). split; [done|]. by apply elem_of_map_to_list.
Qed.

(** The paths that end in a block are the nodes of its index entry. *)
Lemma ends_in_index s h path id : tree_wf s → walk s ROOT_ID path = Some id →
  last path = Some h ↔ ∃ ids, by_hash s !! h = Some ids ∧ id ∈ ids.
Proof.
  intros Hwf Hw. rewrite (wf_index s Hwf). destruct path as [|h' path _] using rev_ind.
  - injection Hw as <-. split; [done|]. by intros [? _].
  - rewrite last_snoc. rewrite walk_snoc in Hw. apply bind_Some in Hw as (c&_&Hc).
    apply (child_of_node s Hwf) in Hc as (n&Hn&_&Hh&Hne). split.
    + intros [= ->]. split; [done|]. by exists n.
    + intros [_ (n'&Hn'&Hh')]. congruence.
Qed.

Lemma index_ends_in s h ids id : tree_wf s → by_hash s !! h = Some ids → id ∈ ids →
  ∃ path, walk s ROOT_ID path = Some id ∧ last path = Some h.
Proof.
  intros Hwf Hids Hin. destruct (proj1 (wf_index s Hwf h id)) as [_ (n&Hn&_)]; [by exists ids|].
  destruct (walk_exists s Hwf id) as [path Hpath]; [by exists n|]. exists path. split; [done|].
  apply (ends_in_index s h path id Hwf Hpath). by exists ids.
Qed.

Lemma no_entry_no_end s h path : tree_wf s → by_hash s !! h = None → ¬ ends_in s h path.
Proof. intros Hwf Hn [[id Hw] Hl]. apply (ends_in_index s h path id Hwf Hw) in Hl as (ids&?&_). congruence. Qed.

(** Two members of an index entry end different paths. *)
Lemma two_members s h ids a b : tree_wf s → by_hash s !! h = Some ids → a ∈ ids → b ∈ ids → a ≠ b →
  ∀ q, ends_in s h q → ∃ q', ends_in s h q' ∧ q' ≠ q.
Proof.
  intros Hwf Hids Ha Hb Hab q [[id Hw] _].
  destruct (index_ends_in s h ids a Hwf Hids Ha) as (pa&Hpa&Hla), (index_ends_in s h ids b Hwf Hids Hb) as (pb&Hpb&Hlb).
  destruct (decide (id = a)) as [->|Hne].
  - exists pb. split; [split; [by exists b|done]|]. intros ->. congruence.
  - exists pa. split; [split; [by exists a|done]|]. intros ->. congruence.
Qed.

Lemma singleton_unique s h ids id path : tree_wf s → by_hash s !! h = Some ids → iter_set ids = [id] →
  walk s ROOT_ID path = Some id → ∀ q, ends_in s h q → q = path.
Proof.
  intros Hwf Hids Hit Hpath q [[id' Hw] Hl]. apply (ends_in_index s h q id' Hwf Hw) in Hl as (ids'&?&Hin).
  assert (ids' = ids) as -> by congruence. apply elem_of_iter_set in Hin. rewrite Hit in Hin.
  apply list_elem_of_singleton in Hin as ->. by apply (walk_inj s Hwf _ _ id).
Qed.

(** An entry without exactly one member has two. *)
Lemma not_singleton s h ids : tree_wf s → by_hash s !! h = Some ids → (∀ id, iter_set ids ≠ [id]) →
  ∀ q, ends_in s h q → ∃ q', ends_in s h q' ∧ q' ≠ q.
Proof.
  intros Hwf Hids Hns. pose proof (NoDup_iter_set ids) as Hnd. destruct (iter_set ids) as [|a [|b l]] eqn:Hit.
  - exfalso. apply (wf_nonempty s Hwf h ids Hids). apply leibniz_equiv, elements_empty_inv, Permutation_nil. symmetry. by rewrite <-Hit, iter_set_ok.
  - by destruct (Hns a).
  - apply (two_members s h ids a b Hwf Hids); [apply elem_of_iter_set; rewrite Hit; by repeat constructor..|].
    apply NoDup_cons in Hnd as [Hnd _]. intros ->. apply Hnd. by left.
Qed.

Lemma resolve_parent_path s w parent_hash : tree_wf s →
  ∃ base, walk s ROOT_ID base = Some (resolve_parent iter_set s w parent_hash) ∧ parent_path s w parent_hash base.
Proof.
  intros Hwf. destruct parent_hash as [h|]; cbn; [|by exists []].
  destruct (by_hash s !! h) as [ids|] eqn:Hids.
  2: { exists []. split; [done|]. right. split; [done|]. intros q Hq. by destruct (no_entry_no_end s h q Hwf Hids). }
  assert ((∃ id, iter_set ids = [id]) ∨ ∀ id, iter_set ids ≠ [id]) as [[id Hit]|Hns].
  { destruct (iter_set ids) as [|a [|b l]]; [by right|left; by exists a|by right]. }
  - rewrite Hit. destruct (index_ends_in s h ids id Hwf Hids) as (path&Hpath&Hl).
    { apply elem_of_iter_set. rewrite Hit. by left. }
    exists path. split; [done|]. left. split; [split; [by exists id|done]|]. left. by eapply singleton_unique.
  - assert (∀ A (a : N → A) (b : A), match iter_set ids with [id] => a id | _ => b end = b) as Hm.
    { intros A a b. destruct (iter_set ids) as [|x [|y l]] eqn:Hit; try done. by destruct (Hns x). }
    rewrite Hm. destruct (list_find _ (iter_set ids)) as [[i cand]|] eqn:Hf.
    + apply list_find_Some in Hf as (Hi&Hh&_). apply list_elem_of_lookup_2, elem_of_iter_set in Hi.
      destruct (index_ends_in s h ids cand Hwf Hids Hi) as (path&Hpath&Hl). exists path. split; [done|]. left.
      split; [split; [by exists cand|done]|]. right. unfold holds in Hh. destruct (nodes s !! cand) as [n|] eqn:Hn; [|done].
      apply bool_decide_eq_true in Hh. by erewrite holders_at.
    + exists []. split; [done|]. right. split; [done|]. intros q Hq. split; [|by eapply not_singleton].
      apply list_find_None in Hf. destruct Hq as [[id Hw] Hl]. destruct (walk_node s Hwf _ _ Hw) as [n Hn].
      rewrite (holders_at s q id n Hw Hn). intros Hin. apply (ends_in_index s h q id Hwf Hw) in Hl as (ids'&?&Hid).
      assert (ids' = ids) as -> by congruence. apply elem_of_iter_set in Hid. rewrite Forall_forall in Hf.
      apply (Hf id Hid). unfold holds. rewrite Hn. by apply bool_decide_eq_true.
Qed.

Lemma insert_unfold now s w parent_hash hs :
  insert iter_set now s w parent_hash hs = insert_chain now s w (resolve_parent iter_set s w parent_hash) hs.
Proof. by destruct hs. Qed.

Lemma insert_wf now s w parent_hash hs : tree_wf s →
  tree_wf (insert iter_set now s w parent_hash hs) ∧ leaves_le s (insert iter_set now s w parent_hash hs).
Proof.
  intros Hwf. destruct (resolve_parent_path s w parent_hash Hwf) as (base&Hbase&_). rewrite insert_unfold.
  destruct (insert_chain_correct now w hs s _ base Hwf Hbase) as (?&?&_). done.
Qed.

(** Storing blocks adds the worker to the chain under the path its parent block resolves to, and to nothing else. *)
Theorem insert_holders now s w parent_hash hs :
  tree_wf s →
  ∃ base, parent_path s w parent_hash base ∧
    ∀ w' q, w' ∈ holders (insert iter_set now s w parent_hash hs) q ↔ w' ∈ holders s q ∨ w' = w ∧ on_chain base hs q.
Proof.
  intros Hwf. destruct (resolve_parent_path s w parent_hash Hwf) as (base&Hbase&Hpp). exists base. split; [done|].
  rewrite insert_unfold. by apply insert_chain_correct.
Qed.

(** *** Removing *)

Lemma remove_at_correct w s id : tree_wf s →
  let s' := remove_at w s id in
  tree_wf s' ∧ leaves_le s s' ∧ (∀ q i, walk s' ROOT_ID q = Some i → walk s ROOT_ID q = Some i) ∧
  ∀ w' q, w' ∈ holders s' q ↔ w' ∈ holders s q ∧ ¬ (w' = w ∧ walk s ROOT_ID q = Some id).
Proof.
  intros Hwf. unfold remove_at. destruct (nodes s !! id) as [n|] eqn:Hn.
  2: { split_and!; [done..|]. intros w' q. split; [|by intros [? _]]. intros Hin. split; [done|]. intros [_ Hw].
       destruct (walk_node s Hwf _ _ Hw) as [m ?]. congruence. }
  set (n' := set_workers n (workers n ∖ {[w]})). set (s1 := set_nodes s _). assert (shape n' = shape n) as Hsh by done.
  assert (tree_wf s1) as Hwf1 by (by eapply update_wf).
  assert (∀ q, walk s1 ROOT_ID q = walk s ROOT_ID q) as Hw1 by (intros q; by eapply update_walk).
  assert (∀ w' q, w' ∈ holders s1 q ↔ w' ∈ holders s q ∧ ¬ (w' = w ∧ walk s ROOT_ID q = Some id)) as Hh1.
  { intros w' q. unfold s1. erewrite update_holders by done. destruct (decide _) as [Hq|Hq].
    - rewrite (holders_at s q id n Hq Hn). cbn. rewrite elem_of_difference, elem_of_singleton. naive_solver.
    - naive_solver. }
  assert (∀ id', empty_leaf_at s1 id' = if decide (id' = id) then negb (id =? ROOT_ID) && is_empty_leaf n' else empty_leaf_at s id') as Hl1.
  { intros id'. by apply update_empty_leaf. }
  destruct (is_empty_leaf n') eqn:Hleaf.
  - destruct (prune_cascade_ok s1 id Hwf1) as [? Hh2 Hk2 Hl2 _ _ _]. split_and!; [done| | |].
    + intros id' Hid. destruct (Hl2 id' Hid) as [Hne Hl]. rewrite Hl1, decide_False in Hl by done. done.
    + intros q i Hq. rewrite <-Hw1. by apply Hk2.
    + intros w' q. by rewrite Hh2.
  - split_and!; [done| |by intros; rewrite <-Hw1|done]. intros id' Hid. rewrite Hl1 in Hid. destruct (decide _) as [->|]; [|done].
    by rewrite andb_false_r in Hid.
Qed.

Lemma remove_targets_correct w ids : ∀ s, tree_wf s →
  let s' := foldl (remove_at w) s ids in
  tree_wf s' ∧ leaves_le s s' ∧
  ∀ w' q, w' ∈ holders s' q ↔ w' ∈ holders s q ∧ ¬ (w' = w ∧ ∃ id, id ∈ ids ∧ walk s ROOT_ID q = Some id).
Proof.
  induction ids as [|id ids IH]; intros s Hwf; cbn.
  { split_and!; [done..|]. intros w' q. split; [|by intros [? _]]. intros ?. split; [done|]. by intros (_&?&?%elem_of_nil&_). }
  destruct (remove_at_correct w s id Hwf) as (Hwf1&Hl1&Hk1&Hh1). destruct (IH _ Hwf1) as (Hwf2&Hl2&Hh2).
  split_and!; [done|by etrans|]. intros w' q. rewrite Hh2, Hh1. split.
  - intros [[Hin Hx] Hy]. split; [done|]. intros [-> (i&Hi&Hw)]. apply elem_of_cons in Hi as [->|Hi]; [by apply Hx|].
    assert (w ∈ holders (remove_at w s id) q) as Hin1 by (apply Hh1; by split).
    assert (is_Some (walk (remove_at w s id) ROOT_ID q)) as [j Hj].
    { apply holders_walk. intros He. rewrite He in Hin1. by apply elem_of_empty in Hin1. }
    pose proof (Hk1 _ _ Hj). apply Hy. split; [done|]. exists j. split; [|done]. congruence.
  - intros [Hin Hx]. split; [split; [done|]|].
    + intros [-> Hw]. apply Hx. split; [done|]. exists id. split; [by left|done].
    + intros [-> (i&Hi&Hw)]. apply Hx. split; [done|]. exists i. split; [by right|by apply Hk1].
Qed.

Lemma remove_wf s w hs : tree_wf s → tree_wf (remove iter_set s w hs) ∧ leaves_le s (remove iter_set s w hs).
Proof. intros Hwf. unfold remove. cbv zeta. set (targets := hs ≫= _). by destruct (remove_targets_correct w targets s Hwf) as (?&?&_). Qed.

(** A removal takes the worker off every chain that ends in one of the blocks, and off no other chain. *)
Theorem remove_holders s w hs :
  tree_wf s → ∀ w' q, w' ∈ holders (remove iter_set s w hs) q ↔ w' ∈ holders s q ∧ ¬ (w' = w ∧ ∃ h, h ∈ hs ∧ last q = Some h).
Proof.
  intros Hwf w' q. unfold remove. cbv zeta. set (targets := hs ≫= _).
  destruct (remove_targets_correct w targets s Hwf) as (_&_&Hh). rewrite Hh. assert (∀ id, walk s ROOT_ID q = Some id → id ∈ targets ↔ ∃ h, h ∈ hs ∧ last q = Some h) as Ht.
  { intros id Hw. unfold targets. rewrite list_elem_of_bind. split.
    - intros (h&Hid&Hin). exists h. split; [done|]. apply (ends_in_index s h q id Hwf Hw).
      destruct (by_hash s !! h) as [ids|]; [|by apply elem_of_nil in Hid]. exists ids. split; [done|]. by apply elem_of_iter_set.
    - intros (h&Hin&Hl). exists h. split; [|done]. apply (ends_in_index s h q id Hwf Hw) in Hl as (ids&->&Hid).
      by apply elem_of_iter_set. }
  split; intros [Hin Hx]; (split; [done|]).
  - intros [-> Hq]. apply Hx. split; [done|]. assert (is_Some (walk s ROOT_ID q)) as [id Hw].
    { apply holders_walk. intros He. rewrite He in Hin. by apply elem_of_empty in Hin. }
    exists id. split; [by apply (Ht id)|done].
  - intros [-> (id&Hid&Hw)]. apply Hx. split; [done|]. by apply (Ht id).
Qed.

(** *** Clearing a worker *)

Lemma clear_nodes_correct w ids : ∀ s cs, tree_wf s → ROOT_ID ∉ ids →
  let '(cs', s') := clear_nodes w s ids cs in
  tree_wf s' ∧ (∀ q, walk s' ROOT_ID q = walk s ROOT_ID q) ∧ (∀ id, id ∈ cs → id ∈ cs') ∧
  (∀ id, empty_leaf_at s' id = true → empty_leaf_at s id = true ∨ id ∈ cs') ∧
  ∀ w' q, w' ∈ holders s' q ↔ w' ∈ holders s q ∧ ¬ (w' = w ∧ ∃ id, id ∈ ids ∧ walk s ROOT_ID q = Some id).
Proof.
  induction ids as [|id ids IH]; intros s cs Hwf Hroot; cbn [clear_nodes].
  { split_and!; [done|done|done|by left|]. intros w' q. split; [|by intros [? _]]. intros ?. split; [done|]. by intros (_&?&?%elem_of_nil&_). }
  apply not_elem_of_cons in Hroot as [Hid Hroot]. destruct (nodes s !! id) as [n|] eqn:Hn.
  2: { specialize (IH s cs Hwf Hroot). destruct (clear_nodes w s ids cs) as [cs' s']. destruct IH as (?&?&?&?&Hh).
       split_and!; [done..|]. intros w' q. rewrite Hh. assert (walk s ROOT_ID q ≠ Some id) as Hne.
       { intros Hw. destruct (walk_node s Hwf _ _ Hw) as [m ?]. congruence. }
       split; intros [Hin Hx]; (split; [done|]); intros [-> (i&Hi&Hw)]; apply Hx; (split; [done|]); exists i.
       - apply elem_of_cons in Hi as [->|Hi]; done.
       - split; [by right|done]. }
  set (n' := set_workers n (workers n ∖ {[w]})). set (s1 := set_nodes s _). assert (shape n' = shape n) as Hsh by done.
  assert (tree_wf s1) as Hwf1 by (by eapply update_wf).
  assert (∀ q, walk s1 ROOT_ID q = walk s ROOT_ID q) as Hw1 by (intros q; by eapply update_walk).
  set (cs1 := if _ : bool then _ else _). specialize (IH s1 cs1 Hwf1 Hroot).
  destruct (clear_nodes w s1 ids cs1) as [cs' s']. destruct IH as (?&Hw2&Hc2&Hl2&Hh2). split_and!; [done| | | |].
  - intros q. by rewrite Hw2.
  - intros i Hi. apply Hc2. unfold cs1. destruct (_ && _); [|done]. by apply elem_of_app; left.
  - intros i Hi. apply Hl2 in Hi as [Hi|Hi]; [|by right]. unfold s1 in Hi. rewrite update_empty_leaf in Hi.
    destruct (decide (i = id)) as [->|]; [|by left]. apply andb_true_iff in Hi as [Hr Hleaf].
    destruct (bool_decide (w ∈ workers n)) eqn:Hin.
    + right. apply Hc2. unfold cs1. rewrite Hleaf. cbn. apply elem_of_app. right. by apply list_elem_of_singleton.
    + left. apply bool_decide_eq_false in Hin. unfold empty_leaf_at. rewrite Hn, Hr. cbn.
      apply bool_decide_eq_true in Hleaf as [He ?]. apply bool_decide_eq_true. split; [|done]. cbn in He.
      apply leibniz_equiv. intros x. split; [|by intros ?%elem_of_empty]. intros Hx. rewrite <-He. apply elem_of_difference.
      split; [done|]. intros ->%elem_of_singleton. done.
  - intros w' q. rewrite Hh2, Hw1. unfold s1. erewrite update_holders by done. destruct (decide _) as [Hq|Hq].
    + rewrite (holders_at s q id n Hq Hn). cbn. rewrite elem_of_difference, elem_of_singleton. split.
      * intros [[Hin Hne] Hx]. split; [done|]. by intros [-> _].
      * intros [Hin Hx]. assert (w' ≠ w) as Hne.
        { intros ->. apply Hx. split; [done|]. exists id. split; [by left|done]. }
        split; [done|]. by intros [-> _].
    + split; intros [Hin Hx]; (split; [done|]); intros [-> (i&Hi&Hw)]; apply Hx; (split; [done|]); exists i.
      * apply elem_of_cons in Hi as [->|Hi]; done.
      * split; [by right|done].
Qed.

Lemma prune_present_ok s id : tree_wf s → prune_ok s id (prune_present s id).
Proof.
  intros Hwf. unfold prune_present. destruct (nodes s !! id) eqn:Hn; [by apply prune_cascade_ok|].
  apply prune_ok_refl; [done|]. unfold empty_leaf_at. by rewrite Hn.
Qed.

Lemma prune_all_ok ids : ∀ s, tree_wf s →
  let s' := foldl prune_present s ids in
  tree_wf s' ∧ (∀ q, holders s' q = holders s q) ∧
  ∀ id, empty_leaf_at s' id = true → id ∉ ids ∧ empty_leaf_at s id = true.
Proof.
  induction ids as [|id ids IH]; intros s Hwf; cbn.
  { split_and!; [done..|]. intros i Hi. split; [by apply not_elem_of_nil|done]. }
  destruct (prune_present_ok s id Hwf) as [Hwf1 Hh1 _ Hl1 _ _ _]. destruct (IH _ Hwf1) as (?&Hh2&Hl2).
  split_and!; [done| |].
  - intros q. by rewrite Hh2.
  - intros i Hi. apply Hl2 in Hi as [Hi1 Hi2]. apply Hl1 in Hi2 as [? ?]. split; [|done]. by apply not_elem_of_cons.
Qed.

Lemma clear_worker_spec s w : tree_wf s →
  let s' := clear_worker iter_nodes s w in
  tree_wf s' ∧ leaves_le s s' ∧
  ∀ w' q, w' ∈ holders s' q ↔ w' ∈ holders s q ∧ ¬ (w' = w ∧ ∃ id, id ≠ ROOT_ID ∧ walk s ROOT_ID q = Some id).
Proof.
  intros Hwf. unfold clear_worker. cbv zeta. set (ids := filter _ _).
  assert (∀ id, id ∈ ids ↔ id ≠ ROOT_ID ∧ is_Some (nodes s !! id)) as Hids.
  { intros id. unfold ids. by rewrite list_elem_of_filter, elem_of_iter_nodes. }
  pose proof (clear_nodes_correct w ids s [] Hwf) as Hc. destruct (clear_nodes w s ids []) as [cs s1].
  destruct Hc as (Hwf1&Hw1&_&Hl1&Hh1); [rewrite Hids; by intros [? _]|].
  destruct (prune_all_ok cs s1 Hwf1) as (Hwf2&Hh2&Hl2). split_and!; [done| |].
  - intros id He. apply Hl2 in He as [Hn He]. by apply Hl1 in He as [He|].
  - intros w' q. rewrite Hh2, Hh1. split; intros [Hin Hx]; (split; [done|]); intros [-> (id&Hid&Hw)]; apply Hx; split; try done;
      exists id; (split; [|done]); [|by apply Hids]. apply Hids. split; [done|]. by eapply walk_node.
Qed.

(** Clearing a worker takes it off every chain, and touches no other worker. *)
Theorem clear_worker_holders s w :
  tree_wf s → ∀ w' q, q ≠ [] → w' ∈ holders (clear_worker iter_nodes s w) q ↔ w' ∈ holders s q ∧ w' ≠ w.
Proof.
  intros Hwf w' q Hq. destruct (clear_worker_spec s w Hwf) as (_&_&Hh). rewrite Hh.
  split; intros [Hin Hx]; (split; [done|]); [intros ->|by intros [-> _]].
  apply Hx. split; [done|]. assert (is_Some (walk s ROOT_ID q)) as [id Hw].
  { apply holders_walk. intros He. rewrite He in Hin. by apply elem_of_empty in Hin. }
  exists id. split; [|done]. intros ->. apply Hq. by apply (walk_inj s Hwf _ _ ROOT_ID).
Qed.

(** *** Matching *)

(** The same tree up to the clocks. *)
Definition same_holders (s s' : TreeState) : Prop :=
  same_shape s s' ∧ ∀ id, workers <$> nodes s' !! id = workers <$> nodes s !! id.

#[local] Instance same_holders_preorder : PreOrder same_holders.
Proof.
  split; [by intros s|]. intros s1 s2 s3 [? H12] [? H23]. split; [by etrans|]. intros id. by rewrite H23, H12.
Qed.

Lemma touch_same_holders s id n now : nodes s !! id = Some n →
  same_holders s (set_nodes s (<[id := set_last_used n now]> (nodes s))).
Proof.
  intros Hn. split; [by eapply same_shape_update|]. intros id'. cbn. destruct (decide (id' = id)) as [->|].
  - by rewrite lookup_insert_eq, Hn.
  - by rewrite lookup_insert_ne.
Qed.

Lemma same_holders_holders s s' q : same_holders s s' → holders s' q = holders s q.
Proof.
  intros [Hs Hw]. unfold holders. rewrite (same_shape_walk s s') by done. destruct (walk s ROOT_ID q) as [id|]; [|done].
  specialize (Hw id). destruct (nodes s !! id), (nodes s' !! id); cbn in Hw; congruence.
Qed.

Lemma same_holders_pruned s s' : same_holders s s' → pruned s → pruned s'.
Proof.
  intros [(_&_&Hs) Hw] Hpr id. specialize (Hs id). specialize (Hw id). specialize (Hpr id). unfold empty_leaf_at, is_empty_leaf in *.
  destruct (nodes s !! id) as [n|], (nodes s' !! id) as [n'|]; cbn in Hs, Hw; try done.
  unfold shape in Hs. assert (workers n' = workers n) as -> by congruence. by assert (children n' = children n) as -> by congruence.
Qed.

Lemma match_chain_correct now hs : ∀ s current matched last_match base, tree_wf s → walk s ROOT_ID base = Some current →
  let '((m, l), s') := match_chain now s current matched last_match hs in
  same_holders s s' ∧ ∃ pre, pre `prefix_of` hs ∧ m = matched + len pre ∧ is_Some (walk s ROOT_ID (base ++ pre)) ∧
    (l = if decide (pre = []) then last_match else walk s ROOT_ID (base ++ pre)) ∧
    ∀ h, pre ++ [h] `prefix_of` hs → walk s ROOT_ID (base ++ pre ++ [h]) = None.
Proof.
  induction hs as [|h hs IH]; intros s current matched last_match base Hwf Hbase; cbn [match_chain].
  { split; [done|]. exists []. split_and!; [done|change (len []) with 0; lia|by rewrite app_nil_r; exists current|done|].
    intros h Hp. by apply prefix_nil_inv in Hp. }
  destruct (child_of s current h) as [child|] eqn:Hco.
  2: { split; [done|]. exists []. split_and!; [apply prefix_nil|change (len []) with 0; lia|by rewrite app_nil_r; exists current|done|].
       intros h' Hp. apply prefix_cons_inv_1 in Hp as ->. rewrite app_nil_l, walk_snoc, Hbase. done. }
  destruct (child_of_node s Hwf _ _ _ Hco) as (c&Hc&_). rewrite Hc. set (s1 := set_nodes s _).
  assert (same_holders s s1) as Hs1 by (by apply touch_same_holders).
  assert (walk s ROOT_ID (base ++ [h]) = Some child) as Hw by (by rewrite walk_snoc, Hbase).
  assert (∀ q, walk s1 ROOT_ID q = walk s ROOT_ID q) as Hw1 by (intros q; apply same_shape_walk, Hs1).
  specialize (IH s1 child (matched + 1) (Some child) (base ++ [h])).
  destruct (match_chain now s1 child (matched + 1) (Some child) hs) as [[m l] s'].
  destruct IH as (Hs2&pre&Hpre&->&Hex&->&Hmax); [by eapply same_shape_wf, Hwf; apply Hs1|by rewrite Hw1|].
  split; [by etrans|]. exists (h :: pre).
  assert (∀ p, walk s ROOT_ID (base ++ h :: p) = walk s1 ROOT_ID ((base ++ [h]) ++ p)) as Hbp.
  { intros p. by rewrite Hw1, <-(assoc_L (++)). }
  split_and!.
  - by apply prefix_cons.
  - unfold len. cbn [length]. lia.
  - by rewrite Hbp.
  - rewrite Hbp. destruct (decide (pre = [])) as [->|]; [|done]. by rewrite app_nil_r, Hw1, Hw.
  - intros h' Hp. cbn. rewrite Hbp. apply Hmax. by eapply prefix_cons_inv_2.
Qed.

Lemma match_base_path s (parent_hash : option Z) : tree_wf s →
  ∃ base, walk s ROOT_ID base = Some (match parent_hash with
                     | None => ROOT_ID
                     | Some p => match by_hash s !! p with
                                 | Some ids => match iter_set ids with [id] => id | _ => ROOT_ID end
                                 | None => ROOT_ID
                                 end
                     end) ∧ match_base s parent_hash base.
Proof.
  intros Hwf. destruct parent_hash as [h|]; cbn; [|by exists []].
  destruct (by_hash s !! h) as [ids|] eqn:Hids.
  2: { exists []. split; [done|]. right. split; [done|]. intros q Hq. by destruct (no_entry_no_end s h q Hwf Hids). }
  assert ((∃ id, iter_set ids = [id]) ∨ ∀ id, iter_set ids ≠ [id]) as [[id Hit]|Hns].
  { destruct (iter_set ids) as [|a [|b l]]; [by right|left; by exists a|by right]. }
  - rewrite Hit. destruct (index_ends_in s h ids id Hwf Hids) as (path&Hpath&Hl).
    { apply elem_of_iter_set. rewrite Hit. by left. }
    exists path. split; [done|]. left. split; [split; [by exists id|done]|]. by eapply singleton_unique.
  - exists []. split; [|right; split; [done|]; by eapply not_singleton].
    destruct (iter_set ids) as [|x [|y l]] eqn:Hit; try done. by destruct (Hns x).
Qed.

Lemma match_prefix_same now s parent_hash hs : tree_wf s → same_holders s (match_prefix iter_set now s parent_hash hs).2.
Proof.
  intros Hwf. destruct hs as [|h hs]; [done|]. unfold match_prefix.
  destruct (match_base_path s parent_hash Hwf) as (base&Hbase&_).
  match type of Hbase with _ = Some ?x => set (start := x) in * end.
  pose proof (match_chain_correct now (h :: hs) s start 0 None base Hwf Hbase) as Hm.
  destruct (match_chain now s start 0 None (h :: hs)) as [[m l] s']. apply Hm.
Qed.

(** C30. A lookup matches the longest prefix of the hashes that the chain of some worker
    goes through, whether or not a worker holds that prefix itself: some worker holds
    it or a chain that continues it, and nobody holds a chain that goes on with the next
    hash.  It returns the workers that hold exactly that prefix, which may be none, and
    changes nothing but the clocks. *)
Theorem tree_match_longest now s parent_hash hs :
  tree_wf s → pruned s → hs ≠ [] →
  let r := (match_prefix iter_set now s parent_hash hs).1 in
  ∃ base pre, match_base s parent_hash base ∧ pre `prefix_of` hs ∧ matched_blocks r = len pre ∧
    matched_workers r = (if decide (pre = []) then ∅ else holders s (base ++ pre)) ∧
    (pre ≠ [] → ∃ q, holders s (base ++ pre ++ q) ≠ ∅) ∧
    (∀ h, pre ++ [h] `prefix_of` hs → ∀ q, holders s (base ++ pre ++ h :: q) = ∅) ∧
    same_holders s (match_prefix iter_set now s parent_hash hs).2.
Proof.
  intros Hwf Hpr Hne. pose proof (match_prefix_same now s parent_hash hs Hwf) as Hclocks. revert Hclocks. destruct hs as [|h hs]; [done|]. unfold match_prefix.
  destruct (match_base_path s parent_hash Hwf) as (base&Hbase&Hmb).
  match type of Hbase with _ = Some ?x => set (start := x) in * end.
  pose proof (match_chain_correct now (h :: hs) s start 0 None base Hwf Hbase) as Hm.
  destruct (match_chain now s start 0 None (h :: hs)) as [[m l] s'].
  destruct Hm as (Hsame&pre&Hpre&->&Hex&->&Hmax). intros Hclocks. exists base, pre. cbn. split_and!; [done|done|lia| | | |exact Hclocks].
  - destruct (decide (pre = [])); [done|]. rewrite <-(same_holders_holders s s') by done. unfold holders.
    by rewrite (same_shape_walk s s') by apply Hsame.
  - intros Hp. destruct Hex as [id Hid].
    destruct (proj1 (pruned_walk s (base ++ pre) Hwf Hpr ltac:(by destruct base, pre))) as [q Hq]; [by exists id|].
    exists q. by rewrite (assoc_L (++)).
  - intros h' Hp q. specialize (Hmax h' Hp). unfold holders.
    change (h' :: q) with ([h'] ++ q). rewrite !(assoc_L (++)) in *. by rewrite walk_app, Hmax.
Qed.

(** *** Eviction *)

Definition is_leaf (s : TreeState) (id n_last_used : N) : Prop :=
  id ≠ ROOT_ID ∧ ∃ n, nodes s !! id = Some n ∧ children n = ∅ ∧ last_used n = n_last_used.

Lemma oldest_leaf_spec s ids : ∀ acc,
  match oldest_leaf s ids acc with
  | Some (t, id) => (acc = Some (t, id) ∨ id ∈ ids ∧ is_leaf s id t) ∧
      (∀ id' t', id' ∈ ids → is_leaf s id' t' → t ≤ t') ∧ ∀ t0 id0, acc = Some (t0, id0) → t ≤ t0
  | None => acc = None ∧ ∀ id' t', id' ∈ ids → ¬ is_leaf s id' t'
  end.
Proof.
  induction ids as [|id ids IH]; intros acc; cbn [oldest_leaf].
  { destruct acc as [[t id]|]; split_and!; try done; [by left| |intros ? ? [= -> ->]; lia|];
      intros ? ? Hin; by apply elem_of_nil in Hin. }
  assert (∀ acc', (∀ t', is_leaf s id t' → ∃ t1 id1, acc' = Some (t1, id1) ∧ t1 ≤ t') →
    (∀ t0 id0, acc = Some (t0, id0) → ∃ t1 id1, acc' = Some (t1, id1) ∧ t1 ≤ t0) →
    (∀ t1 id1, acc' = Some (t1, id1) → acc = Some (t1, id1) ∨ id1 = id ∧ is_leaf s id t1) →
    match oldest_leaf s ids acc' with
    | Some (t, id') => (acc = Some (t, id') ∨ id' ∈ id :: ids ∧ is_leaf s id' t) ∧
        (∀ id2 t', id2 ∈ id :: ids → is_leaf s id2 t' → t ≤ t') ∧ ∀ t0 id0, acc = Some (t0, id0) → t ≤ t0
    | None => acc = None ∧ ∀ id' t', id' ∈ id :: ids → ¬ is_leaf s id' t'
    end) as Hstep.
  { intros acc' Hl Ha Hsrc. specialize (IH acc'). destruct (oldest_leaf s ids acc') as [[t id']|].
    - destruct IH as (Hwho&Hmin&Hacc). split_and!.
      + destruct Hwho as [He|[Hin Hleaf]]; [|right; split; [by right|done]].
        destruct (Hsrc _ _ He) as [?|[-> ?]]; [by left|right; split; [by left|done]].
      + intros id2 t' [->|Hin]%elem_of_cons Hleaf; [|by eapply Hmin].
        destruct (Hl t' Hleaf) as (t1&id1&He&Hle). specialize (Hacc _ _ He). lia.
      + intros t0 id0 He. destruct (Ha _ _ He) as (t1&id1&He1&Hle). specialize (Hacc _ _ He1). lia.
    - destruct IH as (->&Hno). split.
      + destruct acc as [[t0 id0]|]; [|done]. by destruct (Ha t0 id0 eq_refl) as (?&?&?&_).
      + intros id2 t' [->|Hin]%elem_of_cons Hleaf; [|by eapply Hno]. by destruct (Hl t' Hleaf) as (?&?&?&_). }
  destruct (nodes s !! id) as [n|] eqn:Hn.
  2: { apply Hstep; [intros t' (_&n&?&_); congruence|intros t0 id0 ->; exists t0, id0; split; [done|lia]|by left]. }
  destruct ((id =? ROOT_ID) || negb (bool_decide (children n = ∅)))%bool eqn:Hskip.
  - apply Hstep; [|intros t0 id0 ->; exists t0, id0; split; [done|lia]|by left].
    intros t' (Hr&n'&Hn'&Hc&_). assert (n' = n) as -> by congruence. apply orb_true_iff in Hskip as [He|He].
    + by apply N.eqb_eq in He.
    + apply negb_true_iff, bool_decide_eq_false in He. done.
  - apply orb_false_iff in Hskip as [Hr Hc]. apply N.eqb_neq in Hr. apply negb_false_iff, bool_decide_eq_true in Hc.
    assert (∀ t', is_leaf s id t' → t' = last_used n) as Hlu.
    { intros t' (_&n'&?&_&<-). congruence. }
    assert (is_leaf s id (last_used n)) as Hleaf by (split; [done|by exists n]).
    destruct acc as [[t0 id0]|]; [destruct (N.ltb_spec (last_used n) t0)|]; apply Hstep.
    + intros t' ->%Hlu. by exists (last_used n), id.
    + intros ? ? [= <- <-]. exists (last_used n), id. split; [done|lia].
    + intros t1 id1 [= <- <-]. by right.
    + intros t' ->%Hlu. by exists t0, id0.
    + intros ? ? [= <- <-]. exists t0, id0. split; [done|lia].
    + by left.
    + intros t' ->%Hlu. by exists (last_used n), id.
    + done.
    + intros t1 id1 [= <- <-]. by right.
Qed.

(** Every node has a leaf below it. *)
Lemma leaf_above s id n : tree_wf s → nodes s !! id = Some n → ∃ id' n', id ≤ id' ∧ nodes s !! id' = Some n' ∧ children n' = ∅.
Proof.
  intros Hwf. assert (∀ k id n, next_id s - id ≤ k → nodes s !! id = Some n →
    ∃ id' n', id ≤ id' ∧ nodes s !! id' = Some n' ∧ children n' = ∅) as Hmain; [|intros; by eapply Hmain].
  clear id n. induction k as [|k IH] using N.peano_ind; intros id n Hk Hn; pose proof (wf_next s Hwf _ _ Hn); [lia|].
  destruct (decide (children n = ∅)) as [|Hc]; [by exists id, n|]. apply map_choose in Hc as (h&c&Hc).
  destruct (wf_child s Hwf _ _ _ _ Hn Hc) as (cn&Hcn&Hp&Hh).
  assert (c ≠ ROOT_ID) as Hcr. { intros ->. destruct (wf_root s Hwf) as (r&?&?). congruence. }
  destruct (wf_parent s Hwf _ _ Hcn Hcr) as (p&pn&?&Hlt&_). assert (p = id) as -> by congruence.
  destruct (IH c cn) as (id'&n'&?&?&?); [lia|done|]. exists id', n'. split_and!; [lia|done..].
Qed.

Lemma node_count_spec s : tree_wf s → N.of_nat (size (nodes s)) = node_count s + 1.
Proof.
  intros Hwf. destruct (wf_root s Hwf) as (r&Hr&_). assert (size (nodes s) ≠ 0%nat).
  { apply map_size_non_empty_iff. intros He. by rewrite He, lookup_empty in Hr. }
  unfold node_count, saturating_sub. lia.
Qed.

Lemma oldest_leaf_exists s : tree_wf s → 0 < node_count s → oldest_leaf s (iter_nodes (nodes s)) None ≠ None.
Proof.
  intros Hwf Hc He. pose proof (oldest_leaf_spec s (iter_nodes (nodes s)) None) as Hs. rewrite He in Hs. destruct Hs as [_ Hno].
  pose proof (node_count_spec s Hwf). destruct (wf_root s Hwf) as (r&Hr&_).
  assert (delete ROOT_ID (nodes s) ≠ ∅) as Hne.
  { apply map_size_non_empty_iff. rewrite map_size_delete_Some by by exists r. lia. }
  apply map_choose in Hne as (id&n&[Hid Hn]%lookup_delete_Some).
  destruct (leaf_above s id n Hwf Hn) as (id'&n'&Hle&Hn'&Hch). apply (Hno id' (last_used n')).
  - apply elem_of_iter_nodes. by exists n'.
  - split; [unfold ROOT_ID in *; lia|by exists n'].
Qed.

(** Emptying a leaf and pruning it. *)
Definition evict_leaf (s : TreeState) (victim : N) : TreeState :=
  prune_cascade (match nodes s !! victim with
                 | Some n => set_nodes s (<[victim := set_workers n ∅]> (nodes s))
                 | None => s
                 end) victim.

Lemma evict_leaf_correct s victim t : tree_wf s → is_leaf s victim t →
  let s' := evict_leaf s victim in
  tree_wf s' ∧ leaves_le s s' ∧ (size (nodes s') < size (nodes s))%nat ∧
  ∀ q, holders s' q = if decide (walk s ROOT_ID q = Some victim) then ∅ else holders s q.
Proof.
  intros Hwf (Hr&n&Hn&Hc&_). unfold evict_leaf. rewrite Hn. set (s1 := set_nodes s _).
  assert (shape (set_workers n ∅) = shape n) as Hsh by done.
  assert (tree_wf s1) as Hwf1 by (by eapply update_wf).
  assert (empty_leaf_at s1 victim = true) as Hl.
  { unfold s1. rewrite update_empty_leaf, decide_True by done. apply andb_true_iff. split; [by apply negb_true_iff, N.eqb_neq|].
    by apply bool_decide_eq_true. }
  destruct (prune_cascade_ok s1 victim Hwf1) as [? Hh _ Hle _ _ Hlt]. cbn. split_and!; [done| | |].
  - intros id Hid. apply Hle in Hid as [Hne Hid]. unfold s1 in Hid. by rewrite update_empty_leaf, decide_False in Hid.
  - specialize (Hlt Hl). unfold s1 in Hlt at 2. by rewrite (update_size s victim n) in Hlt.
  - intros q. rewrite Hh. unfold s1. by erewrite update_holders.
Qed.

Lemma evict_loop_step k max_size s : evict_loop iter_nodes (S k) max_size s =
  if negb (max_size <? node_count s) then s
  else match oldest_leaf s (iter_nodes (nodes s)) None with
       | None => s
       | Some (_, victim) => evict_loop iter_nodes k max_size (evict_leaf s victim)
       end.
Proof. done. Qed.

(** Every round drops a node: the budget of rounds is enough. *)
Lemma evict_loop_correct max_size k : ∀ s, tree_wf s → (size (nodes s) ≤ k)%nat →
  let s' := evict_loop iter_nodes k max_size s in
  tree_wf s' ∧ leaves_le s s' ∧ node_count s' ≤ max_size ∧ (size (nodes s') ≤ size (nodes s))%nat ∧
  ∀ q, holders s' q = holders s q ∨ holders s' q = ∅.
Proof.
  induction k as [|k IH]; intros s Hwf Hk.
  { exfalso. pose proof (node_count_spec s Hwf). lia. }
  rewrite evict_loop_step. destruct (N.ltb_spec max_size (node_count s)) as [Hlt|Hge]; cbn [negb].
  2: { cbv zeta. split_and!; [done..|by left]. }
  destruct (oldest_leaf s (iter_nodes (nodes s)) None) as [[t victim]|] eqn:Ho.
  2: { apply oldest_leaf_exists in Ho; [done|done|lia]. }
  pose proof (oldest_leaf_spec s (iter_nodes (nodes s)) None) as Hs. rewrite Ho in Hs. destruct Hs as ([?|[_ Hleaf]]&_); [done|].
  destruct (evict_leaf_correct s victim t Hwf Hleaf) as (Hwf1&Hle1&Hsz1&Hh1).
  destruct (IH (evict_leaf s victim) Hwf1) as (Hwf2&Hle2&Hc2&Hsz2&Hh2); [lia|]. cbv zeta. split_and!; [done|by etrans|done|lia|].
  intros q. destruct (Hh2 q) as [->| ->]; [|by right]. rewrite Hh1. destruct (decide _); [by right|by left].
Qed.

Lemma evict_empty_correct max_size ids : ∀ s, tree_wf s →
  let s' := evict_empty max_size s ids in
  tree_wf s' ∧ leaves_le s s' ∧ (size (nodes s') ≤ size (nodes s))%nat ∧ ∀ q, holders s' q = holders s q.
Proof.
  induction ids as [|id ids IH]; intros s Hwf; cbn [evict_empty]; [done|]. destruct (node_count s <=? max_size); [done|].
  destruct (prune_present_ok s id Hwf) as [Hwf1 Hh1 _ Hl1 _ Hz1 _]. destruct (IH _ Hwf1) as (Hwf2&Hle2&Hz2&Hh2).
  cbv zeta. split_and!; [done| |lia|].
  - intros i Hi. by apply Hl1, Hle2.
  - intros q. by rewrite Hh2.
Qed.

Lemma evict_lru_spec s max_size : tree_wf s →
  let '(evicted, s') := evict_lru iter_nodes s max_size in
  tree_wf s' ∧ leaves_le s s' ∧ (node_count s ≤ max_size → s' = s) ∧ node_count s' ≤ max_size ∧
  node_count s = node_count s' + evicted ∧ ∀ q, holders s' q = holders s q ∨ holders s' q = ∅.
Proof.
  intros Hwf. unfold evict_lru. destruct (N.leb_spec (node_count s) max_size) as [Hle|Hgt].
  { split_and!; try done; [lia|by left]. }
  set (ids := filter _ _). destruct (evict_empty_correct max_size ids s Hwf) as (Hwf1&Hl1&Hz1&Hh1).
  set (s1 := evict_empty max_size s ids) in *.
  destruct (evict_loop_correct max_size (S (size (nodes s1))) s1 Hwf1) as (Hwf2&Hl2&Hc2&Hz2&Hh2); [lia|].
  set (s2 := evict_loop _ _ _ _) in *. pose proof (node_count_spec s Hwf). pose proof (node_count_spec s2 Hwf2).
  split_and!; [done|by etrans|lia|done|lia|]. intros q. rewrite <-Hh1. apply Hh2.
Qed.

(** C31. Eviction ends with at most [max_size] nodes, reports how many it dropped, and either keeps the workers of a chain or
    drops them all. *)
Theorem evict_lru_correct s max_size :
  tree_wf s →
  let '(evicted, s') := evict_lru iter_nodes s max_size in
  (node_count s ≤ max_size → s' = s) ∧ node_count s' ≤ max_size ∧ node_count s = node_count s' + evicted ∧
  ∀ q, holders s' q = holders s q ∨ holders s' q = ∅.
Proof.
  intros Hwf. pose proof (evict_lru_spec s max_size Hwf) as Hs. destruct (evict_lru iter_nodes s max_size) as [k s'].
  by destruct Hs as (_&_&?&?&?&?).
Qed.

(** The victim of a round is a leaf, and no leaf was used longer ago. *)
Theorem evict_victim_is_lru s max_size k :
  tree_wf s → max_size < node_count s →
  ∃ victim t, is_leaf s victim t ∧ (∀ id t', is_leaf s id t' → t ≤ t') ∧
    evict_loop iter_nodes (S k) max_size s = evict_loop iter_nodes k max_size (evict_leaf s victim) ∧
    ∀ q, holders (evict_leaf s victim) q = if decide (walk s ROOT_ID q = Some victim) then ∅ else holders s q.
Proof.
  intros Hwf Hlt. pose proof (oldest_leaf_exists s Hwf ltac:(lia)) as Hne. rewrite evict_loop_step.
  assert (max_size <? node_count s = true) as -> by (by apply N.ltb_lt). cbn [negb].
  pose proof (oldest_leaf_spec s (iter_nodes (nodes s)) None) as Hs.
  destruct (oldest_leaf s (iter_nodes (nodes s)) None) as [[t victim]|]; [|done].
  destruct Hs as ([?|[_ Hleaf]]&Hmin&_); [done|]. exists victim, t. split_and!; [done| |done|by eapply evict_leaf_correct].
  intros id t' Hid. apply (Hmin id); [|done]. destruct Hid as (_&n&Hn&_). apply elem_of_iter_nodes. by exists n.
Qed.

(** *** Histories *)

(** The events of the workers, lookups and evictions. *)
Inductive TreeOp : Type :=
  | OpInsert (now : N) (w : KvWorkerId) (parent_hash : option Z) (hs : list Z)
  | OpRemove (w : KvWorkerId) (hs : list Z)
  | OpClear (w : KvWorkerId)
  | OpMatch (now : N) (parent_hash : option Z) (hs : list Z)
  | OpEvict (max_size : N).

Definition run_op (s : TreeState) (op : TreeOp) : TreeState :=
  match op with
  | OpInsert now w ph hs => insert iter_set now s w ph hs
  | OpRemove w hs => remove iter_set s w hs
  | OpClear w => clear_worker iter_nodes s w
  | OpMatch now ph hs => (match_prefix iter_set now s ph hs).2
  | OpEvict max_size => (evict_lru iter_nodes s max_size).2
  end.

Lemma run_tree_op_wf s op : tree_wf s → pruned s → tree_wf (run_op s op) ∧ pruned (run_op s op).
Proof.
  intros Hwf Hpr. destruct op as [now w ph hs|w hs|w|now ph hs|max_size]; cbn.
  - destruct (insert_wf now s w ph hs Hwf). split; [done|by eapply leaves_le_pruned].
  - destruct (remove_wf s w hs Hwf). split; [done|by eapply leaves_le_pruned].
  - destruct (clear_worker_spec s w Hwf) as (?&?&_). split; [done|by eapply leaves_le_pruned].
  - pose proof (match_prefix_same now s ph hs Hwf) as Hs. split; [by eapply same_shape_wf, Hwf; apply Hs|].
    by eapply same_holders_pruned.
  - pose proof (evict_lru_spec s max_size Hwf) as Hs. destruct (evict_lru iter_nodes s max_size) as [k s'].
    destruct Hs as (?&?&_). split; [done|by eapply leaves_le_pruned].
Qed.

End Ordered.

Lemma new_tree_wf now : tree_wf (TreeState_new now) ∧ pruned (TreeState_new now).
Proof.
  assert (∀ id n, nodes (TreeState_new now) !! id = Some n → id = ROOT_ID ∧ n = mkNode ROOT_HASH_SENTINEL None ∅ ∅ now) as Honly.
  { intros id n. cbn. by intros [<- <-]%lookup_singleton_Some. }
  split; [split|].
  - eexists. split; [apply lookup_singleton_eq|done].
  - intros id n Hn Hid. by destruct (Honly _ _ Hn).
  - intros id n h c Hn Hc. destruct (Honly _ _ Hn) as [_ ->]. cbn in Hc. by rewrite lookup_empty in Hc.
  - intros h id. cbn. split; [by intros (?&?&_)|]. intros [Hid (n&Hn&_)]. by destruct (Honly _ _ Hn).
  - intros h ids. cbn. by rewrite lookup_empty.
  - intros id n Hn. destruct (Honly _ _ Hn) as [-> _]. done.
  - intros id. unfold empty_leaf_at. destruct (nodes (TreeState_new now) !! id) as [n|] eqn:Hn; [|done].
    by destruct (Honly _ _ Hn) as [-> _].
Qed.

(** C29. Every history of the tree keeps its links, its reverse index and its ids consistent, and leaves no node behind that
    nobody holds and nothing hangs under. *)
Theorem tree_history_wf iter_set iter_nodes now ops :
  (∀ ids, iter_set ids ≡ₚ elements ids) → (∀ m, iter_nodes m ≡ₚ (map_to_list m).*1) →
  let s := foldl (run_op iter_set iter_nodes) (TreeState_new now) ops in tree_wf s ∧ pruned s.
Proof.
  intros Hset Hnodes. destruct (new_tree_wf now) as [Hwf Hpr]. revert Hwf Hpr. generalize (TreeState_new now).
  induction ops as [|op ops IH]; intros s Hwf Hpr; cbn; [done|].
  destruct (run_tree_op_wf iter_set iter_nodes Hset Hnodes s op Hwf Hpr). by apply IH.
Qed.

(** ** A concrete tree *)

Definition set_order (ids : gset N) : list N := elements ids.
Definition node_order (m : gmap N Node) : list N := (map_to_list m).*1.

Definition worker_a : KvWorkerId := mkKvWorkerId "http://a" 0.
Definition worker_b : KvWorkerId := mkKvWorkerId "http://b" 0.

(** Two workers share the chain 1, 2 and hold 3 under different parents. *)
Definition sample_tree : TreeState :=
  foldl (run_op set_order node_order) (TreeState_new 0)
    [OpInsert 1 worker_a None [1; 2; 3]%Z; OpInsert 2 worker_b None [1; 2]%Z; OpInsert 3 worker_b None [3]%Z].

Example sample_chains :
  bool_decide (holders sample_tree [1; 2]%Z = {[worker_a; worker_b]}) &&
  bool_decide (holders sample_tree [1; 2; 3]%Z = {[worker_a]}) && bool_decide (holders sample_tree [3]%Z = {[worker_b]}) = true.
Proof. vm_compute. reflexivity. Qed.

Example sample_evicts : (evict_lru node_order sample_tree 2).1 = 2.
Proof. vm_compute. reflexivity. Qed.

Lemma set_order_ok ids : set_order ids ≡ₚ elements ids.
Proof. done. Qed.

Lemma node_order_ok m : node_order m ≡ₚ (map_to_list m).*1.
Proof. done. Qed.

Lemma sample_tree_wf : tree_wf sample_tree ∧ pruned sample_tree.
Proof.
  unfold sample_tree. destruct (new_tree_wf 0) as [Hwf Hpr]. cbn [foldl].
  apply (run_tree_op_wf set_order node_order set_order_ok node_order_ok);
    apply (run_tree_op_wf set_order node_order set_order_ok node_order_ok);
    by apply (run_tree_op_wf set_order node_order set_order_ok node_order_ok).
Qed.

Lemma tree_history_wf_witness :
  let s := foldl (run_op set_order node_order) (TreeState_new 0)
    [OpInsert 1 worker_a None [1; 2]%Z; OpRemove worker_a [2]%Z; OpEvict 0] in tree_wf s ∧ pruned s.
Proof. apply tree_history_wf; [apply set_order_ok|apply node_order_ok]. Defined.

Lemma insert_holders_witness :
  ∃ base, parent_path sample_tree worker_a (Some 2%Z) base ∧
    ∀ w' q, w' ∈ holders (insert set_order 5 sample_tree worker_a (Some 2%Z) [7; 8]%Z) q ↔
      w' ∈ holders sample_tree q ∨ w' = worker_a ∧ on_chain base [7; 8]%Z q.
Proof. apply insert_holders; [apply set_order_ok|apply sample_tree_wf]. Defined.

Lemma remove_holders_witness :
  ∀ w' q, w' ∈ holders (remove set_order sample_tree worker_b [3]%Z) q ↔
    w' ∈ holders sample_tree q ∧ ¬ (w' = worker_b ∧ ∃ h, h ∈ [3]%Z ∧ last q = Some h).
Proof. apply remove_holders; [apply set_order_ok|apply sample_tree_wf]. Defined.

Lemma clear_worker_holders_witness :
  worker_b ∈ holders (clear_worker node_order sample_tree worker_a) [1; 2]%Z ↔
    worker_b ∈ holders sample_tree [1; 2]%Z ∧ worker_b ≠ worker_a.
Proof. apply clear_worker_holders; [apply node_order_ok|apply sample_tree_wf|done]. Defined.

Lemma tree_match_longest_witness :
  let r := (match_prefix set_order 9 sample_tree None [1; 2; 9]%Z).1 in
  ∃ base pre, match_base sample_tree None base ∧ pre `prefix_of` [1; 2; 9]%Z ∧ matched_blocks r = len pre ∧
    matched_workers r = (if decide (pre = []) then ∅ else holders sample_tree (base ++ pre)) ∧
    (pre ≠ [] → ∃ q, holders sample_tree (base ++ pre ++ q) ≠ ∅) ∧
    (∀ h, pre ++ [h] `prefix_of` [1; 2; 9]%Z → ∀ q, holders sample_tree (base ++ pre ++ h :: q) = ∅) ∧
    same_holders sample_tree (match_prefix set_order 9 sample_tree None [1; 2; 9]%Z).2.
Proof. apply tree_match_longest; [apply set_order_ok|apply sample_tree_wf|apply sample_tree_wf|done]. Defined.

(** Once worker_a and worker_b gave up block 2 a lookup still matches it, on the way to
    block 3, and names no worker: worker_a, which holds block 3, is found only by a
    lookup that goes on to it. *)
Example matched_prefix_held_by_nobody :
  let s := remove set_order (remove set_order sample_tree worker_a [2]%Z) worker_b [2]%Z in
  (match_prefix set_order 9 s None [1; 2]%Z).1 = mkMatchResult 2 ∅ ∧
  (match_prefix set_order 9 s None [1; 2; 3]%Z).1 = mkMatchResult 3 {[worker_a]}.
Proof. by vm_compute. Qed.

Lemma evict_lru_correct_witness :
  let '(evicted, s') := evict_lru node_order sample_tree 2 in
  (node_count sample_tree ≤ 2 → s' = sample_tree) ∧ node_count s' ≤ 2 ∧ node_count sample_tree = node_count s' + evicted ∧
  ∀ q, holders s' q = holders sample_tree q ∨ holders s' q = ∅.
Proof. apply evict_lru_correct; [apply node_order_ok|apply sample_tree_wf]. Defined.

Lemma evict_victim_is_lru_witness :
  ∃ victim t, is_leaf sample_tree victim t ∧ (∀ id t', is_leaf sample_tree id t' → t ≤ t') ∧
    evict_loop node_order 3 2 sample_tree = evict_loop node_order 2 2 (evict_leaf sample_tree victim) ∧
    ∀ q, holders (evict_leaf sample_tree victim) q =
      if decide (walk sample_tree ROOT_ID q = Some victim) then ∅ else holders sample_tree q.
Proof. apply (evict_victim_is_lru node_order node_order_ok); [apply sample_tree_wf|vm_compute; reflexivity]. Defined.
