(* ===== verification/KvIndex.v ===== *)
(** * Event index of the router ([crates/sglang-router/src/policies/kv_events/])

    Block hashes of a prompt ([hash.rs]), the block size all workers must share
    ([block_size_oracle.rs]), the subscriber registry ([subscriber.rs]) and the
    index that applies the workers' events to the tree ([index.rs]).

    The index is shared by the pump task, the subscriber tasks and the calls of
    the worker manager; each holds its locks for a part of its work only.  The
    parts are functions, composed to the whole call as the code does, and steps
    of an interleaving at the end of the file.  SHA-256, the sockets and the HTTP
    request behind [fetch_event_config] are outside the repository: the digest
    is a parameter, received messages and fetched configurations are arguments. *)

From S2P Require Import Prelude BlockHash KvTree.

(** ** Hashes of a prompt *)

Section Hash.
Context (sha256 : list N → list N).

(** [i64::from_be_bytes]. *)
Definition i64_from_be_bytes (bs : list N) : Z := u64_as_i64 (be_bytes_to_u64 bs).

(** [kv_events/hash.rs:104-108] sha256_to_i64 *)
Definition sha256_to_i64 (digest : list N) : Z := i64_from_be_bytes (take 8 digest).

(** [kv_events/hash.rs:82-91] chain_block *)
Definition chain_block (parent_digest : option (list N)) (block_tokens : list N) : list N :=
  let fed := match parent_digest with Some parent => parent | None => [] end in
  let fed := foldl (λ fed t, fed ++ u32_to_le_bytes t) fed block_tokens in
  sha256 fed.

(** Each round hashes at least one token: their number is fuel enough. *)
(** [kv_events/hash.rs:67-74] compute_block_hashes (loop) *)
Fixpoint hash_loop (fuel : nat) (token_ids : list N) (block_size : N) (start : N) (prior : option (list N)) (out : list Z)
    : list Z :=
  match fuel with
  | O => out
  | S fuel' =>
      if negb (start <? len token_ids) then out
      else
        let end_ := N.min (start + block_size) (len token_ids) in
        let digest := chain_block prior (slice_to (end_ - start) (slice_from start token_ids)) in
        hash_loop fuel' token_ids block_size end_ (Some digest) (out ++ [sha256_to_i64 digest])
  end.

(** [None] is the panic of the assertion. *)
(** [kv_events/hash.rs:56-77] compute_block_hashes *)
Definition compute_block_hashes (token_ids : list N) (block_size : N) : option (list Z) :=
  guard (0 < block_size);;
  match token_ids with
  | [] => Some []
  | _ => Some (hash_loop (S (length token_ids)) token_ids block_size 0 None [])
  end.

End Hash.

(** ** The block size all workers share *)

(** [kv_events/block_size_oracle.rs:47-51] BlockSizeMismatch *)
Record BlockSizeMismatch : Type := mkBlockSizeMismatch {
  established : N;
  candidate : N;
}.

(** The value of the atomic; 0 is unknown. *)
Notation BlockSizeOracle := N (only parsing).

(** [kv_events/block_size_oracle.rs:64-71] BlockSizeOracle::get *)
Definition oracle_get (value : BlockSizeOracle) : option N := if value =? 0 then None else Some value.

(** [kv_events/block_size_oracle.rs:79-97] BlockSizeOracle::try_set *)
Definition try_set (value : BlockSizeOracle) (candidate : N) : Result BlockSizeMismatch N * BlockSizeOracle :=
  if candidate =? 0 then (Err (mkBlockSizeMismatch value candidate), value)
  else if value =? 0 then (Ok candidate, candidate)
  else if value =? candidate then (Ok value, value)
  else (Err (mkBlockSizeMismatch value candidate), value).

(** ** Events *)

(** [kv_events/discovery.rs:32-51] EventConfig *)
Record EventConfig : Type := mkEventConfig {
  host : string;
  port_base : N;
  topic : string;
  block_size : N;
  dp_size : N;
}.

(** [kv_events/wire.rs:65-81] BlockStored *)
Record BlockStored : Type := mkBlockStored {
  stored_block_hashes : list Z;
  parent_block_hash : option Z;
  token_ids : list N;
  stored_block_size : N;
  lora_id : option Z;
  stored_medium : option string;
}.

(** [kv_events/wire.rs:84-88] BlockRemoved *)
Record BlockRemoved : Type := mkBlockRemoved {
  removed_block_hashes : list Z;
  removed_medium : option string;
}.

(** [kv_events/wire.rs:54-62] KvCacheEvent *)
Inductive KvCacheEvent : Type :=
  | EventBlockStored (b : BlockStored)
  | EventBlockRemoved (b : BlockRemoved)
  | EventAllBlocksCleared.

(** The timestamp is the bit pattern of an [f64]. *)
(** [kv_events/wire.rs:40-48] KvEventBatch *)
Record KvEventBatch : Type := mkKvEventBatch {
  ts : N;
  events : list KvCacheEvent;
  attn_dp_rank : option N;
}.

(** [kv_events/subscriber.rs:97-113] WorkerEvent *)
Inductive WorkerEvent : Type :=
  | Batch (worker : KvWorkerId) (seq : Z) (batch : KvEventBatch)
  | PublisherReset (worker : KvWorkerId).

(** [kv_events/subscriber.rs:115-123] WorkerEvent::worker *)
Definition event_worker (ev : WorkerEvent) : KvWorkerId :=
  match ev with Batch worker _ _ => worker | PublisherReset worker => worker end.

(** [kv_events/subscriber.rs:93] END_SEQ_SENTINEL *)
Definition END_SEQ_SENTINEL : Z := (-1)%Z.

(** A received message is its frames; the decoder of the payload is in [KvWire]. *)
(** [kv_events/subscriber.rs:466-536] decode_message *)
Definition decode_message (decode_event_batch : list N → option KvEventBatch) (id : KvWorkerId) (msg : list (list N))
    : option WorkerEvent :=
  if negb (len msg =? 3) then None
  else
    seq_frame ← msg !! 1%nat;
    payload ← msg !! 2%nat;
    if negb (len seq_frame =? 8) then None
    else
      let seq := i64_from_be_bytes seq_frame in
      if (seq =? END_SEQ_SENTINEL)%Z then Some (PublisherReset id)
      else
        match decode_event_batch payload with
        | Some batch => Some (Batch id seq batch)
        | None => None
        end.

(** ** Subscribers *)

(** Where a subscriber task listens. *)
(** [kv_events/subscriber.rs:126-129] SubscriberHandle *)
Record SubscriberHandle : Type := mkSubscriberHandle {
  endpoint_host : string;
  endpoint_port : N;
  endpoint_topic : string;
}.

Notation Handles := (gmap KvWorkerId SubscriberHandle).

Definition U16_MAX : N := 65535.

(** [kv_events/subscriber.rs:176-214] KvEventSubscriberRegistry::add_worker (body) *)
Definition subscribe_rank (worker_url : string) (cfg : EventConfig) (handles : Handles) (dp_rank : N) : Handles :=
  let id := mkKvWorkerId worker_url dp_rank in
  match handles !! id with
  | Some _ => handles
  | None =>
      if port_base cfg + dp_rank <=? U16_MAX
      then <[id := mkSubscriberHandle (host cfg) (port_base cfg + dp_rank) (topic cfg)]> handles
      else handles
  end.

(** [kv_events/subscriber.rs:176-214] KvEventSubscriberRegistry::add_worker *)
Definition subscribers_add_worker (handles : Handles) (worker_url : string) (cfg : EventConfig) : Handles :=
  foldl (subscribe_rank worker_url cfg) handles (nrange 0 (dp_size cfg)).

(** The handles taken out; their tasks are joined afterwards. *)
(** [kv_events/subscriber.rs:217-230] KvEventSubscriberRegistry::remove_worker (drain) *)
Definition subscribers_drain (handles : Handles) (worker_url : string) : gset KvWorkerId * Handles :=
  (dom (filter (λ p, url p.1 = worker_url) handles), filter (λ p, url p.1 ≠ worker_url) handles).

(** ** The index *)

(** [kv_events/index.rs:66-91] KvEventIndex *)
Record KvEventIndex : Type := mkKvEventIndex {
  tree : TreeState;
  subscribers : Handles;
  workers : gmap string (list N);
  live_workers : gset KvWorkerId;
  cursors : gmap KvWorkerId Z;
  block_size_oracle : BlockSizeOracle;
}.

Definition set_tree (s : KvEventIndex) (t : TreeState) : KvEventIndex :=
  mkKvEventIndex t (subscribers s) (workers s) (live_workers s) (cursors s) (block_size_oracle s).
Definition set_subscribers (s : KvEventIndex) (h : Handles) : KvEventIndex :=
  mkKvEventIndex (tree s) h (workers s) (live_workers s) (cursors s) (block_size_oracle s).
Definition set_entries (s : KvEventIndex) (ws : gmap string (list N)) : KvEventIndex :=
  mkKvEventIndex (tree s) (subscribers s) ws (live_workers s) (cursors s) (block_size_oracle s).
Definition set_live (s : KvEventIndex) (l : gset KvWorkerId) : KvEventIndex :=
  mkKvEventIndex (tree s) (subscribers s) (workers s) l (cursors s) (block_size_oracle s).
Definition set_cursors (s : KvEventIndex) (c : gmap KvWorkerId Z) : KvEventIndex :=
  mkKvEventIndex (tree s) (subscribers s) (workers s) (live_workers s) c (block_size_oracle s).
Definition set_oracle (s : KvEventIndex) (v : BlockSizeOracle) : KvEventIndex :=
  mkKvEventIndex (tree s) (subscribers s) (workers s) (live_workers s) (cursors s) v.

(** [kv_events/index.rs:114-142] KvEventIndex::new_with_http_and_oracle *)
Definition new_index (now : N) (oracle : BlockSizeOracle) : KvEventIndex := mkKvEventIndex (TreeState_new now) ∅ ∅ ∅ ∅ oracle.

(** [kv_events/index.rs:217-220] KvEventIndex::add_worker (ranks) *)
Definition subscribed_ranks (cfg : EventConfig) : list N :=
  filter (λ rank, port_base cfg + rank ≤ U16_MAX) (nrange 0 (dp_size cfg)).

Definition rank_ids (worker_url : string) (ranks : list N) : list KvWorkerId := mkKvWorkerId worker_url <$> ranks.

(** The ranks to subscribe to, or [None] where the worker is skipped. *)
(** [kv_events/index.rs:168-229] KvEventIndex::add_worker (admission) *)
Definition add_admit (s : KvEventIndex) (cfg : option EventConfig) : option (EventConfig * list N) * KvEventIndex :=
  match cfg with
  | None => (None, s)
  | Some cfg =>
      let '(r, v) := try_set (block_size_oracle s) (block_size cfg) in
      let s := set_oracle s v in
      match r with
      | Err _ => (None, s)
      | Ok _ => match subscribed_ranks cfg with
                | [] => (None, s)
                | ranks => (Some (cfg, ranks), s)
                end
      end
  end.

(** [kv_events/index.rs:232-240] KvEventIndex::add_worker (mark live) *)
Definition add_mark_live (s : KvEventIndex) (worker_url : string) (ranks : list N) : KvEventIndex :=
  set_live s (foldl (λ live id, {[id]} ∪ live) (live_workers s) (rank_ids worker_url ranks)).

(** [kv_events/index.rs:241-246] KvEventIndex::add_worker (entry) *)
Definition add_entry (s : KvEventIndex) (worker_url : string) (ranks : list N) : KvEventIndex :=
  set_entries s (<[worker_url := ranks]> (workers s)).

Definition add_subscribe (s : KvEventIndex) (worker_url : string) (cfg : EventConfig) : KvEventIndex :=
  set_subscribers s (subscribers_add_worker (subscribers s) worker_url cfg).

(** [kv_events/index.rs:168-248] KvEventIndex::add_worker *)
Definition add_worker (s : KvEventIndex) (worker_url : string) (cfg : option EventConfig) : KvEventIndex :=
  let '(admitted, s) := add_admit s cfg in
  match admitted with
  | None => s
  | Some (cfg, ranks) =>
      let s := add_mark_live s worker_url ranks in
      let s := add_entry s worker_url ranks in
      add_subscribe s worker_url cfg
  end.

(** [kv_events/index.rs:257-267] KvEventIndex::remove_worker (entry) *)
Definition remove_entry (s : KvEventIndex) (worker_url : string) : option (list KvWorkerId) * KvEventIndex :=
  match workers s !! worker_url with
  | None => (None, s)
  | Some ranks => (Some (rank_ids worker_url ranks), set_entries s (delete worker_url (workers s)))
  end.

(** [kv_events/index.rs:270-275] KvEventIndex::remove_worker (mark dead) *)
Definition remove_mark_dead (s : KvEventIndex) (ids : list KvWorkerId) : KvEventIndex :=
  set_live s (foldl (λ live id, live ∖ {[id]}) (live_workers s) ids).

Definition remove_drain (s : KvEventIndex) (worker_url : string) : gset KvWorkerId * KvEventIndex :=
  let '(drained, h) := subscribers_drain (subscribers s) worker_url in (drained, set_subscribers s h).

(** [kv_events/index.rs:294-296] KvEventIndex::known_worker_count *)
Definition known_worker_count (s : KvEventIndex) : N := N.of_nat (size (workers s)).

Section Order.
Context (iter_set : gset N → list N) (iter_nodes : gmap N Node → list N).

(** The cursors stay locked while the tree is cleared. *)
(** [kv_events/index.rs:282-286] KvEventIndex::remove_worker (clear) *)
Definition remove_clear (s : KvEventIndex) (ids : list KvWorkerId) : KvEventIndex :=
  foldl (λ s id, set_cursors (set_tree s (clear_worker iter_nodes (tree s) id)) (delete id (cursors s))) s ids.

(** [kv_events/index.rs:256-287] KvEventIndex::remove_worker *)
Definition remove_worker (s : KvEventIndex) (worker_url : string) : KvEventIndex :=
  let '(entry, s) := remove_entry s worker_url in
  match entry with
  | None => s
  | Some ids =>
      let s := remove_mark_dead s ids in
      let '(_, s) := remove_drain s worker_url in
      remove_clear s ids
  end.

(** [kv_events/index.rs:380-391] pump_loop (one event of a batch) *)
Definition apply_event (now : N) (worker : KvWorkerId) (t : TreeState) (event : KvCacheEvent) : TreeState :=
  match event with
  | EventBlockStored b => insert iter_set now t worker (parent_block_hash b) (stored_block_hashes b)
  | EventBlockRemoved b => remove iter_set t worker (removed_block_hashes b)
  | EventAllBlocksCleared => clear_worker iter_nodes t worker
  end.

(** [kv_events/index.rs:368-378] pump_loop (sequence check) *)
Definition out_of_order (s : KvEventIndex) (worker : KvWorkerId) (seq : Z) : bool :=
  match cursors s !! worker with Some p => (seq <=? p)%Z | None => false end.

(** [kv_events/index.rs:349-395] pump_loop (one received event) *)
Definition pump_handle (now : N) (s : KvEventIndex) (ev : WorkerEvent) : KvEventIndex :=
  if negb (bool_decide (event_worker ev ∈ live_workers s)) then s
  else
    match ev with
    | PublisherReset worker => set_cursors s (delete worker (cursors s))
    | Batch worker seq batch =>
        if out_of_order s worker seq then s
        else
          let s := foldl (λ s event, set_tree s (apply_event now worker (tree s) event)) s (events batch) in
          set_cursors s (<[worker := seq]> (cursors s))
    end.

End Order.

(** ** Tasks that share the index *)

(** A call of the manager between two of its locked parts. *)
Inductive Task : Type :=
  | AddMark (worker_url : string) (cfg : EventConfig) (ranks : list N)
  | AddEntry (worker_url : string) (cfg : EventConfig) (ranks : list N)
  | AddSubscribe (worker_url : string) (cfg : EventConfig)
  | RemoveMark (worker_url : string) (ids : list KvWorkerId)
  | RemoveDrain (worker_url : string) (ids : list KvWorkerId)
  | RemoveJoin (ids : list KvWorkerId) (draining : gset KvWorkerId)
  | RemoveClear (ids : list KvWorkerId).

(** What the pump is doing between two of its locked parts. *)
Inductive PumpPhase : Type :=
  | Waiting
  | Accepted (ev : WorkerEvent)
  | Applying (worker : KvWorkerId) (seq : Z) (rest : list KvCacheEvent).

Record System : Type := mkSystem {
  index : KvEventIndex;
  tasks : list Task;
  queue : list WorkerEvent;
  phase : PumpPhase;
}.

Definition EVENT_CHANNEL_BUFFER : N := 1024.

(** The subscriber tasks that still run. *)
Definition runs (s : System) (id : KvWorkerId) : Prop :=
  is_Some (subscribers (index s) !! id) ∨ ∃ ids draining, RemoveJoin ids draining ∈ tasks s ∧ id ∈ draining.

(** The pump takes its locks one after the other. *)
(** [kv_events/index.rs:349-395] pump_loop (phases) *)
Definition pump_accept (idx : KvEventIndex) (ev : WorkerEvent) : PumpPhase :=
  if bool_decide (event_worker ev ∈ live_workers idx) then Accepted ev else Waiting.

Section Steps.
Context (iter_set : gset N → list N) (iter_nodes : gmap N Node → list N).

(** [kv_events/index.rs:358-395] pump_loop (phases) *)
Definition pump_advance (now : N) (idx : KvEventIndex) (p : PumpPhase) : PumpPhase * KvEventIndex :=
  match p with
  | Waiting => (Waiting, idx)
  | Accepted (PublisherReset worker) => (Waiting, set_cursors idx (delete worker (cursors idx)))
  | Accepted (Batch worker seq batch) =>
      if out_of_order idx worker seq then (Waiting, idx) else (Applying worker seq (events batch), idx)
  | Applying worker seq (event :: rest) =>
      (Applying worker seq rest, set_tree idx (apply_event iter_set iter_nodes now worker (tree idx) event))
  | Applying worker seq [] => (Waiting, set_cursors idx (<[worker := seq]> (cursors idx)))
  end.

(** A step of a manager call or of a subscriber. *)
Inductive manager_step : System → System → Prop :=
  | step_add idx ts q ph url cfg admitted idx' :
      add_admit idx cfg = (admitted, idx') →
      manager_step (mkSystem idx ts q ph)
        (mkSystem idx' (match admitted with Some (cfg, ranks) => AddMark url cfg ranks :: ts | None => ts end) q ph)
  | step_add_mark idx ts1 ts2 q ph url cfg ranks :
      manager_step (mkSystem idx (ts1 ++ AddMark url cfg ranks :: ts2) q ph)
        (mkSystem (add_mark_live idx url ranks) (ts1 ++ AddEntry url cfg ranks :: ts2) q ph)
  | step_add_entry idx ts1 ts2 q ph url cfg ranks :
      manager_step (mkSystem idx (ts1 ++ AddEntry url cfg ranks :: ts2) q ph)
        (mkSystem (add_entry idx url ranks) (ts1 ++ AddSubscribe url cfg :: ts2) q ph)
  | step_add_subscribe idx ts1 ts2 q ph url cfg :
      manager_step (mkSystem idx (ts1 ++ AddSubscribe url cfg :: ts2) q ph)
        (mkSystem (add_subscribe idx url cfg) (ts1 ++ ts2) q ph)
  | step_remove idx ts q ph url entry idx' :
      remove_entry idx url = (entry, idx') →
      manager_step (mkSystem idx ts q ph)
        (mkSystem idx' (match entry with Some ids => RemoveMark url ids :: ts | None => ts end) q ph)
  | step_remove_mark idx ts1 ts2 q ph url ids :
      manager_step (mkSystem idx (ts1 ++ RemoveMark url ids :: ts2) q ph)
        (mkSystem (remove_mark_dead idx ids) (ts1 ++ RemoveDrain url ids :: ts2) q ph)
  | step_remove_drain idx ts1 ts2 q ph url ids draining idx' :
      remove_drain idx url = (draining, idx') →
      manager_step (mkSystem idx (ts1 ++ RemoveDrain url ids :: ts2) q ph)
        (mkSystem idx' (ts1 ++ RemoveJoin ids draining :: ts2) q ph)
  | step_remove_join idx ts1 ts2 q ph ids draining :
      manager_step (mkSystem idx (ts1 ++ RemoveJoin ids draining :: ts2) q ph)
        (mkSystem idx (ts1 ++ RemoveClear ids :: ts2) q ph)
  | step_remove_clear idx ts1 ts2 q ph ids :
      manager_step (mkSystem idx (ts1 ++ RemoveClear ids :: ts2) q ph)
        (mkSystem (remove_clear iter_nodes idx ids) (ts1 ++ ts2) q ph)
  | step_receive idx ts q ph ev :
      runs (mkSystem idx ts q ph) (event_worker ev) → len q < EVENT_CHANNEL_BUFFER →
      manager_step (mkSystem idx ts q ph) (mkSystem idx ts (q ++ [ev]) ph).

(** The pump handles an event while nothing else runs. *)
Inductive pump_whole : System → System → Prop :=
  | step_handle now idx ts ev q ph :
      pump_whole (mkSystem idx ts (ev :: q) ph) (mkSystem (pump_handle iter_set iter_nodes now idx ev) ts q ph).

(** The pump as it is: other tasks may run between its parts. *)
Inductive pump_part : System → System → Prop :=
  | step_accept idx ts ev q : pump_part (mkSystem idx ts (ev :: q) Waiting) (mkSystem idx ts q (pump_accept idx ev))
  | step_advance now idx ts q ph ph' idx' :
      ph ≠ Waiting → pump_advance now idx ph = (ph', idx') →
      pump_part (mkSystem idx ts q ph) (mkSystem idx' ts q ph').

Definition coarse_step (s s' : System) : Prop := manager_step s s' ∨ pump_whole s s'.
Definition fine_step (s s' : System) : Prop := manager_step s s' ∨ pump_part s s'.

Definition initial (now : N) (oracle : N) : System := mkSystem (new_index now oracle) [] [] Waiting.

(** ** What each part does to a worker *)

Hypothesis iter_set_ok : ∀ ids, iter_set ids ≡ₚ elements ids.
Hypothesis iter_nodes_ok : ∀ m, iter_nodes m ≡ₚ (map_to_list m).*1.

Lemma apply_event_wf now w t e : tree_wf t → tree_wf (apply_event iter_set iter_nodes now w t e).
Proof.
  intros Hwf. destruct e; cbn.
  - by apply insert_wf.
  - by apply remove_wf.
  - by apply clear_worker_spec.
Qed.

(** An event of a worker does not touch the others. *)
Lemma apply_event_other now w t e w' q : tree_wf t → w' ≠ w →
  w' ∈ holders (apply_event iter_set iter_nodes now w t e) q ↔ w' ∈ holders t q.
Proof.
  intros Hwf Hne. destruct e as [b|b|]; cbn.
  - destruct (resolve_parent_path iter_set iter_set_ok t w (parent_block_hash b) Hwf) as (base&Hbase&_).
    rewrite insert_unfold. destruct (insert_chain_correct now w (stored_block_hashes b) t _ base Hwf Hbase) as (_&_&->). naive_solver.
  - unfold remove. cbv zeta. set (targets := _ ≫= _). destruct (remove_targets_correct w targets t Hwf) as (_&_&->). naive_solver.
  - destruct (clear_worker_spec iter_nodes iter_nodes_ok t w Hwf) as (_&_&->). naive_solver.
Qed.

(** No trace of a worker in the tree and the cursors. *)
Definition clean (idx : KvEventIndex) (id : KvWorkerId) : Prop :=
  cursors idx !! id = None ∧ ∀ q, q ≠ [] → id ∉ holders (tree idx) q.

Lemma apply_events_other now w es : ∀ idx w', tree_wf (tree idx) →
  let idx' := foldl (λ s event, set_tree s (apply_event iter_set iter_nodes now w (tree s) event)) idx es in
  tree_wf (tree idx') ∧ live_workers idx' = live_workers idx ∧ cursors idx' = cursors idx ∧
  (w' ≠ w → ∀ q, w' ∈ holders (tree idx') q ↔ w' ∈ holders (tree idx) q).
Proof.
  induction es as [|e es IH]; intros idx w' Hwf; cbn [foldl]; [done|].
  destruct (IH (set_tree idx (apply_event iter_set iter_nodes now w (tree idx) e)) w') as (?&->&->&Hh); [by apply apply_event_wf|].
  cbv zeta. split_and!; try done. intros Hne q. rewrite Hh by done. by apply apply_event_other.
Qed.

(** Handling an event touches only a live worker. *)
Lemma pump_handle_other now idx ev id : tree_wf (tree idx) →
  let idx' := pump_handle iter_set iter_nodes now idx ev in
  tree_wf (tree idx') ∧ live_workers idx' = live_workers idx ∧ (id ∉ live_workers idx → clean idx id → clean idx' id).
Proof.
  intros Hwf. unfold pump_handle. case_bool_decide as Hlive; [|by cbv zeta]. cbn [negb].
  destruct ev as [w seq batch|w]; cbn [event_worker] in Hlive.
  - destruct (out_of_order idx w seq); [by cbv zeta|].
    destruct (apply_events_other now w (events batch) idx id Hwf) as (?&?&Hc&Hh). cbv zeta. split_and!; [done|done|].
    intros Hid [Hcur Hnone]. assert (id ≠ w) as Hne by (by intros ->). split; cbn.
    + rewrite lookup_insert_ne by done. by rewrite Hc.
    + intros q Hq. rewrite (Hh Hne). by apply Hnone.
  - cbv zeta. split_and!; [done|done|]. intros Hid [Hcur Hnone]. split; [|done]. cbn. apply lookup_delete_None. by right.
Qed.

Lemma remove_clear_correct ids : ∀ idx, tree_wf (tree idx) →
  let idx' := remove_clear iter_nodes idx ids in
  tree_wf (tree idx') ∧ live_workers idx' = live_workers idx ∧ ∀ id, id ∈ ids ∨ clean idx id → clean idx' id.
Proof.
  induction ids as [|w ids IH]; intros idx Hwf; cbn.
  { split_and!; [done|done|]. by intros id [?%elem_of_nil|]. }
  destruct (clear_worker_spec iter_nodes iter_nodes_ok (tree idx) w Hwf) as (Hwf1&_&Hh1).
  set (idx1 := set_cursors _ _). destruct (IH idx1 Hwf1) as (?&Hl&Hc). split_and!; [done|exact Hl|].
  intros id Hid. apply Hc. destruct (decide (id ∈ ids)) as [|Hni]; [by left|right]. destruct (decide (id = w)) as [->|Hne].
  - split; cbn; [by rewrite lookup_delete_eq|]. intros q Hq Hin. apply Hh1 in Hin as [Hin Hx]. apply Hx. split; [done|].
    assert (is_Some (walk (tree idx) ROOT_ID q)) as [i Hw].
    { apply holders_walk. intros He. rewrite He in Hin. by apply elem_of_empty in Hin. }
    exists i. split; [|done]. intros ->. apply Hq. by apply (walk_inj (tree idx) Hwf _ _ ROOT_ID).
  - destruct Hid as [Hid|[Hcur Hnone]]; [by apply elem_of_cons in Hid as [->|]|]. split; cbn.
    + by rewrite lookup_delete_ne.
    + intros q Hq Hin. apply Hh1 in Hin as [Hin _]. by apply (Hnone q).
Qed.

(** ** Detached workers *)

(** The ids a call in progress will clear. *)
Definition to_clear (t : Task) : list KvWorkerId :=
  match t with RemoveDrain _ ids | RemoveJoin ids _ | RemoveClear ids => ids | _ => [] end.

(** Where no call will clear a worker that is not live, it left no trace. *)
Record detached_ok (s : System) : Prop := {
  detached_wf : tree_wf (tree (index s));
  detached_clean id : id ∉ live_workers (index s) → (∀ t, t ∈ tasks s → id ∉ to_clear t) → clean (index s) id;
}.

Lemma elem_of_mark_live (live : gset KvWorkerId) ids id : id ∈ foldl (λ live id, {[id]} ∪ live) live ids ↔ id ∈ live ∨ id ∈ ids.
Proof.
  revert live. induction ids as [|i ids IH]; intros live; cbn; [rewrite elem_of_nil; tauto|].
  rewrite IH, elem_of_union, elem_of_singleton, elem_of_cons. tauto.
Qed.

Lemma elem_of_mark_dead (live : gset KvWorkerId) ids id : id ∈ foldl (λ live id, live ∖ {[id]}) live ids ↔ id ∈ live ∧ id ∉ ids.
Proof.
  revert live. induction ids as [|i ids IH]; intros live; cbn.
  - split; [intros ?; split; [done|apply not_elem_of_nil]|by intros [? _]].
  - rewrite IH, elem_of_difference, elem_of_singleton, not_elem_of_cons. tauto.
Qed.

Lemma add_admit_same idx cfg : tree (add_admit idx cfg).2 = tree idx ∧ live_workers (add_admit idx cfg).2 = live_workers idx ∧
  cursors (add_admit idx cfg).2 = cursors idx.
Proof.
  unfold add_admit. destruct cfg as [cfg|]; [|done]. destruct (try_set _ _) as [[v|e] o]; [|done].
  by destruct (subscribed_ranks cfg).
Qed.

Lemma clean_ext idx idx' id : tree idx' = tree idx → cursors idx' = cursors idx → clean idx id → clean idx' id.
Proof. unfold clean. by intros -> ->. Qed.

(** Replacing a call keeps the other calls. *)
Lemma tasks_replace (P : Task → Prop) (ts1 ts2 ts : list Task) t :
  (∀ u, u ∈ ts1 ++ ts ++ ts2 → P u) → P t → ∀ u, u ∈ ts1 ++ t :: ts2 → P u.
Proof.
  intros Hall Ht u [Hu|[->|Hu]%elem_of_cons]%elem_of_app; [|exact Ht|].
  - apply Hall, elem_of_app. by left.
  - apply Hall. rewrite !elem_of_app. by right; right.
Qed.

Lemma manager_step_detached s s' : manager_step s s' → detached_ok s → detached_ok s'.
Proof.
  intros Hstep [Hwf Hclean]. destruct Hstep as
    [idx ts q ph url cfg admitted idx' He|idx ts1 ts2 q ph url cfg ranks|idx ts1 ts2 q ph url cfg ranks|idx ts1 ts2 q ph url cfg
    |idx ts q ph url entry idx' He|idx ts1 ts2 q ph url ids|idx ts1 ts2 q ph url ids draining idx' He
    |idx ts1 ts2 q ph ids draining|idx ts1 ts2 q ph ids|idx ts q ph ev _ _]; cbn [index tasks] in *.
  - pose proof (add_admit_same idx cfg) as (Ht&Hl&Hc). rewrite He in Ht, Hl, Hc. cbn in Ht, Hl, Hc.
    split; cbn [index tasks]; [by rewrite Ht|]. intros id Hid Hts. apply (clean_ext idx); [done..|]. rewrite Hl in Hid.
    apply Hclean; [done|]. intros t Hin. apply Hts. destruct admitted as [[??]|]; [by right|done].
  - split; cbn [index tasks]; [done|]. intros id Hid Hts. apply (clean_ext idx); [done..|]. apply Hclean.
    + intros ?. apply Hid. cbn. apply elem_of_mark_live. by left.
    + apply (tasks_replace _ ts1 ts2 [AddEntry url cfg ranks]); [done|apply not_elem_of_nil].
  - split; cbn [index tasks]; [done|]. intros id Hid Hts. apply (clean_ext idx); [done..|]. apply Hclean; [done|].
    apply (tasks_replace _ ts1 ts2 [AddSubscribe url cfg]); [done|apply not_elem_of_nil].
  - split; cbn [index tasks]; [done|]. intros id Hid Hts. apply (clean_ext idx); [done..|]. apply Hclean; [done|].
    apply (tasks_replace _ ts1 ts2 []); [done|apply not_elem_of_nil].
  - unfold remove_entry in He. destruct (workers idx !! url); injection He as <- <-; (split; cbn [index tasks]; [done|]);
      intros id Hid Hts; apply (clean_ext idx); try done; apply Hclean; try done. intros t Ht. apply Hts. by right.
  - split; cbn [index tasks]; [done|]. intros id Hid Hts. apply (clean_ext idx); [done..|].
    assert (id ∉ ids) as Hni. { apply (Hts (RemoveDrain url ids)). apply elem_of_app. right. by left. }
    apply Hclean.
    + intros ?. apply Hid. cbn. by apply elem_of_mark_dead.
    + apply (tasks_replace _ ts1 ts2 [RemoveDrain url ids]); [done|apply not_elem_of_nil].
  - unfold remove_drain in He. destruct (subscribers_drain (subscribers idx) url) as [d h]. injection He as <- <-.
    split; cbn [index tasks]; [done|]. intros id Hid Hts. apply (clean_ext idx); [done..|]. apply Hclean; [done|].
    apply (tasks_replace _ ts1 ts2 [RemoveJoin ids d]); [done|]. apply (Hts (RemoveJoin ids d)). apply elem_of_app. right. by left.
  - split; cbn [index tasks]; [done|]. intros id Hid Hts. apply Hclean; [done|].
    apply (tasks_replace _ ts1 ts2 [RemoveClear ids]); [done|]. apply (Hts (RemoveClear ids)). apply elem_of_app. right. by left.
  - destruct (remove_clear_correct ids idx Hwf) as (?&Hl&Hc). split; cbn [index tasks]; [done|].
    intros id Hid Hts. rewrite Hl in Hid. apply Hc. destruct (decide (id ∈ ids)) as [|Hni]; [by left|right].
    apply Hclean; [done|]. by apply (tasks_replace _ ts1 ts2 []).
  - split; cbn [index tasks]; done.
Qed.

Lemma coarse_step_detached s s' : coarse_step s s' → detached_ok s → detached_ok s'.
Proof.
  intros [Hm|Hp] Hs; [by eapply manager_step_detached|]. destruct Hp as [now idx ts ev q ph]. destruct Hs as [Hwf Hclean].
  cbn [index tasks] in *. split; cbn [index tasks].
  - by destruct (pump_handle_other now idx ev (event_worker ev) Hwf) as (?&_).
  - intros id Hid Hts. destruct (pump_handle_other now idx ev id Hwf) as (_&Hl&Hc). rewrite Hl in Hid. apply Hc; [done|].
    by apply Hclean.
Qed.

(** C32. With no call in progress, a worker that is not attached has no cursor and holds no chain of the tree - where the pump is
    not in the middle of an event while a removal runs. *)
Theorem detached_workers_leave_no_trace now oracle s :
  rtc coarse_step (initial now oracle) s → tasks s = [] →
  ∀ id, id ∉ live_workers (index s) → cursors (index s) !! id = None ∧ ∀ q, q ≠ [] → id ∉ holders (tree (index s)) q.
Proof.
  intros Hrun Hts. assert (detached_ok s) as [_ Hclean].
  { assert (detached_ok (initial now oracle)) as H0.
    { destruct (new_tree_wf now) as [Hwf _]. split; [done|]. intros id _ _. split; cbn; [apply lookup_empty|].
      intros q Hq. destruct q as [|h q]; [done|]. unfold holders. cbn. by apply not_elem_of_empty. }
    clear Hts. induction Hrun as [|s1 s2 s3 H12 _ IH]; [done|]. by apply IH, (coarse_step_detached s1). }
  intros id Hid. apply Hclean; [done|]. rewrite Hts. by intros t ?%elem_of_nil.
Qed.

(** The parts of the pump, run without interruption, handle an event as a whole. *)
Lemma pump_parts_compose now idx ts ev q :
  rtc pump_part (mkSystem idx ts (ev :: q) Waiting) (mkSystem (pump_handle iter_set iter_nodes now idx ev) ts q Waiting).
Proof.
  eapply rtc_l; [apply step_accept|]. unfold pump_accept, pump_handle. case_bool_decide as Hlive; cbn [negb]; [|done].
  destruct ev as [w seq batch|w].
  - destruct (out_of_order idx w seq) eqn:Ho.
    { eapply rtc_l; [|done]. eapply (step_advance now); [done|]. cbn. by rewrite Ho. }
    eapply rtc_l; [eapply (step_advance now); [done|]; cbn; by rewrite Ho|]. clear Ho Hlive. cbv zeta.
    revert idx. induction (events batch) as [|e es IH]; intros idx; cbn [foldl].
    + eapply rtc_l; [|done]. by apply (step_advance now).
    + eapply rtc_l; [by apply (step_advance now)|]. apply IH.
  - eapply rtc_l; [|done]. by apply (step_advance now).
Qed.

(** A batch that was applied is ignored when it, or an older one, arrives again. *)
Theorem redelivered_batch_ignored now now' idx w seq seq' b b' :
  w ∈ live_workers idx → tree_wf (tree idx) → (seq' ≤ seq)%Z →
  let idx1 := pump_handle iter_set iter_nodes now idx (Batch w seq b) in
  pump_handle iter_set iter_nodes now' idx1 (Batch w seq' b') = idx1.
Proof.
  intros Hlive Hwf Hle. cbv zeta.
  assert (∃ p, cursors (pump_handle iter_set iter_nodes now idx (Batch w seq b)) !! w = Some p ∧ (seq ≤ p)%Z) as (p&Hp&Hsp).
  { unfold pump_handle. rewrite bool_decide_true by done. cbn [negb]. destruct (out_of_order idx w seq) eqn:Ho.
    - unfold out_of_order in Ho. destruct (cursors idx !! w) as [p|]; [|done]. exists p. split; [done|]. by apply Z.leb_le.
    - exists seq. split; [|done]. cbn. by rewrite lookup_insert_eq. }
  set (idx1 := pump_handle _ _ _ _ _) in *. unfold pump_handle. destruct (negb _); [done|].
  unfold out_of_order. rewrite Hp. assert ((seq' <=? p)%Z = true) as -> by (apply Z.leb_le; lia). done.
Qed.

(** A removal forgets a worker whose live ranks are those of its entry. *)
Theorem remove_worker_forgets idx worker_url ranks :
  tree_wf (tree idx) → workers idx !! worker_url = Some ranks →
  (∀ r, mkKvWorkerId worker_url r ∈ live_workers idx → r ∈ ranks) →
  let idx' := remove_worker iter_nodes idx worker_url in
  workers idx' !! worker_url = None ∧
  (∀ r, mkKvWorkerId worker_url r ∉ live_workers idx' ∧ subscribers idx' !! mkKvWorkerId worker_url r = None) ∧
  (∀ r, r ∈ ranks → cursors idx' !! mkKvWorkerId worker_url r = None ∧
     ∀ q, q ≠ [] → mkKvWorkerId worker_url r ∉ holders (tree idx') q) ∧
  (∀ id, url id ≠ worker_url → (id ∈ live_workers idx' ↔ id ∈ live_workers idx) ∧ subscribers idx' !! id = subscribers idx !! id ∧
     workers idx' !! url id = workers idx !! url id).
Proof.
  intros Hwf Hentry Hlive. unfold remove_worker, remove_entry. rewrite Hentry. cbv zeta. unfold remove_drain, subscribers_drain.
  set (ids := rank_ids worker_url ranks). set (idx1 := set_subscribers _ _).
  assert (∀ r, mkKvWorkerId worker_url r ∈ ids ↔ r ∈ ranks) as Hids.
  { intros r. unfold ids, rank_ids. rewrite list_elem_of_fmap. split; [|intros ?; by exists r]. by intros (r'&[= ->]&?). }
  assert (∀ l ix, workers (remove_clear iter_nodes ix l) = workers ix ∧ subscribers (remove_clear iter_nodes ix l) = subscribers ix) as Hrc.
  { unfold remove_clear. induction l as [|i l IH]; intros ix; cbn [foldl]; [done|]. by destruct (IH (set_cursors (set_tree ix (clear_worker iter_nodes (tree ix) i)) (delete i (cursors ix)))) as [-> ->]. }
  assert (tree_wf (tree idx1)) as Hwf1 by done.
  destruct (remove_clear_correct ids idx1 Hwf1) as (_&Hl&Hc). destruct (Hrc ids idx1) as [Hw Hs]. split_and!.
  - rewrite Hw. cbn. apply lookup_delete_eq.
  - intros r. rewrite Hl, Hs. cbn. split.
    + rewrite elem_of_mark_dead. intros [Hin Hni]. by apply Hni, Hids, Hlive.
    + apply map_lookup_filter_None. right. by intros h _ [].
  - intros r Hr. apply Hc. left. by apply Hids.
  - intros id Hid. rewrite Hl, Hs, Hw. cbn. split_and!.
    + rewrite elem_of_mark_dead. split; [by intros [? _]|]. intros ?. split; [done|]. unfold ids, rank_ids.
      rewrite list_elem_of_fmap. by intros (r&->&_).
    + rewrite map_lookup_filter. destruct (subscribers idx !! id); [|done]. cbn. by rewrite option_guard_True.
    + by rewrite lookup_delete_ne.
Qed.

End Steps.

(** ** Hashes *)

Lemma sha256_to_i64_eq digest : sha256_to_i64 digest = sglang_sha256_digest_to_i64 digest.
Proof. done. Qed.

Lemma foldl_app_bytes (f : N → list N) l acc : foldl (λ a t, a ++ f t) acc l = acc ++ (l ≫= f).
Proof. revert acc. induction l as [|t l IH]; intros acc; cbn; [by rewrite app_nil_r|]. by rewrite IH, (assoc_L (++)). Qed.

Lemma chain_block_eq sha256 prior block : chain_block sha256 prior block = sglang_hash_block sha256 prior block.
Proof. unfold chain_block, sglang_hash_block. rewrite foldl_app_bytes. by destruct prior. Qed.

Lemma hash_loop_eq sha256 fuel tokens bs start prior out :
  0 < bs → (N.to_nat (len tokens - start) < fuel)%nat →
  hash_loop sha256 fuel tokens bs start prior out = out ++ hash_blocks sha256 prior (chunks (N.to_nat bs) (slice_from start tokens)).
Proof.
  intros Hbs. revert start prior out. induction fuel as [|fuel IH]; intros start prior out Hf; [lia|]. cbn [hash_loop].
  destruct (N.ltb_spec start (len tokens)) as [Hlt|Hge]; cbn [negb].
  - assert (slice_from start tokens ≠ []) as Hne.
    { intros He. apply (f_equal len) in He. rewrite len_slice_from in He. change (len []) with 0 in He. lia. }
    rewrite (chunks_cons (N.to_nat bs)) by (done || lia). cbn [hash_blocks]. rewrite IH by lia.
    rewrite chain_block_eq, <-(assoc_L (++)). cbn [app]. do 2 f_equal.
    + f_equal. f_equal. unfold slice_to. destruct (decide (start + bs ≤ len tokens)).
      * f_equal. lia.
      * rewrite !take_ge; [done|..]; unfold slice_from; rewrite length_drop; unfold len in *; lia.
    + f_equal.
      * f_equal. f_equal. unfold slice_to. destruct (decide (start + bs ≤ len tokens)).
        -- f_equal. lia.
        -- rewrite !take_ge; [done|..]; unfold slice_from; rewrite length_drop; unfold len in *; lia.
      * f_equal. unfold slice_from. rewrite drop_drop. destruct (decide (start + bs ≤ len tokens)).
        -- f_equal. lia.
        -- rewrite !drop_ge; [done|..]; unfold len in *; lia.
  - unfold slice_from. rewrite drop_ge by (unfold len in *; lia). cbn. by rewrite app_nil_r.
Qed.

(** The router hashes a prompt exactly as the workers do, and panics on the same block size. *)
Theorem router_hashes_as_workers sha256 tokens bs :
  compute_block_hashes sha256 tokens bs = compute_sglang_block_hashes sha256 tokens bs.
Proof.
  unfold compute_block_hashes. destruct (decide (0 < bs)) as [Hbs|]; [|unfold compute_sglang_block_hashes; by rewrite !option_guard_False].
  rewrite option_guard_True by done. rewrite compute_hashes_eq by done. destruct tokens as [|t ts] eqn:Ht; [done|].
  rewrite <-Ht. rewrite hash_loop_eq; [done|done|]. unfold len. subst. lia.
Qed.

(** ** Block size *)

Definition try_step (acc : list (Result BlockSizeMismatch N) * N) (c : N) : list (Result BlockSizeMismatch N) * N :=
  let '(r, v) := try_set acc.2 c in (acc.1 ++ [r], v).

Definition try_sets (value : N) (cs : list N) : list (Result BlockSizeMismatch N) * N := foldl try_step ([], value) cs.

Lemma try_sets_fixed v cs rs : v ≠ 0 →
  foldl try_step (rs, v) cs =
    (rs ++ ((λ c, if c =? v then Ok v else Err (mkBlockSizeMismatch v c)) <$> cs), v).
Proof.
  intros Hv. revert rs. induction cs as [|c cs IH]; intros rs; cbn [foldl fmap list_fmap]; [by rewrite app_nil_r|].
  assert (try_set v c = (if c =? v then Ok v else Err (mkBlockSizeMismatch v c), v)) as H.
  { unfold try_set. destruct (N.eqb_spec c 0) as [->|]; [by destruct (N.eqb_spec 0 v); [congruence|]|].
    destruct (N.eqb_spec v 0); [done|]. rewrite (N.eqb_sym c v). by destruct (v =? c). }
  unfold try_step at 2. cbn [fst snd]. rewrite H, IH. by rewrite <-(assoc_L (++)).
Qed.

(** The first nonzero block size wins: before it every candidate is refused, from then on exactly its repetitions are accepted. *)
Theorem oracle_first_wins zeros v cs :
  Forall (λ c, c = 0) zeros → v ≠ 0 →
  try_sets 0 (zeros ++ v :: cs) =
    (((λ _, Err (mkBlockSizeMismatch 0 0)) <$> zeros) ++ Ok v :: ((λ c, if c =? v then Ok v else Err (mkBlockSizeMismatch v c)) <$> cs), v) ∧
  oracle_get (try_sets 0 zeros).2 = None ∧ oracle_get v = Some v.
Proof.
  intros Hz Hv. assert (∀ rs, foldl try_step (rs, 0) zeros =
    (rs ++ ((λ _, Err (mkBlockSizeMismatch 0 0)) <$> zeros), 0)) as Hzeros.
  { induction Hz as [|c zeros -> _ IH]; intros rs; cbn; [by rewrite app_nil_r|]. rewrite IH. by rewrite <-(assoc_L (++)). }
  unfold try_sets. rewrite foldl_app, !Hzeros. cbn [foldl]. split_and!; [|done|].
  - unfold try_step at 2. unfold try_set. cbn [fst snd]. destruct (N.eqb_spec v 0); [done|]. cbn [N.eqb]. rewrite try_sets_fixed by done.
    cbn. by rewrite <-(assoc_L (++)).
  - unfold oracle_get. by destruct (N.eqb_spec v 0).
Qed.

(** ** Concrete runs *)

Definition url_a : string := "http://a".
Definition cfg1 : EventConfig := mkEventConfig "a" 5557 "" 16 1.
Definition cfg2 : EventConfig := mkEventConfig "a" 5557 "" 16 2.
Definition rank0 : KvWorkerId := mkKvWorkerId url_a 0.
Definition rank1 : KvWorkerId := mkKvWorkerId url_a 1.
Definition stored (hs : list Z) : KvCacheEvent := EventBlockStored (mkBlockStored hs None [] 16 None None).
Definition batch_of (es : list KvCacheEvent) : KvEventBatch := mkKvEventBatch 0 es None.

(** A removal that runs while the pump is between its check of the live set and the tree leaves the batch in the tree and its
    cursor in place: the worker, attached again, is then ignored up to the old sequence number. *)
Theorem removal_races_with_pump :
  ∃ s, rtc (fine_step set_order node_order) (initial 0 0) s ∧ tasks s = [] ∧ queue s = [] ∧ phase s = Waiting ∧
    workers (index s) = ∅ ∧ live_workers (index s) = ∅ ∧ rank0 ∈ holders (tree (index s)) [7]%Z ∧
    cursors (index s) !! rank0 = Some 5%Z ∧
    let idx := add_worker (index s) url_a (Some cfg1) in
    rank0 ∈ live_workers idx ∧ pump_handle set_order node_order 9 idx (Batch rank0 1 (batch_of [stored [8]%Z])) = idx.
Proof.
  set (ev := Batch rank0 5 (batch_of [stored [7]%Z])). eexists. split.
  - eapply rtc_l; [left; by apply (step_add node_order _ [] [] Waiting url_a (Some cfg1))|].
    eapply rtc_l; [left; by apply (step_add_mark node_order _ [] [])|].
    eapply rtc_l; [left; by apply (step_add_entry node_order _ [] [])|].
    eapply rtc_l; [left; by apply (step_add_subscribe node_order _ [] [])|].
    eapply rtc_l; [left; apply (step_receive node_order _ _ _ _ ev); [left; by eexists|done]|].
    eapply rtc_l; [right; by apply step_accept|].
    eapply rtc_l; [left; by apply (step_remove node_order _ [] _ _ url_a)|].
    eapply rtc_l; [left; by apply (step_remove_mark node_order _ [] [])|].
    eapply rtc_l; [left; by apply (step_remove_drain node_order _ [] [])|].
    eapply rtc_l; [left; by apply (step_remove_join node_order _ [] [])|].
    eapply rtc_l; [left; by apply (step_remove_clear node_order _ [] [])|].
    eapply rtc_l; [right; by apply (step_advance set_order node_order 1)|].
    eapply rtc_l; [right; by apply (step_advance set_order node_order 2)|].
    eapply rtc_l; [right; by apply (step_advance set_order node_order 3)|]. apply rtc_refl.
  - split_and!; first [by apply (bool_decide_unpack _); vm_compute | by vm_compute].
Qed.

(** Adding a worker again with fewer ranks forgets the ranks it had: after its removal they stay live, with their chains. *)
Theorem readded_worker_leaks :
  let idx := add_worker (new_index 0 0) url_a (Some cfg2) in
  let idx := pump_handle set_order node_order 1 idx (Batch rank1 5 (batch_of [stored [7]%Z])) in
  let idx := add_worker idx url_a (Some cfg1) in
  let idx := remove_worker node_order idx url_a in
  workers idx = ∅ ∧ subscribers idx = ∅ ∧ rank1 ∈ live_workers idx ∧ rank1 ∈ holders (tree idx) [7]%Z ∧
  cursors idx !! rank1 = Some 5%Z.
Proof. cbv zeta. split_and!; first [by apply (bool_decide_unpack _); vm_compute | by vm_compute]. Qed.

Lemma sample_run : ∃ s, rtc (coarse_step set_order node_order) (initial 0 0) s ∧ tasks s = [] ∧ rank0 ∉ live_workers (index s).
Proof.
  set (ev := Batch rank0 5 (batch_of [stored [7]%Z])). eexists. split.
  - eapply rtc_l; [left; by apply (step_add node_order _ [] [] Waiting url_a (Some cfg1))|].
    eapply rtc_l; [left; by apply (step_add_mark node_order _ [] [])|].
    eapply rtc_l; [left; by apply (step_add_entry node_order _ [] [])|].
    eapply rtc_l; [left; by apply (step_add_subscribe node_order _ [] [])|].
    eapply rtc_l; [left; apply (step_receive node_order _ _ _ _ ev); [left; by eexists|done]|].
    eapply rtc_l; [right; by apply (step_handle set_order node_order 1)|].
    eapply rtc_l; [left; by apply (step_remove node_order _ [] _ _ url_a)|].
    eapply rtc_l; [left; by apply (step_remove_mark node_order _ [] [])|].
    eapply rtc_l; [left; by apply (step_remove_drain node_order _ [] [])|].
    eapply rtc_l; [left; by apply (step_remove_join node_order _ [] [])|].
    eapply rtc_l; [left; by apply (step_remove_clear node_order _ [] [])|]. apply rtc_refl.
  - split; [by vm_compute|]. by apply (bool_decide_unpack _); vm_compute.
Qed.

Lemma detached_workers_leave_no_trace_witness :
  ∃ s, rtc (coarse_step set_order node_order) (initial 0 0) s ∧ tasks s = [] ∧
    cursors (index s) !! rank0 = None ∧ ∀ q, q ≠ [] → rank0 ∉ holders (tree (index s)) q.
Proof.
  destruct sample_run as (s&Hrun&Hts&Hl). exists s. split; [exact Hrun|]. split; [exact Hts|].
  apply (detached_workers_leave_no_trace set_order node_order set_order_ok node_order_ok 0 0 s Hrun Hts rank0 Hl).
Defined.

Definition attached : KvEventIndex := add_worker (new_index 0 0) url_a (Some cfg1).

Lemma attached_wf : tree_wf (tree attached).
Proof. apply (new_tree_wf 0). Qed.

Lemma redelivered_batch_ignored_witness :
  let idx1 := pump_handle set_order node_order 1 attached (Batch rank0 5 (batch_of [stored [7]%Z])) in
  pump_handle set_order node_order 2 idx1 (Batch rank0 5 (batch_of [stored [7]%Z])) = idx1.
Proof. apply redelivered_batch_ignored; [by apply (bool_decide_unpack _); vm_compute|apply attached_wf|lia]. Defined.

Lemma remove_worker_forgets_witness :
  let idx' := remove_worker node_order attached url_a in
  workers idx' !! url_a = None ∧
  (∀ r, mkKvWorkerId url_a r ∉ live_workers idx' ∧ subscribers idx' !! mkKvWorkerId url_a r = None) ∧
  (∀ r, r ∈ [0] → cursors idx' !! mkKvWorkerId url_a r = None ∧ ∀ q, q ≠ [] → mkKvWorkerId url_a r ∉ holders (tree idx') q) ∧
  (∀ id, url id ≠ url_a → (id ∈ live_workers idx' ↔ id ∈ live_workers attached) ∧ subscribers idx' !! id = subscribers attached !! id ∧
     workers idx' !! url id = workers attached !! url id).
Proof.
  apply (remove_worker_forgets node_order node_order_ok); [apply attached_wf|by vm_compute|].
  intros r Hr. assert (live_workers attached = {[rank0]}) as Hl by (by apply (bool_decide_unpack _); vm_compute). rewrite Hl in Hr.
  apply elem_of_singleton in Hr. injection Hr as ->. by left.
Defined.

Lemma oracle_first_wins_witness :
  try_sets 0 ([0] ++ 16 :: [16; 32; 0]) =
    (((λ _, Err (mkBlockSizeMismatch 0 0)) <$> [0]) ++ Ok 16 :: ((λ c, if c =? 16 then Ok 16 else Err (mkBlockSizeMismatch 16 c)) <$> [16; 32; 0]), 16) ∧
  oracle_get (try_sets 0 [0]).2 = None ∧ oracle_get 16 = Some 16.
Proof. apply oracle_first_wins; [by repeat constructor|done]. Defined.
