(* ===== verification/WorkerRegistry.v ===== *)
(** * Workers of the router ([crates/sglang-router/src/workers/], [policies/registry.rs])

    The worker entries, the registry that maps models to workers, the partition of
    a model's workers into prefill and decode pools, and the choice of a decode
    worker near a prefill worker.  URL parsing is the [url] crate's and a parameter;
    hash sets have no fixed order, the order is a parameter.  The registry's writers
    hold one lock, so an execution is a sequence of operations. *)

From S2P Require Import Prelude Float32 CircuitBreaker.
From Stdlib Require Import SpecFloat.

Notation WorkerId := string (only parsing).
Notation ModelId := string (only parsing).

(** [discovery/types.rs:32-37] WorkerMode *)
Inductive WorkerMode : Type := Plain | Prefill | Decode.

#[export] Instance WorkerMode_eq_dec : EqDecision WorkerMode.
Proof. solve_decision. Defined.

(** [discovery/types.rs:53-61] WorkerSpec *)
Record WorkerSpec : Type := mkWorkerSpec {
  spec_id : WorkerId;
  spec_url : string;
  spec_mode : WorkerMode;
  spec_model_ids : list ModelId;
  spec_bootstrap_port : option N;
}.

(** [workers/worker.rs:59-68] KvCacheLayoutInfo *)
Record KvCacheLayoutInfo : Type := mkKvCacheLayoutInfo {
  dtype : string;
  page_size : N;
  num_layers : N;
  kv_heads : N;
  head_dim : N;
  kv_tensors_per_token : N;
  bytes_per_token : N;
  page_size_bytes : N;
}.

#[export] Instance KvCacheLayoutInfo_eq_dec : EqDecision KvCacheLayoutInfo.
Proof. solve_decision. Defined.

(** [workers/worker.rs:94-119] Worker *)
Record Worker : Type := mkWorker {
  worker_id : WorkerId;
  worker_url : string;
  mode : WorkerMode;
  model_ids : list ModelId;
  breaker : CircuitBreaker;
  active_requests : N;
  bootstrap_host : string;
  bootstrap_port : option N;
  kv_cache_layout : option KvCacheLayoutInfo;
}.

Notation active_load := active_requests (only parsing).

(** [workers/worker.rs:71-77] WorkerMode::as_u8 *)
Definition as_u8 (m : WorkerMode) : N := match m with Plain => 0 | Prefill => 1 | Decode => 2 end.

(** [None] is the unreachable discriminant. *)
(** [workers/worker.rs:84-91] WorkerMode::from_u8 *)
Definition from_u8 (v : N) : option WorkerMode :=
  if v =? 0 then Some Plain else if v =? 1 then Some Prefill else if v =? 2 then Some Decode else None.

(** [workers/worker.rs:184-186] Worker::set_mode *)
Definition worker_set_mode (w : Worker) (m : WorkerMode) : Worker :=
  mkWorker (worker_id w) (worker_url w) m (model_ids w) (breaker w) (active_requests w) (bootstrap_host w) (bootstrap_port w)
    (kv_cache_layout w).

Section Hosts.
(** The host of a URL the [url] crate can parse. *)
Context (url_host : string → option string).

Definition str_contains (needle hay : string) : bool := if String.index 0 needle hay then true else false.

(** [workers/worker.rs:14-32] parse_bootstrap_host *)
Definition parse_bootstrap_host (url : string) : string :=
  match url_host url with
  | Some h => h
  | None =>
      if negb (str_contains "://" url) then
        match url_host ("http://" +:+ url) with Some h => h | None => "localhost" end
      else "localhost"
  end.

(** [workers/worker.rs:135-156] Worker::with_cb_config_and_kv_cache_layout *)
Definition new_worker (spec : WorkerSpec) (cb : option CircuitBreakerConfig) (layout : option KvCacheLayoutInfo) : Worker :=
  mkWorker (spec_id spec) (spec_url spec) (spec_mode spec) (spec_model_ids spec)
    (match cb with Some cfg => with_config cfg | None => with_config CircuitBreakerConfig_default end)
    0 (parse_bootstrap_host (spec_url spec)) (spec_bootstrap_port spec) layout.

End Hosts.

(** ** The registry *)

(** [workers/registry.rs:13-33] AddWorkerError *)
Inductive AddWorkerError : Type :=
  | MixedPdAndPlain (worker : WorkerId) (model : ModelId) (pd_mode : string).

(** [workers/registry.rs:36-50] WorkerRegistry *)
Record WorkerRegistry : Type := mkWorkerRegistry {
  by_id : gmap WorkerId Worker;
  by_model : gmap ModelId (gset WorkerId);
}.

Definition empty_registry : WorkerRegistry := mkWorkerRegistry ∅ ∅.

(** [workers/registry.rs:223-229] modes_are_mixed *)
Definition modes_are_mixed (a b : WorkerMode) : bool :=
  match a, b with
  | Plain, (Prefill | Decode) => true
  | (Prefill | Decode), Plain => true
  | _, _ => false
  end.

(** [workers/registry.rs:231-237] mode_name *)
Definition mode_name (m : WorkerMode) : string :=
  match m with Plain => "plain" | Prefill => "prefill" | Decode => "decode" end.

(** The set of a model may become empty but stays in the index. *)
(** [workers/registry.rs:161-169] WorkerRegistry::remove_locked *)
Definition remove_locked (r : WorkerRegistry) (id : WorkerId) : WorkerRegistry :=
  match by_id r !! id with
  | None => r
  | Some w =>
      mkWorkerRegistry (delete id (by_id r))
        (foldl (λ bm m, match bm !! m with Some set => <[m := set ∖ {[id]}]> bm | None => bm end) (by_model r) (model_ids w))
  end.

(** [workers/registry.rs:150-157] WorkerRegistry::remove *)
Definition remove (r : WorkerRegistry) (id : WorkerId) : WorkerRegistry := remove_locked r id.

(** A mode change of a worker mutates its entry in place. *)
(** [workers/manager.rs:184-188] run_with_introspector (ModeChanged) *)
Definition set_mode (r : WorkerRegistry) (id : WorkerId) (m : WorkerMode) : WorkerRegistry :=
  match by_id r !! id with
  | Some w => mkWorkerRegistry (<[id := worker_set_mode w m]> (by_id r)) (by_model r)
  | None => r
  end.

(** [workers/registry.rs:216-218] WorkerRegistry::get *)
Definition get (r : WorkerRegistry) (id : WorkerId) : option Worker := by_id r !! id.

(** [workers/registry.rs:208-210] WorkerRegistry::len *)
Definition registry_len (r : WorkerRegistry) : N := N.of_nat (size (by_id r)).

Section Registry.
Context (url_host : string → option string) (iter_ids : gset WorkerId → list WorkerId).

(** [workers/registry.rs:171-180] WorkerRegistry::workers_for *)
Definition workers_for (r : WorkerRegistry) (model : ModelId) : list Worker :=
  match by_model r !! model with
  | Some ids => omap (λ i, by_id r !! i) (iter_ids ids)
  | None => []
  end.

(** [workers/registry.rs:189-199] WorkerRegistry::healthy_workers_for *)
Definition healthy_workers_for (now : N) (r : WorkerRegistry) (model : ModelId) : list Worker :=
  filter (λ w, would_allow (breaker w) now = true) (workers_for r model).

(** [workers/registry.rs:201-206] WorkerRegistry::workers_for_mode *)
Definition workers_for_mode (r : WorkerRegistry) (model : ModelId) (m : WorkerMode) : list Worker :=
  filter (λ w, mode w = m) (workers_for r model).

(** [workers/registry.rs:119-132] WorkerRegistry::add_with_cb_and_kv_cache_layout (validation) *)
Fixpoint find_conflict (r : WorkerRegistry) (spec : WorkerSpec) (models : list ModelId) : option ModelId :=
  match models with
  | [] => None
  | model :: models' =>
      match list_find (λ existing, worker_id existing ≠ spec_id spec ∧ modes_are_mixed (spec_mode spec) (mode existing) = true)
              (workers_for r model) with
      | Some _ => Some model
      | None => find_conflict r spec models'
      end
  end.

(** [workers/registry.rs:140-145] WorkerRegistry::add_with_cb_and_kv_cache_layout (index) *)
Definition index_models (bm : gmap ModelId (gset WorkerId)) (id : WorkerId) (models : list ModelId) : gmap ModelId (gset WorkerId) :=
  foldl (λ bm m, <[m := {[id]} ∪ default ∅ (bm !! m)]> bm) bm models.

(** [workers/registry.rs:90-148] WorkerRegistry::add_with_cb_and_kv_cache_layout *)
Definition add (r : WorkerRegistry) (spec : WorkerSpec) (cb : option CircuitBreakerConfig) (layout : option KvCacheLayoutInfo)
    : Result AddWorkerError unit * WorkerRegistry :=
  match find_conflict r spec (spec_model_ids spec) with
  | Some model => (Err (MixedPdAndPlain (spec_id spec) model (mode_name (spec_mode spec))), r)
  | None =>
      let w := new_worker url_host spec cb layout in
      let id := worker_id w in
      let r := remove_locked r id in
      (Ok tt, mkWorkerRegistry (<[id := w]> (by_id r)) (index_models (by_model r) id (model_ids w)))
  end.

(** ** Pools *)

(** [policies/registry.rs:51-66] PdPools *)
Inductive PdPools : Type :=
  | PlainPool (workers : list Worker)
  | PdPool (prefill decode : list Worker).

(** [policies/registry.rs:71-82] PdResolveError *)
Inductive PdResolveError : Type :=
  | NoHealthyWorkers
  | NoPrefillWorkersAvailable
  | NoDecodeWorkersAvailable.

Definition is_pd (m : WorkerMode) : bool := match m with Plain => false | _ => true end.

(** [policies/registry.rs:111-152] PdPoolResolver::resolve *)
Definition resolve (now : N) (r : WorkerRegistry) (model : ModelId) : Result PdResolveError PdPools :=
  let all := healthy_workers_for now r model in
  match all with
  | [] =>
      if existsb (λ w, is_pd (mode w)) (workers_for r model) then Ok (PdPool [] []) else Err NoHealthyWorkers
  | _ =>
      let prefill := filter (λ w, mode w = Prefill) all in
      let decode := filter (λ w, mode w = Decode) all in
      let plain := filter (λ w, mode w = Plain) all in
      if negb (bool_decide (length prefill = 0%nat)) || negb (bool_decide (length decode = 0%nat))
      then Ok (PdPool prefill decode) else Ok (PlainPool plain)
  end.

(** [policies/registry.rs:157-168] PdPoolResolver::prefill_candidates *)
Definition prefill_candidates (now : N) (r : WorkerRegistry) (model : ModelId) : Result PdResolveError (list Worker) :=
  let? pools := resolve now r model in
  match pools with
  | PlainPool workers => Ok workers
  | PdPool [] _ => Err NoPrefillWorkersAvailable
  | PdPool prefill _ => Ok prefill
  end.

(** [policies/registry.rs:172-183] PdPoolResolver::decode_candidates *)
Definition decode_candidates (now : N) (r : WorkerRegistry) (model : ModelId) : Result PdResolveError (list Worker) :=
  let? pools := resolve now r model in
  match pools with
  | PlainPool workers => Ok workers
  | PdPool _ [] => Err NoDecodeWorkersAvailable
  | PdPool _ decode => Ok decode
  end.

(** ** Affinity *)

(** [median as f64 * 2.0], rounded up to a [usize]; [f64] is the specification float of precision 53. *)
(** [policies/registry.rs:45-45] AFFINITY_LOAD_TOLERANCE *)
Definition twice_ceil (median : N) : N :=
  let x := binary_normalize 53 1024 (Z.of_N median) 0 false in
  match SFmul 53 1024 x (S754_finite false 4503599627370496 (-51)) with
  | S754_finite false m e => N.min usize_MAX (Z.to_N (if (0 <=? e)%Z then Zpos m * 2 ^ e else (Zpos m + 2 ^ (- e) - 1) / 2 ^ (- e)))
  | S754_infinity false => usize_MAX
  | _ => 0
  end.

(** The elements in ascending order. *)
Fixpoint insert_sorted (x : N) (l : list N) : list N :=
  match l with [] => [x] | y :: l' => if x <=? y then x :: l else y :: insert_sorted x l' end.
Definition sort_unstable (l : list N) : list N := foldr insert_sorted [] l.

(** [policies/registry.rs:276-283] select_decode_with_affinity (tolerance) *)
Definition load_tolerance (healthy : list Worker) : N :=
  match healthy with
  | [] => 0
  | _ =>
      let loads := sort_unstable (active_load <$> healthy) in
      twice_ceil (default 0 (loads !! (length loads / 2)%nat))
  end.

(** [policies/registry.rs:254-305] select_decode_with_affinity *)
Definition select_decode_with_affinity (now : N) (prefill_url : string) (candidates : list Worker) : option Worker :=
  match candidates with
  | [] => None
  | _ =>
      let healthy := filter (λ w, would_allow (breaker w) now = true) candidates in
      let tolerance := load_tolerance healthy in
      let affinity_peer :=
        host ← url_host prefill_url;
        snd <$> list_find (λ w, url_host (worker_url w) = Some host ∧ (tolerance = 0 ∨ active_load w ≤ tolerance)) healthy in
      match affinity_peer with
      | Some w => Some w
      | None =>
          match min_by_key active_load healthy with
          | Some w => Some w
          | None => min_by_key active_load candidates
          end
      end
  end.

(** [policies/registry.rs:318-323] kv_layout_compatible *)
Definition kv_layout_compatible (prefill decode : Worker) : bool :=
  match kv_cache_layout prefill, kv_cache_layout decode with
  | Some p, Some d => bool_decide (p = d)
  | _, _ => true
  end.

(** [policies/registry.rs:194-202] PdPoolResolver::decode_with_affinity *)
Definition decode_with_affinity (now : N) (r : WorkerRegistry) (model : ModelId) (prefill_url : string) : Result PdResolveError Worker :=
  let? candidates := decode_candidates now r model in
  ok_or (select_decode_with_affinity now prefill_url candidates) NoDecodeWorkersAvailable.

(** [policies/registry.rs:209-221] PdPoolResolver::decode_with_affinity_for_prefill *)
Definition decode_with_affinity_for_prefill (now : N) (r : WorkerRegistry) (model : ModelId) (prefill : Worker)
    : Result PdResolveError Worker :=
  let? candidates := decode_candidates now r model in
  let compatible := filter (λ d, kv_layout_compatible prefill d = true) candidates in
  ok_or (select_decode_with_affinity now (worker_url prefill) compatible) NoDecodeWorkersAvailable.

End Registry.

(** ** Facts *)

(** The index lists exactly the models the entries serve. *)
Record registry_wf (r : WorkerRegistry) : Prop := {
  rw_id i w : by_id r !! i = Some w → worker_id w = i;
  rw_index m i : (∃ ids, by_model r !! m = Some ids ∧ i ∈ ids) ↔ ∃ w, by_id r !! i = Some w ∧ m ∈ model_ids w;
}.

(** No model is served by plain and by prefill or decode workers. *)
Definition unmixed (r : WorkerRegistry) : Prop :=
  ∀ m i1 i2 w1 w2, by_id r !! i1 = Some w1 → by_id r !! i2 = Some w2 → m ∈ model_ids w1 → m ∈ model_ids w2 →
    modes_are_mixed (mode w1) (mode w2) = false.

Definition indexed (bm : gmap ModelId (gset WorkerId)) (m : ModelId) (i : WorkerId) : Prop :=
  ∃ ids, bm !! m = Some ids ∧ i ∈ ids.

Lemma indexed_drop ms id : ∀ bm m i,
  indexed (foldl (λ bm m, match bm !! m with Some set => <[m := set ∖ {[id]}]> bm | None => bm end) bm ms) m i ↔
  indexed bm m i ∧ ¬ (i = id ∧ m ∈ ms).
Proof.
  induction ms as [|m0 ms IH]; intros bm m i; cbn [foldl].
  { split; [|by intros [? _]]. intros ?. split; [done|]. by intros [_ ?%elem_of_nil]. }
  rewrite IH. unfold indexed. rewrite elem_of_cons. destruct (bm !! m0) as [set|] eqn:Hm0.
  - destruct (decide (m = m0)) as [->|Hne].
    + rewrite lookup_insert_eq, Hm0. split.
      * intros [(?&[= <-]&Hin) Hx]. apply elem_of_difference in Hin as [Hin Hi]. split; [by exists set|].
        intros [-> _]. by apply Hi, elem_of_singleton.
      * intros [(?&[= <-]&Hin) Hx]. split; [|intros [? ?]; apply Hx; split; [done|by left]]. eexists. split; [done|].
        apply elem_of_difference. split; [done|]. intros ->%elem_of_singleton. apply Hx. split; [done|by left].
    + rewrite lookup_insert_ne by done. split; intros [H Hx]; (split; [done|]); intros [-> ?]; apply Hx; split; try done;
        [by destruct H0|by right].
  - destruct (decide (m = m0)) as [->|Hne].
    + rewrite Hm0. split; [by intros [(?&?&_) _]|by intros [(?&?&_) _]].
    + split; intros [H Hx]; (split; [done|]); intros [-> ?]; apply Hx; split; try done; [by destruct H0|by right].
Qed.

Lemma indexed_add ms id : ∀ bm m i, indexed (index_models bm id ms) m i ↔ indexed bm m i ∨ i = id ∧ m ∈ ms.
Proof.
  unfold index_models. induction ms as [|m0 ms IH]; intros bm m i; cbn [foldl].
  { split; [by left|]. by intros [?|[_ ?%elem_of_nil]]. }
  rewrite IH, elem_of_cons. clear IH. unfold indexed. destruct (decide (m = m0)) as [->|Hne].
  - rewrite lookup_insert_eq. split.
    + intros [(?&[= <-]&Hin)|[-> ?]]; [|right; split; [done|by right]].
      apply elem_of_union in Hin as [->%elem_of_singleton|Hin]; [right; split; [done|by left]|left].
      destruct (bm !! m0) as [ids|]; [by exists ids|]. by apply elem_of_empty in Hin.
    + intros [(ids&->&Hin)|[-> _]]; left; eexists; (split; [done|]); apply elem_of_union;
        [by right|left; by apply elem_of_singleton].
  - rewrite lookup_insert_ne by done. split; intros [?|[-> ?]]; [by left|right; split; [done|by right]|by left|right].
    split; [done|]. by destruct H.
Qed.

Lemma remove_locked_wf r id : registry_wf r → registry_wf (remove_locked r id) ∧ by_id (remove_locked r id) = delete id (by_id r).
Proof.
  intros [Hid Hidx]. unfold remove_locked. destruct (by_id r !! id) as [w|] eqn:Hw.
  - split; [|done]. split; cbn.
    + intros i w' [_ ?]%lookup_delete_Some. by apply Hid.
    + intros m i. change (indexed (foldl (λ bm m, match bm !! m with Some set => <[m := set ∖ {[id]}]> bm | None => bm end)
        (by_model r) (model_ids w)) m i ↔ ∃ w', delete id (by_id r) !! i = Some w' ∧ m ∈ model_ids w').
      rewrite indexed_drop. unfold indexed. rewrite Hidx. split.
      * intros [(w'&Hw'&Hm) Hx]. exists w'. split; [|done]. apply lookup_delete_Some. split; [|done].
        intros <-. apply Hx. split; [done|]. congruence.
      * intros (w'&[Hne Hw']%lookup_delete_Some&Hm). split; [by exists w'|]. intros [-> _]. done.
  - split; [done|]. symmetry. by apply delete_id.
Qed.

Section Facts.
Context (url_host : string → option string) (iter_ids : gset WorkerId → list WorkerId).
Hypothesis iter_ids_ok : ∀ ids, iter_ids ids ≡ₚ elements ids.

Notation add := (add url_host iter_ids).
Notation workers_for := (workers_for iter_ids).

Lemma elem_of_workers_for r model w : registry_wf r →
  w ∈ workers_for r model ↔ by_id r !! worker_id w = Some w ∧ model ∈ model_ids w.
Proof.
  intros [Hid Hidx]. unfold workers_for. split.
  - destruct (by_model r !! model) as [ids|] eqn:Hm; [|by intros ?%elem_of_nil].
    rewrite list_elem_of_omap. intros (i&Hi&Hw). rewrite iter_ids_ok, elem_of_elements in Hi.
    pose proof (Hid _ _ Hw) as Hwi. rewrite Hwi. split; [done|].
    destruct (proj1 (Hidx model i)) as (w'&?&?); [by exists ids|]. congruence.
  - intros [Hw Hm]. destruct (proj2 (Hidx model (worker_id w))) as (ids&->&Hin); [by exists w|].
    rewrite list_elem_of_omap. exists (worker_id w). split; [|done]. by rewrite iter_ids_ok, elem_of_elements.
Qed.

Lemma find_conflict_Some r spec models m : registry_wf r → find_conflict iter_ids r spec models = Some m →
  m ∈ models ∧ ∃ w, by_id r !! worker_id w = Some w ∧ m ∈ model_ids w ∧ worker_id w ≠ spec_id spec ∧
    modes_are_mixed (spec_mode spec) (mode w) = true.
Proof.
  intros Hwf. induction models as [|m0 models IH]; cbn; [done|].
  destruct (list_find _ (workers_for r m0)) as [[j w]|] eqn:Hf.
  - intros [= <-]. apply list_find_Some in Hf as (Hj&[Hne Hmix]&_). apply list_elem_of_lookup_2, elem_of_workers_for in Hj as [? ?]; [|done].
    split; [by left|]. by exists w.
  - intros Hr. destruct (IH Hr) as [? ?]. split; [by right|done].
Qed.

Lemma find_conflict_None r spec models : registry_wf r → find_conflict iter_ids r spec models = None →
  ∀ m w, m ∈ models → by_id r !! worker_id w = Some w → m ∈ model_ids w → worker_id w ≠ spec_id spec →
    modes_are_mixed (spec_mode spec) (mode w) = false.
Proof.
  intros Hwf. induction models as [|m0 models IH]; cbn; [intros _ m w Hm; by apply elem_of_nil in Hm|].
  destruct (list_find _ (workers_for r m0)) as [[j w]|] eqn:Hf; [done|]. intros Hr m w [->|Hm]%elem_of_cons Hw Hmw Hne.
  - apply list_find_None in Hf. rewrite Forall_forall in Hf. destruct (modes_are_mixed _ _) eqn:Hmix; [|done]. exfalso.
    apply (Hf w); [by apply elem_of_workers_for|done].
  - by apply (IH Hr m w).
Qed.

Lemma modes_are_mixed_sym a b : modes_are_mixed a b = modes_are_mixed b a.
Proof. by destruct a, b. Qed.

Lemma modes_are_mixed_irrefl a : modes_are_mixed a a = false.
Proof. by destruct a. Qed.

Lemma add_wf r spec cb layout : registry_wf r → registry_wf (add r spec cb layout).2 ∧ (unmixed r → unmixed (add r spec cb layout).2).
Proof.
  intros Hwf. unfold add. destruct (find_conflict iter_ids r spec (spec_model_ids spec)) as [m|] eqn:Hc; [done|]. cbn.
  set (w := new_worker url_host spec cb layout). change (worker_id w) with (spec_id spec). change (model_ids w) with (spec_model_ids spec).
  destruct (remove_locked_wf r (spec_id spec) Hwf) as [[Hid Hidx] Hdel]. split; [split; cbn|].
  - intros i w' [[<- <-]|[_ ?]]%lookup_insert_Some; [done|by apply Hid].
  - intros m i. change (indexed (index_models (by_model (remove_locked r (spec_id spec))) (spec_id spec) (spec_model_ids spec)) m i ↔
      ∃ w', <[spec_id spec := w]> (by_id (remove_locked r (spec_id spec))) !! i = Some w' ∧ m ∈ model_ids w').
    rewrite indexed_add. unfold indexed. rewrite Hidx. split.
    + intros [(w'&Hw'&Hm)|[-> Hm]]; [|exists w; by rewrite lookup_insert_eq].
      exists w'. rewrite lookup_insert_ne; [done|]. intros <-. by rewrite Hdel, lookup_delete_eq in Hw'.
    + intros (w'&[[<- <-]|[Hne Hw']]%lookup_insert_Some&Hm); [by right|left; by exists w'].
  - intros Hun m i1 i2 w1 w2. cbn. rewrite Hdel.
    assert (∀ i w', <[spec_id spec := w]> (delete (spec_id spec) (by_id r)) !! i = Some w' →
      (i = spec_id spec ∧ w' = w) ∨ (i ≠ spec_id spec ∧ by_id r !! i = Some w')) as Hcase.
    { intros i w' [[<- <-]|[? [_ ?]%lookup_delete_Some]]%lookup_insert_Some; [by left|right]. done. }
    intros H1 H2 Hm1 Hm2. destruct (Hcase _ _ H1) as [[-> ->]|[Hn1 Hw1]], (Hcase _ _ H2) as [[-> ->]|[Hn2 Hw2]].
    + apply modes_are_mixed_irrefl.
    + destruct Hwf as [Hid0 Hidx0]. assert (worker_id w2 = i2) as Hi2 by (by apply Hid0).
      apply (find_conflict_None r spec (spec_model_ids spec)) with (m := m); try done; congruence.
    + destruct Hwf as [Hid0 Hidx0]. assert (worker_id w1 = i1) as Hi1 by (by apply Hid0). rewrite modes_are_mixed_sym.
      apply (find_conflict_None r spec (spec_model_ids spec)) with (m := m); try done; congruence.
    + by apply (Hun m i1 i2).
Qed.

(** *** Operations of the manager *)

Inductive RegistryOp : Type :=
  | OpAdd (spec : WorkerSpec) (cb : option CircuitBreakerConfig) (layout : option KvCacheLayoutInfo)
  | OpRemove (id : WorkerId)
  | OpSetMode (id : WorkerId) (m : WorkerMode).

Definition run_op (r : WorkerRegistry) (op : RegistryOp) : WorkerRegistry :=
  match op with
  | OpAdd spec cb layout => (add r spec cb layout).2
  | OpRemove id => remove r id
  | OpSetMode id m => set_mode r id m
  end.

Definition is_set_mode (op : RegistryOp) : bool := match op with OpSetMode _ _ => true | _ => false end.

Lemma run_registry_op_wf r op : registry_wf r → registry_wf (run_op r op) ∧ (is_set_mode op = false → unmixed r → unmixed (run_op r op)).
Proof.
  intros Hwf. destruct op as [spec cb layout|id|id m]; cbn.
  - destruct (add_wf r spec cb layout Hwf). by split.
  - destruct (remove_locked_wf r id Hwf) as [? Hdel]. split; [done|]. intros _ Hun m i1 i2 w1 w2. unfold remove. rewrite Hdel.
    intros [_ H1]%lookup_delete_Some [_ H2]%lookup_delete_Some. by apply (Hun m i1 i2).
  - split; [|done]. unfold set_mode. destruct (by_id r !! id) as [w|] eqn:Hw; [|done]. destruct Hwf as [Hid Hidx]. split; cbn.
    + intros i w' [[<- <-]|[_ ?]]%lookup_insert_Some; [by apply Hid in Hw|by apply Hid].
    + intros m' i. rewrite Hidx. destruct (decide (i = id)) as [->|Hne].
      * rewrite lookup_insert_eq, Hw. split; intros (?&[= <-]&?); eexists; (split; [done|done]).
      * by rewrite lookup_insert_ne.
Qed.

(** C16. Every history of the registry keeps its index in step with its entries. *)
Theorem registry_index_consistent ops :
  let r := foldl run_op empty_registry ops in
  registry_wf r ∧ ∀ model w, w ∈ workers_for r model ↔ by_id r !! worker_id w = Some w ∧ model ∈ model_ids w.
Proof.
  cbv zeta. assert (registry_wf (foldl run_op empty_registry ops)) as Hwf; [|split; [done|]; intros; by apply elem_of_workers_for].
  assert (registry_wf empty_registry) as H0.
  { split; cbn; [done|]. intros m i. split; [by intros (?&?&_)|by intros (?&?&_)]. }
  revert H0. generalize empty_registry. induction ops as [|op ops IH]; intros r Hwf; cbn; [done|]. apply IH. by apply run_registry_op_wf.
Qed.

(** Without mode changes no model is ever served by plain and by prefill or decode workers together. *)
Theorem registry_never_mixes ops :
  Forall (λ op, is_set_mode op = false) ops → unmixed (foldl run_op empty_registry ops).
Proof.
  intros Hops. assert (registry_wf empty_registry ∧ unmixed empty_registry) as [Hwf Hun].
  { split; [split; cbn; [done|]; intros m i; split; [by intros (?&?&_)|by intros (?&?&_)]|done]. }
  revert Hwf Hun. generalize empty_registry. induction Hops as [|op ops Hop _ IH]; intros r Hwf Hun; cbn; [done|].
  destruct (run_registry_op_wf r op Hwf) as [? Hun']. apply IH; [done|]. by apply Hun'.
Qed.

(** Adding a worker is refused, with the registry unchanged, exactly where another worker of one of its models has an
    incompatible role; otherwise the worker replaces the entry of its id and no other entry changes. *)
Theorem add_worker_correct r spec cb layout : registry_wf r →
  match add r spec cb layout with
  | (Err (MixedPdAndPlain id model role), r') =>
      r' = r ∧ id = spec_id spec ∧ role = mode_name (spec_mode spec) ∧ model ∈ spec_model_ids spec ∧
      ∃ w, w ∈ workers_for r model ∧ worker_id w ≠ spec_id spec ∧ modes_are_mixed (spec_mode spec) (mode w) = true
  | (Ok _, r') =>
      (∀ model w, model ∈ spec_model_ids spec → w ∈ workers_for r model → worker_id w ≠ spec_id spec →
         modes_are_mixed (spec_mode spec) (mode w) = false) ∧
      by_id r' = <[spec_id spec := new_worker url_host spec cb layout]> (by_id r) ∧
      ∀ model w, w ∈ workers_for r' model ↔
        (w = new_worker url_host spec cb layout ∧ model ∈ spec_model_ids spec) ∨ (w ∈ workers_for r model ∧ worker_id w ≠ spec_id spec)
  end.
Proof.
  intros Hwf. pose proof (add_wf r spec cb layout Hwf) as [Hwf' _]. unfold add in *.
  destruct (find_conflict iter_ids r spec (spec_model_ids spec)) as [m|] eqn:Hc.
  - destruct (find_conflict_Some _ _ _ _ Hwf Hc) as [Hm (w&Hw&Hmw&Hne&Hmix)]. split_and!; try done.
    exists w. split_and!; [|done|done]. by apply elem_of_workers_for.
  - cbn in Hwf' |- *. destruct (remove_locked_wf r (spec_id spec) Hwf) as [_ Hdel].
    split_and!.
    + intros model w Hm [Hw Hmw]%elem_of_workers_for Hne; [|done]. by apply (find_conflict_None r spec (spec_model_ids spec) Hwf Hc model w).
    + rewrite Hdel. by rewrite insert_delete_eq.
    + intros model w. rewrite !elem_of_workers_for by done. cbn. rewrite Hdel. split.
      * intros [[[Hi <-]|[Hne [_ Hw]%lookup_delete_Some]]%lookup_insert_Some Hm]; [by left|right]. split; [done|]. done.
      * intros [[-> Hm]|[[Hw Hm] Hne]]; (split; [|done]).
        -- cbn. by rewrite lookup_insert_eq.
        -- by rewrite lookup_insert_ne, lookup_delete_ne.
Qed.

(** *** Pools *)

Lemma filter_mode_nil ws m : filter (λ w, mode w = m) ws = [] ↔ ∀ w, w ∈ ws → mode w ≠ m.
Proof.
  split.
  - intros He w Hw Hm. assert (w ∈ filter (λ w, mode w = m) ws) as Hin by (by apply list_elem_of_filter). rewrite He in Hin.
    by apply elem_of_nil in Hin.
  - intros Hall. destruct (filter (λ w, mode w = m) ws) as [|w l] eqn:He; [done|]. exfalso.
    assert (w ∈ filter (λ w, mode w = m) ws) as Hin by (rewrite He; by left). apply list_elem_of_filter in Hin as [? ?].
    by apply (Hall w).
Qed.

Lemma resolve_cases now r model :
  let H := healthy_workers_for iter_ids now r model in
  match resolve iter_ids now r model with
  | Ok (PlainPool ws) => H ≠ [] ∧ ws = filter (λ w, mode w = Plain) H ∧ ∀ w, w ∈ H → mode w = Plain
  | Ok (PdPool p d) => p = filter (λ w, mode w = Prefill) H ∧ d = filter (λ w, mode w = Decode) H ∧
      (∃ w, w ∈ workers_for r model ∧ mode w ≠ Plain)
  | Err e => e = NoHealthyWorkers ∧ H = [] ∧ ∀ w, w ∈ workers_for r model → mode w = Plain
  end.
Proof.
  cbv zeta. unfold resolve. destruct (healthy_workers_for iter_ids now r model) as [|w0 H] eqn:HH.
  - destruct (existsb _ _) eqn:He.
    + apply existsb_exists in He as (w&Hin&Hpd). apply list_elem_of_In in Hin. split_and!; [done|done|]. exists w. split; [done|].
      by destruct (mode w).
    + split_and!; [done|done|]. intros w Hw. destruct (decide (mode w = Plain)) as [|Hne]; [done|]. exfalso.
      assert (existsb (λ w, is_pd (mode w)) (workers_for r model) = true) as Hx; [|congruence].
      apply existsb_exists. exists w. split; [by apply list_elem_of_In|]. by destruct (mode w).
  - rewrite <-HH. assert (∀ w, w ∈ healthy_workers_for iter_ids now r model → w ∈ workers_for r model) as Hsub.
    { intros w [_ ?]%list_elem_of_filter. done. }
    set (all := healthy_workers_for iter_ids now r model) in *. clearbody all.
    destruct (filter (λ w, mode w = Prefill) all) as [|p ps] eqn:Hp; [destruct (filter (λ w, mode w = Decode) all) as [|d ds] eqn:Hd|].
    + cbn. split_and!; [by subst all|done|]. intros w Hw. rewrite filter_mode_nil in Hp, Hd. specialize (Hp w Hw). specialize (Hd w Hw).
      by destruct (mode w).
    + cbn. split_and!; [done|done|]. assert (d ∈ filter (λ w, mode w = Decode) all) as [Hm Hin]%list_elem_of_filter by (rewrite Hd; by left).
      exists d. split; [by apply Hsub|congruence].
    + cbn. split_and!; [done|done|]. assert (p ∈ filter (λ w, mode w = Prefill) all) as [Hm Hin]%list_elem_of_filter by (rewrite Hp; by left).
      exists p. split; [by apply Hsub|congruence].
Qed.

(** Prefill requests never reach a decode worker nor decode requests a prefill worker, only admitted workers are offered, and
    each error says which pool is empty. *)
Theorem pools_separate_roles now r model :
  let H := healthy_workers_for iter_ids now r model in
  let offers (role other : WorkerMode) ws := ws ≠ [] ∧ ∀ w, w ∈ ws → w ∈ H ∧ mode w ≠ other ∧ (mode w = Plain → ∀ v, v ∈ H → mode v = Plain) in
  let outcome (role other : WorkerMode) (none : PdResolveError) res :=
    match res with
    | Ok ws => offers role other ws
    | Err NoHealthyWorkers => H = [] ∧ ∀ w, w ∈ workers_for r model → mode w = Plain
    | Err e => e = none ∧ (∀ w, w ∈ H → mode w ≠ role) ∧ ∃ w, w ∈ workers_for r model ∧ mode w ≠ Plain
    end in
  outcome Prefill Decode NoPrefillWorkersAvailable (prefill_candidates iter_ids now r model) ∧
  outcome Decode Prefill NoDecodeWorkersAvailable (decode_candidates iter_ids now r model).
Proof.
  cbv zeta. pose proof (resolve_cases now r model) as Hr. cbv zeta in Hr. unfold prefill_candidates, decode_candidates.
  set (H := healthy_workers_for iter_ids now r model) in *.
  destruct (resolve iter_ids now r model) as [[ws|p d]|e]; cbn [result_bind].
  - destruct Hr as (Hne&->&Hplain).
    assert (filter (λ w, mode w = Plain) H ≠ []) as Hf.
    { destruct H as [|w H']; [done|]. intros He. rewrite filter_mode_nil in He. apply (He w); [by left|apply Hplain; by left]. }
    split; (split; [done|]); intros w [Hm Hw]%list_elem_of_filter; split_and!; try done; congruence.
  - destruct Hr as (->&->&Hex). split.
    + destruct (filter (λ w, mode w = Prefill) H) as [|w l] eqn:Hp.
      * split_and!; [done| |done]. by apply filter_mode_nil.
      * rewrite <-Hp. split; [by rewrite Hp|]. intros v [Hm Hv]%list_elem_of_filter. split_and!; [done|congruence|congruence].
    + destruct (filter (λ w, mode w = Decode) H) as [|w l] eqn:Hp.
      * split_and!; [done| |done]. by apply filter_mode_nil.
      * rewrite <-Hp. split; [by rewrite Hp|]. intros v [Hm Hv]%list_elem_of_filter. split_and!; [done|congruence|congruence].
  - by destruct Hr as (->&?&?).
Qed.

(** *** Affinity *)

(** A decode worker is found whenever there is a candidate, an admitted one whenever there is one: one on the prefill worker's
    host within the load tolerance, or else the least loaded. *)
Theorem select_decode_correct now prefill_url candidates :
  let healthy := filter (λ w, would_allow (breaker w) now = true) candidates in
  let near w := ∃ host, url_host prefill_url = Some host ∧ url_host (worker_url w) = Some host ∧
                        (load_tolerance healthy = 0 ∨ active_load w ≤ load_tolerance healthy) in
  match select_decode_with_affinity url_host now prefill_url candidates with
  | None => candidates = []
  | Some w => w ∈ candidates ∧ (healthy ≠ [] → w ∈ healthy) ∧
      (near w ∨ (∀ v, v ∈ healthy → ¬ near v) ∧
         ∀ v, v ∈ (if decide (healthy = []) then candidates else healthy) → active_load w ≤ active_load v)
  end.
Proof.
  cbv zeta. unfold select_decode_with_affinity. destruct candidates as [|c cs]; [done|].
  set (cands := c :: cs). set (healthy := filter _ cands). set (tol := load_tolerance healthy).
  set (near w := ∃ host, url_host prefill_url = Some host ∧ url_host (worker_url w) = Some host ∧ (tol = 0 ∨ active_load w ≤ tol)).
  assert (∀ w, w ∈ healthy → w ∈ cands) as Hsub by (by intros w [_ ?]%list_elem_of_filter).
  clearbody tol healthy. set (peer := url_host prefill_url ≫= _).
  assert (match peer with Some w => w ∈ healthy ∧ near w | None => ∀ v, v ∈ healthy → ¬ near v end) as Hpeer.
  { unfold peer. destruct (url_host prefill_url) as [host|] eqn:Hhost; cbn.
    - match goal with |- context [@list_find _ ?P ?d healthy] => destruct (@list_find _ P d healthy) as [[j w]|] eqn:Hf end; cbn.
      + apply list_find_Some in Hf as (Hj&[Hw Hl]&_). split; [by eapply list_elem_of_lookup_2|]. by exists host.
      + apply list_find_None in Hf. rewrite Forall_forall in Hf. intros v Hv (h&He&Hh&Hl). apply (Hf v Hv). split; [congruence|done].
    - intros v _ (h&He&_). done. }
  destruct peer as [w|]; cbn.
  - destruct Hpeer. split_and!; [by apply Hsub|done|by left].
  - destruct (min_by_key active_requests healthy) as [w|] eqn:Hm.
    + apply min_by_key_spec in Hm as [Hw Hmin]. split_and!; [by apply Hsub|done|right]. split; [done|].
      destruct (decide (healthy = [])) as [He|]; [|done]. rewrite He in Hw. by apply elem_of_nil in Hw.
    + apply min_by_key_None in Hm. destruct (min_by_key_from_spec active_requests cs c) as [Hin Hmin]. split_and!; [done|done|right].
      split; [done|]. rewrite decide_True by done. done.
Qed.

End Facts.

(** ** Concrete registries *)

Definition no_url (url : string) : option string := Some url.
Definition id_order (ids : gset WorkerId) : list WorkerId := elements ids.

Lemma id_order_ok ids : id_order ids ≡ₚ elements ids.
Proof. done. Qed.

Definition spec_a : WorkerSpec := mkWorkerSpec "a" "host-a" Plain ["m"] None.
Definition spec_b : WorkerSpec := mkWorkerSpec "b" "host-b" Plain ["m"] None.
Definition spec_c : WorkerSpec := mkWorkerSpec "c" "host-c" Prefill ["m"] (Some 8998).

(** A mode change of one of two plain workers puts both roles on one model, which adding the worker would have refused. *)
Theorem mode_change_mixes_roles :
  let r := foldl (run_op no_url id_order) empty_registry [OpAdd spec_a None None; OpAdd spec_b None None] in
  ¬ unmixed (set_mode r "b" Decode) ∧
  (∃ e, add no_url id_order r (mkWorkerSpec "c" "host-b" Decode ["m"] None) None None = (Err e, r)) ∧
  prefill_candidates id_order 0 (set_mode r "b" Decode) "m" = Err NoPrefillWorkersAvailable.
Proof.
  cbv zeta. split_and!.
  - intros Hun. specialize (Hun "m" "a" "b"). set (r := foldl _ _ _) in Hun.
    specialize (Hun (new_worker no_url spec_a None None) (worker_set_mode (new_worker no_url spec_b None None) Decode)).
    discriminate Hun; [by vm_compute|by vm_compute|by left|by left].
  - eexists. vm_compute. reflexivity.
  - vm_compute. reflexivity.
Qed.

Definition loaded (id url : string) (load : N) : Worker :=
  mkWorker id url Decode ["m"] (with_config CircuitBreakerConfig_default) load url None None.

(** With a median load of zero the tolerance is off: the worker on the prefill worker's host is taken however loaded it is. *)
Theorem affinity_ignores_overload :
  load_tolerance [loaded "a" "host" 100; loaded "b" "host-b" 0; loaded "c" "host-c" 0] = 0 ∧
  select_decode_with_affinity no_url 0 "host" [loaded "a" "host" 100; loaded "b" "host-b" 0; loaded "c" "host-c" 0] =
    Some (loaded "a" "host" 100).
Proof. split; vm_compute; reflexivity. Qed.

Lemma sample_registry_wf : registry_wf (foldl (run_op no_url id_order) empty_registry [OpAdd spec_a None None]).
Proof.
  cbn [foldl]. apply (run_registry_op_wf no_url id_order id_order_ok). split; cbn; [done|]. intros m i.
  split; [by intros (?&?&_)|by intros (?&?&_)].
Qed.

Lemma registry_index_consistent_witness :
  let r := foldl (run_op no_url id_order) empty_registry [OpAdd spec_a None None; OpRemove "a"] in
  registry_wf r ∧ ∀ model w, w ∈ workers_for id_order r model ↔ by_id r !! worker_id w = Some w ∧ model ∈ model_ids w.
Proof. apply (registry_index_consistent no_url id_order id_order_ok). Defined.

Lemma registry_never_mixes_witness :
  unmixed (foldl (run_op no_url id_order) empty_registry [OpAdd spec_a None None; OpAdd spec_c None None; OpRemove "a"]).
Proof. apply (registry_never_mixes no_url id_order id_order_ok). by repeat constructor. Defined.

Lemma add_worker_correct_witness :
  let r := foldl (run_op no_url id_order) empty_registry [OpAdd spec_a None None] in
  match add no_url id_order r spec_c None None with
  | (Err (MixedPdAndPlain id model role), r') =>
      r' = r ∧ id = spec_id spec_c ∧ role = mode_name (spec_mode spec_c) ∧ model ∈ spec_model_ids spec_c ∧
      ∃ w, w ∈ workers_for id_order r model ∧ worker_id w ≠ spec_id spec_c ∧ modes_are_mixed (spec_mode spec_c) (mode w) = true
  | (Ok _, r') =>
      (∀ model w, model ∈ spec_model_ids spec_c → w ∈ workers_for id_order r model → worker_id w ≠ spec_id spec_c →
         modes_are_mixed (spec_mode spec_c) (mode w) = false) ∧
      by_id r' = <[spec_id spec_c := new_worker no_url spec_c None None]> (by_id r) ∧
      ∀ model w, w ∈ workers_for id_order r' model ↔
        (w = new_worker no_url spec_c None None ∧ model ∈ spec_model_ids spec_c) ∨
        (w ∈ workers_for id_order r model ∧ worker_id w ≠ spec_id spec_c)
  end.
Proof. apply (add_worker_correct no_url id_order id_order_ok). apply sample_registry_wf. Defined.
