(* ===== verification/RouterPolicy.v ===== *)
(** * Selection policies ([crates/sglang-router/src/policies/])

    The policies that pick a worker for a request.  Random choices of the [rand]
    crate are arguments of the functions, bounded by hypotheses where a theorem
    needs it; JSON values of [serde_json], the tokenizer and SHA-256 are
    parameters.  The round-robin counter is an atomic [usize]. *)

From S2P Require Import Prelude Float32 BlockHash KvTree KvIndex CircuitBreaker WorkerRegistry.

Notation active_load := active_requests (only parsing).

(** ** Round robin, random, power of two *)

(** [fetch_add] wraps at the width of [usize]. *)
(** [policies/round_robin.rs:21-27] RoundRobinPolicy::select *)
Definition round_robin_select (counter : N) (workers : list Worker) : option Worker * N :=
  match workers with
  | [] => (None, counter)
  | _ => (workers !! N.to_nat (counter mod len workers), (counter + 1) mod (usize_MAX + 1))
  end.

(** [choice] is the index the generator draws. *)
(** [policies/random.rs:19-21] RandomPolicy::select *)
Definition random_select (choice : N) (workers : list Worker) : option Worker :=
  match workers with [] => None | _ => workers !! N.to_nat choice end.

(** [i] and [j] are the positions the generator samples, in the order it returns them; the sort is stable. *)
(** [policies/power_of_two.rs:19-30] PowerOfTwoChoicesPolicy::select *)
Definition power_of_two_select (i j : N) (workers : list Worker) : option Worker :=
  match workers with
  | [] => None
  | [w] => Some w
  | _ =>
      a ← workers !! N.to_nat i;
      b ← workers !! N.to_nat j;
      Some (if active_load b <? active_load a then b else a)
  end.

(** ** Cache-aware selection *)

(** [config/types.rs:144-162] CacheAwareConfig *)
Record CacheAwareConfig : Type := mkCacheAwareConfig {
  cache_threshold : f32;
  balance_abs_threshold : N;
  balance_rel_threshold : f32;
}.

(** [config/types.rs:164-182] CacheAwareConfig::default *)
Definition CacheAwareConfig_default : CacheAwareConfig := mkCacheAwareConfig f32_half 32 f32_1_1.

(** [policies/cache_aware_zmq.rs:91-96] CacheAwareZmqPolicy::pick_min_load *)
Definition pick_min_load (workers : list Worker) : option Worker := min_by_key active_load workers.

(** [policies/cache_aware_zmq.rs:101-110] CacheAwareZmqPolicy::is_imbalanced *)
Definition is_imbalanced (config : CacheAwareConfig) (workers : list Worker) : bool :=
  let '(min_load, max_load) := foldl (λ '(mn, mx) w, (N.min mn (active_load w), N.max mx (active_load w))) (usize_MAX, 0) workers in
  let min_load := if min_load =? usize_MAX then 0 else min_load in
  let abs_diff := saturating_sub max_load min_load in
  let rel_threshold := f32_to_usize (f32_mul (f32_of_usize min_load) (balance_rel_threshold config)) in
  (balance_abs_threshold config <? abs_diff) && (rel_threshold <? max_load).

Section Text.
(** The accessors of [serde_json::Value]. *)
Context {Value : Type} (from_slice : list N → option Value) (get : Value → string → option Value)
  (as_str : Value → option string) (as_array : Value → option (list Value)).

(** [join] of the parts with a newline. *)
Definition newline : string := String (Ascii.ascii_of_nat 10) "".
Fixpoint join_lines (parts : list string) : string :=
  match parts with [] => "" | [s] => s | s :: rest => s +:+ newline +:+ join_lines rest end.

(** [policies/cache_aware_zmq.rs:143-146] CacheAwareZmqPolicy::extract_prompt_text (append) *)
Definition append_line (buf s : string) : string := (if bool_decide (buf = "") then buf else buf +:+ newline) +:+ s.

(** [policies/cache_aware_zmq.rs:140-160] CacheAwareZmqPolicy::extract_prompt_text (messages) *)
Definition append_message (buf : string) (m : Value) : string :=
  match get m "content" with
  | None => buf
  | Some content =>
      match as_str content with
      | Some s => append_line buf s
      | None =>
          match as_array content with
          | Some parts => foldl (λ buf part, match get part "text" ≫= as_str with Some t => append_line buf t | None => buf end) buf parts
          | None => buf
          end
      end
  end.

(** [policies/cache_aware_zmq.rs:127-169] CacheAwareZmqPolicy::extract_prompt_text *)
Definition extract_prompt_text (body : list N) : option string :=
  v ← from_slice body;
  match get v "prompt" ≫= as_str with
  | Some s => Some s
  | None =>
      let parts := match get v "prompt" ≫= as_array with Some arr => omap as_str arr | None => [] end in
      match parts with
      | _ :: _ => Some (join_lines parts)
      | [] =>
          let buf := match get v "messages" ≫= as_array with Some msgs => foldl append_message "" msgs | None => "" end in
          if negb (bool_decide (buf = "")) then Some buf
          else get v "text" ≫= as_str
      end
  end.

End Text.

(** [policies/cache_aware_zmq.rs:48-62] CacheAwareZmqPolicy *)
Record CacheAwareZmqPolicy : Type := mkCacheAwareZmqPolicy {
  policy_config : CacheAwareConfig;
  policy_tree : TreeState;
  policy_oracle : N;
}.

Section Select.
Context (sha256 : list N → list N) (iter_set : gset N → list N).
(** The prompt of a request body, and its tokens for a model; [None] where the request has none. *)
Context (extract : list N → option string) (encode : string → string → option (list N)).

(** [policies/cache_aware_zmq.rs:174-188] CacheAwareZmqPolicy::tokenize *)
Definition tokenize (model : string) (text : string) : option (list N) :=
  match encode model text with
  | Some (t :: ts) => Some (t :: ts)
  | _ => None
  end.

(** [policies/cache_aware_zmq.rs:241-246] CacheAwareZmqPolicy::select (matched workers) *)
Definition best_matched (matched : gset KvWorkerId) (workers : list Worker) : option Worker :=
  min_by_key active_load (filter (λ w, worker_url w ∈ (url <$> elements matched)) workers).

(** [None] outside is the panic of [compute_block_hashes] on a zero block size. *)
(** [policies/cache_aware_zmq.rs:203-223] CacheAwareZmqPolicy::select (block hashes) *)
Definition request_hashes (p : CacheAwareZmqPolicy) (model : string) (body : option (list N)) : option (list Z) :=
  match body with
  | None | Some [] => Some []
  | Some b =>
      match extract b ≫= tokenize model with
      | None => Some []
      | Some tokens => match oracle_get (policy_oracle p) with
                       | None => Some []
                       | Some block_size => compute_block_hashes sha256 tokens block_size
                       end
      end
  end.

(** [policies/cache_aware_zmq.rs:192-249] CacheAwareZmqPolicy::select *)
Definition cache_aware_select (now : N) (p : CacheAwareZmqPolicy) (workers : list Worker) (model : string) (body : option (list N))
    : option (option Worker * TreeState) :=
  match workers with
  | [] => Some (None, policy_tree p)
  | _ =>
      if is_imbalanced (policy_config p) workers then Some (pick_min_load workers, policy_tree p)
      else
        hashes ← request_hashes p model body;
        match hashes with
        | [] => Some (pick_min_load workers, policy_tree p)
        | _ =>
            let '(matched, t) := match_prefix iter_set now (policy_tree p) None hashes in
            let match_rate := f32_div (f32_of_usize (matched_blocks matched)) (f32_of_usize (len hashes)) in
            if f32_le match_rate (cache_threshold (policy_config p)) || bool_decide (matched_workers matched = ∅)
            then Some (pick_min_load workers, t)
            else
              match best_matched (matched_workers matched) workers with
              | Some w => Some (Some w, t)
              | None => Some (pick_min_load workers, t)
              end
        end
  end.

End Select.

(** ** Facts *)

(** The selections of consecutive calls. *)
Fixpoint round_robin_run (calls : nat) (counter : N) (workers : list Worker) : list (option Worker) :=
  match calls with
  | O => []
  | S calls' => let '(w, counter) := round_robin_select counter workers in w :: round_robin_run calls' counter workers
  end.

Lemma round_robin_run_nth workers : workers ≠ [] → ∀ calls counter, counter + N.of_nat calls ≤ usize_MAX + 1 →
  round_robin_run calls counter workers =
    (λ i, workers !! N.to_nat ((counter + N.of_nat i) mod len workers)) <$> seq 0 calls.
Proof.
  intros Hne calls. induction calls as [|calls IH]; intros counter Hc; [done|]. cbn [round_robin_run].
  assert (∀ c, round_robin_select c workers = (workers !! N.to_nat (c mod len workers), (c + 1) mod (usize_MAX + 1))) as ->.
  { intros c. by destruct workers. }
  destruct (decide (calls = 0%nat)) as [->|Hcalls].
  { cbn. by rewrite N.add_0_r. }
  rewrite (N.mod_small (counter + 1)) by lia. rewrite IH by lia. cbn [seq fmap list_fmap]. rewrite N.add_0_r. f_equal.
  rewrite <-seq_shift, <-list_fmap_compose. apply list_fmap_ext. intros i j _. cbn. do 3 f_equal. lia.
Qed.

(** One round picks every worker once, starting anywhere. *)
Lemma round_robin_round (workers : list Worker) counter : workers ≠ [] →
  (λ i, workers !! N.to_nat ((counter + N.of_nat i) mod len workers)) <$> seq 0 (length workers) ≡ₚ Some <$> workers.
Proof.
  intros Hne. set (k := len workers). assert (0 < k) as Hk by (unfold k, len; destruct workers; [done|cbn; lia]).
  set (r := counter mod k). assert (r < k) as Hr by (apply N.mod_lt; lia).
  transitivity (Some <$> (drop (N.to_nat r) workers ++ take (N.to_nat r) workers)).
  2: { f_equiv. rewrite (comm (++)), take_drop. done. }
  apply reflexive_eq, list_eq. intros i. rewrite !list_lookup_fmap.
  destruct (decide (i < length workers)%nat) as [Hi|Hi].
  2: { rewrite lookup_ge_None_2 by (rewrite length_seq; lia). symmetry. cbn.
       rewrite lookup_ge_None_2; [done|]. rewrite length_app, length_drop, length_take. lia. }
  rewrite lookup_seq_lt by done. cbn [fmap option_fmap option_map Nat.add].
  assert ((counter + N.of_nat i) mod k = if decide (r + N.of_nat i < k) then r + N.of_nat i else r + N.of_nat i - k) as ->.
  { rewrite <-N.Div0.add_mod_idemp_l. fold r. assert (N.of_nat i < k) by (unfold k, len; lia).
    destruct (decide _); [by apply N.mod_small|].
    replace (r + N.of_nat i) with (r + N.of_nat i - k + 1 * k) at 1 by lia. rewrite N.Div0.mod_add. apply N.mod_small. lia. }
  assert (length workers = N.to_nat k) as Hl by (unfold k, len; lia).
  destruct (decide (r + N.of_nat i < k)).
  - rewrite lookup_app_l by (rewrite length_drop; lia). rewrite lookup_drop.
    replace (N.to_nat (r + N.of_nat i)) with (N.to_nat r + i)%nat by lia.
    destruct (lookup_lt_is_Some_2 workers (N.to_nat r + i)) as [w Hw]; [lia|]. by rewrite Hw.
  - rewrite lookup_app_r by (rewrite length_drop; lia). rewrite length_drop, lookup_take_lt by lia.
    replace (N.to_nat (r + N.of_nat i - k)) with (i - (length workers - N.to_nat r))%nat by lia.
    destruct (lookup_lt_is_Some_2 workers (i - (length workers - N.to_nat r))) as [w Hw]; [lia|]. by rewrite Hw.
Qed.

(** Round robin is fair: until the counter wraps, any [n] rounds pick every worker [n] times. *)
Theorem round_robin_fair workers counter n :
  workers ≠ [] → counter + N.of_nat (n * length workers) ≤ usize_MAX + 1 →
  round_robin_run (n * length workers) counter workers ≡ₚ mjoin (replicate n (Some <$> workers)).
Proof.
  intros Hne Hc. rewrite round_robin_run_nth by done. clear Hc.
  induction n as [|n IH]; [done|]. cbn [replicate mjoin list_join]. cbn [Nat.mul].
  rewrite seq_app, fmap_app. f_equiv; [by apply round_robin_round|].
  rewrite <-IH. apply reflexive_eq. rewrite <-(Nat.add_0_r (0 + length workers)), <-fmap_add_seq, <-list_fmap_compose.
  apply list_fmap_ext. intros i j _. cbn. do 2 f_equal. rewrite Nat2N.inj_add. fold (len workers).
  replace (counter + (len workers + N.of_nat j)) with (counter + N.of_nat j + 1 * len workers) by lia. apply N.Div0.mod_add.
Qed.

(** Two distinct draws: the less loaded of them is picked. *)
Theorem power_of_two_correct i j workers :
  i < len workers → j < len workers → i ≠ j →
  ∃ w a b, power_of_two_select i j workers = Some w ∧ workers !! N.to_nat i = Some a ∧ workers !! N.to_nat j = Some b ∧
    (w = a ∨ w = b) ∧ active_load w ≤ active_load a ∧ active_load w ≤ active_load b.
Proof.
  intros Hi Hj Hij. unfold len in *. destruct (lookup_lt_is_Some_2 workers (N.to_nat i)) as [a Ha]; [lia|].
  destruct (lookup_lt_is_Some_2 workers (N.to_nat j)) as [b Hb]; [lia|].
  assert (power_of_two_select i j workers = Some (if active_load b <? active_load a then b else a)) as ->.
  { unfold power_of_two_select. destruct workers as [|w0 [|w1 ws]]; [done|cbn in Hi, Hj; lia|]. rewrite Ha. cbn [mbind option_bind]. by rewrite Hb. }
  exists (if active_load b <? active_load a then b else a), a, b.
  destruct (N.ltb_spec (active_load b) (active_load a)); split_and!; try done; try lia; [by right|by left].
Qed.

Section Facts.
Context (sha256 : list N → list N) (iter_set : gset N → list N).
Context (extract : list N → option string) (encode : string → string → option (list N)).

(** The oracle never hands out a zero block size: hashing does not panic. *)
Lemma request_hashes_total p model body : ∃ hashes, request_hashes sha256 extract encode p model body = Some hashes.
Proof.
  unfold request_hashes. destruct body as [[|b bs]|]; try by eexists.
  destruct (extract (b :: bs) ≫= tokenize encode model) as [tokens|]; [|by eexists]. unfold oracle_get.
  destruct (N.eqb_spec (policy_oracle p) 0); [by eexists|]. unfold compute_block_hashes. rewrite option_guard_True by lia.
  destruct tokens; by eexists.
Qed.

(** A lookup from the root reports the workers at the end of the matched prefix. *)
Lemma match_prefix_root now t hs : tree_wf t → hs ≠ [] →
  let '(m, t') := match_prefix iter_set now t None hs in
  (∀ q, holders t' q = holders t q) ∧
  ∃ pre, pre `prefix_of` hs ∧ matched_blocks m = len pre ∧ (pre ≠ [] → matched_workers m = holders t pre) ∧
    (pre = [] → matched_workers m = ∅).
Proof.
  intros Hwf Hne. destruct hs as [|h hs]; [done|]. unfold match_prefix.
  pose proof (match_chain_correct now (h :: hs) t ROOT_ID 0 None [] Hwf eq_refl) as Hm.
  destruct (match_chain now t ROOT_ID 0 None (h :: hs)) as [[m l] t'].
  destruct Hm as (Hsame&pre&Hpre&->&_&->&_). split; [intros q; by apply same_holders_holders|]. exists pre. cbn. split_and!; [done|lia| |].
  - intros Hn. rewrite decide_False by done. rewrite <-(same_holders_holders t t') by done. unfold holders.
    by rewrite (same_shape_walk t t') by apply Hsame.
  - intros ->. done.
Qed.

(** Cache-aware selection always picks one of the candidates: the least loaded of those that hold a long enough prefix of the
    prompt in the tree, or the least loaded of all; the tree keeps its chains. *)
Theorem cache_aware_select_correct now p workers model body :
  tree_wf (policy_tree p) → workers ≠ [] →
  ∃ w t, cache_aware_select sha256 iter_set extract encode now p workers model body = Some (Some w, t) ∧ w ∈ workers ∧
    (∀ q, holders t q = holders (policy_tree p) q) ∧
    ((∀ v, v ∈ workers → active_load w ≤ active_load v) ∨
     is_imbalanced (policy_config p) workers = false ∧
     ∃ hashes pre, request_hashes sha256 extract encode p model body = Some hashes ∧ pre `prefix_of` hashes ∧
       f32_le (f32_div (f32_of_usize (len pre)) (f32_of_usize (len hashes))) (cache_threshold (policy_config p)) = false ∧
       (∃ id, id ∈ holders (policy_tree p) pre ∧ url id = worker_url w) ∧
       ∀ v, v ∈ workers → (∃ id, id ∈ holders (policy_tree p) pre ∧ url id = worker_url v) → active_load w ≤ active_load v).
Proof.
  intros Hwf Hne. assert (∃ w, pick_min_load workers = Some w ∧ w ∈ workers ∧ ∀ v, v ∈ workers → active_load w ≤ active_load v)
    as (w0&Hmin&Hw0&Hle0).
  { unfold pick_min_load. destruct (min_by_key active_requests workers) as [w|] eqn:Hm; [|by apply min_by_key_None in Hm].
    exists w. split; [done|]. by apply min_by_key_spec. }
  assert (∀ (P : Worker → Prop) t, (∀ q, holders t q = holders (policy_tree p) q) →
    cache_aware_select sha256 iter_set extract encode now p workers model body = Some (pick_min_load workers, t) →
    ∃ w t, cache_aware_select sha256 iter_set extract encode now p workers model body = Some (Some w, t) ∧ w ∈ workers ∧
      (∀ q, holders t q = holders (policy_tree p) q) ∧ ((∀ v, v ∈ workers → active_load w ≤ active_load v) ∨ P w)) as Hfall.
  { intros P t Ht He. exists w0, t. rewrite He, Hmin. split_and!; [done|done|done|]. left. exact Hle0. }
  destruct (request_hashes_total p model body) as [hashes Hh].
  unfold cache_aware_select in *. destruct workers as [|c cs]; [done|]. set (ws := c :: cs) in *.
  destruct (is_imbalanced (policy_config p) ws) eqn:Himb; [by eapply Hfall|]. rewrite Hh in *. cbn [mbind option_bind] in *.
  destruct hashes as [|h hs]; [by eapply Hfall|]. set (hashes := h :: hs) in *.
  pose proof (match_prefix_root now (policy_tree p) hashes Hwf ltac:(done)) as Hm.
  destruct (match_prefix iter_set now (policy_tree p) None hashes) as [m t]. destruct Hm as (Ht&pre&Hpre&Hlen&Hws&Hempty).
  destruct (f32_le _ _) eqn:Hrate; [by eapply Hfall|]. cbn [orb] in *.
  case_bool_decide as He; [by eapply Hfall|]. destruct (best_matched (matched_workers m) ws) as [w|] eqn:Hb; [|by eapply Hfall].
  assert (pre ≠ []) as Hpne by (intros ->; by apply He, Hempty). specialize (Hws Hpne).
  apply min_by_key_spec in Hb as [Hin Hle]. apply list_elem_of_filter in Hin as [Hu Hin].
  assert (∀ v, worker_url v ∈ (url <$> elements (matched_workers m)) ↔ ∃ id, id ∈ holders (policy_tree p) pre ∧ url id = worker_url v) as Hurl.
  { intros v. rewrite <-Hws, list_elem_of_fmap. split; intros (id&H1&H2); exists id; [|by rewrite elem_of_elements].
    rewrite elem_of_elements in H2. done. }
  exists w, t. split_and!; [done|done|done|right]. split; [done|]. exists hashes, pre. split_and!; [done|done| | |].
  - by rewrite <-Hlen.
  - by apply Hurl.
  - intros v Hv Hid. apply Hle, list_elem_of_filter. split; [by apply Hurl|done].
Qed.

End Facts.

(** ** Concrete selections *)

Definition pool : list Worker := [loaded "a" "http://a" 3; loaded "b" "http://b" 1; loaded "c" "http://c" 2].

Lemma round_robin_fair_witness : round_robin_run (2 * length pool) 7 pool ≡ₚ mjoin (replicate 2 (Some <$> pool)).
Proof. apply round_robin_fair; [done|]. vm_compute. discriminate. Defined.

Lemma power_of_two_correct_witness :
  ∃ w a b, power_of_two_select 0 1 pool = Some w ∧ pool !! N.to_nat 0 = Some a ∧ pool !! N.to_nat 1 = Some b ∧
    (w = a ∨ w = b) ∧ active_load w ≤ active_load a ∧ active_load w ≤ active_load b.
Proof. by apply (power_of_two_correct 0 1 pool). Defined.

Definition sample_policy : CacheAwareZmqPolicy := mkCacheAwareZmqPolicy CacheAwareConfig_default sample_tree 16.

Lemma cache_aware_select_correct_witness :
  ∃ w t, cache_aware_select (λ bs, bs) set_order (λ _, Some "prompt") (λ _ _, Some [1; 2]) 9 sample_policy pool "m" (Some [1])
      = Some (Some w, t) ∧ w ∈ pool ∧ (∀ q, holders t q = holders (policy_tree sample_policy) q) ∧
    ((∀ v, v ∈ pool → active_load w ≤ active_load v) ∨
     is_imbalanced (policy_config sample_policy) pool = false ∧
     ∃ hashes pre, request_hashes (λ bs, bs) (λ _, Some "prompt") (λ _ _, Some [1; 2]) sample_policy "m" (Some [1]) = Some hashes ∧
       pre `prefix_of` hashes ∧
       f32_le (f32_div (f32_of_usize (len pre)) (f32_of_usize (len hashes))) (cache_threshold (policy_config sample_policy)) = false ∧
       (∃ id, id ∈ holders (policy_tree sample_policy) pre ∧ url id = worker_url w) ∧
       ∀ v, v ∈ pool → (∃ id, id ∈ holders (policy_tree sample_policy) pre ∧ url id = worker_url v) → active_load w ≤ active_load v).
Proof. apply cache_aware_select_correct; [apply sample_tree_wf|done]. Defined.
