(* ===== verification/ActiveLoad.v ===== *)
(** * Active load of the workers ([crates/sglang-router/src/policies/active_load.rs])

    Per-request load bookkeeping with guards and a janitor.  The counters of a
    worker are shared objects: a store of counters, addressed by the registry and
    by the request entries, so that an entry keeps its counters when the worker
    is forgotten and registered again.  Request ids are fresh.  Every access to a
    map and every atomic is a step of its own, so the calls interleave; atomics
    wrap at the width of [usize].  Metrics and logging are left out. *)

From S2P Require Import Prelude.

Definition wrap (x : N) : N := x mod 2 ^ 64.
Definition fetch_add (x y : N) : N := wrap (x + y).
(** Subtraction wraps below zero. *)
Definition fetch_sub (x y : N) : N := wrap (x + (2 ^ 64 - wrap y)).

(** [policies/active_load.rs:85-89] WorkerCounters *)
Record WorkerCounters : Type := mkWorkerCounters {
  prefill_counter : N;
  decode_counter : N;
}.

(** [counters] is the address of the shared counters. *)
(** [policies/active_load.rs:106-121] RequestEntry *)
Record RequestEntry : Type := mkRequestEntry {
  entry_worker : string;
  entry_worker_url : string;
  counters : N;
  entry_prefill : N;
  entry_decode : N;
  registered_at : N;
  cancelled : bool;
}.

(** [policies/active_load.rs:181-194] ActiveLoadRegistry *)
Record ActiveLoadRegistry : Type := mkActiveLoadRegistry {
  store : gmap N WorkerCounters;
  next_addr : N;
  workers : gmap string N;
  requests : gmap N RequestEntry;
  stale_request_timeout : N;
}.

Definition set_store (r : ActiveLoadRegistry) (s : gmap N WorkerCounters) : ActiveLoadRegistry :=
  mkActiveLoadRegistry s (next_addr r) (workers r) (requests r) (stale_request_timeout r).
Definition set_requests (r : ActiveLoadRegistry) (q : gmap N RequestEntry) : ActiveLoadRegistry :=
  mkActiveLoadRegistry (store r) (next_addr r) (workers r) q (stale_request_timeout r).

(** [policies/active_load.rs:204-212] ActiveLoadRegistry::new *)
Definition new_registry (timeout : N) : ActiveLoadRegistry := mkActiveLoadRegistry ∅ 0 ∅ ∅ timeout.

(** The counters of a worker, created at zero where it has none. *)
(** [policies/active_load.rs:276-281] ActiveLoadRegistry::register (entry) *)
Definition register_entry (r : ActiveLoadRegistry) (worker : string) : N * ActiveLoadRegistry :=
  match workers r !! worker with
  | Some a => (a, r)
  | None =>
      let a := next_addr r in
      (a, mkActiveLoadRegistry (<[a := mkWorkerCounters 0 0]> (store r)) (a + 1) (<[worker := a]> (workers r)) (requests r)
            (stale_request_timeout r))
  end.

(** [policies/active_load.rs:282-284] ActiveLoadRegistry::register (prefill) *)
Definition add_prefill (r : ActiveLoadRegistry) (a n : N) : ActiveLoadRegistry :=
  set_store r (alter (λ c, mkWorkerCounters (fetch_add (prefill_counter c) n) (decode_counter c)) a (store r)).

(** [policies/active_load.rs:285-287] ActiveLoadRegistry::register (decode) *)
Definition add_decode (r : ActiveLoadRegistry) (a n : N) : ActiveLoadRegistry :=
  set_store r (alter (λ c, mkWorkerCounters (prefill_counter c) (fetch_add (decode_counter c) n)) a (store r)).

(** [policies/active_load.rs:290-301] ActiveLoadRegistry::register (insert) *)
Definition insert_request (r : ActiveLoadRegistry) (id : N) (e : RequestEntry) : ActiveLoadRegistry :=
  set_requests r (<[id := e]> (requests r)).

(** The guard is the request id. *)
(** [policies/active_load.rs:267-308] ActiveLoadRegistry::register *)
Definition register (now id : N) (r : ActiveLoadRegistry) (worker worker_url : string) (prefill_load decode_load : N) : ActiveLoadRegistry :=
  let '(a, r) := register_entry r worker in
  let r := add_prefill r a prefill_load in
  let r := add_decode r a decode_load in
  insert_request r id (mkRequestEntry worker worker_url a prefill_load decode_load now false).

(** [policies/active_load.rs:320-322] ActiveLoadRegistry::forget_worker *)
Definition forget_worker (r : ActiveLoadRegistry) (worker : string) : ActiveLoadRegistry :=
  mkActiveLoadRegistry (store r) (next_addr r) (delete worker (workers r)) (requests r) (stale_request_timeout r).

(** [policies/active_load.rs:326-328] ActiveLoadRegistry::is_known *)
Definition is_known (r : ActiveLoadRegistry) (worker : string) : bool := bool_decide (is_Some (workers r !! worker)).

(** [policies/active_load.rs:331-336] ActiveLoadRegistry::prefill_load *)
Definition prefill_load (r : ActiveLoadRegistry) (worker : string) : N :=
  match workers r !! worker ≫= λ a, store r !! a with Some c => prefill_counter c | None => 0 end.

(** [policies/active_load.rs:339-344] ActiveLoadRegistry::decode_load *)
Definition decode_load (r : ActiveLoadRegistry) (worker : string) : N :=
  match workers r !! worker ≫= λ a, store r !! a with Some c => decode_counter c | None => 0 end.

(** [policies/active_load.rs:348-350] ActiveLoadRegistry::inflight_count *)
Definition inflight_count (r : ActiveLoadRegistry) : N := N.of_nat (size (requests r)).

(** [policies/active_load.rs:530-530] ActiveLoadGuard::drop (remove) *)
Definition take_request (r : ActiveLoadRegistry) (id : N) : option RequestEntry * ActiveLoadRegistry :=
  match requests r !! id with
  | Some e => (Some e, set_requests r (delete id (requests r)))
  | None => (None, r)
  end.

(** [policies/active_load.rs:531-534] ActiveLoadGuard::drop (prefill) *)
Definition sub_prefill (r : ActiveLoadRegistry) (e : RequestEntry) : ActiveLoadRegistry :=
  set_store r (alter (λ c, mkWorkerCounters (fetch_sub (prefill_counter c) (entry_prefill e)) (decode_counter c)) (counters e) (store r)).

(** [policies/active_load.rs:535-538] ActiveLoadGuard::drop (decode) *)
Definition sub_decode (r : ActiveLoadRegistry) (e : RequestEntry) : ActiveLoadRegistry :=
  set_store r (alter (λ c, mkWorkerCounters (prefill_counter c) (fetch_sub (decode_counter c) (entry_decode e))) (counters e) (store r)).

(** [policies/active_load.rs:516-542] ActiveLoadGuard::drop *)
Definition drop_guard (r : ActiveLoadRegistry) (id : N) : ActiveLoadRegistry :=
  let '(e, r) := take_request r id in
  match e with
  | Some e => sub_decode (sub_prefill r e) e
  | None => r
  end.

Section Order.
Context (iter_requests : gmap N RequestEntry → list N).

(** [policies/active_load.rs:363-363] ActiveLoadRegistry::sweep_stale (age) *)
Definition is_stale (now : N) (r : ActiveLoadRegistry) (id : N) : bool :=
  match requests r !! id with
  | Some e => stale_request_timeout r <=? saturating_sub now (registered_at e)
  | None => false
  end.

(** [policies/active_load.rs:360-366] ActiveLoadRegistry::sweep_stale (scan) *)
Definition scan_stale (now : N) (r : ActiveLoadRegistry) : list N :=
  filter (λ id, is_stale now r id = true) (iter_requests (requests r)).

(** The swept requests in the order they were removed; each has its token cancelled. *)
(** [policies/active_load.rs:367-404] ActiveLoadRegistry::sweep_stale (loop) *)
Fixpoint sweep_loop (r : ActiveLoadRegistry) (ids : list N) (swept : list N) : list N * ActiveLoadRegistry :=
  match ids with
  | [] => (swept, r)
  | id :: ids' =>
      match take_request r id with
      | (Some e, r) => sweep_loop (sub_decode (sub_prefill r e) e) ids' (swept ++ [id])
      | (None, r) => sweep_loop r ids' swept
      end
  end.

(** [policies/active_load.rs:359-405] ActiveLoadRegistry::sweep_stale *)
Definition sweep_stale (now : N) (r : ActiveLoadRegistry) : list N * ActiveLoadRegistry := sweep_loop r (scan_stale now r) [].

End Order.

(** ** Calls that interleave *)

(** What is left of a call that is running; the decrements of a sweep are calls of their own. *)
Inductive Task : Type :=
  | RegisterPrefill (id : N) (e : RequestEntry)
  | RegisterDecode (id : N) (e : RequestEntry)
  | RegisterInsert (id : N) (e : RequestEntry)
  | ReleasePrefill (e : RequestEntry)
  | ReleaseDecode (e : RequestEntry)
  | Sweeping (ids : list N).

Record System : Type := mkSystem {
  registry : ActiveLoadRegistry;
  tasks : list Task;
  used_ids : gset N;
}.

Definition released (e : option RequestEntry) : list Task := match e with Some e => [ReleasePrefill e] | None => [] end.

Section Steps.
Context (iter_requests : gmap N RequestEntry → list N).

Inductive load_step : System → System → Prop :=
  | step_register r ts used now id worker url p d a r' :
      id ∉ used → register_entry r worker = (a, r') →
      load_step (mkSystem r ts used)
        (mkSystem r' (RegisterPrefill id (mkRequestEntry worker url a p d now false) :: ts) ({[id]} ∪ used))
  | step_prefill r ts1 ts2 used id e :
      load_step (mkSystem r (ts1 ++ RegisterPrefill id e :: ts2) used)
        (mkSystem (add_prefill r (counters e) (entry_prefill e)) (ts1 ++ RegisterDecode id e :: ts2) used)
  | step_decode r ts1 ts2 used id e :
      load_step (mkSystem r (ts1 ++ RegisterDecode id e :: ts2) used)
        (mkSystem (add_decode r (counters e) (entry_decode e)) (ts1 ++ RegisterInsert id e :: ts2) used)
  | step_insert r ts1 ts2 used id e :
      load_step (mkSystem r (ts1 ++ RegisterInsert id e :: ts2) used) (mkSystem (insert_request r id e) (ts1 ++ ts2) used)
  | step_drop r ts used id e r' :
      take_request r id = (e, r') → load_step (mkSystem r ts used) (mkSystem r' (released e ++ ts) used)
  | step_release_prefill r ts1 ts2 used e :
      load_step (mkSystem r (ts1 ++ ReleasePrefill e :: ts2) used) (mkSystem (sub_prefill r e) (ts1 ++ ReleaseDecode e :: ts2) used)
  | step_release_decode r ts1 ts2 used e :
      load_step (mkSystem r (ts1 ++ ReleaseDecode e :: ts2) used) (mkSystem (sub_decode r e) (ts1 ++ ts2) used)
  | step_scan r ts used now : load_step (mkSystem r ts used) (mkSystem r (Sweeping (scan_stale iter_requests now r) :: ts) used)
  | step_sweep r ts1 ts2 used id ids e r' :
      take_request r id = (e, r') →
      load_step (mkSystem r (ts1 ++ Sweeping (id :: ids) :: ts2) used) (mkSystem r' (released e ++ ts1 ++ Sweeping ids :: ts2) used)
  | step_swept r ts1 ts2 used : load_step (mkSystem r (ts1 ++ Sweeping [] :: ts2) used) (mkSystem r (ts1 ++ ts2) used)
  | step_forget r ts used worker : load_step (mkSystem r ts used) (mkSystem (forget_worker r worker) ts used).

End Steps.

(** ** Sums *)

Definition total (f : RequestEntry → N) (m : gmap N RequestEntry) : N := map_fold (λ _ e acc, f e + acc) 0 m.

Lemma total_insert f m id e : m !! id = None → total f (<[id := e]> m) = f e + total f m.
Proof. intros Hn. unfold total. rewrite map_fold_insert_L; [done| |done]. intros. lia. Qed.

Lemma total_delete f m id e : m !! id = Some e → total f m = f e + total f (delete id m).
Proof. intros Hs. unfold total. rewrite (map_fold_delete_L _ _ id e m); [done| |done]. intros. lia. Qed.

Definition sum_tasks (f : Task → N) (ts : list Task) : N := foldr (λ t acc, f t + acc) 0 ts.

Lemma sum_tasks_app f ts1 ts2 : sum_tasks f (ts1 ++ ts2) = sum_tasks f ts1 + sum_tasks f ts2.
Proof.
  induction ts1 as [|t ts1 IH]; [done|]. change (f t + sum_tasks f (ts1 ++ ts2) = f t + sum_tasks f ts1 + sum_tasks f ts2).
  rewrite IH. lia.
Qed.

Lemma sum_tasks_cons f t ts : sum_tasks f (t :: ts) = f t + sum_tasks f ts.
Proof. done. Qed.

Lemma sum_tasks_nil f : sum_tasks f [] = 0.
Proof. done. Qed.

(** The load an entry puts on the counters at an address. *)
Definition at_addr (load : RequestEntry → N) (a : N) (e : RequestEntry) : N := if counters e =? a then load e else 0.

(** What the running calls have added and not yet taken back. *)
Definition pending_prefill (a : N) (t : Task) : N :=
  match t with
  | RegisterDecode _ e | RegisterInsert _ e | ReleasePrefill e => at_addr entry_prefill a e
  | _ => 0
  end.
Definition pending_decode (a : N) (t : Task) : N :=
  match t with
  | RegisterInsert _ e | ReleasePrefill e | ReleaseDecode e => at_addr entry_decode a e
  | _ => 0
  end.

Definition task_entry (t : Task) : option RequestEntry :=
  match t with
  | RegisterPrefill _ e | RegisterDecode _ e | RegisterInsert _ e | ReleasePrefill e | ReleaseDecode e => Some e
  | Sweeping _ => None
  end.

(** The ids of registrations that are not in the map yet. *)
Definition task_ids (t : Task) : list N :=
  match t with RegisterPrefill id _ | RegisterDecode id _ | RegisterInsert id _ => [id] | _ => [] end.

(** The registered loads of a counter, those of running calls included. *)
Definition prefill_sum (s : System) (a : N) : N :=
  total (at_addr entry_prefill a) (requests (registry s)) + sum_tasks (pending_prefill a) (tasks s).
Definition decode_sum (s : System) (a : N) : N :=
  total (at_addr entry_decode a) (requests (registry s)) + sum_tasks (pending_decode a) (tasks s).

Record load_ok (s : System) : Prop := {
  lo_store a c : store (registry s) !! a = Some c →
    a < next_addr (registry s) ∧ prefill_counter c = wrap (prefill_sum s a) ∧ decode_counter c = wrap (decode_sum s a);
  lo_requests id e : requests (registry s) !! id = Some e → is_Some (store (registry s) !! counters e) ∧ id ∈ used_ids s;
  lo_tasks t e : t ∈ tasks s → task_entry t = Some e → is_Some (store (registry s) !! counters e);
  lo_workers w a : workers (registry s) !! w = Some a → is_Some (store (registry s) !! a);
  lo_ids : NoDup (tasks s ≫= task_ids);
  lo_new id : id ∈ (tasks s ≫= task_ids) → requests (registry s) !! id = None ∧ id ∈ used_ids s;
}.

Lemma wrap_add x y : wrap (wrap x + y) = wrap (x + y).
Proof. unfold wrap. by rewrite N.Div0.add_mod_idemp_l. Qed.

Lemma fetch_sub_wrap x y : fetch_sub (wrap (x + y)) y = wrap x.
Proof.
  unfold fetch_sub, wrap. rewrite N.Div0.add_mod_idemp_l. set (M := 2 ^ 64). assert (M ≠ 0) by (unfold M; lia).
  assert (y mod M < M) by (apply N.mod_lt; done). pose proof (N.div_mod y M ltac:(done)) as Hy.
  replace (x + y + (M - y mod M)) with (x + (y / M + 1) * M) by lia. apply N.Div0.mod_add.
Qed.

Lemma at_addr_same load e : at_addr load (counters e) e = load e.
Proof. unfold at_addr. by rewrite N.eqb_refl. Qed.

Lemma at_addr_other load a e : a ≠ counters e → at_addr load a e = 0.
Proof. intros Hne. unfold at_addr. destruct (N.eqb_spec (counters e) a); [congruence|done]. Qed.

(** Replacing a call by what is left of it. *)
Lemma sum_tasks_replace f ts1 ts ts2 t :
  sum_tasks f (ts1 ++ ts ++ ts2) + f t = sum_tasks f (ts1 ++ t :: ts2) + sum_tasks f ts.
Proof. rewrite !sum_tasks_app, sum_tasks_cons. lia. Qed.

Lemma elem_of_replace (ts1 ts2 ts : list Task) t u : u ∈ ts1 ++ ts ++ ts2 → u ∈ ts1 ++ t :: ts2 ∨ u ∈ ts.
Proof. rewrite !elem_of_app, elem_of_cons. tauto. Qed.

Lemma task_ids_replace (ts1 ts2 ts : list Task) t : task_ids t = (ts ≫= task_ids) →
  (ts1 ++ ts ++ ts2) ≫= task_ids = (ts1 ++ t :: ts2) ≫= task_ids.
Proof. intros Ht. rewrite !bind_app, bind_cons, Ht. by rewrite ?(assoc_L (++)). Qed.

(** The step of one call that only changes a counter. *)
Lemma counter_step_ok r ts1 ts2 ts used t e g : task_entry t = Some e →
  (∀ u, u ∈ ts → task_entry u = Some e) → task_ids t = (ts ≫= task_ids) →
  (∀ c, prefill_counter c = wrap (prefill_sum (mkSystem r (ts1 ++ t :: ts2) used) (counters e)) →
        decode_counter c = wrap (decode_sum (mkSystem r (ts1 ++ t :: ts2) used) (counters e)) →
        prefill_counter (g c) = wrap (prefill_sum (mkSystem r (ts1 ++ ts ++ ts2) used) (counters e)) ∧
        decode_counter (g c) = wrap (decode_sum (mkSystem r (ts1 ++ ts ++ ts2) used) (counters e))) →
  (∀ a u, a ≠ counters e → u ∈ t :: ts → pending_prefill a u = 0 ∧ pending_decode a u = 0) →
  load_ok (mkSystem r (ts1 ++ t :: ts2) used) →
  load_ok (mkSystem (set_store r (alter g (counters e) (store r))) (ts1 ++ ts ++ ts2) used).
Proof.
  intros Ht Hts Hids Hg Hother [Hst Hrq Htk Hwk Hnd Hnew]. cbn [registry tasks used_ids] in *.
  assert (∀ a, is_Some (store r !! a) → is_Some (alter g (counters e) (store r) !! a)) as Hdom.
  { intros a. by rewrite lookup_alter_is_Some. }
  assert (∀ f : Task → N, (∀ u, u ∈ t :: ts → f u = 0) → sum_tasks f (ts1 ++ ts ++ ts2) = sum_tasks f (ts1 ++ t :: ts2)) as Hsum.
  { intros f Hf. assert (sum_tasks f ts = 0) as Hz.
    { clear -Hf. induction ts as [|u ts IH]; [done|]. rewrite sum_tasks_cons, IH; [rewrite Hf; [done|by right; left]|].
      intros v [->|?]%elem_of_cons; apply Hf; [by left|by right; right]. }
    pose proof (sum_tasks_replace f ts1 ts ts2 t) as Hr. rewrite Hz, (Hf t) in Hr by (by left). lia. }
  split; cbn [registry tasks used_ids].
  - intros a c Hc. cbn in Hc. destruct (decide (a = counters e)) as [->|Hne].
    + rewrite lookup_alter_eq in Hc. apply fmap_Some in Hc as (c0&Hc0&->). destruct (Hst _ _ Hc0) as (?&Hp&Hd).
      destruct (Hg c0 Hp Hd). by split_and!.
    + rewrite lookup_alter_ne in Hc by done. destruct (Hst _ _ Hc) as (?&Hp&Hd). split_and!; [done| |].
      * rewrite Hp. f_equal. unfold prefill_sum. cbn [registry tasks]. f_equal. symmetry. apply Hsum. intros u Hu. by apply Hother.
      * rewrite Hd. f_equal. unfold decode_sum. cbn [registry tasks]. f_equal. symmetry. apply Hsum. intros u Hu. by apply Hother.
  - intros id e' He'. destruct (Hrq id e' He'). split; [by apply Hdom|done].
  - intros u e' [Hu|Hu]%(elem_of_replace _ _ _ t) He'; apply Hdom.
    + by apply (Htk u).
    + apply (Htk t); [apply elem_of_app; right; by left|]. rewrite (Hts u Hu) in He'. congruence.
  - intros w a Ha. by apply Hdom, (Hwk w).
  - by rewrite (task_ids_replace ts1 ts2 ts t).
  - intros id. rewrite (task_ids_replace ts1 ts2 ts t) by done. apply Hnew.
Qed.

(** A request that leaves the map: what it holds passes to the call that took it. *)
Lemma take_ok r ts used id e r' : take_request r id = (e, r') → load_ok (mkSystem r ts used) → load_ok (mkSystem r' (released e ++ ts) used).
Proof.
  unfold take_request. destruct (requests r !! id) as [e0|] eqn:He; intros [= <- <-]; [|done]. cbn [released app].
  intros [Hst Hrq Htk Hwk Hnd Hnew]. split; cbn [registry tasks used_ids] in *.
  - intros a c Hc. destruct (Hst a c Hc) as (?&Hp&Hd). split_and!; [done| |].
    + rewrite Hp. f_equal. unfold prefill_sum. cbn [registry tasks requests set_requests]. rewrite (total_delete _ _ _ _ He), sum_tasks_cons. cbn. lia.
    + rewrite Hd. f_equal. unfold decode_sum. cbn [registry tasks requests set_requests]. rewrite (total_delete _ _ _ _ He), sum_tasks_cons. cbn. lia.
  - intros id' e' Hl. cbn in Hl. apply lookup_delete_Some in Hl as [_ Hl]. by apply Hrq.
  - intros t e' [->|Ht]%elem_of_cons He'; [injection He' as <-; by apply (Hrq id)|by apply (Htk t)].
  - done.
  - done.
  - intros id' Hin. destruct (Hnew id' Hin). split; [|done]. cbn. apply lookup_delete_None. by right.
Qed.

Lemma used_weaken r ts used used' : used ⊆ used' → load_ok (mkSystem r ts used) → load_ok (mkSystem r ts used').
Proof.
  intros Hsub [Hst Hrq Htk Hwk Hnd Hnew]. split; cbn [registry tasks used_ids] in *; try done.
  - intros id e He. destruct (Hrq id e He). split; [done|by apply Hsub].
  - intros id Hin. destruct (Hnew id Hin). split; [done|by apply Hsub].
Qed.

(** *** Preservation *)

Section Preserve.
Context (iter_requests : gmap N RequestEntry → list N).

Lemma no_ids_app (us ts : list Task) : (us ≫= task_ids) = [] → (us ++ ts) ≫= task_ids = ts ≫= task_ids.
Proof. intros Hu. by rewrite bind_app, Hu. Qed.

Lemma sum_tasks_zero (f : Task → N) us ts : sum_tasks f us = 0 → sum_tasks f (us ++ ts) = sum_tasks f ts.
Proof. rewrite sum_tasks_app. lia. Qed.

(** Starting or ending a call that holds nothing. *)
Lemma idle_task_ok r ts1 ts2 us vs used :
  (∀ t, t ∈ us ++ vs → ∃ ids, t = Sweeping ids) →
  load_ok (mkSystem r (ts1 ++ us ++ ts2) used) → load_ok (mkSystem r (ts1 ++ vs ++ ts2) used).
Proof.
  intros Hidle [Hst Hrq Htk Hwk Hnd Hnew]. cbn [registry tasks used_ids] in *.
  assert (∀ l (f : Task → N), (∀ ids, f (Sweeping ids) = 0) → (∀ t : Task, t ∈ l → ∃ ids, t = Sweeping ids) → sum_tasks f l = 0) as Hz.
  { intros l f Hf Hl. induction l as [|t l IH]; [done|]. rewrite sum_tasks_cons, IH.
    - destruct (Hl t) as [ids ->]; [by left|]. by rewrite Hf.
    - intros u ?. apply Hl. by right. }
  assert (∀ f : Task → N, (∀ ids, f (Sweeping ids) = 0) → sum_tasks f (ts1 ++ vs ++ ts2) = sum_tasks f (ts1 ++ us ++ ts2)) as Hsum.
  { intros f Hf. rewrite !sum_tasks_app, (Hz us f Hf), (Hz vs f Hf); [done|..]; intros t ?; apply Hidle, elem_of_app; auto. }
  assert (∀ l, (∀ t : Task, t ∈ l → ∃ ids, t = Sweeping ids) → l ≫= task_ids = []) as Hnil.
  { intros l Hl. induction l as [|t l IH]; [done|]. rewrite bind_cons, IH; [destruct (Hl t) as [ids ->]; [by left|done]|].
    intros u ?. apply Hl. by right. }
  assert ((ts1 ++ vs ++ ts2) ≫= task_ids = (ts1 ++ us ++ ts2) ≫= task_ids) as Hids.
  { rewrite !bind_app, (Hnil us), (Hnil vs); [done|..]; intros t ?; apply Hidle, elem_of_app; auto. }
  split; cbn [registry tasks used_ids].
  - intros a c Hc. destruct (Hst a c Hc) as (?&Hp&Hd). split_and!; [done| |].
    + rewrite Hp. unfold prefill_sum. cbn [registry tasks]. by rewrite <-(Hsum (pending_prefill a)).
    + rewrite Hd. unfold decode_sum. cbn [registry tasks]. by rewrite <-(Hsum (pending_decode a)).
  - done.
  - intros t e Ht He. rewrite !elem_of_app in Ht. destruct Ht as [Ht|[Ht|Ht]].
    + apply (Htk t); [|done]. rewrite !elem_of_app. auto.
    + destruct (Hidle t) as [ids ->]; [apply elem_of_app; by right|done].
    + apply (Htk t); [|done]. rewrite !elem_of_app. auto.
  - done.
  - by rewrite Hids.
  - intros id. rewrite Hids. apply Hnew.
Qed.

Lemma register_entry_ok r ts used worker a r' now id url p d :
  id ∉ used → register_entry r worker = (a, r') → load_ok (mkSystem r ts used) →
  load_ok (mkSystem r' (RegisterPrefill id (mkRequestEntry worker url a p d now false) :: ts) ({[id]} ∪ used)).
Proof.
  intros Hid He [Hst Hrq Htk Hwk Hnd Hnew]. cbn [registry tasks used_ids] in *.
  assert (∀ a : N, store r !! a = None → prefill_sum (mkSystem r ts used) a = 0 ∧ decode_sum (mkSystem r ts used) a = 0) as Hzero.
  { intros b Hb. assert (∀ e, is_Some (store r !! counters e) → ∀ load, at_addr load b e = 0) as Hat.
    { intros e [c Hc] load. apply at_addr_other. intros ->. congruence. }
    assert (∀ load m, (∀ i e, m !! i = Some e → is_Some (store r !! counters e)) → total (at_addr load b) m = 0) as Ht.
    { intros load m. induction m as [|i e m Hi IH] using map_ind; intros Hm.
      - done.
      - rewrite total_insert by done. rewrite Hat by (apply (Hm i); by rewrite lookup_insert_eq). rewrite IH; [done|].
        intros j e' Hj. apply (Hm j). rewrite lookup_insert_ne; [done|]. intros <-. congruence. }
    assert (∀ f, (∀ t, t ∈ ts → f t = 0) → sum_tasks f ts = 0) as Hs.
    { intros f Hf. clear -Hf. induction ts as [|t ts IH]; [done|]. rewrite sum_tasks_cons, IH; [rewrite Hf; [done|by left]|].
      intros u ?. apply Hf. by right. }
    unfold prefill_sum, decode_sum. cbn [registry tasks]. rewrite !Ht by (intros i e Hi; by apply (Hrq i)).
    rewrite !Hs; [done|intros t Hin..]; pose proof (Htk t) as Hte; destruct t; cbn in *; try done; apply Hat; by eapply Hte. }
  assert (r' = r ∧ is_Some (store r !! a) ∨ store r !! next_addr r = None ∧ a = next_addr r ∧
    store r' = <[a := mkWorkerCounters 0 0]> (store r) ∧ next_addr r' = next_addr r + 1 ∧ workers r' = <[worker := a]> (workers r) ∧
    requests r' = requests r) as Hcase.
  { unfold register_entry in He. destruct (workers r !! worker) as [b|] eqn:Hw; injection He as <- <-.
    - left. split; [done|]. by apply (Hwk worker).
    - right. split; [|done]. apply eq_None_not_Some. intros [c Hc]. destruct (Hst _ _ Hc) as [? _]. lia. }
  assert (NoDup (id :: (ts ≫= task_ids))) as Hnd'.
  { apply NoDup_cons. split; [|done]. intros Hin. by destruct (Hnew id Hin). }
  assert (requests r !! id = None) as Hrid.
  { apply eq_None_not_Some. intros [e Hr]. by destruct (Hrq id e Hr). }
  destruct Hcase as [[-> Ha]|(Hfree&->&Hs&Hn&Hw&Hr)].
  - split; cbn [registry tasks used_ids].
    + intros b c Hc. destruct (Hst b c Hc) as (?&Hp&Hd). done.
    + intros i e Hi. destruct (Hrq i e Hi). split; [done|]. by apply elem_of_union_r.
    + intros t e [->|Ht]%elem_of_cons Hte; [by injection Hte as <-|by apply (Htk t)].
    + done.
    + done.
    + intros i Hi. cbn in Hi. apply elem_of_cons in Hi as [->|Hi]; [split; [done|by apply elem_of_union_l, elem_of_singleton]|].
      destruct (Hnew i Hi). split; [done|by apply elem_of_union_r].
  - split; cbn [registry tasks used_ids]; rewrite ?Hs, ?Hn, ?Hw, ?Hr.
    + intros b c [[<- <-]|[Hne Hc]]%lookup_insert_Some.
      * destruct (Hzero _ Hfree) as [Hp Hd]. unfold prefill_sum, decode_sum in *. cbn [registry tasks] in *. rewrite ?sum_tasks_cons in *. cbn [pending_prefill pending_decode] in *. rewrite Hr, !N.add_0_l. split_and!; [lia|by rewrite Hp|by rewrite Hd].
      * destruct (Hst b c Hc) as (?&Hp&Hd). unfold prefill_sum, decode_sum in *. cbn [registry tasks] in *. rewrite ?sum_tasks_cons in *. cbn [pending_prefill pending_decode] in *. rewrite Hr, !N.add_0_l. split_and!; [lia|done|done].
    + intros i e Hi. destruct (Hrq i e Hi). split; [|by apply elem_of_union_r]. by apply lookup_insert_is_Some'; right.
    + intros t e [->|Ht]%elem_of_cons Hte; apply lookup_insert_is_Some'; [left; by injection Hte as <-|right; by apply (Htk t)].
    + intros w b [[<- <-]|[_ Hb]]%lookup_insert_Some; apply lookup_insert_is_Some'; [by left|right; by apply (Hwk w)].
    + done.
    + intros i Hi. cbn in Hi. apply elem_of_cons in Hi as [->|Hi]; [split; [done|by apply elem_of_union_l, elem_of_singleton]|].
      destruct (Hnew i Hi). split; [done|by apply elem_of_union_r].
Qed.

Lemma load_step_ok s s' : load_step iter_requests s s' → load_ok s → load_ok s'.
Proof.
  intros Hstep Hs. destruct Hstep as
    [r ts used now id worker url p d a r' Hid He|r ts1 ts2 used id e|r ts1 ts2 used id e|r ts1 ts2 used id e|r ts used id e r' He
    |r ts1 ts2 used e|r ts1 ts2 used e|r ts used now|r ts1 ts2 used id ids e r' He|r ts1 ts2 used|r ts used worker].
  - by eapply register_entry_ok.
  - apply (counter_step_ok r ts1 ts2 [RegisterDecode id e] used (RegisterPrefill id e) e); try done.
    + by intros u ->%list_elem_of_singleton.
    + intros c Hp Hd. unfold prefill_sum, decode_sum in *. cbn [registry tasks prefill_counter decode_counter] in *.
      rewrite Hp, Hd, !sum_tasks_app, !sum_tasks_cons, ?sum_tasks_nil. cbn [pending_prefill pending_decode]. rewrite at_addr_same.
      unfold fetch_add. rewrite wrap_add. split; f_equal; lia.
    + intros b u Hb [->| ->%list_elem_of_singleton]%elem_of_cons; cbn; by rewrite ?at_addr_other.
  - apply (counter_step_ok r ts1 ts2 [RegisterInsert id e] used (RegisterDecode id e) e); try done.
    + by intros u ->%list_elem_of_singleton.
    + intros c Hp Hd. unfold prefill_sum, decode_sum in *. cbn [registry tasks prefill_counter decode_counter] in *.
      rewrite Hp, Hd, !sum_tasks_app, !sum_tasks_cons, ?sum_tasks_nil. cbn [pending_prefill pending_decode]. rewrite !at_addr_same.
      unfold fetch_add. rewrite wrap_add. split; f_equal; lia.
    + intros b u Hb [->| ->%list_elem_of_singleton]%elem_of_cons; cbn; by rewrite ?at_addr_other.
  - destruct Hs as [Hst Hrq Htk Hwk Hnd Hnew]. cbn [registry tasks used_ids] in *.
    assert (RegisterInsert id e ∈ ts1 ++ RegisterInsert id e :: ts2) as Hin by (apply elem_of_app; right; by left).
    assert (((ts1 ++ RegisterInsert id e :: ts2) ≫= task_ids) ≡ₚ id :: ((ts1 ++ ts2) ≫= task_ids)) as Hperm.
    { rewrite !bind_app, bind_cons. cbn. by rewrite <-Permutation_middle. }
    rewrite Hperm in Hnd. apply NoDup_cons in Hnd as [Hni Hnd].
    destruct (Hnew id) as [Hfree Hused]; [rewrite Hperm; by left|].
    split; cbn [registry tasks used_ids].
    + intros a c Hc. destruct (Hst a c Hc) as (?&Hp&Hd). split_and!; [done| |].
      * rewrite Hp. f_equal. unfold prefill_sum. cbn [registry tasks insert_request requests set_requests].
        rewrite total_insert, !sum_tasks_app, sum_tasks_cons by done. cbn [pending_prefill]. lia.
      * rewrite Hd. f_equal. unfold decode_sum. cbn [registry tasks insert_request requests set_requests].
        rewrite total_insert, !sum_tasks_app, sum_tasks_cons by done. cbn [pending_decode]. lia.
    + intros i e' Hi. cbn in Hi. apply lookup_insert_Some in Hi as [[<- <-]|[_ Hi]]; [|by apply Hrq].
      split; [by apply (Htk _ _ Hin)|done].
    + intros t e' Ht. apply (Htk t). apply elem_of_app in Ht as [?|?]; apply elem_of_app; [by left|right; by right].
    + done.
    + done.
    + intros i Hi. destruct (Hnew i) as [Hn ?]; [rewrite Hperm; by right|]. split; [|done]. cbn.
      rewrite lookup_insert_ne; [done|]. intros <-. by apply Hni.
  - by eapply take_ok.
  - apply (counter_step_ok r ts1 ts2 [ReleaseDecode e] used (ReleasePrefill e) e); try done.
    + by intros u ->%list_elem_of_singleton.
    + intros c Hp Hd. unfold prefill_sum, decode_sum in *. cbn [registry tasks prefill_counter decode_counter] in *.
      rewrite Hp, Hd, !sum_tasks_app, !sum_tasks_cons, ?sum_tasks_nil. cbn [pending_prefill pending_decode]. rewrite !at_addr_same. split.
      * set (x := total _ _). set (y := sum_tasks _ ts1). set (z := sum_tasks _ ts2).
        replace (x + (y + (entry_prefill e + z))) with (x + (y + z) + entry_prefill e) by lia. rewrite fetch_sub_wrap. f_equal; lia.
      * f_equal; lia.
    + intros b u Hb [->| ->%list_elem_of_singleton]%elem_of_cons; cbn; by rewrite ?at_addr_other.
  - apply (counter_step_ok r ts1 ts2 [] used (ReleaseDecode e) e); try done.
    + by intros u ?%elem_of_nil.
    + intros c Hp Hd. unfold prefill_sum, decode_sum in *. cbn [registry tasks prefill_counter decode_counter] in *.
      rewrite Hp, Hd, !sum_tasks_app, !sum_tasks_cons, ?sum_tasks_nil. cbn [pending_prefill pending_decode]. rewrite !at_addr_same. split.
      * f_equal; lia.
      * set (x := total _ _). set (y := sum_tasks _ ts1). set (z := sum_tasks _ ts2).
        replace (x + (y + (entry_decode e + z))) with (x + (y + z) + entry_decode e) by lia. rewrite fetch_sub_wrap. f_equal; lia.
    + intros b u Hb [->|?%elem_of_nil]%elem_of_cons; cbn; [by rewrite ?at_addr_other|done].
  - apply (idle_task_ok r [] ts [] [Sweeping (scan_stale iter_requests now r)]); [|done].
    intros t ->%list_elem_of_singleton. by eexists.
  - apply (take_ok r _ used id e r' He). apply (idle_task_ok r ts1 ts2 [Sweeping (id :: ids)] [Sweeping ids]); [|done].
    intros t [->| ->%list_elem_of_singleton]%elem_of_cons; by eexists.
  - apply (idle_task_ok r ts1 ts2 [Sweeping []] []); [|done]. intros t ->%list_elem_of_singleton. by eexists.
  - destruct Hs as [Hst Hrq Htk Hwk Hnd Hnew]. split; cbn [registry tasks used_ids] in *; try done.
    intros w b Hb. cbn in Hb. apply lookup_delete_Some in Hb as [_ Hb]. by apply (Hwk w).
Qed.

Lemma reachable_ok timeout s : rtc (load_step iter_requests) (mkSystem (new_registry timeout) [] ∅) s → load_ok s.
Proof.
  assert (load_ok (mkSystem (new_registry timeout) [] ∅)) as H0.
  { split; cbn; try done; try apply NoDup_nil_2; intros ?; [intros ? Hid|intros Hid]; by apply elem_of_nil in Hid. }
  revert H0. generalize (mkSystem (new_registry timeout) [] ∅). intros s0 H0 Hrun.
  induction Hrun as [|s1 s2 s3 H12 _ IH]; [done|]. by apply IH, (load_step_ok s1).
Qed.

(** C28. Whatever the interleaving of registrations, drops, sweeps and forgotten workers, once no call is running a worker's counters
    are the loads of the in-flight requests registered on them: no load leaks and none is taken back twice. *)
Theorem active_load_is_inflight_load timeout s worker a :
  rtc (load_step iter_requests) (mkSystem (new_registry timeout) [] ∅) s → tasks s = [] →
  workers (registry s) !! worker = Some a →
  prefill_load (registry s) worker = wrap (total (at_addr entry_prefill a) (requests (registry s))) ∧
  decode_load (registry s) worker = wrap (total (at_addr entry_decode a) (requests (registry s))).
Proof.
  intros Hrun Hts Ha. destruct (reachable_ok _ _ Hrun) as [Hst _ _ Hwk _ _]. destruct (Hwk worker a Ha) as [c Hc].
  destruct (Hst a c Hc) as (_&Hp&Hd). unfold prefill_load, decode_load. rewrite Ha. cbn [mbind option_bind]. rewrite Hc, Hp, Hd.
  unfold prefill_sum, decode_sum. rewrite Hts. cbn [sum_tasks foldr]. by rewrite !N.add_0_r.
Qed.

End Preserve.

(** ** The janitor *)

Lemma sweep_loop_correct ids : ∀ r swept, NoDup ids → (∀ id, id ∈ ids → is_Some (requests r !! id)) →
  let '(out, r') := sweep_loop r ids swept in
  out = swept ++ ids ∧ requests r' = filter (λ p, p.1 ∉ ids) (requests r) ∧ workers r' = workers r.
Proof.
  induction ids as [|id ids IH]; intros r swept Hnd Hall; cbn [sweep_loop].
  { rewrite app_nil_r. split_and!; [done| |done]. symmetry. apply map_filter_id. intros i e _. cbn. apply not_elem_of_nil. }
  apply NoDup_cons in Hnd as [Hid Hnd]. unfold take_request. destruct (Hall id) as [e He]; [by left|]. rewrite He.
  set (r1 := sub_decode _ _). specialize (IH r1 (swept ++ [id]) Hnd).
  destruct (sweep_loop r1 ids (swept ++ [id])) as [out r']. destruct IH as (->&->&->).
  - intros i Hi. cbn. rewrite lookup_delete_ne by (intros <-; done). apply Hall. by right.
  - split_and!; [by rewrite <-(assoc_L (++))| |done]. cbn. apply map_eq. intros i. rewrite !map_lookup_filter.
    destruct (decide (i = id)) as [->|Hne].
    + rewrite lookup_delete_eq, He. cbn. by rewrite option_guard_False by (intros Hx; apply Hx; by left).
    + rewrite lookup_delete_ne by done. destruct (requests r !! i) as [e'|]; [|done]. cbn.
      apply option_guard_iff. rewrite not_elem_of_cons. naive_solver.
Qed.

(** A sweep removes exactly the requests older than the timeout, and a guard dropped afterwards changes nothing. *)
Theorem sweep_removes_stale iter_requests now r :
  (∀ m, iter_requests m ≡ₚ (map_to_list m).*1) →
  let '(swept, r') := sweep_stale iter_requests now r in
  (∀ id, id ∈ swept ↔ is_stale now r id = true) ∧ NoDup swept ∧
  requests r' = filter (λ p, is_stale now r p.1 = false) (requests r) ∧ (∀ id, is_stale now r' id = false) ∧
  ∀ id, id ∈ swept → drop_guard r' id = r'.
Proof.
  intros Hiter. unfold sweep_stale. set (ids := scan_stale iter_requests now r).
  assert (∀ id, id ∈ ids ↔ is_stale now r id = true) as Hids.
  { intros id. unfold ids, scan_stale. rewrite list_elem_of_filter, Hiter, list_elem_of_fmap. split; [by intros [? _]|].
    intros Hst. split; [done|]. unfold is_stale in Hst. destruct (requests r !! id) as [e|] eqn:He; [|done].
    exists (id, e). split; [done|]. by apply elem_of_map_to_list. }
  assert (NoDup ids) as Hnd.
  { unfold ids, scan_stale. apply NoDup_filter. rewrite Hiter. apply NoDup_fst_map_to_list. }
  pose proof (sweep_loop_correct ids r [] Hnd) as Hs. assert (∀ r ids swept, stale_request_timeout (sweep_loop r ids swept).2 = stale_request_timeout r) as Hto.
  { intros r0 l. revert r0. induction l as [|i l IH]; intros r0 sw; [done|]. cbn [sweep_loop]. unfold take_request.
    destruct (requests r0 !! i); rewrite IH; done. }
  specialize (Hto r ids []). destruct (sweep_loop r ids []) as [out r']. cbn in Hto. destruct Hs as (->&Hreq&_).
  { intros id Hid%Hids. unfold is_stale in Hid. by destruct (requests r !! id). }
  cbn [app]. assert (requests r' = filter (λ p, is_stale now r p.1 = false) (requests r)) as Hreq'.
  { rewrite Hreq. apply map_filter_ext. intros i e _. cbn. rewrite Hids. by destruct (is_stale now r i). }
  split_and!; [done|done|done| |].
  - intros id. unfold is_stale at 1. rewrite Hreq', map_lookup_filter, Hto. destruct (requests r !! id) as [e|] eqn:He; [|done]. cbn.
    destruct (decide (is_stale now r id = false)) as [Hf|Hf].
    + rewrite option_guard_True by done. cbn. unfold is_stale in Hf. by rewrite He in Hf.
    + by rewrite option_guard_False.
  - intros id Hid. unfold drop_guard, take_request.
    assert (requests r' !! id = None) as ->; [|done]. rewrite Hreq. apply map_lookup_filter_None. right. intros e _ Hx. by apply Hx.
Qed.

(** ** A concrete run *)

Definition request_order (m : gmap N RequestEntry) : list N := (map_to_list m).*1.

(** A worker is forgotten and registered again while its first request is in flight. *)
Lemma active_load_is_inflight_load_witness :
  ∃ s a, rtc (load_step request_order) (mkSystem (new_registry 600) [] ∅) s ∧ tasks s = [] ∧ workers (registry s) !! "w" = Some a ∧
    prefill_load (registry s) "w" = wrap (total (at_addr entry_prefill a) (requests (registry s))) ∧
    decode_load (registry s) "w" = wrap (total (at_addr entry_decode a) (requests (registry s))) ∧
    prefill_load (registry s) "w" = 7.
Proof.
  eassert (rtc (load_step request_order) (mkSystem (new_registry 600) [] ∅) _) as Hrun.
  { eapply rtc_l; [by apply (step_register request_order _ _ _ 0 1 "w" "http://w" 5 2)|].
    eapply rtc_l; [by apply (step_prefill request_order _ [] [])|].
    eapply rtc_l; [by apply (step_decode request_order _ [] [])|].
    eapply rtc_l; [by apply (step_insert request_order _ [] [])|].
    eapply rtc_l; [by apply (step_forget request_order _ _ _ "w")|].
    eapply rtc_l; [by apply (step_register request_order _ _ _ 0 2 "w" "http://w" 7 3)|].
    eapply rtc_l; [by apply (step_prefill request_order _ [] [])|].
    eapply rtc_l; [by apply (step_decode request_order _ [] [])|].
    eapply rtc_l; [by apply (step_insert request_order _ [] [])|].
    eapply rtc_l; [by eapply (step_drop request_order _ _ _ 1)|].
    eapply rtc_l; [by apply (step_release_prefill request_order _ [] [])|].
    eapply rtc_l; [by apply (step_release_decode request_order _ [] [])|]. apply rtc_refl. }
  eexists _, 1. split; [exact Hrun|]. split; [by vm_compute|]. split; [by vm_compute|].
  split; [|split; [|by vm_compute]];
    apply (active_load_is_inflight_load request_order 600 _ "w" 1 Hrun); by vm_compute.
Defined.

Lemma sweep_removes_stale_witness :
  let r := register 0 1 (new_registry 600) "w" "http://w" 5 2 in
  let '(swept, r') := sweep_stale request_order 700 r in
  (∀ id, id ∈ swept ↔ is_stale 700 r id = true) ∧ NoDup swept ∧
  requests r' = filter (λ p, is_stale 700 r p.1 = false) (requests r) ∧ (∀ id, is_stale 700 r' id = false) ∧
  ∀ id, id ∈ swept → drop_guard r' id = r'.
Proof. by apply sweep_removes_stale. Defined.
