(* ===== verification/DpPool.v ===== *)
(** * Data-parallel worker pool ([crates/sglang-srt/src/distributed/dp_worker_pool.rs])

    One thread per rank takes commands from its channel and sends completion
    events to the pool.  The model keeps the channels explicit: a rank handle
    holds the commands its thread has not taken yet, the pool holds the events
    it has not received yet.  A thread's turn is [worker_thread_step]; threads
    and pool operations interleave freely. *)

From S2P Require Import Prelude Types Request.

(** The operations of a worker a pool thread calls. *)
(** [worker.rs:138-177] FallibleModelWorker *)
Class FallibleModelWorker (W : Type) : Type := {
  try_generate_batch : W → ScheduleBatch → Result WorkerExecutionError (list GeneratedToken) * W;
  update_weights_from_disk : W → WorkerWeightUpdateRequest → Result WorkerExecutionError unit * W;
}.

(** [distributed/dp_worker_pool.rs:15-19] DpWorkerCommand *)
Inductive DpWorkerCommand : Type :=
  | ExecuteBatch (sequence : N) (batch : ScheduleBatch)
  | UpdateWeights (request : WorkerWeightUpdateRequest)
  | Shutdown.

(** [distributed/dp_worker_pool.rs:23-37] DpWorkerEvent *)
Inductive DpWorkerEvent : Type :=
  | BatchCompleted (sequence rank : N) (result : Result WorkerExecutionError (list GeneratedToken))
  | WeightsUpdated (rank : N) (result : Result WorkerExecutionError unit)
  | FatalError (rank : N) (error : string).

(** [distributed/dp_worker_pool.rs:290-299] DpWorkerPoolError *)
Inductive DpWorkerPoolError : Type :=
  | ZeroSize
  | AlreadyShutdown
  | InvalidRank (rank dp_size : N)
  | RankBusy (rank : N)
  | ChannelDisconnected (rank : N)
  | EventReceiverClosed
  | Initialization (rank : N) (reason : string)
  | Spawn (rank : N) (reason : string).

(** A handle, the commands in flight to its thread, and whether the thread
    still runs. *)
(** [distributed/dp_worker_pool.rs:40-44] DpRankHandle *)
Record DpRankHandle : Type := mkHandle {
  rank_id : N;
  commands : list DpWorkerCommand;
  thread_alive : bool;
  handle_idle : bool;
}.

(** [distributed/dp_worker_pool.rs:49-55] DpWorkerPool *)
Record DpWorkerPool : Type := mkPool {
  ranks : list DpRankHandle;
  events_rx : list DpWorkerEvent;
  next_sequence : N;
  is_shutdown : bool;
}.

(** The worker of each rank, built by the initializer; spawning threads is taken
    to succeed. *)
(** [distributed/dp_worker_pool.rs:82-111] DpWorkerPool::launch (loop) *)
Fixpoint launch_ranks {W} (initializer : N → Result string W) (rank_ids : list N)
    : Result DpWorkerPoolError (list (DpRankHandle * W)) :=
  match rank_ids with
  | [] => Ok []
  | r :: rest =>
      match initializer r with
      | Err reason => Err (Initialization r reason)
      | Ok w => let? rs := launch_ranks initializer rest in Ok ((mkHandle r [] true true, w) :: rs)
      end
  end.

(** [distributed/dp_worker_pool.rs:68-120] DpWorkerPool::launch *)
Definition launch {W} (dp_size : N) (initializer : N → Result string W)
    : Result DpWorkerPoolError (DpWorkerPool * list W) :=
  if dp_size =? 0 then Err ZeroSize
  else
    let? rs := launch_ranks initializer (nrange 0 dp_size) in
    Ok (mkPool rs.*1 [] 1 false, rs.*2).

(** [distributed/dp_worker_pool.rs:122-124] DpWorkerPool::dp_size *)
Definition dp_size (p : DpWorkerPool) : N := len (ranks p).

(** [distributed/dp_worker_pool.rs:126-128] DpWorkerPool::is_idle *)
Definition is_idle (p : DpWorkerPool) (rank : N) : bool :=
  match ranks p !! N.to_nat rank with Some h => handle_idle h | None => false end.

(** [distributed/dp_worker_pool.rs:131-137] DpWorkerPool::idle_ranks *)
Definition idle_ranks (p : DpWorkerPool) : list N :=
  rank_id <$> filter (λ h, handle_idle h = true) (ranks p).

(** [Sender::send]: fails when the thread is gone. *)
Definition send_command (h : DpRankHandle) (c : DpWorkerCommand) : option DpRankHandle :=
  if thread_alive h then Some (mkHandle (rank_id h) (commands h ++ [c]) true (handle_idle h)) else None.

Definition set_idle (h : DpRankHandle) (idle : bool) : DpRankHandle :=
  mkHandle (rank_id h) (commands h) (thread_alive h) idle.

Definition u64_MAX : N := 2 ^ 64 - 1.

(** [None] is the overflow of the [u64] sequence counter. *)
(** [distributed/dp_worker_pool.rs:140-172] DpWorkerPool::submit_batch *)
Definition submit_batch (p : DpWorkerPool) (rank : N) (batch : ScheduleBatch)
    : option (Result DpWorkerPoolError N * DpWorkerPool) :=
  if is_shutdown p then Some (Err AlreadyShutdown, p)
  else
    match ranks p !! N.to_nat rank with
    | None => Some (Err (InvalidRank rank (len (ranks p))), p)
    | Some h =>
        if negb (handle_idle h) then Some (Err (RankBusy rank), p)
        else
          let seq := next_sequence p in
          guard (seq + 1 ≤ u64_MAX);;
          match send_command h (ExecuteBatch seq batch) with
          | None => Some (Err (ChannelDisconnected rank), mkPool (ranks p) (events_rx p) (seq + 1) false)
          | Some h' =>
              Some (Ok seq, mkPool (<[N.to_nat rank := set_idle h' false]> (ranks p)) (events_rx p) (seq + 1) false)
          end
    end.

(** [distributed/dp_worker_pool.rs:183-193] DpWorkerPool::broadcast_weight_update (loop) *)
Fixpoint broadcast_to (hs : list DpRankHandle) (request : WorkerWeightUpdateRequest)
    : Result DpWorkerPoolError unit * list DpRankHandle :=
  match hs with
  | [] => (Ok (), [])
  | h :: rest =>
      match send_command h (UpdateWeights request) with
      | None => (Err (ChannelDisconnected (rank_id h)), h :: rest)
      | Some h' => let '(res, rest) := broadcast_to rest request in (res, set_idle h' false :: rest)
      end
  end.

(** [distributed/dp_worker_pool.rs:175-196] DpWorkerPool::broadcast_weight_update *)
Definition broadcast_weight_update (p : DpWorkerPool) (request : WorkerWeightUpdateRequest)
    : Result DpWorkerPoolError unit * DpWorkerPool :=
  if is_shutdown p then (Err AlreadyShutdown, p)
  else
    let '(res, hs) := broadcast_to (ranks p) request in
    (res, mkPool hs (events_rx p) (next_sequence p) false).

Definition event_rank (e : DpWorkerEvent) : N :=
  match e with BatchCompleted _ r _ | WeightsUpdated r _ | FatalError r _ => r end.

(** [distributed/dp_worker_pool.rs:204-212] DpWorkerPool::poll_events (idle states) *)
Definition mark_idle (hs : list DpRankHandle) (e : DpWorkerEvent) : list DpRankHandle :=
  alter (λ h, set_idle h true) (N.to_nat (event_rank e)) hs.

(** [distributed/dp_worker_pool.rs:201-216] DpWorkerPool::poll_events *)
Definition poll_events (p : DpWorkerPool) : list DpWorkerEvent * DpWorkerPool :=
  (events_rx p, mkPool (foldl mark_idle (ranks p) (events_rx p)) [] (next_sequence p) (is_shutdown p)).

(** [None]: the call blocks until a thread sends an event. *)
(** [distributed/dp_worker_pool.rs:219-235] DpWorkerPool::wait_for_event *)
Definition wait_for_event (p : DpWorkerPool) : option (Result DpWorkerPoolError DpWorkerEvent * DpWorkerPool) :=
  match events_rx p with
  | e :: rest => Some (Ok e, mkPool (mark_idle (ranks p) e) rest (next_sequence p) (is_shutdown p))
  | [] => if existsb thread_alive (ranks p) then None else Some (Err EventReceiverClosed, p)
  end.

Section Threads.
Context {W : Type} `{!FallibleModelWorker W}.

(** One turn of a thread: the handle's remaining commands, the event it sends,
    the worker's next state.  [None]: the thread is gone or waits. *)
(** [distributed/dp_worker_pool.rs:256-279] DpWorkerPool::worker_thread_loop *)
Definition worker_thread_step (h : DpRankHandle) (w : W)
    : option (DpRankHandle * list DpWorkerEvent * W) :=
  if negb (thread_alive h) then None
  else
    match commands h with
    | [] => None
    | ExecuteBatch sequence batch :: rest =>
        let '(result, w) := try_generate_batch w batch in
        Some (mkHandle (rank_id h) rest true (handle_idle h), [BatchCompleted sequence (rank_id h) result], w)
    | UpdateWeights request :: rest =>
        let '(result, w) := update_weights_from_disk w request in
        Some (mkHandle (rank_id h) rest true (handle_idle h), [WeightsUpdated (rank_id h) result], w)
    | Shutdown :: _ => Some (mkHandle (rank_id h) [] false (handle_idle h), [], w)
    end.

(** Joining a thread runs it until it stops; the commands bound the turns. *)
Fixpoint join_thread (fuel : nat) (h : DpRankHandle) (w : W) : DpRankHandle * list DpWorkerEvent * W :=
  match fuel with
  | O => (h, [], w)
  | S fuel' =>
      match worker_thread_step h w with
      | None => (h, [], w)
      | Some (h1, ev, w1) => let '(h2, ev', w2) := join_thread fuel' h1 w1 in (h2, ev ++ ev', w2)
      end
  end.

(** Sends [Shutdown] to a thread, if it is there, and joins it. *)
Definition stop_rank (h : DpRankHandle) (w : W) : DpRankHandle * list DpWorkerEvent * W :=
  let h := default h (send_command h Shutdown) in
  join_thread (length (commands h)) h w.

(** [distributed/dp_worker_pool.rs:237-254] DpWorkerPool::shutdown *)
Definition pool_shutdown (p : DpWorkerPool) (ws : list W) : DpWorkerPool * list W :=
  if is_shutdown p then (p, ws)
  else
    let stopped := (λ x : DpRankHandle * W, stop_rank x.1 x.2) <$> zip (ranks p) ws in
    (mkPool ((λ x, x.1.1) <$> stopped) (events_rx p ++ (stopped ≫= λ x, x.1.2)) (next_sequence p) true,
     (λ x, x.2) <$> stopped).

End Threads.

(** ** Sequences *)

Definition command_sequences (cs : list DpWorkerCommand) : list N :=
  cs ≫= λ c, match c with ExecuteBatch s _ => [s] | _ => [] end.

Definition event_sequences (es : list DpWorkerEvent) : list N :=
  es ≫= λ e, match e with BatchCompleted s _ _ => [s] | _ => [] end.

(** Sequences a thread has not taken yet. *)
Definition queued_sequences (hs : list DpRankHandle) : list N := hs ≫= λ h, command_sequences (commands h).

Arguments queued_sequences : simpl never.

(** A pool with its workers, and the sequences it accepted and delivered. *)
Record PoolSystem (W : Type) : Type := mkSystem {
  pool : DpWorkerPool;
  workers : list W;
  accepted : list N;
  delivered : list N;
}.
Arguments mkSystem {W}.
Arguments pool {W}.
Arguments workers {W}.
Arguments accepted {W}.
Arguments delivered {W}.

Section System.
Context {W : Type} `{!FallibleModelWorker W}.

Implicit Types (y : PoolSystem W).

Definition set_rank (p : DpWorkerPool) (rank : N) (h : DpRankHandle) (es : list DpWorkerEvent) : DpWorkerPool :=
  mkPool (<[N.to_nat rank := h]> (ranks p)) (events_rx p ++ es) (next_sequence p) (is_shutdown p).

Inductive pool_step : PoolSystem W → PoolSystem W → Prop :=
  | ps_submit y rank batch seq p :
      submit_batch (pool y) rank batch = Some (Ok seq, p) →
      pool_step y (mkSystem p (workers y) (accepted y ++ [seq]) (delivered y))
  | ps_submit_fails y rank batch e p :
      submit_batch (pool y) rank batch = Some (Err e, p) →
      pool_step y (mkSystem p (workers y) (accepted y) (delivered y))
  | ps_broadcast y request :
      pool_step y (mkSystem (broadcast_weight_update (pool y) request).2 (workers y) (accepted y) (delivered y))
  | ps_thread y rank h w h' es w' :
      ranks (pool y) !! N.to_nat rank = Some h → workers y !! N.to_nat rank = Some w →
      worker_thread_step h w = Some (h', es, w') →
      pool_step y (mkSystem (set_rank (pool y) rank h' es) (<[N.to_nat rank := w']> (workers y))
        (accepted y) (delivered y))
  | ps_poll y :
      pool_step y (mkSystem (poll_events (pool y)).2 (workers y) (accepted y)
        (delivered y ++ event_sequences (poll_events (pool y)).1))
  | ps_wait y e p :
      wait_for_event (pool y) = Some (Ok e, p) →
      pool_step y (mkSystem p (workers y) (accepted y) (delivered y ++ event_sequences [e]))
  | ps_shutdown y :
      pool_step y (mkSystem (pool_shutdown (pool y) (workers y)).1 (pool_shutdown (pool y) (workers y)).2
        (accepted y) (delivered y)).

Definition pool_reachable y : Prop :=
  ∃ n initializer p ws, launch n initializer = Ok (p, ws) ∧ rtc pool_step (mkSystem p ws [] []) y.

(** Before shutdown all threads run and no [Shutdown] waits; afterwards no
    thread runs and nothing waits. *)
Definition handle_wf (stopped : bool) (h : DpRankHandle) : Prop :=
  if stopped then thread_alive h = false ∧ commands h = []
  else thread_alive h = true ∧ Forall (λ c, c ≠ Shutdown) (commands h).

Record system_wf y : Prop := {
  sy_handles : Forall (handle_wf (is_shutdown (pool y))) (ranks (pool y));
  sy_workers : length (workers y) = length (ranks (pool y));
  sy_accepted : accepted y = nrange 1 (next_sequence (pool y));
  sy_next : 1 ≤ next_sequence (pool y);
  sy_exact : queued_sequences (ranks (pool y)) ++ event_sequences (events_rx (pool y)) ++ delivered y ≡ₚ accepted y;
}.

Lemma queued_cons h hs : queued_sequences (h :: hs) = command_sequences (commands h) ++ queued_sequences hs.
Proof. done. Qed.

Lemma queued_insert hs i h h' :
  hs !! i = Some h →
  command_sequences (commands h) ++ queued_sequences (<[i := h']> hs) ≡ₚ
  command_sequences (commands h') ++ queued_sequences hs.
Proof.
  intros Hi. rewrite (insert_take_drop hs i h') by (by eapply lookup_lt_Some).
  rewrite <-(take_drop_middle hs i h Hi) at 3. unfold queued_sequences. rewrite !bind_app, !bind_cons. solve_Permutation.
Qed.

(** A command pushed to a thread, and one its turn works off. *)
Lemma queued_push hs i h h' seq b :
  hs !! i = Some h → commands h' = commands h ++ [ExecuteBatch seq b] →
  queued_sequences (<[i := h']> hs) ≡ₚ seq :: queued_sequences hs.
Proof.
  intros Hi Hc. apply (Permutation_app_inv_l (command_sequences (commands h))).
  rewrite (queued_insert hs i h h' Hi), Hc. unfold command_sequences. rewrite bind_app. cbn. solve_Permutation.
Qed.

Lemma queued_pop hs i h h' es :
  hs !! i = Some h → command_sequences (commands h) = event_sequences es ++ command_sequences (commands h') →
  queued_sequences hs ≡ₚ event_sequences es ++ queued_sequences (<[i := h']> hs).
Proof.
  intros Hi Hc. apply (Permutation_app_inv_l (command_sequences (commands h'))).
  rewrite <-(queued_insert hs i h h' Hi), Hc. solve_Permutation.
Qed.

Lemma elem_of_queued hs seq :
  seq ∈ queued_sequences hs ↔ ∃ i h b, hs !! i = Some h ∧ ExecuteBatch seq b ∈ commands h.
Proof.
  unfold queued_sequences, command_sequences. rewrite list_elem_of_bind. split.
  - intros (h&Hs&[i Hi]%list_elem_of_lookup). apply list_elem_of_bind in Hs as (c&Hs&Hc). destruct c as [s b|rq|]; [|set_solver..].
    apply list_elem_of_singleton in Hs as ->. by exists i, h, b.
  - intros (i&h&b&Hi&Hc). exists h. split; [|by eapply list_elem_of_lookup_2]. apply list_elem_of_bind.
    exists (ExecuteBatch seq b). split; [by apply list_elem_of_singleton|done].
Qed.

Lemma queued_ext hs hs' :
  commands <$> hs = commands <$> hs' → queued_sequences hs = queued_sequences hs'.
Proof.
  unfold queued_sequences. revert hs'. induction hs as [|h hs IH]; intros [|h' hs'] Heq; try done.
  cbn in Heq. injection Heq as H1 H2. rewrite !bind_cons, H1. f_equal. by apply IH.
Qed.

Lemma mark_idle_commands hs e : commands <$> mark_idle hs e = commands <$> hs ∧
  length (mark_idle hs e) = length hs ∧ ∀ b, Forall (handle_wf b) hs → Forall (handle_wf b) (mark_idle hs e).
Proof.
  unfold mark_idle. split; [|split; [apply length_alter|]].
  - apply list_eq. intros j. rewrite !list_lookup_fmap. destruct (decide (N.to_nat (event_rank e) = j)) as [->|].
    + rewrite list_lookup_alter_eq. by destruct (hs !! j).
    + by rewrite list_lookup_alter_ne.
  - intros b Hb. rewrite Forall_lookup in Hb |- *. intros j h Hj.
    destruct (decide (N.to_nat (event_rank e) = j)) as [Heq|].
    + rewrite Heq, list_lookup_alter_eq in Hj. destruct (hs !! j) as [h0|] eqn:H0; [|done].
      injection Hj as <-. specialize (Hb j h0 H0). destruct h0. by destruct b.
    + rewrite list_lookup_alter_ne in Hj by done. by eapply Hb.
Qed.

Lemma mark_all_idle hs es : commands <$> foldl mark_idle hs es = commands <$> hs ∧
  length (foldl mark_idle hs es) = length hs ∧
  ∀ b, Forall (handle_wf b) hs → Forall (handle_wf b) (foldl mark_idle hs es).
Proof.
  revert hs. induction es as [|e es IH]; intros hs; [done|]. cbn.
  destruct (IH (mark_idle hs e)) as (->&->&H). destruct (mark_idle_commands hs e) as (->&->&H').
  split; [done|]. split; [done|]. eauto.
Qed.

Lemma event_sequences_app es es' : event_sequences (es ++ es') = event_sequences es ++ event_sequences es'.
Proof. apply bind_app. Qed.

Lemma command_sequences_app cs cs' : command_sequences (cs ++ cs') = command_sequences cs ++ command_sequences cs'.
Proof. apply bind_app. Qed.

(** A turn moves the sequence of a command to the event. *)
Lemma worker_thread_step_spec h w h' es w' :
  handle_wf false h → worker_thread_step h w = Some (h', es, w') →
  handle_wf false h' ∧ command_sequences (commands h) = event_sequences es ++ command_sequences (commands h').
Proof.
  intros [Ha Hc]. unfold worker_thread_step. rewrite Ha. cbn [negb].
  destruct (commands h) as [|[s b|rq|] rest]; [done| | |].
  - inversion Hc; subst. destruct (try_generate_batch w b) as [res w1]. intros [= <- <- <-]. by split.
  - inversion Hc; subst. destruct (update_weights_from_disk w rq) as [res w1]. intros [= <- <- <-]. by split.
  - inversion Hc; subst. done.
Qed.

(** A joined thread has worked off its commands. *)
Lemma join_thread_spec r cs idle w :
  Forall (λ c, c ≠ Shutdown) cs →
  let '(h, es, _) := join_thread (length (cs ++ [Shutdown])) (mkHandle r (cs ++ [Shutdown]) true idle) w in
  h = mkHandle r [] false idle ∧ event_sequences es = command_sequences cs.
Proof.
  revert w. induction cs as [|c cs IH]; intros w Hc; [done|]. inversion Hc as [|?? Hne Hc']; subst.
  rewrite <-app_comm_cons. cbn [length join_thread]. destruct c as [s b|rq|]; [| |done]; unfold worker_thread_step;
    cbn [negb thread_alive commands rank_id handle_idle].
  - destruct (try_generate_batch w b) as [res w1]. specialize (IH w1 Hc').
    destruct (join_thread _ _ w1) as [[h es] w2]. destruct IH as [-> Hes]. split; [done|].
    unfold event_sequences in *. rewrite bind_app, Hes. done.
  - destruct (update_weights_from_disk w rq) as [res w1]. specialize (IH w1 Hc').
    destruct (join_thread _ _ w1) as [[h es] w2]. destruct IH as [-> Hes]. split; [done|].
    unfold event_sequences in *. rewrite bind_app, Hes. done.
Qed.

Lemma stop_rank_spec h (w : W) :
  handle_wf false h →
  handle_wf true (stop_rank h w).1.1 ∧ event_sequences (stop_rank h w).1.2 = command_sequences (commands h) ∧
  commands (stop_rank h w).1.1 = [].
Proof.
  intros [Ha Hc]. unfold stop_rank, send_command. rewrite Ha. cbn [default from_option].
  destruct h as [r cs al idle]. cbn in *. pose proof (join_thread_spec r cs idle w Hc) as H.
  destruct (join_thread _ _ w) as [[h es] w1]. destruct H as [-> Hes]. cbn. by split; [split|].
Qed.

Lemma pool_shutdown_spec (hs : list DpRankHandle) (ws : list W) :
  Forall (handle_wf false) hs → length ws = length hs →
  let stopped := (λ x : DpRankHandle * W, stop_rank x.1 x.2) <$> zip hs ws in
  Forall (handle_wf true) ((λ x, x.1.1) <$> stopped) ∧ queued_sequences ((λ x, x.1.1) <$> stopped) = [] ∧
  event_sequences (stopped ≫= λ x, x.1.2) = queued_sequences hs ∧ length stopped = length hs.
Proof.
  intros Hh. revert ws. induction Hh as [|h hs Hh _ IH]; intros [|w ws] Hl; try done.
  cbn in Hl. injection Hl as Hl. destruct (IH ws Hl) as (H1&H2&H3&H4). destruct (stop_rank_spec h w Hh) as (G1&G2&G3).
  cbn zeta in *. change (zip (h :: hs) (w :: ws)) with ((h, w) :: zip hs ws). rewrite !fmap_cons, bind_cons.
  split; [by constructor|]. split; [|split].
  - unfold queued_sequences in *. rewrite bind_cons, H2. cbn [fst snd]. by rewrite G3.
  - rewrite event_sequences_app, H3. cbn [fst snd]. rewrite G2. unfold queued_sequences. by rewrite bind_cons.
  - cbn [length]. by f_equal.
Qed.

Lemma broadcast_spec hs rq :
  Forall (handle_wf false) hs →
  let '(res, hs') := broadcast_to hs rq in
  Forall (handle_wf false) hs' ∧ length hs' = length hs ∧ queued_sequences hs' = queued_sequences hs.
Proof.
  induction 1 as [|h hs [Ha Hc] Hhs IH]; cbn [broadcast_to]; [by split|].
  unfold send_command. rewrite Ha. destruct (broadcast_to hs rq) as [res hs']. destruct IH as (H1&H2&H3).
  split; [constructor; [|done]|split].
  - split; [done|]. cbn. apply Forall_app. split; [done|]. by constructor.
  - cbn [length]. by f_equal.
  - rewrite !queued_cons, H3. cbn [set_idle commands]. rewrite command_sequences_app. cbn. by rewrite app_nil_r.
Qed.

Lemma submit_wf y rank batch res p :
  system_wf y → submit_batch (pool y) rank batch = Some (res, p) →
  system_wf (mkSystem p (workers y) (match res with Ok seq => accepted y ++ [seq] | Err _ => accepted y end)
    (delivered y)).
Proof.
  intros [Hh Hw Ha Hn Hx]. unfold submit_batch. destruct (is_shutdown (pool y)) eqn:Hs.
  { intros [= <- <-]. split; cbn; try done. by rewrite Hs. }
  destruct (ranks (pool y) !! N.to_nat rank) as [h|] eqn:Hr.
  2:{ intros [= <- <-]. split; cbn; try done. by rewrite Hs. }
  destruct (negb (handle_idle h)); [intros [= <- <-]; split; cbn; try done; by rewrite Hs|].
  case_guard; [|done]. cbn [mbind option_bind].
  pose proof (Forall_lookup_1 _ _ _ _ Hh Hr) as [Hal Hc]. unfold send_command. rewrite Hal. intros [= <- <-].
  assert (commands (set_idle (mkHandle (rank_id h) (commands h ++ [ExecuteBatch (next_sequence (pool y)) batch])
    true (handle_idle h)) false) = commands h ++ [ExecuteBatch (next_sequence (pool y)) batch]) as Hcs by done.
  set (h' := set_idle _ _) in *. split; cbn.
  - apply Forall_insert; [done|]. split; [done|]. rewrite Hcs. apply Forall_app. split; [done|]. by constructor.
  - by rewrite length_insert.
  - rewrite Ha, (nrange_app 1 (next_sequence (pool y)) (next_sequence (pool y) + 1)) by lia. f_equal.
    rewrite nrange_cons, nrange_empty by lia. done.
  - lia.
  - rewrite <-Hx, (queued_push _ _ h h' (next_sequence (pool y)) batch Hr Hcs). solve_Permutation.
Qed.

Lemma pool_step_wf y y' : pool_step y y' → system_wf y → system_wf y'.
Proof.
  intros Hstep Wf. destruct Hstep as [y rank batch seq p Heq|y rank batch e p Heq|y rq
    |y rank h w h' es w' Hr Hw Heq|y|y e p Heq|y].
  - exact (submit_wf y rank batch (Ok seq) p Wf Heq).
  - exact (submit_wf y rank batch (Err e) p Wf Heq).
  - destruct Wf as [Hh Hw Ha Hn Hx]. unfold broadcast_weight_update. destruct (is_shutdown (pool y)) eqn:Hs.
    { split; cbn; try done. by rewrite Hs. }
    pose proof (broadcast_spec (ranks (pool y)) rq Hh) as Hb. destruct (broadcast_to _ rq) as [res hs'].
    destruct Hb as (H1&H2&H3). split; cbn; [done|by rewrite Hw|done|done|by rewrite H3].
  - destruct Wf as [Hh Hws Ha Hn Hx]. pose proof (Forall_lookup_1 _ _ _ _ Hh Hr) as Hwf.
    destruct (is_shutdown (pool y)) eqn:Hs.
    { destruct Hwf as [Hal _]. unfold worker_thread_step in Heq. by rewrite Hal in Heq. }
    destruct (worker_thread_step_spec h w h' es w' Hwf Heq) as [Hwf' Hseq].
    split; cbn; rewrite ?Hs; try done.
    + by apply Forall_insert.
    + by rewrite !length_insert.
    + rewrite <-Hx, event_sequences_app, (queued_pop _ _ h h' es Hr Hseq). solve_Permutation.
  - destruct Wf as [Hh Hws Ha Hn Hx]. destruct (mark_all_idle (ranks (pool y)) (events_rx (pool y))) as (H1&H2&H3).
    split; cbn; try done; [by apply H3|by rewrite H2|].
    rewrite (queued_ext _ _ H1), <-Hx. solve_Permutation.
  - destruct Wf as [Hh Hws Ha Hn Hx]. unfold wait_for_event in Heq.
    destruct (events_rx (pool y)) as [|e' rest] eqn:He; [by destruct (existsb _ _)|]. injection Heq as <- <-.
    destruct (mark_idle_commands (ranks (pool y)) e') as (H1&H2&H3).
    split; cbn; try done; [by apply H3|by rewrite H2|].
    rewrite (queued_ext _ _ H1), <-Hx. change (e' :: rest) with ([e'] ++ rest). rewrite event_sequences_app.
    solve_Permutation.
  - destruct Wf as [Hh Hws Ha Hn Hx]. unfold pool_shutdown. destruct (is_shutdown (pool y)) eqn:Hs.
    { split; cbn; try done. by rewrite Hs. }
    destruct (pool_shutdown_spec (ranks (pool y)) (workers y) Hh Hws) as (H1&H2&H3&H4).
    split; cbn; try done; [by rewrite !length_fmap|]. rewrite H2, event_sequences_app, H3, <-Hx. solve_Permutation.
Qed.

Lemma launch_wf n initializer p ws :
  launch n initializer = Ok (p, ws) → system_wf (mkSystem (W := W) p ws [] []).
Proof.
  unfold launch. destruct (n =? 0); [done|]. rewrite result_bind_Ok. intros (rs&Hrs&[= <- <-]).
  assert (Forall (handle_wf false) rs.*1 ∧ queued_sequences rs.*1 = []) as [H1 H2].
  { revert rs Hrs. induction (nrange 0 n) as [|r l IH]; intros rs Hrs; cbn [launch_ranks] in Hrs; [by injection Hrs as <-|].
    destruct (initializer r); [|done]. apply result_bind_Ok in Hrs as (rs'&Hrs'&[= <-]).
    destruct (IH rs' Hrs') as [? ?]. cbn. split; [by constructor|done]. }
  split; cbn; [done|by rewrite !length_fmap|done|done|by rewrite H2].
Qed.

Lemma pool_reachable_wf y : pool_reachable y → system_wf y.
Proof.
  intros (n&initializer&p&ws&Hl&Hr). apply launch_wf in Hl. induction Hr; eauto using pool_step_wf.
Qed.

(** ** Properties *)

(** C39. Whatever the interleaving of pool operations and worker threads, the
    sequence numbers the pool accepted are 1, 2, 3, ... and each is at any
    time in exactly one place: with its thread, among the events not received
    yet, or delivered; so no batch completes twice and none is lost, and after
    shutdown no thread holds one back. *)
Theorem pool_completes_exactly_once y :
  pool_reachable y →
  accepted y = nrange 1 (next_sequence (pool y)) ∧
  queued_sequences (ranks (pool y)) ++ event_sequences (events_rx (pool y)) ++ delivered y ≡ₚ accepted y ∧
  NoDup (delivered y) ∧
  (is_shutdown (pool y) = true → event_sequences (events_rx (pool y)) ++ delivered y ≡ₚ accepted y).
Proof.
  intros [Hh Hw Ha Hn Hx]%pool_reachable_wf. split; [done|]. split; [done|]. split.
  - assert (NoDup (accepted y)) as Hnd by (rewrite Ha; apply NoDup_nrange). rewrite <-Hx in Hnd.
    rewrite !NoDup_app in Hnd. tauto.
  - intros Hs. rewrite Hs in Hh. rewrite <-Hx. assert (queued_sequences (ranks (pool y)) = []) as ->; [|done].
    clear Hw Hx. induction Hh as [|h hs [_ Hc] _ IH]; [done|]. by rewrite queued_cons, Hc, IH.
Qed.

(** A batch is taken exactly by an idle rank of a running pool: a rank that is busy
    or out of range, or a pool that is shut down, refuses it and changes
    nothing; a rank that took one is busy until one of its events arrives. *)
Theorem submit_batch_correct y rank batch res p :
  pool_reachable y → submit_batch (pool y) rank batch = Some (res, p) →
  match res with
  | Ok seq => is_shutdown (pool y) = false ∧ is_idle (pool y) rank = true ∧ seq = next_sequence (pool y) ∧
      is_idle p rank = false ∧ (∀ rank', rank' ≠ rank → is_idle p rank' = is_idle (pool y) rank')
  | Err e => p = pool y ∧ (is_shutdown (pool y) = true ∨ is_idle (pool y) rank = false)
  end.
Proof.
  intros Wf%pool_reachable_wf. destruct Wf as [Hh _ _ _ _]. unfold submit_batch, is_idle.
  destruct (is_shutdown (pool y)) eqn:Hs; [intros [= <- <-]; split; [done|by left]|].
  destruct (ranks (pool y) !! N.to_nat rank) as [h|] eqn:Hr; [|intros [= <- <-]; split; [done|by right]].
  destruct (handle_idle h) eqn:Hi; cbn [negb]; [|intros [= <- <-]; split; [done|by right]].
  case_guard; [|done]. cbn [mbind option_bind]. pose proof (Forall_lookup_1 _ _ _ _ Hh Hr) as [Hal _].
  unfold send_command. rewrite Hal. intros [= <- <-]. split; [done|]. split; [done|]. split; [done|]. cbn. split.
  - by rewrite list_lookup_insert_eq by (by eapply lookup_lt_Some).
  - intros rank' Hne. by rewrite list_lookup_insert_ne by (intros ?%N2Nat.inj; congruence).
Qed.

End System.

(** A worker that echoes one token per request. *)
#[export] Instance echo_worker : FallibleModelWorker unit := {
  try_generate_batch w b := (Ok ((λ _, mkGeneratedToken [1] true) <$> requests b), w);
  update_weights_from_disk w _ := (Err (Runtime "worker does not support update_weights_from_disk"), w);
}.

Definition example_pool : DpWorkerPool :=
  mkPool [mkHandle 0 [] true true; mkHandle 1 [] true true] [] 1 false.

Definition example_batch : ScheduleBatch := mkScheduleBatch Prefill [].

Definition example_system : PoolSystem unit := mkSystem example_pool [tt; tt] [] [].

(** One batch on rank 1, which its thread has run. *)
Definition example_system_done : PoolSystem unit :=
  mkSystem (mkPool [mkHandle 0 [] true true; mkHandle 1 [] true false] [BatchCompleted 1 1 (Ok [])] 2 false)
    [tt; tt] [1] [].

Lemma example_reachable : pool_reachable example_system.
Proof. exists 2, (λ _, Ok tt), example_pool, [tt; tt]. split; [by vm_compute|apply rtc_refl]. Qed.

Lemma example_done_reachable : pool_reachable example_system_done.
Proof.
  exists 2, (λ _, Ok tt), example_pool, [tt; tt]. split; [by vm_compute|].
  eapply rtc_l; [by apply (ps_submit _ 1 example_batch 1)|].
  eapply rtc_l; [by eapply (ps_thread _ 1)|]. apply rtc_refl.
Qed.

Lemma pool_completes_exactly_once_witness :
  accepted example_system_done = nrange 1 2 ∧
  queued_sequences (ranks (pool example_system_done)) ++
    event_sequences (events_rx (pool example_system_done)) ++ [] ≡ₚ accepted example_system_done ∧
  NoDup (@nil N) ∧
  (false = true → event_sequences (events_rx (pool example_system_done)) ++ [] ≡ₚ accepted example_system_done).
Proof. exact (pool_completes_exactly_once example_system_done example_done_reachable). Defined.

Lemma submit_batch_correct_witness :
  ∃ p, submit_batch example_pool 1 example_batch = Some (Ok 1, p) ∧
    false = false ∧ is_idle example_pool 1 = true ∧ 1 = next_sequence example_pool ∧
    is_idle p 1 = false ∧ (∀ rank', rank' ≠ 1 → is_idle p rank' = is_idle example_pool rank').
Proof.
  eexists. split; [by vm_compute|].
  apply (submit_batch_correct example_system 1 example_batch (Ok 1) _ example_reachable). by vm_compute.
Defined.
