(* ===== verification/DpScheduler.v ===== *)
(** * Data-parallel scheduler ([crates/sglang-srt/src/distributed/dp_scheduler.rs])

    One scheduler serves all data-parallel ranks: shared queues, one shared
    prefix cache, an allocator per rank and the worker pool.  [step] drains the
    pool's events, completes their batches and forms a batch for every idle
    rank.  As in the single-rank scheduler an operation that can panic returns
    [option], and a Rust [Result] comes with the state it leaves behind, on
    errors too. *)

From S2P Require Import Prelude Types PageAllocator RadixCache BlockHash StateEvents Request DpPool.

(** [distributed/dp_scheduler.rs:474-484] DpSchedulerError *)
Inductive DpSchedulerError : Type :=
  | ZeroBatchSize
  | ZeroPageSize
  | AllocatorCountMismatch (dp_size allocators : N)
  | InvalidRank (rank : N)
  | UnknownSequence (sequence rank : N)
  | RankFatal (rank : N) (error : string)
  | Worker (error : WorkerExecutionError)
  | WorkerPool (error : DpWorkerPoolError)
  | CacheAllocation (error : CacheAllocationError).

(** [BTreeMap<u64, _>] is a [gmap]. *)
(** [distributed/dp_scheduler.rs:19-32] DpScheduler *)
Record DpScheduler (P : Type) : Type := mkDpScheduler {
  waiting_queue : list ScheduledRequest;
  decode_queue : list ScheduledRequest;
  prefix_cache : RadixCache;
  allocators : list CachePageAllocator;
  worker_pool : DpWorkerPool;
  running_batches : gmap N (N * ScheduleBatch);
  finished_outputs : list ScheduledOutput;
  step_outputs : list ScheduledOutput;
  max_batch_size : N;
  dp_page_size : N;
  chunked_prefill_size : option N;
  event_publisher : option P;
}.
Arguments mkDpScheduler {P}.
Arguments waiting_queue {P}.
Arguments decode_queue {P}.
Arguments prefix_cache {P}.
Arguments allocators {P}.
Arguments worker_pool {P}.
Arguments running_batches {P}.
Arguments finished_outputs {P}.
Arguments step_outputs {P}.
Arguments max_batch_size {P}.
Arguments dp_page_size {P}.
Arguments chunked_prefill_size {P}.
Arguments event_publisher {P}.

Section DpOps.
Context {P : Type} `{!KvStateEventPublisher P}.
Context (sha256 : list N → list N).

Implicit Types (s : DpScheduler P) (r : ScheduledRequest).

Definition set_queues s (waiting decode : list ScheduledRequest) : DpScheduler P :=
  mkDpScheduler waiting decode (prefix_cache s) (allocators s) (worker_pool s) (running_batches s)
    (finished_outputs s) (step_outputs s) (max_batch_size s) (dp_page_size s)
    (chunked_prefill_size s) (event_publisher s).
Definition set_cache s (c : RadixCache) (p : option P) : DpScheduler P :=
  mkDpScheduler (waiting_queue s) (decode_queue s) c (allocators s) (worker_pool s) (running_batches s)
    (finished_outputs s) (step_outputs s) (max_batch_size s) (dp_page_size s)
    (chunked_prefill_size s) p.
Definition set_allocators s (al : list CachePageAllocator) : DpScheduler P :=
  mkDpScheduler (waiting_queue s) (decode_queue s) (prefix_cache s) al (worker_pool s) (running_batches s)
    (finished_outputs s) (step_outputs s) (max_batch_size s) (dp_page_size s)
    (chunked_prefill_size s) (event_publisher s).
Definition set_running s (p : DpWorkerPool) (running : gmap N (N * ScheduleBatch)) : DpScheduler P :=
  mkDpScheduler (waiting_queue s) (decode_queue s) (prefix_cache s) (allocators s) p running
    (finished_outputs s) (step_outputs s) (max_batch_size s) (dp_page_size s)
    (chunked_prefill_size s) (event_publisher s).
Definition set_outputs s (finished step : list ScheduledOutput) : DpScheduler P :=
  mkDpScheduler (waiting_queue s) (decode_queue s) (prefix_cache s) (allocators s) (worker_pool s)
    (running_batches s) finished step (max_batch_size s) (dp_page_size s)
    (chunked_prefill_size s) (event_publisher s).

(** [distributed/dp_scheduler.rs:35-68] DpScheduler::new *)
Definition DpScheduler_new (p : DpWorkerPool) (al : list CachePageAllocator) (max_batch page : N)
    : Result DpSchedulerError (DpScheduler P) :=
  if negb (dp_size p =? len al) then Err (AllocatorCountMismatch (dp_size p) (len al))
  else if max_batch =? 0 then Err ZeroBatchSize
  else if page =? 0 then Err ZeroPageSize
  else Ok (mkDpScheduler [] [] RadixCache_default al p ∅ [] [] max_batch page None None).

(** [distributed/dp_scheduler.rs:70-73] DpScheduler::with_chunked_prefill_size *)
Definition with_chunked_prefill_size s (chunk_size : option N) : DpScheduler P :=
  mkDpScheduler (waiting_queue s) (decode_queue s) (prefix_cache s) (allocators s) (worker_pool s)
    (running_batches s) (finished_outputs s) (step_outputs s) (max_batch_size s) (dp_page_size s)
    chunk_size (event_publisher s).

(** [distributed/dp_scheduler.rs:75-78] DpScheduler::with_event_publisher *)
Definition with_event_publisher s (publisher : P) : DpScheduler P :=
  set_cache s (prefix_cache s) (Some publisher).

(** [distributed/dp_scheduler.rs:104-106] DpScheduler::enqueue *)
Definition enqueue s r : DpScheduler P := set_queues s (waiting_queue s ++ [r]) (decode_queue s).

(** [distributed/dp_scheduler.rs:108-112] DpScheduler::is_idle *)
Definition scheduler_is_idle s : bool :=
  (len (waiting_queue s) =? 0) && (len (decode_queue s) =? 0) && bool_decide (running_batches s = ∅).

(** [allocators.get_mut(rank)] followed by a release; nothing out of range. *)
Definition release_on (al : list CachePageAllocator) (rank : N) (slots : list CachePageId)
    : option (list CachePageAllocator) :=
  if rank <? len al then
    match al !! N.to_nat rank with
    | None => Some al
    | Some a => a ← release a slots; Some (<[N.to_nat rank := a]> al)
    end
  else Some al.

(** [sequence_cache_pages.get(from..).unwrap_or_default()]. *)
Definition owned_slots r (from : N) : list CachePageId :=
  if from <=? len (sequence_cache_pages r) then slice_from from (sequence_cache_pages r) else [].

(** [distributed/dp_scheduler.rs:126-141] DpScheduler::abort_request (decode queue) *)
Fixpoint abort_decode (rid : RequestId) (al : list CachePageAllocator) (q : list ScheduledRequest)
    : option (bool * list ScheduledRequest * list CachePageAllocator) :=
  match q with
  | [] => Some (false, [], al)
  | r :: q' =>
      if (request_id r =? rid)%string then
        let rank_idx := i32_as_usize (data_parallel_rank r) in
        al ← release_on al rank_idx (owned_slots r (len (input_ids r)));
        '(_, kept, al) ← abort_decode rid al q'; Some (true, kept, al)
      else '(aborted, kept, al) ← abort_decode rid al q'; Some (aborted, r :: kept, al)
  end.

(** [distributed/dp_scheduler.rs:118-144] DpScheduler::abort_request *)
Definition abort_request s (rid : RequestId) : option (bool * DpScheduler P) :=
  let waiting := filter (λ r, request_id r ≠ rid) (waiting_queue s) in
  let aborted := len waiting <? len (waiting_queue s) in
  '(aborted', decode, al) ← abort_decode rid (allocators s) (decode_queue s);
  Some ((aborted || aborted')%bool, set_allocators (set_queues s waiting decode) al).

(** [distributed/dp_scheduler.rs:146-151] DpScheduler::flush_cache *)
Definition flush_cache s : DpScheduler P :=
  set_allocators (set_cache s RadixCache_default (event_publisher s)) (reset <$> allocators s).

(** [i32] to [usize] by [try_into]: negative ranks have no allocator. *)
Definition release_rank (al : list CachePageAllocator) (rank : Z) (slots : list CachePageId)
    : option (list CachePageAllocator) :=
  if (rank <? 0)%Z then Some al else release_on al (Z.to_N rank) slots.

(** [distributed/dp_scheduler.rs:250-259] DpScheduler::abort_all_requests (waiting queue) *)
Fixpoint abort_all_waiting (al : list CachePageAllocator) (q : list ScheduledRequest)
    : option (list CachePageAllocator) :=
  match q with
  | [] => Some al
  | r :: q' => al ← release_rank al (data_parallel_rank r) (allocated_cache_pages r); abort_all_waiting al q'
  end.

(** [distributed/dp_scheduler.rs:260-273] DpScheduler::abort_all_requests (decode queue) *)
Fixpoint abort_all_decode (al : list CachePageAllocator) (q : list ScheduledRequest)
    : option (list CachePageAllocator) :=
  match q with
  | [] => Some al
  | r :: q' =>
      al ← release_rank al (data_parallel_rank r) (owned_slots r (len (input_ids r))); abort_all_decode al q'
  end.

(** [distributed/dp_scheduler.rs:248-275] DpScheduler::abort_all_requests *)
Definition abort_all_requests s : option (N * DpScheduler P) :=
  let count := len (waiting_queue s) + len (decode_queue s) in
  al ← abort_all_waiting (allocators s) (waiting_queue s);
  al ← abort_all_decode al (decode_queue s);
  Some (count, set_allocators (set_queues s [] []) al).

(** [distributed/dp_scheduler.rs:233-235] DpScheduler::drain_finished_outputs *)
Definition drain_finished_outputs s : list ScheduledOutput * DpScheduler P :=
  (finished_outputs s, set_outputs s [] (step_outputs s)).

(** [distributed/dp_scheduler.rs:238-240] DpScheduler::drain_step_outputs *)
Definition drain_step_outputs s : list ScheduledOutput * DpScheduler P :=
  (step_outputs s, set_outputs s (finished_outputs s) []).

(** [distributed/dp_scheduler.rs:243-245] DpScheduler::available_cache_pages *)
Definition available_cache_pages s : N := foldr N.add 0 (available_pages <$> allocators s).

(** ** Completing a batch *)

(** [distributed/dp_scheduler.rs:290-291] DpScheduler::handle_batch_completion (is_prefill_forward) *)
Definition is_prefill_forward (mode : ForwardMode) r : bool :=
  bool_decide (stage r = PrefillForward) || (bool_decide (mode = Prefill) && (len (output_ids r) =? 0)).

(** [distributed/dp_scheduler.rs:293-321] DpScheduler::handle_batch_completion (prefill chunk) *)
Definition complete_chunk s r : option (ScheduledRequest * DpScheduler P) :=
  let chunk_len := if 0 <? current_chunk_len r then current_chunk_len r else len (uncached_input_ids r) in
  let prev_processed := prompt_tokens_processed r in
  let r := advance_prompt_tokens r chunk_len in
  let new_processed := prompt_tokens_processed r in
  cache ← (if negb (skips_radix_cache_insert r) && (0 <? new_processed) then
             let end_ := N.min new_processed (len (sequence_cache_pages r)) in
             guard (end_ ≤ len (input_ids r));;
             Some (insert (prefix_cache s) (slice_to end_ (input_ids r)) (slice_to end_ (sequence_cache_pages r))).2
           else Some (prefix_cache s));
  match event_publisher s with
  | None => Some (r, set_cache s cache None)
  | Some publisher =>
      event ← from_chunk sha256 (request_id r) (input_ids r) prev_processed new_processed
                (dp_page_size s) (data_parallel_rank r);
      Some (r, set_cache s cache (Some (publish_block_stored publisher event)))
  end.

(** [distributed/dp_scheduler.rs:332-362] DpScheduler::handle_batch_completion (generated token) *)
Definition complete_token s (rank : N) r (token : GeneratedToken) : option (DpScheduler P) :=
  let r := append_output_ids r (generated_token_ids token) in
  let is_finished := (generated_finished token || reached_max_new_tokens r)%bool in
  let s := set_outputs s (finished_outputs s)
    (step_outputs s ++
       [mkScheduledOutput (request_id r) (generated_token_ids token) (cached_token_count r) is_finished]) in
  if is_finished then
    al ← release_on (allocators s) rank (owned_slots r (cached_token_count r));
    Some (set_outputs (set_allocators s al)
      (finished_outputs s ++ [mkScheduledOutput (request_id r) (output_ids r) (cached_token_count r) true])
      (step_outputs s))
  else
    let r := clear_forward_chunk_tracking r in
    let r := set_stage r DecodeWaiting in
    let r := set_data_parallel_rank r (as_i32 rank) in
    Some (set_queues s (waiting_queue s) (decode_queue s ++ [r])).

(** [distributed/dp_scheduler.rs:285-363] DpScheduler::handle_batch_completion (body) *)
Definition complete_request_step s (rank : N) (mode : ForwardMode) r (token : GeneratedToken)
    : option (DpScheduler P) :=
  if is_prefill_forward mode r then
    '(r, s) ← complete_chunk s r;
    if negb (is_prefill_complete r) then
      let r := clear_forward_chunk_tracking r in
      let r := set_stage r PrefillWaiting in
      Some (set_queues s (r :: waiting_queue s) (decode_queue s))
    else complete_token s rank r token
  else complete_token s rank r token.

(** [distributed/dp_scheduler.rs:285-364] DpScheduler::handle_batch_completion (loop) *)
Fixpoint complete_loop s (rank : N) (mode : ForwardMode) (l : list (ScheduledRequest * GeneratedToken))
    : option (DpScheduler P) :=
  match l with
  | [] => Some s
  | (r, token) :: l' => s ← complete_request_step s rank mode r token; complete_loop s rank mode l'
  end.

(** The code always returns [Ok(())]. *)
(** [distributed/dp_scheduler.rs:277-366] DpScheduler::handle_batch_completion *)
Definition handle_batch_completion s (rank : N) (batch : ScheduleBatch) (generated : list GeneratedToken)
    : option (DpScheduler P) :=
  complete_loop s rank (forward_mode batch) (zip (requests batch) generated).


(** ** Forming a batch *)

(** The decode loop walks the queue: it passes over the requests of other
    ranks, takes those of this rank and stops when the batch is full or the
    allocator is out of slots.  An error other than [OutOfSlots] loses the
    request it happened on. *)
(** [distributed/dp_scheduler.rs:381-406] DpScheduler::form_batch_for_rank (decode loop) *)
Fixpoint take_decode (rank max : N) (a : CachePageAllocator) (batch q : list ScheduledRequest)
    : option (Result CacheAllocationError (list ScheduledRequest) * list ScheduledRequest * CachePageAllocator) :=
  match q with
  | [] => Some (Ok batch, [], a)
  | r :: q' =>
      if len batch <? max then
        if bool_decide (data_parallel_rank r = as_i32 rank) then
          '(res, a) ← allocate_for_sequence a (sequence_cache_pages r) 1;
          match res with
          | Ok allocated =>
              let r := set_forward_cache_pages r allocated in
              let r := set_allocated_cache_pages r allocated in
              let r := append_sequence_cache_pages r allocated in
              let r := set_stage r DecodeForward in
              take_decode rank max a (batch ++ [r]) q'
          | Err (OutOfSlots _ _) => Some (Ok batch, r :: q', a)
          | Err e => Some (Err e, q', a)
          end
        else
          '(res, q', a) ← take_decode rank max a batch q'; Some (res, r :: q', a)
      else Some (Ok batch, q, a)
  end.

(** [distributed/dp_scheduler.rs:416-426] DpScheduler::form_batch_for_rank (prefix match) *)
Definition match_shared_prefix (c : RadixCache) (ps : N) r : option ScheduledRequest :=
  if prompt_tokens_processed r =? 0 then
    m ← match_prefix_page_aligned c (input_ids r) ps;
    let cached := matched_token_count m in
    let r := set_cache_hit_token_count r cached in
    let r := set_prompt_tokens_processed r cached in
    let r := set_sequence_cache_pages r (cache_pages m) in
    Some (apply_prefix_match r m)
  else Some r.

(** Each iteration but the last takes one request off the waiting queue. *)
(** [distributed/dp_scheduler.rs:408-448] DpScheduler::form_batch_for_rank (prefill loop) *)
Fixpoint take_prefill (c : RadixCache) (ps chunk_budget rank max : N) (a : CachePageAllocator)
    (batch q : list ScheduledRequest)
    : option (Result CacheAllocationError (list ScheduledRequest) * list ScheduledRequest * CachePageAllocator) :=
  match q with
  | [] => Some (Ok batch, [], a)
  | r :: q' =>
      if len batch <? max then
        r ← match_shared_prefix c ps r;
        let chunk_len := N.min (remaining_prompt_tokens r) chunk_budget in
        if chunk_len =? 0 then Some (Ok batch, r :: q', a)
        else
          '(res, a) ← allocate_for_sequence a (sequence_cache_pages r) chunk_len;
          match res with
          | Ok allocated =>
              let r := set_forward_cache_pages r allocated in
              let r := set_allocated_cache_pages r allocated in
              let r := append_sequence_cache_pages r allocated in
              let r := set_current_chunk_len r chunk_len in
              let r := set_stage r PrefillForward in
              let r := set_data_parallel_rank r (as_i32 rank) in
              take_prefill c ps chunk_budget rank max a (batch ++ [r]) q'
          | Err (OutOfSlots _ _) => Some (Ok batch, r :: q', a)
          | Err e => Some (Err e, q', a)
          end
      else Some (Ok batch, q, a)
  end.

(** [distributed/dp_scheduler.rs:454-466] DpScheduler::form_batch_for_rank (mode) *)
Definition batch_of (rs : list ScheduledRequest) : ScheduleBatch :=
  let has_prefill := existsb (λ r, bool_decide (stage r = PrefillForward)) rs in
  let has_decode := existsb (λ r, bool_decide (stage r = DecodeForward)) rs in
  mkScheduleBatch (if has_prefill && has_decode then Mixed else if has_prefill then Prefill else Decode) rs.

(** [distributed/dp_scheduler.rs:368-469] DpScheduler::form_batch_for_rank *)
Definition form_batch_for_rank s (rank : N)
    : option (Result DpSchedulerError (option ScheduleBatch) * DpScheduler P) :=
  match allocators s !! N.to_nat rank with
  | None => Some (Err (InvalidRank rank), s)
  | Some a =>
      '(res, decode, a) ← take_decode rank (max_batch_size s) a [] (decode_queue s);
      let s := set_allocators (set_queues s (waiting_queue s) decode) (<[N.to_nat rank := a]> (allocators s)) in
      match res with
      | Err e => Some (Err (CacheAllocation e), s)
      | Ok batch =>
          '(res, waiting, a) ← take_prefill (prefix_cache s) (dp_page_size s)
            (default usize_MAX (chunked_prefill_size s)) rank (max_batch_size s) a batch (waiting_queue s);
          let s := set_allocators (set_queues s waiting decode) (<[N.to_nat rank := a]> (allocators s)) in
          match res with
          | Err e => Some (Err (CacheAllocation e), s)
          | Ok [] => Some (Ok None, s)
          | Ok batch => Some (Ok (Some (batch_of batch)), s)
          end
      end
  end.

(** ** Steps *)

(** [distributed/dp_scheduler.rs:167-185] DpScheduler::step (event) *)
Definition handle_event s (e : DpWorkerEvent) : option (Result DpSchedulerError unit * DpScheduler P) :=
  match e with
  | BatchCompleted sequence rank result =>
      match running_batches s !! sequence with
      | None => Some (Err (UnknownSequence sequence rank), s)
      | Some (_, batch) =>
          let s := set_running s (worker_pool s) (delete sequence (running_batches s)) in
          match result with
          | Err e => Some (Err (Worker e), s)
          | Ok generated => s ← handle_batch_completion s rank batch generated; Some (Ok (), s)
          end
      end
  | FatalError rank error => Some (Err (RankFatal rank error), s)
  | WeightsUpdated _ _ => Some (Ok (), s)
  end.

(** [distributed/dp_scheduler.rs:167-186] DpScheduler::step (events) *)
Fixpoint handle_events s (es : list DpWorkerEvent) : option (Result DpSchedulerError unit * DpScheduler P) :=
  match es with
  | [] => Some (Ok (), s)
  | e :: es' =>
      '(res, s) ← handle_event s e;
      match res with Ok _ => handle_events s es' | Err e => Some (Err e, s) end
  end.

(** [distributed/dp_scheduler.rs:189-194] DpScheduler::step (dispatch) *)
Fixpoint dispatch_idle s (rs : list N) : option (Result DpSchedulerError unit * DpScheduler P) :=
  match rs with
  | [] => Some (Ok (), s)
  | rank :: rs' =>
      '(res, s) ← form_batch_for_rank s rank;
      match res with
      | Err e => Some (Err e, s)
      | Ok None => dispatch_idle s rs'
      | Ok (Some batch) =>
          '(res, p) ← submit_batch (worker_pool s) rank batch;
          match res with
          | Err e => Some (Err (WorkerPool e), set_running s p (running_batches s))
          | Ok seq => dispatch_idle (set_running s p (<[seq := (rank, batch)]> (running_batches s))) rs'
          end
      end
  end.

(** [distributed/dp_scheduler.rs:163-197] DpScheduler::step *)
Definition step s : option (Result DpSchedulerError N * DpScheduler P) :=
  let '(events, p) := poll_events (worker_pool s) in
  '(res, s) ← handle_events (set_running s p (running_batches s)) events;
  match res with
  | Err e => Some (Err e, s)
  | Ok _ =>
      '(res, s) ← dispatch_idle s (idle_ranks (worker_pool s));
      Some (match res with Ok _ => Ok (len events) | Err e => Err e end, s)
  end.

(** [None] also when the call blocks. *)
(** [distributed/dp_scheduler.rs:200-230] DpScheduler::step_blocking *)
Definition step_blocking s : option (Result DpSchedulerError unit * DpScheduler P) :=
  '(waited, p) ← wait_for_event (worker_pool s);
  let s := set_running s p (running_batches s) in
  match waited with
  | Err e => Some (Err (WorkerPool e), s)
  | Ok event =>
      '(res, s) ← handle_event s event;
      match res with
      | Err e => Some (Err e, s)
      | Ok _ => dispatch_idle s (idle_ranks (worker_pool s))
      end
  end.

End DpOps.
