(* ===== verification/DpSchedulerFacts.v ===== *)
(** * Facts of the data-parallel scheduler

    Completing events and forming batches: neither can panic, both keep the
    scheduler well-formed, and every request stays accounted for. *)

From S2P Require Import Prelude Types PageAllocator RadixCache BlockHash StateEvents Request DpPool DpScheduler.

(** What the code needs of a request: it has not processed more of the prompt
    than there is. *)
Definition request_ok (r : ScheduledRequest) : Prop := prompt_tokens_processed r ≤ len (input_ids r).

Definition running_ids (m : gmap N (N * ScheduleBatch)) : list RequestId :=
  map_to_list m ≫= λ x, request_ids (requests x.2.2).

Lemma running_ids_delete m seq rank b :
  m !! seq = Some (rank, b) → running_ids m ≡ₚ request_ids (requests b) ++ running_ids (delete seq m).
Proof. intros Hm. unfold running_ids. by rewrite <-(map_to_list_delete m seq _ Hm). Qed.

Lemma running_ids_insert m seq rank b :
  m !! seq = None → running_ids (<[seq := (rank, b)]> m) ≡ₚ request_ids (requests b) ++ running_ids m.
Proof. intros Hm. unfold running_ids. by rewrite (map_to_list_insert m seq _ Hm). Qed.

(** ** Well-formed schedulers *)

Section Facts.
Context {P : Type} `{!KvStateEventPublisher P}.
Context (sha256 : list N → list N).

Implicit Types (s : DpScheduler P) (r : ScheduledRequest).

Record core_wf s : Prop := {
  co_waiting : Forall request_ok (waiting_queue s);
  co_decode : Forall request_ok (decode_queue s);
  co_alloc : Forall allocator_wf (allocators s);
  co_page : 0 < dp_page_size s;
  co_running : ∀ seq x, running_batches s !! seq = Some x → Forall request_ok (requests x.2);
}.

(** What completing and forming batches leave alone. *)
Record frame s s' : Prop := {
  fr_pool : worker_pool s' = worker_pool s;
  fr_running : running_batches s' = running_batches s;
  fr_allocators : length (allocators s') = length (allocators s);
}.

Lemma frame_refl s : frame s s.
Proof. done. Qed.

Lemma frame_trans s1 s2 s3 : frame s1 s2 → frame s2 s3 → frame s1 s3.
Proof. intros [???] [???]; split; congruence. Qed.

(** Where a request that does not run is. *)
Definition placed s : list RequestId :=
  request_ids (waiting_queue s) ++ request_ids (decode_queue s) ++ (out_request_id <$> finished_outputs s).

(** Every request the scheduler knows of. *)
Definition all_ids s : list RequestId := running_ids (running_batches s) ++ placed s.

(** ** Completion *)

Lemma release_on_spec al rank slots :
  Forall allocator_wf al →
  ∃ al', release_on al rank slots = Some al' ∧ length al' = length al ∧ Forall allocator_wf al'.
Proof.
  intros Hal. unfold release_on. destruct (rank <? len al); [|by exists al].
  destruct (al !! N.to_nat rank) as [a|] eqn:Ha; [|by exists al].
  destruct (release_total a slots) as (a'&->&Hwf&_); [by eapply Forall_lookup_1|]. cbn [mbind option_bind].
  eexists. split; [done|]. split; [apply length_insert|by apply Forall_insert].
Qed.

Lemma release_rank_spec al rank slots :
  Forall allocator_wf al →
  ∃ al', release_rank al rank slots = Some al' ∧ length al' = length al ∧ Forall allocator_wf al'.
Proof. intros Hal. unfold release_rank. destruct (rank <? 0)%Z; [by exists al|by apply release_on_spec]. Qed.

Lemma advance_ok r n :
  request_ok r → request_ok (advance_prompt_tokens r n) ∧ request_id (advance_prompt_tokens r n) = request_id r ∧
  input_ids (advance_prompt_tokens r n) = input_ids r ∧
  prompt_tokens_processed r ≤ prompt_tokens_processed (advance_prompt_tokens r n).
Proof. unfold request_ok. destruct r; cbn. split; [lia|]. split; [done|]. split; [done|]. lia. Qed.

Lemma complete_chunk_spec s r :
  0 < dp_page_size s → request_ok r →
  ∃ r' c p, complete_chunk sha256 s r = Some (r', set_cache s c p) ∧ request_id r' = request_id r ∧ request_ok r'.
Proof.
  intros Hps Hr. unfold complete_chunk. set (n := if 0 <? _ then _ else _).
  destruct (advance_ok r n Hr) as (Hok&Hid&Hin&Hle). set (r' := advance_prompt_tokens r n) in *.
  assert (∃ c, (if negb (skips_radix_cache_insert r') && (0 <? prompt_tokens_processed r') then
     guard (N.min (prompt_tokens_processed r') (len (sequence_cache_pages r')) ≤ len (input_ids r'));;
     Some (insert (prefix_cache s)
       (slice_to (N.min (prompt_tokens_processed r') (len (sequence_cache_pages r'))) (input_ids r'))
       (slice_to (N.min (prompt_tokens_processed r') (len (sequence_cache_pages r'))) (sequence_cache_pages r'))).2
     else Some (prefix_cache s)) = Some c) as [c ->].
  { destruct (_ && _); [|by eexists]. unfold request_ok in Hok. rewrite option_guard_True by lia. by eexists. }
  cbn [mbind option_bind]. destruct (event_publisher s) as [p|]; [|by eexists r', c, None].
  destruct (from_chunk_total sha256 (request_id r') (input_ids r') (prompt_tokens_processed r)
    (prompt_tokens_processed r') (dp_page_size s) (data_parallel_rank r') Hps) as [ev ->].
  { rewrite Hin. unfold request_ok in Hr. lia. }
  cbn [mbind option_bind]. by eexists r', c, _.
Qed.

Lemma complete_token_spec s rank r token :
  core_wf s → request_ok r →
  ∃ s', complete_token s rank r token = Some s' ∧ core_wf s' ∧ frame s s' ∧ placed s' ≡ₚ request_id r :: placed s.
Proof.
  intros [Hw Hd Ha Hp Hr] Hok. unfold complete_token.
  assert (request_id (append_output_ids r (generated_token_ids token)) = request_id r ∧
    request_ok (append_output_ids r (generated_token_ids token))) as [Hid Hok'] by (unfold request_ok in *; by destruct r).
  set (r1 := append_output_ids r (generated_token_ids token)) in *. destruct (_ || _)%bool.
  - cbn [set_outputs allocators]. destruct (release_on_spec (allocators s) rank (owned_slots r1 (cached_token_count r1)) Ha)
      as (al&->&Hl&Hal). cbn [mbind option_bind]. eexists. split; [done|]. split; [by split|]. split; [by split|].
    unfold placed. cbn. rewrite fmap_app. cbn. rewrite Hid. solve_Permutation.
  - eexists. split; [done|]. split; [|split; [by split|]].
    + split; cbn; try done. apply Forall_app. split; [done|]. constructor; [|done]. unfold request_ok in *. by destruct r1.
    + unfold placed. cbn -[request_ids]. rewrite request_ids_app. cbn.
      assert (request_id (set_data_parallel_rank (set_stage (clear_forward_chunk_tracking r1) DecodeWaiting)
        (as_i32 rank)) = request_id r1) as -> by (by destruct r1). rewrite Hid. solve_Permutation.
Qed.

Lemma complete_request_step_spec s rank mode r token :
  core_wf s → request_ok r →
  ∃ s', complete_request_step sha256 s rank mode r token = Some s' ∧ core_wf s' ∧ frame s s' ∧
    placed s' ≡ₚ request_id r :: placed s.
Proof.
  intros Wf Hok. unfold complete_request_step. destruct (is_prefill_forward mode r); [|by apply complete_token_spec].
  destruct (complete_chunk_spec s r (co_page _ Wf) Hok) as (r'&c&p&->&Hid&Hok'). cbn [mbind option_bind].
  assert (core_wf (set_cache s c p)) as Wf' by (destruct Wf; by split).
  destruct (negb (is_prefill_complete r')).
  - eexists. split; [done|]. split; [|split; [by split|]].
    + destruct Wf' as [Hw ?]. split; cbn in *; try done. constructor; [|done]. unfold request_ok in *. by destruct r'.
    + unfold placed. cbn. rewrite <-Hid. by destruct r'.
  - destruct (complete_token_spec (set_cache s c p) rank r' token Wf' Hok') as (s'&->&Hs'&Hf&Hp).
    exists s'. split; [done|]. split; [done|]. split; [by destruct Hf|]. by rewrite Hp, Hid.
Qed.

Lemma dp_complete_loop_spec s rank mode l :
  core_wf s → Forall request_ok l.*1 →
  ∃ s', complete_loop sha256 s rank mode l = Some s' ∧ core_wf s' ∧ frame s s' ∧
    placed s' ≡ₚ request_ids l.*1 ++ placed s.
Proof.
  revert s. induction l as [|[r token] l IH]; intros s Wf Hl; cbn [complete_loop].
  { exists s. by repeat split; try apply Wf. }
  cbn in Hl. inversion Hl as [|?? Hr Hl']; subst.
  destruct (complete_request_step_spec s rank mode r token Wf Hr) as (s1&->&Wf1&F1&H1). cbn [mbind option_bind].
  destruct (IH s1 Wf1 Hl') as (s'&->&Wf'&F'&H'). exists s'. split; [done|]. split; [done|].
  split; [by eapply frame_trans|]. rewrite H', H1. cbn. solve_Permutation.
Qed.

Lemma handle_batch_completion_spec s rank b toks :
  core_wf s → Forall request_ok (requests b) → length toks = length (requests b) →
  ∃ s', handle_batch_completion sha256 s rank b toks = Some s' ∧ core_wf s' ∧ frame s s' ∧
    placed s' ≡ₚ request_ids (requests b) ++ placed s.
Proof.
  intros Wf Hb Hl. unfold handle_batch_completion.
  assert ((zip (requests b) toks).*1 = requests b) as Hz by (by apply fst_zip; lia).
  destruct (dp_complete_loop_spec s rank (forward_mode b) (zip (requests b) toks) Wf) as (s'&?&?&?&?); [by rewrite Hz|].
  rewrite Hz in *. by exists s'.
Qed.

(** ** Forming a batch *)

Definition pinned (rank : N) r : Prop := data_parallel_rank r = as_i32 rank.

Definition decode_taken (rank : N) r : Prop := stage r = DecodeForward ∧ pinned rank r.

Definition prefill_taken (rank budget : N) r : Prop :=
  stage r = PrefillForward ∧ pinned rank r ∧ 0 < current_chunk_len r ≤ budget.

#[export] Instance pinned_dec rank r : Decision (pinned rank r).
Proof. unfold pinned. apply _. Defined.

Lemma take_decode_spec rank max q : ∀ a batch,
  allocator_wf a → Forall request_ok q → len batch ≤ max →
  ∃ d q' a', take_decode rank max a batch q = Some (Ok (batch ++ d), q', a') ∧ allocator_wf a' ∧
    Forall request_ok (d ++ q') ∧ Forall (decode_taken rank) d ∧ len (batch ++ d) ≤ max ∧
    filter (λ r, ¬ pinned rank r) q' = filter (λ r, ¬ pinned rank r) q ∧
    request_ids (filter (pinned rank) q) = request_ids d ++ request_ids (filter (pinned rank) q') ∧
    request_ids q ≡ₚ request_ids d ++ request_ids q'.
Proof.
  induction q as [|r q IH]; intros a batch Wa Hq Hm; cbn [take_decode].
  { exists [], [], a. rewrite app_nil_r. split_and!; done || constructor. }
  inversion Hq as [|?? Hr Hq']; subst.
  assert (∃ d q' a', Some (Ok batch, r :: q, a) = Some (Ok (A := list ScheduledRequest) (E := CacheAllocationError) (batch ++ d), q', a') ∧ allocator_wf a' ∧
    Forall request_ok (d ++ q') ∧ Forall (decode_taken rank) d ∧ len (batch ++ d) ≤ max ∧
    filter (λ r, ¬ pinned rank r) q' = filter (λ r, ¬ pinned rank r) (r :: q) ∧
    request_ids (filter (pinned rank) (r :: q)) = request_ids d ++ request_ids (filter (pinned rank) q') ∧
    request_ids (r :: q) ≡ₚ request_ids d ++ request_ids q') as Hstop.
  { exists [], (r :: q), a. rewrite app_nil_r. split_and!; done || constructor. }
  destruct (N.ltb_spec (len batch) max) as [Hlt|]; [|exact Hstop].
  case_bool_decide as Hp.
  - destruct (allocate_total a (sequence_cache_pages r) 1 Wa) as ([sl|e]&a1&Heq&Wa1&_); rewrite Heq;
      cbn [mbind option_bind].
    2:{ destruct (allocate_error a _ _ _ _ Wa Heq) as (->&->&_). exact Hstop. }
    set (r1 := set_stage _ DecodeForward).
    assert (request_id r1 = request_id r ∧ request_ok r1 ∧ decode_taken rank r1) as (Hid&Hok&Ht)
      by (unfold decode_taken, pinned; subst r1; by destruct r).
    destruct (IH a1 (batch ++ [r1]) Wa1 Hq') as (d&q'&a'&->&Wa'&Hok'&Hd&Hl&Ho&Hi&Hperm).
    { rewrite len_app, len_cons, len_nil. lia. }
    exists (r1 :: d), q', a'. rewrite <-(assoc_L (++)) in *. cbn [app] in *.
    rewrite !filter_cons, decide_False, decide_True by auto. cbn. rewrite Hid.
    split_and!; try done; [by constructor|by constructor|by f_equal|by constructor].
  - destruct (IH a batch Wa Hq' Hm) as (d&q'&a'&->&Wa'&Hok'&Hd&Hl&Ho&Hi&Hperm). cbn [mbind option_bind].
    exists d, (r :: q'), a'. rewrite !filter_cons_True by done. rewrite (filter_cons_False (pinned rank) r), (filter_cons_False (pinned rank) r) by done.
    rewrite Forall_app in *. destruct Hok'. split_and!; try done; [by constructor|by rewrite Ho|].
    rewrite !request_ids_cons, Hperm. solve_Permutation.
Qed.

Lemma match_shared_prefix_spec c ps r :
  0 < ps → request_ok r →
  ∃ r', match_shared_prefix c ps r = Some r' ∧ request_id r' = request_id r ∧ request_ok r' ∧
    input_ids r' = input_ids r.
Proof.
  intros Hps Hr. unfold match_shared_prefix. destruct (_ =? 0); [|by exists r].
  rewrite match_prefix_aligned_eq by done. cbn [mbind option_bind]. eexists. split; [done|].
  unfold request_ok. destruct r as [id inp]; cbn -[N.div N.mul len]. split; [done|]. split; [|done].
  pose proof (N_div_mul_le (len (match_path inp (root c))) ps). pose proof (match_path_prefix inp (root c)).
  unfold len in *. lia.
Qed.

Lemma take_prefill_spec c ps budget rank max q : 0 < ps → ∀ a batch,
  allocator_wf a → Forall request_ok q → len batch ≤ max →
  ∃ p q' a', take_prefill c ps budget rank max a batch q = Some (Ok (batch ++ p), q', a') ∧ allocator_wf a' ∧
    Forall request_ok (p ++ q') ∧ Forall (prefill_taken rank budget) p ∧ len (batch ++ p) ≤ max ∧
    request_ids q = request_ids p ++ request_ids q'.
Proof.
  intros Hps. induction q as [|r q IH]; intros a batch Wa Hq Hm; cbn [take_prefill].
  { exists [], [], a. rewrite app_nil_r. split_and!; done || constructor. }
  inversion Hq as [|?? Hr Hq']; subst.
  assert (∀ r', request_id r' = request_id r → request_ok r' →
    ∃ p q' a', Some (Ok batch, r' :: q, a) = Some (Ok (A := list ScheduledRequest) (E := CacheAllocationError) (batch ++ p), q', a') ∧
    allocator_wf a' ∧ Forall request_ok (p ++ q') ∧ Forall (prefill_taken rank budget) p ∧ len (batch ++ p) ≤ max ∧
    request_ids (r :: q) = request_ids p ++ request_ids q') as Hstop.
  { intros r' Hid Hok. exists [], (r' :: q), a. rewrite app_nil_r, !request_ids_cons, Hid. split_and!; done || by constructor. }
  destruct (N.ltb_spec (len batch) max) as [Hlt|]; [|by apply Hstop].
  destruct (match_shared_prefix_spec c ps r Hps Hr) as (r0&->&Hid0&Hok0&_). cbn [mbind option_bind].
  set (n := N.min (remaining_prompt_tokens r0) budget).
  destruct (N.eqb_spec n 0) as [|Hn]; [by apply Hstop|].
  destruct (allocate_total a (sequence_cache_pages r0) n Wa) as ([sl|e]&a1&Heq&Wa1&_); rewrite Heq; cbn [mbind option_bind].
  2:{ destruct (allocate_error a _ _ _ _ Wa Heq) as (->&->&_). by apply Hstop. }
  set (r1 := set_data_parallel_rank _ _).
  assert (request_id r1 = request_id r ∧ request_ok r1 ∧ prefill_taken rank budget r1) as (Hid&Hok&Ht).
  { rewrite <-Hid0. unfold prefill_taken, pinned, request_ok in *. subst r1. destruct r0; cbn in *.
    split; [done|]. split; [done|]. split; [done|]. split; [done|]. subst n. unfold remaining_prompt_tokens in *. cbn in *. lia. }
  destruct (IH a1 (batch ++ [r1]) Wa1 Hq') as (p&q'&a'&->&Wa'&Hok'&Hp&Hl&Hi). { rewrite len_app, len_cons, len_nil. lia. }
  exists (r1 :: p), q', a'. rewrite <-(assoc_L (++)) in *. cbn [app] in *. rewrite !request_ids_cons, Hid, Hi.
  split_and!; done || by constructor.
Qed.

(** What a call of [form_batch_for_rank] does to the queues. *)
Record formed s s' (rank : N) (d p : list ScheduledRequest) : Prop := {
  fo_size : len (d ++ p) ≤ max_batch_size s;
  fo_decode : Forall (decode_taken rank) d;
  fo_prefill : Forall (prefill_taken rank (default usize_MAX (chunked_prefill_size s))) p;
  fo_waiting : request_ids (waiting_queue s) = request_ids p ++ request_ids (waiting_queue s');
  fo_pinned : request_ids (filter (pinned rank) (decode_queue s)) =
    request_ids d ++ request_ids (filter (pinned rank) (decode_queue s'));
  fo_others : filter (λ r, ¬ pinned rank r) (decode_queue s') = filter (λ r, ¬ pinned rank r) (decode_queue s);
}.

Lemma form_batch_spec s rank :
  core_wf s → (N.to_nat rank < length (allocators s))%nat →
  ∃ d p s', form_batch_for_rank s rank =
      Some (Ok (if decide (d ++ p = []) then None else Some (batch_of (d ++ p))), s') ∧
    core_wf s' ∧ frame s s' ∧ formed s s' rank d p ∧ Forall request_ok (d ++ p) ∧
    finished_outputs s' = finished_outputs s ∧
    placed s ≡ₚ request_ids (d ++ p) ++ placed s'.
Proof.
  intros [Hw Hd Ha Hp Hr] Hrank. unfold form_batch_for_rank.
  destruct (lookup_lt_is_Some_2 (allocators s) (N.to_nat rank)) as [a Hal]; [lia|]. rewrite Hal.
  pose proof (Forall_lookup_1 _ _ _ _ Ha Hal) as Wa.
  destruct (take_decode_spec rank (max_batch_size s) (decode_queue s) a [] Wa Hd) as (d&q'&a1&->&Wa1&Hok&Hdt&Hl&Ho&Hi&Hperm).
  { apply N.le_0_l. }
  cbn [mbind option_bind app] in *.
  cbn [prefix_cache dp_page_size chunked_prefill_size max_batch_size waiting_queue set_allocators set_queues].
  destruct (take_prefill_spec (prefix_cache s) (dp_page_size s) (default usize_MAX (chunked_prefill_size s)) rank
    (max_batch_size s) (waiting_queue s) Hp a1 d Wa1 Hw Hl) as (p&w'&a2&->&Wa2&Hokp&Hpt&Hlp&Hiw).
  cbn [mbind option_bind]. rewrite Forall_app in *. destruct Hok as [Hokd Hokq], Hokp as [Hokp Hokw].
  exists d, p. eexists. split.
  { by destruct (d ++ p). }
  split; [split; cbn; try done; apply Forall_insert; [by apply Forall_insert|done]|].
  split; [split; cbn; try done; by rewrite !length_insert|]. split; [by split|].
  split; [by apply Forall_app|]. split; [done|]. unfold placed. cbn -[request_ids]. rewrite Hiw, Hperm, request_ids_app. solve_Permutation.
Qed.

(** ** The pool and the running batches

    Every batch a thread holds, and every event on its way, belongs to a
    running batch of the scheduler, under its sequence and rank. *)

Definition command_linked (running : gmap N (N * ScheduleBatch)) (rank : N) (c : DpWorkerCommand) : Prop :=
  ∃ seq b, c = ExecuteBatch seq b ∧ running !! seq = Some (rank, b).

Definition event_linked (running : gmap N (N * ScheduleBatch)) (e : DpWorkerEvent) : Prop :=
  ∃ seq rank res b, e = BatchCompleted seq rank res ∧ running !! seq = Some (rank, b) ∧
    ∀ toks, res = Ok toks → length toks = length (requests b).

Record linked (st : bool) (hs : list DpRankHandle) (next : N) (running : gmap N (N * ScheduleBatch))
    (es : list DpWorkerEvent) : Prop := {
  li_ranks : ∀ i h, hs !! i = Some h → rank_id h = N.of_nat i ∧ thread_alive h = negb st;
  li_commands : ∀ i h, hs !! i = Some h → Forall (command_linked running (N.of_nat i)) (commands h);
  li_events : Forall (event_linked running) es;
  li_nodup : NoDup (queued_sequences hs ++ event_sequences es);
  li_next : ∀ seq x, running !! seq = Some x → seq < next;
}.

Lemma linked_event st hs next running e es :
  linked st hs next running (e :: es) →
  ∃ seq rank res b, e = BatchCompleted seq rank res ∧ running !! seq = Some (rank, b) ∧
    (∀ toks, res = Ok toks → length toks = length (requests b)) ∧ linked st hs next (delete seq running) es.
Proof.
  intros [Hr Hc He Hn Hx]. inversion He as [|?? (seq&rank&res&b&->&Hb&Hl) He']; subst.
  exists seq, rank, res, b. split; [done|]. split; [done|]. split; [done|].
  change (event_sequences (BatchCompleted seq rank res :: es)) with ([seq] ++ event_sequences es) in Hn.
  rewrite (Permutation_app_swap_app _ [seq]) in Hn. apply NoDup_cons in Hn as [Hseq Hn].
  rewrite elem_of_app in Hseq. split; [done| | |done|].
  - intros i h Hi. pose proof (Hc i h Hi) as Hci. rewrite Forall_forall in Hci |- *. intros c Hin.
    destruct (Hci c Hin) as (seq'&b'&->&Hb'). exists seq', b'. split; [done|]. rewrite lookup_delete_ne; [done|].
    intros ->. apply Hseq. left. apply elem_of_queued. eauto.
  - rewrite Forall_forall in He' |- *. intros e Hin. destruct (He' e Hin) as (seq'&rank'&res'&b'&->&Hb'&Hl').
    exists seq', rank', res', b'. split; [done|]. split; [|done]. rewrite lookup_delete_ne; [done|].
    intros ->. apply Hseq. right. unfold event_sequences. apply list_elem_of_bind.
    exists (BatchCompleted seq' rank' res'). split; [by apply list_elem_of_singleton|done].
  - intros seq' x [_ Hs]%lookup_delete_Some. eauto.
Qed.

Lemma linked_mark_idle st hs next running es e : linked st hs next running es → linked st (mark_idle hs e) next running es.
Proof.
  intros [Hr Hc He Hn Hx]. destruct (mark_idle_commands hs e) as (Hcs&_&_).
  assert (∀ i h, mark_idle hs e !! i = Some h → ∃ h', hs !! i = Some h' ∧ rank_id h = rank_id h' ∧
    commands h = commands h' ∧ thread_alive h = thread_alive h') as Hlook.
  { intros i h. unfold mark_idle. destruct (decide (N.to_nat (event_rank e) = i)) as [->|].
    - rewrite list_lookup_alter_eq. intros (h'&->&Hi)%fmap_Some. by exists h'; subst.
    - rewrite list_lookup_alter_ne by done. eauto. }
  split; [| |done|by rewrite (queued_ext _ _ Hcs)|done].
  - intros i h (h'&Hi&->&_&->)%Hlook. eauto.
  - intros i h (h'&Hi&_&->&_)%Hlook. eauto.
Qed.

Lemma linked_mark_all st hs next running es es' : linked st hs next running es → linked st (foldl mark_idle hs es') next running es.
Proof. revert hs. induction es' as [|e es' IH]; intros hs Hl; [done|]. apply IH. by apply linked_mark_idle. Qed.

Lemma linked_submit hs next running es i h b :
  linked false hs next running es → hs !! i = Some h →
  linked false (<[i := mkHandle (rank_id h) (commands h ++ [ExecuteBatch next b]) true false]> hs) (next + 1)
    (<[next := (N.of_nat i, b)]> running) es ∧ running !! next = None.
Proof.
  intros [Hr Hc He Hn Hx] Hi. pose proof (lookup_lt_Some _ _ _ Hi) as Hlt.
  assert (running !! next = None) as Hnone.
  { destruct (running !! next) as [x|] eqn:Hs; [|done]. specialize (Hx _ _ Hs). lia. }
  assert (∀ seq x, running !! seq = Some x → <[next := (N.of_nat i, b)]> running !! seq = Some x) as Hold
    by (intros seq x Hs; rewrite lookup_insert_ne by congruence; done).
  split; [|done]. set (h' := mkHandle _ _ _ _). split.
  - intros j hj [(<-&<-&_)|[_ Hj]]%list_lookup_insert_Some; [|by eauto]. cbn. split; [|done]. by apply Hr.
  - intros j hj [(<-&<-&_)|[_ Hj]]%list_lookup_insert_Some.
    + subst h'. cbn. apply Forall_app. split.
      * eapply Forall_impl; [by apply (Hc _ _ Hi)|]. intros c (seq&b'&->&Hb'). exists seq, b'. eauto.
      * constructor; [|done]. exists next, b. by rewrite lookup_insert_eq.
    + eapply Forall_impl; [by apply (Hc _ _ Hj)|]. intros c (seq&b'&->&Hb'). exists seq, b'. eauto.
  - eapply Forall_impl; [done|]. intros e (seq&rank&res&b'&->&Hb'&Hl). exists seq, rank, res, b'. eauto.
  - rewrite (queued_push hs i h h' next b Hi) by done. cbn. apply NoDup_cons. split; [|done].
    intros [(j&hj&b'&Hj&Hin)%elem_of_queued|Hin]%elem_of_app.
    + pose proof (Hc _ _ Hj) as Hcj. rewrite Forall_forall in Hcj. destruct (Hcj _ Hin) as (?&?&[= <- <-]&?). congruence.
    + apply list_elem_of_bind in Hin as (e&Hin&He'). rewrite Forall_forall in He.
      destruct (He e He') as (seq&rank&res&b'&->&Hb'&_). apply list_elem_of_singleton in Hin. congruence.
  - intros seq x [(<-&<-)|[_ Hs]]%lookup_insert_Some; [lia|]. specialize (Hx _ _ Hs). lia.
Qed.

Lemma linked_drop st hs next running es : linked st hs next running es → linked st hs next running [].
Proof.
  intros [Hr Hc He Hn Hx]. split; try done. rewrite app_nil_r. by apply NoDup_app in Hn as [? _].
Qed.

Lemma core_wf_delete s p seq :
  core_wf s → core_wf (set_running s p (delete seq (running_batches s))).
Proof. intros [Hw Hd Ha Hp Hr]. split; cbn; try done. intros seq' x [_ Hs]%lookup_delete_Some. eauto. Qed.

(** A worker reported an error for a batch, whose requests are lost; every other
    request is where it was, those of batches whose events were dropped among the
    running ones. *)
Definition worker_failed s (es : list DpWorkerEvent) (err : DpSchedulerError) s' : Prop :=
  ∃ seq rank we b, BatchCompleted seq rank (Err we) ∈ es ∧ err = Worker we ∧ running_batches s !! seq = Some (rank, b) ∧
    all_ids s ≡ₚ request_ids (requests b) ++ all_ids s'.

Lemma handle_event_spec s st hs next e es :
  core_wf s → linked st hs next (running_batches s) (e :: es) →
  ∃ res s', handle_event sha256 s e = Some (res, s') ∧ core_wf s' ∧ worker_pool s' = worker_pool s ∧
    length (allocators s') = length (allocators s) ∧ linked st hs next (running_batches s') es ∧
    (∀ seq x, running_batches s' !! seq = Some x → running_batches s !! seq = Some x) ∧
    match res with
    | Ok _ => all_ids s' ≡ₚ all_ids s
    | Err err => worker_failed s [e] err s'
    end.
Proof.
  intros Wf Hl. destruct (linked_event _ _ _ _ _ _ Hl) as (seq&rank&res&b&->&Hb&Hlen&Hl'). cbn [handle_event].
  rewrite Hb. pose proof (core_wf_delete s (worker_pool s) seq Wf) as Wf'. destruct res as [toks|we].
  - destruct (handle_batch_completion_spec _ rank b toks Wf') as (s'&->&Ws'&[Hp Hr Ha]&Hids);
      [exact (co_running _ Wf _ _ Hb)|by apply Hlen|]. cbn [mbind option_bind].
    exists (Ok ()), s'. split; [done|]. split; [done|]. split; [done|]. split; [done|]. cbn in Hr. rewrite Hr. split; [done|].
    split; [intros seq' x; cbn; rewrite lookup_delete_Some; by intros [_ ?]|].
    unfold all_ids. rewrite Hr, Hids, (running_ids_delete _ _ _ _ Hb). unfold placed. cbn. solve_Permutation.
  - eexists (Err _), _. split; [done|]. split; [done|]. split; [done|]. split; [done|]. split; [done|].
    split; [intros seq' x; cbn; rewrite lookup_delete_Some; by intros [_ ?]|].
    exists seq, rank, we, b. split; [by left|]. split; [done|]. split; [done|].
    unfold all_ids. cbn. rewrite (running_ids_delete _ _ _ _ Hb). unfold placed. cbn. solve_Permutation.
Qed.

Lemma handle_events_spec st hs next es : ∀ s,
  core_wf s → linked st hs next (running_batches s) es →
  ∃ res s', handle_events sha256 s es = Some (res, s') ∧ core_wf s' ∧ worker_pool s' = worker_pool s ∧
    length (allocators s') = length (allocators s) ∧ linked st hs next (running_batches s') [] ∧
    match res with
    | Ok _ => all_ids s' ≡ₚ all_ids s
    | Err err => worker_failed s es err s'
    end.
Proof.
  induction es as [|e es IH]; intros s Wf Hl; cbn [handle_events]; [by exists (Ok ()), s|].
  destruct (handle_event_spec s st hs next e es Wf Hl) as (res&s1&->&W1&Hp1&Ha1&Hl1&Hsub&Hres). cbn [mbind option_bind].
  destruct res as [u|err].
  - destruct (IH s1 W1 Hl1) as (res'&s'&->&W'&Hp'&Ha'&Hl'&Hres'). exists res', s'.
    split; [done|]. split; [done|]. split; [congruence|]. split; [congruence|]. split; [done|].
    destruct res'; [by rewrite Hres'|]. destruct Hres' as (seq&rank&we&b&Hin&->&Hb&Hlost). exists seq, rank, we, b.
    split; [by right|]. split; [done|]. split; [by apply Hsub|]. by rewrite <- Hres.
  - eexists (Err err), s1. split; [done|]. split; [done|]. split; [done|]. split; [done|].
    split; [by eapply linked_drop|]. destruct Hres as (seq&rank&we&b&Hin%list_elem_of_singleton&->&Hb&Hlost).
    exists seq, rank, we, b. rewrite Hin. split; [by left|done].
Qed.

(** A scheduler at rest between its operations. *)
Record sched_wf s : Prop := {
  sc_core : core_wf s;
  sc_ranks : length (allocators s) = length (ranks (worker_pool s));
  sc_linked : linked (is_shutdown (worker_pool s)) (ranks (worker_pool s)) (next_sequence (worker_pool s)) (running_batches s)
    (events_rx (worker_pool s));
}.

Definition idle_rank (p : DpWorkerPool) (rank : N) : Prop :=
  ∃ h, ranks p !! N.to_nat rank = Some h ∧ handle_idle h = true.

(** A batch formed for a pool that is shut down is refused, and lost. *)
Definition shut_down_refused s (err : DpSchedulerError) s' : Prop :=
  is_shutdown (worker_pool s) = true ∧ err = WorkerPool AlreadyShutdown ∧ ∃ b, all_ids s ≡ₚ request_ids (requests b) ++ all_ids s'.

Definition same_ranks s s' : Prop := length (ranks (worker_pool s')) = length (ranks (worker_pool s)).

Definition dispatched s (res : Result DpSchedulerError unit) s' : Prop :=
  same_ranks s s' ∧ match res with Ok _ => all_ids s' ≡ₚ all_ids s | Err err => shut_down_refused s err s' end.

Lemma dispatch_idle_spec rs : ∀ s,
  sched_wf s → NoDup rs → Forall (idle_rank (worker_pool s)) rs →
  next_sequence (worker_pool s) + len rs ≤ u64_MAX →
  ∃ res s', dispatch_idle s rs = Some (res, s') ∧ sched_wf s' ∧ dispatched s res s'.
Proof.
  induction rs as [|rank rs IH]; intros s Wf Hnd Hidle Hmax; cbn [dispatch_idle]; [exists (Ok ()), s; by unfold dispatched|].
  apply NoDup_cons in Hnd as [Hrank Hnd]. inversion Hidle as [|?? (h&Hh&Hi) Hidle']; subst.
  destruct Wf as [Hc Hr Hl]. rewrite len_cons in Hmax.
  destruct (form_batch_spec s rank Hc) as (d&p&s1&->&Hc1&[Hp1 Hr1 Ha1]&_&Hok&_&Hids).
  { rewrite Hr. by eapply lookup_lt_Some. }
  cbn [mbind option_bind].
  assert (sched_wf s1) as W1 by (split; rewrite ?Hp1, ?Hr1, ?Ha1; done).
  assert (∀ s2 res s', is_shutdown (worker_pool s2) = is_shutdown (worker_pool s) → same_ranks s s2 → all_ids s2 ≡ₚ all_ids s →
    dispatched s2 res s' → dispatched s res s') as Hsame.
  { intros s2 res s' Hsd Hrk Hall [Hrk' Hres]. split; [unfold same_ranks in *; congruence|].
    destruct res as [u|err]; [by rewrite Hres|]. destruct Hres as (Hs&->&b&Hb).
    split; [congruence|]. split; [done|]. exists b. by rewrite <- Hall. }
  destruct (decide (d ++ p = [])) as [Hnil|Hne].
  - rewrite Hnil in Hids. destruct (IH s1 W1) as (res&s'&->&W'&Hids'); [done|by rewrite Hp1|rewrite Hp1; lia|].
    exists res, s'. split; [done|]. split; [done|]. apply (Hsame s1); [by rewrite Hp1|by unfold same_ranks; rewrite Hp1| |done]. unfold all_ids. by rewrite Hr1, Hids.
  - rewrite Hp1. unfold submit_batch. destruct (is_shutdown (worker_pool s)) eqn:Hs.
    { cbn [mbind option_bind]. eexists _, _. split; [done|]. split; [by destruct W1 as [[]]; split; [split|rewrite <- Hp1|rewrite <- Hp1]|].
      split; [done|]. split; [done|]. split; [done|]. exists (batch_of (d ++ p)). unfold all_ids, placed in *. cbn. rewrite Hr1.
      rewrite Hids. cbn. solve_Permutation. }
    rewrite Hh, Hi. cbn [negb].
    rewrite option_guard_True by lia. cbn [mbind option_bind]. unfold send_command.
    destruct (li_ranks _ _ _ _ _ Hl _ _ Hh) as [Hid Hal]. rewrite Hal. cbn [negb mbind option_bind].
    destruct (linked_submit _ _ _ _ _ _ (batch_of (d ++ p)) Hl Hh) as [Hl' Hnone]. rewrite N2Nat.id in Hl'.
    match goal with |- context [dispatch_idle ?s2 rs] => destruct (IH s2) as (res&s'&->&W'&Hids') end; [|done| | |].
    + split; cbn; [|by rewrite length_insert, Ha1|rewrite Hr1; exact Hl'].
      destruct Hc1 as [Hw Hd Ha Hps Hrun]. split; cbn; try done.
      intros seq x [(<-&<-)|[_ Hx]]%lookup_insert_Some; [done|eauto].
    + rewrite Forall_forall in Hidle' |- *. intros k Hk. destruct (Hidle' k Hk) as (hk&Hhk&Hik).
      exists hk. cbn. split; [|done]. rewrite list_lookup_insert_ne; [done|]. intros ?%N2Nat.inj. congruence.
    + cbn. lia.
    + exists res, s'. split; [done|]. split; [done|]. eapply Hsame; [| | |exact Hids']; [done|by unfold same_ranks; cbn; rewrite length_insert|]. unfold all_ids. cbn.
      rewrite Hr1, (running_ids_insert _ _ _ _ Hnone), Hids. cbn. unfold placed. cbn. solve_Permutation.
Qed.

Lemma idle_ranks_spec p st next running es :
  linked st (ranks p) next running es →
  NoDup (idle_ranks p) ∧ Forall (idle_rank p) (idle_ranks p) ∧ len (idle_ranks p) ≤ dp_size p.
Proof.
  intros [Hr _ _ _ _]. unfold idle_ranks, dp_size. set (hs := ranks p) in *. split; [|split].
  - apply (sublist_NoDup _ (rank_id <$> hs)); [|apply fmap_sublist, sublist_filter].
    apply NoDup_alt. intros i j x Hi Hj. rewrite list_lookup_fmap in Hi, Hj.
    destruct (hs !! i) as [hi|] eqn:Hhi, (hs !! j) as [hj|] eqn:Hhj; try done. cbn in Hi, Hj.
    injection Hi as Hi. injection Hj as Hj. apply Hr in Hhi as [Hhi _], Hhj as [Hhj _]. lia.
  - apply Forall_forall. intros x (h&->&[Hidle [i Hi]%list_elem_of_lookup]%list_elem_of_filter)%list_elem_of_fmap.
    exists h. destruct (Hr i h Hi) as [-> _]. by rewrite Nat2N.id.
  - unfold len. rewrite length_fmap. pose proof (length_filter (λ h, handle_idle h = true) hs). lia.
Qed.

Lemma poll_wf s :
  sched_wf s →
  linked (is_shutdown (worker_pool s)) (ranks (poll_events (worker_pool s)).2) (next_sequence (worker_pool s)) (running_batches s)
    (events_rx (worker_pool s)).
Proof. intros [Hc Hr Hl]. cbn. by apply linked_mark_all. Qed.

Lemma dispatch_all_spec s :
  sched_wf s → next_sequence (worker_pool s) + dp_size (worker_pool s) ≤ u64_MAX →
  ∃ res s', dispatch_idle s (idle_ranks (worker_pool s)) = Some (res, s') ∧ sched_wf s' ∧ dispatched s res s'.
Proof.
  intros Wf Hmax. destruct (idle_ranks_spec _ _ _ _ _ (sc_linked _ Wf)) as (Hnd&Hidle&Hlen).
  apply dispatch_idle_spec; try done. lia.
Qed.

(** Handling drained events, whose remainder [rest] stays with the pool. *)
Lemma after_events_wf s s' hs rest :
  sched_wf s → length hs = length (ranks (worker_pool s)) → core_wf s' →
  worker_pool s' = mkPool hs rest (next_sequence (worker_pool s)) (is_shutdown (worker_pool s)) →
  length (allocators s') = length (allocators s) →
  linked (is_shutdown (worker_pool s)) hs (next_sequence (worker_pool s)) (running_batches s') rest → sched_wf s'.
Proof. intros [Hc Hr Hl] Hlen Hc' Hp Ha Hl'. split; rewrite ?Hp; cbn; congruence || done. Qed.

(** The two ways a step can fail. *)
Definition step_failed s err s' : Prop :=
  worker_failed s (events_rx (worker_pool s)) err s' ∨ shut_down_refused s err s'.

Lemma refused_after s s1 err s' : is_shutdown (worker_pool s1) = is_shutdown (worker_pool s) → all_ids s1 ≡ₚ all_ids s →
  shut_down_refused s1 err s' → shut_down_refused s err s'.
Proof. intros Hs Hall (H1&->&b&Hb). split; [congruence|]. split; [done|]. exists b. by rewrite <- Hall. Qed.

Lemma step_spec s :
  sched_wf s → next_sequence (worker_pool s) + dp_size (worker_pool s) ≤ u64_MAX →
  ∃ res s', step sha256 s = Some (res, s') ∧ sched_wf s' ∧ same_ranks s s' ∧
    match res with
    | Ok n => n = len (events_rx (worker_pool s)) ∧ all_ids s' ≡ₚ all_ids s
    | Err err => step_failed s err s'
    end.
Proof.
  intros Wf Hmax. unfold step. pose proof (poll_wf s Wf) as Hl. destruct (poll_events (worker_pool s)) as [es p] eqn:Hp.
  injection Hp as He Hpool. destruct (mark_all_idle (ranks (worker_pool s)) (events_rx (worker_pool s))) as (_&Hlen&_).
  subst p. cbn in Hl.
  set (hs := foldl mark_idle _ _) in *.
  destruct (handle_events_spec (is_shutdown (worker_pool s)) hs (next_sequence (worker_pool s)) es
    (set_running s (mkPool hs [] (next_sequence (worker_pool s)) (is_shutdown (worker_pool s))) (running_batches s)))
    as (res&s1&->&W1&Hp1&Ha1&Hl1&Hres); [by destruct (sc_core _ Wf)|by rewrite <-He|]. cbn [mbind option_bind].
  pose proof (after_events_wf s s1 hs [] Wf Hlen W1 Hp1 Ha1 Hl1) as Wf1. destruct res as [u|err].
  - destruct (dispatch_all_spec s1 Wf1) as (res&s'&->&W'&Hres').
    { rewrite Hp1. unfold dp_size, len in *. cbn. by rewrite Hlen. }
    destruct Hres' as [Hrk Hres']. assert (same_ranks s s') as Hrk' by (unfold same_ranks in *; rewrite Hrk, Hp1; exact Hlen).
    destruct res as [u'|err].
    + exists (Ok (len es)), s'. split; [done|]. split; [done|]. split; [done|]. split; [by rewrite He|]. by rewrite Hres', Hres.
    + exists (Err err), s'. split; [done|]. split; [done|]. split; [done|]. right. eapply refused_after; [| |exact Hres']; [by rewrite Hp1|done].
  - exists (Err err), s1. split; [done|]. split; [done|]. split; [unfold same_ranks; by rewrite Hp1|]. left. by rewrite He.
Qed.

Lemma step_blocking_spec s res s' :
  sched_wf s → next_sequence (worker_pool s) + dp_size (worker_pool s) ≤ u64_MAX →
  step_blocking sha256 s = Some (res, s') →
  sched_wf s' ∧ same_ranks s s' ∧
    match res with
    | Ok _ => all_ids s' ≡ₚ all_ids s
    | Err err => err = WorkerPool EventReceiverClosed ∨ step_failed s err s'
    end.
Proof.
  intros Wf Hmax. unfold step_blocking, wait_for_event. destruct (events_rx (worker_pool s)) as [|e es] eqn:He.
  { destruct (existsb _ _); [done|]. cbn [mbind option_bind]. intros [= <- <-]. split; [|split; [done|by left]].
    destruct Wf as [[????? ] ? ?]. by split. }
  cbn [mbind option_bind]. destruct (mark_idle_commands (ranks (worker_pool s)) e) as (_&Hlen&_).
  pose proof (linked_mark_idle _ _ _ _ _ e (sc_linked _ Wf)) as Hl. rewrite He in Hl.
  set (hs := mark_idle _ _) in *. set (s0 := set_running _ _ _).
  destruct (handle_event_spec s0 (is_shutdown (worker_pool s)) hs (next_sequence (worker_pool s)) e es)
    as (res1&s1&->&W1&Hp1&Ha1&Hl1&_&Hres); [by destruct (sc_core _ Wf)|done|]. cbn [mbind option_bind].
  pose proof (after_events_wf s s1 hs es Wf Hlen W1 Hp1 Ha1 Hl1) as Wf1. destruct res1 as [u|err].
  - destruct (dispatch_all_spec s1 Wf1) as (res2&s2&->&W2&Hres2).
    { rewrite Hp1. unfold dp_size, len in *. cbn. by rewrite Hlen. }
    destruct Hres2 as [Hrk Hres2]. intros [= <- <-]. split; [done|]. split; [unfold same_ranks in *; rewrite Hrk, Hp1; exact Hlen|].
    destruct res2 as [u'|err]; [by rewrite Hres2, Hres|].
    right. right. eapply refused_after; [| |exact Hres2]; [by rewrite Hp1|done].
  - intros [= <- <-]. split; [done|]. split; [unfold same_ranks; by rewrite Hp1|]. right. left. destruct Hres as (seq&rank&we&b&Hin%list_elem_of_singleton&->&Hb&Hlost).
    exists seq, rank, we, b. rewrite He, Hin. split; [by left|]. by split.
Qed.

(** ** The other operations *)

Lemma abort_decode_spec rid q : ∀ al,
  Forall allocator_wf al →
  ∃ al', abort_decode rid al q =
      Some (existsb (λ r, (request_id r =? rid)%string) q, filter (λ r, request_id r ≠ rid) q, al') ∧
    length al' = length al ∧ Forall allocator_wf al'.
Proof.
  induction q as [|r q IH]; intros al Hal; cbn [abort_decode existsb]; [by exists al|].
  destruct (String.eqb_spec (request_id r) rid) as [Heq|Hne].
  - destruct (release_on_spec al (i32_as_usize (data_parallel_rank r)) (owned_slots r (len (input_ids r))) Hal)
      as (al1&->&Hl1&Hal1). cbn [mbind option_bind]. destruct (IH al1 Hal1) as (al2&->&Hl2&Hal2).
    cbn [mbind option_bind]. exists al2. rewrite filter_cons_False by tauto. split; [done|]. split; [congruence|done].
  - destruct (IH al Hal) as (al2&->&Hl2&Hal2). cbn [mbind option_bind]. exists al2.
    by rewrite filter_cons_True by done.
Qed.

Lemma dp_abort_request_spec s rid :
  core_wf s →
  ∃ al, abort_request s rid =
      Some (existsb (λ r, (request_id r =? rid)%string) (waiting_queue s ++ decode_queue s),
        set_allocators (set_queues s (filter (λ r, request_id r ≠ rid) (waiting_queue s))
          (filter (λ r, request_id r ≠ rid) (decode_queue s))) al) ∧
    length al = length (allocators s) ∧ Forall allocator_wf al.
Proof.
  intros [Hw Hd Ha Hp Hr]. unfold abort_request.
  destruct (abort_decode_spec rid (decode_queue s) (allocators s) Ha) as (al&->&Hl&Hal). cbn [mbind option_bind].
  exists al. split; [|done]. do 2 f_equal. rewrite existsb_app. f_equal. clear.
  induction (waiting_queue s) as [|r q IH]; [done|]. cbn [existsb]. destruct (String.eqb_spec (request_id r) rid).
  - rewrite filter_cons_False by tauto. cbn. apply N.ltb_lt. rewrite len_cons. unfold len.
    pose proof (length_filter (λ r, request_id r ≠ rid) q). lia.
  - rewrite filter_cons_True by done. cbn [orb]. rewrite <-IH, !len_cons. apply eq_true_iff_eq. rewrite !N.ltb_lt. lia.
Qed.

Lemma abort_all_spec s :
  core_wf s →
  ∃ al, abort_all_requests s = Some (len (waiting_queue s) + len (decode_queue s),
      set_allocators (set_queues s [] []) al) ∧
    length al = length (allocators s) ∧ Forall allocator_wf al.
Proof.
  intros [Hw Hd Ha Hp Hr]. unfold abort_all_requests.
  assert (∀ q al, Forall allocator_wf al → ∃ al', abort_all_waiting al q = Some al' ∧ length al' = length al ∧
    Forall allocator_wf al') as Hwait.
  { induction q as [|r q IH]; intros al Hal; cbn [abort_all_waiting]; [by exists al|].
    destruct (release_rank_spec al (data_parallel_rank r) (allocated_cache_pages r) Hal) as (al1&->&Hl1&Hal1).
    cbn [mbind option_bind]. destruct (IH al1 Hal1) as (al2&->&?&?). exists al2. split; [done|]. split; [congruence|done]. }
  assert (∀ q al, Forall allocator_wf al → ∃ al', abort_all_decode al q = Some al' ∧ length al' = length al ∧
    Forall allocator_wf al') as Hdec.
  { induction q as [|r q IH]; intros al Hal; cbn [abort_all_decode]; [by exists al|].
    destruct (release_rank_spec al (data_parallel_rank r) (owned_slots r (len (input_ids r))) Hal) as (al1&->&Hl1&Hal1).
    cbn [mbind option_bind]. destruct (IH al1 Hal1) as (al2&->&?&?). exists al2. split; [done|]. split; [congruence|done]. }
  destruct (Hwait (waiting_queue s) _ Ha) as (al1&->&Hl1&Ha1). cbn [mbind option_bind].
  destruct (Hdec (decode_queue s) _ Ha1) as (al2&->&Hl2&Ha2). cbn [mbind option_bind].
  exists al2. split; [done|]. split; [congruence|done].
Qed.

Lemma with_queues_wf s w d al :
  sched_wf s → Forall request_ok w → Forall request_ok d → length al = length (allocators s) →
  Forall allocator_wf al → sched_wf (set_allocators (set_queues s w d) al).
Proof. intros [[Hw Hd Ha Hp Hr] Hlen Hl] ????. split; cbn; [by split|congruence|done]. Qed.

End Facts.
