(* ===== verification/DpSchedulerCorrect.v ===== *)
(** * Correctness of the data-parallel scheduler

    The scheduler together with the worker threads of its pool: every
    interleaving of client calls, scheduler steps and thread turns.  Requests
    are conserved and the bookkeeping between scheduler and pool never breaks;
    the last theorems show where the code loses requests or stalls. *)

From S2P Require Import Prelude Types PageAllocator RadixCache BlockHash StateEvents Request DpPool DpScheduler DpSchedulerFacts.

Record DpSystem (W P : Type) : Type := mkDpSystem {
  scheduler : DpScheduler P;
  dp_workers : list W;
}.
Arguments mkDpSystem {W P}.
Arguments scheduler {W P}.
Arguments dp_workers {W P}.

Section DpSystem.
Context {W P : Type} `{!FallibleModelWorker W} `{!KvStateEventPublisher P}.
Context (sha256 : list N → list N).

(** A worker answers with one token per request ([BatchGeneratedTokens::from_batch]). *)
Context (one_token_per_request : ∀ (w : W) b toks w',
  try_generate_batch w b = (Ok toks, w') → length toks = length (requests b)).

Implicit Types (y : DpSystem W P) (s : DpScheduler P).

Definition with_scheduler y s : DpSystem W P := mkDpSystem s (dp_workers y).

(** Every thread works off its commands and stops; the call itself does not fail. *)
(** [distributed/dp_scheduler.rs:153-156] DpScheduler::shutdown *)
Definition dp_shutdown y : DpSystem W P :=
  let '(p, ws) := pool_shutdown (worker_pool (scheduler y)) (dp_workers y) in
  mkDpSystem (set_running (scheduler y) p (running_batches (scheduler y))) ws.

Inductive dp_step : DpSystem W P → DpSystem W P → Prop :=
  | ds_enqueue y r : request_ok r → dp_step y (with_scheduler y (enqueue (scheduler y) r))
  | ds_abort y rid b s : abort_request (scheduler y) rid = Some (b, s) → dp_step y (with_scheduler y s)
  | ds_abort_all y n s : abort_all_requests (scheduler y) = Some (n, s) → dp_step y (with_scheduler y s)
  | ds_flush y : dp_step y (with_scheduler y (flush_cache (scheduler y)))
  | ds_drain_finished y : dp_step y (with_scheduler y (drain_finished_outputs (scheduler y)).2)
  | ds_drain_step y : dp_step y (with_scheduler y (drain_step_outputs (scheduler y)).2)
  | ds_step y res s : step sha256 (scheduler y) = Some (res, s) → dp_step y (with_scheduler y s)
  | ds_step_blocking y res s :
      step_blocking sha256 (scheduler y) = Some (res, s) → dp_step y (with_scheduler y s)
  | ds_shutdown y : dp_step y (dp_shutdown y)
  | ds_thread y i h w h' es w' :
      ranks (worker_pool (scheduler y)) !! N.to_nat i = Some h → dp_workers y !! N.to_nat i = Some w →
      worker_thread_step h w = Some (h', es, w') →
      dp_step y (mkDpSystem
        (set_running (scheduler y) (set_rank (worker_pool (scheduler y)) i h' es) (running_batches (scheduler y)))
        (<[N.to_nat i := w']> (dp_workers y))).

Definition dp_start y : Prop :=
  ∃ n initializer p ws al max_batch page s chunk publisher,
    launch n initializer = Ok (p, ws) ∧ Forall allocator_wf al ∧
    DpScheduler_new p al max_batch page = Ok s ∧
    y = mkDpSystem (set_cache (with_chunked_prefill_size s chunk) (prefix_cache s) publisher) ws.

(** States in which the [u64] sequence counter has room for another step. *)
Definition sequence_room s : Prop := next_sequence (worker_pool s) + dp_size (worker_pool s) ≤ u64_MAX.

Definition dp_reachable y : Prop :=
  ∃ y0, dp_start y0 ∧ rtc (λ y y', sequence_room (scheduler y) ∧ dp_step y y') y0 y.

(** ** The invariant *)

Lemma launch_ranks_spec (initializer : N → Result string W) n : ∀ start rs,
  launch_ranks initializer (nrange start (start + n)) = Ok rs →
  ∀ i h, rs.*1 !! i = Some h → h = mkHandle (start + N.of_nat i) [] true true.
Proof.
  induction n as [|n IH] using N.peano_ind; intros start rs.
  { rewrite nrange_empty by lia. by intros [= <-]. }
  rewrite nrange_cons by lia. cbn [launch_ranks]. destruct (initializer start) as [w|]; [|done].
  replace (start + N.succ n) with (start + 1 + n) by lia. rewrite result_bind_Ok. intros (rs'&Hrs'&[= <-]) [|i] h Hi.
  - cbn in Hi. injection Hi as <-. f_equal. lia.
  - cbn in Hi. rewrite (IH _ _ Hrs' i h Hi). f_equal. lia.
Qed.

Lemma launch_linked n (initializer : N → Result string W) p ws :
  launch n initializer = Ok (p, ws) →
  next_sequence p = 1 ∧ is_shutdown p = false ∧ events_rx p = [] ∧ linked false (ranks p) 1 ∅ [] ∧ length ws = length (ranks p).
Proof.
  unfold launch. destruct (n =? 0); [done|]. rewrite result_bind_Ok. intros (rs&Hrs&[= <- <-]). cbn.
  split; [done|]. split; [done|]. split; [done|]. split; [|by rewrite !length_fmap].
  assert (∀ i h, rs.*1 !! i = Some h → h = mkHandle (N.of_nat i) [] true true) as Hi.
  { intros i h Hi. rewrite (launch_ranks_spec initializer n 0 rs) with (i := i) (h := h); [f_equal; lia| |done].
    by rewrite N.add_0_l. }
  assert (queued_sequences rs.*1 = []) as Hq.
  { clear Hrs. revert Hi. generalize rs.*1. intros hs Hi. destruct (queued_sequences hs) as [|x l] eqn:Hx; [done|].
    assert (x ∈ queued_sequences hs) as (i&h&b&Hh&Hc)%elem_of_queued by (rewrite Hx; by left).
    rewrite (Hi _ _ Hh) in Hc. by apply not_elem_of_nil in Hc. }
  split; [| |done| |done].
  - intros i h Hh. by rewrite (Hi _ _ Hh).
  - intros i h Hh. by rewrite (Hi _ _ Hh).
  - rewrite Hq. apply NoDup_nil_2.
Qed.

Lemma linked_thread st hs next running es i h (w : W) h' es' w' :
  linked st hs next running es → hs !! i = Some h → worker_thread_step h w = Some (h', es', w') →
  linked st (<[i := h']> hs) next running (es ++ es').
Proof.
  intros [Hr Hc He Hn Hx] Hi Hstep. pose proof (Hc i h Hi) as Hci. destruct (Hr i h Hi) as [Hid Hal].
  assert (st = false) as ->.
  { destruct st; [|done]. unfold worker_thread_step in Hstep. by rewrite Hal in Hstep. }
  assert (∃ seq b toks rest, commands h = ExecuteBatch seq b :: rest ∧ es' = [BatchCompleted seq (N.of_nat i) toks] ∧
    h' = mkHandle (rank_id h) rest true (handle_idle h) ∧ (∀ l, toks = Ok l → length l = length (requests b)))
    as (seq&b&toks&rest&Hcs&->&->&Hlen).
  { unfold worker_thread_step in Hstep. rewrite Hal in Hstep. cbn [negb] in Hstep.
    destruct (commands h) as [|c rest]; [done|]. inversion Hci as [|?? (seq&b&->&_)]; subst.
    destruct (try_generate_batch w b) as [toks w1] eqn:Hg. injection Hstep as <- <- <-.
    exists seq, b, toks, rest. rewrite Hid. split; [done|]. split; [done|]. split; [done|].
    intros l ->. by eapply one_token_per_request. }
  rewrite Hcs in Hci. apply Forall_cons in Hci as [(?&?&[= <- <-]&Hb) Hrest]. split; [| | | |done].
  - intros j hj [(<-&<-&_)|[_ Hj]]%list_lookup_insert_Some; [|by eauto]. by split.
  - intros j hj [(<-&<-&_)|[_ Hj]]%list_lookup_insert_Some; [done|by eauto].
  - apply Forall_app. split; [done|]. constructor; [|done]. by exists seq, (N.of_nat i), toks, b.
  - rewrite event_sequences_app, (Permutation_app_comm (event_sequences es)), (assoc_L (++)).
    rewrite (queued_pop hs i h (mkHandle (rank_id h) rest true (handle_idle h)) [BatchCompleted seq (N.of_nat i) toks] Hi) in Hn
      by (by rewrite Hcs).
    by rewrite (Permutation_app_comm (queued_sequences _)).
Qed.

(** Stopping a thread turns the batches it holds into their events. *)
Lemma join_linked running i idle cs : ∀ w : W, Forall (command_linked running i) cs →
  let '(h, es, w') := join_thread (length (cs ++ [Shutdown])) (mkHandle i (cs ++ [Shutdown]) true idle) w in
  h = mkHandle i [] false idle ∧ Forall (event_linked running) es.
Proof.
  induction cs as [|c cs IH]; intros w Hcs; [done|]. inversion Hcs as [|?? (seq&b&->&Hb) Hcs']; subst.
  cbn [app length join_thread worker_thread_step thread_alive commands negb rank_id handle_idle].
  destruct (try_generate_batch w b) as [toks w1] eqn:Hg. specialize (IH w1 Hcs').
  destruct (join_thread _ _ w1) as [[h es] w2]. destruct IH as [-> Hes]. split; [done|].
  cbn [app]. constructor; [|done]. exists seq, i, toks, b. split; [done|]. split; [done|]. intros l ->. by eapply one_token_per_request.
Qed.

Lemma linked_shutdown hs next running es (ws : list W) : linked false hs next running es → length ws = length hs →
  let stopped := (λ x : DpRankHandle * W, stop_rank x.1 x.2) <$> zip hs ws in
  linked true ((λ x, x.1.1) <$> stopped) next running (es ++ (stopped ≫= λ x, x.1.2)).
Proof.
  intros [Hr Hc He Hn Hx] Hlen stopped.
  assert (∀ i x, stopped !! i = Some x → x.1.1 = mkHandle (N.of_nat i) [] false (handle_idle x.1.1) ∧ Forall (event_linked running) x.1.2) as Hst.
  { intros i x. unfold stopped. rewrite list_lookup_fmap. destruct (zip hs ws !! i) as [[h w]|] eqn:Hz; [|done]. cbn. intros [= <-].
    apply lookup_zip_Some in Hz as [Hh _]. destruct (Hr i h Hh) as [Hid Hal]. pose proof (Hc i h Hh) as Hci.
    unfold stop_rank, send_command. rewrite Hal. cbn [negb default from_option commands]. rewrite Hid.
    pose proof (join_linked running (N.of_nat i) (handle_idle h) (commands h) w Hci) as Hj.
    destruct (join_thread _ _ w) as [[h' es'] w']. cbn. by destruct Hj as [-> ?]. }
  assert (Forall (handle_wf false) hs) as Hwf.
  { apply Forall_lookup. intros i h Hi. destruct (Hr i h Hi) as [_ Hal]. split; [done|].
    eapply Forall_impl; [apply (Hc i h Hi)|]. by intros c (seq&b&->&_). }
  destruct (pool_shutdown_spec hs ws Hwf Hlen) as (_&Hq&Hev&_). fold stopped in Hq, Hev. split.
  - intros i h. rewrite list_lookup_fmap. destruct (stopped !! i) as [x|] eqn:Hi; [|done]. cbn. intros [= <-].
    by destruct (Hst i x Hi) as [-> _].
  - intros i h. rewrite list_lookup_fmap. destruct (stopped !! i) as [x|] eqn:Hi; [|done]. cbn. intros [= <-].
    by destruct (Hst i x Hi) as [-> _].
  - apply Forall_app. split; [done|]. apply Forall_forall. intros e (x&Hex&[i Hi]%list_elem_of_lookup)%list_elem_of_bind.
    destruct (Hst i x Hi) as [_ Hx']. rewrite Forall_forall in Hx'. by apply Hx'.
  - rewrite Hq, event_sequences_app, Hev. cbn [app]. by rewrite Permutation_app_comm.
  - done.
Qed.

Lemma dp_enqueue_wf s r : sched_wf s → request_ok r → sched_wf (enqueue s r).
Proof.
  intros [[Hw Hd Ha Hp Hr] Hlen Hl] Hok. split; [split; cbn; try done|done..].
  apply Forall_app. split; [done|]. by constructor.
Qed.

Lemma flush_wf s : sched_wf s → sched_wf (flush_cache s).
Proof.
  intros [[Hw Hd Ha Hp Hr] Hlen Hl]. split; cbn; [|by rewrite length_fmap|done]. split; cbn; try done.
  apply Forall_fmap. eapply Forall_impl; [done|]. intros a Wa. by apply reset_wf.
Qed.

Lemma outputs_wf s f o : sched_wf s → sched_wf (set_outputs s f o).
Proof. intros [[Hw Hd Ha Hp Hr] Hlen Hl]. split; [by split|done..]. Qed.

Lemma Forall_filter_ok rid (q : list ScheduledRequest) :
  Forall request_ok q → Forall request_ok (filter (λ r, request_id r ≠ rid) q).
Proof. rewrite !Forall_forall. intros Hq r [_ Hr]%list_elem_of_filter. by apply Hq. Qed.

Record dp_wf y : Prop := {
  dw_sched : sched_wf (scheduler y);
  dw_workers : length (dp_workers y) = length (ranks (worker_pool (scheduler y)));
}.

Lemma dp_shutdown_wf y : dp_wf y → dp_wf (dp_shutdown y).
Proof.
  intros [[[Hw Hd Ha Hp Hr] Hlen Hl] Hws]. unfold dp_shutdown, pool_shutdown.
  destruct (is_shutdown (worker_pool (scheduler y))) eqn:Hs.
  { split; cbn; [|done]. split; cbn; [by split|done|by rewrite Hs]. }
  pose proof (linked_shutdown _ _ _ _ _ Hl Hws) as Hl'. split; cbn; [|by rewrite !length_fmap].
  split; cbn; [by split| |done]. rewrite !length_fmap, length_zip_with, Hws. lia.
Qed.

Lemma dp_step_wf y y' : sequence_room (scheduler y) → dp_step y y' → dp_wf y → dp_wf y'.
Proof.
  intros Hroom Hstep [Wf Hws]. destruct Hstep as [y r Hr|y rid b s Heq|y n s Heq|y|y|y|y res s Heq|y res s Heq
    |y|y i h w h' es w' Hi Hw Heq]; [..|by apply dp_shutdown_wf|]; (split; cbn [scheduler with_scheduler dp_workers]).
  - by apply dp_enqueue_wf.
  - done.
  - destruct (dp_abort_request_spec (scheduler y) rid (sc_core _ Wf)) as (al&Heq'&Hl&Hal).
    rewrite Heq in Heq'. injection Heq' as _ ->.
    apply with_queues_wf; try done; apply Forall_filter_ok; apply Wf.
  - destruct (dp_abort_request_spec (scheduler y) rid (sc_core _ Wf)) as (al&Heq'&_). rewrite Heq in Heq'. by injection Heq' as _ ->.
  - destruct (abort_all_spec (scheduler y) (sc_core _ Wf)) as (al&Heq'&Hl&Hal).
    rewrite Heq in Heq'. injection Heq' as _ ->. by apply with_queues_wf.
  - destruct (abort_all_spec (scheduler y) (sc_core _ Wf)) as (al&Heq'&_). rewrite Heq in Heq'. by injection Heq' as _ ->.
  - by apply flush_wf.
  - done.
  - by apply outputs_wf.
  - done.
  - by apply outputs_wf.
  - done.
  - destruct (step_spec sha256 (scheduler y) Wf Hroom) as (res'&s'&Heq'&W'&_). by simplify_eq.
  - destruct (step_spec sha256 (scheduler y) Wf Hroom) as (res'&s'&Heq'&_&Hrk&_). simplify_eq. unfold same_ranks in Hrk. congruence.
  - by apply (step_blocking_spec sha256 (scheduler y) res s Wf Hroom Heq).
  - destruct (step_blocking_spec sha256 (scheduler y) res s Wf Hroom Heq) as (_&Hrk&_). unfold same_ranks in Hrk. congruence.
  - destruct Wf as [[Hwq Hd Ha Hp Hr] Hlen Hl]. split; cbn; [by split|by rewrite length_insert|].
    by eapply linked_thread.
  - cbn. by rewrite !length_insert.
Qed.

Lemma dp_start_wf y : dp_start y → dp_wf y.
Proof.
  intros (n&initializer&p&ws&al&mb&page&s&chunk&publisher&Hlaunch&Hal&Hnew&->).
  apply launch_linked in Hlaunch as (Hn&Hs&He&Hl&Hws). unfold DpScheduler_new in Hnew.
  destruct (N.eqb_spec (dp_size p) (len al)) as [Hlen|]; [|done]. cbn [negb] in Hnew.
  destruct (mb =? 0); [done|]. destruct (N.eqb_spec page 0); [done|]. injection Hnew as <-.
  split; cbn; [|done]. split; cbn; [split; cbn; try done; lia|unfold dp_size, len in Hlen; lia|by rewrite Hn, He, Hs].
Qed.

Lemma dp_reachable_dp_wf y : dp_reachable y → dp_wf y.
Proof.
  intros (y0&H0%dp_start_wf&Hr). induction Hr as [|y1 y2 y3 [Hroom Hs] _ IH]; [done|]. apply IH.
  by eapply dp_step_wf.
Qed.

Lemma dp_reachable_wf y : dp_reachable y → sched_wf (scheduler y).
Proof. intros H%dp_reachable_dp_wf. apply H. Qed.

(** ** A prompt that is cached in full *)

(** [n] non-blocking steps in a row, all of which succeed. *)
Fixpoint step_n (n : nat) s : option (DpScheduler P) :=
  match n with
  | O => Some s
  | S n' =>
      '(res, s) ← step sha256 s;
      match res with Ok _ => step_n n' s | Err _ => None end
  end.

Definition fully_cached s (r : ScheduledRequest) : Prop :=
  prompt_tokens_processed r = 0 ∧ len (match_path (input_ids r) (root (prefix_cache s))) = len (input_ids r) ∧
  is_multiple_of (len (input_ids r)) (dp_page_size s) = true.

(** Nothing runs, and the head of the waiting queue has no tokens left to compute. *)
Record stalled s : Prop := {
  sl_core : core_wf s;
  sl_ranks : len (allocators s) = dp_size (worker_pool s);
  sl_idle : Forall (λ k, k < dp_size (worker_pool s)) (idle_ranks (worker_pool s));
  sl_events : events_rx (worker_pool s) = [];
  sl_decode : decode_queue s = [];
  sl_head : ∃ r q r', waiting_queue s = r :: q ∧
    match_shared_prefix (prefix_cache s) (dp_page_size s) r = Some r' ∧ remaining_prompt_tokens r' = 0;
}.

Lemma match_shared_again c ps r r' :
  match_shared_prefix c ps r = Some r' → remaining_prompt_tokens r' = 0 →
  ∃ r'', match_shared_prefix c ps r' = Some r'' ∧ remaining_prompt_tokens r'' = 0.
Proof.
  intros Hm H0. unfold match_shared_prefix. destruct (N.eqb_spec (prompt_tokens_processed r') 0) as [Hz|]; [|by eauto].
  unfold remaining_prompt_tokens, saturating_sub in H0. assert (input_ids r' = []) as Hnil by (apply len_0; lia).
  unfold match_prefix_page_aligned. destruct (decide (0 < ps)) as [Hps|Hps].
  - rewrite option_guard_True by done. cbn [mbind option_bind]. eexists. split; [done|]. destruct r'. cbn in *. by subst.
  - exfalso. unfold match_shared_prefix in Hm. destruct (_ =? 0) eqn:Hr.
    + unfold match_prefix_page_aligned in Hm. by rewrite option_guard_False in Hm.
    + injection Hm as ->. apply N.eqb_neq in Hr. lia.
Qed.

Lemma request_id_match c ps r r' : match_shared_prefix c ps r = Some r' → request_id r' = request_id r.
Proof.
  unfold match_shared_prefix. destruct (_ =? 0); [|by intros [= ->]].
  destruct (match_prefix_page_aligned _ _ _); [|done]. cbn [mbind option_bind]. intros [= <-]. by destruct r.
Qed.

Lemma form_batch_stalled s rank :
  stalled s → rank < dp_size (worker_pool s) →
  ∃ s', form_batch_for_rank s rank = Some (Ok None, s') ∧ stalled s' ∧ worker_pool s' = worker_pool s ∧
    running_batches s' = running_batches s ∧ request_ids (waiting_queue s') = request_ids (waiting_queue s).
Proof.
  intros [Hc Hl Hidle He Hd (r&q&r'&Hw&Hm&H0)] Hrank. destruct (form_batch_spec s rank Hc) as (d&p&s1&Heq&Hc1&[Hp Hr Ha]&_).
  { unfold len in Hl. lia. }
  assert (∃ r1 q1 al, s1 = set_allocators (set_queues s (r1 :: q1) []) al ∧ request_ids (r1 :: q1) = request_ids (r :: q) ∧
    (if decide (d ++ p = []) then None else Some (batch_of (d ++ p))) = None ∧
    ∃ r2, match_shared_prefix (prefix_cache s) (dp_page_size s) r1 = Some r2 ∧ remaining_prompt_tokens r2 = 0)
    as (r1&q1&al&Hs1&Hids&Hnone&Hhead).
  { unfold form_batch_for_rank in Heq. destruct (allocators s !! N.to_nat rank) as [a|]; [|by destruct (decide _)].
    rewrite Hd in Heq. cbn [take_decode mbind option_bind] in Heq.
    cbn [prefix_cache dp_page_size chunked_prefill_size max_batch_size waiting_queue set_allocators set_queues] in Heq.
    rewrite Hw in Heq. cbn [take_prefill] in Heq. destruct (len [] <? max_batch_size s).
    - rewrite Hm in Heq. cbn [mbind option_bind] in Heq. rewrite H0, N.min_0_l in Heq.
      cbn [N.eqb mbind option_bind] in Heq. injection Heq as Hn <-. exists r', q. eexists. split; [done|]. split.
      { cbn. by rewrite (request_id_match _ _ _ _ Hm). }
      split; [done|]. by eapply match_shared_again.
    - cbn [mbind option_bind] in Heq. injection Heq as Hn <-. exists r, q. eexists. split; [done|]. split; [done|]. eauto. }
  rewrite Hnone in Heq. exists s1. split; [done|]. split; [|split; [done|split; [done|by rewrite Hs1, Hw]]].
  destruct Hhead as (r2&Hm2&H2). split; rewrite ?Hp; try done; [unfold len in *; by rewrite Ha|by subst s1|].
  exists r1, q1, r2. by subst s1.
Qed.

Lemma dispatch_stalled rs : ∀ s,
  stalled s → Forall (λ k, k < dp_size (worker_pool s)) rs →
  ∃ s', dispatch_idle s rs = Some (Ok (), s') ∧ stalled s' ∧
    running_batches s' = running_batches s ∧ request_ids (waiting_queue s') = request_ids (waiting_queue s).
Proof.
  induction rs as [|rank rs IH]; intros s Hs Hrs; cbn [dispatch_idle]; [by exists s|].
  apply Forall_cons in Hrs as [Hrank Hrs].
  destruct (form_batch_stalled s rank Hs Hrank) as (s1&->&Hs1&Hp&Hr&Hw). cbn [mbind option_bind].
  destruct (IH s1 Hs1) as (s'&->&Hs'&Hr'&Hw'); [by rewrite Hp|]. exists s'. split; [done|]. split; [done|].
  split; congruence.
Qed.

Lemma step_stalled s :
  stalled s →
  ∃ s', step sha256 s = Some (Ok 0, s') ∧ stalled s' ∧
    running_batches s' = running_batches s ∧ request_ids (waiting_queue s') = request_ids (waiting_queue s).
Proof.
  intros Hs. unfold step, poll_events. rewrite (sl_events _ Hs). cbn [handle_events mbind option_bind foldl].
  set (s0 := set_running s _ _).
  assert (stalled s0) as Hs0. { destruct Hs as [[????? ] ? ? ? ? ?]. by split. }
  destruct (dispatch_stalled (idle_ranks (worker_pool s0)) s0 Hs0 (sl_idle _ Hs0)) as (s'&->&Hs'&Hr&Hw).
  cbn [mbind option_bind]. exists s'. by split.
Qed.

Lemma fully_cached_match s r :
  0 < dp_page_size s → fully_cached s r →
  ∃ r', match_shared_prefix (prefix_cache s) (dp_page_size s) r = Some r' ∧ remaining_prompt_tokens r' = 0.
Proof.
  intros Hps (H0&Hl&Hm). unfold match_shared_prefix. rewrite H0. cbn [N.eqb]. rewrite match_prefix_aligned_eq by done.
  cbn [mbind option_bind]. eexists. split; [done|]. apply is_multiple_of_spec in Hm; [|lia].
  destruct r. unfold remaining_prompt_tokens, saturating_sub in *. cbn -[N.div N.mul len] in *. rewrite Hl. lia.
Qed.

Lemma step_n_stalled n : ∀ s,
  stalled s → ∃ s', step_n n s = Some s' ∧ running_batches s' = running_batches s ∧
    request_ids (waiting_queue s') = request_ids (waiting_queue s).
Proof.
  induction n as [|n IH]; intros s Hs; cbn [step_n]; [by exists s|].
  destruct (step_stalled s Hs) as (s1&->&Hs1&Hr&Hw). cbn [mbind option_bind].
  destruct (IH s1 Hs1) as (s'&->&Hr'&Hw'). exists s'. split; [done|]. split; congruence.
Qed.

(** ** Properties *)


(** C40. A batch for a rank is at most [max_batch_size] requests: first the
    decode requests pinned to the rank, in queue order, then prefill chunks
    from the front of the waiting queue, each of at least one token and within
    the chunk budget.  Decode requests of other ranks keep their places.  No
    batch is formed only when neither part has a request. *)
Theorem form_batch_for_rank_correct y rank :
  dp_reachable y → rank < dp_size (worker_pool (scheduler y)) →
  let s := scheduler y in
  ∃ d p s', form_batch_for_rank s rank =
      Some (Ok (if decide (d ++ p = []) then None else Some (batch_of (d ++ p))), s') ∧
    len (d ++ p) ≤ max_batch_size s ∧
    Forall (λ r, stage r = DecodeForward ∧ data_parallel_rank r = as_i32 rank) d ∧
    Forall (λ r, stage r = PrefillForward ∧ data_parallel_rank r = as_i32 rank ∧
      0 < current_chunk_len r ≤ default usize_MAX (chunked_prefill_size s)) p ∧
    request_ids (waiting_queue s) = request_ids p ++ request_ids (waiting_queue s') ∧
    request_ids (filter (pinned rank) (decode_queue s)) =
      request_ids d ++ request_ids (filter (pinned rank) (decode_queue s')) ∧
    filter (λ r, ¬ pinned rank r) (decode_queue s') = filter (λ r, ¬ pinned rank r) (decode_queue s).
Proof.
  intros Wf%dp_reachable_wf Hrank s. subst s. destruct (form_batch_spec (scheduler y) rank (sc_core _ Wf))
    as (d&p&s'&Heq&_&_&[H1 H2 H3 H4 H5 H6]&_).
  { rewrite (sc_ranks _ Wf). unfold dp_size, len in Hrank. lia. }
  by exists d, p, s'.
Qed.

(** When a worker reports an error, [step] returns it at once: the requests
    of that batch are in no queue and no output, and every other event that
    was drained with it is dropped, so the batches they complete stay in
    [running_batches]. *)
Theorem worker_error_discards_events s seq rank we es rank' b :
  events_rx (worker_pool s) = BatchCompleted seq rank (Err we) :: es →
  running_batches s !! seq = Some (rank', b) →
  ∃ s', step sha256 s = Some (Err (Worker we), s') ∧ events_rx (worker_pool s') = [] ∧
    running_batches s' = delete seq (running_batches s) ∧
    all_ids s ≡ₚ request_ids (requests b) ++ all_ids s' ∧
    ∀ seq' rank'' res, BatchCompleted seq' rank'' res ∈ es → seq' ≠ seq →
      running_batches s' !! seq' = running_batches s !! seq'.
Proof.
  intros He Hb. unfold step, poll_events. rewrite He. cbn [handle_events handle_event set_running running_batches].
  rewrite Hb. cbn [mbind option_bind]. eexists. split; [done|]. cbn. split; [done|]. split; [done|]. split.
  - unfold all_ids. cbn. rewrite (running_ids_delete _ _ _ _ Hb). unfold placed. cbn. solve_Permutation.
  - intros seq' rank'' res _ Hne. by rewrite lookup_delete_ne.
Qed.

(** A prompt that is cached in full blocks the scheduler: nothing is left to
    prefill, so forming a batch puts it back at the head of the waiting queue,
    and however often [step] runs, no request of the queue is ever dispatched. *)
Theorem fully_cached_prompt_stalls y r q n :
  dp_reachable y → events_rx (worker_pool (scheduler y)) = [] → decode_queue (scheduler y) = [] →
  waiting_queue (scheduler y) = r :: q → fully_cached (scheduler y) r →
  ∃ s', step_n n (scheduler y) = Some s' ∧ running_batches s' = running_batches (scheduler y) ∧
    request_ids (waiting_queue s') = request_ids (r :: q).
Proof.
  intros Wf%dp_reachable_wf He Hd Hw Hf. rewrite <-Hw. apply step_n_stalled.
  destruct (idle_ranks_spec _ _ _ _ _ (sc_linked _ Wf)) as (_&Hidle&_).
  pose proof (sc_ranks _ Wf). split; try done; [apply Wf|unfold len, dp_size, len; lia| |].
  - eapply Forall_impl; [done|]. intros k (h&Hk&_). apply lookup_lt_Some in Hk. unfold dp_size, len. lia.
  - destruct (fully_cached_match _ _ (co_page _ (sc_core _ Wf)) Hf) as (r'&?&?). by exists r, q, r'.
Qed.

End DpSystem.

(** ** Example runs *)




Definition dp_run_step (y : DpSystem unit unit) : DpSystem unit unit :=
  match step (λ _, []) (scheduler y) with Some (_, s) => with_scheduler y s | None => y end.

Definition dp_run_thread (y : DpSystem unit unit) (i : N) : DpSystem unit unit :=
  match ranks (worker_pool (scheduler y)) !! N.to_nat i, dp_workers y !! N.to_nat i with
  | Some h, Some w =>
      match worker_thread_step h w with
      | Some (h', es, w') =>
          mkDpSystem (set_running (scheduler y) (set_rank (worker_pool (scheduler y)) i h' es)
            (running_batches (scheduler y))) (<[N.to_nat i := w']> (dp_workers y))
      | None => y
      end
  | _, _ => y
  end.

(** One rank, pages of four slots, batches of up to two requests. *)
Definition dp_example : DpSystem unit unit :=
  mkDpSystem (mkDpScheduler [] [] RadixCache_default [example_allocator]
    (mkPool [mkHandle 0 [] true true] [] 1 false) ∅ [] [] 2 4 None None) [tt].

Definition dp_request (rid : RequestId) : ScheduledRequest :=
  ScheduledRequest_new rid [5; 6; 7; 8] (SamplingParams_new 1).

Definition dp_enqueued (rid : RequestId) (y : DpSystem unit unit) : DpSystem unit unit :=
  with_scheduler y (enqueue (scheduler y) (dp_request rid)).

(** A request, dispatched and run by its thread; and the step that completes it. *)
Definition dp_ran : DpSystem unit unit := dp_run_thread (dp_run_step (dp_enqueued "a" dp_example)) 0.
Definition dp_done : DpSystem unit unit := dp_run_step dp_ran.

Lemma echo_one_token (w : unit) b toks w' :
  try_generate_batch w b = (Ok toks, w') → length toks = length (requests b).
Proof. cbn. intros [= <- _]. by rewrite length_fmap. Qed.

Lemma dp_reachable_step (y y' : DpSystem unit unit) :
  dp_reachable (λ _, []) y → sequence_room (scheduler y) → dp_step (λ _, []) y y' → dp_reachable (λ _, []) y'.
Proof. intros (y0&H0&Hr) Hroom Hs. exists y0. split; [done|]. by eapply rtc_r. Qed.

Lemma dp_example_reachable : dp_reachable (λ _, []) dp_example.
Proof.
  exists dp_example. split; [|apply rtc_refl].
  eexists 1, (λ _, Ok tt), _, _, [example_allocator], 2, 4, _, None, None.
  split; [by vm_compute|]. split; [by constructor; [apply example_allocator_wf|constructor]|]. by split.
Qed.

Lemma dp_run_step_reachable y :
  dp_reachable (λ _, []) y → sequence_room (scheduler y) → dp_reachable (λ _, []) (dp_run_step y).
Proof.
  intros Hy Hroom. unfold dp_run_step. destruct (step (λ _, []) (scheduler y)) as [[res s]|] eqn:Hs; [|done].
  eapply dp_reachable_step; [done|done|]. by eapply ds_step.
Qed.

Lemma dp_run_thread_reachable y i :
  dp_reachable (λ _, []) y → sequence_room (scheduler y) → dp_reachable (λ _, []) (dp_run_thread y i).
Proof.
  intros Hy Hroom. unfold dp_run_thread. destruct (ranks (worker_pool (scheduler y)) !! N.to_nat i) as [h|] eqn:Hh; [|done].
  destruct (dp_workers y !! N.to_nat i) as [w|] eqn:Hw; [|done].
  destruct (worker_thread_step h w) as [[[h' es] w']|] eqn:Hs; [|done].
  eapply dp_reachable_step; [done|done|]. by eapply ds_thread.
Qed.

Lemma dp_enqueued_reachable y rid :
  dp_reachable (λ _, []) y → sequence_room (scheduler y) → dp_reachable (λ _, []) (dp_enqueued rid y).
Proof. intros Hy Hroom. eapply dp_reachable_step; [done|done|]. by apply ds_enqueue. Qed.

Lemma dp_ran_reachable : dp_reachable (λ _, []) dp_ran.
Proof.
  apply dp_run_thread_reachable; [apply dp_run_step_reachable; [apply dp_enqueued_reachable; [apply dp_example_reachable|]|]|];
    by vm_compute.
Qed.

Lemma dp_done_reachable : dp_reachable (λ _, []) dp_done.
Proof. apply dp_run_step_reachable; [apply dp_ran_reachable|by vm_compute]. Qed.

Lemma dp_again_reachable : dp_reachable (λ _, []) (dp_enqueued "b" dp_done).
Proof. apply dp_enqueued_reachable; [apply dp_done_reachable|by vm_compute]. Qed.

(** A finished request frees the pages of its own prompt, though they were
    just entered into the shared prefix cache: afterwards the cache still
    serves slots of page 0 for the prompt while the only allocator holds page
    0 as free, so the page is handed to the next sequence and to every later
    hit on the prompt at once. *)
Theorem finished_prompt_pages_stay_cached :
  dp_reachable (λ _, []) dp_done ∧
  match_prefix (prefix_cache (scheduler dp_done)) [5; 6; 7; 8] = mkPrefixMatch 4 [0; 1; 2; 3] [] ∧
  Forall (λ a, 0 ∈ free_page_indices a) (allocators (scheduler dp_done)).
Proof.
  split; [apply dp_done_reachable|]. split; [by vm_compute|].
  assert (free_page_indices <$> allocators (scheduler dp_done) = [[0; 1; 2; 3]]) as Hf by (by vm_compute).
  destruct (allocators (scheduler dp_done)) as [|a [|? ?]]; [done| |done]. cbn in Hf. injection Hf as Hf.
  constructor; [rewrite Hf; by left|constructor].
Qed.


(** After a shutdown a step takes the waiting requests into a batch, which is
    refused: they are gone. *)
Example shutdown_step_loses_requests :
  let y := dp_shutdown (dp_enqueued "a" dp_example) in
  match step (λ _, []) (scheduler y) with
  | Some (Err (WorkerPool AlreadyShutdown), s') => all_ids (scheduler y) = ["a"%string] ∧ all_ids s' = []
  | _ => False
  end.
Proof. by vm_compute. Qed.

Lemma form_batch_for_rank_correct_witness :
  let s := scheduler (dp_enqueued "a" dp_example) in
  ∃ d p s', form_batch_for_rank s 0 =
      Some (Ok (if decide (d ++ p = []) then None else Some (batch_of (d ++ p))), s') ∧
    len (d ++ p) ≤ max_batch_size s ∧
    Forall (λ r, stage r = DecodeForward ∧ data_parallel_rank r = as_i32 0) d ∧
    Forall (λ r, stage r = PrefillForward ∧ data_parallel_rank r = as_i32 0 ∧
      0 < current_chunk_len r ≤ default usize_MAX (chunked_prefill_size s)) p ∧
    request_ids (waiting_queue s) = request_ids p ++ request_ids (waiting_queue s') ∧
    request_ids (filter (pinned 0) (decode_queue s)) =
      request_ids d ++ request_ids (filter (pinned 0) (decode_queue s')) ∧
    filter (λ r, ¬ pinned 0 r) (decode_queue s') = filter (λ r, ¬ pinned 0 r) (decode_queue s).
Proof.
  apply (form_batch_for_rank_correct (λ _, []) echo_one_token (dp_enqueued "a" dp_example) 0); [|by vm_compute].
  apply dp_enqueued_reachable; [apply dp_example_reachable|by vm_compute].
Defined.

(** Two running batches; the worker of the first reports an error. *)
Definition dp_failing : DpScheduler unit :=
  set_running (scheduler dp_example)
    (mkPool [mkHandle 0 [] true false] [BatchCompleted 1 0 (Err (Runtime "oom")); BatchCompleted 2 0 (Ok [])] 3 false)
    {[1 := (0, mkScheduleBatch Prefill [dp_request "a"]); 2 := (0, mkScheduleBatch Decode [])]}.

Lemma worker_error_discards_events_witness :
  ∃ s', step (λ _, []) dp_failing = Some (Err (Worker (Runtime "oom")), s') ∧ events_rx (worker_pool s') = [] ∧
    running_batches s' = delete 1 (running_batches dp_failing) ∧
    all_ids dp_failing ≡ₚ ["a"] ++ all_ids s' ∧
    ∀ seq' rank'' res, BatchCompleted seq' rank'' res ∈ [BatchCompleted 2 0 (Ok [])] → seq' ≠ 1 →
      running_batches s' !! seq' = running_batches dp_failing !! seq'.
Proof.
  apply (worker_error_discards_events (λ _, []) dp_failing 1 0 (Runtime "oom") [BatchCompleted 2 0 (Ok [])] 0
    (mkScheduleBatch Prefill [dp_request "a"])); by vm_compute.
Defined.

Lemma fully_cached_prompt_stalls_witness :
  ∃ s', step_n (λ _, []) 100 (scheduler (dp_enqueued "b" dp_done)) = Some s' ∧
    running_batches s' = running_batches (scheduler (dp_enqueued "b" dp_done)) ∧
    request_ids (waiting_queue s') = ["b"].
Proof.
  apply (fully_cached_prompt_stalls (λ _, []) echo_one_token (dp_enqueued "b" dp_done) (dp_request "b") []);
    [apply dp_again_reachable|by vm_compute..|].
  split; [by vm_compute|]. split; by vm_compute.
Defined.

