(* ===== verification/DpCoordinator.v ===== *)
(** * Data-parallel coordinator ([crates/sglang-srt/src/distributed/dp_coordinator.rs])

    The driver over the data-parallel scheduler: it tokenizes requests, steps the
    scheduler and turns drained outputs into text or token outputs.  The worker
    threads run on their own, so the state is the [DpSystem] of scheduler and
    threads, and before each call of the scheduler the threads may take any turns:
    [turn n blocking] is what they do in round [n], before the step or before the
    blocking wait.  The loops take fuel; [None] is a panic, a wait that no thread
    ends, or the end of the fuel. *)

From stdpp Require Import relations.
From S2P Require Import Prelude Types PageAllocator RadixCache BlockHash StateEvents Request Tokenizer Engine Topology DpPool DpScheduler DpSchedulerFacts DpSchedulerCorrect.
#[local] Open Scope N_scope.

(** [distributed/dp_coordinator.rs:17-22] DpCoordinatorError *)
Inductive DpCoordinatorError : Type :=
  | CoordinatorScheduler (error : DpSchedulerError)
  | CoordinatorTokenizer (error : TokenizerError)
  | CoordinatorWorker (error : WorkerExecutionError)
  | CoordinatorInvalidState (message : string).

(** [distributed/dp_coordinator.rs:57-61] DpCoordinator *)
Record DpCoordinator (T W P : Type) : Type := mkDpCoordinator {
  tokenizer : T;
  system : DpSystem W P;
  topology : Grid.Parallel4DTopology;
}.
Arguments mkDpCoordinator {T W P}.
Arguments tokenizer {T W P}.
Arguments system {T W P}.
Arguments topology {T W P}.

(** What a sink says to the outputs of a step. *)
Inductive Verdict : Type := GoOn | Refused | Complete.

Section Coordinator.
Context {V T W P : Type} `{!Tokenizer V T} `{!FallibleModelWorker W} `{!KvStateEventPublisher P}.
Context (sha256 : list N → list N) (turn : nat → bool → DpSystem W P → DpSystem W P).

Implicit Types (c : DpCoordinator T W P) (y : DpSystem W P).

Definition set_system c y : DpCoordinator T W P := mkDpCoordinator (tokenizer c) y (topology c).

(** [distributed/dp_coordinator.rs:88-90] DpCoordinator::is_idle *)
Definition coordinator_is_idle c : bool := scheduler_is_idle (scheduler (system c)).

(** [distributed/dp_coordinator.rs:108-110] DpCoordinator::abort_request *)
Definition coordinator_abort_request c (rid : RequestId) : option (bool * DpCoordinator T W P) :=
  '(aborted, s) ← abort_request (scheduler (system c)) rid;
  Some (aborted, set_system c (with_scheduler (system c) s)).

(** [distributed/dp_coordinator.rs:112-114] DpCoordinator::abort_all_requests *)
Definition coordinator_abort_all_requests c : option (N * DpCoordinator T W P) :=
  '(aborted, s) ← abort_all_requests (scheduler (system c));
  Some (aborted, set_system c (with_scheduler (system c) s)).

(** [distributed/dp_coordinator.rs:116-118] DpCoordinator::flush_cache *)
Definition coordinator_flush_cache c : DpCoordinator T W P :=
  set_system c (with_scheduler (system c) (flush_cache (scheduler (system c)))).

(** [distributed/dp_coordinator.rs:120-123] DpCoordinator::shutdown *)
Definition coordinator_shutdown c : DpCoordinator T W P :=
  set_system c (dp_shutdown (system c)).

(** [distributed/dp_coordinator.rs:143-149] DpCoordinator::enqueue_request *)
Definition enqueue_request c (q : GenerateRequest) : DpCoordinator T W P :=
  let input_ids := encode (tokenizer c) (text_prompt q) in
  let scheduled := ScheduledRequest_new (text_request_id q) input_ids (text_sampling q) in
  set_system c (with_scheduler (system c) (enqueue (scheduler (system c)) scheduled)).

(** The disaggregation parameters of the request are not used. *)
(** [distributed/dp_coordinator.rs:152-159] DpCoordinator::enqueue_token_request *)
Definition enqueue_token_request c (q : TokenGenerateRequest) : DpCoordinator T W P :=
  let scheduled := ScheduledRequest_new (token_request_id q) (token_input_ids q) (token_sampling q) in
  let scheduled := set_data_parallel_rank scheduled (token_data_parallel_rank q) in
  set_system c (with_scheduler (system c) (enqueue (scheduler (system c)) scheduled)).

(** [self.scheduler.step()?] and [self.scheduler.step_blocking()?], after a turn of the threads. *)
Definition run_step (n : nat) y : option (Result DpCoordinatorError unit * DpSystem W P) :=
  let y := turn n false y in
  '(res, s) ← step sha256 (scheduler y);
  Some (match res with Ok _ => Ok () | Err e => Err (CoordinatorScheduler e) end, with_scheduler y s).
Definition run_step_blocking (n : nat) y : option (Result DpCoordinatorError unit * DpSystem W P) :=
  let y := turn n true y in
  '(res, s) ← step_blocking sha256 (scheduler y);
  Some (match res with Ok _ => Ok () | Err e => Err (CoordinatorScheduler e) end, with_scheduler y s).

Definition take_finished y : list ScheduledOutput * DpSystem W P :=
  let '(finished, s) := drain_finished_outputs (scheduler y) in (finished, with_scheduler y s).
Definition take_step y : list ScheduledOutput * DpSystem W P :=
  let '(outputs, s) := drain_step_outputs (scheduler y) in (outputs, with_scheduler y s).

(** [distributed/dp_coordinator.rs:168-175] DpCoordinator::step (decoding) *)
Fixpoint decode_all (tok : T) (items : list ScheduledOutput) : Result DpCoordinatorError (list GenerateOutput) :=
  match items with
  | [] => Ok []
  | item :: items =>
      let? text := result_map_err CoordinatorTokenizer (decode tok (out_token_ids item)) in
      let? outputs := decode_all tok items in
      Ok (mkGenerateOutput (out_request_id item) text (finished item) :: outputs)
  end.

(** Runs a computation on the system of the coordinator. *)
Definition on_system {A} c (m : option (Result DpCoordinatorError A * DpSystem W P))
    : option (Result DpCoordinatorError A * DpCoordinator T W P) :=
  '(res, y) ← m; Some (res, set_system c y).

(** [distributed/dp_coordinator.rs:163-178] DpCoordinator::step *)
Definition coordinator_step (n : nat) c : option (Result DpCoordinatorError (list GenerateOutput) * DpCoordinator T W P) :=
  on_system c
    (let* u, y := run_step n (system c) in
     let '(finished, y) := take_finished y in
     Some (decode_all (tokenizer c) finished, y)).

(** [distributed/dp_coordinator.rs:181-196] DpCoordinator::step_tokens *)
Definition step_tokens (n : nat) c : option (Result DpCoordinatorError (list TokenGenerateOutput) * DpCoordinator T W P) :=
  on_system c
    (let* u, y := run_step n (system c) in
     let '(finished, y) := take_finished y in
     Some (Ok (map token_output_of finished), y)).

Definition disappeared (target : RequestId) : DpCoordinatorError :=
  CoordinatorInvalidState ("request " +:+ target +:+ " disappeared before generating completion").

(** [distributed/dp_coordinator.rs:206-228] DpCoordinator::generate (loop) *)
Fixpoint generate_loop (fuel : nat) (tok : T) (target : RequestId) y
    : option (Result DpCoordinatorError GenerateOutput * DpSystem W P) :=
  match fuel with
  | O => None
  | S fuel =>
      let* u, y := run_step fuel y in
      let '(done, y) := take_finished y in
      match list_find (λ item, out_request_id item = target) done with
      | Some (_, item) =>
          Some (let? text := result_map_err CoordinatorTokenizer (decode tok (out_token_ids item)) in
                Ok (mkGenerateOutput (out_request_id item) text (finished item)), y)
      | None =>
          if negb (scheduler_is_idle (scheduler y)) then
            let* u, y := run_step_blocking fuel y in generate_loop fuel tok target y
          else Some (Err (disappeared target), y)
      end
  end.

(** [distributed/dp_coordinator.rs:199-229] DpCoordinator::generate *)
Definition coordinator_generate (fuel : nat) c (q : GenerateRequest)
    : option (Result DpCoordinatorError GenerateOutput * DpCoordinator T W P) :=
  let c := enqueue_request c q in
  on_system c (generate_loop fuel (tokenizer c) (text_request_id q) (system c)).

(** [distributed/dp_coordinator.rs:271-288] DpCoordinator::generate_token_stream_with_sink (outputs of a step) *)
Fixpoint feed_sink {C} (target : RequestId) (sink : C → TokenGenerateOutput → bool * C) (x : C)
    (items : list ScheduledOutput) : Verdict * C :=
  match items with
  | [] => (GoOn, x)
  | item :: items =>
      if decide (out_request_id item = target) then
        let '(cont, x) := sink x (token_output_of item) in
        if negb cont then (Refused, x)
        else if finished item then (Complete, x)
        else feed_sink target sink x items
      else feed_sink target sink x items
  end.

(** [distributed/dp_coordinator.rs:268-297] DpCoordinator::generate_token_stream_with_sink (loop) *)
Fixpoint token_loop {C} (fuel : nat) (target : RequestId) (sink : C → TokenGenerateOutput → bool * C) (x : C) y
    : option (Result DpCoordinatorError unit * C * DpSystem W P) :=
  match fuel with
  | O => None
  | S fuel =>
      '(res, y) ← run_step fuel y;
      match res with
      | Err e => Some (Err e, x, y)
      | Ok _ =>
          let '(outputs, y) := take_step y in
          let '(verdict, x) := feed_sink target sink x outputs in
          match verdict with
          | Refused => '(_, s) ← abort_request (scheduler y) target; Some (Ok (), x, with_scheduler y s)
          | Complete => Some (Ok (), x, y)
          | GoOn =>
              if negb (scheduler_is_idle (scheduler y)) then
                '(res, y) ← run_step_blocking fuel y;
                match res with
                | Err e => Some (Err e, x, y)
                | Ok _ => token_loop fuel target sink x y
                end
              else Some (Err (disappeared target), x, y)
          end
      end
  end.

(** [distributed/dp_coordinator.rs:257-298] DpCoordinator::generate_token_stream_with_sink *)
Definition coordinator_stream_with_sink {C} (fuel : nat) c (q : TokenGenerateRequest)
    (sink : C → TokenGenerateOutput → bool * C) (x : C) : option (Result DpCoordinatorError unit * C * DpCoordinator T W P) :=
  let c := enqueue_token_request c q in
  '(res, x, y) ← token_loop fuel (token_request_id q) sink x (system c);
  Some (res, x, set_system c y).

(** [distributed/dp_coordinator.rs:301-311] DpCoordinator::generate_token_stream *)
Definition coordinator_stream (fuel : nat) c (q : TokenGenerateRequest)
    : option (Result DpCoordinatorError (list TokenGenerateOutput) * DpCoordinator T W P) :=
  '(res, outputs, c) ← coordinator_stream_with_sink fuel c q push_sink [];
  Some (let? u := res in Ok outputs, c).

(** The closure collects the token ids and keeps the last counters. *)
(** [distributed/dp_coordinator.rs:241-246] DpCoordinator::generate_tokens (sink) *)
Definition accumulate (acc : list N * N * bool) (out : TokenGenerateOutput) : bool * (list N * N * bool) :=
  (true, (acc.1.1 ++ token_output_ids out, token_cached_tokens out, token_finished out)).

(** [distributed/dp_coordinator.rs:232-254] DpCoordinator::generate_tokens *)
Definition coordinator_generate_tokens (fuel : nat) c (q : TokenGenerateRequest)
    : option (Result DpCoordinatorError TokenGenerateOutput * DpCoordinator T W P) :=
  '(res, acc, c) ← coordinator_stream_with_sink fuel c q accumulate ([], 0, false);
  Some (let? u := res in Ok (mkTokenGenerateOutput (token_request_id q) acc.1.1 acc.1.2 acc.2), c).

(** ** Facts *)

(** An output as the tokenizer decodes it. *)
Definition decoded (tok : T) (item : ScheduledOutput) (out : GenerateOutput) : Prop :=
  text_output_id out = out_request_id item ∧ text_finished out = finished item ∧ decode tok (out_token_ids item) = Ok (output_text out).

(** The outputs decode one by one, in order, up to the first that does not. *)
Lemma decode_all_spec tok items :
  match decode_all tok items with
  | Ok outputs => Forall2 (decoded tok) items outputs
  | Err e => ∃ before item after outputs err, items = before ++ item :: after ∧ Forall2 (decoded tok) before outputs ∧
      decode tok (out_token_ids item) = Err err ∧ e = CoordinatorTokenizer err
  end.
Proof.
  induction items as [|item items IH]; cbn [decode_all]; [constructor|].
  destruct (decode tok (out_token_ids item)) as [text|err] eqn:Hd; cbn [result_map_err result_bind].
  - destruct (decode_all tok items) as [outs|e]; cbn [result_bind]; [by constructor|].
    destruct IH as (before&it&after&outs&err&->&Hb&?&->). exists (item :: before), it, after, (mkGenerateOutput (out_request_id item) text (finished item) :: outs), err.
    split; [done|]. split; [by constructor|done].
  - by exists [], item, items, [], err.
Qed.

Lemma take_finished_ids y finished y' : take_finished y = (finished, y') →
  (out_request_id <$> finished) ++ all_ids (scheduler y') ≡ₚ all_ids (scheduler y) ∧ finished_outputs (scheduler y') = [].
Proof.
  intros [= <- <-]. split; [|done]. unfold all_ids, placed. cbn. rewrite app_nil_r. solve_Permutation.
Qed.

(** C34. A step of the coordinator, after any turns of the worker threads, does not
    panic, and follows the step of its scheduler.  When that fails, its error is the
    result, and the requests are where the scheduler's step leaves them.  When it
    succeeds the finished outputs are all taken from the scheduler, the other requests
    conserved; each output, in order, is handed out under its request's id with the
    text its own tokens decode to; unless one does not decode, when the error of the
    first that does not is the result, and all of them are gone. *)
Theorem coordinator_step_correct n c :
  let y := turn n false (system c) in
  (∀ (w : W) b toks w', try_generate_batch w b = (Ok toks, w') → length toks = length (requests b)) →
  dp_reachable sha256 y → sequence_room (scheduler y) →
  ∃ stepped s res c', step sha256 (scheduler y) = Some (stepped, s) ∧ coordinator_step n c = Some (res, c') ∧
    match stepped with
    | Err e => res = Err (CoordinatorScheduler e) ∧ scheduler (system c') = s ∧ step_failed (scheduler y) e s
    | Ok _ =>
        finished_outputs (scheduler (system c')) = [] ∧
        (out_request_id <$> finished_outputs s) ++ all_ids (scheduler (system c')) ≡ₚ all_ids (scheduler y) ∧
        match res with
        | Ok outputs => Forall2 (decoded (tokenizer c)) (finished_outputs s) outputs
        | Err e => ∃ before item after outputs err,
            finished_outputs s = before ++ item :: after ∧ Forall2 (decoded (tokenizer c)) before outputs ∧
            decode (tokenizer c) (out_token_ids item) = Err err ∧ e = CoordinatorTokenizer err
        end
    end.
Proof.
  intros y Hone Wf%dp_reachable_wf Hroom; [|done]. unfold coordinator_step, run_step, on_system. fold y.
  destruct (step_spec sha256 (scheduler y) Wf Hroom) as (res&s&->&_&_&Hres). cbn [mbind option_bind].
  destruct res as [k|e]; cbn [st_bind_opt mbind option_bind]; [|by eexists _, _, _, _].
  destruct Hres as [_ Hids]. destruct (take_finished (with_scheduler y s)) as [fin y'] eqn:Htake.
  pose proof Htake as [= <- _]. apply take_finished_ids in Htake as [Hperm Hempty]. cbn [mbind option_bind].
  eexists _, _, _, _. split; [done|]. split; [done|]. split; [done|]. split; [by rewrite <- Hids, <- Hperm|].
  apply decode_all_spec.
Qed.

End Coordinator.

(** ** Concrete runs *)

(** One thread, which runs whatever it was given before each wait. *)
Definition example_turn (n : nat) (blocking : bool) (y : DpSystem unit unit) : DpSystem unit unit :=
  if blocking then dp_run_thread y 0 else y.

Definition example_coordinator : DpCoordinator ByteTokenizer unit unit :=
  mkDpCoordinator ByteTokenizer_new dp_example (Grid.mkTopology (Grid.mkConfig 1 1 1 1 1) 1 [Grid.mkCoordinate 0 0 0 0 0 0]).

#[local] Instance no_messages : ChatMessage unit := {| message_content _ := None |}.

Definition example_token_request (rid : RequestId) : TokenGenerateRequest :=
  mkTokenGenerateRequest rid [5; 6] (SamplingParams_new 1) None 0.

Lemma fst_is {A B} (m : option (A * B)) a b a' : m = Some (a, b) → fst <$> m = Some a' → a = a'.
Proof. intros ->. by intros [= ->]. Qed.

Lemma coordinator_step_correct_witness :
  ∃ s outputs c', step (λ _, []) (scheduler dp_ran) = Some (Ok 1, s) ∧
    coordinator_step (V := unit) (λ _, []) example_turn 0 (set_system example_coordinator dp_ran) = Some (Ok outputs, c') ∧
    finished_outputs (scheduler (system c')) = [] ∧
    Forall2 (decoded (V := unit) ByteTokenizer_new) (finished_outputs s) outputs.
Proof.
  destruct (coordinator_step_correct (V := unit) (λ _, []) example_turn 0 (set_system example_coordinator dp_ran))
    as (stepped&s&res&c'&Hs&Hc&H); [apply echo_one_token|apply dp_ran_reachable|by vm_compute|].
  assert (stepped = Ok 1) as ->.
  { eapply fst_is; [exact Hs|]. vm_compute. reflexivity. }
  destruct H as (H1&_&H2). destruct res as [outputs|e]; [exists s, outputs, c'; exact (conj Hs (conj Hc (conj H1 H2)))|]. exfalso.
  assert (is_Ok (Err (A := list GenerateOutput) e) = true) as Hok; [|discriminate Hok].
  apply (fst_is (fmap (M := option) (prod_map is_Ok id) (coordinator_step (V := unit) (λ _, []) example_turn 0 (set_system example_coordinator dp_ran))) _ c');
    [rewrite Hc; reflexivity|vm_compute; reflexivity].
Defined.

(** A stream reads the step outputs and leaves the finished output of its request
    in the scheduler, so a later [generate] that reuses the id gets the old
    answer at once, and its own request stays behind. *)
Theorem stream_leaves_stale_output :
  match coordinator_stream (λ _, []) example_turn 5 example_coordinator (example_token_request "a") with
  | Some (Ok outputs, c) =>
      token_finished <$> outputs = [true] ∧ finished_outputs (scheduler (system c)) ≠ [] ∧
      match coordinator_generate (V := unit) (λ _, []) example_turn 5 c
              (mkGenerateRequest "a" "a longer prompt" (SamplingParams_new 1)) with
      | Some (Ok answer, c') => text_finished answer = true ∧ scheduler_is_idle (scheduler (system c')) = false
      | _ => False
      end
  | _ => False
  end.
Proof. by vm_compute. Qed.

(** [generate] drains the finished outputs of every request and keeps only its
    own: the answer to "a", queued before, is gone once "b" is answered. *)
Theorem generate_drops_other_answers :
  let c := enqueue_request (V := unit) example_coordinator (mkGenerateRequest "a" "x" (SamplingParams_new 1)) in
  match coordinator_generate (V := unit) (λ _, []) example_turn 5 c (mkGenerateRequest "b" "y" (SamplingParams_new 1)) with
  | Some (Ok answer, c') => text_output_id answer = "b"%string ∧ all_ids (scheduler (system c')) = []
  | _ => False
  end.
Proof. by vm_compute. Qed.
