(* ===== verification/RouterProtocol.v ===== *)
(** * The runtime's router protocol ([crates/sglang-srt/src/router.rs], requests and responses)

    What the runtime accepts from the router and answers to it: validation of a
    generate request into the token request the engines run, and the responses
    made of their outputs, collected or streamed.  A float field is a binary32
    value, an [i32] a [Z], a count cast to [i32] wraps.  The runtime object with
    its engines is [RouterRuntime]. *)

From Stdlib Require Import Sorted.
From stdpp Require Import sorting.
From S2P Require Import Prelude Float32 Types BlockIndex Request Tokenizer Engine.
#[local] Open Scope N_scope.

(** [crates/sglang-srt/src/router.rs] *)
(** [sglang-srt/src/router.rs:22-22] DEFAULT_MAX_NEW_TOKENS *)
Definition DEFAULT_MAX_NEW_TOKENS : N := 128.

(** [sglang-srt/src/router.rs:26-29] RouterValidationConfig *)
Record RouterValidationConfig : Type := mkRouterValidationConfig {
  max_context_tokens : option N;
  max_request_input_tokens : option N;
}.

(** [sglang-srt/src/router.rs:32-46] RouterSamplingParams *)
Record RouterSamplingParams : Type := mkRouterSamplingParams {
  r_max_new_tokens : option Z;
  r_temperature : option f32;
  r_top_p : option f32;
  r_top_k : option Z;
  r_min_p : option f32;
  r_frequency_penalty : option f32;
  r_presence_penalty : option f32;
  r_repetition_penalty : option f32;
  r_stop_token_id : option Z;
  r_stop_token_ids : list Z;
  r_ignore_eos : option bool;
  r_n : option Z;
  r_best_of : option Z;
}.

Definition RouterSamplingParams_default : RouterSamplingParams :=
  mkRouterSamplingParams None None None None None None None None None [] None None None.

(** [sglang-srt/src/router.rs:1662-1690] RouterProtocolError *)
Inductive RouterProtocolError : Type :=
  | MissingRequestId
  | MissingTokenizedInput
  | EmptyTokenizedInput
  | EmptyTextInput
  | GenerationPaused
  | InvalidIntegerSamplingParam (field : string) (value : Z) (expected : string)
  | InvalidFloatSamplingParam (field : string) (value : f32) (expected : string)
  | InputTooLong (input_tokens max_request_input_tokens : N)
  | ContextOverflow (input_tokens max_new_tokens max_context_tokens : N)
  | RunningRequestLimitReached (max_running_requests : N).

(** [sglang-srt/src/router.rs:1693-1697] RouterStatusCode *)
Inductive RouterStatusCode : Type := InvalidArgument | ResourceExhausted | FailedPrecondition.

(** [sglang-srt/src/router.rs:1700-1713] RouterProtocolError::status_code *)
Definition status_code (error : RouterProtocolError) : RouterStatusCode :=
  match error with
  | MissingRequestId | MissingTokenizedInput | EmptyTokenizedInput | EmptyTextInput
  | InvalidIntegerSamplingParam _ _ _ | InvalidFloatSamplingParam _ _ _ => InvalidArgument
  | InputTooLong _ _ | ContextOverflow _ _ _ | RunningRequestLimitReached _ => ResourceExhausted
  | GenerationPaused => FailedPrecondition
  end.

(** ** Validating sampling parameters *)

Section Validate.
Context (field : string).

(** [sglang-srt/src/router.rs:166-182] validate_optional_non_negative_float *)
Definition validate_optional_non_negative_float (value : option f32) : Result RouterProtocolError unit :=
  match value with
  | None => Ok ()
  | Some v =>
      if (negb (f32_is_finite v) || f32_lt v f32_zero)%bool
      then Err (InvalidFloatSamplingParam field v "finite and non-negative") else Ok ()
  end.

(** [(0.0..=1.0).contains(&value)] *)
Definition in_unit (v : f32) : bool := f32_le f32_zero v && f32_le v f32_one.

(** [sglang-srt/src/router.rs:184-200] validate_optional_unit_float *)
Definition validate_optional_unit_float (value : option f32) : Result RouterProtocolError unit :=
  match value with
  | None => Ok ()
  | Some v =>
      if (negb (f32_is_finite v) || negb (in_unit v))%bool
      then Err (InvalidFloatSamplingParam field v "finite and in [0, 1]") else Ok ()
  end.

(** [sglang-srt/src/router.rs:202-218] validate_optional_positive_unit_float *)
Definition validate_optional_positive_unit_float (value : option f32) : Result RouterProtocolError unit :=
  match value with
  | None => Ok ()
  | Some v =>
      if (negb (f32_is_finite v) || negb (in_unit v) || f32_eq v f32_zero)%bool
      then Err (InvalidFloatSamplingParam field v "finite and in (0, 1]") else Ok ()
  end.

(** [sglang-srt/src/router.rs:107-127] validate_optional_bounded_float *)
Definition validate_optional_bounded_float (value : option f32) (minimum maximum : f32) : Result RouterProtocolError unit :=
  match value with
  | None => Ok ()
  | Some v =>
      if (negb (f32_is_finite v) || f32_lt v minimum || f32_lt maximum v)%bool
      then Err (InvalidFloatSamplingParam field v
                  (if (field =? "repetition_penalty")%string then "in (0, 2]" else "in [-2, 2]"))
      else Ok ()
  end.

(** [sglang-srt/src/router.rs:220-236] validate_optional_unbounded_or_positive_i32 *)
Definition validate_optional_unbounded_or_positive_i32 (value : option Z) : Result RouterProtocolError unit :=
  match value with
  | None => Ok ()
  | Some v =>
      if (negb (v =? -1) && (v <? 1))%Z then Err (InvalidIntegerSamplingParam field v "-1 or positive") else Ok ()
  end.

(** [sglang-srt/src/router.rs:238-254] validate_optional_non_negative_i32 *)
Definition validate_optional_non_negative_i32 (value : option Z) : Result RouterProtocolError unit :=
  match value with
  | None => Ok ()
  | Some v => if (v <? 0)%Z then Err (InvalidIntegerSamplingParam field v "non-negative") else Ok ()
  end.

(** [sglang-srt/src/router.rs:256-269] validate_non_negative_i32s *)
Definition validate_non_negative_i32s (values : list Z) : Result RouterProtocolError unit :=
  match list_find (λ v, (v < 0)%Z) values with
  | Some (_, v) => Err (InvalidIntegerSamplingParam field v "non-negative")
  | None => Ok ()
  end.

(** [sglang-srt/src/router.rs:271-287] validate_optional_positive_i32 *)
Definition validate_optional_positive_i32 (value : option Z) : Result RouterProtocolError unit :=
  match value with
  | None => Ok ()
  | Some v => if (v <=? 0)%Z then Err (InvalidIntegerSamplingParam field v "positive") else Ok ()
  end.

(** [sglang-srt/src/router.rs:73-83] RouterSamplingParams::into_sampling_params (one candidate) *)
Definition validate_single_candidate (value : option Z) : Result RouterProtocolError unit :=
  match value with
  | Some v =>
      if negb (v =? 1)%Z then
        Err (InvalidIntegerSamplingParam field v "equal to 1 because parallel candidates are not implemented")
      else Ok ()
  | None => Ok ()
  end.

End Validate.

(** [Vec::dedup]: equal neighbours collapse. *)
Fixpoint dedup (l : list N) : list N :=
  match l with
  | [] => []
  | x :: l =>
      match dedup l with
      | y :: l' => if x =? y then y :: l' else x :: y :: l'
      | [] => [x]
      end
  end.

(** [sort_unstable] then [dedup]; equal [u32]s cannot be told apart, so any
    sorting algorithm gives the same list. *)
Definition sort_dedup (l : list N) : list N := dedup (merge_sort N.le l).

(** [v as u32] *)
Definition i32_as_u32 (v : Z) : N := Z.to_N (v mod 2 ^ 32).

(** [sglang-srt/src/router.rs:129-141] merged_stop_token_ids *)
Definition merged_stop_token_ids (stop_token_id : option Z) (stop_token_ids : list Z) : list N :=
  let merged := match stop_token_id with Some v => [i32_as_u32 v] | None => [] end in
  sort_dedup (merged ++ (i32_as_u32 <$> stop_token_ids)).

(** [sglang-srt/src/router.rs:85-90] RouterSamplingParams::into_sampling_params (max_new_tokens) *)
Definition validated_max_new_tokens (value : option Z) : Result RouterProtocolError N :=
  match value with
  | Some v => if (v <=? 0)%Z then Err (InvalidIntegerSamplingParam "max_new_tokens" v "positive") else Ok (i32_as_usize v)
  | None => Ok DEFAULT_MAX_NEW_TOKENS
  end.

(** [sglang-srt/src/router.rs:49-104] RouterSamplingParams::into_sampling_params *)
Definition into_sampling_params (p : RouterSamplingParams) : Result RouterProtocolError SamplingParams :=
  let? _ := validate_optional_non_negative_float "temperature" (r_temperature p) in
  let? _ := validate_optional_positive_unit_float "top_p" (r_top_p p) in
  let? _ := validate_optional_unit_float "min_p" (r_min_p p) in
  let? _ := validate_optional_bounded_float "frequency_penalty" (r_frequency_penalty p) f32_minus_two f32_two in
  let? _ := validate_optional_bounded_float "presence_penalty" (r_presence_penalty p) f32_minus_two f32_two in
  let? _ := validate_optional_bounded_float "repetition_penalty" (r_repetition_penalty p) f32_zero f32_two in
  let? _ := match r_repetition_penalty p with
            | Some v => if f32_eq v f32_zero then Err (InvalidFloatSamplingParam "repetition_penalty" f32_zero "in (0, 2]") else Ok ()
            | None => Ok ()
            end in
  let? _ := validate_optional_unbounded_or_positive_i32 "top_k" (r_top_k p) in
  let? _ := validate_optional_non_negative_i32 "stop_token_id" (r_stop_token_id p) in
  let? _ := validate_non_negative_i32s "stop_token_ids" (r_stop_token_ids p) in
  let? _ := validate_optional_positive_i32 "n" (r_n p) in
  let? _ := validate_optional_positive_i32 "best_of" (r_best_of p) in
  let? _ := validate_single_candidate "n" (r_n p) in
  let? _ := validate_single_candidate "best_of" (r_best_of p) in
  let? max_new := validated_max_new_tokens (r_max_new_tokens p) in
  Ok (mkSamplingParams max_new (r_temperature p) (r_top_p p) (r_top_k p) (r_min_p p) (r_frequency_penalty p)
        (r_presence_penalty p) (r_repetition_penalty p) (merged_stop_token_ids (r_stop_token_id p) (r_stop_token_ids p))
        (default false (r_ignore_eos p))).

(** ** Requests *)

(** [sglang-srt/src/router.rs:144-147] RouterTokenizedInput *)
Record RouterTokenizedInput : Type := mkRouterTokenizedInput {
  original_text : string;
  r_input_ids : list N;
}.

(** [sglang-srt/src/router.rs:150-154] RouterDisaggregatedParams *)
Record RouterDisaggregatedParams : Type := mkRouterDisaggregatedParams {
  r_bootstrap_host : string;
  r_bootstrap_port : N;
  r_bootstrap_room : N;
}.

(** [sglang-srt/src/router.rs:157-163] DisaggregatedParams::from *)
Definition disaggregated_from (v : RouterDisaggregatedParams) : DisaggregatedParams :=
  mkDisaggregatedParams (r_bootstrap_host v) (r_bootstrap_port v) (r_bootstrap_room v).

(** [sglang-srt/src/router.rs:290-298] RouterGenerateRequest *)
Record RouterGenerateRequest : Type := mkRouterGenerateRequest {
  g_request_id : string;
  tokenized : option RouterTokenizedInput;
  sampling_params : option RouterSamplingParams;
  g_disaggregated_params : option RouterDisaggregatedParams;
  g_stream : bool;
  g_data_parallel_rank : Z;
  trace_headers : gmap string string;
}.

(** [sglang-srt/src/router.rs:378-386] RouterTextGenerateRequest *)
Record RouterTextGenerateRequest : Type := mkRouterTextGenerateRequest {
  t_request_id : string;
  t_text : string;
  t_sampling_params : option RouterSamplingParams;
  t_disaggregated_params : option RouterDisaggregatedParams;
  t_stream : bool;
  t_data_parallel_rank : Z;
  t_trace_headers : gmap string string;
}.

(** [sglang-srt/src/router.rs:399-403] ValidatedTokenGenerateRequest *)
Record ValidatedTokenGenerateRequest : Type := mkValidated {
  v_prompt_tokens : N;
  v_stream : bool;
  v_request : TokenGenerateRequest;
}.

(** [usize::saturating_add] *)
Definition saturating_add (a b : N) : N := N.min usize_MAX (a + b).

(** [sglang-srt/src/router.rs:405-430] validate_token_budget *)
Definition validate_token_budget (input_tokens max_new_tokens : N) (config : RouterValidationConfig)
    : Result RouterProtocolError unit :=
  let? _ := match max_request_input_tokens config with
            | Some limit => if limit <? input_tokens then Err (InputTooLong input_tokens limit) else Ok ()
            | None => Ok ()
            end in
  match max_context_tokens config with
  | Some limit =>
      if limit <? saturating_add input_tokens max_new_tokens
      then Err (ContextOverflow input_tokens max_new_tokens limit) else Ok ()
  | None => Ok ()
  end.

(** [fresh] is the identifier [next_router_request_id] makes of the clock and the
    sequence counter; it is used where the request has none. *)
(** [sglang-srt/src/router.rs:339-374] RouterGenerateRequest::try_into_validated_token_request *)
Definition try_into_validated_token_request (fresh : string) (q : RouterGenerateRequest) (config : RouterValidationConfig)
    : Result RouterProtocolError ValidatedTokenGenerateRequest :=
  let request_id := if (g_request_id q =? "")%string then fresh else g_request_id q in
  let? input := ok_or (tokenized q) MissingTokenizedInput in
  let input_tokens := len (r_input_ids input) in
  if input_tokens =? 0 then Err EmptyTokenizedInput
  else
    let? sampling := into_sampling_params (default RouterSamplingParams_default (sampling_params q)) in
    let? _ := validate_token_budget input_tokens (max_new_tokens sampling) config in
    Ok (mkValidated input_tokens (g_stream q)
          (mkTokenGenerateRequest request_id (r_input_ids input) sampling
             (disaggregated_from <$> g_disaggregated_params q) (g_data_parallel_rank q))).

(** [sglang-srt/src/router.rs:330-337] RouterGenerateRequest::try_into_token_generate_request_with_config *)
Definition try_into_token_generate_request_with_config (fresh : string) (q : RouterGenerateRequest)
    (config : RouterValidationConfig) : Result RouterProtocolError TokenGenerateRequest :=
  let? v := try_into_validated_token_request fresh q config in Ok (v_request v).

(** [sglang-srt/src/router.rs:324-328] RouterGenerateRequest::try_into_token_generate_request *)
Definition try_into_token_generate_request (fresh : string) (q : RouterGenerateRequest) : Result RouterProtocolError TokenGenerateRequest :=
  try_into_token_generate_request_with_config fresh q (mkRouterValidationConfig None None).

(** [sglang-srt/src/router.rs:301-322] RouterGenerateRequest::select_cache_aware_prefill_worker *)
Definition select_cache_aware_prefill_worker (sha256 : list N → list N) (q : RouterGenerateRequest) (index : KvBlockPrefixNode)
    (candidates : list KvCacheWorkerSnapshot) (block_size : N) (cache_threshold : f32)
    : option (Result RouterProtocolError (option KvCacheWorkerId)) :=
  match tokenized q with
  | None => Some (Err MissingTokenizedInput)
  | Some input =>
      if len (r_input_ids input) =? 0 then Some (Err EmptyTokenizedInput)
      else
        worker ← select_cache_aware_worker_for_tokens sha256 index candidates (r_input_ids input) block_size cache_threshold;
        Some (Ok worker)
  end.

(** ** Responses *)

(** [sglang-srt/src/router.rs:490-497] RouterGenerateStreamChunk *)
Record RouterGenerateStreamChunk : Type := mkChunk {
  chunk_token_ids : list N;
  chunk_text : string;
  chunk_prompt_tokens : Z;
  chunk_completion_tokens : Z;
  chunk_cached_tokens : Z;
  chunk_index : N;
}.

(** [sglang-srt/src/router.rs:500-508] RouterGenerateComplete *)
Record RouterGenerateComplete : Type := mkComplete {
  complete_output_ids : list N;
  complete_text : string;
  finish_reason : string;
  complete_prompt_tokens : Z;
  complete_completion_tokens : Z;
  complete_cached_tokens : Z;
  complete_index : N;
}.

(** [sglang-srt/src/router.rs:477-481] RouterGenerateResponseBody *)
Inductive RouterGenerateResponseBody : Type :=
  | Chunk (chunk : RouterGenerateStreamChunk)
  | Completed (complete : RouterGenerateComplete)
  | ResponseError (message : string).

(** [sglang-srt/src/router.rs:441-444] RouterGenerateResponse *)
Record RouterGenerateResponse : Type := mkResponse {
  response_id : string;
  body : RouterGenerateResponseBody;
}.

(** [sglang-srt/src/router.rs:447-473] RouterGenerateResponse::from_token_generate_output *)
Definition from_token_generate_output (output : TokenGenerateOutput) (prompt_tokens : Z) : RouterGenerateResponse :=
  let completion_tokens := as_i32 (len (token_output_ids output)) in
  let cached := as_i32 (token_cached_tokens output) in
  mkResponse (token_output_id output)
    (if token_finished output
     then Completed (mkComplete (token_output_ids output) "" "stop" prompt_tokens completion_tokens cached 0)
     else Chunk (mkChunk (token_output_ids output) "" prompt_tokens completion_tokens cached 0)).

Definition is_complete (r : RouterGenerateResponse) : bool := match body r with Completed _ => true | _ => false end.

(** [sglang-srt/src/router.rs:1623-1651] token_outputs_to_generate_responses (loop) *)
Fixpoint output_responses (output_ids : list N) (outputs : list TokenGenerateOutput) (prompt_tokens : Z) : list RouterGenerateResponse :=
  match outputs with
  | [] => []
  | output :: outputs =>
      let output_ids := output_ids ++ token_output_ids output in
      let completion_tokens := as_i32 (len output_ids) in
      let cached := as_i32 (token_cached_tokens output) in
      let b := if token_finished output
               then Completed (mkComplete output_ids "" "stop" prompt_tokens completion_tokens cached 0)
               else Chunk (mkChunk (token_output_ids output) "" prompt_tokens completion_tokens cached 0) in
      mkResponse (token_output_id output) b :: output_responses output_ids outputs prompt_tokens
  end.

(** [sglang-srt/src/router.rs:1615-1659] token_outputs_to_generate_responses *)
Definition token_outputs_to_generate_responses (outputs : list TokenGenerateOutput) (prompt_tokens : Z) (stream : bool)
    : list RouterGenerateResponse :=
  let responses := output_responses [] outputs prompt_tokens in
  if negb stream then filter (λ r, is_complete r = true) responses else responses.

(** [sglang-srt/src/router.rs:1526-1530] RouterStreamState *)
Record RouterStreamState : Type := mkStreamState {
  state_output_ids : list N;
  state_prompt_tokens : Z;
  state_stream : bool;
}.

(** [sglang-srt/src/router.rs:1533-1539] RouterStreamState::new *)
Definition RouterStreamState_new (prompt_tokens : Z) (stream : bool) : RouterStreamState :=
  mkStreamState [] prompt_tokens stream.

(** [sglang-srt/src/router.rs:1541-1589] RouterStreamState::responses *)
Definition responses (st : RouterStreamState) (output : TokenGenerateOutput) : list RouterGenerateResponse * RouterStreamState :=
  let request_id := token_output_id output in
  let output_ids := state_output_ids st ++ token_output_ids output in
  let completion_tokens := as_i32 (len output_ids) in
  let cached := as_i32 (token_cached_tokens output) in
  let chunk := mkResponse request_id
                 (Chunk (mkChunk (token_output_ids output) "" (state_prompt_tokens st) completion_tokens cached 0)) in
  let st := mkStreamState output_ids (state_prompt_tokens st) (state_stream st) in
  if token_finished output then
    let complete := mkResponse request_id
      (Completed (mkComplete output_ids "" "stop" (state_prompt_tokens st) completion_tokens cached 0)) in
    if (state_stream st && negb (len (token_output_ids output) =? 0))%bool then ([chunk; complete], st) else ([complete], st)
  else ([chunk], st).

(** The responses of a whole stream. *)
Fixpoint stream_responses (st : RouterStreamState) (outputs : list TokenGenerateOutput) : list RouterGenerateResponse :=
  match outputs with
  | [] => []
  | output :: outputs => let '(rs, st) := responses st output in rs ++ stream_responses st outputs
  end.

Section Text.
Context {V T : Type} `{!Tokenizer V T}.

(** [sglang-srt/src/router.rs:1598-1604] fill_incremental_response_text (chunk) *)
Fixpoint step_tokens_text (tok : T) (d : decoder (T := T)) (ids : list N) (text : string)
    : Result TokenizerError string * decoder (T := T) :=
  match ids with
  | [] => (Ok text, d)
  | id :: ids =>
      let! piece, d := decoder_step tok d id in
      step_tokens_text tok d ids (match piece with Some t => text +:+ t | None => text end)
  end.

(** [sglang-srt/src/router.rs:1592-1613] fill_incremental_response_text *)
Definition fill_incremental_response_text (tok : T) (d : decoder (T := T)) (r : RouterGenerateResponse)
    : Result TokenizerError RouterGenerateResponse * decoder (T := T) :=
  match body r with
  | Chunk c =>
      let! text, d := step_tokens_text tok d (chunk_token_ids c) (chunk_text c) in
      (Ok (mkResponse (response_id r)
         (Chunk (mkChunk (chunk_token_ids c) text (chunk_prompt_tokens c) (chunk_completion_tokens c) (chunk_cached_tokens c) (chunk_index c)))), d)
  | Completed c =>
      match decode tok (complete_output_ids c) with
      | Err e => (Err e, d)
      | Ok text =>
          (Ok (mkResponse (response_id r)
             (Completed (mkComplete (complete_output_ids c) text (finish_reason c) (complete_prompt_tokens c)
                (complete_completion_tokens c) (complete_cached_tokens c) (complete_index c)))), d)
      end
  | ResponseError _ => (Ok r, d)
  end.

(** [sglang-srt/src/router.rs:1250-1271] RouterRuntime::fill_generate_response_text *)
Definition fill_generate_response_text (tok : T) (r : RouterGenerateResponse) : Result TokenizerError RouterGenerateResponse :=
  match body r with
  | Chunk c =>
      let? text := decode tok (chunk_token_ids c) in
      Ok (mkResponse (response_id r)
         (Chunk (mkChunk (chunk_token_ids c) text (chunk_prompt_tokens c) (chunk_completion_tokens c) (chunk_cached_tokens c) (chunk_index c))))
  | Completed c =>
      let? text := decode tok (complete_output_ids c) in
      Ok (mkResponse (response_id r)
             (Completed (mkComplete (complete_output_ids c) text (finish_reason c) (complete_prompt_tokens c)
                (complete_completion_tokens c) (complete_cached_tokens c) (complete_index c))))
  | ResponseError _ => Ok r
  end.

(** Every response of a stream filled in turn, with one decoder. *)
Fixpoint fill_stream (tok : T) (d : decoder (T := T)) (rs : list RouterGenerateResponse)
    : Result TokenizerError (list RouterGenerateResponse) * decoder (T := T) :=
  match rs with
  | [] => (Ok [], d)
  | r :: rs =>
      let! r, d := fill_incremental_response_text tok d r in
      let! rs, d := fill_stream tok d rs in
      (Ok (r :: rs), d)
  end.

End Text.

Definition chunk_texts (rs : list RouterGenerateResponse) : string :=
  foldr String.append "" ((λ r, match body r with Chunk c => chunk_text c | _ => "" end) <$> rs).
Definition chunk_ids (rs : list RouterGenerateResponse) : list N :=
  rs ≫= λ r, match body r with Chunk c => chunk_token_ids c | _ => [] end.
Definition completes (rs : list RouterGenerateResponse) : list RouterGenerateComplete :=
  omap (λ r, match body r with Completed c => Some c | _ => None end) rs.

(** ** Binary32 comparisons *)

Lemma f32_compare_swap x y : SpecFloat.SFcompare y x = CompOpp <$> SpecFloat.SFcompare x y.
Proof.
  destruct x as [[]|[]| |[] mx ex], y as [[]|[]| |[] my ey]; try done; cbn -[Z.compare Pos.compare Pos.compare_cont];
    rewrite (Z.compare_antisym ey ex); destruct (Z.compare ey ex); cbn; try done;
    change (Pos.compare_cont Eq) with Pos.compare; by rewrite (Pos.compare_antisym my mx), ?CompOpp_involutive.
Qed.

(** On comparable values, not less is greater or equal. *)
Lemma f32_not_lt x y : SpecFloat.SFcompare x y ≠ None → f32_lt x y = false → f32_le y x = true.
Proof.
  unfold f32_lt, f32_le, SpecFloat.SFltb, SpecFloat.SFleb. rewrite (f32_compare_swap x y).
  by destruct (SpecFloat.SFcompare x y) as [[]|].
Qed.

Lemma f32_le_not_lt x y : f32_le y x = true → f32_lt x y = false.
Proof.
  unfold f32_lt, f32_le, SpecFloat.SFltb, SpecFloat.SFleb. rewrite (f32_compare_swap x y).
  by destruct (SpecFloat.SFcompare x y) as [[]|].
Qed.

Lemma f32_lt_cases x y : f32_lt x y = true ↔ f32_le x y = true ∧ f32_eq y x = false.
Proof.
  unfold f32_lt, f32_le, f32_eq, SpecFloat.SFltb, SpecFloat.SFleb, SpecFloat.SFeqb. rewrite (f32_compare_swap x y).
  destruct (SpecFloat.SFcompare x y) as [[]|]; cbn; naive_solver.
Qed.

Lemma f32_finite_comparable x y : f32_is_finite x = true → f32_is_finite y = true → SpecFloat.SFcompare x y ≠ None.
Proof. destruct x as [[]|[]| |[] ? ?], y as [[]|[]| |[] ? ?]; try done; cbn; by destruct (_ ?= _)%Z. Qed.

Lemma f32_between_finite lo v hi :
  f32_is_finite lo = true → f32_is_finite hi = true → f32_le lo v = true → f32_le v hi = true → f32_is_finite v = true.
Proof. by destruct v as [|[]| |], lo as [[]|[]| |[] ? ?], hi as [[]|[]| |[] ? ?]. Qed.

(** ** Stop tokens *)

Lemma dedup_spec l : StronglySorted N.le l → StronglySorted N.lt (dedup l) ∧ (∀ x, x ∈ dedup l ↔ x ∈ l).
Proof.
  induction 1 as [|x l Hs [IH1 IH2] Hall]; cbn [dedup]; [by split; [constructor|]|].
  assert (Forall (N.le x) (dedup l)) as Hd.
  { apply Forall_forall. intros y Hy%IH2. by eapply Forall_forall in Hall. }
  destruct (dedup l) as [|y l'] eqn:Hl.
  - split; [by repeat constructor|]. intros z. specialize (IH2 z). rewrite !elem_of_cons. tauto.
  - inversion Hd as [|?? Hxy Hd']; subst. destruct (N.eqb_spec x y) as [->|Hne].
    + split; [done|]. intros z. specialize (IH2 z). rewrite !elem_of_cons in *. tauto.
    + split; [|intros z; specialize (IH2 z); rewrite !elem_of_cons in *; tauto]. constructor; [done|].
      inversion IH1 as [|?? Hs1 Hall1]; subst. constructor; [lia|].
      eapply Forall_impl; [exact Hall1|]. intros z. cbn. lia.
Qed.

Lemma sort_dedup_spec l : StronglySorted N.lt (sort_dedup l) ∧ (∀ x, x ∈ sort_dedup l ↔ x ∈ l).
Proof.
  unfold sort_dedup. destruct (dedup_spec (merge_sort N.le l)) as [H1 H2].
  - apply StronglySorted_merge_sort; [intros ???; lia|intros a b; lia].
  - split; [done|]. intros x. by rewrite H2, merge_sort_Permutation.
Qed.

(** ** What is accepted *)

Definition opt_all {A} (Q : A → Prop) (o : option A) : Prop := match o with Some x => Q x | None => True end.

(** The documented range of every sampling parameter. *)
Record sampling_in_range (p : RouterSamplingParams) : Prop := {
  sr_temperature : opt_all (λ v, f32_is_finite v = true ∧ f32_le f32_zero v = true) (r_temperature p);
  sr_top_p : opt_all (λ v, f32_lt f32_zero v = true ∧ f32_le v f32_one = true) (r_top_p p);
  sr_min_p : opt_all (λ v, f32_le f32_zero v = true ∧ f32_le v f32_one = true) (r_min_p p);
  sr_frequency : opt_all (λ v, f32_le f32_minus_two v = true ∧ f32_le v f32_two = true) (r_frequency_penalty p);
  sr_presence : opt_all (λ v, f32_le f32_minus_two v = true ∧ f32_le v f32_two = true) (r_presence_penalty p);
  sr_repetition : opt_all (λ v, f32_lt f32_zero v = true ∧ f32_le v f32_two = true) (r_repetition_penalty p);
  sr_top_k : opt_all (λ v, v = -1 ∨ 1 ≤ v)%Z (r_top_k p);
  sr_stop_token : opt_all (λ v, 0 ≤ v)%Z (r_stop_token_id p);
  sr_stop_tokens : Forall (λ v, 0 ≤ v)%Z (r_stop_token_ids p);
  sr_n : opt_all (λ v, v = 1)%Z (r_n p);
  sr_best_of : opt_all (λ v, v = 1)%Z (r_best_of p);
  sr_max_new : opt_all (λ v, 0 < v)%Z (r_max_new_tokens p);
}.

Lemma non_negative_float_ok field v :
  validate_optional_non_negative_float field v = Ok () ↔ opt_all (λ v, f32_is_finite v = true ∧ f32_le f32_zero v = true) v.
Proof.
  destruct v as [v|]; cbn; [|done]. destruct (f32_is_finite v) eqn:Hf; cbn; [|split; [done|by intros []]].
  destruct (f32_lt v f32_zero) eqn:Hlt; (split; [|intros [_ Hle]]); try done.
  - by rewrite (f32_le_not_lt _ _ Hle) in Hlt.
  - intros _. split; [done|]. apply f32_not_lt; [by apply f32_finite_comparable|done].
Qed.

Lemma in_unit_finite v : in_unit v = true → f32_is_finite v = true.
Proof. unfold in_unit. intros [H1 H2]%andb_true_iff. by apply (f32_between_finite f32_zero v f32_one). Qed.

Lemma unit_float_ok field v :
  validate_optional_unit_float field v = Ok () ↔ opt_all (λ v, f32_le f32_zero v = true ∧ f32_le v f32_one = true) v.
Proof.
  destruct v as [v|]; cbn; [|done]. rewrite <-andb_true_iff. change (_ && _)%bool with (in_unit v).
  destruct (in_unit v) eqn:Hu; [rewrite (in_unit_finite v Hu)|cbn; rewrite orb_true_r]; by split.
Qed.

Lemma positive_unit_float_ok field v :
  validate_optional_positive_unit_float field v = Ok () ↔ opt_all (λ v, f32_lt f32_zero v = true ∧ f32_le v f32_one = true) v.
Proof.
  destruct v as [v|]; cbn; [|done]. rewrite f32_lt_cases. unfold in_unit.
  destruct (f32_le f32_zero v) eqn:H1, (f32_le v f32_one) eqn:H2;
    try rewrite (f32_between_finite f32_zero v f32_one) by done;
    destruct (f32_eq v f32_zero) eqn:H3; cbn; rewrite ?orb_true_r; (split; [done|by intros [[??]?]]).
Qed.

Lemma bounded_float_ok field v lo hi :
  f32_is_finite lo = true → f32_is_finite hi = true →
  validate_optional_bounded_float field v lo hi = Ok () ↔ opt_all (λ v, f32_le lo v = true ∧ f32_le v hi = true) v.
Proof.
  intros Hlo Hhi. destruct v as [v|]; cbn; [|done]. split.
  - destruct (f32_is_finite v) eqn:Hf; cbn; [|done].
    destruct (f32_lt v lo) eqn:H1; cbn; [done|]. destruct (f32_lt hi v) eqn:H2; [done|]. intros _.
    split; apply f32_not_lt; try done; by apply f32_finite_comparable.
  - intros [H1 H2]. rewrite (f32_between_finite lo v hi) by done. by rewrite (f32_le_not_lt _ _ H1), (f32_le_not_lt _ _ H2).
Qed.

Lemma non_negative_i32s_ok field vs : validate_non_negative_i32s field vs = Ok () ↔ Forall (λ v, 0 ≤ v)%Z vs.
Proof.
  unfold validate_non_negative_i32s. destruct (list_find _ vs) as [[i v]|] eqn:Hf.
  - split; [done|]. intros Hall. apply list_find_Some in Hf as (Hi&Hneg&_). eapply Forall_lookup_1 in Hall; [|done]. cbn in Hall. lia.
  - split; [|done]. intros _. apply list_find_None in Hf. eapply Forall_impl; [exact Hf|]. cbn. lia.
Qed.

Lemma unit_result_bind {A} (m : Result RouterProtocolError unit) (k : Result RouterProtocolError A) a :
  (let? _ := m in k) = Ok a ↔ m = Ok () ∧ k = Ok a.
Proof. destruct m as [[]|]; cbn; naive_solver. Qed.

Lemma into_sampling_params_ok p sp :
  into_sampling_params p = Ok sp ↔ sampling_in_range p ∧
    sp = mkSamplingParams (match r_max_new_tokens p with Some v => i32_as_usize v | None => DEFAULT_MAX_NEW_TOKENS end)
      (r_temperature p) (r_top_p p) (r_top_k p) (r_min_p p) (r_frequency_penalty p) (r_presence_penalty p) (r_repetition_penalty p)
      (merged_stop_token_ids (r_stop_token_id p) (r_stop_token_ids p)) (default false (r_ignore_eos p)).
Proof.
  unfold into_sampling_params. rewrite !unit_result_bind, result_bind_Ok, non_negative_float_ok, positive_unit_float_ok, unit_float_ok,
    !bounded_float_ok, non_negative_i32s_ok by done.
  assert (Hrep : opt_all (λ v, f32_le f32_zero v = true ∧ f32_le v f32_two = true) (r_repetition_penalty p) ∧
    match r_repetition_penalty p with
    | Some v => if f32_eq v f32_zero then Err (InvalidFloatSamplingParam "repetition_penalty" f32_zero "in (0, 2]") else Ok ()
    | None => Ok ()
    end = Ok () ↔ opt_all (λ v, f32_lt f32_zero v = true ∧ f32_le v f32_two = true) (r_repetition_penalty p)).
  { destruct (r_repetition_penalty p) as [v|]; cbn; [|done]. rewrite f32_lt_cases. destruct (f32_eq v f32_zero); naive_solver. }
  assert (Hk : validate_optional_unbounded_or_positive_i32 "top_k" (r_top_k p) = Ok () ↔ opt_all (λ v, v = -1 ∨ 1 ≤ v)%Z (r_top_k p)).
  { destruct (r_top_k p) as [v|]; cbn; [|done]. destruct (Z.eqb_spec v (-1)), (Z.ltb_spec v 1); cbn; split; done || lia || naive_solver lia. }
  assert (Hs : validate_optional_non_negative_i32 "stop_token_id" (r_stop_token_id p) = Ok () ↔ opt_all (λ v, 0 ≤ v)%Z (r_stop_token_id p)).
  { destruct (r_stop_token_id p) as [v|]; cbn; [|done]. destruct (Z.ltb_spec v 0); split; done || lia. }
  assert (Hn : ∀ f v, validate_optional_positive_i32 f v = Ok () ∧ validate_single_candidate f v = Ok () ↔ opt_all (λ v, v = 1)%Z v).
  { intros f [v|]; cbn; [|done]. destruct (Z.leb_spec v 0), (Z.eqb_spec v 1); cbn; split; try done; naive_solver lia. }
  assert (Hm : ∀ k, validated_max_new_tokens (r_max_new_tokens p) = Ok k ↔ opt_all (λ v, 0 < v)%Z (r_max_new_tokens p) ∧
    k = match r_max_new_tokens p with Some v => i32_as_usize v | None => DEFAULT_MAX_NEW_TOKENS end).
  { intros k. destruct (r_max_new_tokens p) as [v|]; cbn; [|naive_solver]. destruct (Z.leb_spec v 0); split; naive_solver lia. }
  setoid_rewrite Hm. rewrite Hk, Hs. split.
  - intros (?&?&?&?&?&Hr1&Hr2&?&?&?&Hn1&Hb1&Hn2&Hb2&k&[? ->]&[= <-]). split; [|done].
    split; try done; [by apply Hrep|by apply (Hn "n")|by apply (Hn "best_of")].
  - intros [[] ->]. pose proof (proj2 Hrep) as Hrep'. pose proof (λ f v, proj2 (Hn f v)) as Hn'.
    destruct Hrep' as [? ?]; [done|]. destruct (Hn' "n"%string (r_n p)); [done|]. destruct (Hn' "best_of"%string (r_best_of p)); [done|].
    do 14 (split; [done|]). eexists. split; [done|]. done.
Qed.

(** The token budget: the prompt fits the input limit, prompt and new tokens the
    context (sums past [usize::MAX] saturate). *)
Definition budget_fits (input max_new : N) (config : RouterValidationConfig) : Prop :=
  opt_all (λ limit, input ≤ limit) (max_request_input_tokens config) ∧
  opt_all (λ limit, saturating_add input max_new ≤ limit) (max_context_tokens config).

Lemma token_budget_ok input max_new config : validate_token_budget input max_new config = Ok () ↔ budget_fits input max_new config.
Proof.
  unfold validate_token_budget, budget_fits. rewrite unit_result_bind.
  destruct (max_request_input_tokens config) as [l1|], (max_context_tokens config) as [l2|]; cbn;
    try destruct (N.ltb_spec l1 input); try destruct (N.ltb_spec l2 (saturating_add input max_new)); split; naive_solver lia.
Qed.

Lemma i32_as_u32_small v : (0 ≤ v < 2 ^ 31)%Z → i32_as_u32 v = Z.to_N v.
Proof. intros Hv. unfold i32_as_u32. rewrite Z.mod_small; [done|lia]. Qed.

(** C15. A request is accepted exactly when it has a non-empty tokenized input, every
    sampling parameter is in its documented range and the token budget fits.
    What comes out carries the input unchanged and the stop tokens in strictly
    increasing order, each of them once. *)
Theorem request_validation_correct fresh q config :
  (is_Ok (try_into_validated_token_request fresh q config) = true ↔
     ∃ input, tokenized q = Some input ∧ r_input_ids input ≠ [] ∧
       let p := default RouterSamplingParams_default (sampling_params q) in
       sampling_in_range p ∧
       budget_fits (len (r_input_ids input))
         (match r_max_new_tokens p with Some v => i32_as_usize v | None => DEFAULT_MAX_NEW_TOKENS end) config) ∧
  ∀ v, try_into_validated_token_request fresh q config = Ok v →
    let p := default RouterSamplingParams_default (sampling_params q) in
    let sp := token_sampling (v_request v) in
    token_request_id (v_request v) = (if (g_request_id q =? "")%string then fresh else g_request_id q) ∧
    (r_input_ids <$> tokenized q) = Some (token_input_ids (v_request v)) ∧
    v_prompt_tokens v = len (token_input_ids (v_request v)) ∧ v_stream v = g_stream q ∧
    StronglySorted N.lt (stop_token_ids sp) ∧
    ∀ x, x ∈ stop_token_ids sp ↔ ∃ i, (r_stop_token_id p = Some i ∨ i ∈ r_stop_token_ids p) ∧ x = i32_as_u32 i.
Proof.
  unfold try_into_validated_token_request. set (p := default RouterSamplingParams_default (sampling_params q)).
  destruct (tokenized q) as [input|]; cbn [ok_or result_bind]; [|split; [|done]; split; [done|by intros (?&[=]&_)]].
  destruct (N.eqb_spec (len (r_input_ids input)) 0) as [Hz|Hz].
  { split; [|done]. split; [done|]. intros (?&[= <-]&Hne&_). by apply len_0 in Hz. }
  assert (r_input_ids input ≠ []) as Hne by (intros Hnil; apply Hz; by rewrite Hnil).
  destruct (into_sampling_params p) as [sp|e] eqn:Hsp; cbn [result_bind].
  2: { split; [|done]. split; [done|]. intros (?&[= <-]&_&Hr&_).
       by pose proof (proj2 (into_sampling_params_ok p _) (conj Hr eq_refl)) as Hok; rewrite Hsp in Hok. }
  apply into_sampling_params_ok in Hsp as [Hr ->]. cbn [max_new_tokens].
  destruct (validate_token_budget _ _ config) as [[]|e] eqn:Hb; cbn [result_bind].
  2: { split; [|done]. split; [done|]. intros (?&[= <-]&_&_&Hfit). apply token_budget_ok in Hfit. congruence. }
  apply token_budget_ok in Hb. split.
  { split; [|done]. intros _. by exists input. }
  intros v [= <-]. cbn. do 4 (split; [done|]). destruct (sort_dedup_spec
    ((match r_stop_token_id p with Some i => [i32_as_u32 i] | None => [] end) ++ (i32_as_u32 <$> r_stop_token_ids p))) as [Hs Hin].
  split; [exact Hs|]. intros x. rewrite (Hin x), elem_of_app, list_elem_of_fmap.
  destruct (r_stop_token_id p) as [i0|]; [rewrite list_elem_of_singleton|rewrite elem_of_nil]; naive_solver.
Qed.

(** A request with two stop tokens, one of them twice, and a tight budget; one
    token more is too much. *)
Example validation_runs :
  let p := mkRouterSamplingParams (Some 4%Z) (Some f32_half) None (Some (-1)%Z) None None None (Some f32_two) (Some 9%Z) [9%Z; 3%Z] None (Some 1%Z) None in
  let q := mkRouterGenerateRequest "" (Some (mkRouterTokenizedInput "ab" [97; 98])) (Some p) None true 0%Z ∅ in
  match try_into_validated_token_request "fresh" q (mkRouterValidationConfig (Some 6) None) with
  | Ok v => stop_token_ids (token_sampling (v_request v)) = [3; 9] ∧ token_request_id (v_request v) = "fresh"%string
  | Err _ => False
  end ∧
  try_into_validated_token_request "fresh" q (mkRouterValidationConfig (Some 5) None) = Err (ContextOverflow 2 4 5).
Proof. by vm_compute. Qed.

(** ** Collected and streamed responses *)

Lemma output_responses_completes outputs p : ∀ ids s,
  completes (output_responses ids outputs p) = completes (stream_responses (mkStreamState ids p s) outputs).
Proof.
  induction outputs as [|o outputs IH]; intros ids s; cbn [output_responses stream_responses]; [done|].
  unfold responses. cbn [state_output_ids state_prompt_tokens state_stream].
  unfold completes. cbn [omap list_omap body]. destruct (token_finished o); cbn [body].
  - destruct (s && _)%bool; cbn [app omap list_omap body]; f_equal; apply IH.
  - cbn [app omap list_omap body]. apply IH.
Qed.

Lemma completes_filter rs : completes (filter (λ r, is_complete r = true) rs) = completes rs.
Proof.
  unfold completes. induction rs as [|r rs IH]; [done|]. rewrite filter_cons. cbn [omap list_omap].
  destruct (decide (is_complete r = true)) as [Hr|Hr]; cbn [omap list_omap]; unfold is_complete in Hr;
    destruct (body r) eqn:Hb; try done; cbn; by rewrite ?Hb, IH.
Qed.

Lemma stream_chunk_ids outputs p ids : chunk_ids (stream_responses (mkStreamState ids p true) outputs) = outputs ≫= token_output_ids.
Proof.
  revert ids. induction outputs as [|o outputs IH]; intros ids; [done|]. cbn [stream_responses].
  unfold responses. cbn [state_output_ids state_prompt_tokens state_stream andb].
  cbn [mbind list_bind]. unfold chunk_ids in *. destruct (token_finished o).
  - destruct (N.eqb_spec (len (token_output_ids o)) 0) as [Hz|Hz]; cbn [negb app mbind list_bind body chunk_token_ids].
    + apply len_0 in Hz as ->. apply IH.
    + f_equal. apply IH.
  - cbn [app mbind list_bind body chunk_token_ids]. f_equal. apply IH.
Qed.

Lemma token_outputs_completes outputs p s s' :
  completes (token_outputs_to_generate_responses outputs p s) = completes (stream_responses (RouterStreamState_new p s') outputs).
Proof.
  unfold RouterStreamState_new. rewrite <-output_responses_completes.
  unfold token_outputs_to_generate_responses. destruct s; cbn [negb]; [done|]. apply completes_filter.
Qed.

(** The collected responses and the streamed ones end in the same completions,
    whatever the outputs; the chunks of a stream carry all tokens, once, in
    order; without streaming a caller sees completions only. *)
Theorem collected_and_streamed_agree outputs prompt_tokens :
  (∀ s s', completes (token_outputs_to_generate_responses outputs prompt_tokens s) =
           completes (stream_responses (RouterStreamState_new prompt_tokens s') outputs)) ∧
  chunk_ids (stream_responses (RouterStreamState_new prompt_tokens true) outputs) = outputs ≫= token_output_ids ∧
  chunk_ids (token_outputs_to_generate_responses outputs prompt_tokens false) = [].
Proof.
  split; [|split].
  - intros s s'. apply token_outputs_completes.
  - apply stream_chunk_ids.
  - unfold token_outputs_to_generate_responses, chunk_ids. cbn [negb].
    induction (output_responses [] outputs prompt_tokens) as [|r rs IH]; [done|]. rewrite filter_cons.
    destruct (decide (is_complete r = true)) as [Hr|Hr]; [|exact IH]. unfold is_complete in Hr.
    cbn [mbind list_bind]. by destruct (body r).
Qed.

(** ** Streamed text *)

(** What the streams need of a tokenizer: feeding the tokens of a decodable
    sequence one by one spells the same text. *)
Class StreamingTokenizer (V T : Type) `{!Tokenizer V T} : Prop := {
  streaming_law : ∀ (tok : T) ids text, decode tok ids = Ok text →
    ∃ d, step_tokens_text tok (incremental_decoder tok) ids "" = (Ok text, d);
}.

Lemma append_nil_r (s : string) : s +:+ "" = s.
Proof. induction s as [|c s IH]; [done|]. exact (f_equal (String c) IH). Qed.
Lemma append_assoc (s t u : string) : s +:+ (t +:+ u) = (s +:+ t) +:+ u.
Proof. induction s as [|c s IH]; [done|]. exact (f_equal (String c) IH). Qed.

Section StreamText.
Context {V T : Type} `{!Tokenizer V T}.
Implicit Types (tok : T).

Lemma step_text_prefix tok ids : ∀ d text,
  step_tokens_text tok d ids text =
  match step_tokens_text tok d ids "" with (Ok t, d') => (Ok (text +:+ t), d') | (Err e, d') => (Err e, d') end.
Proof.
  induction ids as [|id ids IH]; intros d text; cbn [step_tokens_text]; [by rewrite append_nil_r|].
  destruct (decoder_step tok d id) as [[piece|e] d1]; cbn [st_bind]; [|done].
  destruct piece as [t|]; [|apply IH]. rewrite (IH d1 (text +:+ t)), (IH d1 ("" +:+ t)).
  destruct (step_tokens_text tok d1 ids "") as [[u|e] d2]; [|done]. f_equal. f_equal. cbn. by rewrite append_assoc.
Qed.

Lemma step_text_app tok ids ids' d :
  step_tokens_text tok d (ids ++ ids') "" =
  let! t, d := step_tokens_text tok d ids "" in
  let! u, d := step_tokens_text tok d ids' "" in (Ok (t +:+ u), d).
Proof.
  revert d. induction ids as [|id ids IH]; intros d; cbn [step_tokens_text app st_bind].
  { by destruct (step_tokens_text tok d ids' "") as [[]]. }
  destruct (decoder_step tok d id) as [[piece|e] d1]; cbn [st_bind]; [|done].
  assert (∀ x, step_tokens_text tok d1 (ids ++ ids') x =
    let! t, d := step_tokens_text tok d1 ids x in let! u, d := step_tokens_text tok d ids' "" in (Ok (t +:+ u), d)) as H; [|apply H].
  intros x. rewrite step_text_prefix, IH, (step_text_prefix tok ids d1 x).
  destruct (step_tokens_text tok d1 ids "") as [[t|e] d2]; cbn [st_bind]; [|done].
  destruct (step_tokens_text tok d2 ids' "") as [[u|e] d3]; cbn [st_bind]; [|done]. by rewrite append_assoc.
Qed.

Definition is_last_finished (outputs : list TokenGenerateOutput) : Prop :=
  ∃ init o, outputs = init ++ [o] ∧ Forall (λ o, token_finished o = false) init ∧ token_finished o = true.

Lemma fill_stream_spec tok p outputs : is_last_finished outputs → ∀ ids d t d' full,
  step_tokens_text tok d (outputs ≫= token_output_ids) "" = (Ok t, d') →
  decode tok (ids ++ (outputs ≫= token_output_ids)) = Ok full →
  ∃ rs, fill_stream tok d (stream_responses (mkStreamState ids p true) outputs) = (Ok rs, d') ∧
    chunk_texts rs = t ∧ (complete_text <$> completes rs) = [full] ∧
    (complete_output_ids <$> completes rs) = [ids ++ (outputs ≫= token_output_ids)].
Proof.
  intros (init&o&->&Hinit&Hfin). induction init as [|o' init IH]; intros ids d t d' full; cbn [app].
  - cbn [mbind list_bind stream_responses]. rewrite app_nil_r. intros Hstep Hfull. unfold responses.
    cbn [state_output_ids state_prompt_tokens state_stream andb]. rewrite Hfin.
    destruct (N.eqb_spec (len (token_output_ids o)) 0) as [Hz|Hz]; cbn [negb app fill_stream].
    + apply len_0 in Hz. rewrite Hz in *. cbn in Hstep. injection Hstep as <- <-.
      unfold fill_incremental_response_text. cbn [body complete_output_ids]. rewrite Hfull. cbn [st_bind]. by eexists.
    + unfold fill_incremental_response_text at 1. cbn [body chunk_token_ids chunk_text]. rewrite Hstep. cbn [st_bind].
      unfold fill_incremental_response_text. cbn [body complete_output_ids]. rewrite Hfull. cbn [st_bind].
      eexists. split; [done|]. split; [|done]. cbn. apply append_nil_r.
  - inversion Hinit as [|?? Ho' Hinit']; subst. specialize (IH Hinit'). cbn [mbind list_bind stream_responses].
    rewrite step_text_app. intros Hstep Hfull.
    destruct (step_tokens_text tok d (token_output_ids o') "") as [[t1|e] d1] eqn:H1; cbn [st_bind] in Hstep; [|done].
    destruct (step_tokens_text tok d1 ((init ++ [o]) ≫= token_output_ids) "") as [[t2|e] d2] eqn:H2; cbn [st_bind] in Hstep; [|done].
    injection Hstep as <- <-. rewrite app_assoc in Hfull.
    destruct (IH (ids ++ token_output_ids o') d1 t2 d2 full H2 Hfull) as (rs&Hfill&Hchunk&Hcomp&Hids).
    unfold responses at 1. cbn [state_output_ids state_prompt_tokens state_stream]. rewrite Ho'. cbn [app fill_stream].
    unfold fill_incremental_response_text at 1. cbn [body chunk_token_ids chunk_text]. rewrite H1. cbn [st_bind].
    rewrite Hfill. cbn [st_bind]. eexists. split; [done|]. split; [|split; [exact Hcomp|by rewrite app_assoc]].
    unfold chunk_texts. cbn [fmap list_fmap body chunk_text foldr]. by f_equal.
Qed.

End StreamText.

Lemma byte_steps_stream `{!ChatMessage V} tok ids : ∀ d,
  step_tokens_text (T := ByteTokenizer) tok d ids "" = byte_stream d ids.
Proof.
  induction ids as [|id ids IH]; intros d; [done|]. cbn [step_tokens_text byte_stream].
  change (decoder_step tok d id) with (byte_decoder_step d id).
  destruct (byte_decoder_step d id) as [[piece|e] d1]; cbn [st_bind]; [|done].
  rewrite step_text_prefix, IH. destruct (byte_stream d1 ids) as [[t|e] d2]; cbn [st_bind]; [|done].
  by destruct piece.
Qed.

#[export] Instance ByteTokenizer_streaming `{!ChatMessage V} : StreamingTokenizer V ByteTokenizer.
Proof.
  split. intros tok ids text Hd. exists (mkByteIncrementalDecoder []). rewrite byte_steps_stream.
  apply byte_stream_spec; [done|by left|]. by apply byte_decode_spec.
Qed.

(** The text of a stream: if the tokens of a finished stream decode, then every
    response can be filled, the pieces of the chunks spell the decoded text and
    the completion carries all tokens and that text. *)
Theorem stream_text_spells_output {V T} `{!Tokenizer V T, !StreamingTokenizer V T} (tok : T) prompt_tokens init o text :
  Forall (λ o, token_finished o = false) init → token_finished o = true →
  decode tok ((init ++ [o]) ≫= token_output_ids) = Ok text →
  ∃ rs d, fill_stream tok (incremental_decoder tok) (stream_responses (RouterStreamState_new prompt_tokens true) (init ++ [o])) = (Ok rs, d) ∧
    chunk_texts rs = text ∧ (complete_text <$> completes rs) = [text] ∧
    (complete_output_ids <$> completes rs) = [(init ++ [o]) ≫= token_output_ids].
Proof.
  intros Hinit Ho Hd. destruct (streaming_law tok _ _ Hd) as [d Hs].
  destruct (fill_stream_spec tok prompt_tokens (init ++ [o])) with (ids := @nil N) (d := incremental_decoder tok) (t := text) (d' := d) (full := text)
    as (rs&?&?&?&?); [by exists init, o|done|done|]. by exists rs, d.
Qed.

#[local] Instance no_messages : ChatMessage unit := {| message_content _ := None |}.

(** An accented letter cut between two outputs. *)
Lemma stream_text_spells_output_witness :
  let outputs := [mkTokenGenerateOutput "a" [104; 195] 0 false] in
  let o := mkTokenGenerateOutput "a" [169] 0 true in
  ∃ rs d, fill_stream ByteTokenizer_new (incremental_decoder (V := unit) ByteTokenizer_new)
      (stream_responses (RouterStreamState_new 3 true) (outputs ++ [o])) = (Ok rs, d) ∧
    chunk_texts rs = bytes_string [104; 195; 169] ∧ (complete_text <$> completes rs) = [bytes_string [104; 195; 169]] ∧
    (complete_output_ids <$> completes rs) = [[104; 195; 169]].
Proof.
  apply (stream_text_spells_output (V := unit) ByteTokenizer_new 3).
  - by repeat constructor.
  - done.
  - by vm_compute.
Defined.
