(* ===== verification/RouterRuntime.v ===== *)
(** * The router-facing runtime ([crates/sglang-srt/src/router.rs], [RouterRuntime])

    The object the servers talk to: it validates requests, refuses them while
    generation is paused, adds the model's stop tokens, runs them on a single
    engine or on a data-parallel coordinator, and turns the outputs into
    responses, as tokens or as text.

    The runtime is one record over both kinds of engine.  An operation returns
    the next runtime also with an error; [None] is a panic or the end of the
    fuel of the engine's loops.  Request ids that the clock makes are the
    function [fresh] of the number of the request in the call. *)

From Stdlib Require Import Sorted.
From stdpp Require Import pretty.
From S2P Require Import Prelude Types PageAllocator RadixCache BlockHash StateEvents Request Scheduler Tokenizer Engine Topology DpPool DpScheduler DpSchedulerCorrect DpCoordinator RouterProtocol SchedulerFacts SchedulerCompletion SchedulerCorrect SchedulerDispatch EngineCorrect.
#[local] Open Scope N_scope.

(** ** Messages of the errors a coordinator can report *)

(** [sglang-srt/src/cache.rs:76-98] CacheAllocationError::fmt *)
Definition CacheAllocationError_to_string (e : CacheAllocationError) : string :=
  match e with
  | PageAllocator.ZeroPageSize => "KV cache page size must be non-zero"
  | ZeroSlotCapacity => "KV cache slot capacity must be non-zero"
  | SlotCapacityNotPageAligned slot_capacity page_size =>
      "KV cache slot capacity " +:+ pretty slot_capacity +:+ " must be divisible by page size " +:+ pretty page_size
  | OutOfSlots requested available =>
      "requested " +:+ pretty requested +:+ " KV cache slots but only " +:+ pretty available +:+ " are available"
  end.

(** [distributed/dp_worker_pool.rs:302-321] DpWorkerPoolError::fmt *)
Definition DpWorkerPoolError_to_string (e : DpWorkerPoolError) : string :=
  match e with
  | ZeroSize => "DP worker pool size must be positive"
  | AlreadyShutdown => "DP worker pool is already shut down"
  | DpPool.InvalidRank rank dp_size => "invalid rank " +:+ pretty rank +:+ " for pool of size " +:+ pretty dp_size
  | RankBusy rank => "rank " +:+ pretty rank +:+ " is currently busy executing a batch"
  | ChannelDisconnected rank => "communication channel to rank " +:+ pretty rank +:+ " is disconnected"
  | EventReceiverClosed => "worker event receiver channel closed"
  | Initialization rank reason => "failed to initialize worker for rank " +:+ pretty rank +:+ ": " +:+ reason
  | Spawn rank reason => "failed to spawn thread for rank " +:+ pretty rank +:+ ": " +:+ reason
  end.

(** [distributed/dp_scheduler.rs:487-507] DpSchedulerError::fmt *)
Definition DpSchedulerError_to_string (e : DpSchedulerError) : string :=
  match e with
  | ZeroBatchSize => "max batch size must be positive"
  | DpScheduler.ZeroPageSize => "page size must be positive"
  | AllocatorCountMismatch dp_size allocators =>
      "allocator count (" +:+ pretty allocators +:+ ") must match worker pool DP size (" +:+ pretty dp_size +:+ ")"
  | InvalidRank r => "rank " +:+ pretty r +:+ " is invalid"
  | UnknownSequence sequence rank => "unknown batch sequence " +:+ pretty sequence +:+ " from rank " +:+ pretty rank
  | RankFatal rank error => "fatal error on rank " +:+ pretty rank +:+ ": " +:+ error
  | DpScheduler.Worker e => "worker error: " +:+ WorkerExecutionError_to_string e
  | WorkerPool e => "worker pool error: " +:+ DpWorkerPoolError_to_string e
  | DpScheduler.CacheAllocation e => "cache allocation error: " +:+ CacheAllocationError_to_string e
  end.

(** [sglang-srt/src/tokenizer.rs:27-66] TokenizerError::fmt *)
Definition TokenizerError_to_string (e : TokenizerError) : string :=
  match e with
  | InvalidUtf8 => "token ids are not valid UTF-8 bytes"
  | TokenizerFileNotFound path => "tokenizer.json was not found under " +:+ path
  | Load path message => "failed to load tokenizer " +:+ path +:+ ": " +:+ message
  | Encode message => "tokenizer encode failed: " +:+ message
  | Decode message => "tokenizer decode failed: " +:+ message
  | ChatTemplateUnavailable =>
      "this tokenizer has no Hugging Face chat template; use a completion endpoint or provide a model with tokenizer_config.json/chat_template.jinja"
  | ChatTemplateLoad path message => "failed to load chat template " +:+ path +:+ ": " +:+ message
  | ChatTemplateRender path message => "failed to render chat template " +:+ path +:+ ": " +:+ message
  end.

(** [distributed/dp_coordinator.rs:25-32] DpCoordinatorError::fmt *)
Definition DpCoordinatorError_to_string (e : DpCoordinatorError) : string :=
  match e with
  | CoordinatorScheduler err => "scheduler error: " +:+ DpSchedulerError_to_string err
  | CoordinatorTokenizer err => "tokenizer error: " +:+ TokenizerError_to_string err
  | CoordinatorWorker err => "worker error: " +:+ WorkerExecutionError_to_string err
  | CoordinatorInvalidState msg => msg
  end.

(** ** The runtime *)

(** [sglang-srt/src/router.rs:1778-1781] RouterRuntimeError *)
Inductive RouterRuntimeError : Type :=
  | ProtocolError (error : RouterProtocolError)
  | RuntimeFailure (error : RuntimeError).

(** [sglang-srt/src/router.rs:1801-1812] RouterRuntimeError::from *)
Definition from_runtime_error (value : RuntimeError) : RouterRuntimeError :=
  match value with
  | SchedulerFailure (Request.RunningRequestLimitReached max_running_requests) =>
      ProtocolError (RunningRequestLimitReached max_running_requests)
  | _ => RuntimeFailure value
  end.

(** The closure [|e| RouterRuntimeError::Runtime(RuntimeError::InvalidState(e.to_string()))]. *)
Definition from_coordinator_error (e : DpCoordinatorError) : RouterRuntimeError :=
  RuntimeFailure (InvalidState (DpCoordinatorError_to_string e)).

(** [sglang-srt/src/router.rs:537-540] RouterControlResponse *)
Record RouterControlResponse : Type := mkControl { success : bool; message : string }.

(** [sglang-srt/src/router.rs:543-548] RouterTransferPollResponse *)
Record RouterTransferPollResponse : Type := mkPollResponse {
  poll_completed_batches : N;
  poll_pending_batches : N;
  poll_completed_checksums : list string;
  poll_pending_checksums : list string;
}.

(** [sglang-srt/src/router.rs:551-555] RouterLoadResponse *)
Record RouterLoadResponse : Type := mkLoad {
  load_waiting_queue_depth : N;
  load_decode_queue_depth : N;
  load_available_cache_pages : option N;
}.

(** [sglang-srt/src/router.rs:753-756] RuntimeEngine *)
Inductive RuntimeEngine (T W D P : Type) : Type :=
  | Single (engine : Engine T W P)
  | Dp (coordinator : DpCoordinator T D P).
Arguments Single {T W D P}.
Arguments Dp {T W D P}.

(** [sglang-srt/src/router.rs:758-763] RouterRuntime *)
Record RouterRuntime (T W D P : Type) : Type := mkRouterRuntime {
  runtime_engine : RuntimeEngine T W D P;
  validation_config : RouterValidationConfig;
  default_stop_token_ids : list N;
  generation_paused : bool;
}.
Arguments mkRouterRuntime {T W D P}.
Arguments runtime_engine {T W D P}.
Arguments validation_config {T W D P}.
Arguments default_stop_token_ids {T W D P}.
Arguments generation_paused {T W D P}.

Section Runtime.
Context {V T W D P : Type} `{!Tokenizer V T} `{!WorkerExecutor W} `{!WeightUpdates W} `{!FallibleModelWorker D} `{!KvStateEventPublisher P}.
Context (sha256 : list N → list N) (turn : nat → bool → DpSystem D P → DpSystem D P).

Implicit Types (rt : RouterRuntime T W D P) (e : Engine T W P) (c : DpCoordinator T D P).

Definition set_engine rt (g : RuntimeEngine T W D P) : RouterRuntime T W D P :=
  mkRouterRuntime g (validation_config rt) (default_stop_token_ids rt) (generation_paused rt).
Definition set_paused rt (paused : bool) : RouterRuntime T W D P :=
  mkRouterRuntime (runtime_engine rt) (validation_config rt) (default_stop_token_ids rt) paused.

(** [sglang-srt/src/router.rs:770-780] RouterRuntime::with_validation_config *)
Definition with_validation_config e (config : RouterValidationConfig) : RouterRuntime T W D P :=
  mkRouterRuntime (Single e) config [] false.

(** [sglang-srt/src/router.rs:766-768] RouterRuntime::new *)
Definition RouterRuntime_new e : RouterRuntime T W D P := with_validation_config e (mkRouterValidationConfig None None).

(** [sglang-srt/src/router.rs:782-789] RouterRuntime::from_dp_coordinator *)
Definition from_dp_coordinator c : RouterRuntime T W D P :=
  mkRouterRuntime (Dp c) (mkRouterValidationConfig None None) [] false.

(** [sglang-srt/src/router.rs:791-796] RouterRuntime::with_default_stop_token_ids *)
Definition with_default_stop_token_ids rt (ids : list N) : RouterRuntime T W D P :=
  mkRouterRuntime (runtime_engine rt) (validation_config rt) (sort_dedup ids) (generation_paused rt).

(** The panic is the one of a runtime over a coordinator. *)
(** [sglang-srt/src/router.rs:798-803] RouterRuntime::engine *)
Definition engine_of rt : option (Engine T W P) :=
  match runtime_engine rt with Single e => Some e | Dp _ => None end.

(** [sglang-srt/src/router.rs:823-839] RouterRuntime::load *)
Definition load rt : RouterLoadResponse :=
  match runtime_engine rt with
  | Single e =>
      let s := engine_scheduler e in
      mkLoad (len (Scheduler.waiting_queue s)) (len (Scheduler.decode_queue s)) (Scheduler.available_cache_pages s)
  | Dp c =>
      let s := DpSchedulerCorrect.scheduler (system c) in
      mkLoad (len (DpScheduler.waiting_queue s)) (len (DpScheduler.decode_queue s)) (Some (DpScheduler.available_cache_pages s))
  end.

(** [sglang-srt/src/router.rs:841-847] RouterRuntime::pause_generation *)
Definition pause_generation rt : RouterControlResponse * RouterRuntime T W D P :=
  (mkControl true "generation paused", set_paused rt true).

(** [sglang-srt/src/router.rs:849-855] RouterRuntime::continue_generation *)
Definition continue_generation rt : RouterControlResponse * RouterRuntime T W D P :=
  (mkControl true "generation continued", set_paused rt false).

(** [sglang-srt/src/router.rs:857-885] RouterRuntime::abort_request *)
Definition runtime_abort_request rt (request_id : string)
    : option (Result RouterProtocolError RouterControlResponse * RouterRuntime T W D P) :=
  if (request_id =? "")%string then Some (Err MissingRequestId, rt)
  else
    '(aborted, g) ←
      match runtime_engine rt with
      | Single e => '(aborted, e) ← engine_abort_request e request_id; Some (aborted, Single e)
      | Dp c => '(aborted, c) ← coordinator_abort_request c request_id; Some (aborted, Dp c)
      end;
    Some (Ok (if (aborted : bool) then mkControl true "request aborted" else mkControl false "request not found"), set_engine rt g).

(** [sglang-srt/src/router.rs:887-899] RouterRuntime::abort_all_requests *)
Definition runtime_abort_all_requests rt : option (RouterControlResponse * RouterRuntime T W D P) :=
  '(aborted, g) ←
    match runtime_engine rt with
    | Single e => '(aborted, e) ← engine_abort_all_requests e; Some (aborted, Single e)
    | Dp c => '(aborted, c) ← coordinator_abort_all_requests c; Some (aborted, Dp c)
    end;
  Some (mkControl true ("aborted " +:+ pretty (aborted : N) +:+ " request(s)"), set_engine rt g).

(** [sglang-srt/src/router.rs:901-907] RouterRuntime::ensure_generation_ready *)
Definition ensure_generation_ready rt : Result RouterProtocolError unit :=
  if generation_paused rt then Err GenerationPaused else Ok ().

Definition with_stop_token_ids (q : TokenGenerateRequest) (ids : list N) : TokenGenerateRequest :=
  let p := token_sampling q in
  mkTokenGenerateRequest (token_request_id q) (token_input_ids q)
    (mkSamplingParams (max_new_tokens p) (temperature p) (top_p p) (top_k p) (min_p p) (frequency_penalty p)
       (presence_penalty p) (repetition_penalty p) ids (ignore_eos p))
    (token_disaggregated_params q) (token_data_parallel_rank q).

(** [sglang-srt/src/router.rs:909-923] RouterRuntime::apply_default_stop_token_ids *)
Definition apply_default_stop_token_ids rt (q : TokenGenerateRequest) : TokenGenerateRequest :=
  if ignore_eos (token_sampling q) then q
  else with_stop_token_ids q (sort_dedup (stop_token_ids (token_sampling q) ++ default_stop_token_ids rt)).

(** [sglang-srt/src/router.rs:930-940] RouterRuntime::shutdown *)
Definition runtime_shutdown rt : option (Result RouterRuntimeError N * RouterRuntime T W D P) :=
  match runtime_engine rt with
  | Single e => '(res, e) ← engine_shutdown e; Some (result_map_err from_runtime_error res, set_engine rt (Single e))
  | Dp c => Some (Ok 0, set_engine rt (Dp (coordinator_shutdown c)))
  end.

(** [sglang-srt/src/router.rs:942-962] RouterRuntime::poll_transfers *)
Definition runtime_poll_transfers rt : option (Result RouterRuntimeError RouterTransferPollResponse * RouterRuntime T W D P) :=
  match runtime_engine rt with
  | Single e =>
      '(res, s) ← engine_poll_transfers sha256 (engine_scheduler e);
      Some (result_map_err from_runtime_error
              (let? summary := res in
               Ok (mkPollResponse (completed_batches summary) (pending_batches summary)
                     (completed_descriptor_checksums summary) (pending_descriptor_checksums summary))),
            set_engine rt (Single (set_scheduler e s)))
  | Dp _ => Some (Ok (mkPollResponse 0 0 [] []), rt)
  end.

(** [sglang-srt/src/router.rs:964-975] RouterRuntime::update_weights_from_disk *)
Definition runtime_update_weights rt (q : WorkerWeightUpdateRequest) : Result RouterRuntimeError unit * RouterRuntime T W D P :=
  match runtime_engine rt with
  | Single e => let '(res, e) := Engine.update_weights_from_disk e q in (result_map_err from_runtime_error res, set_engine rt (Single e))
  | Dp _ => (Ok (), rt)
  end.

(** [sglang-srt/src/router.rs:982-987] RouterRuntime::tokenizer *)
Definition runtime_tokenizer rt : T :=
  match runtime_engine rt with Single e => engine_tokenizer e | Dp c => tokenizer c end.

(** [sglang-srt/src/router.rs:989-995] RouterRuntime::tokenize *)
Definition tokenize rt (text : string) : list N := encode (runtime_tokenizer rt) text.

(** [sglang-srt/src/router.rs:997-1006] RouterRuntime::detokenize *)
Definition detokenize rt (token_ids : list N) : Result TokenizerError string := decode (runtime_tokenizer rt) token_ids.

(** [sglang-srt/src/router.rs:1008-1013] RouterRuntime::apply_chat_template *)
Definition runtime_apply_chat_template rt (input : ChatTemplateInput V) : Result TokenizerError string :=
  apply_chat_template (runtime_tokenizer rt) input.

(** [sglang-srt/src/router.rs:1273-1292] RouterRuntime::flush_cache *)
Definition runtime_flush_cache rt : RouterControlResponse * RouterRuntime T W D P :=
  let '(flushed, g) :=
    match runtime_engine rt with
    | Single e => let '(flushed, e) := engine_flush_cache e in (flushed, Single e)
    | Dp c => (true, Dp (coordinator_flush_cache c))
    end in
  (if (flushed : bool) then mkControl true "cache flushed" else mkControl false "", set_engine rt g).

(** ** Running requests *)

(** Runs one of the two engines of the runtime and converts its error. *)
Definition on_engine {A} rt (single : Engine T W P → option (Result RuntimeError A * Engine T W P))
    (dp : DpCoordinator T D P → option (Result DpCoordinatorError A * DpCoordinator T D P))
    : option (Result RouterRuntimeError A * RouterRuntime T W D P) :=
  match runtime_engine rt with
  | Single e => '(res, e) ← single e; Some (result_map_err from_runtime_error res, set_engine rt (Single e))
  | Dp c => '(res, c) ← dp c; Some (result_map_err from_coordinator_error res, set_engine rt (Dp c))
  end.

(** The same for calls that thread the state [x] of a sink. *)
Definition on_engine_sink {C} rt (single : Engine T W P → option (Result RuntimeError unit * C * Engine T W P))
    (dp : DpCoordinator T D P → option (Result DpCoordinatorError unit * C * DpCoordinator T D P))
    : option (Result RouterRuntimeError unit * C * RouterRuntime T W D P) :=
  match runtime_engine rt with
  | Single e => '(res, x, e) ← single e; Some (result_map_err from_runtime_error res, x, set_engine rt (Single e))
  | Dp c => '(res, x, c) ← dp c; Some (result_map_err from_coordinator_error res, x, set_engine rt (Dp c))
  end.

(** A request checked, let through and with its default stop tokens: the prompt
    tokens and the stream flag go into the responses. *)
(** [sglang-srt/src/router.rs:1025-1028] RouterRuntime::generate (admission) *)
Definition admit_request (fresh : string) rt (q : RouterGenerateRequest) : Result RouterProtocolError (Z * bool * TokenGenerateRequest) :=
  let? v := try_into_validated_token_request fresh q (validation_config rt) in
  let? _ := ensure_generation_ready rt in
  Ok (as_i32 (v_prompt_tokens v), v_stream v, apply_default_stop_token_ids rt (v_request v)).

(** [sglang-srt/src/router.rs:1021-1042] RouterRuntime::generate *)
Definition runtime_generate (fresh : nat → string) (fuel : nat) rt (q : RouterGenerateRequest)
    : option (Result RouterRuntimeError RouterGenerateResponse * RouterRuntime T W D P) :=
  match admit_request (fresh 0%nat) rt q with
  | Err error => Some (Err (ProtocolError error), rt)
  | Ok (prompt_tokens, _, token_req) =>
      '(res, rt) ← on_engine rt (λ e, generate_tokens sha256 fuel e token_req)
                               (λ c, coordinator_generate_tokens sha256 turn fuel c token_req);
      Some (let? output := res in Ok (from_token_generate_output output prompt_tokens), rt)
  end.

(** What [generate_stream] and its polling form share; [single] is the call of the engine. *)
Definition stream_responses_of (single : TokenGenerateRequest → Engine T W P → option (Result RuntimeError (list TokenGenerateOutput) * Engine T W P))
    (fresh : nat → string) (fuel : nat) rt (q : RouterGenerateRequest)
    : option (Result RouterRuntimeError (list RouterGenerateResponse) * RouterRuntime T W D P) :=
  match admit_request (fresh 0%nat) rt q with
  | Err error => Some (Err (ProtocolError error), rt)
  | Ok (prompt_tokens, stream, token_req) =>
      '(res, rt) ← on_engine rt (single token_req) (λ c, coordinator_stream sha256 turn fuel c token_req);
      Some (let? outputs := res in Ok (token_outputs_to_generate_responses outputs prompt_tokens stream), rt)
  end.

(** [sglang-srt/src/router.rs:1044-1066] RouterRuntime::generate_stream *)
Definition generate_stream (fresh : nat → string) (fuel : nat) rt (q : RouterGenerateRequest)
    : option (Result RouterRuntimeError (list RouterGenerateResponse) * RouterRuntime T W D P) :=
  stream_responses_of (λ q e, generate_token_stream sha256 fuel e q) fresh fuel rt q.

(** [sglang-srt/src/router.rs:1300-1325] RouterRuntime::generate_stream_with_transfer_polling *)
Definition generate_stream_with_transfer_polling (fresh : nat → string) (fuel : nat) rt (q : RouterGenerateRequest)
    (max_transfer_polls : nat) : option (Result RouterRuntimeError (list RouterGenerateResponse) * RouterRuntime T W D P) :=
  stream_responses_of (λ q e, generate_token_stream_with_transfer_polling sha256 fuel e q max_transfer_polls) fresh fuel rt q.

(** [Iterator::all]: the responses up to the first one that is refused. *)
Fixpoint offer_all {C} (sink : C → RouterGenerateResponse → bool * C) (x : C) (rs : list RouterGenerateResponse) : bool * C :=
  match rs with
  | [] => (true, x)
  | r :: rs => let '(go_on, x) := sink x r in if go_on then offer_all sink x rs else (false, x)
  end.

(** [state.responses(output).into_iter().all(&mut sink)] *)
(** [sglang-srt/src/router.rs:1085-1087] RouterRuntime::generate_stream_with_sink (sink) *)
Definition response_sink {C} (sink : C → RouterGenerateResponse → bool * C) (x : RouterStreamState * C)
    (output : TokenGenerateOutput) : bool * (RouterStreamState * C) :=
  let '(rs, state) := responses x.1 output in
  let '(go_on, x) := offer_all sink x.2 rs in
  (go_on, (state, x)).

(** What [generate_stream_with_sink] and its polling form share. *)
Definition stream_with_sink_of {C}
    (single : TokenGenerateRequest → Engine T W P → RouterStreamState * C →
              option (Result RuntimeError unit * (RouterStreamState * C) * Engine T W P))
    (fresh : nat → string) (fuel : nat) rt (q : RouterGenerateRequest)
    (sink : C → RouterGenerateResponse → bool * C) (x : C)
    : option (Result RouterRuntimeError unit * C * RouterRuntime T W D P) :=
  match admit_request (fresh 0%nat) rt q with
  | Err error => Some (Err (ProtocolError error), x, rt)
  | Ok (prompt_tokens, stream, token_req) =>
      let state := RouterStreamState_new prompt_tokens stream in
      '(res, x, rt) ← on_engine_sink rt (λ e, single token_req e (state, x))
                        (λ c, coordinator_stream_with_sink sha256 turn fuel c token_req (response_sink sink) (state, x));
      Some (res, x.2, rt)
  end.

(** [sglang-srt/src/router.rs:1068-1100] RouterRuntime::generate_stream_with_sink *)
Definition generate_stream_with_sink {C} (fresh : nat → string) (fuel : nat) rt (q : RouterGenerateRequest)
    (sink : C → RouterGenerateResponse → bool * C) (x : C)
    : option (Result RouterRuntimeError unit * C * RouterRuntime T W D P) :=
  stream_with_sink_of (λ q e, generate_token_stream_with_sink sha256 fuel e q (response_sink sink)) fresh fuel rt q sink x.

(** [sglang-srt/src/router.rs:1327-1362] RouterRuntime::generate_stream_with_transfer_polling_sink *)
Definition generate_stream_with_transfer_polling_sink {C} (fresh : nat → string) (fuel : nat) rt (q : RouterGenerateRequest)
    (max_transfer_polls : nat) (sink : C → RouterGenerateResponse → bool * C) (x : C)
    : option (Result RouterRuntimeError unit * C * RouterRuntime T W D P) :=
  stream_with_sink_of (λ q e, generate_token_stream_with_transfer_polling_sink sha256 fuel e q max_transfer_polls (response_sink sink))
    fresh fuel rt q sink x.

(** ** Batches *)

(** Every request of the batch checked before the pause is looked at. *)
(** [sglang-srt/src/router.rs:1109-1115] RouterRuntime::generate_batch_stream (validation) *)
Fixpoint admit_batch (fresh : nat → string) rt (qs : list RouterGenerateRequest)
    : Result RouterProtocolError (list (Z * bool * TokenGenerateRequest)) :=
  match qs with
  | [] => Ok []
  | q :: qs =>
      let? v := try_into_validated_token_request (fresh 0%nat) q (validation_config rt) in
      let? vs := admit_batch (λ n, fresh (S n)) rt qs in
      Ok ((as_i32 (v_prompt_tokens v), v_stream v, apply_default_stop_token_ids rt (v_request v)) :: vs)
  end.

(** [sglang-srt/src/router.rs:1120-1129] RouterRuntime::generate_batch_stream (coordinator) *)
Fixpoint coordinator_batch (fuel : nat) c (qs : list TokenGenerateRequest)
    : option (Result DpCoordinatorError (list (list TokenGenerateOutput)) * DpCoordinator T D P) :=
  match qs with
  | [] => Some (Ok [], c)
  | q :: qs =>
      let* outputs, c := coordinator_stream sha256 turn fuel c q in
      let* batch_outputs, c := coordinator_batch fuel c qs in
      Some (Ok (outputs :: batch_outputs), c)
  end.

(** What [generate_batch_stream] and its polling form share. *)
Definition batch_responses_of
    (single : list TokenGenerateRequest → Engine T W P → option (Result RuntimeError (list (list TokenGenerateOutput)) * Engine T W P))
    (fresh : nat → string) (fuel : nat) rt (qs : list RouterGenerateRequest)
    : option (Result RouterRuntimeError (list (list RouterGenerateResponse)) * RouterRuntime T W D P) :=
  match (let? vs := admit_batch fresh rt qs in let? _ := ensure_generation_ready rt in Ok vs) with
  | Err error => Some (Err (ProtocolError error), rt)
  | Ok vs =>
      '(res, rt) ← on_engine rt (single (snd <$> vs)) (λ c, coordinator_batch fuel c (snd <$> vs));
      Some (let? batch_outputs := res in
            Ok (zip_with (λ outputs v, token_outputs_to_generate_responses outputs v.1.1 v.1.2) batch_outputs vs), rt)
  end.

(** [sglang-srt/src/router.rs:1102-1139] RouterRuntime::generate_batch_stream *)
Definition generate_batch_stream (fresh : nat → string) (fuel : nat) rt (qs : list RouterGenerateRequest)
    : option (Result RouterRuntimeError (list (list RouterGenerateResponse)) * RouterRuntime T W D P) :=
  batch_responses_of (λ qs e, generate_token_batch_stream sha256 fuel e qs) fresh fuel rt qs.

(** [sglang-srt/src/router.rs:1364-1406] RouterRuntime::generate_batch_stream_with_transfer_polling *)
Definition generate_batch_stream_with_transfer_polling (fresh : nat → string) (fuel : nat) rt (qs : list RouterGenerateRequest)
    (max_transfer_polls : nat) : option (Result RouterRuntimeError (list (list RouterGenerateResponse)) * RouterRuntime T W D P) :=
  batch_responses_of (λ qs e, generate_token_batch_stream_with_transfer_polling sha256 fuel e qs max_transfer_polls) fresh fuel rt qs.

(** ** Text *)

Definition tokenizer_failure (e : TokenizerError) : RouterRuntimeError := from_runtime_error (TokenizerFailure e).

(** [sglang-srt/src/router.rs:1150-1161] RouterRuntime::generate_text_stream (tokenized request) *)
Definition tokenized_request rt (q : RouterTextGenerateRequest) (stream : bool) : RouterGenerateRequest :=
  mkRouterGenerateRequest (t_request_id q) (Some (mkRouterTokenizedInput (t_text q) (tokenize rt (t_text q))))
    (t_sampling_params q) (t_disaggregated_params q) stream (t_data_parallel_rank q) (t_trace_headers q).

(** [sglang-srt/src/router.rs:1163-1165] RouterRuntime::generate_text_stream (filling) *)
Fixpoint fill_all (tok : T) (rs : list RouterGenerateResponse) : Result RouterRuntimeError (list RouterGenerateResponse) :=
  match rs with
  | [] => Ok []
  | r :: rs =>
      let? r := result_map_err tokenizer_failure (fill_generate_response_text tok r) in
      let? rs := fill_all tok rs in
      Ok (r :: rs)
  end.

(** [sglang-srt/src/router.rs:1240-1245] RouterRuntime::generate_text_batch_stream (filling) *)
Fixpoint fill_batch (tok : T) (batch : list (list RouterGenerateResponse))
    : Result RouterRuntimeError (list (list RouterGenerateResponse)) :=
  match batch with
  | [] => Ok []
  | rs :: batch => let? rs := fill_all tok rs in let? batch := fill_batch tok batch in Ok (rs :: batch)
  end.

(** What the two collected text streams share; [run] is the token stream. *)
Definition text_stream_of (run : RouterGenerateRequest → option (Result RouterRuntimeError (list RouterGenerateResponse) * RouterRuntime T W D P))
    rt (q : RouterTextGenerateRequest) : option (Result RouterRuntimeError (list RouterGenerateResponse) * RouterRuntime T W D P) :=
  if (t_text q =? "")%string then Some (Err (ProtocolError EmptyTextInput), rt)
  else
    '(res, rt') ← run (tokenized_request rt q (t_stream q));
    Some (let? rs := res in fill_all (runtime_tokenizer rt) rs, rt').

(** [sglang-srt/src/router.rs:1141-1168] RouterRuntime::generate_text_stream *)
Definition generate_text_stream (fresh : nat → string) (fuel : nat) rt (q : RouterTextGenerateRequest)
    : option (Result RouterRuntimeError (list RouterGenerateResponse) * RouterRuntime T W D P) :=
  text_stream_of (generate_stream fresh fuel rt) rt q.

(** [sglang-srt/src/router.rs:1408-1439] RouterRuntime::generate_text_stream_with_transfer_polling *)
Definition generate_text_stream_with_transfer_polling (fresh : nat → string) (fuel : nat) rt (q : RouterTextGenerateRequest)
    (max_transfer_polls : nat) : option (Result RouterRuntimeError (list RouterGenerateResponse) * RouterRuntime T W D P) :=
  text_stream_of (λ q, generate_stream_with_transfer_polling fresh fuel rt q max_transfer_polls) rt q.

(** The closure around the caller's sink: it threads the decoder and keeps the
    first decoding error, which also ends the stream. *)
(** [sglang-srt/src/router.rs:1199-1207] RouterRuntime::generate_text_stream_with_sink (sink) *)
Definition text_sink {C} (tok : T) (sink : C → RouterGenerateResponse → bool * C)
    (x : decoder (T := T) * option RouterRuntimeError * C) (r : RouterGenerateResponse)
    : bool * (decoder (T := T) * option RouterRuntimeError * C) :=
  let '(d, decode_error, x) := x in
  match fill_incremental_response_text tok d r with
  | (Err error, d) => (false, (d, Some (tokenizer_failure error), x))
  | (Ok r, d) => let '(go_on, x) := sink x r in (go_on, (d, decode_error, x))
  end.

(** What the two text streams with a sink share. *)
Definition text_stream_with_sink_of {C}
    (run : RouterGenerateRequest → (decoder (T := T) * option RouterRuntimeError * C) →
           option (Result RouterRuntimeError unit * (decoder (T := T) * option RouterRuntimeError * C) * RouterRuntime T W D P))
    rt (q : RouterTextGenerateRequest) (x : C) : option (Result RouterRuntimeError unit * C * RouterRuntime T W D P) :=
  if (t_text q =? "")%string then Some (Err (ProtocolError EmptyTextInput), x, rt)
  else
    '(res, (_, decode_error, x), rt) ← run (tokenized_request rt q true) (incremental_decoder (runtime_tokenizer rt), None, x);
    Some (match res, decode_error with
          | Err e, _ => Err e
          | Ok _, Some error => Err error
          | Ok _, None => Ok ()
          end, x, rt).

(** [sglang-srt/src/router.rs:1170-1213] RouterRuntime::generate_text_stream_with_sink *)
Definition generate_text_stream_with_sink {C} (fresh : nat → string) (fuel : nat) rt (q : RouterTextGenerateRequest)
    (sink : C → RouterGenerateResponse → bool * C) (x : C) : option (Result RouterRuntimeError unit * C * RouterRuntime T W D P) :=
  text_stream_with_sink_of (λ q, generate_stream_with_sink fresh fuel rt q (text_sink (runtime_tokenizer rt) sink)) rt q x.

(** [sglang-srt/src/router.rs:1441-1486] RouterRuntime::generate_text_stream_with_transfer_polling_sink *)
Definition generate_text_stream_with_transfer_polling_sink {C} (fresh : nat → string) (fuel : nat) rt
    (q : RouterTextGenerateRequest) (max_transfer_polls : nat)
    (sink : C → RouterGenerateResponse → bool * C) (x : C) : option (Result RouterRuntimeError unit * C * RouterRuntime T W D P) :=
  text_stream_with_sink_of
    (λ q, generate_stream_with_transfer_polling_sink fresh fuel rt q max_transfer_polls (text_sink (runtime_tokenizer rt) sink)) rt q x.

(** [sglang-srt/src/router.rs:1219-1238] RouterRuntime::generate_text_batch_stream (tokenizing) *)
Fixpoint tokenized_requests rt (qs : list RouterTextGenerateRequest) : Result RouterRuntimeError (list RouterGenerateRequest) :=
  match qs with
  | [] => Ok []
  | q :: qs =>
      if (t_text q =? "")%string then Err (ProtocolError EmptyTextInput)
      else let? rest := tokenized_requests rt qs in Ok (tokenized_request rt q (t_stream q) :: rest)
  end.

(** What the two text batches share. *)
Definition text_batch_of
    (run : list RouterGenerateRequest → option (Result RouterRuntimeError (list (list RouterGenerateResponse)) * RouterRuntime T W D P))
    rt (qs : list RouterTextGenerateRequest)
    : option (Result RouterRuntimeError (list (list RouterGenerateResponse)) * RouterRuntime T W D P) :=
  match tokenized_requests rt qs with
  | Err e => Some (Err e, rt)
  | Ok qs =>
      '(res, rt') ← run qs;
      Some (let? batch := res in fill_batch (runtime_tokenizer rt) batch, rt')
  end.

(** [sglang-srt/src/router.rs:1215-1248] RouterRuntime::generate_text_batch_stream *)
Definition generate_text_batch_stream (fresh : nat → string) (fuel : nat) rt (qs : list RouterTextGenerateRequest)
    : option (Result RouterRuntimeError (list (list RouterGenerateResponse)) * RouterRuntime T W D P) :=
  text_batch_of (generate_batch_stream fresh fuel rt) rt qs.

(** [sglang-srt/src/router.rs:1488-1523] RouterRuntime::generate_text_batch_stream_with_transfer_polling *)
Definition generate_text_batch_stream_with_transfer_polling (fresh : nat → string) (fuel : nat) rt
    (qs : list RouterTextGenerateRequest) (max_transfer_polls : nat)
    : option (Result RouterRuntimeError (list (list RouterGenerateResponse)) * RouterRuntime T W D P) :=
  text_batch_of (λ qs, generate_batch_stream_with_transfer_polling fresh fuel rt qs max_transfer_polls) rt qs.

End Runtime.

(** ** What is let through *)

Lemma validated_shape fresh q config v : try_into_validated_token_request fresh q config = Ok v →
  v_stream v = g_stream q ∧ v_prompt_tokens v = len (token_input_ids (v_request v)) ∧ v_prompt_tokens v ≠ 0.
Proof.
  unfold try_into_validated_token_request. destruct (tokenized q) as [input|]; cbn [ok_or result_bind]; [|done].
  destruct (N.eqb_spec (len (r_input_ids input)) 0) as [|Hz]; [done|].
  destruct (into_sampling_params _) as [sp|]; cbn [result_bind]; [|done].
  destruct (validate_token_budget _ _ _) as [|]; cbn [result_bind]; [|done]. by intros [= <-].
Qed.

(** Sorted lists without repetition are equal when they have the same members. *)
Lemma sorted_lt_ext (l k : list N) : StronglySorted N.lt l → StronglySorted N.lt k → (∀ x, x ∈ l ↔ x ∈ k) → l = k.
Proof.
  revert k. induction l as [|a l IH]; intros [|b k] Hl Hk Hx; [done| | |].
  { by destruct (not_elem_of_nil b); apply Hx; left. }
  { by destruct (not_elem_of_nil a); apply Hx; left. }
  inversion Hl as [|?? Hl' Hal]; inversion Hk as [|?? Hk' Hbk]; subst. rewrite Forall_forall in Hal, Hbk.
  assert (a = b) as <-.
  { pose proof (proj1 (Hx a) (list_elem_of_here _ _)) as [|Ha]%elem_of_cons; [done|].
    pose proof (proj2 (Hx b) (list_elem_of_here _ _)) as [|Hb]%elem_of_cons; [done|]. specialize (Hal b Hb). specialize (Hbk a Ha). lia. }
  f_equal. apply IH; [done..|]. intros x. specialize (Hx x). rewrite !elem_of_cons in Hx.
  split; intros Hin; [specialize (Hal x Hin)|specialize (Hbk x Hin)]; destruct Hx as [H1 H2];
    [destruct H1 as [|]|destruct H2 as [|]]; try done; [by right|lia|by right|lia].
Qed.

Lemma sort_dedup_absorb l d : sort_dedup (sort_dedup (l ++ d) ++ d) = sort_dedup (l ++ d).
Proof.
  destruct (sort_dedup_spec (l ++ d)) as [Hs Hin], (sort_dedup_spec (sort_dedup (l ++ d) ++ d)) as [Hs' Hin'].
  apply sorted_lt_ext; [done..|]. intros x. rewrite Hin', elem_of_app, Hin, elem_of_app. tauto.
Qed.

Section Admission.
Context {T W D P : Type}.

Implicit Types (rt : RouterRuntime T W D P).

Lemma admit_Ok fresh rt q prompt_tokens stream token_req :
  admit_request fresh rt q = Ok (prompt_tokens, stream, token_req) →
  ∃ v, try_into_validated_token_request fresh q (validation_config rt) = Ok v ∧ generation_paused rt = false ∧
    prompt_tokens = as_i32 (v_prompt_tokens v) ∧ stream = g_stream q ∧ token_req = apply_default_stop_token_ids rt (v_request v).
Proof.
  unfold admit_request, ensure_generation_ready. destruct (try_into_validated_token_request _ _ _) as [v|] eqn:Hv; cbn [result_bind]; [|done].
  destruct (generation_paused rt); cbn [result_bind]; [done|]. intros [= <- <- <-].
  exists v. by destruct (validated_shape _ _ _ _ Hv) as [-> _].
Qed.

(** A request let through is its own tokens, parameters and rank with the stop
    tokens of the model added, unless it ignores the end of sequence: in strictly
    increasing order, each once, so that adding them again changes nothing.
    Nothing is let through while generation is paused. *)
Theorem admitted_request_correct fresh rt q prompt_tokens stream token_req :
  admit_request fresh rt q = Ok (prompt_tokens, stream, token_req) →
  ∃ v, try_into_validated_token_request fresh q (validation_config rt) = Ok v ∧ generation_paused rt = false ∧
    stream = g_stream q ∧ prompt_tokens = as_i32 (len (token_input_ids token_req)) ∧
    token_req = with_stop_token_ids (v_request v) (stop_token_ids (token_sampling token_req)) ∧
    (ignore_eos (token_sampling token_req) = false → StronglySorted N.lt (stop_token_ids (token_sampling token_req))) ∧
    (∀ x, x ∈ stop_token_ids (token_sampling token_req) ↔
      x ∈ stop_token_ids (token_sampling (v_request v)) ∨
      ignore_eos (token_sampling token_req) = false ∧ x ∈ default_stop_token_ids rt) ∧
    apply_default_stop_token_ids rt token_req = token_req.
Proof.
  intros (v&Hv&Hp&->&->&->)%admit_Ok. exists v. split; [done|]. split; [done|]. split; [done|].
  destruct (validated_shape _ _ _ _ Hv) as (_&->&_). unfold apply_default_stop_token_ids.
  destruct v as [? ? [rid ids [] ? ?]]. cbn -[sort_dedup elem_of]. destruct ignore_eos; cbn -[sort_dedup elem_of].
  - do 3 (split; [done|]). split; [|done]. intros x. split; [by left|by intros [|[]]].
  - match goal with |- context [sort_dedup ?l] => destruct (sort_dedup_spec l) as [Hs Hin] end.
    do 2 (split; [done|]). split; [done|]. split; [|by rewrite sort_dedup_absorb].
    intros x. rewrite Hin, elem_of_app. naive_solver.
Qed.

End Admission.

(** ** One run, seen by two sinks *)

Section Facts.
Context {V T W D P : Type} `{!Tokenizer V T} `{!WorkerExecutor W} `{!WeightUpdates W} `{!FallibleModelWorker D} `{!KvStateEventPublisher P}.
Context (sha256 : list N → list N) (turn : nat → bool → DpSystem D P → DpSystem D P).

Implicit Types (rt : RouterRuntime T W D P) (e : Engine T W P) (c : DpCoordinator T D P).

(** Two sinks that give the same verdicts, with states in a relation they keep. *)
Definition in_step {C1 C2 O} (R : C1 → C2 → Prop) (sink1 : C1 → O → bool * C1) (sink2 : C2 → O → bool * C2) : Prop :=
  ∀ x1 x2 o, R x1 x2 → ∃ v x1' x2', sink1 x1 o = (v, x1') ∧ sink2 x2 o = (v, x2') ∧ R x1' x2'.

Definition same_run {A C1 C2 S} (R : C1 → C2 → Prop) (m1 : option (A * C1 * S)) (m2 : option (A * C2 * S)) : Prop :=
  match m1, m2 with
  | Some (a1, x1, s1), Some (a2, x2, s2) => a1 = a2 ∧ s1 = s2 ∧ R x1 x2
  | None, None => True
  | _, _ => False
  end.

Lemma stream_loop_same {C1 C2 X} (R : C1 → C2 → Prop) sink1 sink2
    (next : X → Scheduler W P → option (Result RuntimeError ScheduledOutput * X * Scheduler W P)) fuel rid :
  in_step R sink1 sink2 → ∀ s x1 x2 x o, R x1 x2 →
  same_run R (stream_loop next fuel rid sink1 s x1 x o) (stream_loop next fuel rid sink2 s x2 x o).
Proof.
  intros Hstep. induction fuel as [|fuel IH]; intros s x1 x2 x o HR; [done|]. cbn [stream_loop].
  destruct (Hstep x1 x2 o HR) as (v&x1'&x2'&->&->&HR'). destruct v; cbn [negb]; [|by destruct (abort_quietly s rid)].
  destruct (finished o); [done|].
  destruct (next x s) as [[[[o'|err] x'] s']|]; cbn [mbind option_bind]; [by apply IH| |done].
  destruct (negb (is_decode_not_ready err)); [|done]. by destruct (abort_quietly s' rid).
Qed.

Lemma start_stream_same {C1 C2 X} (R : C1 → C2 → Prop) sink1 sink2
    (next : X → Scheduler W P → option (Result RuntimeError ScheduledOutput * X * Scheduler W P)) fuel s r x1 x2 x :
  in_step R sink1 sink2 → R x1 x2 →
  same_run R (start_stream sha256 next fuel s r sink1 x1 x) (start_stream sha256 next fuel s r sink2 x2 x).
Proof.
  intros Hstep HR. unfold start_stream. destruct (dispatch_next sha256 fuel (Scheduler.enqueue s r)) as [[[o|err] s']|]; cbn [mbind option_bind];
    [by apply stream_loop_same| |done]. by destruct (abort_quietly s' _).
Qed.

Lemma feed_sink_same {C1 C2} (R : C1 → C2 → Prop) sink1 sink2 target items :
  in_step R sink1 sink2 → ∀ x1 x2, R x1 x2 →
  ∃ verdict x1' x2', feed_sink target sink1 x1 items = (verdict, x1') ∧ feed_sink target sink2 x2 items = (verdict, x2') ∧
    R x1' x2'.
Proof.
  intros Hstep. induction items as [|item items IH]; intros x1 x2 HR; cbn [feed_sink]; [by eexists _, _, _|].
  destruct (decide _); [|by apply IH]. destruct (Hstep x1 x2 (token_output_of item) HR) as ([]&x1'&x2'&->&->&HR'); cbn [negb]; [|by eexists _, _, _].
  destruct (finished item); [by eexists _, _, _|by apply IH].
Qed.

Lemma token_loop_same {C1 C2} (R : C1 → C2 → Prop) sink1 sink2 target fuel :
  in_step R sink1 sink2 → ∀ x1 x2 y, R x1 x2 →
  same_run R (token_loop sha256 turn fuel target sink1 x1 y) (token_loop sha256 turn fuel target sink2 x2 y).
Proof.
  intros Hstep. induction fuel as [|fuel IH]; intros x1 x2 y HR; [done|]. cbn [token_loop].
  destruct (run_step sha256 turn fuel y) as [[[u|err] y1]|]; cbn [mbind option_bind]; [|done..].
  destruct (take_step y1) as [outputs y2].
  destruct (feed_sink_same R sink1 sink2 target outputs Hstep x1 x2 HR) as (v&x1'&x2'&->&->&HR').
  destruct v; [|by destruct (abort_request _ _) as [[]|]|done]. destruct (negb _); [|done].
  destruct (run_step_blocking sha256 turn fuel y2) as [[[u'|err] y3]|]; cbn [mbind option_bind]; [|done..]. by apply IH.
Qed.

(** ** The sink over the responses *)

(** The stream state after some outputs. *)
Definition state_after (st : RouterStreamState) (outputs : list TokenGenerateOutput) : RouterStreamState :=
  mkStreamState (state_output_ids st ++ (outputs ≫= token_output_ids)) (state_prompt_tokens st) (state_stream st).

Lemma responses_state st o : (responses st o).2 = state_after st [o].
Proof.
  unfold responses, state_after. cbn [mbind list_bind]. rewrite app_nil_r.
  by destruct (token_finished o); [destruct (_ && _)%bool|].
Qed.

Lemma state_after_app st os os' : state_after (state_after st os) os' = state_after st (os ++ os').
Proof. unfold state_after. cbn. by rewrite bind_app, app_assoc. Qed.

Lemma state_after_nil st : state_after st [] = st.
Proof. destruct st. unfold state_after. cbn. by rewrite app_nil_r. Qed.

Lemma stream_responses_app os : ∀ st os',
  stream_responses st (os ++ os') = stream_responses st os ++ stream_responses (state_after st os) os'.
Proof.
  induction os as [|o os IH]; intros st os'; cbn [stream_responses app]; [by rewrite state_after_nil|].
  pose proof (responses_state st o) as Hst. destruct (responses st o) as [rs st']. cbn in Hst. subst st'.
  rewrite IH, app_assoc, state_after_app. done.
Qed.

Lemma offer_all_push (rs : list RouterGenerateResponse) : ∀ acc, offer_all push_sink acc rs = (true, acc ++ rs).
Proof. induction rs as [|r rs IH]; intros acc; cbn; [by rewrite app_nil_r|]. by rewrite IH, <-app_assoc. Qed.

(** What a collecting sink has after some outputs, with and without responses. *)
Definition collected (st : RouterStreamState) (outputs : list TokenGenerateOutput)
    (x : RouterStreamState * list RouterGenerateResponse) : Prop :=
  x = (state_after st outputs, stream_responses st outputs).

Lemma collected_in_step st : in_step (collected st) push_sink (response_sink push_sink).
Proof.
  intros outputs x o ->. unfold response_sink. cbn [fst snd].
  pose proof (responses_state (state_after st outputs) o) as Hst.
  destruct (responses (state_after st outputs) o) as [rs st'] eqn:Hr. cbn in Hst. subst st'. rewrite offer_all_push.
  eexists _, _, _. split; [done|]. split; [done|]. unfold collected. rewrite state_after_app, stream_responses_app.
  cbn [stream_responses]. by rewrite Hr, app_nil_r.
Qed.

Lemma collected_in_step_scheduled st : in_step (collected st) (token_sink push_sink) (token_sink (response_sink push_sink)).
Proof. intros x1 x2 o. apply collected_in_step. Qed.

Lemma same_run_map {A C1 C2 S S'} (R : C1 → C2 → Prop) (f : S → S') (m1 : option (A * C1 * S)) (m2 : option (A * C2 * S)) :
  same_run R m1 m2 →
  same_run R ('(a, c, s) ← m1; Some (a, c, f s)) ('(a, c, s) ← m2; Some (a, c, f s)).
Proof. destruct m1 as [[[a1 c1] s1]|], m2 as [[[a2 c2] s2]|]; cbn; try done. by intros (->&->&?). Qed.

(** The streams of both engines, with polls and without, give the collecting
    sink the responses of the outputs they would return. *)
Lemma engine_collects e q st fuel :
  same_run (collected st) (generate_token_stream_with_sink sha256 fuel e q push_sink [])
    (generate_token_stream_with_sink sha256 fuel e q (response_sink push_sink) (st, [])).
Proof.
  apply (same_run_map (collected st) (set_scheduler e)). apply start_stream_same; [apply collected_in_step_scheduled|].
  unfold collected. by rewrite state_after_nil.
Qed.

Lemma polling_engine_collects e q st fuel polls :
  same_run (collected st) (generate_token_stream_with_transfer_polling_sink sha256 fuel e q polls push_sink [])
    (generate_token_stream_with_transfer_polling_sink sha256 fuel e q polls (response_sink push_sink) (st, [])).
Proof.
  apply (same_run_map (collected st) (set_scheduler e)). apply start_stream_same; [apply collected_in_step_scheduled|].
  unfold collected. by rewrite state_after_nil.
Qed.

Lemma coordinator_collects c q st fuel :
  same_run (collected st) (coordinator_stream_with_sink sha256 turn fuel c q push_sink [])
    (coordinator_stream_with_sink sha256 turn fuel c q (response_sink push_sink) (st, [])).
Proof.
  apply (same_run_map (collected st) (set_system (enqueue_token_request c q))). apply token_loop_same; [apply collected_in_step|].
  unfold collected. by rewrite state_after_nil.
Qed.

(** Two runs of a stream, one collected and one through a sink, which end alike. *)
Definition streams_agree (m1 : option (Result RouterRuntimeError (list RouterGenerateResponse) * RouterRuntime T W D P))
    (m2 : option (Result RouterRuntimeError unit * list RouterGenerateResponse * RouterRuntime T W D P)) : Prop :=
  match m1, m2 with
  | Some (Ok rs, rt1), Some (Ok _, rs', rt2) => rt1 = rt2 ∧ completes rs = completes rs'
  | Some (Err e1, rt1), Some (Err e2, _, rt2) => rt1 = rt2 ∧ e1 = e2
  | None, None => True
  | _, _ => False
  end.

Lemma stream_with_sink_agrees fresh fuel rt q single single_sink :
  (∀ tq e st, ∃ m1, same_run (collected st) m1 (single_sink tq e (st, [])) ∧
    single tq e = ('(res, outputs, e) ← m1; Some (let? u := res in Ok outputs, e))) →
  streams_agree (stream_responses_of sha256 turn single fresh fuel rt q)
    (stream_with_sink_of sha256 turn single_sink fresh fuel rt q push_sink []).
Proof.
  intros Hsingle. unfold stream_responses_of, stream_with_sink_of.
  destruct (admit_request (fresh 0%nat) rt q) as [[[p stream] tq]|e]; [|done].
  unfold on_engine, on_engine_sink. destruct (runtime_engine rt) as [e|c].
  - destruct (Hsingle tq e (RouterStreamState_new p stream)) as (m1&Hrun&->).
    destruct m1 as [[[res1 outs] e1]|], (single_sink tq e _) as [[[res2 [st rs]] e2]|]; cbn in Hrun; try done.
    destruct Hrun as (<-&<-&[= -> ->]). cbn [mbind option_bind]. destruct res1 as [u|err]; cbn; [|done]. split; [done|].
    apply token_outputs_completes.
  - unfold coordinator_stream. pose proof (coordinator_collects c tq (RouterStreamState_new p stream) fuel) as Hrun.
    destruct (coordinator_stream_with_sink sha256 turn fuel c tq push_sink []) as [[[res1 outs] c1]|],
      (coordinator_stream_with_sink sha256 turn fuel c tq (response_sink push_sink) _) as [[[res2 [st rs]] c2]|]; cbn in Hrun; try done.
    destruct Hrun as (<-&<-&[= -> ->]). cbn [mbind option_bind]. destruct res1 as [u|err]; cbn; [|done]. split; [done|].
    apply token_outputs_completes.
Qed.

(** Streaming a request to a sink and collecting it are the same run: on either
    engine, with polls or without, both end with the same runtime and the same
    error or the same completions. *)
Theorem sink_stream_is_collected_stream fresh fuel rt q polls :
  streams_agree (generate_stream sha256 turn fresh fuel rt q)
    (generate_stream_with_sink sha256 turn fresh fuel rt q push_sink []) ∧
  streams_agree (generate_stream_with_transfer_polling sha256 turn fresh fuel rt q polls)
    (generate_stream_with_transfer_polling_sink sha256 turn fresh fuel rt q polls push_sink []).
Proof.
  split; apply stream_with_sink_agrees; intros tq e st; eexists; (split; [|done]); [apply engine_collects|apply polling_engine_collects].
Qed.

(** ** Sinks in step see the same stream *)

Lemma offer_all_same {C1 C2} (R : C1 → C2 → Prop) sink1 sink2 (rs : list RouterGenerateResponse) : in_step R sink1 sink2 → ∀ x1 x2, R x1 x2 →
  ∃ v x1' x2', offer_all sink1 x1 rs = (v, x1') ∧ offer_all sink2 x2 rs = (v, x2') ∧ R x1' x2'.
Proof.
  intros Hstep. induction rs as [|r rs IH]; intros x1 x2 HR; cbn [offer_all]; [by eexists _, _, _|].
  destruct (Hstep x1 x2 r HR) as ([]&x1'&x2'&->&->&HR'); [by apply IH|by eexists _, _, _].
Qed.

(** Related states next to equal ones. *)
Definition beside {A C1 C2} (R : C1 → C2 → Prop) (a : A * C1) (b : A * C2) : Prop := a.1 = b.1 ∧ R a.2 b.2.

Lemma response_sink_in_step {C1 C2} (R : C1 → C2 → Prop) sink1 sink2 : in_step R sink1 sink2 →
  in_step (beside R) (response_sink sink1) (response_sink sink2).
Proof.
  intros Hstep [st x1] [st' x2] o [[= ->] HR]. unfold response_sink. cbn [fst snd] in *.
  destruct (responses st' o) as [rs st]. destruct (offer_all_same R sink1 sink2 rs Hstep x1 x2 HR) as (v&x1'&x2'&->&->&HR').
  by eexists _, _, _.
Qed.

Lemma text_sink_in_step {C1 C2} (R : C1 → C2 → Prop) tok sink1 sink2 : in_step R sink1 sink2 →
  in_step (beside R) (text_sink tok sink1) (text_sink tok sink2).
Proof.
  intros Hstep [[d err] x1] [[d' err'] x2] r [[= -> ->] HR]. unfold text_sink. cbn [fst snd] in *.
  destruct (fill_incremental_response_text tok d' r) as [[r'|e] d]; [|by eexists _, _, _].
  destruct (Hstep x1 x2 r' HR) as (v&x1'&x2'&->&->&HR'). by eexists _, _, _.
Qed.

Lemma same_run_conv {A C1 C2 S A' S'} (R : C1 → C2 → Prop) (f : A → A') (g : S → S') (m1 : option (A * C1 * S)) (m2 : option (A * C2 * S)) :
  same_run R m1 m2 →
  same_run R ('(a, c, s) ← m1; Some (f a, c, g s)) ('(a, c, s) ← m2; Some (f a, c, g s)).
Proof. destruct m1 as [[[a1 c1] s1]|], m2 as [[[a2 c2] s2]|]; cbn; try done. by intros (->&->&?). Qed.

Lemma stream_with_sink_same {C1 C2} (R : C1 → C2 → Prop) fresh fuel rt q sink1 sink2 x1 x2
    (single1 : TokenGenerateRequest → Engine T W P → RouterStreamState * C1 → option (Result RuntimeError unit * (RouterStreamState * C1) * Engine T W P))
    (single2 : TokenGenerateRequest → Engine T W P → RouterStreamState * C2 → option (Result RuntimeError unit * (RouterStreamState * C2) * Engine T W P)) :
  in_step R sink1 sink2 → R x1 x2 → (∀ tq e y1 y2, beside R y1 y2 → same_run (beside R) (single1 tq e y1) (single2 tq e y2)) →
  same_run R (stream_with_sink_of sha256 turn single1 fresh fuel rt q sink1 x1) (stream_with_sink_of sha256 turn single2 fresh fuel rt q sink2 x2).
Proof.
  intros Hstep HR Hsingle. unfold stream_with_sink_of. destruct (admit_request (fresh 0%nat) rt q) as [[[p stream] tq]|e]; [|done].
  set (st := RouterStreamState_new p stream). unfold on_engine_sink. destruct (runtime_engine rt) as [e|c].
  - specialize (Hsingle tq e (st, x1) (st, x2) (conj eq_refl HR)).
    destruct (single1 tq e _) as [[[res1 [s1 c1]] e1]|], (single2 tq e _) as [[[res2 [s2 c2]] e2]|]; cbn in Hsingle |- *; try done.
    by destruct Hsingle as (->&->&_&?).
  - assert (same_run (beside R) (coordinator_stream_with_sink sha256 turn fuel c tq (response_sink sink1) (st, x1))
              (coordinator_stream_with_sink sha256 turn fuel c tq (response_sink sink2) (st, x2))) as Hc.
    { apply (same_run_map (beside R) (set_system (enqueue_token_request c tq))). apply token_loop_same; [by apply response_sink_in_step|done]. }
    destruct (coordinator_stream_with_sink _ _ _ _ _ (response_sink sink1) _) as [[[res1 [s1 c1]] e1]|],
      (coordinator_stream_with_sink _ _ _ _ _ (response_sink sink2) _) as [[[res2 [s2 c2]] e2]|]; cbn in Hc |- *; try done.
    by destruct Hc as (->&->&_&?).
Qed.

Lemma engine_stream_same {C1 C2} (R : C1 → C2 → Prop) sink1 sink2 fuel polls e tq y1 y2 : in_step R sink1 sink2 → R y1 y2 →
  same_run R (generate_token_stream_with_sink sha256 fuel e tq sink1 y1) (generate_token_stream_with_sink sha256 fuel e tq sink2 y2) ∧
  same_run R (generate_token_stream_with_transfer_polling_sink sha256 fuel e tq polls sink1 y1)
    (generate_token_stream_with_transfer_polling_sink sha256 fuel e tq polls sink2 y2).
Proof.
  intros Hstep HR. split; apply (same_run_map R (set_scheduler e)); apply start_stream_same; try done;
    intros c1 c2 o; unfold token_sink; apply Hstep.
Qed.

Lemma token_stream_same {C1 C2} (R : C1 → C2 → Prop) fresh fuel rt q polls sink1 sink2 x1 x2 : in_step R sink1 sink2 → R x1 x2 →
  same_run R (generate_stream_with_sink sha256 turn fresh fuel rt q sink1 x1) (generate_stream_with_sink sha256 turn fresh fuel rt q sink2 x2) ∧
  same_run R (generate_stream_with_transfer_polling_sink sha256 turn fresh fuel rt q polls sink1 x1)
    (generate_stream_with_transfer_polling_sink sha256 turn fresh fuel rt q polls sink2 x2).
Proof.
  intros Hstep HR. split; (apply stream_with_sink_same; [done..|]); intros tq e y1 y2 HR';
    apply (engine_stream_same (beside R) _ _ fuel polls e tq y1 y2); by try apply response_sink_in_step.
Qed.

(** A stream of texts is the same run for two sinks that are in step. *)
Lemma text_stream_same {C1 C2} (R : C1 → C2 → Prop) fresh fuel rt q polls sink1 sink2 x1 x2 : in_step R sink1 sink2 → R x1 x2 →
  same_run R (generate_text_stream_with_sink sha256 turn fresh fuel rt q sink1 x1) (generate_text_stream_with_sink sha256 turn fresh fuel rt q sink2 x2) ∧
  same_run R (generate_text_stream_with_transfer_polling_sink sha256 turn fresh fuel rt q polls sink1 x1)
    (generate_text_stream_with_transfer_polling_sink sha256 turn fresh fuel rt q polls sink2 x2).
Proof.
  intros Hstep HR. set (tok := runtime_tokenizer rt).
  assert (∀ (m1 : option (Result RouterRuntimeError unit * (@decoder V T _ * option RouterRuntimeError * C1) * RouterRuntime T W D P))
    (m2 : option (Result RouterRuntimeError unit * (@decoder V T _ * option RouterRuntimeError * C2) * RouterRuntime T W D P)),
    same_run (beside R) m1 m2 → same_run R ('(res, (_, decode_error, x), rt) ← m1; Some (match res, decode_error with Err e, _ => Err e | Ok _, Some error => Err error | Ok _, None => Ok () end, x, rt))
      ('(res, (_, decode_error, x), rt) ← m2; Some (match res, decode_error with Err e, _ => Err e | Ok _, Some error => Err error | Ok _, None => Ok () end, x, rt))) as Hend.
  { intros [[[a1 [[d1 e1] c1]] s1]|] [[[a2 [[d2 e2] c2]] s2]|]; cbn; try done. by intros (->&->&[= -> ->]&?). }
  destruct (token_stream_same (beside R) fresh fuel rt (tokenized_request rt q true) polls (text_sink tok sink1) (text_sink tok sink2)
    (incremental_decoder tok, None, x1) (incremental_decoder tok, None, x2)) as [H1 H2]; [by apply text_sink_in_step|done|].
  unfold generate_text_stream_with_sink, generate_text_stream_with_transfer_polling_sink, text_stream_with_sink_of.
  destruct (t_text q =? "")%string; [done|]. split; by apply Hend.
Qed.

End Facts.

(** ** Text over a single engine *)

Section Filling.
Context {V T : Type} `{!Tokenizer V T}.
Implicit Types (tok : T).

Lemma fill_stream_app tok rs : ∀ d rs',
  fill_stream tok d (rs ++ rs') =
  let! a, d := fill_stream tok d rs in let! b, d := fill_stream tok d rs' in (Ok (a ++ b), d).
Proof.
  induction rs as [|r rs IH]; intros d rs'; cbn [fill_stream app st_bind].
  { by destruct (fill_stream tok d rs') as [[]]. }
  destruct (fill_incremental_response_text tok d r) as [[r'|e] d1]; cbn [st_bind]; [|done]. rewrite IH.
  destruct (fill_stream tok d1 rs) as [[a|e] d2]; cbn [st_bind]; [|done]. by destruct (fill_stream tok d2 rs') as [[]].
Qed.

(** Responses as they come from the engine: without text. *)
Definition blank (r : RouterGenerateResponse) : Prop := match body r with Chunk c => chunk_text c = ""%string | _ => True end.

Lemma responses_blank st os : Forall blank (stream_responses st os).
Proof.
  revert st. induction os as [|o os IH]; intros st; cbn [stream_responses]; [done|].
  unfold responses. destruct (token_finished o); [destruct (_ && _)%bool|]; cbn [app]; repeat (constructor; [done|]); apply IH.
Qed.

(** A stream that could be filled: the pieces are what stepping the decoder
    through all tokens spells, and each completion has its own decoding. *)
Lemma fill_stream_inv tok raw : Forall blank raw → ∀ d rs d', fill_stream tok d raw = (Ok rs, d') →
  step_tokens_text tok d (chunk_ids raw) "" = (Ok (chunk_texts rs), d') ∧ chunk_ids rs = chunk_ids raw ∧
  (complete_output_ids <$> completes rs) = (complete_output_ids <$> completes raw) ∧
  Forall (λ c, decode tok (complete_output_ids c) = Ok (complete_text c)) (completes rs) ∧
  (response_id <$> rs) = (response_id <$> raw).
Proof.
  induction 1 as [|r raw Hb Hblank IH]; intros d rs d'; cbn [fill_stream]; [by intros [= <- <-]|].
  destruct (fill_incremental_response_text tok d r) as [[r'|e] d1] eqn:Hr; cbn [st_bind]; [|done].
  destruct (fill_stream tok d1 raw) as [[rs1|e] d2] eqn:Hrs; cbn [st_bind]; [|done]. intros [= <- <-].
  destruct (IH _ _ _ Hrs) as (Hstep&Hids&Hc&Hall&Hid). unfold fill_incremental_response_text in Hr. unfold blank in Hb.
  change (chunk_ids (r :: raw)) with (match body r with Chunk c => chunk_token_ids c | _ => [] end ++ chunk_ids raw).
  change (chunk_ids (r' :: rs1)) with (match body r' with Chunk c => chunk_token_ids c | _ => [] end ++ chunk_ids rs1).
  change (chunk_texts (r' :: rs1)) with (match body r' with Chunk c => chunk_text c | _ => "" end +:+ chunk_texts rs1).
  rewrite step_text_app. unfold completes in *. cbn [omap list_omap fmap list_fmap].
  destruct (body r) as [c|c|err] eqn:Hbody.
  - rewrite Hb in Hr. destruct (step_tokens_text tok d (chunk_token_ids c) "") as [[t|e] d3]; cbn [st_bind] in Hr; [|done].
    injection Hr as <- <-. cbn [body chunk_token_ids chunk_text st_bind response_id]. rewrite Hstep. cbn [st_bind]. by rewrite Hids, Hid.
  - destruct (decode tok (complete_output_ids c)) as [t|e] eqn:Hd; [|done]. injection Hr as <- <-.
    cbn [step_tokens_text st_bind body response_id complete_output_ids complete_text app]. rewrite Hstep. cbn [st_bind].
    split; [done|]. split; [exact Hids|]. split; [exact (f_equal (cons _) Hc)|]. split; [by constructor|exact (f_equal (cons _) Hid)].
  - injection Hr as <- <-. cbn [step_tokens_text st_bind]. rewrite Hstep, Hbody. cbn. by rewrite Hids, Hid.
Qed.

(** The text sink fills what it is offered, and refuses the first response it cannot fill. *)
Lemma offer_text tok rs : ∀ d acc,
  match fill_stream tok d rs with
  | (Ok rs', d') => offer_all (text_sink tok push_sink) (d, None, acc) rs = (true, (d', None, acc ++ rs'))
  | (Err e, _) => ∃ d' acc', offer_all (text_sink tok push_sink) (d, None, acc) rs = (false, (d', Some (tokenizer_failure e), acc'))
  end.
Proof.
  induction rs as [|r rs IH]; intros d acc; cbn [fill_stream offer_all]; [by rewrite app_nil_r|]. unfold text_sink at 1 3.
  destruct (fill_incremental_response_text tok d r) as [[r'|e] d1]; cbn [st_bind]; [|by eexists _, _].
  unfold push_sink at 1 3. specialize (IH d1 (acc ++ [r'])).
  destruct (fill_stream tok d1 rs) as [[rs'|e] d2]; cbn [st_bind]; [|exact IH]. rewrite IH, <-app_assoc. done.
Qed.

(** What the sink of a text stream has seen. *)
Lemma streamed_text tok os : ∀ st d acc st' d' err acc' closed,
  streamed (token_sink (response_sink (text_sink tok push_sink))) (st, (d, None, acc)) os (st', (d', err, acc')) closed → err = None →
  ∃ rs, fill_stream tok d (stream_responses st (token_output_of <$> os)) = (Ok rs, d') ∧ acc' = acc ++ rs ∧
    (closed = true → is_last_finished (token_output_of <$> os)).
Proof.
  induction os as [|o os IH]; intros st d acc st' d' err acc' closed Hs ->.
  { inversion Hs; subst. exists []. by rewrite app_nil_r. }
  assert (∀ go x, token_sink (response_sink (text_sink tok push_sink)) (st, (d, None, acc)) o = (go, x) →
    (go = true ∧ ∃ rs1 d1, fill_stream tok d (responses st (token_output_of o)).1 = (Ok rs1, d1) ∧
       x = ((responses st (token_output_of o)).2, (d1, None, acc ++ rs1))) ∨ go = false ∧ x.2.1.2 ≠ None) as Hsink.
  { intros go x. unfold token_sink, response_sink. cbn [fst snd]. destruct (responses st (token_output_of o)) as [raw st1].
    pose proof (offer_text tok raw d acc) as Hoff. cbn [fst snd].
    destruct (fill_stream tok d raw) as [[rs1|e] d1]; [rewrite Hoff|destruct Hoff as (?&?&->)]; intros [= <- <-]; [left|by right].
    split; [done|]. by eexists _, _. }
  change (token_output_of <$> (o :: os)) with (token_output_of o :: (token_output_of <$> os)). cbn [stream_responses].
  destruct (responses st (token_output_of o)) as [raw st1] eqn:Hraw. cbn [fst snd] in Hsink. rewrite fill_stream_app.
  inversion Hs as [|c1 o1 c2 os1 c3 cl Hgo Hfin Hrest|c1 o1 c2 Hgo Hfin|c1 o1 c2 Hgo]; subst.
  - destruct (Hsink _ _ Hgo) as [[_ (rs1&d1&->&->)]|[]]; [|done]. destruct (IH _ _ _ _ _ _ _ _ Hrest eq_refl) as (rs2&Hfill&->&Hlast).
    cbn [st_bind]. rewrite Hfill. cbn [st_bind]. exists (rs1 ++ rs2). split; [done|]. split; [by rewrite app_assoc|].
    intros Hcl. destruct (Hlast Hcl) as (init&last&->&?&?). exists (token_output_of o :: init), last. split; [done|]. split; [|done].
    by constructor.
  - destruct (Hsink _ _ Hgo) as [[_ (rs1&d1&->&[= -> -> ->])]|[]]; [|done]. cbn. exists rs1.
    rewrite app_nil_r. split; [done|]. split; [done|]. intros _. exists [], (token_output_of o). by repeat constructor.
  - destruct (Hsink _ _ Hgo) as [[]|[_ Hne]]; [done|]. by cbn in Hne.
Qed.

(** The only error the text sink keeps is one of the tokenizer. *)
Definition decode_failure (err : option RouterRuntimeError) : Prop := err = None ∨ ∃ e, err = Some (tokenizer_failure e).

Lemma offer_text_error tok rs : ∀ d err acc, decode_failure err →
  decode_failure (offer_all (text_sink tok push_sink) (d, err, acc) rs).2.1.2.
Proof.
  induction rs as [|r rs IH]; intros d err acc Herr; cbn [offer_all]; [done|]. unfold text_sink at 1.
  destruct (fill_incremental_response_text tok d r) as [[r'|e] d1]; [by apply IH|]. right. by exists e.
Qed.

Lemma streamed_text_error tok os x x' closed :
  streamed (token_sink (response_sink (text_sink tok push_sink))) x os x' closed → decode_failure x.2.1.2 → decode_failure x'.2.1.2.
Proof.
  assert (∀ o x go y, token_sink (response_sink (text_sink tok push_sink)) x o = (go, y) → decode_failure x.2.1.2 → decode_failure y.2.1.2) as Hsink.
  { intros o [st [[d err] acc]] go y. unfold token_sink, response_sink. cbn [fst snd]. destruct (responses st (token_output_of o)) as [raw st1].
    pose proof (offer_text_error tok raw d err acc) as Hoff. destruct (offer_all _ _ raw) as [go1 z]. intros [= <- <-]. exact Hoff. }
  induction 1; eauto.
Qed.

(** A finished stream ends in one completion, with all tokens. *)
Lemma finished_completes p os : is_last_finished os → ∀ ids,
  complete_output_ids <$> completes (stream_responses (mkStreamState ids p true) os) = [ids ++ (os ≫= token_output_ids)].
Proof.
  intros (init&o&->&Hinit&Ho). induction Hinit as [|o' init Ho' Hinit IH]; intros ids; cbn [app stream_responses mbind list_bind];
    unfold responses; cbn [state_output_ids state_prompt_tokens state_stream andb].
  - rewrite Ho, app_nil_r. by destruct (negb _).
  - rewrite Ho'. unfold completes in *. cbn [app omap list_omap body]. rewrite IH. by rewrite app_assoc.
Qed.

Lemma responses_ids rid st os : Forall (λ o, token_output_id o = rid) os → Forall (λ r, response_id r = rid) (stream_responses st os).
Proof.
  intros Hall. revert st. induction Hall as [|o os Ho Hall IH]; intros st; cbn [stream_responses]; [done|].
  unfold responses. destruct (token_finished o); [destruct (_ && _)%bool|]; cbn [app]; repeat (constructor; [done|]); apply IH.
Qed.

End Filling.

Lemma scheduled_of_wf q : waiting_wf (scheduled_of q).
Proof.
  destruct (new_request_wf (token_request_id q) (token_input_ids q) (token_sampling q)) as [[] ].
  by repeat split.
Qed.

Section Answer.
Context {V T W D P : Type} `{!Tokenizer V T} `{!WorkerExecutor W} `{!WeightUpdates W} `{!FallibleModelWorker D} `{!KvStateEventPublisher P}.
Context (sha256 : list N → list N) (turn : nat → bool → DpSystem D P → DpSystem D P).

Implicit Types (rt : RouterRuntime T W D P) (e : Engine T W P).

(** The responses of an answered text request: one completion, whose tokens the chunks
    carry piece by piece; its text is what the tokenizer decodes its tokens to, and
    the chunks' texts together are what the tokenizer's stream decoder gives when it
    steps through the same tokens. *)
Definition answered_in_text (tok : T) (rid : RequestId) (rs : list RouterGenerateResponse) : Prop :=
  Forall (λ r, response_id r = rid) rs ∧
  ∃ c, completes rs = [c] ∧ chunk_ids rs = complete_output_ids c ∧ decode tok (complete_output_ids c) = Ok (complete_text c) ∧
    ∃ d, step_tokens_text tok (incremental_decoder tok) (complete_output_ids c) "" = (Ok (chunk_texts rs), d).

(** Where the stream decoder spells what the tokenizer decodes, the chunks' texts are
    the completion's. *)
Lemma answered_texts_agree `{!StreamingTokenizer V T} (tok : T) rid rs : answered_in_text tok rid rs →
  complete_text <$> completes rs = [chunk_texts rs].
Proof.
  intros (_&c&->&_&Hdec&d&Hstep). destruct (streaming_law tok _ _ Hdec) as [d' Hlaw]. rewrite Hstep in Hlaw. cbn. congruence.
Qed.

(** What a text request leaves queued in the engine. *)
Definition left_queued (rid : RequestId) (res : Result RouterRuntimeError unit) e : Prop :=
  match res with
  | Err (RuntimeFailure (SchedulerFailure (DecodeNotReady _))) => queued_ids (engine_scheduler e) = [rid]
  | _ => (∀ (w : W) r, ∃ w', finish_request w r = (Ok (), w')) → queued_ids (engine_scheduler e) = []
  end.

Lemma text_request_answer fresh fuel rt e q polls p stream tq :
  runtime_engine rt = Single e → t_text q ≠ ""%string →
  admit_request (fresh 0%nat) rt (tokenized_request rt q true) = Ok (p, stream, tq) →
  worker_generates (W := W) →
  scheduler_wf (engine_scheduler e) → Scheduler.waiting_queue (engine_scheduler e) = [] → Scheduler.decode_queue (engine_scheduler e) = [] →
  len (token_input_ids tq) + max_new_tokens (token_sampling tq) + 1 < N.of_nat fuel →
  ∃ res rs rt' e', generate_text_stream_with_transfer_polling_sink sha256 turn fresh fuel rt q polls push_sink [] = Some (res, rs, rt') ∧
    runtime_engine rt' = Single e' ∧ scheduler_wf (engine_scheduler e') ∧
    (is_Ok res = true → answered_in_text (runtime_tokenizer rt) (token_request_id tq) rs) ∧ left_queued (token_request_id tq) res e'.
Proof.
  intros Heng Htext Hadmit Hgen Wf Hw Hd Hfuel.
  assert ((∀ (w : W) r, ∃ w', finish_request w r = (Ok (), w')) → ¬ finish_fails (W := W)) as Hnf
    by (intros Hfinish (w&r&e0&w'&Hf); destruct (Hfinish w r); congruence).
  assert (stream = true) as -> by (by apply admit_Ok in Hadmit as (?&?&?&?&->&?)).
  unfold generate_text_stream_with_transfer_polling_sink, text_stream_with_sink_of.
  destruct (String.eqb_spec (t_text q) "") as [|_]; [done|].
  unfold generate_stream_with_transfer_polling_sink, stream_with_sink_of. rewrite Hadmit. unfold on_engine_sink. rewrite Heng.
  set (tok := runtime_tokenizer rt). set (d0 := incremental_decoder tok).
  unfold generate_token_stream_with_transfer_polling_sink, generate_scheduled_stream_with_transfer_polling_sink.
  destruct (start_stream_spec sha256 (next_decode_output_with_transfer_polling sha256) fuel (engine_scheduler e) (scheduled_of tq)
    (token_sink (response_sink (text_sink tok push_sink))) (RouterStreamState_new p true, (d0, None, [])) polls)
    as (res&[st [[d err] rs]]&s'&os&->&Hst&Hids&Wf'&Hset&Hlen); try done.
  { intros. by apply next_polling_spec. }
  { apply scheduled_of_wf. }
  cbn [mbind option_bind snd].
  exists (match result_map_err from_runtime_error res with Err e => Err e | Ok _ => match err with Some error => Err error | None => Ok () end end),
    rs, (set_engine rt (Single (set_scheduler e s'))), (set_scheduler e s').
  split; [by destruct res as [[]|], err|]. split; [done|]. split; [done|]. cbn [engine_scheduler set_scheduler].
  unfold settled in Hset. unfold left_queued.
  destruct res as [[]|ex]; cbn [result_map_err from_runtime_error is_Ok].
  2: { split; [done|]. destruct ex as [[]| | | |]; cbn in *; auto. }
  destruct err as [error|].
  { split; [done|]. destruct (streamed_text_error tok _ _ _ _ Hst (or_introl eq_refl)) as [[=]|[ex [= ->]]]. cbn. auto. }
  split; [intros _|by auto].
  destruct (streamed_text tok os _ _ _ _ _ _ _ _ Hst eq_refl) as (rs1&Hfill&->&Hlast). cbn [app].
  destruct (fill_stream_inv tok _ (responses_blank _ _) _ _ _ Hfill) as (Hstep&Hchunks&Hc&Hall&Hrid). split.
  - assert (Forall (λ i, i = token_request_id tq) (response_id <$> rs1)) as Hall'; [|by apply Forall_fmap in Hall']. rewrite Hrid. apply Forall_fmap, responses_ids, Forall_fmap. exact Hids.
  - unfold RouterStreamState_new in *. rewrite finished_completes in Hc by auto. rewrite stream_chunk_ids in Hstep, Hchunks.
    destruct (completes rs1) as [|c [|]]; try done. injection Hc as Hc. pose proof (Forall_inv Hall) as Hdec. cbn beta in Hdec. exists c.
    split; [done|]. rewrite Hc in *. split; [done|]. split; [done|]. by eexists.
Qed.

(** C20. A text request that is let through to an idle engine is answered: the stream
    ends, whatever the number of transfer polls.  On success everything the sink got
    carries the request's id; there is one completion, its text the decoding of its
    tokens; the chunks carry the same tokens piece by piece, and their texts are what
    the tokenizer's stream decoder gives for them, one decoder stepping through all.
    The engine is left sound; the request stays queued if its KV was not ready, and is
    gone otherwise, unless the worker refuses to finish requests. *)
Theorem text_request_answered fresh fuel rt e q polls p stream tq :
  runtime_engine rt = Single e → t_text q ≠ ""%string →
  admit_request (fresh 0%nat) rt (tokenized_request rt q true) = Ok (p, stream, tq) →
  worker_generates (W := W) →
  scheduler_wf (engine_scheduler e) → Scheduler.waiting_queue (engine_scheduler e) = [] → Scheduler.decode_queue (engine_scheduler e) = [] →
  len (token_input_ids tq) + max_new_tokens (token_sampling tq) + 1 < N.of_nat fuel →
  ∃ res rs rt' e', generate_text_stream_with_transfer_polling_sink sha256 turn fresh fuel rt q polls push_sink [] = Some (res, rs, rt') ∧
    runtime_engine rt' = Single e' ∧ scheduler_wf (engine_scheduler e') ∧
    (is_Ok res = true → answered_in_text (runtime_tokenizer rt) (token_request_id tq) rs) ∧ left_queued (token_request_id tq) res e'.
Proof. apply text_request_answer. Qed.

(** Without polls a stream of texts is the polling one that may not poll. *)
Lemma plain_text_stream_polls_nothing {C} fresh fuel rt q (sink : C → RouterGenerateResponse → bool * C) x :
  generate_text_stream_with_sink sha256 turn fresh fuel rt q sink x =
  generate_text_stream_with_transfer_polling_sink sha256 turn fresh fuel rt q 0 sink x.
Proof.
  unfold generate_text_stream_with_sink, generate_text_stream_with_transfer_polling_sink, text_stream_with_sink_of.
  destruct (t_text q =? "")%string; [done|].
  unfold generate_stream_with_sink, generate_stream_with_transfer_polling_sink, stream_with_sink_of.
  destruct (admit_request _ _ _) as [[[p stream] tq]|]; [|done]. unfold on_engine_sink. destruct (runtime_engine rt) as [e|c]; [|done].
  unfold generate_token_stream_with_sink, generate_token_stream_with_transfer_polling_sink. by rewrite plain_stream_polls_nothing.
Qed.

End Answer.

(** ** Concrete runs *)


#[local] Instance no_messages : ChatMessage unit := {| message_content _ := None |}.

Definition echo_runtime : RouterRuntime ByteTokenizer EchoWorker unit RecordingKvStateEventPublisher :=
  with_default_stop_token_ids
    (with_validation_config (mkEngine ByteTokenizer_new (echo_engine None [])) (mkRouterValidationConfig (Some 20) None)) [9; 7; 9].

Definition echo_text (text : string) (n : Z) : RouterTextGenerateRequest :=
  mkRouterTextGenerateRequest "a" text
    (Some (mkRouterSamplingParams (Some n) None None None None None None None None [8%Z] None None None)) None false 0%Z ∅.

Definition echo_request_tokens : TokenGenerateRequest :=
  mkTokenGenerateRequest "a" [104; 105] (mkSamplingParams 3 None None None None None None None [7; 8; 9] false) None 0.

Lemma admitted_request_correct_witness :
  ∃ v, try_into_validated_token_request "fresh" (tokenized_request (V := unit) echo_runtime (echo_text "hi" 3) true)
         (validation_config echo_runtime) = Ok v ∧ generation_paused echo_runtime = false ∧
    true = true ∧ 2%Z = as_i32 (len (token_input_ids echo_request_tokens)) ∧
    echo_request_tokens = with_stop_token_ids (v_request v) [7; 8; 9] ∧
    (false = false → StronglySorted N.lt [7; 8; 9]) ∧
    (∀ x, x ∈ [7; 8; 9] ↔ x ∈ stop_token_ids (token_sampling (v_request v)) ∨ false = false ∧ x ∈ default_stop_token_ids echo_runtime) ∧
    apply_default_stop_token_ids echo_runtime echo_request_tokens = echo_request_tokens.
Proof.
  apply (admitted_request_correct "fresh" echo_runtime (tokenized_request (V := unit) echo_runtime (echo_text "hi" 3) true) 2%Z true echo_request_tokens).
  by vm_compute.
Defined.

Lemma text_request_answered_witness :
  ∃ res rs rt' e', generate_text_stream_with_transfer_polling_sink (V := unit) toy_sha256 (λ _ _ (y : DpSystem unit RecordingKvStateEventPublisher), y) (λ _, "fresh"%string) 7
      echo_runtime (echo_text "hi" 3) 1 push_sink [] = Some (res, rs, rt') ∧
    runtime_engine rt' = Single e' ∧ scheduler_wf (engine_scheduler e') ∧
    (is_Ok res = true → answered_in_text (V := unit) ByteTokenizer_new "a" rs) ∧ left_queued "a" res e'.
Proof.
  apply (text_request_answered (V := unit) toy_sha256 (λ _ _ (y : DpSystem unit RecordingKvStateEventPublisher), y) (λ _, "fresh"%string) 7 echo_runtime
           (mkEngine ByteTokenizer_new (echo_engine None [])) (echo_text "hi" 3) 1 2%Z true echo_request_tokens).
  - done.
  - done.
  - by vm_compute.
  - apply echo_generates.
  - apply echo_engine_wf.
  - done.
  - done.
  - by vm_compute.
Defined.

(** The run of the witness succeeds: three pieces and a completion. *)
Example text_run_succeeds :
  match generate_text_stream_with_transfer_polling_sink (V := unit) toy_sha256 (λ _ _ (y : DpSystem unit RecordingKvStateEventPublisher), y)
          (λ _, "fresh"%string) 7 echo_runtime (echo_text "hi" 3) 1 push_sink [] with
  | Some (Ok _, rs, _) => length rs = 4%nat ∧ chunk_ids rs = [0; 1; 2] ∧ complete_output_ids <$> completes rs = [[0; 1; 2]]
  | _ => False
  end.
Proof. by vm_compute. Qed.
