(* ===== verification/KvWire.v ===== *)
(** * KV events on the wire ([crates/sglang-srt/src/transfer/state_events.rs] and
    [crates/sglang-router/src/policies/kv_events/wire.rs])

    The runtime publishes its cache events as MessagePack over ZeroMQ, the router
    reads them back.  Here are both ends: the encoders and the publishing task of
    the runtime, and the visitors of the router, which take a message apart field
    by field, tolerate omitted and extra fields and cap the lengths.

    The bytes are those of the crates [rmp] and [rmp_serde]: the class
    [MessagePack] has their low-level operations, [MessagePackLaws] what the two
    sides rely on, that what [rmp] writes is what [rmp_serde] reads. *)

From stdpp Require Import pretty.
From S2P Require Import Prelude Types BlockHash StateEvents Text Tokenizer KvTree KvIndex.
#[local] Open Scope N_scope.

(** ** The MessagePack crates *)

(** The operations on [u32] lengths, [i64], [u64] and [u32] numbers and the bit
    pattern of an [f64].  [peek_nil] is how an [Option] is read: it skips a nil and
    says whether there was one.  [custom] and [error_text] are [serde]'s
    [Error::custom] and the [Display] of the error. *)
Class MessagePack (E : Type) : Type := {
  write_array_len : N → list N;
  write_str : string → list N;
  write_sint : Z → list N;
  write_uint : N → list N;
  write_f64 : N → list N;
  write_nil : list N;
  read_array_len : list N → Result E (N * list N);
  read_string : list N → Result E (string * list N);
  read_i64 : list N → Result E (Z * list N);
  read_u32 : list N → Result E (N * list N);
  read_f64 : list N → Result E (N * list N);
  peek_nil : list N → option (list N);
  skip_any : list N → Result E (unit * list N);
  size_hint : N → option N;
  missing_field : string → E;
  unknown_variant : string → list string → E;
  custom : string → E;
  error_text : E → string;
}.

Definition is_u32 (n : N) : Prop := n < 2 ^ 32.
Definition is_i64 (z : Z) : Prop := (- 2 ^ 63 ≤ z < 2 ^ 63)%Z.

(** Documented behaviour: a written value is read back and ends where it ends. *)
Class MessagePackLaws (E : Type) `{!MessagePack E} : Prop := {
  array_len_read n rest : is_u32 n → read_array_len (write_array_len n ++ rest) = Ok (n, rest);
  string_read s rest : read_string (write_str s ++ rest) = Ok (s, rest);
  sint_read z rest : is_i64 z → read_i64 (write_sint z ++ rest) = Ok (z, rest);
  uint_read n rest : is_u32 n → read_u32 (write_uint n ++ rest) = Ok (n, rest);
  f64_read b rest : read_f64 (write_f64 b ++ rest) = Ok (b, rest);
  nil_peeked rest : peek_nil (write_nil ++ rest) = Some rest;
  sint_not_nil z rest : peek_nil (write_sint z ++ rest) = None;
  uint_not_nil n rest : peek_nil (write_uint n ++ rest) = None;
  str_not_nil s rest : peek_nil (write_str s ++ rest) = None;
  hint_is_length n : size_hint n = Some n;
  custom_text s : error_text (custom s) = s;
}.

(** ** The runtime's encoders *)

Section Encode.
Context {E : Type} `{!MessagePack E}.

(** [for x in xs { write(x) }] *)
Definition write_each {A} (write : A → list N) (xs : list A) : list N := xs ≫= write.

(** [as u32] *)
Definition as_u32 (n : N) : N := n mod 2 ^ 32.

(** [state_events.rs:344-375] encode_block_stored *)
Definition encode_block_stored (event : BlockStoredEvent) : list N :=
  write_array_len 7 ++
  write_str "BlockStored" ++
  write_array_len (as_u32 (len (block_hashes event))) ++
  write_each write_sint (block_hashes event) ++
  match StateEvents.parent_block_hash event with Some h => write_sint h | None => write_nil end ++
  write_array_len (as_u32 (len (StateEvents.token_ids event))) ++
  write_each write_uint (StateEvents.token_ids event) ++
  write_uint (StateEvents.block_size event) ++
  write_nil ++
  write_str (if (tier (boundary event) =? "")%string then "GPU" else tier (boundary event)).

(** [state_events.rs:377-389] encode_block_removed *)
Definition encode_block_removed (event : BlockRemovedEvent) : list N :=
  write_array_len 3 ++
  write_str "BlockRemoved" ++
  write_array_len (as_u32 (len (StateEvents.removed_block_hashes event))) ++
  write_each write_sint (StateEvents.removed_block_hashes event) ++
  write_nil.

(** [state_events.rs:391-398] encode_all_blocks_cleared *)
Definition encode_all_blocks_cleared : list N := write_array_len 1 ++ write_str "AllBlocksCleared".

(** [state_events.rs:400-413] encode_single_event_batch *)
Definition encode_single_event_batch (ts : N) (event_bytes : list N) (attn_dp_rank : option N) : list N :=
  write_array_len (if attn_dp_rank then 3 else 2) ++
  write_f64 ts ++
  write_array_len 1 ++
  event_bytes ++
  match attn_dp_rank with Some rank => write_uint rank | None => [] end.

(** [state_events.rs:229-233] ZmqPublishCommand *)
Inductive ZmqPublishCommand : Type :=
  | PublishBlockStored (ev : BlockStoredEvent)
  | PublishBlockRemoved (ev : BlockRemovedEvent)
  | PublishAllBlocksCleared.

(** [state_events.rs:271-275] ZmqKvStateEventPublisher::bind (rank) *)
Definition rank_of (data_parallel_rank : Z) : option N :=
  if (0 <=? data_parallel_rank)%Z then Some (Z.to_N (data_parallel_rank mod 2 ^ 32)) else None.

(** [state_events.rs:269-289] ZmqKvStateEventPublisher::bind (payload) *)
Definition payload_of (ts : N) (cmd : ZmqPublishCommand) : list N :=
  match cmd with
  | PublishBlockStored ev => encode_single_event_batch ts (encode_block_stored ev) (rank_of (event_data_parallel_rank ev))
  | PublishBlockRemoved ev => encode_single_event_batch ts (encode_block_removed ev) (rank_of (removed_data_parallel_rank ev))
  | PublishAllBlocksCleared => encode_single_event_batch ts encode_all_blocks_cleared None
  end.

(** [i64::to_be_bytes] *)
Definition be_bytes (z : Z) : list N := (λ k, Z.to_N ((z / 2 ^ k) mod 256)) <$> [56; 48; 40; 32; 24; 16; 8; 0]%Z.

(** [i64::wrapping_add] *)
Definition wrapping_add_i64 (a b : Z) : Z := ((a + b + 2 ^ 63) mod 2 ^ 64 - 2 ^ 63)%Z.

(** The commands come with the time they are taken off the channel.  The task ends when
    the channel closes or [socket_takes] refuses a message; then it sends the sentinel,
    whose failure it ignores: [sentinel_taken] says whether the socket took it. *)
(** [state_events.rs:262-303] ZmqKvStateEventPublisher::bind (task) *)
Fixpoint publisher_task (socket_takes : Z → bool) (sentinel_taken : bool) (topic : string) (seq : Z) (cmds : list (N * ZmqPublishCommand))
    : list (list (list N)) :=
  let goodbye := if sentinel_taken then [[string_bytes topic; be_bytes (-1); []]] else [] in
  match cmds with
  | [] => goodbye
  | (ts, cmd) :: cmds =>
      if negb (socket_takes seq) then goodbye
      else [string_bytes topic; be_bytes seq; payload_of ts cmd] :: publisher_task socket_takes sentinel_taken topic (wrapping_add_i64 seq 1) cmds
  end.

End Encode.

(** ** The router's visitors *)

(** A reader takes a value off the front of the bytes. *)
Definition Reader (E A : Type) : Type := list N → Result E (A * list N).
#[export] Instance reader_ret {E} : MRet (Reader E) := λ A a bs, Ok (a, bs).
#[export] Instance reader_bind {E} : MBind (Reader E) := λ A B f m bs, let? r := m bs in f r.1 r.2.
Definition fail {E A} (e : E) : Reader E A := λ _, Err e.

(** [kv_events/wire.rs:96-96] MAX_HASHES_PER_EVENT *)
Definition MAX_HASHES_PER_EVENT : N := 65536.
(** [kv_events/wire.rs:101-101] MAX_TOKENS_PER_EVENT *)
Definition MAX_TOKENS_PER_EVENT : N := 1048576.
(** [kv_events/wire.rs:123-123] PAYLOAD_TOO_LARGE_TAG *)
Definition PAYLOAD_TOO_LARGE_TAG : string := "kv_events::wire::PAYLOAD_TOO_LARGE".

(** [kv_events/wire.rs:105-118] DecodeError *)
Inductive DecodeError (E : Type) : Type :=
  | Msgpack (e : E)
  | PayloadTooLarge (field : string) (length cap : N).
Arguments Msgpack {E}.
Arguments PayloadTooLarge {E}.

Section Decode.
Context {E : Type} `{!MessagePack E}.

(** A visitor of a sequence gets the announced number of elements.  All of them
    read the sequence to its end, so what the deserializer says to elements remaining
    over does not matter. *)
Definition deserialize_seq {A} (visit : N → Reader E A) : Reader E A :=
  λ bs, let? r := read_array_len bs in visit r.1 r.2.

(** [seq.next_element()?]: nothing at the end of the sequence. *)
Definition next_element {A} (read : Reader E A) (remaining : N) : Reader E (option A * N) :=
  if remaining =? 0 then mret (None, 0) else a ← read; mret (Some a, remaining - 1).

(** [.ok_or_else(|| de::Error::missing_field(name))?] *)
Definition required {A} (name : string) (a : option A) : Reader E A :=
  match a with Some a => mret a | None => fail (missing_field name) end.

(** [Option::<T>::deserialize] *)
Definition read_option {A} (read : Reader E A) : Reader E (option A) :=
  λ bs, match peek_nil bs with Some rest => Ok (None, rest) | None => (a ← read; mret (Some a)) bs end.

(** [.unwrap_or(None)] *)
Definition flat {A} (a : option (option A)) : option A := match a with Some a => a | None => None end.

(** [while seq.next_element::<IgnoredAny>()?.is_some() {}] *)
Fixpoint drain (remaining : nat) : Reader E unit :=
  match remaining with O => mret tt | S remaining => _ ← skip_any; drain remaining end.

(** [kv_events/wire.rs:189-193] BoundedI64Vec::deserialize (too large) *)
Definition too_large {A} (field : string) (n cap : N) : Reader E A :=
  fail (custom (PAYLOAD_TOO_LARGE_TAG +:+ ":" +:+ field +:+ ":" +:+ pretty n +:+ ":" +:+ pretty cap)).

(** [kv_events/wire.rs:199-207] BoundedI64Vec::deserialize (loop) *)
Fixpoint read_bounded {A} (read : Reader E A) (field : string) (cap : N) (remaining : nat) (out : list A) : Reader E (list A) :=
  match remaining with
  | O => mret out
  | S remaining =>
      v ← read;
      if cap <=? len out then too_large field (len out + 1) cap else read_bounded read field cap remaining (out ++ [v])
  end.

(** What the two bounded vectors share. *)
Definition bounded_vec {A} (read : Reader E A) (field : string) (cap : N) : Reader E (list A) :=
  deserialize_seq (λ n,
    if match size_hint n with Some hint => cap <? hint | None => false end
    then too_large field (default 0 (size_hint n)) cap
    else read_bounded read field cap (N.to_nat n) []).

(** [kv_events/wire.rs:174-213] BoundedI64Vec::deserialize *)
Definition BoundedI64Vec : Reader E (list Z) := bounded_vec read_i64 "block_hashes" MAX_HASHES_PER_EVENT.

(** [kv_events/wire.rs:221-260] BoundedU32Vec::deserialize *)
Definition BoundedU32Vec : Reader E (list N) := bounded_vec read_u32 "token_ids" MAX_TOKENS_PER_EVENT.

(** [kv_events/wire.rs:334-359] KvCacheEvent::deserialize (BlockStored) *)
Definition visit_block_stored (remaining : N) : Reader E KvCacheEvent :=
  '(hashes, remaining) ← next_element BoundedI64Vec remaining; hashes ← required "block_hashes" hashes;
  '(parent, remaining) ← next_element (read_option read_i64) remaining;
  '(tokens, remaining) ← next_element BoundedU32Vec remaining; tokens ← required "token_ids" tokens;
  '(size, remaining) ← next_element read_u32 remaining; size ← required "block_size" size;
  '(lora, remaining) ← next_element (read_option read_i64) remaining;
  '(medium, remaining) ← next_element (read_option read_string) remaining;
  _ ← drain (N.to_nat remaining);
  mret (EventBlockStored (mkBlockStored hashes (flat parent) tokens size (flat lora) (flat medium))).

(** [kv_events/wire.rs:360-370] KvCacheEvent::deserialize (BlockRemoved) *)
Definition visit_block_removed (remaining : N) : Reader E KvCacheEvent :=
  '(hashes, remaining) ← next_element BoundedI64Vec remaining; hashes ← required "block_hashes" hashes;
  '(medium, remaining) ← next_element (read_option read_string) remaining;
  _ ← drain (N.to_nat remaining);
  mret (EventBlockRemoved (mkBlockRemoved hashes (flat medium))).

(** [kv_events/wire.rs:312-384] KvCacheEvent::deserialize *)
Definition read_event : Reader E KvCacheEvent :=
  deserialize_seq (λ n,
    '(tag, remaining) ← next_element read_string n; tag ← required "event tag" tag;
    if (tag =? "BlockStored")%string then visit_block_stored remaining
    else if (tag =? "BlockRemoved")%string then visit_block_removed remaining
    else if (tag =? "AllBlocksCleared")%string then _ ← drain (N.to_nat remaining); mret EventAllBlocksCleared
    else fail (unknown_variant tag ["BlockStored"; "BlockRemoved"; "AllBlocksCleared"])%string).

(** [Vec::<T>::deserialize] *)
Fixpoint read_each {A} (read : Reader E A) (remaining : nat) : Reader E (list A) :=
  match remaining with O => mret [] | S remaining => v ← read; vs ← read_each read remaining; mret (v :: vs) end.

(** [kv_events/wire.rs:270-308] KvEventBatch::deserialize *)
Definition read_batch : Reader E KvEventBatch :=
  deserialize_seq (λ n,
    '(ts, remaining) ← next_element read_f64 n; ts ← required "ts" ts;
    '(events, remaining) ← next_element (deserialize_seq (λ n, read_each read_event (N.to_nat n))) remaining; events ← required "events" events;
    '(rank, remaining) ← next_element (read_option read_u32) remaining;
    _ ← drain (N.to_nat remaining);
    mret (mkKvEventBatch ts events (flat rank))).

End Decode.

(** [kv_events/wire.rs:135-163] decode_event_batch *)
Definition decode_event_batch {E} `{!MessagePack E} (bytes : list N) : Result (DecodeError E) KvEventBatch :=
  match read_batch bytes with
  | Ok (b, _) => Ok b
  | Err e =>
      match strip_prefix PAYLOAD_TOO_LARGE_TAG (error_text e) with
      | Some rest =>
          match split_on 58 (trim_start 58 rest) with
          | field :: length :: cap :: _ =>
              match parse_usize length, parse_usize cap with
              | Some length, Some cap =>
                  if ((field =? "block_hashes") || (field =? "token_ids"))%string%bool
                  then Err (PayloadTooLarge field length cap) else Err (Msgpack e)
              | _, _ => Err (Msgpack e)
              end
          | _ => Err (Msgpack e)
          end
      | None => Err (Msgpack e)
      end
  end.

(** ** Facts *)

Section Reading.
Context {E : Type} `{!MessagePack E} `{!MessagePackLaws E}.

Lemma bind_read {A B} (m : Reader E A) (f : A → Reader E B) bs a rest :
  m bs = Ok (a, rest) → (m ≫= f) bs = f a rest.
Proof. intros Hm. unfold mbind, reader_bind. by rewrite Hm. Qed.

Lemma next_element_read {A} (read : Reader E A) bs a rest remaining :
  read bs = Ok (a, rest) → 0 < remaining → next_element read remaining bs = Ok ((Some a, remaining - 1), rest).
Proof.
  intros Hr Hlt. unfold next_element. destruct (N.eqb_spec remaining 0); [lia|]. by rewrite (bind_read _ _ _ _ _ Hr).
Qed.

Lemma next_element_end {A} (read : Reader E A) bs : next_element read 0 bs = Ok ((None, 0), bs).
Proof. done. Qed.

Lemma read_seq {A} (visit : N → Reader E A) n bs : is_u32 n → deserialize_seq visit (write_array_len n ++ bs) = visit n bs.
Proof. intros Hn. unfold deserialize_seq. by rewrite array_len_read. Qed.

(** An optional number or string is read as what was written, nil as nothing. *)
Lemma option_nil {A} (read : Reader E A) rest : read_option read (write_nil ++ rest) = Ok (None, rest).
Proof. unfold read_option. by rewrite nil_peeked. Qed.

Lemma option_some {A} (read : Reader E A) bs a rest : peek_nil bs = None → read bs = Ok (a, rest) → read_option read bs = Ok (Some a, rest).
Proof. intros Hp Hr. unfold read_option. rewrite Hp. by rewrite (bind_read _ _ _ _ _ Hr). Qed.

Lemma option_sint z rest : from_option is_i64 True z →
  read_option read_i64 (match z with Some h => write_sint h | None => write_nil end ++ rest) = Ok (z, rest).
Proof. destruct z as [z|]; cbn; intros Hz; [apply option_some; [apply sint_not_nil|by apply sint_read]|apply option_nil]. Qed.

Lemma read_bounded_each {A} (read : Reader E A) write (Q : A → Prop) field cap xs :
  (∀ x rest, Q x → read (write x ++ rest) = Ok (x, rest)) → Forall Q xs → ∀ out rest,
  len out + len xs ≤ cap → read_bounded read field cap (length xs) out (write_each write xs ++ rest) = Ok (out ++ xs, rest).
Proof.
  intros Hread. induction 1 as [|x xs Hx Hxs IH]; intros out rest Hcap; [by rewrite app_nil_r|].
  cbn [length read_bounded]. unfold write_each. cbn [mbind list_bind]. rewrite <-app_assoc.
  rewrite (bind_read _ _ _ x (write_each write xs ++ rest)) by by apply Hread. rewrite len_cons in Hcap.
  destruct (N.leb_spec cap (len out)); [lia|].
  rewrite IH; [by rewrite <-app_assoc|]. rewrite len_app, len_cons, len_nil. lia.
Qed.

Lemma as_u32_small n : is_u32 n → as_u32 n = n.
Proof. apply N.mod_small. Qed.

Lemma bounded_vec_read {A} (read : Reader E A) write (Q : A → Prop) field cap xs rest :
  (∀ x rest, Q x → read (write x ++ rest) = Ok (x, rest)) → Forall Q xs → len xs ≤ cap → is_u32 cap →
  bounded_vec read field cap (write_array_len (as_u32 (len xs)) ++ write_each write xs ++ rest) = Ok (xs, rest).
Proof.
  intros Hread Hxs Hlen Hcap. unfold bounded_vec. assert (is_u32 (len xs)) as Hn by (unfold is_u32 in *; lia).
  rewrite as_u32_small, read_seq by done. rewrite hint_is_length. destruct (N.ltb_spec cap (len xs)); [lia|].
  unfold len at 1. rewrite Nat2N.id. rewrite (read_bounded_each read write Q) by (done || rewrite len_nil; lia). done.
Qed.

Lemma bounded_vec_refuses {A} (read : Reader E A) field cap n bs : is_u32 n → cap < n →
  bounded_vec read field cap (write_array_len n ++ bs) =
  Err (custom (PAYLOAD_TOO_LARGE_TAG +:+ ":" +:+ field +:+ ":" +:+ pretty n +:+ ":" +:+ pretty cap)).
Proof.
  intros Hn Hcap. unfold bounded_vec. rewrite read_seq by done. rewrite hint_is_length.
  destruct (N.ltb_spec cap n); [done|lia].
Qed.

End Reading.

(** ** What the router makes of what the runtime sends *)

(** Events within the types of their fields: numbers of their width, and fewer
    than 2^32 of them. *)
Definition wire_typed (cmd : ZmqPublishCommand) : Prop :=
  match cmd with
  | PublishBlockStored ev =>
      Forall is_i64 (block_hashes ev) ∧ is_u32 (len (block_hashes ev)) ∧
      from_option is_i64 True (StateEvents.parent_block_hash ev) ∧
      Forall is_u32 (StateEvents.token_ids ev) ∧ is_u32 (len (StateEvents.token_ids ev)) ∧
      is_u32 (StateEvents.block_size ev)
  | PublishBlockRemoved ev =>
      Forall is_i64 (StateEvents.removed_block_hashes ev) ∧ is_u32 (len (StateEvents.removed_block_hashes ev))
  | PublishAllBlocksCleared => True
  end.

(** The first field over the router's cap, with its length and the cap. *)
Definition over_cap (cmd : ZmqPublishCommand) : option (string * N * N) :=
  let hashes n := if MAX_HASHES_PER_EVENT <? n then Some ("block_hashes"%string, n, MAX_HASHES_PER_EVENT) else None in
  match cmd with
  | PublishBlockStored ev =>
      match hashes (len (block_hashes ev)) with
      | Some over => Some over
      | None =>
          let n := len (StateEvents.token_ids ev) in
          if MAX_TOKENS_PER_EVENT <? n then Some ("token_ids"%string, n, MAX_TOKENS_PER_EVENT) else None
      end
  | PublishBlockRemoved ev => hashes (len (StateEvents.removed_block_hashes ev))
  | PublishAllBlocksCleared => None
  end.

(** The event the router should see. *)
Definition seen_event (cmd : ZmqPublishCommand) : KvCacheEvent :=
  match cmd with
  | PublishBlockStored ev =>
      EventBlockStored (mkBlockStored (block_hashes ev) (StateEvents.parent_block_hash ev) (StateEvents.token_ids ev)
        (StateEvents.block_size ev) None (Some (if (tier (boundary ev) =? "")%string then "GPU"%string else tier (boundary ev))))
  | PublishBlockRemoved ev => EventBlockRemoved (mkBlockRemoved (StateEvents.removed_block_hashes ev) None)
  | PublishAllBlocksCleared => EventAllBlocksCleared
  end.

Definition seen_rank (cmd : ZmqPublishCommand) : option N :=
  match cmd with
  | PublishBlockStored ev => rank_of (event_data_parallel_rank ev)
  | PublishBlockRemoved ev => rank_of (removed_data_parallel_rank ev)
  | PublishAllBlocksCleared => None
  end.

Definition seen_batch (ts : N) (cmd : ZmqPublishCommand) : KvEventBatch :=
  mkKvEventBatch ts [seen_event cmd] (seen_rank cmd).

Section Roundtrip.
Context {E : Type} `{!MessagePack E} `{!MessagePackLaws E}.

Definition encode_event (cmd : ZmqPublishCommand) : list N :=
  match cmd with
  | PublishBlockStored ev => encode_block_stored ev
  | PublishBlockRemoved ev => encode_block_removed ev
  | PublishAllBlocksCleared => encode_all_blocks_cleared
  end.

(** The error of a field over its cap, as the visitors phrase it. *)
Definition cap_error (over : string * N * N) : E :=
  custom (PAYLOAD_TOO_LARGE_TAG +:+ ":" +:+ over.1.1 +:+ ":" +:+ pretty over.1.2 +:+ ":" +:+ pretty over.2).

Lemma hashes_read hashes rest : Forall is_i64 hashes → is_u32 (len hashes) →
  BoundedI64Vec (write_array_len (as_u32 (len hashes)) ++ write_each write_sint hashes ++ rest) =
  if MAX_HASHES_PER_EVENT <? len hashes then Err (cap_error ("block_hashes"%string, len hashes, MAX_HASHES_PER_EVENT)) else Ok (hashes, rest).
Proof.
  intros. destruct (N.ltb_spec MAX_HASHES_PER_EVENT (len hashes)).
  - rewrite as_u32_small by done. by apply bounded_vec_refuses.
  - by apply (bounded_vec_read read_i64 write_sint is_i64); [apply sint_read|..].
Qed.

Lemma tokens_read tokens rest : Forall is_u32 tokens → is_u32 (len tokens) →
  BoundedU32Vec (write_array_len (as_u32 (len tokens)) ++ write_each write_uint tokens ++ rest) =
  if MAX_TOKENS_PER_EVENT <? len tokens then Err (cap_error ("token_ids"%string, len tokens, MAX_TOKENS_PER_EVENT)) else Ok (tokens, rest).
Proof.
  intros. destruct (N.ltb_spec MAX_TOKENS_PER_EVENT (len tokens)).
  - rewrite as_u32_small by done. by apply bounded_vec_refuses.
  - by apply (bounded_vec_read read_u32 write_uint is_u32); [apply uint_read|..].
Qed.

Lemma bind_fails {A B} (m : Reader E A) (f : A → Reader E B) bs e : m bs = Err e → (m ≫= f) bs = Err e.
Proof. intros Hm. unfold mbind, reader_bind. by rewrite Hm. Qed.

Lemma next_element_fails {A} (read : Reader E A) bs e remaining :
  read bs = Err e → 0 < remaining → next_element read remaining bs = Err e.
Proof. intros Hr Hlt. unfold next_element. destruct (N.eqb_spec remaining 0); [lia|]. by apply bind_fails. Qed.

(** Reads the next field by a fact about its reader, or fails with it. *)
Ltac read_next lem := erewrite bind_read; [|apply next_element_read; [lem|lia]].
Ltac read_fails lem := erewrite bind_fails; [|apply next_element_fails; [lem|lia]].

Lemma event_read cmd rest : wire_typed cmd →
  read_event (encode_event cmd ++ rest) =
  match over_cap cmd with Some over => Err (cap_error over) | None => Ok (seen_event cmd, rest) end.
Proof.
  intros Hfits. unfold read_event. destruct cmd as [ev|ev|]; cbn [encode_event wire_typed over_cap] in *.
  - destruct Hfits as (Hh&Hhn&Hp&Ht&Htn&Hb). unfold encode_block_stored. rewrite <-!app_assoc, read_seq by done.
    read_next ltac:(apply string_read). cbn [fst snd required]. rewrite (bind_read _ _ _ "BlockStored"%string _ eq_refl).
    cbn [String.eqb Ascii.eqb Bool.eqb]. unfold visit_block_stored. pose proof (hashes_read (block_hashes ev)) as Hhashes.
    destruct (MAX_HASHES_PER_EVENT <? len (block_hashes ev)); [by read_fails ltac:(by apply Hhashes)|].
    read_next ltac:(by apply Hhashes). cbn beta iota. erewrite bind_read by done.
    read_next ltac:(by apply option_sint). cbn beta iota. pose proof (tokens_read (StateEvents.token_ids ev)) as Htokens.
    destruct (MAX_TOKENS_PER_EVENT <? len (StateEvents.token_ids ev)); [by read_fails ltac:(by apply Htokens)|].
    read_next ltac:(by apply Htokens). cbn beta iota. erewrite bind_read by done.
    read_next ltac:(by apply uint_read). cbn beta iota. erewrite bind_read by done.
    read_next ltac:(apply option_nil). cbn beta iota.
    by read_next ltac:(apply option_some; [apply str_not_nil|apply string_read]).
  - destruct Hfits as (Hh&Hhn). unfold encode_block_removed. rewrite <-!app_assoc, read_seq by done.
    read_next ltac:(apply string_read). cbn [fst snd required]. rewrite (bind_read _ _ _ "BlockRemoved"%string _ eq_refl).
    cbn [String.eqb Ascii.eqb Bool.eqb]. unfold visit_block_removed. pose proof (hashes_read (StateEvents.removed_block_hashes ev)) as Hhashes.
    destruct (MAX_HASHES_PER_EVENT <? len (StateEvents.removed_block_hashes ev)); [by read_fails ltac:(by apply Hhashes)|].
    read_next ltac:(by apply Hhashes). cbn beta iota. erewrite bind_read by done.
    by read_next ltac:(apply option_nil).
  - unfold encode_all_blocks_cleared. rewrite <-!app_assoc, read_seq by done.
    read_next ltac:(apply string_read). cbn [fst snd required]. by rewrite (bind_read _ _ _ "AllBlocksCleared"%string _ eq_refl).
Qed.

Lemma payload_shape ts cmd : payload_of ts cmd = encode_single_event_batch ts (encode_event cmd) (seen_rank cmd).
Proof. by destruct cmd. Qed.

Lemma seen_rank_u32 cmd rank : seen_rank cmd = Some rank → is_u32 rank.
Proof.
  assert (∀ r, rank_of r = Some rank → is_u32 rank) as Hr.
  { intros r. unfold rank_of, is_u32. destruct (0 <=? r)%Z; [|done]. intros [= <-].
    pose proof (Z.mod_pos_bound r (2 ^ 32) ltac:(done)). lia. }
  destruct cmd; cbn; [by apply Hr|by apply Hr|done].
Qed.

Lemma batch_read ts cmd : wire_typed cmd →
  read_batch (payload_of ts cmd) = match over_cap cmd with Some over => Err (cap_error over) | None => Ok (seen_batch ts cmd, []) end.
Proof.
  intros Hfits. rewrite payload_shape. unfold read_batch, encode_single_event_batch.
  rewrite read_seq by (by destruct (seen_rank cmd)). set (n := if seen_rank cmd then 3 else 2).
  assert (1 < n) as Hn by (unfold n; destruct (seen_rank cmd); lia).
  read_next ltac:(apply f64_read). cbn beta iota. erewrite bind_read by done.
  set (tail := match seen_rank cmd with Some rank => write_uint rank | None => [] end).
  pose proof (event_read cmd tail Hfits) as Hevent.
  assert (deserialize_seq (λ n, read_each read_event (N.to_nat n)) (write_array_len 1 ++ encode_event cmd ++ tail) =
    match over_cap cmd with Some over => Err (cap_error over) | None => Ok ([seen_event cmd], tail) end) as Hevents.
  { rewrite read_seq by done. change (N.to_nat 1) with 1%nat. cbn [read_each].
    destruct (over_cap cmd); [by rewrite (bind_fails _ _ _ _ Hevent)|by rewrite (bind_read _ _ _ _ _ Hevent)]. }
  destruct (over_cap cmd); [by read_fails ltac:(exact Hevents)|].
  read_next ltac:(exact Hevents). cbn beta iota. erewrite bind_read by done.
  unfold seen_batch, tail, n. destruct (seen_rank cmd) as [rank|] eqn:Hrank.
  - rewrite <-(app_nil_r (write_uint rank)).
    by read_next ltac:(apply option_some; [apply uint_not_nil|apply uint_read; by eapply seen_rank_u32]).
  - by rewrite (bind_read _ _ _ _ _ (next_element_end _ _)).
Qed.

(** ** Lengths over the caps *)

Lemma over_cap_numbers cmd field n cap : wire_typed cmd → over_cap cmd = Some (field, n, cap) →
  (field = "block_hashes" ∨ field = "token_ids")%string ∧ n ≤ usize_MAX ∧ cap ≤ usize_MAX.
Proof.
  assert (∀ k, is_u32 k → k ≤ usize_MAX) as Hu by (unfold is_u32, usize_MAX; lia).
  intros Hw. destruct cmd as [ev|ev|]; cbn in *; [|destruct Hw as [_ ?]|done];
    try (destruct Hw as (_&?&_&_&?&_); destruct (MAX_HASHES_PER_EVENT <? len (block_hashes ev)));
    try destruct (_ <? _); intros [= <- <- <-]; (split; [by (left + right)|split; [by apply Hu|done]]).
Qed.

Lemma too_large_rewrapped field n cap bs : (field = "block_hashes" ∨ field = "token_ids")%string → n ≤ usize_MAX → cap ≤ usize_MAX →
  read_batch bs = Err (cap_error (field, n, cap)) → decode_event_batch bs = Err (PayloadTooLarge field n cap).
Proof.
  intros Hf Hn Hcap Hbs. unfold decode_event_batch. rewrite Hbs. unfold cap_error. cbn [fst snd]. rewrite custom_text, strip_prefix_app.
  assert (trim_start 58 (":" +:+ field +:+ ":" +:+ pretty n +:+ ":" +:+ pretty cap) =
    field +:+ ":" +:+ pretty n +:+ ":" +:+ pretty cap) as ->.
  { by destruct Hf as [-> | ->]. }
  rewrite split_free_sep by (done || by destruct Hf as [-> | ->]; apply (bool_decide_unpack _); vm_compute).
  rewrite split_free_sep by (done || by apply pretty_free). rewrite split_free by (by apply pretty_free).
  rewrite !parse_pretty by done. by destruct Hf as [-> | ->].
Qed.

Lemma payload_decodes ts cmd : wire_typed cmd →
  decode_event_batch (payload_of ts cmd) =
  match over_cap cmd with Some (field, n, cap) => Err (PayloadTooLarge field n cap) | None => Ok (seen_batch ts cmd) end.
Proof.
  intros Hw. pose proof (batch_read ts cmd Hw) as Hb. destruct (over_cap cmd) as [[[field n] cap]|] eqn:Hover.
  - apply over_cap_numbers in Hover as (?&?&?); [|done]. by apply too_large_rewrapped.
  - unfold decode_event_batch. by rewrite Hb.
Qed.

(** C26. An event arrives as it was: the router decodes the runtime's payload to one
    event with the same hashes, parent, tokens and block size, the storage tier as
    medium ("GPU" where there is none) and the rank where it is not negative.  An
    event with more hashes or tokens than the cap is refused, with the field, its
    length and the cap in the error. *)
Theorem published_event_decodes ts cmd : wire_typed cmd →
  decode_event_batch (payload_of ts cmd) =
  match over_cap cmd with Some (field, n, cap) => Err (PayloadTooLarge field n cap) | None => Ok (seen_batch ts cmd) end.
Proof. apply payload_decodes. Qed.

(** ** The stream of messages *)

Lemma byte_digit z k : (0 ≤ k)%Z → ((z / 2 ^ k) mod 256 = z / 2 ^ k - 256 * (z / 2 ^ (k + 8)))%Z.
Proof.
  intros Hk. rewrite Z.pow_add_r by lia. change (2 ^ 8)%Z with 256%Z. rewrite <-Z.div_div by lia.
  pose proof (Z.div_mod (z / 2 ^ k) 256). lia.
Qed.

Lemma be_bytes_value z : Z.of_N (be_bytes_to_u64 (be_bytes z)) = (z mod 2 ^ 64)%Z.
Proof.
  assert (∀ k, 0 ≤ (z / 2 ^ k) mod 256)%Z as Hpos by (intros k; apply Z.mod_pos_bound; lia).
  unfold be_bytes, be_bytes_to_u64. cbn [fmap list_fmap foldl].
  repeat first [rewrite N2Z.inj_add|rewrite N2Z.inj_mul|rewrite Z2N.id by apply Hpos].
  rewrite !byte_digit by lia. rewrite (Z.mod_eq z (2 ^ 64)) by lia.
  change (56 + 8)%Z with 64%Z. change (48 + 8)%Z with 56%Z. change (40 + 8)%Z with 48%Z. change (32 + 8)%Z with 40%Z.
  change (24 + 8)%Z with 32%Z. change (16 + 8)%Z with 24%Z. change (8 + 8)%Z with 16%Z. change (0 + 8)%Z with 8%Z.
  change (z / 2 ^ 0)%Z with (z / 1)%Z. rewrite Z.div_1_r. lia.
Qed.

Lemma be_bytes_inv z : is_i64 z → i64_from_be_bytes (be_bytes z) = z.
Proof.
  intros Hz. unfold i64_from_be_bytes, u64_as_i64, is_i64 in *. pose proof (be_bytes_value z) as Hv.
  rewrite (Z.mod_eq z (2 ^ 64)) in Hv by lia. assert (z / 2 ^ 64 = if (z <? 0)%Z then -1 else 0)%Z as Hq.
  { symmetry. destruct (Z.ltb_spec z 0); [apply (Z.div_unique _ _ _ (z + 2 ^ 64))|apply (Z.div_unique _ _ _ z)]; lia. }
  rewrite Hq in Hv. set (u := be_bytes_to_u64 (be_bytes z)) in *. clearbody u.
  destruct (Z.ltb_spec z 0), (N.ltb_spec u (2 ^ 63)); lia.
Qed.


(** What a subscriber makes of the messages. *)
Definition received (id : KvWorkerId) : list (list N) → option WorkerEvent :=
  decode_message (λ payload, match decode_event_batch payload with Ok b => Some b | Err _ => None end) id.

(** What it should make of a command sent with a sequence number. *)
Definition expected (id : KvWorkerId) (seq : Z) (ts : N) (cmd : ZmqPublishCommand) : option WorkerEvent :=
  match over_cap cmd with Some _ => None | None => Some (Batch id seq (seen_batch ts cmd)) end.

Lemma received_message id topic seq ts cmd : wire_typed cmd → (0 < seq < 2 ^ 63)%Z →
  received id [string_bytes topic; be_bytes seq; payload_of ts cmd] = expected id seq ts cmd.
Proof.
  intros Hw Hseq. unfold received, decode_message, expected. change (negb (len [_; _; _] =? 3)) with false. cbn [lookup list_lookup mbind option_bind].
  change (negb (len (be_bytes seq) =? 8)) with false. cbn iota. rewrite be_bytes_inv by (unfold is_i64; lia). unfold END_SEQ_SENTINEL.
  destruct (Z.eqb_spec seq (-1)); [lia|]. rewrite payload_decodes by done. by destruct (over_cap cmd) as [[[]]|].
Qed.

Lemma received_goodbye id topic : received id [string_bytes topic; be_bytes (-1); []] = Some (PublisherReset id).
Proof. done. Qed.

(** What the task sends: a message for each command up to the first the socket refuses,
    and the sentinel if the socket takes it. *)
Lemma publisher_sends takes bye topic cmds : ∀ seq, (0 < seq)%Z → (seq + Z.of_nat (length cmds) < 2 ^ 63)%Z →
  ∃ k, (k ≤ length cmds)%nat ∧
    publisher_task takes bye topic seq cmds =
      imap (λ i c, [string_bytes topic; be_bytes (seq + Z.of_nat i); payload_of c.1 c.2]) (take k cmds) ++
      (if bye then [[string_bytes topic; be_bytes (-1); []]] else []) ∧
    (∀ i, (i < k)%nat → takes (seq + Z.of_nat i)%Z = true) ∧ (k < length cmds → takes (seq + Z.of_nat k)%Z = false)%nat.
Proof.
  induction cmds as [|[ts cmd] cmds IH]; intros seq Hpos Hlen.
  - exists 0%nat. split; [lia|]. split; [done|]. split; [intros i Hi; lia|]. cbn. lia.
  - cbn [length] in Hlen. cbn [publisher_task]. destruct (takes seq) eqn:Htakes; cbn [negb].
    + assert (wrapping_add_i64 seq 1 = (seq + 1)%Z) as ->.
      { unfold wrapping_add_i64. rewrite Z.mod_small by lia. lia. }
      destruct (IH (seq + 1)%Z) as (k&Hk&Heq&Htk&Hstop); [lia..|]. exists (S k). cbn [length take imap app].
      split; [lia|]. split; [|split].
      * rewrite Z.add_0_r, Heq. do 2 f_equal. apply imap_ext. intros i c _. unfold compose.
        by replace (seq + Z.of_nat (S i))%Z with (seq + 1 + Z.of_nat i)%Z by lia.
      * intros [|i] Hi; [by rewrite Z.add_0_r|]. rewrite <-(Htk i) by lia. f_equal. lia.
      * intros Hlt. rewrite <-Hstop by lia. f_equal. lia.
    + exists 0%nat. cbn [length take imap app]. rewrite Z.add_0_r. split; [lia|]. split; [done|]. split; [intros i Hi; lia|done].
Qed.

Lemma sublist_same_length {A} (l1 l2 : list A) : l1 `sublist_of` l2 → (length l2 ≤ length l1)%nat → l1 = l2.
Proof.
  induction 1 as [|x l1 l2 _ IH|x l1 l2 H _]; cbn [length]; intros Hl; [done|f_equal; apply IH; lia|].
  apply sublist_length in H. lia.
Qed.

Lemma sublist_imap {A B} (xs : list A) : ∀ (f : nat → A → B) l n, l `sublist_of` imap f xs →
  ∃ nums, nums `sublist_of` seq n (length xs) ∧ Forall2 (λ i y, ∃ j x, i = (n + j)%nat ∧ xs !! j = Some x ∧ y = f j x) nums l.
Proof.
  induction xs as [|x xs IH]; intros f l n; cbn [imap length seq]; [intros ->%sublist_nil_r; by exists []|].
  assert (∀ nums l, Forall2 (λ i y, ∃ j x0, i = (S n + j)%nat ∧ xs !! j = Some x0 ∧ y = f (S j) x0) nums l →
    Forall2 (λ i y, ∃ j x0, i = (n + j)%nat ∧ (x :: xs) !! j = Some x0 ∧ y = f j x0) nums l) as Hshift.
  { intros nums ys H. eapply Forall2_impl; [exact H|]. intros i y (j&x0&->&Hj&->). exists (S j), x0. split; [lia|done]. }
  intros [H|(l'&->&H)]%sublist_cons_r; apply (IH (f ∘ S) _ (S n)) in H as (nums&His&Hl).
  - exists nums. split; [by apply sublist_cons|by apply Hshift].
  - exists (n :: nums). split; [by apply sublist_skip|]. constructor; [exists 0%nat, x; split; [lia|done]|by apply Hshift].
Qed.

(** C27. What a subscriber makes of the published events, over a socket that may lose
    messages but does not reorder them.  The task sends the events in order, numbered
    from one, up to the first the socket refuses, then the end of the publisher, which
    the socket may refuse too.  Of the messages that arrive each gives the event of its
    number, or nothing if that event is over a cap; the end of the publisher, if it
    arrives, comes last; and if no message is lost every event sent is there. *)
Theorem published_stream_received id takes bye topic cmds arriving : Forall (λ c, wire_typed c.2) cmds → (Z.of_nat (length cmds) < 2 ^ 62)%Z →
  arriving `sublist_of` publisher_task takes bye topic 1 cmds →
  ∃ k nums events (goodbye : bool), (k ≤ length cmds)%nat ∧
    (∀ i, (i < k)%nat → takes (1 + Z.of_nat i)%Z = true) ∧ (k < length cmds → takes (1 + Z.of_nat k)%Z = false)%nat ∧
    received id <$> arriving = events ++ (if goodbye then [Some (PublisherReset id)] else []) ∧
    nums `sublist_of` seq 0 k ∧ Forall2 (λ i e, ∃ c, cmds !! i = Some c ∧ e = expected id (1 + Z.of_nat i) c.1 c.2) nums events ∧
    (goodbye = true → bye = true) ∧
    (arriving = publisher_task takes bye topic 1 cmds → nums = seq 0 k ∧ goodbye = bye).
Proof.
  intros Hall Hlen Harr. destruct (publisher_sends takes bye topic cmds 1) as (k&Hk&Hsent&Htk&Hstop); [lia..|]. rewrite Hsent in Harr |- *.
  apply sublist_app_r in Harr as (ms&ends&->&Hms&Hends). apply (sublist_imap _ _ _ 0) in Hms as (nums&His&Hms). rewrite length_take, Nat.min_l in His by done.
  assert (ends = [] ∨ bye = true ∧ ends = [[string_bytes topic; be_bytes (-1); []]]) as Hend.
  { destruct bye; [|left; by apply sublist_nil_r]. apply sublist_cons_r in Hends as [->%sublist_nil_r|(?&->&->%sublist_nil_r)]; eauto. }
  exists k, nums, (received id <$> ms), (negb (bool_decide (ends = []))). split; [done|]. split; [done|]. split; [done|].
  split; [|split; [done|split; [|split]]].
  - rewrite fmap_app. f_equal. by destruct Hend as [->|[_ ->]].
  - apply Forall2_fmap_r. eapply Forall2_impl; [exact Hms|]. intros i y (j&c&->&Hc&->). apply lookup_take_Some in Hc as [Hc Hj].
    exists c. split; [done|]. apply received_message; [by apply (Forall_lookup_1 _ _ _ _ Hall Hc)|lia].
  - by destruct Hend as [->|[-> ->]].
  - intros Heq. apply (f_equal length) in Heq. rewrite !length_app, length_imap, length_take, Nat.min_l in Heq by done.
    apply Forall2_length in Hms. pose proof (sublist_length _ _ His) as Hl. rewrite length_seq in Hl.
    assert (length ends ≤ length (if bye then [[string_bytes topic; be_bytes (-1); []]] else []))%nat as He by by apply sublist_length.
    split.
    + apply sublist_same_length; [done|]. rewrite length_seq. lia.
    + destruct Hend as [->|[-> ->]]; [|done]. destruct bye; [cbn in Heq; lia|done].
Qed.

End Roundtrip.

(** ** Concrete runs *)

(** A format with the shape of MessagePack: a marker before each value. *)
Definition marked (m : N) (bs : list N) : Result string (N * list N) :=
  match bs with k :: v :: rest => if k =? m then Ok (v, rest) else Err "unexpected marker"%string | _ => Err "end of input"%string end.

#[local] Instance marker_pack : MessagePack string := {|
  write_array_len n := [0; n];
  write_str s := 1 :: len (string_bytes s) :: string_bytes s;
  write_sint z := [if (z <? 0)%Z then 2 else 3; Z.abs_N z];
  write_uint n := [4; n];
  write_f64 b := [5; b];
  write_nil := [6];
  read_array_len := marked 0;
  read_string bs := let? r := marked 1 bs in Ok (bytes_string (slice_to r.1 r.2), slice_from r.1 r.2);
  read_i64 bs := match marked 2 bs with Ok (n, rest) => Ok ((- Z.of_N n)%Z, rest) | Err _ => let? r := marked 3 bs in Ok (Z.of_N r.1, r.2) end;
  read_u32 := marked 4;
  read_f64 := marked 5;
  peek_nil bs := match bs with 6 :: rest => Some rest | _ => None end;
  skip_any bs := Err "nothing to skip"%string;
  size_hint := Some;
  missing_field name := name;
  unknown_variant name _ := name;
  custom s := s;
  error_text e := e;
|}.

#[local] Instance marker_laws : MessagePackLaws string.
Proof.
  split; try done.
  - intros s rest. cbn. unfold slice_to, slice_from, len. by rewrite Nat2N.id, take_app_length, drop_app_length, bytes_string_inv.
  - intros z rest Hz. cbn. destruct (Z.ltb_spec z 0); cbn; do 2 f_equal; lia.
  - intros z rest. cbn. by destruct (z <? 0)%Z.
Qed.

Definition stored_command : ZmqPublishCommand :=
  PublishBlockStored (mkBlockStoredEvent "a" [7; -7]%Z (Some 3%Z) [1; 2; 3; 4] 2 1 4 4 true (mkReusableBoundary 0 4 "")).

Lemma published_event_decodes_witness :
  wire_typed stored_command ∧
  decode_event_batch (payload_of 9 stored_command) =
  Ok (mkKvEventBatch 9 [EventBlockStored (mkBlockStored [7; -7]%Z (Some 3%Z) [1; 2; 3; 4] 2 None (Some "GPU"%string))] (Some 1)).
Proof.
  assert (wire_typed stored_command) as Hw by (repeat split; repeat constructor; done).
  split; [exact Hw|]. exact (published_event_decodes 9 stored_command Hw).
Defined.

Definition some_commands : list (N * ZmqPublishCommand) :=
  [(9, stored_command); (10, PublishBlockRemoved (mkBlockRemovedEvent [7]%Z (-1))); (11, PublishAllBlocksCleared)].

Lemma published_stream_received_witness :
  let sent := publisher_task (λ seq, (seq <? 3)%Z) true "kv" 1 some_commands in
  length sent = 3%nat ∧
  ∃ k nums events (goodbye : bool), (k ≤ 3)%nat ∧
    (∀ i, (i < k)%nat → (1 + Z.of_nat i <? 3)%Z = true) ∧ (k < 3 → (1 + Z.of_nat k <? 3)%Z = false)%nat ∧
    received (mkKvWorkerId "http://w" 0) <$> drop 1 sent = events ++ (if goodbye then [Some (PublisherReset (mkKvWorkerId "http://w" 0))] else []) ∧
    nums `sublist_of` seq 0 k ∧
    Forall2 (λ i e, ∃ c, some_commands !! i = Some c ∧ e = expected (mkKvWorkerId "http://w" 0) (1 + Z.of_nat i) c.1 c.2) nums events ∧
    (goodbye = true → true = true) ∧ (drop 1 sent = sent → nums = seq 0 k ∧ goodbye = true).
Proof.
  split; [done|].
  apply (published_stream_received (mkKvWorkerId "http://w" 0) (λ seq, (seq <? 3)%Z) true "kv" some_commands).
  - repeat constructor; done.
  - done.
  - apply sublist_drop.
Defined.
