(* ===== verification/Safetensors.v ===== *)
(** * Safetensors shards ([crates/sglang-srt/src/model_artifacts.rs], headers, spans, data)

    A shard is a file: the length of a JSON header in eight bytes, the header, and
    the payload.  The header gives each tensor its type, shape and place in the
    payload; a span is such a place after it was checked against the file.  Here
    are the header, the spans, reading and checksumming them, and the decoding of
    the element types to [f32].

    The disk and the JSON parser are outside the repository: [Disk] is what the
    calls to [std::fs] see while a model is loaded, [serde_json::from_slice] is a
    parameter whose values are [Json].  Paths are strings. *)

From stdpp Require Import pretty sorting.
From Stdlib Require Import SpecFloat.
From S2P Require Import Prelude Float32 Bytes Text.
#[local] Open Scope N_scope.

(** ** The surroundings *)

(** Opening a file gives its bytes, reading it as text its text, and listing a
    directory the names in it, each or the message of the error.  [seek] past
    [i64::MAX] gives [seek_message], [read_exact] past the end [eof_message]. *)
Record Disk : Type := mkDisk {
  open_file : string → Result string (list N);
  read_to_string : string → Result string string;
  is_file : string → bool;
  is_dir : string → bool;
  read_dir : string → Result string (list (Result string string));
  seek_message : string;
  eof_message : string;
}.

(** The largest size of an allocation; [vec![0; n]] panics beyond it. *)
Definition isize_MAX : N := 2 ^ 63 - 1.

(** [serde_json::Value]; an object lists its entries in the order the map gives them. *)
Inductive Json : Type :=
  | JNull
  | JBool (b : bool)
  | JUint (n : N)
  | JInt (z : Z)
  | JFloat (bits : N)
  | JString (s : string)
  | JArray (values : list Json)
  | JObject (entries : list (string * Json)).

Definition as_str (v : Json) : option string := match v with JString s => Some s | _ => None end.
Definition as_array (v : Json) : option (list Json) := match v with JArray vs => Some vs | _ => None end.
Definition as_object (v : Json) : option (list (string * Json)) := match v with JObject es => Some es | _ => None end.
Definition as_u64 (v : Json) : option N := match v with JUint n => Some n | _ => None end.

(** [Map::get]; the keys of a map are distinct. *)
Fixpoint field (key : string) (entries : list (string * Json)) : option Json :=
  match entries with
  | [] => None
  | (k, v) :: entries => if (k =? key)%string then Some v else field key entries
  end.
(** [Value::get] *)
Definition json_get (key : string) (v : Json) : option Json := as_object v ≫= field key.

(** The iteration order of a [BTreeMap<String, _>]. *)
Definition key_le {A} (a b : string * A) : Prop := String.leb a.1 b.1 = true.
#[export] Instance key_le_dec {A} : RelDecision (@key_le A).
Proof. intros a b. unfold key_le. apply _. Defined.
Definition sorted_entries {A} (m : gmap string A) : list (string * A) := merge_sort key_le (map_to_list m).

(** [usize::checked_mul] over a list, from one. *)
Fixpoint checked_product (acc : N) (l : list N) : option N :=
  match l with [] => Some acc | x :: l => acc ← checked_mul acc x; checked_product acc l end.

(** [sglang-srt/src/model_artifacts.rs:1635-1647] ModelArtifactError *)
Inductive ModelArtifactError : Type :=
  | ModelPathNotLocalDirectory (path : string)
  | ReadModelConfig (path message : string)
  | InvalidModelConfig (path message : string)
  | ReadSafetensorsIndex (path message : string)
  | InvalidSafetensorsIndex (path message : string)
  | MissingWeightShard (path : string)
  | NoSafetensorsWeights (path : string)
  | ReadModelDirectory (path message : string)
  | ReadWeightShard (path message : string)
  | InvalidSafetensorsHeader (path message : string)
  | InvalidSafetensorsData (path message : string).

(** [Path::display] writes the path. *)
(** [sglang-srt/src/model_artifacts.rs:1650-1724] ModelArtifactError::fmt *)
Definition ModelArtifactError_to_string (e : ModelArtifactError) : string :=
  match e with
  | ModelPathNotLocalDirectory path => "model path is not a local directory: " +:+ path
  | ReadModelConfig path message => "failed to read model config " +:+ path +:+ ": " +:+ message
  | InvalidModelConfig path message => "failed to parse model config " +:+ path +:+ ": " +:+ message
  | ReadSafetensorsIndex path message => "failed to read safetensors index " +:+ path +:+ ": " +:+ message
  | InvalidSafetensorsIndex path message => "failed to parse safetensors index " +:+ path +:+ ": " +:+ message
  | MissingWeightShard path => "safetensors index references missing shard " +:+ path
  | NoSafetensorsWeights path => "no safetensors weights found under " +:+ path
  | ReadModelDirectory path message => "failed to read model directory " +:+ path +:+ ": " +:+ message
  | ReadWeightShard path message => "failed to read safetensors shard " +:+ path +:+ ": " +:+ message
  | InvalidSafetensorsHeader path message => "failed to parse safetensors header " +:+ path +:+ ": " +:+ message
  | InvalidSafetensorsData path message => "failed to read safetensors tensor data " +:+ path +:+ ": " +:+ message
  end.

(** ** Metadata *)

(** [sglang-srt/src/model_artifacts.rs:815-819] SafetensorsTensorMetadata *)
Record SafetensorsTensorMetadata : Type := mkMetadata {
  dtype : string;
  shape : list N;
  data_offsets : N * N;
}.

(** [sglang-srt/src/model_artifacts.rs:1942-1947] shape_element_count *)
Definition shape_element_count (shape : list N) : option N := checked_product 1 shape.

(** [sglang-srt/src/model_artifacts.rs:1949-1957] safetensors_dtype_byte_width *)
Definition safetensors_dtype_byte_width (dtype : string) : option N :=
  if bool_decide (dtype ∈ ["BOOL"; "I8"; "U8"; "F8_E4M3"; "F8_E5M2"; "F8_E8M0"]%string) then Some 1
  else if bool_decide (dtype ∈ ["I16"; "U16"; "F16"; "BF16"]%string) then Some 2
  else if bool_decide (dtype ∈ ["I32"; "U32"; "F32"]%string) then Some 4
  else if bool_decide (dtype ∈ ["I64"; "U64"; "F64"]%string) then Some 8
  else None.

(** [sglang-srt/src/model_artifacts.rs:822-824] SafetensorsTensorMetadata::element_count *)
Definition element_count (m : SafetensorsTensorMetadata) : option N := shape_element_count (shape m).

(** [sglang-srt/src/model_artifacts.rs:826-828] SafetensorsTensorMetadata::dtype_byte_width *)
Definition dtype_byte_width (m : SafetensorsTensorMetadata) : option N := safetensors_dtype_byte_width (dtype m).

(** [sglang-srt/src/model_artifacts.rs:1909-1914] invalid_safetensors_data *)
Definition invalid_safetensors_data (path message : string) : ModelArtifactError := InvalidSafetensorsData path message.

(** [sglang-srt/src/model_artifacts.rs:1916-1940] expected_tensor_byte_len *)
Definition expected_tensor_byte_len (path tensor_name : string) (m : SafetensorsTensorMetadata) : Result ModelArtifactError N :=
  let? count := ok_or (element_count m) (invalid_safetensors_data path ("tensor " +:+ tensor_name +:+ " element count overflowed")) in
  let? width := ok_or (dtype_byte_width m)
    (invalid_safetensors_data path ("tensor " +:+ tensor_name +:+ " has unsupported safetensors dtype " +:+ dtype m)) in
  ok_or (checked_mul count width) (invalid_safetensors_data path ("tensor " +:+ tensor_name +:+ " byte length overflowed")).

(** The iterator's [collect::<Result<Vec<_>, _>>()]: the first error ends it. *)
Fixpoint collect {E A B} (f : A → Result E B) (l : list A) : Result E (list B) :=
  match l with [] => Ok [] | x :: l => let? y := f x in let? ys := collect f l in Ok (y :: ys) end.

(** [usize] and [u64] have the same width. *)
Definition read_usize (e : ModelArtifactError) (v : Json) : Result ModelArtifactError N := ok_or (as_u64 v) e.

(** [sglang-srt/src/model_artifacts.rs:1847-1907] parse_tensor_metadata *)
Definition parse_tensor_metadata (path tensor_name : string) (metadata : list (string * Json))
    : Result ModelArtifactError SafetensorsTensorMetadata :=
  let invalid := λ what, InvalidSafetensorsHeader path ("tensor " +:+ tensor_name +:+ what) in
  let? dtype := ok_or (field "dtype" metadata ≫= as_str) (invalid " is missing string dtype"%string) in
  let? dims := ok_or (field "shape" metadata ≫= as_array) (invalid " is missing shape array"%string) in
  let? shape := collect (read_usize (invalid " shape contains a non-usize dimension"%string)) dims in
  let? offsets := ok_or (field "data_offsets" metadata ≫= as_array) (invalid " is missing data_offsets array"%string) in
  match offsets with
  | [a; b] =>
      let? start := read_usize (invalid " data_offsets contains a non-usize offset"%string) a in
      let? stop := read_usize (invalid " data_offsets contains a non-usize offset"%string) b in
      Ok (mkMetadata dtype shape (start, stop))
  | _ => Err (invalid " data_offsets must have two entries"%string)
  end.

(** ** Spans *)

(** [sglang-srt/src/model_artifacts.rs:1386-1391] SafetensorsTensorSpan *)
Record SafetensorsTensorSpan : Type := mkSpan {
  path : string;
  metadata : SafetensorsTensorMetadata;
  absolute_byte_offset : N;
  byte_len : N;
}.

(** [sglang-srt/src/model_artifacts.rs:832-835] SafetensorsTensorData *)
Record SafetensorsTensorData : Type := mkData {
  data_metadata : SafetensorsTensorMetadata;
  bytes : list N;
}.

(** [sglang-srt/src/model_artifacts.rs:1959-1959] FNV1A64_OFFSET_BASIS *)
Definition FNV1A64_OFFSET_BASIS : N := 0xcbf29ce484222325.
(** [sglang-srt/src/model_artifacts.rs:1960-1960] FNV1A64_PRIME *)
Definition FNV1A64_PRIME : N := 0x100000001b3.

(** [sglang-srt/src/model_artifacts.rs:1962-1968] fnv1a64_update *)
Fixpoint fnv1a64_update (checksum : N) (bytes : list N) : N :=
  match bytes with
  | [] => checksum
  | b :: bytes => fnv1a64_update ((N.lxor checksum b * FNV1A64_PRIME) mod 2 ^ 64) bytes
  end.

Section Read.
Context (disk : Disk).

Definition shard_error (p message : string) : ModelArtifactError := ReadWeightShard p message.
Definition open_shard (p : string) : Result ModelArtifactError (list N) := result_map_err (shard_error p) (open_file disk p).

(** [seek(SeekFrom::Start(offset))]; the offset is an [i64] for the system. *)
Definition seek (p : string) (offset : N) : Result ModelArtifactError N :=
  if offset <=? isize_MAX then Ok offset else Err (shard_error p (seek_message disk)).

(** [read_exact] of [n] bytes at [offset]. *)
Definition read_exact (p : string) (file : list N) (offset n : N) : Result ModelArtifactError (list N) :=
  if (n =? 0) || (offset + n <=? len file) then Ok (slice_to n (slice_from offset file)) else Err (shard_error p (eof_message disk)).

(** [vec![0; n]], then [read_exact] into it. *)
Definition read_vec (p : string) (file : list N) (offset n : N) : option (Result ModelArtifactError (list N)) :=
  if n <=? isize_MAX then Some (read_exact p file offset n) else None.

(** [sglang-srt/src/model_artifacts.rs:1424-1446] SafetensorsTensorSpan::read *)
Definition span_read (s : SafetensorsTensorSpan) : option (Result ModelArtifactError (option SafetensorsTensorData)) :=
  let^ file := Some (open_shard (path s)) in
  let^ offset := Some (seek (path s) (absolute_byte_offset s)) in
  let^ bs := read_vec (path s) file offset (byte_len s) in
  Some (Ok (Some (mkData (metadata s) bs))).

(** Each round reads at least a byte, so [byte_len] rounds are enough. *)
(** [sglang-srt/src/model_artifacts.rs:1409-1419] SafetensorsTensorSpan::fnv1a64_checksum (loop) *)
Fixpoint checksum_loop (fuel : nat) (p : string) (file : list N) (offset remaining checksum : N) : option (Result ModelArtifactError N) :=
  if remaining =? 0 then Some (Ok checksum)
  else
    match fuel with
    | O => None
    | S fuel =>
        let read_len := N.min remaining (64 * 1024) in
        let^ buffer := Some (read_exact p file offset read_len) in
        checksum_loop fuel p file (offset + read_len) (remaining - read_len) (fnv1a64_update checksum buffer)
    end.

(** [sglang-srt/src/model_artifacts.rs:1394-1422] SafetensorsTensorSpan::fnv1a64_checksum *)
Definition fnv1a64_checksum (s : SafetensorsTensorSpan) : option (Result ModelArtifactError N) :=
  let^ file := Some (open_shard (path s)) in
  let^ offset := Some (seek (path s) (absolute_byte_offset s)) in
  checksum_loop (N.to_nat (byte_len s)) (path s) file offset (byte_len s) FNV1A64_OFFSET_BASIS.

(** ** Headers *)

(** [sglang-srt/src/model_artifacts.rs:1450-1453] SafetensorsHeader *)
Record SafetensorsHeader : Type := mkHeader {
  header_len : N;
  tensors : gmap string SafetensorsTensorMetadata;
}.

Context (parse_json : list N → Result string Json).

(** [sglang-srt/src/model_artifacts.rs:1496-1508] SafetensorsHeader::from_file (tensors) *)
Fixpoint header_tensors (p : string) (entries : list (string * Json)) (tensors : gmap string SafetensorsTensorMetadata)
    : Result ModelArtifactError (gmap string SafetensorsTensorMetadata) :=
  match entries with
  | [] => Ok tensors
  | (tensor_name, v) :: entries =>
      if (tensor_name =? "__metadata__")%string then header_tensors p entries tensors
      else
        match as_object v with
        | None => header_tensors p entries tensors
        | Some m => let? m := parse_tensor_metadata p tensor_name m in header_tensors p entries (<[tensor_name := m]> tensors)
        end
  end.

(** The header's length is a [u64], so it fits a [usize]; the buffer for it is
    allocated before the file is known to be that long. *)
(** [sglang-srt/src/model_artifacts.rs:1456-1514] SafetensorsHeader::from_file *)
Definition header_from_file (p : string) : option (Result ModelArtifactError SafetensorsHeader) :=
  let^ file := Some (open_shard p) in
  let^ len_bytes := Some (read_exact p file 0 8) in
  let header_len := from_le_bytes len_bytes in
  let^ header := read_vec p file 8 header_len in
  let^ value := Some (result_map_err (InvalidSafetensorsHeader p) (parse_json header)) in
  let^ header_object := Some (ok_or (as_object value) (InvalidSafetensorsHeader p "header must be a JSON object")) in
  let^ tensors := Some (header_tensors p header_object ∅) in
  Some (Ok (mkHeader header_len tensors)).

(** [sglang-srt/src/model_artifacts.rs:1516-1518] SafetensorsHeader::tensor_metadata *)
Definition header_tensor_metadata (h : SafetensorsHeader) (tensor_name : string) : option SafetensorsTensorMetadata := tensors h !! tensor_name.

(** [sglang-srt/src/model_artifacts.rs:1520-1522] SafetensorsHeader::tensor_names *)
Definition header_tensor_names (h : SafetensorsHeader) : list string := fst <$> sorted_entries (tensors h).

(** A [usize] always fits a [u64]. *)
(** [sglang-srt/src/model_artifacts.rs:1524-1598] SafetensorsHeader::tensor_span *)
Definition header_tensor_span (h : SafetensorsHeader) (p tensor_name : string) : Result ModelArtifactError (option SafetensorsTensorSpan) :=
  match tensors h !! tensor_name with
  | None => Ok None
  | Some m =>
      let invalid := λ what, invalid_safetensors_data p ("tensor " +:+ tensor_name +:+ what) in
      let start := (data_offsets m).1 in
      let stop := (data_offsets m).2 in
      let? tensor_len := ok_or (checked_sub stop start) (invalid " data_offsets start is after end"%string) in
      let? expected := expected_tensor_byte_len p tensor_name m in
      if negb (tensor_len =? expected) then
        Err (invalid (" metadata expects " +:+ pretty expected +:+ " bytes but data_offsets describe " +:+ pretty tensor_len +:+ " bytes"))
      else
        let? payload_start := ok_or (checked_add 8 (header_len h)) (invalid_safetensors_data p "safetensors payload start offset overflowed") in
        let? absolute_start := ok_or (checked_add payload_start start) (invalid " start offset overflowed"%string) in
        let? absolute_end := ok_or (checked_add payload_start stop) (invalid " end offset overflowed"%string) in
        let? file := open_shard p in
        if len file <? absolute_end then Err (invalid " payload extends past end of shard"%string)
        else Ok (Some (mkSpan p m absolute_start tensor_len))
  end.

(** [sglang-srt/src/model_artifacts.rs:1600-1609] SafetensorsHeader::read_tensor *)
Definition header_read_tensor (h : SafetensorsHeader) (p tensor_name : string)
    : option (Result ModelArtifactError (option SafetensorsTensorData)) :=
  let^ span := Some (header_tensor_span h p tensor_name) in
  match span with None => Some (Ok None) | Some span => span_read span end.

(** [sglang-srt/src/model_artifacts.rs:1617-1621] SafetensorsHeader::tensor_span_entries (loop) *)
Fixpoint span_entries_of (h : SafetensorsHeader) (p : string) (names : list string)
    : Result ModelArtifactError (list (string * SafetensorsTensorSpan)) :=
  match names with
  | [] => Ok []
  | name :: names =>
      let? span := header_tensor_span h p name in
      let? entries := span_entries_of h p names in
      Ok (match span with Some span => (name, span) :: entries | None => entries end)
  end.

(** [sglang-srt/src/model_artifacts.rs:1611-1624] SafetensorsHeader::tensor_span_entries *)
Definition header_span_entries (h : SafetensorsHeader) (p : string) : Result ModelArtifactError (list (string * SafetensorsTensorSpan)) :=
  span_entries_of h p (header_tensor_names h).

End Read.

(** ** Decoding *)

(** [sglang-srt/src/model_artifacts.rs:864-867] SafetensorsTensorDecodeError *)
Inductive SafetensorsTensorDecodeError : Type :=
  | UnsupportedDtype (dtype : string)
  | InvalidByteLength (dtype : string) (byte_len : N).

(** [sglang-srt/src/model_artifacts.rs:870-880] SafetensorsTensorDecodeError::fmt *)
Definition SafetensorsTensorDecodeError_to_string (e : SafetensorsTensorDecodeError) : string :=
  match e with
  | UnsupportedDtype dtype => "cannot decode safetensors dtype " +:+ dtype +:+ " as f32"
  | InvalidByteLength dtype byte_len => "cannot decode safetensors dtype " +:+ dtype +:+ " from " +:+ pretty byte_len +:+ " bytes"
  end.

(** [f32::from_bits]; the payload of a NaN is lost, as the specification floats
    have one NaN. *)
Definition f32_from_bits (bits : N) : f32 :=
  let sign := N.testbit bits 31 in
  let exponent := N.land (N.shiftr bits 23) 255 in
  let mantissa := N.land bits (2 ^ 23 - 1) in
  if exponent =? 0 then match mantissa with 0 => S754_zero sign | Npos m => S754_finite sign m (-149) end
  else if exponent =? 255 then match mantissa with 0 => S754_infinity sign | Npos _ => S754_nan end
  else match mantissa + 2 ^ 23 with 0 => S754_nan | Npos m => S754_finite sign m (Z.of_N exponent - 150) end.

(** [2_f32.powi(k)] for the exponents in use, where the power is a normal number. *)
Definition two_powi (k : Z) : f32 := S754_finite false 8388608 (k - 23).
Definition f32_add (x y : f32) : f32 := SFadd f32_prec f32_emax x y.
Definition f32_minus_one : f32 := S754_finite true 8388608 (-23).

(** [chunks_exact(k)], for [k] not zero: the chunks and the remainder. *)
Fixpoint chunks_exact (fuel : nat) (k : nat) (bs : list N) : list (list N) * list N :=
  match fuel with
  | O => ([], bs)
  | S fuel =>
      if (length bs <? k)%nat then ([], bs)
      else let '(chunks, rest) := chunks_exact fuel k (drop k bs) in (take k bs :: chunks, rest)
  end.

(** [sglang-srt/src/model_artifacts.rs:885-897] decode_f32_bytes *)
Definition decode_f32_bytes (bs : list N) : Result SafetensorsTensorDecodeError (list f32) :=
  let '(chunks, remainder) := chunks_exact (length bs) 4 bs in
  if negb (len remainder =? 0) then Err (InvalidByteLength "F32" (len bs))
  else Ok ((λ chunk, f32_from_bits (from_le_bytes chunk)) <$> chunks).

(** [sglang-srt/src/model_artifacts.rs:899-915] decode_u16_float_bytes *)
Definition decode_u16_float_bytes (dtype : string) (bs : list N) (decode : N → f32) : Result SafetensorsTensorDecodeError (list f32) :=
  let '(chunks, remainder) := chunks_exact (length bs) 2 bs in
  if negb (len remainder =? 0) then Err (InvalidByteLength dtype (len bs))
  else Ok ((λ chunk, decode (from_le_bytes chunk)) <$> chunks).

(** [sglang-srt/src/model_artifacts.rs:917-919] bf16_to_f32 *)
Definition bf16_to_f32 (bits : N) : f32 := f32_from_bits (N.shiftl bits 16).

(** [sglang-srt/src/model_artifacts.rs:921-943] f16_to_f32 *)
Definition f16_to_f32 (bits : N) : f32 :=
  let sign := if N.land bits 0x8000 =? 0 then f32_one else f32_minus_one in
  let exponent := N.land (N.shiftr bits 10) 0x1f in
  let mantissa := N.land bits 0x03ff in
  if exponent =? 0 then
    if mantissa =? 0 then f32_mul sign f32_zero
    else f32_mul (f32_mul sign (two_powi (-14))) (f32_div (f32_of_usize mantissa) (f32_of_usize 1024))
  else if exponent =? 0x1f then
    if mantissa =? 0 then f32_mul sign (S754_infinity false) else S754_nan
  else
    f32_mul (f32_mul sign (two_powi (Z.of_N exponent - 15)))
      (f32_add f32_one (f32_div (f32_of_usize mantissa) (f32_of_usize 1024))).

(** [sglang-srt/src/model_artifacts.rs:945-961] f8_e4m3fn_to_f32 *)
Definition f8_e4m3fn_to_f32 (bits : N) : f32 :=
  let sign := if N.land bits 0x80 =? 0 then f32_one else f32_minus_one in
  let exponent := N.land (N.shiftr bits 3) 0x0f in
  let mantissa := N.land bits 0x07 in
  if exponent =? 0 then
    if mantissa =? 0 then f32_mul sign f32_zero
    else f32_mul (f32_mul sign (two_powi (-6))) (f32_div (f32_of_usize mantissa) (f32_of_usize 8))
  else if (exponent =? 0x0f) && (mantissa =? 0x07) then S754_nan
  else
    f32_mul (f32_mul sign (two_powi (Z.of_N exponent - 7)))
      (f32_add f32_one (f32_div (f32_of_usize mantissa) (f32_of_usize 8))).

(** [None] is the panic of [expect]. *)
(** [sglang-srt/src/model_artifacts.rs:838-842] SafetensorsTensorData::element_count *)
Definition data_element_count (d : SafetensorsTensorData) : option N := element_count (data_metadata d).

(** [sglang-srt/src/model_artifacts.rs:844-848] SafetensorsTensorData::dtype_byte_width *)
Definition data_dtype_byte_width (d : SafetensorsTensorData) : option N := dtype_byte_width (data_metadata d).

(** [sglang-srt/src/model_artifacts.rs:850-860] SafetensorsTensorData::decode_f32_values *)
Definition decode_f32_values (d : SafetensorsTensorData) : Result SafetensorsTensorDecodeError (list f32) :=
  if (dtype (data_metadata d) =? "F32")%string then decode_f32_bytes (bytes d)
  else if (dtype (data_metadata d) =? "BF16")%string then decode_u16_float_bytes "BF16" (bytes d) bf16_to_f32
  else if (dtype (data_metadata d) =? "F16")%string then decode_u16_float_bytes "F16" (bytes d) f16_to_f32
  else if (dtype (data_metadata d) =? "F8_E4M3")%string then Ok (f8_e4m3fn_to_f32 <$> bytes d)
  else Err (UnsupportedDtype (dtype (data_metadata d))).

(** ** Reading a span *)

Lemma span_Ok disk h p name s :
  header_tensor_span disk h p name = Ok (Some s) →
  ∃ m file count width, tensors h !! name = Some m ∧ open_file disk p = Ok file ∧
    element_count m = Some count ∧ dtype_byte_width m = Some width ∧
    (data_offsets m).2 = (data_offsets m).1 + count * width ∧ 8 + header_len h + (data_offsets m).2 ≤ len file ∧
    s = mkSpan p m (8 + header_len h + (data_offsets m).1) (count * width).
Proof.
  unfold header_tensor_span. destruct (tensors h !! name) as [m|]; [|done]. cbv zeta.
  intros Hs. decompose_result. destruct (negb _) eqn:Hne; [done|].
  unfold expected_tensor_byte_len in *. decompose_result. reflect_N.
  destruct (_ <? _) eqn:Hlen; [done|]. reflect_N. simplify_eq.
  unfold open_shard in *. destruct (open_file disk p) as [file|] eqn:Hf; [|done].
  simpl in *. decompose_result. subst. by eexists m, _, _, _.
Qed.

Lemma read_exact_within disk p file offset n :
  offset + n ≤ len file → read_exact disk p file offset n = Ok (slice_to n (slice_from offset file)).
Proof. intros Hle. unfold read_exact. destruct (N.leb_spec (offset + n) (len file)); [|lia]. by rewrite orb_true_r. Qed.

Lemma fnv1a64_update_app c bs bs' : fnv1a64_update c (bs ++ bs') = fnv1a64_update (fnv1a64_update c bs) bs'.
Proof. revert c. induction bs as [|b bs IH]; intros c; [done|]. apply IH. Qed.

Lemma slice_to_app_from {A} n k o (l : list A) :
  slice_to n (slice_from o l) ++ slice_to k (slice_from (o + n) l) = slice_to (n + k) (slice_from o l).
Proof.
  unfold slice_to, slice_from. rewrite N2Nat.inj_add, <-drop_drop, N2Nat.inj_add, take_take_drop. done.
Qed.

Lemma checksum_loop_run disk p file : ∀ fuel offset remaining c,
  remaining ≤ N.of_nat fuel → offset + remaining ≤ len file →
  checksum_loop disk fuel p file offset remaining c =
    Some (Ok (fnv1a64_update c (slice_to remaining (slice_from offset file)))).
Proof.
  induction fuel as [|fuel IH]; intros offset remaining c Hf Hlen; cbn [checksum_loop];
    destruct (N.eqb_spec remaining 0) as [->|Hr]; try done; [lia|].
  set (n := N.min remaining (64 * 1024)). assert (0 < n ≤ remaining) as Hn by (unfold n; lia).
  rewrite read_exact_within by lia. cbn [result_bind_opt]. rewrite IH by lia.
  rewrite <-fnv1a64_update_app, slice_to_app_from. by replace (n + (remaining - n)) with remaining by lia.
Qed.

Lemma read_span disk h p name s file :
  header_tensor_span disk h p name = Ok (Some s) → open_file disk p = Ok file → len file ≤ isize_MAX →
  let bs := slice_to (byte_len s) (slice_from (absolute_byte_offset s) file) in
  span_read disk s = Some (Ok (Some (mkData (metadata s) bs))) ∧ len bs = byte_len s.
Proof.
  intros (m&file'&count&width&Hm&Hf&Hc&Hw&Hstop&Hlen&->)%span_Ok Hf' Hmax. rewrite Hf in Hf'. injection Hf' as ->.
  cbn [absolute_byte_offset byte_len metadata path]. split; [|len_lia].
  unfold span_read, open_shard, seek, read_vec. cbn [absolute_byte_offset byte_len metadata path]. rewrite Hf. cbn [result_map_err result_bind_opt].
  destruct (N.leb_spec (8 + header_len h + (data_offsets m).1) isize_MAX); [|lia]. cbn [result_bind_opt].
  destruct (N.leb_spec (count * width) isize_MAX); [|lia]. rewrite read_exact_within by lia. done.
Qed.

(** C22. A span that was handed out can be read as long as its file stays: reading
    does not panic and gives exactly the bytes of the tensor's place in the
    payload, as many as its shape and type ask for, and the checksum loop ends
    with the FNV-1a hash of those bytes. *)
Theorem span_reads_its_payload disk h p name s file :
  header_tensor_span disk h p name = Ok (Some s) → open_file disk p = Ok file → len file ≤ isize_MAX →
  ∃ m count width bs, tensors h !! name = Some m ∧ element_count m = Some count ∧ dtype_byte_width m = Some width ∧
    bs = slice_to (count * width) (slice_from (8 + header_len h + (data_offsets m).1) file) ∧ len bs = count * width ∧
    span_read disk s = Some (Ok (Some (mkData m bs))) ∧
    fnv1a64_checksum disk s = Some (Ok (fnv1a64_update FNV1A64_OFFSET_BASIS bs)).
Proof.
  intros Hs Hf Hmax. pose proof (read_span _ _ _ _ _ _ Hs Hf Hmax) as [Hread Hlen].
  apply span_Ok in Hs as (m&file'&count&width&Hm&Hf'&Hc&Hw&Hstop&Hle&->). rewrite Hf in Hf'. injection Hf' as <-.
  cbn [absolute_byte_offset byte_len metadata path] in *.
  exists m, count, width. eexists. do 3 (split; [done|]). split; [done|]. split; [done|]. split; [done|].
  unfold fnv1a64_checksum, open_shard, seek. cbn [absolute_byte_offset byte_len path]. rewrite Hf. cbn [result_map_err result_bind_opt].
  destruct (N.leb_spec (8 + header_len h + (data_offsets m).1) isize_MAX); [|lia]. cbn [result_bind_opt].
  by rewrite checksum_loop_run by lia.
Qed.

(** ** Decoding a tensor that was read *)

Lemma chunks_exact_spec k n : ∀ fuel bs, (0 < k)%nat → length bs = (n * k)%nat → (length bs ≤ fuel)%nat →
  ∃ cs, chunks_exact fuel k bs = (cs, []) ∧ length cs = n ∧ ∀ i, (i < n)%nat → cs !! i = Some (take k (drop (i * k) bs)).
Proof.
  induction n as [|n IH]; intros fuel bs Hk Hbs Hf.
  - destruct bs; [|done]. exists []. split; [|split; [done|lia]]. destruct fuel; [done|]. cbn [chunks_exact length].
    by destruct (Nat.ltb_spec 0 k); [|lia].
  - destruct fuel as [|fuel]; [lia|]. cbn [chunks_exact].
    destruct (Nat.ltb_spec (length bs) k); [lia|].
    destruct (IH fuel (drop k bs)) as (cs&->&Hlen&Hat); [done|rewrite length_drop; lia..|].
    eexists. split; [done|]. split; [by cbn; rewrite Hlen|]. intros [|i] Hi; [done|]. cbn [lookup list_lookup].
    rewrite Hat by lia. by rewrite drop_drop.
Qed.

(** The value of a small float: the mantissa with its hidden bit, scaled. *)
Definition minifloat_value (mantissa_bits : N) (bias : Z) (sign : bool) (exponent mantissa : N) : f32 :=
  let m := if exponent =? 0 then mantissa else 2 ^ mantissa_bits + mantissa in
  let e := if exponent =? 0 then 1%Z else Z.of_N exponent in
  binary_normalize f32_prec f32_emax (if sign then - Z.of_N m else Z.of_N m)%Z (e - bias - Z.of_N mantissa_bits) sign.

(** E4M3 with NaN in place of infinity and the largest value. *)
Definition f8_e4m3fn_value (b : N) : f32 :=
  if b mod 128 =? 127 then S754_nan else minifloat_value 3 7 (128 <=? b) (b / 8 mod 16) (b mod 8).

Lemma f8_e4m3fn_exact b : is_byte b → f8_e4m3fn_to_f32 b = f8_e4m3fn_value b.
Proof.
  intros Hb. assert (f8_e4m3fn_to_f32 <$> nrange 0 256 = f8_e4m3fn_value <$> nrange 0 256) as He by by vm_compute.
  assert (nrange 0 256 !! N.to_nat b = Some b) as Hat.
  { unfold is_byte in Hb. rewrite lookup_nrange by lia. f_equal. lia. }
  pose proof (f_equal (λ l, l !! N.to_nat b) He) as Hl. cbn beta in Hl. rewrite !list_lookup_fmap, Hat in Hl. by injection Hl.
Qed.

(** What a tensor's element type says the bytes of an element are as an [f32]. *)
Definition element_value (dtype : string) : option (list N → f32) :=
  if (dtype =? "F32")%string then Some (λ chunk, f32_from_bits (from_le_bytes chunk))
  else if (dtype =? "BF16")%string then Some (λ chunk, f32_from_bits (65536 * from_le_bytes chunk))
  else if (dtype =? "F16")%string then Some (λ chunk, f16_to_f32 (from_le_bytes chunk))
  else if (dtype =? "F8_E4M3")%string then Some (λ chunk, f8_e4m3fn_value (from_le_bytes chunk))
  else None.

Definition elements_decoded (value : list N → f32) (count width : N) (bs : list N) (vs : list f32) : Prop :=
  len vs = count ∧ ∀ i, i < count → vs !! N.to_nat i = Some (value (slice_to width (slice_from (i * width) bs))).

Lemma chunks_decoded value count (k : nat) bs :
  (0 < k)%nat → len bs = count * N.of_nat k →
  ∃ cs, chunks_exact (length bs) k bs = (cs, []) ∧ elements_decoded value count (N.of_nat k) bs (value <$> cs).
Proof.
  intros Hk Hbs. destruct (chunks_exact_spec k (N.to_nat count) (length bs) bs) as (cs&Hcs&Hlen&Hat); [done| |done|].
  { apply (f_equal N.to_nat) in Hbs. unfold len in Hbs. by rewrite N2Nat.inj_mul, !Nat2N.id in Hbs. }
  exists cs. split; [done|]. split; [unfold len; rewrite length_fmap; lia|]. intros i Hi.
  rewrite list_lookup_fmap, Hat by lia. cbn. do 2 f_equal. unfold slice_to, slice_from. rewrite Nat2N.id. by replace (N.to_nat (i * N.of_nat k)) with (N.to_nat i * k)%nat by lia.
Qed.

Lemma bytes_decoded count bs : len bs = count → Forall is_byte bs →
  elements_decoded (λ chunk, f8_e4m3fn_value (from_le_bytes chunk)) count 1 bs (f8_e4m3fn_to_f32 <$> bs).
Proof.
  intros Hbs Hbytes. split; [unfold len; by rewrite length_fmap|]. intros i Hi. rewrite list_lookup_fmap.
  destruct (lookup_lt_is_Some_2 bs (N.to_nat i)) as [b Hb]; [unfold len in Hbs; lia|].
  rewrite Hb. cbn [fmap option_fmap option_map]. f_equal.
  rewrite (f8_e4m3fn_exact b) by by eapply Forall_lookup_1. f_equal.
  unfold slice_to, slice_from. rewrite N.mul_1_r. rewrite (drop_S _ _ _ Hb). change (N.to_nat 1) with 1%nat.
  cbn [take from_le_bytes firstn]. by rewrite N.mul_0_r, N.add_0_r.
Qed.

Lemma decode_spec d count width :
  dtype_byte_width (data_metadata d) = Some width → len (bytes d) = count * width → Forall is_byte (bytes d) →
  match element_value (dtype (data_metadata d)) with
  | Some value => ∃ vs, decode_f32_values d = Ok vs ∧ elements_decoded value count width (bytes d) vs
  | None => decode_f32_values d = Err (UnsupportedDtype (dtype (data_metadata d)))
  end.
Proof.
  unfold dtype_byte_width, element_value, decode_f32_values. destruct d as [[dt sh off] bs].
  cbn [data_metadata dtype bytes]. intros Hw Hlen Hb.
  destruct (String.eqb_spec dt "F32") as [->|_]; [vm_compute in Hw; injection Hw as <-|].
  { destruct (chunks_decoded (λ chunk, f32_from_bits (from_le_bytes chunk)) count 4 bs) as (cs&Hcs&Hd); [lia|done|].
    eexists. unfold decode_f32_bytes. rewrite Hcs. by split. }
  destruct (String.eqb_spec dt "BF16") as [->|_]; [vm_compute in Hw; injection Hw as <-|].
  { destruct (chunks_decoded (λ chunk, f32_from_bits (65536 * from_le_bytes chunk)) count 2 bs) as (cs&Hcs&Hd); [lia|done|].
    eexists. unfold decode_u16_float_bytes. rewrite Hcs. split; [done|].
    erewrite list_fmap_ext; [exact Hd|]. intros i chunk _. cbn. unfold bf16_to_f32. rewrite N.shiftl_mul_pow2. f_equal. lia. }
  destruct (String.eqb_spec dt "F16") as [->|_]; [vm_compute in Hw; injection Hw as <-|].
  { destruct (chunks_decoded (λ chunk, f16_to_f32 (from_le_bytes chunk)) count 2 bs) as (cs&Hcs&Hd); [lia|done|].
    eexists. unfold decode_u16_float_bytes. rewrite Hcs. by split. }
  destruct (String.eqb_spec dt "F8_E4M3") as [->|_]; [vm_compute in Hw; injection Hw as <-|done].
  eexists. split; [done|]. apply bytes_decoded; [lia|done].
Qed.

(** A tensor that was read has the byte count of its shape and type, neither
    accessor panics, and decoding it gives one number per element, the value of
    the element's bytes under the tensor's type; types without one are refused
    by name. *)
Theorem loaded_tensor_decodes disk h p name d file :
  header_read_tensor disk h p name = Some (Ok (Some d)) → open_file disk p = Ok file → len file ≤ isize_MAX →
  Forall is_byte file →
  ∃ count width, data_element_count d = Some count ∧ data_dtype_byte_width d = Some width ∧
    len (bytes d) = count * width ∧
    match element_value (dtype (data_metadata d)) with
    | Some value => ∃ vs, decode_f32_values d = Ok vs ∧ elements_decoded value count width (bytes d) vs
    | None => decode_f32_values d = Err (UnsupportedDtype (dtype (data_metadata d)))
    end.
Proof.
  unfold header_read_tensor. intros Hd Hf Hmax Hbytes. decompose_result.
  destruct (header_tensor_span disk h p name) as [[s|]|] eqn:Hs; simplify_eq/=.
  pose proof (read_span _ _ _ _ _ _ Hs Hf Hmax) as [Hread Hlen].
  apply span_Ok in Hs as (m&file'&count&width&Hm&Hf'&Hc&Hw&Hstop&Hle&->). cbn [absolute_byte_offset byte_len metadata path] in *.
  match goal with H : span_read _ _ = _ |- _ => rewrite Hread in H; injection H as <- end.
  exists count, width. do 3 (split; [done|]). apply decode_spec; [done..|]. by apply Forall_take, Forall_drop.
Qed.

(** ** The format

    What a writer of the format puts on disk: the tensors of a shard one after the
    other, each entry of the header with the place of its tensor. *)
Record Tensor : Type := mkTensor {
  t_name : string;
  t_dtype : string;
  t_shape : list N;
  t_bytes : list N;
}.

Definition tensor_metadata (offset : N) (t : Tensor) : SafetensorsTensorMetadata :=
  mkMetadata (t_dtype t) (t_shape t) (offset, offset + len (t_bytes t)).

Fixpoint layout (offset : N) (ts : list Tensor) : list (string * SafetensorsTensorMetadata) :=
  match ts with
  | [] => []
  | t :: ts => (t_name t, tensor_metadata offset t) :: layout (offset + len (t_bytes t)) ts
  end.

Definition metadata_json (m : SafetensorsTensorMetadata) : Json :=
  JObject [("dtype", JString (dtype m)); ("shape", JArray (JUint <$> shape m));
           ("data_offsets", JArray [JUint (data_offsets m).1; JUint (data_offsets m).2])]%string.
Definition entry_json (e : string * SafetensorsTensorMetadata) : string * Json := (e.1, metadata_json e.2).

Definition payload (ts : list Tensor) : list N := concat (t_bytes <$> ts).
Definition shard_file (header : list N) (ts : list Tensor) : list N := to_le_bytes 8 (len header) ++ header ++ payload ts.

(** The bytes of a tensor are as many as its shape and type say. *)
Definition tensor_sized (t : Tensor) : Prop :=
  ∃ count width, shape_element_count (t_shape t) = Some count ∧ safetensors_dtype_byte_width (t_dtype t) = Some width ∧
    len (t_bytes t) = count * width.

Lemma collect_usize e l : collect (read_usize e) (JUint <$> l) = Ok l.
Proof. induction l as [|x l IH]; [done|]. cbn [fmap list_fmap collect]. cbn. by rewrite IH. Qed.

Lemma parse_metadata_json p name m : parse_tensor_metadata p name
    [("dtype", JString (dtype m)); ("shape", JArray (JUint <$> shape m));
     ("data_offsets", JArray [JUint (data_offsets m).1; JUint (data_offsets m).2])]%string = Ok m.
Proof. unfold parse_tensor_metadata. cbn -[fmap collect]. rewrite collect_usize. cbn. by destruct m as [? ? []]. Qed.

Lemma header_tensors_json p es : ∀ acc, NoDup es.*1 → "__metadata__"%string ∉ es.*1 →
  header_tensors p (entry_json <$> es) acc = Ok (list_to_map es ∪ acc).
Proof.
  induction es as [|[name m] es IH]; intros acc Hnd Hm; cbn [fmap list_fmap header_tensors]; [by rewrite list_to_map_nil, (left_id_L ∅ (∪))|].
  cbn [fmap list_fmap fst] in *. apply NoDup_cons in Hnd as [Hn Hnd]. apply not_elem_of_cons in Hm as [Hne Hm].
  cbn [entry_json fst snd]. destruct (String.eqb_spec name "__metadata__"); [congruence|].
  cbn [metadata_json as_object]. rewrite parse_metadata_json. cbn [result_bind]. rewrite IH by done.
  f_equal. rewrite list_to_map_cons, <-insert_union_l. symmetry. apply insert_union_r. by apply not_elem_of_list_to_map.
Qed.

Lemma layout_app ts ts' : ∀ offset, layout offset (ts ++ ts') = layout offset ts ++ layout (offset + len (payload ts)) ts'.
Proof.
  induction ts as [|t ts IH]; intros offset; cbn [app layout]; [unfold payload; cbn; by rewrite N.add_0_r|].
  rewrite IH. cbn [app]. do 3 f_equal. unfold payload. cbn [fmap list_fmap concat]. len_lia.
Qed.

Lemma layout_names ts : ∀ offset, (layout offset ts).*1 = t_name <$> ts.
Proof. induction ts as [|t ts IH]; intros offset; [done|]. cbn. by rewrite IH. Qed.

Lemma from_file_shard disk parse_json p header ts es :
  open_file disk p = Ok (shard_file header ts) → parse_json header = Ok (JObject (entry_json <$> es)) →
  es ≡ₚ layout 0 ts → NoDup (t_name <$> ts) → "__metadata__"%string ∉ t_name <$> ts →
  len header ≤ isize_MAX →
  header_from_file disk parse_json p = Some (Ok (mkHeader (len header) (list_to_map (layout 0 ts)))).
Proof.
  intros Hf Hj Hes Hnd Hm Hlen. unfold header_from_file, open_shard. rewrite Hf. cbn [result_map_err result_bind_opt].
  unfold shard_file, read_vec. rewrite read_exact_within by (rewrite len_app, len_to_le; lia). cbn [result_bind_opt].
  replace (slice_to 8 _) with (to_le_bytes 8 (len header))
    by (unfold slice_to, slice_from; rewrite drop_0, take_app_length'; [done|by rewrite length_to_le]).
  rewrite from_to_le by (unfold isize_MAX in Hlen; lia).
  destruct (N.leb_spec (len header) isize_MAX); [|lia].
  rewrite read_exact_within by (rewrite !len_app, len_to_le; lia). cbn [result_bind_opt].
  replace (slice_to _ _) with header.
  2:{ unfold slice_to, slice_from. rewrite drop_app_length' by by rewrite length_to_le. rewrite take_app_length'; [done|]. unfold len. lia. }
  rewrite Hj. cbn [result_map_err result_bind_opt as_object ok_or].
  assert (NoDup es.*1 ∧ "__metadata__"%string ∉ es.*1) as [Hnd' Hm'] by (by rewrite Hes, layout_names).
  rewrite header_tensors_json by done. cbn [result_bind_opt]. rewrite (right_id_L ∅ (∪)).
  by rewrite (list_to_map_proper _ _ Hnd' Hes).
Qed.

Lemma shard_slice header pre t post :
  slice_to (len (t_bytes t)) (slice_from (8 + len header + len (payload pre)) (shard_file header (pre ++ t :: post))) = t_bytes t.
Proof.
  unfold shard_file, payload. rewrite fmap_app, fmap_cons, concat_app. cbn [concat].
  rewrite !app_assoc, <-(app_assoc _ (t_bytes t)). unfold slice_to, slice_from.
  rewrite drop_app_length'; [by rewrite take_app_length' by (unfold len; lia)|].
  rewrite !length_app, length_to_le. unfold len. lia.
Qed.

Lemma read_stored disk p header pre t post :
  let ts := pre ++ t :: post in
  open_file disk p = Ok (shard_file header ts) → NoDup (t_name <$> ts) → tensor_sized t →
  len (shard_file header ts) ≤ isize_MAX →
  header_read_tensor disk (mkHeader (len header) (list_to_map (layout 0 ts))) p (t_name t) =
    Some (Ok (Some (mkData (tensor_metadata (len (payload pre)) t) (t_bytes t)))).
Proof.
  intros ts Hf Hnd (count&width&Hc&Hw&Hlen) Hmax.
  assert ((list_to_map (layout 0 ts) : gmap _ _) !! t_name t = Some (tensor_metadata (len (payload pre)) t)) as Hat.
  { apply elem_of_list_to_map_1; [by rewrite layout_names|]. unfold ts. rewrite layout_app. cbn [layout].
    apply elem_of_app. right. rewrite N.add_0_l. by constructor. }
  assert (8 + len header + len (payload pre) + len (t_bytes t) ≤ len (shard_file header ts)) as Hle.
  { unfold shard_file, ts, payload. rewrite fmap_app, fmap_cons, concat_app. cbn [concat]. rewrite !len_app, len_to_le. lia. }
  assert (header_tensor_span disk (mkHeader (len header) (list_to_map (layout 0 ts))) p (t_name t) =
    Ok (Some (mkSpan p (tensor_metadata (len (payload pre)) t) (8 + len header + len (payload pre)) (len (t_bytes t))))) as Hspan.
  { unfold header_tensor_span. cbn [tensors header_len]. rewrite Hat. cbv zeta. cbn [tensor_metadata data_offsets fst snd].
    rewrite (proj2 (checked_sub_Some _ _ (len (t_bytes t)))) by lia. cbn [ok_or result_bind].
    unfold expected_tensor_byte_len, element_count, dtype_byte_width. cbn [tensor_metadata shape dtype]. rewrite Hc, Hw. cbn [ok_or result_bind].
    unfold isize_MAX in Hmax.
    assert (checked_mul count width = Some (len (t_bytes t))) as -> by (apply checked_mul_Some; unfold usize_MAX; lia).
    cbn [ok_or result_bind]. rewrite N.eqb_refl. cbn [negb].
    do 3 (erewrite (proj2 (checked_add_Some _ _ _)) by (split; [reflexivity|unfold usize_MAX; lia]); cbn [ok_or result_bind]).
    unfold open_shard. rewrite Hf. cbn [result_map_err result_bind].
    destruct (N.ltb_spec (len (shard_file header ts)) (8 + len header + (len (payload pre) + len (t_bytes t)))); [lia|done]. }
  unfold header_read_tensor. pose proof (read_span _ _ _ _ _ _ Hspan Hf Hmax) as [Hread _]. rewrite Hspan. cbn [result_bind_opt].
  rewrite Hread. cbn [absolute_byte_offset byte_len metadata]. unfold ts. by rewrite shard_slice.
Qed.

(** C21. Reading what the format's writer wrote gives it back: for every list of
    distinctly named tensors with as many bytes as their shapes and types say,
    whatever order the header's object has its entries in, the header loads
    without a panic, every tensor is read back with its type, its shape and its
    bytes, and no other name is found. *)
Theorem shard_round_trip disk parse_json p header ts entries :
  open_file disk p = Ok (shard_file header ts) → parse_json header = Ok (JObject entries) →
  entries ≡ₚ entry_json <$> layout 0 ts → NoDup (t_name <$> ts) → "__metadata__"%string ∉ t_name <$> ts →
  Forall tensor_sized ts → len (shard_file header ts) ≤ isize_MAX →
  ∃ h, header_from_file disk parse_json p = Some (Ok h) ∧
    (∀ t, t ∈ ts → ∃ d, header_read_tensor disk h p (t_name t) = Some (Ok (Some d)) ∧
      dtype (data_metadata d) = t_dtype t ∧ shape (data_metadata d) = t_shape t ∧ bytes d = t_bytes t) ∧
    (∀ name, name ∉ t_name <$> ts → header_read_tensor disk h p name = Some (Ok None)).
Proof.
  intros Hf Hj Hes Hnd Hm Hsized Hmax. apply Permutation_map_inv in Hes as (es&->&Hes).
  eexists. split; [|split].
  - eapply from_file_shard; try done. unfold shard_file in Hmax. rewrite !len_app in Hmax. lia.
  - intros t Ht. apply list_elem_of_split in Ht as (pre&post&->).
    exists (mkData (tensor_metadata (len (payload pre)) t) (t_bytes t)). split; [|by repeat split]. rewrite Forall_app, Forall_cons in Hsized. destruct Hsized as (_&Ht&_). by apply read_stored.
  - intros name Hname. unfold header_read_tensor, header_tensor_span. cbn [tensors].
    rewrite not_elem_of_list_to_map_1; [done|]. by rewrite layout_names.
Qed.

(** ** Witnesses *)

Definition demo_header : list N := text_bytes "header".
Definition demo_tensors : list Tensor :=
  [mkTensor "model.norm.weight" "BF16" [2] [128; 63; 0; 192]; mkTensor "lm_head.weight" "F8_E4M3" [2; 3] [0; 8; 56; 126; 127; 200]].
Definition demo_entries : list (string * Json) := reverse (entry_json <$> layout 0 demo_tensors).
Definition demo_disk : Disk :=
  mkDisk (λ p, if (p =? "model.safetensors")%string then Ok (shard_file demo_header demo_tensors) else Err "no such file"%string)
    (λ _, Err "no such file"%string) (λ p, (p =? "model.safetensors")%string) (λ _, false) (λ _, Err "no such file"%string)
    "invalid argument" "failed to fill whole buffer".
Definition demo_parse (bs : list N) : Result string Json :=
  if bool_decide (bs = demo_header) then Ok (JObject demo_entries) else Err "expected value"%string.
Definition demo_loaded : SafetensorsHeader := mkHeader 6 (list_to_map (layout 0 demo_tensors)).

Lemma shard_round_trip_witness : ∃ h, header_from_file demo_disk demo_parse "model.safetensors" = Some (Ok h) ∧
  (∀ t, t ∈ demo_tensors → ∃ d, header_read_tensor demo_disk h "model.safetensors" (t_name t) = Some (Ok (Some d)) ∧
    dtype (data_metadata d) = t_dtype t ∧ shape (data_metadata d) = t_shape t ∧ bytes d = t_bytes t) ∧
  (∀ name, name ∉ t_name <$> demo_tensors → header_read_tensor demo_disk h "model.safetensors" name = Some (Ok None)).
Proof.
  apply (shard_round_trip demo_disk demo_parse "model.safetensors" demo_header demo_tensors demo_entries).
  - reflexivity.
  - reflexivity.
  - apply reverse_Permutation.
  - by apply (bool_decide_unpack _); vm_compute.
  - by apply (bool_decide_unpack _); vm_compute.
  - repeat constructor; [exists 2, 2|exists 6, 1]; by vm_compute.
  - by vm_compute.
Defined.

Lemma span_reads_its_payload_witness :
  ∃ m count width bs, tensors demo_loaded !! "lm_head.weight"%string = Some m ∧ element_count m = Some count ∧
    dtype_byte_width m = Some width ∧
    bs = slice_to (count * width) (slice_from (8 + header_len demo_loaded + (data_offsets m).1) (shard_file demo_header demo_tensors)) ∧
    len bs = count * width ∧
    span_read demo_disk (mkSpan "model.safetensors" (mkMetadata "F8_E4M3" [2; 3] (4, 10)) 18 6) = Some (Ok (Some (mkData m bs))) ∧
    fnv1a64_checksum demo_disk (mkSpan "model.safetensors" (mkMetadata "F8_E4M3" [2; 3] (4, 10)) 18 6) =
      Some (Ok (fnv1a64_update FNV1A64_OFFSET_BASIS bs)).
Proof.
  apply (span_reads_its_payload demo_disk demo_loaded "model.safetensors" "lm_head.weight"); by vm_compute.
Defined.

Lemma loaded_tensor_decodes_witness :
  let d := mkData (mkMetadata "F8_E4M3" [2; 3] (4, 10)) [0; 8; 56; 126; 127; 200] in
  ∃ count width, data_element_count d = Some count ∧ data_dtype_byte_width d = Some width ∧ len (bytes d) = count * width ∧
    match element_value (dtype (data_metadata d)) with
    | Some value => ∃ vs, decode_f32_values d = Ok vs ∧ elements_decoded value count width (bytes d) vs
    | None => decode_f32_values d = Err (UnsupportedDtype (dtype (data_metadata d)))
    end.
Proof.
  apply (loaded_tensor_decodes demo_disk demo_loaded "model.safetensors" "lm_head.weight" _ (shard_file demo_header demo_tensors));
    [by vm_compute..|]. repeat constructor.
Defined.

(** A file that claims a header longer than any allocation makes loading panic
    instead of report an error: the buffer comes before the read that would
    have failed. *)
Example oversized_header_panics :
  let disk := mkDisk (λ _, Ok (repeat 255 8)) (λ _, Err ""%string) (λ _, true) (λ _, false) (λ _, Err ""%string) "" "" in
  header_from_file disk (λ _, Err ""%string) "model.safetensors" = None.
Proof. by vm_compute. Qed.
