(* ===== verification/SafetensorsCatalog.v ===== *)
(** * The tensors of a checkpoint ([crates/sglang-srt/src/model_artifacts.rs], manifest and catalogs)

    A checkpoint is a directory with shards and perhaps an index that says which
    shard holds which tensor.  [SafetensorsManifest] finds tensors with or without
    the index; the catalogs sort them by what their names say: tensors of a layer,
    quantized linear weights with their scales, and the weights of routed experts,
    gathered into one group per layer and expert.

    A file can panic when its header claims an impossible length, so what reads
    headers is an [option], see [Safetensors]. *)

From stdpp Require Import pretty sorting.
From S2P Require Import Prelude Float32 Bytes Text Safetensors.
#[local] Open Scope N_scope.

(** ** Paths

    A [PathBuf] is a string; it is compared by its components. *)

Inductive Component : Type :=
  | RootDir
  | CurDir
  | ParentDir
  | Normal (name : string).

#[export] Instance Component_eq_dec : EqDecision Component.
Proof. solve_decision. Defined.

Definition component_rank (c : Component) : N * string :=
  match c with RootDir => (0, ""%string) | CurDir => (1, ""%string) | ParentDir => (2, ""%string) | Normal s => (3, s) end.

#[export] Instance Component_countable : Countable Component.
Proof.
  refine (inj_countable component_rank (λ r, Some (if r.1 =? 0 then RootDir else if r.1 =? 1 then CurDir else if r.1 =? 2 then ParentDir else Normal r.2)) _).
  by intros [].
Defined.

Definition normal_component (part : string) : list Component :=
  if (part =? "")%string || (part =? ".")%string then []
  else if (part =? "..")%string then [ParentDir] else [Normal part].

(** [Path::components]: empty parts and dots vanish, except a dot at the start. *)
Definition components (p : string) : list Component :=
  match split_on 47 p with
  | [] => []
  | first :: rest =>
      (if (first =? "")%string then (if (p =? "")%string then [] else [RootDir])
       else if (first =? ".")%string then [CurDir] else normal_component first)
      ++ (rest ≫= normal_component)
  end.

Definition component_compare (c d : Component) : comparison :=
  match N.compare (component_rank c).1 (component_rank d).1 with
  | Eq => String.compare (component_rank c).2 (component_rank d).2
  | o => o
  end.

Fixpoint components_compare (cs ds : list Component) : comparison :=
  match cs, ds with
  | [], [] => Eq
  | [], _ => Lt
  | _, [] => Gt
  | c :: cs, d :: ds => match component_compare c d with Eq => components_compare cs ds | o => o end
  end.

Definition path_compare (p q : string) : comparison := components_compare (components p) (components q).

(** [BTreeSet<PathBuf>::insert], on the sorted list of the set. *)
Fixpoint path_insert (p : string) (paths : list string) : list string :=
  match paths with
  | [] => [p]
  | q :: rest => match path_compare p q with Lt => p :: paths | Eq => paths | Gt => q :: path_insert p rest end
  end.

Definition path_le (p q : string) : Prop := path_compare p q ≠ Gt.
#[export] Instance path_le_dec : RelDecision path_le.
Proof. intros p q. unfold path_le. destruct (path_compare p q); [left|left|right]; congruence. Defined.

(** [Path::join]: an absolute path replaces. *)
Definition path_join (base p : string) : string :=
  if starts_with "/" p then p
  else if (base =? "")%string || ends_with "/" base then base +:+ p
  else base +:+ "/" +:+ p.

(** [path.extension() == Some("safetensors")] *)
Definition is_safetensors_path (p : string) : bool :=
  match last (components p) with
  | Some (Normal name) => match strip_suffix ".safetensors" name with Some stem => negb (stem =? "")%string | None => false end
  | _ => false
  end.

(** ** Names *)

(** [sglang-srt/src/model_artifacts.rs:2059-2065] parse_usize_segment *)
Definition parse_usize_segment (value : string) : option N :=
  if (value =? "")%string || negb (forallb is_digit (text_bytes value)) then None else parse_usize value.

(** [sglang-srt/src/model_artifacts.rs:1974-1983] parse_layer_tensor_name *)
Definition parse_layer_tensor_name (tensor_name : string) : option (N * string) :=
  remainder ← strip_prefix "model.layers." tensor_name;
  '(layer, suffix) ← split_once 46 remainder;
  layer_id ← parse_usize_segment layer;
  if (suffix =? "")%string then None else Some (layer_id, suffix).

(** [sglang-srt/src/model_artifacts.rs:1101-1105] SafetensorsRoutedExpertProjection *)
Inductive SafetensorsRoutedExpertProjection : Type := Gate | Up | Down.

(** [sglang-srt/src/model_artifacts.rs:1108-1113] SafetensorsRoutedExpertWeightComponent *)
Inductive SafetensorsRoutedExpertWeightComponent : Type := Weight | PackedWeight | WeightScale | WeightShape.

#[export] Instance Projection_eq_dec : EqDecision SafetensorsRoutedExpertProjection.
Proof. solve_decision. Defined.
#[export] Instance WeightComponent_eq_dec : EqDecision SafetensorsRoutedExpertWeightComponent.
Proof. solve_decision. Defined.
#[export] Instance Metadata_eq_dec : EqDecision SafetensorsTensorMetadata.
Proof. solve_decision. Defined.
#[export] Instance Span_eq_dec : EqDecision SafetensorsTensorSpan.
Proof. solve_decision. Defined.

(** [sglang-srt/src/model_artifacts.rs:2027-2033] parse_routed_expert_weight_name (layer_id) *)
Fixpoint layer_of_parts (parts : list string) : option N :=
  match parts with
  | a :: ((b :: _) as rest) =>
      match (if (a =? "layers")%string then parse_usize_segment b else None) with
      | Some id => Some id
      | None => layer_of_parts rest
      end
  | _ => None
  end.

(** [sglang-srt/src/model_artifacts.rs:2039-2044] parse_routed_expert_weight_name (projection) *)
Definition parse_projection (part : string) : option SafetensorsRoutedExpertProjection :=
  if (part =? "w1")%string || (part =? "gate_proj")%string then Some Gate
  else if (part =? "w2")%string || (part =? "down_proj")%string then Some Down
  else if (part =? "w3")%string || (part =? "up_proj")%string then Some Up
  else None.

(** [sglang-srt/src/model_artifacts.rs:2045-2051] parse_routed_expert_weight_name (component) *)
Definition parse_component (part : string) : option SafetensorsRoutedExpertWeightComponent :=
  if (part =? "weight")%string then Some Weight
  else if (part =? "weight_packed")%string then Some PackedWeight
  else if (part =? "weight_scale")%string then Some WeightScale
  else if (part =? "weight_shape")%string then Some WeightShape
  else None.

(** [sglang-srt/src/model_artifacts.rs:2018-2057] parse_routed_expert_weight_name *)
Definition parse_routed_expert_weight_name (tensor_name : string)
    : option (N * N * SafetensorsRoutedExpertProjection * SafetensorsRoutedExpertWeightComponent) :=
  let parts := split_on 46 tensor_name in
  layer_id ← layer_of_parts parts;
  experts_index ← fst <$> list_find (λ part, part = "experts"%string) parts;
  expert_id ← parts !! (experts_index + 1)%nat ≫= parse_usize_segment;
  projection ← parts !! (experts_index + 2)%nat ≫= parse_projection;
  component ← parts !! (experts_index + 3)%nat ≫= parse_component;
  if (experts_index + 4 =? length parts)%nat then Some (layer_id, expert_id, projection, component) else None.

(** [sglang-srt/src/model_artifacts.rs:1970-1972] is_routed_expert_weight *)
Definition is_routed_expert_weight (tensor_name : string) : bool :=
  bool_decide (is_Some (parse_routed_expert_weight_name tensor_name)).

(** ** The manifest *)

(** [sglang-srt/src/model_artifacts.rs:487-492] SafetensorsManifest *)
Record SafetensorsManifest : Type := mkManifest {
  index_path : string;
  tensor_names : list string;
  tensor_to_shard : gmap string string;
  shard_paths : list string;
}.

(** [sglang-srt/src/model_artifacts.rs:1116-1123] SafetensorsRoutedExpertWeightSpan *)
Record SafetensorsRoutedExpertWeightSpan : Type := mkWeightSpan {
  w_tensor_name : string;
  w_layer_id : N;
  w_expert_id : N;
  w_projection : SafetensorsRoutedExpertProjection;
  w_component : SafetensorsRoutedExpertWeightComponent;
  w_span : SafetensorsTensorSpan;
}.

(** [sglang-srt/src/model_artifacts.rs:1035-1040] SafetensorsLayerTensorSpan *)
Record SafetensorsLayerTensorSpan : Type := mkLayerSpan {
  l_tensor_name : string;
  l_layer_id : N;
  l_suffix : string;
  l_span : SafetensorsTensorSpan;
}.

(** [sglang-srt/src/model_artifacts.rs:964-972] SafetensorsCheckpointFingerprintEntry *)
Record SafetensorsCheckpointFingerprintEntry : Type := mkFingerprint {
  f_tensor_name : string;
  f_path : string;
  f_dtype : string;
  f_shape : list N;
  f_absolute_byte_offset : N;
  f_byte_len : N;
  f_fnv1a64 : N;
}.

(** [sglang-srt/src/model_artifacts.rs:993-996] SafetensorsQuantizedLinearScaleKind *)
Inductive SafetensorsQuantizedLinearScaleKind : Type := WeightScaleInvKind | WeightScaleKind.

(** [sglang-srt/src/model_artifacts.rs:999-1005] SafetensorsQuantizedLinearWeightSpan *)
Record SafetensorsQuantizedLinearWeightSpan : Type := mkQuantizedSpan {
  q_tensor_name : string;
  q_scale_tensor_name : string;
  q_scale_kind : SafetensorsQuantizedLinearScaleKind;
  q_weight : SafetensorsTensorSpan;
  q_scale : SafetensorsTensorSpan;
}.

(** [sglang-srt/src/model_artifacts.rs:1985-1988] is_quantized_linear_weight_tensor *)
Definition is_quantized_linear_weight_tensor (tensor_name : string) (span : SafetensorsTensorSpan) : bool :=
  ends_with ".weight" tensor_name && bool_decide (dtype (metadata span) ∈ ["F8_E4M3"; "F8_E5M2"; "U8"]%string).

(** [sglang-srt/src/model_artifacts.rs:1990-2016] quantized_linear_scale_tensor *)
Definition quantized_linear_scale_tensor (tensor_name : string) (entries : gmap string SafetensorsTensorSpan)
    : option (string * SafetensorsQuantizedLinearScaleKind * SafetensorsTensorSpan) :=
  base_name ← strip_suffix ".weight" tensor_name;
  let scale_inv_name := base_name +:+ ".weight_scale_inv" in
  match entries !! scale_inv_name with
  | Some scale => Some (scale_inv_name, WeightScaleInvKind, scale)
  | None =>
      let scale_name := base_name +:+ ".weight_scale" in
      (λ scale, (scale_name, WeightScaleKind, scale)) <$> entries !! scale_name
  end.

(** [sglang-srt/src/model_artifacts.rs:663-680] SafetensorsManifest::quantized_linear_weight_spans (loop) *)
Definition quantized_span (entries : gmap string SafetensorsTensorSpan) (e : string * SafetensorsTensorSpan)
    : option SafetensorsQuantizedLinearWeightSpan :=
  if is_quantized_linear_weight_tensor e.1 e.2 then
    '(scale_tensor_name, scale_kind, scale) ← quantized_linear_scale_tensor e.1 entries;
    Some (mkQuantizedSpan e.1 scale_tensor_name scale_kind e.2 scale)
  else None.

(** [sglang-srt/src/model_artifacts.rs:604-613] SafetensorsManifest::layer_tensor_spans (closure) *)
Definition layer_span (e : string * SafetensorsTensorSpan) : option SafetensorsLayerTensorSpan :=
  (λ '(layer_id, suffix), mkLayerSpan e.1 layer_id suffix e.2) <$> parse_layer_tensor_name e.1.

(** [sglang-srt/src/model_artifacts.rs:691-704] SafetensorsManifest::routed_expert_weight_spans (closure) *)
Definition weight_span (e : string * SafetensorsTensorSpan) : option SafetensorsRoutedExpertWeightSpan :=
  (λ '(layer_id, expert_id, projection, component), mkWeightSpan e.1 layer_id expert_id projection component e.2)
    <$> parse_routed_expert_weight_name e.1.

(** [collect] of an iterator of pairs into a map: a later value replaces. *)
Definition collect_map {A} (entries : list (string * A)) : gmap string A :=
  foldl (λ m e, <[e.1 := e.2]> m) ∅ entries.

(** [sglang-srt/src/model_artifacts.rs:1626-1631] SafetensorsHeader::routed_expert_weight_dtype *)
Definition header_routed_expert_weight_dtype (h : SafetensorsHeader) : option string :=
  (λ e, dtype e.2.2) <$> list_find (λ e, is_routed_expert_weight e.1 = true) (sorted_entries (tensors h)).

(** The files of a directory whose entries could be read, in the order of the paths. *)
(** [sglang-srt/src/model_artifacts.rs:1736-1748] sorted_safetensors_files (loop) *)
Fixpoint safetensors_paths (model_path : string) (entries : list (Result string string)) : Result ModelArtifactError (list string) :=
  match entries with
  | [] => Ok []
  | Err message :: _ => Err (ReadModelDirectory model_path message)
  | Ok name :: entries =>
      let? paths := safetensors_paths model_path entries in
      let p := path_join model_path name in
      Ok (if is_safetensors_path p then p :: paths else paths)
  end.

(** The headers of shards that were read, by path. *)
Abbreviation HeaderCache := (gmap (list Component) SafetensorsHeader).

Section Manifest.
Context (disk : Disk) (parse_json : list N → Result string Json) (parse_json_str : string → Result string Json).

(** [sglang-srt/src/model_artifacts.rs:1729-1751] sorted_safetensors_files *)
Definition sorted_safetensors_files (model_path : string) : Result ModelArtifactError (list string) :=
  let? entries := result_map_err (ReadModelDirectory model_path) (read_dir disk model_path) in
  let? paths := safetensors_paths model_path entries in
  Ok (merge_sort path_le paths).

(** [sglang-srt/src/model_artifacts.rs:789-803] SafetensorsManifest::from_index_path (loop) *)
Fixpoint index_entries (model_path index_path : string) (weight_map : list (string * Json)) (tensor_to_shard : gmap string string) (shard_paths : list string)
    : Result ModelArtifactError (gmap string string * list string) :=
  match weight_map with
  | [] => Ok (tensor_to_shard, shard_paths)
  | (tensor_name, shard_name) :: weight_map =>
      let? shard_name := ok_or (as_str shard_name)
        (InvalidSafetensorsIndex index_path ("weight_map entry " +:+ tensor_name +:+ " is not a string")) in
      let shard_path := path_join model_path shard_name in
      if negb (is_file disk shard_path) then Err (MissingWeightShard shard_path)
      else index_entries model_path index_path weight_map (<[tensor_name := shard_path]> tensor_to_shard) (path_insert shard_path shard_paths)
  end.

(** [sglang-srt/src/model_artifacts.rs:760-811] SafetensorsManifest::from_index_path *)
Definition from_index_path (model_path index_path : string) : Result ModelArtifactError SafetensorsManifest :=
  let? raw := result_map_err (ReadSafetensorsIndex index_path) (read_to_string disk index_path) in
  let? value := result_map_err (InvalidSafetensorsIndex index_path) (parse_json_str raw) in
  let? weight_map := ok_or (json_get "weight_map" value ≫= as_object)
    (InvalidSafetensorsIndex index_path "missing object field weight_map") in
  match weight_map with
  | [] => Err (InvalidSafetensorsIndex index_path "weight_map is empty")
  | _ =>
      let? maps := index_entries model_path index_path weight_map ∅ [] in
      Ok (mkManifest index_path (fst <$> sorted_entries maps.1) maps.1 maps.2)
  end.

(** [sglang-srt/src/model_artifacts.rs:495-515] SafetensorsManifest::from_model_path *)
Definition manifest_from_model_path (model_path : string) : Result ModelArtifactError SafetensorsManifest :=
  let index_path := path_join model_path "model.safetensors.index.json" in
  if is_file disk index_path then from_index_path model_path index_path
  else
    let? shard_paths := sorted_safetensors_files model_path in
    match shard_paths with
    | [] => Err (NoSafetensorsWeights model_path)
    | _ => Ok (mkManifest index_path [] ∅ shard_paths)
    end.

(** [sglang-srt/src/model_artifacts.rs:521-523] SafetensorsManifest::shard_for_tensor *)
Definition shard_for_tensor (m : SafetensorsManifest) (tensor_name : string) : option string := tensor_to_shard m !! tensor_name.

(** [sglang-srt/src/model_artifacts.rs:538-545] SafetensorsManifest::tensor_metadata (loop) *)
Fixpoint find_metadata (tensor_name : string) (paths : list string) : option (Result ModelArtifactError (option SafetensorsTensorMetadata)) :=
  match paths with
  | [] => Some (Ok None)
  | shard_path :: paths =>
      let^ header := header_from_file disk parse_json shard_path in
      match header_tensor_metadata header tensor_name with
      | Some m => Some (Ok (Some m))
      | None => find_metadata tensor_name paths
      end
  end.

(** [sglang-srt/src/model_artifacts.rs:529-546] SafetensorsManifest::tensor_metadata *)
Definition manifest_tensor_metadata (m : SafetensorsManifest) (tensor_name : string)
    : option (Result ModelArtifactError (option SafetensorsTensorMetadata)) :=
  match shard_for_tensor m tensor_name with
  | Some shard_path => let^ header := header_from_file disk parse_json shard_path in Some (Ok (header_tensor_metadata header tensor_name))
  | None => find_metadata tensor_name (shard_paths m)
  end.

(** [sglang-srt/src/model_artifacts.rs:557-564] SafetensorsManifest::tensor_span (loop) *)
Fixpoint find_span (tensor_name : string) (paths : list string) : option (Result ModelArtifactError (option SafetensorsTensorSpan)) :=
  match paths with
  | [] => Some (Ok None)
  | shard_path :: paths =>
      let^ header := header_from_file disk parse_json shard_path in
      let^ span := Some (header_tensor_span disk header shard_path tensor_name) in
      match span with
      | Some span => Some (Ok (Some span))
      | None => find_span tensor_name paths
      end
  end.

(** [sglang-srt/src/model_artifacts.rs:548-565] SafetensorsManifest::tensor_span *)
Definition manifest_tensor_span (m : SafetensorsManifest) (tensor_name : string)
    : option (Result ModelArtifactError (option SafetensorsTensorSpan)) :=
  match shard_for_tensor m tensor_name with
  | Some shard_path =>
      let^ header := header_from_file disk parse_json shard_path in
      Some (header_tensor_span disk header shard_path tensor_name)
  | None => find_span tensor_name (shard_paths m)
  end.

(** [sglang-srt/src/model_artifacts.rs:571-576] SafetensorsManifest::tensor_span_entries (all shards) *)
Fixpoint shard_entries (paths : list string) (entries : list (string * SafetensorsTensorSpan))
    : option (Result ModelArtifactError (list (string * SafetensorsTensorSpan))) :=
  match paths with
  | [] => Some (Ok entries)
  | shard_path :: paths =>
      let^ header := header_from_file disk parse_json shard_path in
      let^ es := Some (header_span_entries disk header shard_path) in
      shard_entries paths (entries ++ es)
  end.

(** [sglang-srt/src/model_artifacts.rs:579-596] SafetensorsManifest::tensor_span_entries (indexed) *)
Fixpoint indexed_entries (m : SafetensorsManifest) (names : list string) (headers : HeaderCache) (entries : list (string * SafetensorsTensorSpan))
    : option (Result ModelArtifactError (list (string * SafetensorsTensorSpan))) :=
  match names with
  | [] => Some (Ok entries)
  | tensor_name :: names =>
      match shard_for_tensor m tensor_name with
      | None => indexed_entries m names headers entries
      | Some shard_path =>
          let key := components shard_path in
          let^ header := match headers !! key with Some h => Some (Ok h) | None => header_from_file disk parse_json shard_path end in
          let^ span := Some (header_tensor_span disk header shard_path tensor_name) in
          indexed_entries m names (<[key := header]> headers)
            (match span with Some span => entries ++ [(tensor_name, span)] | None => entries end)
      end
  end.

(** [sglang-srt/src/model_artifacts.rs:567-597] SafetensorsManifest::tensor_span_entries *)
Definition tensor_span_entries (m : SafetensorsManifest) : option (Result ModelArtifactError (list (string * SafetensorsTensorSpan))) :=
  match tensor_names m with
  | [] => shard_entries (shard_paths m) []
  | _ => indexed_entries m (tensor_names m) ∅ []
  end.

(** [sglang-srt/src/model_artifacts.rs:599-617] SafetensorsManifest::layer_tensor_spans *)
Definition layer_tensor_spans (m : SafetensorsManifest) : option (Result ModelArtifactError (list SafetensorsLayerTensorSpan)) :=
  let^ entries := tensor_span_entries m in Some (Ok (omap layer_span entries)).

(** [sglang-srt/src/model_artifacts.rs:619-635] SafetensorsManifest::layer_tensor_span *)
Definition layer_tensor_span (m : SafetensorsManifest) (layer_id : N) (suffix : string)
    : option (Result ModelArtifactError (option SafetensorsLayerTensorSpan)) :=
  let tensor_name := "model.layers." +:+ pretty layer_id +:+ "." +:+ suffix in
  let^ span := manifest_tensor_span m tensor_name in
  Some (Ok ((λ span, mkLayerSpan tensor_name layer_id suffix span) <$> span)).

(** [sglang-srt/src/model_artifacts.rs:975-989] SafetensorsCheckpointFingerprintEntry::from_span *)
Definition fingerprint_from_span (e : string * SafetensorsTensorSpan) : option (Result ModelArtifactError SafetensorsCheckpointFingerprintEntry) :=
  let^ fnv1a64 := fnv1a64_checksum disk e.2 in
  Some (Ok (mkFingerprint e.1 (path e.2) (dtype (metadata e.2)) (shape (metadata e.2)) (absolute_byte_offset e.2) (byte_len e.2) fnv1a64)).

Fixpoint collect_opt {A B} (f : A → option (Result ModelArtifactError B)) (l : list A) : option (Result ModelArtifactError (list B)) :=
  match l with
  | [] => Some (Ok [])
  | x :: l => let^ y := f x in let^ ys := collect_opt f l in Some (Ok (y :: ys))
  end.

(** [sglang-srt/src/model_artifacts.rs:643-652] SafetensorsManifest::checkpoint_fingerprint_entries *)
Definition checkpoint_fingerprint_entries (m : SafetensorsManifest)
    : option (Result ModelArtifactError (list SafetensorsCheckpointFingerprintEntry)) :=
  let^ entries := tensor_span_entries m in collect_opt fingerprint_from_span entries.

(** [sglang-srt/src/model_artifacts.rs:654-683] SafetensorsManifest::quantized_linear_weight_spans *)
Definition quantized_linear_weight_spans (m : SafetensorsManifest) : option (Result ModelArtifactError (list SafetensorsQuantizedLinearWeightSpan)) :=
  let^ entries := tensor_span_entries m in
  let entries := collect_map entries in
  Some (Ok (omap (quantized_span entries) (sorted_entries entries))).

(** [sglang-srt/src/model_artifacts.rs:685-707] SafetensorsManifest::routed_expert_weight_spans *)
Definition routed_expert_weight_spans (m : SafetensorsManifest) : option (Result ModelArtifactError (list SafetensorsRoutedExpertWeightSpan)) :=
  let^ entries := tensor_span_entries m in Some (Ok (omap weight_span entries)).

(** [sglang-srt/src/model_artifacts.rs:729-737] SafetensorsManifest::read_tensor *)
Definition manifest_read_tensor (m : SafetensorsManifest) (tensor_name : string) : option (Result ModelArtifactError (option SafetensorsTensorData)) :=
  let^ span := manifest_tensor_span m tensor_name in
  match span with None => Some (Ok None) | Some span => span_read disk span end.

(** [sglang-srt/src/model_artifacts.rs:750-757] SafetensorsManifest::probe_routed_expert_weight_dtype (loop) *)
Fixpoint probe_shards (paths : list string) : option (Result ModelArtifactError (option string)) :=
  match paths with
  | [] => Some (Ok None)
  | shard_path :: paths =>
      let^ header := header_from_file disk parse_json shard_path in
      match header_routed_expert_weight_dtype header with
      | Some dtype => Some (Ok (Some dtype))
      | None => probe_shards paths
      end
  end.

(** [sglang-srt/src/model_artifacts.rs:739-758] SafetensorsManifest::probe_routed_expert_weight_dtype *)
Definition probe_routed_expert_weight_dtype (m : SafetensorsManifest) : option (Result ModelArtifactError (option string)) :=
  match snd <$> list_find (λ name, is_routed_expert_weight name = true) (tensor_names m) with
  | Some tensor_name => let^ m := manifest_tensor_metadata m tensor_name in Some (Ok (dtype <$> m))
  | None => probe_shards (shard_paths m)
  end.

End Manifest.

(** ** Catalogs *)

(** The order of keys in a [BTreeMap]. *)
Definition coordinate_le {A} (a b : (N * N) * A) : Prop := a.1.1 < b.1.1 ∨ (a.1.1 = b.1.1 ∧ a.1.2 ≤ b.1.2).
#[export] Instance coordinate_le_dec {A} : RelDecision (@coordinate_le A).
Proof. intros a b. unfold coordinate_le. apply _. Defined.
Definition layer_key_le {A} (a b : (N * string) * A) : Prop := a.1.1 < b.1.1 ∨ (a.1.1 = b.1.1 ∧ String.leb a.1.2 b.1.2 = true).
#[export] Instance layer_key_le_dec {A} : RelDecision (@layer_key_le A).
Proof. intros a b. unfold layer_key_le. apply _. Defined.

Definition by_coordinate {A} (m : gmap (N * N) A) : list ((N * N) * A) := merge_sort coordinate_le (map_to_list m).
Definition by_layer_key {A} (m : gmap (N * string) A) : list ((N * string) * A) := merge_sort layer_key_le (map_to_list m).

(** The [filter_map] of the two [layer_ids]: a key like the one before is skipped. *)
Fixpoint skip_repeated (previous : option N) (l : list N) : list N :=
  match l with
  | [] => []
  | x :: l => if bool_decide (previous = Some x) then skip_repeated previous l else x :: skip_repeated (Some x) l
  end.

(** [sglang-srt/src/model_artifacts.rs:1043-1045] SafetensorsLayerTensorCatalog *)
Record SafetensorsLayerTensorCatalog : Type := mkLayerCatalog { layer_tensors : gmap (N * string) SafetensorsLayerTensorSpan }.

(** [sglang-srt/src/model_artifacts.rs:1052-1068] SafetensorsLayerTensorCatalog::from_safetensors_manifest (loop) *)
Fixpoint layer_catalog_of (entries : list SafetensorsLayerTensorSpan) (tensors : gmap (N * string) SafetensorsLayerTensorSpan)
    : Result ModelArtifactError SafetensorsLayerTensorCatalog :=
  match entries with
  | [] => Ok (mkLayerCatalog tensors)
  | entry :: entries =>
      let key := (l_layer_id entry, l_suffix entry) in
      match tensors !! key with
      | None => layer_catalog_of entries (<[key := entry]> tensors)
      | Some _ => Err (invalid_safetensors_data (path (l_span entry))
          ("duplicate layer tensor suffix for layer " +:+ pretty (l_layer_id entry) +:+ ": " +:+ l_suffix entry))
      end
  end.

(** [sglang-srt/src/model_artifacts.rs:1048-1071] SafetensorsLayerTensorCatalog::from_safetensors_manifest *)
Definition layer_tensor_catalog (disk : Disk) (parse_json : list N → Result string Json) (m : SafetensorsManifest)
    : option (Result ModelArtifactError SafetensorsLayerTensorCatalog) :=
  let^ entries := layer_tensor_spans disk parse_json m in Some (layer_catalog_of entries ∅).

(** [sglang-srt/src/model_artifacts.rs:1077-1086] SafetensorsLayerTensorCatalog::layer_ids *)
Definition layer_ids (c : SafetensorsLayerTensorCatalog) : list N := skip_repeated None ((λ e, e.1.1) <$> by_layer_key (layer_tensors c)).

(** [Iterator::take_while] *)
Fixpoint take_while {A} (test : A → bool) (l : list A) : list A :=
  match l with [] => [] | x :: l => if test x then x :: take_while test l else [] end.

(** [sglang-srt/src/model_artifacts.rs:1088-1093] SafetensorsLayerTensorCatalog::suffixes *)
Definition suffixes (c : SafetensorsLayerTensorCatalog) (layer_id : N) : list string :=
  (λ e, e.1.2) <$> take_while (λ e, e.1.1 =? layer_id) (filter (λ e, layer_key_le ((layer_id, ""%string), tt) (e.1, tt)) (by_layer_key (layer_tensors c))).

(** [sglang-srt/src/model_artifacts.rs:1095-1097] SafetensorsLayerTensorCatalog::span *)
Definition layer_catalog_span (c : SafetensorsLayerTensorCatalog) (layer_id : N) (suffix : string) : option SafetensorsLayerTensorSpan :=
  layer_tensors c !! (layer_id, suffix).

(** [sglang-srt/src/model_artifacts.rs:1008-1010] SafetensorsQuantizedLinearWeightCatalog *)
Record SafetensorsQuantizedLinearWeightCatalog : Type := mkQuantizedCatalog { quantized_weights : gmap string SafetensorsQuantizedLinearWeightSpan }.

(** [sglang-srt/src/model_artifacts.rs:1013-1023] SafetensorsQuantizedLinearWeightCatalog::from_safetensors_manifest *)
Definition quantized_linear_catalog (disk : Disk) (parse_json : list N → Result string Json) (m : SafetensorsManifest)
    : option (Result ModelArtifactError SafetensorsQuantizedLinearWeightCatalog) :=
  let^ spans := quantized_linear_weight_spans disk parse_json m in
  Some (Ok (mkQuantizedCatalog (collect_map ((λ span, (q_tensor_name span, span)) <$> spans)))).

(** [sglang-srt/src/model_artifacts.rs:1029-1031] SafetensorsQuantizedLinearWeightCatalog::span *)
Definition quantized_catalog_span (c : SafetensorsQuantizedLinearWeightCatalog) (tensor_name : string) : option SafetensorsQuantizedLinearWeightSpan :=
  quantized_weights c !! tensor_name.

(** ** Routed experts *)

(** [sglang-srt/src/model_artifacts.rs:1126-1136] SafetensorsRoutedExpertProjectionWeights *)
Inductive SafetensorsRoutedExpertProjectionWeights : Type :=
  | Unquantized (weight : SafetensorsTensorSpan)
  | CompressedTensorsInt4 (packed scale shape : SafetensorsTensorSpan).

(** [sglang-srt/src/model_artifacts.rs:1139-1144] SafetensorsRoutedExpertProjectionWeights::tensor_count *)
Definition projection_tensor_count (w : SafetensorsRoutedExpertProjectionWeights) : N :=
  match w with Unquantized _ => 1 | CompressedTensorsInt4 _ _ _ => 3 end.

(** [sglang-srt/src/model_artifacts.rs:1148-1154] SafetensorsRoutedExpertWeightGroup *)
Record SafetensorsRoutedExpertWeightGroup : Type := mkGroup {
  g_layer_id : N;
  g_expert_id : N;
  g_gate : SafetensorsRoutedExpertProjectionWeights;
  g_up : SafetensorsRoutedExpertProjectionWeights;
  g_down : SafetensorsRoutedExpertProjectionWeights;
}.

(** [sglang-srt/src/model_artifacts.rs:1157-1159] SafetensorsRoutedExpertWeightGroup::tensor_count *)
Definition group_tensor_count (g : SafetensorsRoutedExpertWeightGroup) : N :=
  projection_tensor_count (g_gate g) + projection_tensor_count (g_up g) + projection_tensor_count (g_down g).

(** [sglang-srt/src/model_artifacts.rs:1267-1272] RoutedExpertProjectionBuilder *)
Record RoutedExpertProjectionBuilder : Type := mkProjectionBuilder {
  pb_weight : option SafetensorsTensorSpan;
  pb_packed : option SafetensorsTensorSpan;
  pb_scale : option SafetensorsTensorSpan;
  pb_shape : option SafetensorsTensorSpan;
}.

Definition projection_default : RoutedExpertProjectionBuilder := mkProjectionBuilder None None None None.

(** [sglang-srt/src/model_artifacts.rs:1257-1264] RoutedExpertWeightGroupBuilder *)
Record RoutedExpertWeightGroupBuilder : Type := mkBuilder {
  b_layer_id : N;
  b_expert_id : N;
  b_gate : RoutedExpertProjectionBuilder;
  b_up : RoutedExpertProjectionBuilder;
  b_down : RoutedExpertProjectionBuilder;
  b_error_path : option string;
}.

(** [sglang-srt/src/model_artifacts.rs:1275-1284] RoutedExpertWeightGroupBuilder::new *)
Definition builder_new (layer_id expert_id : N) : RoutedExpertWeightGroupBuilder :=
  mkBuilder layer_id expert_id projection_default projection_default projection_default None.

(** The name [{component:?}] prints. *)
Definition component_debug (c : SafetensorsRoutedExpertWeightComponent) : string :=
  match c with Weight => "Weight" | PackedWeight => "PackedWeight" | WeightScale => "WeightScale" | WeightShape => "WeightShape" end.

Definition projection_slot (b : RoutedExpertProjectionBuilder) (c : SafetensorsRoutedExpertWeightComponent) : option SafetensorsTensorSpan :=
  match c with Weight => pb_weight b | PackedWeight => pb_packed b | WeightScale => pb_scale b | WeightShape => pb_shape b end.

Definition projection_set (b : RoutedExpertProjectionBuilder) (c : SafetensorsRoutedExpertWeightComponent) (span : SafetensorsTensorSpan)
    : RoutedExpertProjectionBuilder :=
  match c with
  | Weight => mkProjectionBuilder (Some span) (pb_packed b) (pb_scale b) (pb_shape b)
  | PackedWeight => mkProjectionBuilder (pb_weight b) (Some span) (pb_scale b) (pb_shape b)
  | WeightScale => mkProjectionBuilder (pb_weight b) (pb_packed b) (Some span) (pb_shape b)
  | WeightShape => mkProjectionBuilder (pb_weight b) (pb_packed b) (pb_scale b) (Some span)
  end.

(** [sglang-srt/src/model_artifacts.rs:1324-1347] RoutedExpertProjectionBuilder::insert *)
Definition projection_insert (b : RoutedExpertProjectionBuilder) (c : SafetensorsRoutedExpertWeightComponent) (span : SafetensorsTensorSpan)
    (layer_id expert_id : N) : Result ModelArtifactError RoutedExpertProjectionBuilder :=
  match projection_slot b c with
  | Some _ => Err (invalid_safetensors_data (path span)
      ("duplicate routed expert weight component " +:+ component_debug c +:+ " for layer " +:+ pretty layer_id +:+ " expert " +:+ pretty expert_id))
  | None => Ok (projection_set b c span)
  end.

(** [sglang-srt/src/model_artifacts.rs:1349-1382] RoutedExpertProjectionBuilder::finish *)
Definition projection_finish (b : RoutedExpertProjectionBuilder) (path : string) (layer_id expert_id : N) (projection : string)
    : Result ModelArtifactError SafetensorsRoutedExpertProjectionWeights :=
  match pb_weight b, pb_packed b, pb_scale b, pb_shape b with
  | Some weight, None, None, None => Ok (Unquantized weight)
  | None, Some packed, Some scale, Some shape => Ok (CompressedTensorsInt4 packed scale shape)
  | None, None, None, None => Err (invalid_safetensors_data path
      ("routed expert weight group for layer " +:+ pretty layer_id +:+ " expert " +:+ pretty expert_id +:+ " is missing " +:+ projection +:+ " projection"))
  | _, _, _, _ => Err (invalid_safetensors_data path
      ("routed expert " +:+ projection +:+ " projection for layer " +:+ pretty layer_id +:+ " expert " +:+ pretty expert_id
        +:+ " mixes unquantized and incomplete compressed-tensors components"))
  end.

Definition builder_projection (b : RoutedExpertWeightGroupBuilder) (p : SafetensorsRoutedExpertProjection) : RoutedExpertProjectionBuilder :=
  match p with Gate => b_gate b | Up => b_up b | Down => b_down b end.

Definition builder_set (b : RoutedExpertWeightGroupBuilder) (p : SafetensorsRoutedExpertProjection) (pb : RoutedExpertProjectionBuilder)
    (error_path : option string) : RoutedExpertWeightGroupBuilder :=
  match p with
  | Gate => mkBuilder (b_layer_id b) (b_expert_id b) pb (b_up b) (b_down b) error_path
  | Up => mkBuilder (b_layer_id b) (b_expert_id b) (b_gate b) pb (b_down b) error_path
  | Down => mkBuilder (b_layer_id b) (b_expert_id b) (b_gate b) (b_up b) pb error_path
  end.

(** [sglang-srt/src/model_artifacts.rs:1286-1298] RoutedExpertWeightGroupBuilder::insert *)
Definition builder_insert (b : RoutedExpertWeightGroupBuilder) (w : SafetensorsRoutedExpertWeightSpan)
    : Result ModelArtifactError RoutedExpertWeightGroupBuilder :=
  let error_path := match b_error_path b with Some p => Some p | None => Some (path (w_span w)) end in
  let? pb := projection_insert (builder_projection b (w_projection w)) (w_component w) (w_span w) (b_layer_id b) (b_expert_id b) in
  Ok (builder_set b (w_projection w) pb error_path).

(** [sglang-srt/src/model_artifacts.rs:1300-1320] RoutedExpertWeightGroupBuilder::finish *)
Definition builder_finish (b : RoutedExpertWeightGroupBuilder) : Result ModelArtifactError SafetensorsRoutedExpertWeightGroup :=
  let path := default "<unknown>"%string (b_error_path b) in
  let? gate := projection_finish (b_gate b) path (b_layer_id b) (b_expert_id b) "gate" in
  let? up := projection_finish (b_up b) path (b_layer_id b) (b_expert_id b) "up" in
  let? down := projection_finish (b_down b) path (b_layer_id b) (b_expert_id b) "down" in
  Ok (mkGroup (b_layer_id b) (b_expert_id b) gate up down).

(** [sglang-srt/src/model_artifacts.rs:713-721] SafetensorsManifest::routed_expert_weight_groups (loop) *)
Fixpoint insert_weights (weights : list SafetensorsRoutedExpertWeightSpan) (builders : gmap (N * N) RoutedExpertWeightGroupBuilder)
    : Result ModelArtifactError (gmap (N * N) RoutedExpertWeightGroupBuilder) :=
  match weights with
  | [] => Ok builders
  | weight :: weights =>
      let key := (w_layer_id weight, w_expert_id weight) in
      let builder := default (builder_new (w_layer_id weight) (w_expert_id weight)) (builders !! key) in
      let? builder := builder_insert builder weight in
      insert_weights weights (<[key := builder]> builders)
  end.

(** [sglang-srt/src/model_artifacts.rs:712-726] SafetensorsManifest::routed_expert_weight_groups (builders) *)
Definition groups_of_weights (weights : list SafetensorsRoutedExpertWeightSpan) : Result ModelArtifactError (list SafetensorsRoutedExpertWeightGroup) :=
  let? builders := insert_weights weights ∅ in
  collect builder_finish (snd <$> by_coordinate builders).

(** [sglang-srt/src/model_artifacts.rs:709-727] SafetensorsManifest::routed_expert_weight_groups *)
Definition routed_expert_weight_groups (disk : Disk) (parse_json : list N → Result string Json) (m : SafetensorsManifest)
    : option (Result ModelArtifactError (list SafetensorsRoutedExpertWeightGroup)) :=
  let^ weights := routed_expert_weight_spans disk parse_json m in Some (groups_of_weights weights).

(** [sglang-srt/src/model_artifacts.rs:1163-1165] SafetensorsRoutedExpertWeightCatalog *)
Record SafetensorsRoutedExpertWeightCatalog : Type := mkExpertCatalog { expert_groups : gmap (N * N) SafetensorsRoutedExpertWeightGroup }.

(** [sglang-srt/src/model_artifacts.rs:1168-1182] SafetensorsRoutedExpertWeightCatalog::from_local_model_artifacts *)
Definition routed_expert_weight_catalog (disk : Disk) (parse_json : list N → Result string Json) (m : SafetensorsManifest)
    : option (Result ModelArtifactError SafetensorsRoutedExpertWeightCatalog) :=
  let^ groups := routed_expert_weight_groups disk parse_json m in
  Some (Ok (mkExpertCatalog (foldl (λ c g, <[(g_layer_id g, g_expert_id g) := g]> c) ∅ groups))).

(** [sglang-srt/src/model_artifacts.rs:1188-1190] SafetensorsRoutedExpertWeightCatalog::coordinates *)
Definition catalog_coordinates (c : SafetensorsRoutedExpertWeightCatalog) : list (N * N) := fst <$> by_coordinate (expert_groups c).

(** [sglang-srt/src/model_artifacts.rs:1192-1201] SafetensorsRoutedExpertWeightCatalog::layer_ids *)
Definition catalog_layer_ids (c : SafetensorsRoutedExpertWeightCatalog) : list N := skip_repeated None (fst <$> catalog_coordinates c).

(** [sglang-srt/src/model_artifacts.rs:1226-1229] SafetensorsRoutedExpertLayerWeights *)
Record SafetensorsRoutedExpertLayerWeights : Type := mkLayerWeights {
  lw_layer_id : N;
  lw_groups : list SafetensorsRoutedExpertWeightGroup;
}.

(** The range of the keys with the layer. *)
(** [sglang-srt/src/model_artifacts.rs:1203-1214] SafetensorsRoutedExpertWeightCatalog::layer *)
Definition catalog_layer (c : SafetensorsRoutedExpertWeightCatalog) (layer_id : N) : option SafetensorsRoutedExpertLayerWeights :=
  let groups := snd <$> filter (λ e, coordinate_le ((layer_id, 0), tt) (e.1, tt) ∧ coordinate_le (e.1, tt) ((layer_id, usize_MAX), tt)) (by_coordinate (expert_groups c)) in
  match groups with [] => None | _ => Some (mkLayerWeights layer_id groups) end.

(** [sglang-srt/src/model_artifacts.rs:1216-1222] SafetensorsRoutedExpertWeightCatalog::group *)
Definition catalog_group (c : SafetensorsRoutedExpertWeightCatalog) (layer_id expert_id : N) : option SafetensorsRoutedExpertWeightGroup :=
  expert_groups c !! (layer_id, expert_id).

(** [sglang-srt/src/model_artifacts.rs:1240-1242] SafetensorsRoutedExpertLayerWeights::expert_ids *)
Definition layer_expert_ids (l : SafetensorsRoutedExpertLayerWeights) : list N := g_expert_id <$> lw_groups l.

(** [sglang-srt/src/model_artifacts.rs:1244-1249] SafetensorsRoutedExpertLayerWeights::group *)
Definition layer_group (l : SafetensorsRoutedExpertLayerWeights) (expert_id : N) : option SafetensorsRoutedExpertWeightGroup :=
  snd <$> list_find (λ g, g_expert_id g = expert_id) (lw_groups l).

(** ** Gathering the weights of routed experts *)

Lemma collect_Ok {E A B} (f : A → Result E B) l ys : collect f l = Ok ys ↔ Forall2 (λ x y, f x = Ok y) l ys.
Proof.
  revert ys. induction l as [|x l IH]; intros ys; cbn [collect].
  - split; [by intros [= <-]|by intros ->%Forall2_nil_inv_l].
  - rewrite result_bind_Ok. setoid_rewrite result_bind_Ok. setoid_rewrite IH. split.
    + intros (y&Hy&zs&Hzs&[= <-]). by constructor.
    + intros (y&zs&Hy&Hzs&->)%Forall2_cons_inv_l. by exists y; split; [|exists zs].
Qed.

Lemma collect_Err {E A B} (f : A → Result E B) l e : collect f l = Err e → ∃ x, x ∈ l ∧ f x = Err e.
Proof.
  induction l as [|x l IH]; cbn [collect]; [done|]. destruct (f x) as [y|e'] eqn:Hx; cbn [result_bind].
  - destruct (collect f l); cbn [result_bind]; [done|]. intros [= ->]. destruct IH as (x'&?&?); [done|]. exists x'. by split; [right|].
  - intros [= ->]. exists x. by split; [left|].
Qed.

Abbreviation WeightEntry := (N * N * SafetensorsRoutedExpertProjection * SafetensorsRoutedExpertWeightComponent * SafetensorsTensorSpan)%type.

(** What a weight says about itself, and the place it takes. *)
Definition weight_entry (w : SafetensorsRoutedExpertWeightSpan) : WeightEntry :=
  (w_layer_id w, w_expert_id w, w_projection w, w_component w, w_span w).
Definition entry_place (e : WeightEntry) := e.1.

Definition projection_weights (w : SafetensorsRoutedExpertProjectionWeights) : list (SafetensorsRoutedExpertWeightComponent * SafetensorsTensorSpan) :=
  match w with
  | Unquantized weight => [(Weight, weight)]
  | CompressedTensorsInt4 packed scale shape => [(PackedWeight, packed); (WeightScale, scale); (WeightShape, shape)]
  end.

Definition group_projection (g : SafetensorsRoutedExpertWeightGroup) (p : SafetensorsRoutedExpertProjection) :=
  match p with Gate => g_gate g | Up => g_up g | Down => g_down g end.

(** The weights a group stands for. *)
Definition group_weights (g : SafetensorsRoutedExpertWeightGroup) : list WeightEntry :=
  [Gate; Up; Down] ≫= λ p, (λ cs, (g_layer_id g, g_expert_id g, p, cs.1, cs.2)) <$> projection_weights (group_projection g p).

Definition coordinates (g : SafetensorsRoutedExpertWeightGroup) : N * N := (g_layer_id g, g_expert_id g).

Lemma elem_of_group_weights g l e p c s :
  (l, e, p, c, s) ∈ group_weights g ↔ coordinates g = (l, e) ∧ (c, s) ∈ projection_weights (group_projection g p).
Proof.
  unfold group_weights, coordinates. rewrite list_elem_of_bind. setoid_rewrite list_elem_of_fmap. split.
  - intros (p'&([c' s']&[= -> -> -> -> ->]&Hc)&_). by split.
  - intros [[= <- <-] Hc]. exists p. split; [by exists (c, s)|]. destruct p; set_solver.
Qed.

Lemma projection_places_NoDup w : NoDup (projection_weights w).*1.
Proof. destruct w; by apply (bool_decide_unpack _); vm_compute. Qed.

Lemma group_places_NoDup g : NoDup (entry_place <$> group_weights g).
Proof. destruct g as [l e [] [] []]; unfold group_weights, entry_place; cbn; repeat (constructor; [set_solver|]); constructor. Qed.

Lemma groups_places_NoDup gs : NoDup (coordinates <$> gs) → NoDup (entry_place <$> (gs ≫= group_weights)).
Proof.
  induction gs as [|g gs IH]; intros Hnd; [constructor|]. cbn [fmap list_fmap] in Hnd. apply NoDup_cons in Hnd as [Hg Hnd].
  cbn [mbind list_bind]. rewrite fmap_app. apply NoDup_app. split; [apply group_places_NoDup|]. split; [|by apply IH].
  intros place Hin Hin'. apply list_elem_of_fmap in Hin as ([[[[l e] p] c] s]&->&Hin). apply list_elem_of_fmap in Hin' as ([[[[l' e'] p'] c'] s']&He&Hin').
  unfold entry_place in He. cbn [fst] in He. injection He as <- <- <- <-. apply list_elem_of_bind in Hin' as (g'&Hin'&Hg').
  apply elem_of_group_weights in Hin as [Hc _], Hin' as [Hc' _]. apply Hg. rewrite Hc, <-Hc'. by apply list_elem_of_fmap_2.
Qed.

(** A builder's slots. *)
Definition slot (b : RoutedExpertWeightGroupBuilder) (p : SafetensorsRoutedExpertProjection) (c : SafetensorsRoutedExpertWeightComponent) :=
  projection_slot (builder_projection b p) c.

Lemma projection_finish_spec b path l e name :
  match projection_finish b path l e name with
  | Ok w => ∀ c s, projection_slot b c = Some s ↔ (c, s) ∈ projection_weights w
  | Err _ => ∀ w, ¬ ∀ c s, projection_slot b c = Some s ↔ (c, s) ∈ projection_weights w
  end.
Proof.
  assert (∀ w, (∀ c s, projection_slot b c = Some s ↔ (c, s) ∈ projection_weights w) →
    match w with Unquantized x => b = mkProjectionBuilder (Some x) None None None
    | CompressedTensorsInt4 x y z => b = mkProjectionBuilder None (Some x) (Some y) (Some z) end) as Hinv.
  { intros w Hw. assert (∀ c, projection_slot b c = snd <$> (snd <$> list_find (λ cs, cs.1 = c) (projection_weights w))) as Hs.
    { intros c. apply option_eq. intros s. rewrite Hw. destruct w, c; cbn; set_solver. }
    destruct b as [x y z t]. pose proof (Hs Weight). pose proof (Hs PackedWeight). pose proof (Hs WeightScale). pose proof (Hs WeightShape).
    by destruct w; simplify_eq/=. }
  destruct b as [[x|] [y|] [z|] [t|]]; cbn [projection_finish pb_weight pb_packed pb_scale pb_shape];
    try (intros w Hw; specialize (Hinv w Hw); by destruct w).
  all: intros c s; destruct c; cbn; set_solver.
Qed.

Definition weight_coordinates (w : SafetensorsRoutedExpertWeightSpan) : N * N := (w_layer_id w, w_expert_id w).

(** The builders stand for the weights put in so far. *)
Definition builders_hold (bs : gmap (N * N) RoutedExpertWeightGroupBuilder) (ws : list SafetensorsRoutedExpertWeightSpan) : Prop :=
  (∀ key, is_Some (bs !! key) ↔ key ∈ weight_coordinates <$> ws) ∧
  ∀ key b, bs !! key = Some b → (b_layer_id b, b_expert_id b) = key ∧
    ∀ p c s, slot b p c = Some s ↔ (key.1, key.2, p, c, s) ∈ weight_entry <$> ws.

Lemma builders_hold_nil : builders_hold ∅ [].
Proof. split; [|done]. intros key. rewrite lookup_empty. split; [by intros [? ?]|set_solver]. Qed.

Lemma slot_set b p pb path p' c : slot (builder_set b p pb path) p' c = if decide (p' = p) then projection_slot pb c else slot b p' c.
Proof. by destruct p, p'. Qed.

Lemma projection_slot_set pb c s c' : projection_slot (projection_set pb c s) c' = if decide (c' = c) then Some s else projection_slot pb c'.
Proof. by destruct c, c'. Qed.

(** The builder of a weight, new or found. *)
Lemma builder_for bs ws w :
  builders_hold bs ws →
  let b := default (builder_new (w_layer_id w) (w_expert_id w)) (bs !! weight_coordinates w) in
  (b_layer_id b, b_expert_id b) = weight_coordinates w ∧
  ∀ p c s, slot b p c = Some s ↔ (w_layer_id w, w_expert_id w, p, c, s) ∈ weight_entry <$> ws.
Proof.
  intros [Hdom Hb]. destruct (bs !! weight_coordinates w) as [b|] eqn:Hat; cbn [default].
  - apply (Hb _ _ Hat).
  - split; [done|]. intros p c s. split; [by destruct p, c|]. intros (w'&He&Hw')%list_elem_of_fmap.
    assert (is_Some (bs !! weight_coordinates w)) as [? ?]; [|by simplify_eq].
    apply Hdom. apply list_elem_of_fmap. exists w'. split; [|done]. unfold weight_entry in He. unfold weight_coordinates. congruence.
Qed.

Lemma builder_insert_spec b ws w :
  (∀ p c s, slot b p c = Some s ↔ (w_layer_id w, w_expert_id w, p, c, s) ∈ weight_entry <$> ws) →
  match builder_insert b w with
  | Ok b' => entry_place (weight_entry w) ∉ entry_place ∘ weight_entry <$> ws ∧
      (b_layer_id b', b_expert_id b') = (b_layer_id b, b_expert_id b) ∧
      ∀ p c s, slot b' p c = Some s ↔ (w_layer_id w, w_expert_id w, p, c, s) ∈ weight_entry <$> (ws ++ [w])
  | Err _ => entry_place (weight_entry w) ∈ entry_place ∘ weight_entry <$> ws
  end.
Proof.
  intros Hb. unfold builder_insert, projection_insert. fold (slot b (w_projection w) (w_component w)).
  destruct (slot b (w_projection w) (w_component w)) as [s|] eqn:Hs; cbn [result_bind].
  - apply Hb in Hs. rewrite list_fmap_compose. apply (list_elem_of_fmap_2 entry_place) in Hs. exact Hs.
  - split; [|split; [by destruct (w_projection w)|]].
    + intros (w'&He&Hw')%list_elem_of_fmap. cbn in He. unfold entry_place, weight_entry in He. cbn [fst] in He.
      assert (slot b (w_projection w) (w_component w) = Some (w_span w')); [|congruence].
      apply Hb. apply list_elem_of_fmap. exists w'. split; [|done]. unfold weight_entry. congruence.
    + intros p c s. rewrite slot_set, projection_slot_set, fmap_app, elem_of_app, <-Hb. cbn [fmap list_fmap]. rewrite list_elem_of_singleton.
      unfold weight_entry. destruct (decide (p = w_projection w)) as [->|]; [destruct (decide (c = w_component w)) as [->|]|].
      * rewrite Hs. split; [intros [= <-]; by right|intros [?|[= ->]]; done].
      * split; [by left|intros [?|[= ? ?]]; done].
      * split; [by left|intros [?|[= ? ? ?]]; done].
Qed.

Lemma builders_hold_insert bs ws w b' :
  builders_hold bs ws → (b_layer_id b', b_expert_id b') = weight_coordinates w →
  (∀ p c s, slot b' p c = Some s ↔ (w_layer_id w, w_expert_id w, p, c, s) ∈ weight_entry <$> (ws ++ [w])) →
  builders_hold (<[weight_coordinates w := b']> bs) (ws ++ [w]).
Proof.
  intros [Hdom Hb] Hkey Hslot. split.
  - intros key. rewrite fmap_app, elem_of_app, <-Hdom, lookup_insert_is_Some'. cbn [fmap list_fmap]. rewrite list_elem_of_singleton. naive_solver.
  - intros key b Hat. apply lookup_insert_Some in Hat as [[<- <-]|[Hne Hat]]; [by split|].
    destruct (Hb _ _ Hat) as [Hk Hs]. split; [done|]. intros p c s. rewrite fmap_app, elem_of_app, <-Hs. cbn [fmap list_fmap].
    rewrite list_elem_of_singleton. split; [by left|]. intros [?|He]; [done|]. destruct Hne. unfold weight_entry in He.
    injection He as Hl Hx _ _ _. unfold weight_coordinates. rewrite <-Hl, <-Hx. by destruct key.
Qed.

Lemma insert_weights_spec ws : ∀ bs seen, builders_hold bs seen → NoDup (entry_place ∘ weight_entry <$> seen) →
  match insert_weights ws bs with
  | Ok bs' => builders_hold bs' (seen ++ ws) ∧ NoDup (entry_place ∘ weight_entry <$> seen ++ ws)
  | Err _ => ¬ NoDup (entry_place ∘ weight_entry <$> seen ++ ws)
  end.
Proof.
  induction ws as [|w ws IH]; intros bs seen Hbs Hnd; cbn [insert_weights]; [by rewrite app_nil_r|].
  fold (weight_coordinates w). destruct (builder_for _ _ w Hbs) as [Hkey Hslot]. set (b := default _ _) in *.
  pose proof (builder_insert_spec b seen w Hslot) as Hins. destruct (builder_insert b w) as [b'|e]; cbn [result_bind].
  - destruct Hins as (Hnew&Hk&Hslot'). rewrite Hkey in Hk. specialize (IH _ (seen ++ [w]) (builders_hold_insert _ _ _ _ Hbs Hk Hslot')).
    rewrite <-app_assoc in IH. apply IH. rewrite fmap_app. apply NoDup_app. split; [done|]. split; [|apply NoDup_singleton].
    by intros place Hin ->%list_elem_of_singleton.
  - rewrite fmap_app. cbn [fmap list_fmap]. intros Hall. apply NoDup_app in Hall as (_&Hdis&_). eapply Hdis; [exact Hins|]. left.
Qed.

Lemma builder_finish_spec b :
  match builder_finish b with
  | Ok g => coordinates g = (b_layer_id b, b_expert_id b) ∧
      ∀ p c s, slot b p c = Some s ↔ (c, s) ∈ projection_weights (group_projection g p)
  | Err _ => ∀ g, ¬ ∀ p c s, slot b p c = Some s ↔ (c, s) ∈ projection_weights (group_projection g p)
  end.
Proof.
  unfold builder_finish. set (file := default _ _).
  pose proof (projection_finish_spec (b_gate b) file (b_layer_id b) (b_expert_id b) "gate") as Hg.
  pose proof (projection_finish_spec (b_up b) file (b_layer_id b) (b_expert_id b) "up") as Hu.
  pose proof (projection_finish_spec (b_down b) file (b_layer_id b) (b_expert_id b) "down") as Hd.
  destruct (projection_finish (b_gate b) _ _ _ _); cbn [result_bind]; [|intros g Hall; exact (Hg _ (Hall Gate))].
  destruct (projection_finish (b_up b) _ _ _ _); cbn [result_bind]; [|intros g Hall; exact (Hu _ (Hall Up))].
  destruct (projection_finish (b_down b) _ _ _ _); cbn [result_bind]; [|intros g Hall; exact (Hd _ (Hall Down))].
  split; [done|]. by intros [].
Qed.

#[export] Instance coordinate_le_total {A} : Total (@coordinate_le A).
Proof. intros a b. unfold coordinate_le. lia. Qed.
#[export] Instance coordinate_le_trans {A} : Transitive (@coordinate_le A).
Proof. intros a b c. unfold coordinate_le. lia. Qed.

Lemma elem_of_by_coordinate {A} (m : gmap (N * N) A) key x : (key, x) ∈ by_coordinate m ↔ m !! key = Some x.
Proof. unfold by_coordinate. by rewrite merge_sort_Permutation, elem_of_map_to_list. Qed.

Lemma by_coordinate_NoDup {A} (m : gmap (N * N) A) : NoDup (by_coordinate m).*1.
Proof. unfold by_coordinate. rewrite merge_sort_Permutation. apply NoDup_fst_map_to_list. Qed.

Lemma by_coordinate_sorted {A} (m : gmap (N * N) A) : StronglySorted coordinate_le (by_coordinate m).
Proof. apply (StronglySorted_merge_sort coordinate_le). Qed.

Lemma by_coordinate_keys_sorted {A} (m : gmap (N * N) A) : StronglySorted (λ a b, coordinate_le (a, tt) (b, tt)) (by_coordinate m).*1.
Proof.
  induction (by_coordinate_sorted m) as [|x l _ IH Hx]; cbn [fmap list_fmap]; constructor; [done|]. by apply Forall_fmap.
Qed.

Lemma finished_coordinates bs ws gs :
  builders_hold bs ws → Forall2 (λ b g, builder_finish b = Ok g) (by_coordinate bs).*2 gs →
  coordinates <$> gs = (by_coordinate bs).*1 ∧ ∀ key b, bs !! key = Some b → ∃ g, g ∈ gs ∧ builder_finish b = Ok g.
Proof.
  intros [_ Hb] Hfin. assert (Forall (λ e, bs !! e.1 = Some e.2) (by_coordinate bs)) as Hin.
  { apply Forall_forall. intros [key b]. apply elem_of_by_coordinate. }
  split.
  - revert gs Hfin Hin. generalize (by_coordinate bs). intros es. induction es as [|[key b] es IH]; intros gs Hfin Hin.
    + by apply Forall2_nil_inv_l in Hfin as ->.
    + cbn [fmap list_fmap fst snd] in *. apply Forall2_cons_inv_l in Hfin as (g&gs'&Hg&Hgs&->). apply Forall_cons in Hin as [Hat Hin].
      cbn [fmap list_fmap]. f_equal; [|by apply IH]. pose proof (builder_finish_spec b) as Hspec. rewrite Hg in Hspec.
      destruct Hspec as [-> _]. by destruct (Hb _ _ Hat).
  - intros key b Hat. apply elem_of_by_coordinate in Hat. apply (list_elem_of_fmap_2 snd) in Hat. cbn [snd] in Hat.
    apply list_elem_of_lookup in Hat as [i Hi]. destruct (Forall2_lookup_l _ _ _ _ _ Hfin Hi) as (g&Hg&Hf).
    exists g. split; [|done]. by eapply list_elem_of_lookup_2.
Qed.

(** A division of weights into groups: one group for a pair of layer and expert,
    the weights of the groups are the weights there are. *)
Definition divides (ws : list SafetensorsRoutedExpertWeightSpan) (gs : list SafetensorsRoutedExpertWeightGroup) : Prop :=
  NoDup (coordinates <$> gs) ∧ (gs ≫= group_weights) ≡ₚ weight_entry <$> ws.

Lemma groups_divide bs ws gs :
  builders_hold bs ws → NoDup (entry_place ∘ weight_entry <$> ws) →
  Forall2 (λ b g, builder_finish b = Ok g) (by_coordinate bs).*2 gs → divides ws gs.
Proof.
  intros Hbs Hnd Hfin. destruct (finished_coordinates _ _ _ Hbs Hfin) as [Hcoords Hall].
  assert (NoDup (coordinates <$> gs)) as Hgs by (rewrite Hcoords; apply by_coordinate_NoDup). split; [done|].
  apply NoDup_Permutation.
  - eapply NoDup_fmap_1, (groups_places_NoDup _ Hgs).
  - rewrite list_fmap_compose in Hnd. by eapply NoDup_fmap_1.
  - assert (∀ key b g, bs !! key = Some b → builder_finish b = Ok g → coordinates g = key ∧
      ∀ p c s, (key.1, key.2, p, c, s) ∈ weight_entry <$> ws ↔ (c, s) ∈ projection_weights (group_projection g p)) as Hone.
    { intros key b g Hat Hf. pose proof (builder_finish_spec b) as Hspec. rewrite Hf in Hspec. destruct Hspec as [-> Hs].
      destruct Hbs as [_ Hb]. destruct (Hb _ _ Hat) as [-> Hb']. split; [done|]. intros p c s. by rewrite <-Hb', Hs. }
    intros [[[[l e] p] c] s]. rewrite list_elem_of_bind. split.
    + intros (g&Hg&Hin). apply elem_of_group_weights in Hg as [Hk Hg].
      apply list_elem_of_lookup in Hin as [i Hi]. destruct (Forall2_lookup_r _ _ _ _ _ Hfin Hi) as (b&Hb&Hf).
      apply list_elem_of_lookup_2, list_elem_of_fmap in Hb as ([key b']&->&Hb). apply elem_of_by_coordinate in Hb. cbn [snd] in Hf.
      destruct (Hone _ _ _ Hb Hf) as [Hk' Hw]. rewrite Hk in Hk'. subst key. by apply Hw.
    + intros Hin. destruct Hbs as [Hdom Hb]. assert (is_Some (bs !! (l, e))) as [b Hat].
      { apply Hdom. apply list_elem_of_fmap in Hin as (w&He&Hw). apply list_elem_of_fmap. exists w. split; [|done].
        unfold weight_entry in He. unfold weight_coordinates. congruence. }
      destruct (Hall _ _ Hat) as (g&Hg&Hf). destruct (Hone _ _ _ Hat Hf) as [Hk Hw]. exists g. split; [|done].
      apply elem_of_group_weights. split; [done|]. by apply Hw.
Qed.

Lemma NoDup_fmap_same {A B} (f : A → B) l x y : NoDup (f <$> l) → x ∈ l → y ∈ l → f x = f y → x = y.
Proof.
  intros Hnd [i Hi]%list_elem_of_lookup [j Hj]%list_elem_of_lookup Hf.
  assert (i = j) as <-; [|congruence]. eapply (NoDup_lookup (f <$> l)); [done|by rewrite list_lookup_fmap, Hi|].
  by rewrite list_lookup_fmap, Hj, Hf.
Qed.

Lemma no_division_missing bs ws b e :
  builders_hold bs ws → b ∈ (by_coordinate bs).*2 → builder_finish b = Err e → ¬ ∃ gs, divides ws gs.
Proof.
  intros [Hdom Hb] Hin He (gs&Hnd&Hperm). apply list_elem_of_fmap in Hin as ([key b']&->&Hat). apply elem_of_by_coordinate in Hat. cbn [snd] in He.
  destruct (Hb _ _ Hat) as [Hk Hs]. pose proof (builder_finish_spec b') as Hspec. rewrite He in Hspec.
  assert (key ∈ weight_coordinates <$> ws) as (w&->&Hw)%list_elem_of_fmap by (apply Hdom; by exists b').
  assert (weight_entry w ∈ gs ≫= group_weights) as (g&Hg&Hin)%list_elem_of_bind by (rewrite Hperm; by apply list_elem_of_fmap_2).
  apply elem_of_group_weights in Hg as [Hg _]. apply (Hspec g). intros p c s. rewrite Hs, <-Hperm, list_elem_of_bind. split.
  - intros (g'&Hg'&Hin'). apply elem_of_group_weights in Hg' as [Hg' Hcs].
    replace g with g'; [done|]. apply (NoDup_fmap_same coordinates gs); try done. by rewrite Hg, Hg'.
  - intros Hcs. exists g. split; [|done]. by apply elem_of_group_weights.
Qed.

Lemma gathered_divides ws gs : groups_of_weights ws = Ok gs → divides ws gs.
Proof.
  unfold groups_of_weights. pose proof (insert_weights_spec ws ∅ [] builders_hold_nil ltac:(constructor)) as Hins.
  cbn [app] in Hins. destruct (insert_weights ws ∅) as [bs|e]; cbn [result_bind]; [|done]. destruct Hins as [Hbs Hnd].
  intros Hc%collect_Ok. by eapply groups_divide.
Qed.

(** C24. Gathering routed experts gives the one division of their weights into
    groups, each with a gate, an up and a down projection that has either its
    plain weight or all of its compressed parts, in the order of layers and
    experts; it fails exactly when there is none, because a weight is there
    twice, a projection is missing, or is plain and compressed at once. *)
Theorem groups_of_weights_correct ws :
  match groups_of_weights ws with
  | Ok gs => divides ws gs ∧ StronglySorted (λ a b, coordinate_le (a, tt) (b, tt)) (coordinates <$> gs)
  | Err _ => ¬ ∃ gs, divides ws gs
  end.
Proof.
  destruct (groups_of_weights ws) as [gs|e] eqn:Hgs; [split; [by apply gathered_divides|]|]; revert Hgs;
    unfold groups_of_weights; pose proof (insert_weights_spec ws ∅ [] builders_hold_nil ltac:(constructor)) as Hins;
    cbn [app] in Hins; (destruct (insert_weights ws ∅) as [bs|e']; cbn [result_bind]; [destruct Hins as [Hbs Hnd]|]); try done.
  - intros Hc%collect_Ok. destruct (finished_coordinates _ _ _ Hbs Hc) as [-> _]. apply by_coordinate_keys_sorted.
  - intros (b&Hb&Hf)%collect_Err. by eapply no_division_missing.
  - intros _ (gs&Hnd&Hperm). apply Hins. rewrite list_fmap_compose, <-Hperm. by apply groups_places_NoDup.
Qed.

(** ** The header cache changes nothing *)

(** Errors name the file, the rest does not depend on the name. *)
Lemma result_bind_same {E A B} (r r' : Result E A) (f f' : A → Result E B) :
  (∀ a, r = Ok a → r' = Ok a) → (∀ a b, f a = Ok b → f' a = Ok b) → ∀ b, result_bind r f = Ok b → result_bind r' f' = Ok b.
Proof. intros Hr Hf b (a&Ha&Hb)%result_bind_Ok. apply result_bind_Ok. exists a. split; [by apply Hr|by apply Hf]. Qed.

Lemma ok_or_same {E A} (o : option A) (e e' : E) a : ok_or o e = Ok a → ok_or o e' = Ok a.
Proof. by destruct o. Qed.

Lemma collect_same {E A B} (f f' : A → Result E B) l ys : (∀ x y, f x = Ok y → f' x = Ok y) → collect f l = Ok ys → collect f' l = Ok ys.
Proof. intros Hf. rewrite !collect_Ok. intros Hl. eapply Forall2_impl; [exact Hl|]. apply Hf. Qed.

Lemma parse_tensor_metadata_same p q name entries m : parse_tensor_metadata p name entries = Ok m → parse_tensor_metadata q name entries = Ok m.
Proof.
  unfold parse_tensor_metadata. destruct (field "dtype" entries ≫= as_str) as [dt|]; cbn [ok_or result_bind]; [|done].
  destruct (field "shape" entries ≫= as_array) as [dims|]; cbn [ok_or result_bind]; [|done]. revert m. apply result_bind_same.
  - intros shape. apply collect_same. intros x y. apply ok_or_same.
  - intros shape m. destruct (field "data_offsets" entries ≫= as_array) as [[|a [|b [|]]]|]; cbn [ok_or result_bind]; try done.
    revert m. repeat (apply result_bind_same; [by intros c; apply ok_or_same|intros ?]). done.
Qed.

Lemma header_tensors_same p q es : ∀ acc ts, header_tensors p es acc = Ok ts → header_tensors q es acc = Ok ts.
Proof.
  induction es as [|[name v] es IH]; intros acc ts; cbn [header_tensors]; [done|]. destruct (_ =? _)%string; [apply IH|].
  destruct (as_object v); [|apply IH]. revert ts. apply result_bind_same; [intros m; apply parse_tensor_metadata_same|]. intros m ts. apply IH.
Qed.

Lemma header_from_file_same disk parse_json p q h :
  open_file disk p = open_file disk q → header_from_file disk parse_json p = Some (Ok h) → header_from_file disk parse_json q = Some (Ok h).
Proof.
  intros Hf. unfold header_from_file, open_shard, read_vec, read_exact. rewrite <-Hf.
  destruct (open_file disk p) as [file|]; cbn [result_map_err result_bind_opt]; [|done].
  destruct (_ || _)%bool; cbn [result_bind_opt]; [|done]. destruct (_ <=? isize_MAX); cbn [result_bind_opt]; [|done].
  destruct (_ || _)%bool; cbn [result_bind_opt]; [|done]. destruct (parse_json _) as [v|]; cbn [result_map_err result_bind_opt]; [|done].
  destruct (as_object v) as [es|]; cbn [ok_or result_bind_opt]; [|done].
  destruct (header_tensors p es ∅) as [ts|] eqn:Hts; cbn [result_bind_opt]; [|done]. by rewrite (header_tensors_same p q _ _ _ Hts).
Qed.

Section Cache.
Context (disk : Disk) (parse_json : list N → Result string Json).

(** The spans of the names, each looked up by itself. *)
Fixpoint spans_by_name (m : SafetensorsManifest) (names : list string) (entries : list (string * SafetensorsTensorSpan))
    : option (Result ModelArtifactError (list (string * SafetensorsTensorSpan))) :=
  match names with
  | [] => Some (Ok entries)
  | name :: names =>
      let^ span := manifest_tensor_span disk parse_json m name in
      spans_by_name m names (match span with Some span => entries ++ [(name, span)] | None => entries end)
  end.

Definition same_file : Prop := ∀ p q, components p = components q → open_file disk p = open_file disk q.

Definition cache_sound (headers : HeaderCache) : Prop :=
  ∀ p h, headers !! components p = Some h → header_from_file disk parse_json p = Some (Ok h).

Lemma cache_sound_insert headers p h :
  same_file → cache_sound headers → header_from_file disk parse_json p = Some (Ok h) → cache_sound (<[components p := h]> headers).
Proof.
  intros Hsame Hc Hh q h' [[He <-]|[_ Hat]]%lookup_insert_Some; [|by apply Hc].
  eapply header_from_file_same; [|exact Hh]. by apply Hsame.
Qed.

Lemma indexed_by_name m names : ∀ headers entries,
  same_file → cache_sound headers → Forall (λ name, is_Some (tensor_to_shard m !! name)) names →
  indexed_entries disk parse_json m names headers entries = spans_by_name m names entries.
Proof.
  induction names as [|name names IH]; intros headers entries Hsame Hc Hnames; cbn [indexed_entries spans_by_name]; [done|].
  apply Forall_cons in Hnames as [[p Hp] Hnames]. unfold manifest_tensor_span, shard_for_tensor. rewrite Hp.
  assert (match headers !! components p with Some h => Some (Ok h) | None => header_from_file disk parse_json p end = header_from_file disk parse_json p) as ->.
  { destruct (headers !! components p) as [h|] eqn:Hat; [|done]. by rewrite (Hc _ _ Hat). }
  destruct (header_from_file disk parse_json p) as [[h|e]|] eqn:Hh; cbn [result_bind_opt]; [|done..].
  destruct (header_tensor_span disk h p name) as [span|e]; cbn [result_bind_opt]; [|done].
  apply IH; [done| |done]. by apply cache_sound_insert.
Qed.

End Cache.

Lemma elem_of_sorted_entries {A} (m : gmap string A) name x : (name, x) ∈ sorted_entries m ↔ m !! name = Some x.
Proof. unfold sorted_entries. by rewrite merge_sort_Permutation, elem_of_map_to_list. Qed.

Lemma index_entries_names disk model_path index_path es : ∀ shards paths maps,
  index_entries disk model_path index_path es shards paths = Ok maps → (es ≠ [] ∨ shards ≠ ∅) → maps.1 ≠ ∅.
Proof.
  induction es as [|[name v] es IH]; intros shards paths maps; cbn [index_entries].
  - intros [= <-] [?|?]; done.
  - intros Hrun _. apply result_bind_Ok in Hrun as (shard&_&Hrun). destruct (negb _); [done|]. eapply IH; [exact Hrun|]. right. apply insert_non_empty.
Qed.

Lemma from_index_path_names disk parse_json_str model_path index_path m :
  from_index_path disk parse_json_str model_path index_path = Ok m →
  tensor_names m ≠ [] ∧ ∀ name, name ∈ tensor_names m ↔ is_Some (tensor_to_shard m !! name).
Proof.
  unfold from_index_path. intros Hm. decompose_result.
  match goal with H : match ?es with [] => _ | _ => _ end = _ |- _ => destruct es as [|e es]; [done|] end.
  decompose_result. subst. cbn [tensor_names tensor_to_shard]. match goal with H : index_entries _ _ _ _ _ _ = Ok _ |- _ => rename H into Hi end.
  apply index_entries_names in Hi; [|by left]. split.
  - intros He%fmap_nil_inv. apply Hi. apply map_empty. intros name. apply eq_None_not_Some. intros [shard Hx]. apply elem_of_sorted_entries in Hx.
    rewrite He in Hx. by apply not_elem_of_nil in Hx.
  - intros name. rewrite list_elem_of_fmap. split.
    + intros ([k shard]&->&Hx). apply elem_of_sorted_entries in Hx. by exists shard.
    + intros [shard Hx]. exists (name, shard). split; [done|]. by apply elem_of_sorted_entries.
Qed.

(** With an index, all spans are what looking up each name of the index by
    itself gives, in the order of the names, errors and panics included: keeping
    the headers of the shards, by paths that name the same file, changes
    nothing. *)
Theorem indexed_entries_are_spans disk parse_json parse_json_str model_path index_path m :
  same_file disk → from_index_path disk parse_json_str model_path index_path = Ok m →
  tensor_span_entries disk parse_json m = spans_by_name disk parse_json m (tensor_names m) [].
Proof.
  intros Hsame Hm. apply from_index_path_names in Hm as [Hne Hnames]. unfold tensor_span_entries.
  destruct (tensor_names m) as [|name names] eqn:He; [done|]. apply indexed_by_name; [done| |].
  - intros p h. by rewrite lookup_empty.
  - apply Forall_forall. intros n Hn. by apply Hnames.
Qed.

(** ** What names say *)

Lemma dot_free parts : ∀ part, free_of 46 part → Forall (free_of 46) parts →
  split_on 46 (String.concat "." (part :: parts)) = part :: parts.
Proof.
  induction parts as [|next parts IH]; intros part Hp Hps; [by apply split_free|]. apply Forall_cons in Hps as [Hn Hps].
  change (String.concat "." (part :: next :: parts)) with (part +:+ "." +:+ String.concat "." (next :: parts)).
  by rewrite (split_free_sep 46), IH.
Qed.

Lemma split_join parts : parts ≠ [] → Forall (free_of 46) parts → split_on 46 (String.concat "." parts) = parts.
Proof. destruct parts as [|part parts]; [done|]. intros _ [Hp Hps]%Forall_cons. by apply dot_free. Qed.

Lemma parse_segment_pretty (n : N) : n ≤ usize_MAX → parse_usize_segment (pretty n) = Some n.
Proof.
  intros Hn. destruct (pretty_digits n) as (_&Hd&Hne). unfold parse_usize_segment.
  destruct (String.eqb_spec (pretty n) ""); [done|]. rewrite parse_pretty by done.
  assert (forallb is_digit (text_bytes (pretty n)) = true) as ->; [|done]. apply forallb_forall. intros b Hb.
  unfold all_digits in Hd. rewrite Forall_forall in Hd. by apply Hd, list_elem_of_In.
Qed.

Lemma layer_of_parts_at pre l rest :
  "layers"%string ∉ pre → l ≤ usize_MAX → layer_of_parts (pre ++ "layers"%string :: pretty l :: rest) = Some l.
Proof.
  intros Hpre Hl. induction pre as [|part pre IH].
  - cbn. by rewrite parse_segment_pretty.
  - apply not_elem_of_cons in Hpre as [Hne Hpre]. specialize (IH Hpre). cbn [app layer_of_parts].
    destruct pre as [|next pre]; cbn [app] in *; (destruct (String.eqb_spec part "layers"); [congruence|]); exact IH.
Qed.

(** The names checkpoints use for a projection and a part of its weight. *)
Definition projection_name (mixtral : bool) (p : SafetensorsRoutedExpertProjection) : string :=
  match p with
  | Gate => if mixtral then "w1" else "gate_proj"
  | Up => if mixtral then "w3" else "up_proj"
  | Down => if mixtral then "w2" else "down_proj"
  end.
Definition component_name (c : SafetensorsRoutedExpertWeightComponent) : string :=
  match c with Weight => "weight" | PackedWeight => "weight_packed" | WeightScale => "weight_scale" | WeightShape => "weight_shape" end.

(** [prefix.layers.L.middle.experts.E.projection.part] *)
Definition expert_weight_name (pre middle : list string) (layer_id expert_id : N) (mixtral : bool)
    (p : SafetensorsRoutedExpertProjection) (c : SafetensorsRoutedExpertWeightComponent) : string :=
  String.concat "." (pre ++ ["layers"; pretty layer_id]%string ++ middle ++ ["experts"; pretty expert_id; projection_name mixtral p; component_name c]%string).

Lemma list_find_experts pre rest :
  "experts"%string ∉ pre → list_find (λ part, part = "experts"%string) (pre ++ "experts"%string :: rest) = Some (length pre, "experts"%string).
Proof.
  intros Hpre. apply list_find_Some. split; [by rewrite list_lookup_middle|]. split; [done|].
  intros j y Hj Hlt ->. apply Hpre. rewrite lookup_app_l in Hj by done. by eapply list_elem_of_lookup_2.
Qed.

Lemma lookup_after {A} (pre l : list A) i : (pre ++ l) !! (length pre + i)%nat = l !! i.
Proof. rewrite lookup_app_r by lia. f_equal. lia. Qed.

Lemma pretty_not_experts (n : N) : pretty n ≠ "experts"%string.
Proof. intros He. destruct (pretty_digits n) as (_&Hd&_). rewrite He in Hd. by inversion Hd. Qed.

(** The name of a routed expert's weight gives its layer, its expert, its
    projection and its part back, under both naming schemes and whatever modules
    stand around the layer, as long as the markers are not among them. *)
Theorem expert_name_round_trip pre middle layer_id expert_id mixtral p c :
  Forall (free_of 46) (pre ++ middle) → "layers"%string ∉ pre → "experts"%string ∉ pre ++ middle →
  layer_id ≤ usize_MAX → expert_id ≤ usize_MAX →
  parse_routed_expert_weight_name (expert_weight_name pre middle layer_id expert_id mixtral p c) = Some (layer_id, expert_id, p, c).
Proof.
  intros Hfree Hl He Hln Hen. apply Forall_app in Hfree as [Hpre Hmid]. unfold parse_routed_expert_weight_name, expert_weight_name.
  rewrite split_join.
  2:{ by destruct pre. }
  2:{ assert (∀ n : N, free_of 46 (pretty n)) by (intros n; by apply pretty_free).
      repeat (apply Forall_app; split); try done; repeat constructor; try done; by apply (bool_decide_unpack _); destruct mixtral, p, c; vm_compute. }
  cbn [app]. rewrite layer_of_parts_at by done. cbn [mbind option_bind].
  set (before := pre ++ ["layers"%string; pretty layer_id] ++ middle).
  replace (pre ++ "layers"%string :: pretty layer_id :: _) with
    (before ++ "experts"%string :: [pretty expert_id; projection_name mixtral p; component_name c]) by (unfold before; by rewrite <-!app_assoc).
  rewrite list_find_experts.
  2:{ unfold before. rewrite !not_elem_of_app in *. destruct He as [? ?]. split; [done|]. split; [|done].
      rewrite !not_elem_of_cons. split; [done|]. split; [apply not_eq_sym, pretty_not_experts|apply not_elem_of_nil]. }
  cbn [fmap option_fmap option_map fst mbind option_bind].
  rewrite !lookup_after. cbn [lookup list_lookup mbind option_bind].
  rewrite parse_segment_pretty by done. cbn [mbind option_bind].
  assert (parse_projection (projection_name mixtral p) = Some p) as -> by by destruct mixtral, p.
  assert (parse_component (component_name c) = Some c) as -> by by destruct c.
  cbn [mbind option_bind]. rewrite length_app. cbn [length]. destruct (Nat.eqb_spec (length before + 4) (length before + 4)); done.
Qed.

(** ** The catalog of layers *)

Definition layer_key (e : SafetensorsLayerTensorSpan) : N * string := (l_layer_id e, l_suffix e).

Lemma layer_catalog_spec entries : ∀ tensors,
  match layer_catalog_of entries tensors with
  | Ok c => NoDup (layer_key <$> entries) ∧ (∀ e, e ∈ entries → tensors !! layer_key e = None) ∧
      ∀ key e, layer_tensors c !! key = Some e ↔ (e ∈ entries ∧ layer_key e = key) ∨ tensors !! key = Some e
  | Err _ => ¬ (NoDup (layer_key <$> entries) ∧ ∀ e, e ∈ entries → tensors !! layer_key e = None)
  end.
Proof.
  induction entries as [|x entries IH]; intros tensors; cbn [layer_catalog_of].
  - split; [constructor|]. split; [by intros e ?%not_elem_of_nil|]. intros key e. split; [by right|]. by intros [[?%not_elem_of_nil _]|?].
  - fold (layer_key x). destruct (tensors !! layer_key x) as [y|] eqn:Hx.
    { intros [_ Hall]. specialize (Hall x ltac:(left)). congruence. }
    specialize (IH (<[layer_key x := x]> tensors)). destruct (layer_catalog_of entries _) as [c|e].
    + destruct IH as (Hnd&Hfresh&Hc). rewrite fmap_cons, NoDup_cons. assert (layer_key x ∉ layer_key <$> entries) as Hnew.
      { intros (e&He&Hin)%list_elem_of_fmap. specialize (Hfresh _ Hin). by apply lookup_insert_None in Hfresh as [_ ?]. }
      split; [done|]. split.
      * intros e [->|Hin]%elem_of_cons; [done|]. specialize (Hfresh _ Hin). by apply lookup_insert_None in Hfresh as [].
      * intros key e. rewrite Hc, elem_of_cons, lookup_insert_Some. split.
        -- intros [[? ?]|[[? ->]|[? ?]]]; [by left; split; [right|]|by left; split; [left|]|by right].
        -- intros [[[->|?] ?]|Hat]; [by right; left|by left|]. right. right. split; [|done]. intros <-. congruence.
    + rewrite fmap_cons, NoDup_cons. intros ([Hx' Hnd]&Hfresh). apply IH. split; [done|]. intros e' Hin. apply lookup_insert_None. split; [by apply Hfresh; right|].
      intros He. apply Hx'. rewrite He. by apply list_elem_of_fmap_2.
Qed.

Lemma take_while_sorted {A} (f : A → N) n l :
  StronglySorted (λ a b, f a ≤ f b) l → Forall (λ a, n ≤ f a) l → ∀ x, x ∈ take_while (λ a, f a =? n) l ↔ x ∈ l ∧ f x = n.
Proof.
  induction 1 as [|y l Hs IH Hy]; intros Hall x; cbn [take_while].
  - split; [by intros ?%not_elem_of_nil|by intros [?%not_elem_of_nil _]].
  - apply Forall_cons in Hall as [Hn Hall]. destruct (N.eqb_spec (f y) n) as [He|Hne].
    + rewrite !elem_of_cons, IH by done. naive_solver.
    + split; [by intros ?%not_elem_of_nil|]. intros [Hin Hx]. rewrite Forall_forall in Hy.
      apply elem_of_cons in Hin as [->|Hin]; [done|]. specialize (Hy _ Hin). lia.
Qed.

#[export] Instance layer_key_le_total {A} : Total (@layer_key_le A).
Proof.
  intros [[l s] x] [[k t] y]. unfold layer_key_le. cbn [fst snd]. destruct (N.lt_trichotomy l k) as [?|[->|?]]; [by left; left| |by right; left].
  destruct (String.leb_total s t); [left|right]; by right.
Qed.

Lemma Sorted_weaken {A} (R S : relation A) l : (∀ a b, R a b → S a b) → Sorted R l → Sorted S l.
Proof. intros HRS. induction 1 as [|x l _ IH Hx]; constructor; [done|]. destruct Hx; constructor. by apply HRS. Qed.

Lemma by_layer_key_sorted {A} (m : gmap (N * string) A) : StronglySorted (λ a b, a.1.1 ≤ b.1.1) (by_layer_key m).
Proof.
  apply Sorted_StronglySorted; [intros a b c; lia|]. eapply Sorted_weaken; [|apply (Sorted_merge_sort layer_key_le)].
  unfold layer_key_le. intros a b. lia.
Qed.

Lemma StronglySorted_filter {A} (R : relation A) (P : A → Prop) `{∀ x, Decision (P x)} l : StronglySorted R l → StronglySorted R (filter P l).
Proof.
  induction 1 as [|x l _ IH Hx]; [constructor|]. rewrite filter_cons. case_decide; [|done]. constructor; [done|].
  rewrite Forall_forall in *. intros y [_ Hin]%list_elem_of_filter. by apply Hx.
Qed.

(** The catalog of layers holds every tensor with a layer's name, each under its
    layer and suffix, and the suffixes it lists for a layer are those it holds;
    it is refused exactly when two tensors claim one place. *)
Theorem layer_catalog_correct entries :
  match layer_catalog_of entries ∅ with
  | Ok c => NoDup (layer_key <$> entries) ∧
      (∀ layer_id suffix e, layer_catalog_span c layer_id suffix = Some e ↔ e ∈ entries ∧ layer_key e = (layer_id, suffix)) ∧
      ∀ layer_id suffix, suffix ∈ suffixes c layer_id ↔ is_Some (layer_catalog_span c layer_id suffix)
  | Err _ => ¬ NoDup (layer_key <$> entries)
  end.
Proof.
  pose proof (layer_catalog_spec entries ∅) as Hspec. destruct (layer_catalog_of entries ∅) as [c|e].
  - destruct Hspec as (Hnd&_&Hc). split; [done|]. split.
    + intros layer_id suffix e. unfold layer_catalog_span. rewrite Hc, lookup_empty. naive_solver.
    + intros layer_id suffix. unfold suffixes, layer_catalog_span. rewrite list_elem_of_fmap. split.
      * intros ([[l s] x]&->&Hin). apply take_while_sorted in Hin as [Hin <-].
        -- apply list_elem_of_filter in Hin as [_ Hin]. unfold by_layer_key in Hin. rewrite merge_sort_Permutation, elem_of_map_to_list in Hin. by exists x.
        -- apply StronglySorted_filter, by_layer_key_sorted.
        -- apply Forall_forall. intros y [Hy _]%list_elem_of_filter. unfold layer_key_le in Hy. cbn [fst snd] in Hy. lia.
      * intros [x Hx]. exists ((layer_id, suffix), x). split; [done|]. apply take_while_sorted.
        -- apply StronglySorted_filter, by_layer_key_sorted.
        -- apply Forall_forall. intros y [Hy _]%list_elem_of_filter. unfold layer_key_le in Hy. cbn [fst snd] in Hy. lia.
        -- split; [|done]. apply list_elem_of_filter. split; [right; by destruct suffix|].
           unfold by_layer_key. by rewrite merge_sort_Permutation, elem_of_map_to_list.
  - intros Hnd. apply Hspec. split; [done|]. intros x _. apply lookup_empty.
Qed.

(** ** Witnesses *)

Lemma expert_name_round_trip_witness :
  parse_routed_expert_weight_name (expert_weight_name ["model"] ["mlp"] 3 17 false Down PackedWeight) = Some (3, 17, Down, PackedWeight).
Proof.
  apply (expert_name_round_trip ["model"%string] ["mlp"%string]); [|by apply (bool_decide_unpack _); vm_compute..|done|done].
  repeat constructor; by apply (bool_decide_unpack _); vm_compute.
Defined.

(** A checkpoint of two tensors in one shard, named two ways in the index. *)
Definition demo_checkpoint : Disk :=
  mkDisk (λ p, if bool_decide (components p = [RootDir; Normal "m"; Normal "a.safetensors"]) then Ok (shard_file demo_header demo_tensors)
      else Err "no such file"%string)
    (λ _, Ok "index"%string) (λ _, true) (λ _, true) (λ _, Err "no such directory"%string) "invalid argument" "failed to fill whole buffer".
Definition demo_index (_ : string) : Result string Json :=
  Ok (JObject [("weight_map", JObject [("lm_head.weight", JString "a.safetensors"); ("model.norm.weight", JString "./a.safetensors")])])%string.
Definition demo_manifest : SafetensorsManifest :=
  mkManifest "/m/index" ["lm_head.weight"; "model.norm.weight"]%string
    (<["model.norm.weight" := "/m/./a.safetensors"]> {["lm_head.weight" := "/m/a.safetensors"]})%string ["/m/a.safetensors"%string].

Example demo_entries_found :
  tensor_span_entries demo_checkpoint demo_parse demo_manifest =
    Some (Ok [("lm_head.weight", mkSpan "/m/a.safetensors" (mkMetadata "F8_E4M3" [2; 3] (4, 10)) 18 6);
              ("model.norm.weight", mkSpan "/m/./a.safetensors" (mkMetadata "BF16" [2] (0, 4)) 14 4)])%string.
Proof. by vm_compute. Qed.

Lemma indexed_entries_are_spans_witness :
  tensor_span_entries demo_checkpoint demo_parse demo_manifest =
    spans_by_name demo_checkpoint demo_parse demo_manifest ["lm_head.weight"; "model.norm.weight"]%string [].
Proof.
  apply (indexed_entries_are_spans demo_checkpoint demo_parse demo_index "/m" "/m/index").
  - intros p q Hpq. unfold demo_checkpoint. cbn [open_file]. by rewrite Hpq.
  - by vm_compute.
Defined.

Example demo_experts_divided :
  let span n := mkSpan "a" (mkMetadata "BF16" [2] (n, n + 4)) n 4 in
  let w e p n := mkWeightSpan "" 0 e p Weight (span n) in
  groups_of_weights [w 1 Gate 0; w 0 Gate 1; w 0 Up 2; w 1 Down 3; w 0 Down 4; w 1 Up 5] =
    Ok [mkGroup 0 0 (Unquantized (span 1)) (Unquantized (span 2)) (Unquantized (span 4));
        mkGroup 0 1 (Unquantized (span 0)) (Unquantized (span 5)) (Unquantized (span 3))].
Proof. by vm_compute. Qed.
