(* ===== verification/ModelArtifacts.v ===== *)
(** * A local model ([crates/sglang-srt/src/model_artifacts.rs], directory, configuration, coverage)

    A model is a directory with [config.json] and a checkpoint.  Here are how the
    directory is found (as given, or in the cache of the Hugging Face hub), what
    is read from the configuration, and the validation of the checkpoint against
    the tensors and routed experts a model needs.

    Outside the repository: the disk, the environment, the JSON parser, and the
    hub's client, which may change the disk by downloading. *)

From stdpp Require Import pretty sorting.
From S2P Require Import Prelude Float32 Bytes Text Safetensors SafetensorsCatalog.
#[local] Open Scope N_scope.

(** ** What a model needs *)

(** [sglang-srt/src/model_artifacts.rs:261-266] RoutedExpertCheckpointCoverage *)
Record RoutedExpertCheckpointCoverage : Type := mkCoverage {
  expected_group_count : N;
  actual_group_count : N;
  expected_weight_count : N;
  actual_weight_count : N;
}.

(** [sglang-srt/src/model_artifacts.rs:269-272] CheckpointTensorRequirement *)
Record CheckpointTensorRequirement : Type := mkRequirement {
  r_name : string;
  expected_shape : option (list N);
}.

(** [sglang-srt/src/model_artifacts.rs:275-280] CheckpointTensorRequirement::present *)
Definition requirement_present (name : string) : CheckpointTensorRequirement := mkRequirement name None.

(** [sglang-srt/src/model_artifacts.rs:282-287] CheckpointTensorRequirement::with_shape *)
Definition requirement_with_shape (name : string) (shape : list N) : CheckpointTensorRequirement := mkRequirement name (Some shape).

(** [sglang-srt/src/model_artifacts.rs:299-303] CheckpointTopology *)
Record CheckpointTopology : Type := mkTopology {
  required_tensors : list CheckpointTensorRequirement;
  routed_expert_coordinates : gset (N * N);
  routed_expert_weights_per_group : N;
}.

(** [sglang-srt/src/model_artifacts.rs:306-312] CheckpointTopology::new *)
Definition topology_new (required : list CheckpointTensorRequirement) : CheckpointTopology := mkTopology required ∅ 0.

(** [sglang-srt/src/model_artifacts.rs:314-322] CheckpointTopology::with_routed_experts *)
Definition with_routed_experts (t : CheckpointTopology) (coordinates : list (N * N)) (weights_per_group : N) : CheckpointTopology :=
  mkTopology (required_tensors t) (list_to_set coordinates) weights_per_group.

(** ** Coverage *)

(** The first element of a [BTreeSet]. *)
Definition first_coordinate (s : gset (N * N)) : option (N * N) :=
  head (merge_sort (λ a b, coordinate_le (a, tt) (b, tt)) (elements s)).

(** [sglang-srt/src/model_artifacts.rs:95-103] LocalModelArtifacts::validate_routed_expert_checkpoint_coverage_for_groups (try_fold) *)
Fixpoint count_tensors (count : N) (groups : list SafetensorsRoutedExpertWeightGroup) : option N :=
  match groups with [] => Some count | g :: groups => count ← checked_add count (group_tensor_count g); count_tensors count groups end.

(** [sglang-srt/src/model_artifacts.rs:125-145] LocalModelArtifacts::validate_routed_expert_checkpoint_coverage_for_groups (detail) *)
Definition coordinate_mismatch (expected actual : gset (N * N)) : string :=
  let missing := (λ c, "missing expected routed expert group layer " +:+ pretty c.1 +:+ " expert " +:+ pretty c.2) <$> first_coordinate (expected ∖ actual) in
  let unexpected := (λ c, "unexpected routed expert group layer " +:+ pretty c.1 +:+ " expert " +:+ pretty c.2) <$> first_coordinate (actual ∖ expected) in
  String.concat "; " (option_list missing ++ option_list unexpected).

(** [sglang-srt/src/model_artifacts.rs:78-158] LocalModelArtifacts::validate_routed_expert_checkpoint_coverage_for_groups *)
Definition validate_coverage_for_groups (model_path : string) (topology : CheckpointTopology) (groups : list SafetensorsRoutedExpertWeightGroup)
    : Result ModelArtifactError RoutedExpertCheckpointCoverage :=
  let expected_group_count := N.of_nat (size (routed_expert_coordinates topology)) in
  let? expected_weight_count := ok_or (checked_mul expected_group_count (routed_expert_weights_per_group topology))
    (invalid_safetensors_data model_path "expected routed expert weight count overflowed") in
  let actual_group_count := len groups in
  let? actual_weight_count := ok_or (count_tensors 0 groups)
    (invalid_safetensors_data model_path "actual routed expert weight count overflowed") in
  if negb (actual_group_count =? expected_group_count) then
    Err (invalid_safetensors_data model_path
      ("expected " +:+ pretty expected_group_count +:+ " routed expert groups from model config but found " +:+ pretty actual_group_count))
  else if negb (actual_weight_count =? expected_weight_count) then
    Err (invalid_safetensors_data model_path
      ("expected " +:+ pretty expected_weight_count +:+ " routed expert tensors but found " +:+ pretty actual_weight_count))
  else
    let actual_coordinates : gset (N * N) := list_to_set (coordinates <$> groups) in
    if negb (bool_decide (actual_coordinates = routed_expert_coordinates topology)) then
      Err (invalid_safetensors_data model_path
        ("routed expert checkpoint coordinate mismatch: " +:+ coordinate_mismatch (routed_expert_coordinates topology) actual_coordinates))
    else Ok (mkCoverage expected_group_count actual_group_count expected_weight_count actual_weight_count).

(** [{:?}] of a [Vec<usize>]. *)
Definition debug_list (l : list N) : string := "[" +:+ String.concat ", " (pretty <$> l) +:+ "]".

(** ** Configuration *)

(** [sglang-srt/src/model_artifacts.rs:387-392] HfModelConfig *)
Record HfModelConfig : Type := mkConfig {
  raw_document : Json;
  model_type : option string;
  architectures : list string;
  eos_token_ids : list N;
}.

(** [sglang-srt/src/model_artifacts.rs:395-402] HfModelConfig::default *)
Definition config_default : HfModelConfig := mkConfig (JObject []) None [] [].

(** [sglang-srt/src/model_artifacts.rs:1753-1755] read_string_field *)
Definition read_string_field (value : Json) (key : string) : option string := json_get key value ≫= as_str.

(** [sglang-srt/src/model_artifacts.rs:1757-1766] read_string_array_field *)
Definition read_string_array_field (value : Json) (key : string) : list string :=
  match json_get key value ≫= as_array with Some values => omap as_str values | None => [] end.

(** [sglang-srt/src/model_artifacts.rs:1828-1845] read_u32_value *)
Definition read_u32_value (key config_path : string) (value : Json) : Result ModelArtifactError N :=
  let? n := ok_or (as_u64 value) (InvalidModelConfig config_path ("field " +:+ key +:+ " must be an unsigned integer or array of unsigned integers")) in
  if n <? 2 ^ 32 then Ok n else Err (InvalidModelConfig config_path ("field " +:+ key +:+ " does not fit in u32")).

(** [sglang-srt/src/model_artifacts.rs:1807-1826] read_u32_or_array_field *)
Definition read_u32_or_array_field (value : Json) (key config_path : string) : Result ModelArtifactError (list N) :=
  match json_get key value with
  | None | Some JNull => Ok []
  | Some (JArray values) => collect (read_u32_value key config_path) values
  | Some raw => let? n := read_u32_value key config_path raw in Ok [n]
  end.

(** [sglang-srt/src/model_artifacts.rs:473-478] HfModelConfig::text_document *)
Definition text_document (value : Json) : Json :=
  match json_get "text_config" value with Some (JObject entries) => JObject entries | _ => value end.

(** [sglang-srt/src/model_artifacts.rs:452-467] HfModelConfig::from_document *)
Definition from_document (value : Json) (config_path : string) : Result ModelArtifactError HfModelConfig :=
  let? eos := read_u32_or_array_field (text_document value) "eos_token_id" config_path in
  Ok (mkConfig value (read_string_field value "model_type") (read_string_array_field value "architectures") eos).

(** [sglang-srt/src/model_artifacts.rs:406-408] HfModelConfig::from_json_value *)
Definition from_json_value (value : Json) : Result ModelArtifactError HfModelConfig := from_document value "<in-memory-config>".

(** ** Finding the directory *)

Definition text_of_bytes (bs : list N) : string := fold_right (λ b s, String (Ascii.ascii_of_N b) s) ""%string bs.

(** The encodings of the characters with Unicode's White_Space property. *)
Definition white_space : list string :=
  text_of_bytes <$> ([[9]; [10]; [11]; [12]; [13]; [32]; [0xC2; 0x85]; [0xC2; 0xA0]; [0xE1; 0x9A; 0x80]]
    ++ ((λ b, [0xE2; 0x80; b]) <$> nrange 0x80 0x8B) ++ [[0xE2; 0x80; 0xA8]; [0xE2; 0x80; 0xA9]; [0xE2; 0x80; 0xAF]; [0xE2; 0x81; 0x9F]; [0xE3; 0x80; 0x80]]).

(** Strip white space with [strip] as long as there is some; every round makes
    the text shorter, so its length is enough fuel. *)
Fixpoint strip_white (strip : string → string → option string) (fuel : nat) (s : string) : string :=
  match fuel with
  | O => s
  | S fuel => match head (omap (λ w, strip w s) white_space) with Some rest => strip_white strip fuel rest | None => s end
  end.
(** [str::trim] *)
Definition trim (s : string) : string :=
  strip_white strip_suffix (String.length s) (strip_white strip_prefix (String.length s) s).

Definition contains_byte (b : N) (s : string) : bool := bool_decide (b ∈ text_bytes s).

Section Artifacts.
Context (env : string → option string).
Context (parse_json : list N → Result string Json) (parse_json_str : string → Result string Json).
(** The hub's client: building it for a cache directory and an endpoint, and
    fetching a file of a model. *)
Context {Api : Type} (hub_build : option string → option string → Result string Api)
  (hub_get : Api → string → string → Disk → Result string string * Disk).

(** [sglang-srt/src/model_artifacts.rs:245-258] default_hf_hub_cache *)
Definition default_hf_hub_cache : option string :=
  match env "HUGGINGFACE_HUB_CACHE" with
  | Some path => Some path
  | None =>
      match env "HF_HOME" with
      | Some path => Some (path_join path "hub")
      | None => (λ home, path_join (path_join (path_join home ".cache") "huggingface") "hub") <$> env "HOME"
      end
  end.

(** [sglang-srt/src/model_artifacts.rs:214-243] resolve_model_path_from_hf_cache_with_required_file *)
Definition resolve_from_hf_cache_with_required_file (disk : Disk) (model_id hub_cache required_file : string) : option string :=
  if starts_with "-" model_id || starts_with "/" model_id || contains_byte 92 model_id then None
  else
    let repo_cache := path_join hub_cache ("models--" +:+ String.concat "--" (split_on 47 model_id)) in
    let refs_main := path_join (path_join repo_cache "refs") "main" in
    let snapshots := path_join repo_cache "snapshots" in
    let has_file := λ p, is_file disk (path_join p required_file) in
    let from_refs :=
      match read_to_string disk refs_main with
      | Ok commit => let snapshot := path_join snapshots (trim commit) in if has_file snapshot then Some snapshot else None
      | Err _ => None
      end in
    match from_refs with
    | Some snapshot => Some snapshot
    | None =>
        match read_dir disk snapshots with
        | Err _ => None
        | Ok entries =>
            let candidates := filter (λ p, has_file p = true)
              (omap (λ e, match e with Ok name => Some (path_join snapshots name) | Err _ => None end) entries) in
            last (merge_sort path_le candidates)
        end
    end.

(** [sglang-srt/src/model_artifacts.rs:207-212] resolve_model_path_from_hf_cache *)
Definition resolve_from_hf_cache (disk : Disk) (model_id hub_cache : string) : option string :=
  resolve_from_hf_cache_with_required_file disk model_id hub_cache "config.json".

(** [sglang-srt/src/model_artifacts.rs:194-205] resolve_model_path *)
Definition resolve_model_path (disk : Disk) (path : string) : string :=
  if is_dir disk path then path
  else default path (hub ← default_hf_hub_cache; resolve_from_hf_cache disk path hub).

(** [sglang-srt/src/model_artifacts.rs:1768-1775] looks_like_hf_model_id *)
Definition looks_like_hf_model_id (model_id : string) : bool :=
  contains_byte 47 model_id && negb (starts_with "/" model_id) && negb (starts_with "-" model_id) && negb (contains_byte 92 model_id).

(** [sglang-srt/src/model_artifacts.rs:1777-1805] download_hf_model_config *)
Definition download_hf_model_config (disk : Disk) (model_id : string) : Result ModelArtifactError string * Disk :=
  let config_path := path_join model_id "config.json" in
  match hub_build (env "HUGGINGFACE_HUB_CACHE") (env "HF_ENDPOINT") with
  | Err error => (Err (ReadModelConfig config_path ("failed to initialize Hugging Face Hub client: " +:+ error)), disk)
  | Ok api =>
      match hub_get api model_id "config.json" disk with
      | (Ok path, disk) => (Ok path, disk)
      | (Err error, disk) => (Err (ReadModelConfig config_path ("failed to fetch Hugging Face config.json: " +:+ error)), disk)
      end
  end.

(** [sglang-srt/src/model_artifacts.rs:436-450] HfModelConfig::from_resolved_config_path *)
Definition config_from_path (disk : Disk) (config_path : string) : Result ModelArtifactError HfModelConfig :=
  let? raw := result_map_err (ReadModelConfig config_path) (read_to_string disk config_path) in
  let? value := result_map_err (InvalidModelConfig config_path) (parse_json_str raw) in
  from_document value config_path.

(** [sglang-srt/src/model_artifacts.rs:432-434] HfModelConfig::from_resolved_model_path *)
Definition config_from_resolved (disk : Disk) (path : string) : Result ModelArtifactError HfModelConfig :=
  config_from_path disk (path_join path "config.json").

(** [sglang-srt/src/model_artifacts.rs:410-421] HfModelConfig::from_model_path *)
Definition config_from_model_path (disk : Disk) (path : string) : Result ModelArtifactError HfModelConfig * Disk :=
  match config_from_resolved disk (resolve_model_path disk path) with
  | Ok config => (Ok config, disk)
  | Err error =>
      if looks_like_hf_model_id path then
        let! config_path, disk := download_hf_model_config disk path in (config_from_path disk config_path, disk)
      else (Err error, disk)
  end.

(** [sglang-srt/src/model_artifacts.rs:423-430] HfModelConfig::from_model_path_with_hf_cache *)
Definition config_from_hf_cache (disk : Disk) (path hub_cache : string) : Result ModelArtifactError HfModelConfig :=
  config_from_resolved disk (default path (resolve_from_hf_cache disk path hub_cache)).

(** ** The artifacts *)

(** [sglang-srt/src/model_artifacts.rs:10-14] LocalModelArtifacts *)
Record LocalModelArtifacts : Type := mkArtifacts {
  model_path : string;
  config : HfModelConfig;
  safetensors : SafetensorsManifest;
}.

(** [sglang-srt/src/model_artifacts.rs:31-46] LocalModelArtifacts::from_resolved_model_path *)
Definition artifacts_from_resolved (disk : Disk) (p : string) : Result ModelArtifactError LocalModelArtifacts * Disk :=
  if negb (is_dir disk p) then (Err (ModelPathNotLocalDirectory p), disk)
  else
    let! config, disk := config_from_model_path disk p in
    (let? safetensors := manifest_from_model_path disk parse_json_str p in Ok (mkArtifacts p config safetensors), disk).

(** [sglang-srt/src/model_artifacts.rs:17-20] LocalModelArtifacts::from_model_path *)
Definition artifacts_from_model_path (disk : Disk) (path : string) : Result ModelArtifactError LocalModelArtifacts * Disk :=
  artifacts_from_resolved disk (resolve_model_path disk path).

(** [sglang-srt/src/model_artifacts.rs:22-29] LocalModelArtifacts::from_model_path_with_hf_cache *)
Definition artifacts_from_hf_cache (disk : Disk) (path hub_cache : string) : Result ModelArtifactError LocalModelArtifacts * Disk :=
  artifacts_from_resolved disk (default path (resolve_from_hf_cache disk path hub_cache)).

(** [sglang-srt/src/model_artifacts.rs:60-66] LocalModelArtifacts::validate_routed_expert_checkpoint_coverage *)
Definition validate_coverage (disk : Disk) (a : LocalModelArtifacts) (topology : CheckpointTopology)
    : option (Result ModelArtifactError RoutedExpertCheckpointCoverage) :=
  let^ groups := routed_expert_weight_groups disk parse_json (safetensors a) in
  Some (validate_coverage_for_groups (model_path a) topology groups).

(** [sglang-srt/src/model_artifacts.rs:164-186] LocalModelArtifacts::validate_checkpoint_topology (loop) *)
Fixpoint validate_tensors (disk : Disk) (a : LocalModelArtifacts) (tensors : list CheckpointTensorRequirement) : option (Result ModelArtifactError unit) :=
  match tensors with
  | [] => Some (Ok tt)
  | tensor :: tensors =>
      let^ found := manifest_tensor_metadata disk parse_json (safetensors a) (r_name tensor) in
      let^ m := Some (ok_or found (invalid_safetensors_data (model_path a) ("missing checkpoint tensor " +:+ r_name tensor))) in
      match expected_shape tensor with
      | Some expected =>
          if bool_decide (shape m = expected) then validate_tensors disk a tensors
          else Some (Err (invalid_safetensors_data (model_path a)
            ("checkpoint tensor " +:+ r_name tensor +:+ " shape " +:+ debug_list (shape m) +:+ " does not match expected " +:+ debug_list expected)))
      | None => validate_tensors disk a tensors
      end
  end.

(** [sglang-srt/src/model_artifacts.rs:160-191] LocalModelArtifacts::validate_checkpoint_topology *)
Definition validate_checkpoint_topology (disk : Disk) (a : LocalModelArtifacts) (topology : CheckpointTopology) : option (Result ModelArtifactError unit) :=
  let^ checked := validate_tensors disk a (required_tensors topology) in
  let^ coverage := validate_coverage disk a topology in
  Some (Ok tt).

(** [sglang-srt/src/model_artifacts.rs:338-344] LocalModelCheckpointCatalog *)
Record LocalModelCheckpointCatalog : Type := mkCatalog {
  c_model_path : string;
  c_safetensors : SafetensorsManifest;
  c_layer_tensors : SafetensorsLayerTensorCatalog;
  c_quantized_linears : SafetensorsQuantizedLinearWeightCatalog;
  c_routed_experts : SafetensorsRoutedExpertWeightCatalog;
}.

(** [sglang-srt/src/model_artifacts.rs:347-363] LocalModelCheckpointCatalog::from_local_model_artifacts *)
Definition checkpoint_catalog (disk : Disk) (a : LocalModelArtifacts) : option (Result ModelArtifactError LocalModelCheckpointCatalog) :=
  let^ layer_tensors := layer_tensor_catalog disk parse_json (safetensors a) in
  let^ quantized_linears := quantized_linear_catalog disk parse_json (safetensors a) in
  let^ routed_experts := routed_expert_weight_catalog disk parse_json (safetensors a) in
  Some (Ok (mkCatalog (model_path a) (safetensors a) layer_tensors quantized_linears routed_experts)).

End Artifacts.

(** ** Coverage, proved *)

Definition tensor_total (groups : list SafetensorsRoutedExpertWeightGroup) : N := foldr (λ g n, group_tensor_count g + n) 0 groups.

Lemma count_tensors_total groups : ∀ count total, count_tensors count groups = Some total → total = count + tensor_total groups.
Proof.
  induction groups as [|g groups IH]; intros count total; cbn [count_tensors tensor_total foldr]; [intros [= <-]; lia|].
  intros (n&Hn%checked_add_Some&Ht)%bind_Some. apply IH in Ht. unfold tensor_total in Ht. lia.
Qed.

Lemma projection_tensor_count_range w : projection_tensor_count w = 1 ∨ projection_tensor_count w = 3.
Proof. destruct w; [by left|by right]. Qed.

Lemma group_tensor_count_range g : 3 ≤ group_tensor_count g ≤ 9.
Proof.
  unfold group_tensor_count. destruct (projection_tensor_count_range (g_gate g)), (projection_tensor_count_range (g_up g)),
    (projection_tensor_count_range (g_down g)); lia.
Qed.

Lemma tensor_total_extreme (n : N) groups :
  tensor_total groups = len groups * n → n = 3 ∨ n = 9 → Forall (λ g, group_tensor_count g = n) groups.
Proof.
  intros Ht Hn. assert (∀ l, len l * 3 ≤ tensor_total l ≤ len l * 9) as Hrange.
  { induction l as [|g l IH]; [by vm_compute|]. cbn [tensor_total foldr]. fold (tensor_total l). rewrite len_cons.
    pose proof (group_tensor_count_range g). lia. }
  induction groups as [|g groups IH]; constructor; cbn [tensor_total foldr] in Ht; fold (tensor_total groups) in Ht; rewrite len_cons in Ht;
    pose proof (group_tensor_count_range g); specialize (Hrange groups); [|apply IH]; destruct Hn as [-> | ->]; lia.
Qed.

Definition all_unquantized (g : SafetensorsRoutedExpertWeightGroup) : Prop := ∀ p, ∃ w, group_projection g p = Unquantized w.
Definition all_compressed (g : SafetensorsRoutedExpertWeightGroup) : Prop := ∀ p, ∃ a b c, group_projection g p = CompressedTensorsInt4 a b c.

Lemma three_unquantized g : group_tensor_count g = 3 → all_unquantized g.
Proof. destruct g as [l e [] [] []]; cbn; try done. intros _ []; cbn; eauto. Qed.

Lemma nine_compressed g : group_tensor_count g = 9 → all_compressed g.
Proof. destruct g as [l e [] [] []]; cbn; try done. intros _ []; cbn; eauto 6. Qed.

Lemma coverage_Ok model_path topology groups c :
  validate_coverage_for_groups model_path topology groups = Ok c →
  len groups = N.of_nat (size (routed_expert_coordinates topology)) ∧
  tensor_total groups = len groups * routed_expert_weights_per_group topology ∧
  list_to_set (coordinates <$> groups) = routed_expert_coordinates topology ∧
  c = mkCoverage (len groups) (len groups) (tensor_total groups) (tensor_total groups).
Proof.
  unfold validate_coverage_for_groups. intros Hv. decompose_result.
  destruct (negb (len groups =? _)) eqn:Hn; [done|]. reflect_N. destruct (negb (_ =? _)) eqn:Hw; [done|]. reflect_N.
  destruct (negb (bool_decide _)) eqn:Hc; [done|]. reflect_N. apply bool_decide_eq_true in Hc.
  match goal with H : count_tensors 0 groups = Some _ |- _ => apply count_tensors_total in H end. decompose_result.
  split; [done|]. split; [lia|]. split; [done|]. subst. f_equal; lia.
Qed.

(** A directory found in the hub's cache is a snapshot of the model that has the
    required file. *)
Lemma hf_snapshot_has_file disk model_id hub_cache required_file p :
  resolve_from_hf_cache_with_required_file disk model_id hub_cache required_file = Some p →
  is_file disk (path_join p required_file) = true ∧
  ∃ name, p = path_join (path_join (path_join hub_cache ("models--" +:+ String.concat "--" (split_on 47 model_id))) "snapshots") name.
Proof.
  unfold resolve_from_hf_cache_with_required_file. destruct (_ || _)%bool; [done|]. cbv zeta.
  set (snapshots := path_join _ "snapshots"). destruct (read_to_string disk _) as [commit|].
  - destruct (is_file disk (path_join (path_join snapshots (trim commit)) required_file)) eqn:Hf; [intros [= <-]; split; [done|by eexists]|].
    destruct (read_dir disk snapshots) as [es|]; [|done]. intros Hl%last_Some_elem_of. rewrite merge_sort_Permutation in Hl.
    apply list_elem_of_filter in Hl as [Hl Hin]. split; [done|]. apply list_elem_of_omap in Hin as ([name|]&_&[= <-]). by exists name.
  - destruct (read_dir disk snapshots) as [es|]; [|done]. intros Hl%last_Some_elem_of. rewrite merge_sort_Permutation in Hl.
    apply list_elem_of_filter in Hl as [Hl Hin]. split; [done|]. apply list_elem_of_omap in Hin as ([name|]&_&[= <-]). by exists name.
Qed.

Lemma len_group_weights g : len (group_weights g) = group_tensor_count g.
Proof. by destruct g as [l e [] [] []]. Qed.

Lemma divided_total ws gs : divides ws gs → tensor_total gs = len ws.
Proof.
  intros [_ Hperm]. apply Permutation_length in Hperm. rewrite length_fmap in Hperm. unfold len. rewrite <-Hperm. clear Hperm.
  induction gs as [|g gs IH]; [done|]. cbn [tensor_total foldr mbind list_bind]. fold (tensor_total gs).
  rewrite length_app, <-len_group_weights, IH. unfold len. cbn [mbind list_bind]. lia.
Qed.

(** C25. A checkpoint that passes the coverage check holds, for exactly the layers and
    experts the model routes to and for each once, a complete group; together
    the groups are all expert tensors of the checkpoint, as many as expected.
    With three tensors a group every projection is plain, with nine every
    projection is compressed. *)
Theorem validated_coverage_complete disk parse_json a topology c :
  validate_coverage parse_json disk a topology = Some (Ok c) →
  ∃ ws gs, routed_expert_weight_spans disk parse_json (safetensors a) = Some (Ok ws) ∧ divides ws gs ∧
    list_to_set (coordinates <$> gs) = routed_expert_coordinates topology ∧
    len gs = N.of_nat (size (routed_expert_coordinates topology)) ∧
    len ws = len gs * routed_expert_weights_per_group topology ∧
    (routed_expert_weights_per_group topology = 3 → Forall all_unquantized gs) ∧
    (routed_expert_weights_per_group topology = 9 → Forall all_compressed gs) ∧
    c = mkCoverage (len gs) (len gs) (len ws) (len ws).
Proof.
  unfold validate_coverage, routed_expert_weight_groups. intros Hv. decompose_result.
  match goal with H : routed_expert_weight_spans _ _ _ = Some (Ok ?x) |- _ => rename H into Hws; rename x into ws end.
  match goal with H : Some _ = Some (Ok ?x), H' : Some _ = Some (Ok c) |- _ => injection H as Hgs; injection H' as Hc; rename x into gs end.
  apply gathered_divides in Hgs. apply coverage_Ok in Hc as (Hlen&Htotal&Hset&->). rewrite (divided_total _ _ Hgs) in *.
  exists ws, gs. do 5 (split; [done|]). rewrite <-(divided_total _ _ Hgs) in Htotal. split; [|split; [|done]].
  - intros Hp. rewrite Hp in Htotal. apply tensor_total_extreme in Htotal; [|by left]. eapply Forall_impl; [exact Htotal|]. apply three_unquantized.
  - intros Hp. rewrite Hp in Htotal. apply tensor_total_extreme in Htotal; [|by right]. eapply Forall_impl; [exact Htotal|]. apply nine_compressed.
Qed.

(** ** Witness: one expert in a shard of three tensors *)

Definition expert_tensor (projection : string) : Tensor :=
  mkTensor ("model.layers.0.mlp.experts.0." +:+ projection +:+ ".weight") "U8" [1] [7].
Definition expert_tensors : list Tensor := expert_tensor <$> ["gate_proj"; "up_proj"; "down_proj"]%string.
Definition expert_disk : Disk :=
  mkDisk (λ _, Ok (shard_file demo_header expert_tensors)) (λ _, Err "no such file"%string) (λ _, true) (λ _, true)
    (λ _, Ok [Ok "a.safetensors"%string]) "invalid argument" "failed to fill whole buffer".
Definition expert_parse (_ : list N) : Result string Json := Ok (JObject (entry_json <$> layout 0 expert_tensors)).
Definition expert_artifacts : LocalModelArtifacts :=
  mkArtifacts "/m" config_default (mkManifest "/m/model.safetensors.index.json" [] ∅ ["/m/a.safetensors"%string]).
Definition expert_topology : CheckpointTopology := with_routed_experts (topology_new []) [(0, 0)] 3.

Lemma validated_coverage_complete_witness :
  ∃ ws gs, routed_expert_weight_spans expert_disk expert_parse (safetensors expert_artifacts) = Some (Ok ws) ∧ divides ws gs ∧
    list_to_set (coordinates <$> gs) = routed_expert_coordinates expert_topology ∧
    len gs = N.of_nat (size (routed_expert_coordinates expert_topology)) ∧
    len ws = len gs * routed_expert_weights_per_group expert_topology ∧
    (routed_expert_weights_per_group expert_topology = 3 → Forall all_unquantized gs) ∧
    (routed_expert_weights_per_group expert_topology = 9 → Forall all_compressed gs) ∧
    mkCoverage 1 1 3 3 = mkCoverage (len gs) (len gs) (len ws) (len ws).
Proof. apply (validated_coverage_complete expert_disk expert_parse expert_artifacts expert_topology). by vm_compute. Defined.
