(* ===== verification/TensorSlice.v ===== *)
(** * Reading a slice of a tensor ([crates/sglang-srt/src/distributed/tensor_partition.rs])

    A rank of a tensor-parallel group reads only its part of a tensor: the range
    of one axis its partition gives it, one read per index of the axes before.
    The disk and the spans are those of [Safetensors], the partitions those of
    [Topology.Tp]. *)

From stdpp Require Import pretty.
From S2P Require Import Prelude Float32 Bytes Text Topology Safetensors.
#[local] Open Scope N_scope.

Import Tp.

(** [distributed/parallel.rs:317-357] TensorPartitionError::fmt *)
Definition TensorPartitionError_to_string (e : TensorPartitionError) : string :=
  match e with
  | ZeroPartitionCount => "partition count must be positive"
  | InvalidPartitionIndex partition_index partition_count =>
      "partition index " +:+ pretty partition_index +:+ " must be smaller than partition count " +:+ pretty partition_count
  | ShardCountExceedsWorldSize shard_count world_size =>
      "replicated shard count " +:+ pretty shard_count +:+ " exceeds tensor parallel world size " +:+ pretty world_size
  | WorldSizeNotDivisibleByShardCount world_size shard_count =>
      "tensor parallel world size " +:+ pretty world_size +:+ " must be divisible by replicated shard count " +:+ pretty shard_count
  | ExtentNotDivisible extent partition_count =>
      "tensor extent " +:+ pretty extent +:+ " must be divisible by partition count " +:+ pretty partition_count
  | PartitionRangeOverflow extent partition_count partition_index =>
      "partition range overflowed for extent " +:+ pretty extent +:+ ", partition count " +:+ pretty partition_count
        +:+ ", and partition index " +:+ pretty partition_index
  end.

(** [distributed/tensor_partition.rs:144-149] invalid_partition *)
Definition invalid_partition (span : SafetensorsTensorSpan) (message : string) : ModelArtifactError :=
  InvalidSafetensorsData (path span) ("invalid tensor partition: " +:+ message).

(** [distributed/tensor_partition.rs:133-142] checked_shape_product *)
Definition checked_shape_product (span : SafetensorsTensorSpan) (dimensions : list N) : Result ModelArtifactError N :=
  ok_or (checked_product 1 dimensions) (invalid_partition span "tensor shape product overflowed").

(** What the loop over the outer axes needs to know. *)
Record SlicePlan : Type := mkSlicePlan {
  range_start : N;
  source_outer_stride : N;
  inner_count : N;
  element_width : N;
  selected_outer_bytes : N;
}.

Section Slice.
Context (disk : Disk).

(** One round: where to read and where to put it; [None] is the panic of a slice
    out of range. *)
(** [distributed/tensor_partition.rs:75-118] read_tensor_axis_partition (loop body) *)
Definition read_outer (span : SafetensorsTensorSpan) (file : list N) (plan : SlicePlan) (outer_index : N) (bytes : list N)
    : option (Result ModelArtifactError (list N)) :=
  let^ source_element_offset := Some (ok_or
    (offset ← checked_mul outer_index (source_outer_stride plan);
     start ← checked_mul (range_start plan) (inner_count plan);
     checked_add offset start) (invalid_partition span "partition source offset overflowed")) in
  let^ source_byte_offset := Some (ok_or (checked_mul source_element_offset (element_width plan))
    (invalid_partition span "partition source byte offset overflowed")) in
  let^ absolute_byte_offset := Some (ok_or (checked_add (absolute_byte_offset span) source_byte_offset)
    (invalid_partition span "partition absolute offset overflowed")) in
  let^ offset := Some (seek disk (path span) absolute_byte_offset) in
  let^ target_start := Some (ok_or (checked_mul outer_index (selected_outer_bytes plan))
    (invalid_partition span "partition target offset overflowed")) in
  let^ target_end := Some (ok_or (checked_add target_start (selected_outer_bytes plan))
    (invalid_partition span "partition target end overflowed")) in
  if len bytes <? target_end then None
  else
    let^ chunk := Some (read_exact disk (path span) file offset (selected_outer_bytes plan)) in
    Some (Ok (slice_to target_start bytes ++ chunk ++ slice_from target_end bytes)).

(** [distributed/tensor_partition.rs:74-119] read_tensor_axis_partition (loop) *)
Fixpoint read_outers (span : SafetensorsTensorSpan) (file : list N) (plan : SlicePlan) (outers : list N) (bytes : list N)
    : option (Result ModelArtifactError (list N)) :=
  match outers with
  | [] => Some (Ok bytes)
  | outer_index :: outers =>
      let^ bytes := read_outer span file plan outer_index bytes in
      read_outers span file plan outers bytes
  end.

(** [distributed/tensor_partition.rs:9-131] read_tensor_axis_partition *)
Definition read_tensor_axis_partition (span : SafetensorsTensorSpan) (axis : N) (partition : TensorPartition)
    : option (Result ModelArtifactError SafetensorsTensorData) :=
  let dims := shape (metadata span) in
  let^ axis_extent := Some (ok_or (dims !! N.to_nat axis)
    (invalid_partition span ("tensor rank " +:+ pretty (len dims) +:+ " has no axis " +:+ pretty axis))) in
  let^ selected := Some (result_map_err (λ e, invalid_partition span (TensorPartitionError_to_string e)) (range partition axis_extent)) in
  let^ width := Some (ok_or (dtype_byte_width (metadata span))
    (invalid_partition span ("tensor dtype " +:+ dtype (metadata span) +:+ " has no fixed byte width"))) in
  let^ count := Some (ok_or (element_count (metadata span)) (invalid_partition span "tensor element count overflowed")) in
  let^ expected_byte_len := Some (ok_or (checked_mul count width) (invalid_partition span "tensor byte length overflowed")) in
  if negb (expected_byte_len =? byte_len span) then
    Some (Err (invalid_partition span
      ("tensor metadata describes " +:+ pretty expected_byte_len +:+ " bytes but span contains " +:+ pretty (byte_len span))))
  else
    let^ outer_count := Some (checked_shape_product span (slice_to axis dims)) in
    let^ inner_count := Some (checked_shape_product span (slice_from (axis + 1) dims)) in
    let^ source_outer_stride := Some (ok_or (checked_mul axis_extent inner_count) (invalid_partition span "source tensor stride overflowed")) in
    let selected_axis_len := selected.2 - selected.1 in
    let^ selected_outer_elements := Some (ok_or (checked_mul selected_axis_len inner_count) (invalid_partition span "partition stride overflowed")) in
    let^ selected_outer_bytes := Some (ok_or (checked_mul selected_outer_elements width) (invalid_partition span "partition byte stride overflowed")) in
    let^ selected_byte_len := Some (ok_or (checked_mul outer_count selected_outer_bytes) (invalid_partition span "partition byte length overflowed")) in
    if isize_MAX <? selected_byte_len then None
    else
      let^ file := Some (open_shard disk (path span)) in
      let plan := mkSlicePlan selected.1 source_outer_stride inner_count width selected_outer_bytes in
      let^ bytes := read_outers span file plan (nrange 0 outer_count) (repeat 0 (N.to_nat selected_byte_len)) in
      Some (Ok (mkData (mkMetadata (dtype (metadata span)) (<[N.to_nat axis := selected_axis_len]> dims) (0, len bytes)) bytes)).

End Slice.

(** ** Products of shapes *)

Definition product (l : list N) : N := foldr N.mul 1 l.

Lemma product_app l k : product (l ++ k) = product l * product k.
Proof. unfold product. induction l as [|x l IH]; cbn [app foldr]; [by rewrite N.mul_1_l|]. by rewrite IH, N.mul_assoc. Qed.

Lemma product_pos l : Forall (λ x, 0 < x) l → 0 < product l.
Proof. unfold product. induction 1; cbn [foldr]; [lia|]. by apply N.mul_pos_pos. Qed.

Lemma checked_product_inv l : ∀ acc n, checked_product acc l = Some n → n = acc * product l.
Proof.
  unfold product. induction l as [|x l IH]; intros acc n; cbn [checked_product foldr]; [intros [= <-]; lia|].
  intros (m&(->&_)%checked_mul_Some&Hn)%bind_Some. apply IH in Hn. by rewrite Hn, N.mul_assoc.
Qed.

Lemma checked_product_ok l : Forall (λ x, 0 < x) l → ∀ acc, acc * product l ≤ usize_MAX → checked_product acc l = Some (acc * product l).
Proof.
  induction 1 as [|x l Hx Hl IH]; intros acc Hle; cbn [checked_product]; [by rewrite N.mul_1_r|].
  change (product (x :: l)) with (x * product l) in *. apply product_pos in Hl. rewrite N.mul_assoc in *.
  rewrite (proj2 (checked_mul_Some acc x (acc * x))); [by apply IH|]. split; [done|].
  transitivity (acc * x * product l); [|done]. rewrite <-(N.mul_1_r (acc * x)) at 1. apply N.mul_le_mono_l. lia.
Qed.

(** ** Splices *)

Lemma lookup_slice {A} n x i (l : list A) : i < n → slice_to n (slice_from x l) !! N.to_nat i = l !! N.to_nat (x + i).
Proof. intros Hi. unfold slice_to, slice_from. rewrite lookup_take_lt by lia. rewrite lookup_drop. f_equal. lia. Qed.

Lemma splice_same {A} o n (bytes chunk : list A) :
  len chunk = n → o * n + n ≤ len bytes →
  slice_to n (slice_from (o * n) (slice_to (o * n) bytes ++ chunk ++ slice_from (o * n + n) bytes)) = chunk.
Proof.
  intros Hc Hle. unfold slice_from at 1. rewrite drop_app_length'.
  - unfold slice_to. rewrite take_app_length'; [done|]. unfold len in Hc. lia.
  - pose proof (len_slice_to (o * n) bytes) as Hs. unfold len in *. lia.
Qed.

Lemma splice_len {A} a n (bytes chunk : list A) :
  len chunk = n → a + n ≤ len bytes → len (slice_to a bytes ++ chunk ++ slice_from (a + n) bytes) = len bytes.
Proof. intros Hc Hle. len_lia. Qed.

Lemma splice_other {A} o o' n (bytes chunk : list A) :
  o ≠ o' → len chunk = n → o * n + n ≤ len bytes →
  slice_to n (slice_from (o' * n) (slice_to (o * n) bytes ++ chunk ++ slice_from (o * n + n) bytes)) = slice_to n (slice_from (o' * n) bytes).
Proof.
  intros Hne Hc Hle. apply list_eq. intros i. destruct (decide (N.of_nat i < n)) as [Hi|Hi].
  2:{ rewrite !lookup_ge_None_2; [done|pose proof (len_slice_to n (slice_from (o' * n) bytes)) as Hs; unfold len in Hs; lia|].
      match goal with |- context [slice_to n ?l] => pose proof (len_slice_to n l) as Hs; unfold len in Hs; lia end. }
  replace i with (N.to_nat (N.of_nat i)) by lia. rewrite !lookup_slice by done.
  pose proof (len_slice_to (o * n) bytes) as Hs. replace (N.min (o * n) (len bytes)) with (o * n) in Hs by lia. unfold len in Hs, Hc, Hle.
  destruct (N.lt_ge_cases o' o) as [Hlt|Hge].
  - assert ((o' + 1) * n ≤ o * n) by (apply N.mul_le_mono_r; lia).
    rewrite lookup_app_l by lia. unfold slice_to. by rewrite lookup_take_lt by lia.
  - assert ((o + 1) * n ≤ o' * n) by (apply N.mul_le_mono_r; lia).
    rewrite lookup_app_r by lia. rewrite lookup_app_r by lia. unfold slice_from. rewrite lookup_drop. f_equal. lia.
Qed.

(** ** The loop *)

Section Loop.
Context (disk : Disk) (span : SafetensorsTensorSpan) (file : list N) (plan : SlicePlan) (outer_count : N).

Let n := selected_outer_bytes plan.
Definition source_offset (o : N) : N :=
  absolute_byte_offset span + (o * source_outer_stride plan + range_start plan * inner_count plan) * element_width plan.
Definition source_chunk (o : N) : list N := slice_to n (slice_from (source_offset o) file).

Context (Hmax : len file ≤ isize_MAX) (Htarget : outer_count * n ≤ isize_MAX) (Hwidth : 0 < element_width plan).
Context (Hsource : ∀ o, o < outer_count → source_offset o + n ≤ len file).

Lemma read_outer_ok o bytes : o < outer_count → len bytes = outer_count * n →
  read_outer disk span file plan o bytes = Some (Ok (slice_to (o * n) bytes ++ source_chunk o ++ slice_from (o * n + n) bytes)).
Proof using Hmax Htarget Hwidth Hsource.
  intros Ho Hlen. pose proof (Hsource o Ho) as Hs. assert (o * n + n ≤ outer_count * n) as Ht.
  { transitivity ((o + 1) * n); [lia|]. apply N.mul_le_mono_r. lia. }
  unfold read_outer, source_chunk. unfold source_offset in *. unfold isize_MAX in *.
  set (a := o * source_outer_stride plan) in *. set (b := range_start plan * inner_count plan) in *.
  assert (a + b ≤ (a + b) * element_width plan) as Hab.
  { rewrite <-(N.mul_1_r (a + b)) at 1. apply N.mul_le_mono_l. lia. }
  assert ((a + b) * element_width plan ≤ 2 ^ 63 ∧ absolute_byte_offset span + (a + b) * element_width plan ≤ 2 ^ 63) as [Hc Hd] by (split; lia).
  rewrite (proj2 (checked_mul_Some o (source_outer_stride plan) a)) by (split; [done|unfold usize_MAX; fold a; lia]).
  rewrite (proj2 (checked_mul_Some (range_start plan) (inner_count plan) b)) by (split; [done|unfold usize_MAX; fold b; lia]). cbn [mbind option_bind].
  rewrite (proj2 (checked_add_Some a b (a + b))) by (unfold usize_MAX in *; lia). cbn [ok_or result_bind_opt].
  rewrite (proj2 (checked_mul_Some (a + b) (element_width plan) ((a + b) * element_width plan))) by (unfold usize_MAX; lia). cbn [ok_or result_bind_opt].
  rewrite (proj2 (checked_add_Some (absolute_byte_offset span) ((a + b) * element_width plan) (absolute_byte_offset span + (a + b) * element_width plan))) by (unfold usize_MAX; lia).
  cbn [ok_or result_bind_opt]. unfold seek, isize_MAX.
  destruct (N.leb_spec (absolute_byte_offset span + (a + b) * element_width plan) (2 ^ 63 - 1)); [|lia]. cbn [result_bind_opt].
  fold n. rewrite (proj2 (checked_mul_Some o n (o * n))) by (unfold usize_MAX; lia). cbn [ok_or result_bind_opt].
  rewrite (proj2 (checked_add_Some (o * n) n (o * n + n))) by (unfold usize_MAX; lia). cbn [ok_or result_bind_opt].
  destruct (N.ltb_spec (len bytes) (o * n + n)); [lia|]. by rewrite read_exact_within by lia.
Qed.

Lemma source_chunk_len o : o < outer_count → len (source_chunk o) = n.
Proof using Hmax Htarget Hwidth Hsource. intros Ho. pose proof (Hsource o Ho). unfold source_chunk. len_lia. Qed.

Lemma read_outers_ok outers : ∀ bytes, Forall (λ o, o < outer_count) outers → len bytes = outer_count * n →
  ∃ bytes', read_outers disk span file plan outers bytes = Some (Ok bytes') ∧ len bytes' = outer_count * n ∧
    (∀ o, o < outer_count → o ∈ outers → slice_to n (slice_from (o * n) bytes') = source_chunk o) ∧
    (∀ o, o < outer_count → o ∉ outers → slice_to n (slice_from (o * n) bytes') = slice_to n (slice_from (o * n) bytes)).
Proof using Hmax Htarget Hwidth Hsource.
  induction outers as [|x outers IH]; intros bytes Hall Hlen; cbn [read_outers].
  - exists bytes. split; [done|]. split; [done|]. split; [by intros o _ ?%not_elem_of_nil|done].
  - apply Forall_cons in Hall as [Hx Hall]. assert (x * n + n ≤ len bytes) as Hfit.
    { rewrite Hlen. transitivity ((x + 1) * n); [lia|]. apply N.mul_le_mono_r. lia. }
    rewrite read_outer_ok by done. cbn [result_bind_opt].
    set (next := slice_to (x * n) bytes ++ _).
    assert (len next = outer_count * n) as Hnext by (unfold next; rewrite splice_len; [done|by apply source_chunk_len|done]).
    destruct (IH next Hall Hnext) as (bytes'&Hrun&Hlen'&Hin&Hout). exists bytes'. split; [done|]. split; [done|]. split.
    + intros o Ho Hmem. destruct (decide (o ∈ outers)) as [|Hno]; [by apply Hin|]. apply elem_of_cons in Hmem as [->|]; [|done].
      rewrite Hout by done. apply splice_same; [by apply source_chunk_len|done].
    + intros o Ho Hno. apply not_elem_of_cons in Hno as [Hne Hno]. rewrite Hout by done.
      apply splice_other; [done|by apply source_chunk_len|done].
Qed.

End Loop.

(** ** The slice *)

Lemma div_rows P extent k index o :
  (index + 1) * k ≤ extent → o < P → (o * extent + index * k) + k ≤ P * extent.
Proof.
  intros Hk Ho. transitivity ((o + 1) * extent); [lia|]. apply N.mul_le_mono_r. lia.
Qed.

Lemma range_whole p k :
  partition_index p < partition_count p → k * partition_count p ≤ usize_MAX →
  range p (k * partition_count p) = Ok (partition_index p * k, partition_index p * k + k).
Proof.
  intros Hi Hk. assert ((partition_index p + 1) * k ≤ k * partition_count p) as Hle.
  { rewrite (N.mul_comm k). apply N.mul_le_mono_r. lia. }
  unfold range. assert (is_multiple_of (k * partition_count p) (partition_count p) = true) as ->.
  { apply is_multiple_of_spec; [lia|]. by rewrite N.div_mul by lia. }
  cbn [negb]. rewrite N.div_mul by lia.
  rewrite (proj2 (checked_mul_Some (partition_index p) k _)) by (split; [done|lia]). cbn [ok_or result_bind].
  by rewrite (proj2 (checked_add_Some (partition_index p * k) k _)) by (split; [done|lia]).
Qed.

Lemma shape_facts (dims pre post : list N) (extent : N) :
  dims = pre ++ extent :: post → Forall (λ x, 0 < x) dims →
  0 < product pre ∧ 0 < extent ∧ 0 < product post ∧ product dims = product pre * extent * product post ∧
  Forall (λ x, 0 < x) pre ∧ Forall (λ x, 0 < x) post.
Proof.
  intros -> [Hpre [He Hpost]%Forall_cons]%Forall_app. rewrite product_app. change (product (extent :: post)) with (extent * product post).
  rewrite N.mul_assoc. split; [by apply product_pos|]. split; [done|]. split; [by apply product_pos|done].
Qed.

Lemma le_mul_pos a b : 0 < b → a ≤ a * b.
Proof. intros Hb. rewrite <-(N.mul_1_r a) at 1. apply N.mul_le_mono_l. lia. Qed.

Lemma products_bounded outer extent inner width k count :
  0 < outer → 0 < extent → 0 < inner → 0 < width → extent = k * count → 0 < count →
  outer * extent * (inner * width) ≤ isize_MAX →
  outer * extent * inner * width ≤ usize_MAX ∧ outer * extent * inner ≤ usize_MAX ∧ outer ≤ usize_MAX ∧ inner ≤ usize_MAX ∧
  extent * inner ≤ usize_MAX ∧ k * inner ≤ usize_MAX ∧ k * inner * width ≤ usize_MAX ∧ outer * (k * inner * width) ≤ isize_MAX.
Proof.
  intros Ho He Hi Hw Hk Hc Hmax. assert (k ≤ extent) as Hke by (rewrite Hk; by apply le_mul_pos).
  assert (outer * extent * inner * width ≤ isize_MAX) as H1 by lia.
  assert (outer * extent * inner ≤ isize_MAX) as H2 by (etransitivity; [apply (le_mul_pos _ width)|]; done).
  assert (extent * inner * width ≤ isize_MAX) as H3.
  { etransitivity; [apply (le_mul_pos _ outer); done|]. lia. }
  assert (extent * inner ≤ isize_MAX) as H4 by (etransitivity; [apply (le_mul_pos _ width)|]; done).
  assert (inner ≤ isize_MAX) as H5. { etransitivity; [apply (le_mul_pos _ extent); done|]. lia. }
  assert (outer ≤ isize_MAX) as H6. { etransitivity; [apply (le_mul_pos _ (extent * inner)); by apply N.mul_pos_pos|]. lia. }
  assert (outer * (k * inner * width) ≤ outer * (extent * inner * width)) as H7.
  { apply N.mul_le_mono_l, N.mul_le_mono_r, N.mul_le_mono_r. done. }
  assert (k * inner ≤ extent * inner) as H8 by (by apply N.mul_le_mono_r).
  assert (k * inner * width ≤ extent * inner * width) as H9 by (by apply N.mul_le_mono_r).
  unfold isize_MAX, usize_MAX in *. repeat split; lia.
Qed.

Section Correct.
Context (disk : Disk) (s : SafetensorsTensorSpan) (file : list N) (pre post : list N) (extent width : N).
Context (p : TensorPartition) (k : N).

Let dims := pre ++ extent :: post.
Let outer := product pre.
Let row := product post * width.

Context (Hshape : shape (metadata s) = dims) (Hdims : Forall (λ x, 0 < x) dims).
Context (Hwidth : dtype_byte_width (metadata s) = Some width) (Hlen : byte_len s = product dims * width) (Hpos : 0 < width).
Context (Hfile : open_file disk (path s) = Ok file) (Hfit : absolute_byte_offset s + byte_len s ≤ len file) (Hmax : len file ≤ isize_MAX).
Context (Hk : extent = k * partition_count p) (Hi : partition_index p < partition_count p).

Definition slice_plan : SlicePlan := mkSlicePlan (partition_index p * k) (extent * product post) (product post) width (k * product post * width).

Lemma slice_bounds :
  0 < outer ∧ 0 < row ∧ byte_len s = outer * extent * row ∧ outer * extent * row ≤ isize_MAX ∧ outer * k * row ≤ outer * extent * row ∧
  ∀ o, o < outer → source_offset s slice_plan o + k * product post * width ≤ len file.
Proof using Hshape Hdims Hwidth Hlen Hpos Hfile Hfit Hmax Hk Hi.
  destruct (shape_facts dims pre post extent eq_refl Hdims) as (Ho&He&Hr&Hprod&_&_). unfold outer, row.
  assert (byte_len s = product pre * extent * (product post * width)) as Hb by (rewrite Hlen, Hprod; lia).
  assert ((partition_index p + 1) * k ≤ extent) as Hpart.
  { rewrite Hk, (N.mul_comm k). apply N.mul_le_mono_r. lia. }
  split; [done|]. split; [by apply N.mul_pos_pos|]. split; [done|]. split; [lia|]. split.
  - apply N.mul_le_mono_r, N.mul_le_mono_l. lia.
  - intros o Hlt. pose proof (div_rows (product pre) extent k (partition_index p) o Hpart Hlt) as Hrows.
    apply (N.mul_le_mono_r _ _ (product post * width)) in Hrows. unfold source_offset, slice_plan. cbn [source_outer_stride range_start inner_count element_width].
    rewrite Hb in Hfit. lia.
Qed.

(** The partition's bytes: the rows of its range, for each outer index. *)
Lemma slice_read :
  ∃ bytes, read_tensor_axis_partition disk s (N.of_nat (length pre)) p =
    Some (Ok (mkData (mkMetadata (dtype (metadata s)) (pre ++ k :: post) (0, len bytes)) bytes)) ∧
    len bytes = outer * (k * row) ∧
    ∀ o, o < outer → slice_to (k * row) (slice_from (o * (k * row)) bytes) =
      slice_to (k * row) (slice_from (absolute_byte_offset s + (o * extent + partition_index p * k) * row) file).
Proof using Hshape Hdims Hwidth Hlen Hpos Hfile Hfit Hmax Hk Hi.
  destruct slice_bounds as (Houter&Hrow&Hb&Hbmax&Hsel&Hsrc).
  destruct (shape_facts dims pre post extent eq_refl Hdims) as (_&He&Hr&Hprod&Hpre&Hpost).
  destruct (products_bounded (product pre) extent (product post) width k (partition_count p)) as (B1&B2&B3&B4&B5&B6&B7&B8); try done; [lia|].
  assert (extent ≤ usize_MAX) as B9 by (etransitivity; [apply (le_mul_pos _ (product post))|]; done).
  unfold read_tensor_axis_partition. rewrite Hshape, Nat2N.id. unfold dims at 1. rewrite list_lookup_middle by done. cbn [ok_or result_bind_opt].
  assert (range p extent = Ok (partition_index p * k, partition_index p * k + k)) as -> by (rewrite Hk; apply range_whole; [done|lia]). cbn [result_map_err result_bind_opt fst snd]. rewrite Hwidth. cbn [ok_or result_bind_opt].
  unfold element_count, shape_element_count. rewrite Hshape, checked_product_ok by (try done; rewrite N.mul_1_l, Hprod; lia).
  rewrite N.mul_1_l. cbn [ok_or result_bind_opt]. rewrite (proj2 (checked_mul_Some (product dims) width _)) by (split; [done|rewrite Hprod; lia]).
  cbn [ok_or result_bind_opt]. rewrite Hlen, N.eqb_refl. cbn [negb].
  unfold checked_shape_product, slice_to, slice_from. rewrite Nat2N.id. unfold dims at 1 2. rewrite take_app_length.
  replace (drop _ (pre ++ extent :: post)) with post
    by (rewrite drop_app_ge by lia; replace (N.to_nat (N.of_nat (length pre) + 1) - length pre)%nat with 1%nat by lia; done).
  rewrite !checked_product_ok by (try done; rewrite N.mul_1_l; lia). rewrite !N.mul_1_l. cbn [ok_or result_bind_opt].
  rewrite (proj2 (checked_mul_Some extent (product post) _)) by (split; [done|lia]). cbn [ok_or result_bind_opt].
  replace (partition_index p * k + k - partition_index p * k) with k by lia.
  rewrite (proj2 (checked_mul_Some k (product post) _)) by (split; [done|lia]). cbn [ok_or result_bind_opt].
  rewrite (proj2 (checked_mul_Some (k * product post) width _)) by (split; [done|lia]). cbn [ok_or result_bind_opt].
  rewrite (proj2 (checked_mul_Some (product pre) (k * product post * width) _)) by (split; [done|unfold isize_MAX, usize_MAX in *; lia]).
  cbn [ok_or result_bind_opt]. destruct (N.ltb_spec isize_MAX (product pre * (k * product post * width))) as [Hbig|_]; [lia|].
  unfold open_shard. rewrite Hfile. cbn [result_map_err result_bind_opt]. fold slice_plan.
  destruct (read_outers_ok disk s file slice_plan (product pre) Hmax B8 Hpos Hsrc (nrange 0 (product pre))
    (repeat 0 (N.to_nat (product pre * (k * product post * width))))) as (bytes&Hrun&Hblen&Hin&_).
  { apply Forall_forall. intros o Ho%elem_of_nrange. lia. }
  { unfold len. rewrite repeat_length. cbn [slice_plan selected_outer_bytes]. lia. }
  rewrite Hrun. cbn [result_bind_opt]. exists bytes. split; [|split].
  - unfold dims. by rewrite insert_app_r_alt, Nat.sub_diag.
  - rewrite Hblen. cbn [slice_plan selected_outer_bytes]. unfold outer, row. lia.
  - intros o Ho. specialize (Hin o Ho ltac:(apply elem_of_nrange; lia)). unfold source_chunk, source_offset in Hin.
    cbn [slice_plan selected_outer_bytes source_outer_stride range_start inner_count element_width] in Hin.
    unfold row. replace (k * (product post * width)) with (k * product post * width) by lia.
    unfold slice_to, slice_from in Hin. rewrite Hin. do 3 f_equal. lia.
Qed.

End Correct.

Lemma slice_refused disk s axis p extent :
  shape (metadata s) !! N.to_nat axis = Some extent → is_multiple_of extent (partition_count p) = false →
  ∃ e, read_tensor_axis_partition disk s axis p = Some (Err e).
Proof. intros Hat Hm. unfold read_tensor_axis_partition. rewrite Hat. cbn [ok_or result_bind_opt]. unfold range. rewrite Hm. cbn. by eexists. Qed.

Lemma dtype_width_pos d width : safetensors_dtype_byte_width d = Some width → 0 < width.
Proof. unfold safetensors_dtype_byte_width. repeat case_bool_decide; intros [= <-]; done. Qed.

(** C23. A rank reads exactly its part of a tensor.  For a span of a shard and a part
    [partition_index] of [partition_count] of an axis: the read succeeds when the
    parts are equally long, without a panic, and the element at [(o, a, i)] of
    the part is the element at [(o, partition_index * k + a, i)] of the whole
    tensor, [k] being the length of a part, [o] ranging over the axes before and
    [i] over the bytes of the axes after; otherwise it is refused. *)
Theorem axis_partition_correct disk h name path s file (pre post : list N) (extent : N) p :
  header_tensor_span disk h path name = Ok (Some s) → open_file disk path = Ok file → len file ≤ isize_MAX →
  shape (metadata s) = pre ++ extent :: post → Forall (λ x, 0 < x) (pre ++ extent :: post) → partition_index p < partition_count p →
  ∃ whole width, span_read disk s = Some (Ok (Some whole)) ∧ dtype_byte_width (metadata s) = Some width ∧
    let k := extent / partition_count p in
    let row := product post * width in
    match read_tensor_axis_partition disk s (len pre) p with
    | Some (Ok part) =>
        extent mod partition_count p = 0 ∧ dtype (data_metadata part) = dtype (metadata s) ∧ shape (data_metadata part) = pre ++ k :: post ∧
        len (bytes part) = product pre * (k * row) ∧
        ∀ o a i, o < product pre → a < k → i < row →
          bytes part !! N.to_nat ((o * k + a) * row + i) = bytes whole !! N.to_nat ((o * extent + (partition_index p * k + a)) * row + i)
    | Some (Err _) => extent mod partition_count p ≠ 0
    | None => False
    end.
Proof.
  intros Hs Hf Hmax Hshape Hdims Hi. pose proof (read_span _ _ _ _ _ _ Hs Hf Hmax) as [Hread _].
  apply span_Ok in Hs as (m&file'&count&width&_&Hf'&Hc&Hw&Hstop&Hle&->). rewrite Hf in Hf'. injection Hf' as <-.
  cbn [metadata byte_len absolute_byte_offset Safetensors.path] in *.
  eexists _, width. split; [exact Hread|]. split; [done|]. cbv zeta. cbn [bytes].
  unfold element_count, shape_element_count in Hc. apply checked_product_inv in Hc. rewrite N.mul_1_l, Hshape in Hc. subst count.
  set (s := mkSpan path m _ _) in *. destruct (N.eq_dec (extent mod partition_count p) 0) as [Hm|Hm].
  - assert (extent = extent / partition_count p * partition_count p) as Hk.
    { pose proof (N.div_mod extent (partition_count p) ltac:(lia)) as Hd. rewrite Hm in Hd. lia. }
    destruct (slice_read disk s file pre post extent width p (extent / partition_count p)) as (bs&Hrun&Hlen&Hrows); try done.
    { by apply dtype_width_pos in Hw. }
    { cbn. lia. }
    unfold len. rewrite Hrun. cbn [bytes data_metadata dtype shape]. do 3 (split; [done|]). split; [exact Hlen|].
    set (k := extent / partition_count p) in *. set (row := product post * width) in *. intros o a i Ho Ha Hrow.
    assert (a * row + i < k * row) as Hin by (apply N.lt_le_trans with ((a + 1) * row); [lia|apply N.mul_le_mono_r; lia]).
    pose proof (f_equal (λ l, l !! N.to_nat (a * row + i)) (Hrows o Ho)) as Hat. cbn beta in Hat. rewrite !lookup_slice in Hat by done.
    replace ((o * k + a) * row + i) with (o * (k * row) + (a * row + i)) by lia. rewrite Hat.
    rewrite lookup_slice; [f_equal; f_equal; cbn [s absolute_byte_offset]; lia|].
    destruct (shape_facts _ pre post extent eq_refl Hdims) as (_&_&_&->&_&_).
    assert ((partition_index p + 1) * k ≤ extent) as Hpart by (rewrite Hk, (N.mul_comm k); apply N.mul_le_mono_r; lia).
    pose proof (div_rows (product pre) extent k (partition_index p) o Hpart Ho) as Hall.
    apply (N.mul_le_mono_r _ _ row) in Hall. unfold row in *. lia.
  - destruct (slice_refused disk s (len pre) p extent) as [e ->]; [|
      unfold is_multiple_of; destruct (N.eqb_spec (partition_count p) 0); [lia|]; by apply N.eqb_neq|done].
    cbn [metadata s]. rewrite Hshape. unfold len. by rewrite Nat2N.id, list_lookup_middle.
Qed.

(** ** Witness *)

(** The second column of the two by three matrix of [demo_tensors]. *)
Definition demo_span : SafetensorsTensorSpan := mkSpan "model.safetensors" (mkMetadata "F8_E4M3" [2; 3] (4, 10)) 18 6.
Definition demo_part : TensorPartition := mkPartition 3 1.

Lemma axis_partition_correct_witness :
  ∃ whole width, span_read demo_disk demo_span = Some (Ok (Some whole)) ∧ dtype_byte_width (metadata demo_span) = Some width ∧
    let k := 3 / partition_count demo_part in
    let row := product [] * width in
    match read_tensor_axis_partition demo_disk demo_span (len [2]) demo_part with
    | Some (Ok part) =>
        3 mod partition_count demo_part = 0 ∧ dtype (data_metadata part) = dtype (metadata demo_span) ∧ shape (data_metadata part) = [2] ++ k :: [] ∧
        len (bytes part) = product [2] * (k * row) ∧
        ∀ o a i, o < product [2] → a < k → i < row →
          bytes part !! N.to_nat ((o * k + a) * row + i) = bytes whole !! N.to_nat ((o * 3 + (partition_index demo_part * k + a)) * row + i)
    | Some (Err _) => 3 mod partition_count demo_part ≠ 0
    | None => False
    end.
Proof.
  apply (axis_partition_correct demo_disk demo_loaded "lm_head.weight" "model.safetensors" demo_span (shard_file demo_header demo_tensors) [2] [] 3 demo_part);
    [by vm_compute..| |by vm_compute]. repeat constructor.
Defined.

Example middle_column :
  read_tensor_axis_partition demo_disk demo_span 1 demo_part = Some (Ok (mkData (mkMetadata "F8_E4M3" [2; 1] (0, 2)) [8; 127])).
Proof. by vm_compute. Qed.
