(* ===== verification/Models.v ===== *)
(** * Model definitions ([crates/sglang-srt/src/models/mod.rs])

    What the runtime knows of a model before it loads weights: the shape of its
    attention and feed-forward layers, the names of its weights, the layout of its
    caches, and the tensors a checkpoint must have.  Building a definition,
    checking that it can be spread over tensor-parallel ranks, and checking a
    checkpoint against it are functions of the configuration and the disk. *)

From stdpp Require Import pretty.
From S2P Require Import Prelude Float32 Bytes Text Safetensors SafetensorsCatalog ModelArtifacts KvLayout.
#[local] Open Scope N_scope.

(** ** Attention and feed-forward *)

(** [models/mod.rs:29-60] AttentionArchitecture *)
Inductive AttentionArchitecture : Type :=
  | NoAttention
  | MultiHead (num_attention_heads num_key_value_heads head_dim : N)
  | MultiLatent (num_attention_heads qk_nope_head_dim qk_rope_head_dim value_head_dim : N)
  | Hybrid (num_attention_heads num_key_value_heads attention_head_dim linear_num_key_heads linear_num_value_heads
      linear_key_head_dim linear_value_head_dim : N)
  | HybridMultiLatent (num_attention_heads qk_nope_head_dim qk_rope_head_dim value_head_dim linear_num_heads
      linear_key_head_dim linear_value_head_dim : N).

(** [models/mod.rs:129-134] AttentionFamily *)
Inductive AttentionFamily : Type := NoAttentionFamily | MultiHeadFamily | MultiLatentFamily | HybridFamily.

(** [models/mod.rs:137-144] AttentionFamily::fmt *)
Definition AttentionFamily_to_string (f : AttentionFamily) : string :=
  match f with
  | NoAttentionFamily => "none"
  | MultiHeadFamily => "multi-head attention"
  | MultiLatentFamily => "multi-latent attention"
  | HybridFamily => "hybrid full and linear attention"
  end.

(** [models/mod.rs:63-70] AttentionArchitecture::family *)
Definition attention_family_of (a : AttentionArchitecture) : AttentionFamily :=
  match a with
  | NoAttention => NoAttentionFamily
  | MultiHead _ _ _ => MultiHeadFamily
  | MultiLatent _ _ _ _ => MultiLatentFamily
  | Hybrid _ _ _ _ _ _ _ | HybridMultiLatent _ _ _ _ _ _ _ => HybridFamily
  end.

(** [models/mod.rs:111-121] AttentionArchitecture::validate_tensor_parallel (head_counts) *)
Fixpoint check_head_counts (tensor_parallel_size : N) (head_counts : list (string * N)) : Result string unit :=
  match head_counts with
  | [] => Ok tt
  | (name, head_count) :: head_counts =>
      let valid := if tensor_parallel_size <=? head_count then is_multiple_of head_count tensor_parallel_size
                   else is_multiple_of tensor_parallel_size head_count in
      if negb valid then
        Err (name +:+ " head count " +:+ pretty head_count +:+ " must shard across or replicate evenly over tensor parallel size "
          +:+ pretty tensor_parallel_size)
      else check_head_counts tensor_parallel_size head_counts
  end.

(** [models/mod.rs:72-125] AttentionArchitecture::validate_tensor_parallel *)
Definition attention_validate_tensor_parallel (a : AttentionArchitecture) (tensor_parallel_size : N) : Result string unit :=
  let check (num_attention_heads : N) (head_counts : list (string * N)) :=
    if negb (is_multiple_of num_attention_heads tensor_parallel_size) then
      Err ("attention head count " +:+ pretty num_attention_heads +:+ " must be divisible by tensor parallel size " +:+ pretty tensor_parallel_size)
    else check_head_counts tensor_parallel_size head_counts in
  match a with
  | NoAttention => Ok tt
  | MultiHead heads kv_heads _ => check heads [("KV"%string, kv_heads)]
  | MultiLatent heads _ _ _ => check heads []
  | Hybrid heads kv_heads _ key_heads value_heads _ _ =>
      check heads [("KV"%string, kv_heads); ("linear key"%string, key_heads); ("linear value"%string, value_heads)]
  | HybridMultiLatent heads _ _ _ linear_heads _ _ => check heads [("linear"%string, linear_heads)]
  end.

(** [models/mod.rs:148-159] FeedForwardArchitecture *)
Inductive FeedForwardArchitecture : Type :=
  | NoFeedForward
  | Dense (intermediate_size : N)
  | MixtureOfExperts (routed_expert_count experts_per_token shared_expert_count expert_intermediate_size : N).

(** [models/mod.rs:172-176] FeedForwardFamily *)
Inductive FeedForwardFamily : Type := NoFeedForwardFamily | DenseFamily | MixtureOfExpertsFamily.

(** [models/mod.rs:519-525] FeedForwardFamily::fmt *)
Definition FeedForwardFamily_to_string (f : FeedForwardFamily) : string :=
  match f with NoFeedForwardFamily => "none" | DenseFamily => "dense feed-forward" | MixtureOfExpertsFamily => "mixture-of-experts" end.

(** [models/mod.rs:162-168] FeedForwardArchitecture::family *)
Definition feed_forward_family_of (f : FeedForwardArchitecture) : FeedForwardFamily :=
  match f with NoFeedForward => NoFeedForwardFamily | Dense _ => DenseFamily | MixtureOfExperts _ _ _ _ => MixtureOfExpertsFamily end.

(** [models/mod.rs:529-534] ModelExecutionArchitecture *)
Inductive ModelExecutionArchitecture : Type :=
  | Transformer (attention : AttentionArchitecture) (feed_forward : FeedForwardArchitecture).

(** [models/mod.rs:549-566] ModelExecutionArchitecture::validate_tensor_parallel *)
Definition execution_validate_tensor_parallel (e : ModelExecutionArchitecture) (tensor_parallel_size : N) : Result string unit :=
  match e with
  | Transformer attention feed_forward =>
      let? checked := attention_validate_tensor_parallel attention tensor_parallel_size in
      match feed_forward with
      | Dense intermediate_size =>
          if negb (is_multiple_of intermediate_size tensor_parallel_size) then
            Err ("dense feed-forward intermediate size " +:+ pretty intermediate_size +:+ " must be divisible by tensor parallel size "
              +:+ pretty tensor_parallel_size)
          else Ok tt
      | _ => Ok tt
      end
  end.

(** ** Names of weights and execution plans *)

(** [models/mod.rs:179-181] DenseDecoderActivation *)
Inductive DenseDecoderActivation : Type := Silu.

(** [models/mod.rs:184-200] DenseDecoderLayerWeightNames *)
Record DenseDecoderLayerWeightNames : Type := mkDenseLayer {
  dl_input_norm : string;
  dl_query_weight : string;
  dl_query_bias : option string;
  dl_query_norm : option string;
  dl_key_weight : string;
  dl_key_bias : option string;
  dl_key_norm : option string;
  dl_value_weight : string;
  dl_value_bias : option string;
  dl_output_weight : string;
  dl_output_bias : option string;
  dl_post_attention_norm : string;
  dl_gate_weight : string;
  dl_up_weight : string;
  dl_down_weight : string;
}.

(** [models/mod.rs:203-208] DenseDecoderWeightNames *)
Record DenseDecoderWeightNames : Type := mkDenseWeights {
  dw_token_embeddings : string;
  dw_final_norm : string;
  dw_lm_head : option string;
  dw_layers : list DenseDecoderLayerWeightNames;
}.

(** [models/mod.rs:211-219] DenseDecoderExecutionPlan *)
Record DenseDecoderExecutionPlan : Type := mkDensePlan {
  dp_vocab_size : N;
  dp_hidden_size : N;
  dp_max_position_embeddings : N;
  dp_rms_norm_eps : f32;
  dp_rope_theta : f32;
  dp_activation : DenseDecoderActivation;
  dp_weights : DenseDecoderWeightNames;
}.

(** [models/mod.rs:222-226] DenseFeedForwardWeightNames *)
Record DenseFeedForwardWeightNames : Type := mkFeedForwardNames {
  ff_gate_weight : string;
  ff_up_weight : string;
  ff_down_weight : string;
}.

(** [models/mod.rs:229-236] HybridFullAttentionWeightNames *)
Record HybridFullAttentionWeightNames : Type := mkFullAttentionNames {
  fa_query_weight : string;
  fa_query_norm : string;
  fa_key_weight : string;
  fa_key_norm : string;
  fa_value_weight : string;
  fa_output_weight : string;
}.

(** [models/mod.rs:239-248] MultiLatentQueryWeightNames *)
Inductive MultiLatentQueryWeightNames : Type :=
  | DirectNames (weight : string)
  | LowRankNames (a_weight a_norm b_weight : string).

(** [models/mod.rs:251-257] HybridMultiLatentAttentionWeightNames *)
Record HybridMultiLatentAttentionWeightNames : Type := mkLatentNames {
  la_query : MultiLatentQueryWeightNames;
  la_kv_a_weight : string;
  la_kv_a_norm : string;
  la_kv_b_weight : string;
  la_output_weight : string;
}.

(** [models/mod.rs:260-270] GatedDeltaNetWeightNames *)
Record GatedDeltaNetWeightNames : Type := mkGdnNames {
  gd_a_log : string;
  gd_conv1d_weight : string;
  gd_dt_bias : string;
  gd_in_proj_a_weight : string;
  gd_in_proj_b_weight : string;
  gd_in_proj_qkv_weight : string;
  gd_in_proj_z_weight : string;
  gd_norm_weight : string;
  gd_output_weight : string;
}.

(** [models/mod.rs:273-289] KeyGatedDeltaWeightNames *)
Record KeyGatedDeltaWeightNames : Type := mkKgdNames {
  kg_a_log : string;
  kg_dt_bias : string;
  kg_query_weight : string;
  kg_key_weight : string;
  kg_value_weight : string;
  kg_beta_weight : string;
  kg_forget_a_weight : string;
  kg_forget_b_weight : string;
  kg_gate_a_weight : string;
  kg_gate_b_weight : string;
  kg_query_conv_weight : string;
  kg_key_conv_weight : string;
  kg_value_conv_weight : string;
  kg_output_norm : string;
  kg_output_weight : string;
}.

(** [models/mod.rs:292-295] DecoderNormalization *)
Inductive DecoderNormalization : Type := Rms | GemmaRms.

(** [models/mod.rs:298-301] MultiLatentQueryConfig *)
Inductive MultiLatentQueryConfig : Type := DirectQuery | LowRankQuery (rank : N).

(** [sglang-kernel/src/rotary.rs:4-7] RotaryEmbeddingStyle *)
Inductive RotaryEmbeddingStyle : Type := Neox | Interleaved.

(** [sglang-kernel/src/rotary.rs:10-20] YarnScalingConfig *)
Record YarnScalingConfig : Type := mkYarn {
  yarn_factor : f32;
  original_max_position_embeddings : N;
  beta_fast : f32;
  beta_slow : f32;
  extrapolation_factor : f32;
  attention_factor : f32;
  mscale : f32;
  mscale_all_dim : f32;
  apply_attention_scale : bool;
}.

(** [sglang-kernel/src/rotary.rs:23-26] RotaryEmbeddingScaling *)
Inductive RotaryEmbeddingScaling : Type := DefaultScaling | Yarn (config : YarnScalingConfig).

(** [sglang-kernel/src/rotary.rs:29-33] RotaryEmbeddingConfig *)
Record RotaryEmbeddingConfig : Type := mkRotary {
  theta : f32;
  style : RotaryEmbeddingStyle;
  scaling : RotaryEmbeddingScaling;
}.

(** [models/mod.rs:304-323] HybridFullAttentionConfig *)
Inductive HybridFullAttentionConfig : Type :=
  | FullMultiHead (num_attention_heads num_key_value_heads head_dim rotary_dim : N) (output_gate : bool) (rotary_embedding : RotaryEmbeddingConfig)
  | FullMultiLatent (num_attention_heads : N) (query : MultiLatentQueryConfig)
      (kv_lora_rank qk_nope_head_dim qk_rope_head_dim value_head_dim : N) (skip_rope : bool) (rotary_embedding : RotaryEmbeddingConfig).

(** [models/mod.rs:326-340] HybridLinearAttentionConfig *)
Inductive HybridLinearAttentionConfig : Type :=
  | GatedDeltaNet (conv_kernel_dim key_head_dim value_head_dim num_key_heads num_value_heads : N)
  | KeyGatedDelta (conv_kernel_dim key_head_dim value_head_dim num_heads : N).

(** [models/mod.rs:343-346] RouterActivation *)
Inductive RouterActivation : Type := Sigmoid | Softmax.

(** [models/mod.rs:349-352] RoutedExpertWeightFormat *)
Inductive RoutedExpertWeightFormat : Type := UnquantizedFormat | CompressedTensorsInt4Format (group_size : N).

(** [models/mod.rs:355-360] RoutedExpertWeightFormat::checkpoint_tensor_count_per_expert *)
Definition checkpoint_tensor_count_per_expert (f : RoutedExpertWeightFormat) : N :=
  match f with UnquantizedFormat => 3 | CompressedTensorsInt4Format _ => 9 end.

(** [models/mod.rs:364-375] MoeFeedForwardConfig *)
Record MoeFeedForwardConfig : Type := mkMoeConfig {
  moe_routed_expert_count : N;
  moe_experts_per_token : N;
  moe_expert_group_count : N;
  moe_selected_expert_group_count : N;
  moe_shared_expert_count : N;
  moe_expert_intermediate_size : N;
  moe_renormalize : bool;
  moe_router_activation : RouterActivation;
  moe_routed_scaling_factor : f32;
  moe_routed_expert_weight_format : RoutedExpertWeightFormat;
}.

(** [models/mod.rs:378-383] MoeFeedForwardWeightNames *)
Record MoeFeedForwardWeightNames : Type := mkMoeNames {
  mw_gate_weight : string;
  mw_correction_bias : option string;
  mw_experts : list DenseFeedForwardWeightNames;
  mw_shared_expert : option DenseFeedForwardWeightNames;
}.

(** [models/mod.rs:386-395] HybridFeedForward *)
Inductive HybridFeedForward : Type :=
  | HybridDense (intermediate_size : N) (weights : DenseFeedForwardWeightNames)
  | HybridExperts (config : MoeFeedForwardConfig) (weights : MoeFeedForwardWeightNames).

(** [models/mod.rs:398-415] HybridDecoderLayerKind *)
Inductive HybridDecoderLayerKind : Type :=
  | FullAttentionLayer (cache_layer_index : N) (weights : HybridFullAttentionWeightNames)
  | GatedDeltaNetLayer (state_layer_index : N) (weights : GatedDeltaNetWeightNames)
  | MultiLatentAttentionLayer (cache_layer_index : N) (weights : HybridMultiLatentAttentionWeightNames)
  | KeyGatedDeltaLayer (state_layer_index : N) (weights : KeyGatedDeltaWeightNames).

(** [models/mod.rs:418-423] HybridDecoderLayerWeightNames *)
Record HybridDecoderLayerWeightNames : Type := mkHybridLayer {
  hl_input_norm : string;
  hl_mixer : HybridDecoderLayerKind;
  hl_post_attention_norm : string;
  hl_feed_forward : HybridFeedForward;
}.

(** [models/mod.rs:426-431] HybridDecoderWeightNames *)
Record HybridDecoderWeightNames : Type := mkHybridWeights {
  hw_token_embeddings : string;
  hw_final_norm : string;
  hw_lm_head : option string;
  hw_layers : list HybridDecoderLayerWeightNames;
}.

(** [models/mod.rs:434-444] HybridDecoderExecutionPlan *)
Record HybridDecoderExecutionPlan : Type := mkHybridPlan {
  hp_vocab_size : N;
  hp_hidden_size : N;
  hp_max_position_embeddings : N;
  hp_rms_norm_eps : f32;
  hp_normalization : DecoderNormalization;
  hp_full_attention : HybridFullAttentionConfig;
  hp_linear_attention : option HybridLinearAttentionConfig;
  hp_activation : DenseDecoderActivation;
  hp_weights : HybridDecoderWeightNames;
}.

Definition is_recurrent_mixer (k : HybridDecoderLayerKind) : bool :=
  match k with GatedDeltaNetLayer _ _ | KeyGatedDeltaLayer _ _ => true | _ => false end.
Definition is_attention_mixer (k : HybridDecoderLayerKind) : bool :=
  match k with FullAttentionLayer _ _ | MultiLatentAttentionLayer _ _ => true | _ => false end.

(** [models/mod.rs:447-455] HybridDecoderExecutionPlan::has_recurrent_layers *)
Definition has_recurrent_layers (p : HybridDecoderExecutionPlan) : bool := existsb (λ l, is_recurrent_mixer (hl_mixer l)) (hw_layers (hp_weights p)).

(** ** Caches *)

(** [models/mod.rs:459-466] RecurrentStateLayout *)
Record RecurrentStateLayout : Type := mkRecurrentLayout {
  rl_layer_count : N;
  rl_conv_kernel_dim : N;
  rl_key_head_count : N;
  rl_value_head_count : N;
  rl_key_head_dim : N;
  rl_value_head_dim : N;
}.

(** [models/mod.rs:469-483] RecurrentStateLayout::conv_elements_per_layer *)
Definition conv_elements_per_layer (l : RecurrentStateLayout) : option N :=
  size ← checked_mul (rl_key_head_count l) (rl_key_head_dim l);
  key_size ← checked_mul size 2;
  value_size ← checked_mul (rl_value_head_count l) (rl_value_head_dim l);
  width ← checked_add key_size value_size;
  history ← checked_sub (rl_conv_kernel_dim l) 1;
  checked_mul width history.

(** [models/mod.rs:485-489] RecurrentStateLayout::temporal_elements_per_layer *)
Definition temporal_elements_per_layer (l : RecurrentStateLayout) : option N :=
  size ← checked_mul (rl_value_head_count l) (rl_key_head_dim l);
  checked_mul size (rl_value_head_dim l).

(** [models/mod.rs:491-495] RecurrentStateLayout::elements_per_request *)
Definition elements_per_request (l : RecurrentStateLayout) : option N :=
  conv ← conv_elements_per_layer l;
  temporal ← temporal_elements_per_layer l;
  elements ← checked_add conv temporal;
  checked_mul elements (rl_layer_count l).

(** [models/mod.rs:499-506] ModelCacheArchitecture *)
Inductive ModelCacheArchitecture : Type :=
  | NoCache
  | PagedKv
  | HybridState (full_attention_layer_count recurrent_state_layer_count : N).

(** [models/mod.rs:509-511] ModelCacheArchitecture::supports_radix_prefix_cache *)
Definition supports_radix_prefix_cache (c : ModelCacheArchitecture) : bool := match c with PagedKv => true | _ => false end.

(** [models/mod.rs:513-515] ModelCacheArchitecture::supports_kv_only_transfer *)
Definition supports_kv_only_transfer (c : ModelCacheArchitecture) : bool := match c with HybridState _ _ => false | _ => true end.

(** ** Definitions of models *)

(** [sglang-srt/src/backend.rs:67-73] RuntimeDtype *)
Inductive RuntimeDtype : Type := F32 | Fp16 | Bf16 | Fp8E4M3 | Fp8E5M2.

(** [sglang-srt/src/backend.rs:114-121] RuntimeRequirements *)
Record RuntimeRequirements : Type := mkRequirements {
  requires_forward : bool;
  required_dtype : option RuntimeDtype;
  attention_backend : option string;
  required_tensor_parallel_size : N;
  requires_kv_cache_registration : bool;
  requires_kv_transfer : bool;
}.

(** [models/mod.rs:1228-1230] ModelAdapterError *)
Record ModelAdapterError : Type := mkAdapterError { adapter_message : string }.

(** [models/mod.rs:1233-1237] ModelAdapterError::missing_field *)
Definition missing_field (architecture field : string) : ModelAdapterError :=
  mkAdapterError (architecture +:+ " requires config field " +:+ field).

(** [models/mod.rs:1239-1243] ModelAdapterError::invalid *)
Definition adapter_invalid (architecture message : string) : ModelAdapterError := mkAdapterError (architecture +:+ ": " +:+ message).

(** [models/mod.rs:1252-1265] required_usize *)
Definition required_usize (architecture field : string) (value : option N) : Result ModelAdapterError N :=
  let? value := ok_or value (missing_field architecture field) in
  if value =? 0 then Err (adapter_invalid architecture ("config field " +:+ field +:+ " must be non-zero")) else Ok value.

(** [models/mod.rs:570-584] ModelDefinition *)
Record ModelDefinition : Type := mkDefinition {
  architecture : string;
  md_model_type : option string;
  vocab_size : option N;
  max_context_length : option N;
  md_eos_token_ids : list N;
  execution : ModelExecutionArchitecture;
  supported_dtypes : list RuntimeDtype;
  kv_cache_layout : option KvCacheModelLayout;
  recurrent_state_layout : option RecurrentStateLayout;
  cache_architecture : ModelCacheArchitecture;
  dense_decoder : option DenseDecoderExecutionPlan;
  hybrid_decoder : option HybridDecoderExecutionPlan;
  checkpoint_topology : CheckpointTopology;
}.

Definition paged_or_none (layout : option KvCacheModelLayout) : ModelCacheArchitecture :=
  match layout with Some _ => PagedKv | None => NoCache end.

(** The [debug_assert!] on the dtypes is not part of a release build. *)
(** [models/mod.rs:587-614] ModelDefinition::new *)
Definition definition_new (architecture : string) (config : HfModelConfig) (execution : ModelExecutionArchitecture)
    (supported_dtypes : list RuntimeDtype) (kv_cache_layout : option KvCacheModelLayout) : ModelDefinition :=
  mkDefinition architecture (model_type config) None None (eos_token_ids config) execution supported_dtypes kv_cache_layout None
    (paged_or_none kv_cache_layout) None None (mkTopology [] ∅ 0).

(** [models/mod.rs:616-624] ModelDefinition::with_serving_metadata *)
Definition with_serving_metadata (d : ModelDefinition) (vocab_size max_context_length : N) : ModelDefinition :=
  mkDefinition (architecture d) (md_model_type d) (Some vocab_size) (Some max_context_length) (md_eos_token_ids d) (execution d) (supported_dtypes d)
    (kv_cache_layout d) (recurrent_state_layout d) (cache_architecture d) (dense_decoder d) (hybrid_decoder d) (checkpoint_topology d).

(** [models/mod.rs:626-629] ModelDefinition::with_checkpoint_topology *)
Definition with_checkpoint_topology (d : ModelDefinition) (topology : CheckpointTopology) : ModelDefinition :=
  mkDefinition (architecture d) (md_model_type d) (vocab_size d) (max_context_length d) (md_eos_token_ids d) (execution d) (supported_dtypes d)
    (kv_cache_layout d) (recurrent_state_layout d) (cache_architecture d) (dense_decoder d) (hybrid_decoder d) topology.

(** [models/mod.rs:631-634] ModelDefinition::with_dense_decoder *)
Definition with_dense_decoder (d : ModelDefinition) (plan : DenseDecoderExecutionPlan) : ModelDefinition :=
  mkDefinition (architecture d) (md_model_type d) (vocab_size d) (max_context_length d) (md_eos_token_ids d) (execution d) (supported_dtypes d)
    (kv_cache_layout d) (recurrent_state_layout d) (cache_architecture d) (Some plan) (hybrid_decoder d) (checkpoint_topology d).

Definition set_hybrid (d : ModelDefinition) (state : option RecurrentStateLayout) (cache : ModelCacheArchitecture) (plan : HybridDecoderExecutionPlan) : ModelDefinition :=
  mkDefinition (architecture d) (md_model_type d) (vocab_size d) (max_context_length d) (md_eos_token_ids d) (execution d) (supported_dtypes d)
    (kv_cache_layout d) state cache (dense_decoder d) (Some plan) (checkpoint_topology d).

(** [models/mod.rs:675-712] ModelDefinition::with_hybrid_decoder (layout) *)
Definition recurrent_layout_of (layer_count : N) (c : HybridLinearAttentionConfig) : RecurrentStateLayout :=
  match c with
  | GatedDeltaNet conv_kernel_dim key_head_dim value_head_dim num_key_heads num_value_heads =>
      mkRecurrentLayout layer_count conv_kernel_dim num_key_heads num_value_heads key_head_dim value_head_dim
  | KeyGatedDelta conv_kernel_dim key_head_dim value_head_dim num_heads =>
      mkRecurrentLayout layer_count conv_kernel_dim num_heads num_heads key_head_dim value_head_dim
  end.

(** [models/mod.rs:636-717] ModelDefinition::with_hybrid_decoder *)
Definition with_hybrid_decoder (d : ModelDefinition) (plan : HybridDecoderExecutionPlan) : Result ModelAdapterError ModelDefinition :=
  let layers := hw_layers (hp_weights plan) in
  let full_attention_layer_count := len (filter (λ l, is_attention_mixer (hl_mixer l) = true) layers) in
  let recurrent_state_layer_count := len layers - full_attention_layer_count in
  if recurrent_state_layer_count =? 0 then
    match hp_linear_attention plan with
    | Some _ => Err (adapter_invalid (architecture d) "decoder plan without recurrent layers must not declare linear-attention state")
    | None => Ok (set_hybrid d None (paged_or_none (kv_cache_layout d)) plan)
    end
  else
    let? linear_attention := ok_or (hp_linear_attention plan)
      (adapter_invalid (architecture d) "decoder plan with recurrent layers requires a linear-attention state config") in
    Ok (set_hybrid d (Some (recurrent_layout_of recurrent_state_layer_count linear_attention))
      (HybridState full_attention_layer_count recurrent_state_layer_count) plan).

(** [models/mod.rs:889-903] ModelDefinition::runtime_requirements *)
Definition runtime_requirements (d : ModelDefinition) (execution_dtype : RuntimeDtype) (tensor_parallel_size : N)
    (requested_attention_backend : option string) : RuntimeRequirements :=
  mkRequirements true (Some execution_dtype) requested_attention_backend tensor_parallel_size false false.

(** [models/mod.rs:905-911] ModelDefinition::validate_tensor_parallel *)
Definition definition_validate_tensor_parallel (d : ModelDefinition) (tensor_parallel_size : N) : Result string unit :=
  if tensor_parallel_size =? 0 then Err "tensor parallel size must be non-zero"%string
  else execution_validate_tensor_parallel (execution d) tensor_parallel_size.

(** ** The tensors a checkpoint must have *)

Definition with_shapes (l : list (string * list N)) : list CheckpointTensorRequirement := (λ e, requirement_with_shape e.1 e.2) <$> l.
Definition with_optional_shapes (l : list (option string * list N)) : list CheckpointTensorRequirement :=
  omap (λ e, (λ name, requirement_with_shape name e.2) <$> e.1) l.

(** [models/mod.rs:947-959] dense_decoder_checkpoint_topology (embeddings) *)
Definition embedding_requirements (token_embeddings final_norm : string) (lm_head : option string) (vocab_size hidden_size : N)
    : list CheckpointTensorRequirement :=
  with_shapes [(token_embeddings, [vocab_size; hidden_size]); (final_norm, [hidden_size])]
  ++ with_optional_shapes [(lm_head, [vocab_size; hidden_size])].

(** [models/mod.rs:960-1002] dense_decoder_checkpoint_topology (layer) *)
Definition dense_layer_requirements (hidden_size query_size kv_size head_dim intermediate_size : N) (layer : DenseDecoderLayerWeightNames)
    : list CheckpointTensorRequirement :=
  with_shapes [(dl_input_norm layer, [hidden_size]); (dl_query_weight layer, [query_size; hidden_size]); (dl_key_weight layer, [kv_size; hidden_size]);
    (dl_value_weight layer, [kv_size; hidden_size]); (dl_output_weight layer, [hidden_size; query_size]); (dl_post_attention_norm layer, [hidden_size]);
    (dl_gate_weight layer, [intermediate_size; hidden_size]); (dl_up_weight layer, [intermediate_size; hidden_size]);
    (dl_down_weight layer, [hidden_size; intermediate_size])]
  ++ with_optional_shapes [(dl_query_bias layer, [query_size]); (dl_query_norm layer, [head_dim]); (dl_key_bias layer, [kv_size]);
    (dl_key_norm layer, [head_dim]); (dl_value_bias layer, [kv_size]); (dl_output_bias layer, [hidden_size])].

(** [models/mod.rs:914-1004] dense_decoder_checkpoint_topology *)
Definition dense_decoder_checkpoint_topology (architecture : string) (execution : ModelExecutionArchitecture) (plan : DenseDecoderExecutionPlan)
    : Result ModelAdapterError CheckpointTopology :=
  match execution with
  | Transformer (MultiHead num_attention_heads num_key_value_heads head_dim) (Dense intermediate_size) =>
      let? query_size := ok_or (checked_mul num_attention_heads head_dim) (adapter_invalid architecture "query projection size overflowed") in
      let? kv_size := ok_or (checked_mul num_key_value_heads head_dim) (adapter_invalid architecture "KV projection size overflowed") in
      match dw_layers (dp_weights plan) with
      | [] => Err (adapter_invalid architecture "dense decoder checkpoint topology has no layers")
      | layers =>
          Ok (topology_new (embedding_requirements (dw_token_embeddings (dp_weights plan)) (dw_final_norm (dp_weights plan)) (dw_lm_head (dp_weights plan))
                (dp_vocab_size plan) (dp_hidden_size plan)
              ++ (layers ≫= dense_layer_requirements (dp_hidden_size plan) query_size kv_size head_dim intermediate_size)))
      end
  | _ => Err (adapter_invalid architecture "dense decoder checkpoint topology requires multi-head attention and dense feed-forward components")
  end.

(** The sizes the hybrid topology works with. *)
Record HybridSizes : Type := mkHybridSizes {
  hs_hidden : N;
  hs_query : N;
  hs_projected_query : N;
  hs_kv : N;
  hs_head_dim : N;
  hs_linear_value : N;
  hs_conv_dim : N;
  hs_conv_kernel : N;
  hs_value_heads : N;
  hs_value_head_dim : N;
}.

(** [models/mod.rs:1080-1166] hybrid_decoder_checkpoint_topology (layer) *)
Definition hybrid_layer_requirements (architecture : string) (z : HybridSizes) (layer : HybridDecoderLayerWeightNames)
    : Result ModelAdapterError (list CheckpointTensorRequirement) :=
  let norms := with_shapes [(hl_input_norm layer, [hs_hidden z]); (hl_post_attention_norm layer, [hs_hidden z])] in
  match hl_feed_forward layer with
  | HybridDense intermediate_size ff =>
      let feed_forward := with_shapes [(ff_gate_weight ff, [intermediate_size; hs_hidden z]); (ff_up_weight ff, [intermediate_size; hs_hidden z]);
        (ff_down_weight ff, [hs_hidden z; intermediate_size])] in
      let? mixer :=
        match hl_mixer layer with
        | FullAttentionLayer _ w =>
            Ok (with_shapes [(fa_query_weight w, [hs_projected_query z; hs_hidden z]); (fa_query_norm w, [hs_head_dim z]);
              (fa_key_weight w, [hs_kv z; hs_hidden z]); (fa_key_norm w, [hs_head_dim z]); (fa_value_weight w, [hs_kv z; hs_hidden z]);
              (fa_output_weight w, [hs_hidden z; hs_query z])])
        | GatedDeltaNetLayer _ w =>
            Ok (with_shapes [(gd_a_log w, [hs_value_heads z]); (gd_conv1d_weight w, [hs_conv_dim z; 1; hs_conv_kernel z]); (gd_dt_bias w, [hs_value_heads z]);
              (gd_in_proj_a_weight w, [hs_value_heads z; hs_hidden z]); (gd_in_proj_b_weight w, [hs_value_heads z; hs_hidden z]);
              (gd_in_proj_qkv_weight w, [hs_conv_dim z; hs_hidden z]); (gd_in_proj_z_weight w, [hs_linear_value z; hs_hidden z]);
              (gd_norm_weight w, [hs_value_head_dim z]); (gd_output_weight w, [hs_hidden z; hs_linear_value z])])
        | MultiLatentAttentionLayer _ _ | KeyGatedDeltaLayer _ _ =>
            Err (adapter_invalid architecture "multi-head/GDN checkpoint topology received an incompatible mixer")
        end in
      Ok (norms ++ feed_forward ++ mixer)
  | HybridExperts _ _ => Err (adapter_invalid architecture "multi-head/GDN checkpoint topology requires dense feed-forward layers")
  end.

(** [models/mod.rs:1006-1168] hybrid_decoder_checkpoint_topology *)
Definition hybrid_decoder_checkpoint_topology (architecture : string) (plan : HybridDecoderExecutionPlan) : Result ModelAdapterError CheckpointTopology :=
  let invalid := adapter_invalid architecture in
  match hw_layers (hp_weights plan) with
  | [] => Err (invalid "hybrid decoder checkpoint topology has no layers"%string)
  | layers =>
      match hp_full_attention plan with
      | FullMultiHead num_attention_heads num_key_value_heads head_dim _ output_gate _ =>
          match hp_linear_attention plan with
          | Some (GatedDeltaNet conv_kernel_dim key_head_dim value_head_dim num_key_heads num_value_heads) =>
              let? query_size := ok_or (checked_mul num_attention_heads head_dim) (invalid "query projection size overflowed"%string) in
              let? projected_query_size := ok_or (checked_mul query_size (if output_gate then 2 else 1)) (invalid "gated query projection size overflowed"%string) in
              let? kv_size := ok_or (checked_mul num_key_value_heads head_dim) (invalid "KV projection size overflowed"%string) in
              let? linear_key_size := ok_or (checked_mul num_key_heads key_head_dim) (invalid "linear key size overflowed"%string) in
              let? linear_value_size := ok_or (checked_mul num_value_heads value_head_dim) (invalid "linear value size overflowed"%string) in
              let? conv_dim := ok_or (size ← checked_mul linear_key_size 2; checked_add size linear_value_size) (invalid "linear convolution size overflowed"%string) in
              let z := mkHybridSizes (hp_hidden_size plan) query_size projected_query_size kv_size head_dim linear_value_size conv_dim conv_kernel_dim
                num_value_heads value_head_dim in
              let? tensors := collect (hybrid_layer_requirements architecture z) layers in
              Ok (topology_new (embedding_requirements (hw_token_embeddings (hp_weights plan)) (hw_final_norm (hp_weights plan)) (hw_lm_head (hp_weights plan))
                    (hp_vocab_size plan) (hp_hidden_size plan) ++ concat tensors))
          | _ => Err (invalid "multi-head/GDN checkpoint topology cannot validate key-gated delta attention"%string)
          end
      | FullMultiLatent _ _ _ _ _ _ _ _ => Err (invalid "multi-head/GDN checkpoint topology cannot validate multi-latent attention"%string)
      end
  end.

(** ** Checking a checkpoint *)

(** [models/mod.rs:1207-1215] invalid_dense_decoder_checkpoint *)
Definition invalid_dense_decoder_checkpoint (a : LocalModelArtifacts) (message : string) : ModelArtifactError :=
  InvalidSafetensorsData (model_path a) message.

Section Checkpoint.
Context (parse_json : list N → Result string Json) (disk : Disk).

(** [models/mod.rs:1181-1205] require_tensor_shape *)
Definition require_tensor_shape (a : LocalModelArtifacts) (tensor_name : string) (expected_shape : list N) : option (Result ModelArtifactError unit) :=
  let^ found := manifest_tensor_metadata disk parse_json (safetensors a) tensor_name in
  let^ m := Some (ok_or found (invalid_dense_decoder_checkpoint a ("missing dense decoder checkpoint tensor " +:+ tensor_name))) in
  if bool_decide (shape m = expected_shape) then Some (Ok tt)
  else Some (Err (invalid_dense_decoder_checkpoint a
    ("dense decoder tensor " +:+ tensor_name +:+ " shape " +:+ debug_list (shape m) +:+ " does not match expected " +:+ debug_list expected_shape))).

(** [models/mod.rs:1170-1179] require_optional_tensor_shape *)
Definition require_optional_tensor_shape (a : LocalModelArtifacts) (tensor_name : option string) (expected_shape : list N)
    : option (Result ModelArtifactError unit) :=
  match tensor_name with Some tensor_name => require_tensor_shape a tensor_name expected_shape | None => Some (Ok tt) end.

(** [models/mod.rs:827-865] ModelDefinition::validate_dense_decoder_checkpoint (layer) *)
Definition validate_dense_layer (a : LocalModelArtifacts) (hidden_size query_size kv_size head_dim intermediate_size : N) (layer : DenseDecoderLayerWeightNames)
    : option (Result ModelArtifactError unit) :=
  let^ c := require_tensor_shape a (dl_input_norm layer) [hidden_size] in
  let^ c := require_tensor_shape a (dl_query_weight layer) [query_size; hidden_size] in
  let^ c := require_optional_tensor_shape a (dl_query_bias layer) [query_size] in
  let^ c := require_optional_tensor_shape a (dl_query_norm layer) [head_dim] in
  let^ c := require_tensor_shape a (dl_key_weight layer) [kv_size; hidden_size] in
  let^ c := require_optional_tensor_shape a (dl_key_bias layer) [kv_size] in
  let^ c := require_optional_tensor_shape a (dl_key_norm layer) [head_dim] in
  let^ c := require_tensor_shape a (dl_value_weight layer) [kv_size; hidden_size] in
  let^ c := require_optional_tensor_shape a (dl_value_bias layer) [kv_size] in
  let^ c := require_tensor_shape a (dl_output_weight layer) [hidden_size; query_size] in
  let^ c := require_optional_tensor_shape a (dl_output_bias layer) [hidden_size] in
  let^ c := require_tensor_shape a (dl_post_attention_norm layer) [hidden_size] in
  let^ c := require_tensor_shape a (dl_gate_weight layer) [intermediate_size; hidden_size] in
  let^ c := require_tensor_shape a (dl_up_weight layer) [intermediate_size; hidden_size] in
  require_tensor_shape a (dl_down_weight layer) [hidden_size; intermediate_size].

(** [models/mod.rs:826-866] ModelDefinition::validate_dense_decoder_checkpoint (layers) *)
Fixpoint validate_dense_layers (a : LocalModelArtifacts) (hidden_size query_size kv_size head_dim intermediate_size : N) (layers : list DenseDecoderLayerWeightNames)
    : option (Result ModelArtifactError unit) :=
  match layers with
  | [] => Some (Ok tt)
  | layer :: layers =>
      let^ c := validate_dense_layer a hidden_size query_size kv_size head_dim intermediate_size layer in
      validate_dense_layers a hidden_size query_size kv_size head_dim intermediate_size layers
  end.

(** [models/mod.rs:778-868] ModelDefinition::validate_dense_decoder_checkpoint *)
Definition validate_dense_decoder_checkpoint (d : ModelDefinition) (a : LocalModelArtifacts) : option (Result ModelArtifactError unit) :=
  let invalid := invalid_dense_decoder_checkpoint a in
  match dense_decoder d with
  | None => Some (Err (invalid "model definition does not include a dense decoder execution plan"%string))
  | Some plan =>
      match execution d with
      | Transformer (MultiHead num_attention_heads num_key_value_heads head_dim) (Dense intermediate_size) =>
          let^ query_size := Some (ok_or (checked_mul num_attention_heads head_dim) (invalid "query projection size overflowed"%string)) in
          let^ kv_size := Some (ok_or (checked_mul num_key_value_heads head_dim) (invalid "KV projection size overflowed"%string)) in
          let^ c := require_tensor_shape a (dw_token_embeddings (dp_weights plan)) [dp_vocab_size plan; dp_hidden_size plan] in
          let^ c := require_tensor_shape a (dw_final_norm (dp_weights plan)) [dp_hidden_size plan] in
          let^ c := require_optional_tensor_shape a (dw_lm_head (dp_weights plan)) [dp_vocab_size plan; dp_hidden_size plan] in
          match dw_layers (dp_weights plan) with
          | [] => Some (Err (invalid "dense decoder weight map has no layers"%string))
          | layers => validate_dense_layers a (dp_hidden_size plan) query_size kv_size head_dim intermediate_size layers
          end
      | _ => Some (Err (invalid "dense decoder plan requires multi-head attention and dense feed-forward components"%string))
      end
  end.

(** [models/mod.rs:743-748] ModelDefinition::validate_checkpoint *)
Definition validate_checkpoint (d : ModelDefinition) (a : LocalModelArtifacts) : option (Result ModelArtifactError unit) :=
  validate_checkpoint_topology parse_json disk a (checkpoint_topology d).

(** [models/mod.rs:870-887] ModelDefinition::validate_hybrid_decoder_checkpoint *)
Definition validate_hybrid_decoder_checkpoint (d : ModelDefinition) (a : LocalModelArtifacts) : option (Result ModelArtifactError unit) :=
  match hybrid_decoder d with
  | None => Some (Err (invalid_dense_decoder_checkpoint a "model definition does not include a hybrid decoder execution plan"))
  | Some plan =>
      match hw_layers (hp_weights plan) with
      | [] => Some (Err (invalid_dense_decoder_checkpoint a "hybrid decoder weight map has no layers"))
      | _ => validate_checkpoint_topology parse_json disk a (checkpoint_topology d)
      end
  end.

End Checkpoint.

(** ** The two checks of a dense checkpoint *)

Lemma Ok_inj {E A} (x y : A) : @Ok E A x = Ok y → x = y.
Proof. by intros [= ->]. Qed.

Section Agree.
Context (parse_json : list N → Result string Json) (disk : Disk) (a : LocalModelArtifacts).

(** A required tensor is there with the shape asked for. *)
Definition requirement_holds (r : CheckpointTensorRequirement) : Prop :=
  ∃ m, manifest_tensor_metadata disk parse_json (safetensors a) (r_name r) = Some (Ok (Some m)) ∧
    match expected_shape r with Some s => shape m = s | None => True end.

Lemma validate_tensors_holds rs : validate_tensors parse_json disk a rs = Some (Ok tt) ↔ Forall requirement_holds rs.
Proof.
  induction rs as [|r rs IH]; cbn [validate_tensors]; [done|]. rewrite Forall_cons, <-IH. unfold requirement_holds.
  destruct (manifest_tensor_metadata disk parse_json (safetensors a) (r_name r)) as [[[m|]|e]|]; cbn [result_bind_opt ok_or];
    try (split; [done|by intros [(?&[=]&_) _]]).
  destruct (expected_shape r) as [s|].
  - case_bool_decide as Hs; [|by split; [|intros [(m'&[= <-]&?) _]]]. split; [intros Hv; split; [by exists m|done]|by intros [_ ?]].
  - split; [intros Hv; split; [by exists m|done]|by intros [_ ?]].
Qed.

Lemma require_tensor_shape_holds name s : require_tensor_shape parse_json disk a name s = Some (Ok tt) ↔ requirement_holds (requirement_with_shape name s).
Proof.
  unfold require_tensor_shape, requirement_holds. cbn [requirement_with_shape r_name expected_shape].
  destruct (manifest_tensor_metadata disk parse_json (safetensors a) name) as [[[m|]|e]|]; cbn [result_bind_opt ok_or];
    try (split; [done|by intros (?&[=]&_)]).
  case_bool_decide as Hs; [split; [by exists m|done]|]. split; [done|]. by intros (m'&[= <-]&?).
Qed.

Lemma require_optional_holds name s :
  require_optional_tensor_shape parse_json disk a name s = Some (Ok tt) ↔ Forall requirement_holds (with_optional_shapes [(name, s)]).
Proof.
  destruct name as [name|]; cbn; [|done]. rewrite require_tensor_shape_holds, Forall_cons, Forall_nil. naive_solver.
Qed.

Lemma and_then_holds (m m' : option (Result ModelArtifactError unit)) :
  result_bind_opt m (λ _, m') = Some (Ok tt) ↔ m = Some (Ok tt) ∧ m' = Some (Ok tt).
Proof. rewrite result_bind_opt_Ok. split; [by intros ([]&?&?)|by intros [? ?]; exists tt]. Qed.

Lemma with_optional_two e e' l :
  Forall requirement_holds (with_optional_shapes (e :: e' :: l)) ↔
  Forall requirement_holds (with_optional_shapes [e]) ∧ Forall requirement_holds (with_optional_shapes (e' :: l)).
Proof. destruct e as [[name|] s]; cbn; rewrite ?Forall_cons, ?Forall_nil; tauto. Qed.

Lemma dense_layer_holds hidden query kv head inter layer :
  validate_dense_layer parse_json disk a hidden query kv head inter layer = Some (Ok tt) ↔
  Forall requirement_holds (dense_layer_requirements hidden query kv head inter layer).
Proof.
  unfold validate_dense_layer, dense_layer_requirements. rewrite !and_then_holds, !require_tensor_shape_holds, !require_optional_holds.
  rewrite Forall_app. cbn [with_shapes fmap list_fmap fst snd]. rewrite !Forall_cons.
  rewrite !with_optional_two. assert (Forall requirement_holds [] ↔ True) as Hnil by done. tauto.
Qed.

Lemma dense_layers_hold hidden query kv head inter layers :
  validate_dense_layers parse_json disk a hidden query kv head inter layers = Some (Ok tt) ↔
  Forall requirement_holds (layers ≫= dense_layer_requirements hidden query kv head inter).
Proof.
  induction layers as [|layer layers IH]; cbn [validate_dense_layers mbind list_bind]; [done|].
  by rewrite and_then_holds, dense_layer_holds, Forall_app, IH.
Qed.

End Agree.

(** The check of dense decoders and the general check agree: for a definition
    whose required tensors are those of its dense plan, the general check accepts
    a checkpoint exactly when the dense check does and there are as many routed
    experts as expected. *)
Theorem dense_checks_agree parse_json disk d a plan topology :
  dense_decoder d = Some plan → dense_decoder_checkpoint_topology (architecture d) (execution d) plan = Ok topology → checkpoint_topology d = topology →
  validate_checkpoint parse_json disk d a = Some (Ok tt) ↔
    validate_dense_decoder_checkpoint parse_json disk d a = Some (Ok tt) ∧ ∃ c, validate_coverage parse_json disk a topology = Some (Ok c).
Proof.
  intros Hplan Htop Hd. unfold validate_checkpoint, validate_checkpoint_topology, validate_dense_decoder_checkpoint. rewrite Hd, Hplan. clear Hd Hplan.
  unfold dense_decoder_checkpoint_topology in Htop. destruct (execution d) as [[| heads kv_heads head| | |] [|inter|]]; try done.
  destruct (checked_mul heads head) as [query|]; cbn [ok_or result_bind result_bind_opt] in *; [|done].
  destruct (checked_mul kv_heads head) as [kv|]; cbn [ok_or result_bind result_bind_opt] in *; [|done].
  destruct (dw_layers (dp_weights plan)) as [|layer layers]; [done|]. apply Ok_inj in Htop as <-.
  rewrite !and_then_holds, dense_layers_hold, validate_tensors_holds, !require_tensor_shape_holds, require_optional_holds.
  unfold topology_new. cbn [required_tensors]. unfold embedding_requirements. rewrite !Forall_app. cbn [with_shapes fmap list_fmap fst snd].
  rewrite !Forall_cons, Forall_nil, result_bind_opt_Ok. split.
  - intros (?&c&Hc&_). split; [tauto|]. by exists c.
  - intros (?&c&Hc). split; [tauto|]. by exists c.
Qed.

Definition demo_dense_layer : DenseDecoderLayerWeightNames :=
  mkDenseLayer "in" "q" None (Some "qn"%string) "k" None None "v" None "o" None "post" "gate" "up" "down".
Definition demo_dense_plan : DenseDecoderExecutionPlan :=
  mkDensePlan 4 2 8 f32_zero f32_one Silu (mkDenseWeights "embed" "norm" None [demo_dense_layer]).
Definition demo_execution : ModelExecutionArchitecture := Transformer (MultiHead 2 1 2) (Dense 4).
Definition demo_topology : CheckpointTopology :=
  match dense_decoder_checkpoint_topology "Demo" demo_execution demo_dense_plan with Ok t => t | Err _ => topology_new [] end.
Definition demo_definition : ModelDefinition :=
  with_checkpoint_topology (with_dense_decoder (definition_new "Demo" config_default demo_execution [F32] None) demo_dense_plan) demo_topology.

Lemma dense_checks_agree_witness :
  validate_checkpoint expert_parse expert_disk demo_definition expert_artifacts = Some (Ok tt) ↔
    validate_dense_decoder_checkpoint expert_parse expert_disk demo_definition expert_artifacts = Some (Ok tt) ∧
    ∃ c, validate_coverage expert_parse expert_disk expert_artifacts demo_topology = Some (Ok c).
Proof. by apply (dense_checks_agree expert_parse expert_disk demo_definition expert_artifacts demo_dense_plan). Defined.
