(* ===== verification/ParallelPlan.v ===== *)
(** * The tensor-parallel plan of a dense model ([crates/sglang-srt/src/distributed/transformer_parallel.rs])

    [DenseTensorParallelPlan] says which attention heads and feed-forward columns
    a rank computes; key-value heads are split over the ranks or, when there are
    fewer of them than ranks, shared by neighbours. *)

From stdpp Require Import pretty.
From S2P Require Import Prelude Float32 Bytes Text Topology Safetensors SafetensorsCatalog ModelArtifacts KvLayout Models TensorSlice.
#[local] Open Scope N_scope.

Import Tp.

(** [distributed/transformer_parallel.rs:7-15] DenseTensorParallelPlan *)
Record DenseTensorParallelPlan : Type := mkPlan {
  query_partition : TensorPartition;
  kv_partition : TensorPartition;
  intermediate_partition : TensorPartition;
  local_query_head_count : N;
  local_kv_head_count : N;
  plan_head_dim : N;
  local_intermediate_size : N;
}.

(** [distributed/transformer_parallel.rs:117-135] DenseTensorParallelError *)
Inductive DenseTensorParallelError : Type :=
  | UnsupportedArchitecture
  | QueryHeadsNotDivisible (query_heads world_size : N)
  | KvHeadsNotDivisible (kv_heads world_size : N)
  | IntermediateNotDivisible (intermediate_size world_size : N)
  | PlanSizeOverflow (name : string)
  | Partition (e : TensorPartitionError).

(** [distributed/transformer_parallel.rs:138-167] DenseTensorParallelError::fmt *)
Definition DenseTensorParallelError_to_string (e : DenseTensorParallelError) : string :=
  match e with
  | UnsupportedArchitecture => "dense tensor parallel execution requires multi-head attention and dense feed-forward components"
  | QueryHeadsNotDivisible query_heads world_size =>
      "query head count " +:+ pretty query_heads +:+ " must be divisible by tensor parallel world size " +:+ pretty world_size
  | KvHeadsNotDivisible kv_heads world_size =>
      "KV head count " +:+ pretty kv_heads +:+ " must shard evenly across tensor parallel world size " +:+ pretty world_size
  | IntermediateNotDivisible intermediate_size world_size =>
      "feed-forward intermediate size " +:+ pretty intermediate_size +:+ " must be divisible by tensor parallel world size " +:+ pretty world_size
  | PlanSizeOverflow name => name +:+ " overflowed"
  | Partition e => "tensor partition is invalid: " +:+ TensorPartitionError_to_string e
  end.

(** [distributed/transformer_parallel.rs:18-77] DenseTensorParallelPlan::from_execution *)
Definition from_execution (execution : ModelExecutionArchitecture) (rank : TensorParallelRank) : Result DenseTensorParallelError DenseTensorParallelPlan :=
  match execution with
  | Transformer (MultiHead num_attention_heads num_key_value_heads head_dim) (Dense intermediate_size) =>
      let world_size := rank_world_size rank in
      if negb (is_multiple_of num_attention_heads world_size) then Err (QueryHeadsNotDivisible num_attention_heads world_size)
      else if negb (is_multiple_of intermediate_size world_size) then Err (IntermediateNotDivisible intermediate_size world_size)
      else
        let? kv :=
          if world_size <=? num_key_value_heads then
            if negb (is_multiple_of num_key_value_heads world_size) then Err (KvHeadsNotDivisible num_key_value_heads world_size)
            else Ok (for_rank rank, num_key_value_heads / world_size)
          else
            let? p := result_map_err Partition (for_replicated_shards rank num_key_value_heads) in
            Ok (p, 1) in
        Ok (mkPlan (for_rank rank) kv.1 (for_rank rank) (num_attention_heads / world_size) kv.2 head_dim (intermediate_size / world_size))
  | _ => Err UnsupportedArchitecture
  end.

(** [distributed/transformer_parallel.rs:178-185] checked_product *)
Definition plan_checked_product (left_ right_ : N) (name : string) : Result DenseTensorParallelError N :=
  ok_or (checked_mul left_ right_) (PlanSizeOverflow name).

(** [distributed/transformer_parallel.rs:99-105] DenseTensorParallelPlan::local_query_size *)
Definition local_query_size (p : DenseTensorParallelPlan) : Result DenseTensorParallelError N :=
  plan_checked_product (local_query_head_count p) (plan_head_dim p) "local query width".

(** [distributed/transformer_parallel.rs:107-109] DenseTensorParallelPlan::local_kv_size *)
Definition local_kv_size (p : DenseTensorParallelPlan) : Result DenseTensorParallelError N :=
  plan_checked_product (local_kv_head_count p) (plan_head_dim p) "local KV width".

(** ** Properties *)

(** A rank of a group of [world]. *)
Definition rank_in (world : N) (r : TensorParallelRank) : Prop := rank_world_size r = world ∧ global_rank r < world.

Lemma is_multiple_of_div a b : 0 < b → is_multiple_of a b = true → a = a / b * b.
Proof. intros Hb. apply is_multiple_of_spec. lia. Qed.

Lemma multiple_of_mul k b : 0 < b → is_multiple_of (k * b) b = true.
Proof. intros Hb. apply is_multiple_of_spec; [lia|]. by rewrite N.div_mul by lia. Qed.

(** The ranks that share a key-value head. *)
Lemma replicated_shard r world shards :
  rank_in world r → 0 < shards → shards < world → is_multiple_of world shards = true →
  for_replicated_shards r shards = Ok (mkPartition shards (global_rank r / (world / shards))) ∧ global_rank r / (world / shards) < shards.
Proof.
  intros [Hw Hr] Hs Hlt Hm. pose proof (is_multiple_of_div _ _ Hs Hm) as Hdiv. set (k := world / shards) in *.
  assert (0 < k) as Hk by (destruct (N.eq_dec k 0) as [E|]; [rewrite E in Hdiv|]; lia).
  assert (global_rank r / k < shards) as Hindex by (apply N.Div0.div_lt_upper_bound; lia). split; [|done].
  unfold for_replicated_shards. rewrite Hw. destruct (N.eqb_spec shards 0); [lia|]. destruct (N.ltb_spec world shards); [lia|].
  rewrite Hm. cbn [negb]. fold k. unfold TensorPartition_new. destruct (N.eqb_spec shards 0); [lia|].
  by destruct (N.leb_spec shards (global_rank r / k)); [lia|].
Qed.

(** The check of a definition and the plans of the ranks agree: a dense model
    passes [validate_tensor_parallel] for a number of ranks exactly when every
    rank of a group of that size gets a plan. *)
Theorem plan_exists_iff_validated heads kv_heads head inter world r :
  0 < world → rank_in world r →
  execution_validate_tensor_parallel (Transformer (MultiHead heads kv_heads head) (Dense inter)) world = Ok tt ↔
  ∃ plan, from_execution (Transformer (MultiHead heads kv_heads head) (Dense inter)) r = Ok plan.
Proof.
  intros Hworld Hrank. pose proof Hrank as [Hw Hr]. unfold from_execution, execution_validate_tensor_parallel, attention_validate_tensor_parallel.
  rewrite Hw. destruct (is_multiple_of heads world); cbn [negb result_bind]; [|split; [done|by intros [? ?]]].
  cbn [check_head_counts]. destruct (N.leb_spec world kv_heads) as [Hle|Hgt].
  - destruct (is_multiple_of kv_heads world); cbn [negb result_bind]; destruct (is_multiple_of inter world); cbn [negb result_bind];
      (split; [try done; by eexists|try done; by intros [? ?]]).
  - destruct (is_multiple_of world kv_heads) eqn:Hm; cbn [negb result_bind]; destruct (is_multiple_of inter world); cbn [negb result_bind];
      try (split; [done|by intros [? ?]]).
    + assert (0 < kv_heads) as Hkv. { destruct (N.eq_dec kv_heads 0) as [->|]; [|lia]. unfold is_multiple_of in Hm. cbn in Hm. apply N.eqb_eq in Hm. lia. }
      destruct (replicated_shard r world kv_heads Hrank Hkv Hgt Hm) as [-> _]. cbn. split; [by eexists|done].
    + split; [done|]. intros [plan Hp]. unfold for_replicated_shards in Hp. rewrite Hw, Hm in Hp. destruct (kv_heads =? 0); [done|].
      by destruct (world <? kv_heads).
Qed.

Lemma div_between q g lo n : 0 < g → lo * g ≤ q → q < (lo + n) * g → lo ≤ q / g < lo + n.
Proof.
  intros Hg Hlo Hhi. split.
  - apply N.div_le_lower_bound; lia.
  - apply N.Div0.div_lt_upper_bound. lia.
Qed.

(** The ranges of a partition in equal parts. *)
Lemma for_rank_range r world extent k :
  rank_in world r → extent = k * world → extent ≤ usize_MAX → range (for_rank r) extent = Ok (global_rank r * k, global_rank r * k + k).
Proof.
  intros [Hw Hr] -> Hmax. unfold for_rank. rewrite Hw. by apply (range_whole (mkPartition world (global_rank r)) k).
Qed.

(** Every rank computes whole attention groups: its query heads and its key-value
    heads are consecutive ranges of the sizes the plan says, the ranges of the
    query heads of all ranks are side by side, and the key-value head a query head
    attends with is one of the rank's own, whether key-value heads are split or
    shared. *)
Theorem plan_keeps_groups_together heads kv_heads head inter world r plan :
  rank_in world r → heads ≤ usize_MAX → 0 < kv_heads → is_multiple_of heads kv_heads = true → 0 < heads →
  from_execution (Transformer (MultiHead heads kv_heads head) (Dense inter)) r = Ok plan →
  ∃ q0 k0, local_query_head_count plan * world = heads ∧ q0 = global_rank r * local_query_head_count plan ∧
    range (query_partition plan) heads = Ok (q0, q0 + local_query_head_count plan) ∧
    range (kv_partition plan) kv_heads = Ok (k0, k0 + local_kv_head_count plan) ∧
    ∀ q, q0 ≤ q < q0 + local_query_head_count plan → k0 ≤ q / (heads / kv_heads) < k0 + local_kv_head_count plan.
Proof.
  intros Hrank Hmax Hkv Hgroup Hheads Hplan. pose proof Hrank as [Hw Hr]. assert (0 < world) as Hworld by lia.
  unfold from_execution in Hplan. rewrite Hw in Hplan. destruct (is_multiple_of heads world) eqn:Hq; cbn [negb] in Hplan; [|done].
  destruct (is_multiple_of inter world); cbn [negb] in Hplan; [|done].
  apply is_multiple_of_div in Hq; [|done]. apply is_multiple_of_div in Hgroup; [|done].
  set (lq := heads / world) in *. set (g := heads / kv_heads) in *.
  assert (0 < g) as Hg by (destruct (N.eq_dec g 0) as [E|]; [rewrite E in Hgroup|]; lia).
  assert (kv_heads ≤ usize_MAX) as Hkmax by (etransitivity; [|exact Hmax]; rewrite Hgroup, N.mul_comm; by apply le_mul_pos).
  destruct (N.leb_spec world kv_heads) as [Hle|Hgt].
  - destruct (is_multiple_of kv_heads world) eqn:Hm; cbn [negb] in Hplan; [|done]. apply is_multiple_of_div in Hm; [|done].
    cbn [result_bind fst snd] in Hplan. injection Hplan as <-. set (lk := kv_heads / world) in *.
    cbn [local_query_head_count local_kv_head_count query_partition kv_partition].
    assert (lq = lk * g) as Hlq by (apply (N.mul_cancel_r _ _ world); [lia|]; rewrite <-Hq, Hgroup, Hm at 1; lia).
    exists (global_rank r * lq), (global_rank r * lk). split; [done|]. split; [done|].
    split; [by eapply for_rank_range|]. split; [by eapply for_rank_range|]. intros q Hqr. apply div_between; [done|rewrite Hlq in Hqr; lia..].
  - destruct (for_replicated_shards r kv_heads) as [p|] eqn:Hp; cbn [result_map_err result_bind fst snd] in Hplan; [|done].
    assert (is_multiple_of world kv_heads = true) as Hm.
    { unfold for_replicated_shards in Hp. rewrite Hw in Hp. destruct (kv_heads =? 0); [done|]. destruct (world <? kv_heads); [done|].
      by destruct (is_multiple_of world kv_heads). }
    destruct (replicated_shard r world kv_heads Hrank Hkv Hgt Hm) as [Heq Hindex]. rewrite Heq in Hp. injection Hp as <-. injection Hplan as <-.
    apply is_multiple_of_div in Hm; [|done]. set (rep := world / kv_heads) in *. set (shard := global_rank r / rep) in *.
    cbn [local_query_head_count local_kv_head_count query_partition kv_partition].
    assert (g = lq * rep) as Hlg by (apply (N.mul_cancel_r _ _ kv_heads); [lia|]; rewrite <-Hgroup, Hq, Hm at 1; lia).
    assert (0 < rep) as Hrep by (destruct (N.eq_dec rep 0) as [E|]; [rewrite E in Hm|]; lia).
    exists (global_rank r * lq), shard. split; [done|]. split; [done|]. split; [by eapply for_rank_range|]. split.
    + pose proof (range_whole (mkPartition kv_heads shard) 1) as Hrange. cbn [partition_count partition_index] in Hrange.
      rewrite !N.mul_1_l, N.mul_1_r in Hrange. by apply Hrange.
    + intros q Hqr. pose proof (N.div_mod (global_rank r) rep ltac:(lia)) as Hd. pose proof (N.mod_lt (global_rank r) rep ltac:(lia)) as Hml.
      fold shard in Hd. set (m := global_rank r mod rep) in *. apply div_between; [done|..].
      * rewrite Hlg. transitivity (global_rank r * lq); [|lia]. rewrite Hd. lia.
      * rewrite Hlg. apply N.lt_le_trans with ((global_rank r + 1) * lq); [lia|]. rewrite (N.mul_comm lq rep), N.mul_assoc. apply N.mul_le_mono_r. lia.
Qed.

(** ** Witnesses *)

Definition demo_rank : TensorParallelRank := mkRank 5 1 8 1.

Lemma plan_exists_iff_validated_witness :
  execution_validate_tensor_parallel (Transformer (MultiHead 32 4 128) (Dense 4096)) 8 = Ok tt ↔
  ∃ plan, from_execution (Transformer (MultiHead 32 4 128) (Dense 4096)) demo_rank = Ok plan.
Proof. by apply plan_exists_iff_validated. Defined.

(** Eight ranks share four key-value heads in pairs. *)
Lemma plan_keeps_groups_together_witness :
  let plan := mkPlan (mkPartition 8 5) (mkPartition 4 2) (mkPartition 8 5) 4 1 128 512 in
  ∃ q0 k0, local_query_head_count plan * 8 = 32 ∧ q0 = global_rank demo_rank * local_query_head_count plan ∧
    range (query_partition plan) 32 = Ok (q0, q0 + local_query_head_count plan) ∧
    range (kv_partition plan) 4 = Ok (k0, k0 + local_kv_head_count plan) ∧
    ∀ q, q0 ≤ q < q0 + local_query_head_count plan → k0 ≤ q / (32 / 4) < k0 + local_kv_head_count plan.
Proof. by apply (plan_keeps_groups_together 32 4 128 4096 8 demo_rank). Defined.
