(* ===== verification/Qwen.v ===== *)
(** * Dense Qwen models ([crates/sglang-srt/src/models/qwen.rs], [model_registry.rs])

    The adapter of the Qwen 2 and Qwen 3 families builds a model definition from
    a configuration, and the registry picks the adapter by the architecture the
    configuration names.  Reading the configuration into a record is derived by
    serde and a parameter here. *)

From stdpp Require Import pretty.
From Stdlib Require Import SpecFloat.
From S2P Require Import Prelude Float32 Bytes Text Safetensors SafetensorsCatalog ModelArtifacts KvLayout Models.
#[local] Open Scope N_scope.

(** ** Numbers of a configuration *)

(** [f64] as specification floats. *)
Definition f64 : Type := spec_float.
Definition f64_of_Z (z : Z) : f64 := binary_normalize 53 1024 z 0 false.
Definition f64_from_bits (bits : N) : f64 :=
  let sign := N.testbit bits 63 in
  let exponent := N.land (N.shiftr bits 52) 2047 in
  let mantissa := N.land bits (2 ^ 52 - 1) in
  if exponent =? 0 then match mantissa with 0 => S754_zero sign | Npos m => S754_finite sign m (-1074) end
  else if exponent =? 2047 then match mantissa with 0 => S754_infinity sign | Npos _ => S754_nan end
  else match mantissa + 2 ^ 52 with 0 => S754_nan | Npos m => S754_finite sign m (Z.of_N exponent - 1075) end.

(** [x as f32], rounding to nearest. *)
Definition f32_of_f64 (x : f64) : f32 :=
  match x with
  | S754_finite sign m e => binary_normalize f32_prec f32_emax (if sign then Zneg m else Zpos m) e sign
  | x => x
  end.

(** [Value::as_f64] and [Value::as_bool] *)
Definition as_f64 (v : Json) : option f64 :=
  match v with
  | JUint n => Some (f64_of_Z (Z.of_N n))
  | JInt z => Some (f64_of_Z z)
  | JFloat bits => Some (f64_from_bits bits)
  | _ => None
  end.
Definition as_bool (v : Json) : option bool := match v with JBool b => Some b | _ => None end.

(** [{:?}] of an [Option<usize>]. *)
Definition debug_option (o : option N) : string := match o with Some n => "Some(" +:+ pretty n +:+ ")" | None => "None" end.

(** ** The configuration *)

(** [models/qwen.rs:25-44] QwenDenseConfig *)
Record QwenDenseConfig : Type := mkQwenConfig {
  qc_vocab_size : option N;
  qc_max_position_embeddings : option N;
  qc_num_hidden_layers : option N;
  qc_hidden_size : option N;
  qc_intermediate_size : option N;
  qc_num_attention_heads : option N;
  qc_original_num_attention_heads : option N;
  qc_num_key_value_heads : option N;
  qc_head_dim : option N;
  qc_hidden_act : option string;
  qc_attention_bias : option bool;
  qc_rms_norm_eps : option f64;
  qc_rope_theta : option f64;
  qc_rope_scaling : option Json;
  qc_rope_parameters : option Json;
  qc_use_sliding_window : option bool;
  qc_sliding_window : option N;
  qc_tie_word_embeddings : option bool;
}.

(** [models/qwen.rs:16-16] QWEN2_ARCHITECTURE *)
Definition QWEN2_ARCHITECTURE : string := "Qwen2ForCausalLM".
(** [models/qwen.rs:17-17] QWEN3_ARCHITECTURE *)
Definition QWEN3_ARCHITECTURE : string := "Qwen3ForCausalLM".

(** [models/qwen.rs:246-252] rope_parameter *)
Definition rope_parameter (c : QwenDenseConfig) (field : string) : option f64 :=
  parameters ← qc_rope_parameters c; json_get field parameters ≫= as_f64.

(** [models/qwen.rs:254-289] validate_default_rope *)
Definition validate_default_rope (architecture : string) (c : QwenDenseConfig) : Result ModelAdapterError unit :=
  match (match qc_rope_scaling c with Some v => Some v | None => qc_rope_parameters c end) with
  | None => Ok tt
  | Some rope_scaling =>
      let? parameters := ok_or (as_object rope_scaling) (adapter_invalid architecture "rope_scaling/rope_parameters must be an object") in
      let rope_type := default "default"%string
        ((match field "rope_type" parameters with Some v => Some v | None => field "type" parameters end) ≫= as_str) in
      if negb (rope_type =? "default")%string || bool_decide (is_Some (field "mrope_section" parameters))
         || bool_decide (field "use_fope" parameters ≫= as_bool = Some true)
      then Err (adapter_invalid architecture ("RoPE variant " +:+ rope_type +:+ " is not implemented by the dense decoder backend"))
      else Ok tt
  end.

(** ** Names of the weights *)

Definition layer_prefix (layer_id : N) (suffix : string) : string := "model.layers." +:+ pretty layer_id +:+ suffix.
Definition name_if (b : bool) (name : string) : option string := if b then Some name else None.

(** [models/qwen.rs:297-316] qwen2_weight_names (layer) *)
Definition qwen2_layer_names (layer_id : N) : DenseDecoderLayerWeightNames :=
  let name := layer_prefix layer_id in
  mkDenseLayer (name ".input_layernorm.weight"%string)
    (name ".self_attn.q_proj.weight"%string) (Some (name ".self_attn.q_proj.bias"%string)) None
    (name ".self_attn.k_proj.weight"%string) (Some (name ".self_attn.k_proj.bias"%string)) None
    (name ".self_attn.v_proj.weight"%string) (Some (name ".self_attn.v_proj.bias"%string))
    (name ".self_attn.o_proj.weight"%string) None
    (name ".post_attention_layernorm.weight"%string)
    (name ".mlp.gate_proj.weight"%string) (name ".mlp.up_proj.weight"%string) (name ".mlp.down_proj.weight"%string).

(** [models/qwen.rs:331-350] qwen3_weight_names (layer) *)
Definition qwen3_layer_names (attention_bias : bool) (layer_id : N) : DenseDecoderLayerWeightNames :=
  let name := layer_prefix layer_id in
  mkDenseLayer (name ".input_layernorm.weight"%string)
    (name ".self_attn.q_proj.weight"%string) (name_if attention_bias (name ".self_attn.q_proj.bias"%string)) (Some (name ".self_attn.q_norm.weight"%string))
    (name ".self_attn.k_proj.weight"%string) (name_if attention_bias (name ".self_attn.k_proj.bias"%string)) (Some (name ".self_attn.k_norm.weight"%string))
    (name ".self_attn.v_proj.weight"%string) (name_if attention_bias (name ".self_attn.v_proj.bias"%string))
    (name ".self_attn.o_proj.weight"%string) (name_if attention_bias (name ".self_attn.o_proj.bias"%string))
    (name ".post_attention_layernorm.weight"%string)
    (name ".mlp.gate_proj.weight"%string) (name ".mlp.up_proj.weight"%string) (name ".mlp.down_proj.weight"%string).

Definition weight_names (layer_names : N → DenseDecoderLayerWeightNames) (num_layers : N) (tied_embeddings : bool) : DenseDecoderWeightNames :=
  mkDenseWeights "model.embed_tokens.weight" "model.norm.weight" (name_if (negb tied_embeddings) "lm_head.weight") (layer_names <$> nrange 0 num_layers).

(** [models/qwen.rs:291-319] qwen2_weight_names *)
Definition qwen2_weight_names : N → bool → DenseDecoderWeightNames := weight_names qwen2_layer_names.

(** [models/qwen.rs:321-353] qwen3_weight_names *)
Definition qwen3_weight_names (num_layers : N) (tied_embeddings attention_bias : bool) : DenseDecoderWeightNames :=
  weight_names (qwen3_layer_names attention_bias) num_layers tied_embeddings.

(** ** Building a definition *)

(** [models/qwen.rs:129-151] build_qwen_definition (head_dim) *)
Definition qwen_head_dim (architecture : string) (c : QwenDenseConfig) (hidden_size num_attention_heads : N) : Result ModelAdapterError N :=
  let head_divisor := default num_attention_heads (qc_original_num_attention_heads c) in
  let by_division :=
    if is_multiple_of hidden_size head_divisor then Ok (hidden_size / head_divisor)
    else Err (adapter_invalid architecture
      ("hidden_size (" +:+ pretty hidden_size +:+ ") must be divisible by attention head divisor (" +:+ pretty head_divisor +:+ ")")) in
  match qc_original_num_attention_heads c, qc_head_dim c with
  | Some _, _ | None, None => by_division
  | None, Some head_dim => if 0 <? head_dim then Ok head_dim else Err (adapter_invalid architecture "head_dim must be non-zero")
  end.

(** [models/qwen.rs:159-170] build_qwen_definition (hidden_act) *)
Definition check_hidden_act (architecture : string) (hidden_act : option string) : Result ModelAdapterError unit :=
  match hidden_act with
  | Some hidden_act =>
      if (hidden_act =? "silu")%string then Ok tt
      else Err (adapter_invalid architecture ("unsupported hidden_act " +:+ hidden_act +:+ "; shared dense decoder requires silu"))
  | None => Err (missing_field architecture "hidden_act")
  end.

(** [models/qwen.rs:104-244] build_qwen_definition *)
Definition build_qwen_definition (hf_config : HfModelConfig) (c : QwenDenseConfig) (architecture : string)
    (weight_names : N → bool → DenseDecoderWeightNames) : Result ModelAdapterError ModelDefinition :=
  let invalid := adapter_invalid architecture in
  let? vocab_size := required_usize architecture "vocab_size" (qc_vocab_size c) in
  let? num_layers := required_usize architecture "num_hidden_layers" (qc_num_hidden_layers c) in
  let? hidden_size := required_usize architecture "hidden_size" (qc_hidden_size c) in
  let? intermediate_size := required_usize architecture "intermediate_size" (qc_intermediate_size c) in
  let? num_attention_heads := required_usize architecture "num_attention_heads" (qc_num_attention_heads c) in
  let num_key_value_heads := default num_attention_heads (qc_num_key_value_heads c) in
  if (num_key_value_heads =? 0) || negb (is_multiple_of num_attention_heads num_key_value_heads) then
    Err (invalid ("num_attention_heads (" +:+ pretty num_attention_heads +:+ ") must be divisible by non-zero num_key_value_heads ("
      +:+ pretty num_key_value_heads +:+ ")"))
  else
    let? head_dim := qwen_head_dim architecture c hidden_size num_attention_heads in
    if negb (is_multiple_of head_dim 2) then Err (invalid ("NeoX RoPE requires an even head_dim, found " +:+ pretty head_dim))
    else
      let? act := check_hidden_act architecture (qc_hidden_act c) in
      if bool_decide (qc_use_sliding_window c = Some true) then
        Err (invalid ("sliding-window attention is not implemented (sliding_window=" +:+ debug_option (qc_sliding_window c) +:+ ")"))
      else
        let? rope := validate_default_rope architecture c in
        let? eps := ok_or (qc_rms_norm_eps c) (missing_field architecture "rms_norm_eps") in
        let rms_norm_eps := f32_of_f64 eps in
        if negb (f32_is_finite rms_norm_eps) || f32_lt rms_norm_eps f32_zero then Err (invalid "rms_norm_eps must be finite and non-negative"%string)
        else
          let rope_theta := f32_of_f64 (default (f64_of_Z 1000000)
            (match qc_rope_theta c with Some t => Some t | None => rope_parameter c "rope_theta" end)) in
          if negb (f32_is_finite rope_theta) || f32_le rope_theta f32_zero then Err (invalid "rope_theta must be finite and positive"%string)
          else
            let max_position_embeddings := default 32768 (qc_max_position_embeddings c) in
            if max_position_embeddings =? 0 then Err (invalid "max_position_embeddings must be non-zero"%string)
            else
              let execution := Transformer (MultiHead num_attention_heads num_key_value_heads head_dim) (Dense intermediate_size) in
              let plan := mkDensePlan vocab_size hidden_size max_position_embeddings rms_norm_eps rope_theta Silu
                (weight_names num_layers (bool_decide (qc_tie_word_embeddings c = Some true))) in
              let? topology := dense_decoder_checkpoint_topology architecture execution plan in
              Ok (with_dense_decoder
                (with_checkpoint_topology
                  (with_serving_metadata
                    (definition_new architecture hf_config execution [F32; Fp16; Bf16] (Some (multi_tensor num_layers num_key_value_heads head_dim 2)))
                    vocab_size max_position_embeddings)
                  topology)
                plan).

Section Adapters.
(** [serde_path_to_error::deserialize] of the text configuration. *)
Context (parse_qwen : Json → Result string QwenDenseConfig).

(** [models/qwen.rs:92-102] parse_qwen_config *)
Definition parse_qwen_config (config : HfModelConfig) (architecture : string) : Result ModelAdapterError QwenDenseConfig :=
  result_map_err (λ error, adapter_invalid architecture ("invalid Qwen dense config document: " +:+ error)) (parse_qwen (text_document (raw_document config))).

(** [models/qwen.rs:74-77] build_qwen2_definition *)
Definition build_qwen2_definition (config : HfModelConfig) : Result ModelAdapterError ModelDefinition :=
  let? typed := parse_qwen_config config QWEN2_ARCHITECTURE in
  build_qwen_definition config typed QWEN2_ARCHITECTURE qwen2_weight_names.

(** [models/qwen.rs:79-90] build_qwen3_definition *)
Definition build_qwen3_definition (config : HfModelConfig) : Result ModelAdapterError ModelDefinition :=
  let? typed := parse_qwen_config config QWEN3_ARCHITECTURE in
  let attention_bias := default false (qc_attention_bias typed) in
  build_qwen_definition config typed QWEN3_ARCHITECTURE (λ num_layers tied_embeddings, qwen3_weight_names num_layers tied_embeddings attention_bias).

End Adapters.

(** ** The registry *)

(** [models/mod.rs:1217-1225] ModelAdapter *)
Record ModelAdapter : Type := mkAdapter {
  architectures_of : list string;
  adapter_build : string → HfModelConfig → Result ModelAdapterError ModelDefinition;
}.

(** [sglang-srt/src/backend.rs:10-20] RuntimeBackend *)
Inductive RuntimeBackend : Type := Auto | Cpu | Cuda | Metal | Rocm | Musa | Xpu | Npu | Hpu.

(** [sglang-srt/src/model_registry.rs:367-398] ModelRegistryError *)
Inductive ModelRegistryError : Type :=
  | ModelArtifact (e : ModelArtifactError)
  | InvalidDevice (device : string)
  | MissingArchitectures (model_path : string)
  | UnsupportedArchitectures (model_path : string) (requested supported : list string)
  | BackendInitialization (requested : RuntimeBackend) (message : string)
  | MissingCapabilities (model_path architecture : string) (backend : RuntimeBackend) (missing : list string)
  | InvalidAdapterConfig (model_path architecture message : string)
  | ModelLoad (model_path architecture message : string).

Section Registry.
Context (adapters : list ModelAdapter).

(** [sglang-srt/src/model_registry.rs:149-152] ResolvedModelAdapter *)
Record ResolvedModelAdapter : Type := mkResolved {
  resolved_adapter : ModelAdapter;
  resolved_architecture : string;
}.

(** [sglang-srt/src/model_registry.rs:86-91] ModelRegistry::supported_architectures *)
Definition supported_architectures : list string := adapters ≫= architectures_of.

(** [sglang-srt/src/model_registry.rs:51-63] ModelRegistry::resolve (adapters) *)
Fixpoint resolve_among (requested : string) (l : list ModelAdapter) : option ResolvedModelAdapter :=
  match l with
  | [] => None
  | adapter :: l => if bool_decide (requested ∈ architectures_of adapter) then Some (mkResolved adapter requested) else resolve_among requested l
  end.

(** [sglang-srt/src/model_registry.rs:50-65] ModelRegistry::resolve (requested) *)
Fixpoint resolve_first (requested : list string) : option ResolvedModelAdapter :=
  match requested with
  | [] => None
  | a :: requested => match resolve_among a adapters with Some r => Some r | None => resolve_first requested end
  end.

(** [sglang-srt/src/model_registry.rs:39-75] ModelRegistry::resolve *)
Definition resolve (model_path : string) (config : HfModelConfig) : Result ModelRegistryError ResolvedModelAdapter :=
  match architectures config with
  | [] => Err (MissingArchitectures model_path)
  | requested => ok_or (resolve_first requested) (UnsupportedArchitectures model_path requested supported_architectures)
  end.

(** [sglang-srt/src/model_registry.rs:168-176] ResolvedModelAdapter::build_definition *)
Definition resolved_build (r : ResolvedModelAdapter) (model_path : string) (config : HfModelConfig) : Result ModelRegistryError ModelDefinition :=
  result_map_err (λ e, InvalidAdapterConfig model_path (resolved_architecture r) (adapter_message e))
    (adapter_build (resolved_adapter r) model_path config).

(** [sglang-srt/src/model_registry.rs:77-84] ModelRegistry::definition *)
Definition registry_definition (model_path : string) (config : HfModelConfig) : Result ModelRegistryError ModelDefinition :=
  let? r := resolve model_path config in resolved_build r model_path config.

(** [sglang-srt/src/model_registry.rs:93-102] ModelRegistry::validate_checkpoint *)
Definition registry_validate_checkpoint (parse_json : list N → Result string Json) (disk : Disk) (a : LocalModelArtifacts)
    : option (Result ModelRegistryError unit) :=
  let^ resolved := Some (resolve (model_path a) (config a)) in
  let^ definition := Some (resolved_build resolved (model_path a) (config a)) in
  result_map_err ModelArtifact <$> validate_checkpoint parse_json disk definition a.

End Registry.

(** ** Names do not collide *)

Lemma layer_prefix_inj l l' s s' : l ≤ usize_MAX → l' ≤ usize_MAX →
  layer_prefix l ("." +:+ s) = layer_prefix l' ("." +:+ s') → l = l' ∧ s = s'.
Proof.
  intros Hl Hl' He. unfold layer_prefix in He. pose proof (f_equal (strip_prefix "model.layers.") He) as Hs. rewrite !strip_prefix_app in Hs.
  apply (inj Some) in Hs. pose proof (f_equal (split_once 46) Hs) as Hsp.
  rewrite (split_once_free_sep 46 "." (pretty l)), (split_once_free_sep 46 "." (pretty l')) in Hsp by (done || by apply pretty_free).
  injection Hsp as Hp ->. split; [|done]. apply (f_equal parse_usize) in Hp. rewrite !parse_pretty in Hp by done. by injection Hp.
Qed.

Lemma layer_names_NoDup (sufs : list string) n :
  n ≤ usize_MAX → NoDup sufs → NoDup (nrange 0 n ≫= λ l, (λ s, layer_prefix l ("." +:+ s)) <$> sufs).
Proof.
  intros Hn Hs. apply NoDup_bind.
  - intros l l' name Hl Hl' (s&->&_)%list_elem_of_fmap (s'&He&_)%list_elem_of_fmap. apply elem_of_nrange in Hl, Hl'.
    by apply layer_prefix_inj in He as [-> _]; try lia.
  - intros l Hl. apply elem_of_nrange in Hl. apply NoDup_fmap_2_strong; [|done]. intros s s' _ _ He.
    by apply layer_prefix_inj in He as [_ ->]; try lia.
  - apply NoDup_nrange.
Qed.

Definition qwen2_suffixes : list string :=
  ["input_layernorm.weight"; "self_attn.q_proj.weight"; "self_attn.k_proj.weight"; "self_attn.v_proj.weight"; "self_attn.o_proj.weight";
   "post_attention_layernorm.weight"; "mlp.gate_proj.weight"; "mlp.up_proj.weight"; "mlp.down_proj.weight";
   "self_attn.q_proj.bias"; "self_attn.k_proj.bias"; "self_attn.v_proj.bias"].
Definition qwen3_suffixes (attention_bias : bool) : list string :=
  take 9 qwen2_suffixes ++
  (if attention_bias then ["self_attn.q_proj.bias"; "self_attn.q_norm.weight"; "self_attn.k_proj.bias"; "self_attn.k_norm.weight"; "self_attn.v_proj.bias"; "self_attn.o_proj.bias"]
   else ["self_attn.q_norm.weight"; "self_attn.k_norm.weight"])%string.

Lemma qwen2_required_names hidden query kv head inter l :
  r_name <$> dense_layer_requirements hidden query kv head inter (qwen2_layer_names l) = (λ s, layer_prefix l ("." +:+ s)) <$> qwen2_suffixes.
Proof. reflexivity. Qed.

Lemma qwen3_required_names hidden query kv head inter b l :
  r_name <$> dense_layer_requirements hidden query kv head inter (qwen3_layer_names b l) = (λ s, layer_prefix l ("." +:+ s)) <$> qwen3_suffixes b.
Proof. destruct b; reflexivity. Qed.

(** The layers of a family: each has the same named parts. *)
Definition uniform_names (layer_names : N → DenseDecoderLayerWeightNames) (sufs : list string) : Prop :=
  NoDup sufs ∧ ∀ hidden query kv head inter l,
    r_name <$> dense_layer_requirements hidden query kv head inter (layer_names l) = (λ s, layer_prefix l ("." +:+ s)) <$> sufs.

Lemma qwen2_uniform : uniform_names qwen2_layer_names qwen2_suffixes.
Proof. split; [by apply (bool_decide_unpack _); vm_compute|apply qwen2_required_names]. Qed.

Lemma qwen3_uniform b : uniform_names (qwen3_layer_names b) (qwen3_suffixes b).
Proof. split; [by destruct b; apply (bool_decide_unpack _); vm_compute|intros; apply qwen3_required_names]. Qed.

Lemma layers_required_names layer_names sufs hidden query kv head inter ls :
  uniform_names layer_names sufs →
  r_name <$> ((layer_names <$> ls) ≫= dense_layer_requirements hidden query kv head inter) = ls ≫= λ l, (λ s, layer_prefix l ("." +:+ s)) <$> sufs.
Proof.
  intros [_ Hu]. induction ls as [|l ls IH]; [done|]. cbn [fmap list_fmap mbind list_bind]. rewrite fmap_app, Hu. f_equal. exact IH.
Qed.

Lemma embedding_names vocab hidden n tied layer_names :
  let w := weight_names layer_names n tied in
  r_name <$> embedding_requirements (dw_token_embeddings w) (dw_final_norm w) (dw_lm_head w) vocab hidden =
    ["model.embed_tokens.weight"; "model.norm.weight"]%string ++ (if tied then [] else ["lm_head.weight"%string]).
Proof. by destruct tied. Qed.

Lemma required_names_NoDup layer_names sufs vocab hidden query kv head inter n tied :
  uniform_names layer_names sufs → n ≤ usize_MAX →
  let w := weight_names layer_names n tied in
  NoDup (r_name <$> embedding_requirements (dw_token_embeddings w) (dw_final_norm w) (dw_lm_head w) vocab hidden
    ++ (dw_layers w ≫= dense_layer_requirements hidden query kv head inter)).
Proof.
  intros Hu Hn w. rewrite fmap_app. unfold w at 4. cbn [weight_names dw_layers]. rewrite (layers_required_names _ sufs) by done.
  unfold w. rewrite embedding_names. apply NoDup_app. split; [by destruct tied; apply (bool_decide_unpack _); vm_compute|].
  split; [|apply layer_names_NoDup; [done|apply Hu]].
  intros name Hname (l&(s&->&_)%list_elem_of_fmap&_)%list_elem_of_bind. unfold layer_prefix in Hname.
  assert (Forall (λ name, strip_prefix "model.layers." name = None)
    (["model.embed_tokens.weight"; "model.norm.weight"]%string ++ (if tied then [] else ["lm_head.weight"%string]))) as Hall
    by (destruct tied; repeat constructor).
  rewrite Forall_forall in Hall. specialize (Hall _ Hname). by rewrite strip_prefix_app in Hall.
Qed.

(** ** The definitions of the adapters *)

Record dense_definition (d : ModelDefinition) (heads kv_heads head_dim inter num_layers : N) (plan : DenseDecoderExecutionPlan) : Prop := {
  dd_execution : execution d = Transformer (MultiHead heads kv_heads head_dim) (Dense inter);
  dd_heads : 0 < heads;
  dd_kv_heads : 0 < kv_heads;
  dd_groups : is_multiple_of heads kv_heads = true;
  dd_rotary : is_multiple_of head_dim 2 = true;
  dd_kv_cache : kv_cache_layout d = Some (multi_tensor num_layers kv_heads head_dim 2);
  dd_cache : cache_architecture d = PagedKv;
  dd_plan : dense_decoder d = Some plan;
  dd_layers : len (dw_layers (dp_weights plan)) = num_layers;
  dd_topology : dense_decoder_checkpoint_topology (architecture d) (execution d) plan = Ok (checkpoint_topology d);
}.

Lemma required_usize_Ok architecture name o n : required_usize architecture name o = Ok n → o = Some n ∧ 0 < n.
Proof.
  unfold required_usize. intros (m&Hm%ok_or_Ok&H)%result_bind_Ok. destruct (N.eqb_spec m 0); [done|]. injection H as <-. split; [done|lia].
Qed.

Lemma build_qwen_spec hf c architecture layer_names d :
  build_qwen_definition hf c architecture (λ n tied, weight_names layer_names n tied) = Ok d →
  ∃ heads kv_heads head_dim inter num_layers plan, dense_definition d heads kv_heads head_dim inter num_layers plan ∧
    qc_num_hidden_layers c = Some num_layers ∧ qc_num_attention_heads c = Some heads ∧ kv_heads = default heads (qc_num_key_value_heads c) ∧
    qc_intermediate_size c = Some inter ∧
    dp_weights plan = weight_names layer_names num_layers (bool_decide (qc_tie_word_embeddings c = Some true)).
Proof.
  unfold build_qwen_definition. cbv zeta. intros Hd.
  apply result_bind_Ok in Hd as (vocab&_&Hd). apply result_bind_Ok in Hd as (n&(Hn&_)%required_usize_Ok&Hd).
  apply result_bind_Ok in Hd as (hidden&_&Hd). apply result_bind_Ok in Hd as (inter&(Hinter&_)%required_usize_Ok&Hd).
  apply result_bind_Ok in Hd as (heads&(Hheads&Hh)%required_usize_Ok&Hd). set (kv := default heads _) in *.
  destruct (N.eqb_spec kv 0); [done|]. destruct (is_multiple_of heads kv) eqn:Hg; cbn [orb negb] in Hd; [|done].
  apply result_bind_Ok in Hd as (head&_&Hd). destruct (is_multiple_of head 2) eqn:Heven; cbn [negb] in Hd; [|done].
  apply result_bind_Ok in Hd as (act&_&Hd). destruct (bool_decide (qc_use_sliding_window c = _)); [done|].
  apply result_bind_Ok in Hd as (rope&_&Hd). apply result_bind_Ok in Hd as (eps&_&Hd).
  destruct (_ || _)%bool; [done|]. destruct (_ || _)%bool; [done|]. destruct (_ =? 0); [done|].
  apply result_bind_Ok in Hd as (topology&Ht&Hd). apply Ok_inj in Hd as <-.
  exists heads, kv, head, inter, n. match type of Ht with dense_decoder_checkpoint_topology _ _ ?p = _ => exists p end.
  split; [|by repeat split].
  split; try done; [lia|].
  cbn [dp_weights weight_names dw_layers].
  unfold len. rewrite length_fmap. pose proof (len_nrange 0 n) as Hl. unfold len in Hl. lia.
Qed.

Lemma built_names_NoDup d heads kv_heads head_dim inter n plan layer_names sufs tied :
  dense_definition d heads kv_heads head_dim inter n plan → uniform_names layer_names sufs → n ≤ usize_MAX →
  dp_weights plan = weight_names layer_names n tied → NoDup (r_name <$> required_tensors (checkpoint_topology d)).
Proof.
  intros Hd Hu Hn Hw. pose proof (dd_topology _ _ _ _ _ _ _ Hd) as Ht. rewrite (dd_execution _ _ _ _ _ _ _ Hd) in Ht.
  unfold dense_decoder_checkpoint_topology in Ht. apply result_bind_Ok in Ht as (query&_&Ht). apply result_bind_Ok in Ht as (kv&_&Ht).
  destruct (dw_layers (dp_weights plan)) as [|layer layers] eqn:Hl; [done|]. apply Ok_inj in Ht. rewrite <-Ht, <-Hl, Hw.
  by apply (required_names_NoDup _ sufs).
Qed.

(** What the Qwen adapters build is coherent: attention heads come in whole groups
    of key-value heads of an even width, the KV cache is laid out for exactly the
    layers and key-value heads the plan computes, the plan has one set of weights a
    layer, the tensors the checkpoint must have are those of the plan, and no two of
    them share a name. *)
Theorem qwen_definition_coherent parse_qwen config d :
  (∀ v c n, parse_qwen v = Ok c → qc_num_hidden_layers c = Some n → n ≤ usize_MAX) →
  build_qwen2_definition parse_qwen config = Ok d ∨ build_qwen3_definition parse_qwen config = Ok d →
  ∃ heads kv_heads head_dim inter n plan, dense_definition d heads kv_heads head_dim inter n plan ∧
    NoDup (r_name <$> required_tensors (checkpoint_topology d)).
Proof.
  intros Husize Hd. assert (∃ v c layer_names sufs, parse_qwen v = Ok c ∧ uniform_names layer_names sufs ∧
    ∃ architecture, build_qwen_definition config c architecture (λ n tied, weight_names layer_names n tied) = Ok d)
    as (v&c&layer_names&sufs&Hc&Hu&architecture&Hb).
  { unfold build_qwen2_definition, build_qwen3_definition, parse_qwen_config in Hd.
    destruct Hd as [(c&Hc&Hb)%result_bind_Ok|(c&Hc&Hb)%result_bind_Ok];
      destruct (parse_qwen (text_document (raw_document config))) as [c'|] eqn:Hp; cbn [result_map_err] in Hc; try done; injection Hc as ->;
      eexists _, c; [eexists _, _|eexists _, _]; (split; [exact Hp|]); (split; [|eexists; exact Hb]); [apply qwen2_uniform|apply qwen3_uniform]. }
  destruct (build_qwen_spec _ _ _ _ _ Hb) as (heads&kv&head&inter&n&plan&Hdef&Hn&_&_&_&Hw).
  exists heads, kv, head, inter, n, plan. split; [done|]. eapply built_names_NoDup; try done. by eapply Husize.
Qed.

(** ** Witness *)

Definition demo_qwen : QwenDenseConfig :=
  mkQwenConfig (Some 8) (Some 32) (Some 2) (Some 8) (Some 16) (Some 4) None (Some 2) None (Some "silu"%string) (Some true)
    (Some (f64_from_bits 0x3EB0C6F7A0B5ED8D)) None None None None None (Some true).
Definition demo_qwen_parse (_ : Json) : Result string QwenDenseConfig := Ok demo_qwen.
Definition demo_qwen_definition : ModelDefinition :=
  match build_qwen3_definition demo_qwen_parse config_default with Ok d => d | Err _ => demo_definition end.

Example demo_qwen_built :
  r_name <$> take 4 (required_tensors (checkpoint_topology demo_qwen_definition)) =
    ["model.embed_tokens.weight"; "model.norm.weight"; "model.layers.0.input_layernorm.weight"; "model.layers.0.self_attn.q_proj.weight"]%string ∧
  len (required_tensors (checkpoint_topology demo_qwen_definition)) = 32.
Proof. by vm_compute. Qed.

Lemma qwen_definition_coherent_witness :
  ∃ heads kv_heads head_dim inter n plan, dense_definition demo_qwen_definition heads kv_heads head_dim inter n plan ∧
    NoDup (r_name <$> required_tensors (checkpoint_topology demo_qwen_definition)).
Proof.
  apply (qwen_definition_coherent demo_qwen_parse config_default).
  - intros v c n [= <-] [= <-]. done.
  - right. by vm_compute.
Defined.
