(* ===== verification/PdWire.v ===== *)
(** * Bootstrap frames ([crates/sglang-srt/src/transfer/pd_bootstrap.rs])

    The multipart messages a decode worker sends to a prefill worker before a
    KV transfer: registration of its memory and metadata of a transfer room.
    Encoding, decoding with every error, and the proof that decoding inverts
    encoding.  A field is a list of bytes, a message a list of fields. *)

From stdpp Require Import pretty.
From S2P Require Import Prelude Bytes Text Types TransferDescriptor Tokenizer.

Implicit Types (frame : list (list N)) (index : nat) (name : string) (bytes : list N).

(** [pd_bootstrap.rs:750-774] PdBootstrapFrameError *)
Inductive PdBootstrapFrameError : Type :=
  | MissingField (frame : string) (expected actual : N)
  | Utf8Field (field : string)
  | IntegerField (field value : string)
  | BinaryLength (field : string) (width actual : N)
  | PackedListHeader (field : string)
  | PackedListLength (field : string).

(** [pd_bootstrap.rs:778-809] PdBootstrapFrameError::fmt *)
Definition PdBootstrapFrameError_to_string (e : PdBootstrapFrameError) : string :=
  match e with
  | MissingField frame expected actual => frame +:+ " frame requires at least " +:+ pretty expected +:+ " fields, got " +:+ pretty actual
  | Utf8Field field => field +:+ " must be ASCII/UTF-8"
  | IntegerField field value => field +:+ " must be an integer, got " +:+ value
  | BinaryLength field width actual => field +:+ " byte length " +:+ pretty actual +:+ " must be divisible by " +:+ pretty width
  | PackedListHeader field => field +:+ " packed list header is incomplete"
  | PackedListLength field => field +:+ " packed list payload is incomplete"
  end.

(** ** Reading fields *)

(** [pd_bootstrap.rs:1777-1790] require_min_fields *)
Definition require_min_fields frame (expected : N) (frame_name : string) : Result PdBootstrapFrameError unit :=
  if len frame <? expected then Err (MissingField frame_name expected (len frame)) else Ok tt.

(** [pd_bootstrap.rs:1792-1805] field *)
Definition field frame index name : Result PdBootstrapFrameError (list N) :=
  ok_or (frame !! index) (MissingField name (N.of_nat index + 1) (len frame)).

(** [pd_bootstrap.rs:1807-1814] ascii_field *)
Definition ascii_field frame index name : Result PdBootstrapFrameError string :=
  let? bytes := field frame index name in
  match from_utf8 bytes with Ok _ => Ok (bytes_string bytes) | Err _ => Err (Utf8Field name) end.

(** [pd_bootstrap.rs:1816-1828] parse_i32 *)
Definition parse_i32 frame index name : Result PdBootstrapFrameError Z :=
  let? value := ascii_field frame index name in
  ok_or (parse_signed 32 value) (IntegerField name value).

(** [pd_bootstrap.rs:1830-1850] parse_bootstrap_room *)
Definition parse_bootstrap_room frame index name : Result PdBootstrapFrameError N :=
  let? value := ascii_field frame index name in
  let? room := ok_or (parse_unsigned (2 ^ 64 - 1) value) (IntegerField name value) in
  if 2 ^ 63 - 1 <? room then Err (IntegerField name value) else Ok room.

(** [pd_bootstrap.rs:1852-1864] parse_u16 *)
Definition parse_u16 frame index name : Result PdBootstrapFrameError N :=
  let? value := ascii_field frame index name in
  ok_or (parse_unsigned (2 ^ 16 - 1) value) (IntegerField name value).

(** [pd_bootstrap.rs:1866-1878] parse_usize *)
Definition parse_usize_field frame index name : Result PdBootstrapFrameError N :=
  let? value := ascii_field frame index name in
  ok_or (parse_usize value) (IntegerField name value).

(** [pd_bootstrap.rs:1880-1892] optional_usize *)
Definition optional_usize frame index name : Result PdBootstrapFrameError (option N) :=
  match frame !! index with
  | None => Ok None
  | Some [] => Ok None
  | Some _ => let? n := parse_usize_field frame index name in Ok (Some n)
  end.

(** ** Packed integers *)

(** The full chunks of [chunks_exact]; there is nothing else where the length divides. *)
Fixpoint exact_chunks (count width : nat) bytes : list (list N) :=
  match count with O => [] | S count => take width bytes :: exact_chunks count width (drop width bytes) end.

(** [pd_bootstrap.rs:1941-1958] unpack_fixed_width *)
Definition unpack_fixed_width {T} bytes (width : N) (name : string) (dec : list N → T) : Result PdBootstrapFrameError (list T) :=
  if negb (is_multiple_of (len bytes) width) then Err (BinaryLength name width (len bytes))
  else Ok (dec <$> exact_chunks (N.to_nat (len bytes / width)) (N.to_nat width) bytes).

(** [i32::from_le_bytes]. *)
Definition i32_from_le_bytes bytes : Z := as_i32 (from_le_bytes bytes).

(** [pd_bootstrap.rs:1904-1908] unpack_u64s *)
Definition unpack_u64s bytes : Result PdBootstrapFrameError (list N) := unpack_fixed_width bytes 8 "u64 values" from_le_bytes.

(** [pd_bootstrap.rs:1910-1914] unpack_i32s *)
Definition unpack_i32s bytes : Result PdBootstrapFrameError (list Z) := unpack_fixed_width bytes 4 "i32 values" i32_from_le_bytes.

Fixpoint collect_results {E A B} (f : A → Result E B) (l : list A) : Result E (list B) :=
  match l with [] => Ok [] | a :: l => let? b := f a in let? bs := collect_results f l in Ok (b :: bs) end.

(** [pd_bootstrap.rs:1975-1983] unpack_list_of_buffers (lengths) *)
Definition buffer_lengths bytes (count : N) : list N :=
  (λ i, from_le_bytes (slice_to 4 (slice_from (4 + i * 4) bytes))) <$> nrange 0 count.

(** [pd_bootstrap.rs:1985-1995] unpack_list_of_buffers (buffers) *)
Fixpoint take_buffers bytes (name : string) (offset : N) (lengths : list N) : Result PdBootstrapFrameError (list (list N)) :=
  match lengths with
  | [] => Ok []
  | length :: lengths =>
      let end_ := offset + length in
      if len bytes <? end_ then Err (PackedListLength name)
      else let? rest := take_buffers bytes name end_ lengths in
           Ok (slice_to length (slice_from offset bytes) :: rest)
  end.

(** [pd_bootstrap.rs:1960-1997] unpack_list_of_buffers *)
Definition unpack_list_of_buffers bytes (name : string) : Result PdBootstrapFrameError (list (list N)) :=
  match bytes with
  | [] => Ok []
  | _ =>
      if len bytes <? 4 then Err (PackedListHeader name)
      else
        let count := from_le_bytes (slice_to 4 bytes) in
        let header_len := 4 + count * 4 in
        if len bytes <? header_len then Err (PackedListHeader name)
        else take_buffers bytes name header_len (buffer_lengths bytes count)
  end.

(** [pd_bootstrap.rs:1916-1921] unpack_u64_lists *)
Definition unpack_u64_lists bytes : Result PdBootstrapFrameError (list (list N)) :=
  let? buffers := unpack_list_of_buffers bytes "u64 lists" in collect_results unpack_u64s buffers.

(** [pd_bootstrap.rs:1923-1932] unpack_u32_lists *)
Definition unpack_u32_lists bytes : Result PdBootstrapFrameError (list (list N)) :=
  let? buffers := unpack_list_of_buffers bytes "u32 lists" in
  collect_results (λ bytes, unpack_fixed_width bytes 4 "u32 values" from_le_bytes) buffers.

(** [pd_bootstrap.rs:1934-1939] unpack_i32_lists *)
Definition unpack_i32_lists bytes : Result PdBootstrapFrameError (list (list Z)) :=
  let? buffers := unpack_list_of_buffers bytes "i32 lists" in collect_results unpack_i32s buffers.

(** [pd_bootstrap.rs:1894-1902] optional_u32_lists *)
Definition optional_u32_lists frame index : Result PdBootstrapFrameError (list (list N)) :=
  match frame !! index with None => Ok [] | Some value => unpack_u32_lists value end.

(** [pd_bootstrap.rs:1578-1583] pack_i32s *)
Definition pack_i32s (values : list Z) : list N := values ≫= i32_to_le_bytes.

(** [pd_bootstrap.rs:1585-1590] pack_u64s *)
Definition pack_u64s (values : list N) : list N := values ≫= to_le_bytes 8.

(** [pd_bootstrap.rs:1624-1638] pack_list_of_buffers *)
Definition pack_list_of_buffers (buffers : list (list N)) : list N :=
  match buffers with
  | [] => []
  | _ => to_le_bytes 4 (len buffers) ++ (buffers ≫= λ buffer, to_le_bytes 4 (len buffer)) ++ concat buffers
  end.

(** [pd_bootstrap.rs:1592-1599] pack_i32_lists *)
Definition pack_i32_lists (values : list (list Z)) : list N := pack_list_of_buffers (pack_i32s <$> values).

(** [pd_bootstrap.rs:1601-1608] pack_u64_lists *)
Definition pack_u64_lists (values : list (list N)) : list N := pack_list_of_buffers (pack_u64s <$> values).

(** [pd_bootstrap.rs:1610-1622] pack_u32_lists *)
Definition pack_u32_lists (values : list (list N)) : list N :=
  pack_list_of_buffers ((λ vs, vs ≫= to_le_bytes 4) <$> values).

(** ** Messages *)

(** [pd_bootstrap.rs:585-598] PdKvArgsRegisterInfo *)
Record PdKvArgsRegisterInfo : Type := mkKvArgsInfo {
  ka_room : string;
  ka_endpoint : string;
  ka_dst_port : N;
  ka_session_id : string;
  ka_dst_kv_ptrs : list N;
  ka_dst_aux_ptrs : list N;
  ka_dst_state_data_ptrs : list (list N);
  ka_dst_tp_rank : Z;
  ka_dst_attn_tp_size : N;
  ka_dst_kv_item_len : N;
  ka_dst_state_item_lens : list (list N);
  ka_dst_state_dim_per_tensor : list (list N);
}.

(** [pd_bootstrap.rs:603-619] PdKvArgsRegisterInfo::from_frame *)
Definition kv_args_from_frame frame : Result PdBootstrapFrameError PdKvArgsRegisterInfo :=
  let? _u := require_min_fields frame 10 "KVArgs registration" in
  let? room := ascii_field frame 0 "room" in
  let? endpoint := ascii_field frame 1 "endpoint" in
  let? dst_port := parse_u16 frame 2 "dst_port" in
  let? session_id := ascii_field frame 3 "session_id" in
  let? b4 := field frame 4 "dst_kv_ptrs" in
  let? dst_kv_ptrs := unpack_u64s b4 in
  let? b5 := field frame 5 "dst_aux_ptrs" in
  let? dst_aux_ptrs := unpack_u64s b5 in
  let? b6 := field frame 6 "dst_state_data_ptrs" in
  let? dst_state_data_ptrs := unpack_u64_lists b6 in
  let? dst_tp_rank := parse_i32 frame 7 "dst_tp_rank" in
  let? dst_attn_tp_size := parse_usize_field frame 8 "dst_attn_tp_size" in
  let? dst_kv_item_len := parse_usize_field frame 9 "dst_kv_item_len" in
  let? dst_state_item_lens := optional_u32_lists frame 10 in
  let? dst_state_dim_per_tensor := optional_u32_lists frame 11 in
  Ok (mkKvArgsInfo room endpoint dst_port session_id dst_kv_ptrs dst_aux_ptrs dst_state_data_ptrs dst_tp_rank dst_attn_tp_size
        dst_kv_item_len dst_state_item_lens dst_state_dim_per_tensor).

(** [pd_bootstrap.rs:623-634] PdTransferInfo *)
Record PdTransferInfo : Type := mkTransferInfo {
  ti_room : N;
  ti_endpoint : string;
  ti_dst_port : N;
  ti_session_id : string;
  ti_dst_kv_indices : list Z;
  ti_dst_aux_index : option Z;
  ti_dst_state_indices : list (list Z);
  ti_required_dst_info_num : N;
  ti_is_dummy : bool;
  ti_decode_prefix_len : option N;
}.

(** [pd_bootstrap.rs:639-665] PdTransferInfo::from_frame *)
Definition transfer_from_frame frame : Result PdBootstrapFrameError PdTransferInfo :=
  let? _u := require_min_fields frame 8 "transfer metadata" in
  let? b4 := field frame 4 "dst_kv_indices" in
  let? is_dummy := (if bool_decide (b4 = []) then let? b5 := field frame 5 "dst_aux_index" in Ok (bool_decide (b5 = [])) else Ok false) in
  let? parts :=
    (if is_dummy then Ok ([], None, [])
     else
       let? b4 := field frame 4 "dst_kv_indices" in
       let? dst_kv_indices := unpack_i32s b4 in
       let? dst_aux_index := parse_i32 frame 5 "dst_aux_index" in
       let? b6 := field frame 6 "dst_state_indices" in
       let? dst_state_indices := unpack_i32_lists b6 in
       Ok (dst_kv_indices, Some dst_aux_index, dst_state_indices)) in
  let '(dst_kv_indices, dst_aux_index, dst_state_indices) := parts in
  let? room := parse_bootstrap_room frame 0 "room" in
  let? endpoint := ascii_field frame 1 "endpoint" in
  let? dst_port := parse_u16 frame 2 "dst_port" in
  let? session_id := ascii_field frame 3 "session_id" in
  let? required_dst_info_num := parse_usize_field frame 7 "required_dst_info_num" in
  let? decode_prefix_len := optional_usize frame 8 "decode_prefix_len" in
  Ok (mkTransferInfo room endpoint dst_port session_id dst_kv_indices dst_aux_index dst_state_indices required_dst_info_num is_dummy
        decode_prefix_len).

(** [pd_bootstrap.rs:847-859] PdDecodeKvArgsRegistration *)
Record PdDecodeKvArgsRegistration : Type := mkRegistration {
  kr_endpoint : string;
  kr_dst_port : N;
  kr_session_id : string;
  kr_dst_kv_ptrs : list N;
  kr_dst_aux_ptrs : list N;
  kr_dst_state_data_ptrs : list (list N);
  kr_dst_tp_rank : Z;
  kr_dst_attn_tp_size : N;
  kr_dst_kv_item_len : N;
  kr_dst_state_item_lens : list (list N);
  kr_dst_state_dim_per_tensor : list (list N);
}.

(** [pd_bootstrap.rs:864-881] PdDecodeKvArgsRegistration::to_frame *)
Definition registration_to_frame (r : PdDecodeKvArgsRegistration) : list (list N) :=
  [string_bytes "None"; string_bytes (kr_endpoint r); string_bytes (pretty (kr_dst_port r)); string_bytes (kr_session_id r);
   pack_u64s (kr_dst_kv_ptrs r); pack_u64s (kr_dst_aux_ptrs r); pack_u64_lists (kr_dst_state_data_ptrs r);
   string_bytes (pretty (kr_dst_tp_rank r)); string_bytes (pretty (kr_dst_attn_tp_size r)); string_bytes (pretty (kr_dst_kv_item_len r));
   pack_u32_lists (kr_dst_state_item_lens r); pack_u32_lists (kr_dst_state_dim_per_tensor r); []; string_bytes "0"].

(** [pd_bootstrap.rs:885-896] PdDecodeTransferMetadata *)
Record PdDecodeTransferMetadata : Type := mkMetadata {
  md_room : N;
  md_endpoint : string;
  md_dst_port : N;
  md_session_id : string;
  md_dst_kv_indices : list Z;
  md_dst_aux_index : option Z;
  md_dst_state_indices : list (list Z);
  md_required_dst_info_num : N;
  md_decode_prefix_len : option N;
  md_is_dummy : bool;
}.

(** The error is the session without an auxiliary index. *)
(** [pd_bootstrap.rs:901-928] PdDecodeTransferMetadata::to_frame *)
Definition metadata_to_frame (m : PdDecodeTransferMetadata) : Result string (list (list N)) :=
  let? parts :=
    (if md_is_dummy m then Ok ([], [], [])
     else
       let? dst_aux_index := ok_or (md_dst_aux_index m) (md_session_id m) in
       Ok (pack_i32s (md_dst_kv_indices m), string_bytes (pretty dst_aux_index), pack_i32_lists (md_dst_state_indices m))) in
  let '(dst_kv_indices, dst_aux_index, dst_state_indices) := parts in
  Ok [string_bytes (pretty (md_room m)); string_bytes (md_endpoint m); string_bytes (pretty (md_dst_port m));
      string_bytes (md_session_id m); dst_kv_indices; dst_aux_index; dst_state_indices;
      string_bytes (pretty (md_required_dst_info_num m)); string_bytes (pretty (default 0 (md_decode_prefix_len m)))].

(** ** Facts *)

(** A Rust string holds UTF-8. *)
Definition utf8 (s : string) : Prop := from_utf8 (string_bytes s) = Ok tt.

Lemma text_bytes_string s : text_bytes s = string_bytes s.
Proof. induction s as [|c s IH]; [done|]. cbn [text_bytes]. rewrite IH. done. Qed.

Lemma from_utf8_ascii bytes : Forall (λ b, b < 128) bytes → from_utf8 bytes = Ok tt.
Proof.
  induction 1 as [|b bytes Hb _ IH]; [done|]. rewrite from_utf8_cons by done.
  assert (utf8_char (b :: bytes) = CharOf 1) as ->; [|done].
  cbn [utf8_char]. unfold utf8_char_width. destruct (N.ltb_spec b 128); [done|lia].
Qed.

Lemma digits_ascii s : all_digits s → Forall (λ b, b < 128) (string_bytes s).
Proof.
  rewrite <-text_bytes_string. intros Hs. eapply Forall_impl; [exact Hs|]. intros b Hb. cbn beta in Hb. unfold is_digit in Hb. apply andb_true_iff in Hb as [_ Hb].
  apply N.leb_le in Hb. lia.
Qed.

Lemma pretty_N_utf8 (n : N) : utf8 (pretty n).
Proof. apply from_utf8_ascii, digits_ascii, pretty_digits. Qed.

Lemma pretty_Z_utf8 (z : Z) : utf8 (pretty z).
Proof.
  destruct z as [|p|p]; [done|apply (pretty_N_utf8 (N.pos p))|].
  apply from_utf8_ascii. change (string_bytes (pretty (Z.neg p))) with (45 :: string_bytes (pretty (N.pos p))).
  constructor; [done|]. apply digits_ascii, pretty_digits.
Qed.

Section Fields.
Context frame index name.

Lemma field_at bytes : frame !! index = Some bytes → field frame index name = Ok bytes.
Proof. unfold field. by intros ->. Qed.

Lemma ascii_field_at s : frame !! index = Some (string_bytes s) → utf8 s → ascii_field frame index name = Ok s.
Proof. intros Hf Hs. unfold ascii_field, utf8 in *. rewrite (field_at _ Hf). cbn [result_bind]. by rewrite Hs, bytes_string_inv. Qed.

Lemma parse_i32_at (z : Z) :
  frame !! index = Some (string_bytes (pretty z)) → (- 2 ^ 31 ≤ z < 2 ^ 31)%Z → parse_i32 frame index name = Ok z.
Proof.
  intros Hf Hz. unfold parse_i32. rewrite (ascii_field_at _ Hf) by apply pretty_Z_utf8. cbn [result_bind].
  by rewrite parse_pretty_signed by lia.
Qed.

Lemma parse_u16_at (n : N) : frame !! index = Some (string_bytes (pretty n)) → n < 2 ^ 16 → parse_u16 frame index name = Ok n.
Proof.
  intros Hf Hn. unfold parse_u16. rewrite (ascii_field_at _ Hf) by apply pretty_N_utf8. cbn [result_bind]. by rewrite parse_pretty by lia.
Qed.

Lemma parse_usize_at (n : N) :
  frame !! index = Some (string_bytes (pretty n)) → n ≤ usize_MAX → parse_usize_field frame index name = Ok n.
Proof.
  intros Hf Hn. unfold parse_usize_field. rewrite (ascii_field_at _ Hf) by apply pretty_N_utf8. cbn [result_bind]. by rewrite parse_pretty.
Qed.

Lemma parse_room_at (n : N) :
  frame !! index = Some (string_bytes (pretty n)) → n < 2 ^ 63 → parse_bootstrap_room frame index name = Ok n.
Proof.
  intros Hf Hn. unfold parse_bootstrap_room. rewrite (ascii_field_at _ Hf) by apply pretty_N_utf8. cbn [result_bind].
  rewrite parse_pretty by lia. cbn [ok_or result_bind]. by destruct (N.ltb_spec (2 ^ 63 - 1) n); [lia|].
Qed.

Lemma optional_usize_at (n : N) :
  frame !! index = Some (string_bytes (pretty n)) → n ≤ usize_MAX → optional_usize frame index name = Ok (Some n).
Proof.
  intros Hf Hn. unfold optional_usize. rewrite Hf. destruct (pretty_digits n) as (_&_&Hne).
  destruct (string_bytes (pretty n)) as [|b bs] eqn:Hb.
  - apply (f_equal bytes_string) in Hb. by rewrite bytes_string_inv in Hb.
  - rewrite <-Hb in Hf. by rewrite (parse_usize_at n Hf Hn).
Qed.

End Fields.

(** Values packed at a fixed width are read back. *)
Lemma unpack_packed {T} (enc : T → list N) (dec : list N → T) (P : T → Prop) (w : N) name vs :
  w ≠ 0 → (∀ v, len (enc v) = w) → (∀ v, P v → dec (enc v) = v) → Forall P vs → unpack_fixed_width (vs ≫= enc) w name dec = Ok vs.
Proof.
  intros Hw Hlen Hdec Hvs.
  assert (len (vs ≫= enc) = len vs * w) as Htotal.
  { clear Hvs. induction vs as [|v vs IH]; [done|]. rewrite bind_cons, len_app, IH, Hlen, len_cons. lia. }
  unfold unpack_fixed_width. rewrite Htotal, (proj2 (is_multiple_of_spec (len vs * w) w Hw)) by (by rewrite N.div_mul). cbn [negb].
  rewrite N.div_mul by done. f_equal. unfold len at 1. rewrite Nat2N.id. clear Htotal.
  induction Hvs as [|v vs Hv _ IH]; [done|]. rewrite bind_cons. cbn [length exact_chunks fmap list_fmap].
  specialize (Hlen v). unfold len in Hlen. rewrite take_app_length', drop_app_length' by lia. by rewrite IH, Hdec.
Qed.

Lemma i32_from_to_le z : (- 2 ^ 31 ≤ z < 2 ^ 31)%Z → i32_from_le_bytes (i32_to_le_bytes z) = z.
Proof.
  intros Hz. unfold i32_from_le_bytes, i32_to_le_bytes. pose proof (Z.mod_pos_bound z (2 ^ 32) ltac:(lia)) as Hm.
  rewrite from_to_le by (change (256 ^ N.of_nat 4) with (Z.to_N (2 ^ 32)); lia). unfold as_i32. rewrite Z2N.id by lia.
  rewrite Z.add_mod_idemp_l by lia. rewrite Z.mod_small; lia.
Qed.

Definition is_i32 (z : Z) : Prop := (- 2 ^ 31 ≤ z < 2 ^ 31)%Z.
Definition is_u64 (n : N) : Prop := n < 2 ^ 64.

Lemma unpack_u64s_packed vs : Forall is_u64 vs → unpack_u64s (pack_u64s vs) = Ok vs.
Proof.
  intros Hvs. apply (unpack_packed (to_le_bytes 8) _ is_u64 8); [done|intros v; apply len_to_le|exact (from_to_le 8)|done].
Qed.

Lemma unpack_i32s_packed vs : Forall is_i32 vs → unpack_i32s (pack_i32s vs) = Ok vs.
Proof.
  intros Hvs. apply (unpack_packed i32_to_le_bytes _ is_i32 4); [done|intros v; apply len_to_le|apply i32_from_to_le|done].
Qed.

(** A packed list of buffers: the count and every length fit four bytes. *)
Definition packable (buffers : list (list N)) : Prop := is_u32 (len buffers) ∧ Forall (λ b, is_u32 (len b)) buffers.

Lemma slice_from_at {A} (l l' : list A) n : len l = n → slice_from n (l ++ l') = l'.
Proof. intros <-. unfold slice_from, len. rewrite Nat2N.id. apply drop_app_length. Qed.

Lemma slice_to_at {A} (l l' : list A) n : len l = n → slice_to n (l ++ l') = l.
Proof. intros <-. unfold slice_to, len. rewrite Nat2N.id. apply take_app_length. Qed.

Lemma len_lengths (buffers : list (list N)) : len (buffers ≫= λ b, to_le_bytes 4 (len b)) = len buffers * 4.
Proof.
  induction buffers as [|b bs IH]; [done|]. rewrite bind_cons, len_app, len_to_le, len_cons, IH. lia.
Qed.

Lemma buffer_lengths_at buffers : ∀ (pre post : list N), Forall (λ b, is_u32 (len b)) buffers → len pre = 4 →
  buffer_lengths (pre ++ (buffers ≫= λ b, to_le_bytes 4 (len b)) ++ post) (len buffers) = @len N <$> buffers.
Proof.
  intros pre post Hall Hpre. unfold buffer_lengths.
  assert (∀ k, ∀ pre, len pre = 4 + k * 4 →
    (λ i, from_le_bytes (slice_to 4 (slice_from (4 + i * 4) (pre ++ (buffers ≫= λ b, to_le_bytes 4 (len b)) ++ post)))) <$> nrange k (k + len buffers)
      = @len N <$> buffers) as Hgen; [|by apply (Hgen 0)].
  clear pre Hpre. induction Hall as [|b bs Hb _ IH]; intros k pre Hpre.
  - rewrite len_nil, N.add_0_r, nrange_empty by lia. done.
  - rewrite len_cons, nrange_cons by lia. rewrite !fmap_cons. f_equal.
    + rewrite bind_cons, slice_from_at, <-app_assoc, slice_to_at by first [done|by rewrite len_to_le]. by apply from_to_le.
    + replace (k + (len bs + 1)) with (k + 1 + len bs) by lia.
      specialize (IH (k + 1) (pre ++ to_le_bytes 4 (len b))). rewrite <-app_assoc in IH. rewrite bind_cons, <-!app_assoc. apply IH.
      rewrite len_app, len_to_le. lia.
Qed.

Lemma take_buffers_at name buffers : ∀ pre, take_buffers (pre ++ concat buffers) name (len pre) (@len N <$> buffers) = Ok buffers.
Proof.
  induction buffers as [|b bs IH]; intros pre; [done|]. cbn [fmap list_fmap take_buffers concat]. rewrite !len_app.
  destruct (N.ltb_spec (len pre + (len b + len (concat bs))) (len pre + len b)); [lia|].
  specialize (IH (pre ++ b)). rewrite <-app_assoc, len_app in IH. rewrite IH. cbn [result_bind].
  by rewrite slice_from_at, slice_to_at by done.
Qed.

Lemma unpack_packed_buffers buffers name : packable buffers → unpack_list_of_buffers (pack_list_of_buffers buffers) name = Ok buffers.
Proof.
  intros [Hcount Hlens]. destruct buffers as [|b bs]; [done|]. unfold pack_list_of_buffers, unpack_list_of_buffers.
  remember (b :: bs) as buffers eqn:Hb. set (lengths := buffers ≫= _). set (count := to_le_bytes 4 (len buffers)).
  assert (len count = 4) as Hc4 by apply len_to_le.
  assert (count ++ lengths ++ concat buffers ≠ []) as Hne. { intros He. apply (f_equal len) in He. rewrite len_app, Hc4, len_nil in He. lia. }
  destruct (count ++ lengths ++ concat buffers) as [|x l] eqn:Hl; [done|]. rewrite <-Hl. clear Hne Hl x l.
  assert (len lengths = len buffers * 4) as Hlen by apply len_lengths.
  assert (from_le_bytes count = len buffers) as Hread by (by apply (from_to_le 4)).
  rewrite slice_to_at by done. rewrite Hread, !len_app, Hc4, Hlen.
  destruct (N.ltb_spec (4 + (len buffers * 4 + len (concat buffers))) 4); [lia|].
  destruct (N.ltb_spec (4 + (len buffers * 4 + len (concat buffers))) (4 + len buffers * 4)); [lia|].
  unfold lengths. rewrite buffer_lengths_at by done. rewrite app_assoc.
  replace (4 + len buffers * 4) with (len (count ++ lengths)) by (rewrite len_app; lia). apply take_buffers_at.
Qed.

Lemma collect_packed {E T} (enc : T → list N) (dec : list N → Result E T) (P : T → Prop) vs :
  (∀ v, P v → dec (enc v) = Ok v) → Forall P vs → collect_results dec (enc <$> vs) = Ok vs.
Proof. intros Hdec. induction 1 as [|v vs Hv _ IH]; [done|]. cbn [fmap list_fmap collect_results]. rewrite Hdec by done. cbn [result_bind]. by rewrite IH. Qed.

(** A list of integer lists each of which fits. *)
Record lists_fit {T} (P : T → Prop) (w : N) (vs : list (list T)) : Prop := {
  lists_count : is_u32 (len vs);
  lists_each : Forall (λ v, Forall P v ∧ len v * w < 2 ^ 32) vs;
}.

Lemma packable_fit {T} (P : T → Prop) w (enc : T → list N) vs : (∀ v, len (enc v) = w) → lists_fit P w vs → packable ((λ v, v ≫= enc) <$> vs).
Proof.
  intros Hlen [Hc He]. split; [by unfold len in *; rewrite length_fmap|]. apply Forall_fmap. eapply Forall_impl; [exact He|].
  intros v [_ Hv]. cbn. unfold is_u32. assert (len (v ≫= enc) = len v * w) as ->; [|done].
  clear Hv. induction v as [|x v IH]; [done|]. rewrite bind_cons, len_app, IH, Hlen, len_cons. lia.
Qed.

Lemma unpack_u64_lists_packed vs : lists_fit is_u64 8 vs → unpack_u64_lists (pack_u64_lists vs) = Ok vs.
Proof.
  intros Hvs. unfold unpack_u64_lists, pack_u64_lists. rewrite unpack_packed_buffers by (apply (packable_fit is_u64 8); [intros; apply len_to_le|done]).
  cbn [result_bind]. apply (collect_packed _ _ (Forall is_u64)); [apply unpack_u64s_packed|]. destruct Hvs as [_ He].
  eapply Forall_impl; [exact He|]. by intros v [].
Qed.

Lemma unpack_i32_lists_packed vs : lists_fit is_i32 4 vs → unpack_i32_lists (pack_i32_lists vs) = Ok vs.
Proof.
  intros Hvs. unfold unpack_i32_lists, pack_i32_lists. rewrite unpack_packed_buffers by (apply (packable_fit is_i32 4); [intros; apply len_to_le|done]).
  cbn [result_bind]. apply (collect_packed _ _ (Forall is_i32)); [apply unpack_i32s_packed|]. destruct Hvs as [_ He].
  eapply Forall_impl; [exact He|]. by intros v [].
Qed.

Lemma unpack_u32_lists_packed vs : lists_fit is_u32 4 vs → unpack_u32_lists (pack_u32_lists vs) = Ok vs.
Proof.
  intros Hvs. unfold unpack_u32_lists, pack_u32_lists. rewrite unpack_packed_buffers by (apply (packable_fit is_u32 4); [intros; apply len_to_le|done]).
  cbn [result_bind]. apply (collect_packed _ _ (Forall is_u32)).
  - intros v Hv. apply (unpack_packed (to_le_bytes 4) _ is_u32 4); [done|intros x; apply len_to_le|exact (from_to_le 4)|done].
  - destruct Hvs as [_ He]. eapply Forall_impl; [exact He|]. by intros v [].
Qed.

(** Values of the types the struct declares, in lists that fit their counts. *)
Record registration_wf (r : PdDecodeKvArgsRegistration) : Prop := {
  kr_utf8 : utf8 (kr_endpoint r) ∧ utf8 (kr_session_id r);
  kr_port : kr_dst_port r < 2 ^ 16;
  kr_ptrs : Forall is_u64 (kr_dst_kv_ptrs r) ∧ Forall is_u64 (kr_dst_aux_ptrs r);
  kr_states : lists_fit is_u64 8 (kr_dst_state_data_ptrs r);
  kr_rank : is_i32 (kr_dst_tp_rank r);
  kr_sizes : kr_dst_attn_tp_size r ≤ usize_MAX ∧ kr_dst_kv_item_len r ≤ usize_MAX;
  kr_lens : lists_fit is_u32 4 (kr_dst_state_item_lens r) ∧ lists_fit is_u32 4 (kr_dst_state_dim_per_tensor r);
}.

Record metadata_wf (m : PdDecodeTransferMetadata) : Prop := {
  md_utf8 : utf8 (md_endpoint m) ∧ utf8 (md_session_id m);
  md_room_fits : md_room m < 2 ^ 63;
  md_port : md_dst_port m < 2 ^ 16;
  md_indices : Forall is_i32 (md_dst_kv_indices m);
  md_aux : ∀ z, md_dst_aux_index m = Some z → is_i32 z;
  md_states : lists_fit is_i32 4 (md_dst_state_indices m);
  md_sizes : md_required_dst_info_num m ≤ usize_MAX ∧ default 0 (md_decode_prefix_len m) ≤ usize_MAX;
}.

(** What a prefill worker reads from a registration. *)
Definition registered_info (r : PdDecodeKvArgsRegistration) : PdKvArgsRegisterInfo :=
  mkKvArgsInfo "None" (kr_endpoint r) (kr_dst_port r) (kr_session_id r) (kr_dst_kv_ptrs r) (kr_dst_aux_ptrs r) (kr_dst_state_data_ptrs r)
    (kr_dst_tp_rank r) (kr_dst_attn_tp_size r) (kr_dst_kv_item_len r) (kr_dst_state_item_lens r) (kr_dst_state_dim_per_tensor r).

(** What a prefill worker reads from transfer metadata: a dummy has no
    destination, and a prefix of no length is one of length zero. *)
Definition transfer_info (m : PdDecodeTransferMetadata) : PdTransferInfo :=
  mkTransferInfo (md_room m) (md_endpoint m) (md_dst_port m) (md_session_id m)
    (if md_is_dummy m then [] else md_dst_kv_indices m) (if md_is_dummy m then None else md_dst_aux_index m)
    (if md_is_dummy m then [] else md_dst_state_indices m) (md_required_dst_info_num m) (md_is_dummy m)
    (Some (default 0 (md_decode_prefix_len m))).

Lemma registration_decodes r : registration_wf r → kv_args_from_frame (registration_to_frame r) = Ok (registered_info r).
Proof.
  intros [[He Hs] Hp [Hk Ha] Hst Hr [Hz Hi] [Hl Hd]]. unfold kv_args_from_frame. set (frame := registration_to_frame r).
  change (require_min_fields frame 10 _) with (Ok (E := PdBootstrapFrameError) tt). cbn [result_bind].
  rewrite (ascii_field_at frame 0 "room" "None") by done. cbn [result_bind].
  rewrite (ascii_field_at frame 1 _ (kr_endpoint r)), (parse_u16_at frame 2 _ (kr_dst_port r)), (ascii_field_at frame 3 _ (kr_session_id r)) by done.
  rewrite (field_at frame 4 _ (pack_u64s (kr_dst_kv_ptrs r))), (field_at frame 5 _ (pack_u64s (kr_dst_aux_ptrs r))) by done.
  rewrite (field_at frame 6 _ (pack_u64_lists (kr_dst_state_data_ptrs r))) by done. cbn [result_bind].
  rewrite !unpack_u64s_packed, unpack_u64_lists_packed by done. cbn [result_bind].
  rewrite (parse_i32_at frame 7 _ (kr_dst_tp_rank r)), (parse_usize_at frame 8 _ (kr_dst_attn_tp_size r)), (parse_usize_at frame 9 _ (kr_dst_kv_item_len r)) by done.
  cbn [result_bind]. unfold optional_u32_lists. change (frame !! 10%nat) with (Some (pack_u32_lists (kr_dst_state_item_lens r))).
  change (frame !! 11%nat) with (Some (pack_u32_lists (kr_dst_state_dim_per_tensor r))). cbv beta iota.
  by rewrite !unpack_u32_lists_packed.
Qed.

(** A prefill worker decodes the registration a decode worker sends to
    exactly what was registered. *)
Theorem registration_round_trip r : registration_wf r → kv_args_from_frame (registration_to_frame r) = Ok (registered_info r).
Proof. apply registration_decodes. Qed.

Lemma metadata_decodes m : metadata_wf m →
  match metadata_to_frame m with
  | Ok frame => transfer_from_frame frame = Ok (transfer_info m)
  | Err session => md_is_dummy m = false ∧ md_dst_aux_index m = None ∧ session = md_session_id m
  end.
Proof.
  intros [[He Hs] Hr Hp Hk Ha Hst [Hz Hd]]. unfold metadata_to_frame.
  destruct (md_is_dummy m) eqn:Hdummy; [|destruct (md_dst_aux_index m) as [aux|] eqn:Haux; [|done]]; cbn [ok_or result_bind];
    match goal with |- transfer_from_frame ?l = _ => set (frame := l) end; unfold transfer_from_frame;
    change (require_min_fields frame 8 _) with (Ok (E := PdBootstrapFrameError) tt); cbn [result_bind].
  - rewrite (field_at frame 4 "dst_kv_indices" []) by done. cbn [result_bind]. rewrite (bool_decide_eq_true_2 (@nil N = [])) by done. rewrite (field_at frame 5 "dst_aux_index" []) by done. cbn [result_bind].
    rewrite (bool_decide_eq_true_2 (@nil N = [])) by done. cbn [result_bind].
    rewrite (parse_room_at frame 0 _ (md_room m)), (ascii_field_at frame 1 _ (md_endpoint m)), (parse_u16_at frame 2 _ (md_dst_port m)),
      (ascii_field_at frame 3 _ (md_session_id m)), (parse_usize_at frame 7 _ (md_required_dst_info_num m)),
      (optional_usize_at frame 8 _ (default 0 (md_decode_prefix_len m))) by done.
    unfold transfer_info. by rewrite Hdummy.
  - rewrite (field_at frame 4 _ (pack_i32s (md_dst_kv_indices m))), (field_at frame 5 _ (string_bytes (pretty aux))) by done. cbn [result_bind].
    assert (string_bytes (pretty aux) ≠ []) as Hne.
    { intros Hnil. apply (f_equal bytes_string) in Hnil. rewrite bytes_string_inv in Hnil. pose proof (parse_pretty_signed 32 aux ltac:(lia) (Ha aux eq_refl)) as Hq. rewrite Hnil in Hq. done. }
    rewrite (bool_decide_eq_false_2 _ Hne).
    assert ((if bool_decide (pack_i32s (md_dst_kv_indices m) = []) then Ok false else Ok false) = Ok (E := PdBootstrapFrameError) false) as -> by by case_bool_decide.
    cbn [result_bind]. rewrite unpack_i32s_packed, (parse_i32_at frame 5 _ aux) by first [done|by apply Ha]. cbn [result_bind].
    rewrite (field_at frame 6 _ (pack_i32_lists (md_dst_state_indices m))) by done. cbn [result_bind]. rewrite unpack_i32_lists_packed by done.
    cbn [result_bind].
    rewrite (parse_room_at frame 0 _ (md_room m)), (ascii_field_at frame 1 _ (md_endpoint m)), (parse_u16_at frame 2 _ (md_dst_port m)),
      (ascii_field_at frame 3 _ (md_session_id m)), (parse_usize_at frame 7 _ (md_required_dst_info_num m)),
      (optional_usize_at frame 8 _ (default 0 (md_decode_prefix_len m))) by done.
    unfold transfer_info. by rewrite Hdummy, Haux.
Qed.

(** Transfer metadata that can be sent decodes to what was sent; only a
    transfer without an auxiliary index that is not a dummy cannot be. *)
Theorem metadata_round_trip m : metadata_wf m →
  match metadata_to_frame m with
  | Ok frame => transfer_from_frame frame = Ok (transfer_info m)
  | Err session => md_is_dummy m = false ∧ md_dst_aux_index m = None ∧ session = md_session_id m
  end.
Proof. apply metadata_decodes. Qed.

(** ** Witnesses *)

Definition demo_registration : PdDecodeKvArgsRegistration :=
  mkRegistration "10.0.0.2" 9000 "decode-0" [4096; 8192] [] [[1; 2]; []] (-1) 2 512 [[16; 32]; []] [].

Lemma registration_round_trip_witness :
  registration_wf demo_registration ∧ kv_args_from_frame (registration_to_frame demo_registration) = Ok (registered_info demo_registration).
Proof.
  assert (registration_wf demo_registration) as Hwf; [|split; [done|by apply (registration_round_trip demo_registration)]].
  split.
  - split; reflexivity.
  - reflexivity.
  - split; repeat (constructor; try reflexivity).
  - split; [reflexivity|]. repeat (apply Forall_cons_2 || apply Forall_nil_2 || split || reflexivity).
  - split; [apply Z.leb_le|apply Z.ltb_lt]; reflexivity.
  - split; apply N.leb_le; reflexivity.
  - split; (split; [reflexivity|]); repeat (apply Forall_cons_2 || apply Forall_nil_2 || split || reflexivity).
Defined.

Definition demo_metadata : PdDecodeTransferMetadata := mkMetadata 7 "10.0.0.2" 9000 "decode-0" [3; 4]%Z (Some 0%Z) [] 1 (Some 16) false.

Lemma metadata_round_trip_witness :
  metadata_wf demo_metadata ∧ (frame ← match metadata_to_frame demo_metadata with Ok f => Some f | Err _ => None end; Some (transfer_from_frame frame))
    = Some (Ok (transfer_info demo_metadata)).
Proof.
  assert (metadata_wf demo_metadata) as Hwf.
  { split.
    - split; reflexivity.
    - reflexivity.
    - reflexivity.
    - repeat (apply Forall_cons_2 || apply Forall_nil_2); (split; [apply Z.leb_le|apply Z.ltb_lt]; reflexivity).
    - intros z [= <-]. split; [apply Z.leb_le|apply Z.ltb_lt]; reflexivity.
    - split; [reflexivity|apply Forall_nil_2].
    - split; apply N.leb_le; reflexivity. }
  split; [done|]. pose proof (metadata_round_trip demo_metadata Hwf) as Hr. destruct (metadata_to_frame demo_metadata) as [f|e] eqn:Hf.
  - exact (f_equal Some Hr).
  - by destruct Hr as (_&[=]&_).
Defined.
