(* ===== verification/PdControl.v ===== *)
(** * Completion messages and the decode receiver ([crates/sglang-srt/src/transfer/pd_control.rs])

    A prefill worker ends a transfer room with up to three messages: the first
    token, the recurrent state and the terminal status.  The decode worker
    files what arrives in an inbox by room and waits for a room to be done.
    The socket and its thread are the groups of messages that arrive between
    two looks at the inbox. *)

From stdpp Require Import pretty.
From S2P Require Import Prelude Bytes Text Types TransferDescriptor Tokenizer PdWire.

Notation message := (list (list N)).

(** ** UTF-8 with positions *)

(** How many bytes of an ill-formed character [from_utf8] skips. *)
Fixpoint good_continuations (n : nat) (bs : list N) : nat :=
  match n, bs with
  | S n, b :: bs => if continuation b then S (good_continuations n bs) else O
  | _, _ => O
  end.

Definition malformed_width (bs : list N) : nat :=
  match bs with
  | first :: b :: rest =>
      match utf8_char_width first with
      | S (S n) => if second_byte first b then S (S (good_continuations n rest)) else 1
      | _ => 1
      end
  | _ => 1
  end.

(** [Utf8Error]: where the valid part ends and how long the bad character is,
    if the input does not end in it. *)
Fixpoint utf8_error (fuel : nat) (valid_up_to : N) (bs : list N) : option (N * option N) :=
  match fuel, bs with
  | O, _ | _, [] => None
  | S fuel, _ =>
      match utf8_char bs with
      | CharOf n => utf8_error fuel (valid_up_to + N.of_nat n) (drop n bs)
      | Truncated => Some (valid_up_to, None)
      | Malformed => Some (valid_up_to, Some (N.of_nat (malformed_width bs)))
      end
  end.

Definition Utf8Error_to_string (bs : list N) : string :=
  match utf8_error (length bs) 0 bs with
  | Some (at_, Some n) => "invalid utf-8 sequence of " +:+ pretty n +:+ " bytes from index " +:+ pretty at_
  | Some (at_, None) => "incomplete utf-8 byte sequence from index " +:+ pretty at_
  | None => ""
  end.

(** [String::from_utf8_lossy]: every bad character becomes U+FFFD. *)
Fixpoint from_utf8_lossy (fuel : nat) (bs : list N) : list N :=
  match fuel, bs with
  | O, _ | _, [] => []
  | S fuel, _ =>
      match utf8_char bs with
      | CharOf n => take n bs ++ from_utf8_lossy fuel (drop n bs)
      | Truncated => [239; 191; 189]
      | Malformed => [239; 191; 189] ++ from_utf8_lossy fuel (drop (malformed_width bs) bs)
      end
  end.

(** ** The inbox *)

(** [pd_control.rs:13-19] Room *)
Record Room : Type := mkRoom {
  token : option N;
  recurrent_state : option (list N);
  terminal : option (Result string unit);
  abort_ack : bool;
}.

(** [pd_control.rs:13-19] Room (default) *)
Definition Room_default : Room := mkRoom None None None false.

(** [pd_control.rs:22-25] Inbox *)
Record Inbox : Type := mkInbox {
  rooms : gmap N Room;
  failure : option string;
}.

Definition set_room (state : Inbox) (room : N) (r : Room) : Inbox := mkInbox (<[room := r]> (rooms state)) (failure state).

(** The parsers are those of the unsigned type the caller asks for. *)
(** [pd_control.rs:245-250] ascii *)
Definition ascii (max : N) (frame : option (list N)) : Result string N :=
  let? bytes := ok_or frame "missing PD control field"%string in
  match from_utf8 bytes with
  | Ok _ => ok_or (parse_unsigned max (bytes_string bytes)) "invalid PD control field"%string
  | Err _ => Err (Utf8Error_to_string bytes)
  end.

Definition from_be_bytes (bs : list N) : N := from_le_bytes (rev bs).
Definition to_be_bytes (n : nat) (x : N) : list N := rev (to_le_bytes n x).

Notation u8_MAX := (2 ^ 8 - 1).
Notation u32_MAX := (2 ^ 32 - 1).
Notation u64_MAX := (2 ^ 64 - 1).

(** [pd_control.rs:259-263] ingest (acknowledgement) *)
Definition ingest_ack (room : Room) (frames : message) : Result string Room :=
  let? rank := (if len frames <? 3 then Ok 1 else ascii u32_MAX (frames !! 2%nat)) in
  if negb (rank =? 0) then Err "single-rank PD requires rank-zero drain acknowledgement"%string
  else Ok (mkRoom (token room) (recurrent_state room) (terminal room) true).

(** [pd_control.rs:264-293] ingest (auxiliary data) *)
Definition ingest_aux (room : Room) (frames : message) : Result string Room :=
  match frames with
  | [_; _; _; _; length_bytes; payload] =>
      let? buffer := ascii usize_MAX (frames !! 2%nat) in
      let? _aux_index := ascii usize_MAX (frames !! 3%nat) in
      if negb (len length_bytes =? 4) then Err "invalid AUX_DATA length"%string
      else
        let length := from_be_bytes length_bytes in
        if negb (len payload =? length) then Err "AUX_DATA payload length mismatch"%string
        else if buffer =? 0 then
          if negb (length =? 64) then Err "first-token auxiliary buffer must contain 16 int32 values"%string
          else
            let token := i32_from_le_bytes (slice_to 4 payload) in
            if (token <? 0)%Z then Err "negative prefill token"%string
            else Ok (mkRoom (Some (Z.to_N token)) (recurrent_state room) (terminal room) (abort_ack room))
        else if buffer =? 1 then Ok (mkRoom (token room) (Some payload) (terminal room) (abort_ack room))
        else Ok room
  | _ => Err "invalid AUX_DATA frame count"%string
  end.

(** [pd_control.rs:294-307] ingest (status) *)
Definition ingest_status (room : Room) (frames : message) : Result string Room :=
  let? rank := (if len frames <? 3 then Ok 1 else ascii u32_MAX (frames !! 2%nat)) in
  if negb (rank =? 0) then Err "single-rank PD requires rank-zero completion"%string
  else
    let? status := ascii u8_MAX (frames !! 1%nat) in
    let? terminal :=
      (if status =? 4 then Ok (Ok tt)
       else if status =? 0 then
         Ok (Err (match frames !! 3%nat with
                  | Some bytes => bytes_string (from_utf8_lossy (length bytes) bytes)
                  | None => "prefill transfer failed"%string
                  end))
       else Err ("unexpected nonterminal PD control status " +:+ pretty status)) in
    Ok (mkRoom (token room) (recurrent_state room) (Some terminal) (abort_ack room)).

Definition AUX_DATA : list N := string_bytes "AUX_DATA".
Definition ABORT_ACK : list N := string_bytes "ABORT_ACK".

(** [pd_control.rs:252-310] ingest *)
Definition ingest (state : Inbox) (frames : message) : Result string Inbox :=
  let? header := ok_or (head frames) "empty PD control frame"%string in
  let aux := bool_decide (header = AUX_DATA) in
  let ack := bool_decide (header = ABORT_ACK) in
  let? room_id := ascii u64_MAX (frames !! (if aux || ack then 1 else 0)%nat) in
  match rooms state !! room_id with
  | None => Ok state
  | Some room =>
      let? room := (if ack then ingest_ack room frames else if aux then ingest_aux room frames else ingest_status room frames) in
      Ok (set_room state room_id room)
  end.

(** [pd_control.rs:87-91] PdDecodeReceiver::start (message) *)
Definition receive_message (state : Inbox) (frames : message) : Inbox :=
  match ingest state frames with Ok state => state | Err error => mkInbox (rooms state) (Some error) end.

(** ** The receiver *)

(** [pd_control.rs:131-142] PdDecodeReceiver::register *)
Definition register_room (state : Inbox) (room : N) : Result string unit * Inbox :=
  match rooms state !! room with
  | None => (Ok tt, set_room state room Room_default)
  | Some _ => (Err ("duplicate decode receive room " +:+ pretty room), state)
  end.

(** [pd_control.rs:164-171] PdDecodeReceiver::is_drained *)
Definition is_drained (state : Inbox) (room : N) : bool :=
  match rooms state !! room with
  | Some received => abort_ack received || bool_decide (is_Some (terminal received))
  | None => false
  end.

(** One look at the inbox; [None]: wait for more. *)
(** [pd_control.rs:182-199] PdDecodeReceiver::wait (look) *)
Definition wait_look (state : Inbox) (room : N) (cancel : bool) : option (Result string (option N * option (list N))) :=
  match failure state with
  | Some error => Some (Err error)
  | None =>
      match rooms state !! room with
      | None => Some (Err ("unregistered decode room " +:+ pretty room))
      | Some received =>
          if cancel && (abort_ack received || bool_decide (is_Some (terminal received)))
          then Some (Ok (token received, recurrent_state received))
          else
            match terminal received with
            | Some (Err error) => Some (Err error)
            | Some (Ok _) => if bool_decide (is_Some (token received)) then Some (Ok (token received, recurrent_state received)) else None
            | None => None
            end
      end
  end.

(** [arrivals]: the messages that come in before each wake-up; the deadline
    passes when there are no more. *)
(** [pd_control.rs:173-211] PdDecodeReceiver::wait *)
Fixpoint wait (arrivals : list (list message)) (state : Inbox) (room : N) (cancel : bool)
    : Result string (option N * option (list N)) * Inbox :=
  match wait_look state room cancel with
  | Some res => (res, state)
  | None =>
      match arrivals with
      | [] => (Err ("timed out waiting for PD control room " +:+ pretty room +:+
                 "; KV memory remains reserved until sender drain acknowledgement"), state)
      | messages :: arrivals => wait arrivals (foldl receive_message state messages) room cancel
      end
  end.

(** [pd_control.rs:151-158] PdDecodeReceiver::receive_token_and_state *)
Definition receive_token_and_state (arrivals : list (list message)) (state : Inbox) (room : N)
    : Result string (N * option (list N)) * Inbox :=
  let! received, state := wait arrivals state room false in
  match fst received with
  | Some token => (Ok (token, snd received), state)
  | None => (Err ("room " +:+ pretty room +:+ " completed without a first token"), state)
  end.

(** [pd_control.rs:160-162] PdDecodeReceiver::wait_drained *)
Definition wait_drained (arrivals : list (list message)) (state : Inbox) (room : N) : Result string unit * Inbox :=
  let! _r, state := wait arrivals state room true in (Ok tt, state).

(** [pd_control.rs:213-217] PdDecodeReceiver::remove *)
Definition remove_room (state : Inbox) (room : N) : Inbox := mkInbox (base.delete room (rooms state)) (failure state).

(** ** The sender *)

(** [pd_control.rs:320-334] completion_frames (token) *)
Definition token_message (room : N) (token : N) (aux_index : Z) : message :=
  [AUX_DATA; string_bytes (pretty room); string_bytes "0"; string_bytes (pretty aux_index); to_be_bytes 4 64;
   i32_to_le_bytes (Z.of_N token) ++ repeat 0 60].

(** [pd_control.rs:335-346] completion_frames (recurrent state) *)
Definition state_message (room : N) (state : list N) (aux_index : Z) : message :=
  [AUX_DATA; string_bytes (pretty room); string_bytes "1"; string_bytes (pretty aux_index); to_be_bytes 4 (len state); state].

(** [pd_control.rs:347-356] completion_frames (status) *)
Definition status_message (room : N) (error : option string) : message :=
  [string_bytes (pretty room); string_bytes (match error with Some _ => "0" | None => "4" end); string_bytes "0";
   string_bytes (default ""%string error)].

(** [pd_control.rs:312-358] completion_frames *)
Definition completion_frames (room : N) (token : option N) (recurrent_state : option (list N)) (error : option string) (aux_index : Z)
    : Result string (list message) :=
  let? frames :=
    (match token with
     | Some token =>
         if 2 ^ 31 - 1 <? token then Err "prefill token exceeds community int32 auxiliary field"%string
         else Ok [token_message room token aux_index]
     | None => Ok []
     end) in
  let? frames :=
    (match recurrent_state with
     | Some state =>
         if u32_MAX <? len state then Err "recurrent state length exceeds u32"%string
         else Ok (frames ++ [state_message room state aux_index])
     | None => Ok frames
     end) in
  Ok (frames ++ [status_message room error]).

(** ** Facts *)

Lemma ascii_at max frame (n : N) : frame = Some (string_bytes (pretty n)) → n ≤ max → ascii max frame = Ok n.
Proof.
  intros -> Hn. unfold ascii. cbn [ok_or result_bind]. pose proof (pretty_N_utf8 n) as Hu. unfold utf8 in Hu. rewrite Hu.
  by rewrite bytes_string_inv, parse_pretty.
Qed.

Lemma lossy_valid fuel : ∀ bs, (length bs ≤ fuel)%nat → from_utf8 bs = Ok tt → from_utf8_lossy fuel bs = bs.
Proof.
  induction fuel as [|fuel IH]; intros [|b bs] Hf Hu; cbn [length] in Hf; try done; [lia|].
  rewrite from_utf8_cons in Hu by done. cbn [from_utf8_lossy].
  destruct (utf8_char (b :: bs)) as [n| |] eqn:Hc; [|done..]. apply utf8_char_width_ok in Hc.
  rewrite IH; [apply take_drop| |done]. rewrite length_drop. cbn [length] in *. lia.
Qed.

Lemma from_to_be n x : x < 256 ^ N.of_nat n → from_be_bytes (to_be_bytes n x) = x.
Proof. intros Hx. unfold from_be_bytes, to_be_bytes. rewrite rev_involutive. by apply from_to_le. Qed.

Lemma len_to_be n x : len (to_be_bytes n x) = N.of_nat n.
Proof. unfold to_be_bytes, len. by rewrite length_rev, length_to_le. Qed.

Definition is_ack (m : message) : bool := bool_decide (head m = Some ABORT_ACK).
Definition is_aux (m : message) : bool := bool_decide (head m = Some AUX_DATA).

(** The room a message names. *)
Definition message_room (m : message) : Result string N := ascii u64_MAX (m !! (if is_aux m || is_ack m then 1 else 0)%nat).

Definition addressed (room : N) (m : message) : bool := match message_room m with Ok r => r =? room | Err _ => false end.

Lemma addressed_spec room m : addressed room m = true ↔ message_room m = Ok room.
Proof. unfold addressed. destruct (message_room m) as [r|e]; [rewrite N.eqb_eq|]; split; congruence. Qed.

(** What a message does to its room. *)
Definition room_ingest (r : Room) (m : message) : Result string Room :=
  if is_ack m then ingest_ack r m else if is_aux m then ingest_aux r m else ingest_status r m.

(** A message no inbox takes for malformed. *)
Definition well_formed (m : message) : Prop := ∀ state, ∃ state', ingest state m = Ok state'.

Lemma ingest_eq state m : m ≠ [] →
  ingest state m =
  (let? room_id := message_room m in
   match rooms state !! room_id with
   | None => Ok state
   | Some room => let? room := room_ingest room m in Ok (set_room state room_id room)
   end).
Proof.
  intros Hm. destruct m as [|h m]; [done|]. unfold ingest, message_room, room_ingest, is_ack, is_aux. cbn [head ok_or result_bind].
  rewrite (bool_decide_ext (Some h = Some AUX_DATA) (h = AUX_DATA)), (bool_decide_ext (Some h = Some ABORT_ACK) (h = ABORT_ACK)) by (split; congruence).
  done.
Qed.

Lemma addressed_not_nil room m : addressed room m = true → m ≠ [].
Proof. by destruct m. Qed.

Lemma receive_addressed state room r r' m :
  addressed room m = true → rooms state !! room = Some r → room_ingest r m = Ok r' → receive_message state m = set_room state room r'.
Proof.
  intros Ha Hr Hi. unfold receive_message. rewrite ingest_eq by by apply (addressed_not_nil room). apply addressed_spec in Ha. rewrite Ha.
  cbn [result_bind]. rewrite Hr, Hi. done.
Qed.

Lemma receive_other state room m state' : addressed room m = false → ingest state m = Ok state' →
  rooms (receive_message state m) !! room = rooms state !! room ∧ failure (receive_message state m) = failure state.
Proof.
  intros Ha Hi. unfold receive_message. rewrite Hi.
  destruct (decide (m = [])) as [->|Hne]; [done|]. rewrite ingest_eq in Hi by done.
  apply result_bind_Ok in Hi as (id&Hid&Hi). assert (id ≠ room) as Hne'. { intros ->. apply addressed_spec in Hid. congruence. }
  destruct (rooms state !! id) as [r|]; [|by injection Hi as <-]. apply result_bind_Ok in Hi as (r'&_&[= <-]).
  cbn. by rewrite lookup_insert_ne.
Qed.

(** A failure stays. *)
Lemma receive_failed ms : ∀ state, is_Some (failure state) → is_Some (failure (foldl receive_message state ms)).
Proof.
  induction ms as [|m ms IH]; intros state Hf; [done|]. cbn [foldl]. apply IH. unfold receive_message.
  destruct (ingest state m) as [state'|e] eqn:Hi; [|by eexists]. destruct (decide (m = [])) as [->|Hne]; [done|]. rewrite ingest_eq in Hi by done.
  apply result_bind_Ok in Hi as (id&_&Hi). destruct (rooms state !! id) as [r|]; [|by injection Hi as <-].
  by apply result_bind_Ok in Hi as (r'&_&[= <-]).
Qed.

(** What the messages of a room make of it. *)
Fixpoint room_run (r : Room) (ms : list message) : option Room :=
  match ms with [] => Some r | m :: ms => match room_ingest r m with Ok r => room_run r ms | Err _ => None end end.

Lemma room_run_app r ms ms' : room_run r (ms ++ ms') = r' ← room_run r ms; room_run r' ms'.
Proof. revert r. induction ms as [|m ms IH]; intros r; [done|]. cbn. destruct (room_ingest r m); [apply IH|done]. Qed.

(** A message that is not of the room and that some inbox takes for malformed. *)
Definition malformed_among (room : N) (ms : list message) : Prop := Exists (λ m, addressed room m = false ∧ ¬ well_formed m) ms.

Lemma receive_messages room ms : ∀ state r r',
  failure state = None → rooms state !! room = Some r → room_run r (filter (λ m, addressed room m = true) ms) = Some r' →
  rooms (foldl receive_message state ms) !! room = Some r' ∧ failure (foldl receive_message state ms) = None ∨
  is_Some (failure (foldl receive_message state ms)) ∧ malformed_among room ms.
Proof.
  unfold malformed_among. induction ms as [|m ms IH]; intros state r r' Hf Hr Hrun; [injection Hrun as <-; by left|].
  cbn [foldl]. rewrite Exists_cons. rewrite filter_cons in Hrun. case_decide as Ha.
  - cbn [room_run] in Hrun. destruct (room_ingest r m) as [r1|] eqn:Hi; [|done]. rewrite (receive_addressed state room r r1 m) by done.
    destruct (IH (set_room state room r1) r1 r') as [?|[? Hno]]; [done|apply lookup_insert_eq|done|by left|right; by split; [|right]].
  - apply not_true_is_false in Ha. destruct (ingest state m) as [state'|e] eqn:Hi.
    + destruct (receive_other state room m state' Ha Hi) as [Hr' Hf'].
      destruct (IH (receive_message state m) r r') as [?|[? Hno]]; [congruence..|done|by left|right; by split; [|right]].
    + right. split; [apply receive_failed; unfold receive_message; rewrite Hi; by eexists|].
      left. split; [done|]. intros H. destruct (H state) as [? H']. congruence.
Qed.

(** ** The messages of a completion *)

Lemma pretty_not_word (n : N) (w : list N) : Exists (λ b, is_digit b = false) w → string_bytes (pretty n) ≠ w.
Proof.
  intros Hw He. destruct (pretty_digits n) as (_&Ha&_). unfold all_digits in Ha. rewrite text_bytes_string, He in Ha.
  apply Exists_exists in Hw as (b&Hb&Hd). rewrite Forall_forall in Ha. specialize (Ha b Hb). congruence.
Qed.

Lemma status_kind room error : is_ack (status_message room error) = false ∧ is_aux (status_message room error) = false.
Proof.
  unfold is_ack, is_aux. split; apply bool_decide_eq_false; intros [= He]; revert He; apply pretty_not_word; apply Exists_cons_hd; done.
Qed.

Lemma message_room_aux room b c d e : room ≤ u64_MAX → message_room [AUX_DATA; string_bytes (pretty room); b; c; d; e] = Ok room.
Proof. intros Hr. unfold message_room. change (is_aux _ || is_ack _)%bool with true. cbv iota. by apply ascii_at. Qed.

Lemma message_room_status room error : room ≤ u64_MAX → message_room (status_message room error) = Ok room.
Proof. intros Hr. unfold message_room. destruct (status_kind room error) as [-> ->]. by apply ascii_at. Qed.

Lemma pretty_Z_of_N (n : N) : pretty (Z.of_N n) = pretty n.
Proof. by destruct n. Qed.

Lemma token_ingest r room t (aux : N) : t < 2 ^ 31 → aux ≤ usize_MAX →
  room_ingest r (token_message room t (Z.of_N aux)) = Ok (mkRoom (Some t) (recurrent_state r) (terminal r) (abort_ack r)).
Proof.
  intros Ht Haux. unfold room_ingest, token_message. change (is_ack _) with false. change (is_aux _) with true. cbv iota.
  unfold ingest_aux. rewrite (ascii_at _ _ 0) by done. rewrite (ascii_at _ _ aux) by (rewrite ?pretty_Z_of_N; done). cbn [result_bind].
  rewrite len_to_be. change (negb (N.of_nat 4 =? 4)) with false. cbv iota. rewrite from_to_be by done.
  rewrite len_app. change (len (i32_to_le_bytes (Z.of_N t))) with 4. change (len (repeat 0 60)) with 60. cbn -[slice_to i32_to_le_bytes].
  rewrite slice_to_at by done. rewrite i32_from_to_le by lia. destruct (Z.ltb_spec (Z.of_N t) 0); [lia|]. by rewrite N2Z.id.
Qed.

Lemma state_ingest r room state (aux : N) : len state ≤ u32_MAX → aux ≤ usize_MAX →
  room_ingest r (state_message room state (Z.of_N aux)) = Ok (mkRoom (token r) (Some state) (terminal r) (abort_ack r)).
Proof.
  intros Hs Haux. unfold room_ingest, state_message. change (is_ack _) with false. change (is_aux _) with true. cbv iota.
  unfold ingest_aux. rewrite (ascii_at _ _ 1) by done. rewrite (ascii_at _ _ aux) by (rewrite ?pretty_Z_of_N; done). cbn [result_bind].
  rewrite len_to_be. change (negb (N.of_nat 4 =? 4)) with false. cbv iota. rewrite from_to_be by (change (256 ^ N.of_nat 4) with (2 ^ 32); lia).
  rewrite N.eqb_refl. done.
Qed.

Lemma status_ingest r room error : utf8 (default ""%string error) →
  room_ingest r (status_message room error) =
    Ok (mkRoom (token r) (recurrent_state r) (Some (match error with Some e => Err e | None => Ok tt end)) (abort_ack r)).
Proof.
  intros Hu. unfold room_ingest. destruct (status_kind room error) as [-> ->]. unfold ingest_status, status_message.
  change (len _ <? 3) with false. cbv iota. rewrite (ascii_at _ _ 0) by done. cbn [result_bind]. change (negb (0 =? 0)) with false. cbv iota.
  destruct error as [e|]; [rewrite (ascii_at _ _ 0) by done|rewrite (ascii_at _ _ 4) by done]; cbn -[from_utf8_lossy string_bytes]; [|done].
  rewrite lossy_valid, bytes_string_inv by done. done.
Qed.

Lemma aux_keeps_terminal ms : ∀ r r', Forall (λ m, is_aux m = true) ms → room_run r ms = Some r' → terminal r' = terminal r.
Proof.
  induction ms as [|m ms IH]; intros r r' Hall Hrun; [by injection Hrun as <-|]. inversion Hall as [|?? Hm Hms]; subst.
  cbn [room_run] in Hrun. destruct (room_ingest r m) as [r1|] eqn:Hi; [|done]. rewrite (IH _ _ Hms Hrun). clear IH Hrun.
  unfold room_ingest in Hi. rewrite Hm in Hi. assert (is_ack m = false) as Hack.
  { apply bool_decide_eq_true in Hm. apply bool_decide_eq_false. rewrite Hm. by intros [=]. }
  rewrite Hack in Hi. unfold ingest_aux in Hi. destruct m as [|? [|? [|? [|? [|lb [|pl [|]]]]]]]; try done.
  apply result_bind_Ok in Hi as (?&_&Hi). apply result_bind_Ok in Hi as (?&_&Hi).
  repeat match type of Hi with (if ?b then _ else _) = _ => destruct b end; try done; by injection Hi as <-.
Qed.

(** A completion is data messages, which set the token and the state, and then
    the status. *)
Lemma completion_messages room tok state error (aux : N) fs : room ≤ u64_MAX → aux ≤ usize_MAX →
  completion_frames room tok state error (Z.of_N aux) = Ok fs →
  ∃ data, fs = data ++ [status_message room error] ∧ Forall (λ m, addressed room m = true ∧ is_aux m = true) data ∧
    (∀ r, room_run r data = Some (mkRoom (match tok with Some t => Some t | None => token r end)
                                         (match state with Some s => Some s | None => recurrent_state r end) (terminal r) (abort_ack r))).
Proof.
  intros Hroom Haux. unfold completion_frames. intros Hfs. apply result_bind_Ok in Hfs as (d1&H1&Hfs).
  apply result_bind_Ok in Hfs as (d2&H2&[= <-]). exists d2. split; [done|].
  assert (∀ t, addressed room (token_message room t (Z.of_N aux)) = true) as Ht by (intros t; by apply addressed_spec, message_room_aux).
  assert (∀ s, addressed room (state_message room s (Z.of_N aux)) = true) as Hs by (intros s; by apply addressed_spec, message_room_aux).
  destruct tok as [t|]; [destruct (N.ltb_spec (2 ^ 31 - 1) t); [done|]|]; injection H1 as <-;
    (destruct state as [s|]; [destruct (N.ltb_spec u32_MAX (len s)); [done|]|]); injection H2 as <-; cbn [app];
    (split; [repeat (apply Forall_cons_2 || apply Forall_nil_2); done|]); intros [? ? ? ?]; cbn [room_run];
    rewrite ?token_ingest by lia; cbn -[state_message]; rewrite ?state_ingest by lia; done.
Qed.

Lemma filter_concat_cons {A} (P : A → Prop) `{!∀ x, Decision (P x)} (g : list A) gs : filter P (concat (g :: gs)) = filter P g ++ filter P (concat gs).
Proof. cbn [concat]. apply filter_app. Qed.

Definition timed_out (room : N) : string :=
  "timed out waiting for PD control room " +:+ pretty room +:+ "; KV memory remains reserved until sender drain acknowledgement".

(** What a room that gets no more messages gives whoever waits for it. *)
Definition outcome (room : N) (r : Room) : Result string (option N * option (list N)) :=
  match terminal r, token r with
  | Some (Err e), _ => Err e
  | Some (Ok _), Some t => Ok (Some t, recurrent_state r)
  | _, _ => Err (timed_out room)
  end.

Lemma look_outcome state room r : failure state = None → rooms state !! room = Some r →
  wait_look state room false = Some (outcome room r) ∨ wait_look state room false = None ∧ outcome room r = Err (timed_out room).
Proof.
  intros Hf Hr. unfold wait_look, outcome. rewrite Hf, Hr. cbn [andb].
  destruct (terminal r) as [[u|e]|]; [|by left|by right]. destruct (token r) as [t|]; [by left|by right].
Qed.

(** A wait that gives [res], unless a malformed message came in, and then at most an error. *)
Definition settled_wait (room : N) (arrivals : list (list message)) {A} (res : Result string A) (w : Result string A * Inbox) : Prop :=
  w.1 = res ∨ (∃ e, w.1 = Err e) ∧ malformed_among room (concat arrivals).

Lemma wait_failed room arrivals state cancel : is_Some (failure state) → ∃ e, (wait arrivals state room cancel).1 = Err e.
Proof. intros [e He]. destruct arrivals; cbn [wait]; unfold wait_look; rewrite He; by eexists. Qed.

Lemma settled_later {A} room g gs (res : Result string A) w : settled_wait room gs res w → settled_wait room (g :: gs) res w.
Proof.
  intros [?|[? Hno]]; [by left|right]. split; [done|]. apply Exists_app. by right.
Qed.

Lemma settled_failed {A} room g gs (res : Result string A) w : (∃ e, w.1 = Err e) → malformed_among room g → settled_wait room (g :: gs) res w.
Proof. intros Hw Hno. right. split; [done|]. apply Exists_app. by left. Qed.

Lemma wait_done room arrivals : ∀ state r, failure state = None → rooms state !! room = Some r →
  filter (λ m, addressed room m = true) (concat arrivals) = [] → settled_wait room arrivals (outcome room r) (wait arrivals state room false).
Proof.
  induction arrivals as [|g gs IH]; intros state r Hf Hr Hnone; cbn [wait];
    destruct (look_outcome state room r Hf Hr) as [->|[-> Ho]]; try by left.
  rewrite filter_concat_cons in Hnone. apply app_eq_nil in Hnone as [Hg Hgs].
  destruct (receive_messages room g state r r) as [[Hr' Hf']|[Hf' Hno]]; [done..|by rewrite Hg|by apply settled_later, IH|].
  apply settled_failed; [by apply wait_failed|done].
Qed.

Lemma wait_for_status room last r' arrivals : ∀ state r p, failure state = None →
  rooms state !! room = Some r → terminal r = None → filter (λ m, addressed room m = true) (concat arrivals) = p ++ [last] →
  Forall (λ m, is_aux m = true) p → room_run r (p ++ [last]) = Some r' →
  settled_wait room arrivals (outcome room r') (wait arrivals state room false).
Proof.
  induction arrivals as [|g gs IH]; intros state r p Hf Hr Ht Hfil Hp Hrun; [by destruct p|].
  assert (wait_look state room false = None) as Hlook by (unfold wait_look; by rewrite Hf, Hr, Ht).
  cbn [wait]. rewrite Hlook. rewrite filter_concat_cons in Hfil.
  destruct (filter (λ m, addressed room m = true) (concat gs)) as [|x rest _] eqn:Hgs using rev_ind.
  - rewrite app_nil_r in Hfil. rewrite <-Hfil in Hrun. destruct (receive_messages room g state r r') as [[Hr' Hf']|[Hf' Hno]]; [done..| |].
    + by apply settled_later, wait_done.
    + apply settled_failed; [by apply wait_failed|done].
  - rewrite app_assoc in Hfil. apply app_inj_tail in Hfil as [<- ->]. apply Forall_app in Hp as [Hp1 Hp2].
    rewrite <-app_assoc, room_run_app in Hrun. destruct (room_run r (filter _ g)) as [r1|] eqn:Hg; [|done].
    destruct (receive_messages room g state r r1) as [[Hr1 Hf1]|[Hf' Hno]]; [done..| |].
    + apply settled_later, (IH _ r1 rest); try done. by rewrite (aux_keeps_terminal _ r r1 Hp1 Hg).
    + apply settled_failed; [by apply wait_failed|done].
Qed.

(** C18. The decode side learns exactly how a transfer ended.  Whatever other messages
    arrive, in whatever groups, waiting for a registered room gives the token and the
    state the prefill worker sent with its success, or its error; a success without a
    token is never taken for one.  The one exception is a malformed message, which
    fails the inbox: then waiting gives that, or an error, never another token. *)
Theorem completion_received room tok state error (aux : N) fs arrivals inbox :
  completion_frames room tok state error (Z.of_N aux) = Ok fs → room ≤ u64_MAX → aux ≤ usize_MAX → utf8 (default ""%string error) →
  failure inbox = None → rooms inbox !! room = Some Room_default →
  filter (λ m, addressed room m = true) (concat arrivals) = fs →
  (receive_token_and_state arrivals inbox room).1 =
    match error, tok with
    | Some e, _ => Err e
    | None, Some t => Ok (t, state)
    | None, None => Err (timed_out room)
    end ∨
  (∃ e, (receive_token_and_state arrivals inbox room).1 = Err e) ∧ malformed_among room (concat arrivals).
Proof.
  intros Hfs Hroom Haux Hu Hf Hr Hfil. destruct (completion_messages _ _ _ _ _ _ Hroom Haux Hfs) as (data&->&Hdata&Hrun).
  set (r := mkRoom tok state (Some (match error with Some e => Err e | None => Ok tt end)) false).
  unfold receive_token_and_state.
  destruct (wait_for_status room (status_message room error) r arrivals inbox Room_default data) as [Hw|[[e Hw] Hno]]; try done.
  - eapply Forall_impl; [exact Hdata|]. by intros m [].
  - rewrite room_run_app, Hrun. cbn [mbind option_bind room_run]. rewrite status_ingest by done. by destruct tok, state.
  - left. destruct (wait _ _ _ _) as [res inbox']. cbn [fst] in Hw. subst res. unfold outcome, r. by destruct error as [e|], tok as [t|].
  - right. destruct (wait _ _ _ _) as [res inbox']. cbn [fst] in Hw. subst res. by split; [eexists|].
Qed.

(** What lets a decode worker reuse the memory of a room. *)
Definition released (r : Room) : bool := abort_ack r || bool_decide (is_Some (terminal r)).

Lemma aux_keeps_released r r' m : is_aux m = true → room_ingest r m = Ok r' → released r' = released r.
Proof.
  intros Hm Hi. unfold released. assert (terminal r' = terminal r) as ->.
  { apply (aux_keeps_terminal [m]); [by repeat constructor|]. cbn [room_run]. by rewrite Hi. }
  f_equal. unfold room_ingest in Hi. assert (is_ack m = false) as Hack.
  { apply bool_decide_eq_true in Hm. apply bool_decide_eq_false. rewrite Hm. by intros [=]. }
  rewrite Hack, Hm in Hi. unfold ingest_aux in Hi. destruct m as [|? [|? [|? [|? [|lb [|pl [|]]]]]]]; try done.
  apply result_bind_Ok in Hi as (?&_&Hi). apply result_bind_Ok in Hi as (?&_&Hi).
  repeat match type of Hi with (if ?b then _ else _) = _ => destruct b end; try done; by injection Hi as <-.
Qed.

Lemma receive_unreleased state room r m :
  (message_room m = Ok room → is_aux m = true) → rooms state !! room = Some r →
  ∃ r', rooms (receive_message state m) !! room = Some r' ∧ released r' = released r.
Proof.
  intros Hm Hr. unfold receive_message. destruct (decide (m = [])) as [->|Hne]; [by exists r|].
  destruct (ingest state m) as [state'|e] eqn:Hi; [|by exists r]. rewrite ingest_eq in Hi by done.
  apply result_bind_Ok in Hi as (id&Hid&Hi). destruct (rooms state !! id) as [r1|] eqn:Hr1; [|injection Hi as <-; by exists r].
  apply result_bind_Ok in Hi as (r2&Hi&[= <-]). cbn. destruct (decide (id = room)) as [->|Hne'].
  - rewrite lookup_insert_eq. exists r2. split; [done|]. rewrite Hr in Hr1. injection Hr1 as <-. apply (aux_keeps_released r r2 m); [by apply Hm|done].
  - rewrite lookup_insert_ne by done. by exists r.
Qed.

Lemma drained_released arrivals room : ∀ inbox r inbox',
  rooms inbox !! room = Some r → released r = false → wait_drained arrivals inbox room = (Ok tt, inbox') →
  ∃ m, m ∈ concat arrivals ∧ message_room m = Ok room ∧ is_aux m = false.
Proof.
  induction arrivals as [|g gs IH]; intros inbox r inbox' Hr Hrel Hw.
  - unfold wait_drained in Hw. cbn [wait] in Hw. unfold wait_look in Hw. destruct (failure inbox); [done|]. rewrite Hr in Hw.
    unfold released in Hrel. rewrite Hrel in Hw. apply orb_false_iff in Hrel as [_ Ht]. apply bool_decide_eq_false in Ht.
    by destruct (terminal r); [destruct Ht; eauto|].
  - assert (∀ ms inbox, (∀ m, m ∈ ms → message_room m = Ok room → is_aux m = true) → ∀ r, rooms inbox !! room = Some r →
      ∃ r', rooms (foldl receive_message inbox ms) !! room = Some r' ∧ released r' = released r) as Hrun.
    { clear. induction ms as [|m ms IH]; intros inbox Hms r Hr; [by exists r|]. cbn [foldl].
      destruct (receive_unreleased inbox room r m) as (r1&Hr1&Heq); [apply Hms; left|done|].
      destruct (IH (receive_message inbox m)) with (r := r1) as (r2&Hr2&Heq2); [intros m' Hm'; apply Hms; by right|done|]. exists r2. split; [done|congruence]. }
    destruct (decide (Exists (λ m, addressed room m = true ∧ is_aux m = false) g)) as [Hex|Hno].
    + apply Exists_exists in Hex as (m&Hm&Ha&H). exists m. split; [|by apply addressed_spec in Ha]. cbn [concat]. apply elem_of_app. by left.
    + destruct (Hrun g inbox) with (r := r) as (r1&Hr1&Hrel1); [|done|].
      { intros m Hm Hroom. apply not_false_is_true. intros Ha. apply Hno, Exists_exists. exists m. split; [done|]. by rewrite addressed_spec. }
      assert (wait_drained gs (foldl receive_message inbox g) room = (Ok tt, inbox')) as Hw'.
      { unfold wait_drained in Hw |- *. cbn [wait] in Hw. unfold wait_look in Hw. destruct (failure inbox); [done|]. rewrite Hr in Hw.
        unfold released in Hrel. rewrite Hrel in Hw. apply orb_false_iff in Hrel as [_ Ht]. apply bool_decide_eq_false in Ht.
        destruct (terminal r); [destruct Ht; by eauto|done]. }
      destruct (IH _ _ _ Hr1 ltac:(congruence) Hw') as (m&Hm&H). exists m. split; [|done]. cbn [concat]. apply elem_of_app. by right.
Qed.

(** Waiting for a room to drain ends well only when the prefill worker said
    so: an acknowledgement or a terminal status of that very room has come in
    before the memory is given up. *)
Theorem drained_room_was_released arrivals room : ∀ inbox r inbox',
  rooms inbox !! room = Some r → released r = false → wait_drained arrivals inbox room = (Ok tt, inbox') →
  ∃ m, m ∈ concat arrivals ∧ message_room m = Ok room ∧ is_aux m = false.
Proof. apply drained_released. Qed.

(** ** Witnesses *)

Lemma ok_well_formed room m : m ≠ [] → message_room m = Ok room → (∀ r, ∃ r', room_ingest r m = Ok r') → well_formed m.
Proof.
  intros Hne Hm Hi state. rewrite ingest_eq, Hm by done. cbn [result_bind]. destruct (rooms state !! room) as [r|]; [|by eexists].
  destruct (Hi r) as [r' ->]. by eexists.
Qed.

(** The completions of other rooms may come in between. *)
Lemma completion_well_formed room tok state error (aux : N) fs : room ≤ u64_MAX → aux ≤ usize_MAX → utf8 (default ""%string error) →
  completion_frames room tok state error (Z.of_N aux) = Ok fs → Forall well_formed fs.
Proof.
  intros Hroom Haux Hu. unfold completion_frames. intros Hfs. apply result_bind_Ok in Hfs as (d1&H1&Hfs).
  apply result_bind_Ok in Hfs as (d2&H2&[= <-]).
  assert (well_formed (status_message room error)) as Hst.
  { apply (ok_well_formed room); [done|by apply message_room_status|]. intros r. rewrite status_ingest by done. by eexists. }
  assert (∀ t, t < 2 ^ 31 → well_formed (token_message room t (Z.of_N aux))) as Ht.
  { intros t Ht. apply (ok_well_formed room); [done|by apply message_room_aux|]. intros r. rewrite token_ingest by done. by eexists. }
  assert (∀ s, len s ≤ u32_MAX → well_formed (state_message room s (Z.of_N aux))) as Hs.
  { intros s Hs. apply (ok_well_formed room); [done|by apply message_room_aux|]. intros r. rewrite state_ingest by done. by eexists. }
  destruct tok as [t|]; [destruct (N.ltb_spec (2 ^ 31 - 1) t); [done|]|]; injection H1 as <-;
    (destruct state as [s|]; [destruct (N.ltb_spec u32_MAX (len s)); [done|]|]); injection H2 as <-; cbn [app];
    repeat (refine (Forall_cons_2 _ _ _ _ _); [match goal with |- well_formed (status_message _ _) => exact Hst | |- well_formed (state_message _ _ _) => apply Hs; assumption | |- _ => apply Ht; lia end|]); exact (Forall_nil_2 _).
Qed.

(** Two rooms; the completion of one arrives in the middle of the other's. *)
Definition demo_inbox : Inbox := mkInbox (<[7 := Room_default]> (<[8 := Room_default]> ∅)) None.

Definition demo_arrivals : list (list message) :=
  [[token_message 7 42 0; token_message 8 5 0]; [status_message 8 (Some "out of memory"%string)];
   [state_message 7 [1; 2; 3] 0; status_message 7 None]].

Lemma completion_received_witness : (receive_token_and_state demo_arrivals demo_inbox 7).1 = Ok (42, Some [1; 2; 3]).
Proof.
  destruct (completion_received 7 (Some 42) (Some [1; 2; 3]) None 0 (filter (λ m, addressed 7 m = true) (concat demo_arrivals)) demo_arrivals demo_inbox)
    as [H|[_ Hm]]; [vm_compute; reflexivity|apply N.leb_le; reflexivity..|reflexivity|reflexivity|reflexivity|reflexivity|exact H|exfalso].
  destruct (completion_frames 8 (Some 5) None (Some "out of memory"%string) 0) as [fs|] eqn:Hfs; [|done].
  pose proof (completion_well_formed 8 (Some 5) None (Some "out of memory"%string) 0 fs ltac:(done) ltac:(done) eq_refl Hfs) as Hw.
  injection Hfs as <-. inversion Hw as [|?? H1 Hw']; subst. inversion Hw' as [|?? H2 _]; subst.
  revert Hm. unfold malformed_among. cbn [concat demo_arrivals app]. intros Hm.
  repeat (apply Exists_cons in Hm as [[Ha Hn]|Hm]; [first [by apply Hn|vm_compute in Ha; discriminate Ha]|]). by apply Exists_nil in Hm.
Defined.

Lemma drained_room_was_released_witness :
  ∃ m, m ∈ concat [[[ABORT_ACK; string_bytes "7"; string_bytes "0"]]] ∧ message_room m = Ok 7 ∧ is_aux m = false.
Proof.
  apply (drained_room_was_released [[[ABORT_ACK; string_bytes "7"; string_bytes "0"]]] 7 demo_inbox Room_default
    (mkInbox (<[7 := mkRoom None None None true]> (<[8 := Room_default]> ∅)) None)); reflexivity.
Defined.

(** A success whose status overtakes the state is taken without it. *)
Example late_state_is_lost :
  fst (receive_token_and_state [[token_message 7 42 0; status_message 7 None]; [state_message 7 [1] 0]] demo_inbox 7) = Ok (42, None).
Proof. vm_compute. reflexivity. Qed.

(** One malformed message makes every room fail, for good. *)
Example malformed_message_fails_all_rooms :
  fst (receive_token_and_state [[[string_bytes "8"; string_bytes "1"; string_bytes "0"]]; [token_message 7 42 0; status_message 7 None]] demo_inbox 7)
    = Err "unexpected nonterminal PD control status 1"%string.
Proof. vm_compute. reflexivity. Qed.
