(* ===== verification/PdBootstrap.v ===== *)
(** * The prefill bootstrap service ([crates/sglang-srt/src/transfer/pd_bootstrap.rs])

    The prefill side of disaggregated serving: the table of worker routes, the
    rooms decode workers announce over ZeroMQ, and the transfer executor that
    waits for a room to be announced, submits its spans and tells the decode
    workers how they ended.  The service state is behind one mutex and other
    threads use it too: every lock the executor takes first lets a group of
    their calls through, so a theorem about all groups is one about every
    interleaving at the locks. *)

From stdpp Require Import pretty sorting.
From S2P Require Import Prelude Bytes Text Types Request TransferPlan TransferDescriptor KvBootstrap KvTransfer Tokenizer PdWire PdControl.

(** ** The state *)

(** [pd_bootstrap.rs:562-570] PrefillServerInfo *)
Record PrefillServerInfo : Type := mkServerInfo {
  si_attn_tp_size : N;
  si_attn_cp_size : N;
  si_dp_size : N;
  si_pp_size : N;
  si_page_size : option N;
  si_kv_cache_dtype : option string;
  si_follow_bootstrap_room : bool;
}.

(** [pd_bootstrap.rs:573-576] PrefillRankInfo *)
Record PrefillRankInfo : Type := mkRankInfo { rank_ip : string; rank_port : N }.

(** [pd_bootstrap.rs:579-581] PrefillRankInfo::zmq_endpoint *)
Definition zmq_endpoint (r : PrefillRankInfo) : string := "tcp://" +:+ rank_ip r +:+ ":" +:+ pretty (rank_port r).

(** The transfers by session, in the order of their keys. *)
(** [pd_bootstrap.rs:669-674] PdTransferRoom *)
Record PdTransferRoom : Type := mkTransferRoom {
  required_dst_info_num : N;
  room_status : KvPoll;
  decode_prefix_len : option N;
  transfers : list (string * PdTransferInfo);
}.

(** [pd_bootstrap.rs:679-685] PdRemoteKvLayoutError *)
Inductive PdRemoteKvLayoutError : Type :=
  | MissingTransferRoom (room : N)
  | MissingKvArgsRegistration (room : N) (session_id : string).

(** [pd_bootstrap.rs:689-701] PdRemoteKvLayoutError::fmt *)
Definition PdRemoteKvLayoutError_to_string (e : PdRemoteKvLayoutError) : string :=
  match e with
  | MissingTransferRoom room => "missing transfer room: " +:+ pretty room
  | MissingKvArgsRegistration room session_id =>
      "missing KVArgs registration for room " +:+ pretty room +:+ " session " +:+ session_id
  end.

(** [pd_bootstrap.rs:706-709] RegisteredDpRank *)
Record RegisteredDpRank : Type := mkDpRank { dp_rank : Z; timestamp_secs : N }.

(** [pd_bootstrap.rs:712-728] PrefillRouteRegistration *)
Record PrefillRouteRegistration : Type := mkRoute {
  rr_attn_tp_size : N; rr_attn_tp_rank : N;
  rr_attn_cp_size : N; rr_attn_cp_rank : N;
  rr_attn_dp_size : N; rr_attn_dp_rank : N;
  rr_pp_size : N; rr_pp_rank : N;
  rr_system_dp_size : N; rr_system_dp_rank : N;
  rr_rank_ip : string; rr_rank_port : N;
  rr_page_size : option N;
  rr_kv_cache_dtype : option string;
  rr_load_balance_method : option string;
}.

(** The routes by data, context, tensor and pipeline rank. *)
(** [pd_bootstrap.rs:331-334] PrefillPortTable *)
Notation PrefillPortTable := (gmap N (gmap N (gmap N (gmap N PrefillRankInfo)))).

(** [pd_bootstrap.rs:312-329] PrefillBootstrapState *)
Record PrefillBootstrapState : Type := mkState {
  attn_tp_size : option N;
  attn_cp_size : option N;
  dp_size : option N;
  pp_size : option N;
  ps_page_size : option N;
  kv_cache_dtype : option string;
  follow_bootstrap_room : option bool;
  registered_count : N;
  prefill_port_table : PrefillPortTable;
  room_to_dp_rank : gmap N RegisteredDpRank;
  decode_kv_args_table : gmap string PdKvArgsRegisterInfo;
  decode_kv_args_registration_count : N;
  transfer_rooms : gmap N PdTransferRoom;
  active_rooms : gset N;
  aborted_rooms : gset N;
  abort_targets : gmap N (list string);
}.

(** [pd_bootstrap.rs:311-329] PrefillBootstrapState (default) *)
Definition PrefillBootstrapState_default : PrefillBootstrapState :=
  mkState None None None None None None None 0 ∅ ∅ ∅ 0 ∅ ∅ ∅ ∅.

Implicit Type st : PrefillBootstrapState.

Definition set_rooms st (rooms : gmap N PdTransferRoom) : PrefillBootstrapState :=
  mkState (attn_tp_size st) (attn_cp_size st) (dp_size st) (pp_size st) (ps_page_size st) (kv_cache_dtype st) (follow_bootstrap_room st)
    (registered_count st) (prefill_port_table st) (room_to_dp_rank st) (decode_kv_args_table st) (decode_kv_args_registration_count st)
    rooms (active_rooms st) (aborted_rooms st) (abort_targets st).
Definition set_kv_args st (table : gmap string PdKvArgsRegisterInfo) (count : N) : PrefillBootstrapState :=
  mkState (attn_tp_size st) (attn_cp_size st) (dp_size st) (pp_size st) (ps_page_size st) (kv_cache_dtype st) (follow_bootstrap_room st)
    (registered_count st) (prefill_port_table st) (room_to_dp_rank st) table count
    (transfer_rooms st) (active_rooms st) (aborted_rooms st) (abort_targets st).
Definition set_dp_ranks st (ranks : gmap N RegisteredDpRank) : PrefillBootstrapState :=
  mkState (attn_tp_size st) (attn_cp_size st) (dp_size st) (pp_size st) (ps_page_size st) (kv_cache_dtype st) (follow_bootstrap_room st)
    (registered_count st) (prefill_port_table st) ranks (decode_kv_args_table st) (decode_kv_args_registration_count st)
    (transfer_rooms st) (active_rooms st) (aborted_rooms st) (abort_targets st).
Definition set_aborts st (active aborted : gset N) (targets : gmap N (list string)) : PrefillBootstrapState :=
  mkState (attn_tp_size st) (attn_cp_size st) (dp_size st) (pp_size st) (ps_page_size st) (kv_cache_dtype st) (follow_bootstrap_room st)
    (registered_count st) (prefill_port_table st) (room_to_dp_rank st) (decode_kv_args_table st) (decode_kv_args_registration_count st)
    (transfer_rooms st) active aborted targets.

(** ** Rooms *)

(** [pd_bootstrap.rs:353-378] PrefillBootstrapState::ingest_bootstrap_frame (transfer) *)
Definition announce st (transfer : PdTransferInfo) : PrefillBootstrapState :=
  let room := ti_room transfer in
  let required := ti_required_dst_info_num transfer in
  let room_state := default (mkTransferRoom required KvPoll.Bootstrapping None []) (transfer_rooms st !! room) in
  let prefix := match decode_prefix_len room_state with Some n => Some n | None => ti_decode_prefix_len transfer end in
  let all := btree_insert (ti_session_id transfer) transfer (transfers room_state) in
  let status :=
    if len all =? required then if bool_decide (room ∈ aborted_rooms st) then KvPoll.Failed else KvPoll.WaitingForInput
    else room_status room_state in
  set_rooms st (<[room := mkTransferRoom required status prefix all]> (transfer_rooms st)).

(** [pd_bootstrap.rs:337-381] PrefillBootstrapState::ingest_bootstrap_frame *)
Definition ingest_bootstrap_frame st (frame : message) : Result PdBootstrapFrameError PrefillBootstrapState :=
  let? room := ascii_field frame 0 "room" in
  if (room =? "WATERMARK")%string || (room =? "STAGING_RSP")%string then Ok st
  else if (room =? "None")%string then
    let? register := kv_args_from_frame frame in
    Ok (set_kv_args st (<[ka_session_id register := register]> (decode_kv_args_table st)) (decode_kv_args_registration_count st + 1))
  else
    let? transfer := transfer_from_frame frame in Ok (announce st transfer).

(** [pd_bootstrap.rs:390-392] PrefillBootstrapState::decode_kv_args *)
Definition decode_kv_args st (session_id : string) : option PdKvArgsRegisterInfo := decode_kv_args_table st !! session_id.

(** [pd_bootstrap.rs:398-400] PrefillBootstrapState::transfer_room *)
Definition transfer_room st (room : N) : option PdTransferRoom := transfer_rooms st !! room.

(** [pd_bootstrap.rs:402-404] PrefillBootstrapState::transfer_status *)
Definition transfer_status_of st (room : N) : option KvPoll := room_status <$> transfer_rooms st !! room.

(** [pd_bootstrap.rs:416-437] PrefillBootstrapState::remote_kv_layouts_for_room (loop) *)
Fixpoint layouts_of st (room : N) (ts : list (string * PdTransferInfo)) : Result PdRemoteKvLayoutError (list (string * KvRemoteLayout)) :=
  match ts with
  | [] => Ok []
  | (_, transfer) :: ts =>
      if ti_is_dummy transfer then layouts_of st room ts
      else
        let? kv_args := ok_or (decode_kv_args_table st !! ti_session_id transfer) (MissingKvArgsRegistration room (ti_session_id transfer)) in
        let? rest := layouts_of st room ts in
        Ok ((ti_session_id transfer, mkRemoteLayout (ka_dst_kv_ptrs kv_args) (ti_dst_kv_indices transfer) (ka_dst_kv_item_len kv_args)) :: rest)
  end.

(** [pd_bootstrap.rs:406-440] PrefillBootstrapState::remote_kv_layouts_for_room *)
Definition state_layouts_for_room st (room : N) : Result PdRemoteKvLayoutError (list (string * KvRemoteLayout)) :=
  let? room_state := ok_or (transfer_rooms st !! room) (MissingTransferRoom room) in
  layouts_of st room (transfers room_state).

(** ** Routes *)

Definition get_or_insert {A} (o : option A) (a : A) : option A := match o with Some _ => o | None => Some a end.

(** [entry(key).or_default()] *)
Definition entry {A} (m : gmap N (gmap N A)) (key : N) : gmap N A := default ∅ (m !! key).

(** [pd_bootstrap.rs:467-484] PrefillBootstrapState::register_route (table) *)
Definition insert_route (table : PrefillPortTable) (dp_group : N) (r : PrefillRouteRegistration) : PrefillPortTable :=
  let by_cp := entry table dp_group in
  let by_tp := entry by_cp (rr_attn_cp_rank r) in
  let by_pp := entry by_tp (rr_attn_tp_rank r) in
  <[dp_group := <[rr_attn_cp_rank r := <[rr_attn_tp_rank r := <[rr_pp_rank r := mkRankInfo (rr_rank_ip r) (rr_rank_port r)]> by_pp]> by_tp]> by_cp]> table.

(** [pd_bootstrap.rs:442-486] PrefillBootstrapState::register_route *)
Definition register_route st (r : PrefillRouteRegistration) : PrefillBootstrapState :=
  let dp_group := if rr_system_dp_size r =? 1 then rr_attn_dp_rank r else rr_system_dp_rank r in
  mkState (get_or_insert (attn_tp_size st) (rr_attn_tp_size r)) (get_or_insert (attn_cp_size st) (rr_attn_cp_size r))
    (get_or_insert (dp_size st) (if rr_system_dp_size r =? 1 then rr_attn_dp_size r else rr_system_dp_size r))
    (get_or_insert (pp_size st) (rr_pp_size r))
    (match rr_page_size r with Some n => get_or_insert (ps_page_size st) n | None => ps_page_size st end)
    (match rr_kv_cache_dtype r with Some d => get_or_insert (kv_cache_dtype st) d | None => kv_cache_dtype st end)
    (get_or_insert (follow_bootstrap_room st)
       (default "follow_bootstrap_room" (rr_load_balance_method r) =? "follow_bootstrap_room")%string)
    (registered_count st + 1) (insert_route (prefill_port_table st) dp_group r) (room_to_dp_rank st) (decode_kv_args_table st)
    (decode_kv_args_registration_count st) (transfer_rooms st) (active_rooms st) (aborted_rooms st) (abort_targets st).

(** [None]: the product of the sizes does not fit [usize]. *)
(** [pd_bootstrap.rs:488-498] PrefillBootstrapState::is_ready *)
Definition is_ready st : option bool :=
  match dp_size st, attn_cp_size st, attn_tp_size st, pp_size st with
  | Some dp, Some cp, Some tp, Some pp =>
      n ← checked_mul dp cp; n ← checked_mul n tp; n ← checked_mul n pp;
      Some (n <=? registered_count st)
  | _, _, _, _ => Some false
  end.

(** [pd_bootstrap.rs:500-513] PrefillBootstrapState::server_info *)
Definition server_info st : option (option PrefillServerInfo) :=
  ready ← is_ready st;
  Some (if negb ready then None
        else
          tp ← attn_tp_size st; cp ← attn_cp_size st; dp ← dp_size st; pp ← pp_size st;
          Some (mkServerInfo tp cp dp pp (ps_page_size st) (kv_cache_dtype st) (default true (follow_bootstrap_room st)))).

(** [pd_bootstrap.rs:515-528] PrefillBootstrapState::rank_info *)
Definition rank_info st (prefill_dp_rank prefill_cp_rank target_tp_rank target_pp_rank : N) : option PrefillRankInfo :=
  by_cp ← prefill_port_table st !! prefill_dp_rank;
  by_tp ← by_cp !! prefill_cp_rank;
  by_pp ← by_tp !! target_tp_rank;
  by_pp !! target_pp_rank.

(** ** Data-parallel ranks of rooms *)

(** [pd_bootstrap.rs:28-28] DP_RANK_ENTRY_CLEANUP_INTERVAL_SECS *)
Definition DP_RANK_ENTRY_CLEANUP_INTERVAL_SECS : N := 120.

(** [pd_bootstrap.rs:552-558] PrefillBootstrapState::prune_expired_dp_rank_entries *)
Definition prune_expired_dp_rank_entries st (now_secs : N) : PrefillBootstrapState :=
  set_dp_ranks st (filter (λ e : N * RegisteredDpRank,
    saturating_sub now_secs (timestamp_secs e.2) ≤ DP_RANK_ENTRY_CLEANUP_INTERVAL_SECS) (room_to_dp_rank st)).

(** The clock is read twice. *)
(** [pd_bootstrap.rs:530-539] PrefillBootstrapState::register_dp_rank *)
Definition register_dp_rank st (room : N) (rank : Z) (now now' : N) : PrefillBootstrapState :=
  let st := prune_expired_dp_rank_entries st now in
  set_dp_ranks st (<[room := mkDpRank rank now']> (room_to_dp_rank st)).

(** The object by its keys, the rooms in decimal. *)
(** [pd_bootstrap.rs:541-550] PrefillBootstrapState::query_dp_ranks *)
Definition query_dp_ranks st (rooms : list N) (now : N) : gmap string Z * PrefillBootstrapState :=
  let st := prune_expired_dp_rank_entries st now in
  (foldl (λ result room, match room_to_dp_rank st !! room with
                         | Some entry => <[pretty room := dp_rank entry]> result
                         | None => result
                         end) ∅ rooms, st).

(** ** The HTTP service *)

(** [pd_bootstrap.rs:731-736] RouteQuery *)
Record RouteQuery : Type := mkRouteQuery {
  q_prefill_dp_rank : Z; q_prefill_cp_rank : Z; q_target_tp_rank : Z; q_target_pp_rank : Z;
}.

(** A response: a JSON body, or a status with a text. *)
Inductive RouteResponse : Type :=
  | JsonServerInfo (info : PrefillServerInfo)
  | JsonRankInfo (info : PrefillRankInfo)
  | StatusText (status : N) (text : string).

(** [pd_bootstrap.rs:1762-1768] bad_rank_query *)
Definition bad_rank_query : RouteResponse := StatusText 400 "rank query fields must be non-negative".

(** [usize::try_from] of an [i32]. *)
Definition i32_to_usize (z : Z) : option N := if (z <? 0)%Z then None else Some (Z.to_N z).

(** [pd_bootstrap.rs:1681-1687] route_get (not registered) *)
Definition not_registered st : RouteResponse :=
  StatusText 503 ("Prefill server not fully registered yet (" +:+ pretty (registered_count st) +:+ " workers registered).").

(** [pd_bootstrap.rs:1667-1737] route_get *)
Definition route_get st (q : RouteQuery) : option RouteResponse :=
  if ((q_prefill_dp_rank q =? -1) && (q_prefill_cp_rank q =? -1) && (q_target_tp_rank q =? -1) && (q_target_pp_rank q =? -1))%Z then
    info ← server_info st;
    Some (match info with Some info => JsonServerInfo info | None => not_registered st end)
  else
    ready ← is_ready st;
    Some (if negb ready then not_registered st
          else
            match i32_to_usize (q_prefill_dp_rank q), i32_to_usize (q_prefill_cp_rank q),
                  i32_to_usize (q_target_tp_rank q), i32_to_usize (q_target_pp_rank q) with
            | Some dp, Some cp, Some tp, Some pp =>
                match rank_info st dp cp tp pp with
                | Some info => JsonRankInfo info
                | None =>
                    StatusText 404 ("Bootstrap info not found for dp_rank=" +:+ pretty (q_prefill_dp_rank q) +:+ " cp_rank=" +:+
                      pretty (q_prefill_cp_rank q) +:+ " tp_rank=" +:+ pretty (q_target_tp_rank q) +:+ " pp_rank=" +:+ pretty (q_target_pp_rank q))
                end
            | _, _, _, _ => bad_rank_query
            end).

(** ** Sending *)

(** A ZeroMQ push socket: connecting to an endpoint and sending a message may
    fail. *)
Class PdNetwork (N : Type) : Type := {
  push_connect : N → string → Result string unit * N;
  push_send : N → string → message → Result string unit * N;
}.

(** [pd_bootstrap.rs:1184-1192] PdDecodeBootstrapError *)
Inductive PdDecodeBootstrapError : Type :=
  | HttpStatus (status : N) (body : string)
  | InvalidHttpResponse
  | Io (error : string)
  | Json (error : string)
  | MissingAuxIndex (session_id : string)
  | TaskJoin (error : string)
  | Zmq (error : string).

(** [pd_bootstrap.rs:1196-1218] PdDecodeBootstrapError::fmt *)
Definition PdDecodeBootstrapError_to_string (e : PdDecodeBootstrapError) : string :=
  match e with
  | HttpStatus status body => "bootstrap route query failed with HTTP " +:+ pretty status +:+ ": " +:+ body
  | InvalidHttpResponse => "invalid bootstrap HTTP response"
  | Io error => "bootstrap HTTP client I/O error: " +:+ error
  | Json error => "bootstrap HTTP JSON error: " +:+ error
  | MissingAuxIndex session_id => "transfer metadata for " +:+ session_id +:+ " needs aux index"
  | TaskJoin error => "bootstrap client task join error: " +:+ error
  | Zmq error => "bootstrap ZMQ client error: " +:+ error
  end.

Section Sending.
Context {Net : Type} `{!PdNetwork Net}.

(** [pd_bootstrap.rs:1492-1505] send_bootstrap_frame (attempts) *)
Fixpoint send_attempts (attempts : nat) (net : Net) (endpoint : string) (frame : message) (last_error : option string)
    : Result PdDecodeBootstrapError unit * Net :=
  match attempts with
  | O => (Err (Zmq (default "no ZMQ send attempts ran"%string last_error)), net)
  | S attempts =>
      match push_connect net endpoint with
      | (Err error, net) => send_attempts attempts net endpoint frame (Some error)
      | (Ok _, net) =>
          match push_send net endpoint frame with
          | (Ok _, net) => (Ok tt, net)
          | (Err error, net) => send_attempts attempts net endpoint frame (Some error)
          end
      end
  end.

(** [pd_bootstrap.rs:1487-1510] send_bootstrap_frame *)
Definition send_bootstrap_frame (net : Net) (endpoint : string) (frame : message) : Result PdDecodeBootstrapError unit * Net :=
  send_attempts 20 net endpoint frame None.

(** [pd_control.rs:371-382] send_frames (loop) *)
Fixpoint send_all (net : Net) (endpoint : string) (frames : list message) : Result string unit * Net :=
  match frames with
  | [] => (Ok tt, net)
  | [] :: _ => (Err "empty control frame"%string, net)
  | frame :: frames => let! _u, net := push_send net endpoint frame in send_all net endpoint frames
  end.

(** [pd_control.rs:360-388] send_frames *)
Definition send_frames (net : Net) (endpoint : string) (frames : list message) : Result string unit * Net :=
  let! _u, net := push_connect net endpoint in send_all net endpoint frames.

End Sending.

(** ** The ZeroMQ service *)

(** [pd_bootstrap.rs:814-818] PrefillBootstrapServeError *)
Inductive PrefillBootstrapServeError : Type :=
  | ServeIo (error : string)
  | BootstrapFrame (error : PdBootstrapFrameError)
  | ServeZmq (error : string).

(** [pd_bootstrap.rs:820-830] PrefillBootstrapServeError::fmt *)
Definition PrefillBootstrapServeError_to_string (e : PrefillBootstrapServeError) : string :=
  match e with
  | ServeIo error => "prefill bootstrap server error: " +:+ error
  | BootstrapFrame error => "prefill bootstrap frame error: " +:+ PdBootstrapFrameError_to_string error
  | ServeZmq error => "prefill bootstrap ZMQ error: " +:+ error
  end.

(** The message that tells a decode worker that nothing writes to its memory any more. *)
Definition ack_message (room : N) : message := [ABORT_ACK; string_bytes (pretty room); string_bytes "0"].

(** The shared state, the network and the error the ZeroMQ loop has ended with, if it has. *)
Record PdService (Net : Type) : Type := mkService {
  state : PrefillBootstrapState;
  net : Net;
  stopped : option PrefillBootstrapServeError;
}.
Arguments mkService {Net}.
Arguments state {Net}.
Arguments net {Net}.
Arguments stopped {Net}.

(** What other threads do with the service. *)
Inductive ServiceCall : Type :=
  | ZmqFrame (frame : message)
  | RoutePut (registration : PrefillRouteRegistration)
  | RegisterDpRank (room : N) (rank : Z) (now now' : N)
  | QueryDpRanks (rooms : list N) (now : N).

Section Service.
Context {Net : Type} `{!PdNetwork Net}.
Implicit Types svc : PdService Net.

Definition set_state svc st : PdService Net := mkService st (net svc) (stopped svc).

(** [pd_bootstrap.rs:1284-1296] serve_bootstrap_zmq_with_shutdown (abort) *)
Definition note_abort st (room : N) (endpoint : string) : bool * PrefillBootstrapState :=
  let aborted := {[room]} ∪ aborted_rooms st in
  if bool_decide (room ∈ active_rooms st) then
    (false, set_aborts st (active_rooms st) aborted (<[room := default [] (abort_targets st !! room) ++ [endpoint]]> (abort_targets st)))
  else (true, set_aborts st (active_rooms st) aborted (abort_targets st)).

(** [pd_bootstrap.rs:1281-1301] serve_bootstrap_zmq_with_shutdown (abort message) *)
Definition serve_abort svc (frames : message) : Result PrefillBootstrapServeError unit * PdService Net :=
  let parsed :=
    let? room := parse_bootstrap_room frames 1 "room" in
    let? host := ascii_field frames 2 "decode host" in
    let? port := parse_u16 frames 3 "decode port" in
    Ok (room, "tcp://" +:+ host +:+ ":" +:+ pretty port) in
  match parsed with
  | Err e => (Err (BootstrapFrame e), svc)
  | Ok (room, endpoint) =>
      let '(quiescent, st) := note_abort (state svc) room endpoint in
      let svc := set_state svc st in
      if (quiescent : bool) then
        let '(res, n) := send_bootstrap_frame (net svc) endpoint (ack_message room) in
        (result_map_err (λ e, ServeZmq (PdDecodeBootstrapError_to_string e)) res, mkService (state svc) n (stopped svc))
      else (Ok tt, svc)
  end.

(** [pd_bootstrap.rs:1272-1307] serve_bootstrap_zmq_with_shutdown (message) *)
Definition serve_message svc (frames : message) : Result PrefillBootstrapServeError unit * PdService Net :=
  if bool_decide (head frames = Some (string_bytes "ABORT")) then serve_abort svc frames
  else
    match ingest_bootstrap_frame (state svc) frames with
    | Ok st => (Ok tt, set_state svc st)
    | Err e => (Err (BootstrapFrame e), svc)
    end.

(** The loop ends at its first error; messages after it are not read. *)
(** [pd_bootstrap.rs:1269-1308] serve_bootstrap_zmq_with_shutdown (loop) *)
Definition serve_next svc (frames : message) : PdService Net :=
  match stopped svc with
  | Some _ => svc
  | None =>
      match serve_message svc frames with
      | (Ok _, svc) => svc
      | (Err e, svc) => mkService (state svc) (net svc) (Some e)
      end
  end.

(** [pd_bootstrap.rs:1655-1665] route_put *)
Definition route_put svc (registration : PrefillRouteRegistration) : PdService Net := set_state svc (register_route (state svc) registration).

Definition serve_call svc (call : ServiceCall) : PdService Net :=
  match call with
  | ZmqFrame frame => serve_next svc frame
  | RoutePut registration => route_put svc registration
  | RegisterDpRank room rank now now' => set_state svc (register_dp_rank (state svc) room rank now now')
  | QueryDpRanks rooms now => set_state svc (query_dp_ranks (state svc) rooms now).2
  end.

End Service.

(** ** The transfer executor *)

(** What the wrapped executor offers: a transfer backend that can be told the
    remote layouts of a session. *)
(** [pd_bootstrap.rs:134-138] PdBootstrapKvCacheTransferExecutor (inner) *)
Class PdInnerExecutor (E : Type) : Type := {
  inner_backend :: KvTransferBackend E;
  insert_remote_layout : E → N → string → KvRemoteLayout → E;
}.

(** The calls other threads get through before each of the locks to come, and
    the clock at the calls that read it. *)
(** [pd_bootstrap.rs:57-64] PdBootstrapKvCacheTransferExecutor *)
Record PdExecutor (E Net : Type) : Type := mkPdExecutor {
  service : PdService Net;
  inner : E;
  pending_tokens : gmap N N;
  pending_states : gmap N (list N);
  calls : list (list ServiceCall);
}.
Arguments mkPdExecutor {E Net}.
Arguments service {E Net}.
Arguments inner {E Net}.
Arguments pending_tokens {E Net}.
Arguments pending_states {E Net}.
Arguments calls {E Net}.

Section Executor.
Context {E Net : Type} `{!PdInnerExecutor E} `{!PdNetwork Net}.
Implicit Types (x : PdExecutor E Net) (sp : KvCacheTransferSpan).

Definition set_service x svc : PdExecutor E Net := mkPdExecutor svc (inner x) (pending_tokens x) (pending_states x) (calls x).
Definition set_inner x (e : E) : PdExecutor E Net := mkPdExecutor (service x) e (pending_tokens x) (pending_states x) (calls x).
Definition set_pending x tokens states : PdExecutor E Net := mkPdExecutor (service x) (inner x) tokens states (calls x).
Definition set_st x st : PdExecutor E Net := set_service x (set_state (service x) st).
Definition set_net x (n : Net) : PdExecutor E Net := set_service x (mkService (state (service x)) n (stopped (service x))).

(** Taking the lock: the other threads come first. *)
Definition lock x : PdExecutor E Net :=
  match calls x with
  | [] => x
  | group :: rest => mkPdExecutor (foldl serve_call (service x) group) (inner x) (pending_tokens x) (pending_states x) rest
  end.

(** [pd_bootstrap.rs:125-131] register_span_dp_rank *)
Definition register_span_dp_rank x sp (now now' : N) : PdExecutor E Net :=
  let x := lock x in set_st x (register_dp_rank (state (service x)) (span_room sp) (sp_data_parallel_rank sp) now now').

(** The deadline passes after [polls] looks. *)
(** [pd_bootstrap.rs:100-123] remote_kv_layouts_for_room *)
Fixpoint remote_kv_layouts_for_room (polls : nat) x (room : N) : Result KvCacheTransferError (list (string * KvRemoteLayout)) * PdExecutor E Net :=
  let x := lock x in
  match state_layouts_for_room (state (service x)) room with
  | Ok layouts => (Ok layouts, x)
  | Err error =>
      match polls with
      | O => (Err (TransferRuntime (PdRemoteKvLayoutError_to_string error)), x)
      | S polls => remote_kv_layouts_for_room polls x room
      end
  end.

(** [pd_bootstrap.rs:240-269] notify_room (targets) *)
Definition notify_targets st (room : N) : list (string * N * Z) :=
  match transfer_rooms st !! room with
  | Some room => (λ t : string * PdTransferInfo, (ti_endpoint t.2, ti_dst_port t.2, default 0%Z (ti_dst_aux_index t.2))) <$> transfers room
  | None => []
  end.

(** [pd_bootstrap.rs:272-286] notify_room (completions) *)
Fixpoint notify_completions (n : Net) (room : N) (token : option N) (recurrent_state : option (list N)) (error : option string)
    (targets : list (string * N * Z)) : Result KvCacheTransferError unit * Net :=
  match targets with
  | [] => (Ok tt, n)
  | (host, port, aux) :: targets =>
      match token with
      | None => notify_completions n room token recurrent_state error targets
      | Some _ =>
          match completion_frames room (match error with None => token | Some _ => None end) recurrent_state error aux with
          | Err e => (Err (TransferRuntime e), n)
          | Ok frames =>
              match send_frames n ("tcp://" +:+ host +:+ ":" +:+ pretty port) frames with
              | (Err e, n) => (Err (TransferRuntime e), n)
              | (Ok _, n) => notify_completions n room token recurrent_state error targets
              end
          end
      end
  end.

(** [pd_bootstrap.rs:287-297] notify_room (acknowledgements) *)
Fixpoint notify_aborts (n : Net) (room : N) (endpoints : list string) : Result KvCacheTransferError unit * Net :=
  match endpoints with
  | [] => (Ok tt, n)
  | endpoint :: endpoints =>
      match send_frames n endpoint [ack_message room] with
      | (Err e, n) => (Err (TransferRuntime e), n)
      | (Ok _, n) => notify_aborts n room endpoints
      end
  end.

(** [pd_bootstrap.rs:298-306] notify_room (end) *)
Definition forget_room st (room : N) : PrefillBootstrapState :=
  set_rooms (set_aborts st (active_rooms st ∖ {[room]}) (aborted_rooms st) (base.delete room (abort_targets st)))
    (base.delete room (transfer_rooms st)).

(** [pd_bootstrap.rs:236-308] notify_room *)
Definition notify_room x (room : N) (error : option string) : Result KvCacheTransferError unit * PdExecutor E Net :=
  let x := lock x in
  let st := state (service x) in
  let targets := notify_targets st room in
  let aborts := default [] (abort_targets st !! room) in
  match notify_completions (net (service x)) room (pending_tokens x !! room) (pending_states x !! room) error targets with
  | (Err e, n) => (Err e, set_net x n)
  | (Ok _, n) =>
      match notify_aborts n room aborts with
      | (Err e, n) => (Err e, set_net x n)
      | (Ok _, n) =>
          let x := lock (set_net x n) in
          (Ok tt, set_pending (set_st x (forget_room (state (service x)) room)) (base.delete room (pending_tokens x)) (base.delete room (pending_states x)))
      end
  end.

(** [pd_bootstrap.rs:219-222] cancel *)
Definition pd_cancel x (room : N) : option (Result KvCacheTransferError unit * PdExecutor E Net) :=
  '(res, e) ← backend_cancel (inner x) room;
  let x := set_inner x e in
  match res with
  | Err error => Some (Err error, x)
  | Ok _ => Some (notify_room x room (Some "prefill request canceled"%string))
  end.

(** [pd_bootstrap.rs:166-169] submit (layouts) *)
Fixpoint insert_layouts (e : E) (room : N) (layouts : list (string * KvRemoteLayout)) : E :=
  match layouts with [] => e | (session_id, layout) :: layouts => insert_layouts (insert_remote_layout e room session_id layout) room layouts end.

(** [pd_bootstrap.rs:149-165] submit (activation) *)
Definition activate x (room : N) : Result KvCacheTransferError unit * PdExecutor E Net :=
  let x := lock x in
  let st := state (service x) in
  if bool_decide (room ∈ aborted_rooms st) then (Err (TransferRuntime "decode aborted this transfer room before submission"), x)
  else (Ok tt, set_st x (set_aborts st ({[room]} ∪ active_rooms st) (aborted_rooms st) (abort_targets st))).

(** [pd_bootstrap.rs:143-179] submit *)
Definition pd_submit (polls : nat) (now now' : N) x sp : option (Result KvCacheTransferError unit * PdExecutor E Net) :=
  let room := span_room sp in
  let x := register_span_dp_rank x sp now now' in
  let* layouts, x := Some (remote_kv_layouts_for_room polls x room) in
  let* _u, x := Some (activate x room) in
  '(res, e) ← backend_submit (insert_layouts (inner x) room layouts) sp;
  let x := set_inner x e in
  let tokens := match sp_first_token sp with Some token => <[room := token]> (pending_tokens x) | None => pending_tokens x end in
  let states := match sp_recurrent_state sp with Some s => <[room := s]> (pending_states x) | None => pending_states x end in
  let x := set_pending x tokens states in
  match res with
  | Ok _ => Some (Ok tt, x)
  | Err error =>
      '(cancelled, e) ← backend_cancel (inner x) room;
      let x := set_inner x e in
      match cancelled with
      | Err error => Some (Err error, x)
      | Ok _ =>
          match notify_room x room (Some (KvCacheTransferError_to_string error)) with
          | (Err error, x) => Some (Err error, x)
          | (Ok _, x) => Some (Err error, x)
          end
      end
  end.

(** The rooms of a set in ascending order. *)
Definition ascending (rooms : gset N) : list N := merge_sort N.le (elements rooms).

(** [pd_bootstrap.rs:193-201] poll (aborted rooms) *)
Fixpoint cancel_aborted x (rooms : list N) (canceled : list KvTransferCompletionEvent)
    : option (Result KvCacheTransferError (list KvTransferCompletionEvent) * PdExecutor E Net) :=
  match rooms with
  | [] => Some (Ok canceled, x)
  | room :: rooms =>
      '(res, e) ← backend_cancel (inner x) room;
      let x := set_inner x e in
      let* _u, x := Some (res, x) in
      let* _u, x := Some (notify_room x room (Some "decode aborted the transfer"%string)) in
      cancel_aborted x rooms (canceled ++ [mkCompletionEvent room "" KvTransferEventStatus.Canceled])
  end.

(** [pd_bootstrap.rs:204-210] poll (error of an event) *)
Definition event_error (status : KvTransferEventStatus.KvTransferEventStatus) : option string :=
  match status with
  | KvTransferEventStatus.Completed => None
  | KvTransferEventStatus.Failed message => Some message
  | KvTransferEventStatus.Canceled => Some "prefill transfer canceled"%string
  end.

(** [pd_bootstrap.rs:203-212] poll (events) *)
Fixpoint notify_events x (evs : list KvTransferCompletionEvent) : Result KvCacheTransferError unit * PdExecutor E Net :=
  match evs with
  | [] => (Ok tt, x)
  | event :: evs => let! _u, x := notify_room x (event_room event) (event_error (event_status event)) in notify_events x evs
  end.

(** [pd_bootstrap.rs:181-217] poll *)
Definition pd_poll x : option (Result KvCacheTransferError KvTransferPoll * PdExecutor E Net) :=
  let x := lock x in
  let st := state (service x) in
  let aborted := ascending (active_rooms st ∩ aborted_rooms st) in
  let* canceled, x := cancel_aborted x aborted [] in
  '(res, e) ← backend_poll (inner x);
  let x := set_inner x e in
  let* poll, x := Some (res, x) in
  let* _u, x := Some (notify_events x (events poll)) in
  Some (Ok (mkKvTransferPoll (events poll ++ canceled) (pending_transfers poll)), x).

(** [pd_bootstrap.rs:225-227] shutdown (rooms) *)
Fixpoint shutdown_rooms x (rooms : list N) : option (Result KvCacheTransferError unit * PdExecutor E Net) :=
  match rooms with
  | [] => Some (Ok tt, x)
  | room :: rooms => let* _u, x := pd_cancel x room in shutdown_rooms x rooms
  end.

(** [pd_bootstrap.rs:224-229] shutdown *)
Definition pd_shutdown x : option (Result KvCacheTransferError unit * PdExecutor E Net) :=
  let* _u, x := shutdown_rooms x (ascending (dom (pending_tokens x))) in
  '(res, e) ← backend_shutdown (inner x);
  Some (res, set_inner x e).

End Executor.
