(* ===== verification/PdBootstrapCorrect.v ===== *)
(** * Acknowledged rooms stay quiet

    Proofs about [PdBootstrap]: a decode worker that asked for a room to be
    dropped and was told so gets no more writes to that room, in every
    interleaving of the executor with the threads of the service, as long as a
    room has one transfer at a time.  With two the examples at the end show
    what goes wrong. *)

From stdpp Require Import pretty sorting.
From S2P Require Import Prelude Bytes Text Types Request TransferPlan TransferDescriptor KvBootstrap KvTransfer Tokenizer PdWire PdControl PdBootstrap.

(** ** Interfaces *)

(** A backend that accounts for its transfers: [accounted] are the rooms it
    still writes to or has not reported yet, one for each transfer. *)
Class AccountedExecutor (E : Type) `{!PdInnerExecutor E} : Type := {
  accounted_ok : E → Prop;
  accounted : E → list N;
  accounted_insert e room session layout : accounted_ok e →
    accounted_ok (insert_remote_layout e room session layout) ∧ accounted (insert_remote_layout e room session layout) = accounted e;
  accounted_submit e sp res e' : accounted_ok e → backend_submit e sp = Some (res, e') →
    accounted_ok e' ∧ accounted e' ≡ₚ match res with Ok _ => span_room sp :: accounted e | Err _ => accounted e end;
  accounted_poll e res e' : accounted_ok e → backend_poll e = Some (res, e') →
    accounted_ok e' ∧ accounted e ≡ₚ match res with Ok poll => (event_room <$> events poll) ++ accounted e' | Err _ => accounted e' end;
  accounted_cancel e room res e' : accounted_ok e → backend_cancel e room = Some (res, e') →
    accounted_ok e' ∧ (∃ gone, accounted e ≡ₚ gone ++ accounted e') ∧ (res = Ok () → room ∉ accounted e');
  accounted_shutdown e res e' : accounted_ok e → backend_shutdown e = Some (res, e') →
    accounted_ok e' ∧ ∃ gone, accounted e ≡ₚ gone ++ accounted e';
}.

(** A network that remembers what it may have delivered. *)
Class NetworkLog (Net : Type) `{!PdNetwork Net} : Type := {
  sent : Net → list (string * message);
  connect_sends_nothing n endpoint : sent (push_connect n endpoint).2 = sent n;
  send_logged n endpoint m : sent (push_send n endpoint m).2 = sent n ∨ sent (push_send n endpoint m).2 = sent n ++ [(endpoint, m)];
}.

(** ** The transfer executor keeps account *)

Section Instance_.
Context {T R G L M : Type} `{!KvTransport T} `{!TransportLog T} `{!KvTransferTargetResolver R} `{!KvMemoryRegistrar G}
  `{!TransferableMemory M} `{!KvMemoryRegistrationLease L G M}.
Context (sha256 : list N → list N) (polls : nat).

#[export] Instance KvCacheTransferExecutor_inner : PdInnerExecutor (KvCacheTransferExecutor T R G L) := {
  inner_backend := KvCacheTransferExecutor_backend sha256 polls;
  insert_remote_layout := insert_remote_kv_session_layout;
}.

Lemma cancelled_accounted (ex : KvCacheTransferExecutor T R G L) room res ex' :
  cancelled ex room res ex' → (∃ gone, tracked_rooms ex ≡ₚ gone ++ tracked_rooms ex') ∧ (res = Ok () → room ∉ tracked_rooms ex').
Proof.
  unfold cancelled, tracked_rooms. destruct res as [u|e].
  - intros (->&->&_). split.
    + exists ((sb_room <$> filter (λ b, ¬ sb_room b ≠ room) (submitted_transfers ex)) ++ (event_room <$> filter (λ ev, ¬ event_room ev ≠ room) (completion_events ex))).
      rewrite <-(filter_app_complement (λ b, sb_room b ≠ room) (submitted_transfers ex)) at 1.
      rewrite <-(filter_app_complement (λ ev, event_room ev ≠ room) (completion_events ex)) at 1.
      rewrite !fmap_app. solve_Permutation.
    + intros _. rewrite elem_of_app, !list_elem_of_fmap. setoid_rewrite list_elem_of_filter. set_solver.
  - intros (->&_&gone&_&Hperm&_). split; [|done]. exists (sb_room <$> gone). by rewrite Hperm, fmap_app, <-app_assoc.
Qed.

Lemma cancel_rooms_accounted rooms : ∀ (ex : KvCacheTransferExecutor T R G L) res ex', aligned ex →
  cancel_rooms polls ex rooms = Some (res, ex') → aligned ex' ∧ ∃ gone, tracked_rooms ex ≡ₚ gone ++ tracked_rooms ex'.
Proof.
  induction rooms as [|room rooms IH]; intros ex res ex' Ha Hc; cbn [cancel_rooms] in Hc; [injection Hc as <- <-; by split; [|exists []]|].
  apply st_bind_opt_inv in Hc as [(u&ex1&Hc1&Hc)|(e&Hc1&->)]; apply cancel_spec in Hc1 as (Ha1&Hc1&_); try done; apply cancelled_accounted in Hc1 as [[g1 H1] _].
  - apply IH in Hc as (Ha'&g2&H2); [|done]. split; [done|]. exists (g1 ++ g2). by rewrite H1, H2, app_assoc.
  - by split; [|exists g1].
Qed.

#[export, refine] Instance KvCacheTransferExecutor_accounted : AccountedExecutor (KvCacheTransferExecutor T R G L) :=
  {| accounted_ok := aligned; accounted := tracked_rooms |}.
Proof.
  - done.
  - intros ex sp res ex' Ha Hs. split; [exact (ex_submit_aligned sha256 ex sp res ex' Ha Hs)|].
    apply ex_submit_spec in Hs as (_&_&Hs). unfold tracked_rooms. destruct res as [u|e].
    + destruct Hs as [(->&_&->)|(b&n&_&->&_&->)]; rewrite fmap_app; cbn; solve_Permutation.
    + by destruct Hs as (->&_&->).
  - intros ex res ex' Ha Hp. destruct (poll_submitted_spec ex Ha) as (res1&ex1&settled&Heq&[Hperm _ _ Hal _]&_&Hev).
    cbn in Hp. rewrite Heq in Hp. injection Hp as -> ->. split; [done|]. unfold tracked_rooms.
    assert (event_room <$> (event_of <$> settled) = sb_room <$> settled.*1) as Hroom by (rewrite <-!list_fmap_compose; done).
    destruct res as [poll|e].
    + destruct Hev as (Hev&->&_). rewrite Hev, Hperm, !fmap_app, Hroom. cbn. solve_Permutation.
    + rewrite Hev, Hperm, !fmap_app, Hroom. solve_Permutation.
  - intros ex room res ex' Ha Hc. apply cancel_spec in Hc as (Hal&Hc&_); [|done]. split; [done|]. by apply cancelled_accounted.
  - intros ex res ex' Ha Hs. cbn in Hs. unfold ex_shutdown in Hs. apply st_bind_opt_inv in Hs as [(u&ex1&Hc&Hs)|(e&Hc&->)];
      apply cancel_rooms_accounted in Hc as (Ha1&g&Hg); try done; [|by split; [|exists g]].
    destruct (local_memory_registration ex1) as [l|]; [|injection Hs as <- <-; by split; [|exists g]].
    destruct (lease_unregister l) as [[v|e] l']; injection Hs as <- <-; by split; [|exists g].
Defined.

End Instance_.

(** ** The invariant *)

Section Safety.
Context {E Net : Type} `{!PdInnerExecutor E} `{!AccountedExecutor E} `{!PdNetwork Net} `{!NetworkLog Net}.
Implicit Types (x : PdExecutor E Net) (svc : PdService Net) (n : Net).

(** A decode worker may have been told that its room is quiet. *)
Definition acknowledged n (room : N) : Prop := ∃ endpoint, (endpoint, ack_message room) ∈ sent n.

Notation st_of x := (state (service x)).

(** [busy] are the rooms with a transfer. *)
Record service_inv (busy : list N) svc : Prop := {
  busy_active : ∀ room, room ∈ busy → room ∈ active_rooms (state svc);
  targets_aborted : ∀ room, is_Some (abort_targets (state svc) !! room) → room ∈ aborted_rooms (state svc);
  acknowledged_aborted : ∀ room, acknowledged (net svc) room → room ∈ aborted_rooms (state svc);
  acknowledged_quiet : ∀ room, acknowledged (net svc) room → room ∉ busy;
}.

(** What a service may do between two locks: aborted rooms stay so. *)
Definition service_grows svc svc' : Prop := aborted_rooms (state svc) ⊆ aborted_rooms (state svc').

Lemma pretty_N_inj (a b : N) : string_bytes (pretty a) = string_bytes (pretty b) → a = b.
Proof. intros He. apply string_bytes_inj in He. by apply (inj pretty). Qed.

Lemma ack_message_inj a b : ack_message a = ack_message b → a = b.
Proof. intros [= He]. by apply pretty_N_inj. Qed.

(** Sending something adds at most that to what was sent. *)
Definition sends n (allowed : string * message → Prop) n' : Prop := ∃ l, sent n' = sent n ++ l ∧ Forall allowed l.

Lemma sends_refl n P : sends n P n.
Proof. exists []. by rewrite app_nil_r. Qed.

Lemma sends_trans n1 n2 n3 P : sends n1 P n2 → sends n2 P n3 → sends n1 P n3.
Proof. intros (l&H1&Hl) (k&H2&Hk). exists (l ++ k). split; [by rewrite H2, H1, app_assoc|by apply Forall_app]. Qed.

Lemma sends_weaken n n' (P Q : string * message → Prop) : (∀ m, P m → Q m) → sends n P n' → sends n Q n'.
Proof. intros HPQ (l&H&Hl). exists l. split; [done|]. by eapply Forall_impl. Qed.

Lemma connect_sends n endpoint res n' P : push_connect n endpoint = (res, n') → sends n P n'.
Proof. intros Hc. exists []. rewrite app_nil_r. pose proof (connect_sends_nothing n endpoint) as H. by rewrite Hc in H. Qed.

Lemma push_sends n endpoint m res n' (P : string * message → Prop) : P (endpoint, m) → push_send n endpoint m = (res, n') → sends n P n'.
Proof.
  intros HP Hs. pose proof (send_logged n endpoint m) as H. rewrite Hs in H. cbn in H. destruct H as [H|H].
  - exists []. by rewrite app_nil_r.
  - exists [(endpoint, m)]. split; [done|]. by constructor.
Qed.

Lemma send_attempts_sends attempts (P : string * message → Prop) endpoint m : P (endpoint, m) →
  ∀ n last res n', send_attempts attempts n endpoint m last = (res, n') → sends n P n'.
Proof.
  intros HP. induction attempts as [|attempts IH]; intros n last res n'; cbn [send_attempts]; [intros [= _ <-]; apply sends_refl|].
  destruct (push_connect n endpoint) as [[u|e] n1] eqn:Hc; apply (connect_sends _ _ _ _ P) in Hc; [|intros H; by eapply sends_trans, IH].
  destruct (push_send n1 endpoint m) as [[u'|e] n2] eqn:Hs; apply (push_sends _ _ _ _ _ P HP) in Hs.
  - intros [= _ <-]. by eapply sends_trans.
  - intros H. eapply sends_trans; [exact Hc|]. by eapply sends_trans, IH.
Qed.

Lemma send_frame_sends n endpoint m res n' (P : string * message → Prop) :
  P (endpoint, m) → send_bootstrap_frame n endpoint m = (res, n') → sends n P n'.
Proof. intros HP. exact (send_attempts_sends _ P endpoint m HP n None res n'). Qed.

#[local] Opaque send_bootstrap_frame.

Lemma send_all_sends (P : string * message → Prop) endpoint ms : Forall (λ m, P (endpoint, m)) ms →
  ∀ n res n', send_all n endpoint ms = (res, n') → sends n P n'.
Proof.
  induction 1 as [|m ms Hm _ IH]; intros n res n'; cbn [send_all]; [intros [= _ <-]; apply sends_refl|].
  destruct m as [|f m]; [intros [= _ <-]; apply sends_refl|]. intros H.
  apply st_bind_inv in H as [(u&n1&Hs&H)|(e&Hs&_)]; apply (push_sends _ _ _ _ _ P Hm) in Hs; [by eapply sends_trans, IH|done].
Qed.

Lemma send_frames_sends (P : string * message → Prop) endpoint ms n res n' : Forall (λ m, P (endpoint, m)) ms →
  send_frames n endpoint ms = (res, n') → sends n P n'.
Proof.
  intros Hms H. apply st_bind_inv in H as [(u&n1&Hc&H)|(e&Hc&_)]; apply (connect_sends _ _ _ _ P) in Hc; [|done].
  by eapply sends_trans, send_all_sends.
Qed.

(** Neither the data nor the status of a completion is an acknowledgement. *)
Lemma completion_not_ack room tok s error aux fs : completion_frames room tok s error aux = Ok fs → ∀ r, Forall (λ m, m ≠ ack_message r) fs.
Proof.
  unfold completion_frames. intros Hfs r. apply result_bind_Ok in Hfs as (d1&H1&Hfs). apply result_bind_Ok in Hfs as (d2&H2&[= <-]).
  assert (status_message room error ≠ ack_message r) as Hst.
  { destruct (status_kind room error) as [Hk _]. intros He. rewrite He in Hk. by vm_compute in Hk. }
  assert (∀ b c d e f, [AUX_DATA; b; c; d; e; f] ≠ ack_message r) as Haux by done.
  destruct tok as [t|]; [destruct (2 ^ 31 - 1 <? t); [done|]|]; injection H1 as <-;
    (destruct s as [s|]; [destruct (u32_MAX <? len s); [done|]|]); injection H2 as <-; cbn [app];
    repeat (refine (Forall_cons_2 _ _ _ _ _); [match goal with |- status_message _ _ ≠ _ => exact Hst | |- _ => apply Haux end|]); exact (Forall_nil_2 _).
Qed.

Definition no_ack (m : string * message) : Prop := ∀ room, m.2 ≠ ack_message room.

Lemma notify_completions_sends targets room tok s error : ∀ n res n', notify_completions n room tok s error targets = (res, n') → sends n no_ack n'.
Proof.
  induction targets as [|[[host port] aux] targets IH]; intros n res n'; cbn [notify_completions]; [intros [= _ <-]; apply sends_refl|].
  destruct tok as [t|]; [|apply IH]. destruct (completion_frames _ _ _ _ _) as [fs|e] eqn:Hfs; [|intros [= _ <-]; apply sends_refl].
  destruct (send_frames n _ fs) as [[u|e] n1] eqn:Hs;
    (apply (send_frames_sends no_ack) in Hs; [|apply Forall_forall; intros m Hm r; pose proof (completion_not_ack _ _ _ _ _ _ Hfs r) as Hall; rewrite Forall_forall in Hall; by apply Hall]).
  - intros H. by eapply sends_trans, IH.
  - by intros [= _ <-].
Qed.

Lemma notify_aborts_sends endpoints room : ∀ n res n', notify_aborts n room endpoints = (res, n') →
  sends n (λ m, endpoints ≠ [] ∧ m.2 = ack_message room) n'.
Proof.
  induction endpoints as [|ep endpoints IH]; intros n res n'; cbn [notify_aborts]; [intros [= _ <-]; apply sends_refl|].
  destruct (send_frames n ep [ack_message room]) as [[u|e] n1] eqn:Hs;
    (apply (send_frames_sends (λ m, ep :: endpoints ≠ [] ∧ m.2 = ack_message room)) in Hs; [|by repeat constructor]).
  - intros H. eapply sends_trans; [exact Hs|]. eapply sends_weaken; [|by eapply IH]. by intros m [].
  - by intros [= _ <-].
Qed.

Lemma acknowledged_no_ack n n' room : sends n no_ack n' → acknowledged n' room → acknowledged n room.
Proof.
  intros (l&Hs&Hl) [ep Hin]. rewrite Hs, elem_of_app in Hin. destruct Hin as [Hin|Hin]; [by exists ep|].
  rewrite Forall_forall in Hl. by destruct (Hl _ Hin room).
Qed.

Lemma acknowledged_one n n' r room : sends n (λ m, m.2 = ack_message r) n' → acknowledged n' room → acknowledged n room ∨ room = r.
Proof.
  intros (l&Hs&Hl) [ep Hin]. rewrite Hs, elem_of_app in Hin. destruct Hin as [Hin|Hin]; [left; by exists ep|right].
  rewrite Forall_forall in Hl. by apply ack_message_inj, (Hl _ Hin).
Qed.

Definition same_aborts st st' : Prop :=
  active_rooms st' = active_rooms st ∧ aborted_rooms st' = aborted_rooms st ∧ abort_targets st' = abort_targets st.

Lemma same_aborts_inv busy svc st' : same_aborts (state svc) st' → service_inv busy svc → service_inv busy (set_state svc st') ∧ service_grows svc (set_state svc st').
Proof.
  intros (Ha&Hb&Ht) [I1 I2 I3 I4]. unfold service_grows. split; [split; cbn; rewrite ?Ha, ?Hb, ?Ht; done|]. cbn. by rewrite Hb.
Qed.

Lemma stopped_inv busy svc o : service_inv busy svc → service_inv busy (mkService (state svc) (net svc) o).
Proof. by intros []. Qed.

Lemma ingest_same st frame st' : ingest_bootstrap_frame st frame = Ok st' → same_aborts st st'.
Proof.
  unfold ingest_bootstrap_frame. intros Hi. apply result_bind_Ok in Hi as (room&_&Hi).
  destruct ((room =? "WATERMARK")%string || (room =? "STAGING_RSP")%string); [by injection Hi as <-|].
  destruct (room =? "None")%string; apply result_bind_Ok in Hi as (?&_&[= <-]); done.
Qed.

Lemma service_grows_refl svc : service_grows svc svc.
Proof. unfold service_grows. done. Qed.

#[local] Hint Resolve service_grows_refl : core.

(** An abort of a room without a transfer is acknowledged at once, one of a room
    with a transfer is kept for later. *)
Lemma serve_abort_inv busy svc frames res svc' : service_inv busy svc → serve_abort svc frames = (res, svc') →
  service_inv busy svc' ∧ service_grows svc svc'.
Proof.
  intros Hinv. unfold serve_abort. match goal with |- context [match ?p with Ok _ => _ | Err _ => _ end = _ → _] => destruct p as [[room ep]|e] end;
    [|intros [= _ <-]; by split; [|apply service_grows_refl]]. destruct Hinv as [I1 I2 I3 I4]. unfold note_abort, service_grows. case_bool_decide as Hact.
  - intros [= _ <-]. cbn. split; [|set_solver]. split; cbn; [done| |set_solver|done].
    intros r. destruct (decide (r = room)) as [->|Hne]; [set_solver|]. rewrite lookup_insert_ne by done. intros Hr. apply I2 in Hr. set_solver.
  - destruct (send_bootstrap_frame _ _ _) as [r n] eqn:Hs. intros [= _ <-]. 
    apply (send_frame_sends _ _ _ _ _ (λ m, m.2 = ack_message room)) in Hs; [|done]. cbn [state net set_state set_aborts active_rooms aborted_rooms abort_targets]. split; [|set_solver]. split; cbn; [done| | |].
    + intros r' Hr'. apply I2 in Hr'. set_solver.
    + intros r' Hr'. destruct (acknowledged_one _ _ _ _ Hs Hr') as [Ha| ->]; [apply I3 in Ha|]; set_solver.
    + intros r' Hr'. destruct (acknowledged_one _ _ _ _ Hs Hr') as [Ha| ->]; [by apply I4|]. intros Hb. by apply Hact, I1.
Qed.

Lemma serve_call_inv busy svc call : service_inv busy svc → service_inv busy (serve_call svc call) ∧ service_grows svc (serve_call svc call).
Proof.
  intros Hinv. destruct call as [frame|r|room rank now now'|rooms now]; cbn [serve_call].
  - unfold serve_next. destruct (stopped svc); [done|]. unfold serve_message. case_bool_decide.
    + destruct (serve_abort svc frame) as [[u|e] svc'] eqn:Ha; destruct (serve_abort_inv busy _ _ _ _ Hinv Ha) as [Hi Hg]; [by split|].
      split; [exact (stopped_inv _ _ _ Hi)|exact Hg].
    + destruct (ingest_bootstrap_frame (state svc) frame) as [st'|e] eqn:Hi; [apply same_aborts_inv; [by apply (ingest_same _ frame)|done]|].
      split; [exact (stopped_inv _ _ _ Hinv)|exact (service_grows_refl svc)].
  - by apply same_aborts_inv.
  - by apply same_aborts_inv.
  - by apply same_aborts_inv.
Qed.

Lemma serve_calls_inv busy group : ∀ svc, service_inv busy svc →
  service_inv busy (foldl serve_call svc group) ∧ service_grows svc (foldl serve_call svc group).
Proof.
  induction group as [|c group IH]; intros svc Hinv; [done|]. cbn [foldl]. destruct (serve_call_inv busy svc c Hinv) as [Hi Hg].
  destruct (IH _ Hi) as [Hi' Hg']. split; [done|]. unfold service_grows in *. set_solver.
Qed.

(** The executor: what is still to be written or reported is active. *)
Record pd_inv x : Prop := {
  inv_ok : accounted_ok (inner x);
  inv_once : NoDup (accounted (inner x));
  inv_service : service_inv (accounted (inner x)) (service x);
}.

Definition grows x x' : Prop := service_grows (service x) (service x').

Lemma grows_refl x : grows x x.
Proof. unfold grows, service_grows. done. Qed.

Lemma grows_trans x y z : grows x y → grows y z → grows x z.
Proof. unfold grows, service_grows. set_solver. Qed.

Lemma lock_inv busy x : service_inv busy (service x) → service_inv busy (service (lock x)) ∧ grows x (lock x) ∧ inner (lock x) = inner x.
Proof.
  intros Hinv. unfold lock. destruct (calls x) as [|g gs]; [split_and!; [done|apply grows_refl|done]|]. cbn.
  destruct (serve_calls_inv busy g _ Hinv). by split_and!.
Qed.

Lemma layouts_inv busy polls room : ∀ x res x', service_inv busy (service x) → remote_kv_layouts_for_room polls x room = (res, x') →
  service_inv busy (service x') ∧ grows x x' ∧ inner x' = inner x.
Proof.
  induction polls as [|polls IH]; intros x res x' Hinv; cbn [remote_kv_layouts_for_room];
    destruct (lock_inv busy x Hinv) as (Hi&Hg&He); (destruct (state_layouts_for_room _ _); [by intros [= _ <-]|]).
  - by intros [= _ <-].
  - intros Hr. destruct (IH _ _ _ Hi Hr) as (Hi'&Hg'&He'). split_and!; [done|by eapply grows_trans|congruence].
Qed.

(** Telling a room how its transfer ended, once nothing is left of it. *)
Lemma notify_room_inv busy x room error res x' : service_inv busy (service x) → room ∉ busy →
  notify_room x room error = (res, x') → service_inv busy (service x') ∧ grows x x' ∧ inner x' = inner x.
Proof.
  intros Hinv Hroom. unfold notify_room. destruct (lock_inv busy x Hinv) as (Hi&Hg&He). set (x1 := lock x) in *. clearbody x1.
  destruct (notify_completions _ _ _ _ _ _) as [r1 n1] eqn:Hn1. apply notify_completions_sends in Hn1.
  assert (service_inv busy (service (set_net x1 n1))) as Hi1.
  { destruct Hi as [I1 I2 I3 I4]. split; cbn; [done|done| |]; intros r Hr; apply (acknowledged_no_ack _ _ _ Hn1) in Hr; [by apply I3|by apply I4]. }
  destruct r1 as [u|e]; [|by intros [= _ <-]].
  destruct (notify_aborts n1 room _) as [r2 n2] eqn:Hn2. apply notify_aborts_sends in Hn2.
  assert (service_inv busy (service (set_net x1 n2))) as Hi2.
  { destruct Hi1 as [I1 I2 I3 I4]. destruct Hi as [_ J2 _ _]. cbn in *. split; cbn; try done.
    - intros r Hr. destruct Hn2 as (l&Hs&Hl). destruct Hr as [ep Hin]. rewrite Hs, elem_of_app in Hin. destruct Hin as [Hin|Hin]; [apply I3; by exists ep|].
      rewrite Forall_forall in Hl. destruct (Hl _ Hin) as [Hne Hack]. apply ack_message_inj in Hack as ->. apply J2.
      by destruct (abort_targets (state (service x1)) !! room); [eexists|].
    - intros r Hr. destruct (acknowledged_one n1 n2 room r) as [Ha| ->]; [eapply sends_weaken; [|exact Hn2]; by intros m []|done|by apply I4|done]. }
  destruct r2 as [u'|e]; [|by intros [= _ <-]]. intros [= _ <-].
  destruct (lock_inv busy _ Hi2) as (Hi3&Hg3&He3). set (x3 := lock (set_net x1 n2)) in *. clearbody x3. split_and!; [| |cbn; by rewrite He3].
  - destruct Hi3 as [I1 I2 I3 I4]. split; cbn; [| |done|done].
    + intros r Hr. specialize (I1 r Hr). apply elem_of_difference. split; [done|]. rewrite elem_of_singleton. by intros ->.
    + intros r. destruct (decide (r = room)) as [->|Hne]; [rewrite lookup_delete_eq; by intros []|]. rewrite lookup_delete_ne by done. apply I2.
  - unfold grows, service_grows in *. cbn in *. set_solver.
Qed.

Lemma service_inv_weaken busy busy' svc : (∀ room, room ∈ busy' → room ∈ busy) → service_inv busy svc → service_inv busy' svc.
Proof. intros Hsub [I1 I2 I3 I4]. split; [by intros r Hr; apply I1, Hsub|done|done|]. intros r Ha Hr. by apply (I4 r Ha), Hsub. Qed.

(** The inner executor drops some of its transfers. *)
Lemma shrink_inv x e gone : pd_inv x → accounted_ok e → accounted (inner x) ≡ₚ gone ++ accounted e → pd_inv (set_inner x e).
Proof.
  intros [_ Hnd Hs] He Hp. split; [done| |].
  - cbn. rewrite Hp in Hnd. by apply NoDup_app in Hnd as (_&_&?).
  - cbn. eapply service_inv_weaken; [|exact Hs]. intros r Hr. rewrite Hp. set_solver.
Qed.

Lemma notified_inv x room error res x' : pd_inv x → room ∉ accounted (inner x) → notify_room x room error = (res, x') → pd_inv x' ∧ grows x x'.
Proof.
  intros [Hok Hnd Hs] Hroom Hn. destruct (notify_room_inv _ _ _ _ _ _ Hs Hroom Hn) as (Hs'&Hg&He). split; [|done].
  split; by rewrite ?He.
Qed.

Lemma cancel_inner_inv x room res e : pd_inv x → backend_cancel (inner x) room = Some (res, e) →
  pd_inv (set_inner x e) ∧ (res = Ok () → room ∉ accounted (inner (set_inner x e))).
Proof.
  intros Hinv Hc. pose proof Hinv as [Hok _ _]. destruct (accounted_cancel _ _ _ _ Hok Hc) as (Hok'&[gone Hp]&Hgone).
  split; [by eapply shrink_inv|done].
Qed.

Lemma pd_cancel_inv x room res x' : pd_inv x → pd_cancel x room = Some (res, x') → pd_inv x' ∧ grows x x'.
Proof.
  intros Hinv. unfold pd_cancel. destruct (backend_cancel (inner x) room) as [[r e]|] eqn:Hc; [|done]. cbn [mbind option_bind].
  destruct (cancel_inner_inv _ _ _ _ Hinv Hc) as [Hinv' Hroom]. destruct r as [[]|err]; [|intros [= _ <-]; split; [done|exact (grows_refl x)]].
  intros [= Hn]. apply (notified_inv (set_inner x e) _ _ _ _ Hinv' (Hroom eq_refl) Hn).
Qed.

Lemma insert_layouts_inv layouts room : ∀ e : E, accounted_ok e → accounted_ok (insert_layouts e room layouts) ∧ accounted (insert_layouts e room layouts) = accounted e.
Proof.
  induction layouts as [|[s l] layouts IH]; intros e He; [done|]. cbn [insert_layouts].
  destruct (accounted_insert e room s l He) as [H1 H2]. destruct (IH _ H1) as [H3 H4]. split; [done|congruence].
Qed.

Lemma activate_inv busy x room res x' : service_inv busy (service x) → activate x room = (res, x') →
  grows x x' ∧ inner x' = inner x ∧ calls (lock x) = calls x' ∧
  match res with
  | Ok _ => service_inv (room :: busy) (service x')
  | Err _ => service_inv busy (service x')
  end.
Proof.
  intros Hinv. unfold activate. destruct (lock_inv busy x Hinv) as (Hi&Hg&He). case_bool_decide as Hab; [by intros [= <- <-]|].
  intros [= <- <-]. split_and!; [|done|done|].
  - unfold grows, service_grows in *. by cbn.
  - destruct Hi as [I1 I2 I3 I4]. split; cbn; [|done|done|].
    + intros r [->|Hr]%elem_of_cons; [set_solver|]. apply I1 in Hr. set_solver.
    + intros r Hr [->|Hb]%elem_of_cons; [by apply Hab, I3|by apply (I4 r)].
Qed.

Lemma register_span_inv busy x sp now now' : service_inv busy (service x) →
  service_inv busy (service (register_span_dp_rank x sp now now')) ∧ grows x (register_span_dp_rank x sp now now') ∧
  inner (register_span_dp_rank x sp now now') = inner x.
Proof.
  intros Hinv. unfold register_span_dp_rank. destruct (lock_inv busy x Hinv) as (Hi&Hg&He).
  destruct (same_aborts_inv busy (service (lock x)) (register_dp_rank (state (service (lock x))) (span_room sp) (sp_data_parallel_rank sp) now now')) as [Hi' Hg'];
    [done|done|]. split_and!; [done|by eapply grows_trans|done].
Qed.

Lemma pd_submit_inv polls now now' x sp res x' : pd_inv x → span_room sp ∉ accounted (inner x) →
  pd_submit polls now now' x sp = Some (res, x') → pd_inv x' ∧ grows x x'.
Proof.
  intros [Hok Hnd Hs] Hroom. unfold pd_submit. destruct (register_span_inv _ _ sp now now' Hs) as (Hs1&Hg1&He1).
  set (x1 := register_span_dp_rank x sp now now') in *. clearbody x1. intros H.
  apply st_bind_opt_inv in H as [(layouts&x2&Hl&H)|(e&Hl&->)]; injection Hl as Hl; apply (layouts_inv _ _ _ _ _ _ Hs1) in Hl as (Hs2&Hg2&He2);
    [|split; [split; rewrite ?He2, ?He1; done|by eapply grows_trans]].
  apply st_bind_opt_inv in H as [(u&x3&Ha&H)|(e&Ha&->)]; injection Ha as Ha; apply (activate_inv _ _ _ _ _ Hs2) in Ha as (Hg3&He3&_&Hs3);
    [|split; [split; rewrite ?He3, ?He2, ?He1; done|by eapply grows_trans, grows_trans]].
  assert (grows x x3) as Hg by (by eapply grows_trans, grows_trans). clear Hg1 Hg2 Hg3.
  rewrite He3, He2, He1 in H. destruct (insert_layouts_inv layouts (span_room sp) (inner x) Hok) as [Hok1 Hacc1].
  destruct (backend_submit (insert_layouts (inner x) (span_room sp) layouts) sp) as [[r e]|] eqn:Hsub; [|done]. cbn [mbind option_bind] in H.
  destruct (accounted_submit _ _ _ _ Hok1 Hsub) as [Hok2 Hacc2]. rewrite Hacc1 in Hacc2. revert H.
  match goal with |- context [set_pending (set_inner x3 e) ?t ?s] => set (x4 := set_pending (set_inner x3 e) t s) end. intros H.
  assert (grows x x4) as Hg4 by exact Hg. assert (pd_inv x4) as Hinv4.
  { split; [done| |].
    - change (inner x4) with e. rewrite Hacc2. destruct r; [by constructor|done].
    - change (inner x4) with e. change (service x4) with (service x3). eapply service_inv_weaken; [|exact Hs3]. intros room. rewrite Hacc2. destruct r; set_solver. }
  destruct r as [v|err]; [injection H as <- <-; by split|].
  destruct (backend_cancel (inner x4) (span_room sp)) as [[cr e5]|] eqn:Hc; [|done]. cbn [mbind option_bind] in H.
  destruct (cancel_inner_inv _ _ _ _ Hinv4 Hc) as [Hinv5 Hgone]. destruct cr as [[]|err']; [|injection H as <- <-; by split].
  destruct (notify_room (set_inner x4 e5) _ _) as [nr x6] eqn:Hn. apply notified_inv in Hn as [Hinv6 Hg6]; [|done|by apply Hgone].
  assert (grows x x6) as Hg' by (eapply grows_trans; [exact Hg4|exact Hg6]). destruct nr; injection H as <- <-; by split.
Qed.

Lemma cancel_aborted_inv rooms : ∀ x evs res x', pd_inv x → cancel_aborted x rooms evs = Some (res, x') → pd_inv x' ∧ grows x x'.
Proof.
  induction rooms as [|room rooms IH]; intros x evs res x' Hinv; cbn [cancel_aborted]; [intros [= _ <-]; by split; [|apply grows_refl]|].
  destruct (backend_cancel (inner x) room) as [[r e]|] eqn:Hc; [|done]. cbn [mbind option_bind].
  destruct (cancel_inner_inv _ _ _ _ Hinv Hc) as [Hinv' Hroom]. intros H.
  apply st_bind_opt_inv in H as [([]&x1&[= -> <-]&H)|(err&[= -> <-]&->)]; [|split; [done|exact (grows_refl x)]].
  apply st_bind_opt_inv in H as [(u&x2&Hn&H)|(err&Hn&->)]; injection Hn as Hn; apply notified_inv in Hn as [Hinv2 Hg2]; try done; try (by apply Hroom).
  destruct (IH _ _ _ _ Hinv2 H) as [Hinv3 Hg3]. split; [done|]. by eapply grows_trans.
Qed.

Lemma notify_events_inv evs : ∀ x res x', pd_inv x → (∀ ev, ev ∈ evs → event_room ev ∉ accounted (inner x)) →
  notify_events x evs = (res, x') → pd_inv x' ∧ grows x x'.
Proof.
  induction evs as [|ev evs IH]; intros x res x' Hinv Hevs; cbn [notify_events]; [intros [= _ <-]; by split; [|apply grows_refl]|].
  intros H. apply st_bind_inv in H as [(u&x1&Hn&H)|(e&Hn&->)].
  - pose proof Hinv as [_ _ Hs]. destruct (notify_room_inv _ _ _ _ _ _ Hs (Hevs ev ltac:(left)) Hn) as (_&_&He).
    apply notified_inv in Hn as [Hinv1 Hg1]; [|done|apply Hevs; left]. assert (∀ ev', ev' ∈ evs → event_room ev' ∉ accounted (inner x1)) as Hevs1.
    { intros ev' Hin. rewrite He. apply Hevs. by right. }
    destruct (IH _ _ _ Hinv1 Hevs1 H) as [Hinv2 Hg2]. split; [done|]. by eapply grows_trans.
  - apply notified_inv in Hn; [done|done|apply Hevs; left].
Qed.

Lemma pd_poll_inv x res x' : pd_inv x → pd_poll x = Some (res, x') → pd_inv x' ∧ grows x x'.
Proof.
  intros [Hok Hnd Hs]. unfold pd_poll. destruct (lock_inv _ _ Hs) as (Hs1&Hg1&He1).
  assert (pd_inv (lock x)) as Hinv1 by (split; rewrite He1; done). set (x1 := lock x) in *. clearbody x1. clear Hok Hnd Hs He1. intros H.
  apply st_bind_opt_inv in H as [(canceled&x2&Hc&H)|(e&Hc&->)]; apply cancel_aborted_inv in Hc as [Hinv2 Hg2]; try done; [|split; [done|by eapply grows_trans]].
  assert (grows x x2) as Hg by (by eapply grows_trans). clear Hg1 Hg2 Hinv1.
  destruct (backend_poll (inner x2)) as [[r e]|] eqn:Hp; [|done]. cbn [mbind option_bind] in H.
  pose proof Hinv2 as [Hok2 Hnd2 _]. destruct (accounted_poll _ _ _ Hok2 Hp) as [Hok3 Hacc].
  assert (pd_inv (set_inner x2 e)) as Hinv3.
  { destruct r as [poll|err]; [by eapply shrink_inv|]. by apply (shrink_inv _ _ []). }
  assert (grows x (set_inner x2 e)) as Hg3 by exact Hg.
  apply st_bind_opt_inv in H as [(poll&x3&[= -> <-]&H)|(err&[= -> <-]&->)]; [|done].
  assert (∀ ev, ev ∈ events poll → event_room ev ∉ accounted (inner (set_inner x2 e))) as Hevs.
  { intros ev Hin. cbn. rewrite Hacc in Hnd2. apply NoDup_app in Hnd2 as (_&Hdisj&_). apply Hdisj. by apply list_elem_of_fmap_2. }
  apply st_bind_opt_inv in H as [(u&x4&Hn&H)|(err&Hn&->)]; injection Hn as Hn; apply notify_events_inv in Hn as [Hinv4 Hg4]; try done.
  - injection H as _ <-. split; [done|]. by eapply grows_trans.
  - split; [done|]. by eapply grows_trans.
Qed.

Lemma shutdown_rooms_inv rooms : ∀ x res x', pd_inv x → shutdown_rooms x rooms = Some (res, x') → pd_inv x' ∧ grows x x'.
Proof.
  induction rooms as [|room rooms IH]; intros x res x' Hinv; cbn [shutdown_rooms]; [intros [= _ <-]; by split; [|apply grows_refl]|].
  intros H. apply st_bind_opt_inv in H as [(u&x1&Hc&H)|(e&Hc&->)]; apply pd_cancel_inv in Hc as [Hinv1 Hg1]; try done.
  destruct (IH _ _ _ Hinv1 H) as [Hinv2 Hg2]. split; [done|]. by eapply grows_trans.
Qed.

Lemma pd_shutdown_inv x res x' : pd_inv x → pd_shutdown x = Some (res, x') → pd_inv x' ∧ grows x x'.
Proof.
  intros Hinv. unfold pd_shutdown. intros H. apply st_bind_opt_inv in H as [(u&x1&Hc&H)|(e&Hc&->)]; apply shutdown_rooms_inv in Hc as [Hinv1 Hg1]; try done.
  destruct (backend_shutdown (inner x1)) as [[r e]|] eqn:Hp; [|done]. injection H as <- <-.
  pose proof Hinv1 as [Hok1 _ _]. destruct (accounted_shutdown _ _ _ Hok1 Hp) as (Hok2&gone&Hp2). split; [by eapply shrink_inv|done].
Qed.

(** ** The system *)

Definition with_calls x (cs : list (list ServiceCall)) : PdExecutor E Net := mkPdExecutor (service x) (inner x) (pending_tokens x) (pending_states x) cs.

(** Operations of the executor, with any calls of other threads in between, and
    such calls on their own.  A span is submitted only for a room without a
    transfer. *)
Inductive pd_step x : PdExecutor E Net → Prop :=
  | step_submit cs polls now now' sp res x' : span_room sp ∉ accounted (inner x) →
      pd_submit polls now now' (with_calls x cs) sp = Some (res, x') → pd_step x x'
  | step_poll cs res x' : pd_poll (with_calls x cs) = Some (res, x') → pd_step x x'
  | step_cancel cs room res x' : pd_cancel (with_calls x cs) room = Some (res, x') → pd_step x x'
  | step_shutdown cs res x' : pd_shutdown (with_calls x cs) = Some (res, x') → pd_step x x'
  | step_serve call : pd_step x (set_service x (serve_call (service x) call)).

(** A new executor: no transfers, nothing sent, nobody aborted. *)
Record pd_started x : Prop := {
  started_ok : accounted_ok (inner x);
  started_idle : accounted (inner x) = [];
  started_state : state (service x) = PrefillBootstrapState_default;
  started_silent : sent (net (service x)) = [];
}.

Lemma started_inv x : pd_started x → pd_inv x.
Proof.
  intros [Hok Hidle Hst Hsent]. split; [done|rewrite Hidle; constructor|]. rewrite Hidle. split.
  - intros r Hr. by apply not_elem_of_nil in Hr.
  - intros r. rewrite Hst. cbn. rewrite lookup_empty. by intros [].
  - intros r [ep Hin]. rewrite Hsent in Hin. by apply not_elem_of_nil in Hin.
  - intros r _. apply not_elem_of_nil.
Qed.

Lemma pd_step_inv x x' : pd_inv x → pd_step x x' → pd_inv x'.
Proof.
  intros Hinv Hstep. assert (∀ cs, pd_inv (with_calls x cs)) as Hc by (intros cs; by destruct Hinv).
  destruct Hstep as [cs polls now now' sp res x' Hroom H|cs res x' H|cs room res x' H|cs res x' H|call].
  - by apply pd_submit_inv in H as [? _].
  - by apply pd_poll_inv in H as [? _].
  - by apply pd_cancel_inv in H as [? _].
  - by apply pd_shutdown_inv in H as [? _].
  - destruct Hinv as [Hok Hnd Hs]. split; [done|done|]. by apply serve_call_inv.
Qed.

Lemma pd_reachable_inv x x' : pd_inv x → rtc pd_step x x' → pd_inv x'.
Proof. intros Hinv Hr. induction Hr as [|x y z Hs _ IH]; [done|]. apply IH. by eapply pd_step_inv. Qed.

(** Submitting a span of an aborted room changes nothing in the inner executor. *)
Lemma submit_aborted polls now now' x sp res x' : pd_inv x → span_room sp ∈ aborted_rooms (state (service x)) →
  pd_submit polls now now' x sp = Some (res, x') → (∃ e, res = Err e) ∧ inner x' = inner x.
Proof.
  intros [Hok Hnd Hs] Hab. unfold pd_submit. destruct (register_span_inv _ _ sp now now' Hs) as (Hs1&Hg1&He1).
  set (x1 := register_span_dp_rank x sp now now') in *. clearbody x1. intros H.
  apply st_bind_opt_inv in H as [(layouts&x2&Hl&H)|(e&Hl&->)]; injection Hl as Hl; apply (layouts_inv _ _ _ _ _ _ Hs1) in Hl as (Hs2&Hg2&He2);
    [|split; [by eexists|congruence]].
  destruct (lock_inv _ _ Hs2) as (_&Hg3&_). assert (activate x2 (span_room sp) = (Err (TransferRuntime "decode aborted this transfer room before submission"), lock x2)) as Ha.
  { unfold activate. rewrite bool_decide_eq_true_2; [done|]. unfold grows, service_grows in *. set_solver. }
  apply (activate_inv _ _ _ _ _ Hs2) in Ha as Ha'. destruct Ha' as (_&He3&_). rewrite Ha in H. injection H as <- <-. split; [by eexists|congruence].
Qed.

(** C17. Once a decode worker has been told that its room is quiet, the prefill
    side neither has nor ever starts a transfer into that room, in every
    interleaving of the executor with the service, if a room has one transfer
    at a time: the decode worker may reuse the memory. *)
Theorem acknowledged_room_is_quiet x0 x room : pd_started x0 → rtc pd_step x0 x → acknowledged (net (service x)) room →
  room ∉ accounted (inner x) ∧
  ∀ cs polls now now' sp res x', span_room sp = room → pd_submit polls now now' (with_calls x cs) sp = Some (res, x') →
    (∃ e, res = Err e) ∧ inner x' = inner x.
Proof.
  intros H0 Hr Hack. apply started_inv in H0. pose proof (pd_reachable_inv _ _ H0 Hr) as Hinv. destruct Hinv as [Hok Hnd Hs].
  split; [by apply (acknowledged_quiet _ _ Hs)|]. intros cs polls now now' sp res x' <- H.
  apply (submit_aborted polls now now' (with_calls x cs) sp res x'); [by split| |done]. by apply (acknowledged_aborted _ _ Hs).
Qed.

End Safety.

(** ** Routes *)

(** Where a worker is registered. *)
Definition route_place (r : PrefillRouteRegistration) : N * N * N * N :=
  (if rr_system_dp_size r =? 1 then rr_attn_dp_rank r else rr_system_dp_rank r, rr_attn_cp_rank r, rr_attn_tp_rank r, rr_pp_rank r).

Definition route_info (r : PrefillRouteRegistration) : PrefillRankInfo := mkRankInfo (rr_rank_ip r) (rr_rank_port r).

Lemma rank_info_register st r dp cp tp pp :
  rank_info (register_route st r) dp cp tp pp = if bool_decide (route_place r = (dp, cp, tp, pp)) then Some (route_info r) else rank_info st dp cp tp pp.
Proof.
  unfold rank_info, register_route, insert_route, route_place, entry. cbn [prefill_port_table].
  set (dp' := if rr_system_dp_size r =? 1 then rr_attn_dp_rank r else rr_system_dp_rank r).
  case_bool_decide as Hp.
  - injection Hp as -> -> -> ->. do 4 (rewrite lookup_insert_eq; cbn [mbind option_bind]). done.
  - destruct (decide (dp' = dp)) as [H1|]; [|by rewrite lookup_insert_ne]. rewrite H1, lookup_insert_eq. cbn [mbind option_bind].
    destruct (decide (rr_attn_cp_rank r = cp)) as [H2|]; [|rewrite lookup_insert_ne by done; by destruct (prefill_port_table st !! dp)].
    rewrite H2, lookup_insert_eq. cbn [mbind option_bind].
    destruct (decide (rr_attn_tp_rank r = tp)) as [H3|].
    + rewrite H3, lookup_insert_eq. cbn [mbind option_bind]. rewrite lookup_insert_ne by (intros H4; apply Hp; by rewrite H1, H2, H3, H4).
      destruct (prefill_port_table st !! dp) as [m|]; cbn; [|by rewrite !lookup_empty]. destruct (m !! cp) as [m'|]; cbn; [|by rewrite !lookup_empty].
      by destruct (m' !! tp); cbn; [|rewrite lookup_empty].
    + rewrite lookup_insert_ne by done. destruct (prefill_port_table st !! dp) as [m|]; cbn; [|by rewrite !lookup_empty].
      by destruct (m !! cp); cbn; [|rewrite lookup_empty].
Qed.

(** A rank query is answered with the address of the worker that registered
    last for these ranks, and with nothing for ranks nobody registered for. *)
Theorem route_is_last_registration rs dp cp tp pp :
  rank_info (foldl register_route PrefillBootstrapState_default rs) dp cp tp pp =
    route_info <$> last (filter (λ r, route_place r = (dp, cp, tp, pp)) rs).
Proof.
  induction rs as [|r rs IH] using rev_ind; [done|]. rewrite foldl_snoc, filter_app, filter_cons, filter_nil, rank_info_register.
  case_bool_decide as Hp; case_decide; try done; [by rewrite last_snoc|]. by rewrite app_nil_r.
Qed.

(** ** Concrete runs *)

(** A network that delivers everything. *)
#[export] Instance log_network : PdNetwork (list (string * message)) := {
  push_connect n _ := (Ok tt, n);
  push_send n endpoint m := (Ok tt, n ++ [(endpoint, m)]);
}.

#[export, refine] Instance log_network_log : NetworkLog (list (string * message)) := {| sent n := n |}.
Proof. - done. - intros n endpoint m. by right. Defined.

#[export] Instance FakeKvCacheTransferExecutor_inner : PdInnerExecutor FakeKvCacheTransferExecutor := {
  insert_remote_layout e _ _ _ := e;
}.

#[export, refine] Instance FakeKvCacheTransferExecutor_accounted : AccountedExecutor FakeKvCacheTransferExecutor :=
  {| accounted_ok _ := True; accounted e := (fake_pending e).*1 |}.
Proof.
  - done.
  - intros e sp res e' _ [= <- <-]. split; [done|]. cbn. rewrite fmap_app. cbn. solve_Permutation.
  - intros e res e' _ [= <- <-]. split; [done|]. cbn. rewrite app_nil_r, <-list_fmap_compose. done.
  - intros e room res e' _ [= <- <-]. split; [done|]. cbn. split.
    + exists (filter (λ p, ¬ p.1 ≠ room) (fake_pending e)).*1. rewrite <-fmap_app, (comm (++)). by rewrite filter_app_complement.
    + intros _ Hin. apply list_elem_of_fmap in Hin as (p&->&Hp). by apply list_elem_of_filter in Hp as [? _].
  - intros e res e' _ [= <- <-]. split; [done|]. exists (fake_pending e).*1. cbn. by rewrite app_nil_r.
Defined.

Notation FakePd := (PdExecutor FakeKvCacheTransferExecutor (list (string * message))).

Definition pd_fresh : FakePd := mkPdExecutor (mkService PrefillBootstrapState_default [] None) (mkFakeExecutor [] []) ∅ ∅ [].

(** What a decode worker sends for room 7: its memory and the room; and its abort. *)
Definition announce_calls : list ServiceCall :=
  [ZmqFrame (registration_to_frame (mkRegistration "10.0.0.2" 9000 "decode-0" [4096] [] [] 0 1 512 [] []));
   ZmqFrame (match metadata_to_frame (mkMetadata 7 "10.0.0.2" 9000 "decode-0" [3]%Z (Some 0%Z) [] 1 (Some 0) false) with Ok f => f | Err _ => [] end)].

Definition abort_call : ServiceCall := ZmqFrame [string_bytes "ABORT"; string_bytes "7"; string_bytes "10.0.0.2"; string_bytes "9000"].

Definition room7_span (token : option N) : KvCacheTransferSpan :=
  mkSpan "a" (mkDisaggregatedParams "10.0.0.1" 8998 7) 0 0 16 [] 16 [5] token None.

Definition outcome_of {E A S} (o : option (Result E A * S)) (d : S) : S := match o with Some (_, s) => s | None => d end.

(** Announced, submitted, aborted, polled: the poll cancels and acknowledges. *)
Definition pd_submitted : FakePd := outcome_of (pd_submit 0 10 10 (with_calls pd_fresh [announce_calls]) (room7_span (Some 42))) pd_fresh.
Definition pd_aborted : FakePd := set_service pd_submitted (serve_call (service pd_submitted) abort_call).
Definition pd_polled : FakePd := outcome_of (pd_poll (with_calls pd_aborted [])) pd_fresh.

Lemma acknowledged_room_is_quiet_witness :
  acknowledged (net (service pd_polled)) 7 ∧ (transferred_rooms (inner pd_polled) = [7]) ∧ 7 ∉ accounted (inner pd_polled).
Proof.
  assert (acknowledged (net (service pd_polled)) 7) as Hack.
  { exists "tcp://10.0.0.2:9000"%string. apply list_elem_of_lookup. exists 1%nat. vm_compute. reflexivity. }
  split; [done|]. split; [vm_compute; reflexivity|].
  apply (acknowledged_room_is_quiet pd_fresh pd_polled 7); [by split| |done].
  eapply rtc_l; [eapply (step_submit pd_fresh [announce_calls] 0 10 10 (room7_span (Some 42)) (Ok tt) pd_submitted); [apply not_elem_of_nil|vm_compute; reflexivity]|].
  eapply rtc_l; [apply (step_serve pd_submitted abort_call)|].
  eapply rtc_l; [|apply rtc_refl].
  destruct (pd_poll (with_calls pd_aborted [])) as [[res x]|] eqn:Hp; [|by vm_compute in Hp].
  assert (pd_polled = x) as -> by (unfold pd_polled; by rewrite Hp). exact (step_poll pd_aborted [] res x Hp).
Defined.

(** ** Where rooms go wrong *)

(** The first chunk of a prompt that is done ends the room: the announcement is
    gone, so the next chunk waits for it in vain. *)
Example second_chunk_finds_no_room :
  let x1 := outcome_of (pd_submit 0 10 10 (with_calls pd_fresh [announce_calls]) (room7_span None)) pd_fresh in
  let x2 := outcome_of (pd_poll (with_calls x1 [])) pd_fresh in
  fst <$> pd_submit 5 11 11 (with_calls x2 []) (room7_span (Some 42)) = Some (Err (TransferRuntime "missing transfer room: 7")).
Proof. vm_compute. reflexivity. Qed.

(** Two chunks in flight: the second is done, and an abort is acknowledged at
    once although the first is still being written. *)
Definition two_chunks : PdExecutor ToyExecutor (list (string * message)) :=
  mkPdExecutor (mkService (set_aborts PrefillBootstrapState_default {[7]} ∅ ∅) [] None)
    (mkExecutor (Some (mkRegistered toy_registrar toy_memory [4096] true)) None (mkToyTransport 3 1, []) example_layout 0%Z ∅
      [0; 1] [mkSubmittedBatch 7 0 1 "a"; mkSubmittedBatch 7 1 1 "b"] []) ∅ ∅ [].

Example two_chunks_acknowledged_early :
  let _ := KvCacheTransferExecutor_inner toy_digest 5 in
  let x := outcome_of (pd_poll two_chunks) two_chunks in
  let svc := serve_call (service x) abort_call in
  net svc = [("tcp://10.0.0.2:9000"%string, ack_message 7)] ∧ sb_room <$> submitted_transfers (inner x) = [7].
Proof. vm_compute. by split. Qed.

(** An abort between the two locks of a notification is dropped unanswered. *)
Example abort_during_notification_is_lost :
  let x := outcome_of (pd_submit 0 10 10 (with_calls pd_fresh [announce_calls]) (room7_span None)) pd_fresh in
  let x' := outcome_of (pd_poll (with_calls x [[]; []; [abort_call]])) pd_fresh in
  net (service x') = [] ∧ abort_targets (state (service x')) = ∅ ∧ bool_decide (7 ∈ aborted_rooms (state (service x'))) = true.
Proof. vm_compute. by split_and!. Qed.

(** A room is used before all the destinations it requires are announced. *)
Example layouts_before_all_announced :
  let st := announce PrefillBootstrapState_default (mkTransferInfo 7 "10.0.0.2" 9000 "decode-0" [] None [] 2 true None) in
  transfer_status_of st 7 = Some KvPoll.Bootstrapping ∧ state_layouts_for_room st 7 = Ok [].
Proof. by vm_compute. Qed.

(** A malformed message ends the service: the abort after it is not read. *)
Example malformed_frame_stops_service :
  let svc := serve_call (service pd_fresh) (ZmqFrame [string_bytes "8"]) in
  stopped svc = Some (BootstrapFrame (MissingField "transfer metadata" 8 1)) ∧ net (serve_call svc abort_call) = [].
Proof. by vm_compute. Qed.

(** One worker that registers twice makes a server of two workers ready. *)
Example repeated_registration_counts :
  let r := mkRoute 2 0 1 0 1 0 1 0 1 0 "10.0.0.1" 9001 None None None in
  let st := register_route (register_route PrefillBootstrapState_default r) r in
  is_ready st = Some true ∧ rank_info st 0 0 1 0 = None.
Proof. by vm_compute. Qed.
