(* ===== verification/PdPublisher.v ===== *)
(** * The decode side of a bootstrap ([crates/sglang-srt/src/transfer/pd_bootstrap.rs])

    A decode worker looks up the prefill worker's address over HTTP, sends it
    the registration of its memory once and the metadata of each room, waits in
    its inbox for the first token, and to give a room up asks for an
    acknowledgement first. *)

From stdpp Require Import pretty.
From S2P Require Import Prelude Bytes Text Types Request TransferPlan TransferDescriptor KvBootstrap KvTransfer Tokenizer PdWire PdControl PdBootstrap PdBootstrapCorrect.

(** ** HTTP *)

(** [str::split_once] on a text. *)
Fixpoint split_once_str (pat s : string) : option (string * string) :=
  match strip_prefix pat s with
  | Some rest => Some (""%string, rest)
  | None =>
      match s with
      | EmptyString => None
      | String c s => '(a, b) ← split_once_str pat s; Some (String c a, b)
      end
  end.

(** The bytes up to a line feed. *)
Fixpoint upto_lf (bs : list N) : list N :=
  match bs with [] => [] | b :: bs => if b =? 10 then [] else b :: upto_lf bs end.

(** [str::lines().next()]: a carriage return before the line feed is cut too. *)
Definition first_line (bs : list N) : option (list N) :=
  match bs with
  | [] => None
  | _ =>
      let line := upto_lf bs in
      Some (if bool_decide (length line < length bs)%nat && bool_decide (last line = Some 13) then removelast line else line)
  end.

(** How many bytes of whitespace the bytes start with: [char::is_whitespace] in UTF-8. *)
Definition whitespace_width (bs : list N) : nat :=
  match bs with
  | b :: rest =>
      if ((9 <=? b) && (b <=? 13)) || (b =? 32) then 1
      else
        match rest with
        | c :: rest =>
            if (b =? 0xC2) && ((c =? 0x85) || (c =? 0xA0)) then 2
            else
              match rest with
              | d :: _ =>
                  if ((b =? 0xE1) && (c =? 0x9A) && (d =? 0x80)) ||
                     ((b =? 0xE2) && (c =? 0x80) && (((0x80 <=? d) && (d <=? 0x8A)) || (d =? 0xA8) || (d =? 0xA9) || (d =? 0xAF))) ||
                     ((b =? 0xE2) && (c =? 0x81) && (d =? 0x9F)) ||
                     ((b =? 0xE3) && (c =? 0x80) && (d =? 0x80)) then 3 else 0
              | [] => 0
              end
        | [] => 0
        end
  | [] => 0
  end.

(** [str::split_whitespace]: the words, [current] being the one under way. *)
Fixpoint words (fuel : nat) (current bs : list N) : list (list N) :=
  let word := match current with [] => [] | _ => [current] end in
  match fuel, bs with
  | O, _ | _, [] => word
  | S fuel, b :: rest =>
      match whitespace_width bs with
      | O => words fuel (current ++ [b]) rest
      | w => word ++ words fuel [] (drop w bs)
      end
  end.

Definition crlf2 : string := bytes_string [13; 10; 13; 10].

(** [pd_bootstrap.rs:1528-1545] http_success_body *)
Definition http_success_body (response : string) : Result PdDecodeBootstrapError string :=
  let? parts := ok_or (split_once_str crlf2 response) InvalidHttpResponse in
  let '(headers, body) := parts in
  let? status := ok_or
    (line ← first_line (string_bytes headers);
     word ← words (length line) [] line !! 1%nat;
     parse_unsigned (2 ^ 16 - 1) (bytes_string word)) InvalidHttpResponse in
  if negb (status =? 200) then Err (HttpStatus status body) else Ok body.

(** [pd_bootstrap.rs:1521-1521] http_get (request) *)
Definition http_request (addr path : string) : string :=
  "GET " +:+ path +:+ " HTTP/1.1" +:+ bytes_string [13; 10] +:+ "Host: " +:+ addr +:+ bytes_string [13; 10] +:+
  "Connection: close" +:+ crlf2.

(** Connecting, writing the request and reading the response to its end. *)
Class HttpClient (Net : Type) : Type := {
  http_exchange : Net → string → string → Result string string * Net;
}.

(** ** The publisher *)

(** The receiver is there once it was started; [waits] are the messages that
    come in during the waits to come. *)
(** [pd_bootstrap.rs:932-944] PdDecodeBootstrapPublisher *)
Record PdDecodeBootstrapPublisher (Net : Type) : Type := mkPublisher {
  endpoint : string;
  dst_port : N;
  session_id : string;
  kv_cache_layout : option KvTransferLayout;
  target_tp_rank : Z;
  target_pp_rank : Z;
  dst_aux_index : option Z;
  dst_info_num : N;
  registered_kv_args_endpoints : gset string;
  receiver : option Inbox;
  receive_targets : gmap N string;
  pub_net : Net;
  waits : list (list (list message));
}.
Arguments mkPublisher {Net}.
Arguments endpoint {Net}.
Arguments dst_port {Net}.
Arguments session_id {Net}.
Arguments kv_cache_layout {Net}.
Arguments target_tp_rank {Net}.
Arguments target_pp_rank {Net}.
Arguments dst_aux_index {Net}.
Arguments dst_info_num {Net}.
Arguments registered_kv_args_endpoints {Net}.
Arguments receiver {Net}.
Arguments receive_targets {Net}.
Arguments pub_net {Net}.
Arguments waits {Net}.

Section Publisher.
Context {Net : Type} `{!PdNetwork Net} `{!HttpClient Net}.
(** serde's reading of the JSON of a rank. *)
Context (parse_rank_info : string → Result string PrefillRankInfo).
Implicit Types (p : PdDecodeBootstrapPublisher Net) (n : Net) (sp : KvCacheTransferSpan).

Definition set_pub_net p n : PdDecodeBootstrapPublisher Net :=
  mkPublisher (endpoint p) (dst_port p) (session_id p) (kv_cache_layout p) (target_tp_rank p) (target_pp_rank p) (dst_aux_index p) (dst_info_num p)
    (registered_kv_args_endpoints p) (receiver p) (receive_targets p) n (waits p).
Definition set_receiver p (r : option Inbox) (targets : gmap N string) (ws : list (list (list message))) : PdDecodeBootstrapPublisher Net :=
  mkPublisher (endpoint p) (dst_port p) (session_id p) (kv_cache_layout p) (target_tp_rank p) (target_pp_rank p) (dst_aux_index p) (dst_info_num p)
    (registered_kv_args_endpoints p) r targets (pub_net p) ws.
Definition set_registered p (keys : gset string) : PdDecodeBootstrapPublisher Net :=
  mkPublisher (endpoint p) (dst_port p) (session_id p) (kv_cache_layout p) (target_tp_rank p) (target_pp_rank p) (dst_aux_index p) (dst_info_num p)
    keys (receiver p) (receive_targets p) (pub_net p) (waits p).

(** [pd_bootstrap.rs:949-963] PdDecodeBootstrapPublisher::new *)
Definition PdDecodeBootstrapPublisher_new (n : Net) (endpoint : string) (dst_port : N) (session_id : string) : PdDecodeBootstrapPublisher Net :=
  mkPublisher endpoint dst_port session_id None 0 0 (Some 0%Z) 1 ∅ None ∅ n [].

(** [pd_bootstrap.rs:993-1020] metadata_for_span *)
Definition metadata_for_span p sp : Result string PdDecodeTransferMetadata :=
  let? dst_kv_indices := collect_results (λ page,
    if page <? 2 ^ 31 then Ok (Z.of_N page)
    else Err ("physical KV page " +:+ pretty page +:+ " cannot fit into metadata i32 index")) (sp_page_indices sp) in
  Ok (mkMetadata (span_room sp) (endpoint p) (dst_port p) (session_id p) dst_kv_indices (dst_aux_index p) [] (dst_info_num p)
        (Some (sp_token_offset sp)) false).

(** [pd_bootstrap.rs:1022-1040] kv_args_registration *)
Definition kv_args_registration p : option PdDecodeKvArgsRegistration :=
  layout ← kv_cache_layout p;
  if source_base_addr layout =? 0 then None
  else Some (mkRegistration (endpoint p) (dst_port p) (session_id p) [source_base_addr layout] [] [] (target_tp_rank p) 1
               (page_size_bytes layout) [] []).

(** [pd_bootstrap.rs:1519-1526] http_get *)
Definition http_get n (addr path : string) : Result PdDecodeBootstrapError string * Net :=
  let '(res, n) := http_exchange n addr (http_request addr path) in (result_map_err Io res, n).

(** [pd_bootstrap.rs:1391-1393] query_prefill_route (lookup) *)
Definition lookup_rank n (addr path : string) : Result PdDecodeBootstrapError PrefillRankInfo * Net :=
  let! response, n := http_get n addr path in
  (let? body := http_success_body response in result_map_err Json (parse_rank_info body), n).

(** [pd_bootstrap.rs:1380-1398] query_prefill_route *)
Definition query_prefill_route n (addr : string) (dp cp tp pp : Z) : Result PdDecodeBootstrapError PrefillRankInfo * Net :=
  lookup_rank n addr ("/route?prefill_dp_rank=" +:+ pretty dp +:+ "&prefill_cp_rank=" +:+ pretty cp +:+ "&target_tp_rank=" +:+ pretty tp +:+
    "&target_pp_rank=" +:+ pretty pp).

(** A JSON error is reported without the prefix of the others. *)
(** [pd_bootstrap.rs:1164-1177] query_control_target *)
Definition query_control_target n (addr : string) : Result string string * Net :=
  match lookup_rank n addr "/route?prefill_dp_rank=0&prefill_cp_rank=0&target_tp_rank=0&target_pp_rank=0" with
  | (Ok rank, n) => (Ok (zmq_endpoint rank), n)
  | (Err (Json e), n) => (Err e, n)
  | (Err e, n) => (Err (PdDecodeBootstrapError_to_string e), n)
  end.

(** [pd_bootstrap.rs:1400-1405] send_transfer_metadata *)
Definition send_transfer_metadata n (endpoint : string) (m : PdDecodeTransferMetadata) : Result PdDecodeBootstrapError unit * Net :=
  match metadata_to_frame m with
  | Ok frame => send_bootstrap_frame n endpoint frame
  | Err session => (Err (MissingAuxIndex session), n)
  end.

(** [pd_bootstrap.rs:1414-1419] send_kv_args_registration *)
Definition send_kv_args_registration n (endpoint : string) (r : PdDecodeKvArgsRegistration) : Result PdDecodeBootstrapError unit * Net :=
  send_bootstrap_frame n endpoint (registration_to_frame r).

(** [pd_bootstrap.rs:1428-1467] publish_decode_metadata_blocking *)
Definition publish_decode_metadata_blocking n (addr : string) (dp tp pp : Z) (registration : option PdDecodeKvArgsRegistration)
    (m : PdDecodeTransferMetadata) : Result string unit * Net :=
  let '(res, n) :=
    (let! rank, n := query_prefill_route n addr dp 0 tp pp in
     let! _u, n := (match registration with Some r => send_kv_args_registration n (zmq_endpoint rank) r | None => (Ok tt, n) end) in
     send_transfer_metadata n (zmq_endpoint rank) m) in
  (result_map_err PdDecodeBootstrapError_to_string res, n).

(** [pd_bootstrap.rs:1056-1060] publish_decode_bootstrap_metadata (address) *)
Definition bootstrap_addr sp : string :=
  bootstrap_host (sp_disaggregated_params sp) +:+ ":" +:+ pretty (bootstrap_port (sp_disaggregated_params sp)).

(** [pd_bootstrap.rs:1064-1067] publish_decode_bootstrap_metadata (key) *)
Definition registration_key p sp : string :=
  bootstrap_addr sp +:+ "|" +:+ pretty (sp_data_parallel_rank sp) +:+ "|" +:+ pretty (target_tp_rank p) +:+ "|" +:+
  pretty (target_pp_rank p) +:+ "|" +:+ session_id p.

(** [pd_bootstrap.rs:1055-1094] publish_decode_bootstrap_metadata (span) *)
Definition publish_span p sp : Result string unit * PdDecodeBootstrapPublisher Net :=
  match metadata_for_span p sp with
  | Err e => (Err e, p)
  | Ok metadata =>
      let key := registration_key p sp in
      let registration := if bool_decide (key ∈ registered_kv_args_endpoints p) then None else kv_args_registration p in
      let! _u, p :=
        (match receiver p with
         | Some inbox =>
             let '(res, inbox) := register_room inbox (span_room sp) in (res, set_receiver p (Some inbox) (receive_targets p) (waits p))
         | None => (Ok tt, p)
         end) in
      let p := set_receiver p (receiver p) (<[span_room sp := bootstrap_addr sp]> (receive_targets p)) (waits p) in
      let '(res, n) := publish_decode_metadata_blocking (pub_net p) (bootstrap_addr sp) (sp_data_parallel_rank sp) (target_tp_rank p)
                         (target_pp_rank p) registration metadata in
      let! _u, p := (res, set_pub_net p n) in
      (Ok tt, if bool_decide (is_Some registration) then set_registered p ({[key]} ∪ registered_kv_args_endpoints p) else p)
  end.

(** [pd_bootstrap.rs:1049-1098] publish_decode_bootstrap_metadata *)
Fixpoint publish_spans p (published : N) (spans : list KvCacheTransferSpan) : Result string N * PdDecodeBootstrapPublisher Net :=
  match spans with
  | [] => (Ok published, p)
  | sp :: spans => let! _u, p := publish_span p sp in publish_spans p (published + 1) spans
  end.

(** The messages that come in while the publisher waits. *)
Definition next_wait p : list (list message) := default [] (head (waits p)).

(** [pd_bootstrap.rs:1105-1117] receive_prefill_token_and_state *)
Definition receive_token p (room : N) : Result string (N * option (list N)) * PdDecodeBootstrapPublisher Net :=
  match receiver p with
  | None => (Err "decode receiver was not started"%string, p)
  | Some inbox =>
      match receive_token_and_state (next_wait p) inbox room with
      | (Err e, inbox) => (Err e, set_receiver p (Some inbox) (receive_targets p) (tail (waits p)))
      | (Ok received, inbox) =>
          (Ok received, set_receiver p (Some (remove_room inbox room)) (base.delete room (receive_targets p)) (tail (waits p)))
      end
  end.

(** [pd_bootstrap.rs:1136-1141] cancel_receive (message) *)
Definition abort_message p (room : N) : message :=
  [string_bytes "ABORT"; string_bytes (pretty room); string_bytes (endpoint p); string_bytes (pretty (dst_port p))].

(** [pd_bootstrap.rs:1119-1146] cancel_receive *)
Definition pd_cancel_receive p (room : N) : Result string unit * PdDecodeBootstrapPublisher Net :=
  match receive_targets p !! room with
  | None => (Ok tt, p)
  | Some addr =>
      match receiver p with
      | None => (Err "decode receiver was not started"%string, p)
      | Some inbox =>
          if is_drained inbox room then
            (Ok tt, set_receiver p (Some (remove_room inbox room)) (base.delete room (receive_targets p)) (waits p))
          else
            let '(target, n) := query_control_target (pub_net p) addr in
            let! target, p := (target, set_pub_net p n) in
            let '(res, n) := send_frames (pub_net p) target [abort_message p room] in
            let! _u, p := (res, set_pub_net p n) in
            let '(res, inbox) := wait_drained (next_wait p) inbox room in
            let! _u, p := (res, set_receiver p (Some inbox) (receive_targets p) (tail (waits p))) in
            (Ok tt, set_receiver p (Some (remove_room inbox room)) (base.delete room (receive_targets p)) (waits p))
      end
  end.

(** [pd_bootstrap.rs:1048-1147] PdDecodeBootstrapPublisher (DecodeBootstrapPublisher) *)
#[export] Instance PdDecodeBootstrapPublisher_publisher : DecodeBootstrapPublisher (PdDecodeBootstrapPublisher Net) := {
  publish_decode_bootstrap_metadata p spans := publish_spans p 0 spans;
  receive_prefill_token_and_state := receive_token;
  cancel_receive := pd_cancel_receive;
}.

End Publisher.

(** ** Giving a room up *)

Section GivingUp.
Context {Net : Type} `{!PdNetwork Net} `{!HttpClient Net} (parse_rank_info : string → Result string PrefillRankInfo).
Implicit Types p : PdDecodeBootstrapPublisher Net.

(** A decode worker gives a room up, and its memory with it, only after the
    prefill worker said that it is done with it: the room was released before,
    or an acknowledgement or terminal status of it came in while waiting.  The
    room is then neither in the inbox nor among the targets. *)
Theorem given_up_room_was_released p room addr inbox r p' :
  receive_targets p !! room = Some addr → receiver p = Some inbox → rooms inbox !! room = Some r →
  pd_cancel_receive parse_rank_info p room = (Ok tt, p') →
  (released r = true ∨ ∃ m, m ∈ concat (next_wait p) ∧ message_room m = Ok room ∧ is_aux m = false) ∧
  receive_targets p' !! room = None ∧ ∃ inbox', receiver p' = Some inbox' ∧ rooms inbox' !! room = None.
Proof.
  intros Ht Hi Hr. unfold pd_cancel_receive, is_drained. rewrite Ht, Hi, Hr. fold (released r). destruct (released r) eqn:Hrel.
  - intros [= <-]. cbn. split; [by left|]. split; [apply lookup_delete_eq|]. eexists. split; [done|]. cbn. apply lookup_delete_eq.
  - destruct (query_control_target _ _ _) as [target n]. intros H.
    apply st_bind_inv in H as [(tg&p1&[= -> <-]&H)|(?&?&[=])]. cbn [pub_net set_pub_net] in H.
    destruct (send_frames n tg _) as [res n']. apply st_bind_inv in H as [(u&p2&[= -> <-]&H)|(?&?&[=])].
    change (next_wait (set_pub_net (set_pub_net p n) n')) with (next_wait p) in H.
    destruct (wait_drained (next_wait p) inbox room) as [res2 inbox2] eqn:Hw. apply st_bind_inv in H as [(u'&p3&[= -> <-]&H)|(?&?&[=])].
    destruct u'. injection H as <-. split; [right; by eapply drained_released|]. cbn. split; [apply lookup_delete_eq|].
    eexists. split; [done|]. cbn. apply lookup_delete_eq.
Qed.

End GivingUp.

(** ** The two sides *)

(** The room is named in decimal, so it is none of the words. *)
Lemma pretty_no_word (n : N) (w : string) : Exists (λ b, is_digit b = false) (string_bytes w) → (pretty n =? w)%string = false.
Proof. intros Hw. apply String.eqb_neq. intros He. apply (pretty_not_word n _ Hw). by rewrite He. Qed.

Lemma ingest_registration st r : registration_wf r →
  ingest_bootstrap_frame st (registration_to_frame r) =
    Ok (set_kv_args st (<[kr_session_id r := registered_info r]> (decode_kv_args_table st)) (decode_kv_args_registration_count st + 1)).
Proof.
  intros Hr. unfold ingest_bootstrap_frame. rewrite (ascii_field_at _ 0 "room" "None") by done. cbn [result_bind].
  change (_ || _)%bool with false. change ("None" =? "None")%string with true. cbv iota. by rewrite registration_decodes.
Qed.

Lemma ingest_metadata st m frame : metadata_wf m → metadata_to_frame m = Ok frame → ingest_bootstrap_frame st frame = Ok (announce st (transfer_info m)).
Proof.
  intros Hm Hf. pose proof (metadata_decodes m Hm) as Hd. rewrite Hf in Hd. unfold ingest_bootstrap_frame.
  assert (frame !! 0%nat = Some (string_bytes (pretty (md_room m)))) as Hroom.
  { unfold metadata_to_frame in Hf. apply result_bind_Ok in Hf as ([[a b] c]&_&[= <-]). done. }
  rewrite (ascii_field_at _ 0 "room" (pretty (md_room m))) by (done || apply pretty_N_utf8). cbn [result_bind].
  assert (∀ w, Exists (λ b, is_digit b = false) (string_bytes w) → (pretty (md_room m) =? w)%string = false) as Hno by (intros w; apply pretty_no_word).
  rewrite (Hno "WATERMARK"), (Hno "STAGING_RSP"), (Hno "None") by (apply Exists_cons_hd; done). cbn [orb]. cbv iota. by rewrite Hd.
Qed.

Section TwoSides.
Context {Net : Type} `{!PdNetwork Net}.
Implicit Types p : PdDecodeBootstrapPublisher Net.

(** The values of a publisher and of a span that the messages can carry. *)
Record publishable p (sp : KvCacheTransferSpan) (lay : KvTransferLayout) : Prop := {
  pb_layout : kv_cache_layout p = Some lay ∧ 0 < source_base_addr lay < 2 ^ 64 ∧ page_size_bytes lay ≤ usize_MAX;
  pb_texts : utf8 (endpoint p) ∧ utf8 (session_id p);
  pb_port : dst_port p < 2 ^ 16;
  pb_rank : is_i32 (target_tp_rank p);
  pb_aux : ∃ z, dst_aux_index p = Some z ∧ is_i32 z;
  pb_room : span_room sp < 2 ^ 63;
  pb_pages : Forall (λ page, page < 2 ^ 31) (sp_page_indices sp);
  pb_sizes : dst_info_num p ≤ usize_MAX ∧ sp_token_offset sp ≤ usize_MAX;
}.

Lemma metadata_for_pages p sp lay : publishable p sp lay →
  metadata_for_span p sp = Ok (mkMetadata (span_room sp) (endpoint p) (dst_port p) (session_id p) (Z.of_N <$> sp_page_indices sp)
                                 (dst_aux_index p) [] (dst_info_num p) (Some (sp_token_offset sp)) false).
Proof.
  intros Hp. unfold metadata_for_span. assert (∀ f pages, Forall (λ page, page < 2 ^ 31) pages →
    collect_results (λ page, if page <? 2 ^ 31 then Ok (Z.of_N page) else Err (f page : string)) pages = Ok (Z.of_N <$> pages)) as Hc.
  { intros f pages. induction 1 as [|x l Hx _ IH]; [done|]. cbn [collect_results]. destruct (N.ltb_spec x (2 ^ 31)); [|lia].
    cbn [result_bind]. by rewrite IH. }
  rewrite Hc by apply Hp. done.
Qed.

(** C19. What a decode worker publishes for a span is what the prefill side then
    transfers to: with the two messages in, the room's layout has the worker's
    session, its memory and page size and the pages of the span, and the room
    is waiting for input as soon as all destinations it requires are known. *)
Theorem published_span_announces_layout p sp lay st : publishable p sp lay → transfer_rooms st !! span_room sp = None →
  ∃ reg m frame st1 st2,
    kv_args_registration p = Some reg ∧ metadata_for_span p sp = Ok m ∧ metadata_to_frame m = Ok frame ∧
    ingest_bootstrap_frame st (registration_to_frame reg) = Ok st1 ∧ ingest_bootstrap_frame st1 frame = Ok st2 ∧
    state_layouts_for_room st2 (span_room sp) =
      Ok [(session_id p, mkRemoteLayout [source_base_addr lay] (Z.of_N <$> sp_page_indices sp) (page_size_bytes lay))] ∧
    transfer_status_of st2 (span_room sp) =
      Some (if dst_info_num p =? 1 then if bool_decide (span_room sp ∈ aborted_rooms st) then KvPoll.Failed else KvPoll.WaitingForInput
            else KvPoll.Bootstrapping).
Proof.
  intros Hp Hfresh. pose proof (metadata_for_pages p sp lay Hp) as Hmd. destruct Hp as [(Hlay&[Hlo Hhi]&Hpage) [Hep Hse] Hport Hrank (aux&Haux&Haux32) Hroom Hpages [Hnum Hoff]].
  set (reg := mkRegistration (endpoint p) (dst_port p) (session_id p) [source_base_addr lay] [] [] (target_tp_rank p) 1 (page_size_bytes lay) [] []).
  assert (registration_wf reg) as Hreg.
  { split; cbn.
    - done.
    - done.
    - split; [apply Forall_cons_2; [exact Hhi|apply Forall_nil_2]|apply Forall_nil_2].
    - split; [done|apply Forall_nil_2].
    - done.
    - split; [done|exact Hpage].
    - split; (split; [done|apply Forall_nil_2]). }
  match type of Hmd with _ = Ok ?m => set (md := m) in * end.
  assert (metadata_wf md) as Hm.
  { split; cbn; [done|done|done| |intros z; rewrite Haux; by intros [= <-]|split; [done|apply Forall_nil_2]|done].
    apply Forall_fmap. eapply Forall_impl; [exact Hpages|]. intros page Hlt. cbn beta in Hlt. unfold compose, is_i32. lia. }
  pose proof (metadata_decodes md Hm) as Hdec. destruct (metadata_to_frame md) as [frame|e] eqn:Hframe; [|destruct Hdec as (_&Hnone&_); cbn in Hnone; congruence].
  eexists reg, md, frame, _, _. split_and!; [|done|done|by apply ingest_registration|by apply ingest_metadata| |].
  - unfold kv_args_registration. rewrite Hlay. cbn [mbind option_bind]. destruct (N.eqb_spec (source_base_addr lay) 0); [lia|done].
  - unfold state_layouts_for_room, announce. cbn [transfer_info ti_room md md_room transfer_rooms set_rooms set_kv_args]. rewrite lookup_insert_eq.
    cbn [ok_or result_bind transfers]. rewrite Hfresh. cbn [default transfers btree_insert ti_session_id md_session_id layouts_of ti_is_dummy md_is_dummy].
    change (ti_is_dummy (transfer_info md)) with false. change (ti_session_id (transfer_info md)) with (session_id p).
    change (kr_session_id reg) with (session_id p). cbv iota. cbn [decode_kv_args_table set_rooms set_kv_args]. rewrite lookup_insert_eq. done.
  - unfold transfer_status_of, announce. cbn [transfer_info ti_room md md_room transfer_rooms set_rooms set_kv_args]. rewrite lookup_insert_eq.
    rewrite Hfresh. cbn -[N.eqb bool_decide]. rewrite (N.eqb_sym 1). by destruct (dst_info_num p =? 1).
Qed.

End TwoSides.

(** ** An abort and its answer *)

(** A network on which everything arrives. *)
Class ReliableNetwork (Net : Type) `{!PdNetwork Net} `{!NetworkLog Net} : Prop := {
  connect_ok n endpoint : push_connect n endpoint = (Ok tt, (push_connect n endpoint).2);
  send_ok n endpoint m : push_send n endpoint m = (Ok tt, (push_send n endpoint m).2);
  send_arrives n endpoint m : sent (push_send n endpoint m).2 = sent n ++ [(endpoint, m)];
}.

Section Answer.
Context {Net : Type} `{!PdNetwork Net} `{!NetworkLog Net} `{!ReliableNetwork Net}.
Implicit Types p : PdDecodeBootstrapPublisher Net.

Lemma send_frame_arrives (n : Net) endpoint m : ∃ n', send_bootstrap_frame n endpoint m = (Ok tt, n') ∧ sent n' = sent n ++ [(endpoint, m)].
Proof.
  unfold send_bootstrap_frame. generalize 19%nat. intros k. cbn [send_attempts]. rewrite connect_ok, send_ok. eexists. split; [done|].
  by rewrite send_arrives, connect_sends_nothing.
Qed.

Lemma ack_drains inbox room r : room ≤ u64_MAX → rooms inbox !! room = Some r → is_drained (receive_message inbox (ack_message room)) room = true.
Proof.
  intros Hroom Hr. assert (addressed room (ack_message room) = true) as Ha.
  { apply addressed_spec. unfold message_room. change (is_aux _ || is_ack _)%bool with true. cbv iota. by apply ascii_at. }
  rewrite (receive_addressed inbox room r (mkRoom (token r) (recurrent_state r) (terminal r) true)).
  - unfold is_drained. cbn. by rewrite lookup_insert_eq.
  - done.
  - done.
  - unfold room_ingest. change (is_ack _) with true. cbv iota. unfold ingest_ack. change (len _ <? 3) with false. cbv iota.
    rewrite (ascii_at _ _ 0) by done. done.
Qed.

(** The two sides understand each other's aborts: the message by which a
    decode worker gives a room up makes the prefill service bar the room for
    good and, if no transfer is under way, answer at once, to the address the
    worker listens on, with a message that ends the worker's wait. *)
Theorem abort_is_answered p (svc : PdService Net) inbox r room :
  room < 2 ^ 63 → utf8 (endpoint p) → dst_port p < 2 ^ 16 → stopped svc = None → room ∉ active_rooms (state svc) → rooms inbox !! room = Some r →
  let svc' := serve_next svc (abort_message p room) in
  stopped svc' = None ∧ room ∈ aborted_rooms (state svc') ∧
  sent (net svc') = sent (net svc) ++ [("tcp://" +:+ endpoint p +:+ ":" +:+ pretty (dst_port p), ack_message room)] ∧
  is_drained (receive_message inbox (ack_message room)) room = true.
Proof.
  intros Hroom Hep Hport Hst Hact Hr. cbv zeta. unfold serve_next, serve_message. rewrite Hst.
  rewrite (bool_decide_eq_true_2 (head (abort_message p room) = Some (string_bytes "ABORT"))) by done. unfold serve_abort.
  rewrite (parse_room_at (abort_message p room) 1 _ room), (ascii_field_at (abort_message p room) 2 _ (endpoint p)),
    (parse_u16_at (abort_message p room) 3 _ (dst_port p)) by done. cbn [result_bind]. unfold note_abort.
  rewrite (bool_decide_eq_false_2 _ Hact).
  match goal with |- context [send_bootstrap_frame ?n ?e ?m] => destruct (send_frame_arrives n e m) as (n'&Hs&Hsent); rewrite Hs end.
  cbn [result_map_err]. cbn [stopped set_state state net set_aborts aborted_rooms] in *. split_and!; [done|set_solver|exact Hsent|].
  apply (ack_drains inbox room r); [lia|done].
Qed.

End Answer.

(** ** Witnesses *)

#[export, refine] Instance log_network_reliable : ReliableNetwork (list (string * message)) := {}.
Proof. all: done. Defined.

#[export] Instance log_network_http : HttpClient (list (string * message)) := {
  http_exchange n addr request := (Ok ("HTTP/1.1 200 OK" +:+ crlf2 +:+ "prefill"), n);
}.

Definition demo_parse_rank (body : string) : Result string PrefillRankInfo :=
  if (body =? "prefill")%string then Ok (mkRankInfo "10.0.0.1" 9001) else Err "expected value"%string.

(** A started publisher that waits for room 7; the acknowledgement is on its way. *)
Definition demo_publisher : PdDecodeBootstrapPublisher (list (string * message)) :=
  mkPublisher "10.0.0.2" 9000 "decode-0" (Some (mkTransferLayout 4096 512 0)) 0 0 (Some 0%Z) 1 ∅
    (Some (mkInbox {[7 := Room_default]} None)) {[7 := "10.0.0.1:8998"%string]} [] [[[ack_message 7]]].

Lemma given_up_room_was_released_witness :
  ∃ p', pd_cancel_receive demo_parse_rank demo_publisher 7 = (Ok tt, p') ∧ receive_targets p' !! 7 = None.
Proof.
  destruct (pd_cancel_receive demo_parse_rank demo_publisher 7) as [[[]|e] p'] eqn:Hc; [|by vm_compute in Hc].
  exists p'. split; [done|].
  destruct (given_up_room_was_released demo_parse_rank demo_publisher 7 "10.0.0.1:8998" (mkInbox {[7 := Room_default]} None) Room_default p') as (_&Ht&_);
    [reflexivity|reflexivity|reflexivity|exact Hc|exact Ht].
Defined.

Lemma published_span_announces_layout_witness :
  publishable demo_publisher (room7_span (Some 42)) (mkTransferLayout 4096 512 0) ∧
  ∃ st2, state_layouts_for_room st2 7 = Ok [("decode-0"%string, mkRemoteLayout [4096] [5%Z] 512)].
Proof.
  assert (publishable demo_publisher (room7_span (Some 42)) (mkTransferLayout 4096 512 0)) as Hp.
  { split; cbn.
    - split; [reflexivity|]. split; [split; reflexivity|apply N.leb_le; reflexivity].
    - split; reflexivity.
    - reflexivity.
    - split; [apply Z.leb_le|apply Z.ltb_lt]; reflexivity.
    - exists 0%Z. split; [reflexivity|]. split; [apply Z.leb_le|apply Z.ltb_lt]; reflexivity.
    - reflexivity.
    - apply Forall_cons_2; [reflexivity|apply Forall_nil_2].
    - split; apply N.leb_le; reflexivity. }
  split; [exact Hp|].
  destruct (published_span_announces_layout demo_publisher (room7_span (Some 42)) (mkTransferLayout 4096 512 0) PrefillBootstrapState_default Hp)
    as (reg&m&frame&st1&st2&_&_&_&_&_&Hl&_); [reflexivity|]. by exists st2.
Defined.

Lemma abort_is_answered_witness :
  let svc' := serve_next (service pd_fresh) (abort_message demo_publisher 7) in
  net svc' = [("tcp://10.0.0.2:9000"%string, ack_message 7)] ∧ stopped svc' = None.
Proof.
  destruct (abort_is_answered demo_publisher (service pd_fresh) (mkInbox {[7 := Room_default]} None) Room_default 7) as (Hst&_&Hsent&_);
    [reflexivity|reflexivity|reflexivity|reflexivity|apply not_elem_of_empty|reflexivity|]. split; [exact Hsent|exact Hst].
Defined.
