(* ===== verification/ServingMetrics.v ===== *)
(** * Serving metrics ([crates/sglang-srt/src/serving_metrics.rs])

    The counters both servers keep about requests, shared by all of them and
    moved by atomic additions.  A request has an observation: it counts the request
    when it starts, the first output and every completion, and the end, which is
    counted once, by [finish] or else when the observation is dropped.  Operations
    are given as the additions they make, so that the additions of concurrent
    requests can be interleaved.  The rendering as text is not modelled: it prints
    64-bit floats. *)

From S2P Require Import Prelude Types Tokenizer RouterProtocol.
#[local] Open Scope N_scope.

(** The fields of [ServingMetrics], each an [AtomicU64]. *)
(** [sglang-srt/src/serving_metrics.rs:8-19] ServingMetrics (fields) *)
Inductive Counter : Type :=
  | requests_total
  | requests_failed_total
  | requests_in_flight
  | prompt_tokens_total
  | generation_tokens_total
  | cached_tokens_total
  | time_to_first_token_micros_total
  | time_to_first_token_count
  | request_duration_micros_total
  | request_duration_count.

#[export] Instance Counter_eq_dec : EqDecision Counter.
Proof. solve_decision. Defined.

(** [sglang-srt/src/serving_metrics.rs:7-19] ServingMetrics *)
Definition ServingMetrics : Type := Counter → N.
Definition ServingMetrics_default : ServingMetrics := λ _, 0.

(** An atomic addition of an amount to a counter, [fetch_add] or [fetch_sub]. *)
Inductive Update : Type :=
  | fetch_add (c : Counter) (n : N)
  | fetch_sub (c : Counter) (n : N).

Definition u64_modulus : N := 2 ^ 64.

(** Both wrap around. *)
Definition update (u : Update) (m : ServingMetrics) : ServingMetrics := λ c,
  match u with
  | fetch_add c' n => if decide (c = c') then (m c + n) mod u64_modulus else m c
  | fetch_sub c' n => if decide (c = c') then (m c + (u64_modulus - n mod u64_modulus)) mod u64_modulus else m c
  end.

Definition updates (us : list Update) (m : ServingMetrics) : ServingMetrics := foldl (λ m u, update u m) m us.

(** [sglang-srt/src/serving_metrics.rs:56-61] RequestObservation *)
Record RequestObservation : Type := mkRequestObservation {
  first_output_observed : bool;
  observation_finished : bool;
}.

(** [elapsed] is the time since the start, in microseconds. *)
(** [sglang-srt/src/serving_metrics.rs:159-161] elapsed_micros *)
Definition elapsed_micros (elapsed : N) : N := N.min (u64_modulus - 1) elapsed.

(** [sglang-srt/src/serving_metrics.rs:64-73] RequestObservation::new *)
Definition observation_new : list Update * RequestObservation :=
  ([fetch_add requests_total 1; fetch_add requests_in_flight 1], mkRequestObservation false false).

(** An [i32] that is negative counts for nothing. *)
Definition tokens_of (n : Z) : N := Z.to_N (Z.max n 0).

(** [sglang-srt/src/serving_metrics.rs:75-96] RequestObservation::observe *)
Definition observe (o : RequestObservation) (elapsed : N) (r : RouterGenerateResponse) : list Update * RequestObservation :=
  ((if first_output_observed o then []
    else [fetch_add time_to_first_token_micros_total (elapsed_micros elapsed); fetch_add time_to_first_token_count 1]) ++
   match body r with
   | Completed c =>
       [fetch_add prompt_tokens_total (tokens_of (complete_prompt_tokens c));
        fetch_add generation_tokens_total (tokens_of (complete_completion_tokens c));
        fetch_add cached_tokens_total (tokens_of (complete_cached_tokens c))]
   | _ => []
   end,
   mkRequestObservation true (observation_finished o)).

(** [sglang-srt/src/serving_metrics.rs:98-117] RequestObservation::finish *)
Definition finish (o : RequestObservation) (elapsed : N) (success : bool) : list Update * RequestObservation :=
  if observation_finished o then ([], o)
  else
    (fetch_sub requests_in_flight 1 ::
     (if success then [] else [fetch_add requests_failed_total 1]) ++
     [fetch_add request_duration_micros_total (elapsed_micros elapsed); fetch_add request_duration_count 1],
     mkRequestObservation (first_output_observed o) true).

(** [sglang-srt/src/serving_metrics.rs:120-124] RequestObservation::drop *)
Definition drop_observation (o : RequestObservation) (elapsed : N) : list Update * RequestObservation := finish o elapsed false.

(** The times are those at which the responses are seen. *)
(** [sglang-srt/src/serving_metrics.rs:144-151] observe_responses *)
Fixpoint observe_responses (o : RequestObservation) (rs : list (N * RouterGenerateResponse)) : list Update * RequestObservation :=
  match rs with
  | [] => ([], o)
  | (elapsed, r) :: rs =>
      let '(us, o) := observe o elapsed r in
      let '(us', o) := observe_responses o rs in
      (us ++ us', o)
  end.

(** [sglang-srt/src/serving_metrics.rs:126-133] observe_response *)
Definition observe_response (o : option RequestObservation) (elapsed : N) (r : RouterGenerateResponse) : list Update * option RequestObservation :=
  match o with Some o => let '(us, o) := observe o elapsed r in (us, Some o) | None => ([], None) end.

(** [sglang-srt/src/serving_metrics.rs:135-142] observe_optional_responses *)
Fixpoint observe_optional_responses (o : option RequestObservation) (rs : list (N * RouterGenerateResponse))
    : list Update * option RequestObservation :=
  match rs with
  | [] => ([], o)
  | (elapsed, r) :: rs =>
      let '(us, o) := observe_response o elapsed r in
      let '(us', o) := observe_optional_responses o rs in
      (us ++ us', o)
  end.

(** [sglang-srt/src/serving_metrics.rs:153-157] finish_observation *)
Definition finish_observation (o : option RequestObservation) (elapsed : N) (success : bool) : list Update * option RequestObservation :=
  match o with Some o => let '(us, o) := finish o elapsed success in (us, Some o) | None => ([], None) end.

(** ** A request's whole life *)

(** What a handler does with its observation: it starts it, observes the
    responses, and drops it, having said how the request ended or not. *)
Record Lifetime : Type := mkLifetime {
  life_responses : list (N * RouterGenerateResponse);
  life_outcome : option bool;
  life_end : N;
}.

Definition lifetime_updates (l : Lifetime) : list Update :=
  let '(started, o) := observation_new in
  let '(seen, o) := observe_responses o (life_responses l) in
  let '(ended, o) := match life_outcome l with Some success => finish o (life_end l) success | None => ([], o) end in
  let '(dropped, _) := drop_observation o (life_end l) in
  started ++ seen ++ ended ++ dropped.

Definition succeeded (l : Lifetime) : bool := bool_decide (life_outcome l = Some true).

(** ** Interleavings *)

(** The sums of what is added to a counter and of what is taken off it. *)
Definition added (c : Counter) (us : list Update) : N :=
  foldr (λ u n, match u with fetch_add c' k => if decide (c = c') then k + n else n | fetch_sub _ _ => n end) 0 us.
Definition taken (c : Counter) (us : list Update) : N :=
  foldr (λ u n, match u with fetch_sub c' k => if decide (c = c') then k + n else n | fetch_add _ _ => n end) 0 us.

Lemma added_app c us vs : added c (us ++ vs) = added c us + added c vs.
Proof. unfold added. induction us as [|[d n|d n] us IH]; cbn; [done| |done]. case_decide; lia. Qed.
Lemma taken_app c us vs : taken c (us ++ vs) = taken c us + taken c vs.
Proof. unfold taken. induction us as [|[d n|d n] us IH]; cbn; [done|done|]. case_decide; lia. Qed.

#[export] Instance added_perm c : Proper ((≡ₚ) ==> (=)) (added c).
Proof.
  intros us vs H. unfold added, taken. induction H as [|u us vs H IH|u v us|us vs ws H1 IH1 H2 IH2]; cbn; [done| | |congruence].
  - destruct u; [case_decide|]; lia.
  - destruct u, v; repeat case_decide; lia.
Qed.
#[export] Instance taken_perm c : Proper ((≡ₚ) ==> (=)) (taken c).
Proof.
  intros us vs H. unfold added, taken. induction H as [|u us vs H IH|u v us|us vs ws H1 IH1 H2 IH2]; cbn; [done| | |congruence].
  - destruct u; [|case_decide]; lia.
  - destruct u, v; repeat case_decide; lia.
Qed.

(** The value of a counter, in wrapping arithmetic: what was added less what was taken. *)
Lemma updates_value us : ∀ m c, m c < u64_modulus →
  (updates us m c + taken c us) mod u64_modulus = (m c + added c us) mod u64_modulus ∧ updates us m c < u64_modulus.
Proof.
  induction us as [|u us IH]; intros m c Hm; cbn [updates foldl added taken foldr]; [by rewrite !N.add_0_r|].
  fold (updates us (update u m)) (added c us) (taken c us).
  assert (update u m c < u64_modulus) as Hu.
  { destruct u; cbn; case_decide; try done; by apply N.mod_lt. }
  destruct (IH (update u m) c Hu) as [Heq Hlt]. split; [|exact Hlt].
  destruct u as [d n|d n]; cbn [update] in *; case_decide; try exact Heq.
  - rewrite N.Div0.add_mod_idemp_l in Heq. rewrite Heq. f_equal. lia.
  - rewrite N.Div0.add_mod_idemp_l in Heq.
    replace (updates us (update (fetch_sub d n) m) c + (n + taken c us)) with (updates us (update (fetch_sub d n) m) c + taken c us + n) by lia.
    rewrite <- N.Div0.add_mod_idemp_l, Heq, N.Div0.add_mod_idemp_l.
    pose proof (N.mod_lt n u64_modulus ltac:(done)) as Hn.
    pose proof (N.div_mod n u64_modulus ltac:(done)) as Hd.
    replace (m c + (u64_modulus - n mod u64_modulus) + added c us + n) with (m c + added c us + (n / u64_modulus + 1) * u64_modulus) by nia.
    by rewrite N.Div0.mod_add.
Qed.

Lemma counter_value us c k : added c us = taken c us + k → updates us ServingMetrics_default c = k mod u64_modulus.
Proof.
  intros Hk. destruct (updates_value us ServingMetrics_default c ltac:(done)) as [Heq Hlt].
  rewrite Hk in Heq. unfold ServingMetrics_default in Heq at 2.
  rewrite <- (N.mod_small _ _ Hlt).
  pose proof (N.div_mod (updates us ServingMetrics_default c + taken c us) u64_modulus ltac:(done)) as H1.
  pose proof (N.div_mod (0 + (taken c us + k)) u64_modulus ltac:(done)) as H2. rewrite Heq in H1.
  set (v := updates us ServingMetrics_default c) in *. set (q1 := (v + taken c us) / u64_modulus) in *.
  set (q2 := (0 + (taken c us + k)) / u64_modulus) in *. set (r := (0 + (taken c us + k)) mod u64_modulus) in *.
  assert (v + u64_modulus * q2 = k + u64_modulus * q1) as Hv by lia.
  rewrite <- (N.Div0.mod_add v q2 u64_modulus), <- (N.Div0.mod_add k q1 u64_modulus). f_equal. lia.
Qed.

(** The tokens of the completions among the responses. *)
Definition completed_tokens (field : RouterGenerateComplete → Z) (rs : list (N * RouterGenerateResponse)) : N :=
  foldr (λ r n, match body r.2 with Completed c => tokens_of (field c) + n | _ => n end) 0 rs.

(** The additions while a request runs. *)
Definition running_updates (rs : list (N * RouterGenerateResponse)) : list Update :=
  observation_new.1 ++ (observe_responses observation_new.2 rs).1.

(** What one request leaves in the counters: the sums for the part that has run. *)
Definition net (c : Counter) (rs : list (N * RouterGenerateResponse)) : N :=
  match c with
  | requests_total | requests_in_flight => 1
  | prompt_tokens_total => completed_tokens complete_prompt_tokens rs
  | generation_tokens_total => completed_tokens complete_completion_tokens rs
  | cached_tokens_total => completed_tokens complete_cached_tokens rs
  | time_to_first_token_count => match rs with [] => 0 | _ => 1 end
  | time_to_first_token_micros_total => match rs with [] => 0 | (elapsed, _) :: _ => elapsed_micros elapsed end
  | requests_failed_total | request_duration_micros_total | request_duration_count => 0
  end.

Lemma observe_responses_finished rs : ∀ o, observation_finished (observe_responses o rs).2 = observation_finished o.
Proof.
  induction rs as [|[t r] rs IH]; intros o; [done|]. cbn [observe_responses].
  destruct (observe o t r) as [us o'] eqn:Ho. specialize (IH o').
  destruct (observe_responses o' rs) as [us' o'']. cbn in *. rewrite IH. unfold observe in Ho. by injection Ho as <- <-.
Qed.

(** After the first output the observation only counts tokens. *)
Lemma observe_responses_seen rs : ∀ o, first_output_observed o = true → ∀ c,
  taken c (observe_responses o rs).1 = 0 ∧
  added c (observe_responses o rs).1 =
    match c with
    | prompt_tokens_total | generation_tokens_total | cached_tokens_total => net c rs
    | _ => 0
    end.
Proof.
  induction rs as [|[t r] rs IH]; intros o Ho c; [by destruct c|]. cbn [observe_responses]. unfold observe. rewrite Ho. cbn [app].
  specialize (IH (mkRequestObservation true (observation_finished o)) eq_refl c).
  destruct (observe_responses _ rs) as [us o']. cbn [fst] in IH. destruct IH as [IH1 IH2].
  cbn [fst snd]. rewrite taken_app, added_app, IH1, IH2. unfold net, completed_tokens. cbn [foldr snd].
  destruct (body r); destruct c; cbn; repeat case_decide; split; done || lia.
Qed.

Lemma running_net rs c : taken c (running_updates rs) = 0 ∧ added c (running_updates rs) = net c rs.
Proof.
  unfold running_updates. rewrite taken_app, added_app.
  destruct rs as [|[t r] rs]; [by destruct c|]. cbn [observation_new fst snd observe_responses]. unfold observe. cbn [first_output_observed observation_finished].
  destruct (observe_responses_seen rs (mkRequestObservation true false) eq_refl c) as [H1 H2].
  destruct (observe_responses _ rs) as [us o']. cbn [fst] in *.
  rewrite !taken_app, !added_app, H1, H2. unfold net, completed_tokens. cbn [foldr snd].
  destruct (body r); destruct c; cbn; repeat case_decide; split; done || lia.
Qed.

(** The end of a request is counted once, whether it is said or comes with the drop. *)
Definition ended_updates (l : Lifetime) : list Update :=
  fetch_sub requests_in_flight 1 ::
  (if succeeded l then [] else [fetch_add requests_failed_total 1]) ++
  [fetch_add request_duration_micros_total (elapsed_micros (life_end l)); fetch_add request_duration_count 1].

Lemma lifetime_split l : lifetime_updates l = running_updates (life_responses l) ++ ended_updates l.
Proof.
  unfold lifetime_updates, running_updates, ended_updates, succeeded. cbn [observation_new fst snd].
  pose proof (observe_responses_finished (life_responses l) (mkRequestObservation false false)) as Hf.
  destruct (observe_responses _ (life_responses l)) as [seen o]. cbn [fst snd] in *.
  unfold drop_observation, finish.
  destruct (life_outcome l) as [[]|]; rewrite Hf; cbn; by rewrite ?app_nil_r.
Qed.

Definition sum_of {A} (f : A → N) (l : list A) : N := foldr (λ x n, f x + n) 0 l.

Lemma taken_concat c (ls : list (list Update)) : taken c (concat ls) = sum_of (taken c) ls.
Proof. induction ls as [|us ls IH]; [done|]. cbn [concat sum_of foldr]. by rewrite taken_app, IH. Qed.
Lemma added_concat c (ls : list (list Update)) : added c (concat ls) = sum_of (added c) ls.
Proof. induction ls as [|us ls IH]; [done|]. cbn [concat sum_of foldr]. by rewrite added_app, IH. Qed.

Lemma sum_of_fmap {A B} (f : B → N) (g : A → B) l : sum_of f (g <$> l) = sum_of (f ∘ g) l.
Proof. induction l as [|x l IH]; [done|]. cbn. unfold sum_of in IH. by rewrite IH. Qed.
Lemma sum_of_add {A} (f g : A → N) l : sum_of (λ x, f x + g x) l = sum_of f l + sum_of g l.
Proof. unfold sum_of. induction l as [|x l IH]; [done|]. cbn. rewrite IH. lia. Qed.
Lemma sum_of_ext {A} (f g : A → N) l : (∀ x, f x = g x) → sum_of f l = sum_of g l.
Proof. intros H. unfold sum_of. induction l as [|x l IH]; [done|]. cbn. by rewrite IH, H. Qed.
Lemma sum_of_const {A} k (l : list A) : sum_of (λ _, k) l = k * len l.
Proof. unfold sum_of. induction l as [|x l IH]; cbn [foldr]; [symmetry; apply N.mul_0_r|]. rewrite IH, len_cons. lia. Qed.

(** The counters once [ended] requests are over while [running] ones are not, these
    having shown the given responses. *)
Definition account (ended : list Lifetime) (running : list (list (N * RouterGenerateResponse))) (c : Counter) : N :=
  match c with
  | requests_in_flight => len running
  | requests_failed_total => len (filter (λ l, succeeded l = false) ended)
  | request_duration_count => len ended
  | request_duration_micros_total => sum_of (λ l, elapsed_micros (life_end l)) ended
  | c => sum_of (λ l, net c (life_responses l)) ended + sum_of (net c) running
  end.

Lemma failed_sum ended : sum_of (λ l, if succeeded l then 0 else 1) ended = len (filter (λ l, succeeded l = false) ended).
Proof.
  unfold sum_of. induction ended as [|l ls IH]; [done|]. cbn [foldr]. rewrite IH, filter_cons.
  destruct (succeeded l); case_decide; try done. rewrite len_cons. lia.
Qed.

Lemma metrics_accounted ended running us c :
  us ≡ₚ concat ((lifetime_updates <$> ended) ++ (running_updates <$> running)) →
  updates us ServingMetrics_default c = account ended running c mod u64_modulus.
Proof.
  intros Hus. apply counter_value. rewrite Hus, concat_app, added_app, taken_app, !added_concat, !taken_concat, !sum_of_fmap.
  rewrite (sum_of_ext (taken c ∘ running_updates) (λ _, 0)) by (intros rs; apply running_net).
  rewrite (sum_of_ext (added c ∘ running_updates) (net c)) by (intros rs; apply running_net).
  rewrite (sum_of_ext (added c ∘ lifetime_updates) (λ l, net c (life_responses l) + added c (ended_updates l)))
    by (intros l; unfold compose; rewrite lifetime_split, added_app; by destruct (running_net (life_responses l) c) as [_ ->]).
  rewrite (sum_of_ext (taken c ∘ lifetime_updates) (λ l, taken c (ended_updates l)))
    by (intros l; unfold compose; rewrite lifetime_split, taken_app; by destruct (running_net (life_responses l) c) as [-> _]).
  rewrite sum_of_add, sum_of_const.
  rewrite (sum_of_ext (λ l, taken c (ended_updates l)) (λ _, match c with requests_in_flight => 1 | _ => 0 end))
    by (intros l; unfold ended_updates; destruct (succeeded l), c; cbn; repeat case_decide; done).
  rewrite (sum_of_ext (λ l, added c (ended_updates l))
    (λ l, match c with requests_failed_total => if succeeded l then 0 else 1
                     | request_duration_micros_total => elapsed_micros (life_end l) | request_duration_count => 1 | _ => 0 end))
    by (intros l; unfold ended_updates; destruct (succeeded l), c; cbn; repeat case_decide; done || lia).
  destruct c; unfold account, net; rewrite ?failed_sum, ?sum_of_const; lia.
Qed.

(** C11. The counters are the account of the requests, whatever the order in which the
    atomic additions of concurrent requests interleave: every request that started
    is counted, those in flight are exactly those that have not ended, a request
    that ended without success, or whose observation was only dropped, counts as
    failed, and tokens are those of the completions.  Each up to the wrap of its
    64 bits. *)
Theorem metrics_account ended running us c :
  us ≡ₚ concat ((lifetime_updates <$> ended) ++ (running_updates <$> running)) →
  updates us ServingMetrics_default c = account ended running c mod u64_modulus.
Proof. apply metrics_accounted. Qed.

Definition demo_completion : RouterGenerateResponse := mkResponse "a" (Completed (mkComplete [7; 8] "hi" "stop" 3 2 1 0)).
Definition demo_ended : list Lifetime := [mkLifetime [(5, demo_completion)] (Some true) 9; mkLifetime [] None 2].

Lemma metrics_account_witness :
  updates (reverse (concat ((lifetime_updates <$> demo_ended) ++ (running_updates <$> [[]])))) ServingMetrics_default requests_in_flight
  = account demo_ended [[]] requests_in_flight mod u64_modulus.
Proof. apply metrics_account. apply reverse_Permutation. Defined.

Example metrics_account_values : account demo_ended [[]] <$> [requests_total; requests_in_flight; requests_failed_total; generation_tokens_total] = [3; 1; 1; 2].
Proof. reflexivity. Qed.
