(* ===== verification/JsonValue.v ===== *)
(** * JSON values as the servers read and build them

    [serde_json::Value] is [Safetensors.Json].  Here are the accessors the servers
    use, insertion into an object, the floats, and the objects the [json!] macro
    writes.  Whether a map of [serde_json] keeps insertion order or sorts its keys
    depends on a feature other crates may switch on; nothing here depends on it:
    lookups do not see the order, and the serializer is a parameter. *)

From Stdlib Require Import SpecFloat.
From S2P Require Import Prelude Float32 Bytes Text Safetensors.
#[local] Open Scope N_scope.

(** ** Accessors *)

(** A number is kept as an unsigned integer where it is one, as a negative integer
    where it fits in 64 bits, and as a float otherwise. *)
Definition i64_MAX : N := 2 ^ 63 - 1.
Definition as_i64 (v : Json) : option Z :=
  match v with
  | JUint n => if n <=? i64_MAX then Some (Z.of_N n) else None
  | JInt z => Some z
  | _ => None
  end.
Definition as_bool (v : Json) : option bool := match v with JBool b => Some b | _ => None end.
Definition is_null (v : Json) : bool := match v with JNull => true | _ => false end.
Definition is_object (v : Json) : bool := match v with JObject _ => true | _ => false end.
Definition is_array (v : Json) : bool := match v with JArray _ => true | _ => false end.
Definition is_string (v : Json) : bool := match v with JString _ => true | _ => false end.
Definition is_u64 (v : Json) : bool := match v with JUint _ => true | _ => false end.

(** [Value::get(key)] followed by [and_then(Value::as_str)] and the like. *)
Definition get_str (key : string) (v : Json) : option string := json_get key v ≫= as_str.
Definition get_bool (key : string) (v : Json) : option bool := json_get key v ≫= as_bool.
Definition has (key : string) (v : Json) : bool := bool_decide (is_Some (json_get key v)).

(** ** Numbers *)

(** [json!] of an [i32] or an [i64]. *)
Definition JNumber (z : Z) : Json := if (z <? 0)%Z then JInt z else JUint (Z.to_N z).

Definition f64 : Type := spec_float.
Definition f64_prec : Z := 53.
Definition f64_emax : Z := 1024.

(** [f64::from_bits]; the payload of a NaN is not kept. *)
Definition f64_from_bits (bits : N) : f64 :=
  let sign := N.testbit bits 63 in
  let exponent := N.land (N.shiftr bits 52) 2047 in
  let mantissa := N.land bits (2 ^ 52 - 1) in
  if exponent =? 2047 then (if mantissa =? 0 then S754_infinity sign else S754_nan)
  else if exponent =? 0
  then match mantissa with 0 => S754_zero sign | Npos m => S754_finite sign m (-1074) end
  else match 2 ^ 52 + mantissa with 0 => S754_nan | Npos m => S754_finite sign m (Z.of_N exponent - 1075) end.

(** [x as f64] for integers, [x as f32] for an [f64]. *)
Definition f64_of_Z (z : Z) : f64 := binary_normalize f64_prec f64_emax z 0 false.
Definition f32_of_f64 (x : f64) : f32 :=
  match x with
  | S754_finite s m e => binary_normalize f32_prec f32_emax (if s then Zneg m else Zpos m) e s
  | x => x
  end.

(** [Value::as_f64] *)
Definition as_f64 (v : Json) : option f64 :=
  match v with
  | JUint n => Some (f64_of_Z (Z.of_N n))
  | JInt z => Some (f64_of_Z z)
  | JFloat bits => Some (f64_from_bits bits)
  | _ => None
  end.

(** [f64::to_bits] of a finite float. *)
Definition f64_to_bits (x : f64) : N :=
  match x with
  | S754_finite s m e =>
      (if s then 2 ^ 63 else 0) + (if N.pos m <? 2 ^ 52 then N.pos m else Z.to_N (e + 1075) * 2 ^ 52 + (N.pos m - 2 ^ 52))
  | S754_zero s => if s then 2 ^ 63 else 0
  | _ => 0
  end.

(** [Value::from] of a float: [null] if it is not finite. *)
Definition JDouble (x : f64) : Json := match x with S754_finite _ _ _ | S754_zero _ => JFloat (f64_to_bits x) | _ => JNull end.

(** [x as f64] for an [f32]. *)
Definition f64_of_f32 (x : f32) : f64 :=
  match x with
  | S754_finite s m e => binary_normalize f64_prec f64_emax (if s then Zneg m else Zpos m) e s
  | x => x
  end.

(** ** Objects *)

(** [Map::insert]: the entry under the key is replaced, or one is added. *)
Fixpoint object_insert (key : string) (v : Json) (entries : list (string * Json)) : list (string * Json) :=
  match entries with
  | [] => [(key, v)]
  | (k, w) :: entries => if (k =? key)%string then (k, v) :: entries else (k, w) :: object_insert key v entries
  end.

Lemma field_insert key v entries : field key (object_insert key v entries) = Some v.
Proof.
  induction entries as [|[k w] entries IH]; cbn; [by rewrite String.eqb_refl|].
  destruct (k =? key)%string eqn:Hk; cbn; by rewrite Hk.
Qed.

Lemma field_insert_ne key key' v entries : key ≠ key' → field key' (object_insert key v entries) = field key' entries.
Proof.
  intros Hne. induction entries as [|[k w] entries IH]; cbn; [by destruct (String.eqb_spec key key')|].
  destruct (String.eqb_spec k key) as [->|]; cbn; [|by rewrite IH].
  by destruct (String.eqb_spec key key').
Qed.

Lemma object_insert_id key v entries : field key entries = Some v → object_insert key v entries = entries.
Proof.
  induction entries as [|[k w] entries IH]; cbn; [done|].
  destruct (String.eqb_spec k key) as [->|]; [by intros [= ->]|]. intros H. by rewrite IH.
Qed.

Lemma object_insert_twice key v w entries : object_insert key v (object_insert key w entries) = object_insert key v entries.
Proof.
  induction entries as [|[k u] entries IH]; cbn; [by rewrite String.eqb_refl|].
  destruct (k =? key)%string eqn:Hk; cbn; rewrite Hk; [done|by rewrite IH].
Qed.

(** The value of every entry under a key passed through a function of key and value. *)
Definition map_entries (f : string → Json → Json) (entries : list (string * Json)) : list (string * Json) :=
  (λ e, (e.1, f e.1 e.2)) <$> entries.

Lemma field_map f key entries : field key (map_entries f entries) = f key <$> field key entries.
Proof.
  induction entries as [|[k w] entries IH]; [done|]. cbn. destruct (String.eqb_spec k key) as [->|]; [done|]. exact IH.
Qed.

(** What [json!] makes of strings and lists, and of an [Option] ([null] for [None]). *)
Definition JStrings (l : list string) : Json := JArray (JString <$> l).
Definition JUints (l : list N) : Json := JArray (JUint <$> l).

Example numbers_as_serde_has_them :
  as_f64 (JFloat 4609434218613702656) = Some (S754_finite false 6755399441055744 (-52)) ∧
  (f32_of_f64 <$> as_f64 (JFloat 4609434218613702656)) = Some (f32_div (f32_of_usize 3) f32_two) ∧
  as_i64 (JUint (2 ^ 63)) = None ∧ as_i64 (JInt (-4)) = Some (-4)%Z ∧ JNumber (-4) = JInt (-4) ∧ JNumber 4 = JUint 4.
Proof. by vm_compute. Qed.

Example float_bits :
  (f64_to_bits ∘ f64_from_bits <$> [4609434218613702656; 1; 2 ^ 63 + 4607182418800017408; 2 ^ 63; 0]) =
  [4609434218613702656; 1; 2 ^ 63 + 4607182418800017408; 2 ^ 63; 0] ∧
  f64_to_bits (f64_of_f32 f32_1_1) = 4607632778870128640.
Proof. by vm_compute. Qed.
