(* ===== verification/HttpPayload.v ===== *)
(** * Request bodies of the HTTP server ([crates/sglang-srt/src/http.rs], translation)

    A body is JSON.  The handlers turn it into the requests of the router protocol:
    one request, or a batch when a field that carries the input is an array.
    Fields of a batch may be given once for all requests or as one array entry per
    request.  Errors are messages, as in the code; the header
    [x-data-parallel-rank] arrives as what [HeaderMap::get] and [to_str] give.  The
    handlers that call the runtime are in [HttpService], what they answer in
    [HttpReplies]. *)

From stdpp Require Import pretty.
From S2P Require Import Prelude Float32 Text Tokenizer RouterProtocol Safetensors JsonValue.
#[local] Open Scope N_scope.

(** ** Reading fields *)

Definition i32_try_from {E} (e : E) (z : Z) : Result E Z :=
  if ((- 2 ^ 31 <=? z) && (z <? 2 ^ 31))%Z then Ok z else Err e.
Definition u32_try_from {E} (e : E) (n : N) : Result E N := if n <? 2 ^ 32 then Ok n else Err e.
Definition u16_try_from {E} (e : E) (n : N) : Result E N := if n <? 2 ^ 16 then Ok n else Err e.

(** [sglang-srt/src/http.rs:3871-3881] optional_i32 *)
Definition optional_i32 (value : Json) (field : string) : Result string (option Z) :=
  match json_get field value with
  | None => Ok None
  | Some raw =>
      let? raw := ok_or (as_i64 raw) (field +:+ " must be an integer") in
      let? raw := i32_try_from (field +:+ " is too large for i32") raw in
      Ok (Some raw)
  end.

(** [sglang-srt/src/http.rs:3883-3890] optional_f32 *)
Definition optional_f32 (value : Json) (field : string) : Result string (option f32) :=
  match json_get field value with
  | None => Ok None
  | Some raw => let? raw := ok_or (as_f64 raw) (field +:+ " must be a number") in Ok (Some (f32_of_f64 raw))
  end.

(** [sglang-srt/src/http.rs:3892-3899] optional_bool *)
Definition optional_bool (value : Json) (field : string) : Result string (option bool) :=
  match json_get field value with
  | None => Ok None
  | Some raw => let? raw := ok_or (as_bool raw) (field +:+ " must be a boolean") in Ok (Some raw)
  end.

(** [sglang-srt/src/http.rs:3901-3908] optional_string *)
Definition optional_string (value : Json) (field : string) : Result string (option string) :=
  match json_get field value with
  | None => Ok None
  | Some raw => let? raw := ok_or (as_str raw) (field +:+ " must be a string") in Ok (Some raw)
  end.

(** [sglang-srt/src/http.rs:3910-3927] optional_i32_array *)
Definition optional_i32_array (value : Json) (field : string) : Result string (option (list Z)) :=
  match json_get field value with
  | None => Ok None
  | Some raw =>
      let? raw := ok_or (as_array raw) (field +:+ " must be an integer array") in
      let? values := try_all (λ value,
          let? value := ok_or (as_i64 value) (field +:+ " must be an integer array") in
          i32_try_from (field +:+ " contains an integer too large for i32") value) raw in
      Ok (Some values)
  end.

(** [sglang-srt/src/http.rs:3741-3746] required_string *)
Definition required_string (value : Json) (field : string) : Result string string :=
  ok_or (get_str field value) (field +:+ " must be a string").

(** [sglang-srt/src/http.rs:3786-3798] required_bootstrap_room_value *)
Definition required_bootstrap_room_value (field : string) (value : Json) : Result string N :=
  let? raw := ok_or (as_u64 value) (field +:+ " must be an unsigned integer") in
  if i64_MAX <? raw then Err (field +:+ " must fit in signed 63-bit range") else Ok raw.

(** [sglang-srt/src/http.rs:3779-3784] required_bootstrap_room *)
Definition required_bootstrap_room (value : Json) (field : string) : Result string N :=
  let? value := ok_or (json_get field value) (field +:+ " must be an unsigned integer") in
  required_bootstrap_room_value field value.

(** [sglang-srt/src/http.rs:3837-3842] required_u16_value *)
Definition required_u16_value (field : string) (value : Json) : Result string N :=
  let? raw := ok_or (as_u64 value) (field +:+ " must be an unsigned integer") in
  u16_try_from (field +:+ " is too large for u16") raw.

(** [sglang-srt/src/http.rs:3830-3835] required_u16 *)
Definition required_u16 (value : Json) (field : string) : Result string N :=
  let? value := ok_or (json_get field value) (field +:+ " must be an unsigned integer") in
  required_u16_value field value.

(** ** Fields of a batch *)

(** [vec![x; n]] *)
Definition repeated {A} (batch_size : N) (x : A) : list A := replicate (N.to_nat batch_size) x.

Definition length_mismatch (field : string) (values : list Json) (batch_size : N) : string :=
  field +:+ " length " +:+ pretty (len values) +:+ " does not match batch size " +:+ pretty batch_size.

(** [sglang-srt/src/http.rs:3281-3313] optional_string_values *)
Definition optional_string_values (payload : Json) (field : string) (batch_size : N) : Result string (list string) :=
  match json_get field payload with
  | None => Ok (repeated batch_size "")
  | Some value =>
      match as_str value with
      | Some text => Ok (repeated batch_size text)
      | None =>
          let? values := ok_or (as_array value) (field +:+ " must be a string or array of strings") in
          if len values =? batch_size
          then try_all (λ value, ok_or (as_str value) (field +:+ " entries must be strings")) values
          else Err (length_mismatch field values batch_size)
      end
  end.

(** [sglang-srt/src/http.rs:3315-3348] optional_i32_values *)
Definition optional_i32_values (payload : Json) (field : string) (batch_size : N) : Result string (list Z) :=
  match json_get field payload with
  | None => Ok (repeated batch_size 0%Z)
  | Some value =>
      match as_i64 value with
      | Some raw => let? value := i32_try_from (field +:+ " is out of i32 range") raw in Ok (repeated batch_size value)
      | None =>
          let? values := ok_or (as_array value) (field +:+ " must be an integer or array of integers") in
          if len values =? batch_size
          then try_all (λ value,
                 let? raw := ok_or (as_i64 value) (field +:+ " entries must be integers") in
                 i32_try_from (field +:+ " entry is out of i32 range") raw) values
          else Err (length_mismatch field values batch_size)
      end
  end.

(** [sglang-srt/src/http.rs:3748-3777] required_string_values *)
Definition required_string_values (value : Json) (field : string) (batch_size : N) : Result string (list string) :=
  let? value := ok_or (json_get field value) (field +:+ " is required") in
  match as_str value with
  | Some text => Ok (repeated batch_size text)
  | None =>
      let? values := ok_or (as_array value) (field +:+ " must be a string or array of strings") in
      if len values =? batch_size
      then try_all (λ value, ok_or (as_str value) (field +:+ " entries must be strings")) values
      else Err (length_mismatch field values batch_size)
  end.

(** What the two lists of unsigned numbers share; [read] reads one number. *)
Definition required_number_values (read : Json → Result string N) (value : Json) (field : string) (batch_size : N)
    : Result string (list N) :=
  let? value := ok_or (json_get field value) (field +:+ " is required") in
  if is_u64 value then let? n := read value in Ok (repeated batch_size n)
  else
    let? values := ok_or (as_array value) (field +:+ " must be an unsigned integer or array") in
    if len values =? batch_size then try_all read values else Err (length_mismatch field values batch_size).

(** [sglang-srt/src/http.rs:3800-3828] required_bootstrap_room_values *)
Definition required_bootstrap_room_values (value : Json) (field : string) (batch_size : N) : Result string (list N) :=
  required_number_values (required_bootstrap_room_value field) value field batch_size.

(** [sglang-srt/src/http.rs:3844-3869] required_u16_values *)
Definition required_u16_values (value : Json) (field : string) (batch_size : N) : Result string (list N) :=
  required_number_values (required_u16_value field) value field batch_size.

(** ** Ranks *)

(** [sglang-srt/src/http.rs:3350-3355] optional_routed_dp_rank *)
Definition optional_routed_dp_rank (payload : Json) : Result string (option Z) :=
  let? rank := optional_i32 payload "routed_dp_rank" in
  match rank with
  | Some rank => Ok (Some rank)
  | None => optional_i32 payload "data_parallel_rank"
  end.

(** [sglang-srt/src/http.rs:3357-3362] optional_routed_dp_rank_values *)
Definition optional_routed_dp_rank_values (payload : Json) (batch_size : N) : Result string (list Z) :=
  if has "routed_dp_rank" payload then optional_i32_values payload "routed_dp_rank" batch_size
  else optional_i32_values payload "data_parallel_rank" batch_size.

(** The header [x-data-parallel-rank]: absent, or its text where it is visible ASCII. *)
Definition RankHeader : Type := option (option string).

(** [sglang-srt/src/http.rs:3101-3111] routed_dp_rank_header *)
Definition routed_dp_rank_header (headers : RankHeader) : Result string (option Z) :=
  match headers with
  | None => Ok None
  | Some value =>
      let? value := ok_or value "Invalid X-Data-Parallel-Rank header: must be an integer" in
      let? rank := ok_or (parse_signed 32 value)
                     ("Invalid X-Data-Parallel-Rank header: must be an integer, got '" +:+ value +:+ "'") in
      Ok (Some rank)
  end.

(** [sglang-srt/src/http.rs:3087-3099] payload_with_routed_dp_rank_header *)
Definition payload_with_routed_dp_rank_header (payload : Json) (headers : RankHeader) : Result string Json :=
  let? rank := routed_dp_rank_header headers in
  match rank with
  | None => Ok payload
  | Some rank =>
      match payload with
      | JObject entries => Ok (JObject (object_insert "routed_dp_rank" (JNumber rank) entries))
      | _ => Err "request body must be a JSON object"
      end
  end.

(** ** Transfer coordinates *)

(** The three fields of [RouterDisaggregatedParams], read from one object. *)
(** [sglang-srt/src/http.rs:3624-3628] json_to_disaggregated_params (fields) *)
Definition disaggregated_fields (value : Json) : Result string RouterDisaggregatedParams :=
  let? host := required_string value "bootstrap_host" in
  let? port := required_u16 value "bootstrap_port" in
  let? room := required_bootstrap_room value "bootstrap_room" in
  Ok (mkRouterDisaggregatedParams host port room).

Definition has_bootstrap_field (payload : Json) : bool :=
  has "bootstrap_host" payload || has "bootstrap_port" payload || has "bootstrap_room" payload.

(** [sglang-srt/src/http.rs:3617-3643] json_to_disaggregated_params *)
Definition json_to_disaggregated_params (payload : Json) : Result string (option RouterDisaggregatedParams) :=
  if has_bootstrap_field payload then let? params := disaggregated_fields payload in Ok (Some params)
  else
    match json_get "disaggregated_params" payload with
    | None => Ok None
    | Some value =>
        if is_object value then let? params := disaggregated_fields value in Ok (Some params)
        else Err "disaggregated_params must be an object"
    end.

(** The entries at one index of three lists of the same length. *)
Fixpoint zip_params (hosts : list string) (ports rooms : list N) : list (option RouterDisaggregatedParams) :=
  match hosts, ports, rooms with
  | host :: hosts, port :: ports, room :: rooms =>
      Some (mkRouterDisaggregatedParams host port room) :: zip_params hosts ports rooms
  | _, _, _ => []
  end.

(** [sglang-srt/src/http.rs:3645-3672] json_to_disaggregated_params_values *)
Definition json_to_disaggregated_params_values (payload : Json) (batch_size : N)
    : Result string (list (option RouterDisaggregatedParams)) :=
  if has_bootstrap_field payload then
    let? hosts := required_string_values payload "bootstrap_host" batch_size in
    let? ports := required_u16_values payload "bootstrap_port" batch_size in
    let? rooms := required_bootstrap_room_values payload "bootstrap_room" batch_size in
    Ok (zip_params hosts ports rooms)
  else if has "disaggregated_params" payload then
    let? params := json_to_disaggregated_params payload in Ok (repeated batch_size params)
  else Ok (repeated batch_size None).

(** ** Sampling parameters *)

(** [sglang-srt/src/http.rs:3674-3694] json_to_sampling_params *)
Definition json_to_sampling_params (value : Json) : Result string RouterSamplingParams :=
  if is_object value then
    let? max_new_tokens := optional_i32 value "max_new_tokens" in
    let? temperature := optional_f32 value "temperature" in
    let? top_p := optional_f32 value "top_p" in
    let? top_k := optional_i32 value "top_k" in
    let? min_p := optional_f32 value "min_p" in
    let? frequency_penalty := optional_f32 value "frequency_penalty" in
    let? presence_penalty := optional_f32 value "presence_penalty" in
    let? repetition_penalty := optional_f32 value "repetition_penalty" in
    let? stop_token_id := optional_i32 value "stop_token_id" in
    let? stop_token_ids := optional_i32_array value "stop_token_ids" in
    let? ignore_eos := optional_bool value "ignore_eos" in
    let? n := optional_i32 value "n" in
    let? best_of := optional_i32 value "best_of" in
    Ok (mkRouterSamplingParams max_new_tokens temperature top_p top_k min_p frequency_penalty presence_penalty
          repetition_penalty stop_token_id (default [] stop_token_ids) ignore_eos n best_of)
  else Err "sampling_params must be an object".

(** [payload.get("sampling_params").map(json_to_sampling_params).transpose()?] *)
(** [sglang-srt/src/http.rs:3124-3127] http_generate_payload_to_router_text_requests (sampling) *)
Definition sampling_of (payload : Json) : Result string (option RouterSamplingParams) :=
  match json_get "sampling_params" payload with
  | None => Ok None
  | Some value => let? p := json_to_sampling_params value in Ok (Some p)
  end.

(** The first of two values that is there. *)
Definition or_else {A} (x y : option A) : option A := match x with Some _ => x | None => y end.

(** A field that is there and not null. *)
Definition non_null (payload : Json) (field : string) : bool :=
  match json_get field payload with Some v => negb (is_null v) | None => false end.

(** [for field in [...] { if ... return Err }] *)
Fixpoint reject_fields (fields : list string) (payload : Json) : Result string unit :=
  match fields with
  | [] => Ok ()
  | field :: fields =>
      if non_null payload field then Err (field +:+ " is not supported by the current sampling runtime")
      else reject_fields fields payload
  end.

(** [sglang-srt/src/http.rs:3696-3739] apply_openai_sampling_params *)
Definition apply_openai_sampling_params (payload : Json) (s : RouterSamplingParams) : Result string RouterSamplingParams :=
  let? temperature := optional_f32 payload "temperature" in
  let? top_p := optional_f32 payload "top_p" in
  let? top_k := optional_i32 payload "top_k" in
  let? min_p := optional_f32 payload "min_p" in
  let? frequency_penalty := optional_f32 payload "frequency_penalty" in
  let? presence_penalty := optional_f32 payload "presence_penalty" in
  let? repetition_penalty := optional_f32 payload "repetition_penalty" in
  let? ignore_eos := optional_bool payload "ignore_eos" in
  let? stop_token_ids := optional_i32_array payload "stop_token_ids" in
  let? _ := reject_fields ["stop"; "seed"; "logit_bias"; "response_format"; "best_of"]%string payload in
  let? _ := match json_get "logprobs" payload with
            | None | Some (JBool false) => Ok ()
            | Some _ => Err "logprobs is not supported by the current sampling runtime"%string
            end in
  Ok (mkRouterSamplingParams (r_max_new_tokens s) (or_else temperature (r_temperature s)) (or_else top_p (r_top_p s))
        (or_else top_k (r_top_k s)) (or_else min_p (r_min_p s)) (or_else frequency_penalty (r_frequency_penalty s))
        (or_else presence_penalty (r_presence_penalty s)) (or_else repetition_penalty (r_repetition_penalty s))
        (r_stop_token_id s) (default (r_stop_token_ids s) stop_token_ids) (or_else ignore_eos (r_ignore_eos s))
        (r_n s) (r_best_of s)).

(** [sampling_params.max_new_tokens = Some(max_tokens)] where there is one. *)
Definition with_max_new_tokens (max_tokens : option Z) (s : RouterSamplingParams) : RouterSamplingParams :=
  mkRouterSamplingParams (or_else max_tokens (r_max_new_tokens s)) (r_temperature s) (r_top_p s) (r_top_k s) (r_min_p s)
    (r_frequency_penalty s) (r_presence_penalty s) (r_repetition_penalty s) (r_stop_token_id s) (r_stop_token_ids s)
    (r_ignore_eos s) (r_n s) (r_best_of s).

(** The model and the sampling parameters of an OpenAI body; [max_tokens] reads the limit. *)
(** [sglang-srt/src/http.rs:3364-3386] http_completion_payload_to_router_request (model, sampling) *)
Definition openai_sampling (payload : Json) (served_model_name : string) (max_tokens : Json → Result string (option Z))
    : Result string RouterSamplingParams :=
  let? model := ok_or (get_str "model" payload) "missing model"%string in
  if negb (model =? served_model_name)%string
  then Err ("model " +:+ model +:+ " is not served by this worker (" +:+ served_model_name +:+ ")")
  else
    let? sampling := sampling_of payload in
    let? sampling := apply_openai_sampling_params payload (default RouterSamplingParams_default sampling) in
    let? max_tokens := max_tokens payload in
    Ok (with_max_new_tokens max_tokens sampling).

(** ** Requests *)

(** [payload.get("request_id").and_then(Value::as_str).unwrap_or_default()] *)
Definition request_id_of (payload : Json) : string := default "" (get_str "request_id" payload).

(** What the single requests with a text share: the fields read last. *)
(** [sglang-srt/src/http.rs:3170-3183] http_generate_payload_to_router_text_requests (single) *)
Definition single_text_request (payload : Json) (text : string) (sampling : option RouterSamplingParams) (stream : bool)
    : Result string RouterTextGenerateRequest :=
  let? disaggregated := json_to_disaggregated_params payload in
  let? rank := optional_routed_dp_rank payload in
  Ok (mkRouterTextGenerateRequest (request_id_of payload) text sampling disaggregated stream (default 0%Z rank) ∅).

(** The requests of a batch at each index. *)
Fixpoint text_requests (texts ids : list string) (ranks : list Z) (params : list (option RouterDisaggregatedParams))
    (sampling : option RouterSamplingParams) (stream : bool) : list RouterTextGenerateRequest :=
  match texts, ids, ranks, params with
  | text :: texts, id :: ids, rank :: ranks, p :: params =>
      mkRouterTextGenerateRequest id text sampling p stream rank ∅ :: text_requests texts ids ranks params sampling stream
  | _, _, _, _ => []
  end.

(** What the batches of texts share. *)
(** [sglang-srt/src/http.rs:3140-3158] http_generate_payload_to_router_text_requests (batch) *)
Definition batch_text_requests (payload : Json) (texts : list string) (sampling : option RouterSamplingParams) (stream : bool)
    : Result string (list RouterTextGenerateRequest) :=
  let batch_size := len texts in
  let? ids := optional_string_values payload "request_id" batch_size in
  let? ranks := optional_routed_dp_rank_values payload batch_size in
  let? params := json_to_disaggregated_params_values payload batch_size in
  Ok (text_requests texts ids ranks params sampling stream).

Inductive OneOrBatch (A : Type) : Type :=
  | OneRequest (request : A)
  | BatchRequests (requests : list A).
Arguments OneRequest {A}.
Arguments BatchRequests {A}.

Definition stream_flag (payload : Json) : Result string bool :=
  let? stream := optional_bool payload "stream" in Ok (default false stream).

(** [sglang-srt/src/http.rs:3118-3184] http_generate_payload_to_router_text_requests *)
Definition http_generate_payload_to_router_text_requests (payload : Json) : Result string (OneOrBatch RouterTextGenerateRequest) :=
  let? text_value := ok_or (json_get "text" payload) "missing text"%string in
  let? sampling := sampling_of payload in
  let? stream := stream_flag payload in
  match as_array text_value with
  | Some text_values =>
      let? texts := try_all (λ value, ok_or (as_str value) "text entries must be strings"%string) text_values in
      let? requests := batch_text_requests payload texts sampling stream in
      Ok (BatchRequests requests)
  | None =>
      let? text := ok_or (as_str text_value) "text must be a string or array of strings"%string in
      let? request := single_text_request payload text sampling stream in
      Ok (OneRequest request)
  end.

(** [sglang-srt/src/http.rs:3267-3279] token_id_array *)
Definition token_id_array (value : Json) : Result string (list N) :=
  let? values := ok_or (as_array value) "input_ids must be an array"%string in
  try_all (λ value,
    let? raw := ok_or (as_u64 value) "input_ids entries must be unsigned integers"%string in
    u32_try_from "input_ids entry is out of u32 range"%string raw) values.

Fixpoint token_requests (inputs : list (list N)) (ids texts : list string) (ranks : list Z)
    (params : list (option RouterDisaggregatedParams)) (sampling : option RouterSamplingParams) (stream : bool)
    : list RouterGenerateRequest :=
  match inputs, ids, texts, ranks, params with
  | input :: inputs, id :: ids, text :: texts, rank :: ranks, p :: params =>
      mkRouterGenerateRequest id (Some (mkRouterTokenizedInput text input)) sampling p stream rank ∅
      :: token_requests inputs ids texts ranks params sampling stream
  | _, _, _, _, _ => []
  end.

(** [sglang-srt/src/http.rs:3191-3265] http_generate_payload_to_router_token_requests *)
Definition http_generate_payload_to_router_token_requests (payload : Json) : Result string (OneOrBatch RouterGenerateRequest) :=
  let? values := ok_or (json_get "input_ids" payload ≫= as_array) "input_ids must be an array"%string in
  let? sampling := sampling_of payload in
  let? stream := stream_flag payload in
  if match values with v :: _ => is_array v | [] => false end then
    let? inputs := try_all token_id_array values in
    let batch_size := len inputs in
    let? ids := optional_string_values payload "request_id" batch_size in
    let? texts := optional_string_values payload "original_text" batch_size in
    let? ranks := optional_routed_dp_rank_values payload batch_size in
    let? params := json_to_disaggregated_params_values payload batch_size in
    Ok (BatchRequests (token_requests inputs ids texts ranks params sampling stream))
  else
    let? input := token_id_array (JArray values) in
    let? disaggregated := json_to_disaggregated_params payload in
    let? rank := optional_routed_dp_rank payload in
    Ok (OneRequest (mkRouterGenerateRequest (request_id_of payload)
          (Some (mkRouterTokenizedInput (default "" (get_str "original_text" payload)) input))
          sampling disaggregated stream (default 0%Z rank) ∅)).

(** [sglang-srt/src/http.rs:3026-3031] HttpGenerateRequest *)
Inductive HttpGenerateRequest : Type :=
  | GenerateText (request : RouterTextGenerateRequest)
  | GenerateBatchText (requests : list RouterTextGenerateRequest)
  | GenerateTokenized (request : RouterGenerateRequest)
  | GenerateBatchTokenized (requests : list RouterGenerateRequest).

(** [sglang-srt/src/http.rs:3070-3085] http_generate_payload_to_router_request *)
Definition http_generate_payload_to_router_request (payload : Json) : Result string HttpGenerateRequest :=
  if has "input_ids" payload then
    let? requests := http_generate_payload_to_router_token_requests payload in
    Ok (match requests with OneRequest q => GenerateTokenized q | BatchRequests qs => GenerateBatchTokenized qs end)
  else
    let? requests := http_generate_payload_to_router_text_requests payload in
    Ok (match requests with OneRequest q => GenerateText q | BatchRequests qs => GenerateBatchText qs end).

(** [requests.iter().find_map(|request| request.disaggregated_params.as_ref())] *)
Fixpoint first_params {A} (params : A → option RouterDisaggregatedParams) (requests : list A) : option RouterDisaggregatedParams :=
  match requests with
  | [] => None
  | q :: requests => match params q with Some p => Some p | None => first_params params requests end
  end.

(** [requests.first().map(|request| request.stream).unwrap_or(false)] *)
Definition first_stream {A} (stream : A → bool) (requests : list A) : bool :=
  match requests with q :: _ => stream q | [] => false end.

(** [sglang-srt/src/http.rs:3034-3047] HttpGenerateRequest::stream *)
Definition generate_stream_flag (q : HttpGenerateRequest) : bool :=
  match q with
  | GenerateText request => t_stream request
  | GenerateBatchText requests => first_stream t_stream requests
  | GenerateTokenized request => g_stream request
  | GenerateBatchTokenized requests => first_stream g_stream requests
  end.

(** [sglang-srt/src/http.rs:3049-3060] HttpGenerateRequest::disaggregated_params *)
Definition generate_disaggregated_params (q : HttpGenerateRequest) : option RouterDisaggregatedParams :=
  match q with
  | GenerateText request => t_disaggregated_params request
  | GenerateBatchText requests => first_params t_disaggregated_params requests
  | GenerateTokenized request => g_disaggregated_params request
  | GenerateBatchTokenized requests => first_params g_disaggregated_params requests
  end.

(** [sglang-srt/src/http.rs:2828-2836] HttpCompletionRequest::stream *)
Definition completion_stream_flag (q : OneOrBatch RouterTextGenerateRequest) : bool :=
  match q with OneRequest request => t_stream request | BatchRequests requests => first_stream t_stream requests end.

(** [sglang-srt/src/http.rs:2838-2845] HttpCompletionRequest::disaggregated_params *)
Definition completion_disaggregated_params (q : OneOrBatch RouterTextGenerateRequest) : option RouterDisaggregatedParams :=
  match q with
  | OneRequest request => t_disaggregated_params request
  | BatchRequests requests => first_params t_disaggregated_params requests
  end.

(** [sglang-srt/src/http.rs:3063-3068] http_generate_payload_to_router_request_with_headers *)
Definition http_generate_payload_to_router_request_with_headers (payload : Json) (headers : RankHeader)
    : Result string HttpGenerateRequest :=
  let? payload := payload_with_routed_dp_rank_header payload headers in
  http_generate_payload_to_router_request payload.

(** ** Completions *)

(** [sglang-srt/src/http.rs:3508-3528] completion_prompt_to_texts *)
Definition completion_prompt_to_texts (payload : Json) : Result string (OneOrBatch string) :=
  let? prompt := ok_or (json_get "prompt" payload) "missing prompt"%string in
  match prompt with
  | JString text => Ok (OneRequest text)
  | JArray prompts =>
      let? texts := try_all (λ value, ok_or (as_str value) "prompt array entries must be strings"%string) prompts in
      Ok (BatchRequests texts)
  | _ => Err "prompt must be a string or array of strings"%string
  end.

(** [sglang-srt/src/http.rs:3364-3430] http_completion_payload_to_router_request *)
Definition http_completion_payload_to_router_request (payload : Json) (served_model_name : string)
    : Result string (OneOrBatch RouterTextGenerateRequest) :=
  let? sampling := openai_sampling payload served_model_name (λ payload, optional_i32 payload "max_tokens") in
  let? stream := stream_flag payload in
  let? prompts := completion_prompt_to_texts payload in
  match prompts with
  | OneRequest text => let? request := single_text_request payload text (Some sampling) stream in Ok (OneRequest request)
  | BatchRequests texts =>
      if len texts =? 0 then Err "prompt array must not be empty"%string
      else let? requests := batch_text_requests payload texts (Some sampling) stream in Ok (BatchRequests requests)
  end.

(** [sglang-srt/src/http.rs:2816-2825] http_completion_payload_to_router_request_with_headers *)
Definition http_completion_payload_to_router_request_with_headers (payload : Json) (served_model_name : string) (headers : RankHeader)
    : Result string (OneOrBatch RouterTextGenerateRequest) :=
  let? payload := payload_with_routed_dp_rank_header payload headers in
  http_completion_payload_to_router_request payload served_model_name.

(** ** Chat *)

(** [Option::or]: both fields are read, so both must be well formed. *)
(** [sglang-srt/src/http.rs:3454-3458] http_chat_payload_to_router_request (limit) *)
Definition chat_max_tokens (payload : Json) : Result string (option Z) :=
  let? completion := optional_i32 payload "max_completion_tokens" in
  let? tokens := optional_i32 payload "max_tokens" in
  Ok (or_else completion tokens).

(** [n] is at least one, so [usize::try_from] succeeds. *)
(** [sglang-srt/src/http.rs:3432-3501] http_chat_payload_to_router_request *)
Definition http_chat_payload_to_router_request (payload : Json) (served_model_name prompt : string)
    : Result string (OneOrBatch RouterTextGenerateRequest) :=
  let? sampling := openai_sampling payload served_model_name chat_max_tokens in
  let? stream := stream_flag payload in
  let? n := optional_i32 payload "n" in
  let n := default 1%Z n in
  if (n <? 1)%Z then Err "n must be at least 1"%string
  else if (n =? 1)%Z
  then let? request := single_text_request payload prompt (Some sampling) stream in Ok (OneRequest request)
  else
    let? requests := batch_text_requests payload (repeated (Z.to_N n) prompt) (Some sampling) stream in
    Ok (BatchRequests requests).

(** [sglang-srt/src/http.rs:2038-2049] http_chat_payload_to_router_request_with_headers *)
Definition http_chat_payload_to_router_request_with_headers (payload : Json) (served_model_name : string) (headers : RankHeader)
    (prompt : string) : Result string (OneOrBatch RouterTextGenerateRequest) :=
  let? payload := payload_with_routed_dp_rank_header payload headers in
  http_chat_payload_to_router_request payload served_model_name prompt.

Definition chat_role (role : string) : bool :=
  bool_decide (role ∈ ["system"; "developer"; "user"; "assistant"; "tool"]%string).

(** [sglang-srt/src/http.rs:3599-3613] normalize_chat_message (parts) *)
Fixpoint chat_parts (parts : list Json) : Result string string :=
  match parts with
  | [] => Ok ""%string
  | part :: parts =>
      if bool_decide (get_str "type" part = Some "text"%string) then
        let? text := ok_or (get_str "text" part) "chat text content part requires text"%string in
        let? rest := chat_parts parts in
        Ok (text +:+ rest)
      else Err "multimodal chat content is not supported by this text runtime"%string
  end.

(** [sglang-srt/src/http.rs:3570-3615] normalize_chat_message *)
Definition normalize_chat_message (message : Json) : Result string Json :=
  match message with
  | JObject entries =>
      let? role := ok_or (field "role" entries ≫= as_str) "chat message role is required"%string in
      if negb (chat_role role) then Err ("unsupported chat message role: " +:+ role)
      else
        match field "content" entries with
        | None =>
            if ((role =? "assistant")%string && bool_decide (is_Some (field "tool_calls" entries)))%bool
            then Ok (JObject (object_insert "content" JNull entries))
            else Err "chat message content is required"%string
        | Some (JString text) => Ok (JObject (object_insert "content" (JString text) entries))
        | Some content =>
            if (is_null content && (role =? "assistant")%string)%bool then Ok (JObject entries)
            else
              let? parts := ok_or (as_array content) "chat message content must be a string or array"%string in
              let? text := chat_parts parts in
              Ok (JObject (object_insert "content" (JString text) entries))
        end
  | _ => Err "chat message entries must be objects"%string
  end.

(** [for reserved in [...] { if template_kwargs.contains_key(reserved) { return Err } }] *)
Fixpoint reject_reserved (names : list string) (kwargs : list (string * Json)) : Result string unit :=
  match names with
  | [] => Ok ()
  | name :: names =>
      if bool_decide (is_Some (field name kwargs)) then Err ("chat_template_kwargs." +:+ name +:+ " is controlled by the serving runtime")
      else reject_reserved names kwargs
  end.

(** [sglang-srt/src/http.rs:3530-3568] chat_template_input_from_payload *)
Definition chat_template_input_from_payload (payload : Json) : Result string (ChatTemplateInput Json) :=
  let? messages := ok_or (json_get "messages" payload ≫= as_array) "messages must be an array"%string in
  if len messages =? 0 then Err "messages must not be empty"%string
  else
    let? messages := try_all normalize_chat_message messages in
    let? tools := match json_get "tools" payload with
                  | None | Some JNull => Ok None
                  | Some (JArray tools) => Ok (Some tools)
                  | Some _ => Err "tools must be an array"%string
                  end in
    let? kwargs := match json_get "chat_template_kwargs" payload with
                   | None | Some JNull => Ok []
                   | Some (JObject kwargs) => Ok kwargs
                   | Some _ => Err "chat_template_kwargs must be an object"%string
                   end in
    let? _ := reject_reserved ["messages"; "tools"; "add_generation_prompt"]%string kwargs in
    Ok (mkChatTemplateInput messages tools kwargs).

(** ** Responses *)

(** [sglang-srt/src/http.rs:2455-2465] responses_content_to_text (parts) *)
Fixpoint responses_parts (parts : list Json) : Result string string :=
  match parts with
  | [] => Ok ""%string
  | part :: parts =>
      if bool_decide (get_str "type" part = Some "input_text" ∨ get_str "type" part = Some "text")%string then
        let? text := ok_or (get_str "text" part) "responses text content part requires text"%string in
        let? rest := responses_parts parts in
        Ok (text +:+ rest)
      else responses_parts parts
  end.

(** [sglang-srt/src/http.rs:2447-2467] responses_content_to_text *)
Definition responses_content_to_text (value : Json) : Result string string :=
  match as_str value with
  | Some text => Ok text
  | None =>
      let? parts := ok_or (as_array value) "responses content must be a string or array"%string in
      responses_parts parts
  end.

(** [sglang-srt/src/http.rs:2436-2445] responses_input_item_to_text *)
Definition responses_input_item_to_text (value : Json) : Result string string :=
  match as_str value with
  | Some text => Ok text
  | None =>
      let? content := ok_or (json_get "content" value) "responses input item content is required"%string in
      responses_content_to_text content
  end.

(** [sglang-srt/src/http.rs:2418-2434] responses_input_value_to_text *)
Definition responses_input_value_to_text (value : Json) : Result string string :=
  match as_str value with
  | Some text => Ok text
  | None =>
      let? items := ok_or (as_array value) "input must be a string or array"%string in
      if len items =? 0 then Err "input array must not be empty"%string
      else let? texts := try_all responses_input_item_to_text items in Ok (join_with newline texts)
  end.

(** [sglang-srt/src/http.rs:2411-2416] responses_input_to_text *)
Definition responses_input_to_text (payload : Json) : Result string string :=
  let? input := ok_or (json_get "input" payload) "missing input"%string in
  responses_input_value_to_text input.

(** [sglang-srt/src/http.rs:2344-2347] HttpResponsesRequest *)
Record HttpResponsesRequest : Type := mkHttpResponsesRequest {
  responses_model : string;
  responses_request : RouterTextGenerateRequest;
}.

(** The model served is the one of the body.  The stream flag is read between the
    transfer coordinates and the rank, as the fields of the struct are written. *)
(** [sglang-srt/src/http.rs:2360-2409] http_responses_payload_to_router_request *)
Definition http_responses_payload_to_router_request (payload : Json) (served_model_name : string) : Result string HttpResponsesRequest :=
  let? sampling := openai_sampling payload served_model_name (λ payload, optional_i32 payload "max_output_tokens") in
  let? text := responses_input_to_text payload in
  let? instructions := optional_string payload "instructions" in
  let text := match instructions with
              | Some instructions => if (text =? "")%string then instructions else instructions +:+ newline +:+ text
              | None => text
              end in
  let? disaggregated := json_to_disaggregated_params payload in
  let? stream := stream_flag payload in
  let? rank := optional_routed_dp_rank payload in
  Ok (mkHttpResponsesRequest served_model_name
        (mkRouterTextGenerateRequest (request_id_of payload) text (Some sampling) disaggregated stream (default 0%Z rank) ∅)).

(** [sglang-srt/src/http.rs:2349-2358] http_responses_payload_to_router_request_with_headers *)
Definition http_responses_payload_to_router_request_with_headers (payload : Json) (served_model_name : string) (headers : RankHeader)
    : Result string HttpResponsesRequest :=
  let? payload := payload_with_routed_dp_rank_header payload headers in
  http_responses_payload_to_router_request payload served_model_name.

(** ** A batch is its items *)

(** The fields a batch may give per request. *)
Definition batched (key : string) : bool :=
  bool_decide (key ∈ ["text"; "prompt"; "input_ids"; "request_id"; "original_text"; "routed_dp_rank"; "data_parallel_rank";
                      "bootstrap_host"; "bootstrap_port"; "bootstrap_room"]%string).

(** The body of the request at an index: of the fields that may be given per
    request, those that are arrays are replaced by their entry. *)
Definition pick_value (i : nat) (key : string) (v : Json) : Json :=
  if batched key then match v with JArray vs => default JNull (vs !! i) | v => v end else v.
Definition pick (i : nat) (payload : Json) : Json :=
  match payload with JObject entries => JObject (map_entries (pick_value i) entries) | v => v end.

Lemma json_get_pick i key p : json_get key (pick i p) = pick_value i key <$> json_get key p.
Proof. destruct p; try done. unfold json_get, pick. cbn [as_object mbind option_bind]. apply field_map. Qed.

Lemma json_get_kept i key p : batched key = false → json_get key (pick i p) = json_get key p.
Proof. intros H. rewrite json_get_pick. unfold pick_value. rewrite H. by destruct (json_get key p). Qed.

Lemma has_pick i key p : has key (pick i p) = has key p.
Proof. unfold has. rewrite json_get_pick. destruct (json_get key p); [by rewrite !bool_decide_true by eauto|done]. Qed.

Lemma sampling_of_pick i p : sampling_of (pick i p) = sampling_of p.
Proof. unfold sampling_of. by rewrite json_get_kept. Qed.

Lemma stream_flag_pick i p : stream_flag (pick i p) = stream_flag p.
Proof. unfold stream_flag, optional_bool. by rewrite json_get_kept. Qed.

(** Reading a field that is not batched. *)
Definition unbatched (f : Json → Result string (option Z)) : Prop := ∀ i p, f (pick i p) = f p.

Lemma optional_i32_pick key : batched key = false → unbatched (λ p, optional_i32 p key).
Proof. intros H i p. unfold optional_i32. by rewrite json_get_kept. Qed.

Lemma reject_fields_pick i p fields : Forall (λ f, batched f = false) fields → reject_fields fields (pick i p) = reject_fields fields p.
Proof. induction 1 as [|f fields Hf _ IH]; [done|]. cbn. unfold non_null. by rewrite json_get_kept, IH by done. Qed.

Lemma apply_openai_pick i p s : apply_openai_sampling_params (pick i p) s = apply_openai_sampling_params p s.
Proof.
  unfold apply_openai_sampling_params, optional_f32, optional_i32, optional_bool, optional_i32_array.
  rewrite !json_get_kept by done. rewrite reject_fields_pick; [done|].
  repeat first [apply Forall_nil_2 | apply Forall_cons_2; [done|]].
Qed.

Lemma openai_sampling_pick i p model f : unbatched f → openai_sampling (pick i p) model f = openai_sampling p model f.
Proof.
  intros Hf. unfold openai_sampling, get_str. rewrite json_get_kept, sampling_of_pick by done.
  destruct (json_get "model" p ≫= as_str) as [m|]; [|done]. cbn. destruct (m =? model)%string; [|done]. cbn.
  destruct (sampling_of p) as [s|]; [|done]. cbn. rewrite apply_openai_pick.
  destruct (apply_openai_sampling_params p _); [|done]. cbn. by rewrite Hf.
Qed.

(** ** Values of a batch *)

Lemma lookup_repeated {A} n (x y : A) i : repeated n x !! i = Some y → y = x ∧ N.of_nat i < n.
Proof. unfold repeated. intros [-> H]%lookup_replicate. split; [done|lia]. Qed.
Lemma len_repeated {A} n (x : A) : len (repeated n x) = n.
Proof. unfold len, repeated. rewrite length_replicate. lia. Qed.

Lemma try_all_Ok {E A B} (f : A → Result E B) l : ∀ ys, try_all f l = Ok ys → Forall2 (λ x y, f x = Ok y) l ys.
Proof.
  induction l as [|x l IH]; intros ys; cbn; [intros [= <-]; constructor|].
  destruct (f x) as [y|] eqn:Hf; [|done]. cbn. destruct (try_all f l) as [ys'|]; [|done]. intros [= <-].
  constructor; [done|]. by apply IH.
Qed.

Lemma try_all_lookup {E A B} (f : A → Result E B) l ys i y : try_all f l = Ok ys → ys !! i = Some y → ∃ x, l !! i = Some x ∧ f x = Ok y.
Proof. intros H%try_all_Ok Hy. by apply (Forall2_lookup_r _ _ _ _ _ H) in Hy. Qed.
Lemma try_all_len {E A B} (f : A → Result E B) l ys : try_all f l = Ok ys → len ys = len l.
Proof. intros H%try_all_Ok%Forall2_length. unfold len. by rewrite H. Qed.

(** The list a reader of batch fields gives has an entry per request, and the
    entry is what [single] reads in the body of that request. *)
Definition reads_items {A} (p : Json) (n : N) (r : Result string (list A)) (single : Json → Result string A) : Prop :=
  ∀ vs, r = Ok vs → len vs = n ∧ ∀ i v, vs !! i = Some v → single (pick i p) = Ok v.

Lemma strings_read_items p key n : batched key = true →
  reads_items p n (optional_string_values p key n) (λ p, Ok (default "" (get_str key p))).
Proof.
  intros Hb vs. unfold optional_string_values. destruct (json_get key p) as [v|] eqn:Hv; cbn.
  2: { intros [= <-]. split; [apply len_repeated|]. intros i x [-> _]%lookup_repeated. unfold get_str. by rewrite json_get_pick, Hv. }
  destruct (as_str v) as [text|] eqn:Hs.
  { intros [= <-]. split; [apply len_repeated|]. intros i x [-> _]%lookup_repeated. unfold get_str. rewrite json_get_pick, Hv. cbn.
    unfold pick_value. rewrite Hb. destruct v; try done. cbn in *. congruence. }
  destruct v; try done. cbn. destruct (N.eqb_spec (len values) n) as [<-|]; [|done]. intros H. split; [by eapply try_all_len|].
  intros i x Hx. destruct (try_all_lookup _ _ _ _ _ H Hx) as (w&Hw&Hf). unfold get_str. rewrite json_get_pick, Hv. cbn.
  unfold pick_value. rewrite Hb, Hw. cbn. destruct (as_str w); [|done]. by injection Hf as ->.
Qed.

Lemma ints_read_items p key n : batched key = true →
  reads_items p n (optional_i32_values p key n) (λ p, let? o := optional_i32 p key in Ok (default 0%Z o)).
Proof.
  intros Hb vs. unfold optional_i32_values, optional_i32. destruct (json_get key p) as [v|] eqn:Hv; cbn.
  2: { intros [= <-]. split; [apply len_repeated|]. intros i x [-> _]%lookup_repeated. by rewrite json_get_pick, Hv. }
  destruct (as_i64 v) as [raw|] eqn:Hs.
  { destruct (i32_try_from _ raw) as [z|] eqn:Hz; [|done]. intros [= <-]. split; [apply len_repeated|].
    intros i x [-> _]%lookup_repeated. rewrite json_get_pick, Hv. cbn. unfold pick_value. rewrite Hb.
    assert (∀ e : string, i32_try_from e raw = Ok z) as Hz' by (intros e; unfold i32_try_from in *; destruct (_ && _)%bool; congruence).
    destruct v; try done; cbn [as_i64] in *; rewrite Hs; cbn; by rewrite Hz'. }
  destruct v; try done. cbn. destruct (N.eqb_spec (len values) n) as [<-|]; [|done]. intros H. split; [by eapply try_all_len|].
  intros i x Hx. destruct (try_all_lookup _ _ _ _ _ H Hx) as (w&Hw&Hf). rewrite json_get_pick, Hv. cbn.
  unfold pick_value. rewrite Hb, Hw. cbn. destruct (as_i64 w) as [z|]; [|done]. cbn in *.
  unfold i32_try_from in *. destruct (_ && _)%bool; [|done]. cbn. congruence.
Qed.

Lemma required_strings_read_items p key n : batched key = true →
  reads_items p n (required_string_values p key n) (λ p, required_string p key).
Proof.
  intros Hb vs. unfold required_string_values, required_string, get_str. destruct (json_get key p) as [v|] eqn:Hv; cbn; [|done].
  destruct (as_str v) as [text|] eqn:Hs.
  { intros [= <-]. split; [apply len_repeated|]. intros i x [-> _]%lookup_repeated. rewrite json_get_pick, Hv. cbn.
    unfold pick_value. rewrite Hb. destruct v; try done. cbn in *. by injection Hs as ->. }
  destruct v; try done. cbn. destruct (N.eqb_spec (len values) n) as [<-|]; [|done]. intros H. split; [by eapply try_all_len|].
  intros i x Hx. destruct (try_all_lookup _ _ _ _ _ H Hx) as (w&Hw&Hf). rewrite json_get_pick, Hv. cbn.
  unfold pick_value. rewrite Hb, Hw. cbn. destruct (as_str w); [|done]. by injection Hf as ->.
Qed.

(** [read] only takes unsigned integers. *)
Lemma numbers_read_items read p key n : batched key = true → (∀ v x, read v = Ok x → is_u64 v = true) →
  reads_items p n (required_number_values read p key n)
    (λ p, let? value := ok_or (json_get key p) (key +:+ " must be an unsigned integer") in read value).
Proof.
  intros Hb Hread vs. unfold required_number_values. destruct (json_get key p) as [v|] eqn:Hv; cbn; [|done].
  destruct (is_u64 v) eqn:Hs.
  { destruct (read v) as [x|] eqn:Hx; [|done]. intros [= <-]. split; [apply len_repeated|]. intros i y [-> _]%lookup_repeated.
    rewrite json_get_pick, Hv. cbn. unfold pick_value. rewrite Hb. by destruct v. }
  destruct v; try done. cbn. destruct (N.eqb_spec (len values) n) as [<-|]; [|done]. intros H. split; [by eapply try_all_len|].
  intros i x Hx. destruct (try_all_lookup _ _ _ _ _ H Hx) as (w&Hw&Hf). rewrite json_get_pick, Hv. cbn.
  unfold pick_value. by rewrite Hb, Hw.
Qed.

Lemma u16_values_read_items p key n : batched key = true → reads_items p n (required_u16_values p key n) (λ p, required_u16 p key).
Proof. intros Hb. apply numbers_read_items; [done|]. intros v x. unfold required_u16_value. by destruct v. Qed.
Lemma room_values_read_items p key n : batched key = true →
  reads_items p n (required_bootstrap_room_values p key n) (λ p, required_bootstrap_room p key).
Proof. intros Hb. apply numbers_read_items; [done|]. intros v x. unfold required_bootstrap_room_value. by destruct v. Qed.

Lemma ranks_read_items p n :
  reads_items p n (optional_routed_dp_rank_values p n) (λ p, let? o := optional_routed_dp_rank p in Ok (default 0%Z o)).
Proof.
  unfold optional_routed_dp_rank_values. unfold has. case_bool_decide as Hhas.
  - intros vs Hvs. destruct (ints_read_items p "routed_dp_rank" n eq_refl vs Hvs) as [Hl Hi]. split; [done|].
    intros i v Hv. specialize (Hi i v Hv). cbn beta in Hi. unfold optional_routed_dp_rank.
    destruct (optional_i32 (pick i p) "routed_dp_rank") as [[z|]|] eqn:Ho; try done. exfalso. unfold optional_i32 in Ho.
    rewrite json_get_pick in Ho. destruct Hhas as [w Hw]. rewrite Hw in Ho. cbn [fmap option_fmap option_map] in Ho.
    destruct (as_i64 _); [|done]. cbn in Ho. unfold i32_try_from in Ho. by destruct (_ && _)%bool.
  - intros vs Hvs. destruct (ints_read_items p "data_parallel_rank" n eq_refl vs Hvs) as [Hl Hi]. split; [done|].
    intros i v Hv. specialize (Hi i v Hv). cbn beta in Hi. unfold optional_routed_dp_rank.
    assert (json_get "routed_dp_rank" p = None) as Hnone by (by apply eq_None_not_Some).
    unfold optional_i32 at 1. by rewrite json_get_pick, Hnone.
Qed.

Lemma zip_params_lookup hosts : ∀ ports rooms i x, zip_params hosts ports rooms !! i = Some x →
  ∃ host port room, hosts !! i = Some host ∧ ports !! i = Some port ∧ rooms !! i = Some room ∧
    x = Some (mkRouterDisaggregatedParams host port room).
Proof.
  induction hosts as [|h hosts IH]; intros [|p ports] [|r rooms] [|i] x; cbn; try done; [intros [= <-]; eauto 10|apply IH].
Qed.

Lemma len_zip_params hosts : ∀ ports rooms, len ports = len hosts → len rooms = len hosts → len (zip_params hosts ports rooms) = len hosts.
Proof.
  induction hosts as [|h hosts IH]; intros [|p ports] [|r rooms]; cbn [zip_params]; rewrite ?len_cons, ?len_nil; intros; try done; try lia.
  rewrite IH; lia.
Qed.

Lemma has_bootstrap_pick i p : has_bootstrap_field (pick i p) = has_bootstrap_field p.
Proof. unfold has_bootstrap_field. by rewrite !has_pick. Qed.

Lemma params_read_items p n : reads_items p n (json_to_disaggregated_params_values p n) json_to_disaggregated_params.
Proof.
  intros vs. unfold json_to_disaggregated_params_values. destruct (has_bootstrap_field p) eqn:Hb.
  - destruct (required_string_values p "bootstrap_host" n) as [hosts|] eqn:H1; [|done]. cbn [result_bind].
    destruct (required_u16_values p "bootstrap_port" n) as [ports|] eqn:H2; [|done]. cbn [result_bind].
    destruct (required_bootstrap_room_values p "bootstrap_room" n) as [rooms|] eqn:H3; [|done]. cbn [result_bind]. intros [= <-].
    apply (required_strings_read_items p "bootstrap_host" n eq_refl) in H1 as [L1 R1].
    apply (u16_values_read_items p "bootstrap_port" n eq_refl) in H2 as [L2 R2].
    apply (room_values_read_items p "bootstrap_room" n eq_refl) in H3 as [L3 R3].
    split; [by rewrite len_zip_params by congruence|].
    intros i x (host&port&room&Hh&Hp&Hr&->)%zip_params_lookup. unfold json_to_disaggregated_params.
    rewrite has_bootstrap_pick, Hb. unfold disaggregated_fields.
    by rewrite (R1 _ _ Hh), (R2 _ _ Hp); cbn [result_bind]; rewrite (R3 _ _ Hr).
  - unfold has. case_bool_decide as Hhas.
    + destruct (json_to_disaggregated_params p) as [x|] eqn:Hx; [|done]. intros [= <-]. split; [apply len_repeated|].
      intros i y [-> _]%lookup_repeated. rewrite <- Hx. unfold json_to_disaggregated_params.
      by rewrite has_bootstrap_pick, Hb, json_get_kept.
    + intros [= <-]. split; [apply len_repeated|]. intros i y [-> _]%lookup_repeated. unfold json_to_disaggregated_params.
      rewrite has_bootstrap_pick, Hb, json_get_kept by done. apply eq_None_not_Some in Hhas. by rewrite Hhas.
Qed.

(** ** Batches of requests *)

Lemma text_requests_lookup texts : ∀ ids ranks params sampling stream i q, text_requests texts ids ranks params sampling stream !! i = Some q →
  ∃ text id rank p, texts !! i = Some text ∧ ids !! i = Some id ∧ ranks !! i = Some rank ∧ params !! i = Some p ∧
    q = mkRouterTextGenerateRequest id text sampling p stream rank ∅.
Proof.
  induction texts as [|t texts IH]; intros [|d ids] [|r ranks] [|p params] sampling stream [|i] q; cbn; try done.
  - intros [= <-]. eauto 10.
  - apply IH.
Qed.

Lemma len_text_requests texts : ∀ ids ranks params sampling stream, len ids = len texts → len ranks = len texts → len params = len texts →
  len (text_requests texts ids ranks params sampling stream) = len texts.
Proof.
  induction texts as [|t texts IH]; intros [|d ids] [|r ranks] [|p params] sampling stream; cbn [text_requests]; rewrite ?len_cons, ?len_nil; intros; try done; try lia.
  rewrite IH; lia.
Qed.

Lemma batch_text_requests_items p texts sampling stream qs : batch_text_requests p texts sampling stream = Ok qs →
  len qs = len texts ∧
  ∀ i q, qs !! i = Some q → ∃ text, texts !! i = Some text ∧ single_text_request (pick i p) text sampling stream = Ok q.
Proof.
  unfold batch_text_requests.
  destruct (optional_string_values p "request_id" (len texts)) as [ids|] eqn:H1; [|done]. cbn [result_bind].
  destruct (optional_routed_dp_rank_values p (len texts)) as [ranks|] eqn:H2; [|done]. cbn [result_bind].
  destruct (json_to_disaggregated_params_values p (len texts)) as [params|] eqn:H3; [|done]. cbn [result_bind]. intros [= <-].
  apply (strings_read_items p "request_id" _ eq_refl) in H1 as [L1 R1]. apply ranks_read_items in H2 as [L2 R2].
  apply params_read_items in H3 as [L3 R3]. split; [by apply len_text_requests|].
  intros i q (text&id&rank&x&Ht&Hid&Hr&Hx&->)%text_requests_lookup. exists text. split; [done|].
  unfold single_text_request. rewrite (R3 _ _ Hx). cbn [result_bind].
  specialize (R2 _ _ Hr). cbn beta in R2. destruct (optional_routed_dp_rank (pick i p)) as [o|]; [|done]. cbn [result_bind] in *.
  injection R2 as ->. specialize (R1 _ _ Hid). cbn beta in R1. injection R1 as R1. unfold request_id_of. by rewrite R1.
Qed.

Lemma text_items p qs : http_generate_payload_to_router_text_requests p = Ok (BatchRequests qs) →
  (∃ texts, json_get "text" p = Some (JArray texts) ∧ len qs = len texts) ∧
  ∀ i q, qs !! i = Some q → http_generate_payload_to_router_text_requests (pick i p) = Ok (OneRequest q).
Proof.
  unfold http_generate_payload_to_router_text_requests. destruct (json_get "text" p) as [v|] eqn:Hv; [|done]. cbn [ok_or result_bind].
  destruct (sampling_of p) as [s|] eqn:Hs; [|done]. cbn [result_bind]. destruct (stream_flag p) as [b|] eqn:Hb; [|done]. cbn [result_bind].
  destruct (as_array v) as [texts|] eqn:Ha.
  2: { destruct (as_str v); [|done]. cbn [ok_or result_bind]. by destruct (single_text_request _ _ _ _). }
  destruct v; try done. injection Ha as ->.
  destruct (try_all _ texts) as [strs|] eqn:Ht; [|done]. cbn [result_bind].
  destruct (batch_text_requests p strs s b) as [qs'|] eqn:Hq; [|done]. cbn [result_bind]. intros [= <-].
  apply batch_text_requests_items in Hq as [Hl Hi]. split.
  { exists texts. split; [done|]. rewrite Hl. by eapply try_all_len. }
  intros i q Hq. destruct (Hi i q Hq) as (text&Htext&Hone). rewrite json_get_pick, Hv, sampling_of_pick, stream_flag_pick, Hs, Hb.
  destruct (try_all_lookup _ _ _ _ _ Ht Htext) as (w&Hw&Hf). cbn [fmap option_fmap option_map]. unfold pick_value.
  change (batched "text") with true. cbn iota. rewrite Hw. cbn [default ok_or result_bind]. destruct w; try done. injection Hf as ->.
  cbn [id as_array as_str ok_or result_bind]. by rewrite Hone.
Qed.

Lemma token_requests_lookup inputs : ∀ ids texts ranks params sampling stream i q,
  token_requests inputs ids texts ranks params sampling stream !! i = Some q →
  ∃ input id text rank p, inputs !! i = Some input ∧ ids !! i = Some id ∧ texts !! i = Some text ∧ ranks !! i = Some rank ∧
    params !! i = Some p ∧ q = mkRouterGenerateRequest id (Some (mkRouterTokenizedInput text input)) sampling p stream rank ∅.
Proof.
  induction inputs as [|t inputs IH]; intros [|d ids] [|x texts] [|r ranks] [|p params] sampling stream [|i] q; cbn; try done.
  - intros [= <-]. eauto 12.
  - apply IH.
Qed.

Lemma len_token_requests inputs : ∀ ids texts ranks params sampling stream, len ids = len inputs → len texts = len inputs →
  len ranks = len inputs → len params = len inputs → len (token_requests inputs ids texts ranks params sampling stream) = len inputs.
Proof.
  induction inputs as [|t inputs IH]; intros [|d ids] [|x texts] [|r ranks] [|p params] sampling stream; cbn [token_requests];
    rewrite ?len_cons, ?len_nil; intros; try done; try lia.
  rewrite IH; lia.
Qed.

Lemma token_ids_not_arrays vs ids : token_id_array (JArray vs) = Ok ids → match vs with v :: _ => is_array v | [] => false end = false.
Proof. unfold token_id_array. cbn [as_array ok_or result_bind]. destruct vs as [|v vs]; [done|]. by destruct v. Qed.

Lemma token_items p qs : http_generate_payload_to_router_token_requests p = Ok (BatchRequests qs) →
  (∃ inputs, json_get "input_ids" p = Some (JArray inputs) ∧ len qs = len inputs) ∧
  ∀ i q, qs !! i = Some q → http_generate_payload_to_router_token_requests (pick i p) = Ok (OneRequest q).
Proof.
  unfold http_generate_payload_to_router_token_requests. destruct (json_get "input_ids" p) as [v|] eqn:Hv; [|done].
  cbn [mbind option_bind]. destruct v as [| | | | | |values|]; try done. cbn [as_array ok_or result_bind].
  destruct (sampling_of p) as [s|] eqn:Hs; [|done]. cbn [result_bind]. destruct (stream_flag p) as [b|] eqn:Hb; [|done]. cbn [result_bind].
  destruct (match values with v :: _ => is_array v | [] => false end).
  2: { destruct (token_id_array _); [|done]. cbn [result_bind]. destruct (json_to_disaggregated_params p); [|done]. cbn [result_bind].
       by destruct (optional_routed_dp_rank p). }
  destruct (try_all token_id_array values) as [inputs|] eqn:Ht; [|done]. cbn [result_bind].
  destruct (optional_string_values p "request_id" (len inputs)) as [ids|] eqn:H1; [|done]. cbn [result_bind].
  destruct (optional_string_values p "original_text" (len inputs)) as [texts|] eqn:H4; [|done]. cbn [result_bind].
  destruct (optional_routed_dp_rank_values p (len inputs)) as [ranks|] eqn:H2; [|done]. cbn [result_bind].
  destruct (json_to_disaggregated_params_values p (len inputs)) as [params|] eqn:H3; [|done]. cbn [result_bind]. intros [= <-].
  apply (strings_read_items p "request_id" _ eq_refl) in H1 as [L1 R1].
  apply (strings_read_items p "original_text" _ eq_refl) in H4 as [L4 R4].
  apply ranks_read_items in H2 as [L2 R2]. apply params_read_items in H3 as [L3 R3].
  split; [exists values; split; [done|]; rewrite len_token_requests by done; by eapply try_all_len|].
  intros i q (input&rid&text&rank&x&Hin&Hid&Htext&Hr&Hx&->)%token_requests_lookup.
  destruct (try_all_lookup _ _ _ _ _ Ht Hin) as (w&Hw&Hf).
  rewrite json_get_pick, Hv, sampling_of_pick, stream_flag_pick, Hs, Hb. cbn [fmap option_fmap option_map mbind option_bind].
  unfold pick_value. change (batched "input_ids") with true. cbn iota. rewrite Hw. cbn [default].
  destruct w as [| | | | | |vs|]; try done. cbn [id as_array ok_or result_bind].
  rewrite (token_ids_not_arrays _ _ Hf), Hf. cbn [result_bind]. rewrite (R3 _ _ Hx). cbn [result_bind].
  specialize (R2 _ _ Hr). cbn beta in R2. destruct (optional_routed_dp_rank (pick i p)) as [o|]; [|done]. cbn [result_bind] in *.
  injection R2 as ->. specialize (R1 _ _ Hid). cbn beta in R1. injection R1 as R1. specialize (R4 _ _ Htext). cbn beta in R4. injection R4 as R4.
  unfold request_id_of. by rewrite R1, R4.
Qed.

Lemma completion_items p model qs : http_completion_payload_to_router_request p model = Ok (BatchRequests qs) →
  qs ≠ [] ∧ (∃ prompts, json_get "prompt" p = Some (JArray prompts) ∧ len qs = len prompts) ∧
  ∀ i q, qs !! i = Some q → http_completion_payload_to_router_request (pick i p) model = Ok (OneRequest q).
Proof.
  unfold http_completion_payload_to_router_request.
  destruct (openai_sampling p model _) as [s|] eqn:Hs; [|done]. cbn [result_bind]. destruct (stream_flag p) as [b|] eqn:Hb; [|done]. cbn [result_bind].
  unfold completion_prompt_to_texts at 1. destruct (json_get "prompt" p) as [v|] eqn:Hv; [|done]. cbn [ok_or result_bind].
  destruct v as [| | | | |text|prompts|]; try done; [cbn [result_bind]; by destruct (single_text_request _ _ _ _)|].
  destruct (try_all _ prompts) as [texts|] eqn:Ht; [|done]. cbn [result_bind].
  destruct (N.eqb_spec (len texts) 0) as [|Hne]; [done|].
  destruct (batch_text_requests p texts (Some s) b) as [qs'|] eqn:Hq; [|done]. cbn [result_bind]. intros [= <-].
  apply batch_text_requests_items in Hq as [Hl Hi]. split; [intros ->; rewrite len_nil in Hl; lia|].
  split; [exists prompts; split; [done|]; rewrite Hl; by eapply try_all_len|].
  intros i q Hq. destruct (Hi i q Hq) as (text&Htext&Hone). destruct (try_all_lookup _ _ _ _ _ Ht Htext) as (w&Hw&Hf).
  rewrite openai_sampling_pick, stream_flag_pick, Hs, Hb by (by apply optional_i32_pick). cbn [result_bind].
  unfold completion_prompt_to_texts. rewrite json_get_pick, Hv. cbn [fmap option_fmap option_map]. unfold pick_value.
  change (batched "prompt") with true. cbn iota. rewrite Hw. cbn [default ok_or result_bind id]. destruct w; try done. injection Hf as ->.
  cbn [result_bind]. by rewrite Hone.
Qed.

(** C7. A batch is its items: when a body of [/generate] or [/v1/completions] is taken as
    a batch of texts, token lists or prompts, there is a request for each of them,
    and each request is the one the body of that item alone, with its entries of
    the arrays, is translated to. *)
Theorem batch_is_its_items p model :
  (∀ q, http_generate_payload_to_router_request p = Ok q →
    match q with
    | GenerateBatchText qs =>
        (∃ texts, json_get "text" p = Some (JArray texts) ∧ len qs = len texts) ∧
        ∀ i r, qs !! i = Some r → http_generate_payload_to_router_request (pick i p) = Ok (GenerateText r)
    | GenerateBatchTokenized qs =>
        (∃ inputs, json_get "input_ids" p = Some (JArray inputs) ∧ len qs = len inputs) ∧
        ∀ i r, qs !! i = Some r → http_generate_payload_to_router_request (pick i p) = Ok (GenerateTokenized r)
    | GenerateText _ | GenerateTokenized _ => True
    end) ∧
  (∀ qs, http_completion_payload_to_router_request p model = Ok (BatchRequests qs) →
    qs ≠ [] ∧ (∃ prompts, json_get "prompt" p = Some (JArray prompts) ∧ len qs = len prompts) ∧
    ∀ i r, qs !! i = Some r → http_completion_payload_to_router_request (pick i p) model = Ok (OneRequest r)).
Proof.
  split; [|apply completion_items]. intros q. unfold http_generate_payload_to_router_request. destruct (has "input_ids" p) eqn:Hhas.
  - destruct (http_generate_payload_to_router_token_requests p) as [[r|qs]|] eqn:Hq; intros [= <-]; [done|].
    apply token_items in Hq as [Hlen Hi]. split; [done|]. intros i r Hr. by rewrite has_pick, Hhas, (Hi i r Hr).
  - destruct (http_generate_payload_to_router_text_requests p) as [[r|qs]|] eqn:Hq; intros [= <-]; [done|].
    apply text_items in Hq as [Hlen Hi]. split; [done|]. intros i r Hr. by rewrite has_pick, Hhas, (Hi i r Hr).
Qed.

(** ** Ranges of what is accepted *)

Definition is_i32 (z : Z) : Prop := (- 2 ^ 31 ≤ z < 2 ^ 31)%Z.

Lemma i32_try_from_Ok {E} (e : E) z z' : i32_try_from e z = Ok z' ↔ z' = z ∧ is_i32 z.
Proof.
  unfold i32_try_from, is_i32. destruct (Z.leb_spec (- 2 ^ 31) z), (Z.ltb_spec z (2 ^ 31)); cbn [andb]; split; try done; try lia.
  - intros [= <-]. lia.
  - by intros [-> _].
Qed.

Lemma optional_i32_range p key o : optional_i32 p key = Ok o → opt_all is_i32 o.
Proof.
  unfold optional_i32. destruct (json_get key p) as [v|]; [|by intros [= <-]]. destruct (as_i64 v) as [z|]; [|done]. cbn [ok_or result_bind].
  destruct (i32_try_from _ z) as [z'|] eqn:Hz; [|done]. intros [= <-]. by apply i32_try_from_Ok in Hz as [-> ?].
Qed.

Lemma optional_i32_array_range p key o : optional_i32_array p key = Ok o → Forall is_i32 (default [] o).
Proof.
  unfold optional_i32_array. destruct (json_get key p) as [v|]; [|by intros [= <-]]. destruct (as_array v) as [vs|]; [|done]. cbn [ok_or result_bind].
  destruct (try_all _ vs) as [zs|] eqn:Hzs; [|done]. intros [= <-]. apply Forall_lookup_2. intros i z Hz.
  destruct (try_all_lookup _ _ _ _ _ Hzs Hz) as (w&_&Hf). destruct (as_i64 w); [|done]. by apply i32_try_from_Ok in Hf as [-> ?].
Qed.

Definition params_in_range (p : RouterDisaggregatedParams) : Prop := r_bootstrap_port p < 2 ^ 16 ∧ r_bootstrap_room p < 2 ^ 63.

Lemma disaggregated_fields_range v p : disaggregated_fields v = Ok p → params_in_range p.
Proof.
  unfold disaggregated_fields, required_u16, required_bootstrap_room. destruct (required_string v _); [|done]. cbn [result_bind].
  destruct (json_get "bootstrap_port" v) as [w|]; [|done]. cbn [ok_or result_bind]. unfold required_u16_value, u16_try_from.
  destruct (as_u64 w) as [port|]; [|done]. cbn [ok_or result_bind]. destruct (N.ltb_spec port (2 ^ 16)); [|done]. cbn [result_bind].
  destruct (json_get "bootstrap_room" v) as [x|]; [|done]. cbn [ok_or result_bind]. unfold required_bootstrap_room_value.
  destruct (as_u64 x) as [room|]; [|done]. cbn [ok_or result_bind]. destruct (N.ltb_spec i64_MAX room) as [|Hroom]; [done|].
  intros [= <-]. unfold params_in_range, i64_MAX in *. cbn. split; [done|lia].
Qed.

Lemma json_to_disaggregated_params_range p o : json_to_disaggregated_params p = Ok o → opt_all params_in_range o.
Proof.
  unfold json_to_disaggregated_params. destruct (has_bootstrap_field p).
  - destruct (disaggregated_fields p) eqn:H; [|done]. intros [= <-]. by apply disaggregated_fields_range in H.
  - destruct (json_get _ p) as [v|]; [|by intros [= <-]]. destruct (is_object v); [|done].
    destruct (disaggregated_fields v) eqn:H; [|done]. intros [= <-]. by apply disaggregated_fields_range in H.
Qed.

Lemma rank_range p o : optional_routed_dp_rank p = Ok o → is_i32 (default 0%Z o).
Proof.
  unfold optional_routed_dp_rank. destruct (optional_i32 p "routed_dp_rank") as [[z|]|] eqn:H; [| |done]; cbn [result_bind].
  - intros [= <-]. by apply optional_i32_range in H.
  - intros H'%optional_i32_range. destruct o; [done|]. by unfold is_i32.
Qed.

(** The whole-number fields of sampling parameters. *)
Record sampling_ints_in_range (s : RouterSamplingParams) : Prop := {
  max_new_i32 : opt_all is_i32 (r_max_new_tokens s);
  top_k_i32 : opt_all is_i32 (r_top_k s);
  stop_token_i32 : opt_all is_i32 (r_stop_token_id s);
  stop_tokens_i32 : Forall is_i32 (r_stop_token_ids s);
  n_i32 : opt_all is_i32 (r_n s);
  best_of_i32 : opt_all is_i32 (r_best_of s);
}.

Ltac next_field H := match type of H with result_bind ?r _ = Ok _ => let E := fresh "E" in destruct r eqn:E; [|done]; cbn [result_bind] in H end.

Lemma json_to_sampling_params_range v s : json_to_sampling_params v = Ok s → sampling_ints_in_range s.
Proof.
  unfold json_to_sampling_params. destruct (is_object v); [|done]. intros H. repeat next_field H. injection H as <-.
  split; cbn; eauto using optional_i32_range, optional_i32_array_range.
Qed.

Lemma sampling_of_range p o : sampling_of p = Ok o → opt_all sampling_ints_in_range o.
Proof.
  unfold sampling_of. destruct (json_get _ p) as [v|]; [|by intros [= <-]]. intros H. next_field H. injection H as <-.
  by eapply json_to_sampling_params_range.
Qed.

Lemma or_else_all {A} (P : A → Prop) x y : opt_all P x → opt_all P y → opt_all P (or_else x y).
Proof. by destruct x. Qed.

Lemma apply_openai_range p s s' : apply_openai_sampling_params p s = Ok s' → sampling_ints_in_range s → sampling_ints_in_range s'.
Proof.
  unfold apply_openai_sampling_params. intros H [H1 H2 H3 H4 H5 H6]. repeat next_field H. injection H as <-.
  split; cbn; eauto using or_else_all, optional_i32_range.
  match goal with E : optional_i32_array _ _ = Ok ?o |- _ => apply optional_i32_array_range in E; by destruct o end.
Qed.

Lemma openai_sampling_range p model f s : (∀ p o, f p = Ok o → opt_all is_i32 o) → openai_sampling p model f = Ok s → sampling_ints_in_range s.
Proof.
  intros Hf H. unfold openai_sampling in H. next_field H. destruct (negb _); [done|]. repeat next_field H. injection H as <-.
  match goal with E : apply_openai_sampling_params _ _ = Ok _ |- _ => apply apply_openai_range in E as [H1 H2 H3 H4 H5 H6] end.
  - split; cbn; eauto using or_else_all.
  - match goal with E : sampling_of _ = Ok ?o |- _ => apply sampling_of_range in E; destruct o; [exact E|] end. by split.
Qed.

(** A request whose fields are in the ranges of the code's types. *)
Record text_request_in_range (q : RouterTextGenerateRequest) : Prop := {
  text_rank_i32 : is_i32 (t_data_parallel_rank q);
  text_params_range : opt_all params_in_range (t_disaggregated_params q);
  text_sampling_range : opt_all sampling_ints_in_range (t_sampling_params q);
}.
Record token_request_in_range (q : RouterGenerateRequest) : Prop := {
  token_rank_i32 : is_i32 (g_data_parallel_rank q);
  token_params_range : opt_all params_in_range (g_disaggregated_params q);
  token_sampling_range : opt_all sampling_ints_in_range (sampling_params q);
  token_ids_u32 : opt_all (λ input, Forall (λ id, id < 2 ^ 32) (r_input_ids input)) (tokenized q);
}.

Lemma single_text_request_range p text sampling stream q : single_text_request p text sampling stream = Ok q →
  opt_all sampling_ints_in_range sampling → text_request_in_range q.
Proof.
  unfold single_text_request. intros H Hs. repeat next_field H. injection H as <-.
  split; cbn; eauto using rank_range, json_to_disaggregated_params_range.
Qed.

Lemma token_id_array_range v ids : token_id_array v = Ok ids → Forall (λ id, id < 2 ^ 32) ids.
Proof.
  unfold token_id_array. destruct (as_array v) as [vs|]; [|done]. cbn [ok_or result_bind]. intros H. apply Forall_lookup_2. intros i x Hx.
  destruct (try_all_lookup _ _ _ _ _ H Hx) as (w&_&Hf). destruct (as_u64 w) as [n|]; [|done]. cbn [ok_or result_bind] in Hf.
  unfold u32_try_from in Hf. destruct (N.ltb_spec n (2 ^ 32)); [|done]. by injection Hf as <-.
Qed.

Definition all_of {A} (Q : A → Prop) (r : OneOrBatch A) : Prop :=
  match r with OneRequest q => Q q | BatchRequests qs => Forall Q qs end.

Lemma batch_text_requests_range p texts sampling stream qs : batch_text_requests p texts sampling stream = Ok qs →
  opt_all sampling_ints_in_range sampling → Forall text_request_in_range qs.
Proof.
  intros [_ Hi]%batch_text_requests_items Hs. apply Forall_lookup_2. intros i q Hq. destruct (Hi i q Hq) as (text&_&Hone).
  by eapply single_text_request_range.
Qed.

Lemma text_payload_range p r : http_generate_payload_to_router_text_requests p = Ok r → all_of text_request_in_range r.
Proof.
  unfold http_generate_payload_to_router_text_requests. intros H. do 3 next_field H.
  match goal with E : sampling_of _ = Ok _ |- _ => apply sampling_of_range in E as Hs end.
  destruct (as_array _); repeat next_field H; injection H as <-; cbn [all_of];
    eauto using batch_text_requests_range, single_text_request_range.
Qed.

Lemma token_single_range p q : http_generate_payload_to_router_token_requests p = Ok (OneRequest q) → token_request_in_range q.
Proof.
  unfold http_generate_payload_to_router_token_requests. intros H. do 3 next_field H.
  destruct (match _ with v :: _ => is_array v | [] => false end); repeat next_field H; [done|]. injection H as <-.
  split; cbn; eauto using rank_range, json_to_disaggregated_params_range, sampling_of_range, token_id_array_range.
Qed.

Lemma token_payload_range p r : http_generate_payload_to_router_token_requests p = Ok r → all_of token_request_in_range r.
Proof.
  destruct r as [q|qs]; [apply token_single_range|]. intros [_ Hi]%token_items. apply Forall_lookup_2. intros i q Hq.
  by eapply token_single_range, Hi.
Qed.

Lemma completion_payload_range p model r : http_completion_payload_to_router_request p model = Ok r → all_of text_request_in_range r.
Proof.
  unfold http_completion_payload_to_router_request. intros H. next_field H.
  match goal with E : openai_sampling _ _ _ = Ok _ |- _ => apply openai_sampling_range in E as Hs; [|by eauto using optional_i32_range] end.
  do 2 next_field H. match goal with r : OneOrBatch string |- _ => destruct r as [text|texts] end; [|destruct (len texts =? 0); [done|]];
    next_field H; injection H as <-; cbn [all_of]; eauto using batch_text_requests_range, single_text_request_range.
Qed.

Lemma chat_max_tokens_range p o : chat_max_tokens p = Ok o → opt_all is_i32 o.
Proof. unfold chat_max_tokens. intros H. repeat next_field H. injection H as <-. eauto using or_else_all, optional_i32_range. Qed.

Lemma chat_payload_range p model prompt r : http_chat_payload_to_router_request p model prompt = Ok r → all_of text_request_in_range r.
Proof.
  unfold http_chat_payload_to_router_request. intros H. next_field H.
  match goal with E : openai_sampling _ _ _ = Ok _ |- _ => apply openai_sampling_range in E as Hs; [|by eauto using chat_max_tokens_range] end.
  do 2 next_field H. destruct (_ <? 1)%Z; [done|]. destruct (_ =? 1)%Z; next_field H; injection H as <-; cbn [all_of];
    eauto using batch_text_requests_range, single_text_request_range.
Qed.

Lemma responses_payload_range p model r : http_responses_payload_to_router_request p model = Ok r → text_request_in_range (responses_request r).
Proof.
  unfold http_responses_payload_to_router_request. intros H. next_field H.
  match goal with E : openai_sampling _ _ _ = Ok _ |- _ => apply openai_sampling_range in E as Hs; [|by eauto using optional_i32_range] end.
  repeat next_field H. injection H as <-. split; cbn; eauto using rank_range, json_to_disaggregated_params_range.
Qed.

(** C8. Whatever a body holds, the requests an endpoint takes from it stay in the ranges
    of the wire types: ranks, token limits and stop tokens are 32-bit, ports
    16-bit, rooms fit in 63 bits and prompt tokens in 32. *)
Theorem accepted_requests_in_range p model prompt :
  (∀ r, http_generate_payload_to_router_request p = Ok r →
    match r with
    | GenerateText q => text_request_in_range q
    | GenerateBatchText qs => Forall text_request_in_range qs
    | GenerateTokenized q => token_request_in_range q
    | GenerateBatchTokenized qs => Forall token_request_in_range qs
    end) ∧
  (∀ r, http_completion_payload_to_router_request p model = Ok r → all_of text_request_in_range r) ∧
  (∀ r, http_chat_payload_to_router_request p model prompt = Ok r → all_of text_request_in_range r) ∧
  (∀ r, http_responses_payload_to_router_request p model = Ok r → text_request_in_range (responses_request r)).
Proof.
  split; [|split; [|split]]; [|apply completion_payload_range|apply chat_payload_range|apply responses_payload_range].
  intros r. unfold http_generate_payload_to_router_request. destruct (has _ p).
  - intros H. next_field H. match goal with E : _ = Ok _ |- _ => apply token_payload_range in E end. injection H as <-.
    match goal with r : OneOrBatch _ |- _ => by destruct r end.
  - intros H. next_field H. match goal with E : _ = Ok _ |- _ => apply text_payload_range in E end. injection H as <-.
    match goal with r : OneOrBatch _ |- _ => by destruct r end.
Qed.

(** ** The rank of the header *)

Lemma parse_signed_i32 s z : parse_signed 32 s = Some z → is_i32 z.
Proof.
  unfold parse_signed, is_i32. destruct s as [|c rest]; [done|]. destruct (byte_of c =? 45).
  - destruct rest; [done|]. destruct (digits 0 _) as [n|]; [|done]. destruct (Z.leb_spec (Z.of_N n) (2 ^ (32 - 1))); [|done].
    intros [= <-]. lia.
  - intros (n&Hn&->)%fmap_Some. unfold parse_unsigned in Hn.
    set (t := if byte_of c =? 43 then rest else String c rest) in *.
    assert (∃ s, digits 0 s = Some n ∧ n <= Z.to_N (2 ^ (32 - 1) - 1)) as (?&_&Hle).
    { destruct (byte_of c =? 43); cbn in t; subst t; [destruct rest; [done|]|];
      (match type of Hn with context [digits 0 ?s] => exists s; destruct (digits 0 s) as [m|]; [|done] end);
      (match type of Hn with context [if (?m <=? ?x) then _ else _] => destruct (N.leb_spec m x); [|done] end); injection Hn as ->; split; done. }
    change (Z.to_N (2 ^ (32 - 1) - 1)) with 2147483647 in Hle. lia.
Qed.

(** A body in which the header has put its rank. *)
Definition ranked (r : Z) (p : Json) : Prop := is_i32 r ∧ json_get "routed_dp_rank" p = Some (JNumber r).

Lemma header_ranks p text p' : payload_with_routed_dp_rank_header p (Some (Some text)) = Ok p' →
  ∃ r, parse_signed 32 text = Some r ∧ ranked r p'.
Proof.
  unfold payload_with_routed_dp_rank_header, routed_dp_rank_header. cbn [ok_or result_bind].
  destruct (parse_signed 32 text) as [r|] eqn:Hr; [|done]. cbn [ok_or result_bind]. destruct p as [| | | | | | |entries]; try done.
  intros [= <-]. exists r. split; [done|]. split; [by eapply parse_signed_i32|]. unfold json_get. cbn [as_object mbind option_bind].
  apply field_insert.
Qed.

Lemma ranked_pick i r p : ranked r p → ranked r (pick i p).
Proof.
  intros [Hr Hp]. split; [done|]. rewrite json_get_pick, Hp. cbn [fmap option_fmap option_map]. unfold pick_value.
  destruct (batched _); [|done]. unfold JNumber. by destruct (r <? 0)%Z.
Qed.

Lemma as_i64_JNumber r : is_i32 r → as_i64 (JNumber r) = Some r.
Proof.
  unfold is_i32, JNumber. intros Hr. destruct (Z.ltb_spec r 0); [done|]. cbn. unfold i64_MAX.
  destruct (N.leb_spec (Z.to_N r) (2 ^ 63 - 1)); [by rewrite Z2N.id|lia].
Qed.

Lemma ranked_rank r p : ranked r p → optional_routed_dp_rank p = Ok (Some r).
Proof.
  intros [Hr Hp]. unfold optional_routed_dp_rank, optional_i32. rewrite Hp. rewrite as_i64_JNumber by done. cbn [ok_or result_bind].
  assert (∀ e : string, i32_try_from e r = Ok r) as -> by (intros; by apply i32_try_from_Ok). done.
Qed.

Lemma single_text_request_rank r p text sampling stream q : ranked r p →
  single_text_request p text sampling stream = Ok q → t_data_parallel_rank q = r.
Proof.
  intros Hp. unfold single_text_request. intros H. next_field H. rewrite (ranked_rank r p Hp) in H. cbn [result_bind] in H. by injection H as <-.
Qed.

Lemma batch_text_requests_rank r p texts sampling stream qs : ranked r p →
  batch_text_requests p texts sampling stream = Ok qs → Forall (λ q, t_data_parallel_rank q = r) qs.
Proof.
  intros Hp [_ Hi]%batch_text_requests_items. apply Forall_lookup_2. intros i q Hq. destruct (Hi i q Hq) as (text&_&Hone).
  by eapply single_text_request_rank, Hone; apply ranked_pick.
Qed.

#[local] Hint Resolve single_text_request_rank batch_text_requests_rank : core.

Lemma text_payload_rank r p q : ranked r p → http_generate_payload_to_router_text_requests p = Ok q →
  all_of (λ q, t_data_parallel_rank q = r) q.
Proof.
  intros Hp. unfold http_generate_payload_to_router_text_requests. intros H. do 3 next_field H.
  destruct (as_array _); repeat next_field H; injection H as <-; cbn [all_of]; eauto.
Qed.

Lemma token_single_rank r p q : ranked r p → http_generate_payload_to_router_token_requests p = Ok (OneRequest q) → g_data_parallel_rank q = r.
Proof.
  intros Hp. unfold http_generate_payload_to_router_token_requests. intros H. do 3 next_field H.
  destruct (match _ with v :: _ => is_array v | [] => false end); repeat next_field H; [done|]. injection H as <-. cbn.
  match goal with E : optional_routed_dp_rank p = Ok _ |- _ => rewrite (ranked_rank r p Hp) in E; by injection E as <- end.
Qed.

Lemma token_payload_rank r p q : ranked r p → http_generate_payload_to_router_token_requests p = Ok q → all_of (λ q, g_data_parallel_rank q = r) q.
Proof.
  intros Hp. destruct q as [q|qs]; [by apply token_single_rank|]. intros [_ Hi]%token_items. apply Forall_lookup_2. intros i q Hq.
  eapply token_single_rank; [by apply ranked_pick|by eauto].
Qed.

Lemma completion_payload_rank r p model q : ranked r p → http_completion_payload_to_router_request p model = Ok q →
  all_of (λ q, t_data_parallel_rank q = r) q.
Proof.
  intros Hp. unfold http_completion_payload_to_router_request. intros H. do 3 next_field H.
  match goal with r : OneOrBatch string |- _ => destruct r as [text|texts] end; [|destruct (len texts =? 0); [done|]];
    next_field H; injection H as <-; cbn [all_of]; eauto.
Qed.

Lemma chat_payload_rank r p model prompt q : ranked r p → http_chat_payload_to_router_request p model prompt = Ok q →
  all_of (λ q, t_data_parallel_rank q = r) q.
Proof.
  intros Hp. unfold http_chat_payload_to_router_request. intros H. do 3 next_field H.
  destruct (_ <? 1)%Z; [done|]. destruct (_ =? 1)%Z; next_field H; injection H as <-; cbn [all_of]; eauto.
Qed.

Lemma responses_payload_rank r p model q : ranked r p → http_responses_payload_to_router_request p model = Ok q →
  t_data_parallel_rank (responses_request q) = r.
Proof.
  intros Hp. unfold http_responses_payload_to_router_request. intros H. repeat next_field H. injection H as <-. cbn.
  match goal with E : optional_routed_dp_rank p = Ok _ |- _ => rewrite (ranked_rank r p Hp) in E; by injection E as <- end.
Qed.

(** The rank of the header wins: with the header, every request an endpoint takes from
    a body has the rank the header spells, whatever ranks the body gives, and no
    body is taken if the header does not spell a 32-bit integer. *)
Theorem header_rank_wins p model prompt text :
  (∀ q, http_generate_payload_to_router_request_with_headers p (Some (Some text)) = Ok q →
    ∃ r, parse_signed 32 text = Some r ∧
    match q with
    | GenerateText q => t_data_parallel_rank q = r
    | GenerateBatchText qs => Forall (λ q, t_data_parallel_rank q = r) qs
    | GenerateTokenized q => g_data_parallel_rank q = r
    | GenerateBatchTokenized qs => Forall (λ q, g_data_parallel_rank q = r) qs
    end) ∧
  (∀ q, http_completion_payload_to_router_request_with_headers p model (Some (Some text)) = Ok q →
    ∃ r, parse_signed 32 text = Some r ∧ all_of (λ q, t_data_parallel_rank q = r) q) ∧
  (∀ q, http_chat_payload_to_router_request_with_headers p model (Some (Some text)) prompt = Ok q →
    ∃ r, parse_signed 32 text = Some r ∧ all_of (λ q, t_data_parallel_rank q = r) q) ∧
  (∀ q, http_responses_payload_to_router_request_with_headers p model (Some (Some text)) = Ok q →
    ∃ r, parse_signed 32 text = Some r ∧ t_data_parallel_rank (responses_request q) = r).
Proof.
  split; [|split; [|split]]; intros q H; unfold http_generate_payload_to_router_request_with_headers,
    http_completion_payload_to_router_request_with_headers, http_chat_payload_to_router_request_with_headers,
    http_responses_payload_to_router_request_with_headers in H; next_field H;
    match goal with E : payload_with_routed_dp_rank_header _ _ = Ok _ |- _ => apply header_ranks in E as (r&Hr&Hp) end;
    exists r; (split; [done|]).
  - unfold http_generate_payload_to_router_request in H. destruct (has _ _); next_field H;
      match goal with E : _ _ = Ok ?o |- _ => first [apply (token_payload_rank r _ _ Hp) in E|apply (text_payload_rank r _ _ Hp) in E]; destruct o end;
      by injection H as <-.
  - by eapply completion_payload_rank.
  - by eapply chat_payload_rank.
  - by eapply responses_payload_rank.
Qed.

(** ** Chat messages *)

(** A part of a content that is a list: the text it carries. *)
Definition text_part (part : Json) (text : string) : Prop :=
  get_str "type" part = Some "text"%string ∧ get_str "text" part = Some text.

(** The content a message of the given role comes to have: its string, its text parts
    joined, or the null that only an assistant may have, written or left out beside
    tool calls. *)
Inductive content_becomes (entries : list (string * Json)) (role : string) : Json → Prop :=
  | content_string text : field "content" entries = Some (JString text) → content_becomes entries role (JString text)
  | content_parts parts texts : field "content" entries = Some (JArray parts) → Forall2 text_part parts texts →
      content_becomes entries role (JString (foldr String.append ""%string texts))
  | content_null : role = "assistant"%string → field "content" entries = Some JNull → content_becomes entries role JNull
  | content_tool_calls : role = "assistant"%string → field "content" entries = None → is_Some (field "tool_calls" entries) →
      content_becomes entries role JNull.

(** A message as the client wrote it, its content replaced. *)
Definition message_becomes (m v : Json) : Prop :=
  ∃ entries role c, m = JObject entries ∧ field "role" entries = Some (JString role) ∧ chat_role role = true ∧
    content_becomes entries role c ∧ v = JObject (object_insert "content" c entries).

Lemma chat_parts_Ok parts : ∀ text, chat_parts parts = Ok text ↔ ∃ texts, Forall2 text_part parts texts ∧ text = foldr String.append ""%string texts.
Proof.
  induction parts as [|part parts IH]; intros text; cbn [chat_parts].
  - split; [intros [= <-]; by exists []|]. by intros (texts&->%Forall2_nil_inv_l&->).
  - case_bool_decide as Ht.
    2: { split; [done|]. intros (texts&H&_). by inversion H as [|? ? ? ? [] _]. }
    destruct (get_str "text" part) as [t|] eqn:Htext; cbn [ok_or result_bind].
    2: { split; [done|]. intros (texts&H&_). inversion H as [|? ? ? ? [] _]. congruence. }
    split.
    + destruct (chat_parts parts) as [rest|] eqn:Hrest; [|done]. cbn [result_bind]. intros [= <-].
      destruct (proj1 (IH rest) eq_refl) as (texts&Hall&->). exists (t :: texts). by repeat constructor.
    + intros (texts&H&->). inversion H as [|? t' ? texts' [_ Ht'] Hall]; subst.
      rewrite (proj2 (IH _) (ex_intro _ texts' (conj Hall eq_refl))). cbn [result_bind foldr]. congruence.
Qed.

Lemma normalized_message m v : normalize_chat_message m = Ok v ↔ message_becomes m v.
Proof.
  unfold normalize_chat_message. destruct m as [| | | | | | |entries]; try by split; [done|intros (?&?&?&?&_)].
  destruct (field "role" entries) as [[| | | | |role| |]|] eqn:Hrole; cbn [mbind option_bind as_str ok_or result_bind];
    try by split; [done|intros (?&?&?&[= <-]&?&_); congruence].
  destruct (chat_role role) eqn:Hr; cbn [negb]; [|split; [done|intros (?&?&?&[= <-]&H&?&_); congruence]].
  assert (∀ w, message_becomes (JObject entries) w ↔ ∃ c, content_becomes entries role c ∧ w = JObject (object_insert "content" c entries)) as Hsimple.
  { intros w. split; [intros (?&?&c&[= <-]&H&_&Hc&->); simplify_eq; eauto|]. intros (c&Hc&->). by exists entries, role, c. }
  rewrite Hsimple. destruct (field "content" entries) as [c|] eqn:Hc.
  - destruct (is_null c && (role =? "assistant")%string)%bool eqn:Hnull.
    { destruct c; try done. apply String.eqb_eq in Hnull as ->. split.
      - intros [= <-]. exists JNull. rewrite object_insert_id by done. by split; [constructor|].
      - intros (c&[]&->); simplify_eq. by rewrite object_insert_id. }
    destruct c as [| | | | |text|parts|]; cbn [is_null andb] in Hnull |- *; rewrite ?Hnull; cbn [as_array ok_or result_bind];
      try (split; [done|intros (c&[]&_); simplify_eq; done]).
    + split; [intros [= <-]; exists (JString text); by split; [constructor|]|]. intros (c&[]&->); by simplify_eq.
    + split.
      * destruct (chat_parts parts) as [text|] eqn:Hparts; [|done]. intros [= <-]. apply chat_parts_Ok in Hparts as (texts&Hall&->).
        eexists. by split; [eapply content_parts|].
      * intros (c&[| ? texts ? Hall| | ]&->); simplify_eq. by rewrite (proj2 (chat_parts_Ok _ _) (ex_intro _ texts (conj Hall eq_refl))).
  - destruct (String.eqb_spec role "assistant") as [->|Hne]; cbn [andb].
    + case_bool_decide as Htools; split; try done; [intros [= <-]; exists JNull; by split; [constructor|]|..]; intros (c&[]&->); by simplify_eq.
    + split; [done|]. intros (c&[]&->); simplify_eq.
Qed.

Lemma normalize_twice m v : normalize_chat_message m = Ok v → normalize_chat_message v = Ok v.
Proof.
  intros (entries&role&c&->&Hrole&Hr&Hc&->)%normalized_message. unfold normalize_chat_message.
  rewrite field_insert_ne, Hrole by done. cbn [mbind option_bind as_str ok_or result_bind]. rewrite Hr, field_insert. cbn [negb].
  destruct Hc as [| |Ha _|Ha _ _]; rewrite ?Ha; cbn; by rewrite ?object_insert_twice.
Qed.

Lemma reject_reserved_Ok names kwargs : reject_reserved names kwargs = Ok () ↔ Forall (λ name, field name kwargs = None) names.
Proof.
  induction names as [|name names IH]; cbn [reject_reserved]; [by split; [constructor|]|]. rewrite Forall_cons, <- IH.
  case_bool_decide as H; [|by apply eq_None_not_Some in H; rewrite H; split; [|intros []]]. split; [done|]. intros [Hn _]. rewrite Hn in H. by destruct H.
Qed.

Lemma try_all_iff {E A B} (f : A → Result E B) l ys : try_all f l = Ok ys ↔ Forall2 (λ x y, f x = Ok y) l ys.
Proof. split; [apply try_all_Ok|]. induction 1 as [|x y l ys Hx _ IH]; [done|]. cbn. by rewrite Hx; cbn; rewrite IH. Qed.

(** C9. A chat body is taken exactly when its messages are a list that is not empty, each
    an object with a known role and a content that is a string, a list of text parts,
    or, for an assistant, null or left out beside tool calls; when its tools are a list
    and its template arguments an object, or absent or null; and when no argument hides
    the names the server sets.  The template is then given those tools and arguments
    and the messages in order, each as the client wrote it but for its content, which
    is the string, the parts' texts joined in order, or null.  Normalizing these
    messages again changes nothing. *)
Theorem chat_messages_normalized p input :
  (chat_template_input_from_payload p = Ok input ↔
   ∃ ms, json_get "messages" p = Some (JArray ms) ∧ ms ≠ [] ∧ Forall2 message_becomes ms (messages input) ∧
     match json_get "tools" p with
     | None | Some JNull => tools _ input = None
     | Some v => ∃ ts, v = JArray ts ∧ tools _ input = Some ts
     end ∧
     match json_get "chat_template_kwargs" p with
     | None | Some JNull => template_kwargs _ input = []
     | Some v => v = JObject (template_kwargs _ input)
     end ∧
     Forall (λ name, field name (template_kwargs _ input) = None) ["messages"; "tools"; "add_generation_prompt"]%string) ∧
  (chat_template_input_from_payload p = Ok input → try_all normalize_chat_message (messages input) = Ok (messages input)).
Proof.
  assert (∀ ms vs, try_all normalize_chat_message ms = Ok vs ↔ Forall2 message_becomes ms vs) as Hall.
  { intros ms vs. rewrite try_all_iff. split; intros H; (eapply Forall2_impl; [exact H|]); intros m v; apply normalized_message. }
  split.
  - unfold chat_template_input_from_payload. destruct (json_get "messages" p) as [[| | | | | |ms|]|]; cbn [mbind option_bind as_array ok_or result_bind];
      try by split; [done|intros (?&?&_)].
    destruct (N.eqb_spec (len ms) 0) as [H0|Hne].
    { split; [done|]. intros (?&[= <-]&Hms&_). by destruct ms. }
    split.
    + intros H. repeat next_field H. injection H as <-. exists ms. cbn [messages tools template_kwargs].
      split; [done|]. split; [by intros ->|]. split; [by apply Hall|].
      split; [by destruct (json_get "tools" p) as [[]|]; simplify_eq; eauto|].
      split; [by destruct (json_get "chat_template_kwargs" p) as [[]|]; simplify_eq|].
      match goal with E : reject_reserved _ _ = Ok ?u |- _ => destruct u; by apply reject_reserved_Ok in E end.
    + intros (?&[= <-]&_&->%Hall&Htools&Hkwargs&Hnames). cbn [result_bind].
      assert (reject_reserved ["messages"; "tools"; "add_generation_prompt"]%string (template_kwargs _ input) = Ok ()) as Hreserved
        by by apply reject_reserved_Ok.
      destruct input as [vs ts kwargs]. cbn [messages tools template_kwargs] in *.
      destruct (json_get "tools" p) as [[]|]; try (by destruct Htools as (?&?&_)); try destruct Htools as (?&[= <-]&->); subst; cbn [result_bind];
        (destruct (json_get "chat_template_kwargs" p) as [[]|]; simplify_eq; cbn [result_bind]; by rewrite Hreserved).
  - unfold chat_template_input_from_payload. intros H. next_field H. destruct (_ =? 0); [done|]. repeat next_field H. injection H as <-. cbn [messages].
    match goal with E : try_all _ _ = Ok _ |- _ => apply try_all_Ok in E; clear -E; induction E as [|m v ms vs Hm _ IH] end; [done|].
    cbn [try_all]. by rewrite (normalize_twice _ _ Hm), IH.
Qed.

(** ** Sampling parameters *)

(** Of the two places a body of [/v1/completions] may give a sampling parameter in, its
    own field wins over the [sampling_params] object, [max_tokens] over
    [max_new_tokens]; fields the runtime cannot honour are refused unless null. *)
Theorem openai_fields_win p model s : openai_sampling p model (λ p, optional_i32 p "max_tokens") = Ok s →
  ∃ nested, sampling_of p = Ok nested ∧
    let nested := default RouterSamplingParams_default nested in
    (∃ o, optional_i32 p "max_tokens" = Ok o ∧ r_max_new_tokens s = or_else o (r_max_new_tokens nested)) ∧
    (∃ o, optional_f32 p "temperature" = Ok o ∧ r_temperature s = or_else o (r_temperature nested)) ∧
    (∃ o, optional_f32 p "top_p" = Ok o ∧ r_top_p s = or_else o (r_top_p nested)) ∧
    (∃ o, optional_i32 p "top_k" = Ok o ∧ r_top_k s = or_else o (r_top_k nested)) ∧
    (∃ o, optional_bool p "ignore_eos" = Ok o ∧ r_ignore_eos s = or_else o (r_ignore_eos nested)) ∧
    (∃ o, optional_i32_array p "stop_token_ids" = Ok o ∧ r_stop_token_ids s = default (r_stop_token_ids nested) o) ∧
    Forall (λ f, non_null p f = false) ["stop"; "seed"; "logit_bias"; "response_format"; "best_of"]%string.
Proof.
  unfold openai_sampling. intros H. next_field H. destruct (negb _); [done|]. repeat next_field H. injection H as <-.
  match goal with E : apply_openai_sampling_params _ _ = Ok _ |- _ => rename E into Happ end.
  match goal with E : sampling_of _ = Ok ?o |- _ => exists o; split; [done|]; cbn zeta; generalize dependent (default RouterSamplingParams_default o); clear E end.
  intros nested Happ. unfold apply_openai_sampling_params in Happ. repeat next_field Happ. injection Happ as <-. cbn.
  do 6 (split; [by eauto|]).
  match goal with E : reject_fields _ _ = Ok _ |- _ => revert E; generalize ["stop"; "seed"; "logit_bias"; "response_format"; "best_of"]%string end.
  intros fields. induction fields as [|f fields IH]; [constructor|]. cbn. destruct (non_null p f) eqn:Hf; [done|]. intros. constructor; auto.
Qed.

(** ** Concrete bodies *)

#[local] Open Scope string_scope.

Definition demo_batch : Json :=
  JObject [("text", JArray [JString "a"; JString "b"]); ("request_id", JArray [JString "x"; JString "y"]); ("routed_dp_rank", JUint 3);
           ("bootstrap_host", JString "h"); ("bootstrap_port", JArray [JUint 8000; JUint 8001]); ("bootstrap_room", JArray [JUint 5; JUint 6])].

Definition demo_request (id text : string) (port room : N) (rank : Z) : RouterTextGenerateRequest :=
  mkRouterTextGenerateRequest id text None (Some (mkRouterDisaggregatedParams "h" port room)) false rank ∅.

Lemma batch_is_its_items_witness :
  http_generate_payload_to_router_request demo_batch = Ok (GenerateBatchText [demo_request "x" "a" 8000 5 3; demo_request "y" "b" 8001 6 3]) ∧
  (∀ i r, [demo_request "x" "a" 8000 5 3; demo_request "y" "b" 8001 6 3] !! i = Some r →
     http_generate_payload_to_router_request (pick i demo_batch) = Ok (GenerateText r)).
Proof.
  split; [reflexivity|].
  apply (proj1 (batch_is_its_items demo_batch "m") (GenerateBatchText [demo_request "x" "a" 8000 5 3; demo_request "y" "b" 8001 6 3])).
  reflexivity.
Defined.

Lemma accepted_requests_in_range_witness : Forall text_request_in_range [demo_request "x" "a" 8000 5 3; demo_request "y" "b" 8001 6 3].
Proof.
  apply (proj1 (accepted_requests_in_range demo_batch "m" "") (GenerateBatchText [demo_request "x" "a" 8000 5 3; demo_request "y" "b" 8001 6 3])).
  reflexivity.
Defined.

Lemma header_rank_wins_witness : ∃ r, parse_signed 32 "-7" = Some r ∧
  Forall (λ q, t_data_parallel_rank q = r) [demo_request "x" "a" 8000 5 (-7); demo_request "y" "b" 8001 6 (-7)].
Proof.
  apply (proj1 (header_rank_wins demo_batch "m" "" "-7") (GenerateBatchText [demo_request "x" "a" 8000 5 (-7); demo_request "y" "b" 8001 6 (-7)])).
  reflexivity.
Defined.

Definition demo_chat : Json :=
  JObject [("messages", JArray [JObject [("content", JArray [JObject [("type", JString "text"); ("text", JString "hi")]]); ("role", JString "user")];
                               JObject [("role", JString "assistant"); ("tool_calls", JArray [])]])].
Definition demo_messages : list Json :=
  [JObject [("content", JString "hi"); ("role", JString "user")]; JObject [("role", JString "assistant"); ("tool_calls", JArray []); ("content", JNull)]].

Lemma chat_messages_normalized_witness :
  try_all normalize_chat_message demo_messages = Ok demo_messages ∧
  ∃ ms, json_get "messages" demo_chat = Some (JArray ms) ∧ Forall2 message_becomes ms demo_messages.
Proof.
  destruct (chat_messages_normalized demo_chat (mkChatTemplateInput demo_messages None [])) as [H1 H2].
  split; [by apply H2|]. destruct (proj1 H1 eq_refl) as (ms&Hm&_&H&_). by exists ms.
Defined.

Definition demo_completion_body (rest : list (string * Json)) : Json :=
  JObject ([("model", JString "m"); ("prompt", JString "hi"); ("max_tokens", JUint 5);
            ("sampling_params", JObject [("max_new_tokens", JUint 9); ("top_k", JInt (-1))])] ++ rest).

Lemma openai_fields_win_witness :
  ∃ nested, sampling_of (demo_completion_body []) = Ok nested ∧ r_max_new_tokens (default RouterSamplingParams_default nested) = Some 9%Z ∧
    ∃ o, optional_i32 (demo_completion_body []) "max_tokens" = Ok o ∧
      Some 5%Z = or_else o (r_max_new_tokens (default RouterSamplingParams_default nested)).
Proof.
  destruct (openai_fields_win (demo_completion_body []) "m"
    (mkRouterSamplingParams (Some 5%Z) None None (Some (-1)%Z) None None None None None [] None None None) eq_refl) as (nested&Hn&Ho&_).
  exists nested. split; [exact Hn|]. split; [by injection Hn as <-|exact Ho].
Defined.

(** Transfer coordinates given once go to every request of a batch, room included,
    though a room names one transfer; and a [null] for [logprobs] is refused while
    it is taken as absent for the other fields the runtime does not support. *)
Example batch_shares_its_room :
  http_generate_payload_to_router_request
    (JObject [("text", JArray [JString "a"; JString "b"]); ("bootstrap_host", JString "h"); ("bootstrap_port", JUint 8000); ("bootstrap_room", JUint 5)])
  = Ok (GenerateBatchText [demo_request "" "a" 8000 5 0; demo_request "" "b" 8000 5 0]).
Proof. reflexivity. Qed.
Example null_logprobs_refused :
  http_completion_payload_to_router_request (demo_completion_body [("logprobs", JNull)]) "m"
    = Err "logprobs is not supported by the current sampling runtime" ∧
  is_Ok (http_completion_payload_to_router_request (demo_completion_body [("seed", JNull); ("stop", JNull)]) "m") = true.
Proof. split; reflexivity. Qed.
