(* ===== verification/HttpReplies.v ===== *)
(** * Answers of the HTTP server ([crates/sglang-srt/src/http.rs], [openai/id.rs])

    What the server makes of the runtime's responses and errors: statuses, JSON
    bodies, the frames of event streams and the event encoder of [/v1/responses].
    [serde_json::to_string] is a parameter that may fail, the shortest decimal form
    of a float another; the clock is read once per event that carries a time. *)

From stdpp Require Import pretty.
From S2P Require Import Prelude Float32 Text PageAllocator Request Tokenizer Engine RouterProtocol KvBootstrap RouterRuntime Safetensors JsonValue.
#[local] Open Scope N_scope.

(** ** Messages *)

(** [sglang-srt/src/scheduler.rs:259-280] SchedulerError::fmt *)
Definition SchedulerError_to_string (e : SchedulerError) : string :=
  match e with
  | EmptyQueue => "scheduler queue is empty"
  | Request.RunningRequestLimitReached max_running_requests => "running request limit reached: " +:+ pretty max_running_requests
  | DecodeNotReady request_id => "decode request " +:+ request_id +:+ " is not ready"
  | CacheAllocation error => "cache allocation error: " +:+ CacheAllocationError_to_string error
  | Worker error => "worker execution error: " +:+ WorkerExecutionError_to_string error
  end.

(** [sglang-srt/src/engine.rs:20-30] RuntimeError::fmt *)
Definition RuntimeError_to_string (e : RuntimeError) : string :=
  match e with
  | SchedulerFailure error => "scheduler error: " +:+ SchedulerError_to_string error
  | TokenizerFailure error => "tokenizer error: " +:+ TokenizerError_to_string error
  | TransferFailure error => "transfer error: " +:+ KvCacheTransferError_to_string error
  | WorkerFailure error => "worker error: " +:+ WorkerExecutionError_to_string error
  | InvalidState error => error
  end.

(** [display_f32] writes a float as [format!] does. *)
Section Messages.
Context (display_f32 : f32 → string).

(** [sglang-srt/src/router.rs:1716-1774] RouterProtocolError::fmt *)
Definition RouterProtocolError_to_string (e : RouterProtocolError) : string :=
  match e with
  | MissingRequestId => "missing router request id"
  | MissingTokenizedInput => "missing router tokenized input"
  | EmptyTokenizedInput => "empty router tokenized input"
  | EmptyTextInput => "empty router text input"
  | GenerationPaused => "router generation is paused"
  | InvalidIntegerSamplingParam field value expected =>
      "router sampling param " +:+ field +:+ " must be " +:+ expected +:+ ": " +:+ pretty value
  | InvalidFloatSamplingParam field value expected =>
      "router sampling param " +:+ field +:+ " must be " +:+ expected +:+ ": " +:+ display_f32 value
  | InputTooLong input_tokens max_request_input_tokens =>
      "router input token count " +:+ pretty input_tokens +:+ " exceeds max request input token limit " +:+ pretty max_request_input_tokens
  | ContextOverflow input_tokens max_new_tokens max_context_tokens =>
      "router input token count " +:+ pretty input_tokens +:+ " plus max_new_tokens " +:+ pretty max_new_tokens
      +:+ " exceeds context token limit " +:+ pretty max_context_tokens
  | RunningRequestLimitReached max_running_requests =>
      "router running request limit reached: " +:+ pretty max_running_requests
  end.

(** [sglang-srt/src/router.rs:1783-1790] RouterRuntimeError::fmt *)
Definition RouterRuntimeError_to_string (e : RouterRuntimeError) : string :=
  match e with
  | ProtocolError error => "router protocol error: " +:+ RouterProtocolError_to_string error
  | RuntimeFailure error => "router runtime error: " +:+ RuntimeError_to_string error
  end.

End Messages.

(** ** HTTP responses *)

Inductive StatusCode : Type :=
  | OK | BAD_REQUEST | NOT_FOUND | CONFLICT | PRECONDITION_FAILED | TOO_MANY_REQUESTS
  | INTERNAL_SERVER_ERROR | NOT_IMPLEMENTED | SERVICE_UNAVAILABLE.

(** The body: JSON, text, nothing, or an event stream with the frames the client got. *)
Inductive Body : Type :=
  | JsonBody (v : Json)
  | TextBody (s : string)
  | EmptyBody
  | StreamBody (frames : list string).

Record Response : Type := mkHttpResponse { status : StatusCode; content : Body }.

(** [json!({ "error": { "message": message } })] *)
Definition error_json (message : string) : Json := JObject [("error", JObject [("message", JString message)])]%string.

(** [sglang-srt/src/http.rs:1462-1468] bad_request_json *)
Definition bad_request_json (message : string) : Response := mkHttpResponse BAD_REQUEST (JsonBody (error_json message)).

(** [sglang-srt/src/http.rs:1470-1476] internal_error_json *)
Definition internal_error_json (message : string) : Response := mkHttpResponse INTERNAL_SERVER_ERROR (JsonBody (error_json message)).

(** [sglang-srt/src/http.rs:1845-1851] router_status_code_to_http_status *)
Definition router_status_code_to_http_status (code : RouterStatusCode) : StatusCode :=
  match code with
  | InvalidArgument => BAD_REQUEST
  | ResourceExhausted => TOO_MANY_REQUESTS
  | FailedPrecondition => PRECONDITION_FAILED
  end.

Section Errors.
Context (display_f32 : f32 → string).

(** [sglang-srt/src/http.rs:1822-1835] router_runtime_error_json *)
Definition router_runtime_error_json (error : RouterRuntimeError) : Response :=
  mkHttpResponse
    (match error with
     | ProtocolError protocol => router_status_code_to_http_status (status_code protocol)
     | RuntimeFailure _ => INTERNAL_SERVER_ERROR
     end)
    (JsonBody (error_json (RouterRuntimeError_to_string display_f32 error))).

(** [sglang-srt/src/http.rs:1837-1843] router_protocol_error_json *)
Definition router_protocol_error_json (error : RouterProtocolError) : Response :=
  mkHttpResponse (router_status_code_to_http_status (status_code error))
    (JsonBody (error_json (RouterProtocolError_to_string display_f32 error))).

End Errors.

(** [sglang-srt/src/openai/id.rs:4-10] openai_response_id *)
Definition openai_response_id (prefix request_id : string) : string :=
  if starts_with prefix request_id then request_id else prefix +:+ request_id.

(** [a + b] on [i32], as a release build computes it. *)
Definition i32_add (a b : Z) : Z := ((a + b + 2 ^ 31) mod 2 ^ 32 - 2 ^ 31)%Z.

(** ** Complete answers *)

(** The usage objects; the chat answers leave the total out. *)
Definition usage_json (prompt completion cached : Z) : Json :=
  JObject [("prompt_tokens", JNumber prompt); ("completion_tokens", JNumber completion); ("cached_tokens", JNumber cached)]%string.
Definition usage_total_json (prompt completion cached : Z) : Json :=
  JObject [("prompt_tokens", JNumber prompt); ("completion_tokens", JNumber completion);
           ("total_tokens", JNumber (i32_add prompt completion)); ("cached_tokens", JNumber cached)]%string.

Definition complete_usage (c : RouterGenerateComplete) : Json :=
  usage_json (complete_prompt_tokens c) (complete_completion_tokens c) (complete_cached_tokens c).

(** [sglang-srt/src/http.rs:1708-1728] generate_complete_response_json *)
Definition generate_complete_response_json (r : RouterGenerateResponse) : Result RouterGenerateResponse Json :=
  match body r with
  | Completed c =>
      Ok (JObject [("request_id", JString (response_id r)); ("text", JString (complete_text c)); ("output_ids", JUints (complete_output_ids c));
                   ("finish_reason", JString (finish_reason c)); ("usage", complete_usage c)]%string)
  | _ => Err r
  end.

(** The answer to a response that is not complete; [what] names the endpoint. *)
(** [sglang-srt/src/http.rs:1643-1657] generate (incomplete) *)
Definition incomplete_response (what : string) (b : RouterGenerateResponseBody) : Response :=
  match b with
  | Chunk _ => internal_error_json ("non-stream HTTP " +:+ what +:+ " returned a stream chunk")
  | ResponseError message => internal_error_json message
  | Completed _ => internal_error_json ""
  end.

Definition no_response : Response := internal_error_json "generation produced no response".

(** [sglang-srt/src/http.rs:1633-1659] generate (single answer) *)
Definition generate_single_answer (responses : list RouterGenerateResponse) : Response :=
  match last responses with
  | None => no_response
  | Some r =>
      match generate_complete_response_json r with
      | Ok body => mkHttpResponse OK (JsonBody body)
      | Err r => incomplete_response "generate" (body r)
      end
  end.

(** [sglang-srt/src/http.rs:1660-1694] generate (batch answer) *)
Fixpoint generate_batch_items (batch : list (list RouterGenerateResponse)) : Result Response (list Json) :=
  match batch with
  | [] => Ok []
  | responses :: batch =>
      let? r := ok_or (last responses) no_response in
      let? item := result_map_err (λ r, incomplete_response "generate" (body r)) (generate_complete_response_json r) in
      let? items := generate_batch_items batch in
      Ok (item :: items)
  end.

Definition generate_batch_answer (batch : list (list RouterGenerateResponse)) : Response :=
  match generate_batch_items batch with
  | Ok items => mkHttpResponse OK (JsonBody (JArray items))
  | Err r => r
  end.

(** [sglang-srt/src/http.rs:2853-2902] http_completion_response_from_router_responses *)
Definition http_completion_response_from_router_responses (responses : list RouterGenerateResponse) (model : string) : Response :=
  match last responses with
  | None => no_response
  | Some r =>
      match body r with
      | Completed c =>
          mkHttpResponse OK (JsonBody (JObject
            [("id", JString (openai_response_id "cmpl-" (response_id r))); ("object", JString "text_completion"); ("model", JString model);
             ("choices", JArray [JObject [("index", JUint (complete_index c)); ("text", JString (complete_text c)); ("logprobs", JNull);
                                          ("finish_reason", JString (finish_reason c))]]);
             ("usage", usage_total_json (complete_prompt_tokens c) (complete_completion_tokens c) (complete_cached_tokens c))]%string))
      | b => incomplete_response "completion" b
      end
  end.

(** [sglang-srt/src/http.rs:2904-2909] CompletionUsage *)
Record CompletionUsage : Type := mkCompletionUsage {
  usage_prompt_tokens : Z;
  usage_completion_tokens : Z;
  usage_cached_tokens : Z;
}.
Definition CompletionUsage_default : CompletionUsage := mkCompletionUsage 0 0 0.

(** [sglang-srt/src/http.rs:2911-2917] CompletionUsage::add_complete *)
Definition add_complete (u : CompletionUsage) (c : RouterGenerateComplete) : CompletionUsage :=
  mkCompletionUsage (i32_add (usage_prompt_tokens u) (complete_prompt_tokens c))
    (i32_add (usage_completion_tokens u) (complete_completion_tokens c)) (i32_add (usage_cached_tokens u) (complete_cached_tokens c)).

(** The loops over a batch of [/v1/completions] and [/v1/chat/completions] differ in
    the choice they make of a completion; [index] counts the requests. *)
(** [sglang-srt/src/http.rs:2927-2967] http_completion_batch_response_from_router_responses (loop) *)
Fixpoint batch_choices (what : string) (choice : N → RouterGenerateComplete → Json) (index : N) (usage : CompletionUsage)
    (response_id : option string) (batch : list (list RouterGenerateResponse)) : Result Response (list Json * CompletionUsage * option string) :=
  match batch with
  | [] => Ok ([], usage, response_id)
  | responses :: batch =>
      let? r := ok_or (last responses) no_response in
      let response_id := match response_id with Some id => Some id | None => Some (RouterProtocol.response_id r) end in
      match body r with
      | Completed c =>
          let? '(choices, usage, response_id) := batch_choices what choice (index + 1) (add_complete usage c) response_id batch in
          Ok (choice index c :: choices, usage, response_id)
      | b => Err (incomplete_response what b)
      end
  end.

Definition completion_choice (index : N) (c : RouterGenerateComplete) : Json :=
  JObject [("index", JUint index); ("text", JString (complete_text c)); ("logprobs", JNull); ("finish_reason", JString (finish_reason c))]%string.

(** [sglang-srt/src/http.rs:2919-2985] http_completion_batch_response_from_router_responses *)
Definition http_completion_batch_response_from_router_responses (batch : list (list RouterGenerateResponse)) (model : string) : Response :=
  match batch_choices "completion" completion_choice 0 CompletionUsage_default None batch with
  | Err r => r
  | Ok (choices, usage, response_id) =>
      mkHttpResponse OK (JsonBody (JObject
        [("id", JString (openai_response_id "cmpl-" (default "" response_id))); ("object", JString "text_completion"); ("model", JString model);
         ("choices", JArray choices);
         ("usage", usage_total_json (usage_prompt_tokens usage) (usage_completion_tokens usage) (usage_cached_tokens usage))]%string))
  end.

Definition assistant_message (text : string) : Json := JObject [("role", JString "assistant"); ("content", JString text)]%string.

Definition chat_choice (index : N) (c : RouterGenerateComplete) : Json :=
  JObject [("index", JUint index); ("message", assistant_message (complete_text c)); ("finish_reason", JString (finish_reason c))]%string.

(** [sglang-srt/src/http.rs:1973-2019] chat_completions (single answer) *)
Definition chat_single_answer (responses : list RouterGenerateResponse) (model : string) : Response :=
  match last responses with
  | None => no_response
  | Some r =>
      match body r with
      | Completed c =>
          mkHttpResponse OK (JsonBody (JObject
            [("id", JString (openai_response_id "chatcmpl-" (response_id r))); ("object", JString "chat.completion"); ("model", JString model);
             ("choices", JArray [chat_choice (complete_index c) c]); ("usage", complete_usage c)]%string))
      | b => incomplete_response "chat completion" b
      end
  end.

(** [sglang-srt/src/http.rs:2084-2153] http_chat_batch_response_from_router_responses *)
Definition http_chat_batch_response_from_router_responses (batch : list (list RouterGenerateResponse)) (model : string) : Response :=
  match batch_choices "chat completion" chat_choice 0 CompletionUsage_default None batch with
  | Err r => r
  | Ok (choices, usage, response_id) =>
      mkHttpResponse OK (JsonBody (JObject
        [("id", JString (openai_response_id "chatcmpl-" (default "" response_id))); ("object", JString "chat.completion"); ("model", JString model);
         ("choices", JArray choices);
         ("usage", usage_json (usage_prompt_tokens usage) (usage_completion_tokens usage) (usage_cached_tokens usage))]%string))
  end.

(** [sglang-srt/src/http.rs:2677-2679] responses_message_id *)
Definition responses_message_id (request_id : string) : string := "msg_" +:+ request_id.

Definition annotated_text (text : string) : Json :=
  JObject [("type", JString "output_text"); ("text", JString text); ("annotations", JArray [])]%string.

(** [now] is the time of the clock. *)
(** [sglang-srt/src/http.rs:2642-2675] responses_complete_json *)
Definition responses_complete_json (now : N) (model request_id : string) (c : RouterGenerateComplete) : Json :=
  JObject
    [("id", JString (openai_response_id "resp-" request_id)); ("object", JString "response"); ("created_at", JUint now);
     ("status", JString "completed"); ("model", JString model);
     ("output", JArray [JObject [("id", JString (responses_message_id request_id)); ("type", JString "message"); ("status", JString "completed");
                                 ("role", JString "assistant"); ("content", JArray [annotated_text (complete_text c)])]]);
     ("output_text", JString (complete_text c));
     ("usage", JObject [("input_tokens", JNumber (complete_prompt_tokens c)); ("output_tokens", JNumber (complete_completion_tokens c));
                        ("total_tokens", JNumber (i32_add (complete_prompt_tokens c) (complete_completion_tokens c)));
                        ("cached_tokens", JNumber (complete_cached_tokens c))])]%string.

(** [sglang-srt/src/http.rs:2469-2492] http_responses_response_from_router_responses *)
Definition http_responses_response_from_router_responses (now : N) (responses : list RouterGenerateResponse) (model : string) : Response :=
  match last responses with
  | None => no_response
  | Some r =>
      match body r with
      | Completed c => mkHttpResponse OK (JsonBody (responses_complete_json now model (response_id r) c))
      | b => incomplete_response "responses" b
      end
  end.

(** ** Frames of event streams *)

(** [json_text] is the compact text of a value, which both [Display] and
    [serde_json::to_string] write; the latter may also fail, [json_error] says when. *)
Section Frames.
Context (json_text : Json → string) (json_error : Json → option string).

Definition to_json (v : Json) : Result string string :=
  match json_error v with Some error => Err error | None => Ok (json_text v) end.

(** [Bytes::from(format!("data: {payload}\n\n"))] *)
Definition data_frame (payload : string) : string := "data: " +:+ payload +:+ newline +:+ newline.

(** The serialized payload in a frame; [what] is the text before the error. *)
Definition json_frame (what : string) (payload : Json) : Result string string :=
  let? text := result_map_err (λ error, "serialize " +:+ what +:+ " JSON: " +:+ error) (to_json payload) in Ok (data_frame text).

(** [sglang-srt/src/http.rs:2269-2272] sse_error_frame *)
Definition sse_error_frame (message : string) : string := data_frame (json_text (error_json message)).

Definition done_frame : string := data_frame "[DONE]".

(** [sglang-srt/src/http.rs:1731-1756] generate_stream_frame (payload) *)
Definition generate_stream_payload (r : RouterGenerateResponse) : Json :=
  match body r with
  | Chunk c =>
      JObject [("request_id", JString (response_id r)); ("text", JString (chunk_text c)); ("output_ids", JUints (chunk_token_ids c));
               ("usage", usage_json (chunk_prompt_tokens c) (chunk_completion_tokens c) (chunk_cached_tokens c))]%string
  | Completed c =>
      JObject [("request_id", JString (response_id r)); ("text", JString (complete_text c)); ("output_ids", JUints (complete_output_ids c));
               ("finish_reason", JString (finish_reason c)); ("usage", complete_usage c)]%string
  | ResponseError message => error_json message
  end.

(** [sglang-srt/src/http.rs:1730-1760] generate_stream_frame *)
Definition generate_stream_frame (r : RouterGenerateResponse) : Result string string :=
  json_frame "SGLang generate stream" (generate_stream_payload r).

(** [sglang-srt/src/http.rs:2988-3020] completion_stream_frame (payload) *)
Definition completion_stream_payload (model : string) (r : RouterGenerateResponse) : Json :=
  let fields := [("id", JString (openai_response_id "cmpl-" (response_id r))); ("object", JString "text_completion"); ("model", JString model)]%string in
  match body r with
  | Chunk c =>
      JObject (fields ++ [("choices", JArray [JObject [("index", JUint (chunk_index c)); ("text", JString (chunk_text c)); ("logprobs", JNull);
                                                       ("finish_reason", JNull)]])]%string)
  | Completed c =>
      JObject (fields ++ [("choices", JArray [JObject [("index", JUint (complete_index c)); ("text", JString ""); ("logprobs", JNull);
                                                       ("finish_reason", JString (finish_reason c))]]);
                          ("usage", usage_total_json (complete_prompt_tokens c) (complete_completion_tokens c) (complete_cached_tokens c))]%string)
  | ResponseError message => error_json message
  end.

(** [sglang-srt/src/http.rs:2987-3024] completion_stream_frame *)
Definition completion_stream_frame (model : string) (r : RouterGenerateResponse) : Result string string :=
  json_frame "OpenAI completion stream" (completion_stream_payload model r).

(** [sglang-srt/src/http.rs:2234-2263] chat_stream_frame (payload) *)
Definition chat_stream_payload (model : string) (r : RouterGenerateResponse) : Json :=
  let fields := [("id", JString (openai_response_id "chatcmpl-" (response_id r))); ("object", JString "chat.completion.chunk"); ("model", JString model)]%string in
  match body r with
  | Chunk c =>
      JObject (fields ++ [("choices", JArray [JObject [("index", JUint (chunk_index c)); ("delta", JObject [("content", JString (chunk_text c))]);
                                                       ("finish_reason", JNull)]])]%string)
  | Completed c =>
      JObject (fields ++ [("choices", JArray [JObject [("index", JUint (complete_index c)); ("delta", JObject []);
                                                       ("finish_reason", JString (finish_reason c))]]);
                          ("usage", complete_usage c)]%string)
  | ResponseError message => error_json message
  end.

(** [sglang-srt/src/http.rs:2233-2267] chat_stream_frame *)
Definition chat_stream_frame (model : string) (r : RouterGenerateResponse) : Result string string :=
  json_frame "OpenAI chat stream" (chat_stream_payload model r).

(** ** The event encoder of [/v1/responses] *)

(** [sglang-srt/src/http.rs:2494-2500] ResponsesStreamEncoder *)
Record ResponsesStreamEncoder : Type := mkEncoder {
  encoder_model : string;
  sequence_number : Z;
  message_open : bool;
  encoder_response_id : string;
  item_id : string;
}.

(** [sglang-srt/src/http.rs:2503-2511] ResponsesStreamEncoder::new *)
Definition ResponsesStreamEncoder_new (model : string) : ResponsesStreamEncoder := mkEncoder model 0 false "" "".

(** [object.insert("sequence_number", ...)] where the event is an object. *)
Definition numbered (n : Z) (event : Json) : Json :=
  match event with JObject entries => JObject (object_insert "sequence_number" (JNumber n) entries) | v => v end.

(** [sglang-srt/src/http.rs:2631-2639] ResponsesStreamEncoder::event *)
Definition encoder_event (e : ResponsesStreamEncoder) (event : Json) : Result string string * ResponsesStreamEncoder :=
  (json_frame "OpenAI responses stream" (numbered (sequence_number e) event),
   mkEncoder (encoder_model e) (i32_add (sequence_number e) 1) (message_open e) (encoder_response_id e) (item_id e)).

(** Several events, one frame each; the first failure ends it. *)
Fixpoint encoder_events (e : ResponsesStreamEncoder) (events : list Json) : Result string (list string) * ResponsesStreamEncoder :=
  match events with
  | [] => (Ok [], e)
  | event :: events =>
      let! frame, e := encoder_event e event in
      let! frames, e := encoder_events e events in
      (Ok (frame :: frames), e)
  end.

Definition added_event (item : string) : Json :=
  JObject [("type", JString "response.output_item.added"); ("output_index", JUint 0);
           ("item", JObject [("id", JString item); ("type", JString "message"); ("status", JString "in_progress"); ("role", JString "assistant");
                             ("content", JArray [])])]%string.
Definition part_added_event (item : string) : Json :=
  JObject [("type", JString "response.content_part.added"); ("item_id", JString item); ("output_index", JUint 0); ("content_index", JUint 0);
           ("part", JObject [("type", JString "output_text"); ("text", JString ""); ("annotations", JArray []); ("logprobs", JNull)])]%string.

(** [sglang-srt/src/http.rs:2600-2629] ResponsesStreamEncoder::open_message *)
Definition open_message (e : ResponsesStreamEncoder) : Result string (list string) * ResponsesStreamEncoder :=
  if message_open e then (Ok [], e)
  else
    let e := mkEncoder (encoder_model e) (sequence_number e) true (encoder_response_id e) (item_id e) in
    encoder_events e [added_event (item_id e); part_added_event (item_id e)].

Definition created_event (now : N) (model response : string) : Json :=
  JObject [("type", JString "response.created");
           ("response", JObject [("id", JString response); ("object", JString "response"); ("created_at", JUint now); ("status", JString "in_progress");
                                 ("model", JString model); ("output", JArray []); ("output_text", JString "")])]%string.
Definition delta_event (item : string) (c : RouterGenerateStreamChunk) : Json :=
  JObject [("type", JString "response.output_text.delta"); ("output_index", JUint (chunk_index c)); ("content_index", JUint 0);
           ("item_id", JString item); ("delta", JString (chunk_text c)); ("logprobs", JArray [])]%string.

(** The four events that close the message and the response. *)
(** [sglang-srt/src/http.rs:2545-2589] ResponsesStreamEncoder::encode (completion) *)
Definition closing_events (now : N) (model item request_id : string) (c : RouterGenerateComplete) : list Json :=
  let index := JUint (complete_index c) in
  let part := annotated_text (complete_text c) in
  [JObject [("type", JString "response.output_text.done"); ("output_index", index); ("content_index", JUint 0); ("item_id", JString item);
            ("text", JString (complete_text c)); ("logprobs", JArray [])];
   JObject [("type", JString "response.content_part.done"); ("item_id", JString item); ("output_index", index); ("content_index", JUint 0); ("part", part)];
   JObject [("type", JString "response.output_item.done"); ("output_index", index);
            ("item", JObject [("id", JString item); ("type", JString "message"); ("status", JString "completed"); ("role", JString "assistant");
                              ("content", JArray [part])])];
   JObject [("type", JString "response.completed"); ("response", responses_complete_json now model request_id c)]]%string.

Definition failed_event (message : string) : Json :=
  JObject [("type", JString "response.failed"); ("error", JObject [("message", JString message)])]%string.

(** [clock] is the clock as it reads while the event of a number is built. *)
(** [sglang-srt/src/http.rs:2513-2598] ResponsesStreamEncoder::encode *)
Definition encode_response (clock : Z → N) (e : ResponsesStreamEncoder) (r : RouterGenerateResponse)
    : Result string (list string) * ResponsesStreamEncoder :=
  let! created, e :=
    if (encoder_response_id e =? "")%string then
      let e := mkEncoder (encoder_model e) (sequence_number e) (message_open e) (openai_response_id "resp-" (response_id r))
                 (responses_message_id (response_id r)) in
      encoder_events e [created_event (clock (sequence_number e)) (encoder_model e) (encoder_response_id e)]
    else (Ok [], e) in
  match body r with
  | Chunk c =>
      let! opened, e := open_message e in
      let! delta, e := if (chunk_text c =? "")%string then (Ok [], e) else encoder_events e [delta_event (item_id e) c] in
      (Ok (created ++ opened ++ delta), e)
  | Completed c =>
      let! opened, e := open_message e in
      let! closing, e := encoder_events e (closing_events (clock (sequence_number e + 3)%Z) (encoder_model e) (item_id e) (response_id r) c) in
      (Ok (created ++ opened ++ closing), e)
  | ResponseError message =>
      let! failed, e := encoder_events e [failed_event message] in
      (Ok (created ++ failed), e)
  end.

End Frames.

(** ** The encoder numbers its events *)

Section Encoder.
Context (json_text : Json → string).

Definition never_fails (_ : Json) : option string := None.

(** A frame of an event with its number. *)
Definition event_frame (n : Z) (event : Json) : string := data_frame (json_text (numbered n event)).
Definition frames_from (n : Z) (events : list Json) : list string := imap (λ i event, event_frame (n + Z.of_nat i) event) events.

Lemma frames_from_cons n event events : frames_from n (event :: events) = event_frame n event :: frames_from (n + 1) events.
Proof.
  unfold frames_from. cbn. rewrite Z.add_0_r. f_equal. apply imap_ext. intros i x _. unfold compose. f_equal. lia.
Qed.

Lemma frames_from_app n events events' : frames_from n (events ++ events') = frames_from n events ++ frames_from (n + Z.of_nat (length events)) events'.
Proof.
  revert n. induction events as [|event events IH]; intros n; [cbn; by rewrite Z.add_0_r|].
  change ((event :: events) ++ events') with (event :: (events ++ events')). rewrite !frames_from_cons, IH. cbn [length app].
  do 3 f_equal. lia.
Qed.

Lemma i32_add_small a b : (- 2 ^ 31 ≤ a + b < 2 ^ 31)%Z → i32_add a b = (a + b)%Z.
Proof. intros H. unfold i32_add. rewrite Z.mod_small; lia. Qed.

(** The encoder further on by some events. *)
Definition advanced (e : ResponsesStreamEncoder) (n : nat) : ResponsesStreamEncoder :=
  mkEncoder (encoder_model e) (sequence_number e + Z.of_nat n) (message_open e) (encoder_response_id e) (item_id e).

Lemma encoder_events_frames events : ∀ e, (0 ≤ sequence_number e)%Z → (sequence_number e + Z.of_nat (length events) < 2 ^ 31)%Z →
  encoder_events json_text never_fails e events = (Ok (frames_from (sequence_number e) events), advanced e (length events)).
Proof.
  induction events as [|event events IH]; intros e Hpos Hmax; cbn [encoder_events length] in *.
  - unfold advanced. rewrite Z.add_0_r. by destruct e.
  - rewrite frames_from_cons. unfold encoder_event, json_frame, to_json. cbn [never_fails result_map_err result_bind st_bind].
    rewrite i32_add_small by lia. rewrite IH by (cbn; lia). cbn [st_bind sequence_number]. unfold advanced. cbn.
    do 2 f_equal. lia.
Qed.

(** The frames of a run of responses. *)
Fixpoint encode_stream (clock : Z → N) (e : ResponsesStreamEncoder) (rs : list RouterGenerateResponse)
    : Result string (list string) * ResponsesStreamEncoder :=
  match rs with
  | [] => (Ok [], e)
  | r :: rs =>
      let! frames, e := encode_response json_text never_fails clock e r in
      let! rest, e := encode_stream clock e rs in
      (Ok (frames ++ rest), e)
  end.

Definition opened_encoder (model : string) (n : Z) (rid : string) : ResponsesStreamEncoder :=
  mkEncoder model n true (openai_response_id "resp-" rid) (responses_message_id rid).

Lemma response_id_not_empty rid : (openai_response_id "resp-" rid =? "")%string = false.
Proof.
  unfold openai_response_id. destruct (starts_with "resp-" rid) eqn:H; [|done]. destruct rid; [|done].
  unfold starts_with in H. by vm_compute in H.
Qed.

Definition nonempty (c : RouterGenerateStreamChunk) : bool := negb (chunk_text c =? "")%string.

Lemma nonempty_filter_cons c cs :
  filter (λ c, nonempty c = true) (c :: cs) = (if (chunk_text c =? "")%string then [] else [c]) ++ filter (λ c, nonempty c = true) cs.
Proof. rewrite filter_cons. unfold nonempty. by case_decide; destruct (chunk_text c =? "")%string. Qed.

(** The chunks of an open message, whose texts are the deltas. *)
Lemma encode_chunks clock model rid cs rest : ∀ n, (0 ≤ n)%Z → (n + Z.of_nat (length cs) < 2 ^ 31)%Z →
  let deltas := delta_event (responses_message_id rid) <$> filter (λ c, nonempty c = true) cs in
  encode_stream clock (opened_encoder model n rid) (((λ c, mkResponse rid (Chunk c)) <$> cs) ++ rest) =
  let! tail, e := encode_stream clock (opened_encoder model (n + Z.of_nat (length deltas)) rid) rest in
  (Ok (frames_from n deltas ++ tail), e).
Proof.
  induction cs as [|c cs IH]; intros n Hn Hmax; cbn zeta.
  - cbn. rewrite Z.add_0_r. destruct (encode_stream _ _ rest) as [[]]; done.
  - rewrite fmap_cons. change ((mkResponse rid (Chunk c) :: ?l) ++ rest) with (mkResponse rid (Chunk c) :: (l ++ rest)).
    cbn [app encode_stream length] in *.
    assert (encode_response json_text never_fails clock (opened_encoder model n rid) (mkResponse rid (Chunk c)) =
      let ds := delta_event (responses_message_id rid) <$> (if (chunk_text c =? "")%string then [] else [c]) in
      (Ok (frames_from n ds), opened_encoder model (n + Z.of_nat (length ds)) rid)) as ->.
    { unfold encode_response. cbn [opened_encoder encoder_response_id body]. rewrite response_id_not_empty. cbn [st_bind message_open open_message opened_encoder].
      destruct (chunk_text c =? "")%string.
      - cbn. by rewrite Z.add_0_r.
      - rewrite encoder_events_frames by (cbn; lia). cbn [item_id st_bind app]. reflexivity. }
    cbn zeta. cbn [st_bind]. rewrite IH by (destruct (chunk_text c =? "")%string; cbn [fmap list_fmap length]; lia). cbn zeta.
    rewrite nonempty_filter_cons, fmap_app, length_app, frames_from_app.
    
    set (d1 := delta_event (responses_message_id rid) <$> (if (chunk_text c =? "")%string then [] else [c])).
    set (d2 := delta_event (responses_message_id rid) <$> filter (λ c, nonempty c = true) cs).
    replace (n + Z.of_nat (length d1) + Z.of_nat (length d2))%Z with (n + Z.of_nat (length d1 + length d2))%Z by lia.
    destruct (encode_stream clock _ rest) as [[tail|] e]; cbn [st_bind]; [|done]. by rewrite app_assoc.
Qed.

Definition opening_events (clock : Z → N) (model rid : string) : list Json :=
  let item := responses_message_id rid in
  [created_event (clock 0%Z) model (openai_response_id "resp-" rid); added_event item; part_added_event item].

(** The first response that is not an error creates the response and opens its message. *)
Lemma encode_first clock model rid b : (∀ m, b ≠ ResponseError m) →
  encode_response json_text never_fails clock (ResponsesStreamEncoder_new model) (mkResponse rid b) =
  let! frames, e := encode_response json_text never_fails clock (opened_encoder model 3 rid) (mkResponse rid b) in
  (Ok (frames_from 0 (opening_events clock model rid) ++ frames), e).
Proof.
  intros Hb. unfold encode_response. cbn [ResponsesStreamEncoder_new opened_encoder encoder_response_id RouterProtocol.response_id body].
  rewrite response_id_not_empty. cbn [String.eqb].
  rewrite encoder_events_frames by done. unfold advanced. cbn [st_bind]. unfold open_message. cbn [message_open st_bind].
  rewrite encoder_events_frames by done. unfold advanced. cbn.
  destruct b as [c|c|m]; [| |by destruct (Hb m)].
  - destruct (chunk_text c =? "")%string; [done|]. reflexivity.
  - reflexivity.
Qed.

Lemma encode_completion clock model rid c n : (0 ≤ n)%Z → (n + 4 < 2 ^ 31)%Z →
  encode_response json_text never_fails clock (opened_encoder model n rid) (mkResponse rid (Completed c)) =
  (Ok (frames_from n (closing_events (clock (n + 3)%Z) model (responses_message_id rid) rid c)), opened_encoder model (n + 4) rid).
Proof.
  intros Hn Hmax. unfold encode_response. cbn [opened_encoder encoder_response_id RouterProtocol.response_id body].
  rewrite response_id_not_empty. cbn [st_bind open_message message_open opened_encoder].
  rewrite encoder_events_frames by (cbn; lia). reflexivity.
Qed.

(** The events of an answer streamed in chunks. *)
Definition answer_events (clock : Z → N) (model rid : string) (cs : list RouterGenerateStreamChunk) (c : RouterGenerateComplete) : list Json :=
  let item := responses_message_id rid in
  let deltas := delta_event item <$> filter (λ c, nonempty c = true) cs in
  opening_events clock model rid ++ deltas ++
  closing_events (clock (6 + Z.of_nat (length deltas))%Z) model item rid c.

End Encoder.

(** C10. The event stream of an answer to [/v1/responses]: whatever way the text came in
    chunks, its frames are the numbered events, counted from zero without a gap:
    the response is created, its message opened once, every piece of text follows
    in order, and the message and the response are closed. *)
Theorem responses_stream_events json_text clock model rid cs c :
  (Z.of_nat (length cs) + 7 < 2 ^ 31)%Z →
  ∃ e, encode_stream json_text clock (ResponsesStreamEncoder_new model)
         (((λ c, mkResponse rid (Chunk c)) <$> cs) ++ [mkResponse rid (Completed c)]) =
       (Ok (frames_from json_text 0 (answer_events clock model rid cs c)), e).
Proof.
  intros Hmax. set (item := responses_message_id rid). set (deltas := delta_event item <$> filter (λ c, nonempty c = true) cs).
  assert (length deltas ≤ length cs)%nat as Hlen by (unfold deltas; rewrite length_fmap; apply length_filter).
  assert (∀ r rs, (∀ m, body r ≠ ResponseError m) → response_id r = rid →
    encode_stream json_text clock (ResponsesStreamEncoder_new model) (r :: rs) =
    let! frames, e := encode_stream json_text clock (opened_encoder model 3 rid) (r :: rs) in
    (Ok (frames_from json_text 0 (opening_events clock model rid) ++ frames), e)) as Hfirst.
  { intros [rid' b] rs Hb Hid. cbn in Hb, Hid. subst rid'. cbn [encode_stream]. rewrite encode_first by done.
    destruct (encode_response _ _ clock (opened_encoder model 3 rid) _) as [[frames|] e]; cbn [st_bind]; [|done].
    destruct (encode_stream _ _ e rs) as [[rest|] e']; cbn [st_bind]; [|done]. by rewrite app_assoc. }
  set (rs := ((λ c, mkResponse rid (Chunk c)) <$> cs) ++ [mkResponse rid (Completed c)]).
  assert (encode_stream json_text clock (ResponsesStreamEncoder_new model) rs =
    let! frames, e := encode_stream json_text clock (opened_encoder model 3 rid) rs in
    (Ok (frames_from json_text 0 (opening_events clock model rid) ++ frames), e)) as ->.
  { unfold rs. destruct cs as [|c1 cs']; by apply Hfirst. }
  unfold rs. rewrite encode_chunks by lia. cbn zeta. fold item deltas.
  cbn [encode_stream]. rewrite encode_completion by lia. cbn [st_bind]. eexists.
  unfold answer_events. fold item deltas. rewrite app_nil_r, !frames_from_app. cbn [opening_events length].
  replace (3 + Z.of_nat (length deltas) + 3)%Z with (6 + Z.of_nat (length deltas))%Z by lia. reflexivity.
Qed.

Definition demo_chunk (text : string) : RouterGenerateStreamChunk := mkChunk [7] text 1 1 0 0.

Lemma responses_stream_events_witness :
  (Z.of_nat (length [demo_chunk "he"; demo_chunk ""; demo_chunk "y"]) + 7 < 2 ^ 31)%Z ∧
  ∃ e, encode_stream (λ _, "") (λ _, 5) (ResponsesStreamEncoder_new "m")
         (((λ c, mkResponse "r" (Chunk c)) <$> [demo_chunk "he"; demo_chunk ""; demo_chunk "y"]) ++
          [mkResponse "r" (Completed (mkComplete [7; 7] "hey" "stop" 1 2 0 0))]) =
       (Ok (frames_from (λ _, "") 0 (answer_events (λ _, 5) "m" "r" [demo_chunk "he"; demo_chunk ""; demo_chunk "y"] (mkComplete [7; 7] "hey" "stop" 1 2 0 0))), e).
Proof. split; [reflexivity|]. apply responses_stream_events. reflexivity. Defined.

(** ** Answers to a batch *)

Definition answered (rs : list RouterGenerateResponse) (c : RouterGenerateComplete) : Prop := ∃ r, last rs = Some r ∧ body r = Completed c.

Lemma batch_choices_answered what choice batch cs : Forall2 answered batch cs → ∀ index usage id,
  ∃ id', batch_choices what choice index usage id batch = Ok (imap (λ i c, choice (index + N.of_nat i) c) cs, foldl add_complete usage cs, id') ∧
    (is_Some id → id' = id).
Proof.
  induction 1 as [|rs c batch cs (r&Hlast&Hbody) _ IH]; intros index usage id; [by exists id|].
  cbn [batch_choices]. rewrite Hlast. cbn [ok_or result_bind]. rewrite Hbody.
  destruct (IH (index + 1) (add_complete usage c) (match id with Some id => Some id | None => Some (response_id r) end)) as (id'&->&Hid).
  cbn [result_bind]. exists id'. split; [|intros [x ->]; by apply Hid]. cbn [imap foldl]. rewrite N.add_0_r.
  do 4 f_equal. apply imap_ext. intros i x _. unfold compose. f_equal. lia.
Qed.

Lemma batch_choices_unanswered what choice batch rest rs bad cs :
  Forall2 answered batch cs → last rs = Some bad → (∀ c, body bad ≠ Completed c) → ∀ index usage id,
  batch_choices what choice index usage id (batch ++ rs :: rest) = Err (incomplete_response what (body bad)).
Proof.
  intros Hall Hlast Hbad. induction Hall as [|rs' c batch cs (r&Hlast'&Hbody) _ IH]; intros index usage id; cbn [app batch_choices].
  - rewrite Hlast. cbn [ok_or result_bind]. destruct (body bad) as [ch|c|m] eqn:Hb; [done|by destruct (Hbad c)|done].
  - rewrite Hlast'. cbn [ok_or result_bind]. rewrite Hbody. by rewrite IH.
Qed.
