(* ===== verification/ModelInfo.v ===== *)
(** * What a server says about its model ([crates/sglang-srt/src/router.rs], [RouterGetModelInfoResponse])

    The record both servers answer with and keep, and how the parts of a checkpoint
    are entered into it.  Numbers that do not fit the record's types are left out or
    capped. *)

From S2P Require Import Prelude Safetensors ModelArtifacts Models.
#[local] Open Scope N_scope.

(** [sglang-srt/src/router.rs:568-594] RouterGetModelInfoResponse *)
Record RouterGetModelInfoResponse : Type := mkModelInfo {
  info_model_path : string;
  info_tokenizer_path : string;
  is_generation : bool;
  preferred_sampling_params : string;
  info_weight_version : string;
  served_model_name : string;
  info_max_context_length : Z;
  info_vocab_size : Z;
  supports_vision : bool;
  info_model_type : string;
  info_architectures : list string;
  info_eos_token_ids : list Z;
  pad_token_id : Z;
  bos_token_id : Z;
  max_req_input_len : Z;
  info_expected_group_count : Z;
  info_actual_group_count : Z;
  info_expected_weight_count : Z;
  info_actual_weight_count : Z;
  info_tp_size : N;
  info_dp_size : N;
  info_max_running_requests : N;
  max_num_reqs : N;
  info_max_prefill_tokens : N;
  info_max_total_tokens : N;
}.

(** [sglang-srt/src/router.rs:432-434] usize_to_i32 *)
Definition usize_to_i32 (value : N) : option Z := if value <? 2 ^ 31 then Some (Z.of_N value) else None.

(** [sglang-srt/src/router.rs:436-438] u32_to_i32 *)
Definition u32_to_i32 (value : N) : option Z := if value <? 2 ^ 31 then Some (Z.of_N value) else None.

(** [sglang-srt/src/router.rs:749-751] usize_to_model_info_u32 *)
Definition usize_to_model_info_u32 (value : N) : N := N.min value (2 ^ 32 - 1).

(** [sglang-srt/src/router.rs:745-747] optional_usize_to_model_info_u32 *)
Definition optional_usize_to_model_info_u32 (value : option N) : N :=
  match value with Some value => usize_to_model_info_u32 value | None => 0 end.

(** A record with its paths and names, and nothing known of the model. *)
(** [sglang-srt/src/router.rs:661-688] RouterGetModelInfoResponse::from_local_model_artifacts (initial) *)
Definition blank_model_info (model_path tokenizer_path weight_version served_model_name : string) : RouterGetModelInfoResponse :=
  mkModelInfo model_path tokenizer_path true "{}" weight_version served_model_name 0 0 false "" [] [] 0 0 0 0 0 0 0 0 0 0 0 0 0.

(** [sglang-srt/src/router.rs:703-714] RouterGetModelInfoResponse::apply_model_config *)
Definition apply_model_config (i : RouterGetModelInfoResponse) (config : HfModelConfig) : RouterGetModelInfoResponse :=
  mkModelInfo (info_model_path i) (info_tokenizer_path i) (is_generation i) (preferred_sampling_params i) (info_weight_version i)
    (served_model_name i) (info_max_context_length i) (info_vocab_size i) (supports_vision i)
    (default (info_model_type i) (model_type config)) (architectures config) (omap u32_to_i32 (eos_token_ids config))
    (pad_token_id i) (bos_token_id i) (max_req_input_len i) (info_expected_group_count i) (info_actual_group_count i)
    (info_expected_weight_count i) (info_actual_weight_count i) (info_tp_size i) (info_dp_size i) (info_max_running_requests i)
    (max_num_reqs i) (info_max_prefill_tokens i) (info_max_total_tokens i).

(** [sglang-srt/src/router.rs:716-724] RouterGetModelInfoResponse::apply_model_definition *)
Definition apply_model_definition (i : RouterGetModelInfoResponse) (d : ModelDefinition) : RouterGetModelInfoResponse :=
  let vocab := default (info_vocab_size i) (vocab_size d ≫= usize_to_i32) in
  let context := max_context_length d ≫= usize_to_i32 in
  mkModelInfo (info_model_path i) (info_tokenizer_path i) (is_generation i) (preferred_sampling_params i) (info_weight_version i)
    (served_model_name i) (default (info_max_context_length i) context) vocab (supports_vision i)
    (info_model_type i) (info_architectures i) (info_eos_token_ids i) (pad_token_id i) (bos_token_id i)
    (default (max_req_input_len i) context) (info_expected_group_count i) (info_actual_group_count i)
    (info_expected_weight_count i) (info_actual_weight_count i) (info_tp_size i) (info_dp_size i) (info_max_running_requests i)
    (max_num_reqs i) (info_max_prefill_tokens i) (info_max_total_tokens i).

(** [sglang-srt/src/router.rs:726-742] RouterGetModelInfoResponse::apply_routed_expert_checkpoint_coverage *)
Definition apply_routed_expert_checkpoint_coverage (i : RouterGetModelInfoResponse) (c : RoutedExpertCheckpointCoverage) : RouterGetModelInfoResponse :=
  let set old value := default old (usize_to_i32 value) in
  mkModelInfo (info_model_path i) (info_tokenizer_path i) (is_generation i) (preferred_sampling_params i) (info_weight_version i)
    (served_model_name i) (info_max_context_length i) (info_vocab_size i) (supports_vision i)
    (info_model_type i) (info_architectures i) (info_eos_token_ids i) (pad_token_id i) (bos_token_id i) (max_req_input_len i)
    (set (info_expected_group_count i) (expected_group_count c)) (set (info_actual_group_count i) (actual_group_count c))
    (set (info_expected_weight_count i) (expected_weight_count c)) (set (info_actual_weight_count i) (actual_weight_count c))
    (info_tp_size i) (info_dp_size i) (info_max_running_requests i) (max_num_reqs i) (info_max_prefill_tokens i) (info_max_total_tokens i).

(** [model_info.weight_version = new_version] *)
Definition set_weight_version (i : RouterGetModelInfoResponse) (new_version : string) : RouterGetModelInfoResponse :=
  mkModelInfo (info_model_path i) (info_tokenizer_path i) (is_generation i) (preferred_sampling_params i) new_version
    (served_model_name i) (info_max_context_length i) (info_vocab_size i) (supports_vision i)
    (info_model_type i) (info_architectures i) (info_eos_token_ids i) (pad_token_id i) (bos_token_id i)
    (max_req_input_len i) (info_expected_group_count i) (info_actual_group_count i)
    (info_expected_weight_count i) (info_actual_weight_count i) (info_tp_size i) (info_dp_size i) (info_max_running_requests i)
    (max_num_reqs i) (info_max_prefill_tokens i) (info_max_total_tokens i).
