(* ===== verification/GrpcMessages.v ===== *)
(** * Messages of the gRPC protocol ([src/proto/sglang/runtime/v1/sglang.proto]) and
    their translation ([crates/sglang-srt/src/grpc.rs])

    A message is a record: [optional] fields and message fields are [option], a
    [map] is a [gmap].  The router builds requests ([ProxyRequests]) and the gRPC
    server of the runtime reads them here and answers ([GrpcService]). *)

From stdpp Require Import pretty.
From S2P Require Import Prelude Float32 Types Tokenizer RouterProtocol RouterRuntime ModelInfo.
#[local] Open Scope N_scope.

(** ** Messages *)

(** [sglang.proto:37-53] SamplingParams *)
Record ProtoSamplingParams : Type := mkProtoSamplingParams {
  p_max_new_tokens : option Z;
  p_temperature : option f32;
  p_top_p : option f32;
  p_top_k : option Z;
  p_min_p : option f32;
  p_frequency_penalty : option f32;
  p_presence_penalty : option f32;
  p_repetition_penalty : option f32;
  p_stop_token_id : option Z;
  p_stop : list string;
  p_n : option Z;
  p_best_of : option Z;
  p_seed : option Z;
  p_stop_token_ids : list N;
  p_ignore_eos : option bool;
}.

(** [sglang.proto:55-59] DisaggregatedParams *)
Record ProtoDisaggregatedParams : Type := mkProtoDisaggregatedParams {
  p_bootstrap_host : string;
  p_bootstrap_port : N;
  p_bootstrap_room : N;
}.

(** [sglang.proto:61-66] RequestOptions *)
Record RequestOptions : Type := mkRequestOptions {
  option_request_id : option string;
  option_stream : bool;
  option_data_parallel_rank : Z;
  option_trace_headers : gmap string string;
}.

Definition RequestOptions_default : RequestOptions := mkRequestOptions None false 0 ∅.

(** [sglang.proto:68-73] TextGenerateRequest *)
Record ProtoTextGenerateRequest : Type := mkProtoTextGenerateRequest {
  p_text : string;
  p_text_sampling : option ProtoSamplingParams;
  p_text_options : option RequestOptions;
  p_text_disaggregated : option ProtoDisaggregatedParams;
}.

(** [sglang.proto:75-81] GenerateRequest *)
Record ProtoGenerateRequest : Type := mkProtoGenerateRequest {
  p_input_ids : list N;
  p_original_text : string;
  p_sampling : option ProtoSamplingParams;
  p_options : option RequestOptions;
  p_disaggregated : option ProtoDisaggregatedParams;
}.

(** [sglang.proto:92-99] GenerateStreamChunk *)
Record ProtoChunk : Type := mkProtoChunk {
  p_chunk_token_ids : list N;
  p_chunk_text : string;
  p_chunk_prompt_tokens : Z;
  p_chunk_completion_tokens : Z;
  p_chunk_cached_tokens : Z;
  p_chunk_index : N;
}.

(** [sglang.proto:101-109] GenerateComplete *)
Record ProtoComplete : Type := mkProtoComplete {
  p_output_ids : list N;
  p_complete_text : string;
  p_finish_reason : string;
  p_prompt_tokens : Z;
  p_completion_tokens : Z;
  p_cached_tokens : Z;
  p_complete_index : N;
}.

(** [sglang.proto:111-114] GenerateError *)
Record ProtoError : Type := mkProtoError { p_error_message : string; p_error_code : string }.

(** [sglang.proto:83-90] GenerateResponse *)
Inductive ProtoResponseBody : Type :=
  | ProtoBodyChunk (chunk : ProtoChunk)
  | ProtoBodyComplete (complete : ProtoComplete)
  | ProtoBodyError (error : ProtoError).
Record ProtoGenerateResponse : Type := mkProtoGenerateResponse {
  p_response_id : string;
  p_body : option ProtoResponseBody;
}.

(** [sglang.proto:187-212] ModelInfoResponse *)
Record ModelInfoResponse : Type := mkModelInfoResponse {
  p_model_path : string;
  p_tokenizer_path : string;
  p_is_generation : bool;
  p_preferred_sampling_params_json : string;
  p_weight_version : string;
  p_served_model_name : string;
  p_max_context_length : Z;
  p_vocab_size : Z;
  p_supports_vision : bool;
  p_model_type : string;
  p_eos_token_ids : list Z;
  p_pad_token_id : Z;
  p_bos_token_id : Z;
  p_max_request_input_length : Z;
  p_expected_group_count : Z;
  p_actual_group_count : Z;
  p_expected_weight_count : Z;
  p_actual_weight_count : Z;
  p_tp_size : N;
  p_dp_size : N;
  p_max_running_requests : N;
  p_max_num_reqs : N;
  p_max_prefill_tokens : N;
  p_max_total_tokens : N;
}.

(** [sglang.proto:228-232] LoadResponse *)
Record LoadResponse : Type := mkLoadResponse {
  p_waiting_queue_depth : N;
  p_decode_queue_depth : N;
  p_available_cache_pages : option N;
}.

(** [sglang.proto:236-241] PollTransfersResponse *)
Record PollTransfersResponse : Type := mkPollTransfersResponse {
  p_completed_batches : N;
  p_pending_batches : N;
  p_completed_checksums : list string;
  p_pending_checksums : list string;
}.

(** [sglang.proto:243-246] AbortRequest *)
Record AbortRequest : Type := mkAbortRequest { abort_request_id : string; abort_all : bool }.

(** [sglang.proto:254-257] ControlResponse *)
Record ControlResponse : Type := mkControlResponse { control_success : bool; control_message : string }.

(** [sglang.proto:268-270] StartProfileRequest *)
Record StartProfileRequest : Type := mkStartProfileRequest { output_dir : option string }.

(** [sglang.proto:274-277] UpdateWeightsFromDiskRequest *)
Record UpdateWeightsFromDiskRequest : Type := mkUpdateWeightsFromDiskRequest { disk_model_path : string; load_format : option string }.

(** [sglang.proto:279-282] UpdateWeightVersionRequest *)
Record UpdateWeightVersionRequest : Type := mkUpdateWeightVersionRequest { new_version : string; abort_all_requests : option bool }.

(** [sglang.proto:284-287] GetWeightsByNameRequest *)
Record GetWeightsByNameRequest : Type := mkGetWeightsByNameRequest { weight_name : string; truncate_size : option N }.

(** ** Status *)

(** [tonic::Code]. *)
Inductive Code : Type :=
  | CodeOk | CodeCancelled | CodeUnknown | CodeInvalidArgument | CodeDeadlineExceeded | CodeNotFound | CodeAlreadyExists
  | CodePermissionDenied | CodeResourceExhausted | CodeFailedPrecondition | CodeAborted | CodeOutOfRange | CodeUnimplemented
  | CodeInternal | CodeUnavailable | CodeDataLoss | CodeUnauthenticated.

#[export] Instance Code_eq_dec : EqDecision Code.
Proof. solve_decision. Defined.

(** [tonic::Status]: a code and a message. *)
Record Status : Type := mkStatus { status_grpc_code : Code; status_message : string }.

Definition invalid_argument (message : string) : Status := mkStatus CodeInvalidArgument message.
Definition internal (message : string) : Status := mkStatus CodeInternal message.
Definition failed_precondition (message : string) : Status := mkStatus CodeFailedPrecondition message.

(** [sglang-srt/src/grpc.rs:244-250] router_status_code_to_grpc_code *)
Definition router_status_code_to_grpc_code (code : RouterStatusCode) : Code :=
  match code with
  | InvalidArgument => CodeInvalidArgument
  | ResourceExhausted => CodeResourceExhausted
  | FailedPrecondition => CodeFailedPrecondition
  end.

(** ** Requests *)

(** [as i32] of a [u32]. *)
Definition u32_as_i32 (n : N) : Z := if n <? 2 ^ 31 then Z.of_N n else (Z.of_N n - 2 ^ 32)%Z.

(** [sglang-srt/src/grpc.rs:2044-2064] proto_sampling_params_to_router *)
Definition proto_sampling_params_to_router (p : ProtoSamplingParams) : RouterSamplingParams :=
  mkRouterSamplingParams (p_max_new_tokens p) (p_temperature p) (p_top_p p) (p_top_k p) (p_min_p p) (p_frequency_penalty p)
    (p_presence_penalty p) (p_repetition_penalty p) (p_stop_token_id p) (u32_as_i32 <$> p_stop_token_ids p) (p_ignore_eos p)
    (p_n p) (p_best_of p).

(** [sglang-srt/src/grpc.rs:2066-2081] proto_disaggregated_params_to_router *)
Definition proto_disaggregated_params_to_router (p : ProtoDisaggregatedParams) : Result Status RouterDisaggregatedParams :=
  if p_bootstrap_port p <? 2 ^ 16
  then Ok (mkRouterDisaggregatedParams (p_bootstrap_host p) (p_bootstrap_port p) (p_bootstrap_room p))
  else Err (invalid_argument ("bootstrap_port must fit in u16: " +:+ pretty (p_bootstrap_port p))).

(** [Option::map(..).transpose()?] *)
Definition transpose {E A B} (f : A → Result E B) (x : option A) : Result E (option B) :=
  match x with None => Ok None | Some a => let? b := f a in Ok (Some b) end.

(** [sglang-srt/src/grpc.rs:1997-2020] proto_generate_request_to_router_request *)
Definition proto_generate_request_to_router_request (p : ProtoGenerateRequest) : Result Status RouterGenerateRequest :=
  let o := default RequestOptions_default (p_options p) in
  let? disaggregated := transpose proto_disaggregated_params_to_router (p_disaggregated p) in
  Ok (mkRouterGenerateRequest (default "" (option_request_id o)) (Some (mkRouterTokenizedInput (p_original_text p) (p_input_ids p)))
        (proto_sampling_params_to_router <$> p_sampling p) disaggregated (option_stream o) (option_data_parallel_rank o)
        (option_trace_headers o)).

(** [sglang-srt/src/grpc.rs:2022-2042] proto_text_generate_request_to_router_request *)
Definition proto_text_generate_request_to_router_request (p : ProtoTextGenerateRequest) : Result Status RouterTextGenerateRequest :=
  let o := default RequestOptions_default (p_text_options p) in
  let? disaggregated := transpose proto_disaggregated_params_to_router (p_text_disaggregated p) in
  Ok (mkRouterTextGenerateRequest (default "" (option_request_id o)) (p_text p)
        (proto_sampling_params_to_router <$> p_text_sampling p) disaggregated (option_stream o) (option_data_parallel_rank o)
        (option_trace_headers o)).

(** [BTreeMap::extend]: the later entries win. *)
(** [sglang-srt/src/grpc.rs:1981-1995] apply_openai_json_options_to_router_request *)
Definition apply_openai_json_options_to_router_request (options : RequestOptions) (q : RouterTextGenerateRequest) : RouterTextGenerateRequest :=
  mkRouterTextGenerateRequest
    (if (t_request_id q =? "")%string then default "" (option_request_id options) else t_request_id q)
    (t_text q) (t_sampling_params q) (t_disaggregated_params q)
    (if t_stream q then true else option_stream options)
    (if (t_data_parallel_rank q =? 0)%Z then option_data_parallel_rank options else t_data_parallel_rank q)
    (option_trace_headers options ∪ t_trace_headers q).

(** ** Responses *)

(** [sglang-srt/src/grpc.rs:2102-2111] router_chunk_to_proto *)
Definition router_chunk_to_proto (c : RouterGenerateStreamChunk) : ProtoChunk :=
  mkProtoChunk (chunk_token_ids c) (chunk_text c) (chunk_prompt_tokens c) (chunk_completion_tokens c) (chunk_cached_tokens c) (chunk_index c).

(** [sglang-srt/src/grpc.rs:2113-2123] router_complete_to_proto *)
Definition router_complete_to_proto (c : RouterGenerateComplete) : ProtoComplete :=
  mkProtoComplete (complete_output_ids c) (complete_text c) (finish_reason c) (complete_prompt_tokens c) (complete_completion_tokens c)
    (complete_cached_tokens c) (complete_index c).

(** [sglang-srt/src/grpc.rs:2125-2130] router_error_to_proto *)
Definition router_error_to_proto (message : string) : ProtoError := mkProtoError message "".

(** [sglang-srt/src/grpc.rs:2083-2100] router_generate_response_to_proto_response *)
Definition router_generate_response_to_proto_response (r : RouterGenerateResponse) : ProtoGenerateResponse :=
  mkProtoGenerateResponse (response_id r)
    (Some match body r with
          | Chunk c => ProtoBodyChunk (router_chunk_to_proto c)
          | Completed c => ProtoBodyComplete (router_complete_to_proto c)
          | ResponseError message => ProtoBodyError (router_error_to_proto message)
          end).

(** [sglang-srt/src/grpc.rs:2132-2161] router_model_info_to_proto_response *)
Definition router_model_info_to_proto_response (i : RouterGetModelInfoResponse) : ModelInfoResponse :=
  mkModelInfoResponse (info_model_path i) (info_tokenizer_path i) (is_generation i) (preferred_sampling_params i)
    (info_weight_version i) (served_model_name i) (info_max_context_length i) (info_vocab_size i) (supports_vision i)
    (info_model_type i) (info_eos_token_ids i) (pad_token_id i) (bos_token_id i) (max_req_input_len i)
    (info_expected_group_count i) (info_actual_group_count i) (info_expected_weight_count i) (info_actual_weight_count i)
    (info_tp_size i) (info_dp_size i) (info_max_running_requests i) (max_num_reqs i) (info_max_prefill_tokens i)
    (info_max_total_tokens i).

(** [sglang-srt/src/grpc.rs:2163-2165] usize_to_u32 *)
Definition usize_to_u32 (value : N) : Result Status N :=
  if value <? 2 ^ 32 then Ok value else Err (internal "load metric overflowed uint32").

(** [sglang-srt/src/grpc.rs:2167-2169] usize_to_i32 *)
Definition usize_to_i32 (value : N) : Result Status Z :=
  if value <? 2 ^ 31 then Ok (Z.of_N value) else Err (internal "usage metric overflowed int32").

(** ** Facts *)

Lemma u32_as_i32_small n : n < 2 ^ 31 → u32_as_i32 n = Z.of_N n.
Proof. unfold u32_as_i32. by intros ->%N.ltb_lt. Qed.

(** A token id from the upper half comes out negative, which no validation lets pass. *)
Lemma u32_as_i32_large n : 2 ^ 31 ≤ n → n < 2 ^ 32 → (u32_as_i32 n < 0)%Z.
Proof. intros Hl Hu. unfold u32_as_i32. rewrite (proj2 (N.ltb_ge _ _)) by done. lia. Qed.

Lemma transpose_Ok {E A B} (f : A → Result E B) x y :
  transpose f x = Ok y ↔ match x with None => y = None | Some a => ∃ b, f a = Ok b ∧ y = Some b end.
Proof.
  destruct x as [a|]; cbn; [|split; [by intros [= <-]|by intros ->]].
  destruct (f a) as [b|e]; cbn; split; [intros [= <-]; by exists b|by intros (?&[= ->]&->)|done|by intros (?&?&_)].
Qed.
