(* ===== verification/ProxyRequests.v ===== *)
(** * Requests to gRPC workers ([crates/sglang-router/src/proxy/mod.rs], JSON to messages)

    The router takes JSON over HTTP; for a worker that speaks gRPC it builds the
    messages of [GrpcMessages].  [from_slice] is [serde_json::from_slice], with the
    text of its error; header names are in lower case, values as they came, and
    [to_str] gives the text of a value of visible ASCII characters. *)

From stdpp Require Import pretty.
From S2P Require Import Prelude Float32 Text Tokenizer RouterProtocol Safetensors JsonValue HttpPayload HttpReplies GrpcMessages.
#[local] Open Scope N_scope.

(** Entries in the order of iteration. *)
Definition HeaderMap : Type := list (string * string).

(** [HeaderMap::get]: the first value under a name. *)
Fixpoint header_get (name : string) (headers : HeaderMap) : option string :=
  match headers with
  | [] => None
  | (n, v) :: headers => if (n =? name)%string then Some v else header_get name headers
  end.

(** [HeaderMap::insert]: the value takes the place of all under its name. *)
Definition header_insert (name value : string) (headers : HeaderMap) : HeaderMap :=
  filter (λ h, h.1 ≠ name) headers ++ [(name, value)].

(** [sglang-router/src/server/header_utils.rs:10-23] should_forward_request_header *)
Definition should_forward_request_header (name : string) : bool :=
  bool_decide (name ∈ ["authorization"; "x-request-id"; "x-correlation-id"; "traceparent"; "tracestate";
                       "x-smg-routing-key"; "x-data-parallel-rank"]%string) ||
  starts_with "x-request-id-" name || starts_with "x-sgl-" name.

(** [sglang-router/src/proxy/mod.rs:50-52] is_grpc_worker_url *)
Definition is_grpc_worker_url (worker_url : string) : bool := starts_with "grpc://" worker_url || starts_with "grpcs://" worker_url.

(** [trim_start_matches] of a nonempty prefix, on fuel of the length of the text. *)
Fixpoint trim_matches (fuel : nat) (prefix s : string) : string :=
  match fuel with
  | O => s
  | S fuel => match strip_prefix prefix s with Some rest => trim_matches fuel prefix rest | None => s end
  end.
Definition trim_start_matches (prefix s : string) : string := trim_matches (String.length s) prefix s.

(** A parsed URL is its scheme and its text. *)
(** [sglang-router/src/proxy/mod.rs:54-66] grpc_endpoint_from_worker_url *)
Definition grpc_endpoint_from_worker_url (scheme url : string) : option string :=
  if (scheme =? "grpc")%string then Some ("http://" +:+ trim_start_matches "grpc://" url)
  else if (scheme =? "grpcs")%string then Some ("https://" +:+ trim_start_matches "grpcs://" url)
  else None.

(** ** Status *)

(** The HTTP status of a code. *)
(** [sglang-router/src/proxy/mod.rs:73-94] grpc_status_to_http_status *)
Definition grpc_status_to_http_status (code : Code) : N :=
  match code with
  | CodeOk => 200
  | CodeInvalidArgument | CodeFailedPrecondition | CodeOutOfRange => 400
  | CodeUnauthenticated => 401
  | CodePermissionDenied => 403
  | CodeNotFound => 404
  | CodeAlreadyExists | CodeAborted => 409
  | CodeResourceExhausted => 429
  | CodeCancelled => 502
  | CodeUnknown | CodeInternal | CodeDataLoss => 500
  | CodeUnavailable => 503
  | CodeDeadlineExceeded => 504
  | CodeUnimplemented => 501
  end.

(** [StatusCode::is_server_error], [StatusCode::is_success]. *)
Definition is_server_error (status : N) : bool := (500 <=? status) && (status <? 600).
Definition is_success (status : N) : bool := (200 <=? status) && (status <? 300).

(** [sglang-router/src/proxy/mod.rs:114-116] grpc_generate_status *)
Definition grpc_generate_status (message : string) : Status := invalid_argument message.

(** ** Loads *)

(** [Iterator::sum] of [i64]; it wraps, as in a release build. *)
Definition i64_add (a b : Z) : Z := ((a + b + 2 ^ 63) mod 2 ^ 64 - 2 ^ 63)%Z.

(** [sglang-router/src/proxy/mod.rs:118-131] load_from_worker_load_json *)
Definition load_from_worker_load_json (value : Json) : option Z :=
  match (aggregate ← json_get "aggregate" value; total ← json_get "total_tokens" aggregate; as_i64 total) with
  | Some load => Some load
  | None =>
      loads ← (json_get "loads" value ≫= as_array);
      Some (foldl i64_add 0%Z (omap (λ load, json_get "num_reqs" load ≫= as_i64) loads))
  end.

(** ** Fields *)

(** [sglang-router/src/proxy/mod.rs:133-138] value_as_i32 *)
Definition value_as_i32 (value : Json) (field : string) : Result Status Z :=
  let? raw := ok_or (as_i64 value) (grpc_generate_status (field +:+ " must be an integer")) in
  i32_try_from (grpc_generate_status (field +:+ " is out of i32 range")) raw.

(** [sglang-router/src/proxy/mod.rs:140-147] value_as_u32 *)
Definition value_as_u32 (value : Json) (field : string) : Result Status N :=
  let? raw := ok_or (as_u64 value) (grpc_generate_status (field +:+ " must be an unsigned integer")) in
  u32_try_from (grpc_generate_status (field +:+ " is out of u32 range")) raw.

(** [sglang-router/src/proxy/mod.rs:149-157] optional_i32_field *)
Definition optional_i32_field (object : Json) (field : string) : Result Status (option Z) :=
  transpose (λ value, value_as_i32 value field) (json_get field object).

(** [sglang-router/src/proxy/mod.rs:159-172] optional_f32_field *)
Definition optional_f32_field (object : Json) (field : string) : Result Status (option f32) :=
  transpose (λ value, let? raw := ok_or (as_f64 value) (grpc_generate_status (field +:+ " must be a number")) in Ok (f32_of_f64 raw))
    (json_get field object).

(** [sglang-router/src/proxy/mod.rs:174-186] optional_bool_field *)
Definition optional_bool_field (object : Json) (field : string) : Result Status (option bool) :=
  transpose (λ value, ok_or (as_bool value) (grpc_generate_status (field +:+ " must be a boolean"))) (json_get field object).

(** [sglang-router/src/proxy/mod.rs:188-201] optional_string_field *)
Definition optional_string_field (object : Json) (field : string) : Result Status (option string) :=
  transpose (λ value, ok_or (as_str value) (grpc_generate_status (field +:+ " must be a string"))) (json_get field object).

Section Requests.
Context (from_slice : list N → Result string Json) (to_str : string → option string).

(** [sglang-router/src/proxy/mod.rs:203-209] request_id_from_headers *)
Definition request_id_from_headers (headers : HeaderMap) : option string :=
  value ← header_get "x-request-id" headers ≫= to_str;
  if (value =? "")%string then None else Some value.

(** Of several values under a name the last one is kept. *)
(** [sglang-router/src/proxy/mod.rs:211-222] grpc_trace_headers_from_http_headers *)
Definition grpc_trace_headers_from_http_headers (headers : HeaderMap) : gmap string string :=
  foldl (λ m '(name, value),
    if should_forward_request_header name
    then match to_str value with Some value => <[name := value]> m | None => m end
    else m) ∅ headers.

(** [sglang-router/src/proxy/mod.rs:224-235] request_options_from_json *)
Definition request_options_from_json (object : Json) (headers : HeaderMap) : Result Status RequestOptions :=
  let? request_id := optional_string_field object "request_id" in
  let? stream := optional_bool_field object "stream" in
  let? rank := optional_i32_field object "data_parallel_rank" in
  Ok (mkRequestOptions (or_else request_id (request_id_from_headers headers)) (default false stream) (default 0%Z rank)
        (grpc_trace_headers_from_http_headers headers)).

(** [stop] of the sampling parameters. *)
(** [sglang-router/src/proxy/mod.rs:247-263] proto_sampling_params_from_json (stop) *)
Definition stop_strings (object : Json) : Result Status (list string) :=
  match json_get "stop" object with
  | Some (JString item) => Ok [item]
  | Some (JArray items) => try_all (λ item, ok_or (as_str item) (grpc_generate_status "stop entries must be strings")) items
  | Some _ => Err (grpc_generate_status "stop must be a string or string array")
  | None => Ok []
  end.

(** [sglang-router/src/proxy/mod.rs:264-271] proto_sampling_params_from_json (stop_token_ids) *)
Definition stop_ids (object : Json) : Result Status (list N) :=
  match json_get "stop_token_ids" object with
  | Some (JArray items) => try_all (λ item, value_as_u32 item "stop_token_ids") items
  | Some _ => Err (grpc_generate_status "stop_token_ids must be an array")
  | None => Ok []
  end.

(** [sglang-router/src/proxy/mod.rs:237-298] proto_sampling_params_from_json *)
Definition proto_sampling_params_from_json (payload : Json) : Result Status (option ProtoSamplingParams) :=
  match json_get "sampling_params" payload with
  | None => Ok None
  | Some object =>
      if is_object object then
        let? stop := stop_strings object in
        let? stop_token_ids := stop_ids object in
        let? seed := transpose (λ value, ok_or (as_i64 value) (grpc_generate_status "seed must be an integer")) (json_get "seed" object) in
        let? max_new_tokens := optional_i32_field object "max_new_tokens" in
        let? temperature := optional_f32_field object "temperature" in
        let? top_p := optional_f32_field object "top_p" in
        let? top_k := optional_i32_field object "top_k" in
        let? min_p := optional_f32_field object "min_p" in
        let? frequency_penalty := optional_f32_field object "frequency_penalty" in
        let? presence_penalty := optional_f32_field object "presence_penalty" in
        let? repetition_penalty := optional_f32_field object "repetition_penalty" in
        let? stop_token_id := optional_i32_field object "stop_token_id" in
        let? n := optional_i32_field object "n" in
        let? best_of := optional_i32_field object "best_of" in
        let? ignore_eos := optional_bool_field object "ignore_eos" in
        Ok (Some (mkProtoSamplingParams max_new_tokens temperature top_p top_k min_p frequency_penalty presence_penalty
                    repetition_penalty stop_token_id stop n best_of seed stop_token_ids ignore_eos))
      else Err (grpc_generate_status "sampling_params must be an object")
  end.

(** [sglang-router/src/proxy/mod.rs:316-336] proto_disaggregated_params_from_json (fields) *)
Definition proto_disaggregated_fields (object : Json) : Result Status ProtoDisaggregatedParams :=
  let? host := ok_or (get_str "bootstrap_host" object) (grpc_generate_status "bootstrap_host must be a string") in
  let? port := ok_or (json_get "bootstrap_port" object) (grpc_generate_status "bootstrap_port is required") in
  let? port := value_as_u32 port "bootstrap_port" in
  let? room := ok_or (json_get "bootstrap_room" object ≫= as_u64) (grpc_generate_status "bootstrap_room must be an unsigned integer") in
  Ok (mkProtoDisaggregatedParams host port room).

(** [sglang-router/src/proxy/mod.rs:300-337] proto_disaggregated_params_from_json *)
Definition proto_disaggregated_params_from_json (payload : Json) : Result Status (option ProtoDisaggregatedParams) :=
  if has_bootstrap_field payload then let? p := proto_disaggregated_fields payload in Ok (Some p)
  else
    match json_get "disaggregated_params" payload with
    | None => Ok None
    | Some value =>
        if is_object value then let? p := proto_disaggregated_fields value in Ok (Some p)
        else Err (grpc_generate_status "disaggregated_params must be an object")
    end.

(** A body that is a JSON object, with the messages of the function that reads it. *)
(** [sglang-router/src/proxy/mod.rs:339-346] generate_json_object *)
Definition body_object (invalid not_object : string) (body : list N) : Result Status Json :=
  let? value := result_map_err (λ e, grpc_generate_status (invalid +:+ ": " +:+ e)) (from_slice body) in
  if is_object value then Ok value else Err (grpc_generate_status not_object).

(** [sglang-router/src/proxy/mod.rs:348-358] openai_json_request_options_from_body *)
Definition openai_json_request_options_from_body (body : list N) (headers : HeaderMap) : Result Status RequestOptions :=
  let? object := body_object "invalid OpenAI JSON" "OpenAI JSON body must be a JSON object" body in
  request_options_from_json object headers.

(** [and_then(Value::as_str).filter(|value| !value.is_empty())] *)
Definition nonempty_str (key : string) (object : Json) : option string :=
  value ← get_str key object; if (value =? "")%string then None else Some value.

(** A string that may be null or left out. *)
(** [sglang-router/src/proxy/mod.rs:374-382] proto_update_weights_from_disk_request_from_json (load_format) *)
Definition nullable_string (key : string) (object : Json) : Result Status (option string) :=
  match json_get key object with
  | Some (JString value) => Ok (Some value)
  | Some JNull | None => Ok None
  | Some _ => Err (grpc_generate_status (key +:+ " must be a string when provided"))
  end.

(** [sglang-router/src/proxy/mod.rs:360-388] proto_update_weights_from_disk_request_from_json *)
Definition proto_update_weights_from_disk_request_from_json (body : list N) : Result Status UpdateWeightsFromDiskRequest :=
  let? object := body_object "invalid update_weights_from_disk JSON" "update_weights_from_disk body must be a JSON object" body in
  let? model_path := ok_or (nonempty_str "model_path" object) (grpc_generate_status "model_path is required and must be a string") in
  let? load_format := nullable_string "load_format" object in
  Ok (mkUpdateWeightsFromDiskRequest model_path load_format).

(** [sglang-router/src/proxy/mod.rs:390-414] proto_update_weight_version_request_from_json *)
Definition proto_update_weight_version_request_from_json (body : list N) : Result Status UpdateWeightVersionRequest :=
  let? object := body_object "invalid update_weight_version JSON" "update_weight_version body must be a JSON object" body in
  let? new_version := ok_or (nonempty_str "new_version" object) (grpc_generate_status "new_version is required and must be a string") in
  Ok (mkUpdateWeightVersionRequest new_version (Some (default true (get_bool "abort_all_requests" object)))).

(** [sglang-router/src/proxy/mod.rs:416-452] proto_get_weights_by_name_request_from_json *)
Definition proto_get_weights_by_name_request_from_json (body : list N) : Result Status GetWeightsByNameRequest :=
  let? object := body_object "invalid get_weights_by_name JSON" "get_weights_by_name body must be a JSON object" body in
  let? name := ok_or (nonempty_str "name" object) (grpc_generate_status "name is required and must be a string") in
  let bad := grpc_generate_status "truncate_size must be a non-negative integer" in
  let? truncate_size :=
    match json_get "truncate_size" object with
    | None | Some JNull => Ok None
    | Some value => let? n := ok_or (as_u64 value) bad in let? n := u32_try_from bad n in Ok (Some n)
    end in
  Ok (mkGetWeightsByNameRequest name truncate_size).

(** [sglang-router/src/proxy/mod.rs:454-480] proto_abort_request_from_json *)
Definition proto_abort_request_from_json (body : list N) : Result Status AbortRequest :=
  let? object := body_object "invalid abort_request JSON" "abort_request body must be a JSON object" body in
  let abort_all := default false (get_bool "abort_all" object) in
  let request_id := default "" (or_else (json_get "rid" object) (json_get "request_id" object) ≫= as_str) in
  if negb abort_all && (request_id =? "")%string then Err (grpc_generate_status "rid is required and must be a string")
  else Ok (mkAbortRequest request_id abort_all).

(** [sglang-router/src/proxy/mod.rs:482-504] proto_start_profile_request_from_json *)
Definition proto_start_profile_request_from_json (body : list N) : Result Status StartProfileRequest :=
  match body with
  | [] => Ok (mkStartProfileRequest None)
  | _ =>
      let? object := body_object "invalid start_profile JSON" "start_profile body must be a JSON object" body in
      let? output_dir := nullable_string "output_dir" object in
      Ok (mkStartProfileRequest output_dir)
  end.

(** [sglang-router/src/proxy/mod.rs:506-509] NativeGenerateRequest *)
Inductive NativeGenerateRequest : Type :=
  | NativeText (request : ProtoTextGenerateRequest)
  | NativeTokenized (request : ProtoGenerateRequest).

(** [sglang-router/src/proxy/mod.rs:511-517] GrpcControlRpc *)
Inductive GrpcControlRpc : Type := RpcFlushCache | RpcPauseGeneration | RpcContinueGeneration | RpcStopProfile.

(** [sglang-router/src/proxy/mod.rs:534-550] proto_text_generate_request_from_json_object *)
Definition proto_text_generate_request_from_json_object (object : Json) (headers : HeaderMap) : Result Status ProtoTextGenerateRequest :=
  let? text := ok_or (get_str "text" object) (grpc_generate_status "missing text") in
  let? sampling := proto_sampling_params_from_json object in
  let? options := request_options_from_json object headers in
  let? disaggregated := proto_disaggregated_params_from_json object in
  Ok (mkProtoTextGenerateRequest text sampling (Some options) disaggregated).

(** [sglang-router/src/proxy/mod.rs:552-577] proto_generate_request_from_json_object *)
Definition proto_generate_request_from_json_object (object : Json) (headers : HeaderMap) : Result Status ProtoGenerateRequest :=
  let? input_ids := ok_or (json_get "input_ids" object) (grpc_generate_status "missing input_ids") in
  let? input_ids := ok_or (as_array input_ids) (grpc_generate_status "input_ids must be an array") in
  let? input_ids := try_all (λ value, value_as_u32 value "input_ids") input_ids in
  let original_text := default "" (get_str "original_text" object) in
  let? sampling := proto_sampling_params_from_json object in
  let? options := request_options_from_json object headers in
  let? disaggregated := proto_disaggregated_params_from_json object in
  Ok (mkProtoGenerateRequest input_ids original_text sampling (Some options) disaggregated).

(** [sglang-router/src/proxy/mod.rs:519-532] proto_native_generate_request_from_json *)
Definition proto_native_generate_request_from_json (body : list N) (headers : HeaderMap) : Result Status NativeGenerateRequest :=
  let? object := body_object "invalid /generate JSON" "/generate body must be a JSON object" body in
  if has "input_ids" object
  then let? p := proto_generate_request_from_json_object object headers in Ok (NativeTokenized p)
  else let? p := proto_text_generate_request_from_json_object object headers in Ok (NativeText p).

End Requests.

(** ** Answers *)

(** [json!] of an [i32]. *)
(** [sglang-router/src/proxy/mod.rs:579-617] proto_generate_response_to_json *)
Definition proto_generate_response_to_json (r : ProtoGenerateResponse) : Json :=
  match p_body r with
  | Some (ProtoBodyChunk c) =>
      JObject [("request_id", JString (p_response_id r)); ("text", JString (p_chunk_text c));
               ("output_ids", JUints (p_chunk_token_ids c));
               ("usage", usage_json (p_chunk_prompt_tokens c) (p_chunk_completion_tokens c) (p_chunk_cached_tokens c))]%string
  | Some (ProtoBodyComplete c) =>
      JObject [("request_id", JString (p_response_id r)); ("text", JString (p_complete_text c));
               ("output_ids", JUints (p_output_ids c)); ("finish_reason", JString (p_finish_reason c));
               ("usage", usage_json (p_prompt_tokens c) (p_completion_tokens c) (p_cached_tokens c))]%string
  | Some (ProtoBodyError e) =>
      JObject [("error", JObject [("message", JString (p_error_message e)); ("code", JString (p_error_code e))])]%string
  | None => JObject [("error", JObject [("message", JString "gRPC GenerateResponse returned no body")])]%string
  end.

(** ** The two ways to a worker agree *)

Lemma transpose_field {A} (f : Json → Result Status A) (g : Json → Result string (option A)) (object : Json) (key : string) x :
  (∀ v a, f v = Ok a → g v = Ok (Some a)) → transpose f (json_get key object) = Ok x →
  match json_get key object with None => Ok None | Some v => g v end = Ok x.
Proof.
  intros Hfg. destruct (json_get key object) as [v|]; cbn; [|by intros [= <-]].
  destruct (f v) as [a|] eqn:Hf; [|done]. intros [= <-]. by apply Hfg.
Qed.

Lemma i32_field_agrees o f x : optional_i32_field o f = Ok x → optional_i32 o f = Ok x.
Proof.
  apply (transpose_field (λ v, value_as_i32 v f) (λ raw, let? raw := ok_or (as_i64 raw) (f +:+ " must be an integer") in
      let? raw := i32_try_from (f +:+ " is too large for i32") raw in Ok (Some raw))).
  intros v a. unfold value_as_i32. destruct (as_i64 v) as [z|]; cbn; [|done]. intros [-> Hz]%i32_try_from_Ok.
  by rewrite (proj2 (i32_try_from_Ok _ z z)).
Qed.

Lemma f32_field_agrees o f x : optional_f32_field o f = Ok x → optional_f32 o f = Ok x.
Proof.
  apply (transpose_field _ (λ raw, let? raw := ok_or (as_f64 raw) (f +:+ " must be a number") in Ok (Some (f32_of_f64 raw)))).
  intros v a. destruct (as_f64 v); cbn; [by intros [= <-]|done].
Qed.

Lemma bool_field_agrees o f x : optional_bool_field o f = Ok x → optional_bool o f = Ok x.
Proof.
  apply (transpose_field _ (λ raw, let? raw := ok_or (as_bool raw) (f +:+ " must be a boolean") in Ok (Some raw))).
  intros v a. destruct (as_bool v); cbn; [by intros [= <-]|done].
Qed.

Lemma value_as_u32_Ok v f n : value_as_u32 v f = Ok n → v = JUint n ∧ n < 2 ^ 32.
Proof.
  unfold value_as_u32, u32_try_from. destruct v; cbn; try done. destruct (N.ltb_spec n0 (2 ^ 32)); [|done]. by intros [= <-].
Qed.

(** Stop ids that come out non-negative are those the HTTP server reads. *)
Lemma stop_ids_agree o ns : stop_ids o = Ok ns → Forall (λ z, 0 ≤ z)%Z (u32_as_i32 <$> ns) →
  ∃ zs, optional_i32_array o "stop_token_ids" = Ok zs ∧ default [] zs = u32_as_i32 <$> ns.
Proof.
  unfold stop_ids, optional_i32_array. intros H Hpos. destruct (json_get _ o) as [v|]; [|injection H as <-; by exists None].
  destruct v as [| | | | | |items|]; try done. cbn [as_array ok_or result_bind].
  assert (∀ e e' : string, try_all (λ value, let? value := ok_or (as_i64 value) e in i32_try_from e' value) items = Ok (u32_as_i32 <$> ns)) as Hall.
  { intros e e'. revert ns H Hpos. induction items as [|item items IH]; intros ns H Hpos; cbn [try_all] in *; [by injection H as <-|].
    destruct (value_as_u32 item _) as [n|] eqn:Hn; [|done]. cbn [result_bind] in H. destruct (try_all _ items) as [ns'|] eqn:Hns; [|done].
    injection H as <-. cbn [fmap list_fmap] in Hpos. apply Forall_cons in Hpos as [Hp Hpos]. apply value_as_u32_Ok in Hn as [-> Hlt].
    assert (n < 2 ^ 31) as Hsmall.
    { destruct (N.lt_ge_cases n (2 ^ 31)) as [?|Hge]; [done|]. pose proof (u32_as_i32_large n Hge Hlt). lia. }
    cbn [as_i64]. rewrite (proj2 (N.leb_le n i64_MAX)) by (unfold i64_MAX; lia). cbn [ok_or result_bind].
    rewrite (proj2 (i32_try_from_Ok e' (Z.of_N n) (Z.of_N n))) by (split; [done|]; unfold is_i32; lia). cbn [result_bind].
    rewrite (IH ns' eq_refl Hpos). cbn. by rewrite u32_as_i32_small. }
  exists (Some (u32_as_i32 <$> ns)). split; [|done]. by rewrite Hall.
Qed.

Lemma sampling_agrees o p : proto_sampling_params_from_json o = Ok p →
  (∀ s, p = Some s → Forall (λ z, 0 ≤ z)%Z (u32_as_i32 <$> p_stop_token_ids s)) →
  sampling_of o = Ok (proto_sampling_params_to_router <$> p).
Proof.
  unfold proto_sampling_params_from_json, sampling_of. destruct (json_get _ o) as [v|]; [|by intros [= <-] _].
  unfold json_to_sampling_params. destruct (is_object v); [|done]. intros H Hpos. repeat next_field H. injection H as <-.
  specialize (Hpos _ eq_refl). cbn [p_stop_token_ids] in Hpos.
  repeat match goal with
  | E : optional_i32_field _ _ = Ok _ |- _ => apply i32_field_agrees in E; rewrite E; clear E
  | E : optional_f32_field _ _ = Ok _ |- _ => apply f32_field_agrees in E; rewrite E; clear E
  | E : optional_bool_field _ _ = Ok _ |- _ => apply bool_field_agrees in E; rewrite E; clear E
  end.
  match goal with E : stop_ids _ = Ok _ |- _ => destruct (stop_ids_agree _ _ E Hpos) as (zs&Hzs&Heq) end.
  cbn [result_bind]. rewrite Hzs. cbn [result_bind]. by rewrite Heq.
Qed.

Lemma disaggregated_fields_agree v p r : proto_disaggregated_fields v = Ok p → proto_disaggregated_params_to_router p = Ok r →
  r_bootstrap_room r ≤ i64_MAX → disaggregated_fields v = Ok r.
Proof.
  unfold proto_disaggregated_fields, proto_disaggregated_params_to_router, disaggregated_fields, required_string, required_u16,
    required_bootstrap_room. intros H Hr Hroom. repeat next_field H. injection H as <-. cbn [p_bootstrap_port p_bootstrap_host p_bootstrap_room] in Hr.
  destruct (get_str "bootstrap_host" v) as [host|]; [|done]. cbn [ok_or result_bind] in *.
  destruct (json_get "bootstrap_port" v) as [port|]; [|done]. cbn [ok_or result_bind] in *.
  destruct (json_get "bootstrap_room" v) as [room|]; [|done]. cbn [mbind option_bind ok_or result_bind] in *.
  simplify_eq. match goal with E : value_as_u32 _ _ = Ok _ |- _ => apply value_as_u32_Ok in E as [-> _] end.
  destruct (N.ltb_spec a1 (2 ^ 16)) as [Hlt|]; [|done]. injection Hr as <-. cbn [r_bootstrap_room] in Hroom.
  unfold required_u16_value, u16_try_from. cbn [as_u64 ok_or result_bind]. rewrite (proj2 (N.ltb_lt _ _)) by done. cbn [result_bind].
  unfold required_bootstrap_room_value. destruct (as_u64 room) as [n|]; [|done]. cbn [ok_or result_bind] in *. simplify_eq.
  by rewrite (proj2 (N.ltb_ge _ _)).
Qed.

Lemma disaggregated_agree o p r : proto_disaggregated_params_from_json o = Ok p →
  transpose proto_disaggregated_params_to_router p = Ok r → (∀ x, r = Some x → r_bootstrap_room x ≤ i64_MAX) →
  json_to_disaggregated_params o = Ok r.
Proof.
  unfold proto_disaggregated_params_from_json, json_to_disaggregated_params. intros H Hr Hroom.
  assert (∀ v, (let? p := proto_disaggregated_fields v in Ok (Some p)) = Ok p → (let? params := disaggregated_fields v in Ok (Some params)) = Ok r) as Hv.
  { intros v Hp. next_field Hp. injection Hp as <-. apply transpose_Ok in Hr as (x&Hx&->).
    by rewrite (disaggregated_fields_agree v a x E Hx (Hroom x eq_refl)). }
  destruct (has_bootstrap_field o); [by apply Hv|]. destruct (json_get _ o) as [v|].
  - destruct (is_object v); [by apply Hv|done].
  - injection H as <-. by injection Hr as <-.
Qed.

(** What the gRPC server of a worker makes of a request of the router. *)
Definition native_request (p : NativeGenerateRequest) : Result Status HttpGenerateRequest :=
  match p with
  | NativeText p => let? q := proto_text_generate_request_to_router_request p in Ok (GenerateText q)
  | NativeTokenized p => let? q := proto_generate_request_to_router_request p in Ok (GenerateTokenized q)
  end.

(** A request under an id, with trace headers. *)
Definition identified (id : string) (traces : gmap string string) (q : HttpGenerateRequest) : HttpGenerateRequest :=
  let text q := mkRouterTextGenerateRequest id (t_text q) (t_sampling_params q) (t_disaggregated_params q) (t_stream q) (t_data_parallel_rank q) traces in
  let tokens q := mkRouterGenerateRequest id (tokenized q) (sampling_params q) (g_disaggregated_params q) (g_stream q) (g_data_parallel_rank q) traces in
  match q with
  | GenerateText q => GenerateText (text q)
  | GenerateBatchText qs => GenerateBatchText (text <$> qs)
  | GenerateTokenized q => GenerateTokenized (tokens q)
  | GenerateBatchTokenized qs => GenerateBatchTokenized (tokens <$> qs)
  end.

Definition in_http_range (sampling : option RouterSamplingParams) (params : option RouterDisaggregatedParams) : Prop :=
  (∀ s, sampling = Some s → Forall (λ z, 0 ≤ z)%Z (r_stop_token_ids s)) ∧ (∀ p, params = Some p → r_bootstrap_room p ≤ i64_MAX).
Definition request_in_http_range (q : HttpGenerateRequest) : Prop :=
  match q with
  | GenerateText q => in_http_range (t_sampling_params q) (t_disaggregated_params q)
  | GenerateTokenized q => in_http_range (sampling_params q) (g_disaggregated_params q)
  | _ => True
  end.

Definition grpc_request_id (to_str : string → option string) (object : Json) (headers : HeaderMap) : string :=
  default "" (or_else (get_str "request_id" object) (request_id_from_headers to_str headers)).

Lemma options_agree to_str o headers options : json_get "routed_dp_rank" o = None → request_options_from_json to_str o headers = Ok options →
  stream_flag o = Ok (option_stream options) ∧
  (let? rank := optional_routed_dp_rank o in Ok (default 0%Z rank)) = Ok (E := string) (option_data_parallel_rank options) ∧
  option_trace_headers options = grpc_trace_headers_from_http_headers to_str headers ∧
  default "" (option_request_id options) = grpc_request_id to_str o headers.
Proof.
  intros Hrank. unfold request_options_from_json. intros H. do 3 next_field H. injection H as <-. cbn.
  apply bool_field_agrees in E0. apply i32_field_agrees in E1. unfold stream_flag. rewrite E0.
  split; [done|]. split; [|split; [done|]].
  - unfold optional_routed_dp_rank, optional_i32 at 1. rewrite Hrank. cbn [result_bind]. by rewrite E1.
  - unfold grpc_request_id. f_equal. unfold optional_string_field in E. apply transpose_Ok in E. unfold get_str.
    destruct (json_get "request_id" o) as [v|]; [|by rewrite E]. destruct E as (s&Hs&->). cbn. by destruct (as_str v); simplify_eq/=.
Qed.

Lemma text_requests_agree to_str o headers p q : json_get "routed_dp_rank" o = None →
  proto_text_generate_request_from_json_object to_str o headers = Ok p → proto_text_generate_request_to_router_request p = Ok q →
  in_http_range (t_sampling_params q) (t_disaggregated_params q) →
  t_request_id q = grpc_request_id to_str o headers ∧ t_trace_headers q = grpc_trace_headers_from_http_headers to_str headers ∧
  http_generate_payload_to_router_text_requests o =
    Ok (OneRequest (mkRouterTextGenerateRequest (request_id_of o) (t_text q) (t_sampling_params q) (t_disaggregated_params q) (t_stream q)
                      (t_data_parallel_rank q) ∅)).
Proof.
  intros Hrank. unfold proto_text_generate_request_from_json_object, proto_text_generate_request_to_router_request.
  intros H Hq [Hstop Hroom]. do 4 next_field H. injection H as <-. cbn [p_text p_text_sampling p_text_options p_text_disaggregated default] in Hq.
  next_field Hq. injection Hq as <-. cbn in *.
  destruct (options_agree _ _ _ _ Hrank E1) as (Hflag&Hr&Htr&Hid). split; [done|]. split; [done|].
  unfold http_generate_payload_to_router_text_requests. unfold get_str in E. destruct (json_get "text" o) as [v|]; [|done].
  cbn [mbind option_bind] in E. destruct (as_str v) as [text|] eqn:Ht; [|done]. injection E as <-. cbn [ok_or result_bind].
  rewrite (sampling_agrees o _ E0) by (intros s ->; exact (Hstop _ eq_refl)). cbn [result_bind]. rewrite Hflag. cbn [result_bind].
  destruct v; try done. cbn [as_array as_str ok_or result_bind]. unfold single_text_request.
  rewrite (disaggregated_agree _ _ _ E2 E3 Hroom). cbn [result_bind].
  destruct (optional_routed_dp_rank o) as [rank|]; [|done]. cbn [result_bind] in *. cbn in Ht. injection Ht as <-. by match type of Hr with Ok ?x = Ok ?y => assert (x = y) as -> by congruence end.
Qed.

Lemma u32_try_from_small {E} (e : E) n : n < 2 ^ 32 → u32_try_from e n = Ok n.
Proof. unfold u32_try_from. by intros ->%N.ltb_lt. Qed.

Lemma token_requests_agree to_str o headers p q : json_get "routed_dp_rank" o = None →
  proto_generate_request_from_json_object to_str o headers = Ok p → proto_generate_request_to_router_request p = Ok q →
  in_http_range (sampling_params q) (g_disaggregated_params q) →
  g_request_id q = grpc_request_id to_str o headers ∧ trace_headers q = grpc_trace_headers_from_http_headers to_str headers ∧
  http_generate_payload_to_router_token_requests o =
    Ok (OneRequest (mkRouterGenerateRequest (request_id_of o) (tokenized q) (sampling_params q) (g_disaggregated_params q) (g_stream q)
                      (g_data_parallel_rank q) ∅)).
Proof.
  intros Hrank. unfold proto_generate_request_from_json_object, proto_generate_request_to_router_request.
  intros H Hq [Hstop Hroom]. do 6 next_field H. injection H as <-. cbn [p_sampling p_options p_disaggregated default] in Hq.
  next_field Hq. injection Hq as <-. cbn in *.
  destruct (options_agree _ _ _ _ Hrank E3) as (Hflag&Hr&Htr&Hid). split; [done|]. split; [done|].
  unfold http_generate_payload_to_router_token_requests. destruct (json_get "input_ids" o) as [v|]; [|done]. cbn in E. injection E as <-.
  cbn [mbind option_bind]. destruct (as_array v) as [items|]; [|done]. cbn in E0. injection E0 as <-. cbn [ok_or result_bind].
  rewrite (sampling_agrees o _ E2) by (intros s ->; exact (Hstop _ eq_refl)). cbn [result_bind]. rewrite Hflag. cbn [result_bind].
  apply try_all_Ok in E1.
  assert (token_id_array (JArray items) = Ok a1) as Hids.
  { unfold token_id_array. cbn [as_array ok_or result_bind]. clear -E1. induction E1 as [|x n items ns Hx _ IH]; [done|]. cbn [try_all].
    apply value_as_u32_Ok in Hx as [-> Hn]. cbn [as_u64 ok_or result_bind].
    rewrite u32_try_from_small by done. cbn [result_bind]. by rewrite IH. }
  assert (match items with v :: _ => is_array v | [] => false end = false) as ->.
  { destruct E1 as [|x n items ns Hx _]; [done|]. by apply value_as_u32_Ok in Hx as [-> _]. }
  rewrite Hids. cbn [result_bind]. rewrite (disaggregated_agree _ _ _ E4 E5 Hroom). cbn [result_bind].
  destruct (optional_routed_dp_rank o) as [rank|]; [|done]. cbn [result_bind] in *. by match type of Hr with Ok ?x = Ok ?y => assert (x = y) as -> by congruence end.
Qed.

(** The two ways to a worker agree: a body of [/generate] that reaches a worker over
    gRPC, through the messages of the router, becomes the request the HTTP server
    of the worker makes of it, apart from the id, which may come from a header, and
    the trace headers, if the body does not name a rank in [routed_dp_rank], no
    stop token is beyond 31 bits and no room beyond 63. *)
Theorem grpc_path_is_http_path from_slice to_str body o headers p q :
  from_slice body = Ok o → json_get "routed_dp_rank" o = None →
  proto_native_generate_request_from_json from_slice to_str body headers = Ok p → native_request p = Ok q → request_in_http_range q →
  ∃ q', http_generate_payload_to_router_request o = Ok q' ∧
    q = identified (grpc_request_id to_str o headers) (grpc_trace_headers_from_http_headers to_str headers) q'.
Proof.
  intros Hparse Hrank. unfold proto_native_generate_request_from_json, body_object. rewrite Hparse. cbn [result_map_err result_bind].
  destruct (is_object o); [|done]. cbn [result_bind]. unfold http_generate_payload_to_router_request.
  destruct (has "input_ids" o); intros H; next_field H; injection H as <-; cbn [native_request]; intros Hq; next_field Hq;
    injection Hq as <-; cbn [request_in_http_range]; intros Hrange.
  - destruct (token_requests_agree _ _ _ _ _ Hrank E E0 Hrange) as (Hid&Htr&->). cbn [result_bind]. eexists. split; [done|].
    cbn. rewrite <- Hid, <- Htr. by destruct a0.
  - destruct (text_requests_agree _ _ _ _ _ Hrank E E0 Hrange) as (Hid&Htr&->). cbn [result_bind]. eexists. split; [done|].
    cbn. rewrite <- Hid, <- Htr. by destruct a0.
Qed.

(** The answers agree too: what the router writes for a response of the gRPC server is
    what the HTTP server writes in a stream; an error carries an empty code besides. *)
Lemma grpc_answer_is_http_answer r :
  proto_generate_response_to_json (router_generate_response_to_proto_response r) =
  match body r with
  | ResponseError message => JObject [("error", JObject [("message", JString message); ("code", JString "")])]%string
  | _ => generate_stream_payload r
  end.
Proof. destruct r as [rid [c|c|m]]; reflexivity. Qed.

(** ** Witnesses and examples *)

Definition demo_object : Json :=
  JObject [("text", JString "hi"); ("stream", JBool true); ("data_parallel_rank", JUint 2);
           ("sampling_params", JObject [("max_new_tokens", JUint 3); ("stop_token_ids", JArray [JUint 8])]);
           ("bootstrap_host", JString "h"); ("bootstrap_port", JUint 8998); ("bootstrap_room", JUint 5)]%string.
Definition demo_headers : HeaderMap := [("cookie", "c"); ("x-request-id", "r1"); ("traceparent", "00-1")]%string.
Definition demo_sampling : RouterSamplingParams :=
  mkRouterSamplingParams (Some 3%Z) None None None None None None None None [8%Z] None None None.
Definition demo_traces : gmap string string := <["traceparent" := "00-1"]> (<["x-request-id" := "r1"]> ∅).

Lemma grpc_path_is_http_path_witness :
  ∃ q', http_generate_payload_to_router_request demo_object = Ok q' ∧
    GenerateText (mkRouterTextGenerateRequest "r1" "hi" (Some demo_sampling) (Some (mkRouterDisaggregatedParams "h" 8998 5)) true 2 demo_traces) =
    identified "r1" demo_traces q'.
Proof.
  apply (grpc_path_is_http_path (λ _, Ok demo_object) Some [] demo_object demo_headers
    (NativeText (mkProtoTextGenerateRequest "hi"
       (Some (mkProtoSamplingParams (Some 3%Z) None None None None None None None None [] None None None [8] None))
       (Some (mkRequestOptions (Some "r1"%string) true 2 demo_traces)) (Some (mkProtoDisaggregatedParams "h" 8998 5))))
    (GenerateText (mkRouterTextGenerateRequest "r1" "hi" (Some demo_sampling) (Some (mkRouterDisaggregatedParams "h" 8998 5)) true 2 demo_traces))).
  - done.
  - done.
  - by vm_compute.
  - by vm_compute.
  - split; [intros s [= <-]; cbn; by repeat constructor|by intros ? [= <-]].
Defined.

Definition routed_object : Json := JObject [("text", JString "hi"); ("routed_dp_rank", JUint 1)]%string.

(** The rank of [routed_dp_rank] is lost on the way over gRPC: the worker gets rank 0. *)
Example grpc_loses_routed_rank :
  (let? p := proto_native_generate_request_from_json (λ _, Ok routed_object) Some [] [] in native_request p) =
    Ok (GenerateText (mkRouterTextGenerateRequest "" "hi" None None false 0 ∅)) ∧
  http_generate_payload_to_router_request routed_object = Ok (GenerateText (mkRouterTextGenerateRequest "" "hi" None None false 1 ∅)).
Proof. split; by vm_compute. Qed.

Definition large_stop_object : Json :=
  JObject [("text", JString "hi"); ("sampling_params", JObject [("stop", JString "end"); ("stop_token_ids", JArray [JUint 2147483648])])]%string.

(** Over gRPC a stop token beyond 31 bits turns negative and the stop strings are
    dropped; the HTTP server refuses the token. *)
Example grpc_wraps_stop_token :
  (let? p := proto_native_generate_request_from_json (λ _, Ok large_stop_object) Some [] [] in native_request p) =
    Ok (GenerateText (mkRouterTextGenerateRequest "" "hi"
          (Some (mkRouterSamplingParams None None None None None None None None None [(-2147483648)%Z] None None None)) None false 0 ∅)) ∧
  http_generate_payload_to_router_request large_stop_object = Err "stop_token_ids contains an integer too large for i32"%string.
Proof. split; by vm_compute. Qed.
