(* ===== verification/RouterDispatch.v ===== *)
(** * Choosing workers and preparing requests ([crates/sglang-router/src/server/], [error.rs], [routes/pd.rs])

    The errors of the router and their answers; the selection of a worker, or of a
    prefill and a decode worker, for a request; and the body both get, with the
    coordinates of the KV transfer between them.  [from_slice] and [to_vec] are
    those of [serde_json] (objects keep their order), [header_value] says whether a
    text can be a header value, [random] gives the random numbers of a request. *)

From stdpp Require Import pretty.
From S2P Require Import Prelude Text Tokenizer CircuitBreaker WorkerRegistry RouterProtocol Safetensors JsonValue HttpPayload ProxyRequests.
#[local] Open Scope N_scope.

(** ** Errors *)

(** URLs and the chains of causes are texts, a status is its number. *)
(** [sglang-router/src/server/error.rs:12-101] ApiError *)
Inductive ApiError : Type :=
  | BadRequest (message : string)
  | ModelNotFound (model : string)
  | UpstreamUnreachable (worker source : string)
  | UpstreamStatus (status : N)
  | UpstreamTimeout (worker : string)
  | ApiNoHealthyWorkers (model : string)
  | ApiNoPrefillWorkersAvailable (model : string)
  | ApiNoDecodeWorkersAvailable (model : string)
  | StaleRequestExpired (model : string)
  | PolicySelectionFailed (model : string)
  | BreakerOpen (worker : string)
  | WorkerMisconfigured (worker source : string)
  | InternalError (source : string).

(** [sglang-router/src/server/error.rs:104-139] ApiError::status_and_code *)
Definition status_and_code (e : ApiError) : N * string :=
  match e with
  | BadRequest _ => (400, "bad_request")
  | ModelNotFound _ => (404, "model_not_found")
  | UpstreamUnreachable _ _ => (502, "upstream_unreachable")
  | UpstreamStatus _ => (502, "upstream_status")
  | UpstreamTimeout _ => (502, "upstream_timeout")
  | ApiNoHealthyWorkers _ => (503, "no_healthy_workers")
  | ApiNoPrefillWorkersAvailable _ => (503, "no_prefill_workers_available")
  | ApiNoDecodeWorkersAvailable _ => (503, "no_decode_workers_available")
  | StaleRequestExpired _ => (504, "stale_request_expired")
  | PolicySelectionFailed _ => (503, "policy_selection_failed")
  | BreakerOpen _ => (503, "breaker_open")
  | WorkerMisconfigured _ _ => (503, "worker_misconfigured")
  | InternalError _ => (500, "internal_error")
  end%string.

(** The message the client sees. *)
(** [sglang-router/src/server/error.rs:164-236] ApiError::into_response (message) *)
Definition client_message (e : ApiError) : string :=
  match e with
  | InternalError _ => "internal error"
  | UpstreamUnreachable _ _ => "upstream unavailable"
  | UpstreamStatus _ => "upstream returned an error status"
  | UpstreamTimeout _ => "upstream request timed out"
  | ApiNoHealthyWorkers _ => "no healthy workers for the requested model"
  | ApiNoPrefillWorkersAvailable _ => "no prefill workers available for the requested model"
  | ApiNoDecodeWorkersAvailable _ => "no decode workers available for the requested model"
  | StaleRequestExpired _ => "request expired before completion"
  | PolicySelectionFailed _ | BreakerOpen _ | WorkerMisconfigured _ _ => "service unavailable"
  | BadRequest message => "bad request: " +:+ message
  | ModelNotFound model => "model not found: " +:+ model
  end%string.

(** A status, the header [x-router-error-code] and a body. *)
(** [sglang-router/src/server/error.rs:155-248] ApiError::into_response *)
Definition into_response (e : ApiError) : N * string * Json :=
  let '(status, code) := status_and_code e in
  let typ := if (400 <=? status) && (status <=? 499) then "invalid_request_error"%string else "server_error"%string in
  (status, code, JObject [("error", JObject [("type", JString typ); ("code", JString code); ("message", JString (client_message e))])]%string).

(** ** Policies *)

(** A policy may keep a state, as the counter of the round robin; [policy_model] and
    [policy_body] are the selection context. *)
(** [sglang-router/src/policies/mod.rs:49-51] Policy *)
Class Policy (P : Type) : Type := {
  policy_select : P → list Worker → string → option (list N) → option Worker * P;
}.

(** ** Worker pairs *)

(** [sglang-router/src/server/routes/pd.rs:22-29] PdWorkerPair *)
Record PdWorkerPair : Type := mkPair { pair_prefill : Worker; pair_decode : Worker }.

(** [sglang-router/src/server/routes/pd.rs:76-80] RouteWorkerSelection *)
Inductive RouteWorkerSelection : Type :=
  | SelectSingle (worker : Worker)
  | SelectDual (both : PdWorkerPair).

(** [sglang-router/src/server/routes/pd.rs:122-126] RouteSelectionError *)
Inductive RouteSelectionError : Type :=
  | ResolveError (e : PdResolveError)
  | NoSelection.

(** [sglang-router/src/server/routes/pd.rs:114-119] RouteWorkerSelection::primary_worker *)
Definition primary_worker (s : RouteWorkerSelection) : Worker :=
  match s with SelectSingle worker => worker | SelectDual both => pair_prefill both end.

Section Selection.
Context (url_host : string → option string) (iter_ids : gset WorkerId → list WorkerId).

(** [sglang-router/src/server/routes/pd.rs:36-43] PdWorkerPair::resolve_for_prefill *)
Definition resolve_for_prefill (now : N) (r : WorkerRegistry) (model : ModelId) (prefill : Worker) : Result PdResolveError PdWorkerPair :=
  let? decode := decode_with_affinity_for_prefill url_host iter_ids now r model prefill in
  Ok (mkPair prefill decode).

(** [sglang-router/src/server/routes/pd.rs:100-112] RouteWorkerSelection::from_selected_worker *)
Definition from_selected_worker (now : N) (r : WorkerRegistry) (model : ModelId) (worker : Worker) : Result PdResolveError RouteWorkerSelection :=
  match mode worker with
  | Prefill => let? both := resolve_for_prefill now r model worker in Ok (SelectDual both)
  | _ => Ok (SelectSingle worker)
  end.

(** The registry is read once for the candidates and once for the decode worker; it
    may change in between. *)
(** [sglang-router/src/server/routes/pd.rs:83-98] RouteWorkerSelection::select_with_policy *)
Definition select_with_policy {P} `{!Policy P} (now now' : N) (r r' : WorkerRegistry) (policy : P) (model : ModelId) (request_body : option (list N))
    : Result RouteSelectionError RouteWorkerSelection * P :=
  match prefill_candidates iter_ids now r model with
  | Err e => (Err (ResolveError e), policy)
  | Ok workers =>
      match policy_select policy workers model request_body with
      | (None, policy) => (Err NoSelection, policy)
      | (Some worker, policy) => (result_map_err ResolveError (from_selected_worker now' r' model worker), policy)
      end
  end.

End Selection.

(** ** Bootstrap metadata *)

(** [sglang-router/src/server/routes/pd.rs:506-508] generate_room_id *)
Definition generate_room_id (random : N) : N := N.land random i64_MAX.

(** [sglang-router/src/server/routes/pd.rs:362-367] BootstrapMetadata *)
Record BootstrapMetadata : Type := mkBootstrap { meta_host : string; meta_port : N; meta_room : N }.

(** [sglang-router/src/server/routes/pd.rs:370-376] BootstrapMetadata::new *)
Definition BootstrapMetadata_new (random : N) (host : string) (port : N) : BootstrapMetadata :=
  mkBootstrap host port (generate_room_id random).

(** [sglang-router/src/server/routes/pd.rs:520-535] request_batch_size *)
Definition request_batch_size (obj : Json) : option N :=
  match json_get "text" obj ≫= as_array with
  | Some items => Some (len items)
  | None =>
      let input_ids :=
        match json_get "input_ids" obj ≫= as_array with
        | Some items => if match items with item :: _ => is_array item | [] => true end then Some (len items) else None
        | None => None
        end in
      match json_get "prompt" obj ≫= as_array with
      | Some items => if forallb is_string items then Some (len items) else input_ids
      | None => input_ids
      end
  end.

(** The three fields, in the order the code inserts them. *)
Definition insert_bootstrap (host port room : Json) (entries : list (string * Json)) : list (string * Json) :=
  object_insert "bootstrap_room" room (object_insert "bootstrap_port" port (object_insert "bootstrap_host" host entries)).

(** The entries of an injected body, and its rooms. *)
(** [sglang-router/src/server/routes/pd.rs:418-451] BootstrapMetadata::inject_into_body_with_rooms (fields) *)
Definition inject_fields (random : nat → N) (b : BootstrapMetadata) (batch_size : option N) (entries : list (string * Json))
    : list (string * Json) * list N :=
  match batch_size with
  | Some batch_size =>
      let rooms := (λ i, generate_room_id (random i)) <$> seq 0 (N.to_nat batch_size) in
      (insert_bootstrap (JArray (replicate (N.to_nat batch_size) (JString (meta_host b))))
         (JArray (replicate (N.to_nat batch_size) (JUint (meta_port b)))) (JUints rooms) entries, rooms)
  | None => (insert_bootstrap (JString (meta_host b)) (JUint (meta_port b)) (JUint (meta_room b)) entries, [meta_room b])
  end.

Section Plans.
Context (from_slice : list N → Result string Json) (to_vec : Json → list N) (header_value : string → bool).

Definition not_an_object : ApiError := BadRequest "invalid request: body must be a JSON object".

(** [serde_json::from_slice] into a [Map]. *)
Definition parse_object (body : list N) : Result ApiError (list (string * Json)) :=
  match from_slice body with Ok (JObject entries) => Ok entries | _ => Err not_an_object end.

(** [sglang-router/src/server/routes/pd.rs:406-463] BootstrapMetadata::inject_into_body_with_rooms *)
Definition inject_into_body_with_rooms (random : nat → N) (b : BootstrapMetadata) (body : list N) (batch_size : option N)
    : Result ApiError (list N * list N) :=
  let? entries := parse_object body in
  let '(entries, rooms) := inject_fields random b batch_size entries in
  Ok (to_vec (JObject entries), rooms).

(** [sglang-router/src/server/routes/pd.rs:510-518] request_batch_size_from_bytes *)
Definition request_batch_size_from_bytes (body : list N) : Result ApiError (option N) :=
  let? entries := parse_object body in Ok (request_batch_size (JObject entries)).

(** The metadata of a request's dispatch. *)
(** [sglang-router/src/server/routes/pd.rs:211-215] PdDispatchMetadata *)
Record PdDispatchMetadata : Type := mkDispatchMetadata { decode_url : string; metadata_rooms : option (list N) }.

(** [sglang-router/src/server/routes/pd.rs:273-279] PdDispatchPlan *)
Record PdDispatchPlan : Type := mkDispatchPlan {
  plan_metadata : PdDispatchMetadata;
  plan_body : list N;
  plan_room : N;
  plan_rooms : list N;
}.

(** [sglang-router/src/server/routes/pd.rs:297-319] PdDispatchPlan::from_bootstrap *)
Definition plan_from_bootstrap (random : nat → N) (decode_url : string) (b : BootstrapMetadata) (body : list N) (batch_size : option N)
    : Result ApiError PdDispatchPlan :=
  let? injection := inject_into_body_with_rooms random b body batch_size in
  let '(body, rooms) := injection in
  Ok (mkDispatchPlan (mkDispatchMetadata decode_url (Some rooms)) body (match rooms with room :: _ => room | [] => meta_room b end) rooms).

(** [sglang-router/src/server/routes/pd.rs:282-295] PdDispatchPlan::new *)
Definition PdDispatchPlan_new (random : nat → N) (decode_url host : string) (port : N) (body : list N) (batch_size : option N)
    : Result ApiError PdDispatchPlan :=
  plan_from_bootstrap (λ i, random (S i)) decode_url (BootstrapMetadata_new (random 0%nat) host port) body batch_size.

(** [sglang-router/src/server/routes/pd.rs:53-73] PdWorkerPair::prepare_plan *)
Definition prepare_plan (random : nat → N) (both : PdWorkerPair) (body : list N) (batch_size : option N) : Result ApiError PdDispatchPlan :=
  let? port := ok_or (bootstrap_port (pair_prefill both))
                 (WorkerMisconfigured (worker_url (pair_prefill both)) "PD prefill worker is missing disaggregation bootstrap_port") in
  PdDispatchPlan_new random (worker_url (pair_decode both)) (bootstrap_host (pair_prefill both)) port body batch_size.

(** [sglang-router/src/server/routes/pd.rs:132-136] PdExecutionRequest *)
Record PdExecutionRequest : Type := mkExecutionRequest { execution_pair : PdWorkerPair; execution_plan : PdDispatchPlan }.

(** [sglang-router/src/server/routes/pd.rs:139-142] PdExecutionRequest::prepare *)
Definition PdExecutionRequest_prepare (random : nat → N) (both : PdWorkerPair) (body : list N) : Result ApiError PdExecutionRequest :=
  let? batch_size := request_batch_size_from_bytes body in
  let? plan := prepare_plan random both body batch_size in
  Ok (mkExecutionRequest both plan).

(** ** Headers *)

(** [sglang-router/src/server/routes/pd.rs:255-270] PdDispatchMetadata::insert_decode_header *)
Definition insert_decode_header (m : PdDispatchMetadata) (headers : HeaderMap) : HeaderMap :=
  if header_value (decode_url m) then header_insert "x-sgl-decode-url" (decode_url m) headers else headers.

(** A list of rooms, as JSON. *)
Fixpoint join_rooms (rooms : list N) : string :=
  match rooms with [] => "" | [room] => pretty room | room :: rooms => pretty room +:+ "," +:+ join_rooms rooms end.

(** The value of a room header is always a header value. *)
(** [sglang-router/src/server/routes/pd.rs:477-496] insert_bootstrap_rooms_response_header *)
Definition insert_bootstrap_rooms_response_header (rooms : list N) (headers : HeaderMap) : HeaderMap :=
  match rooms with
  | [] => headers
  | [room] => header_insert "x-sgl-bootstrap-room" (pretty room) headers
  | _ => header_insert "x-sgl-bootstrap-room" ("[" +:+ join_rooms rooms +:+ "]") headers
  end.

(** [sglang-router/src/server/routes/pd.rs:240-242] PdDispatchMetadata::insert_request_headers *)
Definition insert_request_headers (m : PdDispatchMetadata) (headers : HeaderMap) : HeaderMap := insert_decode_header m headers.

(** [sglang-router/src/server/routes/pd.rs:244-249] PdDispatchMetadata::insert_response_headers *)
Definition insert_response_headers (m : PdDispatchMetadata) (headers : HeaderMap) : HeaderMap :=
  let headers := insert_decode_header m headers in
  match metadata_rooms m with Some rooms => insert_bootstrap_rooms_response_header rooms headers | None => headers end.

(** ** The dispatch plan of a route *)

(** [sglang-router/src/server/routes/pd.rs:174-185] RouteDispatchPlan *)
Inductive RouteDispatchPlan : Type :=
  | DispatchPlain (worker : Worker) (headers : HeaderMap) (body : list N)
  | DispatchPd (request : PdExecutionRequest) (headers : HeaderMap).

(** [sglang-router/src/server/routes/pd.rs:188-206] RouteDispatchPlan::prepare *)
Definition RouteDispatchPlan_prepare (random : nat → N) (selection : RouteWorkerSelection) (headers : HeaderMap) (body : list N)
    : Result ApiError RouteDispatchPlan :=
  match selection with
  | SelectSingle worker => Ok (DispatchPlain worker headers body)
  | SelectDual both =>
      let? request := PdExecutionRequest_prepare random both body in
      Ok (DispatchPd request (insert_request_headers (plan_metadata (execution_plan request)) headers))
  end.

End Plans.

(** ** The coordinates reach the worker *)

Definition request_coordinates (q : HttpGenerateRequest) : list (option RouterDisaggregatedParams) :=
  match q with
  | GenerateText q => [t_disaggregated_params q]
  | GenerateBatchText qs => t_disaggregated_params <$> qs
  | GenerateTokenized q => [g_disaggregated_params q]
  | GenerateBatchTokenized qs => g_disaggregated_params <$> qs
  end.
Definition texts_coordinates (q : OneOrBatch RouterTextGenerateRequest) : list (option RouterDisaggregatedParams) :=
  match q with OneRequest q => [t_disaggregated_params q] | BatchRequests qs => t_disaggregated_params <$> qs end.

(** A worker takes requests with these coordinates from a body, at one of the endpoints
    that serve prefill and decode workers. *)
Inductive worker_takes (payload : Json) (headers : RankHeader) : list (option RouterDisaggregatedParams) → Prop :=
  | takes_generate q : http_generate_payload_to_router_request_with_headers payload headers = Ok q →
      worker_takes payload headers (request_coordinates q)
  | takes_completion model q : http_completion_payload_to_router_request_with_headers payload model headers = Ok q →
      worker_takes payload headers (texts_coordinates q)
  | takes_chat model prompt q : http_chat_payload_to_router_request_with_headers payload model headers prompt = Ok q →
      worker_takes payload headers (texts_coordinates q).

(** What an injected body holds: lists of coordinates, or one. *)
Definition holds (payload : Json) (host port room : Json) : Prop :=
  json_get "bootstrap_host" payload = Some host ∧ json_get "bootstrap_port" payload = Some port ∧ json_get "bootstrap_room" payload = Some room.
Definition holds_list (payload : Json) (host : string) (port : N) (rooms : list N) : Prop :=
  holds payload (JArray (replicate (length rooms) (JString host))) (JArray (replicate (length rooms) (JUint port))) (JUints rooms).
Definition holds_one (payload : Json) (host : string) (port room : N) : Prop := holds payload (JString host) (JUint port) (JUint room).

Lemma holds_insert host port room entries : holds (JObject (insert_bootstrap host port room entries)) host port room.
Proof.
  unfold holds, insert_bootstrap, json_get. cbn [as_object mbind option_bind]. repeat split; by rewrite ?field_insert_ne, field_insert by done.
Qed.

Lemma holds_has payload host port room : holds payload host port room → has_bootstrap_field payload = true.
Proof. intros (H&_&_). unfold has_bootstrap_field, has. by rewrite H. Qed.

Lemma holds_header payload headers payload' host port room :
  payload_with_routed_dp_rank_header payload headers = Ok payload' → holds payload host port room → holds payload' host port room.
Proof.
  unfold payload_with_routed_dp_rank_header. destruct (routed_dp_rank_header headers) as [[rank|]|]; cbn [result_bind]; [|by intros [= <-]|done].
  destruct payload; try done. intros [= <-]. unfold holds, json_get. cbn [as_object mbind option_bind]. by rewrite !field_insert_ne.
Qed.

Lemma u16_read field n : n < 2 ^ 16 → required_u16_value field (JUint n) = Ok n.
Proof. intros H. unfold required_u16_value, u16_try_from. cbn. by rewrite (proj2 (N.ltb_lt _ _)). Qed.
Lemma room_read field n : n ≤ i64_MAX → required_bootstrap_room_value field (JUint n) = Ok n.
Proof. intros H. unfold required_bootstrap_room_value. cbn [as_u64 ok_or result_bind]. by rewrite (proj2 (N.ltb_ge _ _)). Qed.

Lemma try_all_map {E A B} (f : A → Result E B) (g : B → A) ys : Forall (λ y, f (g y) = Ok y) ys → try_all f (g <$> ys) = Ok ys.
Proof. induction 1 as [|y ys Hy _ IH]; [done|]. cbn. rewrite Hy. cbn. by rewrite IH. Qed.

Section Reach.
Context (host : string) (port : N) (Hport : port < 2 ^ 16).

Definition coordinates (room : N) : option RouterDisaggregatedParams := Some (mkRouterDisaggregatedParams host port room).

Lemma one_read payload room : room ≤ i64_MAX → holds_one payload host port room → json_to_disaggregated_params payload = Ok (coordinates room).
Proof.
  intros Hroom Hp. unfold json_to_disaggregated_params. rewrite (holds_has _ _ _ _ Hp). destruct Hp as (Hh&Hpt&Hr).
  unfold disaggregated_fields, required_string, get_str, required_u16, required_bootstrap_room. rewrite Hh, Hpt, Hr.
  cbn [mbind option_bind as_str ok_or result_bind]. rewrite u16_read, room_read by done. done.
Qed.

Lemma one_repeated payload room n : room ≤ i64_MAX → holds_one payload host port room →
  json_to_disaggregated_params_values payload n = Ok (repeated n (coordinates room)).
Proof.
  intros Hroom Hp. unfold json_to_disaggregated_params_values. rewrite (holds_has _ _ _ _ Hp). destruct Hp as (Hh&Hpt&Hr).
  unfold required_string_values, required_u16_values, required_bootstrap_room_values, required_number_values. rewrite Hh, Hpt, Hr.
  cbn [as_str ok_or result_bind is_u64]. rewrite u16_read, room_read by done. cbn [result_bind]. f_equal.
  unfold repeated. induction (N.to_nat n) as [|k IH]; [done|]. cbn. by rewrite IH.
Qed.

Lemma list_not_one payload rooms p : holds_list payload host port rooms → json_to_disaggregated_params payload ≠ Ok p.
Proof.
  intros Hp. unfold json_to_disaggregated_params. rewrite (holds_has _ _ _ _ Hp). destruct Hp as (Hh&_&_).
  unfold disaggregated_fields, required_string, get_str. by rewrite Hh.
Qed.

Lemma list_read payload rooms n ps : Forall (λ room, room ≤ i64_MAX) rooms → holds_list payload host port rooms →
  json_to_disaggregated_params_values payload n = Ok ps → ps = coordinates <$> rooms.
Proof.
  intros Hrooms Hp. unfold json_to_disaggregated_params_values. rewrite (holds_has _ _ _ _ Hp). destruct Hp as (Hh&Hpt&Hr).
  unfold required_string_values, required_u16_values, required_bootstrap_room_values, required_number_values. rewrite Hh, Hpt, Hr.
  unfold JUints. cbn [as_str as_array ok_or result_bind is_u64].
  destruct (len (replicate (length rooms) (JString host)) =? n); [|done].
  replace (replicate (length rooms) (JString host)) with (JString <$> replicate (length rooms) host) by apply fmap_replicate.
  rewrite try_all_map by (apply Forall_replicate; done). cbn [result_bind].
  destruct (len (replicate (length rooms) (JUint port)) =? n); [|done].
  replace (replicate (length rooms) (JUint port)) with (JUint <$> replicate (length rooms) port) by apply fmap_replicate.
  rewrite try_all_map by (apply Forall_replicate, u16_read; done). cbn [result_bind].
  destruct (len (JUint <$> rooms) =? n); [|done]. rewrite try_all_map by (eapply Forall_impl; [done|]; intros; by apply room_read).
  cbn [result_bind]. intros [= <-]. clear. induction rooms as [|room rooms IH]; [done|]. cbn. by rewrite IH.
Qed.

End Reach.

(** The coordinates of the requests a payload is translated to. *)
Lemma single_coordinates p text s b q : single_text_request p text s b = Ok q → json_to_disaggregated_params p = Ok (t_disaggregated_params q).
Proof. unfold single_text_request. intros H. repeat next_field H. by injection H as <-. Qed.

Lemma text_requests_coordinates texts : ∀ ids ranks params sampling stream, len ids = len texts → len ranks = len texts → len params = len texts →
  t_disaggregated_params <$> text_requests texts ids ranks params sampling stream = params.
Proof.
  induction texts as [|t texts IH]; intros [|d ids] [|r ranks] [|p params] sampling stream; cbn [text_requests]; rewrite ?len_cons, ?len_nil; intros;
    try done; try lia. cbn. rewrite IH; (done || lia).
Qed.

Lemma batch_coordinates p texts s b qs : batch_text_requests p texts s b = Ok qs →
  json_to_disaggregated_params_values p (len texts) = Ok (t_disaggregated_params <$> qs).
Proof.
  unfold batch_text_requests. intros H. repeat next_field H. injection H as <-.
  apply (strings_read_items p "request_id" _ eq_refl) in E as [L1 _]. apply ranks_read_items in E0 as [L2 _].
  pose proof (params_read_items _ _ _ E1) as [L3 _]. by rewrite text_requests_coordinates.
Qed.

Lemma token_requests_coordinates inputs : ∀ ids texts ranks params sampling stream, len ids = len inputs → len texts = len inputs →
  len ranks = len inputs → len params = len inputs → g_disaggregated_params <$> token_requests inputs ids texts ranks params sampling stream = params.
Proof.
  induction inputs as [|t inputs IH]; intros [|d ids] [|x texts] [|r ranks] [|p params] sampling stream; cbn [token_requests];
    rewrite ?len_cons, ?len_nil; intros; try done; try lia. cbn. rewrite IH; (done || lia).
Qed.

(** Every body a worker takes is read in one of two ways. *)
Lemma worker_takes_cases payload headers ps : worker_takes payload headers ps →
  ∃ payload', payload_with_routed_dp_rank_header payload headers = Ok payload' ∧
    ((∃ p, json_to_disaggregated_params payload' = Ok p ∧ ps = [p]) ∨ (∃ n, json_to_disaggregated_params_values payload' n = Ok ps)).
Proof.
  intros [q H|model q H|model prompt q H].
  - unfold http_generate_payload_to_router_request_with_headers in H. next_field H. exists a. split; [done|].
    unfold http_generate_payload_to_router_request in H. destruct (has "input_ids" a); next_field H.
    + unfold http_generate_payload_to_router_token_requests in E0. do 3 next_field E0.
      destruct (match _ with v :: _ => is_array v | [] => false end); repeat next_field E0.
      * injection E0 as <-. injection H as <-. right. eexists. cbn [request_coordinates].
        apply try_all_len in E4 as Hinputs. clear Hinputs.
        apply (strings_read_items a "request_id" _ eq_refl) in E5 as [L1 _]. apply (strings_read_items a "original_text" _ eq_refl) in E6 as [L2 _].
        apply ranks_read_items in E7 as [L3 _]. pose proof (params_read_items _ _ _ E8) as [L4 _].
        rewrite token_requests_coordinates by done. exact E8.
      * injection E0 as <-. injection H as <-. left. eexists. by split.
    + unfold http_generate_payload_to_router_text_requests in E0. do 3 next_field E0.
      destruct (as_array _); repeat next_field E0; injection E0 as <-; injection H as <-; cbn [request_coordinates].
      * right. eexists. by eapply batch_coordinates.
      * left. eexists. split; [by eapply single_coordinates|done].
  - unfold http_completion_payload_to_router_request_with_headers in H. next_field H. exists a. split; [done|].
    unfold http_completion_payload_to_router_request in H. do 3 next_field H.
    destruct a2 as [text|texts]; [|destruct (len texts =? 0); [done|]]; next_field H; injection H as <-; cbn [texts_coordinates].
    + left. eexists. split; [by eapply single_coordinates|done].
    + right. eexists. by eapply batch_coordinates.
  - unfold http_chat_payload_to_router_request_with_headers in H. next_field H. exists a. split; [done|].
    unfold http_chat_payload_to_router_request in H. do 3 next_field H. destruct (_ <? 1)%Z; [done|].
    destruct (_ =? 1)%Z; next_field H; injection H as <-; cbn [texts_coordinates].
    + left. eexists. split; [by eapply single_coordinates|done].
    + right. eexists. by eapply batch_coordinates.
Qed.

Lemma generate_room_id_range random : generate_room_id random ≤ i64_MAX.
Proof.
  unfold generate_room_id. replace i64_MAX with (N.ones 63) by done. rewrite N.land_ones.
  pose proof (N.mod_lt random (2 ^ 63)) as H. change (N.ones 63) with (2 ^ 63 - 1). lia.
Qed.

(** The two sides of a transfer meet: the body prepared for a pair goes to both
    workers, and whatever requests a worker takes from it carry the address of the
    prefill worker and the rooms of the plan, which fit in 63 bits: request [i] of
    a batch the [i]-th room, as many requests as rooms, and a request that is not
    taken for a batch the one room of the plan. *)
Theorem dispatched_rooms_reach_workers from_slice to_vec random both port body req :
  (∀ v, from_slice (to_vec v) = Ok v) → bootstrap_port (pair_prefill both) = Some port → port < 2 ^ 16 →
  PdExecutionRequest_prepare from_slice to_vec random both body = Ok req →
  execution_pair req = both ∧ Forall (λ room, room ≤ i64_MAX) (plan_rooms (execution_plan req)) ∧
  ∃ entries payload, from_slice body = Ok (JObject entries) ∧ from_slice (plan_body (execution_plan req)) = Ok payload ∧
    ∀ headers ps, worker_takes payload headers ps →
      match request_batch_size (JObject entries) with
      | Some n => ps = coordinates (bootstrap_host (pair_prefill both)) port <$> plan_rooms (execution_plan req) ∧ len ps = n
      | None => Forall (λ p, p = coordinates (bootstrap_host (pair_prefill both)) port (plan_room (execution_plan req))) ps
      end.
Proof.
  intros Hround Hbp Hport. unfold PdExecutionRequest_prepare, request_batch_size_from_bytes, parse_object, prepare_plan, PdDispatchPlan_new,
    plan_from_bootstrap, inject_into_body_with_rooms, parse_object. rewrite Hbp.
  destruct (from_slice body) as [[| | | | | | |entries]|]; try done. cbn [result_bind ok_or].
  destruct (request_batch_size (JObject entries)) as [n|] eqn:Hn; cbn [inject_fields result_bind meta_host meta_port meta_room]; intros [= <-];
    cbn [execution_pair execution_plan plan_rooms plan_body plan_room]; (split; [done|]).
  - set (rooms := (λ i, generate_room_id (random (S i))) <$> seq 0 (N.to_nat n)).
    assert (Forall (λ room, room ≤ i64_MAX) rooms) as Hrooms by (apply Forall_fmap, Forall_true; intros; apply generate_room_id_range).
    assert (length rooms = N.to_nat n) as Hlen by (unfold rooms; by rewrite length_fmap, length_seq).
    split; [done|]. exists entries. eexists. split; [done|]. split; [apply Hround|]. intros headers ps Htakes. rewrite Hn.
    destruct (worker_takes_cases _ _ _ Htakes) as (payload'&Hheader&Hcases).
    assert (holds_list payload' (bootstrap_host (pair_prefill both)) port rooms) as Hlist.
    { unfold holds_list. rewrite Hlen. eapply holds_header; [exact Hheader|]. apply holds_insert. }
    destruct Hcases as [(p&Hp&_)|(m&Hm)]; [by destruct (list_not_one _ _ _ _ p Hlist)|].
    rewrite (list_read _ _ Hport _ _ _ _ Hrooms Hlist Hm). split; [done|]. unfold len. rewrite length_fmap, Hlen. lia.
  - set (room := generate_room_id (random 0%nat)). pose proof (generate_room_id_range (random 0%nat)) as Hroom.
    split; [by constructor|]. exists entries. eexists. split; [done|]. split; [apply Hround|]. intros headers ps Htakes. rewrite Hn.
    destruct (worker_takes_cases _ _ _ Htakes) as (payload'&Hheader&Hcases).
    assert (holds_one payload' (bootstrap_host (pair_prefill both)) port room) as Hone by (eapply holds_header; [exact Hheader|apply holds_insert]).
    destruct Hcases as [(p&Hp&->)|(m&Hm)].
    + rewrite (one_read _ _ Hport _ _ Hroom Hone) in Hp. injection Hp as <-. by repeat constructor.
    + rewrite (one_repeated _ _ Hport _ _ m Hroom Hone) in Hm. injection Hm as <-. unfold repeated. by apply Forall_replicate.
Qed.

(** ** The selection serves the request *)

Class PolicyLaws (P : Type) `{!Policy P} : Prop := {
  policy_selects p ws model body w p' : policy_select p ws model body = (Some w, p') → w ∈ ws;
}.

Section Serves.
Context (url_host : string → option string) (iter_ids : gset WorkerId → list WorkerId).
Context {P : Type} `{!Policy P, !PolicyLaws P}.

Lemma decode_for_prefill_cases now r model prefill :
  prefill ∈ healthy_workers_for iter_ids now r model → mode prefill = Prefill →
  match decode_with_affinity_for_prefill url_host iter_ids now r model prefill with
  | Ok d => d ∈ healthy_workers_for iter_ids now r model ∧ mode d = Decode ∧ kv_layout_compatible prefill d = true
  | Err e => e = NoDecodeWorkersAvailable ∧
      ∀ d, d ∈ healthy_workers_for iter_ids now r model → mode d = Decode → kv_layout_compatible prefill d = false
  end.
Proof.
  intros Hin Hm. unfold decode_with_affinity_for_prefill, decode_candidates. pose proof (resolve_cases iter_ids now r model) as Hc. cbv zeta in Hc.
  set (H := healthy_workers_for iter_ids now r model) in *.
  destruct (resolve iter_ids now r model) as [[ws|p d]|e]; cbn [result_bind].
  - destruct Hc as (_&_&Hplain). specialize (Hplain _ Hin). congruence.
  - destruct Hc as (_&->&_). destruct (filter (λ w, mode w = Decode) H) as [|d0 ds] eqn:Hd; cbn [result_bind].
    { split; [done|]. intros d Hdin Hdm. rewrite filter_mode_nil in Hd. by destruct (Hd d). }
    rewrite <- Hd. set (compatible := filter (λ d, kv_layout_compatible prefill d = true) (filter (λ w, mode w = Decode) H)).
    pose proof (select_decode_correct url_host now (worker_url prefill) compatible) as Hs. cbv zeta in Hs.
    destruct (select_decode_with_affinity _ _ _ _) as [d|]; cbn [ok_or].
    + destruct Hs as [Hs _]. subst compatible. apply list_elem_of_filter in Hs as [Hcomp [Hdm Hdin]%list_elem_of_filter]. done.
    + split; [done|]. intros d Hdin Hdm. destruct (kv_layout_compatible prefill d) eqn:Hcomp; [|done].
      assert (d ∈ compatible) as Hx by (subst compatible; apply list_elem_of_filter; split; [done|]; by apply list_elem_of_filter).
      rewrite Hs in Hx. by apply elem_of_nil in Hx.
  - destruct Hc as (_&He&_). rewrite He in Hin. by apply elem_of_nil in Hin.
Qed.

(** A request goes to workers that can serve it: one plain worker where all admitted
    workers of the model are plain, or an admitted prefill worker and an admitted
    decode worker with the same KV layout; the errors say what is missing. *)
Theorem selection_serves_request now r policy model body res policy' :
  select_with_policy url_host iter_ids now now r r policy model body = (res, policy') →
  let H := healthy_workers_for iter_ids now r model in
  match res with
  | Ok (SelectSingle w) => w ∈ H ∧ ∀ v, v ∈ H → mode v = Plain
  | Ok (SelectDual both) =>
      pair_prefill both ∈ H ∧ mode (pair_prefill both) = Prefill ∧ pair_decode both ∈ H ∧ mode (pair_decode both) = Decode ∧
      kv_layout_compatible (pair_prefill both) (pair_decode both) = true
  | Err (ResolveError NoHealthyWorkers) => H = []
  | Err (ResolveError NoPrefillWorkersAvailable) => ∀ w, w ∈ H → mode w ≠ Prefill
  | Err (ResolveError NoDecodeWorkersAvailable) =>
      ∃ p, p ∈ H ∧ mode p = Prefill ∧ ∀ d, d ∈ H → mode d = Decode → kv_layout_compatible p d = false
  | Err NoSelection => ∃ ws, ws ≠ [] ∧ (policy_select policy ws model body).1 = None
  end.
Proof.
  cbv zeta. unfold select_with_policy. pose proof (pools_separate_roles iter_ids now r model) as [Hp _]. cbv zeta in Hp.
  destruct (prefill_candidates iter_ids now r model) as [ws|e].
  2: { intros [= <- <-]. destruct e; [by destruct Hp|by destruct Hp as (_&?&_)|by destruct Hp as [? _]]. }
  destruct Hp as [Hne Hws]. destruct (policy_select policy ws model body) as [[w|] p'] eqn:Hsel.
  2: { intros [= <- <-]. exists ws. by rewrite Hsel. }
  intros [= <- <-]. apply policy_selects in Hsel. destruct (Hws _ Hsel) as (Hin&Hm&Hplain). unfold from_selected_worker, resolve_for_prefill.
  destruct (mode w) eqn:Hmode; cbn [result_map_err]; [by auto| |done].
  pose proof (decode_for_prefill_cases now r model w Hin Hmode) as Hd.
  destruct (decode_with_affinity_for_prefill _ _ _ _ _ _) as [d|e]; cbn [result_bind result_map_err].
  - cbn. by destruct Hd as (?&?&?).
  - destruct Hd as [-> Hd]. by exists w.
Qed.

End Serves.

(** No answer names a worker or the cause of its failure: errors that differ in these
    get the same answer. *)
Definition redacted (e : ApiError) : ApiError :=
  match e with
  | UpstreamUnreachable _ _ => UpstreamUnreachable "" ""
  | UpstreamTimeout _ => UpstreamTimeout ""
  | BreakerOpen _ => BreakerOpen ""
  | WorkerMisconfigured _ _ => WorkerMisconfigured "" ""
  | InternalError _ => InternalError ""
  | e => e
  end.

Lemma answers_name_no_worker e : into_response e = into_response (redacted e).
Proof. by destruct e. Qed.

(** ** Witnesses and examples *)

(** The policy that takes the first worker. *)
#[export] Instance first_policy : Policy unit := {| policy_select p ws _ _ := (head ws, p) |}.
#[export] Instance first_policy_laws : PolicyLaws unit.
Proof. split. intros p [|w ws] model body v p'; cbn; [done|]. intros [= -> <-]. by left. Qed.

Definition spec_p : WorkerSpec := mkWorkerSpec "p" "http://p" Prefill ["m"] (Some 8998).
Definition spec_d : WorkerSpec := mkWorkerSpec "d" "http://d" Decode ["m"] None.
Definition demo_registry : WorkerRegistry :=
  foldl (run_op no_url id_order) empty_registry [OpAdd spec_p None None; OpAdd spec_d None None].
Definition demo_pair : PdWorkerPair := mkPair (new_worker no_url spec_p None None) (new_worker no_url spec_d None None).

Lemma selection_serves_request_witness :
  pair_prefill demo_pair ∈ healthy_workers_for id_order 0 demo_registry "m" ∧ mode (pair_prefill demo_pair) = Prefill ∧
  pair_decode demo_pair ∈ healthy_workers_for id_order 0 demo_registry "m" ∧ mode (pair_decode demo_pair) = Decode ∧
  kv_layout_compatible (pair_prefill demo_pair) (pair_decode demo_pair) = true.
Proof. apply (selection_serves_request no_url id_order 0 demo_registry () "m" None (Ok (SelectDual demo_pair)) ()). by vm_compute. Defined.

(** A codec to stand for [serde_json] in the examples: values as trees, trees as numbers. *)
Fixpoint json_tree (v : Json) : gen_tree (bool + N + Z + string) :=
  match v with
  | JNull => GenNode 0 []
  | JBool b => GenNode 1 [GenLeaf (inl (inl (inl b)))]
  | JUint n => GenNode 2 [GenLeaf (inl (inl (inr n)))]
  | JInt z => GenNode 3 [GenLeaf (inl (inr z))]
  | JFloat bits => GenNode 4 [GenLeaf (inl (inl (inr bits)))]
  | JString s => GenNode 5 [GenLeaf (inr s)]
  | JArray values => GenNode 6 (json_tree <$> values)
  | JObject entries => GenNode 7 ((λ e, GenNode 8 [GenLeaf (inr e.1); json_tree e.2]) <$> entries)
  end.
Fixpoint tree_json (t : gen_tree (bool + N + Z + string)) : Json :=
  match t with
  | GenNode 1 [GenLeaf (inl (inl (inl b)))] => JBool b
  | GenNode 2 [GenLeaf (inl (inl (inr n)))] => JUint n
  | GenNode 3 [GenLeaf (inl (inr z))] => JInt z
  | GenNode 4 [GenLeaf (inl (inl (inr bits)))] => JFloat bits
  | GenNode 5 [GenLeaf (inr s)] => JString s
  | GenNode 6 values => JArray (tree_json <$> values)
  | GenNode 7 entries => JObject ((λ e, match e with GenNode 8 [GenLeaf (inr k); v] => (k, tree_json v) | _ => (""%string, JNull) end) <$> entries)
  | _ => JNull
  end.
Lemma tree_json_tree : ∀ v, tree_json (json_tree v) = v.
Proof.
  fix IH 1. intros [|b|n|z|bits|s|values|entries]; try reflexivity; cbn; f_equal.
  - induction values as [|v values IHl]; [reflexivity|]. cbn. f_equal; [apply IH|exact IHl].
  - induction entries as [|[k v] entries IHl]; [reflexivity|]. cbn. f_equal; [|exact IHl]. f_equal. apply IH.
Qed.
Definition toy_to_vec (v : Json) : list N := [Npos (countable.encode (json_tree v))].
Definition toy_from_slice (b : list N) : Result string Json :=
  match b with [Npos p] => match countable.decode p with Some t => Ok (tree_json t) | None => Err "toy"%string end | _ => Err "toy"%string end.
Lemma toy_round v : toy_from_slice (toy_to_vec v) = Ok v.
Proof. unfold toy_from_slice, toy_to_vec. by rewrite countable.decode_encode, tree_json_tree. Qed.

Definition batch_body : Json := JObject [("text", JArray [JString "a"; JString "b"])]%string.
Definition demo_random (i : nat) : N := N.of_nat i * 1000.
Definition demo_execution (body : Json) : PdExecutionRequest :=
  match PdExecutionRequest_prepare toy_from_slice toy_to_vec demo_random demo_pair (toy_to_vec body) with
  | Ok req => req
  | Err _ => mkExecutionRequest demo_pair (mkDispatchPlan (mkDispatchMetadata "" None) [] 0 [])
  end.

Lemma dispatched_rooms_reach_workers_witness :
  execution_pair (demo_execution batch_body) = demo_pair ∧ Forall (λ room, room ≤ i64_MAX) (plan_rooms (execution_plan (demo_execution batch_body))) ∧
  ∃ entries payload, toy_from_slice (toy_to_vec batch_body) = Ok (JObject entries) ∧
    toy_from_slice (plan_body (execution_plan (demo_execution batch_body))) = Ok payload ∧
    ∀ headers ps, worker_takes payload headers ps →
      match request_batch_size (JObject entries) with
      | Some n => ps = coordinates "http://p" 8998 <$> plan_rooms (execution_plan (demo_execution batch_body)) ∧ len ps = n
      | None => Forall (λ p, p = coordinates "http://p" 8998 (plan_room (execution_plan (demo_execution batch_body)))) ps
      end.
Proof.
  apply (dispatched_rooms_reach_workers toy_from_slice toy_to_vec demo_random demo_pair 8998 (toy_to_vec batch_body) (demo_execution batch_body));
    [apply toy_round|done|done|by vm_compute].
Defined.

(** The worker does take the batch, with a room of its own for each text. *)
Example batch_gets_rooms :
  match toy_from_slice (plan_body (execution_plan (demo_execution batch_body))) with
  | Ok payload => request_coordinates <$> (match http_generate_payload_to_router_request payload with Ok q => Some q | Err _ => None end)
  | Err _ => None
  end = Some [coordinates "http://p" 8998 1000; coordinates "http://p" 8998 2000].
Proof. by vm_compute. Qed.

(** The choices of a chat are a batch to the worker and one request to the router: they
    all get the same room. *)
Definition chat_body : Json :=
  JObject [("model", JString "m"); ("n", JUint 2); ("messages", JArray [])]%string.
Example chat_choices_share_room :
  match toy_from_slice (plan_body (execution_plan (demo_execution chat_body))) with
  | Ok payload => texts_coordinates <$> (match http_chat_payload_to_router_request payload "m" "prompt" with Ok q => Some q | Err _ => None end)
  | Err _ => None
  end = Some [coordinates "http://p" 8998 0; coordinates "http://p" 8998 0].
Proof. by vm_compute. Qed.
