(* ===== verification/RouterProxy.v ===== *)
(** * Forwarding to workers ([crates/sglang-router/src/proxy/])

    The proxy sends a request to a worker over HTTP or gRPC, if the worker's circuit
    breaker admits it, and reports to the breaker how it went: at once, or for a
    stream when its last byte has been passed on.  A function here gives the result
    and these two lists of reports; [admitted] is what [allow] answered.  What the
    network does is a parameter: the reply to an HTTP request, and for gRPC whether
    the connection comes about ([None] where it is still pending at the timeout)
    and what the methods of the worker answer. *)

From stdpp Require Import pretty.
From S2P Require Import Prelude Float32 Text Tokenizer CircuitBreaker WorkerRegistry RouterProtocol Safetensors JsonValue HttpPayload HttpReplies GrpcMessages ProxyRequests RouterDispatch.
#[local] Open Scope N_scope.

(** What the breaker of the worker is told. *)
Inductive Report : Type := ReportSuccess | ReportFailure.

#[export] Instance Report_eq_dec : EqDecision Report.
Proof. solve_decision. Defined.

(** ** Bodies *)

(** The bytes of an answer: all of them, or what is sent in pieces; an [Err] breaks the
    body off. *)
Inductive ProxyBody : Type :=
  | Buffered (bytes : list N)
  | Streamed (pieces : list (Result string (list N))).

Record ProxyResponse : Type := mkProxyResponse {
  proxy_status : N;
  proxy_headers : HeaderMap;
  proxy_body : ProxyBody;
}.

Definition json_type : HeaderMap := [("content-type", "application/json")]%string.
Definition json_answer (status : N) (bytes : list N) : ProxyResponse := mkProxyResponse status json_type (Buffered bytes).

(** What the client gets of a stream, and whether it ended well; [takes] is the number
    of pieces after which the client leaves, if it does, [panic] the panic the
    stream ends in, if it does. *)
(** [sglang-router/src/proxy/sse.rs:78-106] bytes_stream_to_body (pump) *)
Fixpoint pump (stream : list (Result string (list N))) (panic : option string) (takes : option nat) : list (Result string (list N)) * bool :=
  match stream with
  | [] =>
      match panic with
      | Some message => (match takes with Some O => [] | _ => [Err ("SSE pump panicked: " +:+ message)] end, false)
      | None => ([], true)
      end
  | item :: stream =>
      match item, takes with
      | Err _, Some O => ([], false)
      | Err e, _ => ([Err e], false)
      | Ok _, Some O => ([], true)
      | Ok bytes, _ => let '(sent, ok) := pump stream panic (pred <$> takes) in (Ok bytes :: sent, ok)
      end
  end.

(** [on_complete] is called once, with the outcome. *)
(** [sglang-router/src/proxy/sse.rs:57-135] bytes_stream_to_body *)
Definition bytes_stream_to_body (stream : list (Result string (list N))) (panic : option string) (takes : option nat)
    (on_complete : option (bool → Report)) : ProxyBody * list Report :=
  let '(sent, ok) := pump stream panic takes in
  (Streamed sent, match on_complete with Some hook => [hook ok] | None => [] end).

Definition sse_frame (json : list N) : list N := text_bytes "data: " ++ json ++ text_bytes (newline +:+ newline).
Definition sse_done : list N := text_bytes ("data: [DONE]" +:+ newline +:+ newline).

(** [sglang-router/src/proxy/sse.rs:143-168] json_bytes_stream_to_sse_body *)
Definition json_bytes_stream_to_sse_body (stream : list (Result string (list N))) (panic : option string) (takes : option nat)
    (on_complete : option (bool → Report)) : ProxyBody * list Report :=
  bytes_stream_to_body (((λ item, match item with Ok json => Ok (sse_frame json) | Err e => Err e end) <$> stream) ++
                        match panic with Some _ => [] | None => [Ok sse_done] end) panic takes on_complete.

Definition report (ok : bool) : Report := if ok then ReportSuccess else ReportFailure.

(** What a forward gives: its result, its reports, and those at the end of the stream. *)
Record Forwarded (A : Type) : Type := mkForwarded {
  forward_result : Result ApiError A;
  reports : list Report;
  late_reports : list Report;
}.
Arguments mkForwarded {A}.
Arguments forward_result {A}.
Arguments reports {A}.
Arguments late_reports {A}.

Definition failed_with {A} (e : ApiError) (rs : list Report) : Forwarded A := mkForwarded (Err e) rs [].
Definition answered_with {A} (a : A) (rs : list Report) : Forwarded A := mkForwarded (Ok a) rs [].

(** ** HTTP workers *)

(** The [url] crate: a text is parsed, and a path is put in the place of a URL's path. *)
Class UrlCrate (U : Type) : Type := {
  url_parse : string → Result string U;
  url_text : U → string;
  url_scheme : U → string;
  url_join : U → string → Result string U;
  url_with_query : U → list (string * string) → U;
}.

Record HttpRequest (U : Type) : Type := mkHttpRequest {
  request_post : bool;
  request_url : U;
  request_headers : HeaderMap;
  request_body : list N;
  request_timed : bool;
}.
Arguments mkHttpRequest {U}.

(** The reply of a worker: none, or a status, the text of its content type and the
    pieces of its body; [reply_panic] is a panic of the stream of pieces. *)
Inductive HttpReply : Type :=
  | SendError (timed_out : bool) (cause : string)
  | Replied (status : N) (content_type : option string) (pieces : list (Result string (list N))) (reply_panic : option string).

(** The bytes of a body that arrives whole. *)
Fixpoint read_body (pieces : list (Result string (list N))) : option (list N) :=
  match pieces with
  | [] => Some []
  | Ok bytes :: pieces => rest ← read_body pieces; Some (bytes ++ rest)
  | Err _ :: _ => None
  end.

(** [Url::join] and [Url::parse] fail with a text. *)
Section Http.
Context {U : Type} `{!UrlCrate U} (http : HttpRequest U → HttpReply) (from_slice : list N → Result string Json) (header_value : string → bool).

(** [sglang-router/src/proxy/mod.rs:39-48] parse_worker_url *)
Definition parse_worker_url {A} (worker_url : string) (k : U → Forwarded A) : Forwarded A :=
  match url_parse worker_url with
  | Ok url => k url
  | Err e => failed_with (WorkerMisconfigured worker_url ("parse worker URL: " +:+ e)) [ReportFailure]
  end.

(** Joining a path reports nothing to the breaker when it fails. *)
Definition join_path {A} (worker_url : U) (path : string) (k : U → Forwarded A) : Forwarded A :=
  match url_join worker_url path with
  | Ok url => k url
  | Err e => failed_with (InternalError ("join worker path " +:+ path +:+ ": " +:+ e)) []
  end.

(** [sglang-router/src/proxy/mod.rs:653-668] Proxy::classify_reqwest_error_for *)
Definition classify_reqwest_error_for (worker : U) (timed_out : bool) (cause path : string) : ApiError :=
  if timed_out then UpstreamTimeout (url_text worker)
  else UpstreamUnreachable (url_text worker) ("worker " +:+ url_text worker +:+ ": request " +:+ path +:+ ": " +:+ cause).

Definition forwarded_headers (headers : HeaderMap) : HeaderMap := filter (λ h, should_forward_request_header h.1 = true) headers.

(** [if !breaker.allow() { return Err(..) }] *)
Definition gated {A} (admitted : bool) (worker_url : string) (k : Forwarded A) : Forwarded A :=
  if admitted then k else failed_with (BreakerOpen worker_url) [].

(** The answer to a request that is read whole. *)
(** [sglang-router/src/proxy/mod.rs:707-752] Proxy::forward_json_to (reply) *)
Definition buffered_reply (worker : U) (path : string) (reply : HttpReply) : Forwarded ProxyResponse :=
  match reply with
  | SendError timed_out cause => failed_with (classify_reqwest_error_for worker timed_out cause path) [ReportFailure]
  | Replied status _ pieces _ =>
      match read_body pieces with
      | None => failed_with (UpstreamStatus status) [ReportFailure]
      | Some bytes => answered_with (json_answer status bytes) [report (negb (is_server_error status))]
      end
  end.

(** The HTTP part; [grpc] is the way to a gRPC worker. *)
(** [sglang-router/src/proxy/mod.rs:679-753] Proxy::forward_json_to *)
Definition forward_json_to (grpc : Forwarded ProxyResponse) (admitted : bool) (worker_url path : string) (headers : HeaderMap) (body : list N)
    : Forwarded ProxyResponse :=
  gated admitted worker_url
    (if is_grpc_worker_url worker_url then grpc
     else parse_worker_url worker_url (λ worker, join_path worker path (λ url,
       buffered_reply worker path
         (http (mkHttpRequest true url (forwarded_headers headers ++ json_type) body true))))).

(** [sglang-router/src/proxy/mod.rs:755-818] Proxy::forward_get_to *)
Definition forward_get_to (admitted : bool) (worker_url path : string) (headers : HeaderMap) (query : list (string * string))
    : Forwarded ProxyResponse :=
  gated admitted worker_url
    (if is_grpc_worker_url worker_url
     then failed_with (WorkerMisconfigured worker_url ("gRPC worker transport does not support GET path " +:+ path)) [ReportFailure]
     else parse_worker_url worker_url (λ worker, join_path worker path (λ url,
       buffered_reply worker path (http (mkHttpRequest false (url_with_query url query) (forwarded_headers headers) [] true))))).

(** [sglang-router/src/proxy/mod.rs:820-867] Proxy::load_for_worker *)
Definition load_for_worker (grpc : Forwarded Z) (admitted : bool) (worker_url : string) : Forwarded Z :=
  gated admitted worker_url
    (if is_grpc_worker_url worker_url then grpc
     else parse_worker_url worker_url (λ worker, join_path worker "/v1/loads" (λ url,
       match http (mkHttpRequest false (url_with_query url [("include", "core")%string]) [] [] true) with
       | SendError timed_out cause => failed_with (classify_reqwest_error_for worker timed_out cause "/v1/loads") [ReportFailure]
       | Replied status _ pieces _ =>
           match (bytes ← read_body pieces; match from_slice bytes with Ok json => Some json | Err _ => None end) with
           | None => failed_with (InternalError ("decode worker load response from " +:+ url_text url)) [ReportFailure]
           | Some json =>
               let rs := [report (negb (is_server_error status))] in
               if negb (is_success status) then failed_with (UpstreamStatus status) rs
               else answered_with (default (-1)%Z (load_from_worker_load_json json)) rs
           end
       end))).

(** [sglang-router/src/proxy/mod.rs:1823-1902] Proxy::forward_streaming_to *)
Definition forward_streaming_to (grpc : Forwarded ProxyResponse) (admitted : bool) (worker_url path : string) (headers : HeaderMap) (body : list N)
    (takes : option nat) : Forwarded ProxyResponse :=
  gated admitted worker_url
    (if is_grpc_worker_url worker_url then grpc
     else parse_worker_url worker_url (λ worker, join_path worker path (λ url,
       match http (mkHttpRequest true url (forwarded_headers headers ++ json_type ++ [("accept", "text/event-stream")%string]) body false) with
       | SendError timed_out cause => failed_with (classify_reqwest_error_for worker timed_out cause path) [ReportFailure]
       | Replied status upstream_ct pieces panic =>
           let upstream_ct := default "application/json"%string upstream_ct in
           let content_type := if is_success status then "text/event-stream"%string else upstream_ct in
           let content_type := if header_value content_type then content_type else "application/json"%string in
           let '(rs, on_complete) := if is_server_error status then ([ReportFailure], None) else ([], Some report) in
           let '(out, late) := bytes_stream_to_body pieces panic takes on_complete in
           mkForwarded (Ok (mkProxyResponse status [("content-type", content_type)%string] out)) rs late
       end))).

End Http.

(** ** gRPC workers *)

(** What came of a call within the time of the request. *)
(** [sglang-router/src/proxy/mod.rs:68-71] GrpcForwardError *)
Inductive Attempt (A : Type) : Type :=
  | Elapsed
  | TransportError (source : string)
  | StatusError (status : Status)
  | Got (a : A).
Arguments Elapsed {A}.
Arguments TransportError {A}.
Arguments StatusError {A}.
Arguments Got {A}.

Definition attempt {A B} (a : Attempt A) (k : A → Attempt B) : Attempt B :=
  match a with Elapsed => Elapsed | TransportError s => TransportError s | StatusError s => StatusError s | Got a => k a end.

(** A call of a method: [None] while it is pending. *)
Definition called {A} (reply : option (Result Status A)) : Attempt A :=
  match reply with None => Elapsed | Some (Ok a) => Got a | Some (Err status) => StatusError status end.

Definition checked_request {A} (request : Result Status A) : Attempt A :=
  match request with Ok a => Got a | Err status => StatusError status end.

(** A worker behind an endpoint: whether its address is one, whether it is reached, and
    its methods; a streaming method answers with the messages it sends. *)
Class GrpcWorker (G : Type) : Type := {
  rpc_endpoint : G → string → Result string unit;
  rpc_connect : G → string → option (Result string unit);
  rpc_text_generate : G → ProtoTextGenerateRequest → option (Result Status (list (Result Status ProtoGenerateResponse)));
  rpc_generate : G → ProtoGenerateRequest → option (Result Status (list (Result Status ProtoGenerateResponse)));
  rpc_json_stream : G → string → list N → RequestOptions → option (Result Status (list (Result Status (list N))));
  rpc_json : G → string → list N → RequestOptions → option (Result Status (list N));
  rpc_get_load : G → option (Result Status LoadResponse);
  rpc_poll_transfers : G → option (Result Status PollTransfersResponse);
  rpc_control : G → GrpcControlRpc → option (Result Status ControlResponse);
  rpc_abort : G → AbortRequest → option (Result Status ControlResponse);
  rpc_start_profile : G → StartProfileRequest → option (Result Status ControlResponse);
  rpc_update_weights_from_disk : G → UpdateWeightsFromDiskRequest → option (Result Status ControlResponse);
  rpc_update_weight_version : G → UpdateWeightVersionRequest → option (Result Status ControlResponse);
  rpc_get_weights_by_name : G → GetWeightsByNameRequest → option (Result Status (list f32));
}.

Section Grpc.
Context {U : Type} `{!UrlCrate U} {G : Type} `{!GrpcWorker G} (worker : G).
Context (from_slice : list N → Result string Json) (to_vec : Json → list N) (to_str : string → option string).
Context (code_text : Code → string) (status_text : Status → string) (f32_json : f32 → Json).

(** [sglang-router/src/proxy/mod.rs:96-112] grpc_status_response *)
Definition grpc_status_response (s : Status) : ProxyResponse :=
  json_answer (grpc_status_to_http_status (status_grpc_code s))
    (to_vec (JObject [("error", JObject [("message", JString (status_message s)); ("code", JString (code_text (status_grpc_code s)))])]%string)).

(** The endpoint of a worker's URL. *)
Definition with_endpoint {A} (worker_url : string) (k : U → string → Forwarded A) : Forwarded A :=
  parse_worker_url worker_url (λ parsed,
    match grpc_endpoint_from_worker_url (url_scheme parsed) (url_text parsed) with
    | Some endpoint => k parsed endpoint
    | None => failed_with (WorkerMisconfigured worker_url ("unsupported gRPC worker URL scheme " +:+ url_scheme parsed)) [ReportFailure]
    end).

(** Connecting to an endpoint. *)
(** [sglang-router/src/proxy/mod.rs:960-975] Proxy::forward_grpc_json_to (connect) *)
Definition connect (endpoint : string) : Attempt unit :=
  match rpc_endpoint worker endpoint with
  | Err e => TransportError ("invalid gRPC endpoint " +:+ endpoint +:+ ": " +:+ e)
  | Ok _ =>
      match rpc_connect worker endpoint with
      | None => Elapsed
      | Some (Err e) => TransportError ("connect gRPC worker " +:+ endpoint +:+ ": " +:+ e)
      | Some (Ok _) => Got ()
      end
  end.

(** The end of a call: an answer, a status as the client's answer, or an error. *)
(** [sglang-router/src/proxy/mod.rs:1048-1070] Proxy::forward_grpc_json_to (outcome) *)
Definition settle {A} (parsed : U) (a : Attempt A) (answer : A → ProxyResponse) : Forwarded ProxyResponse :=
  match a with
  | Got a => answered_with (answer a) [ReportSuccess]
  | StatusError status =>
      let response := grpc_status_response status in
      answered_with response [report (negb (is_server_error (proxy_status response)))]
  | TransportError source => failed_with (UpstreamUnreachable (url_text parsed) source) [ReportFailure]
  | Elapsed => failed_with (UpstreamTimeout (url_text parsed)) [ReportFailure]
  end.

(** The first message of a stream. *)
Definition first_message {A} (what : string) (stream : list (Result Status A)) : Attempt A :=
  match stream with
  | Ok a :: _ => Got a
  | Err status :: _ => StatusError status
  | [] => StatusError (internal ("gRPC " +:+ what +:+ " returned no response"))
  end.

(** [sglang-router/src/proxy/mod.rs:1082-1141] Proxy::load_for_grpc_worker *)
Definition load_for_grpc_worker (worker_url : string) : Forwarded Z :=
  with_endpoint worker_url (λ parsed endpoint,
    match attempt (connect endpoint) (λ _, called (rpc_get_load worker)) with
    | Got response => answered_with (Z.of_N (p_waiting_queue_depth response) + Z.of_N (p_decode_queue_depth response))%Z [ReportSuccess]
    | StatusError status =>
        let http_status := grpc_status_to_http_status (status_grpc_code status) in
        failed_with (UpstreamStatus http_status) [report (negb (is_server_error http_status))]
    | TransportError source => failed_with (UpstreamUnreachable (url_text parsed) source) [ReportFailure]
    | Elapsed => failed_with (UpstreamTimeout (url_text parsed)) [ReportFailure]
    end).

Definition control_json (response : ControlResponse) : Json :=
  JObject [("success", JBool (control_success response)); ("message", JString (control_message response))]%string.

(** [sglang-router/src/proxy/mod.rs:1152-1225] Proxy::forward_grpc_poll_transfers *)
Definition forward_grpc_poll_transfers (worker_url : string) : Forwarded ProxyResponse :=
  with_endpoint worker_url (λ parsed endpoint,
    settle parsed (attempt (connect endpoint) (λ _, called (rpc_poll_transfers worker))) (λ response,
      json_answer 200 (to_vec (JObject
        [("completed_batches", JUint (p_completed_batches response)); ("pending_batches", JUint (p_pending_batches response));
         ("completed_descriptor_checksums", JStrings (p_completed_checksums response));
         ("pending_descriptor_checksums", JStrings (p_pending_checksums response))]%string)))).

(** [sglang-router/src/proxy/mod.rs:1227-1321] Proxy::forward_grpc_control_rpc *)
Definition forward_grpc_control_rpc (worker_url : string) (rpc : GrpcControlRpc) : Forwarded ProxyResponse :=
  with_endpoint worker_url (λ parsed endpoint,
    settle parsed (attempt (connect endpoint) (λ _, called (rpc_control worker rpc))) (λ response,
      json_answer 200 (to_vec (control_json response)))).

(** [sglang-router/src/proxy/mod.rs:1143-1150] Proxy::forward_grpc_flush_cache *)
Definition forward_grpc_flush_cache (worker_url : string) : Forwarded ProxyResponse := forward_grpc_control_rpc worker_url RpcFlushCache.

(** A call whose request is made from the body first, before the worker is reached. *)
Definition forward_grpc_request {A B} (worker_url : string) (request : Result Status A) (call : A → option (Result Status B))
    (answer : B → Json) : Forwarded ProxyResponse :=
  with_endpoint worker_url (λ parsed endpoint,
    settle parsed (attempt (checked_request request) (λ request, attempt (connect endpoint) (λ _, called (call request))))
      (λ response, json_answer 200 (to_vec (answer response)))).

(** [sglang-router/src/proxy/mod.rs:1323-1397] Proxy::forward_grpc_update_weights_from_disk *)
Definition forward_grpc_update_weights_from_disk (worker_url : string) (body : list N) : Forwarded ProxyResponse :=
  forward_grpc_request worker_url (proto_update_weights_from_disk_request_from_json from_slice body) (rpc_update_weights_from_disk worker)
    (λ response, JObject [("success", JBool (control_success response)); ("message", JString (control_message response));
                          ("num_paused_requests", JUint 0)]%string).

(** [sglang-router/src/proxy/mod.rs:1399-1472] Proxy::forward_grpc_update_weight_version *)
Definition forward_grpc_update_weight_version (worker_url : string) (body : list N) : Forwarded ProxyResponse :=
  forward_grpc_request worker_url (proto_update_weight_version_request_from_json from_slice body) (rpc_update_weight_version worker) control_json.

(** [sglang-router/src/proxy/mod.rs:1474-1546] Proxy::forward_grpc_get_weights_by_name *)
Definition forward_grpc_get_weights_by_name (worker_url : string) (body : list N) : Forwarded ProxyResponse :=
  forward_grpc_request worker_url (proto_get_weights_by_name_request_from_json from_slice body) (rpc_get_weights_by_name worker)
    (λ parameter, JObject [("parameter", JArray (f32_json <$> parameter))]%string).

(** [sglang-router/src/proxy/mod.rs:1548-1620] Proxy::forward_grpc_abort_request *)
Definition forward_grpc_abort_request (worker_url : string) (body : list N) : Forwarded ProxyResponse :=
  forward_grpc_request worker_url (proto_abort_request_from_json from_slice body) (rpc_abort worker) control_json.

(** [sglang-router/src/proxy/mod.rs:1622-1695] Proxy::forward_grpc_start_profile *)
Definition forward_grpc_start_profile (worker_url : string) (body : list N) : Forwarded ProxyResponse :=
  forward_grpc_request worker_url (proto_start_profile_request_from_json from_slice body) (rpc_start_profile worker) control_json.

(** The two generating methods. *)
Definition native_call (request : NativeGenerateRequest) : option (Result Status (list (Result Status ProtoGenerateResponse))) :=
  match request with NativeText p => rpc_text_generate worker p | NativeTokenized p => rpc_generate worker p end.

(** [sglang-router/src/proxy/mod.rs:1697-1810] Proxy::forward_grpc_generate_json_to *)
Definition forward_grpc_generate_json_to (worker_url : string) (headers : HeaderMap) (body : list N) : Forwarded ProxyResponse :=
  with_endpoint worker_url (λ parsed endpoint,
    settle parsed
      (attempt (checked_request (proto_native_generate_request_from_json from_slice to_str body headers)) (λ request,
       attempt (connect endpoint) (λ _,
       attempt (called (native_call request)) (first_message "native Generate"))))
      (λ first, json_answer 200 (to_vec (proto_generate_response_to_json first)))).

Definition openai_stream_path (path : string) : bool :=
  bool_decide (path ∈ ["/v1/chat/completions"; "/v1/completions"; "/v1/responses"]%string).
Definition openai_unary_path (path : string) : bool :=
  bool_decide (path ∈ ["/v1/rerank"; "/v1/score"; "/v1/embeddings"; "/v1/classify"]%string).

Definition unsupported_path (worker_url path : string) : Forwarded ProxyResponse :=
  failed_with (WorkerMisconfigured worker_url ("gRPC worker transport does not support path " +:+ path)) [ReportFailure].

(** The OpenAI endpoints: the worker is reached before the body is looked at. *)
(** [sglang-router/src/proxy/mod.rs:950-1080] Proxy::forward_grpc_json_to (OpenAI) *)
Definition forward_grpc_openai (worker_url path : string) (headers : HeaderMap) (body : list N) : Forwarded ProxyResponse :=
  with_endpoint worker_url (λ parsed endpoint,
    settle parsed
      (attempt (connect endpoint) (λ _,
       attempt (checked_request (openai_json_request_options_from_body from_slice to_str body headers)) (λ options,
       if openai_stream_path path
       then attempt (called (rpc_json_stream worker path body options)) (first_message "OpenAI JSON RPC")
       else called (rpc_json worker path body options))))
      (json_answer 200)).

(** [sglang-router/src/proxy/mod.rs:869-1080] Proxy::forward_grpc_json_to *)
Definition forward_grpc_json_to (worker_url path : string) (headers : HeaderMap) (body : list N) : Forwarded ProxyResponse :=
  if (path =? "/generate")%string then forward_grpc_generate_json_to worker_url headers body
  else if (path =? "/update_weights_from_disk")%string then forward_grpc_update_weights_from_disk worker_url body
  else if (path =? "/update_weight_version")%string then forward_grpc_update_weight_version worker_url body
  else if (path =? "/get_weights_by_name")%string then forward_grpc_get_weights_by_name worker_url body
  else if (path =? "/abort_request")%string then forward_grpc_abort_request worker_url body
  else if (path =? "/start_profile")%string then forward_grpc_start_profile worker_url body
  else if (path =? "/stop_profile")%string then forward_grpc_control_rpc worker_url RpcStopProfile
  else if (path =? "/flush_cache")%string then forward_grpc_flush_cache worker_url
  else if (path =? "/poll_transfers")%string then forward_grpc_poll_transfers worker_url
  else if (path =? "/pause_generation")%string then forward_grpc_control_rpc worker_url RpcPauseGeneration
  else if (path =? "/continue_generation")%string then forward_grpc_control_rpc worker_url RpcContinueGeneration
  else if negb (openai_stream_path path || openai_unary_path path) then unsupported_path worker_url path
  else forward_grpc_openai worker_url path headers body.

(** *** Streams *)

Definition status_items {A} (f : A → list N) (stream : list (Result Status A)) : list (Result string (list N)) :=
  (λ item, match item with Ok a => Ok (f a) | Err status => Err (status_text status) end) <$> stream.

(** The stream that follows a call: its end settles the account. *)
Definition settle_stream {A} (parsed : U) (takes : option nat) (f : A → list N) (panic : option string)
    (a : Attempt (list (Result Status A))) : Forwarded ProxyResponse :=
  match a with
  | Got stream =>
      let '(out, late) := json_bytes_stream_to_sse_body (status_items f stream) panic takes (Some report) in
      mkForwarded (Ok (mkProxyResponse 200 [("content-type", "text/event-stream")%string] out)) [] late
  | StatusError status => settle parsed (A := unit) (StatusError status) (λ _, json_answer 200 [])
  | TransportError source => settle parsed (A := unit) (TransportError source) (λ _, json_answer 200 [])
  | Elapsed => settle parsed (A := unit) Elapsed (λ _, json_answer 200 [])
  end.

(** [sglang-router/src/proxy/mod.rs:2021-2124] Proxy::forward_grpc_generate_streaming_to *)
Definition forward_grpc_generate_streaming_to (worker_url : string) (headers : HeaderMap) (body : list N) (takes : option nat) (panic : option string)
    : Forwarded ProxyResponse :=
  with_endpoint worker_url (λ parsed endpoint,
    settle_stream parsed takes (λ response, to_vec (proto_generate_response_to_json response)) panic
      (attempt (checked_request (proto_native_generate_request_from_json from_slice to_str body headers)) (λ request,
       attempt (connect endpoint) (λ _, called (native_call request))))).

(** [sglang-router/src/proxy/mod.rs:1904-2019] Proxy::forward_grpc_streaming_to *)
Definition forward_grpc_streaming_to (worker_url path : string) (headers : HeaderMap) (body : list N) (takes : option nat) (panic : option string)
    : Forwarded ProxyResponse :=
  if (path =? "/generate")%string then forward_grpc_generate_streaming_to worker_url headers body takes panic
  else if negb (openai_stream_path path) then unsupported_path worker_url path
  else
    with_endpoint worker_url (λ parsed endpoint,
      settle_stream parsed takes id panic
        (attempt (connect endpoint) (λ _,
         attempt (checked_request (openai_json_request_options_from_body from_slice to_str body headers)) (λ options,
         called (rpc_json_stream worker path body options))))).

End Grpc.

(** ** Streams are passed on *)

(** What a client gets of a stream is its beginning; a stream the breaker counts as a
    success was passed on to its end or to the point where the client left; a
    stream that broke off ends in an error the client sees, unless it has left. *)
Lemma pump_correct (stream : list (Result string (list N))) (panic : option string) : ∀ takes sent ok, pump stream panic takes = (sent, ok) →
  ∃ k tail, sent = take k stream ++ tail ∧ Forall (λ item, is_Ok item = true) (take k stream) ∧ (k ≤ length stream)%nat ∧
    if ok then tail = [] ∧ (k = length stream ∧ panic = None ∨ takes = Some k)
    else (∃ e, stream !! k = Some (Err e) ∧ (tail = [Err e] ∨ tail = [] ∧ takes = Some k)) ∨
         (∃ message, k = length stream ∧ panic = Some message ∧ (tail = [Err ("SSE pump panicked: " +:+ message)] ∨ tail = [] ∧ takes = Some k)).
Proof.
  induction stream as [|item stream IH]; intros takes sent ok; cbn [pump].
  { destruct panic as [message|]; [|intros [= <- <-]; exists 0%nat, []; cbn; auto 10].
    intros [= <- <-]. exists 0%nat, (match takes with Some 0%nat => [] | _ => [Err ("SSE pump panicked: " +:+ message)] end).
    cbn. split_and!; [done|done|done|]. right. exists message. destruct takes as [[|n]|]; auto. }
  destruct item as [bytes|e].
  2: { intros H. assert (sent = match takes with Some 0%nat => [] | _ => [Err e] end ∧ ok = false) as [-> ->] by (by destruct takes as [[|]|]; injection H as <- <-).
       exists 0%nat, (match takes with Some 0%nat => [] | _ => [Err e] end). cbn. split_and!; [done|done|lia|]. left. exists e.
       destruct takes as [[|n]|]; auto. }
  destruct (decide (takes = Some 0%nat)) as [->|Hne]; [intros [= <- <-]; exists 0%nat, []; cbn; split_and!; [done|done|lia|done|by right]|].
  destruct (pump stream panic (pred <$> takes)) as [sent' ok'] eqn:Hp. intros H.
  assert (sent = Ok bytes :: sent' ∧ ok = ok') as [-> ->] by (by destruct takes as [[|]|]; injection H as <- <-). clear H.
  destruct (IH _ _ _ Hp) as (k&tail&->&Hall&Hk&Hok). exists (S k), tail. cbn [take app length]. split_and!; [done|by constructor|lia|].
  assert (∀ j, pred <$> takes = Some j → takes = Some (S j)) as Hpred.
  { intros j. destruct takes as [[|n]|]; cbn; intros [= <-]; done. }
  destruct ok'.
  - destruct Hok as [-> [[-> ->]|Ht]]; split; auto.
  - destruct Hok as [(e&He&[->|[-> Ht]])|(m&->&->&[->|[-> Ht]])]; [left|left|right|right]; eauto 10.
Qed.

(** ** Every admitted request reports once *)

Definition settled {A} (f : Forwarded A) : Prop := ∃ r, reports f ++ late_reports f = [r].

Section Settled.
Context {U : Type} `{!UrlCrate U} {G : Type} `{!GrpcWorker G} (worker : G) (http : HttpRequest U → HttpReply).
Context (from_slice : list N → Result string Json) (to_vec : Json → list N) (to_str : string → option string).
Context (code_text : Code → string) (status_text : Status → string) (f32_json : f32 → Json) (header_value : string → bool).
Context (joins : ∀ (u : U) path, is_Ok (url_join u path) = true).

Lemma settled_with {A} (r : Result ApiError A) x : settled (mkForwarded r [x] []).
Proof. by exists x. Qed.

Lemma parse_settled {A} worker_url (k : U → Forwarded A) : (∀ u, settled (k u)) → settled (parse_worker_url worker_url k).
Proof. intros Hk. unfold parse_worker_url. destruct (url_parse worker_url); [apply Hk|apply settled_with]. Qed.

Lemma join_settled {A} (u : U) path (k : U → Forwarded A) : (∀ u, settled (k u)) → settled (join_path u path k).
Proof. intros Hk. unfold join_path. specialize (joins u path). destruct (url_join u path); [apply Hk|done]. Qed.

Lemma endpoint_settled {A} worker_url (k : U → string → Forwarded A) : (∀ u e, settled (k u e)) → settled (with_endpoint worker_url k).
Proof. intros Hk. apply parse_settled. intros u. destruct (grpc_endpoint_from_worker_url _ _); [apply Hk|apply settled_with]. Qed.

Lemma settle_settled {A} (u : U) (a : Attempt A) answer : settled (settle to_vec code_text u a answer).
Proof. destruct a; apply settled_with. Qed.

Lemma buffered_settled (u : U) path reply : settled (buffered_reply u path reply).
Proof. destruct reply as [t c|status ct pieces panic]; cbn; [apply settled_with|]. destruct (read_body pieces); apply settled_with. Qed.

#[local] Hint Resolve settled_with parse_settled join_settled endpoint_settled settle_settled buffered_settled : settled.

Lemma grpc_request_settled {A B} worker_url (request : Result Status A) (call : A → option (Result Status B)) answer :
  settled (forward_grpc_request worker to_vec code_text worker_url request call answer).
Proof. unfold forward_grpc_request. auto with settled. Qed.

#[local] Hint Resolve grpc_request_settled : settled.

Lemma grpc_json_settled worker_url path headers body :
  settled (forward_grpc_json_to worker from_slice to_vec to_str code_text f32_json worker_url path headers body).
Proof.
  unfold forward_grpc_json_to, forward_grpc_generate_json_to, forward_grpc_update_weights_from_disk, forward_grpc_update_weight_version,
    forward_grpc_get_weights_by_name, forward_grpc_abort_request, forward_grpc_start_profile, forward_grpc_flush_cache, forward_grpc_control_rpc,
    forward_grpc_poll_transfers, unsupported_path, forward_grpc_openai, failed_with.
  repeat (case_match; auto with settled).
Qed.

Lemma stream_settled {A} (u : U) takes (f : A → list N) panic a : settled (settle_stream to_vec code_text status_text u takes f panic a).
Proof.
  destruct a as [| | |stream]; [apply settle_settled..|]. cbn. unfold json_bytes_stream_to_sse_body, bytes_stream_to_body.
  destruct (pump _ _ _) as [sent ok]. by exists (report ok).
Qed.

#[local] Hint Resolve stream_settled : settled.

Lemma grpc_stream_settled worker_url path headers body takes panic :
  settled (forward_grpc_streaming_to worker from_slice to_vec to_str code_text status_text worker_url path headers body takes panic).
Proof.
  unfold forward_grpc_streaming_to, forward_grpc_generate_streaming_to, unsupported_path, failed_with.
  repeat (case_match; auto with settled).
Qed.

Lemma gated_settled {A} (admitted : bool) worker_url (k : Forwarded A) : settled k →
  if admitted then settled (gated admitted worker_url k)
  else gated admitted worker_url k = failed_with (BreakerOpen worker_url) [].
Proof. by destruct admitted. Qed.

Lemma json_forward_settled grpc worker_url path headers body : settled grpc → settled (forward_json_to http grpc true worker_url path headers body).
Proof. intros Hg. unfold forward_json_to, gated. destruct (is_grpc_worker_url _); auto with settled. Qed.

Lemma get_forward_settled worker_url path headers query : settled (forward_get_to http true worker_url path headers query).
Proof. unfold forward_get_to, gated. destruct (is_grpc_worker_url _); [apply settled_with|]. auto with settled. Qed.

Lemma load_forward_settled grpc worker_url : settled grpc → settled (load_for_worker http from_slice grpc true worker_url).
Proof.
  intros Hg. unfold load_for_worker, gated. destruct (is_grpc_worker_url _); [done|]. apply parse_settled. intros u. apply join_settled. intros url.
  destruct (http _) as [t c|status ct pieces panic]; [apply settled_with|]. destruct (_ ← read_body pieces; _); [|apply settled_with].
  destruct (negb (is_success status)); apply settled_with.
Qed.

Lemma stream_forward_settled grpc worker_url path headers body takes : settled grpc →
  settled (forward_streaming_to http header_value grpc true worker_url path headers body takes).
Proof.
  intros Hg. unfold forward_streaming_to, gated. destruct (is_grpc_worker_url _); [done|]. apply parse_settled. intros u. apply join_settled. intros url.
  destruct (http _) as [t c|status ct pieces panic]; [apply settled_with|]. unfold bytes_stream_to_body.
  destruct (is_server_error status); destruct (pump _ _ _) as [sent ok]; [by exists ReportFailure|by exists (report ok)].
Qed.

Lemma grpc_load_settled worker_url : settled (load_for_grpc_worker worker worker_url).
Proof. apply endpoint_settled. intros u e. destruct (attempt _ _); apply settled_with. Qed.

(** The ways to forward to a worker over either transport. *)
Inductive forward (admitted : bool) : ∀ {A}, Forwarded A → Prop :=
  | forward_json worker_url path headers body : forward admitted
      (forward_json_to http (forward_grpc_json_to worker from_slice to_vec to_str code_text f32_json worker_url path headers body)
         admitted worker_url path headers body)
  | forward_get worker_url path headers query : forward admitted (forward_get_to http admitted worker_url path headers query)
  | forward_load worker_url : forward admitted (load_for_worker http from_slice (load_for_grpc_worker worker worker_url) admitted worker_url)
  | forward_stream worker_url path headers body takes panic : forward admitted
      (forward_streaming_to http header_value
         (forward_grpc_streaming_to worker from_slice to_vec to_str code_text status_text worker_url path headers body takes panic)
         admitted worker_url path headers body takes).

(** A request the breaker admits is settled: whatever the worker and the network do,
    over HTTP or gRPC, answered whole or streamed, the breaker gets exactly one
    report, at once or when the stream has ended; a request it refuses fails with
    that and reports nothing. *)
Theorem forward_settles (admitted : bool) A (f : Forwarded A) : forward admitted f →
  if admitted then ∃ r, reports f ++ late_reports f = [r]
  else ∃ worker_url, f = failed_with (BreakerOpen worker_url) [].
Proof.
  intros [worker_url path headers body|worker_url path headers query|worker_url|worker_url path headers body takes panic]; destruct admitted;
    try (by exists worker_url).
  - apply json_forward_settled, grpc_json_settled.
  - apply get_forward_settled.
  - apply load_forward_settled, grpc_load_settled.
  - apply stream_forward_settled, grpc_stream_settled.
Qed.

End Settled.

(** ** Requests and their breaker *)

Definition report_at (r : Report) (now : N) (b : CircuitBreaker) : option CircuitBreaker :=
  match r with ReportSuccess => Some (record_success b) | ReportFailure => record_failure b now end.

(** The breaker of a worker, and the requests it has admitted that have not reported
    yet, by number.  A forward is dropped unfinished when the client leaves before
    the answer or the janitor expires the request; with [abandons] that may happen. *)
Inductive use_step (abandons : bool) : CircuitBreaker * gset nat → CircuitBreaker * gset nat → Prop :=
  | use_admit b b' used i now : i ∉ used → allow b now = (true, b') → use_step abandons (b, used) (b', {[i]} ∪ used)
  | use_refuse b b' used now : allow b now = (false, b') → use_step abandons (b, used) (b', used)
  | use_report b b' used i r now : i ∈ used → report_at r now b = Some b' → use_step abandons (b, used) (b', used ∖ {[i]})
  | use_abandon b used i : abandons = true → i ∈ used → use_step abandons (b, used) (b, used ∖ {[i]}).

Lemma allow_wf b now : breaker_wf b → breaker_wf (allow b now).2.
Proof. intros W. destruct (run_call_wf b (CallAllow now) (allow b now).2 W eq_refl) as [? _]. done. Qed.

Lemma report_wf b r now b' : breaker_wf b → report_at r now b = Some b' → breaker_wf b'.
Proof.
  intros W. destruct r; cbn; [intros [= <-]; by destruct (run_call_wf b CallSuccess _ W eq_refl)|].
  intros H. by destruct (run_call_wf b (CallFailure now) b' W H).
Qed.

(** A report ends the probe, whoever makes it. *)
Lemma report_ends_probe b r now b' p : breaker_wf b → report_at r now b = Some b' → state b' ≠ HalfOpen p.
Proof.
  intros [Ht Hs _]. destruct r; cbn; [by intros [= <-]|]. unfold record_failure. destruct b as [[|t|q] n c]; cbn [state consecutive_failures config] in *.
  - case_guard; [|done]. intros [= <-]. cbn. by destruct (_ <=? _).
  - by intros [= <-].
  - case_guard; [|done]. intros [= <-]. cbn. rewrite (proj2 (N.leb_le _ _)) by lia. done.
Qed.

Definition probe_pending (s : CircuitBreaker * gset nat) : Prop :=
  breaker_wf s.1 ∧ ∀ p, state s.1 = HalfOpen p → ∃ i, i ∈ s.2.

(** Who holds the probe: while the breaker is half open the probe has not reported. *)
Definition probe_held (s : CircuitBreaker * gset nat) : Prop :=
  breaker_wf s.1 ∧ (s.2 = ∅ → ∀ p, state s.1 ≠ HalfOpen p).

Lemma use_step_held s s' : use_step false s s' → probe_held s → probe_held s'.
Proof.
  intros [b b' used i now Hi Ha|b b' used now Ha|b b' used i r now Hi Hr|b used i Hab Hi] [W Hp]; [..|done]; cbn in *.
  - split; [pose proof (allow_wf b now W) as H; by rewrite Ha in H|]. intros He. exfalso. set_solver.
  - split; [pose proof (allow_wf b now W) as H; by rewrite Ha in H|]. intros He p. specialize (Hp He p).
    unfold allow in Ha. destruct b as [[|t|[]] n c]; cbn in *; try done; [|by injection Ha as <-].
    destruct (_ <=? _); [done|]. by injection Ha as <-.
  - split; [by eapply report_wf|]. intros _ p. by eapply report_ends_probe.
Qed.

(** No worker is shut out for good: if every request a breaker admits reports, then
    whenever all have reported the breaker is closed, or open with a cool-down that
    ends, in every interleaving of requests; so from some time on it admits. *)
Theorem settled_breaker_admits c b : 0 < threshold c → rtc (use_step false) (with_config c, ∅) (b, ∅) →
  ∃ opened, ∀ now, opened + cool_down (config b) ≤ now → would_allow b now = true ∧ (allow b now).1 = true.
Proof.
  intros Ht Hreach. assert (probe_held (b, ∅)) as [W Hp].
  { remember (with_config c, ∅) as s0 eqn:Hs0. assert (probe_held s0) as H0 by (rewrite Hs0; split; [by split|done]). clear Hs0.
    induction Hreach as [|s0 s1 s2 Hstep _ IH]; [done|]. apply IH. by eapply use_step_held. }
  specialize (Hp eq_refl). cbn in *. destruct b as [[|t|p] n cfg]; [by exists 0| |by destruct (Hp p)].
  exists t. cbn. intros now Hnow. unfold would_allow, allow, elapsed, saturating_sub. cbn.
  by rewrite (proj2 (N.leb_le _ _)) by lia.
Qed.

(** A request that is abandoned while it holds the probe shuts its worker out for good:
    three failures open the breaker, after the cool-down the probe is admitted and
    dropped; no request is left that could report, and none is ever admitted again. *)
Theorem abandoned_probe_shuts_worker_out :
  ∃ b, rtc (use_step true) (with_config (mkBreakerConfig 3 30), ∅) (b, ∅) ∧
    (∀ times, allows b times = (λ _, false) <$> times) ∧ (∀ now, would_allow b now = false).
Proof.
  exists (mkBreaker (HalfOpen true) 3 (mkBreakerConfig 3 30)). split; [|split; [intros times; by eapply allows_probing|done]].
  set (c := mkBreakerConfig 3 30).
  assert (∀ b b' now, allow b now = (true, b) → record_failure b now = Some b' → rtc (use_step true) (b, ∅) (b', ∅)) as Hfail.
  { intros b b' now Ha Hr. eapply rtc_l; [apply (use_admit true b b ∅ 0%nat now); [set_solver|done]|].
    replace ({[0%nat]} ∪ ∅ : gset nat) with ({[0%nat]} : gset nat) by set_solver.
    apply rtc_once. pose proof (use_report true b b' {[0%nat]} 0%nat ReportFailure now) as H. rewrite difference_diag_L in H.
    apply H; [set_solver|done]. }
  etrans; [apply (Hfail _ (mkBreaker Closed 1 c) 1); done|].
  etrans; [apply (Hfail _ (mkBreaker Closed 2 c) 2); done|].
  etrans; [apply (Hfail _ (mkBreaker (Open 3) 3 c) 3); done|].
  eapply rtc_l; [apply (use_admit true (mkBreaker (Open 3) 3 c) (mkBreaker (HalfOpen true) 3 c) ∅ 0%nat 40); [set_solver|done]|].
  replace ({[0%nat]} ∪ ∅ : gset nat) with ({[0%nat]} : gset nat) by set_solver.
  apply rtc_once. pose proof (use_abandon true (mkBreaker (HalfOpen true) 3 c) {[0%nat]} 0%nat) as H. rewrite difference_diag_L in H.
  apply H; [done|set_solver].
Qed.

(** A body a client got wrong is a success of the worker, which is not even reached: it
    closes the breaker of a worker that is down. *)
Lemma bad_body_counts_as_success {U G} `{!UrlCrate U, !GrpcWorker G} (worker : G) from_slice to_vec to_str code_text worker_url (url : U) endpoint headers body e :
  url_parse worker_url = Ok url → grpc_endpoint_from_worker_url (url_scheme url) (url_text url) = Some endpoint → from_slice body = Err e →
  reports (forward_grpc_generate_json_to worker from_slice to_vec to_str code_text worker_url headers body) = [ReportSuccess] ∧
  (∀ b, state (record_success b) = Closed).
Proof.
  intros Hu He Hb. split; [|done]. unfold forward_grpc_generate_json_to, with_endpoint, parse_worker_url. rewrite Hu, He.
  unfold proto_native_generate_request_from_json, body_object. by rewrite Hb.
Qed.

(** ** Witnesses *)

(** Texts as URLs: the scheme before the first colon, paths appended. *)
#[export] Instance text_urls : UrlCrate string := {|
  url_parse s := Ok s;
  url_text s := s;
  url_scheme s := match split_once 58 s with Some (scheme, _) => scheme | None => "" end;
  url_join s path := Ok (s +:+ path);
  url_with_query s _ := s;
|}.

(** A worker nobody reaches. *)
#[export] Instance unreachable_worker : GrpcWorker unit := {|
  rpc_endpoint _ _ := Ok ();
  rpc_connect _ _ := Some (Err "refused"%string);
  rpc_text_generate _ _ := None;
  rpc_generate _ _ := None;
  rpc_json_stream _ _ _ _ := None;
  rpc_json _ _ _ _ := None;
  rpc_get_load _ := None;
  rpc_poll_transfers _ := None;
  rpc_control _ _ := None;
  rpc_abort _ _ := None;
  rpc_start_profile _ _ := None;
  rpc_update_weights_from_disk _ _ := None;
  rpc_update_weight_version _ _ := None;
  rpc_get_weights_by_name _ _ := None;
|}.

Definition demo_reply (r : HttpRequest string) : HttpReply := Replied 200 (Some "text/event-stream"%string) [Ok [104]; Err "reset"%string; Ok [105]] None.
Definition demo_stream (url : string) (takes : option nat) : Forwarded ProxyResponse :=
  forward_streaming_to (U := string) demo_reply (λ _, true)
    (forward_grpc_streaming_to () toy_from_slice toy_to_vec Some (λ _, "code"%string) (λ _, "status"%string) url "/generate" [] [] takes None)
    true url "/generate" [] [] takes.

Lemma forward_settles_witness : ∃ r, reports (demo_stream "http://w" None) ++ late_reports (demo_stream "http://w" None) = [r].
Proof.
  assert (∀ (u : string) path, is_Ok (url_join u path) = true) as Hjoin by done.
  exact (forward_settles (U := string) () demo_reply toy_from_slice toy_to_vec Some (λ _, "code"%string) (λ _, "status"%string) (λ _, JNull) (λ _, true)
           Hjoin true _ (demo_stream "http://w" None) (forward_stream _ _ _ _ _ _ _ _ _ true "http://w" "/generate" [] [] None None)).
Defined.

(** The stream that breaks off is passed on to its error and counted as a failure; had
    the client left after the first piece, it would be a success; a worker that is
    not reached is a failure at once. *)
Example demo_forwards :
  demo_stream "http://w" None =
    mkForwarded (Ok (mkProxyResponse 200 [("content-type", "text/event-stream")%string] (Streamed [Ok [104]; Err "reset"%string]))) [] [ReportFailure] ∧
  late_reports (demo_stream "http://w" (Some 0%nat)) = [ReportSuccess] ∧
  reports (demo_stream "grpc://w" None) = [ReportSuccess].
Proof. by vm_compute. Qed.

Lemma settled_breaker_admits_witness :
  ∃ opened, ∀ now, opened + 30 ≤ now → would_allow (mkBreaker (Open 3) 1 (mkBreakerConfig 1 30)) now = true ∧
    (allow (mkBreaker (Open 3) 1 (mkBreakerConfig 1 30)) now).1 = true.
Proof.
  apply (settled_breaker_admits (mkBreakerConfig 1 30) (mkBreaker (Open 3) 1 (mkBreakerConfig 1 30))); [done|].
  eapply rtc_l; [apply (use_admit false _ (with_config (mkBreakerConfig 1 30)) ∅ 0%nat 3); [set_solver|done]|].
  replace ({[0%nat]} ∪ ∅ : gset nat) with ({[0%nat]} : gset nat) by set_solver.
  pose proof (use_report false (with_config (mkBreakerConfig 1 30)) (mkBreaker (Open 3) 1 (mkBreakerConfig 1 30)) {[0%nat]} 0%nat ReportFailure 3) as H.
  rewrite difference_diag_L in H. apply rtc_once, H; [set_solver|done].
Defined.
