(* ===== verification/RouterRoutes.v ===== *)
(** * The routes of the router ([crates/sglang-router/src/server/routes/chat.rs])

    How a request is handled from its body to its answer: the model it names, the
    worker or the pair of workers that serves it, the load it puts on them, the
    forwards, the count in the metrics, and what becomes of the answer.  A handler
    gives its answer and a program of effects ([Run]), because part of it runs
    in tasks that outlive the handler: the prefill side of a pair, and the pump of a
    streamed answer, which holds the guards until the stream is over.  Where the
    handler waits for a worker it is raced against the token of the janitor and may be
    dropped when the client leaves ([Fate]).  [document] parses JSON and keeps
    repeated names of an object, which the typed readers refuse. *)

From Stdlib Require Import SpecFloat.
From S2P Require Import Prelude Float32 Text Tokenizer CircuitBreaker WorkerRegistry ActiveLoad RouterProtocol Safetensors JsonValue HttpPayload HttpReplies GrpcMessages ProxyRequests RouterDispatch RouterProxy.
#[local] Open Scope N_scope.

(** ** Reading bodies *)

(** A document as a [serde_json::Value]: the last entry of a name counts. *)
Fixpoint value_of (v : Json) : Json :=
  match v with
  | JArray values => JArray (value_of <$> values)
  | JObject entries => JObject (foldl (λ acc e, object_insert e.1 e.2 acc) [] ((λ e, (e.1, value_of e.2)) <$> entries))
  | v => v
  end.

(** The fields of a derived struct: of an object, where no field is repeated, or of an
    array, by position. *)
Definition struct_fields (names : list string) (v : Json) : option (list (option Json)) :=
  match v with
  | JObject entries =>
      if existsb (λ name, 1 <? len (filter (λ e, e.1 = name) entries)) names then None else Some ((λ name, field name entries) <$> names)
  | JArray values => if len values <=? len names then Some ((λ i, values !! i) <$> seq 0 (length names)) else None
  | _ => None
  end.

(** A field of an [Option] type, and one with a default. *)
Definition optional {A} (read : Json → option A) (v : option Json) : option (option A) :=
  match v with None | Some JNull => Some None | Some v => Some <$> read v end.
Definition defaulted {A} (d : A) (read : Json → option A) (v : option Json) : option A :=
  match v with None => Some d | Some v => read v end.

Definition as_uint (v : Json) : option N := match v with JUint n => Some n | _ => None end.

(** [sglang-router/src/server/routes/chat.rs:61-66] RequestProbe *)
Record RequestProbe : Type := mkProbe { probe_stream : option bool; probe_model : option string }.

(** [sglang-router/src/server/routes/chat.rs:223-226] ModelSelection *)
Inductive ModelSelection : Type := RequireBodyModel | BodyModelOrSingleConfigured.

(** [sglang-router/src/server/routes/chat.rs:235-244] RerankResponseOptions *)
Record RerankResponseOptions : Type := mkRerankOptions {
  rerank_model : string;
  top_k : option N;
  return_documents : bool;
  rerank_rid : option Json;
}.

(** [sglang-router/src/server/routes/chat.rs:229-232] ResponsePostprocess *)
Inductive ResponsePostprocess : Type :=
  | PostprocessNone
  | Rerank (options : RerankResponseOptions).

(** [sglang-router/src/server/routes/chat.rs:247-254] RerankResult *)
Record RerankResult : Type := mkRerankResult {
  result_score : f64;
  result_document : option string;
  result_index : N;
  result_meta : option (list (string * Json));
}.

Section Bodies.
Context (document : list N → option Json).

Definition not_object : ApiError := BadRequest "invalid request: body must be a JSON object".

(** [sglang-router/src/server/routes/chat.rs:814-839] parse_probe *)
Definition parse_probe (body : list N) : Result ApiError RequestProbe :=
  match document body with
  | Some (JObject entries) =>
      match struct_fields ["stream"; "model"]%string (JObject entries) with
      | Some [stream; model] =>
          match optional as_bool stream, optional as_str model with
          | Some stream, Some model => Ok (mkProbe stream model)
          | _, _ => Err not_object
          end
      | _ => Err not_object
      end
  | _ => Err not_object
  end.

(** [models] are the ids of the configured models. *)
(** [sglang-router/src/server/routes/chat.rs:841-864] select_model *)
Definition select_model (models : list string) (model : option string) (selection : ModelSelection) : Result ApiError string :=
  match model with
  | Some model => Ok model
  | None =>
      match selection with
      | RequireBodyModel => Err (BadRequest "missing `model` field")
      | BodyModelOrSingleConfigured =>
          match models with
          | [model] => Ok model
          | _ => Err (BadRequest "missing `model` field for multi-model native generate")
          end
      end
  end.

(** [sglang-router/src/server/routes/chat.rs:792-797] parse_rerank_response_options *)
Definition parse_rerank_response_options (body : list N) : Result ApiError RerankResponseOptions :=
  match document body ≫= struct_fields ["model"; "top_k"; "return_documents"; "rid"]%string with
  | Some [model; top_k; return_documents; rid] =>
      match defaulted "unknown"%string as_str model, optional as_uint top_k, defaulted true as_bool return_documents, optional (λ v, Some (value_of v)) rid with
      | Some model, Some top_k, Some return_documents, Some rid => Ok (mkRerankOptions model top_k return_documents rid)
      | _, _, _, _ => Err not_object
      end
  | _ => Err not_object
  end.

(** The next piece of a text, on a line of its own. *)
Definition push_line (text content : string) : string :=
  if (text =? "")%string then content else text +:+ newline +:+ content.

(** [sglang-router/src/server/routes/chat.rs:761-780] extract_prefill_text (message) *)
Definition push_message (text : string) (message : Json) : string :=
  match json_get "content" message with
  | Some (JString content) => push_line text content
  | Some (JArray parts) => foldl (λ text part, match get_str "text" part with Some content => push_line text content | None => text end) text parts
  | _ => text
  end.

(** The text of the value under [messages], if it is an array and has any. *)
(** [sglang-router/src/server/routes/chat.rs:756-785] extract_prefill_text (messages) *)
Definition messages_text (value : Json) : option string :=
  match json_get "messages" value ≫= as_array with
  | Some messages => let text := foldl push_message "" messages in if (text =? "")%string then None else Some text
  | None => None
  end.

(** [sglang-router/src/server/routes/chat.rs:742-790] extract_prefill_text *)
Definition extract_prefill_text (body : list N) : option string :=
  value ← value_of <$> document body;
  match get_str "prompt" value with
  | Some prompt => Some prompt
  | None =>
      let rest := match messages_text value with Some text => Some text | None => get_str "text" value end in
      match json_get "prompt" value ≫= as_array with
      | Some prompts => match omap as_str prompts with [] => rest | parts => Some (String.concat newline parts) end
      | None => rest
      end
  end.

(** [encode] is the tokenizer of the model, if it has one. *)
(** [sglang-router/src/server/routes/chat.rs:724-740] estimate_prefill_tokens *)
Definition estimate_prefill_tokens (encode : option (string → option (list N))) (body : list N) : N :=
  let by_size := N.max (len body / 4) 1 in
  match extract_prefill_text body, encode with
  | Some text, Some encode =>
      match encode text with
      | Some (t :: token_ids) => len (t :: token_ids)
      | _ => by_size
      end
  | _, _ => by_size
  end.

(** ** Reranking *)

(** [sglang-router/src/server/routes/chat.rs:246-254] RerankResult::deserialize *)
Definition read_rerank_result (v : Json) : option RerankResult :=
  match struct_fields ["score"; "document"; "index"; "meta_info"]%string v with
  | Some [score; document; index; meta_info] =>
      score ← score ≫= as_f64;
      document ← optional as_str document;
      index ← index ≫= as_uint;
      meta_info ← optional (λ v, as_object (value_of v)) meta_info;
      Some (mkRerankResult score document index meta_info)
  | _ => None
  end.

(** [sglang-router/src/server/routes/chat.rs:703-707] build_rerank_response (document) *)
Definition without_document (r : RerankResult) : RerankResult := mkRerankResult (result_score r) None (result_index r) (result_meta r).

(** [sglang-router/src/server/routes/chat.rs:693-698] build_rerank_response (from_slice) *)
Definition read_rerank_results (v : Json) : option (list RerankResult) := values ← as_array v; mapM read_rerank_result values.

(** The results the client asked for. *)
(** [sglang-router/src/server/routes/chat.rs:700-707] build_rerank_response (results) *)
Definition selected_results (o : RerankResponseOptions) (results : list RerankResult) : list RerankResult :=
  let results := match top_k o with Some k => take (N.to_nat k) results | None => results end in
  if return_documents o then results else without_document <$> results.

(** [hash_order] is the order in which a map is written. *)
Section Rerank.
Context (to_vec : Json → list N) (hash_order : list (string * Json) → list (string * Json)).

Definition entry_if {A} (key : string) (f : A → Json) (v : option A) : list (string * Json) :=
  match v with Some a => [(key, f a)] | None => [] end.

(** [sglang-router/src/server/routes/chat.rs:247-254] RerankResult::serialize *)
Definition rerank_result_json (r : RerankResult) : Json :=
  JObject ([("score"%string, JDouble (result_score r))] ++ entry_if "document" JString (result_document r) ++
           [("index"%string, JUint (result_index r))] ++ entry_if "meta_info" (λ es, JObject (hash_order es)) (result_meta r)).

(** [sglang-router/src/server/routes/chat.rs:257-266] RerankResponse *)
Definition rerank_response_json (created : N) (o : RerankResponseOptions) (results : list RerankResult) : Json :=
  JObject (entry_if "id" id (rerank_rid o) ++
           [("object", JString "rerank"); ("created", JUint created); ("model", JString (rerank_model o));
            ("results", JArray (rerank_result_json <$> results))]%string).

(** The bytes of a body, if it arrives whole. *)
Definition whole_body (b : ProxyBody) : option (list N) :=
  match b with Buffered bytes => Some bytes | Streamed pieces => read_body pieces end.

(** [sglang-router/src/server/routes/chat.rs:682-719] build_rerank_response *)
Definition build_rerank_response (created : N) (o : RerankResponseOptions) (response : ProxyResponse) : Result ApiError ProxyResponse :=
  if negb (is_success (proxy_status response)) then Ok response
  else
    let? bytes := ok_or (whole_body (proxy_body response)) (InternalError "read rerank body") in
    match document bytes ≫= read_rerank_results with
    | Some results => Ok (json_answer 200 (to_vec (rerank_response_json created o (selected_results o results))))
    | None => Err (InternalError "decode upstream rerank results for gateway response")
    end.

(** [sglang-router/src/server/routes/chat.rs:672-680] postprocess_response *)
Definition postprocess_response (created : N) (post : ResponsePostprocess) (response : ProxyResponse) : Result ApiError ProxyResponse :=
  match post with
  | PostprocessNone => Ok response
  | Rerank options => build_rerank_response created options response
  end.

End Rerank.
End Bodies.

(** ** Effects *)

(** [sglang-router/src/server/metrics.rs:47-51] RequestOutcome *)
Inductive RequestOutcome : Type := OutcomeSuccess | OutcomeError | OutcomeCancelled.

(** What a request does to the shared state: the guard of a worker and the entry of the
    active load are taken and dropped, breakers get reports, metrics count. *)
Inductive RouteEvent : Type :=
  | TakeGuard (worker : WorkerId)
  | DropGuard (worker : WorkerId)
  | RegisterLoad (worker : WorkerId) (url : string) (prefill_load : N)
  | DropLoad
  | ReportTo (worker : WorkerId) (r : Report)
  | CountStale
  | CountRequest (url model : string) (worker_mode : WorkerMode) (outcome : RequestOutcome).

#[export] Instance RequestOutcome_eq_dec : EqDecision RequestOutcome.
Proof. solve_decision. Defined.
#[export] Instance RouteEvent_eq_dec : EqDecision RouteEvent.
Proof. solve_decision. Defined.

(** A program of effects; the first part of a [Fork] runs as a task of its own. *)
Inductive Run : Type :=
  | Done
  | Do (e : RouteEvent) (k : Run)
  | Fork (task k : Run).

Fixpoint do_all (es : list RouteEvent) (k : Run) : Run := match es with [] => k | e :: es => Do e (do_all es k) end.

(** What becomes of the wait for a worker: it answers, the janitor expires the request
    before, or the client leaves before. *)
Inductive Fate : Type := Completes | Expires | ClientLeaves.

(** A forward as the handler sees it: its answer, unless the handler is dropped; what
    happens before, and what happens when the body of the answer is over.  [guards] is
    what the drop of the guards does. *)
Record Fetched : Type := mkFetched {
  fetch_answer : option (Result ApiError ProxyResponse);
  fetch_now : list RouteEvent;
  fetch_late : list RouteEvent;
}.

Definition is_streamed (b : ProxyBody) : bool := match b with Streamed _ => true | Buffered _ => false end.

(** A forward that is dropped has reported nothing and drops what it holds. *)
(** [sglang-router/src/server/routes/chat.rs:613-625] routed_generation (select, buffered) *)
Definition fetch_buffered (fate : Fate) (model : string) (worker : Worker) (f : Forwarded ProxyResponse) : Fetched :=
  match fate with
  | Completes => mkFetched (Some (forward_result f)) (ReportTo (worker_id worker) <$> (reports f ++ late_reports f)) []
  | Expires => mkFetched (Some (Err (StaleRequestExpired model))) [] []
  | ClientLeaves => mkFetched None [] []
  end.

(** The guards go with the pump of the body, if there is one. *)
(** [sglang-router/src/server/routes/chat.rs:577-599] routed_generation (select, streaming) *)
Definition fetch_streaming (fate : Fate) (model : string) (worker : Worker) (guards : list RouteEvent) (f : Forwarded ProxyResponse) : Fetched :=
  let to := ReportTo (worker_id worker) in
  match fate with
  | Completes =>
      let streamed := match forward_result f with Ok response => is_streamed (proxy_body response) | Err _ => false end in
      if streamed then mkFetched (Some (forward_result f)) (to <$> reports f) (guards ++ (to <$> late_reports f))
      else mkFetched (Some (forward_result f)) ((to <$> (reports f ++ late_reports f)) ++ guards) []
  | Expires => mkFetched (Some (Err (StaleRequestExpired model))) guards []
  | ClientLeaves => mkFetched None guards []
  end.

(** [sglang-router/src/server/routes/chat.rs:635-651] routed_generation (outcome) *)
Definition count_outcome (url model : string) (worker_mode : WorkerMode) (answer : option (Result ApiError ProxyResponse)) : list RouteEvent :=
  match answer with
  | None => []
  | Some (Ok _) => [CountRequest url model worker_mode OutcomeSuccess]
  | Some (Err (StaleRequestExpired _)) => [CountStale; CountRequest url model worker_mode OutcomeCancelled]
  | Some (Err _) => [CountRequest url model worker_mode OutcomeError]
  end.

(** ** Handlers *)

(** What a request meets: two looks at the clock and at the registry, the random numbers
    of its rooms, the time of its answer, and the fate of its wait. *)
Record Circumstances : Type := mkCircumstances {
  at_selection : N;
  at_affinity : N;
  registry_then : WorkerRegistry;
  registry_later : WorkerRegistry;
  room_numbers : nat → N;
  answered_at : N;
  fate : Fate;
}.

Section Handlers.
Context (document : list N → option Json) (to_vec : Json → list N) (hash_order : list (string * Json) → list (string * Json)).
Context (url_host : string → option string) (iter_ids : gset WorkerId → list WorkerId) (header_value : string → bool).
Context {P : Type} `{!Policy P} (models : list string) (tokenizer : string → option (string → option (list N))).
Context (forward_json forward_stream : Worker → string → HeaderMap → list N → Forwarded ProxyResponse).

(** What a handler gives: its answer, unless it is dropped, its effects, the policies. *)
Definition Handled : Type := option (Result ApiError ProxyResponse) * Run * gmap string P.

Definition refuse (e : ApiError) (policies : gmap string P) : Handled := (Some (Err e), Done, policies).

Definition from_slice (body : list N) : Result string Json := ok_or (value_of <$> document body) "invalid JSON"%string.

(** [sglang-router/src/server/routes/chat.rs:281-289] routed_plain_json (resolve) *)
Definition resolve_error (model : string) (e : PdResolveError) : ApiError :=
  match e with
  | NoHealthyWorkers => ApiNoHealthyWorkers model
  | NoPrefillWorkersAvailable => ApiNoPrefillWorkersAvailable model
  | NoDecodeWorkersAvailable => ApiNoDecodeWorkersAvailable model
  end.

(** [sglang-router/src/server/routes/chat.rs:392-412] routed_generation (select_with_policy) *)
Definition selection_error (model : string) (e : RouteSelectionError) : ApiError :=
  match e with
  | ResolveError e => resolve_error model e
  | NoSelection => PolicySelectionFailed model
  end.

(** The forward of a request to one worker, with its guards. *)
(** [sglang-router/src/server/routes/chat.rs:572-627] routed_generation (plain) *)
Definition run_plain (c : Circumstances) (streaming : bool) (model path : string) (worker : Worker) (headers : HeaderMap) (body : list N) : Fetched :=
  let guards := [DropGuard (worker_id worker); DropLoad] in
  if streaming then fetch_streaming (fate c) model worker guards (forward_stream worker path headers body)
  else
    let fetched := fetch_buffered (fate c) model worker (forward_json worker path headers body) in
    mkFetched (fetch_answer fetched) (fetch_now fetched ++ guards) (fetch_late fetched).

(** The pump of the body is a task; the metrics count. *)
Definition run_fetched (fetched : Fetched) (url model : string) (worker_mode : WorkerMode) : Run :=
  do_all (fetch_now fetched)
    (Fork (do_all (fetch_late fetched) Done)
       (do_all (count_outcome url model worker_mode (fetch_answer fetched)) Done)).

(** [sglang-router/src/server/routes/chat.rs:263-356] routed_plain_json *)
Definition routed_plain_json (c : Circumstances) (policies : gmap string P) (headers : HeaderMap) (body : list N) (path pd_unsupported : string) : Handled :=
  match parse_probe document body with
  | Err e => refuse e policies
  | Ok probe =>
      let streaming := (path =? "/v1/responses")%string && default false (probe_stream probe) in
      match select_model models (probe_model probe) RequireBodyModel with
      | Err e => refuse e policies
      | Ok model =>
          match resolve iter_ids (at_selection c) (registry_then c) model with
          | Err e => refuse (resolve_error model e) policies
          | Ok (PdPool _ _) => refuse (BadRequest pd_unsupported) policies
          | Ok (PlainPool workers) =>
              match policies !! model with
              | None => refuse (ModelNotFound model) policies
              | Some policy =>
                  match policy_select policy workers model (Some body) with
                  | (None, policy) => refuse (PolicySelectionFailed model) (<[model := policy]> policies)
                  | (Some worker, policy) =>
                      let load := estimate_prefill_tokens document (tokenizer model) body in
                      let fetched := run_plain c streaming model path worker headers body in
                      (fetch_answer fetched,
                       do_all [TakeGuard (worker_id worker); RegisterLoad (worker_id worker) (worker_url worker) load]
                         (run_fetched fetched (worker_url worker) model Plain),
                       <[model := policy]> policies)
                  end
              end
          end
      end
  end.

(** The detached task of the prefill side; its answer is dropped. *)
(** [sglang-router/src/server/routes/chat.rs:495-533] routed_generation (spawn) *)
Definition prefill_task (path : string) (prefill : Worker) (headers : HeaderMap) (body : list N) : Run :=
  let f := forward_json prefill path headers body in
  do_all ((ReportTo (worker_id prefill) <$> (reports f ++ late_reports f)) ++ [DropGuard (worker_id prefill); DropLoad]) Done.

(** The decode side has a guard of its own. *)
(** [sglang-router/src/server/routes/chat.rs:535-570] routed_generation (decode) *)
Definition run_decode (c : Circumstances) (streaming : bool) (model path : string) (decode : Worker) (headers : HeaderMap) (body : list N) : Fetched :=
  let guards := [DropGuard (worker_id decode)] in
  if streaming then fetch_streaming (fate c) model decode guards (forward_stream decode path headers body)
  else
    let fetched := fetch_buffered (fate c) model decode (forward_json decode path headers body) in
    mkFetched (fetch_answer fetched) (fetch_now fetched ++ guards) (fetch_late fetched).

(** What is left of the answer for the client; the headers of a dispatch to a pair. *)
(** [sglang-router/src/server/routes/chat.rs:660-669] routed_generation (response) *)
Definition finish_answer (c : Circumstances) (post : ResponsePostprocess) (plan : option PdDispatchPlan) (answer : Result ApiError ProxyResponse)
    : Result ApiError ProxyResponse :=
  let? response := answer in
  let? response := postprocess_response document to_vec hash_order (answered_at c) post response in
  match plan with
  | Some plan =>
      Ok (mkProxyResponse (proxy_status response) (insert_response_headers header_value (plan_metadata plan) (proxy_headers response)) (proxy_body response))
  | None => Ok response
  end.

(** The request once its workers are selected: the load it puts on the first, the plan,
    the forwards, the count.  Reading the body of a rerank is not interrupted. *)
(** [sglang-router/src/server/routes/chat.rs:427-669] routed_generation (dispatch) *)
Definition dispatch (c : Circumstances) (path model : string) (post : ResponsePostprocess) (streaming : bool) (headers : HeaderMap) (body : list N)
    (selection : RouteWorkerSelection) : option (Result ApiError ProxyResponse) * Run :=
  let worker := primary_worker selection in
  let load := estimate_prefill_tokens document (tokenizer model) body in
  let taken := do_all [TakeGuard (worker_id worker); RegisterLoad (worker_id worker) (worker_url worker) load] in
  match RouteDispatchPlan_prepare from_slice to_vec header_value (room_numbers c) selection headers body with
  | Err e => (Some (Err e), taken (do_all [DropLoad; DropGuard (worker_id worker)] Done))
  | Ok (DispatchPlain worker' headers body) =>
      let fetched := run_plain c streaming model path worker' headers body in
      (finish_answer c post None <$> fetch_answer fetched, taken (run_fetched fetched (worker_url worker) model (mode worker)))
  | Ok (DispatchPd request headers) =>
      let plan := execution_plan request in
      let prefill := pair_prefill (execution_pair request) in
      let decode := pair_decode (execution_pair request) in
      let fetched := run_decode c streaming model path decode headers (plan_body plan) in
      (finish_answer c post (Some plan) <$> fetch_answer fetched,
       taken (Fork (prefill_task path prefill headers (plan_body plan))
                (Do (TakeGuard (worker_id decode)) (run_fetched fetched (worker_url worker) model (mode worker)))))
  end.

(** [sglang-router/src/server/routes/chat.rs:358-670] routed_generation *)
Definition routed_generation (c : Circumstances) (policies : gmap string P) (headers : HeaderMap) (body : list N) (path : string)
    (model_selection : ModelSelection) (post : ResponsePostprocess) : Handled :=
  match parse_probe document body with
  | Err e => refuse e policies
  | Ok probe =>
      let streaming := default false (probe_stream probe) in
      match select_model models (probe_model probe) model_selection with
      | Err e => refuse e policies
      | Ok model =>
          match policies !! model with
          | None => refuse (ModelNotFound model) policies
          | Some policy =>
              match select_with_policy url_host iter_ids (at_selection c) (at_affinity c) (registry_then c) (registry_later c) policy model (Some body) with
              | (Err e, policy) => refuse (selection_error model e) (<[model := policy]> policies)
              | (Ok selection, policy) =>
                  let '(answer, run) := dispatch c path model post streaming headers body selection in
                  (answer, run, <[model := policy]> policies)
              end
          end
      end
  end.

(** ** The endpoints *)

(** [sglang-router/src/server/routes/chat.rs:72-86] chat_completions *)
Definition chat_completions (c : Circumstances) (policies : gmap string P) (headers : HeaderMap) (body : list N) : Handled :=
  routed_generation c policies headers body "/v1/chat/completions" RequireBodyModel PostprocessNone.

(** [sglang-router/src/server/routes/chat.rs:88-103] completions *)
Definition completions (c : Circumstances) (policies : gmap string P) (headers : HeaderMap) (body : list N) : Handled :=
  routed_generation c policies headers body "/v1/completions" RequireBodyModel PostprocessNone.

(** [sglang-router/src/server/routes/chat.rs:105-121] responses *)
Definition responses (c : Circumstances) (policies : gmap string P) (headers : HeaderMap) (body : list N) : Handled :=
  routed_plain_json c policies headers body "/v1/responses" "PD mode does not support /v1/responses".

(** [sglang-router/src/server/routes/chat.rs:123-141] generate *)
Definition generate (c : Circumstances) (policies : gmap string P) (headers : HeaderMap) (body : list N) : Handled :=
  routed_generation c policies headers body "/generate" BodyModelOrSingleConfigured PostprocessNone.

(** [sglang-router/src/server/routes/chat.rs:143-162] rerank *)
Definition rerank (c : Circumstances) (policies : gmap string P) (headers : HeaderMap) (body : list N) : Handled :=
  match parse_rerank_response_options document body with
  | Err e => refuse e policies
  | Ok options => routed_generation c policies headers body "/v1/rerank" RequireBodyModel (Rerank options)
  end.

(** [sglang-router/src/server/routes/chat.rs:164-179] score *)
Definition score (c : Circumstances) (policies : gmap string P) (headers : HeaderMap) (body : list N) : Handled :=
  routed_plain_json c policies headers body "/v1/score" "PD mode does not support /v1/score".

(** [sglang-router/src/server/routes/chat.rs:181-197] embeddings *)
Definition embeddings (c : Circumstances) (policies : gmap string P) (headers : HeaderMap) (body : list N) : Handled :=
  routed_plain_json c policies headers body "/v1/embeddings" "PD mode does not support /v1/embeddings".

(** [sglang-router/src/server/routes/chat.rs:199-215] classify *)
Definition classify (c : Circumstances) (policies : gmap string P) (headers : HeaderMap) (body : list N) : Handled :=
  routed_plain_json c policies headers body "/v1/classify" "PD mode does not support /v1/classify".

(** The handlers of the routes that reach workers. *)
Inductive handled (c : Circumstances) (policies : gmap string P) : Handled → Prop :=
  | handled_generation headers body path model_selection post : handled c policies (routed_generation c policies headers body path model_selection post)
  | handled_plain headers body path message : handled c policies (routed_plain_json c policies headers body path message)
  | handled_rerank headers body : handled c policies (rerank c policies headers body).

End Handlers.

(** ** Guards and entries balance *)

(** How often an event of some kind is ahead. *)
Fixpoint run_count (f : RouteEvent → N) (r : Run) : N :=
  match r with Done => 0 | Do e k => f e + run_count f k | Fork a b => run_count f a + run_count f b end.
Fixpoint list_count (f : RouteEvent → N) (es : list RouteEvent) : N := match es with [] => 0 | e :: es => f e + list_count f es end.

Definition takes (w : WorkerId) (e : RouteEvent) : N := match e with TakeGuard v => if bool_decide (v = w) then 1 else 0 | _ => 0 end.
Definition drops (w : WorkerId) (e : RouteEvent) : N := match e with DropGuard v => if bool_decide (v = w) then 1 else 0 | _ => 0 end.
Definition registers (e : RouteEvent) : N := match e with RegisterLoad _ _ _ => 1 | _ => 0 end.
Definition load_drops (e : RouteEvent) : N := match e with DropLoad => 1 | _ => 0 end.
Definition counted (e : RouteEvent) : N := match e with CountRequest _ _ _ _ => 1 | _ => 0 end.

(** An entry is registered before it is dropped, and before the run forks. *)
Fixpoint ordered (r : Run) : Prop :=
  match r with
  | Done => True
  | Do (RegisterLoad _ _ _ | DropLoad) k => run_count registers k = 0
  | Do _ k => ordered k
  | Fork a b => run_count registers a = 0 ∧ run_count registers b = 0
  end.

Lemma ordered_registered r : run_count registers r = 0 → ordered r.
Proof.
  induction r as [|[] k IH|a IHa b IHb]; cbn; intros H; try done; try (apply IH; lia); lia.
Qed.

Record balanced (r : Run) : Prop := {
  balanced_guards w : run_count (takes w) r = run_count (drops w) r;
  balanced_load : run_count registers r ≤ run_count load_drops r;
  balanced_once : run_count load_drops r ≤ 1;
  balanced_order : ordered r;
}.

Lemma list_count_app f es es' : list_count f (es ++ es') = list_count f es + list_count f es'.
Proof. induction es as [|e es IH]; cbn; [done|]. rewrite IH. lia. Qed.

Lemma run_count_do_all f es k : run_count f (do_all es k) = list_count f es + run_count f k.
Proof. induction es as [|e es IH]; cbn; [done|]. rewrite IH. lia. Qed.

(** Kinds that reports and metrics are not of. *)
Class Silent (f : RouteEvent → N) : Prop := {
  silent_report w r : f (ReportTo w r) = 0;
  silent_stale : f CountStale = 0;
  silent_count url model m o : f (CountRequest url model m o) = 0;
}.
#[export] Instance takes_silent w : Silent (takes w). Proof. by split. Qed.
#[export] Instance drops_silent w : Silent (drops w). Proof. by split. Qed.
#[export] Instance registers_silent : Silent registers. Proof. by split. Qed.
#[export] Instance load_drops_silent : Silent load_drops. Proof. by split. Qed.

Section Silence.
Context (f : RouteEvent → N) `{!Silent f}.

Lemma reports_silent w rs : list_count f (ReportTo w <$> rs) = 0.
Proof. induction rs as [|r rs IH]; [done|]. cbn. by rewrite silent_report, IH. Qed.

Lemma outcome_silent url model m answer : list_count f (count_outcome url model m answer) = 0.
Proof. destruct answer as [[|[]]|]; cbn; by rewrite ?silent_stale, ?silent_count. Qed.

Lemma streaming_silent fate model worker guards fwd :
  list_count f (fetch_now (fetch_streaming fate model worker guards fwd)) + list_count f (fetch_late (fetch_streaming fate model worker guards fwd))
  = list_count f guards.
Proof.
  unfold fetch_streaming. destruct fate; cbn; try lia. destruct (match forward_result fwd with Ok _ => _ | Err _ => _ end); cbn;
    rewrite ?fmap_app, ?list_count_app, ?reports_silent; cbn; lia.
Qed.

Lemma buffered_silent fate model worker fwd :
  list_count f (fetch_now (fetch_buffered fate model worker fwd)) = 0 ∧ fetch_late (fetch_buffered fate model worker fwd) = [].
Proof. destruct fate; cbn; rewrite ?reports_silent; done. Qed.

Lemma fetched_silent fetched url model m :
  run_count f (run_fetched fetched url model m) = list_count f (fetch_now fetched) + list_count f (fetch_late fetched).
Proof. unfold run_fetched. rewrite run_count_do_all. cbn [run_count]. rewrite !run_count_do_all, outcome_silent. cbn. lia. Qed.

End Silence.

Section Balance.
Context (document : list N → option Json) (to_vec : Json → list N) (hash_order : list (string * Json) → list (string * Json)).
Context (url_host : string → option string) (iter_ids : gset WorkerId → list WorkerId) (header_value : string → bool).
Context {P : Type} `{!Policy P} (models : list string) (tokenizer : string → option (string → option (list N))).
Context (forward_json forward_stream : Worker → string → HeaderMap → list N → Forwarded ProxyResponse).

#[local] Notation run_plain := (run_plain forward_json forward_stream).
#[local] Notation run_decode := (run_decode forward_json forward_stream).
#[local] Notation prefill_task := (prefill_task forward_json).

Lemma run_plain_silent f `{!Silent f} c streaming model path w headers body url m :
  run_count f (run_fetched (run_plain c streaming model path w headers body) url model m) = f (DropGuard (worker_id w)) + f DropLoad.
Proof.
  rewrite fetched_silent by done. unfold RouterRoutes.run_plain. destruct streaming; [rewrite streaming_silent by done; cbn; lia|].
  cbn [fetch_now fetch_late]. destruct (buffered_silent f (fate c) model w (forward_json w path headers body)) as [Hn ->].
  rewrite list_count_app, Hn. cbn. lia.
Qed.

Lemma run_decode_silent f `{!Silent f} c streaming model path w headers body url m :
  run_count f (run_fetched (run_decode c streaming model path w headers body) url model m) = f (DropGuard (worker_id w)).
Proof.
  rewrite fetched_silent by done. unfold RouterRoutes.run_decode. destruct streaming; [rewrite streaming_silent by done; cbn; lia|].
  cbn [fetch_now fetch_late]. destruct (buffered_silent f (fate c) model w (forward_json w path headers body)) as [Hn ->].
  rewrite list_count_app, Hn. cbn. lia.
Qed.

Lemma prefill_task_silent f `{!Silent f} path w headers body :
  run_count f (prefill_task path w headers body) = f (DropGuard (worker_id w)) + f DropLoad.
Proof. unfold RouterRoutes.prefill_task. rewrite run_count_do_all, list_count_app, reports_silent by done. cbn. lia. Qed.

Lemma balanced_done : balanced Done.
Proof. by split. Qed.

(** What a plan is made for. *)
Lemma prepare_serves random selection headers body plan : RouteDispatchPlan_prepare (from_slice document) to_vec header_value random selection headers body = Ok plan →
  match plan with
  | DispatchPlain worker _ _ => selection = SelectSingle worker
  | DispatchPd request _ => selection = SelectDual (execution_pair request)
  end.
Proof.
  destruct selection as [worker|both]; cbn; [by intros [= <-]|]. unfold PdExecutionRequest_prepare.
  destruct (request_batch_size_from_bytes _ _) as [n|]; [|done]. cbn [result_bind].
  destruct (prepare_plan _ _ _ _ _ _) as [p|]; [|done]. cbn [result_bind]. by intros [= <-].
Qed.

Lemma dispatch_balanced c path model post streaming headers body selection answer run :
  dispatch document to_vec hash_order header_value tokenizer forward_json forward_stream c path model post streaming headers body selection = (answer, run) →
  balanced run.
Proof.
  unfold dispatch. destruct (RouteDispatchPlan_prepare _ _ _ _ _ _ _) as [[worker headers' body'|request headers']|e] eqn:Hp;
    [apply prepare_serves in Hp as ->| |]; intros [= _ <-].
  - split; [intros w|..]; cbn -[run_fetched]; rewrite ?run_plain_silent by apply _; cbn; repeat case_bool_decide; lia.
  - apply prepare_serves in Hp as ->. cbn [primary_worker].
    split; [intros w|..]; cbn -[run_fetched RouterRoutes.prefill_task]; rewrite ?prefill_task_silent, ?run_decode_silent by apply _; cbn; repeat case_bool_decide; lia.
  - split; [intros w|..]; cbn; repeat case_bool_decide; try done; lia.
Qed.

(** Whatever a request meets, its guards and its entry balance. *)
Lemma handled_balanced c policies h :
  handled document to_vec hash_order url_host iter_ids header_value models tokenizer forward_json forward_stream c policies h → balanced h.1.2.
Proof.
  assert (∀ headers body path model_selection post, balanced (routed_generation document to_vec hash_order url_host iter_ids header_value models
    tokenizer forward_json forward_stream c policies headers body path model_selection post).1.2) as Hgen.
  { intros headers body path model_selection post. unfold routed_generation.
    destruct (parse_probe _ _) as [probe|]; [|apply balanced_done]. destruct (select_model _ _ _) as [model|]; [|apply balanced_done].
    destruct (policies !! model) as [policy|]; [|apply balanced_done].
    destruct (select_with_policy _ _ _ _ _ _ _ _ _) as [[selection|e] policy']; [|apply balanced_done].
    destruct (dispatch _ _ _ _ _ _ _ _ _ _ _ _ _ _ _) as [answer run] eqn:Hd. by eapply dispatch_balanced. }
  intros [headers body path model_selection post|headers body path message|headers body]; [apply Hgen| |].
  2: { unfold rerank. destruct (parse_rerank_response_options _ _); [apply Hgen|apply balanced_done]. }
  unfold routed_plain_json. destruct (parse_probe _ _) as [probe|]; [|apply balanced_done].
  destruct (select_model _ _ _) as [model|]; [|apply balanced_done]. destruct (resolve _ _ _ _) as [[workers|p d]|e]; try apply balanced_done.
  destruct (policies !! model) as [policy|]; [|apply balanced_done]. destruct (policy_select _ _ _ _) as [[worker|] policy']; [|apply balanced_done].
  split; [intros w|..]; cbn -[run_fetched]; rewrite ?run_plain_silent by apply _; cbn; repeat case_bool_decide; lia.
Qed.

End Balance.

(** ** Many requests at once *)

(** The state requests share: the number of active requests of each worker, an atomic of
    the width of [usize], and the registry of the active load. *)
Record RouterState : Type := mkRouterState {
  active : gmap WorkerId N;
  loads : ActiveLoadRegistry;
}.

Definition active_of (s : RouterState) (w : WorkerId) : N := default 0 (active s !! w).

(** An effect of the request with the given number, at the time [now].  Registration and
    drop are taken whole here; that their parts may interleave is shown in [ActiveLoad]. *)
(** [sglang-router/src/workers/worker.rs:44-55] LoadGuard *)
Definition perform (now id : N) (e : RouteEvent) (s : RouterState) : RouterState :=
  match e with
  | TakeGuard w => mkRouterState (<[w := fetch_add (active_of s w) 1]> (active s)) (loads s)
  | DropGuard w => mkRouterState (<[w := fetch_sub (active_of s w) 1]> (active s)) (loads s)
  | RegisterLoad w url n => mkRouterState (active s) (register now id (loads s) w url n 0)
  | DropLoad => mkRouterState (active s) (drop_guard (loads s) id)
  | ReportTo _ _ | CountStale | CountRequest _ _ _ _ => s
  end.

(** The shared state, the tasks that run, each with the number of its request, and the
    numbers that were given out. *)
Record Server : Type := mkServer {
  shared : RouterState;
  running : list (N * Run);
  numbers : gset N;
}.

Section Server.
Context (iter_requests : gmap N RequestEntry → list N) (arriving : Run → Prop).

Inductive server_step : Server → Server → Prop :=
  | server_arrive s ts used id run : id ∉ used → arriving run → server_step (mkServer s ts used) (mkServer s ((id, run) :: ts) ({[id]} ∪ used))
  | server_do s ts1 ts2 used id now e k :
      server_step (mkServer s (ts1 ++ (id, Do e k) :: ts2) used) (mkServer (perform now id e s) (ts1 ++ (id, k) :: ts2) used)
  | server_fork s ts1 ts2 used id a b :
      server_step (mkServer s (ts1 ++ (id, Fork a b) :: ts2) used) (mkServer s (ts1 ++ (id, a) :: (id, b) :: ts2) used)
  | server_end s ts1 ts2 used id : server_step (mkServer s (ts1 ++ (id, Done) :: ts2) used) (mkServer s (ts1 ++ ts2) used)
  | server_sweep s ts used now :
      server_step (mkServer s ts used) (mkServer (mkRouterState (active s) (sweep_stale iter_requests now (loads s)).2) ts used)
  | server_forget s ts used worker :
      server_step (mkServer s ts used) (mkServer (mkRouterState (active s) (forget_worker (loads s) worker)) ts used).

Context (arriving_balanced : ∀ run, arriving run → balanced run).

(** What is ahead of the running tasks, of all or of those of one request. *)
Definition ahead (f : RouteEvent → N) (ts : list (N * Run)) : N := foldr (λ t acc, run_count f t.2 + acc) 0 ts.
Definition of_request (id : N) (f : Run → N) (ts : list (N * Run)) : N := foldr (λ t acc, (if t.1 =? id then f t.2 else 0) + acc) 0 ts.

Lemma ahead_app f ts1 ts2 : ahead f (ts1 ++ ts2) = ahead f ts1 + ahead f ts2.
Proof. induction ts1 as [|t ts1 IH]; [done|]. change (run_count f t.2 + ahead f (ts1 ++ ts2) = run_count f t.2 + ahead f ts1 + ahead f ts2). rewrite IH. lia. Qed.
Lemma ahead_cons f t ts : ahead f (t :: ts) = run_count f t.2 + ahead f ts.
Proof. done. Qed.
Lemma of_request_app id f ts1 ts2 : of_request id f (ts1 ++ ts2) = of_request id f ts1 + of_request id f ts2.
Proof.
  induction ts1 as [|t ts1 IH]; [done|]. change ((if t.1 =? id then f t.2 else 0) + of_request id f (ts1 ++ ts2) =
    (if t.1 =? id then f t.2 else 0) + of_request id f ts1 + of_request id f ts2). rewrite IH. lia.
Qed.
Lemma of_request_cons id f t ts : of_request id f (t :: ts) = (if t.1 =? id then f t.2 else 0) + of_request id f ts.
Proof. done. Qed.

Lemma of_request_fresh id f ts : (∀ t, t ∈ ts → t.1 ≠ id) → of_request id f ts = 0.
Proof.
  induction ts as [|t ts IH]; [done|]. intros H. rewrite of_request_cons, IH by (intros u Hu; apply H; by right).
  rewrite (proj2 (N.eqb_neq _ _)); [done|]. apply H. by left.
Qed.

Definition tasks_of (id : N) (ts : list (N * Run)) : N := of_request id (λ _, 1) ts.

Lemma no_tasks_nothing_ahead id f ts : tasks_of id ts = 0 → of_request id f ts = 0.
Proof.
  unfold tasks_of. induction ts as [|t ts IH]; [done|]. rewrite !of_request_cons. destruct (t.1 =? id); [lia|]. intros H. rewrite IH; lia.
Qed.

(** The request's entry, as a number. *)
Definition entered (s : RouterState) (id : N) : N := match requests (loads s) !! id with Some _ => 1 | None => 0 end.

Record server_ok (v : Server) : Prop := {
  so_loads : load_ok (mkSystem (loads (shared v)) [] (numbers v));
  so_numbers t : t ∈ running v → t.1 ∈ numbers v;
  so_ordered t : t ∈ running v → ordered t.2;
  so_active w n : active (shared v) !! w = Some n → n < 2 ^ 64;
  so_guards w : wrap (active_of (shared v) w + ahead (takes w) (running v)) = wrap (ahead (drops w) (running v));
  so_entries id : entered (shared v) id + of_request id (run_count registers) (running v) ≤ of_request id (run_count load_drops) (running v);
  so_once id : of_request id (run_count load_drops) (running v) ≤ 1;
  so_single id : of_request id (run_count registers) (running v) = 0 ∨ tasks_of id (running v) = 1;
}.

(** *** The calls of the active load *)

Lemma load_run r r' used used' : rtc (load_step iter_requests) (mkSystem r [] used) (mkSystem r' [] used') →
  load_ok (mkSystem r [] used) → load_ok (mkSystem r' [] used').
Proof. intros Hrun. remember (mkSystem r [] used) as s eqn:Hs. clear Hs. induction Hrun as [|s1 s2 s3 H12 _ IH]; [done|]. intros H. by apply IH, (load_step_ok iter_requests s1). Qed.

Lemma sweep_run ids : ∀ r swept used, rtc (load_step iter_requests) (mkSystem r [Sweeping ids] used) (mkSystem (sweep_loop r ids swept).2 [] used).
Proof.
  induction ids as [|id ids IH]; intros r swept used; cbn [sweep_loop].
  { apply rtc_once, (step_swept iter_requests r [] []). }
  destruct (take_request r id) as [[e|] r'] eqn:Ht.
  - eapply rtc_l; [apply (step_sweep iter_requests r [] [] used id ids _ _ Ht)|]. cbn [released app].
    eapply rtc_l; [apply (step_release_prefill iter_requests r' [] [Sweeping ids])|].
    eapply rtc_l; [apply (step_release_decode iter_requests _ [] [Sweeping ids])|]. apply IH.
  - eapply rtc_l; [apply (step_sweep iter_requests r [] [] used id ids _ _ Ht)|]. apply IH.
Qed.

Lemma drop_run r id used : rtc (load_step iter_requests) (mkSystem r [] used) (mkSystem (drop_guard r id) [] used).
Proof.
  unfold drop_guard. destruct (take_request r id) as [[e|] r'] eqn:Ht.
  - eapply rtc_l; [apply (step_drop iter_requests r [] used id _ _ Ht)|]. cbn [released app].
    eapply rtc_l; [apply (step_release_prefill iter_requests r' [] [])|]. apply rtc_once, (step_release_decode iter_requests _ [] []).
  - apply rtc_once. apply (step_drop iter_requests r [] used id _ _ Ht).
Qed.

(** A request that has not registered yet registers. *)
Lemma register_ok now id r used w url n d : id ∈ used → requests r !! id = None →
  load_ok (mkSystem r [] used) → load_ok (mkSystem (register now id r w url n d) [] used).
Proof.
  intros Hu Hn H. assert (load_ok (mkSystem r [] (used ∖ {[id]}))) as H'.
  { destruct H as [Hst Hrq Htk Hwk Hnd Hnew]. split; cbn [registry tasks used_ids] in *; try done; [|intros i Hi; by apply elem_of_nil in Hi].
    intros i e Hi. destruct (Hrq i e Hi). split; [done|]. apply elem_of_difference. split; [done|]. intros ->%elem_of_singleton. congruence. }
  assert (rtc (load_step iter_requests) (mkSystem r [] (used ∖ {[id]})) (mkSystem (register now id r w url n d) [] ({[id]} ∪ used ∖ {[id]}))) as Hrun.
  { unfold register. destruct (register_entry r w) as [a r'] eqn:He.
    eapply rtc_l; [apply (step_register iter_requests r [] (used ∖ {[id]}) now id w url n d a r'); [set_solver|done]|].
    eapply rtc_l; [apply (step_prefill iter_requests r' [] [])|].
    eapply rtc_l; [apply (step_decode iter_requests _ [] [])|]. apply rtc_once, (step_insert iter_requests _ [] []). }
  pose proof (load_run _ _ _ _ Hrun H') as Hok. by replace ({[id]} ∪ used ∖ {[id]}) with used in Hok by (apply leibniz_equiv; by rewrite <-union_difference_singleton).
Qed.

(** *** Preservation *)

#[local] Ltac counts := rewrite ?ahead_app, ?ahead_cons, ?of_request_app, ?of_request_cons, ?N.eqb_refl in *; cbn [fst snd run_count] in *.

Lemma single_registered ts1 ts2 id r :
  of_request id (run_count registers) (ts1 ++ (id, r) :: ts2) = 0 ∨ tasks_of id (ts1 ++ (id, r) :: ts2) = 1 →
  run_count registers r = 0 → of_request id (run_count registers) (ts1 ++ (id, r) :: ts2) = 0.
Proof.
  intros [H|H] Hr; [done|]. unfold tasks_of in H. counts. rewrite Hr.
  rewrite (no_tasks_nothing_ahead id _ ts1), (no_tasks_nothing_ahead id _ ts2) by (unfold tasks_of; lia). lia.
Qed.

Lemma register_requests now id r w url n d : ∃ e, requests (register now id r w url n d) = <[id := e]> (requests r).
Proof. unfold register, register_entry. destruct (workers r !! w); eexists; done. Qed.

Lemma sweep_requests ids : ∀ r swept, requests (sweep_loop r ids swept).2 ⊆ requests r.
Proof.
  induction ids as [|id ids IH]; intros r swept; cbn [sweep_loop]; [done|]. unfold take_request.
  destruct (requests r !! id) as [e|]; [|apply IH]. etrans; [apply IH|]. cbn. apply delete_subseteq.
Qed.

Lemma drop_requests r id : requests (drop_guard r id) = delete id (requests r).
Proof. unfold drop_guard, take_request. destruct (requests r !! id) eqn:He; [done|]. by rewrite delete_id. Qed.

Lemma entered_shrinks s s' id : requests (loads s') ⊆ requests (loads s) → entered s' id ≤ entered s id.
Proof.
  intros Hsub. unfold entered. destruct (requests (loads s') !! id) as [e|] eqn:He; [|case_match; lia].
  by rewrite (lookup_weaken _ _ _ _ He Hsub).
Qed.

(** Steps that leave the tasks alone. *)
Lemma shrink_ok s s' ts used : active s' = active s → requests (loads s') ⊆ requests (loads s) → load_ok (mkSystem (loads s') [] used) →
  server_ok (mkServer s ts used) → server_ok (mkServer s' ts used).
Proof.
  intros Ha Hr Hl [H1 H2 H3 H4 H5 H6 H8 H7]. split; cbn [shared running numbers] in *; try done.
  - by rewrite Ha.
  - intros w. specialize (H5 w). unfold active_of in *. by rewrite Ha.
  - intros id. pose proof (entered_shrinks s s' id Hr). specialize (H6 id). lia.
Qed.

(** A guard is taken, or dropped: [a] guards are still to be taken and [b] to be dropped. *)
Lemma take_step n a b : wrap (n + (1 + a)) = wrap b → wrap (fetch_add n 1 + a) = wrap b.
Proof. intros <-. unfold fetch_add. rewrite wrap_add. f_equal. lia. Qed.

Lemma drop_step n a b : wrap (n + a) = wrap (1 + b) → wrap (fetch_sub n 1 + a) = wrap b.
Proof.
  intros H. unfold fetch_sub. rewrite wrap_add. replace (n + (2 ^ 64 - wrap 1) + a) with (n + a + (2 ^ 64 - wrap 1)) by lia.
  rewrite <- wrap_add, H, wrap_add. change (2 ^ 64 - wrap 1) with (2 ^ 64 - 1). replace (1 + b + (2 ^ 64 - 1)) with (b + 1 * 2 ^ 64) by lia.
  apply N.Div0.mod_add.
Qed.

Lemma wrap_lt n : wrap n < 2 ^ 64.
Proof. by apply N.mod_lt. Qed.

Lemma active_insert s w n v l : active_of (mkRouterState (<[w := n]> (active s)) l) v = if bool_decide (w = v) then n else active_of s v.
Proof.
  unfold active_of. cbn. case_bool_decide as H; [by rewrite H, lookup_insert_eq|by rewrite lookup_insert_ne].
Qed.

(** One effect. *)
Lemma ordered_next e k : ordered (Do e k) → ordered k ∧ (e = DropLoad → run_count registers k = 0).
Proof. destruct e; cbn; intros H; (split; [try by apply ordered_registered|by intros]); exact H. Qed.

Lemma do_ok s ts1 ts2 used id now e k :
  server_ok (mkServer s (ts1 ++ (id, Do e k) :: ts2) used) → server_ok (mkServer (perform now id e s) (ts1 ++ (id, k) :: ts2) used).
Proof.
  intros [H1 H2 H3 H4 H5 H6 H8 H7]. cbn [shared running numbers] in *.
  destruct (ordered_next e k) as [Hk Hdrop]; [apply (H3 (id, Do e k)), elem_of_app; right; by left|].
  assert (id ∈ used) as Hid by (apply (H2 (id, Do e k)), elem_of_app; right; by left).
  assert (∀ u, u ∈ ts1 ++ (id, k) :: ts2 → u = (id, k) ∨ u ∈ ts1 ++ (id, Do e k) :: ts2) as Hin.
  { intros u. rewrite !elem_of_app, !elem_of_cons. tauto. }
  assert (e = DropLoad → of_request id (run_count registers) (ts1 ++ (id, k) :: ts2) = 0) as Hdropped.
  { intros ->. pose proof (single_registered ts1 ts2 id _ (H7 id) (Hdrop eq_refl)) as H. counts. cbn [registers] in *. lia. }
  split; cbn [shared running numbers].
  - destruct e; cbn [perform loads]; try done; [|by eapply load_run; [apply drop_run|]].
    apply register_ok; [done| |done]. specialize (H6 id). specialize (H8 id). unfold entered in H6.
    destruct (requests (loads s) !! id) eqn:Hr; [|done]. counts. cbn [registers load_drops] in *. lia.
  - intros u [->|Hu]%Hin; [by apply (H2 (id, Do e k)), elem_of_app; right; left|by apply H2].
  - intros u [->|Hu]%Hin; [done|by apply H3].
  - intros w n. destruct e; cbn [perform active]; try apply H4; intros [[<- <-]|[_ Hn]]%lookup_insert_Some; try (by eapply H4); apply wrap_lt.
  - intros w. specialize (H5 w). counts.
    destruct e; cbn [perform takes drops] in *; rewrite ?active_insert; try exact H5;
      repeat case_bool_decide; subst; try done; try exact H5.
    + apply take_step. etrans; [|exact H5]. f_equal. lia.
    + apply drop_step. etrans; [exact H5|]. f_equal. lia.
  - intros i. specialize (H6 i). counts. destruct e; cbn [perform] in *; unfold entered in *; cbn [loads] in *; try (cbn in *; destruct (id =? i); lia).
    + destruct (register_requests now id (loads s) worker url prefill_load 0) as [e ->]. rewrite lookup_insert. cbn in *.
      case_decide as Hi; [subst; rewrite N.eqb_refl in *; destruct (requests (loads s) !! i); lia|].
      rewrite (proj2 (N.eqb_neq _ _)) in * by done. lia.
    + rewrite drop_requests, lookup_delete. specialize (Hdropped eq_refl). cbn in *.
      case_decide as Hi; [subst; rewrite N.eqb_refl in *; counts; lia|]. rewrite (proj2 (N.eqb_neq _ _)) in * by done. lia.
  - intros i. specialize (H8 i). counts. destruct (id =? i); lia.
  - intros i. specialize (H7 i). unfold tasks_of in *. counts. destruct (id =? i); lia.
Qed.

Lemma server_step_ok v v' : server_step v v' → server_ok v → server_ok v'.
Proof.
  intros [s ts used id run Hid Harr|s ts1 ts2 used id now e k|s ts1 ts2 used id a b|s ts1 ts2 used id|s ts used now|s ts used worker] H.
  - destruct H as [H1 H2 H3 H4 H5 H6 H8 H7]. cbn [shared running numbers] in *. destruct (arriving_balanced _ Harr) as [Hg Hl Ho Hord].
    assert (∀ f, of_request id f ts = 0) as Hfresh by (intros f; apply of_request_fresh; intros t Ht Heq; apply Hid; rewrite <- Heq; by apply H2).
    split; cbn [shared running numbers]; try done.
    + by eapply used_weaken, H1; set_solver.
    + intros t [->|Ht]%elem_of_cons; [set_solver|]. specialize (H2 _ Ht). set_solver.
    + intros t [->|Ht]%elem_of_cons; [done|by apply H3].
    + intros w. specialize (H5 w). counts. rewrite Hg. replace (active_of s w + _) with (active_of s w + ahead (takes w) ts + run_count (drops w) run) by lia.
      rewrite <- wrap_add, H5, wrap_add. f_equal. lia.
    + intros i. specialize (H6 i). counts. destruct (N.eqb_spec id i) as [<-|]; [|lia]. rewrite !Hfresh in *. unfold entered in *.
      destruct (requests (loads s) !! id) eqn:Hr; [|lia]. exfalso. apply Hid. by destruct (lo_requests _ H1 id _ Hr).
    + intros i. specialize (H8 i). counts. destruct (N.eqb_spec id i) as [<-|]; [rewrite Hfresh in *|]; lia.
    + intros i. specialize (H7 i). unfold tasks_of in *. counts. destruct (N.eqb_spec id i) as [<-|]; [rewrite !Hfresh in *; by right|]. done.
  - by apply do_ok.
  - destruct H as [H1 H2 H3 H4 H5 H6 H8 H7]. cbn [shared running numbers] in *.
    assert (ordered (Fork a b)) as [Ha Hb] by (apply (H3 (id, Fork a b)), elem_of_app; right; by left).
    assert (id ∈ used) as Hid by (apply (H2 (id, Fork a b)), elem_of_app; right; by left).
    assert (∀ u, u ∈ ts1 ++ (id, a) :: (id, b) :: ts2 → u = (id, a) ∨ u = (id, b) ∨ u ∈ ts1 ++ (id, Fork a b) :: ts2) as Hin.
    { intros u. rewrite !elem_of_app, !elem_of_cons. tauto. }
    pose proof (single_registered ts1 ts2 id (Fork a b) (H7 id)) as Hs. cbn [run_count] in Hs. specialize (Hs ltac:(lia)).
    split; cbn [shared running numbers]; try done.
    + intros u [->|[->|Hu]]%Hin; [done|done|by apply H2].
    + intros u [->|[->|Hu]]%Hin; [by apply ordered_registered|by apply ordered_registered|by apply H3].
    + intros w. specialize (H5 w). counts. etrans; [|etrans; [exact H5|]]; f_equal; lia.
    + intros i. specialize (H6 i). counts. destruct (id =? i); lia.
    + intros i. specialize (H8 i). counts. destruct (id =? i); lia.
    + intros i. specialize (H7 i). unfold tasks_of in *. counts. destruct (id =? i) eqn:Hi; [|lia]. left. apply N.eqb_eq in Hi. subst. lia.
  - destruct H as [H1 H2 H3 H4 H5 H6 H8 H7]. cbn [shared running numbers] in *.
    assert (∀ u, u ∈ ts1 ++ ts2 → u ∈ ts1 ++ (id, Done) :: ts2) as Hin by (intros u; rewrite !elem_of_app, !elem_of_cons; tauto).
    split; cbn [shared running numbers]; try done.
    + intros u Hu%Hin. by apply H2.
    + intros u Hu%Hin. by apply H3.
    + intros w. specialize (H5 w). by counts.
    + intros i. specialize (H6 i). counts. destruct (id =? i); lia.
    + intros i. specialize (H8 i). counts. destruct (id =? i); lia.
    + intros i. destruct (decide (of_request i (run_count registers) (ts1 ++ ts2) = 0)) as [|Hne]; [by left|right].
      specialize (H7 i). pose proof (no_tasks_nothing_ahead i (run_count registers) (ts1 ++ ts2)) as Hz.
      unfold tasks_of in *. counts. destruct (id =? i); lia.
  - apply (shrink_ok s); [done| | |exact H]; cbn [loads].
    + apply sweep_requests.
    + eapply load_run, (so_loads _ H). cbn. eapply rtc_l; [apply step_scan|]. apply sweep_run.
  - apply (shrink_ok s); [done| | |exact H]; cbn [loads]; [done|].
    eapply load_run, (so_loads _ H). cbn. apply rtc_once, step_forget.
Qed.

Definition empty_server (timeout : N) : Server := mkServer (mkRouterState ∅ (new_registry timeout)) [] ∅.

Lemma server_reachable_ok timeout v : rtc server_step (empty_server timeout) v → server_ok v.
Proof.
  intros Hrun. assert (server_ok (empty_server timeout)) as H0.
  { split; cbn; try done; try (intros ? H; by apply elem_of_nil in H); [by apply (reachable_ok iter_requests timeout), rtc_refl|by left]. }
  induction Hrun as [|v0 v1 v2 H01 _ IH]; [done|]. by apply IH, (server_step_ok v0).
Qed.

(** *** Coming to rest *)

Lemma run_alone run : ∀ s ts id used, ∃ s', rtc server_step (mkServer s ((id, run) :: ts) used) (mkServer s' ts used).
Proof.
  induction run as [|e k IH|a IHa b IHb]; intros s ts id used.
  - exists s. apply rtc_once, (server_end s []).
  - destruct (IH (perform 0 id e s) ts id used) as [s' Hs]. exists s'. eapply rtc_l; [apply (server_do s [] ts used id 0)|exact Hs].
  - destruct (IHa s ((id, b) :: ts) id used) as [s1 H1]. destruct (IHb s1 ts id used) as [s' H2]. exists s'.
    eapply rtc_l; [apply (server_fork s [] ts)|]. by etrans.
Qed.

Lemma all_end ts : ∀ s used, ∃ s', rtc server_step (mkServer s ts used) (mkServer s' [] used).
Proof.
  induction ts as [|[id run] ts IH]; intros s used; [by exists s|]. destruct (run_alone run s ts id used) as [s1 H1].
  destruct (IH s1 used) as [s' H2]. exists s'. by etrans.
Qed.

Lemma nothing_in_flight s used w : load_ok (mkSystem (loads s) [] used) → requests (loads s) = ∅ →
  prefill_load (loads s) w = 0 ∧ decode_load (loads s) w = 0.
Proof.
  intros H He. unfold prefill_load, decode_load. destruct (workers (loads s) !! w) as [a|]; [|done]. cbn [mbind option_bind].
  destruct (store (loads s) !! a) as [n|] eqn:Hn; [|done]. destruct (lo_store _ H a n Hn) as (_&->&->).
  unfold prefill_sum, decode_sum. cbn [registry tasks]. by rewrite He.
Qed.

End Server.

(** ** The router comes to rest *)

Section Rest.
Context (document : list N → option Json) (to_vec : Json → list N) (hash_order : list (string * Json) → list (string * Json)).
Context (url_host : string → option string) (iter_ids : gset WorkerId → list WorkerId) (header_value : string → bool).
Context {P : Type} `{!Policy P} (models : list string) (tokenizer : string → option (string → option (list N))).
Context (forward_json forward_stream : Worker → string → HeaderMap → list N → Forwarded ProxyResponse).
Context (iter_requests : gmap N RequestEntry → list N).

(** What arrives: the effects of a handler on any body, in any circumstances. *)
Definition a_request (run : Run) : Prop := ∃ c policies h,
  handled document to_vec hash_order url_host iter_ids header_value models tokenizer forward_json forward_stream c policies h ∧ run = h.1.2.

Lemma a_request_balanced run : a_request run → balanced run.
Proof. intros (c&policies&h&Hh&->). by eapply handled_balanced. Qed.

(** No load leaks.  Whatever requests arrive and however they go, answered, refused,
    expired or left by their clients, plain, streamed or split over a pair of workers,
    in every interleaving with each other, the janitor and workers that are forgotten:
    an entry of the active load belongs to a request that still runs; the requests
    can all end; and when none runs, every counter is zero. *)
Theorem router_comes_to_rest timeout v : rtc (server_step iter_requests a_request) (empty_server timeout) v →
  (∀ id, is_Some (requests (loads (shared v)) !! id) → ∃ run, (id, run) ∈ running v) ∧
  (∃ s, rtc (server_step iter_requests a_request) v (mkServer s [] (numbers v))) ∧
  (running v = [] → ∀ w, active_of (shared v) w = 0 ∧ inflight_count (loads (shared v)) = 0 ∧
     prefill_load (loads (shared v)) w = 0 ∧ decode_load (loads (shared v)) w = 0).
Proof.
  intros Hrun. pose proof (server_reachable_ok _ _ a_request_balanced timeout v Hrun) as H.
  assert (∀ id, is_Some (requests (loads (shared v)) !! id) → ∃ run, (id, run) ∈ running v) as Hentry.
  { intros id [e He]. destruct (decide (Exists (λ t, t.1 = id) (running v))) as [Hx|Hx].
    - apply Exists_exists in Hx as ([i run]&Hin&<-). by exists run.
    - pose proof (so_entries _ H id) as Hle. unfold entered in Hle. rewrite He, !(of_request_fresh id) in Hle; [lia|..];
        intros t Ht Heq; apply Hx, Exists_exists; by exists t. }
  split; [done|]. split; [destruct v as [s ts used]; apply all_end|]. intros Hend w.
  assert (requests (loads (shared v)) = ∅) as Hnone.
  { apply map_empty. intros id. apply eq_None_not_Some. intros Hs. destruct (Hentry id Hs) as [run Hin]. rewrite Hend in Hin. by apply elem_of_nil in Hin. }
  split_and!; [|by unfold inflight_count; rewrite Hnone|by apply (nothing_in_flight _ _ w (so_loads _ H))..].
  pose proof (so_guards _ H w) as Hg. rewrite Hend in Hg. cbn in Hg. unfold active_of in *. destruct (active (shared v) !! w) as [n|] eqn:Hn; [|done].
  cbn in *. pose proof (so_active _ H _ _ Hn). rewrite N.add_0_r in Hg. unfold wrap in Hg. rewrite N.mod_small in Hg by done. by rewrite Hg.
Qed.

End Rest.

(** ** Every request is counted once *)

Fixpoint counts_of (r : Run) : list RouteEvent :=
  match r with
  | Done => []
  | Do (CountRequest url model m o) k => CountRequest url model m o :: counts_of k
  | Do _ k => counts_of k
  | Fork a b => counts_of a ++ counts_of b
  end.

Lemma counts_do_all es k : Forall (λ e, counted e = 0) es → counts_of (do_all es k) = counts_of k.
Proof. induction 1 as [|e es He _ IH]; cbn; [done|]. by destruct e. Qed.

Lemma reports_uncounted w rs : Forall (λ e, counted e = 0) (ReportTo w <$> rs).
Proof. by apply Forall_fmap, Forall_true. Qed.

(** The outcome a count has for an answer. *)
Definition outcome_of (answer : Result ApiError ProxyResponse) : RequestOutcome :=
  match answer with Ok _ => OutcomeSuccess | Err (StaleRequestExpired _) => OutcomeCancelled | Err _ => OutcomeError end.

Lemma outcome_counts url model m answer : counts_of (do_all (count_outcome url model m answer) Done) =
  match answer with None => [] | Some answer => [CountRequest url model m (outcome_of answer)] end.
Proof. by destruct answer as [[|[]]|]. Qed.

Lemma fetched_counts fetched url model m : Forall (λ e, counted e = 0) (fetch_now fetched) → Forall (λ e, counted e = 0) (fetch_late fetched) →
  counts_of (run_fetched fetched url model m) =
  match fetch_answer fetched with None => [] | Some answer => [CountRequest url model m (outcome_of answer)] end.
Proof. intros Hn Hl. unfold run_fetched. rewrite counts_do_all by done. cbn [counts_of]. by rewrite counts_do_all, outcome_counts by done. Qed.

Lemma streaming_uncounted fate model w guards f : Forall (λ e, counted e = 0) guards →
  Forall (λ e, counted e = 0) (fetch_now (fetch_streaming fate model w guards f)) ∧
  Forall (λ e, counted e = 0) (fetch_late (fetch_streaming fate model w guards f)).
Proof.
  intros Hg. unfold fetch_streaming. destruct fate; [destruct (match forward_result f with Ok _ => _ | Err _ => _ end)|..]; cbn; split; try done;
    repeat (apply Forall_app; split); try done; apply reports_uncounted.
Qed.

Lemma buffered_uncounted fate model w f :
  Forall (λ e, counted e = 0) (fetch_now (fetch_buffered fate model w f)) ∧ Forall (λ e, counted e = 0) (fetch_late (fetch_buffered fate model w f)).
Proof. unfold fetch_buffered. destruct fate; cbn; split; try done. apply reports_uncounted. Qed.

Section Counted.
Context (document : list N → option Json) (to_vec : Json → list N) (hash_order : list (string * Json) → list (string * Json)).
Context (url_host : string → option string) (iter_ids : gset WorkerId → list WorkerId) (header_value : string → bool).
Context {P : Type} `{!Policy P} (models : list string) (tokenizer : string → option (string → option (list N))).
Context (forward_json forward_stream : Worker → string → HeaderMap → list N → Forwarded ProxyResponse).

Lemma run_plain_counts c streaming model path w headers body url m :
  let fetched := run_plain forward_json forward_stream c streaming model path w headers body in
  counts_of (run_fetched fetched url model m) =
  match fetch_answer fetched with None => [] | Some answer => [CountRequest url model m (outcome_of answer)] end.
Proof.
  cbv zeta. unfold run_plain. destruct streaming.
  - apply fetched_counts; apply streaming_uncounted; by repeat constructor.
  - destruct (buffered_uncounted (fate c) model w (forward_json w path headers body)). apply fetched_counts; cbn [fetch_now fetch_late]; [|done].
    apply Forall_app. split; [done|by repeat constructor].
Qed.

Lemma run_decode_counts c streaming model path w headers body url m :
  let fetched := run_decode forward_json forward_stream c streaming model path w headers body in
  counts_of (run_fetched fetched url model m) =
  match fetch_answer fetched with None => [] | Some answer => [CountRequest url model m (outcome_of answer)] end.
Proof.
  cbv zeta. unfold run_decode. destruct streaming.
  - apply fetched_counts; apply streaming_uncounted; by repeat constructor.
  - destruct (buffered_uncounted (fate c) model w (forward_json w path headers body)). apply fetched_counts; cbn [fetch_now fetch_late]; [|done].
    apply Forall_app. split; [done|by repeat constructor].
Qed.

(** A count that fits an answer: what the handler makes of an answer of a worker may
    still fail, which the metrics do not see. *)
Definition count_fits (answer : option (Result ApiError ProxyResponse)) (counts : list RouteEvent) : Prop :=
  match answer with
  | None => counts = []
  | Some (Ok _) => ∃ url model m, counts = [CountRequest url model m OutcomeSuccess]
  | Some (Err (StaleRequestExpired _)) => ∃ url model m, counts = [CountRequest url model m OutcomeCancelled]
  | Some (Err (InternalError _)) => counts = [] ∨ ∃ url model m o, counts = [CountRequest url model m o] ∧ o ≠ OutcomeCancelled
  | Some (Err _) => counts = [] ∨ ∃ url model m, counts = [CountRequest url model m OutcomeError]
  end.

Lemma fits_refused e : (∀ m, e ≠ StaleRequestExpired m) → count_fits (Some (Err e)) [].
Proof. intros Hs. destruct e; cbn; auto. by edestruct Hs. Qed.

Lemma postprocess_fails created post response e : postprocess_response document to_vec hash_order created post response = Err e → ∃ message, e = InternalError message.
Proof.
  destruct post as [|options]; cbn; [done|]. unfold build_rerank_response. destruct (negb _); [done|].
  destruct (whole_body _) as [bytes|]; cbn; [|intros [= <-]; by eexists]. destruct (_ ≫= _); [done|]. intros [= <-]. by eexists.
Qed.

(** What the handler makes of the answer of a worker. *)
Lemma fits_finished c post plan answer url model m :
  count_fits (finish_answer document to_vec hash_order header_value c post plan <$> answer)
    (match answer with None => [] | Some answer => [CountRequest url model m (outcome_of answer)] end).
Proof.
  destruct answer as [[response|e]|]; cbn [fmap option_fmap option_map finish_answer result_bind]; [| |done].
  - unfold finish_answer. cbn [result_bind]. destruct (postprocess_response _ _ _ _ _ _) as [r|e] eqn:Hp; cbn [result_bind].
    + destruct plan; cbn; eauto.
    + apply postprocess_fails in Hp as [message ->]. right. by exists url, model, m, OutcomeSuccess.
  - destruct e; cbn; eauto 6. right. by exists url, model, m, OutcomeError.
Qed.

Lemma fits_unfinished answer url model m :
  count_fits answer (match answer with None => [] | Some answer => [CountRequest url model m (outcome_of answer)] end).
Proof.
  destruct answer as [[response|e]|]; cbn; [eauto| |done]. destruct e; cbn; eauto 6. right. by exists url, model, m, OutcomeError.
Qed.

Lemma prepare_fails random selection headers body e :
  RouteDispatchPlan_prepare (from_slice document) to_vec header_value random selection headers body = Err e → ∀ m, e ≠ StaleRequestExpired m.
Proof.
  destruct selection as [worker|both]; cbn; [done|]. unfold PdExecutionRequest_prepare, request_batch_size_from_bytes, parse_object, prepare_plan,
    PdDispatchPlan_new, plan_from_bootstrap, inject_into_body_with_rooms, parse_object.
  destruct (from_slice document body) as [[]|]; cbn; try (by intros [= <-]).
  destruct (bootstrap_port (pair_prefill both)); cbn; [|by intros [= <-]]. destruct (inject_fields _ _ _ _) as [entries' rooms]. by cbn.
Qed.

Lemma dispatch_counts c path model post streaming headers body selection answer run :
  dispatch document to_vec hash_order header_value tokenizer forward_json forward_stream c path model post streaming headers body selection = (answer, run) →
  count_fits answer (counts_of run).
Proof.
  unfold dispatch. destruct (RouteDispatchPlan_prepare _ _ _ _ _ _ _) as [[worker headers' body'|request headers']|e] eqn:Hp; intros [= <- <-].
  - cbn [do_all counts_of]. rewrite run_plain_counts. apply fits_finished.
  - cbn [do_all counts_of]. rewrite run_decode_counts. unfold prefill_task. rewrite counts_do_all; [apply fits_finished|].
    apply Forall_app. split; [apply reports_uncounted|by repeat constructor].
  - cbn. eapply fits_refused, prepare_fails, Hp.
Qed.

(** The metrics count a request once if a worker was to answer it, with the outcome
    of its answer: success, expired by the janitor, or an error; a request that was
    refused before or whose client left is not counted; only an answer the router
    itself fails to rewrite may be counted as a success. *)
Theorem request_counted_once c policies answer run policies' :
  handled document to_vec hash_order url_host iter_ids header_value models tokenizer forward_json forward_stream c policies (answer, run, policies') →
  count_fits answer (counts_of run).
Proof.
  assert (∀ headers body path model_selection post, let h := routed_generation document to_vec hash_order url_host iter_ids header_value models
    tokenizer forward_json forward_stream c policies headers body path model_selection post in count_fits h.1.1 (counts_of h.1.2)) as Hgen.
  { intros headers body path model_selection post. cbv zeta. unfold routed_generation.
    destruct (parse_probe _ _) as [probe|e] eqn:Hprobe.
    2: { cbn. apply fits_refused. unfold parse_probe in Hprobe. repeat case_match; by simplify_eq. }
    destruct (select_model _ _ _) as [model|e] eqn:Hmodel.
    2: { cbn. apply fits_refused. unfold select_model in Hmodel. repeat case_match; by simplify_eq. }
    destruct (policies !! model) as [policy|]; [|cbn; auto].
    destruct (select_with_policy _ _ _ _ _ _ _ _ _) as [[selection|e] policy'].
    2: { cbn. apply fits_refused. by destruct e as [[]|]. }
    destruct (dispatch _ _ _ _ _ _ _ _ _ _ _ _ _ _ _) as [a r] eqn:Hd. by eapply dispatch_counts. }
  intros H. change (count_fits (answer, run, policies').1.1 (counts_of (answer, run, policies').1.2)).
  destruct H as [headers body path model_selection post|headers body path message|headers body]; [apply Hgen| |].
  2: { unfold rerank. destruct (parse_rerank_response_options _ _) as [o|e] eqn:Ho; [apply Hgen|]. cbn. apply fits_refused.
       unfold parse_rerank_response_options in Ho. repeat case_match; by simplify_eq. }
  unfold routed_plain_json. destruct (parse_probe _ _) as [probe|e] eqn:Hprobe.
  2: { cbn. apply fits_refused. unfold parse_probe in Hprobe. repeat case_match; by simplify_eq. }
  destruct (select_model _ _ _) as [model|e] eqn:Hmodel.
  2: { cbn. apply fits_refused. unfold select_model in Hmodel. repeat case_match; by simplify_eq. }
  destruct (resolve _ _ _ _) as [[workers|p d]|e]; [|cbn; auto|cbn; apply fits_refused; by destruct e].
  destruct (policies !! model) as [policy|]; [|cbn; auto]. destruct (policy_select _ _ _ _) as [[worker|] policy']; [|cbn; auto].
  cbn [fst snd do_all counts_of]. rewrite run_plain_counts. apply fits_unfinished.
Qed.

End Counted.

(** ** Estimates *)

Lemma estimate_positive document encode body : 1 ≤ estimate_prefill_tokens document encode body.
Proof.
  unfold estimate_prefill_tokens. destruct (extract_prefill_text document body); [|lia]. destruct encode as [encode|]; [|lia].
  destruct (encode s) as [[|t ts]|]; [lia| |lia]. unfold len. cbn. lia.
Qed.

(** ** Witnesses and examples *)

(** The example codec, as a parser; workers over HTTP, which answer with [demo_reply]. *)
Definition toy_document (body : list N) : option Json := match toy_from_slice body with Ok v => Some v | Err _ => None end.
Definition demo_json (w : Worker) (path : string) (headers : HeaderMap) (body : list N) : Forwarded ProxyResponse :=
  forward_json_to (U := string) demo_reply (failed_with (InternalError "gRPC") []) (would_allow (breaker w) 0) (worker_url w) path headers body.
Definition demo_streaming (w : Worker) (path : string) (headers : HeaderMap) (body : list N) : Forwarded ProxyResponse :=
  forward_streaming_to (U := string) demo_reply (λ _, true) (failed_with (InternalError "gRPC") []) (would_allow (breaker w) 0) (worker_url w) path headers body None.
Definition demo_circumstances (f : Fate) : Circumstances := mkCircumstances 0 0 demo_registry demo_registry demo_random 7 f.
Definition demo_policies : gmap string unit := {["m"%string := ()]}.
Definition demo_handler (stream : bool) (f : Fate) : Handled :=
  generate toy_document toy_to_vec id no_url id_order (λ _, true) ["m"%string] (λ _, None) demo_json demo_streaming (demo_circumstances f) demo_policies []
    (toy_to_vec (JObject [("stream", JBool stream); ("text", JString "hello")]%string)).

Lemma router_comes_to_rest_witness : ∃ v, numbers v = {[1]} ∧ running v = [] ∧ ∀ w, active_of (shared v) w = 0.
Proof.
  set (arriving := a_request toy_document toy_to_vec id no_url id_order (λ _, true) ["m"%string] (λ _, None) demo_json demo_streaming).
  assert (arriving (demo_handler true Completes).1.2) as Harr.
  { exists (demo_circumstances Completes), demo_policies, (demo_handler true Completes). split; [|done]. apply handled_generation. }
  assert (server_step request_order arriving (empty_server 600) (mkServer (shared (empty_server 600)) [(1, (demo_handler true Completes).1.2)] ({[1]} ∪ ∅))) as Hstep.
  { apply server_arrive; [set_solver|done]. }
  destruct (all_end request_order arriving [(1, (demo_handler true Completes).1.2)] (shared (empty_server 600)) ({[1]} ∪ ∅)) as [s Hs].
  exists (mkServer s [] ({[1]} ∪ ∅)). split; [cbn; set_solver|]. split; [done|]. intros w.
  destruct (router_comes_to_rest toy_document toy_to_vec id no_url id_order (λ _, true) ["m"%string] (λ _, None) demo_json demo_streaming request_order 600
    (mkServer s [] ({[1]} ∪ ∅)) (rtc_l _ _ _ _ Hstep Hs)) as (_&_&Hrest).
  by apply Hrest.
Defined.

Lemma request_counted_once_witness : count_fits (Some (Err (StaleRequestExpired "m"))) (counts_of (demo_handler true Expires).1.2).
Proof.
  apply (request_counted_once toy_document toy_to_vec id no_url id_order (λ _, true) ["m"%string] (λ _, None) demo_json demo_streaming
    (demo_circumstances Expires) demo_policies _ _ (demo_handler true Expires).2).
  assert (demo_handler true Expires = (Some (Err (StaleRequestExpired "m")), (demo_handler true Expires).1.2, (demo_handler true Expires).2)) as <- by (by vm_compute).
  apply handled_generation.
Defined.

(** A streamed request to a pair: the prefill side runs as a task and is reported by
    itself; the decode side's guard goes with its stream, which breaks off. *)
Example pair_effects : (demo_handler true Completes).1.2 =
  Do (TakeGuard "p") (Do (RegisterLoad "p" "http://p" 1)
    (Fork (Do (ReportTo "p" ReportFailure) (Do (DropGuard "p") (Do DropLoad Done)))
       (Do (TakeGuard "d")
          (Fork (Do (DropGuard "d") (Do (ReportTo "d" ReportFailure) Done))
             (Do (CountRequest "http://p" "m" Prefill OutcomeSuccess) Done))))).
Proof. vm_compute. reflexivity. Qed.

(** A request that expires tells the breaker of the decode worker nothing, although it was
    admitted: if it was the probe, the worker stays shut out. *)
Example expiry_reports_nothing : (demo_handler true Expires).1.2 =
  Do (TakeGuard "p") (Do (RegisterLoad "p" "http://p" 1)
    (Fork (Do (ReportTo "p" ReportFailure) (Do (DropGuard "p") (Do DropLoad Done)))
       (Do (TakeGuard "d") (Do (DropGuard "d")
          (Fork Done (Do CountStale (Do (CountRequest "http://p" "m" Prefill OutcomeCancelled) Done))))))).
Proof. vm_compute. reflexivity. Qed.

(** The results of an upstream reranker, the best two without their documents. *)
Example rerank_selects :
  let result score i := JObject [("score", JFloat score); ("document", JString "text"); ("index", JUint i)]%string in
  let upstream := json_answer 200 (toy_to_vec (JArray [result 4606281698874543309 2; result 4602678819172646912 0; result 4599075939470750515 1])) in
  match build_rerank_response toy_document toy_to_vec id 7 (mkRerankOptions "m" (Some 2) false None) upstream with
  | Ok r => match proxy_body r with Buffered bytes => toy_document bytes | _ => None end
  | Err _ => None
  end = Some (JObject [("object", JString "rerank"); ("created", JUint 7); ("model", JString "m");
    ("results", JArray [JObject [("score", JFloat 4606281698874543309); ("index", JUint 2)]; JObject [("score", JFloat 4602678819172646912); ("index", JUint 0)]])]%string).
Proof. by vm_compute. Qed.

(** A field given twice is refused, a body that is no object too; [null] is no model name. *)
Example probes :
  let probe entries := parse_probe toy_document (toy_to_vec (JObject entries)) in
  probe [("stream", JBool true); ("stream", JBool false)]%string = Err not_object ∧
  parse_probe toy_document (toy_to_vec (JArray [])) = Err not_object ∧
  probe [("model", JNull); ("other", JNull); ("other", JNull)]%string = Ok (mkProbe None None) ∧
  probe [("model", JString "m"); ("stream", JBool true)]%string = Ok (mkProbe (Some true) (Some "m"%string)).
Proof. by vm_compute. Qed.
