(* ===== verification/HttpService.v ===== *)
(** * Handlers of the HTTP server ([crates/sglang-srt/src/http.rs])

    A handler checks its body ([HttpPayload]), calls the runtime behind its mutex and
    answers ([HttpReplies]).  [HttpRuntime] is what the handlers ask of the runtime;
    [RouterRuntime] implements it.  A call of the runtime that panics gives [None]:
    it poisons the mutex, and a blocking handler reports the failed task, while the
    stream of a streaming one breaks off.  The additions to the metrics are kept in
    the order they are made; [micros] gives the times of a handler's observation.

    The profile endpoints write files, and the endpoints that load weights work on the
    device; neither is modelled. *)

From stdpp Require Import pretty.
From S2P Require Import Prelude Float32 Types Text PageAllocator RadixCache BlockHash Request Scheduler SchedulerFacts SchedulerCompletion SchedulerCorrect SchedulerDispatch Tokenizer Engine EngineCorrect DpPool DpSchedulerCorrect DpCoordinator RouterProtocol RouterRuntime StateEvents Safetensors JsonValue HttpPayload HttpReplies ServingMetrics ModelInfo.
#[local] Open Scope N_scope.

(** The byte tokenizer reads the string under [content]. *)
#[export] Instance json_chat_message : ChatMessage Json := {| message_content v := get_str "content" v |}.

(** ** The runtime as the handlers see it *)

(** A sink takes responses while it gives [true]; its state is of any type. *)
Class HttpRuntime (R : Type) : Type := {
  run_text : R → RouterTextGenerateRequest → option (Result RouterRuntimeError (list RouterGenerateResponse) * R);
  run_text_polling : R → RouterTextGenerateRequest → N → option (Result RouterRuntimeError (list RouterGenerateResponse) * R);
  run_text_batch : R → list RouterTextGenerateRequest → option (Result RouterRuntimeError (list (list RouterGenerateResponse)) * R);
  run_text_batch_polling : R → list RouterTextGenerateRequest → N → option (Result RouterRuntimeError (list (list RouterGenerateResponse)) * R);
  run_tokens : R → RouterGenerateRequest → option (Result RouterRuntimeError (list RouterGenerateResponse) * R);
  run_tokens_polling : R → RouterGenerateRequest → N → option (Result RouterRuntimeError (list RouterGenerateResponse) * R);
  run_token_batch : R → list RouterGenerateRequest → option (Result RouterRuntimeError (list (list RouterGenerateResponse)) * R);
  run_token_batch_polling : R → list RouterGenerateRequest → N → option (Result RouterRuntimeError (list (list RouterGenerateResponse)) * R);
  sink_text {C} : R → RouterTextGenerateRequest → (C → RouterGenerateResponse → bool * C) → C → option (Result RouterRuntimeError unit * C * R);
  sink_text_polling {C} : R → RouterTextGenerateRequest → N → (C → RouterGenerateResponse → bool * C) → C → option (Result RouterRuntimeError unit * C * R);
  sink_tokens {C} : R → RouterGenerateRequest → (C → RouterGenerateResponse → bool * C) → C → option (Result RouterRuntimeError unit * C * R);
  sink_tokens_polling {C} : R → RouterGenerateRequest → N → (C → RouterGenerateResponse → bool * C) → C → option (Result RouterRuntimeError unit * C * R);
  run_load : R → RouterLoadResponse;
  run_poll_transfers : R → option (Result RouterRuntimeError RouterTransferPollResponse * R);
  run_flush_cache : R → RouterControlResponse * R;
  run_pause : R → RouterControlResponse * R;
  run_continue : R → RouterControlResponse * R;
  run_abort : R → string → option (Result RouterProtocolError RouterControlResponse * R);
  run_abort_all : R → option (RouterControlResponse * R);
  run_tokenize : R → string → list N;
  run_detokenize : R → list N → Result TokenizerError string;
  run_chat_template : R → ChatTemplateInput Json → Result TokenizerError string;
  run_shutdown : R → option (Result RouterRuntimeError N * R);
}.

(** The loops of the runtime run on fuel; taken large enough, as [EngineCorrect]
    shows it exists, they end, so that [None] is a panic. *)
Section Implementation.
Context {T W D P : Type} `{!Tokenizer Json T} `{!WorkerExecutor W} `{!WeightUpdates W} `{!FallibleModelWorker D} `{!KvStateEventPublisher P}.
Context (sha256 : list N → list N) (turn : nat → bool → DpSystem D P → DpSystem D P) (fresh : nat → string) (fuel : nat).

#[global] Instance router_http_runtime : HttpRuntime (RouterRuntime T W D P) := {|
  run_text := generate_text_stream sha256 turn fresh fuel;
  run_text_polling rt q polls := generate_text_stream_with_transfer_polling sha256 turn fresh fuel rt q (N.to_nat polls);
  run_text_batch := generate_text_batch_stream sha256 turn fresh fuel;
  run_text_batch_polling rt qs polls := generate_text_batch_stream_with_transfer_polling sha256 turn fresh fuel rt qs (N.to_nat polls);
  run_tokens := generate_stream sha256 turn fresh fuel;
  run_tokens_polling rt q polls := generate_stream_with_transfer_polling sha256 turn fresh fuel rt q (N.to_nat polls);
  run_token_batch := generate_batch_stream sha256 turn fresh fuel;
  run_token_batch_polling rt qs polls := generate_batch_stream_with_transfer_polling sha256 turn fresh fuel rt qs (N.to_nat polls);
  sink_text C := generate_text_stream_with_sink sha256 turn fresh fuel;
  sink_text_polling C rt q polls := generate_text_stream_with_transfer_polling_sink sha256 turn fresh fuel rt q (N.to_nat polls);
  sink_tokens C := generate_stream_with_sink sha256 turn fresh fuel;
  sink_tokens_polling C rt q polls := generate_stream_with_transfer_polling_sink sha256 turn fresh fuel rt q (N.to_nat polls);
  run_load := load;
  run_poll_transfers := runtime_poll_transfers sha256;
  run_flush_cache := runtime_flush_cache;
  run_pause := pause_generation;
  run_continue := continue_generation;
  run_abort := runtime_abort_request;
  run_abort_all := runtime_abort_all_requests;
  run_tokenize := tokenize;
  run_detokenize := detokenize;
  run_chat_template := runtime_apply_chat_template;
  run_shutdown := runtime_shutdown;
|}.

End Implementation.

(** ** The service *)

(** [sglang-srt/src/http.rs:106-114] HttpKvEventsInfo *)
Record HttpKvEventsInfo : Type := mkKvEventsInfo {
  publisher : string;
  endpoint_host : string;
  endpoint_port_base : N;
  topic : string;
  kv_events_block_size : N;
  kv_events_dp_size : N;
}.

(** [sglang-srt/src/http.rs:116-126] HttpKvCacheInfo *)
Record HttpKvCacheInfo : Type := mkKvCacheInfo {
  cache_dtype : string;
  cache_page_size : N;
  cache_num_layers : N;
  cache_kv_heads : N;
  cache_head_dim : N;
  cache_kv_tensors_per_token : N;
  cache_bytes_per_token : N;
  cache_page_size_bytes : N;
}.

(** [sglang-srt/src/http.rs:74-86] HttpServerInfo *)
Record HttpServerInfo : Type := mkServerInfo {
  server_tp_size : N;
  server_dp_size : N;
  server_load_balance_method : string;
  server_max_running_requests : option N;
  server_max_prefill_tokens : option N;
  server_max_total_tokens : option N;
  server_disaggregation_mode : string;
  server_bootstrap_port : option N;
  enable_metrics : bool;
  kv_events : option HttpKvEventsInfo;
  kv_cache : option HttpKvCacheInfo;
}.

(** [sglang-srt/src/http.rs:88-104] HttpServerInfo::default *)
Definition HttpServerInfo_default : HttpServerInfo :=
  mkServerInfo 1 1 "round_robin" None None None "null" None false None None.

(** A mutex is its value and whether a holder panicked. *)
(** [sglang-srt/src/http.rs:45-55] HttpRouterService *)
Record HttpRouterService (R : Type) : Type := mkService {
  runtime : R;
  runtime_poisoned : bool;
  service_model_info : RouterGetModelInfoResponse;
  model_info_poisoned : bool;
  service_server_info : HttpServerInfo;
  additions : list Update;
  allow_disaggregated_requests : bool;
  max_transfer_polls : N;
}.
Arguments mkService {R}.
Arguments runtime {R}.
Arguments runtime_poisoned {R}.
Arguments service_model_info {R}.
Arguments model_info_poisoned {R}.
Arguments service_server_info {R}.
Arguments additions {R}.
Arguments allow_disaggregated_requests {R}.
Arguments max_transfer_polls {R}.

(** [sglang-srt/src/http.rs:129-141] HttpRouterService::new *)
Definition HttpRouterService_new {R} (rt : R) (info : RouterGetModelInfoResponse) : HttpRouterService R :=
  mkService rt false info false HttpServerInfo_default [] false 0.

(** [sglang-srt/src/http.rs:165-168] HttpRouterService::with_disaggregated_requests *)
Definition with_disaggregated_requests {R} (s : HttpRouterService R) : HttpRouterService R :=
  mkService (runtime s) (runtime_poisoned s) (service_model_info s) (model_info_poisoned s) (service_server_info s) (additions s) true (max_transfer_polls s).

(** [sglang-srt/src/http.rs:170-173] HttpRouterService::with_server_info *)
Definition with_server_info {R} (s : HttpRouterService R) (info : HttpServerInfo) : HttpRouterService R :=
  mkService (runtime s) (runtime_poisoned s) (service_model_info s) (model_info_poisoned s) info (additions s) (allow_disaggregated_requests s) (max_transfer_polls s).

(** [sglang-srt/src/http.rs:183-186] HttpRouterService::with_max_transfer_polls *)
Definition with_max_transfer_polls {R} (s : HttpRouterService R) (polls : N) : HttpRouterService R :=
  mkService (runtime s) (runtime_poisoned s) (service_model_info s) (model_info_poisoned s) (service_server_info s) (additions s) (allow_disaggregated_requests s) polls.

Definition set_runtime {R} (s : HttpRouterService R) (rt : R) : HttpRouterService R :=
  mkService rt (runtime_poisoned s) (service_model_info s) (model_info_poisoned s) (service_server_info s) (additions s) (allow_disaggregated_requests s) (max_transfer_polls s).
Definition poison_runtime {R} (s : HttpRouterService R) : HttpRouterService R :=
  mkService (runtime s) true (service_model_info s) (model_info_poisoned s) (service_server_info s) (additions s) (allow_disaggregated_requests s) (max_transfer_polls s).
Definition add_updates {R} (s : HttpRouterService R) (us : list Update) : HttpRouterService R :=
  mkService (runtime s) (runtime_poisoned s) (service_model_info s) (model_info_poisoned s) (service_server_info s) (additions s ++ us) (allow_disaggregated_requests s) (max_transfer_polls s).

(** [sglang-srt/src/http.rs:147-152] HttpRouterService::model_info_snapshot *)
Definition model_info_snapshot {R} (s : HttpRouterService R) : Result string RouterGetModelInfoResponse :=
  if model_info_poisoned s then Err "model info mutex poisoned"%string else Ok (service_model_info s).

(** [sglang-srt/src/http.rs:154-163] HttpRouterService::replace_model_info *)
Definition replace_model_info {R} (s : HttpRouterService R) (info : RouterGetModelInfoResponse) : Result string unit * HttpRouterService R :=
  if model_info_poisoned s then (Err "model info mutex poisoned"%string, s)
  else (Ok (), mkService (runtime s) (runtime_poisoned s) info false (service_server_info s) (additions s) (allow_disaggregated_requests s) (max_transfer_polls s)).

(** ** Calling the runtime *)

Section Handlers.
Context {R : Type} `{!HttpRuntime R}.
Context (json_text : Json → string) (json_error : Json → option string) (display_f32 : f32 → string) (join_error : string).

Implicit Types (s : HttpRouterService R) (micros : nat → N).

Definition timed micros (rs : list RouterGenerateResponse) : list (N * RouterGenerateResponse) := imap (λ i r, (micros i, r)) rs.

(** The closure of a handler that waits for its answer: it observes the request,
    runs it under the lock, and counts its end.  A panic, also of the lock's
    [expect], drops the observation and becomes the error of the task. *)
(** [sglang-srt/src/http.rs:1478-1486] blocking_inference_response *)
Definition blocking_inference_response {A} s micros (run : R → option (Result RouterRuntimeError A * R))
    (responses : A → list RouterGenerateResponse) (answer : Result RouterRuntimeError A → Response) : Response * HttpRouterService R :=
  let '(started, o) := observation_new in
  let failed := (internal_error_json ("HTTP inference task failed: " +:+ join_error),
                 poison_runtime (add_updates s (started ++ (drop_observation o (micros 0%nat)).1))) in
  if runtime_poisoned s then failed
  else
    match run (runtime s) with
    | None => failed
    | Some (res, rt) =>
        let rs := match res with Ok a => responses a | Err _ => [] end in
        let '(seen, o) := observe_responses o (timed micros rs) in
        let '(ended, o) := finish o (micros (length rs)) (is_Ok res) in
        (answer res, set_runtime (add_updates s (started ++ seen ++ ended ++ (drop_observation o (micros (length rs))).1)) rt)
    end.

(** Which of two calls is made depends on whether transfers are to be polled. *)
Definition polled {Q A} s (plain : R → Q → A) (polling : R → Q → N → A) (q : Q) (rt : R) : A :=
  if max_transfer_polls s =? 0 then plain rt q else polling rt q (max_transfer_polls s).

(** ** Streaming *)

(** The state of the closure a stream calls for each response, with the channel to
    the client: the frames it got and how many more it takes, if it leaves. *)
Record StreamState (E : Type) : Type := mkStream {
  encoder : E;
  delivered : list string;
  patience : option nat;
  observation : RequestObservation;
  stream_additions : list Update;
  observed : nat;
  connected : bool;
}.
#[global] Arguments mkStream {E}.
#[global] Arguments encoder {E}.
#[global] Arguments delivered {E}.
#[global] Arguments patience {E}.
#[global] Arguments observation {E}.
#[global] Arguments stream_additions {E}.
#[global] Arguments observed {E}.
#[global] Arguments connected {E}.

(** [sender.blocking_send(Ok(frame)).is_ok()]: it waits for room, and fails once the
    client is gone. *)
Definition blocking_send {E} (x : StreamState E) (frame : string) : bool * StreamState E :=
  match patience x with
  | Some O => (false, x)
  | p => (true, mkStream (encoder x) (delivered x ++ [frame]) (pred <$> p) (observation x) (stream_additions x) (observed x) (connected x))
  end.

(** [frames.into_iter().all(|frame| sender.blocking_send(Ok(frame)).is_ok())] *)
Fixpoint send_all {E} (x : StreamState E) (frames : list string) : bool * StreamState E :=
  match frames with
  | [] => (true, x)
  | frame :: frames => let '(sent, x) := blocking_send x frame in if sent then send_all x frames else (false, x)
  end.

(** [sglang-srt/src/http.rs:2187-2199] http_text_stream_response (send) *)
Definition stream_sink {E} (encode : E → RouterGenerateResponse → Result string (list string) * E) micros
    (x : StreamState E) (r : RouterGenerateResponse) : bool * StreamState E :=
  let '(us, o) := observe (observation x) (micros (observed x)) r in
  let '(frames, e) := encode (encoder x) r in
  let x := mkStream e (delivered x) (patience x) o (stream_additions x ++ us) (S (observed x)) (connected x) in
  let '(sent, x) := match frames with
                    | Ok frames => send_all x frames
                    | Err message => (false, (blocking_send x (sse_error_frame json_text message)).2)
                    end in
  (sent, mkStream (encoder x) (delivered x) (patience x) (observation x) (stream_additions x) (observed x) (connected x && sent)).

Definition stream_start {E} (e : E) (takes : option nat) : StreamState E :=
  let '(started, o) := observation_new in mkStream e [] takes o started 0 true.

Definition poisoned_error : RouterRuntimeError := RuntimeFailure (InvalidState "HTTP router runtime mutex poisoned").

(** The end of a stream: an error is told in a frame, then the stream is closed. *)
(** [sglang-srt/src/http.rs:2217-2221] http_text_stream_response (end) *)
Definition stream_end {E} micros (res : Result RouterRuntimeError unit) (x : StreamState E) : StreamState E :=
  let x := match res with
           | Err error => (blocking_send x (sse_error_frame json_text (RouterRuntimeError_to_string display_f32 error))).2
           | Ok _ => x
           end in
  let x := (blocking_send x done_frame).2 in
  let '(ended, o) := finish (observation x) (micros (observed x)) (is_Ok res && connected x) in
  let '(dropped, o) := drop_observation o (micros (observed x)) in
  mkStream (encoder x) (delivered x) (patience x) o (stream_additions x ++ ended ++ dropped) (observed x) (connected x).

(** The answer is a stream whatever the runtime says; [takes] is the number of frames
    after which the client leaves, if it does.  [None] is a panic in the task, which breaks the stream off. *)
(** [sglang-srt/src/http.rs:2169-2231] http_text_stream_response *)
Definition stream_response {E} s micros (takes : option nat) (encode : E → RouterGenerateResponse → Result string (list string) * E) (e : E)
    (run : (StreamState E → RouterGenerateResponse → bool * StreamState E) → StreamState E → R →
           option (Result RouterRuntimeError unit * StreamState E * R)) : option (Response * HttpRouterService R) :=
  '(res, x, rt) ←
    (if runtime_poisoned s then Some (Err poisoned_error, stream_start e takes, runtime s)
     else run (stream_sink encode micros) (stream_start e takes) (runtime s));
  let x := stream_end micros res x in
  Some (mkHttpResponse OK (StreamBody (delivered x)), set_runtime (add_updates s (stream_additions x)) rt).

(** An encoder without a state that makes one frame of each response. *)
Definition one_frame (frame : RouterGenerateResponse → Result string string) (u : unit) (r : RouterGenerateResponse)
    : Result string (list string) * unit :=
  (let? f := frame r in Ok [f], u).

Definition http_text_stream_response {E} s micros takes (q : RouterTextGenerateRequest)
    (encode : E → RouterGenerateResponse → Result string (list string) * E) (e : E) : option (Response * HttpRouterService R) :=
  stream_response s micros takes encode e
    (λ sink x rt, if max_transfer_polls s =? 0 then sink_text rt q sink x else sink_text_polling rt q (max_transfer_polls s) sink x).

(** [sglang-srt/src/http.rs:1762-1820] http_token_stream_response *)
Definition http_token_stream_response s micros takes (q : RouterGenerateRequest) : option (Response * HttpRouterService R) :=
  stream_response s micros takes (one_frame (generate_stream_frame json_text json_error)) ()
    (λ sink x rt, if max_transfer_polls s =? 0 then sink_tokens rt q sink x else sink_tokens_polling rt q (max_transfer_polls s) sink x).

(** ** Generation *)

Definition not_implemented (what : string) : Response :=
  mkHttpResponse NOT_IMPLEMENTED (JsonBody (error_json ("disaggregated HTTP " +:+ what +:+ " a PD transfer-enabled runtime"))).

Definition refused s (params : option RouterDisaggregatedParams) : bool :=
  bool_decide (is_Some params) && negb (allow_disaggregated_requests s).

(** [sglang-srt/src/http.rs:1488-1701] generate *)
Definition generate s micros takes (headers : RankHeader) (payload : Json) : option (Response * HttpRouterService R) :=
  match http_generate_payload_to_router_request_with_headers payload headers with
  | Err error => Some (bad_request_json error, s)
  | Ok request =>
      if refused s (generate_disaggregated_params request) then Some (not_implemented "generate requires", s)
      else if generate_stream_flag request then
        match request with
        | GenerateText q => http_text_stream_response s micros takes q (one_frame (generate_stream_frame json_text json_error)) ()
        | GenerateTokenized q => http_token_stream_response s micros takes q
        | GenerateBatchText _ | GenerateBatchTokenized _ =>
            Some (bad_request_json "streaming batched /generate is not supported yet", s)
        end
      else
        let answer {A} (f : A → Response) (res : Result RouterRuntimeError A) :=
          match res with Ok a => f a | Err error => router_runtime_error_json display_f32 error end in
        Some
          match request with
          | GenerateText q => blocking_inference_response s micros (polled s run_text run_text_polling q) id (answer generate_single_answer)
          | GenerateBatchText qs =>
              blocking_inference_response s micros (polled s run_text_batch run_text_batch_polling qs) (@List.concat RouterGenerateResponse) (answer generate_batch_answer)
          | GenerateTokenized q => blocking_inference_response s micros (polled s run_tokens run_tokens_polling q) id (answer generate_single_answer)
          | GenerateBatchTokenized qs =>
              blocking_inference_response s micros (polled s run_token_batch run_token_batch_polling qs) (@List.concat RouterGenerateResponse) (answer generate_batch_answer)
          end
  end.

(** What the answers of completions and chat share: every error of the runtime is a
    server error. *)
(** [sglang-srt/src/http.rs:2801-2805] completions (error) *)
Definition answer_or_500 {A} (f : A → Response) (res : Result RouterRuntimeError A) : Response :=
  match res with Ok a => f a | Err error => internal_error_json (RouterRuntimeError_to_string display_f32 error) end.

(** The part of [completions] and [chat_completions] after the body was read. *)
(** [sglang-srt/src/http.rs:2707-2808] completions (request) *)
Definition answer_request s micros takes (what : string) (batched_stream : string)
    (frame : RouterGenerateResponse → Result string string)
    (single : list RouterGenerateResponse → Response) (batch : list (list RouterGenerateResponse) → Response)
    (request : OneOrBatch RouterTextGenerateRequest) : option (Response * HttpRouterService R) :=
  if refused s (completion_disaggregated_params request) then Some (not_implemented what, s)
  else if completion_stream_flag request then
    match request with
    | OneRequest q => http_text_stream_response s micros takes q (one_frame frame) ()
    | BatchRequests _ => Some (bad_request_json batched_stream, s)
    end
  else
    Some
      match request with
      | OneRequest q => blocking_inference_response s micros (polled s run_text run_text_polling q) id (answer_or_500 single)
      | BatchRequests qs => blocking_inference_response s micros (polled s run_text_batch run_text_batch_polling qs) (@List.concat RouterGenerateResponse) (answer_or_500 batch)
      end.

(** [sglang-srt/src/http.rs:2681-2809] completions *)
Definition completions s micros takes (headers : RankHeader) (payload : Json) : option (Response * HttpRouterService R) :=
  match model_info_snapshot s with
  | Err message => Some (internal_error_json message, s)
  | Ok info =>
      let model := served_model_name info in
      match http_completion_payload_to_router_request_with_headers payload model headers with
      | Err error => Some (bad_request_json error, s)
      | Ok request =>
          answer_request s micros takes "completions require" "streaming batched /v1/completions is not supported yet"
            (completion_stream_frame json_text json_error model)
            (λ rs, http_completion_response_from_router_responses rs model)
            (λ batch, http_completion_batch_response_from_router_responses batch model) request
      end
  end.

(** [sglang-srt/src/http.rs:1853-2031] chat_completions *)
Definition chat_completions s micros takes (headers : RankHeader) (payload : Json) : option (Response * HttpRouterService R) :=
  match model_info_snapshot s with
  | Err message => Some (internal_error_json message, s)
  | Ok info =>
      let model := served_model_name info in
      match chat_template_input_from_payload payload with
      | Err error => Some (bad_request_json error, s)
      | Ok input =>
          if runtime_poisoned s then Some (internal_error_json "HTTP router runtime mutex poisoned", s)
          else
            match run_chat_template (runtime s) input with
            | Err error => Some (bad_request_json (TokenizerError_to_string error), s)
            | Ok prompt =>
                match http_chat_payload_to_router_request_with_headers payload model headers prompt with
                | Err error => Some (bad_request_json error, s)
                | Ok request =>
                    answer_request s micros takes "chat completions require" "streaming batched /v1/chat/completions is not supported yet"
                      (chat_stream_frame json_text json_error model)
                      (λ rs, chat_single_answer rs model)
                      (λ batch, http_chat_batch_response_from_router_responses batch model) request
                end
            end
      end
  end.

(** [sglang-srt/src/http.rs:2274-2342] responses *)
Definition responses s micros takes (clock : Z → N) (headers : RankHeader) (payload : Json) : option (Response * HttpRouterService R) :=
  match model_info_snapshot s with
  | Err message => Some (internal_error_json message, s)
  | Ok info =>
      let model := served_model_name info in
      match http_responses_payload_to_router_request_with_headers payload model headers with
      | Err error => Some (bad_request_json error, s)
      | Ok q =>
          let request := responses_request q in
          if refused s (t_disaggregated_params request) then Some (not_implemented "responses require", s)
          else if t_stream request then
            http_text_stream_response s micros takes request (encode_response json_text json_error clock)
              (ResponsesStreamEncoder_new (responses_model q))
          else
            Some (blocking_inference_response s micros (polled s run_text run_text_polling request) id
              (λ res, match res with
                      | Ok rs => http_responses_response_from_router_responses (clock 0%Z) rs (responses_model q)
                      | Err error => router_runtime_error_json display_f32 error
                      end))
      end
  end.

(** ** Control and information *)

Definition poisoned_response : Response := internal_error_json "router runtime mutex poisoned".

(** [sglang-srt/src/http.rs:341-346] health *)
Definition health : Response := mkHttpResponse OK (JsonBody (JObject [("healthy", JBool true); ("message", JString "ready")])%string).

Definition health_json (healthy : bool) (message : string) (rest : list (string * Json)) : Json :=
  JObject ([("healthy", JBool healthy); ("message", JString message)]%string ++ rest).

Definition health_probe : RouterGenerateRequest :=
  mkRouterGenerateRequest "" (Some (mkRouterTokenizedInput "" [0]))
    (Some (mkRouterSamplingParams (Some 1%Z) (Some f32_zero) None None None None None None None [] None None None)) None false 0%Z ∅.

(** [locked] says whether the mutex is held by another request. *)
(** [sglang-srt/src/http.rs:361-433] health_generate *)
Definition health_generate s (locked : bool) : option (Response * HttpRouterService R) :=
  if locked then Some (mkHttpResponse OK (JsonBody (health_json true "runtime is actively serving a request" [])), s)
  else if runtime_poisoned s
  then Some (mkHttpResponse SERVICE_UNAVAILABLE (JsonBody (health_json false "router runtime mutex poisoned" [])), s)
  else if allow_disaggregated_requests s then
    let l := run_load (runtime s) in
    Some (mkHttpResponse OK (JsonBody (health_json true "PD runtime control plane is ready"
      [("waiting_queue_depth", JUint (load_waiting_queue_depth l)); ("decode_queue_depth", JUint (load_decode_queue_depth l))]%string)), s)
  else
    '(res, rt) ← run_tokens (runtime s) health_probe;
    Some (match res with
          | Ok _ => health
          | Err error => mkHttpResponse SERVICE_UNAVAILABLE (JsonBody (health_json false (RouterRuntimeError_to_string display_f32 error) []))
          end, set_runtime s rt).

(** An endpoint about the model. *)
Definition with_model_info s (f : RouterGetModelInfoResponse → Json) : Response :=
  match model_info_snapshot s with
  | Err message => internal_error_json message
  | Ok info => mkHttpResponse OK (JsonBody (f info))
  end.

(** [sglang-srt/src/http.rs:435-454] list_models *)
Definition list_models s : Response :=
  with_model_info s (λ info, JObject [("object", JString "list");
    ("data", JArray [JObject [("id", JString (served_model_name info)); ("object", JString "model"); ("owned_by", JString "sglang-rs");
                              ("root", JString (info_model_path info))]])]%string).

(** [sglang-srt/src/http.rs:618-636] model_info_json *)
Definition model_info_json (info : RouterGetModelInfoResponse) : Json :=
  JObject [("model_path", JString (info_model_path info)); ("tokenizer_path", JString (info_tokenizer_path info));
           ("is_generation", JBool (is_generation info)); ("preferred_sampling_params", JString (preferred_sampling_params info));
           ("weight_version", JString (info_weight_version info)); ("has_image_understanding", JBool (supports_vision info));
           ("has_audio_understanding", JBool false); ("model_type", JString (info_model_type info));
           ("architectures", JStrings (info_architectures info)); ("max_context_length", JNumber (info_max_context_length info));
           ("vocab_size", JNumber (info_vocab_size info)); ("eos_token_ids", JArray (JNumber <$> info_eos_token_ids info));
           ("pad_token_id", JNumber (pad_token_id info)); ("bos_token_id", JNumber (bos_token_id info));
           ("max_req_input_len", JNumber (max_req_input_len info))]%string.

(** [sglang-srt/src/http.rs:606-616] model_info *)
Definition model_info s : Response := with_model_info s model_info_json.

Definition optional_field (key : string) (v : option Json) : list (string * Json) := match v with Some v => [(key, v)] | None => [] end.

(** [sglang-srt/src/http.rs:456-512] server_info *)
Definition server_info s : Response :=
  with_model_info s (λ info,
    let i := service_server_info s in
    JObject ([("served_model_name", JString (served_model_name info)); ("model_path", JString (info_model_path info));
              ("tp_size", JUint (server_tp_size i)); ("dp_size", JUint (server_dp_size i));
              ("load_balance_method", JString (server_load_balance_method i)); ("disaggregation_mode", JString (server_disaggregation_mode i));
              ("enable_metrics", JBool (enable_metrics i))]%string ++
      optional_field "max_running_requests" (JUint <$> server_max_running_requests i) ++
      optional_field "max_num_reqs" (JUint <$> server_max_running_requests i) ++
      optional_field "max_prefill_tokens" (JUint <$> server_max_prefill_tokens i) ++
      optional_field "max_total_tokens" (JUint <$> server_max_total_tokens i) ++
      optional_field "disaggregation_bootstrap_port" (JUint <$> server_bootstrap_port i) ++
      optional_field "kv_events" ((λ e, JObject
        [("publisher", JString (publisher e)); ("endpoint_host", JString (endpoint_host e)); ("endpoint_port_base", JUint (endpoint_port_base e));
         ("topic", JString (topic e)); ("block_size", JUint (kv_events_block_size e)); ("dp_size", JUint (kv_events_dp_size e))]%string) <$> kv_events i) ++
      optional_field "kv_cache" ((λ c, JObject
        [("dtype", JString (cache_dtype c)); ("page_size", JUint (cache_page_size c)); ("num_layers", JUint (cache_num_layers c));
         ("kv_heads", JUint (cache_kv_heads c)); ("head_dim", JUint (cache_head_dim c)); ("kv_tensors_per_token", JUint (cache_kv_tensors_per_token c));
         ("bytes_per_token", JUint (cache_bytes_per_token c)); ("page_size_bytes", JUint (cache_page_size_bytes c))]%string) <$> kv_cache i))).

Definition optional_json (v : option Json) : Json := default JNull v.

(** [sglang-srt/src/http.rs:638-676] loads *)
Definition loads s (now : N) : Response :=
  if runtime_poisoned s then poisoned_response
  else
    let l := run_load (runtime s) in
    let running := load_decode_queue_depth l in
    let waiting := load_waiting_queue_depth l in
    mkHttpResponse OK (JsonBody (JObject
      [("timestamp", JUint now); ("version", JString "0.1.0"); ("aggregate", JObject [("total_tokens", JUint (running + waiting))]);
       ("loads", JArray [JObject
          [("dp_rank", JUint 0); ("num_running_reqs", JUint running); ("num_waiting_reqs", JUint waiting); ("num_reqs", JUint (running + waiting));
           ("waiting_queue_depth", JUint (load_waiting_queue_depth l)); ("decode_queue_depth", JUint (load_decode_queue_depth l));
           ("available_cache_pages", optional_json (JUint <$> load_available_cache_pages l))]])]%string)).

(** [sglang-srt/src/http.rs:678-706] legacy_load *)
Definition legacy_load s : Response :=
  if runtime_poisoned s then poisoned_response
  else
    let l := run_load (runtime s) in
    mkHttpResponse OK (JsonBody (JArray [JObject
      [("dp_rank", JUint 0); ("num_reqs", JUint (load_decode_queue_depth l + load_waiting_queue_depth l));
       ("num_waiting_reqs", JUint (load_waiting_queue_depth l)); ("num_tokens", JUint 0); ("num_pending_tokens", JUint 0)]%string])).

(** [sglang-srt/src/http.rs:708-728] poll_transfers *)
Definition poll_transfers s : option (Response * HttpRouterService R) :=
  if runtime_poisoned s then Some (poisoned_response, s)
  else
    '(res, rt) ← run_poll_transfers (runtime s);
    Some (match res with
          | Err error => router_runtime_error_json display_f32 error
          | Ok p => mkHttpResponse OK (JsonBody (JObject
              [("completed_batches", JUint (poll_completed_batches p)); ("pending_batches", JUint (poll_pending_batches p));
               ("completed_descriptor_checksums", JStrings (poll_completed_checksums p));
               ("pending_descriptor_checksums", JStrings (poll_pending_checksums p))]%string))
          end, set_runtime s rt).

Definition flushed_message : string :=
  "Cache flushed." +:+ newline +:+
  "Please check backend logs for more details. (When there are running or waiting requests, the operation will not be performed.)" +:+ newline.

(** [sglang-srt/src/http.rs:730-760] flush_cache *)
Definition flush_cache s : Response * HttpRouterService R :=
  if runtime_poisoned s then (mkHttpResponse INTERNAL_SERVER_ERROR (TextBody "router runtime mutex poisoned"), s)
  else
    let '(r, rt) := run_flush_cache (runtime s) in
    (if success r then mkHttpResponse OK (TextBody flushed_message)
     else mkHttpResponse BAD_REQUEST (TextBody (if (message r =? "")%string then "Flush cache failed." +:+ newline else message r)),
     set_runtime s rt).

(** [Json(json!({ "success": ..., "message": ... }))] *)
Definition control_response (r : RouterControlResponse) : Response :=
  mkHttpResponse OK (JsonBody (JObject [("success", JBool (success r)); ("message", JString (message r))]%string)).

(** [sglang-srt/src/http.rs:762-777] pause_generation *)
Definition http_pause_generation s : Response * HttpRouterService R :=
  if runtime_poisoned s then (poisoned_response, s)
  else let '(r, rt) := run_pause (runtime s) in (control_response r, set_runtime s rt).

(** [sglang-srt/src/http.rs:779-794] continue_generation *)
Definition http_continue_generation s : Response * HttpRouterService R :=
  if runtime_poisoned s then (poisoned_response, s)
  else let '(r, rt) := run_continue (runtime s) in (control_response r, set_runtime s rt).

(** [rid], where it is there, hides [request_id] even if it is no string. *)
(** [sglang-srt/src/http.rs:796-839] abort_request *)
Definition abort_request s (payload : Json) : option (Response * HttpRouterService R) :=
  if default false (get_bool "abort_all" payload) then
    if runtime_poisoned s then Some (poisoned_response, s)
    else '(r, rt) ← run_abort_all (runtime s); Some (control_response r, set_runtime s rt)
  else
    let request_id := default "" (or_else (json_get "rid" payload) (json_get "request_id" payload) ≫= as_str) in
    if runtime_poisoned s then Some (poisoned_response, s)
    else
      '(res, rt) ← run_abort (runtime s) request_id;
      Some (match res with Ok r => control_response r | Err error => router_protocol_error_json display_f32 error end, set_runtime s rt).

(** [sglang-srt/src/http.rs:1006-1059] update_weight_version *)
Definition update_weight_version s (payload : Json) : option (Response * HttpRouterService R) :=
  match get_str "new_version" payload with
  | None | Some ""%string =>
      Some (mkHttpResponse BAD_REQUEST (JsonBody (JObject
        [("success", JBool false); ("message", JString "new_version is required and must be a non-empty string")]%string)), s)
  | Some new_version =>
      let update s :=
        match model_info_snapshot s with
        | Err message => (internal_error_json message, s)
        | Ok info =>
            let '(replaced, s) := replace_model_info s (set_weight_version info new_version) in
            (match replaced with
             | Err message => internal_error_json message
             | Ok _ => mkHttpResponse OK (JsonBody (JObject
                 [("success", JBool true); ("message", JString ("Weight version updated to " +:+ new_version)); ("new_version", JString new_version)]%string))
             end, s)
        end in
      if default true (get_bool "abort_all_requests" payload) then
        if runtime_poisoned s then Some (poisoned_response, s)
        else '(_, rt) ← run_abort_all (runtime s); Some (update (set_runtime s rt))
      else Some (update s)
  end.

(** ** Tokens *)

Definition prompt_type_error : string := "Invalid prompt type: expected string or list of strings.".

(** [sglang-srt/src/http.rs:1394-1420] parse_tokenize_prompt *)
Definition parse_tokenize_prompt (payload : Json) : Result string (OneOrBatch string) :=
  if Bool.eqb (has "prompt" payload) (has "messages" payload)
  then Err "Exactly one of 'prompt' or 'messages' must be provided."%string
  else if has "messages" payload then Err "messages tokenization requires chat template support"%string
  else
    match json_get "prompt" payload with
    | Some (JString prompt) => Ok (OneRequest prompt)
    | Some (JArray prompts) =>
        let? texts := try_all (λ p, ok_or (as_str p) prompt_type_error) prompts in Ok (BatchRequests texts)
    | _ => Err prompt_type_error
    end.

Definition tokens_type_error : string := "Invalid tokens type: expected list of integers or list of lists.".

(** [sglang-srt/src/http.rs:1449-1460] parse_token_id_list *)
Definition parse_token_id_list (items : list Json) : Result string (list N) :=
  try_all (λ item,
    let? id := ok_or (as_u64 item) "Invalid input: 'tokens' must be a list of integers."%string in
    u32_try_from "Invalid input: token id exceeds u32 range."%string id) items.

(** [sglang-srt/src/http.rs:1422-1447] parse_detokenize_tokens *)
Definition parse_detokenize_tokens (payload : Json) : Result string (OneOrBatch (list N)) :=
  let? tokens := ok_or (json_get "tokens" payload) "missing `tokens` field"%string in
  match tokens with
  | JArray [] => Ok (OneRequest [])
  | JArray (item :: items) =>
      if is_array item then
        let? batches := try_all (λ item, let? list := ok_or (as_array item) tokens_type_error in parse_token_id_list list) (item :: items) in
        Ok (BatchRequests batches)
      else let? ids := parse_token_id_list (item :: items) in Ok (OneRequest ids)
  | _ => Err tokens_type_error
  end.

(** [sglang-srt/src/http.rs:1143-1204] tokenize *)
Definition http_tokenize s (payload : Json) : Response :=
  match parse_tokenize_prompt payload with
  | Err message => bad_request_json message
  | Ok prompt =>
      match model_info_snapshot s with
      | Err message => internal_error_json message
      | Ok info =>
          let max_model_len := if (0 <? info_max_context_length info)%Z then info_max_context_length info else (-1)%Z in
          if runtime_poisoned s then poisoned_response
          else
            let '(tokens, count) :=
              match prompt with
              | OneRequest prompt => let ids := run_tokenize (runtime s) prompt in (JUints ids, JUint (len ids))
              | BatchRequests prompts =>
                  let batches := run_tokenize (runtime s) <$> prompts in (JArray (JUints <$> batches), JUints (len <$> batches))
              end in
            mkHttpResponse OK (JsonBody (JObject [("tokens", tokens); ("count", count); ("max_model_len", JNumber max_model_len)]%string))
      end
  end.

Definition decoding_error (error : TokenizerError) : Response :=
  bad_request_json ("Error decoding tokens: " +:+ TokenizerError_to_string error +:+ ". Input tokens might be invalid for the model.").

(** [sglang-srt/src/http.rs:1206-1254] detokenize *)
Definition http_detokenize s (payload : Json) : Response :=
  match parse_detokenize_tokens payload with
  | Err message => bad_request_json message
  | Ok tokens =>
      if runtime_poisoned s then poisoned_response
      else
        let text :=
          match tokens with
          | OneRequest ids => let? text := run_detokenize (runtime s) ids in Ok (JString text)
          | BatchRequests batches => let? texts := try_all (run_detokenize (runtime s)) batches in Ok (JStrings texts)
          end in
        match text with
        | Ok text => mkHttpResponse OK (JsonBody (JObject [("text", text)]%string))
        | Err error => decoding_error error
        end
  end.

(** The server's end: it leaves the runtime shut down. *)
(** [sglang-srt/src/http.rs:326-338] serve_http_router_with_shutdown (shutdown) *)
Definition serve_shutdown s : option (Result string unit * HttpRouterService R) :=
  if runtime_poisoned s then Some (Err "runtime mutex poisoned"%string, s)
  else
    '(res, rt) ← run_shutdown (runtime s);
    Some (match res with Ok _ => Ok () | Err error => Err (RouterRuntimeError_to_string display_f32 error) end, set_runtime s rt).

End Handlers.

(** ** Sinks *)

(** A runtime does not look into the state of a sink: two sinks in step see the same
    stream and leave the same runtime. *)
Class OpaqueSinks (R : Type) `{!HttpRuntime R} : Prop := {
  sink_text_same {C1 C2} (Q : C1 → C2 → Prop) (rt : R) q sink1 sink2 x1 x2 : in_step Q sink1 sink2 → Q x1 x2 →
    same_run Q (sink_text rt q sink1 x1) (sink_text rt q sink2 x2);
  sink_text_polling_same {C1 C2} (Q : C1 → C2 → Prop) (rt : R) q polls sink1 sink2 x1 x2 : in_step Q sink1 sink2 → Q x1 x2 →
    same_run Q (sink_text_polling rt q polls sink1 x1) (sink_text_polling rt q polls sink2 x2);
  sink_tokens_same {C1 C2} (Q : C1 → C2 → Prop) (rt : R) q sink1 sink2 x1 x2 : in_step Q sink1 sink2 → Q x1 x2 →
    same_run Q (sink_tokens rt q sink1 x1) (sink_tokens rt q sink2 x2);
  sink_tokens_polling_same {C1 C2} (Q : C1 → C2 → Prop) (rt : R) q polls sink1 sink2 x1 x2 : in_step Q sink1 sink2 → Q x1 x2 →
    same_run Q (sink_tokens_polling rt q polls sink1 x1) (sink_tokens_polling rt q polls sink2 x2);
}.

Section Opaque.
Context {T W D P : Type} `{!Tokenizer Json T} `{!WorkerExecutor W} `{!WeightUpdates W} `{!FallibleModelWorker D} `{!KvStateEventPublisher P}.
Context (sha256 : list N → list N) (turn : nat → bool → DpSystem D P → DpSystem D P) (fresh : nat → string) (fuel : nat).

#[global] Instance router_opaque_sinks : @OpaqueSinks (RouterRuntime T W D P) (router_http_runtime sha256 turn fresh fuel).
Proof.
  split; intros; cbn [sink_text sink_text_polling sink_tokens sink_tokens_polling router_http_runtime].
  - by apply (text_stream_same sha256 turn Q fresh fuel rt q 0).
  - by apply (text_stream_same sha256 turn Q fresh fuel rt q (N.to_nat polls)).
  - by apply (token_stream_same sha256 turn Q fresh fuel rt q 0).
  - by apply (token_stream_same sha256 turn Q fresh fuel rt q (N.to_nat polls)).
Qed.

End Opaque.

(** One of the streams of a runtime, as the streaming handlers run it. *)
Definition opaque_run {R X} (run : ∀ C, (C → X → bool * C) → C → R → option (Result RouterRuntimeError unit * C * R)) : Prop :=
  ∀ C1 C2 (Q : C1 → C2 → Prop) sink1 sink2 x1 x2 rt, in_step Q sink1 sink2 → Q x1 x2 → same_run Q (run C1 sink1 x1 rt) (run C2 sink2 x2 rt).

Definition text_run {R} `{!HttpRuntime R} (s : HttpRouterService R) (q : RouterTextGenerateRequest)
    {C} (sink : C → RouterGenerateResponse → bool * C) (x : C) (rt : R) : option (Result RouterRuntimeError unit * C * R) :=
  if max_transfer_polls s =? 0 then sink_text rt q sink x else sink_text_polling rt q (max_transfer_polls s) sink x.
Definition token_run {R} `{!HttpRuntime R} (s : HttpRouterService R) (q : RouterGenerateRequest)
    {C} (sink : C → RouterGenerateResponse → bool * C) (x : C) (rt : R) : option (Result RouterRuntimeError unit * C * R) :=
  if max_transfer_polls s =? 0 then sink_tokens rt q sink x else sink_tokens_polling rt q (max_transfer_polls s) sink x.

Lemma text_run_opaque {R} `{!HttpRuntime R, !OpaqueSinks R} (s : HttpRouterService R) q : opaque_run (λ C, text_run s q (C := C)).
Proof. intros C1 C2 Q sink1 sink2 x1 x2 rt Hstep HQ. unfold text_run. destruct (_ =? 0); [by apply sink_text_same|by apply sink_text_polling_same]. Qed.
Lemma token_run_opaque {R} `{!HttpRuntime R, !OpaqueSinks R} (s : HttpRouterService R) q : opaque_run (λ C, token_run s q (C := C)).
Proof. intros C1 C2 Q sink1 sink2 x1 x2 rt Hstep HQ. unfold token_run. destruct (_ =? 0); [by apply sink_tokens_same|by apply sink_tokens_polling_same]. Qed.

(** What the sink keeps, the run keeps. *)
Lemma opaque_run_keeps {R X C} (run : ∀ C, (C → X → bool * C) → C → R → option (Result RouterRuntimeError unit * C * R)) (I : C → Prop)
    (sink : C → X → bool * C) x rt res x' rt' :
  opaque_run run → (∀ x r, I x → I (sink x r).2) → I x → run C sink x rt = Some (res, x', rt') → I x'.
Proof.
  intros Hrun Hsink Hx Heq. pose proof (Hrun C C (λ a b, a = b ∧ I a) sink sink x x rt) as H. rewrite Heq in H.
  destruct H as (_&_&_&HI); [|done|exact HI].
  intros x1 x2 o [-> HI]. destruct (sink x2 o) as [v x3] eqn:Hs. exists v, x3, x3. split; [done|]. split; [done|]. split; [done|].
  specialize (Hsink x2 o HI). by rewrite Hs in Hsink.
Qed.

(** ** Every request is accounted for *)

Section Accounting.
Context {R : Type} `{!HttpRuntime R}.
Context (json_text : Json → string) (json_error : Json → option string) (display_f32 : f32 → string) (join_error : string).

Implicit Types (s : HttpRouterService R) (micros : nat → N).

(** A sink that also notes what it was offered, and whether it never refused. *)
Definition noting {C} (sink : C → RouterGenerateResponse → bool * C) (x : C * (list RouterGenerateResponse * bool)) (r : RouterGenerateResponse)
    : bool * (C * (list RouterGenerateResponse * bool)) :=
  let '(sent, c) := sink x.1 r in (sent, (c, (x.2.1 ++ [r], x.2.2 && sent))).

Definition given {A} (responses : A → list RouterGenerateResponse) (res : Result RouterRuntimeError A) : list RouterGenerateResponse :=
  match res with Ok a => responses a | Err _ => [] end.

(** What the body of a generating endpoint asks the runtime to do. *)
Inductive Work : Type :=
  | TextWork (q : RouterTextGenerateRequest)
  | TextBatchWork (qs : list RouterTextGenerateRequest)
  | TokenWork (q : RouterGenerateRequest)
  | TokenBatchWork (qs : list RouterGenerateRequest)
  | TextStreamWork {E} (encode : E → RouterGenerateResponse → Result string (list string) * E) (e : E) (q : RouterTextGenerateRequest)
  | TokenStreamWork (q : RouterGenerateRequest).

Definition generate_work s (headers : RankHeader) (payload : Json) : option Work :=
  match http_generate_payload_to_router_request_with_headers payload headers with
  | Err _ => None
  | Ok request =>
      if refused s (generate_disaggregated_params request) then None
      else match request, generate_stream_flag request with
           | GenerateText q, true => Some (TextStreamWork (one_frame (generate_stream_frame json_text json_error)) () q)
           | GenerateTokenized q, true => Some (TokenStreamWork q)
           | _, true => None
           | GenerateText q, false => Some (TextWork q)
           | GenerateBatchText qs, false => Some (TextBatchWork qs)
           | GenerateTokenized q, false => Some (TokenWork q)
           | GenerateBatchTokenized qs, false => Some (TokenBatchWork qs)
           end
  end.

Definition answer_work s (frame : RouterGenerateResponse → Result string string) (request : OneOrBatch RouterTextGenerateRequest) : option Work :=
  if refused s (completion_disaggregated_params request) then None
  else match request, completion_stream_flag request with
       | OneRequest q, true => Some (TextStreamWork (one_frame frame) () q)
       | BatchRequests _, true => None
       | OneRequest q, false => Some (TextWork q)
       | BatchRequests qs, false => Some (TextBatchWork qs)
       end.

Definition completions_work s (headers : RankHeader) (payload : Json) : option Work :=
  match model_info_snapshot s with
  | Err _ => None
  | Ok info =>
      match http_completion_payload_to_router_request_with_headers payload (served_model_name info) headers with
      | Err _ => None
      | Ok request => answer_work s (completion_stream_frame json_text json_error (served_model_name info)) request
      end
  end.

Definition chat_work s (headers : RankHeader) (payload : Json) : option Work :=
  match model_info_snapshot s, chat_template_input_from_payload payload with
  | Ok info, Ok input =>
      if runtime_poisoned s then None
      else match run_chat_template (runtime s) input with
           | Err _ => None
           | Ok prompt =>
               match http_chat_payload_to_router_request_with_headers payload (served_model_name info) headers prompt with
               | Err _ => None
               | Ok request => answer_work s (chat_stream_frame json_text json_error (served_model_name info)) request
               end
           end
  | _, _ => None
  end.

Definition responses_work s (clock : Z → N) (headers : RankHeader) (payload : Json) : option Work :=
  match model_info_snapshot s with
  | Err _ => None
  | Ok info =>
      match http_responses_payload_to_router_request_with_headers payload (served_model_name info) headers with
      | Err _ => None
      | Ok q =>
          if refused s (t_disaggregated_params (responses_request q)) then None
          else if t_stream (responses_request q)
               then Some (TextStreamWork (encode_response json_text json_error clock) (ResponsesStreamEncoder_new (responses_model q)) (responses_request q))
               else Some (TextWork (responses_request q))
      end
  end.

(** The run of the runtime for a piece of work, for a client who leaves after [takes]
    frames: whether it ended well with every frame taken, the responses it gave, the
    runtime it left. *)
Inductive ran s micros (takes : option nat) : Work → bool → list RouterGenerateResponse → R → Prop :=
  | ran_text q res rt : polled s run_text run_text_polling q (runtime s) = Some (res, rt) →
      ran s micros takes (TextWork q) (is_Ok res) (given id res) rt
  | ran_text_batch qs res rt : polled s run_text_batch run_text_batch_polling qs (runtime s) = Some (res, rt) →
      ran s micros takes (TextBatchWork qs) (is_Ok res) (given (@List.concat RouterGenerateResponse) res) rt
  | ran_tokens q res rt : polled s run_tokens run_tokens_polling q (runtime s) = Some (res, rt) →
      ran s micros takes (TokenWork q) (is_Ok res) (given id res) rt
  | ran_token_batch qs res rt : polled s run_token_batch run_token_batch_polling qs (runtime s) = Some (res, rt) →
      ran s micros takes (TokenBatchWork qs) (is_Ok res) (given (@List.concat RouterGenerateResponse) res) rt
  | ran_text_stream {E} (encode : E → RouterGenerateResponse → Result string (list string) * E) e q res x rs kept rt :
      text_run s q (noting (stream_sink json_text encode micros)) (stream_start e takes, ([], true)) (runtime s) = Some (res, (x, (rs, kept)), rt) →
      ran s micros takes (TextStreamWork encode e q) (is_Ok res && kept) rs rt
  | ran_token_stream q res x rs kept rt :
      token_run s q (noting (stream_sink json_text (one_frame (generate_stream_frame json_text json_error)) micros))
        (stream_start () takes, ([], true)) (runtime s) = Some (res, (x, (rs, kept)), rt) →
      ran s micros takes (TokenStreamWork q) (is_Ok res && kept) rs rt.

(** What a call that asks for [work] is in the books: nothing, if the body was turned
    away; one request with the responses and the success of its run; one that failed,
    as the runtime's mutex was or is now poisoned. *)
Inductive happened s micros (takes : option nat) s' : option Work → option Lifetime → Prop :=
  | happened_nothing : runtime s' = runtime s → runtime_poisoned s' = runtime_poisoned s → happened s micros takes s' None None
  | happened_run w ok rs : runtime_poisoned s = false → runtime_poisoned s' = false → ran s micros takes w ok rs (runtime s') →
      happened s micros takes s' (Some w) (Some (mkLifetime (timed micros rs) (Some ok) (micros (length rs))))
  | happened_locked_out w l : runtime_poisoned s = true → runtime s' = runtime s → life_responses l = [] → succeeded l = false →
      happened s micros takes s' (Some w) (Some l)
  | happened_panic w l : runtime_poisoned s = false → runtime_poisoned s' = true → runtime s' = runtime s →
      life_responses l = [] → succeeded l = false → happened s micros takes s' (Some w) (Some l).

Definition booked s micros (takes : option nat) (work : option Work) s' : Prop :=
  ∃ o, happened s micros takes s' work o ∧ additions s' = additions s ++ match o with Some l => lifetime_updates l | None => [] end.

Lemma unchanged_booked s micros takes (r : Response) r' s' : Some (r, s) = Some (r', s') → booked s micros takes None s'.
Proof. intros [= _ <-]. exists None. split; [by constructor|by rewrite app_nil_r]. Qed.

Lemma lifetime_of_blocking rs outcome t :
  lifetime_updates (mkLifetime rs (Some outcome) t) =
  observation_new.1 ++ (observe_responses observation_new.2 rs).1 ++ (finish (observe_responses observation_new.2 rs).2 t outcome).1 ++
  (drop_observation (finish (observe_responses observation_new.2 rs).2 t outcome).2 t).1.
Proof.
  unfold lifetime_updates. cbn [observation_new fst snd life_responses life_outcome life_end].
  destruct (observe_responses _ rs) as [seen o]. cbn [fst snd]. by destruct (finish o t outcome) as [ended o']; cbn [fst snd]; destruct (drop_observation o' t).
Qed.

Lemma blocking_booked {A} s micros takes w run (responses : A → list RouterGenerateResponse) answer r s' :
  (∀ res rt, run (runtime s) = Some (res, rt) → ran s micros takes w (is_Ok res) (given responses res) rt) →
  Some (blocking_inference_response join_error s micros run responses answer) = Some (r, s') → booked s micros takes (Some w) s'.
Proof.
  intros Hrun [= H]. unfold blocking_inference_response in H. cbn [observation_new] in H.
  set (failed := poison_runtime (add_updates s _)) in H.
  assert (additions failed = additions s ++ lifetime_updates (mkLifetime [] None (micros 0%nat))) as Hfail by reflexivity.
  destruct (runtime_poisoned s) eqn:Hp.
  { injection H as _ <-. exists (Some (mkLifetime [] None (micros 0%nat))). split; [by apply happened_locked_out|done]. }
  destruct (run (runtime s)) as [[res rt]|] eqn:Heq.
  2: { injection H as _ <-. exists (Some (mkLifetime [] None (micros 0%nat))). split; [by apply happened_panic|done]. }
  change (match res with Ok a => responses a | Err _ => [] end) with (given responses res) in H. set (rs := given responses res) in *.
  pose proof (lifetime_of_blocking (timed micros rs) (is_Ok res) (micros (length rs))) as Hl. cbn [observation_new fst snd] in Hl.
  destruct (observe_responses _ (timed micros rs)) as [seen o]. cbn [fst snd] in Hl.
  destruct (finish o _ (is_Ok res)) as [ended o'] eqn:Hend. cbn [fst snd] in Hl.
  destruct (drop_observation o' _) as [dropped o''] eqn:Hdrop. injection H as _ <-.
  eexists (Some _). split; [eapply (happened_run _ _ _ _ w (is_Ok res) rs); [done|exact Hp|by apply Hrun]|]. cbn [additions set_runtime add_updates].
  by rewrite Hl.
Qed.

(** What the closure of a stream has observed. *)
Definition watched {E} micros (rs : list RouterGenerateResponse) (x : StreamState E) : Prop :=
  observed x = length rs ∧ observation x = (observe_responses observation_new.2 (timed micros rs)).2 ∧
    stream_additions x = observation_new.1 ++ (observe_responses observation_new.2 (timed micros rs)).1.

Lemma observe_responses_snoc rs : ∀ o t r,
  observe_responses o (rs ++ [(t, r)]) =
  ((observe_responses o rs).1 ++ (observe (observe_responses o rs).2 t r).1, (observe (observe_responses o rs).2 t r).2).
Proof.
  induction rs as [|[t0 r0] rs IH]; intros o t r; cbn [app observe_responses].
  - cbn [fst snd]. destruct (observe o t r) as [us o']. cbn [fst snd]. by rewrite app_nil_r.
  - destruct (observe o t0 r0) as [us o']. rewrite IH. destruct (observe_responses o' rs) as [us' o'']. cbn [fst snd]. by rewrite app_assoc.
Qed.

Lemma timed_snoc micros rs r : timed micros (rs ++ [r]) = timed micros rs ++ [(micros (length rs), r)].
Proof. unfold timed. rewrite imap_app. cbn. by rewrite Nat.add_0_r. Qed.

Lemma send_all_fields {E} frames : ∀ x : StreamState E,
  observation (send_all x frames).2 = observation x ∧ stream_additions (send_all x frames).2 = stream_additions x ∧
  observed (send_all x frames).2 = observed x ∧ connected (send_all x frames).2 = connected x.
Proof.
  induction frames as [|f frames IH]; intros x; [done|]. cbn [send_all]. unfold blocking_send.
  destruct (patience x) as [[|n]|]; [done|..]; cbn iota beta;
    match goal with |- context [send_all ?y frames] => destruct (IH y) as (->&->&->&->) end; done.
Qed.

Lemma send_fields {E} (x : StreamState E) frame :
  observation (blocking_send x frame).2 = observation x ∧ stream_additions (blocking_send x frame).2 = stream_additions x ∧
  observed (blocking_send x frame).2 = observed x ∧ connected (blocking_send x frame).2 = connected x.
Proof. unfold blocking_send. by destruct (patience x) as [[]|]. Qed.

Lemma stream_sink_watched {E} encode micros rs (x : StreamState E) r : watched micros rs x →
  let '(sent, x') := stream_sink json_text encode micros x r in
  watched micros (rs ++ [r]) x' ∧ connected x' = (connected x && sent)%bool.
Proof.
  intros (Hn&Ho&Ha). unfold stream_sink.
  destruct (observe (observation x) (micros (observed x)) r) as [us o] eqn:Hobs. destruct (encode (encoder x) r) as [frames e].
  set (x1 := mkStream _ _ _ _ _ _ _).
  assert (∀ y : bool * StreamState E, observation y.2 = o → stream_additions y.2 = stream_additions x ++ us → observed y.2 = S (length rs) →
    connected y.2 = connected x →
    let '(sent, z) := (let '(sent, x) := y in
      (sent, mkStream (encoder x) (delivered x) (patience x) (observation x) (stream_additions x) (observed x) (connected x && sent))) in
    watched micros (rs ++ [r]) z ∧ connected z = (connected x && sent)%bool) as Hz.
  { intros [sent y] H1 H2 H3 H4. cbn in *. split; [|by rewrite H4]. unfold watched. cbn. rewrite H1, H2, H3, timed_snoc, observe_responses_snoc, <- Ho. cbn [fst snd].
    rewrite Hn in Hobs. rewrite Hobs. cbn [fst snd].
    split; [rewrite length_app; cbn; lia|]. split; [done|]. by rewrite Ha. }
  apply Hz; destruct frames as [fs|m];
    first [by apply (send_all_fields fs x1)|by apply (send_fields x1)
          |etrans; [by apply (send_all_fields fs x1)|cbn; congruence]|etrans; [by apply (send_fields x1)|cbn; congruence]].
Qed.

Lemma noting_in_step {E} encode micros :
  in_step (λ (x : StreamState E) y, y.1 = x ∧ watched micros y.2.1 x ∧ connected x = y.2.2)
    (stream_sink json_text encode micros) (noting (stream_sink json_text encode micros)).
Proof.
  intros x [y [rs kept]] r (Hy&Hw&Hc). cbn [fst snd] in *. subst y. unfold noting. cbn [fst snd].
  pose proof (stream_sink_watched encode micros rs x r Hw) as H. destruct (stream_sink json_text encode micros x r) as [sent x'].
  destruct H as [Hw' Hc']. exists sent, x', (x', (rs ++ [r], (kept && sent)%bool)). cbn. by rewrite Hc', Hc.
Qed.

Lemma stream_end_watched {E} micros rs res (x : StreamState E) : watched micros rs x →
  stream_additions (stream_end json_text display_f32 micros res x) =
    lifetime_updates (mkLifetime (timed micros rs) (Some (is_Ok res && connected x)%bool) (micros (length rs))).
Proof.
  intros (Hn&Ho&Ha). unfold stream_end.
  set (x1 := match res with Err error => _ | Ok _ => x end).
  assert (observation x1 = observation x ∧ stream_additions x1 = stream_additions x ∧ observed x1 = observed x ∧ connected x1 = connected x)
    as (Ho1&Ha1&Hn1&Hc1) by (subst x1; destruct res as [|error]; [done|apply send_fields]).
  destruct (send_fields x1 done_frame) as (Ho2&Ha2&Hn2&Hc2). set (x2 := (blocking_send x1 done_frame).2) in *.
  rewrite lifetime_of_blocking, <- Ho, app_assoc, <- Ha, Hc2, Hc1, Ho2, Ho1, Hn2, Hn1, Hn.
  destruct (finish (observation x) _ _) as [ended o] eqn:Hend. cbn [fst snd]. destruct (drop_observation o _) as [dropped o'] eqn:Hd. cbn.
  by rewrite Ha2, Ha1.
Qed.

Lemma stream_response_booked {E} s micros takes w encode (e : E)
    (run : ∀ C, (C → RouterGenerateResponse → bool * C) → C → R → option (Result RouterRuntimeError unit * C * R)) r s' :
  opaque_run run →
  (∀ res x rs kept rt, run _ (noting (stream_sink json_text encode micros)) (stream_start e takes, ([], true)) (runtime s) = Some (res, (x, (rs, kept)), rt) →
     ran s micros takes w (is_Ok res && kept) rs rt) →
  stream_response json_text display_f32 s micros takes encode e (run _) = Some (r, s') → booked s micros takes (Some w) s'.
Proof.
  intros Hrun Hran. unfold stream_response.
  assert (watched micros [] (stream_start e takes)) as Hstart by done.
  destruct (runtime_poisoned s) eqn:Hp.
  { cbn [mbind option_bind]. intros [= _ <-].
    exists (Some (mkLifetime (timed micros []) (Some (is_Ok (Err (A := unit) poisoned_error) && connected (stream_start e takes))%bool) (micros 0%nat))).
    split; [by apply happened_locked_out|]. cbn [additions set_runtime add_updates]. by rewrite (stream_end_watched micros [] _ _ Hstart). }
  pose proof (Hrun _ _ _ _ _ (stream_start e takes) (stream_start e takes, ([], true)) (runtime s) (noting_in_step encode micros)) as Hsame.
  destruct (run _ (stream_sink json_text encode micros) _ _) as [[[res x] rt]|]; cbn [mbind option_bind]; [|done]. intros [= _ <-].
  destruct (run _ (noting _) _ _) as [[[res' [x' [rs kept]]] rt']|] eqn:Hnoted; [|by destruct Hsame].
  destruct Hsame as (<-&<-&_&Hw&Hc); [done|]. cbn [fst snd] in *.
  eexists (Some _). split; [eapply (happened_run _ _ _ _ w (is_Ok res && kept) rs); [done|exact Hp|by eapply Hran]|].
  cbn [additions set_runtime add_updates]. by rewrite (stream_end_watched micros rs _ _ Hw), Hc.
Qed.

Context {Opaque : OpaqueSinks R}.

Lemma text_stream_booked {E} s micros takes q encode (e : E) r s' :
  http_text_stream_response json_text display_f32 s micros takes q encode e = Some (r, s') →
  booked s micros takes (Some (TextStreamWork encode e q)) s'.
Proof.
  apply (stream_response_booked s micros takes _ encode e (λ C, text_run s q (C := C)) r s' (text_run_opaque s q)). intros. by eapply ran_text_stream.
Qed.

Lemma token_stream_booked s micros takes q r s' :
  http_token_stream_response json_text json_error display_f32 s micros takes q = Some (r, s') → booked s micros takes (Some (TokenStreamWork q)) s'.
Proof.
  apply (stream_response_booked s micros takes _ _ () (λ C, token_run s q (C := C)) r s' (token_run_opaque s q)). intros. by eapply ran_token_stream.
Qed.

(** The lemma for what the handler does next. *)
Ltac book H :=
  lazymatch type of H with
  | Some (_, _) = _ => by apply (unchanged_booked _ _ _ _ _ _ H)
  | http_text_stream_response _ _ _ _ _ _ _ _ = _ => by apply text_stream_booked in H
  | http_token_stream_response _ _ _ _ _ _ _ = _ => by apply token_stream_booked in H
  | Some (blocking_inference_response _ _ _ _ _ _) = _ => refine (blocking_booked _ _ _ _ _ _ _ _ _ _ H); intros; by constructor
  end.

Lemma answer_request_booked s micros takes what batched frame single batch q r s' :
  answer_request json_text display_f32 join_error s micros takes what batched frame single batch q = Some (r, s') →
  booked s micros takes (answer_work s frame q) s'.
Proof.
  unfold answer_request, answer_work. destruct (refused _ _); intros H; [book H|].
  destruct q as [q|qs], (completion_stream_flag _); book H.
Qed.

(** A call of a generating endpoint by a client who leaves after [takes] frames: what
    its body asks for, and the answer; [None] is a panic in the task of a stream. *)
Inductive generating s micros (takes : option nat) : option Work → option (Response * HttpRouterService R) → Prop :=
  | gen_generate headers payload :
      generating s micros takes (generate_work s headers payload)
        (generate json_text json_error display_f32 join_error s micros takes headers payload)
  | gen_completions headers payload :
      generating s micros takes (completions_work s headers payload)
        (completions json_text json_error display_f32 join_error s micros takes headers payload)
  | gen_chat headers payload :
      generating s micros takes (chat_work s headers payload)
        (chat_completions json_text json_error display_f32 join_error s micros takes headers payload)
  | gen_responses clock headers payload :
      generating s micros takes (responses_work s clock headers payload)
        (responses json_text json_error display_f32 join_error s micros takes clock headers payload).

(** The other endpoints that may change the state; [None] is a panic under the lock. *)
Inductive controlling s : option (Response * HttpRouterService R) → Prop :=
  | ctl_poll : controlling s (poll_transfers display_f32 s)
  | ctl_flush : controlling s (Some (flush_cache s))
  | ctl_pause : controlling s (Some (http_pause_generation s))
  | ctl_continue : controlling s (Some (http_continue_generation s))
  | ctl_abort payload : controlling s (abort_request display_f32 s payload)
  | ctl_weight_version payload : controlling s (update_weight_version s payload)
  | ctl_health locked : controlling s (health_generate display_f32 s locked).

(** A call of an endpoint, which may panic.  A panic in the task of a stream poisons the
    mutex and drops the observation with whatever it had seen. *)
Inductive http_request : HttpRouterService R → HttpRouterService R → Prop :=
  | call_generating s micros takes work r s' : generating s micros takes work (Some (r, s')) → http_request s s'
  | call_stream_panics s micros takes work rs t : generating s micros takes work None → runtime_poisoned s = false →
      http_request s (poison_runtime (add_updates s (lifetime_updates (mkLifetime rs None t))))
  | call_controlling s r s' : controlling s (Some (r, s')) → http_request s s'
  | call_control_panics s : controlling s None → http_request s (poison_runtime s).

Lemma generating_booked s micros takes work r s' : generating s micros takes work (Some (r, s')) → booked s micros takes work s'.
Proof.
  intros Hg. remember (Some (r, s')) as res eqn:H. destruct Hg as [headers payload|headers payload|headers payload|clock headers payload].
  - unfold generate in H. unfold generate_work. destruct (http_generate_payload_to_router_request_with_headers payload headers) as [q|]; [|book H].
    destruct (refused _ _); [book H|]. destruct q, (generate_stream_flag _); book H.
  - unfold completions in H. unfold completions_work. destruct (model_info_snapshot s); [|book H].
    destruct (http_completion_payload_to_router_request_with_headers _ _ _); [by apply answer_request_booked in H|book H].
  - unfold chat_completions in H. unfold chat_work. destruct (model_info_snapshot s); [|book H].
    destruct (chat_template_input_from_payload payload); [|book H].
    destruct (runtime_poisoned s); [book H|]. destruct (run_chat_template _ _); [|book H].
    destruct (http_chat_payload_to_router_request_with_headers _ _ _ _); [by apply answer_request_booked in H|book H].
  - unfold responses in H. unfold responses_work. destruct (model_info_snapshot s); [|book H].
    destruct (http_responses_payload_to_router_request_with_headers _ _ _) as [q|]; [|book H]. cbn zeta in H.
    destruct (refused _ _); [book H|]. destruct (t_stream _); book H.
Qed.

Lemma controlling_adds_nothing s r s' : controlling s (Some (r, s')) → additions s' = additions s.
Proof.
  intros Hc. remember (Some (r, s')) as res eqn:H. destruct Hc as [| | | |payload|payload|locked].
  - unfold poll_transfers in H. destruct (runtime_poisoned s); [by simplify_eq|].
    destruct (run_poll_transfers _) as [[]|]; [|done]. by injection H as _ <-.
  - unfold flush_cache in H. destruct (runtime_poisoned s); [by simplify_eq|]. destruct (run_flush_cache _). by injection H as _ <-.
  - unfold http_pause_generation in H. destruct (runtime_poisoned s); [by simplify_eq|]. destruct (run_pause _). by injection H as _ <-.
  - unfold http_continue_generation in H. destruct (runtime_poisoned s); [by simplify_eq|]. destruct (run_continue _). by injection H as _ <-.
  - unfold abort_request in H. destruct (default false _); destruct (runtime_poisoned s); try by simplify_eq.
    + destruct (run_abort_all _) as [[]|]; [|done]. by injection H as _ <-.
    + destruct (run_abort _ _) as [[]|]; [|done]. by injection H as _ <-.
  - unfold update_weight_version in H. destruct (get_str "new_version" payload) as [v|]; [|by simplify_eq].
    assert (∀ s0, (match model_info_snapshot s0 with
        | Err message => (internal_error_json message, s0)
        | Ok info => let '(replaced, s1) := replace_model_info s0 (set_weight_version info v) in
            (match replaced with
             | Err message => internal_error_json message
             | Ok _ => mkHttpResponse OK (JsonBody (JObject
                 [("success", JBool true); ("message", JString ("Weight version updated to " +:+ v)); ("new_version", JString v)]%string))
             end, s1) end).2.(additions) = additions s0) as Hup.
    { intros s0. unfold model_info_snapshot, replace_model_info. by destruct (model_info_poisoned s0). }
    destruct v as [|c v]; [by simplify_eq|]. destruct (default true _).
    + destruct (runtime_poisoned s); [by simplify_eq|]. destruct (run_abort_all _) as [[x rt]|]; [|done]. cbn [mbind option_bind] in H.
      specialize (Hup (set_runtime s rt)). injection H as H. rewrite H in Hup. exact Hup.
    + specialize (Hup s). injection H as H. rewrite H in Hup. exact Hup.
  - unfold health_generate in H. destruct locked; [by simplify_eq|]. destruct (runtime_poisoned s); [by simplify_eq|].
    destruct (allow_disaggregated_requests s); [by simplify_eq|]. destruct (run_tokens _ _) as [[]|]; [|done].
    by injection H as _ <-.
Qed.

(** The requests of a history of calls: each call of a generating endpoint is entered as
    what happened in it, the others are not entered. *)
Inductive http_history (s0 : HttpRouterService R) : list Lifetime → HttpRouterService R → Prop :=
  | history_start : http_history s0 [] s0
  | history_generating ls s micros takes work r s' o :
      http_history s0 ls s → generating s micros takes work (Some (r, s')) → happened s micros takes s' work o →
      http_history s0 (ls ++ option_list o) s'
  | history_stream_panics ls s micros takes work rs t :
      http_history s0 ls s → generating s micros takes work None → runtime_poisoned s = false →
      http_history s0 (ls ++ [mkLifetime rs None t]) (poison_runtime (add_updates s (lifetime_updates (mkLifetime rs None t))))
  | history_controlling ls s r s' : http_history s0 ls s → controlling s (Some (r, s')) → http_history s0 ls s'
  | history_control_panics ls s : http_history s0 ls s → controlling s None → http_history s0 ls (poison_runtime s).

(** C6. Between requests the metrics tell the truth, whatever endpoints were called and
    however the calls ended: refused, answered, failed, with a client gone, or in a
    panic.  Every counter is the account of the same list of requests, one for each
    call of a generating endpoint whose body asks the runtime for work and none for any
    other: its responses are those the run of that work gave, and it counts as failed
    exactly if that run failed, the client refused a frame, or the mutex was or became
    poisoned.  None of them is in flight. *)
Theorem http_metrics_account rt info s : rtc http_request (HttpRouterService_new rt info) s →
  ∃ ls, http_history (HttpRouterService_new rt info) ls s ∧
    (∀ c, updates (additions s) ServingMetrics_default c = account ls [] c mod u64_modulus) ∧
    updates (additions s) ServingMetrics_default requests_in_flight = 0.
Proof.
  intros Hreach. set (s0 := HttpRouterService_new rt info) in *.
  assert (∃ ls, http_history s0 ls s ∧ additions s = concat (lifetime_updates <$> ls)) as (ls&Hh&Hls).
  { apply (rtc_ind_r (R := http_request) (λ s, ∃ ls, http_history s0 ls s ∧ additions s = concat (lifetime_updates <$> ls)) s0); [|clear Hreach|exact Hreach].
    { exists []. split; [constructor|done]. }
    intros s1 s2 _ Hstep (ls&Hh&Hls). destruct Hstep as [s1 micros takes work r s2 Hg|s1 micros takes work rs t Hg Hp|s1 r s2 Hc|s1 Hc].
    - destruct (generating_booked s1 micros takes work r s2 Hg) as (o&Ho&Hadd). exists (ls ++ option_list o). split; [by eapply history_generating|].
      rewrite Hadd, Hls, fmap_app, concat_app. destruct o; cbn; by rewrite ?app_nil_r.
    - exists (ls ++ [mkLifetime rs None t]). split; [by eapply history_stream_panics|]. cbn [additions poison_runtime add_updates].
      by rewrite Hls, fmap_app, concat_app; cbn; rewrite app_nil_r.
    - exists ls. split; [by eapply history_controlling|]. by rewrite (controlling_adds_nothing _ _ _ Hc).
    - exists ls. split; [by apply history_control_panics|done]. }
  exists ls. split; [done|].
  assert (∀ c, updates (additions s) ServingMetrics_default c = account ls [] c mod u64_modulus) as Hc; [|split; [done|by rewrite Hc]].
  intros c. rewrite Hls. apply metrics_accounted. cbn [fmap list_fmap]. by rewrite app_nil_r.
Qed.

End Accounting.

(** ** What a stream shows *)

Section Shown.
Context {R : Type} `{!HttpRuntime R} `{!OpaqueSinks R}.
Context (json_text : Json → string) (json_error : Json → option string) (display_f32 : f32 → string).

Implicit Types (s : HttpRouterService R) (micros : nat → N).

(** An encoder that does not fail, as a function. *)
Definition encodes {E} (encode : E → RouterGenerateResponse → Result string (list string) * E)
    (frames : E → RouterGenerateResponse → list string * E) : Prop := ∀ e r, encode e r = (Ok (frames e r).1, (frames e r).2).

Fixpoint all_frames {E} (frames : E → RouterGenerateResponse → list string * E) (e : E) (rs : list RouterGenerateResponse) : list string * E :=
  match rs with
  | [] => ([], e)
  | r :: rs => let '(fs, e) := frames e r in let '(fs', e) := all_frames frames e rs in (fs ++ fs', e)
  end.

Lemma all_frames_snoc {E} (frames : E → RouterGenerateResponse → list string * E) rs : ∀ e r,
  all_frames frames e (rs ++ [r]) =
  ((all_frames frames e rs).1 ++ (frames (all_frames frames e rs).2 r).1, (frames (all_frames frames e rs).2 r).2).
Proof.
  induction rs as [|r0 rs IH]; intros e r; cbn [app all_frames].
  - cbn [fst snd]. destruct (frames e r). cbn [fst snd app]. by rewrite app_nil_r.
  - destruct (frames e r0) as [fs e']. rewrite IH. destruct (all_frames frames e' rs) as [fs' e'']. cbn [fst snd]. by rewrite app_assoc.
Qed.

Lemma send_all_stays {E} fs : ∀ x : StreamState E, patience x = None →
  send_all x fs = (true, mkStream (encoder x) (delivered x ++ fs) None (observation x) (stream_additions x) (observed x) (connected x)).
Proof.
  induction fs as [|f fs IH]; intros x Hp; cbn [send_all].
  - rewrite app_nil_r, <- Hp. by destruct x.
  - unfold blocking_send. rewrite Hp. cbn iota beta. rewrite IH by (by cbn). cbn [encoder delivered observation stream_additions observed connected].
    by rewrite <- app_assoc.
Qed.

(** The stream of a client that stays, next to the responses collected. *)
Definition shows {E} micros (frames : E → RouterGenerateResponse → list string * E) (e : E)
    (rs : list RouterGenerateResponse) (x : StreamState E) : Prop :=
  patience x = None ∧ connected x = true ∧ delivered x = (all_frames frames e rs).1 ∧ encoder x = (all_frames frames e rs).2 ∧
  observed x = length rs ∧ observation x = (observe_responses observation_new.2 (timed micros rs)).2 ∧
  stream_additions x = observation_new.1 ++ (observe_responses observation_new.2 (timed micros rs)).1.

Lemma shows_in_step {E} micros (encode : E → RouterGenerateResponse → Result string (list string) * E) frames e :
  encodes encode frames → in_step (shows micros frames e) push_sink (stream_sink json_text encode micros).
Proof.
  intros Henc rs x r (Hp&Hc&Hd&He&Hn&Ho&Ha). exists true, (rs ++ [r]). unfold stream_sink, push_sink.
  destruct (observe (observation x) (micros (observed x)) r) as [us o] eqn:Hobs. rewrite Henc. rewrite send_all_stays by done. cbn iota beta.
  eexists. split; [done|]. split; [done|]. unfold shows. cbn [patience connected delivered encoder observed observation stream_additions].
  rewrite all_frames_snoc, timed_snoc, observe_responses_snoc, length_app, Hc, Hd, He, Hn, Ha. cbn [fst snd length].
  rewrite Ho, Hn in Hobs. rewrite Hobs. cbn [fst snd]. rewrite Nat.add_1_r, app_assoc. done.
Qed.

Definition error_frames (res : Result RouterRuntimeError unit) : list string :=
  match res with Err error => [sse_error_frame json_text (RouterRuntimeError_to_string display_f32 error)] | Ok _ => [] end.

(** To a client that stays a stream shows the frames of the responses the runtime
    gives, then the error if there is one, then its end. *)
Lemma stream_response_shows {E} s micros (encode : E → RouterGenerateResponse → Result string (list string) * E) frames e
    (run : ∀ C, (C → RouterGenerateResponse → bool * C) → C → R → option (Result RouterRuntimeError unit * C * R)) res rs rt :
  opaque_run run → encodes encode frames → runtime_poisoned s = false →
  run _ push_sink [] (runtime s) = Some (res, rs, rt) →
  stream_response json_text display_f32 s micros None encode e (run _) =
    Some (mkHttpResponse OK (StreamBody ((all_frames frames e rs).1 ++ error_frames res ++ [done_frame])),
          set_runtime (add_updates s (lifetime_updates (mkLifetime (timed micros rs) (Some (is_Ok res)) (micros (length rs))))) rt).
Proof.
  intros Hrun Henc Hpoison Heq. unfold stream_response. rewrite Hpoison.
  pose proof (Hrun _ _ (shows micros frames e) push_sink (stream_sink json_text encode micros) [] (stream_start e None) (runtime s)
    (shows_in_step micros encode frames e Henc)) as Hsame. rewrite Heq in Hsame.
  destruct (run _ (stream_sink json_text encode micros) _ _) as [[[res' x] rt']|].
  2: { exfalso. by apply Hsame. }
  destruct Hsame as (<-&<-&Hp&Hc&Hd&He&Hn&Ho&Ha); [done|]. cbn [mbind option_bind]. f_equal.
  assert (∀ y : StreamState E, patience y = None → ∀ f, (blocking_send y f).2 =
    mkStream (encoder y) (delivered y ++ [f]) None (observation y) (stream_additions y) (observed y) (connected y)) as Hsend.
  { intros y Hy f. unfold blocking_send. by rewrite Hy. }
  unfold stream_end.
  assert (match res with Err error => (blocking_send x (sse_error_frame json_text (RouterRuntimeError_to_string display_f32 error))).2 | Ok _ => x end =
    mkStream (encoder x) (delivered x ++ error_frames res) None (observation x) (stream_additions x) (observed x) (connected x)) as ->.
  { destruct res as [u|error]; [|by rewrite Hsend]. cbn [error_frames]. rewrite app_nil_r, <- Hp. by destruct x. }
  rewrite Hsend by done. cbn [encoder delivered observation stream_additions observed connected].
  rewrite Hc, andb_true_r, Hd, Hn, lifetime_of_blocking, <- Ho, (app_assoc observation_new.1), <- Ha.
  destruct (finish (observation x) _ _) as [ended o] eqn:Hend. cbn [fst snd].
  destruct (drop_observation o _) as [dropped o'] eqn:Hd'. cbn [fst snd delivered stream_additions]. by rewrite <- !app_assoc.
Qed.

End Shown.

(** ** From the body to the stream *)

Section EndToEnd.
Context {T W D P : Type} `{!Tokenizer Json T} `{!WorkerExecutor W} `{!WeightUpdates W} `{!FallibleModelWorker D} `{!KvStateEventPublisher P}.
Context (sha256 : list N → list N) (turn : nat → bool → DpSystem D P → DpSystem D P) (fresh : nat → string) (fuel : nat).
Context (json_text : Json → string) (display_f32 : f32 → string) (join_error : string).

#[local] Existing Instance router_http_runtime.
#[local] Existing Instance router_opaque_sinks.

(** The frame of a response in the stream of [/v1/completions]. *)
Definition completion_frame (model : string) (r : RouterGenerateResponse) : string := data_frame (json_text (completion_stream_payload model r)).

(** C5. A streamed completion, from the body to the last frame, for a client that reads
    to the end (JSON values always have a text): over an idle engine the body of
    [/v1/completions] that asks for a stream is answered with a frame for each response
    of the runtime, an error frame if the run fails, and the end mark.  If it does not
    fail the responses are the chunks of one completion and that completion, whose text
    its tokens decode to, while the chunks' texts are what the tokenizer's stream
    decoder gives for the same tokens.  The runtime is left sound, the request gone
    from it unless its KV was not ready or the worker refuses to finish requests, and
    the metrics have counted it as one request that succeeded or failed. *)
Theorem completion_streamed (s : HttpRouterService (RouterRuntime T W D P)) micros headers payload e q p stream tq :
  model_info_poisoned s = false → runtime_poisoned s = false →
  http_completion_payload_to_router_request_with_headers payload (served_model_name (service_model_info s)) headers = Ok (OneRequest q) →
  t_stream q = true → (t_disaggregated_params q = None ∨ allow_disaggregated_requests s = true) →
  runtime_engine (runtime s) = Single e → t_text q ≠ ""%string →
  admit_request (fresh 0%nat) (runtime s) (tokenized_request (runtime s) q true) = Ok (p, stream, tq) →
  worker_generates (W := W) →
  scheduler_wf (engine_scheduler e) → Scheduler.waiting_queue (engine_scheduler e) = [] → Scheduler.decode_queue (engine_scheduler e) = [] →
  len (token_input_ids tq) + max_new_tokens (token_sampling tq) + 1 < N.of_nat fuel →
  ∃ res rs rt' e',
    completions (HttpRuntime0 := router_http_runtime sha256 turn fresh fuel) json_text never_fails display_f32 join_error s micros None headers payload =
      Some (mkHttpResponse OK (StreamBody ((completion_frame (served_model_name (service_model_info s)) <$> rs) ++
                                           error_frames json_text display_f32 res ++ [done_frame])),
            set_runtime (add_updates s (lifetime_updates (mkLifetime (timed micros rs) (Some (is_Ok res)) (micros (length rs))))) rt') ∧
    runtime_engine rt' = Single e' ∧ scheduler_wf (engine_scheduler e') ∧
    (is_Ok res = true → answered_in_text (runtime_tokenizer (runtime s)) (token_request_id tq) rs) ∧
    left_queued (token_request_id tq) res e'.
Proof.
  intros Hinfo Hpoison Hbody Hstream Hallowed Heng Htext Hadmit Hgen Wf Hw Hd Hfuel.
  destruct (text_request_answer sha256 turn fresh fuel (runtime s) e q (N.to_nat (max_transfer_polls s)) p stream tq)
    as (res&rs&rt'&e'&Hrun&He'&Wf'&Hres); try done.
  exists res, rs, rt', e'. split; [|done].
  unfold completions, model_info_snapshot. rewrite Hinfo. cbn iota. rewrite Hbody. unfold answer_request, refused.
  assert (bool_decide (is_Some (completion_disaggregated_params (OneRequest q))) && negb (allow_disaggregated_requests s) = false)%bool as ->.
  { cbn [completion_disaggregated_params]. destruct Hallowed as [->| ->]; [done|]. apply andb_false_r. }
  cbn [completion_stream_flag]. rewrite Hstream. unfold http_text_stream_response.
  set (frame := completion_frame (served_model_name (service_model_info s))).
  replace (frame <$> rs) with (all_frames (λ (u : unit) r, ([frame r], u)) () rs).1.
  2: { clear. induction rs as [|r rs IH]; [done|]. cbn [all_frames fmap list_fmap]. rewrite <- IH. by destruct (all_frames _ () rs). }
  apply (stream_response_shows json_text display_f32 s micros (one_frame (completion_stream_frame json_text never_fails _)) _ ()
    (λ C, text_run s q (C := C))); try done.
  - apply text_run_opaque.
  - unfold text_run. destruct (N.eqb_spec (max_transfer_polls s) 0) as [H0|_]; [|exact Hrun].
    cbn [sink_text router_http_runtime]. rewrite plain_text_stream_polls_nothing. by rewrite H0 in Hrun.
Qed.

End EndToEnd.

(** ** Witnesses *)

Definition demo_service : HttpRouterService (RouterRuntime ByteTokenizer EchoWorker unit RecordingKvStateEventPublisher) :=
  HttpRouterService_new echo_runtime (blank_model_info "/m" "/m" "default" "m").

Definition demo_body : Json :=
  JObject [("model", JString "m"); ("prompt", JString "hi"); ("max_tokens", JUint 3); ("stream", JBool true); ("stop_token_ids", JArray [JUint 8])]%string.

Section Demo.
#[local] Existing Instance router_http_runtime.
#[local] Existing Instance router_opaque_sinks.

Definition demo_answer : option (Response * HttpRouterService (RouterRuntime ByteTokenizer EchoWorker unit RecordingKvStateEventPublisher)) :=
  completions (HttpRuntime0 := router_http_runtime toy_sha256 (λ _ _ (y : DpSystem unit RecordingKvStateEventPublisher), y) (λ _, "fresh"%string) 7)
    (λ _, "{}"%string) never_fails (λ _, "1"%string) "join"%string demo_service (λ n, N.of_nat n) None None demo_body.

Definition demo_after : HttpRouterService (RouterRuntime ByteTokenizer EchoWorker unit RecordingKvStateEventPublisher) :=
  match demo_answer with Some (_, s) => s | None => demo_service end.

Definition demo_request_params : RouterTextGenerateRequest :=
  mkRouterTextGenerateRequest "" "hi"
    (Some (mkRouterSamplingParams (Some 3%Z) None None None None None None None None [8%Z] None None None)) None true 0%Z ∅.

Definition demo_tokens : TokenGenerateRequest :=
  mkTokenGenerateRequest "fresh" [104; 105] (mkSamplingParams 3 None None None None None None None [7; 8; 9] false) None 0.

Lemma http_metrics_account_witness :
  ∃ ls, (∀ c, updates (additions demo_after) ServingMetrics_default c = account ls [] c mod u64_modulus) ∧
    updates (additions demo_after) ServingMetrics_default requests_in_flight = 0.
Proof.
  destruct (http_metrics_account (HttpRuntime0 := router_http_runtime toy_sha256 (λ _ _ (y : DpSystem unit RecordingKvStateEventPublisher), y) (λ _, "fresh"%string) 7)
    (λ _, "{}"%string) never_fails (λ _, "1"%string) "join"%string echo_runtime (blank_model_info "/m" "/m" "default" "m") demo_after)
    as (ls&_&H); [|by exists ls].
  eapply rtc_l; [|apply rtc_refl]. eapply call_generating.
  assert (demo_answer = Some (match demo_answer with Some (r, _) => r | None => poisoned_response end, demo_after)) as <- by (vm_compute; reflexivity).
  apply (gen_completions _ never_fails _ _ demo_service (λ n, N.of_nat n) None None demo_body).
Defined.

Lemma completion_streamed_witness :
  ∃ res rs rt' e',
    demo_answer =
      Some (mkHttpResponse OK (StreamBody ((completion_frame (λ _, "{}"%string) "m" <$> rs) ++
                                           error_frames (λ _, "{}"%string) (λ _, "1"%string) res ++ [done_frame])),
            set_runtime (add_updates demo_service (lifetime_updates (mkLifetime (timed (λ n, N.of_nat n) rs) (Some (is_Ok res)) (N.of_nat (length rs))))) rt') ∧
    runtime_engine rt' = Single e' ∧ scheduler_wf (engine_scheduler e') ∧
    (is_Ok res = true → answered_in_text (V := Json) ByteTokenizer_new "fresh" rs) ∧ left_queued "fresh" res e'.
Proof.
  apply (completion_streamed toy_sha256 (λ _ _ (y : DpSystem unit RecordingKvStateEventPublisher), y) (λ _, "fresh"%string) 7
           (λ _, "{}"%string) (λ _, "1"%string) "join"%string demo_service (λ n, N.of_nat n) None demo_body
           (mkEngine ByteTokenizer_new (echo_engine None [])) demo_request_params 2%Z true demo_tokens).
  1-2: done.
  - by vm_compute.
  - done.
  - by left.
  - done.
  - done.
  - by vm_compute.
  - apply echo_generates.
  - apply echo_engine_wf.
  - done.
  - done.
  - by vm_compute.
Defined.

(** The run of the witness succeeds: three chunks, a completion and the end mark. *)
Example demo_streams :
  match demo_answer with
  | Some (r, _) => match content r with StreamBody fs => length fs = 5%nat | _ => False end
  | None => False
  end.
Proof. by vm_compute. Qed.

End Demo.
