(* ===== verification/OpenAi.v ===== *)
(** * Embeddings, classes, scores and ranks ([crates/sglang-srt/src/openai/])

    The endpoints that do not generate: their bodies, their results, and the HTTP
    handlers.  The runtime has no model for them: a list of tokens is hashed into a
    vector, and documents are ranked by the tokens they share with the query.  The
    exponentials of [f32] and [f64] are parameters, and so is the clock. *)

From Stdlib Require Import SpecFloat Sorted.
From stdpp Require Import pretty sorting.
From S2P Require Import Prelude Float32 Text Tokenizer RouterProtocol RouterRuntime Safetensors JsonValue HttpPayload HttpReplies HttpService ServingMetrics ModelInfo.
#[local] Open Scope N_scope.

(** ** White space *)

(** The white space of Unicode, in one, two or three bytes. *)
Definition white1 (a : N) : bool := (9 <=? a) && (a <=? 13) || (a =? 32).
Definition white2 (a b : N) : bool := (a =? 194) && ((b =? 133) || (b =? 160)).
Definition white3 (a b c : N) : bool :=
  (a =? 225) && (b =? 154) && (c =? 128) ||
  (a =? 226) && (b =? 128) && ((128 <=? c) && (c <=? 138) || (c =? 168) || (c =? 169) || (c =? 175)) ||
  (a =? 226) && (b =? 129) && (c =? 159) || (a =? 227) && (b =? 128) && (c =? 128).

(** Without the white space at its start. *)
Fixpoint trim_start_bytes (l : list N) : list N :=
  match l with
  | [] => []
  | a :: l1 =>
      if white1 a then trim_start_bytes l1
      else match l1 with
           | b :: l2 =>
               if white2 a b then trim_start_bytes l2
               else match l2 with c :: l3 => if white3 a b c then trim_start_bytes l3 else l | [] => l end
           | [] => l
           end
  end.

(** [text.trim().is_empty()] *)
Definition is_blank (s : string) : bool := match trim_start_bytes (text_bytes s) with [] => true | _ => false end.

Fixpoint skip_chars (n : nat) (s : string) : string :=
  match n, s with O, _ => s | S n, String _ s => skip_chars n s | S _, EmptyString => EmptyString end.
Fixpoint trim_end (s : string) : string :=
  if is_blank s then EmptyString else match s with String c s => String c (trim_end s) | EmptyString => EmptyString end.

(** [str::trim] *)
Definition trim (s : string) : string :=
  trim_end (skip_chars (length (text_bytes s) - length (trim_start_bytes (text_bytes s))) s).

(** ** Tokens as vectors *)

(** [sglang-srt/src/openai/embedding.rs:226-232] splitmix64 *)
Definition splitmix64 (value : N) : N :=
  let value := (value + 11400714819323198485) mod 2 ^ 64 in
  let z := value in
  let z := (N.lxor z (N.shiftr z 30) * 13787848793156543929) mod 2 ^ 64 in
  let z := (N.lxor z (N.shiftr z 27) * 10723151780598845931) mod 2 ^ 64 in
  N.lxor z (N.shiftr z 31).

Definition f32_add (x y : f32) : f32 := SFadd f32_prec f32_emax x y.
Definition f32_sub (x y : f32) : f32 := SFsub f32_prec f32_emax x y.
Definition f32_sqrt (x : f32) : f32 := SFsqrt f32_prec f32_emax x.
Definition f32_opp (x : f32) : f32 := SFopp x.
(** [0.001_f32], and the start of [Iterator::sum]. *)
Definition f32_milli : f32 := S754_finite false 8589935 (-33).
Definition f32_sum (l : list f32) : f32 := foldl f32_add (S754_zero true) l.

(** What a token adds, and where. *)
(** [sglang-srt/src/openai/embedding.rs:205-211] token_ids_to_embedding (loop) *)
Definition add_token (dimensions : N) (embedding : list f32) (position token_id : N) : list f32 :=
  let hash := splitmix64 (N.lxor token_id (N.shiftl position 32 mod 2 ^ 64)) in
  let index := N.to_nat (hash mod dimensions) in
  let magnitude := f32_add (f32_div (f32_of_usize ((N.shiftr hash 16 mod 2 ^ 32) mod 997)) (f32_of_usize 997)) f32_milli in
  let signed := if N.shiftr hash 63 =? 0 then magnitude else f32_opp magnitude in
  alter (λ value, f32_add value signed) index embedding.

Definition normalized (embedding : list f32) : list f32 :=
  let norm := f32_sqrt (f32_sum ((λ value, f32_mul value value) <$> embedding)) in
  if f32_lt f32_zero norm then (λ value, f32_div value norm) <$> embedding else embedding.

(** [dimensions] is not zero. *)
(** [sglang-srt/src/openai/embedding.rs:203-224] token_ids_to_embedding *)
Definition token_ids_to_embedding (token_ids : list N) (dimensions : N) : list f32 :=
  normalized (foldl (λ embedding p, add_token dimensions embedding p.1 p.2)
                (replicate (N.to_nat dimensions) f32_zero) (imap (λ i id, (N.of_nat i, id)) token_ids)).

Lemma embedding_length token_ids dimensions : length (token_ids_to_embedding token_ids dimensions) = N.to_nat dimensions.
Proof.
  unfold token_ids_to_embedding, normalized. assert (∀ ps embedding, length (foldl (λ e p, add_token dimensions e p.1 p.2) embedding ps) = length embedding) as H.
  { induction ps as [|p ps IH]; intros e; [done|]. cbn. rewrite IH. unfold add_token. by rewrite length_alter. }
  case_match; rewrite ?length_fmap, H; apply length_replicate.
Qed.

(** ** Inputs *)

(** A text or tokens. *)
(** [sglang-srt/src/openai/embedding.rs:17-21] EmbeddingInput *)
Inductive Input : Type :=
  | InputText (text : string)
  | InputTokens (token_ids : list N).

Fixpoint try_indexed {A B E} (f : N → A → Result E B) (i : N) (l : list A) : Result E (list B) :=
  match l with
  | [] => Ok []
  | a :: l => let? b := f i a in let? bs := try_indexed f (i + 1) l in Ok (b :: bs)
  end.

Definition as_u64 (v : Json) : option N := match v with JUint n => Some n | _ => None end.

(** The model a request names is the one that is served. *)
(** [sglang-srt/src/openai/embedding.rs:78-86] parse_embedding_request (model) *)
Definition parse_model (payload : Json) (served_model_name : string) : Result string string :=
  let? model := ok_or (get_str "model" payload) "missing model"%string in
  if (model =? served_model_name)%string then Ok model
  else Err ("model " +:+ model +:+ " is not served by this worker (" +:+ served_model_name +:+ ")").

(** [sglang-srt/src/openai/embedding.rs:196-201] validate_non_empty_text *)
Definition validate_non_empty_text (text field : string) : Result string unit :=
  if is_blank text then Err (field +:+ " cannot be empty or whitespace only") else Ok ().

(** [sglang-srt/src/openai/embedding.rs:160-174] parse_token_ids *)
Definition parse_token_ids (items : list Json) : Result string (list N) :=
  match items with
  | [] => Err "Token ID input cannot be empty"%string
  | _ =>
      try_indexed (λ index value,
        let? raw := ok_or (as_u64 value) "All items in token ID input must be integers"%string in
        u32_try_from ("Token ID at index " +:+ pretty index +:+ " exceeds u32 range") raw) 0 items
  end.

Definition input_at_index (index : N) : string := "Input at index " +:+ pretty index +:+ " cannot be empty or whitespace only".

(** The text of a value that was checked to be one. *)
Definition checked_str (v : Json) : string := default ""%string (as_str v).
Definition checked_array (v : Json) : list Json := default [] (as_array v).

(** [sglang-srt/src/openai/embedding.rs:121-158] parse_embedding_input_array *)
Definition parse_embedding_input_array (items : list Json) : Result string (list Input) :=
  match items with
  | [] => Err "Input cannot be empty"%string
  | _ =>
      if forallb is_string items then
        try_indexed (λ index value,
          let text := checked_str value in
          let? _ := validate_non_empty_text text "Input" in
          if is_blank text then Err (input_at_index index) else Ok (InputText text)) 0 items
      else if forallb is_u64 items then let? ids := parse_token_ids items in Ok [InputTokens ids]
      else if forallb is_array items then
        try_all (λ value, let? ids := parse_token_ids (checked_array value) in Ok (InputTokens ids)) items
      else Err "input list must contain only strings, integers, or token id arrays"%string
  end.

(** [sglang-srt/src/openai/embedding.rs:108-119] parse_embedding_inputs *)
Definition parse_embedding_inputs (value : Json) : Result string (list Input) :=
  match value with
  | JString text => let? _ := validate_non_empty_text text "Input" in Ok [InputText text]
  | JArray items => parse_embedding_input_array items
  | _ => Err "input must be a string, list of strings, token ids, or token id batches"%string
  end.

Definition DEFAULT_EMBEDDING_DIMENSIONS : N := 8.
Definition MAX_EMBEDDING_DIMENSIONS : N := 4096.

(** [sglang-srt/src/openai/embedding.rs:176-194] parse_dimensions *)
Definition parse_dimensions (payload : Json) : Result string N :=
  match json_get "dimensions" payload with
  | None => Ok DEFAULT_EMBEDDING_DIMENSIONS
  | Some value =>
      let? dimensions := ok_or (as_u64 value) "dimensions must be a positive integer"%string in
      if dimensions =? 0 then Err "dimensions must be at least 1"%string
      else if MAX_EMBEDDING_DIMENSIONS <? dimensions then Err ("dimensions must not exceed " +:+ pretty MAX_EMBEDDING_DIMENSIONS)
      else Ok dimensions
  end.

(** [sglang-srt/src/openai/embedding.rs:10-15] OpenAiEmbeddingRequest *)
Record OpenAiEmbeddingRequest : Type := mkEmbeddingRequest {
  embedding_model : string;
  embedding_inputs : list Input;
  embedding_dimensions : N;
}.

(** [sglang-srt/src/openai/embedding.rs:74-106] parse_embedding_request *)
Definition parse_embedding_request (payload : Json) (served_model_name : string) : Result string OpenAiEmbeddingRequest :=
  let? model := parse_model payload served_model_name in
  let? input := ok_or (json_get "input" payload) "missing input"%string in
  let? inputs := parse_embedding_inputs input in
  let? dimensions := parse_dimensions payload in
  if (default "float" (get_str "encoding_format" payload) =? "float")%string
  then Ok (mkEmbeddingRequest model inputs dimensions)
  else Err "encoding_format must be `float`"%string.

(** [json!] of an [f32]. *)
Definition JSingle (x : f32) : Json := JDouble (f64_of_f32 x).

Section Responses.
Context {R : Type} `{!HttpRuntime R} (rt : R).

Definition input_tokens (input : Input) : list N :=
  match input with InputText text => run_tokenize rt text | InputTokens ids => ids end.

(** [.iter().map(..).sum::<usize>()] *)
Definition total_tokens (batches : list (list N)) : N := sum_of len batches.

(** [sglang-srt/src/openai/embedding.rs:30-72] embeddings_response_json *)
Definition embeddings_response_json (q : OpenAiEmbeddingRequest) : Json :=
  let batches := input_tokens <$> embedding_inputs q in
  let prompt_tokens := JUint (total_tokens batches) in
  JObject
    [("object", JString "list"); ("model", JString (embedding_model q));
     ("data", JArray (imap (λ i ids, JObject
        [("object", JString "embedding"); ("embedding", JArray (JSingle <$> token_ids_to_embedding ids (embedding_dimensions q)));
         ("index", JUint (N.of_nat i))]%string) batches));
     ("usage", JObject [("prompt_tokens", prompt_tokens); ("total_tokens", prompt_tokens)])]%string.

End Responses.

(** ** Classes *)

(** [max] of the floats, which ignores a NaN. *)
Definition f32_max (x y : f32) : f32 := match x, y with S754_nan, _ => y | _, S754_nan => x | _, _ => if SFltb x y then y else x end.

(** [total_cmp], NaNs taken positive. *)
Definition total_lt {prec emax : Z} (x y : spec_float) : bool :=
  match x, y with
  | S754_nan, _ => false
  | _, S754_nan => true
  | S754_zero s, S754_zero s' => s && negb s'
  | _, _ => SFltb x y
  end.
Definition f32_total_lt : f32 → f32 → bool := total_lt (prec := f32_prec) (emax := f32_emax).
Definition f64_total_lt : f64 → f64 → bool := total_lt (prec := f64_prec) (emax := f64_emax).

(** [sglang-srt/src/openai/classify.rs:174-185] softmax *)
Definition softmax_f32 (exp : f32 → f32) (logits : list f32) : list f32 :=
  let max := foldl f32_max (S754_infinity true) logits in
  let exps := (λ logit, exp (f32_sub logit max)) <$> logits in
  let sum := f32_sum exps in
  if f32_eq sum f32_zero then replicate (length logits) (f32_div f32_one (f32_of_usize (len logits)))
  else (λ value, f32_div value sum) <$> exps.

(** The first of the greatest; [best] is the one so far. *)
Fixpoint arg_max (best : N * f32) (i : N) (l : list f32) : N * f32 :=
  match l with
  | [] => best
  | x :: l => arg_max (if f32_total_lt best.2 x then (i, x) else best) (i + 1) l
  end.
(** [sglang-srt/src/openai/classify.rs:52-60] classify_response_json (max_by) *)
Definition predicted (probs : list f32) : N * f32 := match probs with [] => (0, f32_zero) | x :: l => arg_max (0, x) 1 l end.

Definition DEFAULT_CLASS_COUNT : N := 3.

(** [sglang-srt/src/openai/classify.rs:12-16] OpenAiClassifyRequest *)
Record OpenAiClassifyRequest : Type := mkClassifyRequest { classify_model : string; classify_inputs : list Input }.

(** [sglang-srt/src/openai/classify.rs:126-149] parse_classify_input_array *)
Definition parse_classify_input_array (items : list Json) : Result string (list Input) :=
  match items with
  | [] => Err "Input cannot be empty"%string
  | _ =>
      if forallb is_string items then
        try_indexed (λ index value, let text := checked_str value in if is_blank text then Err (input_at_index index) else Ok (InputText text)) 0 items
      else if forallb is_u64 items then let? ids := parse_token_ids items in Ok [InputTokens ids]
      else Err "input list must contain only strings or integers"%string
  end.

(** [sglang-srt/src/openai/classify.rs:115-124] parse_classify_inputs *)
Definition parse_classify_inputs (value : Json) : Result string (list Input) :=
  match value with
  | JString text => let? _ := validate_non_empty_text text "Input" in Ok [InputText text]
  | JArray items => parse_classify_input_array items
  | _ => Err "input must be a string, list of strings, or token ids"%string
  end.

(** [sglang-srt/src/openai/classify.rs:93-113] parse_classify_request *)
Definition parse_classify_request (payload : Json) (served_model_name : string) : Result string OpenAiClassifyRequest :=
  let? model := parse_model payload served_model_name in
  let? input := ok_or (json_get "input" payload) "missing input"%string in
  let? inputs := parse_classify_inputs input in
  Ok (mkClassifyRequest model inputs).

(** [micros] and [secs] are two looks at the clock. *)
(** [sglang-srt/src/openai/classify.rs:32-91] classify_response_json *)
Definition classify_response_json {R} `{!HttpRuntime R} (exp : f32 → f32) (micros secs : N) (rt : R) (q : OpenAiClassifyRequest) : Json :=
  let batches := input_tokens rt <$> classify_inputs q in
  let prompt_tokens := JUint (total_tokens batches) in
  JObject
    [("id", JString ("classify-" +:+ pretty micros)); ("object", JString "list"); ("created", JUint secs); ("model", JString (classify_model q));
     ("data", JArray (imap (λ i ids,
        let probs := softmax_f32 exp (token_ids_to_embedding ids DEFAULT_CLASS_COUNT) in
        JObject [("index", JUint (N.of_nat i)); ("label", JString ("LABEL_" +:+ pretty (predicted probs).1)); ("probs", JArray (JSingle <$> probs));
                 ("num_classes", JUint DEFAULT_CLASS_COUNT)]%string) batches));
     ("usage", JObject [("prompt_tokens", prompt_tokens); ("total_tokens", prompt_tokens); ("completion_tokens", JUint 0);
                        ("prompt_tokens_details", JNull)])]%string.

(** ** Ranks *)

Definition f64_div (x y : f64) : f64 := SFdiv f64_prec f64_emax x y.
Definition f64_zero : f64 := S754_zero false.

(** [sglang-srt/src/openai/rerank.rs:217-228] jaccard_score *)
Definition jaccard_score (query document : gset N) : f64 :=
  if bool_decide (query = ∅) || bool_decide (document = ∅) then f64_zero
  else
    let union := size (query ∪ document) in
    if (union =? 0)%nat then f64_zero else f64_div (f64_of_Z (Z.of_nat (size (query ∩ document)))) (f64_of_Z (Z.of_nat union)).

(** [sglang-srt/src/openai/rerank.rs:9-15] OpenAiRerankRequest *)
Record OpenAiRerankRequest : Type := mkRerankRequest {
  rerank_query : string;
  rerank_documents : list string;
  rerank_top_k : option N;
  rerank_return_documents : bool;
}.

(** [sglang-srt/src/openai/rerank.rs:17-22] OpenAiRerankResult *)
Record OpenAiRerankResult : Type := mkRanked { ranked_score : f64; ranked_document : string; ranked_index : N }.

(** [sglang-srt/src/openai/rerank.rs:150-167] rerank_content_to_text (part) *)
Definition content_part (field : string) (part : Json) : Result string string :=
  match part with
  | JString text => Ok text
  | JObject _ =>
      let text_kind := match get_str "type" part with Some kind => (kind =? "text")%string | None => true end in
      match (if text_kind then get_str "text" part else None) with
      | Some text => Ok text
      | None => Err (field +:+ " only supports text content in the Rust rerank worker")
      end
  | _ => Err (field +:+ " must be a string or an array of text content parts")
  end.

(** [sglang-srt/src/openai/rerank.rs:144-182] rerank_content_to_text *)
Definition rerank_content_to_text (value : Json) (field : string) : Result string string :=
  match value with
  | JString text => Ok text
  | JArray parts =>
      let? texts := try_all (content_part field) parts in
      match texts with
      | [] => Err (field +:+ " must include at least one text content part")
      | _ => Ok (String.concat newline texts)
      end
  | _ => Err (field +:+ " must be a string or an array of text content parts")
  end.

(** [sglang-srt/src/openai/rerank.rs:184-192] optional_bool *)
Definition optional_bool (payload : Json) (field : string) : Result string (option bool) :=
  match json_get field payload with
  | None => Ok None
  | Some value => let? b := ok_or (as_bool value) (field +:+ " must be a boolean") in Ok (Some b)
  end.

(** [sglang-srt/src/openai/rerank.rs:194-207] optional_positive_usize *)
Definition optional_positive_usize (payload : Json) (field : string) : Result string (option N) :=
  match json_get field payload with
  | None => Ok None
  | Some value =>
      let? n := ok_or (as_u64 value) (field +:+ " must be a positive integer") in
      if n =? 0 then Err (field +:+ " must be at least 1") else Ok (Some n)
  end.

(** [sglang-srt/src/openai/rerank.rs:24-77] parse_rerank_request *)
Definition parse_rerank_request (payload : Json) (served_model_name : string) : Result string OpenAiRerankRequest :=
  let? _ := parse_model payload served_model_name in
  let? query := ok_or (json_get "query" payload) "missing query"%string in
  let? query := rerank_content_to_text query "query" in
  let query := match get_str "instruct" payload with
               | Some instruct => if is_blank instruct then query else instruct +:+ newline +:+ query
               | None => query
               end in
  if is_blank query then Err "Query cannot be empty or whitespace only"%string
  else
    let? documents := ok_or (json_get "documents" payload ≫= as_array) "documents must be an array"%string in
    match documents with
    | [] => Err "Documents cannot be empty"%string
    | _ =>
        let? documents := try_all (λ document,
          let? document := rerank_content_to_text document "documents" in
          if is_blank document then Err "Each document cannot be empty or whitespace only"%string else Ok document) documents in
        let? top_k := optional_positive_usize payload "top_k" in
        let? top_n := optional_positive_usize payload "top_n" in
        let? return_documents := optional_bool payload "return_documents" in
        Ok (mkRerankRequest query documents (or_else top_k top_n) (default true return_documents))
    end.

(** The order of the results: by score, the best first, then by place. *)
Definition ranks_before (a b : OpenAiRerankResult) : bool :=
  if f64_total_lt (ranked_score b) (ranked_score a) then true
  else if f64_total_lt (ranked_score a) (ranked_score b) then false
  else ranked_index a <=? ranked_index b.

Definition rank_order (a b : OpenAiRerankResult) : Prop := ranks_before a b = true.
#[export] Instance rank_order_dec : RelDecision rank_order.
Proof. intros a b. unfold rank_order. apply _. Defined.

Section Rank.
Context {R : Type} `{!HttpRuntime R} (rt : R).

(** [sglang-srt/src/openai/rerank.rs:209-215] token_set *)
Definition token_set (text : string) : gset N := list_to_set (run_tokenize rt text).

Definition scored_documents (q : OpenAiRerankRequest) : list OpenAiRerankResult :=
  imap (λ i document, mkRanked (jaccard_score (token_set (rerank_query q)) (token_set document)) document (N.of_nat i)) (rerank_documents q).

(** [sglang-srt/src/openai/rerank.rs:79-108] score_rerank_documents *)
Definition score_rerank_documents (q : OpenAiRerankRequest) : list OpenAiRerankResult :=
  merge_sort rank_order (scored_documents q).

End Rank.

(** [sglang-srt/src/openai/rerank.rs:110-117] truncate_rerank_results *)
Definition truncate_rerank_results (q : OpenAiRerankRequest) (results : list OpenAiRerankResult) : list OpenAiRerankResult :=
  match rerank_top_k q with Some k => take (N.to_nat (N.min k (len results))) results | None => results end.

(** [sglang-srt/src/openai/rerank.rs:119-142] rerank_results_to_json *)
Definition rerank_results_to_json (q : OpenAiRerankRequest) (results : list OpenAiRerankResult) : Json :=
  JArray ((λ r, JObject ([("score"%string, JDouble (ranked_score r))] ++
                         (if rerank_return_documents q then [("document"%string, JString (ranked_document r))] else []) ++
                         [("index"%string, JUint (ranked_index r))])) <$> results).

(** ** Scores *)

Definition f64_add (x y : f64) : f64 := SFadd f64_prec f64_emax x y.
Definition f64_sub (x y : f64) : f64 := SFsub f64_prec f64_emax x y.
Definition f64_mul (x y : f64) : f64 := SFmul f64_prec f64_emax x y.
Definition f64_one : f64 := S754_finite false 4503599627370496 (-52).
Definition f64_sum (l : list f64) : f64 := foldl f64_add (S754_zero true) l.
Definition f64_max (x y : f64) : f64 := match x, y with S754_nan, _ => y | _, S754_nan => x | _, _ => if SFltb x y then y else x end.

(** [sglang-srt/src/openai/score.rs:10-18] OpenAiScoreRequest *)
Record OpenAiScoreRequest : Type := mkScoreRequest {
  score_model : string;
  score_query : Input;
  score_items : list Input;
  label_token_ids : option (list N);
  apply_softmax : bool;
  item_first : bool;
}.

(** [sglang-srt/src/openai/score.rs:190-201] parse_token_ids *)
Definition parse_score_token_ids (items : list Json) (field : string) : Result string (list N) :=
  try_indexed (λ index value,
    let? raw := ok_or (as_u64 value) (field +:+ " must contain only token ID integers") in
    u32_try_from (field +:+ "[" +:+ pretty index +:+ "] exceeds u32 range") raw) 0 items.

(** [sglang-srt/src/openai/score.rs:131-137] parse_score_query *)
Definition parse_score_query (value : Json) : Result string Input :=
  match value with
  | JString text => Ok (InputText text)
  | JArray items => let? ids := parse_score_token_ids items "query" in Ok (InputTokens ids)
  | _ => Err "query must be a string or token ID array"%string
  end.

(** [sglang-srt/src/openai/score.rs:139-167] parse_score_items *)
Definition parse_score_items (value : Json) : Result string (list Input) :=
  match value with
  | JString text => Ok [InputText text]
  | JArray [] => Ok []
  | JArray items =>
      if forallb is_string items then Ok ((λ item, InputText (checked_str item)) <$> items)
      else if forallb is_array items then
        try_indexed (λ index item, let? ids := parse_score_token_ids (checked_array item) ("items[" +:+ pretty index +:+ "]") in Ok (InputTokens ids)) 0 items
      else Err "items must be a string, list of strings, or token ID batches"%string
  | _ => Err "items must be provided"%string
  end.

(** [sglang-srt/src/openai/score.rs:169-175] default_query_for_items *)
Definition default_query_for_items (items : list Input) : Input :=
  match items with InputTokens _ :: _ => InputTokens [] | _ => InputText "" end.

(** [sglang-srt/src/openai/score.rs:177-188] parse_optional_label_token_ids *)
Definition parse_optional_label_token_ids (payload : Json) : Result string (option (list N)) :=
  match json_get "label_token_ids" payload with
  | None => Ok None
  | Some value =>
      let? items := ok_or (as_array value) "label_token_ids must be an array of token IDs"%string in
      match items with
      | [] => Err "label_token_ids cannot be empty"%string
      | _ => let? ids := parse_score_token_ids items "label_token_ids" in Ok (Some ids)
      end
  end.

(** [sglang-srt/src/openai/score.rs:26-74] parse_score_request *)
Definition parse_score_request (payload : Json) (served_model_name : string) : Result string OpenAiScoreRequest :=
  let? model := parse_model payload served_model_name in
  if has "query_embed_overrides" payload || has "item_embed_overrides" payload || has "embed_override_token_id" payload
  then Err "embedding overrides are not supported by the Rust score worker"%string
  else if default false (get_bool "return_pooled_hidden_states" payload)
  then Err "return_pooled_hidden_states is not supported by the Rust score worker"%string
  else
    let? value := ok_or (json_get "items" payload) "items must be provided"%string in
    let? items := parse_score_items value in
    let? query := match json_get "query" payload with Some value => parse_score_query value | None => Ok (default_query_for_items items) end in
    let? labels := parse_optional_label_token_ids payload in
    let? softmax := optional_bool payload "apply_softmax" in
    let? first := optional_bool payload "item_first" in
    Ok (mkScoreRequest model query items labels (default false softmax) (default false first)).

(** [sglang-srt/src/openai/score.rs:259-270] softmax *)
Definition softmax_f64 (exp : f64 → f64) (logits : list f64) : list f64 :=
  let max := foldl f64_max (S754_infinity true) logits in
  let exps := (λ logit, exp (f64_sub logit max)) <$> logits in
  let sum := f64_sum exps in
  if SFeqb sum f64_zero then replicate (length logits) (f64_div f64_one (f64_of_Z (Z.of_nat (length logits))))
  else (λ value, f64_div value sum) <$> exps.

Definition SCORE_EMBEDDING_DIMENSIONS : N := 8.

(** The product of the vectors of two lists of tokens. *)
Definition dot_product (left right : list N) : f64 :=
  f64_sum (zip_with (λ x y, f64_mul (f64_of_f32 x) (f64_of_f32 y))
             (token_ids_to_embedding left SCORE_EMBEDDING_DIMENSIONS) (token_ids_to_embedding right SCORE_EMBEDDING_DIMENSIONS)).

(** [sglang-srt/src/openai/score.rs:236-244] score_label_token *)
Definition score_label_token (prompt : list N) (label : N) : f64 := dot_product prompt [label].

(** [sglang-srt/src/openai/score.rs:246-257] score_prompt_similarity *)
Definition score_prompt_similarity (query item : list N) : f64 :=
  match query, item with [], _ | _, [] => f64_zero | _, _ => dot_product query item end.

(** [sglang-srt/src/openai/score.rs:224-234] compose_score_prompt *)
Definition compose_score_prompt (query item : list N) (item_first : bool) : list N := if item_first then item ++ query else query ++ item.

Section Score.
Context {R : Type} `{!HttpRuntime R} (exp : f64 → f64) (rt : R).

(** [sglang-srt/src/openai/score.rs:90-109] score_response_json (row) *)
Definition score_row (q : OpenAiScoreRequest) (query item : list N) : list f64 :=
  match label_token_ids q with
  | Some labels =>
      let row := score_label_token (compose_score_prompt query item (item_first q)) <$> labels in
      if apply_softmax q then softmax_f64 exp row else row
  | None => [score_prompt_similarity query item]
  end.

(** [sglang-srt/src/openai/score.rs:76-129] score_response_json *)
Definition score_response_json (q : OpenAiScoreRequest) : Json :=
  let query := input_tokens rt (score_query q) in
  let items := input_tokens rt <$> score_items q in
  let prompt_tokens := JUint (sum_of (λ item, len (compose_score_prompt query item (item_first q))) items) in
  let rows := score_row q query <$> items in
  let rows := if apply_softmax q && negb (bool_decide (is_Some (label_token_ids q))) then (λ row, <[0%nat := f64_one]> row) <$> rows else rows in
  JObject
    [("object", JString "scoring"); ("model", JString (score_model q)); ("scores", JArray ((λ row, JArray (JDouble <$> row)) <$> rows));
     ("pooled_hidden_states", JNull);
     ("usage", JObject [("prompt_tokens", prompt_tokens); ("total_tokens", prompt_tokens); ("completion_tokens", JUint 0);
                        ("prompt_tokens_details", JNull); ("reasoning_tokens", JUint 0)])]%string.

End Score.

(** ** The HTTP handlers *)

Section Handlers.
Context {R : Type} `{!HttpRuntime R} (exp32 : f32 → f32) (exp64 : f64 → f64).

(** What the handlers share: the model they serve, their request, the runtime. *)
Definition answer_with {Q} (s : HttpRouterService R) (parse : Json → string → Result string Q) (payload : Json) (answer : Q → Json) : Response :=
  match model_info_snapshot s with
  | Err message => internal_error_json message
  | Ok info =>
      match parse payload (served_model_name info) with
      | Err message => bad_request_json message
      | Ok request => if runtime_poisoned s then poisoned_response else mkHttpResponse OK (JsonBody (answer request))
      end
  end.

(** [sglang-srt/src/http.rs:1256-1292] rerank *)
Definition http_rerank (s : HttpRouterService R) (payload : Json) : Response :=
  answer_with s parse_rerank_request payload (λ q, rerank_results_to_json q (truncate_rerank_results q (score_rerank_documents (runtime s) q))).

(** [sglang-srt/src/http.rs:1294-1328] score *)
Definition http_score (s : HttpRouterService R) (payload : Json) : Response :=
  answer_with s parse_score_request payload (score_response_json exp64 (runtime s)).

(** [sglang-srt/src/http.rs:1330-1360] embeddings *)
Definition http_embeddings (s : HttpRouterService R) (payload : Json) : Response :=
  answer_with s parse_embedding_request payload (embeddings_response_json (runtime s)).

(** [sglang-srt/src/http.rs:1362-1392] classify *)
Definition http_classify (s : HttpRouterService R) (micros secs : N) (payload : Json) : Response :=
  answer_with s parse_classify_request payload (classify_response_json exp32 micros secs (runtime s)).

End Handlers.

(** ** Documents are ranked *)

(** A float's place in the total order: its kind, exponent and mantissa. *)
Definition float_key (x : spec_float) : Z * Z * Z :=
  match x with
  | S754_infinity true => (-3, 0, 0)
  | S754_finite true m e => (-2, - e, Zneg m)
  | S754_zero true => (-1, 0, 0)
  | S754_zero false => (0, 0, 0)
  | S754_finite false m e => (1, e, Zpos m)
  | S754_infinity false => (2, 0, 0)
  | S754_nan => (3, 0, 0)
  end%Z.
Definition key_lt (a b : Z * Z * Z) : Prop :=
  let '(a1, a2, a3) := a in let '(b1, b2, b3) := b in (a1 < b1 ∨ a1 = b1 ∧ (a2 < b2 ∨ a2 = b2 ∧ a3 < b3))%Z.

Lemma total_lt_key prec emax x y : @total_lt prec emax x y = true ↔ key_lt (float_key x) (float_key y).
Proof.
  destruct x as [[]|[]| |[] m e], y as [[]|[]| |[] m' e']; cbn; try (split; [done|lia]); try (split; [lia|done]).
  - unfold SFltb, SFcompare. destruct (Z.compare_spec e e') as [->|H|H]; cbn.
    + change (PosDef.Pos.compare_cont Eq m m') with (Pos.compare m m'); destruct (Pos.compare_spec m m') as [->|H|H]; cbn; split; try done; lia.
    + split; [done|lia].
    + split; [lia|done].
  - unfold SFltb, SFcompare. destruct (Z.compare_spec e e') as [->|H|H]; cbn.
    + change (PosDef.Pos.compare_cont Eq m m') with (Pos.compare m m'); destruct (Pos.compare_spec m m') as [->|H|H]; cbn; split; try done; lia.
    + split; [lia|done].
    + split; [done|lia].
Qed.

Lemma key_trichotomy a b : key_lt a b ∨ key_lt b a ∨ a = b.
Proof. destruct a as [[a1 a2] a3], b as [[b1 b2] b3]. cbn. destruct (decide ((a1, a2, a3) = (b1, b2, b3))); [auto|]. assert (a1 ≠ b1 ∨ a2 ≠ b2 ∨ a3 ≠ b3); [|lia]. destruct (decide (a1 = b1)), (decide (a2 = b2)), (decide (a3 = b3)); subst; auto. Qed.

Lemma ranks_before_key a b : ranks_before a b = true ↔
  key_lt (float_key (ranked_score b)) (float_key (ranked_score a)) ∨
  float_key (ranked_score b) = float_key (ranked_score a) ∧ ranked_index a ≤ ranked_index b.
Proof.
  unfold ranks_before. pose proof (total_lt_key f64_prec f64_emax (ranked_score b) (ranked_score a)) as H1.
  pose proof (total_lt_key f64_prec f64_emax (ranked_score a) (ranked_score b)) as H2. unfold f64_total_lt.
  assert (∀ k, ¬ key_lt k k) as Hirr by (intros [[k1 k2] k3]; unfold key_lt; lia).
  assert (∀ j k, key_lt j k → ¬ key_lt k j) as Hasym by (intros [[j1 j2] j3] [[k1 k2] k3]; unfold key_lt; lia).
  destruct (total_lt (ranked_score b) _); [split; [intros _; left; by apply H1|done]|].
  destruct (total_lt (ranked_score a) _).
  - split; [done|]. intros [H|[H _]]; exfalso; [by apply (Hasym _ _ H), H2|]. rewrite H in H2. by apply (Hirr (float_key (ranked_score a))), H2.
  - rewrite N.leb_le. destruct (key_trichotomy (float_key (ranked_score a)) (float_key (ranked_score b))) as [H|[H|H]].
    + by apply H2 in H.
    + by apply H1 in H.
    + split; [by right|]. intros [Hl|[_ Hl]]; [by apply H1 in Hl|done].
Qed.

#[export] Instance ranks_before_total : Total rank_order.
Proof.
  intros a b. unfold rank_order. rewrite !ranks_before_key. destruct (key_trichotomy (float_key (ranked_score a)) (float_key (ranked_score b))) as [H|[H|H]]; [by right; left|by left; left|].
  destruct (decide (ranked_index a ≤ ranked_index b)); [by left; right|right; right; split; [done|lia]].
Qed.

#[export] Instance ranks_before_trans : Transitive rank_order.
Proof.
  intros a b c. unfold rank_order. rewrite !ranks_before_key. set (x := float_key (ranked_score a)). set (y := float_key (ranked_score b)). set (z := float_key (ranked_score c)).
  assert (∀ i j k, key_lt i j → key_lt j k → key_lt i k) as Htrans by (intros [[i1 i2] i3] [[j1 j2] j3] [[k1 k2] k3]; unfold key_lt; lia).
  intros [H1|[H1 L1]] [H2|[H2 L2]]; [left; by eapply Htrans|left; by rewrite H2|left; by rewrite <- H1|right]. split; [by rewrite H2|lia].
Qed.

Lemma strongly_sorted_split {A} (Q : A → A → Prop) l k : StronglySorted Q (l ++ k) → StronglySorted Q l ∧ (∀ a b, a ∈ l → b ∈ k → Q a b).
Proof.
  induction l as [|x l IH]; cbn; intros H.
  - split; [constructor|]. intros a b Ha. by apply elem_of_nil in Ha.
  - inversion H as [|? ? Hs Hall]; subst. destruct (IH Hs) as [Hl Hlk]. apply Forall_app in Hall as [Hx Hk]. split; [by constructor|].
    intros a b [->|Ha]%elem_of_cons Hb; [|by apply Hlk]. by apply (proj1 (Forall_forall _ _) Hk).
Qed.

(** A rerank request is answered with the documents that share most with the query,
    at most [top_k] of them: the results are documents with their own scores and
    places, in order of their scores and, among equals, of their places, and
    those left out come after all of them. *)
Theorem rerank_ranks_documents {R} `{!HttpRuntime R} (rt : R) q :
  let results := truncate_rerank_results q (score_rerank_documents rt q) in
  ∃ rest, results ++ rest ≡ₚ scored_documents rt q ∧ StronglySorted rank_order results ∧
    (∀ a b, a ∈ results → b ∈ rest → ranks_before a b = true) ∧
    len results = match rerank_top_k q with Some k => N.min k (len (rerank_documents q)) | None => len (rerank_documents q) end.
Proof.
  cbv zeta. set (sorted := score_rerank_documents rt q).
  assert (sorted ≡ₚ scored_documents rt q) as Hperm by apply merge_sort_Permutation.
  assert (StronglySorted rank_order sorted) as Hsorted by (apply StronglySorted_merge_sort; apply _).
  assert (len sorted = len (rerank_documents q)) as Hlen.
  { unfold len. rewrite Hperm. unfold scored_documents. by rewrite length_imap. }
  unfold truncate_rerank_results. destruct (rerank_top_k q) as [k|].
  - set (n := N.to_nat (N.min k (len sorted))). exists (drop n sorted). rewrite take_drop. split; [done|].
    rewrite <- (take_drop n sorted) in Hsorted. destruct (strongly_sorted_split _ _ _ Hsorted) as [H1 H2]. split_and!; [done|done|].
    rewrite <- Hlen. unfold len in *. rewrite length_take. subst n. unfold len. lia.
  - exists []. rewrite app_nil_r. split_and!; [done|done| |done]. intros a b _ Hb. by apply elem_of_nil in Hb.
Qed.

(** ** Examples *)

Example vectors :
  splitmix64 0 = 16294208416658607535 ∧
  token_ids_to_embedding [] 3 = replicate 3 f32_zero ∧
  (length ∘ filter (λ x, f32_eq x f32_zero = false) $ token_ids_to_embedding [7] 8) = 1%nat ∧
  trim (" " +:+ newline +:+ "a b" +:+ " ") = "a b"%string ∧ is_blank (" " +:+ newline) = true ∧ is_blank "a" = false.
Proof. by vm_compute. Qed.

(** Sharing half of the tokens ranks before sharing none, whatever the order given. *)
Example jaccard_ranks :
  let score d := jaccard_score (list_to_set [1; 2]) (list_to_set d) in
  let results := merge_sort rank_order [mkRanked (score [3]) "none" 0; mkRanked (score [2; 1]) "all" 1; mkRanked (score [2]) "half" 2] in
  ranked_document <$> results = ["all"; "half"; "none"]%string ∧
  JDouble (score [2]) = JFloat 4602678819172646912.
Proof. by vm_compute. Qed.
