(* ===== verification/GrpcService.v ===== *)
(** * The gRPC server ([crates/sglang-srt/src/grpc.rs])

    The second front to the runtime: the methods of the service over the same class
    [HttpRuntime].  A streaming method answers with messages and may end in a
    status; a unary one answers with a message or a status.  [json_text] is the
    compact text of a JSON value, which [serde_json::to_vec] writes as bytes;
    [json_error] says when that fails.  A call of the runtime that panics gives [None].

    The profile methods write files, and those that load weights work on the device
    and the disk; they are not modelled. *)

From Stdlib Require Import SpecFloat.
From stdpp Require Import pretty.
From S2P Require Import Prelude Float32 Types Text Tokenizer RouterProtocol RouterRuntime Safetensors JsonValue HttpPayload HttpReplies ServingMetrics ModelInfo GrpcMessages ProxyRequests RouterDispatch RouterProxy HttpService OpenAi.
#[local] Open Scope N_scope.

(** ** More messages *)

(** [sglang.proto:126-129] TokenizedInput *)
Record TokenizedInput : Type := mkTokenizedInput { tokenized_text : string; tokenized_ids : list N }.

(** [sglang.proto:294-298] Usage *)
Record Usage : Type := mkUsage { proto_prompt_tokens : Z; proto_completion_tokens : Z; proto_total_tokens : Z }.

(** [sglang.proto:136-139] Embedding *)
Record Embedding : Type := mkEmbedding { embedding_values : list f32; proto_embedding_index : N }.

(** [sglang.proto:131-134] EmbedResponse *)
Record EmbedResponse : Type := mkEmbedResponse { response_embeddings : list Embedding; embed_usage : option Usage }.

(** [sglang.proto:152-156] Classification *)
Record Classification : Type := mkClassification { class_label : string; class_score : f32; class_index : N }.

(** [sglang.proto:147-150] ClassifyResponse *)
Record ClassifyResponse : Type := mkClassifyResponse { classifications : list Classification; classify_usage : option Usage }.

(** [sglang.proto:163-166] TokenizeResponse *)
Record TokenizeResponse : Type := mkTokenizeResponse { response_token_ids : list N; response_count : N }.

(** [sglang.proto:215-219] ServerInfoResponse *)
Record ServerInfoResponse : Type := mkServerInfoResponse { info_version : string; info_runtime : string; info_attributes : gmap string string }.

(** [sglang.proto:260-263] OpenAIJsonRequest *)
Record OpenAiJsonRequest : Type := mkOpenAiJsonRequest { json_bytes : list N; json_options : option RequestOptions }.

(** ** The service *)

(** A mutex is its value and whether a holder panicked. *)
(** [sglang-srt/src/grpc.rs:105-113] GrpcRouterService *)
Record GrpcRouterService (R : Type) : Type := mkGrpcService {
  grpc_runtime : R;
  grpc_runtime_poisoned : bool;
  grpc_model_info : option RouterGetModelInfoResponse;
  grpc_model_info_poisoned : bool;
  grpc_max_transfer_polls : N;
  server_info_attributes : gmap string string;
  grpc_additions : list Update;
  metrics_enabled : bool;
}.
Arguments mkGrpcService {R}.
Arguments grpc_runtime {R}.
Arguments grpc_runtime_poisoned {R}.
Arguments grpc_model_info {R}.
Arguments grpc_model_info_poisoned {R}.
Arguments grpc_max_transfer_polls {R}.
Arguments server_info_attributes {R}.
Arguments grpc_additions {R}.
Arguments metrics_enabled {R}.

(** [sglang-srt/src/grpc.rs:1912-1914] default_server_info_attributes *)
Definition default_server_info_attributes : gmap string string := {["transport" := "tonic-grpc"]}%string.

(** [sglang-srt/src/grpc.rs:163-173] GrpcRouterService::new *)
Definition GrpcRouterService_new {R} (rt : R) : GrpcRouterService R := mkGrpcService rt false None false 0 default_server_info_attributes [] false.

(** [sglang-srt/src/grpc.rs:175-188] GrpcRouterService::with_model_info *)
Definition grpc_with_model_info {R} (rt : R) (info : RouterGetModelInfoResponse) : GrpcRouterService R :=
  mkGrpcService rt false (Some info) false 0 default_server_info_attributes [] false.

Definition grpc_set_runtime {R} (s : GrpcRouterService R) (rt : R) : GrpcRouterService R :=
  mkGrpcService rt (grpc_runtime_poisoned s) (grpc_model_info s) (grpc_model_info_poisoned s) (grpc_max_transfer_polls s) (server_info_attributes s)
    (grpc_additions s) (metrics_enabled s).
Definition grpc_add_updates {R} (s : GrpcRouterService R) (us : list Update) : GrpcRouterService R :=
  mkGrpcService (grpc_runtime s) (grpc_runtime_poisoned s) (grpc_model_info s) (grpc_model_info_poisoned s) (grpc_max_transfer_polls s)
    (server_info_attributes s) (grpc_additions s ++ us) (metrics_enabled s).
Definition grpc_set_model_info {R} (s : GrpcRouterService R) (info : RouterGetModelInfoResponse) : GrpcRouterService R :=
  mkGrpcService (grpc_runtime s) (grpc_runtime_poisoned s) (Some info) (grpc_model_info_poisoned s) (grpc_max_transfer_polls s)
    (server_info_attributes s) (grpc_additions s) (metrics_enabled s).

(** [sglang-srt/src/grpc.rs:230-233] GrpcRouterService::request_observation *)
Definition request_observation {R} (s : GrpcRouterService R) : list Update * option RequestObservation :=
  if metrics_enabled s then let '(us, o) := observation_new in (us, Some o) else ([], None).

(** [sglang-srt/src/grpc.rs:235-241] GrpcRouterService::model_info *)
Definition model_info_status {R} (s : GrpcRouterService R) : Result Status RouterGetModelInfoResponse :=
  if grpc_model_info_poisoned s then Err (internal "model info mutex poisoned")
  else ok_or (grpc_model_info s) (failed_precondition "model info is not configured").

(** The end of an observation that goes out of scope. *)
Definition drop_optional (o : option RequestObservation) (elapsed : N) : list Update :=
  match o with Some o => (drop_observation o elapsed).1 | None => [] end.

(** The first message is awaited: an error before it is the answer. *)
(** [sglang-srt/src/grpc.rs:71-87] start_grpc_stream *)
Definition start_grpc_stream {M} (received : list (Result Status M)) : Result Status (list (Result Status M)) :=
  match received with
  | Ok first :: rest => Ok (Ok first :: rest)
  | Err error :: _ => Err error
  | [] => Err (internal "streaming generation ended before its first response")
  end.

Definition poisoned_status : Status := internal "router runtime mutex poisoned".

Section Errors.
Context (display_f32 : f32 → string).

(** [sglang-srt/src/grpc.rs:252-257] router_protocol_error_to_status *)
Definition router_protocol_error_to_status (error : RouterProtocolError) : Status :=
  mkStatus (router_status_code_to_grpc_code (status_code error)) (RouterProtocolError_to_string display_f32 error).

(** [sglang-srt/src/grpc.rs:314-319] router_runtime_error_to_status *)
Definition router_runtime_error_to_status (error : RouterRuntimeError) : Status :=
  match error with
  | ProtocolError error => router_protocol_error_to_status error
  | RuntimeFailure error => internal (RuntimeError_to_string error)
  end.

End Errors.

(** ** Answers in the formats of OpenAI *)

Section Answers.
Context (json_text : Json → string) (json_error : Json → option string).

(** [serde_json::to_vec]; [what] is the text before the error. *)
Definition to_message (what : string) (v : Json) : Result Status (list N) :=
  match json_error v with
  | Some error => Err (internal ("serialize " +:+ what +:+ " JSON: " +:+ error))
  | None => Ok (text_bytes (json_text v))
  end.

Definition no_response_status : Status := internal "generation produced no response".

(** The completion a response must hold; [what] names the method. *)
(** [sglang-srt/src/grpc.rs:348-355] openai_chat_response_from_router_responses (incomplete) *)
Definition completion_of (what : string) (r : RouterGenerateResponse) : Result Status RouterGenerateComplete :=
  match body r with
  | Completed c => Ok c
  | Chunk _ => Err (internal ("non-stream gRPC " +:+ what +:+ " returned a stream chunk"))
  | ResponseError message => Err (internal message)
  end.

(** [sglang-srt/src/grpc.rs:321-361] openai_chat_response_from_router_responses *)
Definition openai_chat_response_from_router_responses (responses : list RouterGenerateResponse) (model : string) : Result Status (list N) :=
  let? r := ok_or (last responses) no_response_status in
  let? c := completion_of "chat completion" r in
  to_message "OpenAI chat" (JObject
    [("id", JString (openai_response_id "chatcmpl-" (response_id r))); ("object", JString "chat.completion"); ("model", JString model);
     ("choices", JArray [JObject [("index", JUint (complete_index c));
                                  ("message", JObject [("role", JString "assistant"); ("content", JString (complete_text c))]);
                                  ("finish_reason", JString (finish_reason c))]]);
     ("usage", JObject [("prompt_tokens", JNumber (complete_prompt_tokens c)); ("completion_tokens", JNumber (complete_completion_tokens c));
                        ("cached_tokens", JNumber (complete_cached_tokens c))])]%string).

(** The loop over a batch: the choices, the summed usage, and the first request's id.  Both
    loops are alike but for their choices. *)
(** [sglang-srt/src/grpc.rs:378-410] openai_chat_batch_response_from_router_responses (loop) *)
Fixpoint grpc_batch_choices (what : string) (choice : N → RouterGenerateComplete → Json) (index : N) (usage : CompletionUsage)
    (response_id : option string) (batch : list (list RouterGenerateResponse)) : Result Status (list Json * CompletionUsage * option string) :=
  match batch with
  | [] => Ok ([], usage, response_id)
  | responses :: batch =>
      let? r := ok_or (last responses) no_response_status in
      let response_id := match response_id with Some id => Some id | None => Some (RouterProtocol.response_id r) end in
      let? c := completion_of what r in
      let? '(choices, usage, response_id) := grpc_batch_choices what choice (index + 1) (add_complete usage c) response_id batch in
      Ok (choice index c :: choices, usage, response_id)
  end.

(** [sglang-srt/src/grpc.rs:370-425] openai_chat_batch_response_from_router_responses *)
Definition openai_chat_batch_response_from_router_responses (batch : list (list RouterGenerateResponse)) (model : string) : Result Status (list N) :=
  let? '(choices, usage, response_id) := grpc_batch_choices "chat completion" chat_choice 0 CompletionUsage_default None batch in
  to_message "OpenAI chat" (JObject
    [("id", JString (openai_response_id "chatcmpl-" (default "" response_id))); ("object", JString "chat.completion"); ("model", JString model);
     ("choices", JArray choices);
     ("usage", JObject [("prompt_tokens", JNumber (usage_prompt_tokens usage)); ("completion_tokens", JNumber (usage_completion_tokens usage));
                        ("cached_tokens", JNumber (usage_cached_tokens usage))])]%string).

(** [sglang-srt/src/grpc.rs:427-467] openai_chat_stream_response_from_router_response *)
Definition openai_chat_stream_response_from_router_response (r : RouterGenerateResponse) (model : string) : Result Status (list N) :=
  let head := [("id", JString (openai_response_id "chatcmpl-" (response_id r))); ("object", JString "chat.completion.chunk"); ("model", JString model)]%string in
  let? json := match body r with
    | Chunk c => Ok (JObject (head ++ [("choices", JArray [JObject [("index", JUint (chunk_index c)); ("delta", JObject [("content", JString (chunk_text c))]);
                                                                     ("finish_reason", JNull)]])]%string))
    | Completed c => Ok (JObject (head ++ [("choices", JArray [JObject [("index", JUint (complete_index c)); ("delta", JObject []);
                                                                         ("finish_reason", JString (finish_reason c))]]);
        ("usage", JObject [("prompt_tokens", JNumber (complete_prompt_tokens c)); ("completion_tokens", JNumber (complete_completion_tokens c));
                           ("cached_tokens", JNumber (complete_cached_tokens c))])]%string))
    | ResponseError message => Err (internal message)
    end in
  to_message "OpenAI chat stream" json.

(** [sglang-srt/src/grpc.rs:469-508] openai_completion_response_from_router_responses *)
Definition openai_completion_response_from_router_responses (responses : list RouterGenerateResponse) (model : string) : Result Status (list N) :=
  let? r := ok_or (last responses) no_response_status in
  let? c := completion_of "completion" r in
  to_message "OpenAI completion" (JObject
    [("id", JString (openai_response_id "cmpl-" (response_id r))); ("object", JString "text_completion"); ("model", JString model);
     ("choices", JArray [JObject [("index", JUint (complete_index c)); ("text", JString (complete_text c)); ("logprobs", JNull);
                                  ("finish_reason", JString (finish_reason c))]]);
     ("usage", usage_total_json (complete_prompt_tokens c) (complete_completion_tokens c) (complete_cached_tokens c))]%string).

(** [sglang-srt/src/grpc.rs:517-571] openai_completion_batch_response_from_router_responses *)
Definition openai_completion_batch_response_from_router_responses (batch : list (list RouterGenerateResponse)) (model : string) : Result Status (list N) :=
  let? '(choices, usage, response_id) := grpc_batch_choices "completion" completion_choice 0 CompletionUsage_default None batch in
  to_message "OpenAI completion" (JObject
    [("id", JString (openai_response_id "cmpl-" (default "" response_id))); ("object", JString "text_completion"); ("model", JString model);
     ("choices", JArray choices);
     ("usage", usage_total_json (usage_prompt_tokens usage) (usage_completion_tokens usage) (usage_cached_tokens usage))]%string).

(** [sglang-srt/src/grpc.rs:573-614] openai_completion_stream_response_from_router_response *)
Definition openai_completion_stream_response_from_router_response (r : RouterGenerateResponse) (model : string) : Result Status (list N) :=
  let head := [("id", JString (openai_response_id "cmpl-" (response_id r))); ("object", JString "text_completion"); ("model", JString model)]%string in
  let? json := match body r with
    | Chunk c => Ok (JObject (head ++ [("choices", JArray [JObject [("index", JUint (chunk_index c)); ("text", JString (chunk_text c));
                                                                     ("logprobs", JNull); ("finish_reason", JNull)]])]%string))
    | Completed c => Ok (JObject (head ++ [("choices", JArray [JObject [("index", JUint (complete_index c)); ("text", JString "");
                                                                         ("logprobs", JNull); ("finish_reason", JString (finish_reason c))]]);
        ("usage", usage_total_json (complete_prompt_tokens c) (complete_completion_tokens c) (complete_cached_tokens c))]%string))
    | ResponseError message => Err (internal message)
    end in
  to_message "OpenAI completion stream" json.

(** [sglang-srt/src/grpc.rs:616-641] openai_responses_response_from_router_responses *)
Definition openai_responses_response_from_router_responses (now : N) (responses : list RouterGenerateResponse) (model : string) : Result Status (list N) :=
  let? r := ok_or (last responses) no_response_status in
  let? c := completion_of "responses" r in
  to_message "OpenAI responses" (responses_complete_json now model (response_id r) c).

(** *** The events of [Responses] *)

(** [sglang-srt/src/grpc.rs:643-649] GrpcResponsesStreamState *)
Record GrpcResponsesStreamState : Type := mkResponsesState {
  state_sequence : Z;
  state_open : bool;
  state_response : string;
  state_item : string;
}.
Definition GrpcResponsesStreamState_default : GrpcResponsesStreamState := mkResponsesState 0 false "" "".

(** The number goes up also where the event cannot be written. *)
(** [sglang-srt/src/grpc.rs:823-834] openai_responses_event_json *)
Definition openai_responses_event_json (event : Json) (st : GrpcResponsesStreamState) : Result Status (list N) * GrpcResponsesStreamState :=
  (to_message "OpenAI responses stream" (numbered (state_sequence st) event),
   mkResponsesState (i32_add (state_sequence st) 1) (state_open st) (state_response st) (state_item st)).

Fixpoint responses_events (events : list Json) (st : GrpcResponsesStreamState) : Result Status (list (list N)) * GrpcResponsesStreamState :=
  match events with
  | [] => (Ok [], st)
  | event :: events =>
      let! message, st := openai_responses_event_json event st in
      let! messages, st := responses_events events st in
      (Ok (message :: messages), st)
  end.

(** [sglang-srt/src/grpc.rs:786-821] openai_responses_message_open_events *)
Definition open_events (st : GrpcResponsesStreamState) : Result Status (list (list N)) * GrpcResponsesStreamState :=
  if state_open st then (Ok [], st)
  else
    let! messages, st := responses_events [added_event (state_item st); part_added_event (state_item st)] st in
    (Ok messages, mkResponsesState (state_sequence st) true (state_response st) (state_item st)).

(** For one response; [clock] is the clock while the event of a number is built. *)
(** [sglang-srt/src/grpc.rs:651-784] openai_responses_stream_from_router_responses *)
Definition openai_responses_stream_from_router_response (clock : Z → N) (model : string) (st : GrpcResponsesStreamState) (r : RouterGenerateResponse)
    : Result Status (list (list N)) * GrpcResponsesStreamState :=
  let! created, st :=
    if (state_response st =? "")%string then
      let st := mkResponsesState (state_sequence st) (state_open st) (openai_response_id "resp-" (response_id r)) (responses_message_id (response_id r)) in
      responses_events [created_event (clock (state_sequence st)) model (state_response st)] st
    else (Ok [], st) in
  match body r with
  | Chunk c =>
      let! opened, st := open_events st in
      let! delta, st := if (chunk_text c =? "")%string then (Ok [], st) else responses_events [delta_event (state_item st) c] st in
      (Ok (created ++ opened ++ delta), st)
  | Completed c =>
      let! opened, st := open_events st in
      let! closing, st := responses_events (closing_events (clock (state_sequence st + 3)%Z) model (state_item st) (response_id r) c) st in
      (Ok (created ++ opened ++ closing), st)
  | ResponseError message =>
      let! failed, st := responses_events [failed_event message] st in
      (Ok (created ++ failed), st)
  end.

End Answers.

(** ** Streams *)

Section Handlers.
Context {R : Type} `{!HttpRuntime R}.
Context (json_text : Json → string) (json_error : Json → option string) (display_f32 : f32 → string) (from_slice : list N → Result string Json).

Implicit Types (s : GrpcRouterService R) (micros : nat → N).

(** The state of the closure a stream calls for each response, and the channel: the
    messages the client got, and how many more it takes, if it leaves. *)
Record GrpcStream (E M : Type) : Type := mkGrpcStream {
  g_encoder : E;
  g_delivered : list (Result Status M);
  g_patience : option nat;
  g_observation : option RequestObservation;
  g_additions : list Update;
  g_observed : nat;
  g_connected : bool;
}.
#[global] Arguments mkGrpcStream {E M}.
#[global] Arguments g_encoder {E M}.
#[global] Arguments g_delivered {E M}.
#[global] Arguments g_patience {E M}.
#[global] Arguments g_observation {E M}.
#[global] Arguments g_additions {E M}.
#[global] Arguments g_observed {E M}.
#[global] Arguments g_connected {E M}.

(** [sender.blocking_send(item).is_ok()] *)
Definition grpc_send {E M} (x : GrpcStream E M) (item : Result Status M) : bool * GrpcStream E M :=
  match g_patience x with
  | Some O => (false, x)
  | p => (true, mkGrpcStream (g_encoder x) (g_delivered x ++ [item]) (pred <$> p) (g_observation x) (g_additions x) (g_observed x) (g_connected x))
  end.

Fixpoint grpc_send_all {E M} (x : GrpcStream E M) (messages : list M) : bool * GrpcStream E M :=
  match messages with
  | [] => (true, x)
  | message :: messages => let '(sent, x) := grpc_send x (Ok message) in if sent then grpc_send_all x messages else (false, x)
  end.

(** The closures of the streaming methods: the response is observed and encoded, its
    messages are sent, or the error of the encoding, which ends the stream. *)
(** [sglang-srt/src/grpc.rs:1666-1687] GrpcRouterService::responses (sink) *)
Definition grpc_sink {E M} (encode : E → RouterGenerateResponse → Result Status (list M) * E) micros (x : GrpcStream E M) (r : RouterGenerateResponse)
    : bool * GrpcStream E M :=
  let '(us, o) := observe_response (g_observation x) (micros (g_observed x)) r in
  let '(messages, e) := encode (g_encoder x) r in
  let x := mkGrpcStream e (g_delivered x) (g_patience x) o (g_additions x ++ us) (S (g_observed x)) (g_connected x) in
  let '(sent, x) := match messages with
                    | Ok messages => grpc_send_all x messages
                    | Err error => (false, (grpc_send x (Err error)).2)
                    end in
  (sent, mkGrpcStream (g_encoder x) (g_delivered x) (g_patience x) (g_observation x) (g_additions x) (g_observed x) (g_connected x && sent)).

Definition grpc_start {E M} s (e : E) (takes : option nat) : GrpcStream E M :=
  let '(started, o) := request_observation s in mkGrpcStream e [] takes o started 0 true.

(** The end of the task: an error is sent, the observation is finished. *)
(** [sglang-srt/src/grpc.rs:1038-1042] GrpcRouterService::text_generate (end) *)
Definition grpc_end {E M} micros (res : Result RouterRuntimeError unit) (x : GrpcStream E M) : GrpcStream E M :=
  let success := is_Ok res && g_connected x in
  let x := match res with Err error => (grpc_send x (Err (router_runtime_error_to_status display_f32 error))).2 | Ok _ => x end in
  let '(ended, o) := finish_observation (g_observation x) (micros (g_observed x)) success in
  mkGrpcStream (g_encoder x) (g_delivered x) (g_patience x) o
    (g_additions x ++ ended ++ drop_optional o (micros (g_observed x))) (g_observed x) (g_connected x).

(** With a poisoned mutex the task says so and leaves, its observation unfinished. *)
(** [sglang-srt/src/grpc.rs:1009-1045] GrpcRouterService::text_generate (stream) *)
Definition grpc_stream {E M} s micros (takes : option nat) (encode : E → RouterGenerateResponse → Result Status (list M) * E) (e : E)
    (run : (GrpcStream E M → RouterGenerateResponse → bool * GrpcStream E M) → GrpcStream E M → R →
           option (Result RouterRuntimeError unit * GrpcStream E M * R))
    : option (Result Status (list (Result Status M)) * GrpcRouterService R) :=
  let x := grpc_start s e takes in
  if grpc_runtime_poisoned s then
    let x := (grpc_send x (Err poisoned_status)).2 in
    Some (start_grpc_stream (g_delivered x), grpc_add_updates s (g_additions x ++ drop_optional (g_observation x) (micros 0%nat)))
  else
    '(res, x, rt) ← run (grpc_sink encode micros) x (grpc_runtime s);
    let x := grpc_end micros res x in
    Some (start_grpc_stream (g_delivered x), grpc_set_runtime (grpc_add_updates s (g_additions x)) rt).

Definition grpc_text_stream {E M} s micros takes (q : RouterTextGenerateRequest) (encode : E → RouterGenerateResponse → Result Status (list M) * E) (e : E) :=
  grpc_stream s micros takes encode e (λ sink x rt, sink_text_polling rt q (grpc_max_transfer_polls s) sink x).

(** An encoder without a state that makes one message of each response. *)
Definition one_message {M} (message : RouterGenerateResponse → Result Status M) (u : unit) (r : RouterGenerateResponse) : Result Status (list M) * unit :=
  (let? m := message r in Ok [m], u).

(** ** Answers that wait *)

(** The call of the runtime under its lock, observed: any error drops the observation,
    which counts as a failure, as finishing it so does. *)
(** [sglang-srt/src/grpc.rs:1047-1068] GrpcRouterService::text_generate (whole) *)
Definition grpc_call {A B} s micros (run : R → option (Result RouterRuntimeError A * R)) (responses : A → list RouterGenerateResponse)
    (answer : A → Result Status B) : option (Result Status B * GrpcRouterService R) :=
  let '(started, o) := request_observation s in
  if grpc_runtime_poisoned s then Some (Err poisoned_status, grpc_add_updates s (started ++ drop_optional o (micros 0%nat)))
  else
    '(res, rt) ← run (grpc_runtime s);
    let rs := match res with Ok a => responses a | Err _ => [] end in
    let '(seen, o) := observe_optional_responses o (timed micros rs) in
    let res := match res with Ok a => answer a | Err error => Err (router_runtime_error_to_status display_f32 error) end in
    let '(ended, o) := if is_Ok res then finish_observation o (micros (length rs)) true else ([], o) in
    Some (res, grpc_set_runtime (grpc_add_updates s (started ++ seen ++ ended ++ drop_optional o (micros (length rs)))) rt).

(** The whole answer as a stream. *)
Definition whole {M} (messages : list M) : list (Result Status M) := Ok <$> messages.

(** ** Generation *)

Definition proto_messages (rs : list RouterGenerateResponse) : Result Status (list (Result Status ProtoGenerateResponse)) :=
  Ok (whole (router_generate_response_to_proto_response <$> rs)).

(** [sglang-srt/src/grpc.rs:1004-1069] GrpcRouterService::text_generate *)
Definition grpc_text_generate s micros takes (request : ProtoTextGenerateRequest)
    : option (Result Status (list (Result Status ProtoGenerateResponse)) * GrpcRouterService R) :=
  match proto_text_generate_request_to_router_request request with
  | Err error => Some (Err error, s)
  | Ok q =>
      if t_stream q then grpc_text_stream s micros takes q (one_message (λ r, Ok (router_generate_response_to_proto_response r))) ()
      else grpc_call s micros (λ rt, run_text_polling rt q (grpc_max_transfer_polls s)) id proto_messages
  end.

(** [sglang-srt/src/grpc.rs:1071-1136] GrpcRouterService::generate *)
Definition grpc_generate s micros takes (request : ProtoGenerateRequest)
    : option (Result Status (list (Result Status ProtoGenerateResponse)) * GrpcRouterService R) :=
  match proto_generate_request_to_router_request request with
  | Err error => Some (Err error, s)
  | Ok q =>
      if g_stream q then
        grpc_stream s micros takes (one_message (λ r, Ok (router_generate_response_to_proto_response r))) ()
          (λ sink x rt, sink_tokens_polling rt q (grpc_max_transfer_polls s) sink x)
      else grpc_call s micros (λ rt, run_tokens_polling rt q (grpc_max_transfer_polls s)) id proto_messages
  end.

(** ** The methods in the formats of OpenAI *)

Definition invalid_payload (what error : string) : Status := invalid_argument ("invalid " +:+ what +:+ ": " +:+ error).

(** The options of the message are laid over each request of the payload. *)
Definition with_options (options : RequestOptions) (request : OneOrBatch RouterTextGenerateRequest) : OneOrBatch RouterTextGenerateRequest :=
  match request with
  | OneRequest q => OneRequest (apply_openai_json_options_to_router_request options q)
  | BatchRequests qs => BatchRequests (apply_openai_json_options_to_router_request options <$> qs)
  end.

(** The part of [chat_complete] and [complete] after the request is built. *)
(** [sglang-srt/src/grpc.rs:1410-1503] GrpcRouterService::chat_complete (request) *)
Definition answer_grpc_request s micros takes (batched : string) (message : RouterGenerateResponse → Result Status (list N))
    (single : list RouterGenerateResponse → Result Status (list N)) (batch : list (list RouterGenerateResponse) → Result Status (list N))
    (request : OneOrBatch RouterTextGenerateRequest) : option (Result Status (list (Result Status (list N))) * GrpcRouterService R) :=
  let only (m : Result Status (list N)) := let? m := m in Ok [Ok m] in
  if completion_stream_flag request then
    match request with
    | OneRequest q => grpc_text_stream s micros takes q (one_message message) ()
    | BatchRequests _ => Some (Err (invalid_argument batched), s)
    end
  else
    match request with
    | OneRequest q => grpc_call s micros (λ rt, run_text_polling rt q (grpc_max_transfer_polls s)) id (λ rs, only (single rs))
    | BatchRequests qs =>
        grpc_call s micros (λ rt, run_text_batch_polling rt qs (grpc_max_transfer_polls s)) (@List.concat RouterGenerateResponse) (λ b, only (batch b))
    end.

(** [sglang-srt/src/grpc.rs:1381-1504] GrpcRouterService::chat_complete *)
Definition grpc_chat_complete s micros takes (request : OpenAiJsonRequest) : option (Result Status (list (Result Status (list N))) * GrpcRouterService R) :=
  let options := default RequestOptions_default (json_options request) in
  match from_slice (json_bytes request) with
  | Err error => Some (Err (invalid_payload "OpenAI JSON payload" error), s)
  | Ok payload =>
      match model_info_status s with
      | Err error => Some (Err error, s)
      | Ok info =>
          let model := served_model_name info in
          match chat_template_input_from_payload payload with
          | Err message => Some (Err (invalid_argument message), s)
          | Ok input =>
              if grpc_runtime_poisoned s then Some (Err poisoned_status, s)
              else
                match run_chat_template (grpc_runtime s) input with
                | Err error => Some (Err (invalid_argument (TokenizerError_to_string error)), s)
                | Ok prompt =>
                    match http_chat_payload_to_router_request payload model prompt with
                    | Err message => Some (Err (invalid_argument message), s)
                    | Ok request =>
                        answer_grpc_request s micros takes "streaming batched chat completions are not supported yet"
                          (λ r, openai_chat_stream_response_from_router_response json_text json_error r model)
                          (λ rs, openai_chat_response_from_router_responses json_text json_error rs model)
                          (λ b, openai_chat_batch_response_from_router_responses json_text json_error b model) (with_options options request)
                    end
                end
          end
      end
  end.

(** [sglang-srt/src/grpc.rs:1506-1622] GrpcRouterService::complete *)
Definition grpc_complete s micros takes (request : OpenAiJsonRequest) : option (Result Status (list (Result Status (list N))) * GrpcRouterService R) :=
  let options := default RequestOptions_default (json_options request) in
  match from_slice (json_bytes request) with
  | Err error => Some (Err (invalid_payload "OpenAI JSON payload" error), s)
  | Ok payload =>
      match model_info_status s with
      | Err error => Some (Err error, s)
      | Ok info =>
          let model := served_model_name info in
          match http_completion_payload_to_router_request payload model with
          | Err message => Some (Err (invalid_argument message), s)
          | Ok request =>
              answer_grpc_request s micros takes "streaming batched completions are not supported yet"
                (λ r, openai_completion_stream_response_from_router_response json_text json_error r model)
                (λ rs, openai_completion_response_from_router_responses json_text json_error rs model)
                (λ b, openai_completion_batch_response_from_router_responses json_text json_error b model) (with_options options request)
          end
      end
  end.

(** [sglang-srt/src/grpc.rs:1624-1702] GrpcRouterService::responses *)
Definition grpc_responses s micros takes (clock : Z → N) (request : OpenAiJsonRequest)
    : option (Result Status (list (Result Status (list N))) * GrpcRouterService R) :=
  let options := default RequestOptions_default (json_options request) in
  match from_slice (json_bytes request) with
  | Err error => Some (Err (invalid_payload "OpenAI JSON payload" error), s)
  | Ok payload =>
      match model_info_status s with
      | Err error => Some (Err error, s)
      | Ok info =>
          match http_responses_payload_to_router_request payload (served_model_name info) with
          | Err message => Some (Err (invalid_argument message), s)
          | Ok q =>
              let request := apply_openai_json_options_to_router_request options (responses_request q) in
              if t_stream request then
                grpc_text_stream s micros takes request
                  (openai_responses_stream_from_router_response json_text json_error clock (responses_model q)) GrpcResponsesStreamState_default
              else
                grpc_call s micros (λ rt, run_text_polling rt request (grpc_max_transfer_polls s)) id
                  (λ rs, let? m := openai_responses_response_from_router_responses json_text json_error (clock 0%Z) rs (responses_model q) in Ok [Ok m])
          end
      end
  end.

(** ** Answers from token ids *)

Definition DEFAULT_PROTO_EMBEDDING_DIMENSIONS : N := 8.
Definition DEFAULT_PROTO_CLASS_COUNT : N := 3.

Definition empty_input_status : Status := invalid_argument "input cannot be empty".

(** [sglang-srt/src/grpc.rs:969-976] proto_usage *)
Definition proto_usage (prompt_tokens : N) : Result Status Usage :=
  let? prompt_tokens := usize_to_i32 prompt_tokens in Ok (mkUsage prompt_tokens 0 prompt_tokens).

(** One answer for each batch, in order; an empty one is refused. *)
Definition per_batch {A} (answer : list N → N → A) (token_batches : list (list N)) : Result Status (list A) :=
  try_indexed (λ index ids,
    match ids with
    | [] => Err (invalid_argument "token ID input cannot be empty")
    | _ => let? i := usize_to_u32 index in Ok (answer ids i)
    end) 0 token_batches.

(** [sglang-srt/src/grpc.rs:847-876] proto_embed_response_from_batches *)
Definition proto_embed_response_from_batches (token_batches : list (list N)) : Result Status EmbedResponse :=
  match token_batches with
  | [] => Err empty_input_status
  | _ =>
      let? embeddings := per_batch (λ ids i, mkEmbedding (token_ids_to_embedding ids DEFAULT_PROTO_EMBEDDING_DIMENSIONS) i) token_batches in
      let? usage := proto_usage (total_tokens token_batches) in
      Ok (mkEmbedResponse embeddings (Some usage))
  end.

(** [sglang-srt/src/grpc.rs:878-895] proto_tokenized_inputs_to_batches *)
Definition proto_tokenized_inputs_to_batches (inputs : list TokenizedInput) : Result Status (list (list N)) :=
  match inputs with
  | [] => Err empty_input_status
  | _ =>
      try_indexed (λ index input,
        match tokenized_ids input with
        | [] => Err (invalid_argument ("token ID input at index " +:+ pretty index +:+ " cannot be empty"))
        | ids => Ok ids
        end) 0 inputs
  end.

(** [sglang-srt/src/grpc.rs:942-961] normalize_classification_labels *)
Definition normalize_classification_labels (labels : list string) : Result Status (list string) :=
  match labels with
  | [] => Ok ((λ index, "LABEL_" +:+ pretty index) <$> nrange 0 DEFAULT_PROTO_CLASS_COUNT)
  | _ =>
      try_indexed (λ index label,
        if is_blank label then Err (invalid_argument ("classification label at index " +:+ pretty index +:+ " cannot be empty")) else Ok label)
        0 labels
  end.

(** The label is found, as there are as many probabilities as labels. *)
(** [sglang-srt/src/grpc.rs:897-940] proto_classify_response_from_batches *)
Definition proto_classify_response_from_batches (exp : f32 → f32) (token_batches : list (list N)) (labels : list string) : Result Status ClassifyResponse :=
  match token_batches with
  | [] => Err empty_input_status
  | _ =>
      let? labels := normalize_classification_labels labels in
      let? classifications := per_batch (λ ids i,
        let '(label_index, score) := predicted (softmax_f32 exp (token_ids_to_embedding ids (len labels))) in
        mkClassification (nth (N.to_nat label_index) labels "") score i) token_batches in
      let? usage := proto_usage (total_tokens token_batches) in
      Ok (mkClassifyResponse classifications (Some usage))
  end.

(** [sglang-srt/src/grpc.rs:1147-1155] GrpcRouterService::text_embed (find) *)
Definition check_embed_texts (texts : list string) : Result Status (list unit) :=
  try_indexed (λ index text,
    if is_blank text then Err (invalid_argument ("input text at index " +:+ pretty index +:+ " cannot be empty or whitespace only")) else Ok ()) 0 texts.

(** [sglang-srt/src/grpc.rs:1138-1174] GrpcRouterService::text_embed *)
Definition grpc_text_embed s (texts : list string) : Result Status EmbedResponse :=
  match texts with
  | [] => Err empty_input_status
  | _ =>
      let? _ := check_embed_texts texts in
      if grpc_runtime_poisoned s then Err poisoned_status else proto_embed_response_from_batches (run_tokenize (grpc_runtime s) <$> texts)
  end.

(** [sglang-srt/src/grpc.rs:1176-1185] GrpcRouterService::embed *)
Definition grpc_embed (inputs : list TokenizedInput) : Result Status EmbedResponse :=
  let? batches := proto_tokenized_inputs_to_batches inputs in proto_embed_response_from_batches batches.

(** [sglang-srt/src/grpc.rs:1187-1197] GrpcRouterService::classify *)
Definition grpc_classify (exp : f32 → f32) (inputs : list TokenizedInput) (labels : list string) : Result Status ClassifyResponse :=
  let? batches := proto_tokenized_inputs_to_batches inputs in proto_classify_response_from_batches exp batches labels.

(** ** Control *)

(** A look at the runtime under its lock. *)
Definition looking {A} s (f : R → Result Status A) : Result Status A := if grpc_runtime_poisoned s then Err poisoned_status else f (grpc_runtime s).

(** [sglang-srt/src/grpc.rs:1199-1214] GrpcRouterService::tokenize *)
Definition grpc_tokenize s (text : string) : Result Status TokenizeResponse :=
  looking s (λ rt, let ids := run_tokenize rt text in let? count := usize_to_u32 (len ids) in Ok (mkTokenizeResponse ids count)).

(** [sglang-srt/src/grpc.rs:1216-1231] GrpcRouterService::detokenize *)
Definition grpc_detokenize s (token_ids : list N) : Result Status string :=
  looking s (λ rt, match run_detokenize rt token_ids with
                   | Ok text => Ok text
                   | Err error => Err (invalid_argument (TokenizerError_to_string error))
                   end).

(** [sglang-srt/src/grpc.rs:1233-1241] GrpcRouterService::health_check *)
Definition grpc_health_check : bool * string := (true, "ready"%string).

(** [sglang-srt/src/grpc.rs:1243-1250] GrpcRouterService::get_model_info *)
Definition grpc_get_model_info s : Result Status ModelInfoResponse :=
  let? info := model_info_status s in Ok (router_model_info_to_proto_response info).

(** The version is the one of Cargo.toml. *)
(** [sglang-srt/src/grpc.rs:1252-1261] GrpcRouterService::get_server_info *)
Definition grpc_get_server_info s : ServerInfoResponse := mkServerInfoResponse "0.1.0" "sglang-rs" (server_info_attributes s).

(** [sglang-srt/src/grpc.rs:1263-1270] GrpcRouterService::list_models *)
Definition grpc_list_models s : Result Status (list ModelInfoResponse) :=
  let? info := model_info_status s in Ok [router_model_info_to_proto_response info].

(** [sglang-srt/src/grpc.rs:1272-1290] GrpcRouterService::get_load *)
Definition grpc_get_load s : Result Status LoadResponse :=
  looking s (λ rt,
    let load := run_load rt in
    let? waiting := usize_to_u32 (load_waiting_queue_depth load) in
    let? decode := usize_to_u32 (load_decode_queue_depth load) in
    let? pages := transpose usize_to_u32 (load_available_cache_pages load) in
    Ok (mkLoadResponse waiting decode pages)).

(** A call that changes the runtime, under its lock. *)
Definition changing {A} s (f : R → option (Result Status A * R)) : option (Result Status A * GrpcRouterService R) :=
  if grpc_runtime_poisoned s then Some (Err poisoned_status, s)
  else '(res, rt) ← f (grpc_runtime s); Some (res, grpc_set_runtime s rt).

(** [sglang-srt/src/grpc.rs:1292-1310] GrpcRouterService::poll_transfers *)
Definition grpc_poll_transfers s : option (Result Status PollTransfersResponse * GrpcRouterService R) :=
  changing s (λ rt,
    '(res, rt) ← run_poll_transfers rt;
    Some (match res with
          | Err error => Err (router_runtime_error_to_status display_f32 error)
          | Ok polled =>
              let? completed := usize_to_u32 (poll_completed_batches polled) in
              let? pending := usize_to_u32 (poll_pending_batches polled) in
              Ok (mkPollTransfersResponse completed pending (poll_completed_checksums polled) (poll_pending_checksums polled))
          end, rt)).

Definition control_response (c : RouterControlResponse) : ControlResponse := mkControlResponse (success c) (message c).

(** [sglang-srt/src/grpc.rs:1312-1334] GrpcRouterService::abort *)
Definition grpc_abort s (request : AbortRequest) : option (Result Status ControlResponse * GrpcRouterService R) :=
  changing s (λ rt,
    if abort_all request then '(c, rt) ← run_abort_all rt; Some (Ok (control_response c), rt)
    else
      '(res, rt) ← run_abort rt (abort_request_id request);
      Some (match res with Ok c => Ok (control_response c) | Err error => Err (router_protocol_error_to_status display_f32 error) end, rt)).

Definition control s (f : R → RouterControlResponse * R) : option (Result Status ControlResponse * GrpcRouterService R) :=
  changing s (λ rt, let '(c, rt) := f rt in Some (Ok (control_response c), rt)).

(** [sglang-srt/src/grpc.rs:1336-1349] GrpcRouterService::flush_cache *)
Definition grpc_flush_cache s := control s run_flush_cache.

(** [sglang-srt/src/grpc.rs:1351-1364] GrpcRouterService::pause_generation *)
Definition grpc_pause_generation s := control s run_pause.

(** [sglang-srt/src/grpc.rs:1366-1379] GrpcRouterService::continue_generation *)
Definition grpc_continue_generation s := control s run_continue.

(** What the unary methods in the formats of OpenAI share; [invalid] and [what] name the
    payload and the answer in their errors. *)
(** [sglang-srt/src/grpc.rs:1708-1723] GrpcRouterService::open_ai_embed (shared) *)
Definition grpc_answer_with {Q} s (invalid what : string) (parse : Json → string → Result string Q) (request : OpenAiJsonRequest) (answer : R → Q → Json)
    : Result Status (list N) :=
  let? info := model_info_status s in
  match from_slice (json_bytes request) with
  | Err error => Err (invalid_payload invalid error)
  | Ok payload =>
      match parse payload (served_model_name info) with
      | Err message => Err (invalid_argument message)
      | Ok q => looking s (λ rt, to_message json_text json_error what (answer rt q))
      end
  end.

(** [sglang-srt/src/grpc.rs:1704-1724] GrpcRouterService::open_ai_embed *)
Definition grpc_open_ai_embed s request :=
  grpc_answer_with s "embeddings JSON" "embeddings" parse_embedding_request request embeddings_response_json.

(** [sglang-srt/src/grpc.rs:1726-1745] GrpcRouterService::open_ai_classify *)
Definition grpc_open_ai_classify (exp : f32 → f32) (micros secs : N) s request :=
  grpc_answer_with s "classify JSON" "classify" parse_classify_request request (classify_response_json exp micros secs).

(** [sglang-srt/src/grpc.rs:1747-1766] GrpcRouterService::score *)
Definition grpc_score (exp : f64 → f64) s request :=
  grpc_answer_with s "score JSON" "score" parse_score_request request (score_response_json exp).

(** [sglang-srt/src/grpc.rs:1768-1790] GrpcRouterService::rerank *)
Definition grpc_rerank s request :=
  grpc_answer_with s "rerank JSON" "rerank" parse_rerank_request request
    (λ rt q, rerank_results_to_json q (truncate_rerank_results q (score_rerank_documents rt q))).

(** [sglang-srt/src/grpc.rs:1865-1896] GrpcRouterService::update_weight_version *)
Definition grpc_update_weight_version s (request : UpdateWeightVersionRequest) : option (Result Status ControlResponse * GrpcRouterService R) :=
  let version := trim (new_version request) in
  if (version =? "")%string then Some (Err (invalid_argument "new_version is required and must be a non-empty string"), s)
  else
    '(aborted, s) ← (if default true (abort_all_requests request)
                     then changing s (λ rt, '(_, rt) ← run_abort_all rt; Some (Ok (), rt)) else Some (Ok (), s));
    Some (match aborted with
          | Err error => (Err error, s)
          | Ok _ =>
              match model_info_status s with
              | Err error => (Err error, s)
              | Ok info => (Ok (mkControlResponse true ("Weight version updated to " +:+ version)), grpc_set_model_info s (set_weight_version info version))
              end
          end).

(** [served] is how serving ended; the runtime is shut down in any case. *)
(** [sglang-srt/src/grpc.rs:271-312] serve_grpc_router_with_shutdown *)
Definition serve_grpc_end {E} s (served : Result E unit) (shutdown_error : string → E) : option (Result E unit * GrpcRouterService R) :=
  '(ended, s) ← (if grpc_runtime_poisoned s then Some (Err (shutdown_error "runtime mutex poisoned"%string), s)
                 else '(res, rt) ← run_shutdown (grpc_runtime s);
                      Some (match res with
                            | Ok _ => Ok ()
                            | Err error => Err (shutdown_error (RouterRuntimeError_to_string display_f32 error))
                            end, grpc_set_runtime s rt));
  Some (let? _ := served in ended, s).

End Handlers.
